(* ===== verification/_CoqProject ===== *)
-Q . S2P
Prelude.v
Brackets.v
Store.v
DrawService.v
NumberingService.v
NumberingPlan.v
Points.v
Ranking.v
Ledger.v
Poomsae.v
Discounts.v
Payments.v
PaymentSpec.v
Settlement.v
GroupPayments.v
GroupRegistration.v
Text.v
Dates.v
Approvals.v
SelfRegistration.v
ScheduleService.v
PublicIds.v
Seminars.v
Accounts.v
SmsCodes.v
Login.v
CoachClubs.v
Membership.v
ApprovalPaths.v
Eligibility.v
Cards.v
Catalogue.v
Reports.v
Applications.v
ApplicationPaths.v
Roles.v
Dashboards.v
AdminPages.v
DrawPage.v
AdminLists.v
Details.v
Routes.v
Query.v
BankReturn.v
Moderation.v
MainSite.v
AdminForms.v
ReportPages.v
Prefill.v
Access.v
Setup.v
Schema.v
MigrationsAccounts.v
MigrationsCompetitions.v
MigrationsRest.v
Models.v
SchemaPaths.v
BankAdapters.v
SmsTransport.v
ReportColumns.v
JalaliForms.v
CompetitionForms.v
PoomsaeSerializer.v
AccountForms.v
