(* ===== verification/Prelude.v ===== *)
(** * The Taekwondo board back end: tournament and payment core

    The program is a Django application for a provincial Taekwondo board. Coaches and
    players register for competitions and pay; the secretary draws the brackets of
    every weight, numbers the matches on the mats and enters the results; payments
    and results give ranking points to players, coaches, clubs and boards. This
    library models that core as executable definitions over one database state and
    proves what makes it correct. Where the code falls short, a theorem or an
    example says exactly how.

    ** How the model is built

    - State. [Store.DB] is the database of the competition and payment core: one finite map per table from primary keys to
      rows, with one record per model class ([src/competitions/models.py],
      [src/payments/models.py], [src/accounts/models.py]) restricted to the columns the
      modelled code uses, plus the queue of [transaction.on_commit] callbacks and one
      counter for fresh keys. Tables read in insertion order are lists.
    - Effects. A handler is a computation [M DB A]: it takes the database and gives an
      answer or an exception ([exn]) and the database left behind. [atomic] is
      [transaction.atomic] (an exception undoes the writes of the block), [try_catch] is
      [try .. except], [Payments.in_transaction] is an outermost transaction, after which the
      queued callbacks run.
    - Values. Integers are [Z] with the bounds of MySQL's unsigned columns written out
      ([pos_int_ok]); text is UTF-8 in [string], with [str.lower] and [str.strip] on ASCII
      characters, and the widths of text columns are only enforced where a handler creates an
      intent; dates are day numbers and times are seconds; weights are
      binary64 numbers ([SpecFloat]). Ranking points are an interface ([Points.PointArith]) with
      an exact instance in hundredths and the binary64 instance the program runs.
    - What is outside the source is an argument: the generator behind
      [random.Random], the case-insensitive comparison of the database ([iexact]) and its collation
      ([collate] in the files on accounts), the bank gateway's
      records and replies, the clock, generated tokens and public ids, the settings.

    ** Files

    - [Prelude]: exceptions, the state monad, Python values, stable sorting, [while]
      with fuel, what a computation [guarantees], shared lemmas and tactics.
    - [Brackets]: table size, bye slots, first-round cost and the random search of
      [competitions/services/draw_service.py]. The only fuel is that of [while]: the
      doubling loop of [_next_pow2] gets as many rounds as its argument and the fallback of
      [_bye_slots] one more than the table has slots; [table_size_fits] and
      [bye_slots_partition] prove both end in time.
    - [Store]: the tables of the competition and payment core, their setters and the lemmas
      on rows in key order.
    - [DrawService]: [create_draw_for_group], the history of first-round pairs with its
      yearly cleanup ([management/commands/cleanup_pair_history.py]) and the admin action that draws.
    - [NumberingService] and [NumberingPlan]: [competitions/services/numbering_service.py] and the
      publication view of [competitions/admin.py]; the second file describes the two phases as
      one list of visits and proves the numbering theorems from it. [ScheduleService] is the
      older numbering of [services/schedule_service.py].
    - [Points], [Ranking], [Ledger]: awards after payment, [KyorugiResult.save] with its ledger of
      transactions, [results_service.py], [signals.py] and the results page of the admin;
      [Ledger] keeps the books: accounts, postings, and what is on record.
    - [Poomsae]: validation and saving of poomsae entries.
    - [Discounts]: percentage codes ([payments/discounts.py]) and the fixed-amount codes of
      [apps/discounts] in both implementations.
    - [Payments]: the payment intent, its settlement, group payments and the handlers of
      [payments/views.py]. [PaymentSpec] is the abstract machine of a payment: intents are opened
      and settled once. [Settlement] proves that the handlers implement it and how intents,
      codes and entries evolve, [GroupPayments] how a group payment is split and registered.
    - [GroupRegistration]: [CoachRegisterStudentsView] of [competitions/views.py], from the
      screening of the students to the group payment and its intent.
    - [Text] and [Dates]: numbers in text, dates, and the five parsers of dates in the views,
      the serializers and the date widget.
    - [Approvals]: the approvals of coaches for competitions, with their codes.
      [SelfRegistration]: the two views where players register themselves. [PublicIds]: the
      save loops that give unique public ids. [Seminars]: seminars and their registrations.
    - [Accounts]: logins, profiles, clubs, applications and codes ([src/accounts/models.py]),
      and the functions that normalise numbers. [SmsCodes]: verification codes and the
      forgotten password. [Login]: the logins with their role groups. [CoachClubs]: the
      requests between clubs and coaches. [Membership]: the approval of users, clubs and
      edited profiles by the views and by the admin actions, in a transaction that stays
      marked for rollback when an exception is caught inside it; [ApprovalPaths] compares
      these ways. [Applications]: the forms with which players, coaches and clubs register
      and members ask for an edit, with the checks of their serializers; [ApplicationPaths]
      follows what is stored to its approval. [Dashboards]: the lists of students, coaches,
      referees and clubs, and the dashboards.
    - [Eligibility]: the belts, genders and ages a competition admits, the lists of students a
      coach may register and the flag on the page of a player. [Cards]: who may see the card of
      an entry and what it says. [Catalogue]: dashboards, open competitions, published brackets,
      results and seminars, all read from the tables. [Reports]: [reports/services.py], its
      searches for columns resolved for the models of this repository, and the dates of its
      forms.

    - [AdminPages], [DrawPage], [AdminLists] and [AdminForms]: the pages of [competitions/admin.py]: results,
      numbering, participants, the draw with its settings, approvals of coaches, seminars, poomsae forms, the
      model admin of results, the mats of poomsae competitions, names of uploads, and the history of edits.
    - [Details] and [Prefill]: the pages of single competitions and the prefilled form of the registration.
      [Routes]: the tables of urls, their resolution and their reverse. [BankReturn]: what the bank calls back and
      where the browser goes. [Moderation]: messages to applicants, rejections, the comparison of edits, and the
      form of boards. [MainSite]: news, circulars and what boards submit ([src/main]). [ReportPages]: the page of
      the users report and the CSV files.
    - [Query]: query strings. [Roles]: role groups and role flags through approvals. [Access]: permission
      classes, middlewares and the path of a request to its view; the order in which gateway settings
      override each other. [Setup]: the scripts that create the logins of counties and of the administrator.
    - [Schema]: tables, columns and operations on them; [MigrationsAccounts], [MigrationsCompetitions] and
      [MigrationsRest] are the migrations of every application as lists of operations, [Models] the declarations
      of all models, [SchemaPaths] compares the two and follows a deletion through the foreign keys.
    - [BankAdapters]: signed requests to the bank, keys of the gateways, and the gateways of the project.
      [SmsTransport]: the helper that sends a code. [ReportColumns]: the searches of the reports for columns
      and classes run on [Models].
    - [JalaliForms]: texts of dates, date widgets and filters, birth dates in forms, and the command that
      converts competitions with Jalali numbers. [CompetitionForms]: inlines, choices and fields of the
      competition forms and the page of attendees. [PoomsaeSerializer]: a serializer no view uses.
      [AccountForms]: names of uploads, cleaning of requests, deletion of rows and lists of approved users.

    The components meet in the database and in calls: group registration prices with
    [Discounts], creates the intent of [Payments] and leaves the group payment the callback
    finalises; finalising marks entries paid through [Ranking.mark_paid], which awards
    points; [DrawService] seats the paid entries, [NumberingService] numbers its matches, and
    [Ranking.save_result] posts the medals. [Accounts] has a database state of its own, since
    its handlers read other columns of the profiles and clubs; approving an application there
    makes the profiles and clubs the other components start from.

    ** What is proved

    - Draws ([DrawService], [Brackets]): every eligible player is seated once, byes are exact,
      of the earlier draws exactly the unlocked ones of the same group go with their matches, the history records exactly the first-round pairs; table size
      and bye slots are right, no match is empty up to 64 players, and the search returns
      the cheapest order it tried. [small_override_drops_players] and
      [fallback_leaves_empty_match] show where a draw leaves players out or a match empty.
    - Numbering ([NumberingPlan], [NumberingService]): the matches fought on a mat have consecutive
      numbers, exactly the matches that are played are numbered, finals last, acceptance and the
      stored date of publication;
      [moved_weight_duplicates_numbers] shows the duplicates after a weight changes its mat.
    - Ranking ([Ledger]): through every sequence of payments and results a total is its base
      after the journal of what was credited and taken back, in any arithmetic of points, the
      binary64 one included; in exact arithmetic the books balance ([exact_books_balance]); saving is idempotent, a correction counts once, validation and awards;
      [results_page_records_nothing] and [doubles_drift_on_correction] show that the results
      page never records anything and that binary64 totals drift.
    - Codes and entries ([Discounts], [Poomsae]): prices, the agreement of the two
      implementations, uniqueness of poomsae entries.
    - Payments ([Settlement], [GroupPayments]): the handlers refine the abstract machine, a code
      is counted once per paid intent and a paid intent is final through every sequence of
      requests, except for the two handlers of [late_dispatch_demotes] and
      [failed_callback_demotes]; settling each kind of entry, and what happens when a poomsae entry refuses
      its payment; splitting and group payments, return addresses and new intents.
    - Registration ([GroupRegistration], [SelfRegistration], [Seminars], [Approvals]): only
      students who meet the rules, the payment that is asked for, the rules of poomsae
      self-registration and that kyorugi self-registration never succeeds; seminars once per
      user; approvals distinct, their codes final and found within 25 draws.
    - Text and dates ([Dates], [PublicIds]): ISO text reads back, the parsers agree, day
      numbers order dates; public ids are unique and the loops end.
    - Accounts ([SmsCodes], [Login], [CoachClubs], [Membership], [ApprovalPaths]): one live code
      per phone, each used once, and passwords reset only with one, although
      [wrong_code_lifts_limit]; who can log in with which role; the life of a request between
      club and coach and what changes the clubs of a coach; unique logins, profiles and clubs
      through every sequence of requests; what an approval makes of an application, when the
      two ways to approve agree, and that a refused club undoes its whole selection.
    - Forms ([Applications], [ApplicationPaths]): a registration is refused, stored whole or ends
      in an error that stores nothing, and which forms give these errors
      ([unreadable_forms_crash], [digit_club_crashes]); applications stay distinct through all requests, a stored one is approved by the view;
      [refused_edit_is_stored] shows that the edit of a profile with itself as coach is stored.
    - Lists ([Dashboards]): they stay inside the club, board or students of the user, the list
      of a board is that of its club, figures agree everywhere; [coach_dashboard_counts_self],
      [referees_of_a_club_fail] and [player_lists_agree] show where a count, a filter and the
      state of a competition are wrong.
    - What is shown ([Eligibility], [Cards], [Catalogue], [Reports]): listed students pass the
      tests of the group registration, except for referees, who are listed and always refused,
      and for competitions whose belt groups name no belt; the page of a player agrees with the list of the
      coach except for the white belts of [white_belts_disagree]; cards are shown only when
      ready and to the people of the entry, alike in both views unless [same_id_hides_card];
      a player sees exactly the competitions the coach is approved for; only numbered brackets
      are shown, and numbering shows all; the figures and lists of the reports fit together.

    - Admin ([AdminPages], [DrawPage], [AdminLists], [AdminForms]): the numbering page numbers, clears or
      only shows; deleted participants keep their points; a draw started with the automatic settings seats
      the group; a result entered in the model admin has paid entries of its weight and posts exactly its
      medals; the mats of a poomsae competition stay distinct and in bounds, although [marked_row_stays] and
      [mat_zero_is_accepted] show what the formset and [clean] let pass.
    - Pages ([Details], [Prefill], [Routes], [BankReturn]): states of registration agree, the explanation of the
      eligibility explains it, form and page lock the same columns; urls made from names resolve to
      their routes except for the listed ones that an earlier route takes; a callback of the bank always ends on
      the page of its result with the intent settled, or with an error when a poomsae entry refuses
      ([refused_poomsae_payment]).
    - Moderation, news and files ([Moderation], [MainSite], [ReportPages]): the comparison of an edit shows what
      its approval does, but for an image that it shows as removed and the approval keeps; a rejection frees the numbers of the application; boards publish nothing themselves and
      their news reach readers with every image twice; the CSV files read back,
      that of the users with one row for each role.
    - Requests ([Access], [Roles], [Setup]): nothing is changed without a user, the gate of coaches finds a
      coach behind it, role groups and flags stay together through approvals, the scripts can be repeated.
    - Schema ([SchemaPaths], [ReportColumns]): the migrations end in the declared models, payments survive
      deletions, emptied keys keep the checks of their rows, and the searches of the reports find the columns [Reports] is written for.
    - Gateways ([BankAdapters]): a signature fits one payment only, and the bridge settles what it verifies.
    - Dates and forms ([JalaliForms], [CompetitionForms], [AccountForms], [PoomsaeSerializer]): a form shown and
      sent back keeps its dates, although [unreadable_birth_date_lost] shows what happens to a birth date that
      cannot be read; the conversion of dates ends after one run; the mats of a kyorugi competition after its
      page is saved, those included that were to be deleted and had errors; rows in use are not deleted; the unused serializer never registers anybody.

    ** What is not modelled

    Serializers and views that only format rows (photos and Jalali dates of cards, paging, templates,
    [KyorugiBracketSerializer] and [MyEnrollmentStatusSerializer], which no view uses), the parsing of requests by
    the REST framework and the storage of uploaded files, the configuration of admin lists, settings, log
    output, and the authentication packages. How the framework applies migrations and deletes rows is its documented
    behaviour, written out in [Schema] and [SchemaPaths]; the cipher of the bank and the Jalali calendar are
    arguments. Concurrency is interleaving of whole transactions: the steps of
    [Settlement.payment_step] are single requests, and [failed_callback_demotes] separates the
    two transactions of one request. Rows locked by [select_for_update] are not represented,
    since a transaction is one step. *)

From stdpp Require Export base list list_numbers gmap strings sorting.
From Stdlib Require Export ZArith Lia.

Set Default Goal Selector "!".

Declare Scope py_scope.
Delimit Scope py_scope with py.
#[export] Set Warnings "-notation-overridden".

(** ** Exceptions and the transactional state monad *)

(** The Python exceptions the modelled code raises or lets through. *)
Inductive exn :=
  | ValueError
  | ValidationError
  | IntegrityError
  | DataError
  | NumberingError
  | DoesNotExist
  | AttributeError
  | KeyError
  | IndexError
  | MultipleObjectsReturned
  | TransactionManagementError
  | StopIteration
  | Http404
  | GatewayError
  | OtherError.

#[export] Instance exn_eq_dec : EqDecision exn.
Proof. solve_decision. Defined.

Inductive result (A : Type) :=
  | Ok (a : A)
  | Err (e : exn).
Arguments Ok {A} a.
Arguments Err {A} e.

#[export] Instance result_eq_dec {A} `{EqDecision A} : EqDecision (result A).
Proof. solve_decision. Defined.

(** A handler reads and writes the database state [S]; an exception keeps the
    writes made so far unless an [atomic] block around it undoes them. *)
Definition M (S A : Type) : Type := S → result A * S.

Definition ret {S A} (a : A) : M S A := λ s, (Ok a, s).
Definition raise {S A} (e : exn) : M S A := λ s, (Err e, s).
Definition bind {S A B} (m : M S A) (k : A → M S B) : M S B := λ s,
  match m s with
  | (Ok a, s') => k a s'
  | (Err e, s') => (Err e, s')
  end.
Definition get {S} : M S S := λ s, (Ok s, s).
Definition put {S} (s' : S) : M S unit := λ _, (Ok tt, s').
Definition modify {S} (f : S → S) : M S unit := λ s, (Ok tt, f s).
Definition gets {S A} (f : S → A) : M S A := λ s, (Ok (f s), s).

(** [transaction.atomic]: an exception leaving the block undoes its writes. *)
Definition atomic {S A} (m : M S A) : M S A := λ s,
  match m s with
  | (Ok a, s') => (Ok a, s')
  | (Err e, _) => (Err e, s)
  end.

(** [try: m except: h]: the handler starts from the state [m] left behind. *)
Definition try_catch {S A} (m : M S A) (h : exn → M S A) : M S A := λ s,
  match m s with
  | (Ok a, s') => (Ok a, s')
  | (Err e, s') => h e s'
  end.

Declare Scope monad_scope.
Delimit Scope monad_scope with monad.
Notation "x <~ m ;; k" := (bind m (λ x, k%monad))
  (at level 100, m at next level, right associativity) : monad_scope.
Notation "m ;;; k" := (bind m (λ _, k%monad))
  (at level 100, right associativity) : monad_scope.
Notation "'raise_if' b e ;; k" := (if (b : bool) then raise e else k%monad)
  (at level 100, b at level 9, e at level 9, right associativity) : monad_scope.

Fixpoint forM {S A} (l : list A) (f : A → M S unit) : M S unit :=
  match l with
  | [] => ret tt
  | x :: l' => bind (f x) (λ _, forM l' f)
  end.

Fixpoint mapM {S A B} (f : A → M S B) (l : list A) : M S (list B) :=
  match l with
  | [] => ret []
  | x :: l' => bind (f x) (λ y, bind (mapM f l') (λ ys, ret (y :: ys)))
  end.

Definition lift {S A} (r : result A) : M S A := λ s, (r, s).

Definition of_option {S A} (o : option A) (e : exn) : M S A :=
  match o with Some a => ret a | None => raise e end.

Section monad_laws.
Context {S : Type}.

Lemma bind_ret_l {A B} (a : A) (k : A → M S B) s : bind (ret a) k s = k a s.
Proof. done. Qed.

Lemma bind_assoc {A B C} (m : M S A) (f : A → M S B) (g : B → M S C) s :
  bind (bind m f) g s = bind m (λ x, bind (f x) g) s.
Proof. unfold bind. by destruct (m s) as [[a|e] s']. Qed.

Lemma atomic_err {A} (m : M S A) s e s' :
  atomic m s = (Err e, s') → s' = s.
Proof. unfold atomic. destruct (m s) as [[a|e'] s1]; intros; congruence. Qed.

Lemma atomic_ok {A} (m : M S A) s a s' :
  atomic m s = (Ok a, s') ↔ m s = (Ok a, s').
Proof.
  unfold atomic. destruct (m s) as [[b|e] s1]; split; intros; congruence.
Qed.

Lemma atomic_fst {A} (m : M S A) s : (atomic m s).1 = (m s).1.
Proof. unfold atomic. by destruct (m s) as [[a|e] s1]. Qed.

Lemma bind_ok {A B} (m : M S A) (k : A → M S B) s b s' :
  bind m k s = (Ok b, s') ↔ ∃ a s1, m s = (Ok a, s1) ∧ k a s1 = (Ok b, s').
Proof.
  unfold bind. destruct (m s) as [[a|e] s1]; split.
  - eauto.
  - intros (a' & s2 & [= <- <-] & H). done.
  - done.
  - intros (a' & s2 & ? & _). done.
Qed.

Lemma forM_app {A} (l1 l2 : list A) (f : A → M S unit) s :
  forM (l1 ++ l2) f s = bind (forM l1 f) (λ _, forM l2 f) s.
Proof.
  revert s. induction l1 as [|x l1 IH]; intros s; [done|].
  cbn. unfold bind. destruct (f x s) as [[[]|e] s1]; [|done].
  rewrite IH. done.
Qed.

(** A loop whose body never raises is a left fold over the state. *)
Lemma forM_pure {A} (l : list A) (f : A → M S unit) (g : S → A → S) s :
  (∀ x s, f x s = (Ok tt, g s x)) →
  forM l f s = (Ok tt, foldl g s l).
Proof.
  intros Hf. revert s. induction l as [|x l IH]; intros s; [done|].
  cbn. unfold bind. rewrite Hf. apply IH.
Qed.

(** Invariants of loops that may raise. *)
Lemma forM_inv {A} (I : S → Prop) (l : list A) (f : A → M S unit) s :
  (∀ x s, x ∈ l → I s → I (f x s).2) → I s → I (forM l f s).2.
Proof.
  revert s. induction l as [|x l IH]; intros s Hf Hs; [done|].
  cbn. unfold bind.
  pose proof (Hf x s ltac:(set_solver) Hs) as Hx.
  destruct (f x s) as [[[]|e] s1]; [|done].
  apply IH; [|done]. intros y s2 Hy. apply Hf. set_solver.
Qed.
End monad_laws.

(** ** What a computation guarantees

    [guarantees R m]: whatever [m] answers, the state it leaves is related by the
    preorder [R] to the state it started from. The combinators preserve it, so a
    frame condition of a handler follows from those of its writes. *)
Section guarantees.
Context {S : Type} (R : S → S → Prop).

Definition guarantees {A} (m : M S A) : Prop := ∀ s, R s (m s).2.

Lemma guarantees_modify (f : S → S) : (∀ s, R s (f s)) → guarantees (modify f).
Proof. done. Qed.

Context `{!PreOrder R}.

Lemma guarantees_reads {A} (m : M S A) : (∀ s, (m s).2 = s) → guarantees m.
Proof. intros Hm s. rewrite Hm. reflexivity. Qed.

Lemma guarantees_ret {A} (a : A) : guarantees (ret a).
Proof. by apply guarantees_reads. Qed.

Lemma guarantees_raise {A} e : guarantees (raise (A := A) e).
Proof. by apply guarantees_reads. Qed.

Lemma guarantees_get : guarantees get.
Proof. by apply guarantees_reads. Qed.

Lemma guarantees_lift {A} (r : result A) : guarantees (lift r).
Proof. by apply guarantees_reads. Qed.

Lemma guarantees_of_option {A} (o : option A) e : guarantees (of_option o e).
Proof. apply guarantees_reads. by destruct o. Qed.

Lemma guarantees_bind {A B} (m : M S A) (k : A → M S B) :
  guarantees m → (∀ a, guarantees (k a)) → guarantees (bind m k).
Proof.
  intros Hm Hk s. unfold bind. pose proof (Hm s) as Hs. destruct (m s) as [[a|e] s1]; [|done].
  etrans; [exact Hs|apply Hk].
Qed.

Lemma guarantees_atomic {A} (m : M S A) : guarantees m → guarantees (atomic m).
Proof.
  intros Hm s. unfold atomic. pose proof (Hm s) as Hs. destruct (m s) as [[a|e] s1]; [done|].
  reflexivity.
Qed.

Lemma guarantees_try {A} (m : M S A) (h : exn → M S A) :
  guarantees m → (∀ e, guarantees (h e)) → guarantees (try_catch m h).
Proof.
  intros Hm Hh s. unfold try_catch. pose proof (Hm s) as Hs. destruct (m s) as [[a|e] s1]; [done|].
  etrans; [exact Hs|apply Hh].
Qed.

Lemma guarantees_if {A} (b : bool) (m1 m2 : M S A) :
  guarantees m1 → guarantees m2 → guarantees (if b then m1 else m2).
Proof. by destruct b. Qed.

Lemma guarantees_forM {A} (l : list A) (f : A → M S unit) :
  (∀ x, guarantees (f x)) → guarantees (forM l f).
Proof.
  intros Hf. induction l as [|x l IH]; [apply guarantees_ret|]. cbn. by apply guarantees_bind.
Qed.

Lemma guarantees_mapM {A B} (f : A → M S B) (l : list A) :
  (∀ x, guarantees (f x)) → guarantees (mapM f l).
Proof.
  intros Hf. induction l as [|x l IH]; [apply guarantees_ret|]. cbn.
  apply guarantees_bind; [done|]. intros y. apply guarantees_bind; [done|].
  intros ys. apply guarantees_ret.
Qed.
End guarantees.

Create HintDb guarantees discriminated.
#[export] Hint Resolve guarantees_ret guarantees_raise guarantees_get guarantees_lift
  guarantees_of_option guarantees_bind guarantees_atomic guarantees_try guarantees_if
  guarantees_forM guarantees_mapM : guarantees.

(** Prove a guarantee by the shape of the computation; case analyses are split. *)
Ltac guarantee :=
  repeat first
    [ progress intros
    | match goal with |- PreOrder _ => apply _ end
    | solve [auto 2 with guarantees typeclass_instances]
    | apply guarantees_bind | apply guarantees_atomic | apply guarantees_try | apply guarantees_if
    | apply guarantees_forM | apply guarantees_mapM
    | match goal with |- guarantees _ (match ?x with _ => _ end) => destruct x end ].

(** ** Python values *)

(** Truthiness of a nullable integer (a foreign key column). *)
Definition truthy_id (o : option Z) : bool :=
  match o with Some n => negb (n =? 0)%Z | None => false end.

(** [x or y] on nullable integers. *)
Definition or_id (x y : option Z) : option Z := if truthy_id x then x else y.

(** [s or t] on strings: the empty string is false. *)
Definition truthy_str (s : string) : bool := negb (String.eqb s "").
Definition or_str (s t : string) : string := if truthy_str s then s else t.

Definition is_none {A} (o : option A) : bool :=
  match o with None => true | Some _ => false end.

(** [range(start, stop, step)] for a positive step. *)
Definition py_range_step (start stop step : Z) : list Z :=
  (λ i, (start + step * i)%Z) <$> seqZ 0 ((stop - start + step - 1) / step).
Definition py_range (start stop : Z) : list Z := seqZ start (stop - start).

(** [l[:k]] for a non-negative [k]. *)
Definition py_take {A} (k : Z) (l : list A) : list A := take (Z.to_nat k) l.

Definition zlen {A} (l : list A) : Z := Z.of_nat (length l).

(** Column bounds of a MySQL [PositiveIntegerField]. *)
Definition pos_int_max : Z := 4294967295.
Definition pos_int_ok (z : Z) : bool := (0 <=? z)%Z && (z <=? pos_int_max)%Z.

(** ** While loops *)

(** [while cond: body], or [None] when [fuel] iterations are not enough. *)
Fixpoint while {S} (fuel : nat) (cond : S → bool) (body : S → S) (s : S) : option S :=
  if cond s then
    match fuel with
    | O => None
    | Datatypes.S fuel' => while fuel' cond body (body s)
    end
  else Some s.

Lemma while_inv {S} (I : S → Prop) (mu : S → Z) cond body :
  (∀ s, I s → cond s = true → I (body s) ∧ (0 ≤ mu (body s) < mu s)%Z) →
  ∀ fuel s, I s → (0 ≤ mu s ≤ Z.of_nat fuel)%Z →
  ∃ s', while fuel cond body s = Some s' ∧ I s' ∧ cond s' = false.
Proof.
  intros Hstep fuel. induction fuel as [|fuel IH]; intros s HI Hmu; cbn.
  - destruct (cond s) eqn:Hc; [|by exists s].
    destruct (Hstep s HI Hc) as [_ ?]. lia.
  - destruct (cond s) eqn:Hc; [|by exists s].
    destruct (Hstep s HI Hc) as [HI' ?]. apply IH; [done|lia].
Qed.

(** ** Stable sorting

    Python's [sorted] and SQL's [ORDER BY .., id]: insertion into the list of
    the later elements, before the first element whose key is not smaller. *)
Section sort_by.
Context {A : Type} (le : A → A → bool).

Fixpoint insert_by (x : A) (l : list A) : list A :=
  match l with
  | [] => [x]
  | y :: l' => if le x y then x :: y :: l' else y :: insert_by x l'
  end.

Fixpoint sort_by (l : list A) : list A :=
  match l with
  | [] => []
  | x :: l' => insert_by x (sort_by l')
  end.

Lemma insert_by_perm x l : insert_by x l ≡ₚ x :: l.
Proof.
  induction l as [|y l IH]; cbn; [done|].
  destruct (le x y); [done|]. rewrite IH. apply Permutation_swap.
Qed.

Lemma sort_by_perm l : sort_by l ≡ₚ l.
Proof.
  induction l as [|x l IH]; cbn; [done|]. by rewrite insert_by_perm, IH.
Qed.

Context (le_total : ∀ x y, le x y = true ∨ le y x = true).
Context (le_trans : ∀ x y z, le x y = true → le y z = true → le x z = true).

Lemma insert_by_sorted x l :
  StronglySorted (λ a b, le a b = true) l →
  StronglySorted (λ a b, le a b = true) (insert_by x l).
Proof.
  induction 1 as [|y l Hl IH Hy]; cbn; [by repeat constructor|].
  destruct (le x y) eqn:Hxy.
  - constructor; [by constructor|]. constructor; [done|].
    eapply Forall_impl; [exact Hy|]. eauto.
  - constructor; [done|]. rewrite insert_by_perm. constructor; [|done].
    destruct (le_total x y) as [?|?]; [congruence|done].
Qed.

Lemma sort_by_sorted l : StronglySorted (λ a b, le a b = true) (sort_by l).
Proof. induction l as [|x l IH]; cbn; [constructor|by apply insert_by_sorted]. Qed.
End sort_by.

(** A list sorted by a key without repetitions is determined by its elements. *)
Lemma sorted_key_unique {A} (l1 : list (Z * A)) : ∀ l2,
  l1 ≡ₚ l2 → NoDup l1.*1 →
  StronglySorted (λ x y, (x.1 <=? y.1)%Z = true) l1 →
  StronglySorted (λ x y, (x.1 <=? y.1)%Z = true) l2 → l1 = l2.
Proof.
  induction l1 as [|x l1 IH]; intros l2 Hp Hnd Hs1 Hs2.
  { by apply Permutation_nil_l in Hp. }
  destruct l2 as [|y l2]; [by apply Permutation_nil_r in Hp|].
  apply StronglySorted_inv in Hs1 as [Hs1 Hx]. apply StronglySorted_inv in Hs2 as [Hs2 Hy].
  rewrite Forall_forall in Hx, Hy.
  assert (x = y) as <-.
  { assert (Hyin : y ∈ x :: l1) by (rewrite Hp; left).
    assert (Hxin : x ∈ y :: l2) by (rewrite <- Hp; left).
    apply elem_of_cons in Hyin as [->|Hyin]; [done|].
    apply elem_of_cons in Hxin as [->|Hxin]; [done|].
    specialize (Hx y Hyin). specialize (Hy x Hxin). cbn in Hx, Hy.
    apply Z.leb_le in Hx, Hy. apply NoDup_cons in Hnd as [Hnx _].
    exfalso. apply Hnx. replace x.1 with y.1 by lia. by apply list_elem_of_fmap_2. }
  f_equal. apply IH; [by apply Permutation_cons_inv in Hp| |done..].
  by apply NoDup_cons in Hnd as [_ ?].
Qed.

(** Boolean comparison of integer keys, lexicographically. *)
Fixpoint lex_leb (k1 k2 : list Z) : bool :=
  match k1, k2 with
  | [], _ => true
  | _ :: _, [] => false
  | a :: k1', b :: k2' => if (a <? b)%Z then true else if (b <? a)%Z then false else lex_leb k1' k2'
  end.

Lemma lex_leb_total k1 : ∀ k2, lex_leb k1 k2 = true ∨ lex_leb k2 k1 = true.
Proof.
  induction k1 as [|a k1 IH]; intros [|b k2]; cbn; [by left..|by right|].
  destruct (Z.ltb_spec a b), (Z.ltb_spec b a); try lia; auto.
Qed.

Lemma lex_leb_trans k1 : ∀ k2 k3,
  lex_leb k1 k2 = true → lex_leb k2 k3 = true → lex_leb k1 k3 = true.
Proof.
  induction k1 as [|a k1 IH]; intros [|b k2] [|c k3]; cbn; try done.
  destruct (Z.ltb_spec a b), (Z.ltb_spec b a), (Z.ltb_spec b c),
    (Z.ltb_spec c b), (Z.ltb_spec a c), (Z.ltb_spec c a); try done; try lia.
  apply IH.
Qed.

(** ** Shared automation *)

Create HintDb py discriminated.

(** Split every test of a boolean program and turn it into arithmetic. *)
Ltac bool_cases :=
  repeat match goal with
  | |- context [(?a =? ?b)%Z] => destruct (Z.eqb_spec a b)
  | |- context [(?a <? ?b)%Z] => destruct (Z.ltb_spec a b)
  | |- context [(?a <=? ?b)%Z] => destruct (Z.leb_spec a b)
  | H : context [(?a =? ?b)%Z] |- _ => destruct (Z.eqb_spec a b)
  | H : context [(?a <? ?b)%Z] |- _ => destruct (Z.ltb_spec a b)
  | H : context [(?a <=? ?b)%Z] |- _ => destruct (Z.leb_spec a b)
  end; cbn in *; try done; try lia.

(** Reflects boolean conditions among the hypotheses, then [lia]. *)
Ltac bool_lia :=
  repeat match goal with
  | H : _ && _ = true |- _ => apply andb_true_iff in H as [? ?]
  | H : _ && _ = false |- _ => apply andb_false_iff in H
  | H : _ || _ = true |- _ => apply orb_true_iff in H
  | H : _ || _ = false |- _ => apply orb_false_iff in H as [? ?]
  | H : negb _ = true |- _ => apply negb_true_iff in H
  | H : negb _ = false |- _ => apply negb_false_iff in H
  | H : _ ∨ _ |- _ => destruct H
  | H : (_ <=? _)%Z = true |- _ => apply Z.leb_le in H
  | H : (_ <? _)%Z = true |- _ => apply Z.ltb_lt in H
  | H : (_ =? _)%Z = true |- _ => apply Z.eqb_eq in H
  | H : (_ <=? _)%Z = false |- _ => apply Z.leb_gt in H
  | H : (_ <? _)%Z = false |- _ => apply Z.ltb_ge in H
  | H : (_ =? _)%Z = false |- _ => apply Z.eqb_neq in H
  end; lia.

(** Run a handler one monadic step at a time. *)
Ltac run_step :=
  match goal with
  | |- context [bind _ _ _] => unfold bind at 1
  | |- context [ret _ _] => unfold ret
  | |- context [raise _ _] => unfold raise
  | |- context [get _] => unfold get
  | |- context [gets _ _] => unfold gets
  | |- context [modify _ _] => unfold modify
  end; cbn beta iota.

Tactic Notation "case_goal" "as" simple_intropattern(p) :=
  match goal with
  | |- context [match ?x with _ => _ end] => destruct x as p eqn:?
  end.

(** ** Lists *)

Lemma elem_of_py_range x a b : x ∈ py_range a b ↔ (a ≤ x < b)%Z.
Proof. unfold py_range. rewrite elem_of_seqZ. lia. Qed.

Lemma length_py_range a b : length (py_range a b) = Z.to_nat (b - a).
Proof. unfold py_range. by rewrite length_seqZ. Qed.

Lemma NoDup_py_range a b : NoDup (py_range a b).
Proof. apply NoDup_seqZ. Qed.

#[export] Hint Resolve NoDup_py_range : py.

Lemma py_range_app a b c : (a ≤ b)%Z → (b ≤ c)%Z →
  py_range a c = py_range a b ++ py_range b c.
Proof.
  intros ??. unfold py_range. replace (c - a)%Z with ((b - a) + (c - b))%Z by lia.
  rewrite seqZ_app by lia. do 2 f_equal. lia.
Qed.

Lemma py_range_snoc a b : (a ≤ b)%Z → py_range a (b + 1) = py_range a b ++ [b].
Proof.
  intros ?. rewrite (py_range_app a b (b + 1)) by lia. f_equal.
  unfold py_range. by replace (b + 1 - b)%Z with 1%Z by lia.
Qed.

Lemma py_range_cons a b : (a < b)%Z → py_range a b = a :: py_range (a + 1) b.
Proof.
  intros ?. rewrite (py_range_app a (a + 1) b) by lia.
  unfold py_range at 1. by replace (a + 1 - a)%Z with 1%Z by lia.
Qed.

Definition sumZ (l : list Z) : Z := foldr Z.add 0%Z l.

Lemma sumZ_app l1 l2 : sumZ (l1 ++ l2) = (sumZ l1 + sumZ l2)%Z.
Proof. induction l1 as [|x l1 IH]; cbn; [done|]. unfold sumZ in *. lia. Qed.

Lemma sumZ_replicate n x : sumZ (replicate n x) = (Z.of_nat n * x)%Z.
Proof.
  induction n as [|n IH]; [done|].
  change (sumZ (replicate (S n) x)) with (x + sumZ (replicate n x))%Z. lia.
Qed.

Lemma sumZ_cons x l : sumZ (x :: l) = (x + sumZ l)%Z.
Proof. done. Qed.

Lemma sumZ_fmap_ext {A} (f g : A → Z) l :
  (∀ x, x ∈ l → f x = g x) → sumZ (f <$> l) = sumZ (g <$> l).
Proof.
  induction l as [|x l IH]; intros Hfg; [done|]. rewrite !fmap_cons, !sumZ_cons.
  rewrite (Hfg x) by left. rewrite IH; [done|]. intros y Hy. apply Hfg. by right.
Qed.

Lemma sumZ_perm l1 l2 : l1 ≡ₚ l2 → sumZ l1 = sumZ l2.
Proof. induction 1; cbn in *; unfold sumZ in *; lia. Qed.

Lemma NoDup_filter_list {A} (f : A → bool) (l : list A) :
  NoDup l → NoDup (List.filter f l).
Proof.
  induction 1 as [|x l Hx Hl IH]; cbn; [constructor|].
  destruct (f x); [|done]. constructor; [|done].
  rewrite list_elem_of_In, filter_In, <- list_elem_of_In. tauto.
Qed.

(** ** Lists under maps and nested loops *)

Lemma insert_by_fmap {A B} (f : A → B) leA leB x l :
  (∀ a b, leB (f a) (f b) = leA a b) →
  insert_by leB (f x) (f <$> l) = f <$> insert_by leA x l.
Proof.
  intros Hle. induction l as [|y l IH]; [done|]. cbn. rewrite Hle.
  destruct (leA x y); [done|]. cbn. by rewrite <- IH.
Qed.

Lemma sort_by_fmap {A B} (f : A → B) leA leB l :
  (∀ a b, leB (f a) (f b) = leA a b) →
  sort_by leB (f <$> l) = f <$> sort_by leA l.
Proof.
  intros Hle. induction l as [|x l IH]; [done|]. cbn.
  change (list_fmap A B f l) with (f <$> l). by rewrite IH, (insert_by_fmap f leA).
Qed.

Lemma filter_fmap_list {A B} (f : A → B) (p : B → bool) l :
  List.filter p (f <$> l) = f <$> List.filter (λ x, p (f x)) l.
Proof.
  induction l as [|x l IH]; [done|]. rewrite fmap_cons. cbn [List.filter]. rewrite IH.
  by destruct (p (f x)).
Qed.

Lemma elem_of_filter_list {A} (p : A → bool) x l :
  x ∈ List.filter p l ↔ x ∈ l ∧ p x = true.
Proof. by rewrite !list_elem_of_In, filter_In. Qed.

Lemma filter_all {A} (p : A → bool) l : (∀ x, x ∈ l → p x = true) → List.filter p l = l.
Proof.
  induction l as [|x l IH]; intros Hp; [done|]. cbn. rewrite (Hp x) by left.
  f_equal. apply IH. intros y Hy. apply Hp. by right.
Qed.

Lemma filter_filter_negb {A} (p : A → bool) l :
  List.filter p (List.filter (λ x, negb (p x)) l) = [].
Proof.
  induction l as [|x l IH]; [done|]. cbn. destruct (p x) eqn:E; [done|]. cbn. by rewrite E.
Qed.

(** A loop over [l] whose body is a loop over [g x] is one loop over [l ≫= g],
    under an invariant of the inner steps. *)
Lemma foldl_bind_inv {S A B} (I : S → Prop) (f : S → A → S) (g : A → list B) (run : S → B → S) l :
  (∀ s x, x ∈ l → I s → f s x = foldl run s (g x)) →
  (∀ s y, I s → I (run s y)) →
  ∀ s, I s → foldl f s l = foldl run s (l ≫= g).
Proof.
  intros Hf Hrun. assert (Hall : ∀ ys s, I s → I (foldl run s ys)).
  { induction ys as [|y ys IH]; intros s Hs; cbn; auto. }
  induction l as [|x l IH]; intros s Hs; cbn; [done|].
  rewrite foldl_app, (Hf s x) by (done || left).
  apply IH; [|by apply Hall]. intros s' y Hy. apply Hf. by right.
Qed.

Lemma StronglySorted_weaken {A} (R R' : A → A → Prop) l : (∀ a b, R a b → R' a b) →
  StronglySorted R l → StronglySorted R' l.
Proof.
  intros Hr. induction 1 as [|x l Hs IH Hx]; constructor; [done|].
  eapply Forall_impl; [exact Hx|]. intros y. apply Hr.
Qed.

Lemma strongly_sorted_filter {A} (R : A → A → Prop) (p : A → bool) l :
  StronglySorted R l → StronglySorted R (List.filter p l).
Proof.
  induction 1 as [|x l Hl IH Hx]; cbn; [constructor|]. destruct (p x); [|done].
  constructor; [done|]. rewrite Forall_forall in *. intros y [? _]%elem_of_filter_list. auto.
Qed.

Lemma strongly_sorted_app {A} (R : A → A → Prop) l1 l2 :
  StronglySorted R l1 → StronglySorted R l2 → (∀ x y, x ∈ l1 → y ∈ l2 → R x y) →
  StronglySorted R (l1 ++ l2).
Proof.
  induction 1 as [|x l1 Hl IH Hx]; cbn; [done|]. intros H2 H12. constructor.
  - apply IH; [done|]. intros y z Hy. apply H12. by right.
  - rewrite Forall_app. split; [done|]. apply Forall_forall. intros y Hy. apply H12; [left|done].
Qed.

Lemma strongly_sorted_lookup {A} (R : A → A → Prop) l i j x y :
  StronglySorted R l → l !! i = Some x → l !! j = Some y → (i < j)%nat → R x y.
Proof.
  intros Hs. revert i j. induction Hs as [|z l Hl IH Hz]; intros i j Hi Hj Hij; [done|].
  destruct j as [|j]; [lia|]. destruct i as [|i]; cbn in *.
  - injection Hi as ->. rewrite Forall_forall in Hz. eapply Hz, list_elem_of_lookup_2, Hj.
  - apply (IH i j); [done..|lia].
Qed.

(** [sorted(set(l))] *)
Lemma sorted_distinct l : StronglySorted Z.lt (sort_by Z.leb (remove_dups l)).
Proof.
  assert (Hnd : NoDup (sort_by Z.leb (remove_dups l))).
  { rewrite sort_by_perm. apply NoDup_remove_dups. }
  assert (Hs : StronglySorted (λ a b, (a <=? b)%Z = true) (sort_by Z.leb (remove_dups l))).
  { apply sort_by_sorted.
    - intros x y. rewrite !Z.leb_le. lia.
    - intros x y z. rewrite !Z.leb_le. lia. }
  induction Hs as [|r rs Hl IH Hr]; [constructor|].
  apply NoDup_cons in Hnd as [Hni Hnd]. constructor; [by apply IH|].
  rewrite Forall_forall in *. intros r' Hin. specialize (Hr r' Hin). apply Z.leb_le in Hr.
  destruct (Z.eq_dec r r') as [->|]; [done|lia].
Qed.

(** ** Counting the rows of a table *)

Definition count_rows {A} (p : A → bool) (t : gmap Z A) : Z :=
  zlen (List.filter (λ kx, p kx.2) (map_to_list t)).

Lemma count_rows_new {A} (p : A → bool) (t : gmap Z A) k x : t !! k = None →
  count_rows p (<[k := x]> t) = (count_rows p t + Z.b2z (p x))%Z.
Proof.
  intros Hk. unfold count_rows, zlen.
  assert (Hp : List.filter (λ kx : Z * A, p kx.2) (map_to_list (<[k := x]> t)) ≡ₚ
    List.filter (λ kx : Z * A, p kx.2) ((k, x) :: map_to_list t)).
  { generalize (map_to_list_insert t k x Hk). generalize (map_to_list (<[k := x]> t)).
    intros l. induction 1 as [|y l1 l2 _ IH|y z l1|l1 l2 l3 _ IH1 _ IH2]; cbn.
    - done.
    - destruct (p y.2); [by constructor|done].
    - destruct (p y.2), (p z.2); try done. constructor.
    - by rewrite IH1. }
  rewrite Hp. cbn. destruct (p x); cbn; lia.
Qed.

Lemma count_rows_replace {A} (p : A → bool) (t : gmap Z A) k x y : t !! k = Some x →
  count_rows p (<[k := y]> t) = (count_rows p t - Z.b2z (p x) + Z.b2z (p y))%Z.
Proof.
  intros Hk. rewrite <- insert_delete_eq, count_rows_new by apply lookup_delete_eq.
  assert (Ht : t = <[k := x]> (delete k t)) by by rewrite insert_delete_id.
  rewrite Ht at 2. rewrite count_rows_new by apply lookup_delete_eq. lia.
Qed.

Lemma count_rows_fmap {A B} (f : A → B) (p : B → bool) (t : gmap Z A) :
  count_rows p (f <$> t) = count_rows (λ x, p (f x)) t.
Proof.
  unfold count_rows, zlen. f_equal. rewrite map_to_list_fmap. induction (map_to_list t) as [|[k x] l IH]; [done|].
  cbn. destruct (p (f x)); cbn; by rewrite IH.
Qed.

Lemma count_rows_ext {A} (p q : A → bool) (t : gmap Z A) : (∀ x, p x = q x) → count_rows p t = count_rows q t.
Proof.
  intros Hpq. unfold count_rows. f_equal. induction (map_to_list t) as [|[k x] l IH]; [done|].
  cbn. by rewrite Hpq, IH.
Qed.

Lemma alter_some {A} (f : A → A) (t : gmap Z A) k x : t !! k = Some x →
  alter f k t = <[k := f x]> t.
Proof.
  intros Hk. apply map_eq. intros j. destruct (decide (j = k)) as [->|].
  - by rewrite lookup_alter_eq, Hk, lookup_insert_eq.
  - by rewrite lookup_alter_ne, lookup_insert_ne.
Qed.

Lemma fmap_alter_same {A B} (g : A → B) (f : A → A) k (t : gmap Z A) :
  (∀ x, g (f x) = g x) → g <$> alter f k t = g <$> t.
Proof.
  intros Hg. apply map_eq. intros j. rewrite !lookup_fmap. destruct (decide (j = k)) as [->|].
  - rewrite lookup_alter_eq. destruct (t !! k); cbn; [by rewrite Hg|done].
  - by rewrite lookup_alter_ne.
Qed.
