(* ===== verification/Brackets.v ===== *)
(** Bracket construction: the pure part of
    [competitions/services/draw_service.py] - the table size, the placement of
    the byes, the cost of a first round and the search for a cheap order. *)

From S2P Require Import Prelude.
Local Open Scope Z_scope.

(** ** Data and constants *)

Definition ELIGIBLE_STATUSES : list string :=
  ["paid"; "confirmed"; "accepted"; "completed"]%string.

Definition REPEAT_PAIR_PENALTY : Z := 100.
Definition SAME_CLUB_PENALTY : Z := 1.

Record Entry := mkEntry {
  enrollment_id : Z;
  player_id : option Z;
  club_id : option Z;
  coach_id : option Z;
}.

#[export] Instance Entry_eq_dec : EqDecision Entry.
Proof. solve_decision. Defined.

(** ** Table size *)

Definition _is_pow2 (x : Z) : bool := (0 <? x) && (Z.land x (x - 1) =? 0).

Definition _next_pow2 (n : Z) : Z :=
  default 0 (while (Z.to_nat (Z.max n 2)) (λ s, s <? Z.max n 2) (λ s, Z.shiftl s 1) 1).

(** The size [create_draw_for_group] settles on. *)
Definition table_size (real_count : Z) (size_override : option Z) : result Z :=
  match size_override with
  | Some so =>
      if negb (_is_pow2 so) then Err ValueError
      else
        let min_needed := if (1 <=? real_count) && (real_count <=? 4) then 4 else 2 in
        Ok (Z.max so min_needed)
  | None =>
      Ok (if (1 <=? real_count) && (real_count <=? 4) then 4 else _next_pow2 real_count)
  end.

(** ** Bye placement *)

Definition BYE_ORDER_MAP : gmap Z (list Z) := list_to_map [
  (2,  [2; 1]);
  (4,  [4; 1; 3; 2]);
  (8,  [8; 1; 5; 4; 6; 3; 7; 2]);
  (16, [16; 1; 9; 8; 13; 5; 12; 6; 14; 3; 11; 7; 10; 2; 15; 4]);
  (32, [32; 1; 17; 16; 25; 8; 24; 9; 29; 4; 20; 13; 28; 5; 21; 12;
        31; 2; 18; 15; 26; 7; 23; 10; 30; 3; 19; 14; 27; 6; 22; 11]);
  (64, [64; 1; 33; 32; 49; 16; 48; 17; 57; 8; 40; 25; 56; 9; 41; 24;
        61; 4; 36; 29; 52; 13; 45; 20; 60; 5; 37; 28; 53; 12; 44; 21;
        63; 2; 34; 31; 50; 15; 47; 18; 58; 7; 39; 26; 55; 10; 42; 23;
        62; 3; 35; 30; 51; 14; 46; 19; 59; 6; 38; 27; 54; 11; 43; 22])].

(** The [while l <= r] loop for sizes without a table; [stop] is its [break]. *)
Record fallback_state := mkFallback {
  fb_order : list Z;
  fb_l : Z;
  fb_r : Z;
  fb_stop : bool;
}.

Definition fallback_cond (st : fallback_state) : bool :=
  negb (fb_stop st) && (fb_l st <=? fb_r st).

Definition fallback_body (size : Z) (st : fallback_state) : fallback_state :=
  let order := fb_order st ++ [fb_r st] in
  if size <=? zlen order then mkFallback order (fb_l st) (fb_r st) true
  else mkFallback (order ++ [fb_l st]) (fb_l st + 1) (fb_r st - 1) false.

Definition fallback_order (size : Z) : list Z :=
  match while (Z.to_nat (size + 1)) fallback_cond (fallback_body size)
              (mkFallback [] 1 size false) with
  | Some st => fb_order st
  | None => []
  end.

Definition bye_order (size : Z) : list Z :=
  match BYE_ORDER_MAP !! size with
  | Some order => order
  | None => fallback_order size
  end.

Definition _bye_slots (size bye_count : Z) : list Z :=
  py_take (Z.max 0 bye_count) (bye_order size).

Definition non_bye_slots_of (size : Z) (byes : list Z) : list Z :=
  List.filter (λ s, negb (bool_decide (s ∈ byes))) (py_range 1 (size + 1)).

(** ** Cost of a first round *)

Section cost.
Context (effective_count club_threshold : Z) (history_pairs : gset (Z * Z)).

Definition ordered_pair (a b : Z) : Z * Z := if a <? b then (a, b) else (b, a).

Definition _pair_cost (a b : Entry) : Z :=
  match player_id a, player_id b with
  | Some pa, Some pb =>
      (if bool_decide (ordered_pair pa pb ∈ history_pairs)
       then REPEAT_PAIR_PENALTY else 0) +
      (if (club_threshold <? effective_count) && truthy_id (club_id a)
          && truthy_id (club_id b) && bool_decide (club_id a = club_id b)
       then SAME_CLUB_PENALTY else 0)
  | _, _ => 0
  end.

(** [for idx, s in enumerate(non_bye_slots): slot_to_entry[s] = players_order[idx]] *)
Fixpoint assign_slots (slots : list Z) (players_order : list Entry)
    (slot_to_entry : gmap Z Entry) : result (gmap Z Entry) :=
  match slots, players_order with
  | [], _ => Ok slot_to_entry
  | _ :: _, [] => Err IndexError
  | s :: slots', p :: players' =>
      assign_slots slots' players' (<[s := p]> slot_to_entry)
  end.

Definition pair_cost_at (slot_to_entry : gmap Z Entry) (s : Z) : Z :=
  match slot_to_entry !! s, slot_to_entry !! (s + 1) with
  | Some A, Some B => _pair_cost A B
  | _, _ => 0
  end.

Definition _order_cost_for_slots (players_order : list Entry)
    (non_bye_slots : list Z) (size : Z) : result Z :=
  match assign_slots non_bye_slots players_order ∅ with
  | Err e => Err e
  | Ok slot_to_entry =>
      Ok (foldl (λ total s, total + pair_cost_at slot_to_entry s) 0
            (py_range_step 1 size 2))
  end.
End cost.

(** ** Random search

    [random.Random(seed)] is an oracle: [randbelow seed k n] is the value its
    [k]-th call of [_randbelow(n)] returns. *)
Section search.
Context (randbelow : option string → nat → Z → Z).

(** [x[i], x[j] = x[j], x[i]] *)
Definition swap {A} (i j : nat) (l : list A) : list A :=
  match l !! i, l !! j with
  | Some a, Some b => <[j := a]> (<[i := b]> l)
  | _, _ => l
  end.

Definition shuffle_step {A} (seed : option string) (kl : nat * list A) (i : nat)
    : nat * list A :=
  (S kl.1, swap i (Z.to_nat (randbelow seed kl.1 (Z.of_nat i + 1))) kl.2).

(** [rnd.shuffle(x)]: [for i in reversed(range(1, len(x)))]. *)
Definition shuffle {A} (seed : option string) (k : nat) (l : list A) : nat * list A :=
  foldl (shuffle_step seed) (k, l) (rev (seq 1 (length l - 1))).

Section best_order.
Context (players_only : list Entry) (seed : option string)
  (cost_of : list Entry → result Z).

Fixpoint attempt_loop (n k : nat) (best : option (list Entry))
    (best_cost : option Z) : result (option (list Entry)) :=
  match n with
  | O => Ok best
  | S n' =>
      let '(k', tmp) := shuffle seed k players_only in
      match cost_of tmp with
      | Err e => Err e
      | Ok cost =>
          if (match best_cost with None => true | Some c => cost <? c end) then
            if cost =? 0 then Ok (Some tmp)
            else attempt_loop n' k' (Some tmp) (Some cost)
          else attempt_loop n' k' best best_cost
      end
  end.
End best_order.

Definition _best_order_by_penalty_on_slots (players_only : list Entry)
    (non_bye_slots : list Z) (size attempts club_threshold : Z)
    (history_pairs : gset (Z * Z)) (effective_count : Z) (rng_seed : option string)
    : result (list Entry) :=
  if zlen players_only <=? 2 then Ok players_only
  else
    match attempt_loop players_only rng_seed
            (λ tmp, _order_cost_for_slots effective_count club_threshold
                      history_pairs tmp non_bye_slots size)
            (Z.to_nat (Z.max 1 attempts)) 0 None None with
    | Err e => Err e
    | Ok (Some (x :: l)) => Ok (x :: l)
    | Ok _ => Ok players_only
    end.

(** The order the [i]-th attempt of the search draws. *)
Definition attempt_order (players_only : list Entry) (seed : option string)
    (i : nat) : list Entry :=
  (shuffle seed (i * (length players_only - 1)) players_only).2.
End search.

(** [for s in range(1, size + 1)]: a bye slot gets an empty entry, the others
    the next player. *)
Definition empty_entry : Entry := mkEntry (-1) None None None.

Fixpoint place_entries (slots byes : list Z) (it : list Entry) : result (list Entry) :=
  match slots with
  | [] => Ok []
  | s :: slots' =>
      if bool_decide (s ∈ byes) then
        match place_entries slots' byes it with
        | Ok l => Ok (empty_entry :: l)
        | Err e => Err e
        end
      else
        match it with
        | [] => Err StopIteration
        | p :: it' =>
            match place_entries slots' byes it' with
            | Ok l => Ok (p :: l)
            | Err e => Err e
            end
        end
  end.

(** ** Table size: correctness *)

Lemma land_pred_pow2 k : 0 ≤ k → Z.land (2 ^ k) (2 ^ k - 1) = 0.
Proof.
  intros ?. replace (2 ^ k - 1) with (Z.pred (2 ^ k)) by lia.
  rewrite <- Z.ones_equiv, Z.land_ones by lia.
  apply Z.mod_same. pose proof (Z.pow_pos_nonneg 2 k). lia.
Qed.

(** Below the top bit, [x] and [x - 1] share that bit unless [x] is a power. *)
Lemma land_pred_zero x : 0 < x → Z.land x (x - 1) = 0 → x = 2 ^ Z.log2 x.
Proof.
  intros Hx Hl. pose proof (Z.log2_spec x Hx) as [Hlo Hhi].
  pose proof (Z.log2_nonneg x).
  destruct (Z.eq_dec x (2 ^ Z.log2 x)) as [|Hne]; [done|exfalso].
  assert (Hb : Z.testbit x (Z.log2 x) = true) by (apply Z.bit_log2; lia).
  assert (Hb' : Z.testbit (x - 1) (Z.log2 x) = true).
  { replace (Z.log2 x) with (Z.log2 (x - 1)) by (apply Z.log2_unique; lia).
    apply Z.bit_log2. pose proof (Z.pow_pos_nonneg 2 (Z.log2 x)). lia. }
  apply (f_equal (λ y, Z.testbit y (Z.log2 x))) in Hl.
  rewrite Z.land_spec, Hb, Hb', Z.bits_0 in Hl. done.
Qed.

Lemma is_pow2_iff x : _is_pow2 x = true ↔ ∃ k, 0 ≤ k ∧ x = 2 ^ k.
Proof.
  unfold _is_pow2. rewrite andb_true_iff, Z.ltb_lt, Z.eqb_eq. split.
  - intros [Hx Hl]. exists (Z.log2 x).
    split; [apply Z.log2_nonneg|by apply land_pred_zero].
  - intros (k & Hk & ->). split; [by apply Z.pow_pos_nonneg|by apply land_pred_pow2].
Qed.

Lemma next_pow2_spec n :
  ∃ k, 1 ≤ k ∧ _next_pow2 n = 2 ^ k ∧ Z.max n 2 ≤ 2 ^ k < 2 * Z.max n 2.
Proof.
  unfold _next_pow2. set (m := Z.max n 2). assert (Hm : 2 ≤ m) by lia.
  destruct (while_inv (λ s, ∃ k, 0 ≤ k ∧ s = 2 ^ k ∧ s < 2 * m)
    (λ s, Z.max 0 (m - s)) (λ s, s <? m) (λ s, Z.shiftl s 1))
    with (fuel := Z.to_nat m) (s := 1) as (s' & -> & (k & Hk & -> & Hlt) & Hc).
  - intros s (k & Hk & -> & Hlt) Hc. apply Z.ltb_lt in Hc.
    assert (Z.shiftl (2 ^ k) 1 = 2 ^ (k + 1)) as ->.
    { rewrite Z.shiftl_mul_pow2, Z.pow_add_r by lia. done. }
    assert (2 ^ (k + 1) = 2 * 2 ^ k) by (rewrite Z.pow_add_r by lia; lia).
    pose proof (Z.pow_pos_nonneg 2 k).
    split; [|lia]. exists (k + 1). lia.
  - exists 0. split_and!; [lia|done|lia].
  - lia.
  - cbn. apply Z.ltb_ge in Hc. exists k. split_and!; try done; try lia.
    destruct (Z.eq_dec k 0) as [->|]; [|lia]. change (2 ^ 0) with 1 in Hc. lia.
Qed.

Lemma table_size_no_override real_count : 1 ≤ real_count →
  ∃ k, 1 ≤ k ∧ table_size real_count None = Ok (2 ^ k) ∧
       real_count ≤ 2 ^ k ∧ 4 ≤ 2 ^ k ∧ (5 ≤ real_count → 2 ^ k < 2 * real_count).
Proof.
  intros Hr. unfold table_size. case_goal as [] .
  - exists 2. change (2 ^ 2) with 4. bool_cases. split_and!; try done; lia.
  - destruct (next_pow2_spec real_count) as (k & Hk & -> & Hb).
    apply andb_false_iff in Heqb. rewrite !Z.leb_gt in Heqb.
    exists k. split_and!; try done; try lia.
Qed.

(** ** Bye placement: correctness *)

Definition fallback_inv (size : Z) (st : fallback_state) : Prop :=
  if fb_stop st then fb_order st ≡ₚ py_range 1 (size + 1)
  else 1 ≤ fb_l st ∧ fb_l st ≤ fb_r st + 1 ∧ fb_r st = size + 1 - fb_l st ∧
       fb_order st ≡ₚ py_range 1 (fb_l st) ++ py_range (fb_r st + 1) (size + 1).

Lemma fallback_body_inv size st :
  fallback_inv size st → fallback_cond st = true →
  fallback_inv size (fallback_body size st).
Proof.
  unfold fallback_inv, fallback_cond, fallback_body.
  destruct st as [order l r [|]]; cbn; [done|]. rewrite Z.leb_le.
  intros (Hl & Hlr & Hr & Hp) Hle.
  assert (Hlen : zlen (order ++ [r]) = 2 * l - 1).
  { unfold zlen. rewrite length_app, Hp, length_app, !length_py_range. cbn. lia. }
  rewrite Hlen. destruct (Z.leb_spec size (2 * l - 1)); cbn.
  - assert (r = l) as -> by lia. rewrite Hp.
    rewrite <- (assoc_L (++)), (Permutation_app_comm _ [l]), (assoc_L (++)).
    rewrite <- py_range_snoc by lia.
    by rewrite <- py_range_app by lia.
  - split_and!; [lia..|]. rewrite Hp.
    replace (r - 1 + 1) with r by lia.
    rewrite (py_range_snoc 1 l) by lia. rewrite (py_range_cons r (size + 1)) by lia.
    rewrite <- !(assoc_L (++)). apply Permutation_app_head.
    rewrite (Permutation_app_comm _ ([r] ++ [l])). apply Permutation_swap.
Qed.

Lemma fallback_order_perm size : 0 ≤ size → fallback_order size ≡ₚ py_range 1 (size + 1).
Proof.
  intros Hs. unfold fallback_order.
  destruct (while_inv (fallback_inv size)
    (λ st, if fb_stop st then 0 else Z.max 0 (fb_r st + 2 - fb_l st))
    fallback_cond (fallback_body size))
    with (fuel := Z.to_nat (size + 1)) (s := mkFallback [] 1 size false)
    as (st & -> & Hinv & Hc).
  - intros st Hi Hc. split; [by apply fallback_body_inv|].
    revert Hi Hc. unfold fallback_inv, fallback_cond, fallback_body.
    destruct st as [order l r [|]]; cbn; [done|]. rewrite Z.leb_le. intros Hi Hle.
    destruct (size <=? _); cbn; lia.
  - cbn. split_and!; [lia..|].
    unfold py_range at 2. replace (size + 1 - (size + 1)) with 0 by lia. done.
  - cbn. lia.
  - revert Hinv Hc. unfold fallback_inv, fallback_cond.
    destruct st as [order l r [|]]; cbn; [done|].
    rewrite Z.leb_gt. intros (Hl & Hlr & Hr & Hp) Hlt.
    rewrite Hp. replace (r + 1) with l by lia. by rewrite <- py_range_app by lia.
Qed.

Lemma bye_table_perm : map_Forall (λ size order, order ≡ₚ py_range 1 (size + 1)) BYE_ORDER_MAP.
Proof. refine (bool_decide_unpack _ _). vm_compute. exact I. Qed.

Lemma bye_order_perm size : 0 ≤ size → bye_order size ≡ₚ py_range 1 (size + 1).
Proof.
  intros ?. unfold bye_order. destruct (BYE_ORDER_MAP !! size) as [order|] eqn:H0.
  - by apply bye_table_perm in H0.
  - by apply fallback_order_perm.
Qed.

Lemma NoDup_bye_order size : 0 ≤ size → NoDup (bye_order size).
Proof. intros ?. rewrite bye_order_perm by done. auto with py. Qed.

Lemma NoDup_bye_slots size n : 0 ≤ size → NoDup (_bye_slots size n).
Proof.
  intros ?. unfold _bye_slots, py_take.
  pose proof (NoDup_bye_order size ltac:(lia)) as Hn. rewrite <- (take_drop (Z.to_nat (Z.max 0 n)) (bye_order size)) in Hn.
  by apply NoDup_app in Hn as [? _].
Qed.

Lemma bye_slots_range size n s : 0 ≤ size → s ∈ _bye_slots size n → 1 ≤ s ≤ size.
Proof.
  intros ? Hs. assert (Hin : s ∈ bye_order size).
  { unfold _bye_slots, py_take in Hs.
    rewrite <- (take_drop (Z.to_nat (Z.max 0 n)) (bye_order size)).
    apply elem_of_app. by left. }
  rewrite bye_order_perm, elem_of_py_range in Hin by done. lia.
Qed.

Lemma length_bye_slots size n : 0 ≤ size →
  zlen (_bye_slots size n) = Z.min size (Z.max 0 n).
Proof.
  intros ?. unfold _bye_slots, py_take, zlen.
  rewrite length_take, bye_order_perm, length_py_range by done. lia.
Qed.

Lemma non_bye_slots_perm size n : 0 ≤ size →
  non_bye_slots_of size (_bye_slots size n) ++ _bye_slots size n ≡ₚ py_range 1 (size + 1).
Proof.
  intros ?. unfold non_bye_slots_of. apply NoDup_Permutation.
  - apply NoDup_app. split_and!.
    + apply NoDup_filter_list. auto with py.
    + intros s. rewrite list_elem_of_In, filter_In, <- !list_elem_of_In.
      intros [_ Hb] Hs. rewrite bool_decide_eq_true_2 in Hb by done. done.
    + by apply NoDup_bye_slots.
  - auto with py.
  - intros s. rewrite elem_of_app, list_elem_of_In, filter_In, <- !list_elem_of_In,
      elem_of_py_range. split.
    + intros [[? _]|Hs]; [done|]. apply bye_slots_range in Hs; lia.
    + intros ?. case_bool_decide; [by right|left]. done.
Qed.

Lemma length_non_bye_slots size n : 0 ≤ size →
  zlen (non_bye_slots_of size (_bye_slots size n)) = size - Z.min size (Z.max 0 n).
Proof.
  intros Hs. pose proof (Permutation_length (non_bye_slots_perm size n Hs)) as Hl.
  rewrite length_app, length_py_range in Hl.
  pose proof (length_bye_slots size n Hs). unfold zlen in *. lia.
Qed.

(** No pair of slots [(s, s + 1)], [s] odd, holds two byes. *)
Definition no_double_bye (size : Z) (byes : list Z) : bool :=
  forallb (λ s, negb (bool_decide (s ∈ byes) && bool_decide (s + 1 ∈ byes)))
    (py_range_step 1 size 2).

Lemma no_double_bye_upto_64 :
  forallb (λ n, match table_size n None with
                | Ok size => no_double_bye size (_bye_slots size (size - n))
                | Err _ => false
                end) (py_range 2 65) = true.
Proof. vm_compute. reflexivity. Qed.

(** ** Random search: correctness *)

Section search_spec.
Context (randbelow : option string → nat → Z → Z).

Lemma swap_perm {A} i j (l : list A) : swap i j l ≡ₚ l.
Proof.
  unfold swap. destruct (l !! i) as [a|] eqn:Hi; [|done].
  destruct (l !! j) as [b|] eqn:Hj; [|done].
  destruct (decide (i = j)) as [<-|Hne].
  { rewrite list_insert_insert_eq, list_insert_id; [done|congruence]. }
  pose proof (lookup_lt_Some _ _ _ Hi). pose proof (lookup_lt_Some _ _ _ Hj).
  apply (Permutation_inj). split; [by rewrite !length_insert|].
  exists (λ k, if decide (k = i) then j else if decide (k = j) then i else k).
  split; [intros x y; repeat case_decide; congruence|].
  intros k. repeat case_decide; subst.
  - rewrite list_lookup_insert_ne, list_lookup_insert_eq by done. done.
  - rewrite list_lookup_insert_eq by (by rewrite length_insert). done.
  - by rewrite !list_lookup_insert_ne by done.
Qed.

Lemma shuffle_steps_perm {A} seed idxs (kl : nat * list A) :
  (foldl (shuffle_step randbelow seed) kl idxs).2 ≡ₚ kl.2 ∧
  (foldl (shuffle_step randbelow seed) kl idxs).1 = (kl.1 + length idxs)%nat.
Proof.
  revert kl. induction idxs as [|i idxs IH]; intros kl; cbn; [split; [done|lia]|].
  destruct (IH (shuffle_step randbelow seed kl i)) as [-> ->]. cbn.
  split; [apply swap_perm|lia].
Qed.

Lemma shuffle_perm {A} seed k (l : list A) : (shuffle randbelow seed k l).2 ≡ₚ l.
Proof. unfold shuffle. by destruct (shuffle_steps_perm seed (rev (seq 1 (length l - 1))) (k, l)). Qed.

Lemma shuffle_calls {A} seed k (l : list A) :
  (shuffle randbelow seed k l).1 = (k + (length l - 1))%nat.
Proof.
  unfold shuffle. destruct (shuffle_steps_perm seed (rev (seq 1 (length l - 1))) (k, l)) as [_ ->].
  cbn. by rewrite length_rev, length_seq.
Qed.

Section loop.
Context (players : list Entry) (seed : option string)
  (cost_of : list Entry → result Z) (cost : list Entry → Z).
Context (cost_ok : ∀ l, l ≡ₚ players → cost_of l = Ok (cost l)).
Context (cost_nonneg : ∀ l, l ≡ₚ players → 0 ≤ cost l).

Abbreviation tmp_at k := ((shuffle randbelow seed k players).2).
Abbreviation step := (length players - 1)%nat.

(** What the search returns from call number [k] on, with [best] in hand. *)
Lemma attempt_loop_spec n : ∀ k best best_cost,
  match best, best_cost with
  | None, None => True
  | Some b, Some c => b ≡ₚ players ∧ cost b = c
  | _, _ => False
  end →
  (best = None → n ≠ O) →
  ∃ b, attempt_loop randbelow players seed cost_of n k best best_cost = Ok (Some b) ∧
    b ≡ₚ players ∧
    (∀ i, (i < n)%nat → cost b ≤ cost (tmp_at (k + i * step))) ∧
    (∀ c, best_cost = Some c → cost b ≤ c).
Proof.
  induction n as [|n IH]; intros k best best_cost Hb Hn.
  { destruct best as [b|], best_cost as [c|]; try done; [|by specialize (Hn eq_refl)].
    destruct Hb as [Hp <-]. exists b. split_and!; try done; [lia|]. by intros c [= <-]. }
  cbn. pose proof (shuffle_perm seed k players) as Hp.
  pose proof (shuffle_calls seed k players) as Hk.
  destruct (shuffle randbelow seed k players) as [k' tmp] eqn:Hs. cbn in Hp, Hk. subst k'.
  rewrite cost_ok by done.
  assert (Hhead : tmp_at (k + 0 * step) = tmp) by (by rewrite Nat.mul_0_l, Nat.add_0_r, Hs).
  assert (Hshift : ∀ i, tmp_at (k + step + i * step) = tmp_at (k + S i * step)).
  { intros i. do 2 f_equal. lia. }
  set (better := match best_cost with None => true | Some c => cost tmp <? c end).
  destruct better eqn:Hbet; subst better.
  - assert (Hle : ∀ c, best_cost = Some c → cost tmp ≤ c).
    { intros c ->. apply Z.ltb_lt in Hbet. lia. }
    destruct (Z.eqb_spec (cost tmp) 0) as [H0|H0].
    { exists tmp. split_and!; try done. intros i Hi. rewrite H0.
      apply cost_nonneg, shuffle_perm. }
    destruct (IH (k + step)%nat (Some tmp) (Some (cost tmp))) as (b & -> & Hbp & Hall & Hc);
      [done|done|].
    exists b. split_and!; try done.
    + intros [|i] Hi; [rewrite Hhead; by apply Hc|].
      rewrite <- Hshift. apply Hall. lia.
    + intros c Hbc. specialize (Hc _ eq_refl). specialize (Hle c Hbc). lia.
  - destruct best_cost as [c|]; [|done]. apply Z.ltb_ge in Hbet.
    destruct (IH (k + step)%nat best (Some c)) as (b & -> & Hbp & Hall & Hc);
      [done|by destruct best|].
    exists b. split_and!; try done. intros [|i] Hi.
    + rewrite Hhead. specialize (Hc _ eq_refl). lia.
    + rewrite <- Hshift. apply Hall. lia.
Qed.
End loop.
End search_spec.

(** ** Costs *)

Lemma pair_cost_bounds n t h a b : 0 ≤ _pair_cost n t h a b ≤ 101.
Proof.
  unfold _pair_cost, REPEAT_PAIR_PENALTY, SAME_CLUB_PENALTY.
  destruct (player_id a), (player_id b); try lia.
  repeat case_match; lia.
Qed.

Lemma pair_cost_at_bounds n t h d s : 0 ≤ pair_cost_at n t h d s ≤ 101.
Proof.
  unfold pair_cost_at. destruct (d !! s), (d !! (s + 1)); try lia.
  apply pair_cost_bounds.
Qed.

Lemma foldl_cost_nonneg {A} (f : A → Z) (l : list A) acc :
  (∀ x, 0 ≤ f x) → 0 ≤ acc → 0 ≤ foldl (λ t x, t + f x) acc l.
Proof.
  intros Hf. revert acc. induction l as [|x l IH]; intros acc Ha; cbn; [done|].
  apply IH. specialize (Hf x). lia.
Qed.

Lemma assign_slots_ok slots players d :
  (length slots ≤ length players)%nat → ∃ d', assign_slots slots players d = Ok d'.
Proof.
  revert players d. induction slots as [|s slots IH]; intros [|p players] d Hl; cbn in *;
    [by eauto..|lia|]. apply IH. lia.
Qed.

(** The cost as a total function, [0] where the code would raise. *)
Definition order_cost (n t : Z) (h : gset (Z * Z)) (slots : list Z) (size : Z)
    (players : list Entry) : Z :=
  match _order_cost_for_slots n t h players slots size with Ok c => c | Err _ => 0 end.

Lemma order_cost_ok n t h slots size players :
  (length slots ≤ length players)%nat →
  _order_cost_for_slots n t h players slots size = Ok (order_cost n t h slots size players).
Proof.
  intros Hl. unfold order_cost, _order_cost_for_slots.
  by destruct (assign_slots_ok slots players ∅ Hl) as [d ->].
Qed.

Lemma order_cost_nonneg n t h slots size players : 0 ≤ order_cost n t h slots size players.
Proof.
  unfold order_cost, _order_cost_for_slots. destruct (assign_slots _ _ _); [|done].
  apply foldl_cost_nonneg; [|done]. intros s. apply pair_cost_at_bounds.
Qed.

Lemma best_order_perm randbelow players slots size attempts t h n seed :
  (length slots ≤ length players)%nat →
  ∃ b, _best_order_by_penalty_on_slots randbelow players slots size attempts t h n seed = Ok b ∧
       b ≡ₚ players ∧
       (2 < zlen players → ∀ i, (i < Z.to_nat (Z.max 1 attempts))%nat →
          order_cost n t h slots size b ≤
          order_cost n t h slots size (attempt_order randbelow players seed i)).
Proof.
  intros Hl. unfold _best_order_by_penalty_on_slots.
  destruct (Z.leb_spec (zlen players) 2); [exists players; split_and!; [done..|lia]|].
  destruct (attempt_loop_spec randbelow players seed
    (λ tmp, _order_cost_for_slots n t h tmp slots size) (order_cost n t h slots size))
    with (n := Z.to_nat (Z.max 1 attempts)) (k := O)
         (best := @None (list Entry)) (best_cost := @None Z)
    as (b & -> & Hp & Hall & _); [| |done|lia|].
  - intros l Hp. apply order_cost_ok. by rewrite Hp.
  - intros l _. apply order_cost_nonneg.
  - exists b. assert (b ≠ []) as Hne.
    { intros ->. apply Permutation_nil in Hp. subst. unfold zlen in *. cbn in *. lia. }
    destruct b as [|x b]; [done|]. by split_and!.
Qed.

(** ** Placement *)

Definition is_bye_slot (byes : list Z) (s : Z) : bool := bool_decide (s ∈ byes).

Lemma place_entries_spec byes slots it :
  (length (List.filter (λ s, negb (bool_decide (s ∈ byes))) slots) ≤ length it)%nat →
  (∀ p, p ∈ it → is_none (player_id p) = false) →
  ∃ l, place_entries slots byes it = Ok l ∧ length l = length slots ∧
       List.filter (λ e, negb (is_none (player_id e))) l =
         take (length (List.filter (λ s, negb (bool_decide (s ∈ byes))) slots)) it ∧
       (λ e, is_none (player_id e)) <$> l = is_bye_slot byes <$> slots.
Proof.
  unfold is_bye_slot.
  revert it. induction slots as [|s slots IH]; intros it Hl Hit; cbn in *.
  { exists []. by split_and!. }
  case_bool_decide as Hs; cbn in Hl |- *.
  - destruct (IH it Hl Hit) as (l & -> & Hlen & Hf & Hb).
    exists (empty_entry :: l). cbn. rewrite Hb, Hlen, Hf. done.
  - destruct it as [|p it]; [cbn in Hl; lia|]. cbn in Hl.
    destruct (IH it ltac:(lia)) as (l & -> & Hlen & Hf & Hb).
    { intros q Hq. apply Hit. by right. }
    exists (p :: l). cbn. rewrite (Hit p) by left. cbn. by rewrite Hb, Hlen, Hf.
Qed.

(** ** Properties of the bracket computations *)

(** C2: without an override the table is a power of two that holds the whole
    group, has at least four slots, and for five players or more is the least
    such power; the loop of [_next_pow2] ends. *)
Theorem table_size_fits real_count : 1 ≤ real_count →
  ∃ k, 2 ≤ k ∧ table_size real_count None = Ok (2 ^ k) ∧ real_count ≤ 2 ^ k ∧
       _is_pow2 (2 ^ k) = true ∧ (5 ≤ real_count → 2 ^ (k - 1) < real_count).
Proof.
  intros Hr. destruct (table_size_no_override _ Hr) as (k & Hk & Hs & Hle & H4 & Hlt).
  exists k. assert (2 ≤ k).
  { destruct (Z.eq_dec k 1) as [->|]; [|lia]. change (2 ^ 1) with 2 in H4. lia. }
  split_and!; try done.
  - apply is_pow2_iff. exists k. split; [lia|done].
  - intros H5. specialize (Hlt H5). replace k with (1 + (k - 1)) in Hlt by lia.
    rewrite Z.pow_add_r in Hlt by lia. lia.
Qed.

(** C3: the bye slots of a table are distinct slots of it, as many as asked for,
    and together with the remaining slots they are exactly [1..size]: this covers
    the literal tables and the fallback loop, which ends for every size. *)
Theorem bye_slots_partition size bye_count : 0 ≤ size → 0 ≤ bye_count ≤ size →
  NoDup (_bye_slots size bye_count) ∧ zlen (_bye_slots size bye_count) = bye_count ∧
  non_bye_slots_of size (_bye_slots size bye_count) ++ _bye_slots size bye_count
    ≡ₚ py_range 1 (size + 1) ∧
  _bye_slots size size ≡ₚ py_range 1 (size + 1).
Proof.
  intros Hs Hb. split_and!.
  - by apply NoDup_bye_slots.
  - rewrite length_bye_slots by done. lia.
  - by apply non_bye_slots_perm.
  - pose proof (non_bye_slots_perm size size Hs) as Hp.
    pose proof (length_non_bye_slots size size Hs) as Hl.
    destruct (non_bye_slots_of size (_bye_slots size size)) as [|x l]; [done|].
    unfold zlen in Hl. cbn [length] in Hl. lia.
Qed.

(** For groups of two to sixty-four players drawn without an override no first
    round match is between two byes. *)
Theorem no_empty_match_upto_64 n size : 2 ≤ n ≤ 64 → table_size n None = Ok size →
  ∀ s, s ∈ py_range_step 1 size 2 →
    ¬ (s ∈ _bye_slots size (size - n) ∧ s + 1 ∈ _bye_slots size (size - n)).
Proof.
  intros Hn Hs s Hin [H1 H2].
  pose proof no_double_bye_upto_64 as Hall. rewrite forallb_forall in Hall.
  specialize (Hall n). rewrite Hs in Hall. unfold no_double_bye in Hall.
  rewrite forallb_forall in Hall.
  specialize (Hall ltac:(apply list_elem_of_In, elem_of_py_range; lia) s).
  rewrite <- list_elem_of_In in Hall. specialize (Hall Hin).
  rewrite !bool_decide_eq_true_2 in Hall by done. done.
Qed.

(** From sixty-five players on the fallback order is used, and up to one
    hundred and twenty-five players it leaves the last match, slots 127 and 128,
    without any player. *)
Theorem fallback_leaves_empty_match n : 65 ≤ n ≤ 125 →
  table_size n None = Ok 128 ∧
  127 ∈ _bye_slots 128 (128 - n) ∧ 128 ∈ _bye_slots 128 (128 - n).
Proof.
  intros Hn.
  assert (Hall : forallb (λ n, bool_decide (table_size n None = Ok 128 ∧
    127 ∈ _bye_slots 128 (128 - n) ∧ 128 ∈ _bye_slots 128 (128 - n))) (py_range 65 126) = true).
  { vm_compute. reflexivity. }
  rewrite forallb_forall in Hall.
  specialize (Hall n ltac:(apply list_elem_of_In, elem_of_py_range; lia)).
  by apply bool_decide_eq_true in Hall.
Qed.

(** Whatever the random source returns, the search succeeds, its result is a
    rearrangement of the players, and for more than two players no attempted order
    is cheaper - the early exit at cost zero included. *)
Theorem best_order_is_cheapest randbelow players slots size attempts threshold history n seed :
  (length slots ≤ length players)%nat → 2 < zlen players →
  ∃ best c, _best_order_by_penalty_on_slots randbelow players slots size attempts threshold
      history n seed = Ok best ∧ best ≡ₚ players ∧
    _order_cost_for_slots n threshold history best slots size = Ok c ∧
    ∀ i, (i < Z.to_nat (Z.max 1 attempts))%nat →
      ∃ c', _order_cost_for_slots n threshold history
              (attempt_order randbelow players seed i) slots size = Ok c' ∧ c ≤ c'.
Proof.
  intros Hl H2.
  destruct (best_order_perm randbelow players slots size attempts threshold history n seed Hl)
    as (best & Hb & Hp & Hmin).
  exists best, (order_cost n threshold history slots size best). split_and!; try done.
  - apply order_cost_ok. by rewrite Hp.
  - intros i Hi. exists (order_cost n threshold history slots size
      (attempt_order randbelow players seed i)). split.
    + apply order_cost_ok. unfold attempt_order. by rewrite shuffle_perm.
    + by apply Hmin.
Qed.

(** ** Witnesses *)

Definition sample_entry (i club : Z) : Entry := mkEntry (100 + i) (Some i) (Some club) None.

(** A deterministic random source: always the largest admissible value. *)
Definition last_below : option string → nat → Z → Z := λ _ _ n, n - 1.

Lemma table_size_fits_witness :
  ∃ k, 2 ≤ k ∧ table_size 11 None = Ok (2 ^ k) ∧ 11 ≤ 2 ^ k ∧
       _is_pow2 (2 ^ k) = true ∧ (5 ≤ 11 → 2 ^ (k - 1) < 11).
Proof. apply table_size_fits. lia. Defined.

Lemma bye_slots_partition_witness :
  NoDup (_bye_slots 128 63) ∧ zlen (_bye_slots 128 63) = 63 ∧
  non_bye_slots_of 128 (_bye_slots 128 63) ++ _bye_slots 128 63 ≡ₚ py_range 1 (128 + 1) ∧
  _bye_slots 128 128 ≡ₚ py_range 1 (128 + 1).
Proof. apply bye_slots_partition; lia. Defined.

Lemma no_empty_match_upto_64_witness :
  7 ∈ py_range_step 1 16 2 ∧
  ¬ (7 ∈ _bye_slots 16 (16 - 11) ∧ 7 + 1 ∈ _bye_slots 16 (16 - 11)).
Proof.
  split; [refine (bool_decide_unpack _ _); vm_compute; exact I|].
  refine (no_empty_match_upto_64 11 16 _ _ 7 _).
  - lia.
  - vm_compute. reflexivity.
  - refine (bool_decide_unpack _ _). vm_compute. exact I.
Defined.

Lemma fallback_leaves_empty_match_witness :
  table_size 100 None = Ok 128 ∧
  127 ∈ _bye_slots 128 (128 - 100) ∧ 128 ∈ _bye_slots 128 (128 - 100).
Proof. apply fallback_leaves_empty_match. lia. Defined.

Lemma best_order_is_cheapest_witness :
  let players := [sample_entry 1 7; sample_entry 2 7; sample_entry 3 8; sample_entry 4 8] in
  ∃ best c, _best_order_by_penalty_on_slots last_below players [1; 2; 3; 4] 4 5 2
      {[(1, 3)]} 4 None = Ok best ∧ best ≡ₚ players ∧
    _order_cost_for_slots 4 2 {[(1, 3)]} best [1; 2; 3; 4] 4 = Ok c ∧
    ∀ i, (i < Z.to_nat (Z.max 1 5))%nat →
      ∃ c', _order_cost_for_slots 4 2 {[(1, 3)]}
              (attempt_order last_below players None i) [1; 2; 3; 4] 4 = Ok c' ∧ c ≤ c'.
Proof. apply best_order_is_cheapest; [cbn; lia|vm_compute; reflexivity]. Defined.
