(* ===== verification/Store.v ===== *)
(** The database: one record per model class of [accounts/models.py],
    [competitions/models.py] and [payments/models.py], one finite map per table,
    and the update functions the handlers use.

    Foreign keys are the referenced row's primary key; timestamps and dates are
    integers; a JSON column is the tree of its values.  [P] is the type of
    ranking points (a database double, see [Points]). *)

From Stdlib Require Import SpecFloat.
From S2P Require Import Prelude.
Local Open Scope Z_scope.

(** A JSON value, keys in insertion order. *)
Inductive json :=
  | JNull
  | JBool (b : bool)
  | JInt (z : Z)
  | JStr (s : string)
  | JList (l : list json)
  | JDict (l : list (string * json)).

(** ** accounts *)

(** [accounts.TkdBoard] *)
Record TkdBoard (P : Type) := mkTkdBoard {
  bo_name : string;
  bo_ranking_total : P;
}.
Arguments mkTkdBoard {P}.
Arguments bo_name {P} _.
Arguments bo_ranking_total {P} _.

Definition set_bo_ranking_total {P} (v : P) (r : TkdBoard P) : TkdBoard P := mkTkdBoard
  (r.(bo_name)) v.

(** [accounts.TkdClub] *)
Record TkdClub (P : Type) := mkTkdClub {
  cl_club_name : string;
  cl_tkd_board : option Z;
  cl_ranking_total : P;
  cl_gold_medals : Z;
  cl_silver_medals : Z;
  cl_bronze_medals : Z;
}.
Arguments mkTkdClub {P}.
Arguments cl_club_name {P} _.
Arguments cl_tkd_board {P} _.
Arguments cl_ranking_total {P} _.
Arguments cl_gold_medals {P} _.
Arguments cl_silver_medals {P} _.
Arguments cl_bronze_medals {P} _.

Definition set_cl_ranking_total {P} (v : P) (r : TkdClub P) : TkdClub P := mkTkdClub
  (r.(cl_club_name)) (r.(cl_tkd_board)) v (r.(cl_gold_medals)) (r.(cl_silver_medals))
  (r.(cl_bronze_medals)).

Definition set_cl_gold_medals {P} (v : Z) (r : TkdClub P) : TkdClub P := mkTkdClub
  (r.(cl_club_name)) (r.(cl_tkd_board)) (r.(cl_ranking_total)) v (r.(cl_silver_medals))
  (r.(cl_bronze_medals)).

Definition set_cl_silver_medals {P} (v : Z) (r : TkdClub P) : TkdClub P := mkTkdClub
  (r.(cl_club_name)) (r.(cl_tkd_board)) (r.(cl_ranking_total)) (r.(cl_gold_medals)) v
  (r.(cl_bronze_medals)).

Definition set_cl_bronze_medals {P} (v : Z) (r : TkdClub P) : TkdClub P := mkTkdClub
  (r.(cl_club_name)) (r.(cl_tkd_board)) (r.(cl_ranking_total)) (r.(cl_gold_medals))
  (r.(cl_silver_medals)) v.

(** [accounts.UserProfile] *)
Record UserProfile (P : Type) := mkUserProfile {
  up_first_name : string;
  up_last_name : string;
  up_is_coach : bool;
  up_role : string;
  up_gender : string;
  up_club : option Z;
  up_coach : option Z;
  up_tkd_board : option Z;
  up_ranking_competition : P;
  up_ranking_total : P;
  up_gold_medals : Z;
  up_silver_medals : Z;
  up_bronze_medals : Z;
}.
Arguments mkUserProfile {P}.
Arguments up_first_name {P} _.
Arguments up_last_name {P} _.
Arguments up_is_coach {P} _.
Arguments up_role {P} _.
Arguments up_gender {P} _.
Arguments up_club {P} _.
Arguments up_coach {P} _.
Arguments up_tkd_board {P} _.
Arguments up_ranking_competition {P} _.
Arguments up_ranking_total {P} _.
Arguments up_gold_medals {P} _.
Arguments up_silver_medals {P} _.
Arguments up_bronze_medals {P} _.

Definition set_up_ranking_competition {P} (v : P) (r : UserProfile P) : UserProfile P := mkUserProfile
  (r.(up_first_name)) (r.(up_last_name)) (r.(up_is_coach)) (r.(up_role)) (r.(up_gender))
  (r.(up_club)) (r.(up_coach)) (r.(up_tkd_board)) v (r.(up_ranking_total))
  (r.(up_gold_medals)) (r.(up_silver_medals)) (r.(up_bronze_medals)).

Definition set_up_ranking_total {P} (v : P) (r : UserProfile P) : UserProfile P := mkUserProfile
  (r.(up_first_name)) (r.(up_last_name)) (r.(up_is_coach)) (r.(up_role)) (r.(up_gender))
  (r.(up_club)) (r.(up_coach)) (r.(up_tkd_board)) (r.(up_ranking_competition)) v
  (r.(up_gold_medals)) (r.(up_silver_medals)) (r.(up_bronze_medals)).

Definition set_up_gold_medals {P} (v : Z) (r : UserProfile P) : UserProfile P := mkUserProfile
  (r.(up_first_name)) (r.(up_last_name)) (r.(up_is_coach)) (r.(up_role)) (r.(up_gender))
  (r.(up_club)) (r.(up_coach)) (r.(up_tkd_board)) (r.(up_ranking_competition))
  (r.(up_ranking_total)) v (r.(up_silver_medals)) (r.(up_bronze_medals)).

Definition set_up_silver_medals {P} (v : Z) (r : UserProfile P) : UserProfile P := mkUserProfile
  (r.(up_first_name)) (r.(up_last_name)) (r.(up_is_coach)) (r.(up_role)) (r.(up_gender))
  (r.(up_club)) (r.(up_coach)) (r.(up_tkd_board)) (r.(up_ranking_competition))
  (r.(up_ranking_total)) (r.(up_gold_medals)) v (r.(up_bronze_medals)).

Definition set_up_bronze_medals {P} (v : Z) (r : UserProfile P) : UserProfile P := mkUserProfile
  (r.(up_first_name)) (r.(up_last_name)) (r.(up_is_coach)) (r.(up_role)) (r.(up_gender))
  (r.(up_club)) (r.(up_coach)) (r.(up_tkd_board)) (r.(up_ranking_competition))
  (r.(up_ranking_total)) (r.(up_gold_medals)) (r.(up_silver_medals)) v.

(** ** competitions *)

(** [competitions.WeightCategory] *)
Record WeightCategory := mkWeightCategory {
  wc_name : string;
  wc_gender : string;
  wc_min_weight : spec_float;
  wc_max_weight : spec_float;
  wc_tolerance : spec_float;
}.

(** [competitions.KyorugiCompetition]: the columns the modelled code reads. *)
Record KyorugiCompetition := mkKyorugiCompetition {
  kc_title : string;
  kc_entry_fee : Z;
  kc_age_category : option Z;
  kc_gender : string;
  kc_registration_manual : option bool;
  kc_registration_start : Z;
  kc_registration_end : Z;
  kc_weigh_date : Z;
  kc_draw_date : Z;
  kc_competition_date : Z;
  kc_mat_count : Z;
  kc_bracket_published_at : option Z;
  kc_public_id : string;
}.

Definition set_kc_bracket_published_at (v : option Z) (r : KyorugiCompetition) : KyorugiCompetition := mkKyorugiCompetition
  (r.(kc_title)) (r.(kc_entry_fee)) (r.(kc_age_category)) (r.(kc_gender))
  (r.(kc_registration_manual)) (r.(kc_registration_start)) (r.(kc_registration_end))
  (r.(kc_weigh_date)) (r.(kc_draw_date)) (r.(kc_competition_date)) (r.(kc_mat_count)) v
  (r.(kc_public_id)).

(** [competitions.MatAssignment], in primary-key order in the table. *)
Record MatAssignment := mkMatAssignment {
  ma_competition : Z;
  ma_mat_number : Z;
  ma_weights : list Z;
}.

(** [competitions.Enrollment] *)
Record Enrollment := mkEnrollment {
  en_competition : Z;
  en_player : Z;
  en_coach : option Z;
  en_coach_name : string;
  en_coach_approval_code : string;
  en_club : option Z;
  en_club_name : string;
  en_board : option Z;
  en_board_name : string;
  en_belt_group : option Z;
  en_weight_category : option Z;
  en_declared_weight : spec_float;
  en_insurance_number : string;
  en_insurance_issue_date : Z;
  en_status : string;
  en_is_paid : bool;
  en_paid_amount : Z;
  en_bank_ref_code : string;
  en_paid_at : option Z;
  en_medal : string;
  en_discount_code : option string;
  en_discount_amount : Z;
  en_payable_amount : Z;
  en_discount_redeemed : bool;
  en_enrollments_created : bool;
}.

Definition set_en_status (v : string) (r : Enrollment) : Enrollment := mkEnrollment
  (r.(en_competition)) (r.(en_player)) (r.(en_coach)) (r.(en_coach_name))
  (r.(en_coach_approval_code)) (r.(en_club)) (r.(en_club_name)) (r.(en_board))
  (r.(en_board_name)) (r.(en_belt_group)) (r.(en_weight_category))
  (r.(en_declared_weight)) (r.(en_insurance_number)) (r.(en_insurance_issue_date)) v
  (r.(en_is_paid)) (r.(en_paid_amount)) (r.(en_bank_ref_code)) (r.(en_paid_at))
  (r.(en_medal)) (r.(en_discount_code)) (r.(en_discount_amount)) (r.(en_payable_amount))
  (r.(en_discount_redeemed)) (r.(en_enrollments_created)).

Definition set_en_is_paid (v : bool) (r : Enrollment) : Enrollment := mkEnrollment
  (r.(en_competition)) (r.(en_player)) (r.(en_coach)) (r.(en_coach_name))
  (r.(en_coach_approval_code)) (r.(en_club)) (r.(en_club_name)) (r.(en_board))
  (r.(en_board_name)) (r.(en_belt_group)) (r.(en_weight_category))
  (r.(en_declared_weight)) (r.(en_insurance_number)) (r.(en_insurance_issue_date))
  (r.(en_status)) v (r.(en_paid_amount)) (r.(en_bank_ref_code)) (r.(en_paid_at))
  (r.(en_medal)) (r.(en_discount_code)) (r.(en_discount_amount)) (r.(en_payable_amount))
  (r.(en_discount_redeemed)) (r.(en_enrollments_created)).

Definition set_en_paid_amount (v : Z) (r : Enrollment) : Enrollment := mkEnrollment
  (r.(en_competition)) (r.(en_player)) (r.(en_coach)) (r.(en_coach_name))
  (r.(en_coach_approval_code)) (r.(en_club)) (r.(en_club_name)) (r.(en_board))
  (r.(en_board_name)) (r.(en_belt_group)) (r.(en_weight_category))
  (r.(en_declared_weight)) (r.(en_insurance_number)) (r.(en_insurance_issue_date))
  (r.(en_status)) (r.(en_is_paid)) v (r.(en_bank_ref_code)) (r.(en_paid_at))
  (r.(en_medal)) (r.(en_discount_code)) (r.(en_discount_amount)) (r.(en_payable_amount))
  (r.(en_discount_redeemed)) (r.(en_enrollments_created)).

Definition set_en_bank_ref_code (v : string) (r : Enrollment) : Enrollment := mkEnrollment
  (r.(en_competition)) (r.(en_player)) (r.(en_coach)) (r.(en_coach_name))
  (r.(en_coach_approval_code)) (r.(en_club)) (r.(en_club_name)) (r.(en_board))
  (r.(en_board_name)) (r.(en_belt_group)) (r.(en_weight_category))
  (r.(en_declared_weight)) (r.(en_insurance_number)) (r.(en_insurance_issue_date))
  (r.(en_status)) (r.(en_is_paid)) (r.(en_paid_amount)) v (r.(en_paid_at))
  (r.(en_medal)) (r.(en_discount_code)) (r.(en_discount_amount)) (r.(en_payable_amount))
  (r.(en_discount_redeemed)) (r.(en_enrollments_created)).

Definition set_en_paid_at (v : option Z) (r : Enrollment) : Enrollment := mkEnrollment
  (r.(en_competition)) (r.(en_player)) (r.(en_coach)) (r.(en_coach_name))
  (r.(en_coach_approval_code)) (r.(en_club)) (r.(en_club_name)) (r.(en_board))
  (r.(en_board_name)) (r.(en_belt_group)) (r.(en_weight_category))
  (r.(en_declared_weight)) (r.(en_insurance_number)) (r.(en_insurance_issue_date))
  (r.(en_status)) (r.(en_is_paid)) (r.(en_paid_amount)) (r.(en_bank_ref_code)) v
  (r.(en_medal)) (r.(en_discount_code)) (r.(en_discount_amount)) (r.(en_payable_amount))
  (r.(en_discount_redeemed)) (r.(en_enrollments_created)).

Definition set_en_medal (v : string) (r : Enrollment) : Enrollment := mkEnrollment
  (r.(en_competition)) (r.(en_player)) (r.(en_coach)) (r.(en_coach_name))
  (r.(en_coach_approval_code)) (r.(en_club)) (r.(en_club_name)) (r.(en_board))
  (r.(en_board_name)) (r.(en_belt_group)) (r.(en_weight_category))
  (r.(en_declared_weight)) (r.(en_insurance_number)) (r.(en_insurance_issue_date))
  (r.(en_status)) (r.(en_is_paid)) (r.(en_paid_amount)) (r.(en_bank_ref_code))
  (r.(en_paid_at)) v (r.(en_discount_code)) (r.(en_discount_amount))
  (r.(en_payable_amount)) (r.(en_discount_redeemed)) (r.(en_enrollments_created)).

(** [competitions.Draw] *)
Record Draw := mkDraw {
  dr_competition : Z;
  dr_gender : string;
  dr_age_category : option Z;
  dr_belt_group : Z;
  dr_weight_category : Z;
  dr_size : Z;
  dr_club_threshold : Z;
  dr_rng_seed : string;
  dr_is_locked : bool;
  dr_created_at : Z;
}.

(** [competitions.Match] *)
Record Match := mkMatch {
  mt_draw : Z;
  mt_round_no : Z;
  mt_slot_a : Z;
  mt_slot_b : Z;
  mt_player_a : option Z;
  mt_player_b : option Z;
  mt_is_bye : bool;
  mt_winner : option Z;
  mt_mat_no : option Z;
  mt_match_number : option Z;
  mt_scheduled_at : option Z;
}.

Definition set_mt_is_bye (v : bool) (r : Match) : Match := mkMatch
  (r.(mt_draw)) (r.(mt_round_no)) (r.(mt_slot_a)) (r.(mt_slot_b)) (r.(mt_player_a))
  (r.(mt_player_b)) v (r.(mt_winner)) (r.(mt_mat_no)) (r.(mt_match_number))
  (r.(mt_scheduled_at)).

Definition set_mt_mat_no (v : option Z) (r : Match) : Match := mkMatch
  (r.(mt_draw)) (r.(mt_round_no)) (r.(mt_slot_a)) (r.(mt_slot_b)) (r.(mt_player_a))
  (r.(mt_player_b)) (r.(mt_is_bye)) (r.(mt_winner)) v (r.(mt_match_number))
  (r.(mt_scheduled_at)).

Definition set_mt_match_number (v : option Z) (r : Match) : Match := mkMatch
  (r.(mt_draw)) (r.(mt_round_no)) (r.(mt_slot_a)) (r.(mt_slot_b)) (r.(mt_player_a))
  (r.(mt_player_b)) (r.(mt_is_bye)) (r.(mt_winner)) (r.(mt_mat_no)) v
  (r.(mt_scheduled_at)).

(** [competitions.FirstRoundPairHistory] *)
Record PairHistory := mkPairHistory {
  ph_player_a : Z;
  ph_player_b : Z;
  ph_gender : string;
  ph_age_category : Z;
  ph_belt_group : Z;
  ph_weight_category : Z;
  ph_last_competition : option Z;
  ph_last_met_at : Z;
}.

(** [competitions.RankingAward], keyed by the enrollment it belongs to. *)
Record RankingAward (P : Type) := mkRankingAward {
  aw_player : option Z;
  aw_coach : option Z;
  aw_club : option Z;
  aw_board : option Z;
  aw_player_name : string;
  aw_coach_name : string;
  aw_club_name : string;
  aw_board_name : string;
  aw_points_player : P;
  aw_points_coach : P;
  aw_points_club : P;
  aw_points_board : P;
}.
Arguments mkRankingAward {P}.
Arguments aw_player {P} _.
Arguments aw_coach {P} _.
Arguments aw_club {P} _.
Arguments aw_board {P} _.
Arguments aw_player_name {P} _.
Arguments aw_coach_name {P} _.
Arguments aw_club_name {P} _.
Arguments aw_board_name {P} _.
Arguments aw_points_player {P} _.
Arguments aw_points_coach {P} _.
Arguments aw_points_club {P} _.
Arguments aw_points_board {P} _.

(** [competitions.KyorugiResult] *)
Record KyorugiResult := mkKyorugiResult {
  re_competition : Z;
  re_weight_category : Z;
  re_gold : option Z;
  re_silver : option Z;
  re_bronze1 : option Z;
  re_bronze2 : option Z;
  re_notes : string;
  re_created_by : option Z;
}.

(** [RankingTransaction.SUBJECT_CHOICES] *)
Inductive subject := SUBJECT_PLAYER | SUBJECT_COACH | SUBJECT_CLUB | SUBJECT_BOARD.

#[export] Instance subject_eq_dec : EqDecision subject.
Proof. solve_decision. Defined.

(** [competitions.RankingTransaction] *)
Record RankingTransaction (P : Type) := mkRankingTransaction {
  tx_competition : Z;
  tx_result : Z;
  tx_subject_type : subject;
  tx_subject_id : Z;
  tx_medal : string;
  tx_points : P;
}.
Arguments mkRankingTransaction {P}.
Arguments tx_competition {P} _.
Arguments tx_result {P} _.
Arguments tx_subject_type {P} _.
Arguments tx_subject_id {P} _.
Arguments tx_medal {P} _.
Arguments tx_points {P} _.

(** [competitions.Seminar]: the columns the modelled code reads. *)
Record Seminar := mkSeminar {
  se_title : string;
  se_registration_start : Z;
  se_registration_end : Z;
  se_event_date : Z;
  se_fee : Z;
  se_allowed_roles : list string;
}.

(** [competitions.SeminarRegistration] *)
Record SeminarRegistration := mkSeminarRegistration {
  sr_seminar : Z;
  sr_user : Z;
  sr_roles : list string;
  sr_phone : string;
  sr_note : string;
  sr_is_paid : bool;
  sr_paid_amount : Z;
  sr_bank_ref_code : string;
  sr_paid_at : option Z;
  sr_discount_code : option string;
  sr_discount_amount : Z;
  sr_payable_amount : Z;
  sr_discount_redeemed : bool;
}.

Definition set_sr_is_paid (v : bool) (r : SeminarRegistration) : SeminarRegistration := mkSeminarRegistration
  (r.(sr_seminar)) (r.(sr_user)) (r.(sr_roles)) (r.(sr_phone)) (r.(sr_note)) v
  (r.(sr_paid_amount)) (r.(sr_bank_ref_code)) (r.(sr_paid_at)) (r.(sr_discount_code))
  (r.(sr_discount_amount)) (r.(sr_payable_amount)) (r.(sr_discount_redeemed)).

Definition set_sr_paid_amount (v : Z) (r : SeminarRegistration) : SeminarRegistration := mkSeminarRegistration
  (r.(sr_seminar)) (r.(sr_user)) (r.(sr_roles)) (r.(sr_phone)) (r.(sr_note))
  (r.(sr_is_paid)) v (r.(sr_bank_ref_code)) (r.(sr_paid_at)) (r.(sr_discount_code))
  (r.(sr_discount_amount)) (r.(sr_payable_amount)) (r.(sr_discount_redeemed)).

Definition set_sr_bank_ref_code (v : string) (r : SeminarRegistration) : SeminarRegistration := mkSeminarRegistration
  (r.(sr_seminar)) (r.(sr_user)) (r.(sr_roles)) (r.(sr_phone)) (r.(sr_note))
  (r.(sr_is_paid)) (r.(sr_paid_amount)) v (r.(sr_paid_at)) (r.(sr_discount_code))
  (r.(sr_discount_amount)) (r.(sr_payable_amount)) (r.(sr_discount_redeemed)).

Definition set_sr_paid_at (v : option Z) (r : SeminarRegistration) : SeminarRegistration := mkSeminarRegistration
  (r.(sr_seminar)) (r.(sr_user)) (r.(sr_roles)) (r.(sr_phone)) (r.(sr_note))
  (r.(sr_is_paid)) (r.(sr_paid_amount)) (r.(sr_bank_ref_code)) v (r.(sr_discount_code))
  (r.(sr_discount_amount)) (r.(sr_payable_amount)) (r.(sr_discount_redeemed)).

(** [competitions.PoomsaeCompetition]: the columns the modelled code reads. *)
Record PoomsaeCompetition := mkPoomsaeCompetition {
  pc_name : string;
  pc_registration_manual : option bool;
  pc_start_date : Z;
  pc_end_date : Z;
  pc_registration_start : Z;
  pc_registration_end : Z;
  pc_competition_date : option Z;
  pc_entry_fee : Z;
  pc_mat_count : Z;
  pc_public_id : string;
}.

(** [competitions.PoomsaeEnrollment] *)
Record PoomsaeEnrollment := mkPoomsaeEnrollment {
  pe_competition : Z;
  pe_player : option Z;
  pe_coach : option Z;
  pe_coach_name : string;
  pe_coach_approval_code : string;
  pe_club : option Z;
  pe_club_name : string;
  pe_board : option Z;
  pe_board_name : string;
  pe_belt_group : option Z;
  pe_age_category : option Z;
  pe_poomsae_type : string;
  pe_mode : string;
  pe_insurance_number : string;
  pe_insurance_issue_date : Z;
  pe_team : option Z;
  pe_status : string;
  pe_is_paid : bool;
  pe_paid_amount : Z;
  pe_bank_ref_code : string;
  pe_paid_at : option Z;
}.

Definition set_pe_coach_name (v : string) (r : PoomsaeEnrollment) : PoomsaeEnrollment := mkPoomsaeEnrollment
  (r.(pe_competition)) (r.(pe_player)) (r.(pe_coach)) v (r.(pe_coach_approval_code))
  (r.(pe_club)) (r.(pe_club_name)) (r.(pe_board)) (r.(pe_board_name))
  (r.(pe_belt_group)) (r.(pe_age_category)) (r.(pe_poomsae_type)) (r.(pe_mode))
  (r.(pe_insurance_number)) (r.(pe_insurance_issue_date)) (r.(pe_team)) (r.(pe_status))
  (r.(pe_is_paid)) (r.(pe_paid_amount)) (r.(pe_bank_ref_code)) (r.(pe_paid_at)).

Definition set_pe_club (v : option Z) (r : PoomsaeEnrollment) : PoomsaeEnrollment := mkPoomsaeEnrollment
  (r.(pe_competition)) (r.(pe_player)) (r.(pe_coach)) (r.(pe_coach_name))
  (r.(pe_coach_approval_code)) v (r.(pe_club_name)) (r.(pe_board)) (r.(pe_board_name))
  (r.(pe_belt_group)) (r.(pe_age_category)) (r.(pe_poomsae_type)) (r.(pe_mode))
  (r.(pe_insurance_number)) (r.(pe_insurance_issue_date)) (r.(pe_team)) (r.(pe_status))
  (r.(pe_is_paid)) (r.(pe_paid_amount)) (r.(pe_bank_ref_code)) (r.(pe_paid_at)).

Definition set_pe_club_name (v : string) (r : PoomsaeEnrollment) : PoomsaeEnrollment := mkPoomsaeEnrollment
  (r.(pe_competition)) (r.(pe_player)) (r.(pe_coach)) (r.(pe_coach_name))
  (r.(pe_coach_approval_code)) (r.(pe_club)) v (r.(pe_board)) (r.(pe_board_name))
  (r.(pe_belt_group)) (r.(pe_age_category)) (r.(pe_poomsae_type)) (r.(pe_mode))
  (r.(pe_insurance_number)) (r.(pe_insurance_issue_date)) (r.(pe_team)) (r.(pe_status))
  (r.(pe_is_paid)) (r.(pe_paid_amount)) (r.(pe_bank_ref_code)) (r.(pe_paid_at)).

Definition set_pe_board (v : option Z) (r : PoomsaeEnrollment) : PoomsaeEnrollment := mkPoomsaeEnrollment
  (r.(pe_competition)) (r.(pe_player)) (r.(pe_coach)) (r.(pe_coach_name))
  (r.(pe_coach_approval_code)) (r.(pe_club)) (r.(pe_club_name)) v (r.(pe_board_name))
  (r.(pe_belt_group)) (r.(pe_age_category)) (r.(pe_poomsae_type)) (r.(pe_mode))
  (r.(pe_insurance_number)) (r.(pe_insurance_issue_date)) (r.(pe_team)) (r.(pe_status))
  (r.(pe_is_paid)) (r.(pe_paid_amount)) (r.(pe_bank_ref_code)) (r.(pe_paid_at)).

Definition set_pe_board_name (v : string) (r : PoomsaeEnrollment) : PoomsaeEnrollment := mkPoomsaeEnrollment
  (r.(pe_competition)) (r.(pe_player)) (r.(pe_coach)) (r.(pe_coach_name))
  (r.(pe_coach_approval_code)) (r.(pe_club)) (r.(pe_club_name)) (r.(pe_board)) v
  (r.(pe_belt_group)) (r.(pe_age_category)) (r.(pe_poomsae_type)) (r.(pe_mode))
  (r.(pe_insurance_number)) (r.(pe_insurance_issue_date)) (r.(pe_team)) (r.(pe_status))
  (r.(pe_is_paid)) (r.(pe_paid_amount)) (r.(pe_bank_ref_code)) (r.(pe_paid_at)).

Definition set_pe_status (v : string) (r : PoomsaeEnrollment) : PoomsaeEnrollment := mkPoomsaeEnrollment
  (r.(pe_competition)) (r.(pe_player)) (r.(pe_coach)) (r.(pe_coach_name))
  (r.(pe_coach_approval_code)) (r.(pe_club)) (r.(pe_club_name)) (r.(pe_board))
  (r.(pe_board_name)) (r.(pe_belt_group)) (r.(pe_age_category)) (r.(pe_poomsae_type))
  (r.(pe_mode)) (r.(pe_insurance_number)) (r.(pe_insurance_issue_date)) (r.(pe_team)) v
  (r.(pe_is_paid)) (r.(pe_paid_amount)) (r.(pe_bank_ref_code)) (r.(pe_paid_at)).

Definition set_pe_is_paid (v : bool) (r : PoomsaeEnrollment) : PoomsaeEnrollment := mkPoomsaeEnrollment
  (r.(pe_competition)) (r.(pe_player)) (r.(pe_coach)) (r.(pe_coach_name))
  (r.(pe_coach_approval_code)) (r.(pe_club)) (r.(pe_club_name)) (r.(pe_board))
  (r.(pe_board_name)) (r.(pe_belt_group)) (r.(pe_age_category)) (r.(pe_poomsae_type))
  (r.(pe_mode)) (r.(pe_insurance_number)) (r.(pe_insurance_issue_date)) (r.(pe_team))
  (r.(pe_status)) v (r.(pe_paid_amount)) (r.(pe_bank_ref_code)) (r.(pe_paid_at)).

Definition set_pe_paid_amount (v : Z) (r : PoomsaeEnrollment) : PoomsaeEnrollment := mkPoomsaeEnrollment
  (r.(pe_competition)) (r.(pe_player)) (r.(pe_coach)) (r.(pe_coach_name))
  (r.(pe_coach_approval_code)) (r.(pe_club)) (r.(pe_club_name)) (r.(pe_board))
  (r.(pe_board_name)) (r.(pe_belt_group)) (r.(pe_age_category)) (r.(pe_poomsae_type))
  (r.(pe_mode)) (r.(pe_insurance_number)) (r.(pe_insurance_issue_date)) (r.(pe_team))
  (r.(pe_status)) (r.(pe_is_paid)) v (r.(pe_bank_ref_code)) (r.(pe_paid_at)).

Definition set_pe_bank_ref_code (v : string) (r : PoomsaeEnrollment) : PoomsaeEnrollment := mkPoomsaeEnrollment
  (r.(pe_competition)) (r.(pe_player)) (r.(pe_coach)) (r.(pe_coach_name))
  (r.(pe_coach_approval_code)) (r.(pe_club)) (r.(pe_club_name)) (r.(pe_board))
  (r.(pe_board_name)) (r.(pe_belt_group)) (r.(pe_age_category)) (r.(pe_poomsae_type))
  (r.(pe_mode)) (r.(pe_insurance_number)) (r.(pe_insurance_issue_date)) (r.(pe_team))
  (r.(pe_status)) (r.(pe_is_paid)) (r.(pe_paid_amount)) v (r.(pe_paid_at)).

(** [competitions.PoomsaeTeam] *)
Record PoomsaeTeam := mkPoomsaeTeam {
  pt_competition : Z;
  pt_coach : Z;
  pt_name : string;
  pt_style : string;
}.

(** One item of the [items] list of a group payment's [payload]. *)
Record GroupItem := mkGroupItem {
  gi_player_id : Z;
  gi_club_id : option Z;
  gi_club_name : string;
  gi_board_id : option Z;
  gi_board_name : string;
  gi_belt_group_id : option Z;
  gi_weight_category_id : option Z;
  gi_declared_weight : option spec_float;
  gi_insurance_number : string;
  gi_insurance_issue_date : option Z;
}.

(** [competitions.GroupRegistrationPayment]; the [payload] keys the code uses are
    columns of their own, [None] for an absent key. *)
Record GroupRegistrationPayment := mkGroupRegistrationPayment {
  gp_coach : Z;
  gp_competition : Z;
  gp_items : list GroupItem;
  gp_payable_amount : option Z;
  gp_discount_code : option string;
  gp_enrollment_ids : option (list Z);
  gp_paid_at : option Z;
  gp_total_amount : Z;
  gp_is_paid : bool;
  gp_bank_ref_code : option string;
}.

(** [DiscountCodeType] *)
Inductive discount_type := COACH_GROUP | STUDENT.

(** [competitions.DiscountCode] *)
Record DiscountCode := mkDiscountCode {
  dc_code : string;
  dc_coach : Z;
  dc_type : discount_type;
  dc_percent : Z;
  dc_competition : option Z;
  dc_poomsae_competition : option Z;
  dc_seminar : option Z;
  dc_max_uses : option Z;
  dc_used_count : Z;
  dc_active : bool;
}.

Definition set_dc_used_count (v : Z) (r : DiscountCode) : DiscountCode := mkDiscountCode
  (r.(dc_code)) (r.(dc_coach)) (r.(dc_type)) (r.(dc_percent)) (r.(dc_competition))
  (r.(dc_poomsae_competition)) (r.(dc_seminar)) (r.(dc_max_uses)) v (r.(dc_active)).

Definition set_dc_active (v : bool) (r : DiscountCode) : DiscountCode := mkDiscountCode
  (r.(dc_code)) (r.(dc_coach)) (r.(dc_type)) (r.(dc_percent)) (r.(dc_competition))
  (r.(dc_poomsae_competition)) (r.(dc_seminar)) (r.(dc_max_uses)) (r.(dc_used_count)) v.

(** ** payments *)

(** [PaymentIntent.STATUS_CHOICES]; the column itself is free text. *)
Inductive intent_status := St_initiated | St_redirected | St_paid | St_failed | St_other (s : string).

#[export] Instance intent_status_eq_dec : EqDecision intent_status.
Proof. solve_decision. Defined.

(** [payments.PaymentIntent] *)
Record PaymentIntent := mkPaymentIntent {
  pi_public_id : string;
  pi_user : option Z;
  pi_gateway : string;
  pi_status : intent_status;
  pi_competition : option Z;
  pi_amount : Z;
  pi_original_amount : Z;
  pi_discount_amount : Z;
  pi_discount_code : option Z;
  pi_description : string;
  pi_callback_url : string;
  pi_token : string;
  pi_ref_id : string;
  pi_card_pan : string;
  pi_extra : json;
  pi_initiator_ip : option string;
  pi_user_agent : string;
  pi_payment_link_token : string;
  pi_payment_link_expires_at : option Z;
  pi_kyorugi_enrollments : list Z;
  pi_kyorugi_enrollment : option Z;
  pi_poomsae_enrollment : option Z;
  pi_seminar_registration : option Z;
}.

Definition set_pi_gateway (v : string) (r : PaymentIntent) : PaymentIntent := mkPaymentIntent
  (r.(pi_public_id)) (r.(pi_user)) v (r.(pi_status)) (r.(pi_competition))
  (r.(pi_amount)) (r.(pi_original_amount)) (r.(pi_discount_amount))
  (r.(pi_discount_code)) (r.(pi_description)) (r.(pi_callback_url)) (r.(pi_token))
  (r.(pi_ref_id)) (r.(pi_card_pan)) (r.(pi_extra)) (r.(pi_initiator_ip))
  (r.(pi_user_agent)) (r.(pi_payment_link_token)) (r.(pi_payment_link_expires_at))
  (r.(pi_kyorugi_enrollments)) (r.(pi_kyorugi_enrollment)) (r.(pi_poomsae_enrollment))
  (r.(pi_seminar_registration)).

Definition set_pi_discount_code (v : option Z) (r : PaymentIntent) : PaymentIntent := mkPaymentIntent
  (r.(pi_public_id)) (r.(pi_user)) (r.(pi_gateway)) (r.(pi_status)) (r.(pi_competition))
  (r.(pi_amount)) (r.(pi_original_amount)) (r.(pi_discount_amount))
  v (r.(pi_description)) (r.(pi_callback_url)) (r.(pi_token))
  (r.(pi_ref_id)) (r.(pi_card_pan)) (r.(pi_extra)) (r.(pi_initiator_ip))
  (r.(pi_user_agent)) (r.(pi_payment_link_token)) (r.(pi_payment_link_expires_at))
  (r.(pi_kyorugi_enrollments)) (r.(pi_kyorugi_enrollment)) (r.(pi_poomsae_enrollment))
  (r.(pi_seminar_registration)).

Definition set_pi_discount_amount (v : Z) (r : PaymentIntent) : PaymentIntent := mkPaymentIntent
  (r.(pi_public_id)) (r.(pi_user)) (r.(pi_gateway)) (r.(pi_status)) (r.(pi_competition))
  (r.(pi_amount)) (r.(pi_original_amount)) v
  (r.(pi_discount_code)) (r.(pi_description)) (r.(pi_callback_url)) (r.(pi_token))
  (r.(pi_ref_id)) (r.(pi_card_pan)) (r.(pi_extra)) (r.(pi_initiator_ip))
  (r.(pi_user_agent)) (r.(pi_payment_link_token)) (r.(pi_payment_link_expires_at))
  (r.(pi_kyorugi_enrollments)) (r.(pi_kyorugi_enrollment)) (r.(pi_poomsae_enrollment))
  (r.(pi_seminar_registration)).

Definition set_pi_status (v : intent_status) (r : PaymentIntent) : PaymentIntent := mkPaymentIntent
  (r.(pi_public_id)) (r.(pi_user)) (r.(pi_gateway)) v (r.(pi_competition))
  (r.(pi_amount)) (r.(pi_original_amount)) (r.(pi_discount_amount))
  (r.(pi_discount_code)) (r.(pi_description)) (r.(pi_callback_url)) (r.(pi_token))
  (r.(pi_ref_id)) (r.(pi_card_pan)) (r.(pi_extra)) (r.(pi_initiator_ip))
  (r.(pi_user_agent)) (r.(pi_payment_link_token)) (r.(pi_payment_link_expires_at))
  (r.(pi_kyorugi_enrollments)) (r.(pi_kyorugi_enrollment)) (r.(pi_poomsae_enrollment))
  (r.(pi_seminar_registration)).

Definition set_pi_callback_url (v : string) (r : PaymentIntent) : PaymentIntent := mkPaymentIntent
  (r.(pi_public_id)) (r.(pi_user)) (r.(pi_gateway)) (r.(pi_status)) (r.(pi_competition))
  (r.(pi_amount)) (r.(pi_original_amount)) (r.(pi_discount_amount))
  (r.(pi_discount_code)) (r.(pi_description)) v (r.(pi_token)) (r.(pi_ref_id))
  (r.(pi_card_pan)) (r.(pi_extra)) (r.(pi_initiator_ip)) (r.(pi_user_agent))
  (r.(pi_payment_link_token)) (r.(pi_payment_link_expires_at))
  (r.(pi_kyorugi_enrollments)) (r.(pi_kyorugi_enrollment)) (r.(pi_poomsae_enrollment))
  (r.(pi_seminar_registration)).

Definition set_pi_token (v : string) (r : PaymentIntent) : PaymentIntent := mkPaymentIntent
  (r.(pi_public_id)) (r.(pi_user)) (r.(pi_gateway)) (r.(pi_status)) (r.(pi_competition))
  (r.(pi_amount)) (r.(pi_original_amount)) (r.(pi_discount_amount))
  (r.(pi_discount_code)) (r.(pi_description)) (r.(pi_callback_url)) v (r.(pi_ref_id))
  (r.(pi_card_pan)) (r.(pi_extra)) (r.(pi_initiator_ip)) (r.(pi_user_agent))
  (r.(pi_payment_link_token)) (r.(pi_payment_link_expires_at))
  (r.(pi_kyorugi_enrollments)) (r.(pi_kyorugi_enrollment)) (r.(pi_poomsae_enrollment))
  (r.(pi_seminar_registration)).

Definition set_pi_ref_id (v : string) (r : PaymentIntent) : PaymentIntent := mkPaymentIntent
  (r.(pi_public_id)) (r.(pi_user)) (r.(pi_gateway)) (r.(pi_status)) (r.(pi_competition))
  (r.(pi_amount)) (r.(pi_original_amount)) (r.(pi_discount_amount))
  (r.(pi_discount_code)) (r.(pi_description)) (r.(pi_callback_url)) (r.(pi_token)) v
  (r.(pi_card_pan)) (r.(pi_extra)) (r.(pi_initiator_ip)) (r.(pi_user_agent))
  (r.(pi_payment_link_token)) (r.(pi_payment_link_expires_at))
  (r.(pi_kyorugi_enrollments)) (r.(pi_kyorugi_enrollment)) (r.(pi_poomsae_enrollment))
  (r.(pi_seminar_registration)).

Definition set_pi_card_pan (v : string) (r : PaymentIntent) : PaymentIntent := mkPaymentIntent
  (r.(pi_public_id)) (r.(pi_user)) (r.(pi_gateway)) (r.(pi_status)) (r.(pi_competition))
  (r.(pi_amount)) (r.(pi_original_amount)) (r.(pi_discount_amount))
  (r.(pi_discount_code)) (r.(pi_description)) (r.(pi_callback_url)) (r.(pi_token))
  (r.(pi_ref_id)) v (r.(pi_extra)) (r.(pi_initiator_ip)) (r.(pi_user_agent))
  (r.(pi_payment_link_token)) (r.(pi_payment_link_expires_at))
  (r.(pi_kyorugi_enrollments)) (r.(pi_kyorugi_enrollment)) (r.(pi_poomsae_enrollment))
  (r.(pi_seminar_registration)).

Definition set_pi_extra (v : json) (r : PaymentIntent) : PaymentIntent := mkPaymentIntent
  (r.(pi_public_id)) (r.(pi_user)) (r.(pi_gateway)) (r.(pi_status)) (r.(pi_competition))
  (r.(pi_amount)) (r.(pi_original_amount)) (r.(pi_discount_amount))
  (r.(pi_discount_code)) (r.(pi_description)) (r.(pi_callback_url)) (r.(pi_token))
  (r.(pi_ref_id)) (r.(pi_card_pan)) v (r.(pi_initiator_ip)) (r.(pi_user_agent))
  (r.(pi_payment_link_token)) (r.(pi_payment_link_expires_at))
  (r.(pi_kyorugi_enrollments)) (r.(pi_kyorugi_enrollment)) (r.(pi_poomsae_enrollment))
  (r.(pi_seminar_registration)).

Definition set_pi_initiator_ip (v : option string) (r : PaymentIntent) : PaymentIntent := mkPaymentIntent
  (r.(pi_public_id)) (r.(pi_user)) (r.(pi_gateway)) (r.(pi_status)) (r.(pi_competition))
  (r.(pi_amount)) (r.(pi_original_amount)) (r.(pi_discount_amount))
  (r.(pi_discount_code)) (r.(pi_description)) (r.(pi_callback_url)) (r.(pi_token))
  (r.(pi_ref_id)) (r.(pi_card_pan)) (r.(pi_extra)) v (r.(pi_user_agent))
  (r.(pi_payment_link_token)) (r.(pi_payment_link_expires_at))
  (r.(pi_kyorugi_enrollments)) (r.(pi_kyorugi_enrollment)) (r.(pi_poomsae_enrollment))
  (r.(pi_seminar_registration)).

Definition set_pi_user_agent (v : string) (r : PaymentIntent) : PaymentIntent := mkPaymentIntent
  (r.(pi_public_id)) (r.(pi_user)) (r.(pi_gateway)) (r.(pi_status)) (r.(pi_competition))
  (r.(pi_amount)) (r.(pi_original_amount)) (r.(pi_discount_amount))
  (r.(pi_discount_code)) (r.(pi_description)) (r.(pi_callback_url)) (r.(pi_token))
  (r.(pi_ref_id)) (r.(pi_card_pan)) (r.(pi_extra)) (r.(pi_initiator_ip)) v
  (r.(pi_payment_link_token)) (r.(pi_payment_link_expires_at))
  (r.(pi_kyorugi_enrollments)) (r.(pi_kyorugi_enrollment)) (r.(pi_poomsae_enrollment))
  (r.(pi_seminar_registration)).

Definition set_pi_payment_link_token (v : string) (r : PaymentIntent) : PaymentIntent := mkPaymentIntent
  (r.(pi_public_id)) (r.(pi_user)) (r.(pi_gateway)) (r.(pi_status)) (r.(pi_competition))
  (r.(pi_amount)) (r.(pi_original_amount)) (r.(pi_discount_amount))
  (r.(pi_discount_code)) (r.(pi_description)) (r.(pi_callback_url)) (r.(pi_token))
  (r.(pi_ref_id)) (r.(pi_card_pan)) (r.(pi_extra)) (r.(pi_initiator_ip))
  (r.(pi_user_agent)) v (r.(pi_payment_link_expires_at)) (r.(pi_kyorugi_enrollments))
  (r.(pi_kyorugi_enrollment)) (r.(pi_poomsae_enrollment)) (r.(pi_seminar_registration)).

Definition set_pi_payment_link_expires_at (v : option Z) (r : PaymentIntent) : PaymentIntent := mkPaymentIntent
  (r.(pi_public_id)) (r.(pi_user)) (r.(pi_gateway)) (r.(pi_status)) (r.(pi_competition))
  (r.(pi_amount)) (r.(pi_original_amount)) (r.(pi_discount_amount))
  (r.(pi_discount_code)) (r.(pi_description)) (r.(pi_callback_url)) (r.(pi_token))
  (r.(pi_ref_id)) (r.(pi_card_pan)) (r.(pi_extra)) (r.(pi_initiator_ip))
  (r.(pi_user_agent)) (r.(pi_payment_link_token)) v (r.(pi_kyorugi_enrollments))
  (r.(pi_kyorugi_enrollment)) (r.(pi_poomsae_enrollment)) (r.(pi_seminar_registration)).

(** ** The database

    [db_on_commit] is the queue [transaction.on_commit] fills: the saved
    enrollments whose award waits for the commit, each with its row. *)

Record DB (P : Type) := mkDB {
  db_profiles : gmap Z (UserProfile P);
  db_clubs : gmap Z (TkdClub P);
  db_boards : gmap Z (TkdBoard P);
  db_weights : gmap Z WeightCategory;
  db_competitions : gmap Z KyorugiCompetition;
  db_mat_assignments : list MatAssignment;
  db_enrollments : gmap Z Enrollment;
  db_draws : gmap Z Draw;
  db_matches : gmap Z Match;
  db_histories : list PairHistory;
  db_awards : gmap Z (RankingAward P);
  db_results : gmap Z KyorugiResult;
  db_transactions : list (RankingTransaction P);
  db_seminars : gmap Z Seminar;
  db_seminar_regs : gmap Z SeminarRegistration;
  db_poomsae_comps : gmap Z PoomsaeCompetition;
  db_poomsae_enrollments : gmap Z PoomsaeEnrollment;
  db_poomsae_teams : gmap Z PoomsaeTeam;
  db_group_payments : gmap Z GroupRegistrationPayment;
  db_discount_codes : gmap Z DiscountCode;
  db_intents : gmap Z PaymentIntent;
  db_on_commit : list (Z * Enrollment);
  db_next_id : Z;
}.
Arguments mkDB {P}.
Arguments db_profiles {P} _.
Arguments db_clubs {P} _.
Arguments db_boards {P} _.
Arguments db_weights {P} _.
Arguments db_competitions {P} _.
Arguments db_mat_assignments {P} _.
Arguments db_enrollments {P} _.
Arguments db_draws {P} _.
Arguments db_matches {P} _.
Arguments db_histories {P} _.
Arguments db_awards {P} _.
Arguments db_results {P} _.
Arguments db_transactions {P} _.
Arguments db_seminars {P} _.
Arguments db_seminar_regs {P} _.
Arguments db_poomsae_comps {P} _.
Arguments db_poomsae_enrollments {P} _.
Arguments db_poomsae_teams {P} _.
Arguments db_group_payments {P} _.
Arguments db_discount_codes {P} _.
Arguments db_intents {P} _.
Arguments db_on_commit {P} _.
Arguments db_next_id {P} _.

Definition set_db_profiles {P} (v : gmap Z (UserProfile P)) (r : DB P) : DB P := mkDB
  v (r.(db_clubs)) (r.(db_boards)) (r.(db_weights)) (r.(db_competitions))
  (r.(db_mat_assignments)) (r.(db_enrollments)) (r.(db_draws)) (r.(db_matches))
  (r.(db_histories)) (r.(db_awards)) (r.(db_results)) (r.(db_transactions))
  (r.(db_seminars)) (r.(db_seminar_regs)) (r.(db_poomsae_comps))
  (r.(db_poomsae_enrollments)) (r.(db_poomsae_teams)) (r.(db_group_payments))
  (r.(db_discount_codes)) (r.(db_intents)) (r.(db_on_commit)) (r.(db_next_id)).

Definition set_db_clubs {P} (v : gmap Z (TkdClub P)) (r : DB P) : DB P := mkDB
  (r.(db_profiles)) v (r.(db_boards)) (r.(db_weights)) (r.(db_competitions))
  (r.(db_mat_assignments)) (r.(db_enrollments)) (r.(db_draws)) (r.(db_matches))
  (r.(db_histories)) (r.(db_awards)) (r.(db_results)) (r.(db_transactions))
  (r.(db_seminars)) (r.(db_seminar_regs)) (r.(db_poomsae_comps))
  (r.(db_poomsae_enrollments)) (r.(db_poomsae_teams)) (r.(db_group_payments))
  (r.(db_discount_codes)) (r.(db_intents)) (r.(db_on_commit)) (r.(db_next_id)).

Definition set_db_boards {P} (v : gmap Z (TkdBoard P)) (r : DB P) : DB P := mkDB
  (r.(db_profiles)) (r.(db_clubs)) v (r.(db_weights)) (r.(db_competitions))
  (r.(db_mat_assignments)) (r.(db_enrollments)) (r.(db_draws)) (r.(db_matches))
  (r.(db_histories)) (r.(db_awards)) (r.(db_results)) (r.(db_transactions))
  (r.(db_seminars)) (r.(db_seminar_regs)) (r.(db_poomsae_comps))
  (r.(db_poomsae_enrollments)) (r.(db_poomsae_teams)) (r.(db_group_payments))
  (r.(db_discount_codes)) (r.(db_intents)) (r.(db_on_commit)) (r.(db_next_id)).

Definition set_db_weights {P} (v : gmap Z WeightCategory) (r : DB P) : DB P := mkDB
  (r.(db_profiles)) (r.(db_clubs)) (r.(db_boards)) v (r.(db_competitions))
  (r.(db_mat_assignments)) (r.(db_enrollments)) (r.(db_draws)) (r.(db_matches))
  (r.(db_histories)) (r.(db_awards)) (r.(db_results)) (r.(db_transactions))
  (r.(db_seminars)) (r.(db_seminar_regs)) (r.(db_poomsae_comps))
  (r.(db_poomsae_enrollments)) (r.(db_poomsae_teams)) (r.(db_group_payments))
  (r.(db_discount_codes)) (r.(db_intents)) (r.(db_on_commit)) (r.(db_next_id)).

Definition set_db_seminars {P} (v : gmap Z Seminar) (r : DB P) : DB P := mkDB
  (r.(db_profiles)) (r.(db_clubs)) (r.(db_boards)) (r.(db_weights))
  (r.(db_competitions)) (r.(db_mat_assignments)) (r.(db_enrollments)) (r.(db_draws))
  (r.(db_matches)) (r.(db_histories)) (r.(db_awards)) (r.(db_results))
  (r.(db_transactions)) v (r.(db_seminar_regs)) (r.(db_poomsae_comps))
  (r.(db_poomsae_enrollments)) (r.(db_poomsae_teams)) (r.(db_group_payments))
  (r.(db_discount_codes)) (r.(db_intents)) (r.(db_on_commit)) (r.(db_next_id)).

Definition set_db_poomsae_comps {P} (v : gmap Z PoomsaeCompetition) (r : DB P) : DB P := mkDB
  (r.(db_profiles)) (r.(db_clubs)) (r.(db_boards)) (r.(db_weights))
  (r.(db_competitions)) (r.(db_mat_assignments)) (r.(db_enrollments)) (r.(db_draws))
  (r.(db_matches)) (r.(db_histories)) (r.(db_awards)) (r.(db_results))
  (r.(db_transactions)) (r.(db_seminars)) (r.(db_seminar_regs)) v
  (r.(db_poomsae_enrollments)) (r.(db_poomsae_teams)) (r.(db_group_payments))
  (r.(db_discount_codes)) (r.(db_intents)) (r.(db_on_commit)) (r.(db_next_id)).

Definition set_db_poomsae_teams {P} (v : gmap Z PoomsaeTeam) (r : DB P) : DB P := mkDB
  (r.(db_profiles)) (r.(db_clubs)) (r.(db_boards)) (r.(db_weights))
  (r.(db_competitions)) (r.(db_mat_assignments)) (r.(db_enrollments)) (r.(db_draws))
  (r.(db_matches)) (r.(db_histories)) (r.(db_awards)) (r.(db_results))
  (r.(db_transactions)) (r.(db_seminars)) (r.(db_seminar_regs)) (r.(db_poomsae_comps))
  (r.(db_poomsae_enrollments)) v (r.(db_group_payments)) (r.(db_discount_codes))
  (r.(db_intents)) (r.(db_on_commit)) (r.(db_next_id)).

Definition set_db_competitions {P} (v : gmap Z KyorugiCompetition) (r : DB P) : DB P := mkDB
  (r.(db_profiles)) (r.(db_clubs)) (r.(db_boards)) (r.(db_weights)) v
  (r.(db_mat_assignments)) (r.(db_enrollments)) (r.(db_draws)) (r.(db_matches))
  (r.(db_histories)) (r.(db_awards)) (r.(db_results)) (r.(db_transactions))
  (r.(db_seminars)) (r.(db_seminar_regs)) (r.(db_poomsae_comps))
  (r.(db_poomsae_enrollments)) (r.(db_poomsae_teams)) (r.(db_group_payments))
  (r.(db_discount_codes)) (r.(db_intents)) (r.(db_on_commit)) (r.(db_next_id)).

Definition set_db_mat_assignments {P} (v : list MatAssignment) (r : DB P) : DB P := mkDB
  (r.(db_profiles)) (r.(db_clubs)) (r.(db_boards)) (r.(db_weights))
  (r.(db_competitions)) v (r.(db_enrollments)) (r.(db_draws)) (r.(db_matches))
  (r.(db_histories)) (r.(db_awards)) (r.(db_results)) (r.(db_transactions))
  (r.(db_seminars)) (r.(db_seminar_regs)) (r.(db_poomsae_comps))
  (r.(db_poomsae_enrollments)) (r.(db_poomsae_teams)) (r.(db_group_payments))
  (r.(db_discount_codes)) (r.(db_intents)) (r.(db_on_commit)) (r.(db_next_id)).

Definition set_db_enrollments {P} (v : gmap Z Enrollment) (r : DB P) : DB P := mkDB
  (r.(db_profiles)) (r.(db_clubs)) (r.(db_boards)) (r.(db_weights))
  (r.(db_competitions)) (r.(db_mat_assignments)) v (r.(db_draws)) (r.(db_matches))
  (r.(db_histories)) (r.(db_awards)) (r.(db_results)) (r.(db_transactions))
  (r.(db_seminars)) (r.(db_seminar_regs)) (r.(db_poomsae_comps))
  (r.(db_poomsae_enrollments)) (r.(db_poomsae_teams)) (r.(db_group_payments))
  (r.(db_discount_codes)) (r.(db_intents)) (r.(db_on_commit)) (r.(db_next_id)).

Definition set_db_draws {P} (v : gmap Z Draw) (r : DB P) : DB P := mkDB
  (r.(db_profiles)) (r.(db_clubs)) (r.(db_boards)) (r.(db_weights))
  (r.(db_competitions)) (r.(db_mat_assignments)) (r.(db_enrollments)) v (r.(db_matches))
  (r.(db_histories)) (r.(db_awards)) (r.(db_results)) (r.(db_transactions))
  (r.(db_seminars)) (r.(db_seminar_regs)) (r.(db_poomsae_comps))
  (r.(db_poomsae_enrollments)) (r.(db_poomsae_teams)) (r.(db_group_payments))
  (r.(db_discount_codes)) (r.(db_intents)) (r.(db_on_commit)) (r.(db_next_id)).

Definition set_db_matches {P} (v : gmap Z Match) (r : DB P) : DB P := mkDB
  (r.(db_profiles)) (r.(db_clubs)) (r.(db_boards)) (r.(db_weights))
  (r.(db_competitions)) (r.(db_mat_assignments)) (r.(db_enrollments)) (r.(db_draws)) v
  (r.(db_histories)) (r.(db_awards)) (r.(db_results)) (r.(db_transactions))
  (r.(db_seminars)) (r.(db_seminar_regs)) (r.(db_poomsae_comps))
  (r.(db_poomsae_enrollments)) (r.(db_poomsae_teams)) (r.(db_group_payments))
  (r.(db_discount_codes)) (r.(db_intents)) (r.(db_on_commit)) (r.(db_next_id)).

Definition set_db_histories {P} (v : list PairHistory) (r : DB P) : DB P := mkDB
  (r.(db_profiles)) (r.(db_clubs)) (r.(db_boards)) (r.(db_weights))
  (r.(db_competitions)) (r.(db_mat_assignments)) (r.(db_enrollments)) (r.(db_draws))
  (r.(db_matches)) v (r.(db_awards)) (r.(db_results)) (r.(db_transactions))
  (r.(db_seminars)) (r.(db_seminar_regs)) (r.(db_poomsae_comps))
  (r.(db_poomsae_enrollments)) (r.(db_poomsae_teams)) (r.(db_group_payments))
  (r.(db_discount_codes)) (r.(db_intents)) (r.(db_on_commit)) (r.(db_next_id)).

Definition set_db_awards {P} (v : gmap Z (RankingAward P)) (r : DB P) : DB P := mkDB
  (r.(db_profiles)) (r.(db_clubs)) (r.(db_boards)) (r.(db_weights))
  (r.(db_competitions)) (r.(db_mat_assignments)) (r.(db_enrollments)) (r.(db_draws))
  (r.(db_matches)) (r.(db_histories)) v (r.(db_results)) (r.(db_transactions))
  (r.(db_seminars)) (r.(db_seminar_regs)) (r.(db_poomsae_comps))
  (r.(db_poomsae_enrollments)) (r.(db_poomsae_teams)) (r.(db_group_payments))
  (r.(db_discount_codes)) (r.(db_intents)) (r.(db_on_commit)) (r.(db_next_id)).

Definition set_db_results {P} (v : gmap Z KyorugiResult) (r : DB P) : DB P := mkDB
  (r.(db_profiles)) (r.(db_clubs)) (r.(db_boards)) (r.(db_weights))
  (r.(db_competitions)) (r.(db_mat_assignments)) (r.(db_enrollments)) (r.(db_draws))
  (r.(db_matches)) (r.(db_histories)) (r.(db_awards)) v (r.(db_transactions))
  (r.(db_seminars)) (r.(db_seminar_regs)) (r.(db_poomsae_comps))
  (r.(db_poomsae_enrollments)) (r.(db_poomsae_teams)) (r.(db_group_payments))
  (r.(db_discount_codes)) (r.(db_intents)) (r.(db_on_commit)) (r.(db_next_id)).

Definition set_db_transactions {P} (v : list (RankingTransaction P)) (r : DB P) : DB P := mkDB
  (r.(db_profiles)) (r.(db_clubs)) (r.(db_boards)) (r.(db_weights))
  (r.(db_competitions)) (r.(db_mat_assignments)) (r.(db_enrollments)) (r.(db_draws))
  (r.(db_matches)) (r.(db_histories)) (r.(db_awards)) (r.(db_results)) v
  (r.(db_seminars)) (r.(db_seminar_regs)) (r.(db_poomsae_comps))
  (r.(db_poomsae_enrollments)) (r.(db_poomsae_teams)) (r.(db_group_payments))
  (r.(db_discount_codes)) (r.(db_intents)) (r.(db_on_commit)) (r.(db_next_id)).

Definition set_db_seminar_regs {P} (v : gmap Z SeminarRegistration) (r : DB P) : DB P := mkDB
  (r.(db_profiles)) (r.(db_clubs)) (r.(db_boards)) (r.(db_weights))
  (r.(db_competitions)) (r.(db_mat_assignments)) (r.(db_enrollments)) (r.(db_draws))
  (r.(db_matches)) (r.(db_histories)) (r.(db_awards)) (r.(db_results))
  (r.(db_transactions)) (r.(db_seminars)) v (r.(db_poomsae_comps))
  (r.(db_poomsae_enrollments)) (r.(db_poomsae_teams)) (r.(db_group_payments))
  (r.(db_discount_codes)) (r.(db_intents)) (r.(db_on_commit)) (r.(db_next_id)).

Definition set_db_poomsae_enrollments {P} (v : gmap Z PoomsaeEnrollment) (r : DB P) : DB P := mkDB
  (r.(db_profiles)) (r.(db_clubs)) (r.(db_boards)) (r.(db_weights))
  (r.(db_competitions)) (r.(db_mat_assignments)) (r.(db_enrollments)) (r.(db_draws))
  (r.(db_matches)) (r.(db_histories)) (r.(db_awards)) (r.(db_results))
  (r.(db_transactions)) (r.(db_seminars)) (r.(db_seminar_regs)) (r.(db_poomsae_comps)) v
  (r.(db_poomsae_teams)) (r.(db_group_payments)) (r.(db_discount_codes))
  (r.(db_intents)) (r.(db_on_commit)) (r.(db_next_id)).

Definition set_db_group_payments {P} (v : gmap Z GroupRegistrationPayment) (r : DB P) : DB P := mkDB
  (r.(db_profiles)) (r.(db_clubs)) (r.(db_boards)) (r.(db_weights))
  (r.(db_competitions)) (r.(db_mat_assignments)) (r.(db_enrollments)) (r.(db_draws))
  (r.(db_matches)) (r.(db_histories)) (r.(db_awards)) (r.(db_results))
  (r.(db_transactions)) (r.(db_seminars)) (r.(db_seminar_regs)) (r.(db_poomsae_comps))
  (r.(db_poomsae_enrollments)) (r.(db_poomsae_teams)) v (r.(db_discount_codes))
  (r.(db_intents)) (r.(db_on_commit)) (r.(db_next_id)).

Definition set_db_discount_codes {P} (v : gmap Z DiscountCode) (r : DB P) : DB P := mkDB
  (r.(db_profiles)) (r.(db_clubs)) (r.(db_boards)) (r.(db_weights))
  (r.(db_competitions)) (r.(db_mat_assignments)) (r.(db_enrollments)) (r.(db_draws))
  (r.(db_matches)) (r.(db_histories)) (r.(db_awards)) (r.(db_results))
  (r.(db_transactions)) (r.(db_seminars)) (r.(db_seminar_regs)) (r.(db_poomsae_comps))
  (r.(db_poomsae_enrollments)) (r.(db_poomsae_teams)) (r.(db_group_payments)) v
  (r.(db_intents)) (r.(db_on_commit)) (r.(db_next_id)).

Definition set_db_intents {P} (v : gmap Z PaymentIntent) (r : DB P) : DB P := mkDB
  (r.(db_profiles)) (r.(db_clubs)) (r.(db_boards)) (r.(db_weights))
  (r.(db_competitions)) (r.(db_mat_assignments)) (r.(db_enrollments)) (r.(db_draws))
  (r.(db_matches)) (r.(db_histories)) (r.(db_awards)) (r.(db_results))
  (r.(db_transactions)) (r.(db_seminars)) (r.(db_seminar_regs)) (r.(db_poomsae_comps))
  (r.(db_poomsae_enrollments)) (r.(db_poomsae_teams)) (r.(db_group_payments))
  (r.(db_discount_codes)) v (r.(db_on_commit)) (r.(db_next_id)).

Definition set_db_on_commit {P} (v : list (Z * Enrollment)) (r : DB P) : DB P := mkDB
  (r.(db_profiles)) (r.(db_clubs)) (r.(db_boards)) (r.(db_weights))
  (r.(db_competitions)) (r.(db_mat_assignments)) (r.(db_enrollments)) (r.(db_draws))
  (r.(db_matches)) (r.(db_histories)) (r.(db_awards)) (r.(db_results))
  (r.(db_transactions)) (r.(db_seminars)) (r.(db_seminar_regs)) (r.(db_poomsae_comps))
  (r.(db_poomsae_enrollments)) (r.(db_poomsae_teams)) (r.(db_group_payments))
  (r.(db_discount_codes)) (r.(db_intents)) v (r.(db_next_id)).

Definition set_db_next_id {P} (v : Z) (r : DB P) : DB P := mkDB
  (r.(db_profiles)) (r.(db_clubs)) (r.(db_boards)) (r.(db_weights))
  (r.(db_competitions)) (r.(db_mat_assignments)) (r.(db_enrollments)) (r.(db_draws))
  (r.(db_matches)) (r.(db_histories)) (r.(db_awards)) (r.(db_results))
  (r.(db_transactions)) (r.(db_seminars)) (r.(db_seminar_regs)) (r.(db_poomsae_comps))
  (r.(db_poomsae_enrollments)) (r.(db_poomsae_teams)) (r.(db_group_payments))
  (r.(db_discount_codes)) (r.(db_intents)) (r.(db_on_commit)) v.

(** A fresh primary key.  One counter serves every table: the code only relies
    on a new key being unused in its own table. *)
Definition fresh_id {P} : M (DB P) Z := λ d,
  (Ok (db_next_id d), set_db_next_id (db_next_id d + 1) d).

(** Rows of a table with their keys, in key order (the default order of the
    queries the code iterates). *)
Definition rows_by_id {A} (t : gmap Z A) : list (Z * A) :=
  sort_by (λ x y, x.1 <=? y.1) (map_to_list t).

Lemma rows_by_id_perm {A} (t : gmap Z A) : rows_by_id t ≡ₚ map_to_list t.
Proof. apply sort_by_perm. Qed.

Lemma elem_of_rows_by_id {A} (t : gmap Z A) i x : (i, x) ∈ rows_by_id t ↔ t !! i = Some x.
Proof. by rewrite rows_by_id_perm, elem_of_map_to_list. Qed.

Lemma NoDup_rows_by_id {A} (t : gmap Z A) : NoDup (rows_by_id t).*1.
Proof. rewrite rows_by_id_perm. apply NoDup_fst_map_to_list. Qed.

#[export] Hint Resolve NoDup_rows_by_id : py.

Lemma rows_by_id_sorted {A} (t : gmap Z A) :
  StronglySorted (λ x y, (x.1 <=? y.1) = true) (rows_by_id t).
Proof.
  apply sort_by_sorted.
  - intros x y. rewrite !Z.leb_le. lia.
  - intros x y z. rewrite !Z.leb_le. lia.
Qed.

(** A new row with a key above all others comes last. *)
Lemma rows_by_id_insert {A} (t : gmap Z A) k x :
  map_Forall (λ i _, i < k) t → rows_by_id (<[k := x]> t) = rows_by_id t ++ [(k, x)].
Proof.
  intros Hk. assert (Hn : t !! k = None).
  { destruct (t !! k) eqn:E; [|done]. apply Hk in E. lia. }
  assert (Hp : rows_by_id (<[k := x]> t) ≡ₚ rows_by_id t ++ [(k, x)]).
  { rewrite rows_by_id_perm, map_to_list_insert, Permutation_app_comm, rows_by_id_perm by done.
    done. }
  apply sorted_key_unique; [done|apply NoDup_rows_by_id|apply rows_by_id_sorted|].
  pose proof (rows_by_id_sorted t) as Hs.
  assert (Hall : ∀ i y, (i, y) ∈ rows_by_id t → i < k).
  { intros i y. rewrite elem_of_rows_by_id. apply Hk. }
  clear Hp. induction Hs as [|[i y] l Hl IH Hi]; cbn; [by repeat constructor|].
  constructor.
  - apply IH. intros j z Hj. eapply Hall. by right.
  - rewrite Forall_app. split; [done|]. constructor; [|done].
    apply Z.leb_le. cbn. specialize (Hall i y ltac:(left)). lia.
Qed.

(** Deleting or updating rows keeps the remaining order. *)
Lemma rows_by_id_filter {A} (P : Z → A → bool) (t : gmap Z A) :
  rows_by_id (filter (λ kx, P kx.1 kx.2 = true) t) =
  List.filter (λ kx, P kx.1 kx.2) (rows_by_id t).
Proof.
  assert (Hs : ∀ l, StronglySorted (λ x y : Z * A, (x.1 <=? y.1) = true) l →
    StronglySorted (λ x y, (x.1 <=? y.1) = true) (List.filter (λ kx, P kx.1 kx.2) l)).
  { induction 1 as [|x l Hl IH Hx]; cbn; [constructor|]. destruct (P x.1 x.2); [|done].
    constructor; [done|]. rewrite Forall_forall in *. intros y.
    rewrite list_elem_of_In, filter_In, <- list_elem_of_In. intros [? _]. by apply Hx. }
  apply sorted_key_unique; [|apply NoDup_rows_by_id|apply rows_by_id_sorted|].
  - apply NoDup_Permutation.
    + eapply NoDup_fmap_1. apply NoDup_rows_by_id.
    + apply NoDup_filter_list. eapply NoDup_fmap_1. apply NoDup_rows_by_id.
    + intros [i x]. rewrite elem_of_rows_by_id, map_lookup_filter_Some.
      rewrite list_elem_of_In, filter_In, <- list_elem_of_In, elem_of_rows_by_id. done.
  - apply Hs, rows_by_id_sorted.
Qed.

(** The database without rows, its first key being [next]. *)
Definition empty_db {P} (next : Z) : DB P :=
  mkDB ∅ ∅ ∅ ∅ ∅ [] ∅ ∅ ∅ [] ∅ ∅ [] ∅ ∅ ∅ ∅ ∅ ∅ ∅ ∅ [] next.

(** ** Draws and matches *)

Section match_store.
Context {P : Type}.
Implicit Types d : DB P.

Definition add_match (d : DB P) (m : Match) : DB P :=
  set_db_matches (<[db_next_id d := m]> (db_matches d)) (set_db_next_id (db_next_id d + 1) d).

(** Keys are below the counter, and matches belong to draws below it. *)
Definition bracket_wf d : Prop :=
  map_Forall (λ k _, k < db_next_id d) (db_draws d) ∧
  map_Forall (λ k m, k < db_next_id d ∧ mt_draw m < db_next_id d) (db_matches d).

(** The matches of a draw, by primary key. *)
Definition draw_matches d (k : Z) : list (Z * Match) :=
  List.filter (λ km, mt_draw km.2 =? k) (rows_by_id (db_matches d)).

Definition matches_of d (k : Z) : list Match := snd <$> draw_matches d k.

Lemma add_match_wf d m : bracket_wf d → mt_draw m < db_next_id d + 1 →
  bracket_wf (add_match d m).
Proof.
  intros [Hd Hm] Hk. unfold add_match. split; cbn.
  - intros k dr Hl. specialize (Hd k dr Hl). cbn in Hd. lia.
  - apply map_Forall_insert_2; [lia|]. intros k m' Hl. specialize (Hm k m' Hl). cbn in Hm. lia.
Qed.

Lemma add_match_rows d m : bracket_wf d →
  rows_by_id (db_matches (add_match d m)) = rows_by_id (db_matches d) ++ [(db_next_id d, m)].
Proof.
  intros [_ Hm]. apply rows_by_id_insert. intros k m' Hl. by apply Hm in Hl as [? _].
Qed.

Lemma add_match_draw_matches d m k : bracket_wf d →
  draw_matches (add_match d m) k =
  draw_matches d k ++ (if mt_draw m =? k then [(db_next_id d, m)] else []).
Proof.
  intros Hwf. unfold draw_matches. rewrite add_match_rows by done.
  by rewrite List.filter_app.
Qed.

Lemma elem_of_draw_matches d k i m :
  (i, m) ∈ draw_matches d k ↔ db_matches d !! i = Some m ∧ mt_draw m = k.
Proof.
  unfold draw_matches. rewrite list_elem_of_In, filter_In, <- list_elem_of_In.
  by rewrite elem_of_rows_by_id, Z.eqb_eq.
Qed.

Lemma NoDup_fst_filter {A} (f : Z * A → bool) (l : list (Z * A)) :
  NoDup l.*1 → NoDup (List.filter f l).*1.
Proof.
  induction l as [|[i x] l IH]; cbn; intros Hn; [constructor|].
  apply NoDup_cons in Hn as [Hi Hn]. destruct (f (i, x)); [|by apply IH].
  cbn. apply NoDup_cons. split; [|by apply IH].
  intros Hin. apply Hi. apply list_elem_of_fmap in Hin as ([j y] & -> & Hin).
  rewrite list_elem_of_In, filter_In, <- list_elem_of_In in Hin.
  apply list_elem_of_fmap. exists (j, y). by destruct Hin.
Qed.

Lemma NoDup_draw_matches d k : NoDup (draw_matches d k).*1.
Proof. apply NoDup_fst_filter, NoDup_rows_by_id. Qed.
End match_store.

Lemma rows_by_id_fmap {A B} (f : A → B) (t : gmap Z A) :
  rows_by_id (f <$> t) = prod_map id f <$> rows_by_id t.
Proof.
  unfold rows_by_id. rewrite map_to_list_fmap. by apply sort_by_fmap.
Qed.
