(* ===== verification/DrawService.v ===== *)
(** The draw: [create_draw_for_group] of [competitions/services/draw_service.py]
    and the [cleanup_pair_history] command it calls, over the database.  The
    pure computations are those of [Brackets]. *)

From Stdlib Require Import SpecFloat.
From S2P Require Import Prelude Brackets Store.
Local Open Scope Z_scope.

Section draw_service.
Context {P : Type}.
Implicit Types d : DB P.

(** ** Reading the group *)

Definition in_group (competition_id belt_group_id weight_category_id : Z)
    (e : Enrollment) : bool :=
  (en_competition e =? competition_id)
  && bool_decide (en_belt_group e = Some belt_group_id)
  && bool_decide (en_weight_category e = Some weight_category_id)
  && bool_decide (en_status e ∈ ELIGIBLE_STATUSES).

Definition entry_of (d : DB P) (row : Z * Enrollment) : Entry :=
  let e := row.2 in
  let p := db_profiles d !! en_player e in
  mkEntry row.1
    (match p with Some _ => Some (en_player e) | None => None end)
    (or_id (en_club e) (match p with Some q => up_club q | None => None end))
    (or_id (en_coach e) (match p with Some q => up_coach q | None => None end)).

(** The eligible enrollments of the group, [order_by("id")]. *)
Definition group_entries (d : DB P) (competition_id bg wc : Z) : list Entry :=
  entry_of d <$> List.filter (λ row, in_group competition_id bg wc row.2)
                   (rows_by_id (db_enrollments d)).

Definition is_player (e : Entry) : bool := negb (is_none (player_id e)).

Definition real_count (entries : list Entry) : Z := zlen (List.filter is_player entries).

(** The scope of a draw: competition, gender, age category, belt group, weight. *)
Record draw_scope := mkScope {
  sc_competition : Z;
  sc_gender : string;
  sc_age : option Z;
  sc_belt : Z;
  sc_weight : Z;
}.

Definition history_in_scope (sc : draw_scope) (h : PairHistory) : bool :=
  String.eqb (ph_gender h) (sc_gender sc)
  && bool_decide (Some (ph_age_category h) = sc_age sc)
  && (ph_belt_group h =? sc_belt sc)
  && (ph_weight_category h =? sc_weight sc).

Definition history_pairs_of (d : DB P) (sc : draw_scope) : gset (Z * Z) :=
  list_to_set ((λ h, (ph_player_a h, ph_player_b h)) <$>
               List.filter (history_in_scope sc) (db_histories d)).

(** Lines 219-271: from the entries to the filled table. *)
Definition plan_entries (randbelow : option string → nat → Z → Z)
    (entries : list Entry) (history : gset (Z * Z)) (club_threshold : Z)
    (seed : string) (shuffle_attempts : Z) (size_override : option Z)
    : result (Z * list Entry) :=
  if real_count entries <? 1 then Err ValueError
  else
    match table_size (real_count entries) size_override with
    | Err e => Err e
    | Ok size =>
        let bye_set := _bye_slots size (size - real_count entries) in
        let players_only := List.filter is_player entries in
        let non_bye_slots := non_bye_slots_of size bye_set in
        match _best_order_by_penalty_on_slots randbelow players_only non_bye_slots
                size shuffle_attempts club_threshold history (real_count entries)
                (if truthy_str seed then Some seed else None) with
        | Err e => Err e
        | Ok best_order =>
            match place_entries (py_range 1 (size + 1)) bye_set best_order with
            | Err e => Err e
            | Ok entries_final => Ok (size, entries_final)
            end
        end
    end.

(** ** Writing the draw *)

Definition draw_in_scope (sc : draw_scope) (dr : Draw) : bool :=
  (dr_competition dr =? sc_competition sc)
  && String.eqb (dr_gender dr) (sc_gender sc)
  && bool_decide (dr_age_category dr = sc_age sc)
  && (dr_belt_group dr =? sc_belt sc)
  && (dr_weight_category dr =? sc_weight sc).

Definition scope_draws (d : DB P) (sc : draw_scope) : list (Z * Draw) :=
  List.filter (λ row, draw_in_scope sc row.2) (rows_by_id (db_draws d)).

(** [Draw.objects.filter(...).order_by("-created_at").first()] *)
Definition prev_draw (d : DB P) (sc : draw_scope) : option (Z * Draw) :=
  head (sort_by (λ x y, dr_created_at y.2 <=? dr_created_at x.2) (scope_draws d sc)).

Definition drop_prev (sc : draw_scope) : M (DB P) unit := λ d,
  match prev_draw d sc with
  | Some (k, dr) =>
      if dr_is_locked dr then (Ok tt, d)
      else
        (Ok tt,
         set_db_draws (delete k (db_draws d))
           (set_db_matches (filter (λ km, negb (mt_draw km.2 =? k) = true) (db_matches d)) d))
  | None => (Ok tt, d)
  end.

(** [Draw.objects.create]: [unique_together] rejects a second draw of the same
    scope, unless the age category is NULL. *)
Definition create_draw_row (sc : draw_scope) (size club_threshold : Z) (seed : string)
    (now : Z) : M (DB P) Z := λ d,
  if negb (is_none (sc_age sc)) && negb (bool_decide (scope_draws d sc = [])) then
    (Err IntegrityError, d)
  else
    let k := db_next_id d in
    (Ok k,
     set_db_draws
       (<[k := mkDraw (sc_competition sc) (sc_gender sc) (sc_age sc) (sc_belt sc)
                 (sc_weight sc) size club_threshold seed false now]> (db_draws d))
       (set_db_next_id (k + 1) d)).

(** The loop over [range(0, size, 2)] that builds the first round. *)
Fixpoint first_round (draw slot : Z) (entries_final : list Entry) : list Match :=
  match entries_final with
  | A :: B :: rest =>
      mkMatch draw 1 slot (slot + 1) (player_id A) (player_id B)
        (is_none (player_id A) || is_none (player_id B)) None None None None
      :: first_round draw (slot + 2) rest
  | _ => []
  end.

Definition bulk_create_matches (ms : list Match) : M (DB P) unit := λ d,
  (Ok tt, foldl add_match d ms).

(** The pairs of the first round whose two sides are players, ordered. *)
Fixpoint real_pairs (entries_final : list Entry) : list (Z * Z) :=
  match entries_final with
  | A :: B :: rest =>
      match player_id A, player_id B with
      | Some a, Some b => ordered_pair a b :: real_pairs rest
      | _, _ => real_pairs rest
      end
  | _ => []
  end.

Definition history_key (sc : draw_scope) (x y : Z) (h : PairHistory) : bool :=
  (ph_player_a h =? x) && (ph_player_b h =? y) && history_in_scope sc h.

(** [FirstRoundPairHistory.save] orders the two players. *)
Definition history_save (h : PairHistory) : PairHistory :=
  if (negb (ph_player_a h =? 0)) && (negb (ph_player_b h =? 0))
     && (ph_player_b h <? ph_player_a h)
  then mkPairHistory (ph_player_b h) (ph_player_a h) (ph_gender h) (ph_age_category h)
         (ph_belt_group h) (ph_weight_category h) (ph_last_competition h) (ph_last_met_at h)
  else h.

Definition touch_history (sc : draw_scope) (now : Z) (h : PairHistory) : PairHistory :=
  history_save (mkPairHistory (ph_player_a h) (ph_player_b h) (ph_gender h)
    (ph_age_category h) (ph_belt_group h) (ph_weight_category h)
    (Some (sc_competition sc)) now).

(** [FirstRoundPairHistory.objects.update_or_create(...)]: the age category
    column is NOT NULL. *)
Definition update_or_create_history (sc : draw_scope) (now : Z) (xy : Z * Z)
    : M (DB P) unit := λ d,
  if existsb (history_key sc xy.1 xy.2) (db_histories d) then
    (Ok tt, set_db_histories
       ((λ h, if history_key sc xy.1 xy.2 h then touch_history sc now h else h)
          <$> db_histories d) d)
  else
    match sc_age sc with
    | None => (Err IntegrityError, d)
    | Some age =>
        (Ok tt, set_db_histories
           (db_histories d ++
            [history_save (mkPairHistory xy.1 xy.2 (sc_gender sc) age (sc_belt sc)
               (sc_weight sc) (Some (sc_competition sc)) now)]) d)
    end.

(** [cleanup_pair_history]: [farvardin_first] says whether today is the first
    day of the Persian year. *)
Definition cleanup_pair_history (farvardin_first : bool) : M (DB P) unit := λ d,
  if farvardin_first then (Ok tt, set_db_histories [] d) else (Ok tt, d).

Definition create_draw_for_group (randbelow : option string → nat → Z → Z)
    (competition_id : Z) (age_category_id : option Z)
    (belt_group_id weight_category_id club_threshold : Z) (seed : string)
    (shuffle_attempts : Z) (size_override : option Z)
    (now : Z) (farvardin_first : bool) : M (DB P) Z :=
  atomic (
    d <~ get ;;
    comp <~ of_option (db_competitions d !! competition_id) DoesNotExist ;;
    let sc := mkScope competition_id (kc_gender comp) age_category_id belt_group_id
                weight_category_id in
    plan <~ lift (plan_entries randbelow
                    (group_entries d competition_id belt_group_id weight_category_id)
                    (history_pairs_of d sc) club_threshold seed shuffle_attempts
                    size_override) ;;
    _ <~ drop_prev sc ;;
    draw <~ create_draw_row sc plan.1 club_threshold seed now ;;
    _ <~ bulk_create_matches (first_round draw 1 plan.2) ;;
    _ <~ forM (real_pairs plan.2) (update_or_create_history sc now) ;;
    _ <~ try_catch (cleanup_pair_history farvardin_first) (λ _, ret tt) ;;
    ret draw)%monad.

(** [DrawStartAdmin.changelist_view] when [start] is requested: the size and the
    threshold it passes on, and the message it shows ([None] for success). *)
Definition auto_draw_size (count : Z) : Z :=
  default 0 (while (Z.to_nat (Z.max count 1)) (λ s, s <? Z.max count 1)
               (λ s, Z.shiftl s 1) 1).

Definition start_draw (randbelow : option string → nat → Z → Z)
    (competition_id : Z) (comp : KyorugiCompetition) (bg wc : Z) (seed : string)
    (manual : bool) (size_override ct_manual : option Z)
    (now : Z) (farvardin_first : bool) : M (DB P) (option exn) :=
  (d <~ get ;;
   let count := zlen (List.filter (λ row, in_group competition_id bg wc row.2)
                        (rows_by_id (db_enrollments d))) in
   let size := auto_draw_size count in
   let final_size := if manual && truthy_id size_override
                     then default 0 size_override else size in
   let final_th := if manual && truthy_id ct_manual then default 0 ct_manual
                   else if 8 <=? count then 8 else 9999 in
   if count <? 1 then ret (Some ValueError)
   else
     try_catch
       (_ <~ create_draw_for_group randbelow competition_id (kc_age_category comp) bg wc
               final_th seed 200 (Some final_size) now farvardin_first ;;
        ret None)
       (λ e, ret (Some e)))%monad.
End draw_service.

(** ** Planning: correctness *)

Lemma elem_of_filter_player e l :
  e ∈ List.filter is_player l ↔ e ∈ l ∧ is_player e = true.
Proof. rewrite !list_elem_of_In, filter_In, <- list_elem_of_In. done. Qed.

(** Whatever the seed and the override, the plan puts players of the group on the
    slots that are not byes, each at most once, and everybody when the table is
    large enough. *)
Lemma plan_entries_spec randbelow entries history threshold seed attempts override size :
  1 ≤ real_count entries → table_size (real_count entries) override = Ok size →
  ∃ fin best, plan_entries randbelow entries history threshold seed attempts override
                = Ok (size, fin) ∧
    length fin = Z.to_nat size ∧
    best ≡ₚ List.filter is_player entries ∧
    List.filter is_player fin = take (Z.to_nat (Z.min size (real_count entries))) best ∧
    (λ e, is_none (player_id e)) <$> fin =
      is_bye_slot (_bye_slots size (size - real_count entries)) <$> py_range 1 (size + 1).
Proof.
  intros Hr Hsize. unfold plan_entries. destruct (Z.ltb_spec (real_count entries) 1); [lia|].
  rewrite Hsize.
  assert (Hpos : 0 ≤ size).
  { revert Hsize. unfold table_size. destruct override as [so|].
    - destruct (_is_pow2 so); cbn; [|done]. intros [= <-]. repeat case_match; lia.
    - destruct (table_size_no_override _ Hr) as (k & Hk & He & ? & ? & ?).
      unfold table_size in He. intros Hs. rewrite Hs in He. injection He as ->. lia. }
  pose proof (length_non_bye_slots size (size - real_count entries) Hpos) as Hnb.
  assert (Hle : (length (non_bye_slots_of size (_bye_slots size (size - real_count entries)))
                 ≤ length (List.filter is_player entries))%nat).
  { unfold real_count, zlen in *. lia. }
  destruct (best_order_perm randbelow (List.filter is_player entries) _ size attempts
    threshold history (real_count entries)
    (if truthy_str seed then Some seed else None) Hle) as (best & -> & Hp & _).
  destruct (place_entries_spec (_bye_slots size (size - real_count entries))
    (py_range 1 (size + 1)) best) as (fin & -> & Hlen & Hf & Hb).
  - rewrite Hp. exact Hle.
  - intros p. rewrite Hp, elem_of_filter_player. unfold is_player.
    intros [_ ?]. by destruct (is_none (player_id p)).
  - exists fin, best. split_and!; [done| |done| |done].
    + rewrite Hlen, length_py_range. f_equal. lia.
    + unfold is_player at 1. rewrite Hf. f_equal.
      fold (non_bye_slots_of size (_bye_slots size (size - real_count entries))).
      unfold real_count, zlen in *. lia.
Qed.

Definition players_of_entries (l : list Entry) : list Z := omap player_id l.

#[export] Instance players_of_entries_perm :
  Proper (Permutation ==> Permutation) players_of_entries.
Proof. intros l1 l2 Hl. unfold players_of_entries. by rewrite Hl. Qed.

Lemma players_filter l : players_of_entries (List.filter is_player l) = players_of_entries l.
Proof.
  induction l as [|e l IH]; [done|]. unfold players_of_entries, is_player in *. cbn.
  destruct (player_id e) eqn:E; cbn; [rewrite E|]; by rewrite <- IH.
Qed.

Lemma count_players l : zlen (players_of_entries l) = real_count l.
Proof.
  unfold real_count, zlen. rewrite <- players_filter. f_equal.
  assert (Hall : ∀ e, e ∈ List.filter is_player l → is_player e = true).
  { intros e. rewrite elem_of_filter_player. by intros [_ ?]. }
  induction (List.filter is_player l) as [|e l' IH]; [done|].
  assert (He : is_player e = true) by (apply Hall; left). unfold is_player in He.
  unfold players_of_entries in *. cbn. destruct (player_id e); [|done]. cbn. f_equal.
  apply IH. intros e' ?. apply Hall. by right.
Qed.

(** ** The first round *)

Definition match_players (m : Match) : list Z :=
  option_list (mt_player_a m) ++ option_list (mt_player_b m).

Lemma two_step_ind {A} (Q : list A → Prop) :
  Q [] → (∀ x, Q [x]) → (∀ x y l, Q l → Q (x :: y :: l)) → ∀ l, Q l.
Proof.
  intros H0 H1 H2. fix IH 1. intros [|x [|y l]]; [done|apply H1|apply H2, IH].
Qed.

Lemma first_round_players k s l :
  Nat.Even (length l) → mjoin (match_players <$> first_round k s l) = players_of_entries l.
Proof.
  revert s. induction l as [|x|x y l IH] using two_step_ind; intros s He; [done| |].
  { destruct He as [m Hm]. cbn in Hm. lia. }
  cbn [first_round]. unfold players_of_entries in *. cbn.
  assert (Nat.Even (length l)) as Hl by (destruct He as [m Hm]; exists (m - 1)%nat; cbn in Hm; lia).
  unfold mjoin in IH. rewrite IH by done. unfold match_players. cbn.
  destruct (player_id x), (player_id y); done.
Qed.

Lemma first_round_lookup k s l i m :
  first_round k s l !! i = Some m →
  mt_draw m = k ∧ mt_round_no m = 1 ∧
  mt_slot_a m = s + 2 * Z.of_nat i ∧ mt_slot_b m = s + 2 * Z.of_nat i + 1 ∧
  mt_match_number m = None ∧ mt_mat_no m = None ∧ mt_winner m = None ∧
  (mt_is_bye m = true ↔ mt_player_a m = None ∨ mt_player_b m = None).
Proof.
  revert s i. induction l as [|x|x y l IH] using two_step_ind; intros s i; [done..|].
  cbn [first_round]. destruct i as [|i]; cbn.
  - intros [= <-]. cbn. split_and!; try done; try lia.
    destruct (player_id x), (player_id y); cbn; naive_solver.
  - intros Hi. apply IH in Hi as (-> & -> & -> & -> & -> & -> & -> & Hb).
    split_and!; try done; lia.
Qed.

Lemma first_round_length k s l : length (first_round k s l) = Nat.div2 (length l).
Proof.
  revert s. induction l as [|x|x y l IH] using two_step_ind; intros s; [done..|].
  cbn. by rewrite IH.
Qed.

(** ** Writing: well-formedness and frame *)

Section writes.
Context {P : Type}.
Implicit Types d : DB P.

Lemma bulk_create_spec ms : ∀ d, bracket_wf d → (∀ m, m ∈ ms → mt_draw m < db_next_id d) →
  let d' := foldl add_match d ms in
  bracket_wf d' ∧ db_next_id d' = db_next_id d + zlen ms ∧
  (∀ k, matches_of d' k = matches_of d k ++ List.filter (λ m, mt_draw m =? k) ms) ∧
  db_draws d' = db_draws d ∧ db_histories d' = db_histories d.
Proof.
  induction ms as [|m ms IH]; intros d Hwf Hms; cbn.
  { split_and!; try done; [unfold zlen; cbn; lia|]. intros k. by rewrite app_nil_r. }
  assert (Hlt : mt_draw m < db_next_id d) by (apply Hms; left).
  destruct (IH (add_match d m)) as (Hwf' & Hn & Hmo & Hd & Hh).
  - apply add_match_wf; [done|lia].
  - intros m' Hm'. cbn. specialize (Hms m' ltac:(by right)). lia.
  - split_and!; [done| | |done|done].
    + rewrite Hn. cbn. unfold zlen. cbn [length]. lia.
    + intros k. rewrite Hmo. unfold matches_of, draw_matches. rewrite add_match_rows by done.
      rewrite List.filter_app, fmap_app, <- (assoc_L (++)). f_equal. cbn.
      by destruct (mt_draw m =? k).
Qed.

Lemma drop_prev_wf sc d : bracket_wf d → bracket_wf (drop_prev sc d).2.
Proof.
  intros [Hd Hm]. unfold drop_prev. destruct (prev_draw d sc) as [[k dr]|]; [|done].
  destruct (dr_is_locked dr); [done|]. cbn. split; cbn.
  - by apply map_Forall_delete.
  - intros i m Hl. apply map_lookup_filter_Some in Hl as [Hl _]. by apply Hm in Hl.
Qed.

Lemma drop_prev_frame sc d :
  (drop_prev sc d).1 = Ok tt ∧ db_histories (drop_prev sc d).2 = db_histories d ∧
  db_next_id (drop_prev sc d).2 = db_next_id d.
Proof.
  unfold drop_prev. destruct (prev_draw d sc) as [[k dr]|]; [|done].
  by destruct (dr_is_locked dr).
Qed.

Lemma elem_of_scope_draws sc d k dr :
  (k, dr) ∈ scope_draws d sc ↔ db_draws d !! k = Some dr ∧ draw_in_scope sc dr = true.
Proof.
  unfold scope_draws. rewrite list_elem_of_In, filter_In, <- list_elem_of_In.
  by rewrite elem_of_rows_by_id.
Qed.

Lemma prev_draw_some sc d k dr : prev_draw d sc = Some (k, dr) → (k, dr) ∈ scope_draws d sc.
Proof.
  unfold prev_draw. intros Hh.
  rewrite <- (sort_by_perm (λ x y, dr_created_at y.2 <=? dr_created_at x.2) (scope_draws d sc)).
  destruct (sort_by _ _) as [|x l]; [done|]. injection Hh as ->. left.
Qed.

Lemma prev_draw_none sc d : prev_draw d sc = None → scope_draws d sc = [].
Proof.
  unfold prev_draw. intros Hh.
  pose proof (sort_by_perm (λ x y : Z * Draw, dr_created_at y.2 <=? dr_created_at x.2)
    (scope_draws d sc)) as Hp.
  destruct (sort_by _ _) as [|x l]; [|done]. by apply Permutation_nil in Hp.
Qed.

(** At most one draw per scope: what [unique_together] guarantees. *)
Definition scopes_unique d : Prop :=
  ∀ sc, is_none (sc_age sc) = false → (length (scope_draws d sc) ≤ 1)%nat.

Definition unlocked_scope d sc : Prop :=
  ∀ k dr, (k, dr) ∈ scope_draws d sc → dr_is_locked dr = false.

(** Dropping the previous draw frees an unlocked scope. *)
Lemma drop_prev_scope_empty sc d :
  scopes_unique d → is_none (sc_age sc) = false → unlocked_scope d sc →
  scope_draws (drop_prev sc d).2 sc = [].
Proof.
  intros Hu Ha Hl. unfold drop_prev. destruct (prev_draw d sc) as [[k dr]|] eqn:Hp.
  - apply prev_draw_some in Hp. rewrite (Hl k dr Hp). cbn.
    apply elem_of_nil_inv. intros [k' dr'] Hin. apply elem_of_scope_draws in Hin as [Hd Hs].
    cbn in Hd. apply lookup_delete_Some in Hd as [Hne Hd].
    assert (Hin' : (k', dr') ∈ scope_draws d sc) by (by apply elem_of_scope_draws).
    specialize (Hu sc Ha). destruct (scope_draws d sc) as [|x [|y l]]; cbn in Hu;
      [set_solver| |lia].
    apply list_elem_of_singleton in Hp as <-. apply list_elem_of_singleton in Hin'. congruence.
  - by apply prev_draw_none.
Qed.
End writes.

(** ** First-round history *)

Section history.
Context {P : Type}.
Implicit Types d : DB P.

Definition upsert_history (sc : draw_scope) (age now : Z) d (xy : Z * Z) : DB P :=
  if existsb (history_key sc xy.1 xy.2) (db_histories d) then
    set_db_histories
      ((λ h, if history_key sc xy.1 xy.2 h then touch_history sc now h else h)
         <$> db_histories d) d
  else
    set_db_histories
      (db_histories d ++
       [history_save (mkPairHistory xy.1 xy.2 (sc_gender sc) age (sc_belt sc)
          (sc_weight sc) (Some (sc_competition sc)) now)]) d.

Lemma update_or_create_upsert sc age now xy d : sc_age sc = Some age →
  update_or_create_history sc now xy d = (Ok tt, upsert_history sc age now d xy).
Proof.
  intros Ha. unfold update_or_create_history, upsert_history. rewrite Ha.
  by destruct (existsb _ _).
Qed.

Definition pair_known (sc : draw_scope) d (xy : Z * Z) : bool :=
  existsb (history_key sc xy.1 xy.2) (db_histories d).

Lemma pair_known_iff sc d xy : pair_known sc d xy = true ↔ xy ∈ history_pairs_of d sc.
Proof.
  unfold pair_known, history_pairs_of, history_key. destruct xy as [x y].
  rewrite elem_of_list_to_set, list_elem_of_fmap, existsb_exists. split.
  - intros (h & Hin & Hk). exists h.
    rewrite !andb_true_iff, !Z.eqb_eq in Hk. destruct Hk as [[Hx Hy] Hs]. cbn in *.
    split; [congruence|].
    by rewrite list_elem_of_In, filter_In.
  - intros (h & [= -> ->] & Hin). exists h.
    rewrite list_elem_of_In, filter_In in Hin. destruct Hin as [Hin Hs].
    cbn. rewrite !Z.eqb_refl. done.
Qed.

Lemma history_save_key sc x y h :
  ph_player_a h ≤ ph_player_b h → history_key sc x y (history_save h) = history_key sc x y h.
Proof.
  intros Hle. unfold history_save. destruct (Z.ltb_spec (ph_player_b h) (ph_player_a h)); [lia|].
  by rewrite andb_false_r.
Qed.

Lemma touch_history_key sc now x y u v h :
  x ≤ y → history_key sc x y h = true →
  history_key sc u v (touch_history sc now h) = history_key sc u v h.
Proof.
  intros Hle Hk. unfold history_key in Hk at 1. rewrite !andb_true_iff, !Z.eqb_eq in Hk.
  unfold touch_history. rewrite history_save_key by (cbn; lia). done.
Qed.

Lemma existsb_fmap {A B} (f : B → bool) (g : A → B) l :
  existsb f (g <$> l) = existsb (λ x, f (g x)) l.
Proof. induction l as [|x l IH]; cbn; [done|]. by rewrite IH. Qed.

Lemma existsb_ext {A} (f g : A → bool) l :
  (∀ x, f x = g x) → existsb f l = existsb g l.
Proof. intros Hfg. induction l as [|x l IH]; cbn; [done|]. by rewrite Hfg, IH. Qed.

(** Recording a pair makes exactly that pair known. *)
Lemma upsert_known sc age now d xy uv : sc_age sc = Some age → xy.1 ≤ xy.2 →
  pair_known sc (upsert_history sc age now d xy) uv =
  pair_known sc d uv || bool_decide (uv = xy).
Proof.
  intros Ha Hle. unfold upsert_history, pair_known. destruct xy as [x y], uv as [u v]; cbn in *.
  destruct (existsb (history_key sc x y) (db_histories d)) eqn:E; cbn.
  - rewrite existsb_fmap.
    rewrite (existsb_ext _ (history_key sc u v)).
    + case_bool_decide as Huv; [|by rewrite orb_false_r]. injection Huv as -> ->. by rewrite E.
    + intros h. destruct (history_key sc x y h) eqn:Hk; [|done].
      by eapply touch_history_key.
  - rewrite existsb_app. f_equal. cbn. rewrite orb_false_r, history_save_key by (cbn; lia).
    unfold history_key, history_in_scope. cbn. rewrite Ha, String.eqb_refl, !Z.eqb_refl.
    rewrite bool_decide_eq_true_2 by done. cbn. rewrite !andb_true_r.
    case_bool_decide as Huv; [injection Huv as -> ->; by rewrite !Z.eqb_refl|].
    apply not_true_is_false. intros Hk.
    rewrite !andb_true_iff, !Z.eqb_eq in Hk. destruct Hk as [-> ->]. by apply Huv.
Qed.

Lemma upsert_frame sc age now d xy :
  db_draws (upsert_history sc age now d xy) = db_draws d ∧
  db_matches (upsert_history sc age now d xy) = db_matches d ∧
  db_next_id (upsert_history sc age now d xy) = db_next_id d.
Proof. unfold upsert_history. by destruct (existsb _ _). Qed.

Lemma upserts_spec sc age now pairs : sc_age sc = Some age →
  (∀ xy, xy ∈ pairs → xy.1 ≤ xy.2) → ∀ d,
  let d' := foldl (upsert_history sc age now) d pairs in
  (∀ uv, pair_known sc d' uv = true ↔ pair_known sc d uv = true ∨ uv ∈ pairs) ∧
  db_draws d' = db_draws d ∧ db_matches d' = db_matches d ∧ db_next_id d' = db_next_id d.
Proof.
  intros Ha. induction pairs as [|xy pairs IH]; intros Hle d; cbn.
  { split_and!; try done. intros uv. set_solver. }
  destruct (IH ltac:(set_solver) (upsert_history sc age now d xy)) as (Hk & -> & -> & ->).
  destruct (upsert_frame sc age now d xy) as (-> & -> & ->). split_and!; try done.
  intros uv. rewrite Hk, upsert_known by (done || apply Hle; left).
  rewrite orb_true_iff, bool_decide_eq_true. set_solver.
Qed.

Lemma ordered_pair_le a b : (ordered_pair a b).1 ≤ (ordered_pair a b).2.
Proof. unfold ordered_pair. destruct (Z.ltb_spec a b); cbn; lia. Qed.

Lemma real_pairs_ordered l xy : xy ∈ real_pairs l → xy.1 ≤ xy.2.
Proof.
  induction l as [|x|x y l IH] using two_step_ind; cbn; [set_solver..|].
  destruct (player_id x), (player_id y); try done.
  intros [->|?]%elem_of_cons; [apply ordered_pair_le|by apply IH].
Qed.

Lemma elem_of_real_pairs k s l xy :
  xy ∈ real_pairs l ↔ ∃ m a b, m ∈ first_round k s l ∧ mt_player_a m = Some a ∧
                               mt_player_b m = Some b ∧ xy = ordered_pair a b.
Proof.
  revert s. induction l as [|x|x y l IH] using two_step_ind; intros s; cbn; [set_solver..|].
  destruct (player_id x) as [a|] eqn:Ea, (player_id y) as [b|] eqn:Eb;
    rewrite ?elem_of_cons, (IH (s + 2)); setoid_rewrite elem_of_cons;
    (split; [|intros (m & a' & b' & [->|?] & ? & ? & ?); cbn in *; simplify_eq; naive_solver]).
  - intros [->|Hr]; [|naive_solver]. do 3 eexists. split_and!; [left; reflexivity|done..].
  - naive_solver.
  - naive_solver.
  - naive_solver.
Qed.
End history.

(** ** The whole handler *)

Section handler.
Context {P : Type}.
Implicit Types d : DB P.

(** The writes of a draw in a free scope of age category [age]. *)
Definition written_draw (sc : draw_scope) (age size threshold now : Z) (seed : string)
    (fin : list Entry) (farvardin_first : bool) d : DB P :=
  let k := db_next_id d in
  let d1 := set_db_draws
    (<[k := mkDraw (sc_competition sc) (sc_gender sc) (sc_age sc) (sc_belt sc)
              (sc_weight sc) size threshold seed false now]> (db_draws d))
    (set_db_next_id (k + 1) d) in
  let d2 := foldl add_match d1 (first_round k 1 fin) in
  let d3 := foldl (upsert_history sc age now) d2 (real_pairs fin) in
  (cleanup_pair_history farvardin_first d3).2.

Lemma create_draw_runs randbelow cid age bg wc threshold seed attempts override now ff
    comp size fin d :
  let sc := mkScope cid (kc_gender comp) (Some age) bg wc in
  db_competitions d !! cid = Some comp →
  plan_entries randbelow (group_entries d cid bg wc) (history_pairs_of d sc) threshold seed
    attempts override = Ok (size, fin) →
  scope_draws (drop_prev sc d).2 sc = [] →
  create_draw_for_group randbelow cid (Some age) bg wc threshold seed attempts override now ff d
  = (Ok (db_next_id d), written_draw sc age size threshold now seed fin ff (drop_prev sc d).2).
Proof.
  intros sc Hc Hp He. apply atomic_ok. unfold bind at 1, get. unfold bind at 1, of_option.
  rewrite Hc. unfold ret at 1. unfold bind at 1, lift. fold sc. rewrite Hp.
  destruct (drop_prev_frame sc d) as (Hok & _ & Hn).
  unfold bind at 1. destruct (drop_prev sc d) as [r d1]. cbn in Hok, Hn, He |- *. subst r.
  unfold bind at 1, create_draw_row. rewrite bool_decide_eq_true_2 by done.
  cbn [negb andb is_none sc_age sc].
  unfold bind at 1, bulk_create_matches. cbn [fst snd].
  unfold bind at 1. erewrite forM_pure by (intros; by apply update_or_create_upsert).
  unfold bind at 1, try_catch. unfold written_draw. rewrite Hn.
  by destruct ff.
Qed.

Lemma written_draw_spec sc age size threshold now seed fin ff d :
  sc_age sc = Some age → bracket_wf d → scope_draws d sc = [] →
  let k := db_next_id d in
  let d' := written_draw sc age size threshold now seed fin ff d in
  bracket_wf d' ∧
  matches_of d' k = first_round k 1 fin ∧
  (∀ k', k' ≠ k → matches_of d' k' = matches_of d k') ∧
  db_draws d' = <[k := mkDraw (sc_competition sc) (sc_gender sc) (sc_age sc) (sc_belt sc)
              (sc_weight sc) size threshold seed false now]> (db_draws d) ∧
  (ff = false → ∀ uv, pair_known sc d' uv = true ↔
     pair_known sc d uv = true ∨ uv ∈ real_pairs fin) ∧
  (ff = true → db_histories d' = []).
Proof.
  intros Ha Hwf He k d'. subst d'. unfold written_draw. fold k.
  set (dr := mkDraw _ _ _ _ _ _ _ _ _ _).
  set (d1 := set_db_draws _ _).
  assert (Hwf1 : bracket_wf d1).
  { destruct Hwf as [Hd Hm]. split; cbn.
    - apply map_Forall_insert_2; [lia|]. intros i x Hl. specialize (Hd i x Hl). cbn in Hd. lia.
    - intros i m Hl. specialize (Hm i m Hl). cbn in Hm. lia. }
  assert (Hdr : ∀ m, m ∈ first_round k 1 fin → mt_draw m = k).
  { intros m [i Hi]%list_elem_of_lookup. by apply first_round_lookup in Hi as [-> _]. }
  destruct (bulk_create_spec (first_round k 1 fin) d1 Hwf1) as (Hwf2 & Hn2 & Hm2 & Hd2 & Hh2).
  { intros m Hm. rewrite (Hdr m Hm). cbn. lia. }
  destruct (upserts_spec sc age now (real_pairs fin) Ha (real_pairs_ordered fin)
    (foldl add_match d1 (first_round k 1 fin))) as (Hk3 & Hd3 & Hm3 & Hn3).
  set (d3 := foldl (upsert_history _ _ _) _ _) in *.
  assert (Hold : matches_of d1 k = []).
  { apply elem_of_nil_inv. intros m. unfold matches_of, draw_matches.
    rewrite list_elem_of_fmap. intros ([i m'] & -> & Hin).
    rewrite list_elem_of_In, filter_In, <- list_elem_of_In, elem_of_rows_by_id in Hin.
    destruct Hin as [Hl Hk]. apply Z.eqb_eq in Hk. destruct Hwf as [_ Hm].
    apply Hm in Hl as [_ Hl]. cbn in *. lia. }
  assert (Hmo : ∀ d4, db_matches d4 = db_matches d3 → ∀ k', matches_of d4 k' =
    matches_of d1 k' ++ List.filter (λ m, mt_draw m =? k') (first_round k 1 fin)).
  { intros d4 H4 k'. rewrite <- Hm2. unfold matches_of, draw_matches. by rewrite H4, Hm3. }
  assert (Hwf3 : ∀ d4, db_matches d4 = db_matches d3 → db_draws d4 = db_draws d3 →
    db_next_id d4 = db_next_id d3 → bracket_wf d4).
  { intros d4 H4 H5 H6. unfold bracket_wf. by rewrite H4, H5, H6, Hm3, Hd3, Hn3. }
  assert (Hff : db_matches (cleanup_pair_history ff d3).2 = db_matches d3 ∧
    db_draws (cleanup_pair_history ff d3).2 = db_draws d3 ∧
    db_next_id (cleanup_pair_history ff d3).2 = db_next_id d3) by (by destruct ff).
  destruct Hff as (Hf1 & Hf2 & Hf3).
  split_and!.
  - by apply Hwf3.
  - rewrite Hmo, Hold by done. cbn. apply filter_all.
    intros m Hm. apply Z.eqb_eq. by apply Hdr.
  - intros k' Hne. rewrite Hmo by done.
    replace (List.filter _ _) with (@nil Match); [by rewrite app_nil_r|].
    symmetry. apply elem_of_nil_inv. intros m.
    rewrite list_elem_of_In, filter_In, <- list_elem_of_In, Z.eqb_eq.
    intros [Hm Hk]. rewrite (Hdr m Hm) in Hk. congruence.
  - rewrite Hf2, Hd3, Hd2. done.
  - intros -> uv. cbn. rewrite Hk3. unfold pair_known. by rewrite Hh2.
  - intros ->. done.
Qed.
End handler.

(** ** Properties of the draw *)

Section draw_properties.
Context {P : Type}.
Implicit Types d : DB P.

(** What a draw needs: a known competition with an age category, a table at
    least as large as the group, and a scope whose draw is not locked. *)
Definition drawable d (cid age bg wc : Z) (comp : KyorugiCompetition)
    (override : option Z) (size : Z) : Prop :=
  bracket_wf d ∧ scopes_unique d ∧ db_competitions d !! cid = Some comp ∧
  unlocked_scope d (mkScope cid (kc_gender comp) (Some age) bg wc) ∧
  1 ≤ real_count (group_entries d cid bg wc) ∧
  table_size (real_count (group_entries d cid bg wc)) override = Ok size.

Lemma draw_outcome randbelow d cid age bg wc comp override size threshold seed attempts now ff :
  drawable d cid age bg wc comp override size →
  let sc := mkScope cid (kc_gender comp) (Some age) bg wc in
  let d0 := (drop_prev sc d).2 in
  let n := real_count (group_entries d cid bg wc) in
  ∃ fin best,
    create_draw_for_group randbelow cid (Some age) bg wc threshold seed attempts override now ff d
    = (Ok (db_next_id d), written_draw sc age size threshold now seed fin ff d0) ∧
    bracket_wf d0 ∧ scope_draws d0 sc = [] ∧ db_next_id d0 = db_next_id d ∧
    length fin = Z.to_nat size ∧
    best ≡ₚ List.filter is_player (group_entries d cid bg wc) ∧
    List.filter is_player fin = take (Z.to_nat (Z.min size n)) best ∧
    (λ e, is_none (player_id e)) <$> fin =
      is_bye_slot (_bye_slots size (size - n)) <$> py_range 1 (size + 1).
Proof.
  intros (Hwf & Hu & Hc & Hl & Hr & Hs) sc d0 n.
  destruct (plan_entries_spec randbelow (group_entries d cid bg wc) (history_pairs_of d sc)
    threshold seed attempts override size Hr Hs) as (fin & best & Hp & Hlen & Hb & Hf & Hbye).
  exists fin, best. assert (He : scope_draws d0 sc = []) by (by apply drop_prev_scope_empty).
  split_and!; try done.
  - by apply create_draw_runs.
  - by apply drop_prev_wf.
  - apply (drop_prev_frame sc d).
Qed.

Lemma table_size_even n override size : 1 ≤ n → table_size n override = Ok size →
  2 ≤ size ∧ Nat.Even (Z.to_nat size).
Proof.
  intros Hn Hs. assert (∃ k, 1 ≤ k ∧ size = 2 ^ k) as (k & Hk & ->).
  { unfold table_size in Hs. destruct override as [so|].
    - destruct (_is_pow2 so) eqn:Hp; cbn in Hs; [|done]. injection Hs as <-.
      apply is_pow2_iff in Hp as (k & Hk & ->).
      pose proof (Z.pow_pos_nonneg 2 k). 
      destruct (Z.eq_dec k 0) as [->|?].
      + change (2 ^ 0) with 1. repeat case_match; [exists 2|exists 1]; done.
      + assert (2 ^ 1 ≤ 2 ^ k) by (apply Z.pow_le_mono_r; lia). change (2 ^ 1) with 2 in *.
        destruct (Z.eq_dec k 1) as [->|?].
        * change (2 ^ 1) with 2. repeat case_match; [exists 2|exists 1]; done.
        * assert (2 ^ 2 ≤ 2 ^ k) by (apply Z.pow_le_mono_r; lia). change (2 ^ 2) with 4 in *.
          exists k. split; [lia|]. repeat case_match; lia.
    - destruct (table_size_no_override _ Hn) as (k & Hk & He & _).
      unfold table_size in He. exists k. split; [done|congruence]. }
  assert (2 ^ k = 2 * 2 ^ (k - 1)) as ->.
  { replace k with (1 + (k - 1)) at 1 by lia. by rewrite Z.pow_add_r by lia. }
  pose proof (Z.pow_pos_nonneg 2 (k - 1)). split; [lia|].
  exists (Z.to_nat (2 ^ (k - 1))). lia.
Qed.
End draw_properties.

(** The draw of a group that fits its table. *)
Lemma drawn_table {P} randbelow (d : DB P) cid age bg wc comp override size
    threshold seed attempts now ff :
  drawable d cid age bg wc comp override size →
  real_count (group_entries d cid bg wc) ≤ size →
  ∃ k d', create_draw_for_group randbelow cid (Some age) bg wc threshold seed attempts
            override now ff d = (Ok k, d') ∧
    mjoin (match_players <$> matches_of d' k) ≡ₚ
      players_of_entries (group_entries d cid bg wc) ∧
    length (matches_of d' k) = Z.to_nat (size / 2) ∧
    (∀ i m, matches_of d' k !! i = Some m →
       mt_round_no m = 1 ∧ mt_slot_a m = 2 * Z.of_nat i + 1 ∧
       mt_slot_b m = 2 * Z.of_nat i + 2 ∧
       (mt_is_bye m = true ↔ mt_player_a m = None ∨ mt_player_b m = None)) ∧
    scope_draws d' (mkScope cid (kc_gender comp) (Some age) bg wc) =
      [(k, mkDraw cid (kc_gender comp) (Some age) bg wc size threshold seed false now)] ∧
    (∀ k', k' ≠ k → is_Some (db_draws d' !! k') → matches_of d' k' = matches_of d k') ∧
    bracket_wf d'.
Proof.
  intros Hd Hle. set (sc := mkScope cid (kc_gender comp) (Some age) bg wc).
  destruct (draw_outcome randbelow d cid age bg wc comp override size threshold seed attempts
    now ff Hd) as (fin & best & Hrun & Hwf & He & Hn & Hlen & Hb & Hf & _).
  fold sc in Hrun, Hwf, He, Hn.
  destruct Hd as (Hwf0 & _ & _ & _ & Hr & Hs).
  destruct (table_size_even _ _ _ Hr Hs) as [Hs2 Hev].
  destruct (written_draw_spec sc age size threshold now seed fin ff (drop_prev sc d).2
    eq_refl Hwf He) as (Hwf' & Hm & Hother & Hdr & _).
  rewrite Hn in Hm, Hother, Hdr.
  eexists _, _. split; [exact Hrun|].
  rewrite Hm. split_and!.
  - rewrite first_round_players by (by rewrite Hlen).
    rewrite <- players_filter, Hf, take_ge.
    + rewrite Hb. by rewrite players_filter.
    + rewrite Hb. unfold real_count, zlen in *. lia.
  - rewrite first_round_length, Hlen, Nat.div2_div, Z2Nat.inj_div by lia. done.
  - intros i m Hi. apply first_round_lookup in Hi as (_ & -> & -> & -> & _ & _ & _ & Hbye).
    split_and!; try done; lia.
  - unfold scope_draws. rewrite Hdr, rows_by_id_insert.
    + rewrite List.filter_app. unfold scope_draws in He. fold sc. rewrite He. cbn.
      unfold draw_in_scope. cbn. rewrite !Z.eqb_refl, String.eqb_refl.
      by rewrite bool_decide_eq_true_2.
    + destruct Hwf as [Hw _]. by rewrite Hn in Hw.
  - intros k' Hne Hsome. rewrite Hother by done.
    rewrite Hdr, lookup_insert_ne in Hsome by done.
    unfold drop_prev in Hsome |- *. destruct (prev_draw d sc) as [[k0 dr0]|]; [|done].
    destruct (dr_is_locked dr0); [done|]. cbn in Hsome |- *.
    destruct (decide (k' = k0)) as [->|Hk0]; [rewrite lookup_delete_eq in Hsome; by destruct Hsome|].
    unfold matches_of, draw_matches. cbn. rewrite (rows_by_id_filter (λ _ m, negb (mt_draw m =? k0))). f_equal.
    generalize (rows_by_id (db_matches d)) as l. induction l as [|[i m] l IH]; cbn; [done|].
    destruct (Z.eqb_spec (mt_draw m) k0) as [H0|H0]; cbn; destruct (Z.eqb_spec (mt_draw m) k');
      try congruence; by rewrite IH.
  - done.
Qed.

(** What the call does to the draws: those of the scope go with their matches, all others stay as they are. *)
Lemma matches_of_dropped {P} k k' (d : DB P) :
  matches_of (set_db_draws (delete k (db_draws d))
    (set_db_matches (filter (λ km, negb (mt_draw km.2 =? k) = true) (db_matches d)) d)) k' =
  if k' =? k then [] else matches_of d k'.
Proof.
  unfold matches_of, draw_matches. cbn. rewrite (rows_by_id_filter (λ _ m, negb (mt_draw m =? k))).
  generalize (rows_by_id (db_matches d)) as l.
  induction l as [|[i m] l IH]; cbn; [by destruct (_ =? _)|].
  destruct (Z.eqb_spec k' k) as [->|Hne].
  - destruct (Z.eqb_spec (mt_draw m) k) as [H0|H0]; cbn; [exact IH|].
    destruct (Z.eqb_spec (mt_draw m) k); [done|exact IH].
  - destruct (Z.eqb_spec (mt_draw m) k) as [H0|H0]; cbn; destruct (Z.eqb_spec (mt_draw m) k'); cbn;
      try congruence; by f_equal.
Qed.

Lemma drop_prev_exactly {P} sc (d : DB P) :
  scopes_unique d → is_none (sc_age sc) = false → unlocked_scope d sc →
  db_draws (drop_prev sc d).2 = filter (λ kd, draw_in_scope sc kd.2 = false) (db_draws d) ∧
  ∀ k dr, db_draws d !! k = Some dr →
    matches_of (drop_prev sc d).2 k = if draw_in_scope sc dr then [] else matches_of d k.
Proof.
  intros Hu Ha Hl. specialize (Hu sc Ha). unfold drop_prev.
  destruct (prev_draw d sc) as [[k dr]|] eqn:Hp.
  - apply prev_draw_some in Hp. rewrite (Hl k dr Hp). cbn.
    assert (Honly : ∀ k' dr', db_draws d !! k' = Some dr' → draw_in_scope sc dr' = (k' =? k)).
    { intros k' dr' Hk'. destruct (Z.eqb_spec k' k) as [->|Hne].
      - apply elem_of_scope_draws in Hp as [Hk Hs]. by simplify_eq.
      - apply not_true_is_false. intros Hs.
        assert (Hin : (k', dr') ∈ scope_draws d sc) by by apply elem_of_scope_draws.
        destruct (scope_draws d sc) as [|x [|y l]]; cbn in Hu; [set_solver| |lia].
        apply list_elem_of_singleton in Hp as <-. apply list_elem_of_singleton in Hin. congruence. }
    split.
    + apply map_eq. intros i. destruct (db_draws d !! i) as [x|] eqn:Hi.
      * specialize (Honly i x Hi). destruct (Z.eqb_spec i k) as [->|Hne].
        { rewrite lookup_delete_eq. symmetry. apply map_lookup_filter_None. right.
          intros y Hy. cbn. by simplify_eq; rewrite Honly. }
        { rewrite lookup_delete_ne by done. rewrite Hi. symmetry. by apply map_lookup_filter_Some. }
      * transitivity (@None Draw); [|symmetry; apply map_lookup_filter_None; by left].
        apply lookup_delete_None. by right.
    + intros k' dr' Hk'. rewrite (Honly k' dr' Hk'). apply matches_of_dropped.
  - apply prev_draw_none in Hp.
    assert (Hno : ∀ k dr, db_draws d !! k = Some dr → draw_in_scope sc dr = false).
    { intros k dr Hk. apply not_true_is_false. intros Hs.
      assert (Hin : (k, dr) ∈ scope_draws d sc) by by apply elem_of_scope_draws.
      rewrite Hp in Hin. set_solver. }
    cbn. split.
    + symmetry. apply map_filter_id. intros k dr Hk. by eapply Hno.
    + intros k dr Hk. by rewrite (Hno k dr Hk).
Qed.

Lemma draws_replaced {P} randbelow (d : DB P) cid age bg wc comp override size
    threshold seed attempts now ff k d' :
  drawable d cid age bg wc comp override size →
  create_draw_for_group randbelow cid (Some age) bg wc threshold seed attempts override now ff d = (Ok k, d') →
  let sc := mkScope cid (kc_gender comp) (Some age) bg wc in
  db_draws d !! k = None ∧
  db_draws d' = <[k := mkDraw cid (kc_gender comp) (Some age) bg wc size threshold seed false now]>
    (filter (λ kd, draw_in_scope sc kd.2 = false) (db_draws d)) ∧
  ∀ k' dr, db_draws d !! k' = Some dr →
    matches_of d' k' = if draw_in_scope sc dr then [] else matches_of d k'.
Proof.
  intros Hd Hrun sc.
  destruct (draw_outcome randbelow d cid age bg wc comp override size threshold seed attempts
    now ff Hd) as (fin & best & Hrun' & Hwf & He & Hn & _). fold sc in Hrun', Hwf, He, Hn.
  rewrite Hrun in Hrun'. injection Hrun' as -> ->.
  destruct Hd as ([Hwd _] & Hu & _ & Hl & _). fold sc in Hl.
  destruct (written_draw_spec sc age size threshold now seed fin ff (drop_prev sc d).2
    eq_refl Hwf He) as (_ & _ & Hother & Hdr & _). rewrite Hn in Hother, Hdr.
  destruct (drop_prev_exactly sc d Hu eq_refl Hl) as [Hdraws Hms].
  assert (Hfresh : db_draws d !! db_next_id d = None).
  { destruct (db_draws d !! db_next_id d) as [x|] eqn:Hx; [|done]. apply Hwd in Hx. cbn in Hx. lia. }
  split_and!; [done|by rewrite Hdr, Hdraws|].
  intros k' dr Hk'. rewrite <- (Hms k' dr Hk'). apply Hother. congruence.
Qed.

(** A draw of this group: of the competition, for its gender and these three classes. *)
Definition of_group (cid : Z) (gender : string) (age : option Z) (bg wc : Z) (dr : Draw) : Prop :=
  dr_competition dr = cid ∧ dr_gender dr = gender ∧ dr_age_category dr = age ∧
  dr_belt_group dr = bg ∧ dr_weight_category dr = wc.

#[export] Instance of_group_dec cid gender age bg wc dr : Decision (of_group cid gender age bg wc dr).
Proof. unfold of_group. apply _. Defined.

Lemma draw_in_scope_spec cid gender age bg wc dr :
  draw_in_scope (mkScope cid gender age bg wc) dr = true ↔ of_group cid gender age bg wc dr.
Proof.
  unfold draw_in_scope, of_group. cbn.
  rewrite !andb_true_iff, !Z.eqb_eq, String.eqb_eq, bool_decide_eq_true. tauto.
Qed.

(** C1: drawing a group whose table is at least as large as the group succeeds and
    seats every eligible player exactly once: the players on the matches of the
    new draw are those of the group, the matches are the slots [(1,2), (3,4), ..]
    of the first round and [is_bye] marks exactly those with a missing side. The new
    draw gets a new key and replaces the earlier draws of the same competition, gender and
    classes, which go with their matches; every other draw stays as it is, with its matches. *)
Theorem draw_seats_every_player {P} randbelow (d : DB P) cid age bg wc comp override size
    threshold seed attempts now ff :
  drawable d cid age bg wc comp override size →
  real_count (group_entries d cid bg wc) ≤ size →
  let same := of_group cid (kc_gender comp) (Some age) bg wc in
  let new := mkDraw cid (kc_gender comp) (Some age) bg wc size threshold seed false now in
  ∃ k d', create_draw_for_group randbelow cid (Some age) bg wc threshold seed attempts
            override now ff d = (Ok k, d') ∧
    mjoin (match_players <$> matches_of d' k) ≡ₚ
      players_of_entries (group_entries d cid bg wc) ∧
    length (matches_of d' k) = Z.to_nat (size / 2) ∧
    (∀ i m, matches_of d' k !! i = Some m →
       mt_round_no m = 1 ∧ mt_slot_a m = 2 * Z.of_nat i + 1 ∧
       mt_slot_b m = 2 * Z.of_nat i + 2 ∧
       (mt_is_bye m = true ↔ mt_player_a m = None ∨ mt_player_b m = None)) ∧
    db_draws d !! k = None ∧
    db_draws d' = <[k := new]> (filter (λ kd, ¬ same kd.2) (db_draws d)) ∧
    (∀ k' dr, db_draws d !! k' = Some dr →
       matches_of d' k' = if decide (same dr) then [] else matches_of d k') ∧
    bracket_wf d'.
Proof.
  intros Hd Hle same new. destruct (drawn_table randbelow d cid age bg wc comp override size threshold
    seed attempts now ff Hd Hle) as (k & d' & Hrun & Hpl & Hlen & Hm & _ & _ & Hwf).
  destruct (draws_replaced _ _ _ _ _ _ _ _ _ _ _ _ _ _ _ _ Hd Hrun) as (Hf & Hdr & Hms).
  exists k, d'. split_and!; try done.
  - rewrite Hdr. f_equal. apply map_filter_ext. intros k' dr _. unfold same. cbn.
    by rewrite <- draw_in_scope_spec, not_true_iff_false.
  - intros k' dr Hk'. rewrite (Hms k' dr Hk'). unfold same.
    case_decide as Hs; rewrite <- draw_in_scope_spec in Hs; [by rewrite Hs|].
    apply not_true_is_false in Hs. by rewrite Hs.
Qed.

(** A scope whose latest draw is locked cannot be drawn again: the call ends in
    an exception and the transaction leaves the database as it was. *)
Theorem locked_draw_is_kept {P} randbelow (d : DB P) cid age bg wc comp override threshold seed
    attempts now ff k dr :
  db_competitions d !! cid = Some comp →
  prev_draw d (mkScope cid (kc_gender comp) (Some age) bg wc) = Some (k, dr) →
  dr_is_locked dr = true →
  ∃ e, create_draw_for_group randbelow cid (Some age) bg wc threshold seed attempts override
         now ff d = (Err e, d).
Proof.
  intros Hc Hp Hl. set (sc := mkScope cid (kc_gender comp) (Some age) bg wc) in *.
  unfold create_draw_for_group, atomic. unfold bind at 1, get, bind at 1, of_option.
  rewrite Hc. unfold ret at 1, bind at 1, lift. fold sc.
  destruct (plan_entries _ _ _ _ _ _ _) as [plan|e]; [|by eexists].
  unfold bind at 1, drop_prev. rewrite Hp, Hl.
  unfold bind at 1, create_draw_row. rewrite bool_decide_eq_false_2.
  - cbn. by eexists.
  - intros He. apply prev_draw_some in Hp. rewrite He in Hp. set_solver.
Qed.

(** After a draw outside the yearly cleanup day, every pair of players that
    meets in its first round is in the history the next draw of the scope reads,
    pairs recorded earlier stay, and nothing else is added; on the cleanup day
    the history is empty. *)
Theorem draw_records_history {P} randbelow (d : DB P) cid age bg wc comp override size
    threshold seed attempts now ff :
  drawable d cid age bg wc comp override size →
  ∃ k d', create_draw_for_group randbelow cid (Some age) bg wc threshold seed attempts
            override now ff d = (Ok k, d') ∧
    let sc := mkScope cid (kc_gender comp) (Some age) bg wc in
    if ff then db_histories d' = []
    else ∀ xy, xy ∈ history_pairs_of d' sc ↔
      xy ∈ history_pairs_of d sc ∨
      ∃ m a b, m ∈ matches_of d' k ∧ mt_player_a m = Some a ∧ mt_player_b m = Some b ∧
               xy = ordered_pair a b.
Proof.
  intros Hd. set (sc := mkScope cid (kc_gender comp) (Some age) bg wc).
  destruct (draw_outcome randbelow d cid age bg wc comp override size threshold seed attempts
    now ff Hd) as (fin & best & Hrun & Hwf & He & Hn & _). fold sc in Hrun, Hwf, He, Hn.
  destruct (written_draw_spec sc age size threshold now seed fin ff (drop_prev sc d).2
    eq_refl Hwf He) as (_ & Hm & _ & _ & Hk & Hc).
  eexists _, _. split; [exact Hrun|]. cbv zeta.
  destruct ff; [by apply Hc|]. intros xy.
  rewrite <- !pair_known_iff, Hk by done. rewrite <- Hn, Hm.
  rewrite elem_of_real_pairs. unfold pair_known.
  by destruct (drop_prev_frame sc d) as (_ & -> & _).
Qed.

(** A manual table size below the size of a group of five or more is accepted
    and leaves players out: the new draw seats only as many players as the table
    has slots, although the call reports success. *)
Theorem small_override_drops_players {P} randbelow (d : DB P) cid age bg wc comp size
    threshold seed attempts now ff :
  drawable d cid age bg wc comp (Some size) size →
  size < real_count (group_entries d cid bg wc) →
  ∃ k d', create_draw_for_group randbelow cid (Some age) bg wc threshold seed attempts
            (Some size) now ff d = (Ok k, d') ∧
    zlen (mjoin (match_players <$> matches_of d' k)) = size ∧
    size < zlen (players_of_entries (group_entries d cid bg wc)).
Proof.
  intros Hd Hlt. set (sc := mkScope cid (kc_gender comp) (Some age) bg wc).
  destruct (draw_outcome randbelow d cid age bg wc comp _ size threshold seed attempts
    now ff Hd) as (fin & best & Hrun & Hwf & He & Hn & Hlen & Hb & Hf & _).
  fold sc in Hrun, Hwf, He, Hn. destruct Hd as (Hwf0 & _ & _ & _ & Hr & Hs).
  destruct (table_size_even _ _ _ Hr Hs) as [Hs2 Hev].
  destruct (written_draw_spec sc age size threshold now seed fin ff (drop_prev sc d).2
    eq_refl Hwf He) as (_ & Hm & _).
  rewrite Hn in Hm. eexists _, _. split; [exact Hrun|]. rewrite Hm.
  pose proof count_players as Hcount.
  split; [|by rewrite Hcount].
  rewrite first_round_players by (by rewrite Hlen).
  rewrite Hcount. unfold real_count at 1. rewrite Hf. unfold zlen.
  rewrite length_take, Hb. unfold real_count, zlen in *. lia.
Qed.

(** ** Witnesses *)

Definition sample_profile (club : option Z) : UserProfile Z :=
  mkUserProfile "P" "Q" false "player" "male" club None None 0 0 0 0 0.

Definition sample_comp : KyorugiCompetition :=
  mkKyorugiCompetition "Cup" 1000000 (Some 3) "male" None 0 10 11 12 13 1 None "c".

Definition sample_enrollment (player : Z) : Enrollment :=
  mkEnrollment 1 player None "" "" None "" None "" (Some 4) (Some 5) (S754_zero false) "I" 0
    "paid" true 1000000 "R" None "" None 0 1000000 false false.

(** A competition with [n] paid players in belt group 4, weight 5. *)
Definition sample_group (n : nat) : DB Z :=
  set_db_competitions {[1 := sample_comp]}
    (set_db_profiles (list_to_map ((λ i, (i, sample_profile None)) <$> seqZ 20 (Z.of_nat n)))
       (set_db_enrollments
          (list_to_map ((λ i, (50 + i, sample_enrollment i)) <$> seqZ 20 (Z.of_nat n)))
          (empty_db 200))).

Lemma sample_drawable n override size :
  1 ≤ real_count (group_entries (sample_group n) 1 4 5) →
  table_size (real_count (group_entries (sample_group n) 1 4 5)) override = Ok size →
  drawable (sample_group n) 1 3 4 5 sample_comp override size.
Proof.
  intros Hr Hs. split_and!; try done.
  - intros sc _. assert (scope_draws (sample_group n) sc = []) as -> by reflexivity. cbn. lia.
  - intros k dr Hin. apply elem_of_scope_draws in Hin as [Hl _]. cbn in Hl.
    rewrite lookup_empty in Hl. done.
Qed.

Lemma draw_seats_every_player_witness :
  ∃ k d', create_draw_for_group last_below 1 (Some 3) 4 5 8 "s" 200 None 77 false
            (sample_group 5) = (Ok k, d') ∧
    mjoin (match_players <$> matches_of d' k) ≡ₚ
      players_of_entries (group_entries (sample_group 5) 1 4 5) ∧
    length (matches_of d' k) = Z.to_nat (8 / 2).
Proof.
  destruct (draw_seats_every_player last_below (sample_group 5) 1 3 4 5 sample_comp None 8
    8 "s" 200 77 false) as (k & d' & H1 & H2 & H3 & _).
  - apply sample_drawable; [vm_compute; discriminate|vm_compute; reflexivity].
  - vm_compute. discriminate.
  - exists k, d'. exact (conj H1 (conj H2 H3)).
Defined.

Definition locked_db : DB Z :=
  set_db_draws {[9 := mkDraw 1 "male" (Some 3) 4 5 8 8 "" true 0]} (sample_group 5).

Lemma locked_draw_is_kept_witness :
  ∃ e, create_draw_for_group last_below 1 (Some 3) 4 5 8 "s" 200 None 77 false locked_db
       = (Err e, locked_db).
Proof.
  apply (locked_draw_is_kept last_below locked_db 1 3 4 5 sample_comp None 8 "s" 200 77 false 9
    (mkDraw 1 "male" (Some 3) 4 5 8 8 "" true 0)); vm_compute; reflexivity.
Defined.

Lemma draw_records_history_witness :
  ∃ k d', create_draw_for_group last_below 1 (Some 3) 4 5 8 "s" 200 None 77 false
            (sample_group 5) = (Ok k, d') ∧
    let sc := mkScope 1 (kc_gender sample_comp) (Some 3) 4 5 in
    ∀ xy, xy ∈ history_pairs_of d' sc ↔
      xy ∈ history_pairs_of (sample_group 5) sc ∨
      ∃ m a b, m ∈ matches_of d' k ∧ mt_player_a m = Some a ∧ mt_player_b m = Some b ∧
               xy = ordered_pair a b.
Proof.
  apply (draw_records_history last_below (sample_group 5) 1 3 4 5 sample_comp None 8
    8 "s" 200 77 false).
  apply sample_drawable; [vm_compute; discriminate|vm_compute; reflexivity].
Defined.

Lemma small_override_drops_players_witness :
  ∃ k d', create_draw_for_group last_below 1 (Some 3) 4 5 8 "s" 200 (Some 4) 77 false
            (sample_group 6) = (Ok k, d') ∧
    zlen (mjoin (match_players <$> matches_of d' k)) = 4 ∧
    4 < zlen (players_of_entries (group_entries (sample_group 6) 1 4 5)).
Proof.
  apply (small_override_drops_players last_below (sample_group 6) 1 3 4 5 sample_comp 4
    8 "s" 200 77 false).
  - apply sample_drawable; [vm_compute; discriminate|vm_compute; reflexivity].
  - vm_compute. reflexivity.
Defined.
