(* ===== verification/NumberingService.v ===== *)
(** Match numbering: [competitions/services/numbering_service.py].

    The queries are functions of the database, [_ensure_rounds_exist] and the two
    numbering phases are the loops of the code over the database and the per-mat
    counters, and [number_matches_for_competition] is the transaction around them. *)

From Stdlib Require Import SpecFloat.
From S2P Require Import Prelude Store.
Local Open Scope Z_scope.

(** ** Queries *)

Section queries.
Context {P : Type}.
Implicit Types d : DB P.

Definition mats_of (d : DB P) (competition_id : Z) : list MatAssignment :=
  List.filter (λ ma, ma_competition ma =? competition_id) (db_mat_assignments d).

Definition add_weight (mat : Z) (mapping : gmap Z Z) (w : Z) : gmap Z Z :=
  match mapping !! w with
  | None => <[w := mat]> mapping
  | Some n => <[w := Z.min n mat]> mapping
  end.

Definition _weight_to_mat_map (d : DB P) (competition_id : Z) : gmap Z Z :=
  foldl (λ mapping ma, foldl (add_weight (ma_mat_number ma)) mapping (ma_weights ma)) ∅
    (mats_of d competition_id).

(** [.values_list("round_no", flat=True).distinct().order_by("round_no")] *)
Definition _rounds_of (d : DB P) (draw : Z) : list Z :=
  sort_by Z.leb (remove_dups ((λ km, mt_round_no km.2) <$> draw_matches d draw)).

Definition round_key (km : Z * Match) : list Z :=
  [mt_slot_a km.2; mt_slot_b km.2; km.1].

Definition _matches_in_round (d : DB P) (draw round_no : Z) : list (Z * Match) :=
  sort_by (λ x y, lex_leb (round_key x) (round_key y))
    (List.filter (λ km, mt_round_no km.2 =? round_no) (draw_matches d draw)).

Definition _first_round_no (d : DB P) (draw : Z) : option Z := head (_rounds_of d draw).
Definition _last_round_no (d : DB P) (draw : Z) : option Z := last (_rounds_of d draw).

Definition count_round (d : DB P) (draw round_no : Z) : Z :=
  zlen (List.filter (λ km, mt_round_no km.2 =? round_no) (draw_matches d draw)).

(** The truthy player ids on the matches of a draw, as a set. *)
Definition real_players (d : DB P) (draw : Z) : gset Z :=
  list_to_set (List.filter (λ p, negb (p =? 0))
    (mjoin ((λ km, option_list (mt_player_a km.2) ++ option_list (mt_player_b km.2))
              <$> draw_matches d draw))).

Definition _real_players_count (d : DB P) (draw : Z) : Z :=
  Z.of_nat (size (real_players d draw)).

Definition _has_real_match (d : DB P) (draw : Z) : bool :=
  if _real_players_count d draw <? 2 then false
  else
    match _first_round_no d draw with
    | None => false
    | Some fr =>
        existsb (λ km, negb (mt_round_no km.2 =? fr)) (draw_matches d draw)
        || existsb (λ km, (mt_round_no km.2 =? fr) && negb (mt_is_bye km.2))
             (draw_matches d draw)
    end.
End queries.

(** ** Creating the later rounds *)

(** [while s < total_size: rounds_count += 1; s <<= 1] *)
Definition rounds_count (total_size : Z) : Z :=
  match while (Z.to_nat (Z.max total_size 1)) (λ st : Z * Z, st.2 <? total_size)
          (λ st, (st.1 + 1, Z.shiftl st.2 1)) (0, 1) with
  | Some st => st.1
  | None => 0
  end.

Definition expected_matches (total_size step : Z) : Z :=
  Z.max 1 (total_size / 2 ^ (step + 1)).

Definition placeholder (draw round_no idx : Z) : Match :=
  mkMatch draw round_no idx idx None None false None None None None.

Section rounds.
Context {P : Type}.
Implicit Types d : DB P.

Definition fill_round (draw : Z) (total_size fr : Z) (d : DB P) (step : Z) : DB P :=
  let r := fr + step in
  let expected := expected_matches total_size step in
  let existing := count_round d draw r in
  if existing <? expected then
    foldl add_match d (placeholder draw r <$> py_range existing expected)
  else d.

Definition total_size_of (d : DB P) (draw : Z) (dr : Draw) (fr : Z) : Z :=
  if dr_size dr <=? 0 then Z.max 1 (count_round d draw fr * 2) else dr_size dr.

Definition _ensure_rounds_exist (d : DB P) (row : Z * Draw) : DB P :=
  let fr := match _first_round_no d row.1 with
            | Some r => if r =? 0 then 1 else r
            | None => 1
            end in
  let total_size := total_size_of d row.1 row.2 fr in
  foldl (fill_round row.1 total_size fr) d (py_range 1 (rounds_count total_size)).
End rounds.

(** ** Numbering *)

Section numbering.
Context {P : Type}.
Implicit Types d : DB P.

Record nstate := mkN { ns_counters : gmap Z Z; ns_db : DB P }.

(** [m.save(update_fields=["is_bye", "mat_no", "match_number"])] *)
Definition save_numbers (k : Z) (m : Match) (d : DB P) : DB P :=
  set_db_matches
    (alter (λ row, set_mt_is_bye (mt_is_bye m)
                     (set_mt_mat_no (mt_mat_no m)
                        (set_mt_match_number (mt_match_number m) row))) k (db_matches d)) d.

(** The body both phases share, on a fetched match [km] of round [rnd] of a draw
    whose first round is [fr]. *)
Definition number_match (mat rnd : Z) (fr : option Z) (is_single : bool)
    (st : nstate) (km : Z * Match) : nstate :=
  let m := km.2 in
  let is_first := bool_decide (fr = Some rnd) in
  let is_later := match fr with Some f => f <? rnd | None => false end in
  if is_first && mt_is_bye m then st
  else
    let m1 := if is_later && mt_is_bye m && negb is_single then set_mt_is_bye false m else m in
    let c := default 0 (ns_counters st !! mat) + 1 in
    let m2 := if truthy_id (mt_mat_no m1) then m1 else set_mt_mat_no (Some mat) m1 in
    let m3 := set_mt_match_number (Some c) m2 in
    mkN (<[mat := c]> (ns_counters st)) (save_numbers km.1 m3 (ns_db st)).

(** What the loops know about the draws: first and last round by draw id, draws by
    mat, the mats and the rounds in order. *)
Record numbering_plan := mkPlan {
  np_first_round_of : gmap Z (option Z);
  np_last_round_of : gmap Z (option Z);
  np_draws_by_mat : Z → list Z;
  np_mats : list Z;
  np_rounds : list Z;
}.

Definition first_of (np : numbering_plan) (dr : Z) : option Z :=
  default None (np_first_round_of np !! dr).
Definition last_of (np : numbering_plan) (dr : Z) : option Z :=
  default None (np_last_round_of np !! dr).

Definition phase1_draw (np : numbering_plan) (rnd mat : Z) (st : nstate) (dr : Z) : nstate :=
  if bool_decide (last_of np dr = Some rnd) then st
  else
    let is_single := _real_players_count (ns_db st) dr <? 2 in
    foldl (number_match mat rnd (first_of np dr) is_single) st
      (_matches_in_round (ns_db st) dr rnd).

Definition phase1 (np : numbering_plan) (st : nstate) : nstate :=
  foldl (λ st rnd,
    foldl (λ st mat,
      foldl (phase1_draw np rnd mat) st (np_draws_by_mat np mat)) st (np_mats np))
    st (np_rounds np).

Definition phase2_draw (np : numbering_plan) (mat : Z) (st : nstate) (dr : Z) : nstate :=
  match last_of np dr with
  | None => st
  | Some lr =>
      foldl (number_match mat lr (first_of np dr) false) st (_matches_in_round (ns_db st) dr lr)
  end.

Definition phase2 (np : numbering_plan) (st : nstate) : nstate :=
  foldl (λ st mat, foldl (phase2_draw np mat) st (np_draws_by_mat np mat)) st (np_mats np).

(** [order_by("weight_category__min_weight", "id")] *)
Definition min_weight_of (d : DB P) (dr : Draw) : spec_float :=
  match db_weights d !! dr_weight_category dr with
  | Some w => wc_min_weight w
  | None => S754_zero false
  end.

Definition draw_le (d : DB P) (x y : Z * Draw) : bool :=
  let wx := min_weight_of d x.2 in let wy := min_weight_of d y.2 in
  SFltb wx wy || (SFeqb wx wy && (x.1 <=? y.1)).

Definition draws_of_weights (d : DB P) (competition_id : Z) (weight_ids : list Z)
    : list (Z * Draw) :=
  sort_by (draw_le d)
    (List.filter (λ row, (dr_competition row.2 =? competition_id)
                         && bool_decide (dr_weight_category row.2 ∈ weight_ids))
       (rows_by_id (db_draws d))).

Definition clear_numbers (draws : list Z) (d : DB P) : DB P :=
  set_db_matches
    ((λ m, if bool_decide (mt_draw m ∈ draws) then set_mt_match_number None m else m)
       <$> db_matches d) d.

Definition plan_numbering (d : DB P) (w2m : gmap Z Z) (mats : list Z)
    (draws : list (Z * Draw)) : numbering_plan :=
  mkPlan
    (list_to_map ((λ row, (row.1, _first_round_no d row.1)) <$> draws))
    (list_to_map ((λ row, (row.1, _last_round_no d row.1)) <$> draws))
    (λ mat, (List.filter (λ row, bool_decide (w2m !! dr_weight_category row.2 = Some mat))
               draws).*1)
    mats
    (sort_by Z.leb (remove_dups (mjoin ((λ row, _rounds_of d row.1) <$> draws)))).

Definition number_matches_for_competition (competition_id : Z) (weights : list Z)
    (clear_prev : bool) : M (DB P) (gmap Z Z) :=
  atomic (
    d <~ get ;;
    _ <~ of_option (db_competitions d !! competition_id) DoesNotExist ;;
    let weight_ids := remove_dups weights in
    raise_if (bool_decide (weight_ids = [])) NumberingError ;;
    let w2m := _weight_to_mat_map d competition_id in
    raise_if (existsb (λ w, is_none (w2m !! w)) weight_ids) NumberingError ;;
    let all_draws := draws_of_weights d competition_id weight_ids in
    raise_if (bool_decide (all_draws = [])) NumberingError ;;
    let mats := sort_by Z.leb (remove_dups
                  (omap (λ row, w2m !! dr_weight_category row.2) all_draws)) in
    let counters : gmap Z Z := list_to_map ((λ m, (m, 0)) <$> mats) in
    _ <~ modify (if clear_prev then clear_numbers all_draws.*1 else id) ;;
    _ <~ modify (λ d, foldl _ensure_rounds_exist d all_draws) ;;
    d2 <~ get ;;
    let draws := List.filter (λ row, _has_real_match d2 row.1) all_draws in
    if bool_decide (draws = []) then ret counters
    else
      let np := plan_numbering d2 w2m mats draws in
      if bool_decide (np_rounds np = []) then ret counters
      else
        let st := phase2 np (phase1 np (mkN counters d2)) in
        _ <~ put (ns_db st) ;;
        ret (ns_counters st))%monad.

Definition clear_match_numbers_for_competition (competition_id : Z) (weights : list Z)
    : M (DB P) unit :=
  atomic (
    d <~ get ;;
    _ <~ of_option (db_competitions d !! competition_id) DoesNotExist ;;
    if bool_decide (weights = []) then ret tt
    else
      let draws := List.filter (λ row, (dr_competition row.2 =? competition_id)
                     && bool_decide (dr_weight_category row.2 ∈ weights))
                     (rows_by_id (db_draws d)) in
      put (clear_numbers draws.*1 d))%monad.

(** [numbering_publish_view] of [competitions/admin.py]: publishing is refused
    while a match between two players has no number. *)
Inductive publish_outcome := Published | Hidden | NotFound | Unnumbered.

Definition has_unnumbered (d : DB P) (competition_id : Z) : bool :=
  existsb (λ km,
    match db_draws d !! mt_draw km.2 with
    | Some dr => dr_competition dr =? competition_id
    | None => false
    end
    && negb (mt_is_bye km.2) && is_none (mt_match_number km.2)
    && negb (is_none (mt_player_a km.2)) && negb (is_none (mt_player_b km.2)))
    (rows_by_id (db_matches d)).

Definition numbering_publish_view (competition_id : Z) (unpublish : bool) (now : Z)
    : M (DB P) publish_outcome := λ d,
  match db_competitions d !! competition_id with
  | None => (Ok NotFound, d)
  | Some comp =>
      if unpublish then
        (Ok Hidden,
         if is_none (kc_bracket_published_at comp) then d
         else set_db_competitions
                (<[competition_id := set_kc_bracket_published_at None comp]> (db_competitions d)) d)
      else if has_unnumbered d competition_id then (Ok Unnumbered, d)
      else
        (Ok Published,
         if is_none (kc_bracket_published_at comp)
         then set_db_competitions
                (<[competition_id := set_kc_bracket_published_at (Some now) comp]>
                   (db_competitions d)) d
         else d)
  end.
End numbering.
Arguments nstate : clear implicits.

(** ** Rounds: correctness *)

Lemma rounds_count_pow2 k : 0 ≤ k → rounds_count (2 ^ k) = k.
Proof.
  intros Hk. unfold rounds_count. pose proof (Z.pow_pos_nonneg 2 k ltac:(lia) Hk).
  destruct (while_inv (λ st : Z * Z, 0 ≤ st.1 ≤ k ∧ st.2 = 2 ^ st.1)
    (λ st, k - st.1) (λ st, st.2 <? 2 ^ k) (λ st, (st.1 + 1, Z.shiftl st.2 1)))
    with (fuel := Z.to_nat (Z.max (2 ^ k) 1)) (s := (0, 1)) as (st & -> & [Hb He] & Hc).
  - intros [c s] [Hb He] Hlt. cbn in *. apply Z.ltb_lt in Hlt. subst s.
    assert (c < k) by (apply (Z.pow_lt_mono_r_iff 2); lia).
    rewrite Z.shiftl_mul_pow2, Z.pow_add_r by lia. split_and!; lia.
  - cbn. split_and!; lia || done.
  - cbn. pose proof (Z.pow_gt_lin_r 2 k). lia.
  - apply Z.ltb_ge in Hc. rewrite He in Hc. apply Z.pow_le_mono_r_iff in Hc; lia.
Qed.

Section rounds_spec.
Context {P : Type}.
Implicit Types d : DB P.

(** [n] new placeholder matches of round [r] of draw [k]. *)
Lemma add_placeholders_spec k r idxs : ∀ d, bracket_wf d → k < db_next_id d →
  let d' := foldl add_match d (placeholder k r <$> idxs) in
  bracket_wf d' ∧ k < db_next_id d' ∧ db_draws d' = db_draws d ∧
  ∃ ks, length ks = length idxs ∧ draw_matches d' k = draw_matches d k ++ zip ks (placeholder k r <$> idxs) ∧
  (∀ k', k' ≠ k → draw_matches d' k' = draw_matches d k').
Proof.
  induction idxs as [|i idxs IH]; intros d Hwf Hk; cbn.
  { split_and!; try done. exists []. cbn. by rewrite app_nil_r. }
  destruct (IH (add_match d (placeholder k r i))) as (Hwf' & Hk' & Hd' & ks & Hl & Hdm & Ho).
  - apply add_match_wf; [done|cbn; lia].
  - cbn. lia.
  - split_and!; [done..|]. exists (db_next_id d :: ks). split_and!.
    + cbn. by rewrite Hl.
    + rewrite Hdm, add_match_draw_matches by done. cbn. rewrite Z.eqb_refl.
      by rewrite <- (assoc_L (++)).
    + intros k' Hne. rewrite Ho by done. rewrite add_match_draw_matches by done. cbn.
      destruct (Z.eqb_spec k k'); [congruence|]. by rewrite app_nil_r.
Qed.

Lemma count_round_app d d' k r l : draw_matches d' k = draw_matches d k ++ l →
  count_round d' k r = count_round d k r + zlen (List.filter (λ km, mt_round_no km.2 =? r) l).
Proof.
  intros Hd. unfold count_round. rewrite Hd, List.filter_app. unfold zlen.
  rewrite length_app. lia.
Qed.

Lemma filter_placeholders k r r' ks idxs : length ks = length idxs →
  zlen (List.filter (λ km : Z * Match, mt_round_no km.2 =? r') (zip ks (placeholder k r <$> idxs)))
  = if r =? r' then zlen idxs else 0.
Proof.
  revert ks. induction idxs as [|i idxs IH]; intros [|x ks] Hl; cbn in *; try done.
  { by destruct (r =? r'). }
  injection Hl as Hl. specialize (IH ks Hl). destruct (r =? r'); unfold zlen in *; cbn; lia.
Qed.

(** One step of the loop tops its round up and touches nothing else. *)
Lemma fill_round_spec k total fr step d : bracket_wf d → k < db_next_id d →
  let d' := fill_round k total fr d step in
  bracket_wf d' ∧ k < db_next_id d' ∧ db_draws d' = db_draws d ∧
  (∀ k', k' ≠ k → draw_matches d' k' = draw_matches d k') ∧
  (∀ r, count_round d' k r =
     if r =? fr + step then Z.max (count_round d k r) (expected_matches total step)
     else count_round d k r) ∧
  zlen (draw_matches d' k) =
    zlen (draw_matches d k) + Z.max 0 (expected_matches total step - count_round d k (fr + step)).
Proof.
  intros Hwf Hk. unfold fill_round.
  destruct (Z.ltb_spec (count_round d k (fr + step)) (expected_matches total step)) as [Hlt|Hge].
  - destruct (add_placeholders_spec k (fr + step)
      (py_range (count_round d k (fr + step)) (expected_matches total step)) d Hwf Hk)
      as (Hwf' & Hk' & Hd & ks & Hl & Hdm & Ho).
    split_and!; try done.
    + intros r. rewrite (count_round_app _ _ _ _ _ Hdm), filter_placeholders by done.
      rewrite (Z.eqb_sym (fr + step)). destruct (Z.eqb_spec r (fr + step)) as [->|]; [|lia].
      unfold zlen. rewrite length_py_range. lia.
    + rewrite Hdm. unfold zlen. rewrite length_app, length_zip, length_fmap, Hl, length_py_range. lia.
  - split_and!; try done; try lia. intros r.
    destruct (Z.eqb_spec r (fr + step)) as [->|]; [|done]. rewrite Z.max_l; [done|].
    unfold count_round in *. lia.
Qed.

Lemma fill_round_full k total fr step d :
  expected_matches total step ≤ count_round d k (fr + step) → fill_round k total fr d step = d.
Proof. intros Hle. unfold fill_round. by destruct (Z.ltb_spec (count_round d k (fr + step)) (expected_matches total step)); [lia|]. Qed.

(** The whole loop over the steps [a .. b - 1]. *)
Lemma fill_rounds_spec k total fr n : ∀ a d, bracket_wf d → k < db_next_id d →
  let d' := foldl (fill_round k total fr) d (seqZ a (Z.of_nat n)) in
  bracket_wf d' ∧ k < db_next_id d' ∧ db_draws d' = db_draws d ∧
  (∀ k', k' ≠ k → draw_matches d' k' = draw_matches d k') ∧
  (∀ r, count_round d' k r =
     if (fr + a <=? r) && (r <? fr + a + Z.of_nat n)
     then Z.max (count_round d k r) (expected_matches total (r - fr))
     else count_round d k r) ∧
  zlen (draw_matches d' k) = zlen (draw_matches d k) +
    sumZ ((λ step, Z.max 0 (expected_matches total step - count_round d k (fr + step)))
            <$> seqZ a (Z.of_nat n)).
Proof.
  induction n as [|n IH]; intros a d Hwf Hk.
  { assert (seqZ a (Z.of_nat 0) = []) as -> by done. cbn. split_and!; try done; [|lia]. intros r.
  destruct (_ && _) eqn:E; [|done]. rewrite andb_true_iff, Z.leb_le, Z.ltb_lt in E. lia. }
  rewrite seqZ_cons by lia. cbn [foldl].
  replace (Z.pred (Z.of_nat (S n))) with (Z.of_nat n) by lia.
  destruct (fill_round_spec k total fr a d Hwf Hk) as (Hwf1 & Hk1 & Hd1 & Ho1 & Hc1 & Hl1).
  destruct (IH (Z.succ a) (fill_round k total fr d a) Hwf1 Hk1)
    as (Hwf2 & Hk2 & Hd2 & Ho2 & Hc2 & Hl2).
  split_and!; try done.
  - by rewrite Hd2.
  - intros k' Hne. by rewrite Ho2, Ho1.
  - intros r. rewrite Hc2, Hc1.
    destruct ((fr + Z.succ a <=? r) && _) eqn:E1, ((fr + a <=? r) && _) eqn:E2,
      (Z.eqb_spec r (fr + a)) as [->|Hne]; try done; try bool_lia.
    by replace (fr + a - fr) with a by lia.
  - rewrite Hl2, Hl1, fmap_cons, sumZ_cons, <- Z.add_assoc. do 2 f_equal.
    apply sumZ_fmap_ext. intros step Hin. rewrite Hc1. apply elem_of_seqZ in Hin.
    destruct (Z.eqb_spec (fr + step) (fr + a)); [lia|done].
Qed.

Lemma fill_rounds_full k total fr l : ∀ d,
  (∀ step, step ∈ l → expected_matches total step ≤ count_round d k (fr + step)) →
  foldl (fill_round k total fr) d l = d.
Proof.
  induction l as [|step l IH]; intros d Hf; cbn; [done|].
  rewrite fill_round_full by (apply Hf; left). apply IH. intros s Hs. apply Hf. by right.
Qed.

Lemma sort_by_cons_min {A} (le : A → A → bool) x l :
  (∀ y, y ∈ l → le x y = true) → sort_by le (x :: l) = x :: sort_by le l.
Proof.
  intros Hx. cbn. assert (∀ y, y ∈ sort_by le l → le x y = true) as Hs.
  { intros y. rewrite sort_by_perm. apply Hx. }
  destruct (sort_by le l) as [|y l']; cbn; [done|]. by rewrite (Hs y) by left.
Qed.

Lemma elem_of_rounds_of d k r :
  r ∈ _rounds_of d k ↔ ∃ i m, (i, m) ∈ draw_matches d k ∧ mt_round_no m = r.
Proof.
  unfold _rounds_of. rewrite sort_by_perm, elem_of_remove_dups, list_elem_of_fmap. split.
  - intros ([i m] & -> & ?). by exists i, m.
  - intros (i & m & ? & <-). by exists (i, m).
Qed.

Lemma rounds_of_sorted d k : StronglySorted Z.lt (_rounds_of d k).
Proof. apply sorted_distinct. Qed.

Lemma first_round_spec d k fr : _first_round_no d k = Some fr ↔
  (∃ i m, (i, m) ∈ draw_matches d k ∧ mt_round_no m = fr) ∧
  (∀ i m, (i, m) ∈ draw_matches d k → fr ≤ mt_round_no m).
Proof.
  unfold _first_round_no. pose proof (rounds_of_sorted d k) as Hs. split.
  - intros Hh. assert (Hin : fr ∈ _rounds_of d k).
    { destruct (_rounds_of d k); [done|]. injection Hh as ->. left. }
    split; [by apply elem_of_rounds_of|]. intros i m Him.
    assert (Hm : mt_round_no m ∈ _rounds_of d k) by (apply elem_of_rounds_of; eauto).
    destruct (_rounds_of d k) as [|r l]; [done|]. injection Hh as ->.
    apply elem_of_cons in Hm as [->|Hm]; [done|].
    apply StronglySorted_inv in Hs as [_ Hr]. rewrite Forall_forall in Hr.
    specialize (Hr _ Hm). lia.
  - intros [Hin Hle]. apply elem_of_rounds_of in Hin.
    destruct (_rounds_of d k) as [|r l] eqn:E; [set_solver|]. cbn. f_equal.
    assert (Hr : r ∈ _rounds_of d k) by (rewrite E; left).
    apply elem_of_rounds_of in Hr as (i & m & Him & <-). specialize (Hle i m Him).
    apply elem_of_cons in Hin as [->|Hin]; [done|].
    apply StronglySorted_inv in Hs as [_ Hr]. rewrite Forall_forall in Hr.
    specialize (Hr _ Hin). lia.
Qed.

Lemma count_round_pos d k r : 0 < count_round d k r ↔
  ∃ i m, (i, m) ∈ draw_matches d k ∧ mt_round_no m = r.
Proof.
  unfold count_round, zlen. split.
  - intros Hp. destruct (List.filter _ _) as [|[i m] l] eqn:E; [cbn in Hp; lia|].
    assert (Hin : (i, m) ∈ List.filter (λ km : Z * Match, mt_round_no km.2 =? r) (draw_matches d k))
      by (rewrite E; left).
    rewrite list_elem_of_In, filter_In, <- list_elem_of_In, Z.eqb_eq in Hin.
    exists i, m. naive_solver.
  - intros (i & m & Him & Hr).
    assert (Hin : (i, m) ∈ List.filter (λ km : Z * Match, mt_round_no km.2 =? r) (draw_matches d k)).
    { rewrite list_elem_of_In, filter_In, <- list_elem_of_In, Z.eqb_eq. done. }
    destruct (List.filter _ _); [set_solver|]. cbn. lia.
Qed.
End rounds_spec.

Lemma expected_pow2 n step : 0 ≤ step < n → expected_matches (2 ^ n) step = 2 ^ (n - step - 1).
Proof.
  intros Hs. unfold expected_matches.
  rewrite <- Z.pow_sub_r by lia. replace (n - (step + 1)) with (n - step - 1) by lia.
  pose proof (Z.pow_pos_nonneg 2 (n - step - 1)). lia.
Qed.

(** What a complete single-elimination bracket of size [2 ^ n] holds in round [r]. *)
Definition full_round (n r : Z) : Z := if (1 <=? r) && (r <=? n) then 2 ^ (n - r) else 0.

Lemma sum_full_rounds n : 0 ≤ n → sumZ (full_round n <$> seqZ 1 n) = 2 ^ n - 1.
Proof.
  intros Hn. pattern n. apply natlike_ind; [done| |done]. clear n Hn. intros n Hn IH.
  rewrite (seqZ_cons 1 (Z.succ n)), Z.pred_succ by lia.
  rewrite fmap_cons, sumZ_cons.
  change (Z.succ 1) with (1 + 1). rewrite <- (fmap_add_seqZ 1 1 n), <- list_fmap_compose.
  rewrite (sumZ_fmap_ext _ (full_round n)), IH.
  - unfold full_round. cbn. destruct (Z.leb_spec 1 (Z.succ n)); [|lia].
    replace (Z.succ n - 1) with n by lia. rewrite Z.pow_succ_r by lia. lia.
  - intros r Hr. apply elem_of_seqZ in Hr. unfold full_round. cbn.
    destruct ((1 <=? 1 + r) && _) eqn:E1, ((1 <=? r) && _) eqn:E2; try done; try bool_lia.
    f_equal. lia.
Qed.

Section rounds_complete.
Context {P : Type}.
Implicit Types d : DB P.

(** The matches of a list counted round by round. *)
Lemma zlen_by_round (l : list (Z * Match)) n :
  (∀ i m, (i, m) ∈ l → 1 ≤ mt_round_no m ≤ n) →
  zlen l = sumZ ((λ r, zlen (List.filter (λ km, mt_round_no km.2 =? r) l)) <$> seqZ 1 n).
Proof.
  induction l as [|[i m] l IH]; intros Hl.
  { rewrite (sumZ_fmap_ext _ (λ _, 0)) by done.
    induction (seqZ 1 n); [done|]. rewrite fmap_cons, sumZ_cons. unfold zlen in *; cbn in *. lia. }
  assert (Hm : 1 ≤ mt_round_no m ≤ n) by (apply (Hl i); left).
  replace (zlen ((i, m) :: l)) with (1 + zlen l) by (unfold zlen; cbn; lia).
  rewrite IH by (intros; apply (Hl i0); by right).
  assert (Hin : mt_round_no m ∈ seqZ 1 n) by (apply elem_of_seqZ; lia).
  pose proof (NoDup_seqZ 1 n) as Hnd. clear IH Hl Hm.
  induction (seqZ 1 n) as [|r rs IHr]; [set_solver|].
  rewrite !fmap_cons, !sumZ_cons. apply NoDup_cons in Hnd as [Hni Hnd].
  assert (Hone : ∀ r', zlen (List.filter (λ km, mt_round_no km.2 =? r') ((i, m) :: l)) =
      (if mt_round_no m =? r' then 1 else 0)
      + zlen (List.filter (λ km, mt_round_no km.2 =? r') l)).
  { intros r'. cbn. destruct (Z.eqb_spec (mt_round_no m) r'); unfold zlen; cbn; lia. }
  rewrite Hone. destruct (Z.eqb_spec (mt_round_no m) r) as [He|Hne].
  - rewrite (sumZ_fmap_ext (λ r, zlen (List.filter _ ((i, m) :: l)))
      (λ r, zlen (List.filter (λ km, mt_round_no km.2 =? r) l)) rs); [lia|].
    intros r' Hr'. rewrite Hone. destruct (Z.eqb_spec (mt_round_no m) r'); [congruence|lia].
  - rewrite <- IHr; [lia| |done]. by apply elem_of_cons in Hin as [|].
Qed.

(** A draw whose first round is complete and whose later rounds are at most
    partly there. *)
Definition bracket_started d (k n : Z) : Prop :=
  (∀ r, count_round d k r ≤ full_round n r) ∧ count_round d k 1 = 2 ^ (n - 1).

Lemma bracket_started_first d k n : 1 ≤ n → bracket_started d k n →
  _first_round_no d k = Some 1.
Proof.
  intros Hn [Hle H1]. apply first_round_spec.
  assert (Hall : ∀ i m, (i, m) ∈ draw_matches d k → 1 ≤ mt_round_no m).
  { intros i m Him. specialize (Hle (mt_round_no m)).
    assert (0 < count_round d k (mt_round_no m)) by (apply count_round_pos; eauto).
    unfold full_round in Hle. destruct (_ && _) eqn:E; [bool_lia|lia]. }
  split; [|done]. apply count_round_pos. rewrite H1. apply Z.pow_pos_nonneg; lia.
Qed.

Lemma ensure_rounds_spec d k dr n : bracket_wf d → k < db_next_id d → 1 ≤ n →
  dr_size dr = 2 ^ n → bracket_started d k n →
  let d' := _ensure_rounds_exist d (k, dr) in
  bracket_wf d' ∧ k < db_next_id d' ∧ db_draws d' = db_draws d ∧
  (∀ k', k' ≠ k → draw_matches d' k' = draw_matches d k') ∧
  (∀ r, count_round d' k r = full_round n r).
Proof.
  intros Hwf Hk Hn Hsz Hb. pose proof Hb as [Hle H1]. unfold _ensure_rounds_exist. cbn [fst snd].
  rewrite (bracket_started_first d k n) by done. cbn [Z.eqb].
  unfold total_size_of. rewrite Hsz. pose proof (Z.pow_pos_nonneg 2 n ltac:(lia) ltac:(lia)).
  destruct (Z.leb_spec (2 ^ n) 0); [lia|]. rewrite rounds_count_pow2 by lia. unfold py_range.
  destruct (fill_rounds_spec k (2 ^ n) 1 (Z.to_nat (n - 1)) 1 d Hwf Hk)
    as (Hwf' & Hk' & Hd' & Ho & Hc & _).
  rewrite Z2Nat.id in * by lia. split_and!; try done. intros r. rewrite Hc.
  specialize (Hle r). unfold full_round in *.
  destruct ((1 <=? r) && _) eqn:E1, ((1 + 1 <=? r) && _) eqn:E2; try bool_lia.
  - rewrite expected_pow2 by bool_lia. replace (n - (r - 1) - 1) with (n - r) by lia. lia.
  - assert (r = 1) as -> by bool_lia. lia.
  - assert (0 ≤ count_round d k r) by (unfold count_round, zlen; lia). lia.
Qed.

Lemma full_bracket_length d k n : 1 ≤ n → (∀ r, count_round d k r = full_round n r) →
  zlen (draw_matches d k) = 2 ^ n - 1.
Proof.
  intros Hn Hc. rewrite (zlen_by_round _ n).
  - rewrite (sumZ_fmap_ext _ (full_round n)); [by apply sum_full_rounds; lia|].
    intros r _. apply Hc.
  - intros i m Him. assert (0 < count_round d k (mt_round_no m)) as Hp
      by (apply count_round_pos; eauto).
    rewrite Hc in Hp. unfold full_round in Hp. destruct (_ && _) eqn:E; bool_lia.
Qed.
End rounds_complete.

(** C6: completing the bracket. For a draw of size [2 ^ n] whose first round is
    there, [_ensure_rounds_exist] leaves exactly [2 ^ (n - r)] matches in each round
    [r] of [1 .. n] and none elsewhere ([2 ^ n - 1] matches in all), touches no other
    draw, and changes nothing when run again. *)
Theorem ensure_rounds_completes_bracket {P} (d : DB P) k dr n :
  bracket_wf d → k < db_next_id d → 1 ≤ n → dr_size dr = 2 ^ n → bracket_started d k n →
  let d' := _ensure_rounds_exist d (k, dr) in
  (∀ r, count_round d' k r = full_round n r) ∧
  zlen (draw_matches d' k) = 2 ^ n - 1 ∧
  (∀ k', k' ≠ k → draw_matches d' k' = draw_matches d k') ∧
  _ensure_rounds_exist d' (k, dr) = d'.
Proof.
  intros Hwf Hk Hn Hsz Hb.
  destruct (ensure_rounds_spec d k dr n Hwf Hk Hn Hsz Hb) as (Hwf' & Hk' & _ & Ho & Hc).
  set (d' := _ensure_rounds_exist d (k, dr)) in *. cbn zeta.
  split_and!; try done; [by apply full_bracket_length|].
  assert (Hb' : bracket_started d' k n).
  { split; [intros r; by rewrite Hc|]. rewrite Hc. unfold full_round.
    by destruct (Z.leb_spec 1 n); [|lia]. }
  unfold _ensure_rounds_exist at 1. cbn [fst snd].
  rewrite (bracket_started_first d' k n) by done. cbn [Z.eqb].
  unfold total_size_of. rewrite Hsz. pose proof (Z.pow_pos_nonneg 2 n ltac:(lia) ltac:(lia)).
  destruct (Z.leb_spec (2 ^ n) 0); [lia|]. rewrite rounds_count_pow2 by lia.
  apply fill_rounds_full. intros step Hs. apply elem_of_py_range in Hs.
  rewrite expected_pow2, Hc by lia. unfold full_round.
  destruct (_ && _) eqn:E; [|bool_lia]. apply Z.eq_le_incl. f_equal. lia.
Qed.

(** A draw of size 8 with its four first-round matches. *)
Definition draw_of_8 : Draw := mkDraw 5 "male" (Some 1) 1 1 8 1 "" false 0.

Definition first_round_db : DB unit :=
  foldl add_match (set_db_draws {[ 1 := draw_of_8 ]} (empty_db 2))
    ((λ i, mkMatch 1 1 (2 * i) (2 * i + 1) (Some (10 + 2 * i)) (Some (11 + 2 * i)) false
             None None None None) <$> py_range 0 4).

Lemma first_round_db_started : bracket_started first_round_db 1 3.
Proof.
  split; [|reflexivity]. intros r.
  assert (Hr : (λ km : Z * Match, mt_round_no km.2) <$> draw_matches first_round_db 1
               = [1; 1; 1; 1]) by (vm_compute; reflexivity).
  unfold count_round, full_round.
  destruct (draw_matches first_round_db 1) as [|? [|? [|? [|? [|? ?]]]]]; try discriminate.
  injection Hr as H1 H2 H3 H4. unfold zlen. cbn. rewrite H1, H2, H3, H4.
  destruct (Z.eqb_spec 1 r) as [<-|Hne]; [done|]. cbn.
  destruct (_ && _); [apply Z.pow_nonneg; lia|lia].
Qed.

Lemma ensure_rounds_completes_bracket_witness :
  zlen (draw_matches (_ensure_rounds_exist first_round_db (1, draw_of_8)) 1) = 7.
Proof.
  refine (proj1 (proj2 (ensure_rounds_completes_bracket first_round_db 1 draw_of_8 3 _ _ _ _ _)));
    [|reflexivity|lia|reflexivity|apply first_round_db_started].
  split; refine (bool_decide_unpack _ _); vm_compute; exact I.
Defined.
