(* ===== verification/NumberingPlan.v ===== *)
(** Match numbering, correctness: the two phases of
    [number_matches_for_competition] are one pass over a list of visits, and the
    numbers that pass hands out are the visits' positions on their mat. *)

From S2P Require Import Prelude Store NumberingService.
Local Open Scope Z_scope.

(** ** What numbering never writes *)

Definition match_sig (m : Match) : Z * Z * Z * Z * option Z * option Z :=
  (mt_draw m, mt_round_no m, mt_slot_a m, mt_slot_b m, mt_player_a m, mt_player_b m).

Section shape.
Context {P : Type}.
Implicit Types d : DB P.

Definition same_shape d d' : Prop :=
  match_sig <$> db_matches d = match_sig <$> db_matches d'.

#[export] Instance same_shape_equiv : Equivalence same_shape.
Proof. split; [done| |]; unfold same_shape; repeat intro; congruence. Qed.

Lemma same_shape_lookup d d' i m : same_shape d d' → db_matches d !! i = Some m →
  ∃ m', db_matches d' !! i = Some m' ∧ match_sig m' = match_sig m.
Proof.
  intros Hs Hm. unfold same_shape in Hs. apply (f_equal (lookup i)) in Hs.
  rewrite !lookup_fmap, Hm in Hs.
  destruct (db_matches d' !! i) as [m'|]; [|done]. exists m'.
  by apply (inj Some) in Hs.
Qed.

(** The ids of a draw's matches in a round, from the signatures alone. *)
Definition sig_rows d (k : Z) : list (Z * (Z * Z * Z * Z * option Z * option Z)) :=
  List.filter (λ ks, ks.2.1.1.1.1.1 =? k) (rows_by_id (match_sig <$> db_matches d)).

Lemma draw_matches_sig d k : prod_map id match_sig <$> draw_matches d k = sig_rows d k.
Proof.
  unfold sig_rows, draw_matches. rewrite rows_by_id_fmap, filter_fmap_list. done.
Qed.

Lemma same_shape_sig_rows d d' k : same_shape d d' → sig_rows d k = sig_rows d' k.
Proof. intros Hs. unfold sig_rows. by rewrite Hs. Qed.

Lemma same_shape_draw_matches {A} (f : Z → Z * Z * Z * Z * option Z * option Z → A) d d' k :
  same_shape d d' →
  (λ km, f km.1 (match_sig km.2)) <$> draw_matches d k =
  (λ km, f km.1 (match_sig km.2)) <$> draw_matches d' k.
Proof.
  intros Hs%(same_shape_sig_rows _ _ k). rewrite <- !draw_matches_sig in Hs.
  apply (f_equal (fmap (λ ks, f ks.1 ks.2))) in Hs. by rewrite <- !list_fmap_compose in Hs.
Qed.

Lemma round_ids_sig d k r :
  (_matches_in_round d k r).*1 =
  (sort_by (λ x y, lex_leb [x.2.1.1.1.2; x.2.1.1.2; x.1] [y.2.1.1.1.2; y.2.1.1.2; y.1])
    (List.filter (λ ks, ks.2.1.1.1.1.2 =? r) (sig_rows d k))).*1.
Proof.
  unfold _matches_in_round. rewrite <- draw_matches_sig, filter_fmap_list.
  rewrite (sort_by_fmap _ (λ x y, lex_leb (round_key x) (round_key y))) by done.
  rewrite <- list_fmap_compose. by apply list_fmap_ext.
Qed.

Lemma same_shape_round_ids d d' k r : same_shape d d' →
  (_matches_in_round d k r).*1 = (_matches_in_round d' k r).*1.
Proof. intros Hs. by rewrite !round_ids_sig, (same_shape_sig_rows d d' k). Qed.

Lemma same_shape_rounds d d' k : same_shape d d' → _rounds_of d k = _rounds_of d' k.
Proof.
  intros Hs. unfold _rounds_of. do 2 f_equal.
  apply (same_shape_draw_matches (λ _ s, s.1.1.1.1.2) d d' k Hs).
Qed.

Lemma same_shape_players d d' k : same_shape d d' →
  _real_players_count d k = _real_players_count d' k.
Proof.
  intros Hs. unfold _real_players_count, real_players. do 5 f_equal.
  apply (same_shape_draw_matches (λ _ s, option_list s.1.2 ++ option_list s.2) d d' k Hs).
Qed.

Lemma elem_of_round_ids d k r i :
  i ∈ (_matches_in_round d k r).*1 ↔
  ∃ m, db_matches d !! i = Some m ∧ mt_draw m = k ∧ mt_round_no m = r.
Proof.
  unfold _matches_in_round. rewrite sort_by_perm, list_elem_of_fmap. split.
  - intros ([j m] & -> & [Hm Hr]%elem_of_filter_list). apply elem_of_draw_matches in Hm as [??].
    apply Z.eqb_eq in Hr. eauto.
  - intros (m & Hm & Hk & Hr). exists (i, m). split; [done|]. apply elem_of_filter_list.
    rewrite elem_of_draw_matches, Z.eqb_eq. done.
Qed.

Lemma NoDup_round_ids d k r : NoDup (_matches_in_round d k r).*1.
Proof.
  unfold _matches_in_round. rewrite sort_by_perm. apply NoDup_fst_filter, NoDup_draw_matches.
Qed.

Lemma round_rows_current d k r i m :
  (i, m) ∈ _matches_in_round d k r → db_matches d !! i = Some m.
Proof.
  unfold _matches_in_round. rewrite sort_by_perm. intros [Hm _]%elem_of_filter_list.
  by apply elem_of_draw_matches in Hm as [??].
Qed.
End shape.

(** ** The two phases as a pass over visits *)

(** One arrival at a match: the mat, the round and what is known of the draw. *)
Record visit := mkVisit {
  vi_mat : Z;
  vi_round : Z;
  vi_first : option Z;
  vi_single : bool;
  vi_final : bool;
  vi_match : Z;
}.

Section visits.
Context {P : Type}.
Implicit Types (d : DB P) (st : nstate P) (np : numbering_plan).

Definition run_visit st (v : visit) : nstate P :=
  match db_matches (ns_db st) !! vi_match v with
  | Some m => number_match (vi_mat v) (vi_round v) (vi_first v) (vi_single v) st (vi_match v, m)
  | None => st
  end.

Definition round_visits d np (rnd mat dr : Z) : list visit :=
  if bool_decide (last_of np dr = Some rnd) then []
  else mkVisit mat rnd (first_of np dr) (_real_players_count d dr <? 2) false
         <$> (_matches_in_round d dr rnd).*1.

Definition final_visits d np (mat dr : Z) : list visit :=
  match last_of np dr with
  | None => []
  | Some lr => mkVisit mat lr (first_of np dr) false true <$> (_matches_in_round d dr lr).*1
  end.

Definition phase1_visits d np : list visit :=
  rnd ← np_rounds np; mat ← np_mats np; dr ← np_draws_by_mat np mat; round_visits d np rnd mat dr.

Definition phase2_visits d np : list visit :=
  mat ← np_mats np; dr ← np_draws_by_mat np mat; final_visits d np mat dr.

Definition all_visits d np : list visit := phase1_visits d np ++ phase2_visits d np.

Lemma save_numbers_shape k m d : same_shape (save_numbers k m d) d.
Proof.
  unfold same_shape, save_numbers. cbn. apply map_eq. intros i. rewrite !lookup_fmap.
  destruct (decide (i = k)) as [->|Hne]; [rewrite lookup_alter_eq|by rewrite lookup_alter_ne].
  by destruct (db_matches d !! k) as [[]|].
Qed.

Lemma number_match_shape mat rnd fr sg st km :
  same_shape (ns_db (number_match mat rnd fr sg st km)) (ns_db st).
Proof. unfold number_match. destruct (_ && _); [done|apply save_numbers_shape]. Qed.

Lemma run_visit_shape st v : same_shape (ns_db (run_visit st v)) (ns_db st).
Proof.
  unfold run_visit. destruct (_ !! _); [apply number_match_shape|done].
Qed.

Lemma number_match_other mat rnd fr sg st km i : i ≠ km.1 →
  db_matches (ns_db (number_match mat rnd fr sg st km)) !! i = db_matches (ns_db st) !! i.
Proof. intros Hi. unfold number_match. destruct (_ && _); [done|]. cbn. by apply lookup_alter_ne. Qed.

Lemma run_visit_other st v i : i ≠ vi_match v →
  db_matches (ns_db (run_visit st v)) !! i = db_matches (ns_db st) !! i.
Proof.
  intros Hi. unfold run_visit.
  destruct (db_matches (ns_db st) !! vi_match v); [by apply number_match_other|done].
Qed.

(** Looping over fetched rows is visiting their keys. *)
Lemma number_rows_visits mat rnd fr sg fin rows : ∀ st, NoDup rows.*1 →
  (∀ i m, (i, m) ∈ rows → db_matches (ns_db st) !! i = Some m) →
  foldl (number_match mat rnd fr sg) st rows =
  foldl run_visit st (mkVisit mat rnd fr sg fin <$> rows.*1).
Proof.
  induction rows as [|[i m] rows IH]; intros st Hnd Hrows; cbn; [done|].
  apply NoDup_cons in Hnd as [Hi Hnd].
  unfold run_visit at 2. cbn. rewrite (Hrows i m) by left. apply IH; [done|].
  intros j m' Hj. rewrite number_match_other; [by apply Hrows; right|].
  cbn. intros ->. apply Hi. apply list_elem_of_fmap. by exists (i, m').
Qed.

Lemma phase1_draw_visits d np rnd mat st dr : same_shape (ns_db st) d →
  phase1_draw np rnd mat st dr = foldl run_visit st (round_visits d np rnd mat dr).
Proof.
  intros Hs. unfold phase1_draw, round_visits. destruct (bool_decide _); [done|].
  rewrite (same_shape_players _ _ dr Hs), <- (same_shape_round_ids _ _ dr rnd Hs).
  apply number_rows_visits; [apply NoDup_round_ids|apply round_rows_current].
Qed.

Lemma phase2_draw_visits d np mat st dr : same_shape (ns_db st) d →
  phase2_draw np mat st dr = foldl run_visit st (final_visits d np mat dr).
Proof.
  intros Hs. unfold phase2_draw, final_visits. destruct (last_of np dr) as [lr|]; [|done].
  rewrite <- (same_shape_round_ids _ _ dr lr Hs).
  apply number_rows_visits; [apply NoDup_round_ids|apply round_rows_current].
Qed.

Lemma phases_visits d np cs :
  phase2 np (phase1 np (mkN cs d)) = foldl run_visit (mkN cs d) (all_visits d np).
Proof.
  set (I := λ st, same_shape (ns_db st) d).
  assert (Hrun : ∀ st v, I st → I (run_visit st v)).
  { intros st v Hs. unfold I. etrans; [apply run_visit_shape|done]. }
  assert (Hall : ∀ vs st, I st → I (foldl run_visit st vs)).
  { induction vs as [|v vs IH]; intros st Hs; cbn; auto. }
  unfold all_visits. rewrite foldl_app.
  assert (H1 : phase1 np (mkN cs d) = foldl run_visit (mkN cs d) (phase1_visits d np)).
  { unfold phase1, phase1_visits. apply (foldl_bind_inv I); [|done|done].
    intros s1 rnd _ Hs1. apply (foldl_bind_inv I); [|done|done].
    intros s2 mat _ Hs2. apply (foldl_bind_inv I); [|done|done].
    intros s3 dr _ Hs3. by apply phase1_draw_visits. }
  rewrite H1. unfold phase2, phase2_visits. apply (foldl_bind_inv I); [|done|by apply Hall].
  intros s2 mat _ Hs2. apply (foldl_bind_inv I); [|done|done].
  intros s3 dr _ Hs3. by apply phase2_draw_visits.
Qed.

(** ** What one pass does *)

Definition is_numbered d (v : visit) : bool :=
  match db_matches d !! vi_match v with
  | Some m => negb (bool_decide (vi_first v = Some (vi_round v)) && mt_is_bye m)
  | None => false
  end.

(** The row a numbered visit writes. *)
Definition numbered_row (v : visit) (c : Z) (m : Match) : Match :=
  let later := match vi_first v with Some f => f <? vi_round v | None => false end in
  set_mt_match_number (Some c)
    (set_mt_mat_no (if truthy_id (mt_mat_no m) then mt_mat_no m else Some (vi_mat v))
      (set_mt_is_bye (if later && negb (vi_single v) then false else mt_is_bye m) m)).

Definition counter st (mat : Z) : Z := default 0 (ns_counters st !! mat).

Definition numbered_on d (mat : Z) (vs : list visit) : list visit :=
  List.filter (λ v, (vi_mat v =? mat) && is_numbered d v) vs.

Lemma run_visit_skip st v : is_numbered (ns_db st) v = false → run_visit st v = st.
Proof.
  unfold is_numbered, run_visit, number_match. destruct (_ !! _) as [m|]; [|done].
  cbn. intros ->%negb_false_iff. done.
Qed.

Lemma run_visit_number st v m : is_numbered (ns_db st) v = true →
  db_matches (ns_db st) !! vi_match v = Some m →
  let c := counter st (vi_mat v) + 1 in
  ns_counters (run_visit st v) = <[vi_mat v := c]> (ns_counters st) ∧
  db_matches (ns_db (run_visit st v)) !! vi_match v = Some (numbered_row v c m).
Proof.
  unfold is_numbered, run_visit, number_match. intros Hn Hm. rewrite Hm in *. cbn in *.
  apply negb_true_iff in Hn. rewrite Hn. cbn. split; [done|].
  rewrite lookup_alter_eq, Hm. cbn. f_equal. unfold numbered_row.
  destruct m as [? ? ? ? ? ? b ? mn ? ?]. cbn.
  destruct (vi_first v) as [f|]; cbn; [destruct (f <? vi_round v), (vi_single v), b|];
    cbn; by destruct (truthy_id mn).
Qed.

Lemma is_numbered_ext d d' v : db_matches d !! vi_match v = db_matches d' !! vi_match v →
  is_numbered d v = is_numbered d' v.
Proof. unfold is_numbered. by intros ->. Qed.

Lemma numbered_on_ext d d' mat vs :
  (∀ v, v ∈ vs → db_matches d !! vi_match v = db_matches d' !! vi_match v) →
  numbered_on d mat vs = numbered_on d' mat vs.
Proof.
  unfold numbered_on. induction vs as [|v vs IH]; intros Hv; cbn; [done|].
  rewrite (is_numbered_ext d d' v) by (apply Hv; left).
  rewrite IH by (intros; apply Hv; by right). done.
Qed.

(** The pass over distinct matches, match by match. *)
Lemma run_visits_spec vs : ∀ st, NoDup (vi_match <$> vs) →
  let d := ns_db st in let st' := foldl run_visit st vs in
  (∀ i, (∀ v, v ∈ vs → is_numbered d v = true → vi_match v ≠ i) →
     db_matches (ns_db st') !! i = db_matches d !! i) ∧
  (∀ mat, counter st' mat = counter st mat + zlen (numbered_on d mat vs)) ∧
  (∀ mat j v, numbered_on d mat vs !! j = Some v → ∃ m, db_matches d !! vi_match v = Some m ∧
     db_matches (ns_db st') !! vi_match v =
       Some (numbered_row v (counter st mat + Z.of_nat j + 1) m)) ∧
  dom (ns_counters st') = dom (ns_counters st) ∪ list_to_set (vi_mat <$> List.filter (is_numbered d) vs).
Proof.
  induction vs as [|v vs IH]; intros st Hnd.
  { cbn. split_and!; [done| |done|set_solver]. intros mat. unfold zlen. cbn. lia. }
  rewrite fmap_cons in Hnd. apply NoDup_cons in Hnd as [Hv Hnd].
  destruct (IH (run_visit st v) Hnd) as (Ho & Hc & Hj & Hdom). clear IH.
  assert (Hsame : ∀ w, w ∈ vs → db_matches (ns_db (run_visit st v)) !! vi_match w
                              = db_matches (ns_db st) !! vi_match w).
  { intros w Hw. apply run_visit_other. intros He. apply Hv. rewrite <- He.
    by apply list_elem_of_fmap_2. }
  assert (Hon : ∀ mat, numbered_on (ns_db (run_visit st v)) mat vs = numbered_on (ns_db st) mat vs).
  { intros mat. by apply numbered_on_ext. }
  assert (Hflt : List.filter (is_numbered (ns_db (run_visit st v))) vs
                 = List.filter (is_numbered (ns_db st)) vs).
  { clear -Hsame. induction vs as [|w vs IH]; [done|]. cbn.
    rewrite (is_numbered_ext _ (ns_db st) w) by (apply Hsame; left).
    rewrite IH by (intros; apply Hsame; by right). done. }
  cbn [foldl]. destruct (is_numbered (ns_db st) v) eqn:En.
  - destruct (db_matches (ns_db st) !! vi_match v) as [m|] eqn:Hm;
      [|unfold is_numbered in En; by rewrite Hm in En].
    destruct (run_visit_number st v m En Hm) as [Hcs Hrow].
    assert (Hcnt : ∀ mat, counter (run_visit st v) mat
                    = counter st mat + if vi_mat v =? mat then 1 else 0).
    { intros mat. unfold counter at 1. rewrite Hcs. destruct (Z.eqb_spec (vi_mat v) mat) as [<-|].
      - by rewrite lookup_insert_eq.
      - rewrite lookup_insert_ne by done. unfold counter. lia. }
    split_and!.
    + intros i Hi. rewrite Ho.
      * apply run_visit_other. intros ->. apply (Hi v); [left|done|done].
      * intros w Hw Hn. rewrite (is_numbered_ext _ (ns_db st)) in Hn by auto.
        apply Hi; [by right|done].
    + intros mat. rewrite Hc, Hon, Hcnt. unfold numbered_on at 2. cbn. rewrite En, andb_true_r.
      destruct (vi_mat v =? mat); unfold zlen, numbered_on; cbn; lia.
    + intros mat j w. unfold numbered_on. cbn. rewrite En, andb_true_r.
      fold (numbered_on (ns_db st) mat vs). specialize (Hcnt mat).
      destruct (Z.eqb_spec (vi_mat v) mat) as [He|Hne]; [subst mat|].
      * destruct j as [|j]; cbn; intros Hw.
        -- injection Hw as <-. exists m. split; [done|]. rewrite Ho.
           ++ rewrite Hrow. do 2 f_equal. lia.
           ++ intros w Hw _ He. apply Hv. rewrite <- He. by apply list_elem_of_fmap_2.
        -- rewrite <- Hon in Hw. destruct (Hj _ _ _ Hw) as (m' & Hm' & Hr). exists m'.
           rewrite Hr, <- Hm', Hsame by (apply list_elem_of_lookup_2 in Hw;
             unfold numbered_on in Hw; by apply elem_of_filter_list in Hw as [? _]).
           split; [done|]. do 2 f_equal. lia.
      * intros Hw. rewrite <- Hon in Hw. destruct (Hj _ _ _ Hw) as (m' & Hm' & Hr). exists m'.
        rewrite Hr, <- Hm', Hsame by (apply list_elem_of_lookup_2 in Hw;
          unfold numbered_on in Hw; by apply elem_of_filter_list in Hw as [? _]).
        split; [done|]. do 2 f_equal. lia.
    + rewrite Hdom, Hflt, Hcs, dom_insert_L. cbn. rewrite En. cbn. set_solver.
  - rewrite run_visit_skip in * by done. split_and!.
    + intros i Hi. apply Ho. intros w Hw. apply Hi. by right.
    + intros mat. rewrite Hc. unfold numbered_on at 2. cbn. by rewrite En, andb_false_r.
    + intros mat j w. unfold numbered_on. cbn. rewrite En, andb_false_r. apply Hj.
    + rewrite Hdom. cbn. by rewrite En.
Qed.
End visits.

(** ** The visits of a plan *)

(** A plan made from the database it numbers. *)
Record plan_ok {P} (d : DB P) (np : numbering_plan) : Prop := {
  po_rounds_sorted : StronglySorted Z.lt (np_rounds np);
  po_mats : NoDup (np_mats np);
  po_draws : ∀ mat, NoDup (np_draws_by_mat np mat);
  po_one_mat : ∀ mat mat' dr, dr ∈ np_draws_by_mat np mat → dr ∈ np_draws_by_mat np mat' → mat = mat';
  po_first : ∀ mat dr, dr ∈ np_draws_by_mat np mat → first_of np dr = _first_round_no d dr;
  po_last : ∀ mat dr, dr ∈ np_draws_by_mat np mat → last_of np dr = _last_round_no d dr;
  po_rounds : ∀ mat dr r, dr ∈ np_draws_by_mat np mat → r ∈ _rounds_of d dr → r ∈ np_rounds np;
  po_real : ∀ mat dr, dr ∈ np_draws_by_mat np mat → 2 ≤ _real_players_count d dr;
}.

Section plan_visits.
Context {P : Type}.
Implicit Types (d : DB P) (np : numbering_plan).

(** The visit of a match, from what the database says of its draw. *)
Definition visit_of d (mat : Z) (i : Z) (m : Match) : visit :=
  mkVisit mat (mt_round_no m) (_first_round_no d (mt_draw m)) false
    (bool_decide (_last_round_no d (mt_draw m) = Some (mt_round_no m))) i.

Lemma elem_of_phase1_visits d np v : plan_ok d np →
  v ∈ phase1_visits d np ↔ ∃ mat i m, db_matches d !! i = Some m ∧ mat ∈ np_mats np ∧
    mt_draw m ∈ np_draws_by_mat np mat ∧ v = visit_of d mat i m ∧ vi_final v = false.
Proof.
  intros Hp. unfold phase1_visits, round_visits. split.
  - intros (rnd & Hv & Hr)%list_elem_of_bind. apply list_elem_of_bind in Hv as (mat & Hv & Hmat).
    apply list_elem_of_bind in Hv as (dr & Hv & Hdr). case_bool_decide as Hl; [set_solver|].
    apply list_elem_of_fmap in Hv as (i & -> & (m & Hm & Hk & Hmr)%elem_of_round_ids).
    exists mat, i, m. split_and!; try done; [by rewrite Hk|]. unfold visit_of.
    rewrite Hk, Hmr. pose proof (po_real d np Hp mat dr Hdr).
    rewrite (po_first d np Hp mat dr Hdr). rewrite (po_last d np Hp mat dr Hdr) in Hl.
    rewrite bool_decide_eq_false_2 by done.
    destruct (Z.ltb_spec (_real_players_count d dr) 2); [lia|done].
  - intros (mat & i & m & Hm & Hmat & Hdr & -> & Hf). unfold visit_of in Hf. cbn in Hf.
    apply bool_decide_eq_false in Hf. pose proof (po_real d np Hp mat _ Hdr).
    apply list_elem_of_bind. exists (mt_round_no m). split.
    + apply list_elem_of_bind. exists mat. split; [|done].
      apply list_elem_of_bind. exists (mt_draw m). split; [|done].
      rewrite (po_last d np Hp mat _ Hdr), bool_decide_eq_false_2 by done.
      apply list_elem_of_fmap. exists i. rewrite elem_of_round_ids. split; [|by exists m].
      unfold visit_of. rewrite (po_first d np Hp mat _ Hdr), bool_decide_eq_false_2 by done.
      by destruct (Z.ltb_spec (_real_players_count d (mt_draw m)) 2); [lia|].
    + apply (po_rounds d np Hp mat (mt_draw m)); [done|]. apply elem_of_rounds_of.
      exists i, m. by rewrite elem_of_draw_matches.
Qed.

Lemma elem_of_phase2_visits d np v : plan_ok d np →
  v ∈ phase2_visits d np ↔ ∃ mat i m, db_matches d !! i = Some m ∧ mat ∈ np_mats np ∧
    mt_draw m ∈ np_draws_by_mat np mat ∧ v = visit_of d mat i m ∧ vi_final v = true.
Proof.
  intros Hp. unfold phase2_visits, final_visits. split.
  - intros (mat & Hv & Hmat)%list_elem_of_bind.
    apply list_elem_of_bind in Hv as (dr & Hv & Hdr).
    destruct (last_of np dr) as [lr|] eqn:Hl; [|set_solver].
    apply list_elem_of_fmap in Hv as (i & -> & (m & Hm & Hk & Hmr)%elem_of_round_ids).
    exists mat, i, m. split_and!; try done; [by rewrite Hk|]. unfold visit_of.
    rewrite Hk, Hmr, (po_first d np Hp mat dr Hdr). rewrite (po_last d np Hp mat dr Hdr) in Hl.
    by rewrite bool_decide_eq_true_2.
  - intros (mat & i & m & Hm & Hmat & Hdr & -> & Hf). unfold visit_of in Hf. cbn in Hf.
    apply bool_decide_eq_true in Hf.
    apply list_elem_of_bind. exists mat. split; [|done].
    apply list_elem_of_bind. exists (mt_draw m). split; [|done].
    rewrite (po_last d np Hp mat _ Hdr), Hf.
    apply list_elem_of_fmap. exists i. rewrite elem_of_round_ids. split; [|by exists m].
    unfold visit_of. by rewrite (po_first d np Hp mat _ Hdr), bool_decide_eq_true_2.
Qed.

Lemma elem_of_all_visits d np v : plan_ok d np →
  v ∈ all_visits d np ↔ ∃ mat i m, db_matches d !! i = Some m ∧ mat ∈ np_mats np ∧
    mt_draw m ∈ np_draws_by_mat np mat ∧ v = visit_of d mat i m.
Proof.
  intros Hp. unfold all_visits.
  rewrite elem_of_app, elem_of_phase1_visits, elem_of_phase2_visits by done. split; [naive_solver|].
  intros (mat & i & m & ? & ? & ? & ?). destruct (vi_final v) eqn:E; [right|left]; naive_solver.
Qed.

Lemma NoDup_all_visits d np : plan_ok d np → NoDup (vi_match <$> all_visits d np).
Proof.
  intros Hp. apply NoDup_fmap_2_strong.
  { intros v w Hv Hw He. apply elem_of_all_visits in Hv as (mat & i & m & Hm & _ & Hd & ->); [|done].
    apply elem_of_all_visits in Hw as (mat' & i' & m' & Hm' & _ & Hd' & ->); [|done].
    cbn in He. subst i'. assert (m' = m) as -> by congruence.
    by rewrite (po_one_mat d np Hp mat mat' (mt_draw m)). }
  assert (Hids : ∀ (f : Z → visit) l, (∀ i, vi_match (f i) = i) → NoDup l → NoDup (f <$> l)).
  { intros f l Hf Hl. apply NoDup_fmap_2; [|done]. intros x y Hxy.
    by rewrite <- (Hf x), <- (Hf y), Hxy. }
  assert (Hms : ∀ rnd mat dr v, v ∈ round_visits d np rnd mat dr →
    vi_round v = rnd ∧ vi_mat v = mat ∧
    (∃ m, db_matches d !! vi_match v = Some m ∧ mt_draw m = dr) ∧ vi_final v = false).
  { intros rnd mat dr v. unfold round_visits. case_bool_decide; [set_solver|].
    intros (i & -> & (m & ? & ? & ?)%elem_of_round_ids)%list_elem_of_fmap. naive_solver. }
  assert (Hfs : ∀ mat dr v, v ∈ final_visits d np mat dr →
    vi_mat v = mat ∧ (∃ m, db_matches d !! vi_match v = Some m ∧ mt_draw m = dr)).
  { intros mat dr v. unfold final_visits. destruct (last_of np dr); [|set_solver].
    intros (i & -> & (m & ? & ? & ?)%elem_of_round_ids)%list_elem_of_fmap. naive_solver. }
  assert (Hrs : NoDup (np_rounds np)).
  { pose proof (po_rounds_sorted d np Hp) as Hs. clear -Hs.
    induction Hs as [|r l Hl IH Hr]; constructor; [|done].
    rewrite Forall_forall in Hr. intros Hin. specialize (Hr r Hin). lia. }
  pose proof (po_mats d np Hp) as Hmn. pose proof (po_draws d np Hp) as Hdn.
  apply NoDup_app. split_and!.
  - apply NoDup_bind; [| |done].
    { intros r1 r2 v _ _ (mat1 & Hv1 & _)%list_elem_of_bind (mat2 & Hv2 & _)%list_elem_of_bind.
      apply list_elem_of_bind in Hv1 as (? & Hv1 & _). apply list_elem_of_bind in Hv2 as (? & Hv2 & _).
      apply Hms in Hv1, Hv2. naive_solver. }
    intros rnd _. apply NoDup_bind; [| |done].
    { intros m1 m2 v _ _ (? & Hv1 & _)%list_elem_of_bind (? & Hv2 & _)%list_elem_of_bind.
      apply Hms in Hv1, Hv2. naive_solver. }
    intros mat _. apply NoDup_bind; [| |done].
    { intros dr1 dr2 v _ _ Hv1%Hms Hv2%Hms. naive_solver. }
    intros dr _. unfold round_visits. case_bool_decide; [constructor|].
    apply Hids; [done|apply NoDup_round_ids].
  - intros v Hv1 Hv2. apply elem_of_phase1_visits in Hv1; [|done].
    apply elem_of_phase2_visits in Hv2; [|done]. naive_solver congruence.
  - apply NoDup_bind; [| |done].
    { intros m1 m2 v _ _ (? & Hv1 & _)%list_elem_of_bind (? & Hv2 & _)%list_elem_of_bind.
      apply Hfs in Hv1, Hv2. naive_solver. }
    intros mat _. apply NoDup_bind; [| |done].
    { intros dr1 dr2 v _ _ Hv1%Hfs Hv2%Hfs. naive_solver. }
    intros dr _. unfold final_visits. destruct (last_of np dr); [|constructor].
    apply Hids; [done|apply NoDup_round_ids].
Qed.

(** Finals come last, and the other rounds come in ascending order. *)
Definition visit_before (v w : visit) : Prop :=
  (vi_final v = true → vi_final w = true) ∧
  (vi_final w = false → vi_round v ≤ vi_round w).

Lemma strongly_sorted_all {A} (R : A → A → Prop) l :
  (∀ x y, x ∈ l → y ∈ l → R x y) → StronglySorted R l.
Proof.
  induction l as [|x l IH]; intros HR; constructor.
  - apply IH. intros y z Hy Hz. apply HR; by right.
  - apply Forall_forall. intros y Hy. apply HR; [left|by right].
Qed.

Lemma all_visits_sorted d np : plan_ok d np → StronglySorted visit_before (all_visits d np).
Proof.
  intros Hp. apply strongly_sorted_app.
  - unfold phase1_visits. pose proof (po_rounds_sorted d np Hp) as Hs.
    assert (Hv : ∀ rnd v, v ∈ (mat ← np_mats np; dr ← np_draws_by_mat np mat;
        round_visits d np rnd mat dr) → vi_round v = rnd ∧ vi_final v = false).
    { intros rnd v (mat & Hv & _)%list_elem_of_bind. apply list_elem_of_bind in Hv as (dr & Hv & _).
      unfold round_visits in Hv. case_bool_decide; [set_solver|].
      apply list_elem_of_fmap in Hv as (? & -> & _). done. }
    induction Hs as [|rnd rs Hrs IH Hr]; cbn; [constructor|].
    apply strongly_sorted_app; [|done|].
    + apply strongly_sorted_all. intros x y Hx%Hv Hy%Hv. unfold visit_before.
      destruct Hx as [-> ->], Hy as [-> ->]. split; [done|lia].
    + intros x y Hx%Hv (rnd' & Hy & Hr')%list_elem_of_bind. apply Hv in Hy as [Hy1 Hy2].
      rewrite Forall_forall in Hr. specialize (Hr rnd' Hr'). destruct Hx as [Hx1 Hx2].
      split; [congruence|lia].
  - apply strongly_sorted_all. intros x y Hx Hy.
    apply elem_of_phase2_visits in Hx as (? & ? & ? & _ & _ & _ & _ & Hx); [|done].
    apply elem_of_phase2_visits in Hy as (? & ? & ? & _ & _ & _ & _ & Hy); [|done].
    split; congruence.
  - intros x y Hx Hy.
    apply elem_of_phase1_visits in Hx as (? & ? & ? & _ & _ & _ & _ & Hx); [|done].
    apply elem_of_phase2_visits in Hy as (? & ? & ? & _ & _ & _ & _ & Hy); [|done].
    split; congruence.
Qed.
End plan_visits.

(** ** The plan of a competition *)

Section competition_plan.
Context {P : Type}.
Implicit Types (d : DB P) (np : numbering_plan).

Lemma elem_of_draws_of_weights d cid ws k dr :
  (k, dr) ∈ draws_of_weights d cid ws ↔
  db_draws d !! k = Some dr ∧ dr_competition dr = cid ∧ dr_weight_category dr ∈ ws.
Proof.
  unfold draws_of_weights. rewrite sort_by_perm, elem_of_filter_list, elem_of_rows_by_id.
  cbn. rewrite andb_true_iff, Z.eqb_eq, bool_decide_eq_true. done.
Qed.

Lemma NoDup_draws_of_weights d cid ws : NoDup (draws_of_weights d cid ws).*1.
Proof.
  unfold draws_of_weights. rewrite sort_by_perm. apply NoDup_fst_filter, NoDup_rows_by_id.
Qed.

Lemma row_of_key {A} (l : list (Z * A)) k x y :
  NoDup l.*1 → (k, x) ∈ l → (k, y) ∈ l → x = y.
Proof.
  intros Hnd Hx Hy. apply elem_of_list_to_map in Hx, Hy; [|done..]. congruence.
Qed.

Lemma elem_of_mat_draws d w2m mats draws mat k :
  k ∈ np_draws_by_mat (plan_numbering d w2m mats draws) mat ↔
  ∃ dr, (k, dr) ∈ draws ∧ w2m !! dr_weight_category dr = Some mat.
Proof.
  cbn. rewrite list_elem_of_fmap. split.
  - intros ([k' dr] & -> & [Hin Hb]%elem_of_filter_list). apply bool_decide_eq_true in Hb. eauto.
  - intros (dr & Hin & Hw). exists (k, dr). split; [done|]. apply elem_of_filter_list.
    by rewrite bool_decide_eq_true.
Qed.

Lemma plan_numbering_ok d w2m mats draws :
  NoDup draws.*1 → NoDup mats → (∀ k dr, (k, dr) ∈ draws → _has_real_match d k = true) →
  plan_ok d (plan_numbering d w2m mats draws).
Proof.
  intros Hnd Hm Hreal.
  assert (Hfst : ∀ (f : Z → option Z) k dr, (k, dr) ∈ draws →
    (list_to_map ((λ row : Z * Draw, (row.1, f row.1)) <$> draws) : gmap Z (option Z)) !! k
      = Some (f k)).
  { intros f k dr Hin. apply elem_of_list_to_map.
    - rewrite <- list_fmap_compose. erewrite list_fmap_ext; [exact Hnd|done].
    - apply list_elem_of_fmap. by exists (k, dr). }
  split.
  - apply sorted_distinct.
  - done.
  - intros mat. cbn. by apply NoDup_fst_filter.
  - intros mat mat' k (dr & Hin & Hw)%elem_of_mat_draws (dr' & Hin' & Hw')%elem_of_mat_draws.
    rewrite (row_of_key draws k dr dr') in Hw by done. congruence.
  - intros mat k (dr & Hin & _)%elem_of_mat_draws. unfold first_of. cbn. by rewrite (Hfst _ k dr).
  - intros mat k (dr & Hin & _)%elem_of_mat_draws. unfold last_of. cbn. by rewrite (Hfst _ k dr).
  - intros mat k r (dr & Hin & _)%elem_of_mat_draws Hr. cbn.
    rewrite sort_by_perm, elem_of_remove_dups, list_elem_of_join.
    exists (_rounds_of d k). split; [done|]. apply list_elem_of_fmap. by exists (k, dr).
  - intros mat k (dr & Hin & _)%elem_of_mat_draws. apply Hreal in Hin.
    unfold _has_real_match in Hin. by destruct (Z.ltb_spec (_real_players_count d k) 2).
Qed.

(** Completing rounds only ever adds placeholders. *)
Lemma ensure_rounds_ind (I : DB P → Prop) row :
  (∀ d r idx, I d → I (add_match d (placeholder row.1 r idx))) →
  ∀ d, I d → I (_ensure_rounds_exist d row).
Proof.
  intros Hadd d. unfold _ensure_rounds_exist. set (ts := total_size_of _ _ _ _). clearbody ts.
  set (fr := match _first_round_no d row.1 with Some r => _ | None => _ end). clearbody fr.
  generalize (py_range 1 (rounds_count ts)). intros l. revert d.
  induction l as [|s l IH]; intros d Hd; cbn; [done|]. apply IH. unfold fill_round.
  destruct (_ <? _); [|done].
  generalize (py_range (count_round d row.1 (fr + s)) (expected_matches ts s)). intros idxs.
  revert d Hd. induction idxs as [|idx idxs IHi]; intros d Hd; cbn; [done|]. by apply IHi, Hadd.
Qed.

(** The tables numbering does not write. *)
Definition other_tables (d : DB P) := (db_competitions d, db_draws d, db_mat_assignments d).

Lemma ensure_rounds_tables d row : other_tables (_ensure_rounds_exist d row) = other_tables d.
Proof. by apply (ensure_rounds_ind (λ d', other_tables d' = other_tables d)). Qed.

(** Every match of a draw in [ks] is unnumbered. *)
Definition unnumbered (ks : list Z) d : Prop :=
  map_Forall (λ _ m, mt_draw m ∈ ks → mt_match_number m = None) (db_matches d).

Lemma clear_numbers_unnumbered ks d : unnumbered ks (clear_numbers ks d).
Proof.
  intros i m. unfold clear_numbers. cbn. rewrite lookup_fmap.
  destruct (db_matches d !! i) as [m0|]; [|done]. cbn. case_bool_decide as Hk; intros [= <-].
  - done.
  - intros Hin. done.
Qed.

Lemma add_match_unnumbered ks d m : mt_match_number m = None →
  unnumbered ks d → unnumbered ks (add_match d m).
Proof. intros Hm Hu. unfold unnumbered, add_match. cbn. by apply map_Forall_insert_2. Qed.

Lemma ensure_rounds_unnumbered ks d row :
  unnumbered ks d → unnumbered ks (_ensure_rounds_exist d row).
Proof. apply ensure_rounds_ind. intros d0 r idx. by apply add_match_unnumbered. Qed.

(** The database the plan is made from: numbers cleared and rounds completed. *)
Definition prepared d (clear_prev : bool) (all_draws : list (Z * Draw)) : DB P :=
  foldl _ensure_rounds_exist ((if clear_prev then clear_numbers all_draws.*1 else id) d) all_draws.

Lemma prepared_tables d cp l : other_tables (prepared d cp l) = other_tables d.
Proof.
  unfold prepared. transitivity (other_tables ((if cp then clear_numbers l.*1 else id) d));
    [|by destruct cp].
  generalize ((if cp then clear_numbers l.*1 else id) d).
  induction l as [|row l IH]; intros d0; cbn; [done|]. by rewrite IH, ensure_rounds_tables.
Qed.

Lemma prepared_unnumbered d l : unnumbered l.*1 (prepared d true l).
Proof.
  unfold prepared. pose proof (clear_numbers_unnumbered l.*1 d) as Hu. revert Hu.
  generalize (clear_numbers l.*1 d). generalize l.*1 as ks. intros ks.
  induction l as [|row l IH]; intros d0 Hu; cbn; [done|]. by apply IH, ensure_rounds_unnumbered.
Qed.
End competition_plan.

(** ** Weights and mats *)

(** [n] is the least of the numbers [l], if there are any. *)
Definition is_least (l : list Z) (o : option Z) : Prop :=
  match o with
  | None => l = []
  | Some n => n ∈ l ∧ ∀ n', n' ∈ l → n ≤ n'
  end.

Lemma is_least_snoc l o n : is_least l o →
  is_least (l ++ [n]) (Some (match o with None => n | Some n' => Z.min n' n end)).
Proof.
  destruct o as [n'|]; cbn.
  - intros [Hin Hle]. split.
    + destruct (Z.min_spec n' n) as [[? ->]|[? ->]]; set_solver.
    + intros x [Hx|Hx%list_elem_of_singleton]%elem_of_app; [specialize (Hle x Hx)|]; lia.
  - intros ->. cbn. split; [left|]. intros x Hx%list_elem_of_singleton. lia.
Qed.

(** The mats that list a weight, once for each listing. *)
Definition mats_listing {P} (d : DB P) (cid w : Z) : list Z :=
  ma ← mats_of d cid; w' ← ma_weights ma; if w' =? w then [ma_mat_number ma] else [].

Lemma weight_to_mat_least {P} (d : DB P) cid w :
  is_least (mats_listing d cid w) (_weight_to_mat_map d cid !! w).
Proof.
  unfold _weight_to_mat_map, mats_listing. generalize (mats_of d cid). intros mas.
  assert (Hinner : ∀ mat ws l (mp : gmap Z Z), is_least l (mp !! w) →
    is_least (l ++ (w' ← ws; if w' =? w then [mat] else [])) (foldl (add_weight mat) mp ws !! w)).
  { intros mat ws. induction ws as [|w' ws IH]; intros l mp Hl; cbn; [by rewrite app_nil_r|].
    rewrite (assoc_L (++)). apply IH. unfold add_weight.
    destruct (Z.eqb_spec w' w) as [->|Hne].
    - apply (is_least_snoc _ _ mat) in Hl. destruct (mp !! w); by rewrite lookup_insert_eq.
    - rewrite app_nil_r. destruct (mp !! w'); by rewrite lookup_insert_ne. }
  assert (Hall : ∀ l (mp : gmap Z Z), is_least l (mp !! w) →
    is_least (l ++ (ma ← mas; w' ← ma_weights ma; if w' =? w then [ma_mat_number ma] else []))
      (foldl (λ mp ma, foldl (add_weight (ma_mat_number ma)) mp (ma_weights ma)) mp mas !! w)).
  { induction mas as [|ma mas IH]; intros l mp Hl; cbn; [by rewrite app_nil_r|].
    rewrite (assoc_L (++)). apply IH. by apply Hinner. }
  apply (Hall []). by rewrite lookup_empty.
Qed.

Lemma elem_of_mats_listing {P} (d : DB P) cid w n :
  n ∈ mats_listing d cid w ↔
  ∃ ma, ma ∈ db_mat_assignments d ∧ ma_competition ma = cid ∧ w ∈ ma_weights ma ∧
        ma_mat_number ma = n.
Proof.
  unfold mats_listing, mats_of. rewrite list_elem_of_bind. split.
  - intros (ma & Hn & [Hma Hc]%elem_of_filter_list). apply list_elem_of_bind in Hn as (w' & Hn & Hw).
    destruct (Z.eqb_spec w' w) as [He|]; [subst w'|set_solver]. apply list_elem_of_singleton in Hn.
    apply Z.eqb_eq in Hc. eauto.
  - intros (ma & Hma & Hc & Hw & <-). exists ma. rewrite elem_of_filter_list, Z.eqb_eq.
    split; [|done]. apply list_elem_of_bind. exists w. rewrite Z.eqb_refl. split; [left|done].
Qed.

(** ** The transaction *)

Definition all_draws_of {P} (d : DB P) (cid : Z) (ws : list Z) : list (Z * Draw) :=
  draws_of_weights d cid (remove_dups ws).

Definition mats_used {P} (d : DB P) (cid : Z) (ws : list Z) : list Z :=
  sort_by Z.leb (remove_dups
    (omap (λ row, _weight_to_mat_map d cid !! dr_weight_category row.2) (all_draws_of d cid ws))).

Definition prepared_db {P} (d : DB P) (cid : Z) (ws : list Z) (cp : bool) : DB P :=
  prepared d cp (all_draws_of d cid ws).

Definition numbering_plan_of {P} (d : DB P) (cid : Z) (ws : list Z) (cp : bool) : numbering_plan :=
  plan_numbering (prepared_db d cid ws cp) (_weight_to_mat_map d cid) (mats_used d cid ws)
    (List.filter (λ row, _has_real_match (prepared_db d cid ws cp) row.1) (all_draws_of d cid ws)).

Definition start_state {P} (d : DB P) (cid : Z) (ws : list Z) (cp : bool) : nstate P :=
  mkN (list_to_map ((λ m, (m, 0)) <$> mats_used d cid ws)) (prepared_db d cid ws cp).

Definition final_state {P} (d : DB P) (cid : Z) (ws : list Z) (cp : bool) : nstate P :=
  foldl run_visit (start_state d cid ws cp)
    (all_visits (prepared_db d cid ws cp) (numbering_plan_of d cid ws cp)).

(** Why numbering is refused, if it is. *)
Definition numbering_refusal {P} (d : DB P) (cid : Z) (ws : list Z) : option exn :=
  if is_none (db_competitions d !! cid) then Some DoesNotExist
  else if bool_decide (remove_dups ws = []) then Some NumberingError
  else if existsb (λ w, is_none (_weight_to_mat_map d cid !! w)) (remove_dups ws)
  then Some NumberingError
  else if bool_decide (all_draws_of d cid ws = []) then Some NumberingError
  else None.

Section transaction.
Context {P : Type}.
Implicit Types (d : DB P).

Lemma competition_plan_ok d cid ws cp :
  plan_ok (prepared_db d cid ws cp) (numbering_plan_of d cid ws cp).
Proof.
  apply plan_numbering_ok.
  - apply NoDup_fst_filter, NoDup_draws_of_weights.
  - unfold mats_used. rewrite sort_by_perm. apply NoDup_remove_dups.
  - by intros k dr [_ ?]%elem_of_filter_list.
Qed.

Lemma no_rounds_no_visits d cid ws cp : np_rounds (numbering_plan_of d cid ws cp) = [] →
  all_visits (prepared_db d cid ws cp) (numbering_plan_of d cid ws cp) = [].
Proof.
  intros Hr. pose proof (competition_plan_ok d cid ws cp) as Hp.
  destruct (all_visits _ _) as [|v vs] eqn:E; [done|].
  assert (Hv : v ∈ all_visits (prepared_db d cid ws cp) (numbering_plan_of d cid ws cp))
    by (rewrite E; left).
  apply elem_of_all_visits in Hv as (mat & i & m & Hm & _ & Hd & _); [|done].
  assert (Hin : mt_round_no m ∈ np_rounds (numbering_plan_of d cid ws cp)).
  { eapply po_rounds; [done..|]. apply elem_of_rounds_of. exists i, m.
    by rewrite elem_of_draw_matches. }
  rewrite Hr in Hin. set_solver.
Qed.

Lemma number_matches_eq d cid ws cp :
  number_matches_for_competition cid ws cp d =
  match numbering_refusal d cid ws with
  | Some e => (Err e, d)
  | None => (Ok (ns_counters (final_state d cid ws cp)), ns_db (final_state d cid ws cp))
  end.
Proof.
  remember (final_state d cid ws cp) as fs eqn:Hfs.
  unfold number_matches_for_competition, numbering_refusal, atomic, get, bind at 1 2.
  destruct (db_competitions d !! cid) as [comp|] eqn:Hc; cbn; [|done].
  case_bool_decide; [done|]. destruct (existsb _ _); [done|].
  fold (all_draws_of d cid ws). case_bool_decide; [done|].
  unfold bind, modify, put, ret, get. cbn.
  fold (prepared d cp (all_draws_of d cid ws)). fold (prepared_db d cid ws cp).
  assert (Hempty : np_rounds (numbering_plan_of d cid ws cp) = [] → fs = start_state d cid ws cp).
  { intros Hr. subst fs. unfold final_state. by rewrite no_rounds_no_visits. }
  case_bool_decide as Hd.
  { rewrite Hempty; [done|]. unfold numbering_plan_of. by rewrite Hd. }
  case_bool_decide as Hr; [by rewrite Hempty|].
  rewrite Hfs. unfold final_state, start_state. by rewrite <- phases_visits.
Qed.
End transaction.

(** ** The numbers *)

(** The match belongs to a draw of the competition and the chosen weights that the
    mat assignments place on [mat]. *)
Definition fought_on {P} (d : DB P) (cid : Z) (ws : list Z) (mat : Z) (m : Match) : Prop :=
  ∃ dr, db_draws d !! mt_draw m = Some dr ∧ dr_competition dr = cid ∧
    dr_weight_category dr ∈ ws ∧ _weight_to_mat_map d cid !! dr_weight_category dr = Some mat.

Section numbers.
Context {P : Type} (d : DB P) (cid : Z) (ws : list Z) (cp : bool).
Local Abbreviation d2 := (prepared_db d cid ws cp).
Local Abbreviation np := (numbering_plan_of d cid ws cp).
Local Abbreviation d' := (ns_db (final_state d cid ws cp)).

Lemma final_shape : same_shape d' d2.
Proof.
  unfold final_state. change d2 with (ns_db (start_state d cid ws cp)) at 2.
  generalize (start_state d cid ws cp). generalize (all_visits d2 np). intros vs.
  induction vs as [|v vs IH]; intros st; cbn; [done|]. rewrite IH. apply run_visit_shape.
Qed.

Lemma fought_on_sig mat m m' : match_sig m = match_sig m' →
  fought_on d cid ws mat m → fought_on d cid ws mat m'.
Proof. intros [= Hd _ _ _ _ _] Hf. unfold fought_on in *. by rewrite <- Hd. Qed.

Lemma fought_on_mat mat mat' m : fought_on d cid ws mat m → fought_on d cid ws mat' m → mat = mat'.
Proof. intros (dr & ? & _ & _ & ?) (dr' & ? & _ & _ & ?). congruence. Qed.

Lemma fought_on_all_draws mat m : fought_on d cid ws mat m →
  mt_draw m ∈ (all_draws_of d cid ws).*1.
Proof.
  intros (dr & ? & ? & ? & _). apply list_elem_of_fmap. exists (mt_draw m, dr).
  split; [done|]. apply elem_of_draws_of_weights. by rewrite elem_of_remove_dups.
Qed.

Lemma elem_of_plan_draws mat m :
  mt_draw m ∈ np_draws_by_mat np mat ↔
  fought_on d cid ws mat m ∧ _has_real_match d2 (mt_draw m) = true.
Proof.
  unfold numbering_plan_of. rewrite elem_of_mat_draws. unfold fought_on. split.
  - intros (dr & [Hin Hr]%elem_of_filter_list & Hw). cbn in Hr.
    apply elem_of_draws_of_weights in Hin as (? & ? & Hws).
    rewrite elem_of_remove_dups in Hws. eauto 10.
  - intros ((dr & ? & ? & Hws & ?) & Hr). exists dr. split; [|done].
    apply elem_of_filter_list. split; [|done]. apply elem_of_draws_of_weights.
    by rewrite elem_of_remove_dups.
Qed.

Lemma fought_on_mats mat m : fought_on d cid ws mat m → mat ∈ mats_used d cid ws.
Proof.
  intros (dr & ? & ? & ? & Hw). unfold mats_used.
  rewrite sort_by_perm, elem_of_remove_dups, list_elem_of_omap.
  exists (mt_draw m, dr). split; [|done]. apply elem_of_draws_of_weights.
  by rewrite elem_of_remove_dups.
Qed.

(** Which visits there are. *)
Lemma elem_of_visits v :
  v ∈ all_visits d2 np ↔ ∃ mat i m, db_matches d2 !! i = Some m ∧ fought_on d cid ws mat m ∧
    _has_real_match d2 (mt_draw m) = true ∧ v = visit_of d2 mat i m.
Proof.
  rewrite elem_of_all_visits by apply competition_plan_ok. split.
  - intros (mat & i & m & ? & _ & []%elem_of_plan_draws & ->). eauto 10.
  - intros (mat & i & m & ? & ? & ? & ->). exists mat, i, m. split_and!; [done| | |done].
    + eapply fought_on_mats; eauto.
    + by apply elem_of_plan_draws.
Qed.

(** The numbered visits of a mat, in the order of their numbers. *)
Local Abbreviation on mat := (numbered_on d2 mat (all_visits d2 np)).

Lemma elem_of_on mat v :
  v ∈ on mat ↔ ∃ i m, db_matches d2 !! i = Some m ∧ fought_on d cid ws mat m ∧
    _has_real_match d2 (mt_draw m) = true ∧ v = visit_of d2 mat i m ∧ is_numbered d2 v = true.
Proof.
  unfold numbered_on. rewrite elem_of_filter_list, elem_of_visits, andb_true_iff, Z.eqb_eq.
  split.
  - intros ((mat' & i & m & ? & ? & ? & ->) & Hm & ?). cbn in Hm. subst mat'. eauto 10.
  - intros (i & m & ? & ? & ? & -> & ?). split_and!; [eauto 10|done|done].
Qed.

Lemma start_counter mat : counter (start_state d cid ws cp) mat = 0.
Proof.
  unfold counter, start_state. cbn.
  destruct (list_to_map _ !! mat) as [n|] eqn:E; [|done].
  apply elem_of_list_to_map_2, list_elem_of_fmap in E as (? & [= _ ->] & _). done.
Qed.

Lemma final_counter mat : counter (final_state d cid ws cp) mat = zlen (on mat).
Proof.
  destruct (run_visits_spec (all_visits d2 np) (start_state d cid ws cp)) as (_ & Hc & _).
  { apply NoDup_all_visits, competition_plan_ok. }
  unfold final_state. rewrite Hc, start_counter. done.
Qed.

Lemma final_numbered mat j v : on mat !! j = Some v →
  ∃ m, db_matches d2 !! vi_match v = Some m ∧
    db_matches d' !! vi_match v = Some (numbered_row v (Z.of_nat j + 1) m).
Proof.
  intros Hj. destruct (run_visits_spec (all_visits d2 np) (start_state d cid ws cp)) as (_ & _ & Hn & _).
  { apply NoDup_all_visits, competition_plan_ok. }
  destruct (Hn mat j v Hj) as (m & Hm & Hr). exists m. split; [done|].
  unfold final_state. rewrite Hr, start_counter. do 2 f_equal.
Qed.

Lemma final_untouched i : (∀ mat v, v ∈ on mat → vi_match v ≠ i) →
  db_matches d' !! i = db_matches d2 !! i.
Proof.
  intros Hi. destruct (run_visits_spec (all_visits d2 np) (start_state d cid ws cp)) as (Ho & _).
  { apply NoDup_all_visits, competition_plan_ok. }
  apply Ho. intros v Hv Hn. apply (Hi (vi_mat v)). unfold numbered_on.
  apply elem_of_filter_list. by rewrite Z.eqb_refl.
Qed.

Lemma NoDup_on mat : NoDup (vi_match <$> on mat).
Proof.
  pose proof (NoDup_all_visits d2 np (competition_plan_ok d cid ws cp)) as Hnd.
  unfold numbered_on. revert Hnd. generalize (all_visits d2 np). intros vs.
  induction vs as [|v vs IH]; cbn; intros Hnd; [constructor|].
  apply NoDup_cons in Hnd as [Hv Hnd]. destruct (_ && _); [|by apply IH].
  cbn. constructor; [|by apply IH]. contradict Hv.
  apply list_elem_of_fmap in Hv as (w & -> & [Hw _]%elem_of_filter_list).
  by apply list_elem_of_fmap_2.
Qed.

Lemma final_counters_dom : dom (ns_counters (final_state d cid ws cp)) = list_to_set (mats_used d cid ws).
Proof.
  destruct (run_visits_spec (all_visits d2 np) (start_state d cid ws cp)) as (_ & _ & _ & Hd).
  { apply NoDup_all_visits, competition_plan_ok. }
  unfold final_state. rewrite Hd. unfold start_state at 1. cbn [ns_counters].
  rewrite dom_list_to_map_L, <- list_fmap_compose.
  assert (list_to_set (vi_mat <$> List.filter (is_numbered d2) (all_visits d2 np))
          ⊆ (list_to_set (mats_used d cid ws) : gset Z)) as Hsub.
  { intros mat. rewrite !elem_of_list_to_set, list_elem_of_fmap.
    intros (v & -> & [Hv _]%elem_of_filter_list).
    apply elem_of_visits in Hv as (mat & i & m & _ & Hf & _ & ->). by eapply fought_on_mats. }
  assert (fst ∘ (λ m : Z, (m, 0)) <$> mats_used d cid ws = mats_used d cid ws) as ->.
  { rewrite <- (list_fmap_id (mats_used d cid ws)) at 2. by apply list_fmap_ext. }
  set_solver.
Qed.
End numbers.

(** ** Byes *)

Section byes.
Context {P : Type}.
Implicit Types d : DB P.

Definition first_round_bye d (m : Match) : Prop :=
  _first_round_no d (mt_draw m) = Some (mt_round_no m) ∧ mt_is_bye m = true.

Lemma has_real_match_spec d k :
  _has_real_match d k = true ↔ 2 ≤ _real_players_count d k ∧
    ∃ i m, db_matches d !! i = Some m ∧ mt_draw m = k ∧ ¬ first_round_bye d m.
Proof.
  unfold _has_real_match. destruct (Z.ltb_spec (_real_players_count d k) 2).
  { split; [done|]. intros [? _]. lia. }
  split.
  - intros Hr. split; [done|]. destruct (_first_round_no d k) as [fr|] eqn:Hf; [|done].
    apply orb_true_iff in Hr as [Hr|Hr]; apply existsb_exists in Hr as ([i m] & Hin & Hb);
      apply list_elem_of_In, elem_of_draw_matches in Hin as [Hm Hk]; exists i, m;
      split_and!; try done; unfold first_round_bye; rewrite Hk, Hf; cbn in Hb.
    + apply negb_true_iff, Z.eqb_neq in Hb. intros [[= ->] _]. done.
    + apply andb_true_iff in Hb as [_ Hb]. apply negb_true_iff in Hb. intros [_ ?]. congruence.
  - intros (_ & i & m & Hm & Hk & Hb).
    destruct (_first_round_no d k) as [fr|] eqn:Hf.
    + rewrite orb_true_iff, !existsb_exists.
      destruct (Z.eqb_spec (mt_round_no m) fr) as [He|Hne].
      * right. exists (i, m). rewrite <- list_elem_of_In, elem_of_draw_matches. split; [done|].
        cbn. rewrite He, Z.eqb_refl. cbn. apply negb_true_iff, not_true_is_false.
        intros Hbye. apply Hb. unfold first_round_bye. rewrite Hk, Hf. by rewrite He.
      * left. exists (i, m). rewrite <- list_elem_of_In, elem_of_draw_matches. split; [done|].
        cbn. by apply negb_true_iff, Z.eqb_neq.
    + assert (Hr : mt_round_no m ∈ _rounds_of d k).
      { apply elem_of_rounds_of. exists i, m. by rewrite elem_of_draw_matches. }
      unfold _first_round_no in Hf. destruct (_rounds_of d k); [set_solver|done].
Qed.

Lemma same_shape_first d d' k : same_shape d d' → _first_round_no d k = _first_round_no d' k.
Proof. intros Hs. unfold _first_round_no. by rewrite (same_shape_rounds d d' k). Qed.

Lemma is_numbered_visit_of d mat i m : db_matches d !! i = Some m →
  is_numbered d (visit_of d mat i m) = true ↔ ¬ first_round_bye d m.
Proof.
  intros Hm. unfold is_numbered, first_round_bye. cbn. rewrite Hm, negb_true_iff.
  rewrite andb_false_iff, bool_decide_eq_false, not_and_r, not_true_iff_false. done.
Qed.

(** A numbered visit turns the byes of the later rounds into matches. *)
Lemma numbered_row_bye d mat i m c : db_matches d !! i = Some m →
  mt_is_bye (numbered_row (visit_of d mat i m) c m) =
  bool_decide (_first_round_no d (mt_draw m) = Some (mt_round_no m)) && mt_is_bye m.
Proof.
  intros Hm. unfold numbered_row. cbn.
  destruct (_first_round_no d (mt_draw m)) as [f|] eqn:Hf.
  - apply first_round_spec in Hf as [_ Hle].
    specialize (Hle i m). rewrite elem_of_draw_matches in Hle. specialize (Hle (conj Hm eq_refl)).
    case_bool_decide as Hd.
    + injection Hd as ->. rewrite Z.ltb_irrefl. done.
    + destruct (Z.ltb_spec f (mt_round_no m)); [done|]. exfalso. apply Hd. f_equal. lia.
  - unfold _first_round_no in Hf. assert (Hr : mt_round_no m ∈ _rounds_of d (mt_draw m)).
    { apply elem_of_rounds_of. exists i, m. by rewrite elem_of_draw_matches. }
    destruct (_rounds_of d (mt_draw m)); [set_solver|done].
Qed.
End byes.

Section numbered.
Context {P : Type} (d : DB P) (cid : Z) (ws : list Z) (cp : bool).
Local Abbreviation d2 := (prepared_db d cid ws cp).
Local Abbreviation np := (numbering_plan_of d cid ws cp).
Local Abbreviation d' := (ns_db (final_state d cid ws cp)).

(** The row of a match before and after: numbered when its draw has a real match
    and it is no first-round bye, otherwise untouched. *)
Lemma final_row i m : db_matches d2 !! i = Some m →
  (∃ mat j, numbered_on d2 mat (all_visits d2 np) !! j = Some (visit_of d2 mat i m) ∧
     fought_on d cid ws mat m ∧ _has_real_match d2 (mt_draw m) = true ∧ ¬ first_round_bye d2 m ∧
     db_matches d' !! i = Some (numbered_row (visit_of d2 mat i m) (Z.of_nat j + 1) m)) ∨
  ((∀ mat, ¬ (fought_on d cid ws mat m ∧ _has_real_match d2 (mt_draw m) = true ∧
      ¬ first_round_bye d2 m)) ∧
   db_matches d' !! i = Some m).
Proof.
  intros Hm.
  destruct (decide (Exists (λ v, vi_match v = i ∧ is_numbered d2 v = true) (all_visits d2 np)))
    as [Hex|Hex].
  - left. apply Exists_exists in Hex as (v & Hv & Hi & Hn).
    apply elem_of_visits in Hv as (mat & i' & m0 & Hm0 & Hf & Hr & ->). cbn in Hi. subst i'.
    assert (m0 = m) as -> by congruence. exists mat.
    assert (Hon : visit_of d2 mat i m ∈ numbered_on d2 mat (all_visits d2 np)).
    { apply elem_of_on. eauto 10. }
    apply list_elem_of_lookup in Hon as [j Hj]. exists j.
    destruct (final_numbered d cid ws cp mat j _ Hj) as (m1 & Hm1 & Hrow). cbn in Hm1.
    assert (m1 = m) as -> by congruence.
    split_and!; try done. by apply (is_numbered_visit_of d2 mat i).
  - right. split.
    + intros mat (Hf & Hr & Hb). apply Hex, Exists_exists. exists (visit_of d2 mat i m).
      rewrite elem_of_visits, is_numbered_visit_of by done. split; [eauto 10|done].
    + rewrite final_untouched, Hm; [done|]. intros mat v Hv Hi. apply Hex, Exists_exists.
      exists v. unfold numbered_on in Hv. apply elem_of_filter_list in Hv as [Hv Hb].
      by apply andb_true_iff in Hb as [_ ?].
Qed.

Lemma final_row_of i m' : db_matches d' !! i = Some m' →
  ∃ m, db_matches d2 !! i = Some m ∧ match_sig m = match_sig m'.
Proof. intros Hm'. by apply (same_shape_lookup d' d2 i m' (final_shape d cid ws cp)). Qed.

Lemma first_round_bye_final i m m' : db_matches d2 !! i = Some m → db_matches d' !! i = Some m' →
  first_round_bye d2 m ↔ first_round_bye d' m'.
Proof.
  intros Hm Hm'. unfold first_round_bye.
  rewrite (same_shape_first d' d2) by apply final_shape.
  destruct (final_row i m Hm) as [(mat & j & _ & _ & _ & _ & Hr)|[_ Hr]];
    rewrite Hm' in Hr; injection Hr as ->; [|done].
  rewrite (numbered_row_bye d2 mat i) by done. unfold numbered_row at 1 2. cbn.
  rewrite andb_true_iff, bool_decide_eq_true. tauto.
Qed.

Lemma has_real_match_final k : _has_real_match d' k = _has_real_match d2 k.
Proof.
  apply eq_bool_prop_intro. rewrite !Is_true_true, !has_real_match_spec.
  rewrite (same_shape_players d' d2) by apply final_shape.
  split; intros (Hp & i & m & Hm & Hk & Hb); (split; [done|]).
  - destruct (final_row_of i m Hm) as (m0 & Hm0 & Hs). exists i, m0. split_and!; [done| |].
    + unfold match_sig in Hs. congruence.
    + by rewrite (first_round_bye_final i m0 m).
  - destruct (same_shape_lookup d2 d' i m) as (m' & Hm' & Hs);
      [symmetry; apply final_shape|done|].
    exists i, m'. split_and!; [done| |].
    + unfold match_sig in Hs. congruence.
    + by rewrite <- (first_round_bye_final i m m').
Qed.
End numbered.

(** ** Theorems *)

Section results.
Context {P : Type}.
Implicit Types d : DB P.

Lemma number_matches_ok d cid ws cp cs d' :
  number_matches_for_competition cid ws cp d = (Ok cs, d') →
  cs = ns_counters (final_state d cid ws cp) ∧ d' = ns_db (final_state d cid ws cp).
Proof. rewrite number_matches_eq. destruct (numbering_refusal _ _ _); intros; simplify_eq; done. Qed.

Lemma prepared_number d cid ws mat i m :
  db_matches (prepared_db d cid ws true) !! i = Some m → fought_on d cid ws mat m →
  mt_match_number m = None.
Proof.
  intros Hm Hf. apply (prepared_unnumbered d (all_draws_of d cid ws) i m Hm).
  by eapply fought_on_all_draws.
Qed.

(** Matches with a number are the numbered visits. *)
Lemma numbered_iff_visited d cid ws mat i m' :
  db_matches (ns_db (final_state d cid ws true)) !! i = Some m' → fought_on d cid ws mat m' →
  mt_match_number m' ≠ None ↔
  i ∈ vi_match <$> numbered_on (prepared_db d cid ws true) mat
        (all_visits (prepared_db d cid ws true) (numbering_plan_of d cid ws true)).
Proof.
  intros Hm' Hf. destruct (final_row_of d cid ws true i m' Hm') as (m & Hm & Hs).
  apply (fought_on_sig d cid ws mat m' m) in Hf; [|done].
  destruct (final_row d cid ws true i m Hm) as [(mat' & j & Hj & Hf' & _ & _ & Hr)|[Hno Hr]];
    rewrite Hm' in Hr; injection Hr as ->.
  - split; [intros _|done].
    rewrite (fought_on_mat d cid ws mat mat' m) by done.
    apply list_elem_of_fmap. eexists; split; [|by eapply list_elem_of_lookup_2]. done.
  - rewrite (prepared_number d cid ws mat i m) by done. split; [done|].
    intros (v & -> & Hv)%list_elem_of_fmap.
    apply elem_of_on in Hv as (i & m0 & Hm0 & Hf0 & Hr0 & -> & Hn). cbn in *.
    assert (m0 = m) as -> by congruence.
    apply is_numbered_visit_of in Hn; [|done]. exfalso. by apply (Hno mat).
Qed.

(** A numbered visit is a match fought on its mat and has a number. *)
Lemma final_visited d cid ws cp mat v :
  v ∈ numbered_on (prepared_db d cid ws cp) mat
        (all_visits (prepared_db d cid ws cp) (numbering_plan_of d cid ws cp)) →
  ∃ m, db_matches (ns_db (final_state d cid ws cp)) !! vi_match v = Some m ∧
    fought_on d cid ws mat m ∧ mt_match_number m ≠ None.
Proof.
  intros Hv. pose proof Hv as (i & m0 & Hm0 & Hf & _ & Hve & _)%elem_of_on.
  apply list_elem_of_lookup in Hv as [j Hj].
  destruct (final_numbered d cid ws cp mat j v Hj) as (m & Hm & Hr).
  eexists. split_and!; [exact Hr| |done].
  assert (m = m0) as -> by (subst v; cbn in Hm; congruence). exact Hf.
Qed.
End results.

(** C4: on every mat the match numbers are [1 .. n] without gaps or repetitions:
    [n] is the counter the function returns for the mat, and listing exactly the
    matches of the chosen weights that are fought on the mat and have a number, in a
    suitable order, reads off [1, 2, .., n]. Every mat counts from 1 on its own. *)
Theorem numbers_are_consecutive_per_mat {P} (d : DB P) cid ws cs d' :
  number_matches_for_competition cid ws true d = (Ok cs, d') →
  (∀ i m mat, db_matches d' !! i = Some m → fought_on d cid ws mat m → is_Some (cs !! mat)) ∧
  ∀ mat n, cs !! mat = Some n → ∃ ids,
    NoDup ids ∧
    (∀ i, i ∈ ids ↔ ∃ m, db_matches d' !! i = Some m ∧ fought_on d cid ws mat m ∧
       mt_match_number m ≠ None) ∧
    (λ i, db_matches d' !! i ≫= mt_match_number) <$> ids = Some <$> py_range 1 (n + 1).
Proof.
  intros [-> ->]%number_matches_ok. split.
  { intros i m mat _ Hf. apply elem_of_dom. rewrite final_counters_dom, elem_of_list_to_set.
    by eapply fought_on_mats. }
  intros mat n Hn.
  set (vs := numbered_on (prepared_db d cid ws true) mat
    (all_visits (prepared_db d cid ws true) (numbering_plan_of d cid ws true))).
  assert (Hlen : n = zlen vs).
  { pose proof (final_counter d cid ws true mat) as Hc. unfold counter in Hc.
    rewrite Hn in Hc. done. }
  exists (vi_match <$> vs). split_and!.
  - apply NoDup_on.
  - intros i. split.
    + intros (v & -> & Hv)%list_elem_of_fmap.
      destruct (final_visited d cid ws true mat v Hv) as (m & Hm & Hf & Hnum). by exists m.
    + intros (m & Hm & Hf & Hnum). by apply (numbered_iff_visited d cid ws mat i m).
  - rewrite <- list_fmap_compose. apply list_eq_same_length with (length vs).
    + rewrite length_fmap, length_py_range, Hlen. unfold zlen. lia.
    + by rewrite length_fmap.
    + intros j x y Hj Hx Hy. rewrite list_lookup_fmap in Hx. rewrite list_lookup_fmap in Hy.
      destruct (vs !! j) as [v|] eqn:Hv; [|done]. injection Hx as <-.
      unfold py_range in Hy. rewrite lookup_seqZ_lt in Hy by (unfold zlen in Hlen; lia).
      injection Hy as <-. destruct (final_numbered d cid ws true mat j v Hv) as (m & _ & Hr).
      unfold compose. rewrite Hr. cbn. f_equal. lia.
Qed.

Lemma numbered_iff {P} (d : DB P) cid ws cs d' mat i m :
  number_matches_for_competition cid ws true d = (Ok cs, d') →
  db_matches d' !! i = Some m → fought_on d cid ws mat m →
  (mt_match_number m ≠ None ↔
     _has_real_match d' (mt_draw m) = true ∧ ¬ first_round_bye d' m) ∧
  (_has_real_match d' (mt_draw m) = true → mt_is_bye m = true →
     _first_round_no d' (mt_draw m) = Some (mt_round_no m)).
Proof.
  intros [-> ->]%number_matches_ok Hm' Hf'.
  destruct (final_row_of d cid ws true i m Hm') as (m0 & Hm0 & Hs).
  assert (Hf : fought_on d cid ws mat m0) by by eapply fought_on_sig.
  rewrite has_real_match_final, <- (first_round_bye_final d cid ws true i m0 m) by done.
  rewrite (same_shape_first _ (prepared_db d cid ws true)) by apply final_shape.
  assert (mt_draw m = mt_draw m0) as -> by (unfold match_sig in Hs; congruence).
  assert (mt_round_no m = mt_round_no m0) as -> by (unfold match_sig in Hs; congruence).
  destruct (final_row d cid ws true i m0 Hm0) as [(mat' & j & _ & _ & Hr & Hb & Hrow)|[Hno Hrow]];
    rewrite Hm' in Hrow; injection Hrow as ->.
  - split; [split; [done|discriminate]|]. intros _ Hbye.
    rewrite (numbered_row_bye _ mat' i) in Hbye by done.
    apply andb_true_iff in Hbye as [Hbye _]. by apply bool_decide_eq_true in Hbye.
  - rewrite (prepared_number d cid ws mat i m0) by done. split.
    + split; [done|]. intros [? ?]. exfalso. by apply (Hno mat).
    + intros Hr Hbye. destruct (decide (_first_round_no (prepared_db d cid ws true) (mt_draw m0)
        = Some (mt_round_no m0))); [done|]. exfalso. apply (Hno mat). split_and!; [done..|].
      by intros [? _].
Qed.

(** Who is numbered. After a numbering run, a match of the chosen weights has
    a number exactly when its draw has a real match and the match is not a bye of
    the draw's first round; and no bye is left outside the first round of a draw
    with a real match. *)
Theorem numbered_unless_first_round_bye {P} (d : DB P) cid ws cs d' mat i m :
  number_matches_for_competition cid ws true d = (Ok cs, d') →
  db_matches d' !! i = Some m → fought_on d cid ws mat m →
  (mt_match_number m ≠ None ↔
     _has_real_match d' (mt_draw m) = true ∧ ¬ first_round_bye d' m) ∧
  (_has_real_match d' (mt_draw m) = true → mt_is_bye m = true →
     _first_round_no d' (mt_draw m) = Some (mt_round_no m)).
Proof. apply numbered_iff. Qed.

(** The order of play. On a mat, every final (a match of its draw's last
    round) is numbered after every match that is no final, and among the matches
    that are no finals an earlier round is numbered before a later one. *)
Theorem finals_last_rounds_ascending {P} (d : DB P) cid ws cs d' mat i m c i' m' c' :
  number_matches_for_competition cid ws true d = (Ok cs, d') →
  db_matches d' !! i = Some m → fought_on d cid ws mat m → mt_match_number m = Some c →
  db_matches d' !! i' = Some m' → fought_on d cid ws mat m' → mt_match_number m' = Some c' →
  let final := λ m, _last_round_no d' (mt_draw m) = Some (mt_round_no m) in
  ¬ final m → (final m' ∨ mt_round_no m < mt_round_no m') → c < c'.
Proof.
  intros [-> ->]%number_matches_ok Hm Hf Hc Hm' Hf' Hc' final Hnf Hlate.
  set (d2 := prepared_db d cid ws true).
  set (vs := numbered_on d2 mat (all_visits d2 (numbering_plan_of d cid ws true))).
  assert (Hvis : ∀ i m c, db_matches (ns_db (final_state d cid ws true)) !! i = Some m →
    fought_on d cid ws mat m → mt_match_number m = Some c →
    ∃ j v, vs !! j = Some v ∧ c = Z.of_nat j + 1 ∧ vi_round v = mt_round_no m ∧
      (vi_final v = true ↔ final m)).
  { clear -vs. intros i m c Hm Hf Hc.
    destruct (final_row_of d cid ws true i m Hm) as (m0 & Hm0 & Hs).
    assert (Hf0 : fought_on d cid ws mat m0) by by eapply fought_on_sig.
    destruct (final_row d cid ws true i m0 Hm0) as [(mat' & j & Hj & Hf1 & _ & _ & Hrow)|[_ Hrow]];
      rewrite Hm in Hrow; injection Hrow as ->.
    - assert (mat' = mat) as -> by by eapply fought_on_mat. injection Hc as <-.
      exists j, (visit_of d2 mat i m0). split_and!; [done..|]. unfold final, _last_round_no. cbn.
      rewrite bool_decide_eq_true.
      by rewrite (same_shape_rounds _ d2 (mt_draw m0)) by apply final_shape.
    - rewrite (prepared_number d cid ws mat i m0) in Hc by done. done. }
  destruct (Hvis i m c) as (j & v & Hj & -> & Hr & Hfi); [done..|].
  destruct (Hvis i' m' c') as (j' & v' & Hj' & -> & Hr' & Hfi'); [done..|].
  assert (Hv : vi_final v = false) by (apply not_true_is_false; naive_solver).
  destruct (lt_eq_lt_dec j j') as [[Hlt | ->]|Hgt]; [lia| |].
  - assert (v' = v) as -> by congruence. exfalso.
    destruct Hlate as [Hx|Hx]; [apply Hfi' in Hx; congruence|lia].
  - exfalso.
    assert (Hs : StronglySorted visit_before vs).
    { apply strongly_sorted_filter, all_visits_sorted, competition_plan_ok. }
    destruct (strongly_sorted_lookup _ _ j' j v' v Hs Hj' Hj Hgt) as [Hb1 Hb2].
    specialize (Hb2 Hv). destruct Hlate as [Hx|Hx]; [|lia].
    apply Hfi', Hb1 in Hx. congruence.
Qed.

Lemma weight_has_mat {P} (d : DB P) cid w :
  (∃ ma, ma ∈ db_mat_assignments d ∧ ma_competition ma = cid ∧ w ∈ ma_weights ma) ↔
  is_Some (_weight_to_mat_map d cid !! w).
Proof.
  pose proof (weight_to_mat_least d cid w) as Hl. split.
  - intros (ma & ? & ? & ?). destruct (_weight_to_mat_map d cid !! w); [done|]. cbn in Hl.
    assert (ma_mat_number ma ∈ mats_listing d cid w) by (apply elem_of_mats_listing; eauto).
    rewrite Hl in *. set_solver.
  - intros [n Hn]. rewrite Hn in Hl.
    destruct Hl as [(ma & ? & ? & ? & _)%elem_of_mats_listing _]. eauto.
Qed.

Lemma numbering_accepted {P} (d : DB P) cid ws cp :
  (∃ cs d', number_matches_for_competition cid ws cp d = (Ok cs, d')) ↔
     is_Some (db_competitions d !! cid) ∧ ws ≠ [] ∧
     (∀ w, w ∈ ws → ∃ ma, ma ∈ db_mat_assignments d ∧ ma_competition ma = cid ∧ w ∈ ma_weights ma) ∧
     (∃ k dr, db_draws d !! k = Some dr ∧ dr_competition dr = cid ∧ dr_weight_category dr ∈ ws).
Proof.
  rewrite number_matches_eq.
  assert (Hmiss : existsb (λ w, is_none (_weight_to_mat_map d cid !! w)) (remove_dups ws) = false ↔
    ∀ w, w ∈ ws → ∃ ma, ma ∈ db_mat_assignments d ∧ ma_competition ma = cid ∧ w ∈ ma_weights ma).
  { setoid_rewrite weight_has_mat. rewrite <- not_true_iff_false, existsb_exists. split.
    - intros Hn w Hw. destruct (_weight_to_mat_map d cid !! w) eqn:E; [done|]. exfalso.
      apply Hn. exists w. rewrite <- list_elem_of_In, elem_of_remove_dups, E. done.
    - intros Hall (w & Hw & Hn). rewrite <- list_elem_of_In, elem_of_remove_dups in Hw.
      destruct (Hall w Hw) as [n E]. by rewrite E in Hn. }
  assert (Hdraws : all_draws_of d cid ws ≠ [] ↔
    ∃ k dr, db_draws d !! k = Some dr ∧ dr_competition dr = cid ∧ dr_weight_category dr ∈ ws).
  { split.
    - destruct (all_draws_of d cid ws) as [|[k dr] l] eqn:E; [done|]. intros _.
      assert (Hin : (k, dr) ∈ all_draws_of d cid ws) by (rewrite E; left).
      apply elem_of_draws_of_weights in Hin. rewrite elem_of_remove_dups in Hin. eauto.
    - intros (k & dr & ? & ? & ?) Hnil.
      assert (Hin : (k, dr) ∈ all_draws_of d cid ws)
        by (apply elem_of_draws_of_weights; by rewrite elem_of_remove_dups).
      rewrite Hnil in Hin. set_solver. }
  assert (Hws : remove_dups ws ≠ [] ↔ ws ≠ []).
  { assert (Hin : ∀ w, w ∈ remove_dups ws ↔ w ∈ ws) by (intros; apply elem_of_remove_dups).
    destruct ws as [|w ws]; [done|]. split; [done|]. intros _ Hnil. rewrite Hnil in Hin.
    specialize (Hin w). set_solver. }
  rewrite <- Hmiss, <- Hdraws, <- Hws. unfold numbering_refusal.
  destruct (db_competitions d !! cid) as [comp|]; cbn.
  2: { split; [intros (? & ? & ?); discriminate|]. by intros [[? ?] _]. }
  case_bool_decide; [naive_solver|]. destruct (existsb _ _); [naive_solver|].
  case_bool_decide; naive_solver.
Qed.

(** When numbering is refused, and that a refusal writes nothing. It succeeds
    exactly when the competition exists, some weight is chosen, every chosen weight
    is listed by a mat of the competition and some draw has a chosen weight. *)
Theorem numbering_accepted_iff {P} (d : DB P) cid ws cp :
  ((∃ cs d', number_matches_for_competition cid ws cp d = (Ok cs, d')) ↔
     is_Some (db_competitions d !! cid) ∧ ws ≠ [] ∧
     (∀ w, w ∈ ws → ∃ ma, ma ∈ db_mat_assignments d ∧ ma_competition ma = cid ∧ w ∈ ma_weights ma) ∧
     (∃ k dr, db_draws d !! k = Some dr ∧ dr_competition dr = cid ∧ dr_weight_category dr ∈ ws)) ∧
  (∀ e d', number_matches_for_competition cid ws cp d = (Err e, d') → d' = d).
Proof.
  split; [apply numbering_accepted|]. rewrite number_matches_eq. intros e d'.
  destruct (numbering_refusal _ _ _); intros; by simplify_eq.
Qed.

Lemma final_tables {P} (d : DB P) cid ws cp :
  other_tables (ns_db (final_state d cid ws cp)) = other_tables d.
Proof.
  assert (Hv : ∀ vs (st : nstate P), other_tables (ns_db (foldl run_visit st vs)) = other_tables (ns_db st)).
  { induction vs as [|v vs IH]; intros st; cbn; [done|]. rewrite IH. unfold run_visit.
    destruct (_ !! _); [|done]. unfold number_match. by destruct (_ && _). }
  unfold final_state. rewrite Hv. apply prepared_tables.
Qed.

(** A weight that several mats of a competition list is fought on the lowest
    of them, and one that none lists on none. *)
Theorem weight_fought_on_lowest_mat {P} (d : DB P) cid w n :
  _weight_to_mat_map d cid !! w = Some n ↔
  (∃ ma, ma ∈ db_mat_assignments d ∧ ma_competition ma = cid ∧ w ∈ ma_weights ma ∧
         ma_mat_number ma = n) ∧
  (∀ ma, ma ∈ db_mat_assignments d → ma_competition ma = cid → w ∈ ma_weights ma →
         n ≤ ma_mat_number ma).
Proof.
  pose proof (weight_to_mat_least d cid w) as Hl. split.
  - intros Hn. rewrite Hn in Hl. destruct Hl as [Hin Hle].
    split; [by apply elem_of_mats_listing|]. intros ma ???.
    apply Hle, elem_of_mats_listing. eauto.
  - intros [Hex Hle]. apply elem_of_mats_listing in Hex as Hin.
    destruct (_weight_to_mat_map d cid !! w) as [n'|]; cbn in Hl; [|rewrite Hl in Hin; set_solver].
    destruct Hl as [Hin' Hle']. f_equal. apply Z.le_antisymm; [by apply Hle'|].
    apply elem_of_mats_listing in Hin' as (ma & ? & ? & ? & <-). by apply Hle.
Qed.

(** Players of a match count for its draw. *)
Lemma two_players_counted {P} (d : DB P) i m a b :
  db_matches d !! i = Some m → mt_player_a m = Some a → mt_player_b m = Some b →
  a ≠ b → a ≠ 0 → b ≠ 0 → 2 ≤ _real_players_count d (mt_draw m).
Proof.
  intros Hm Ha Hb Hab Ha0 Hb0. unfold _real_players_count.
  assert (Hsub : {[a; b]} ⊆ real_players d (mt_draw m)).
  { unfold real_players. intros p Hp. apply elem_of_list_to_set, elem_of_filter_list.
    split; [|apply negb_true_iff, Z.eqb_neq; set_solver].
    apply list_elem_of_join. exists (option_list (mt_player_a m) ++ option_list (mt_player_b m)).
    split; [rewrite Ha, Hb; set_solver|]. apply list_elem_of_fmap. exists (i, m).
    by rewrite elem_of_draw_matches. }
  apply subseteq_size in Hsub. rewrite size_union, !size_singleton in Hsub by set_solver. lia.
Qed.

(** C5: a numbered bracket can be published. When the weights cover every draw of
    the competition and the two players of a match are different rows with a key, no match
    is left that the publication check counts as unnumbered: [numbering_publish_view]
    publishes, the competition gets the current time as its date of publication unless it
    has one already, which is kept, and nothing else changes. *)
Theorem numbering_allows_publishing {P} (d : DB P) cid ws cs d' now :
  number_matches_for_competition cid ws true d = (Ok cs, d') →
  (∀ k dr, db_draws d !! k = Some dr → dr_competition dr = cid → dr_weight_category dr ∈ ws) →
  (∀ i m a b, db_matches d' !! i = Some m → mt_player_a m = Some a → mt_player_b m = Some b →
     a ≠ b ∧ a ≠ 0 ∧ b ≠ 0) →
  ∃ comp, db_competitions d' !! cid = Some comp ∧
    numbering_publish_view cid false now d' =
    (Ok Published,
     match kc_bracket_published_at comp with
     | Some _ => d'
     | None => set_db_competitions
                 (<[cid := set_kc_bracket_published_at (Some now) comp]> (db_competitions d')) d'
     end).
Proof.
  intros Hrun Hcover Hplayers.
  assert (Hacc : ∃ cs d', number_matches_for_competition cid ws true d = (Ok cs, d')) by eauto.
  apply numbering_accepted in Hacc as ([comp Hcomp] & _ & Hmats & _).
  assert (Hsame : db_competitions d' = db_competitions d ∧ db_draws d' = db_draws d).
  { apply number_matches_ok in Hrun as [_ ->].
    pose proof (final_tables d cid ws true) as Ht. unfold other_tables in Ht. by injection Ht. }
  destruct Hsame as [Hcs Hds].
  exists comp. rewrite Hcs. split; [done|].
  unfold numbering_publish_view. rewrite Hcs, Hcomp.
  assert (has_unnumbered d' cid = false) as ->; [|by destruct (kc_bracket_published_at comp)].
  apply not_true_is_false. intros Hu. unfold has_unnumbered in Hu.
  apply existsb_exists in Hu as ([i m] & Hin & Hb). cbn in Hb.
  apply list_elem_of_In, elem_of_rows_by_id in Hin.
  rewrite !andb_true_iff, !negb_true_iff in Hb. destruct Hb as [[[[Hc Hbye] Hnone] Ha] Hb].
  rewrite Hds in Hc. destruct (db_draws d !! mt_draw m) as [dr|] eqn:Hdr; [|done].
  apply Z.eqb_eq in Hc.
  destruct (mt_player_a m) as [a|] eqn:Hpa; [|done]. destruct (mt_player_b m) as [b|] eqn:Hpb; [|done].
  destruct (Hplayers i m a b) as (Hab & Ha0 & Hb0); [done..|].
  assert (Hw : dr_weight_category dr ∈ ws) by by eapply Hcover.
  destruct (proj1 (weight_has_mat d cid (dr_weight_category dr))) as [mat Hmat]; [by apply Hmats|].
  assert (Hf : fought_on d cid ws mat m) by by exists dr.
  destruct (numbered_iff d cid ws cs d' mat i m Hrun Hin Hf) as [Hiff _].
  assert (Hnb : ¬ first_round_bye d' m) by (intros [_ ?]; congruence).
  destruct (mt_match_number m); [done|]. apply Hiff; [|done]. split; [|done].
  apply has_real_match_spec. split; [by eapply two_players_counted|]. by exists i, m.
Qed.

(** ** The mat of a match *)

Section mats.
Context {P : Type}.
Implicit Types d : DB P.

Lemma ensure_rounds_keeps d row : bracket_wf d → row.1 < db_next_id d →
  let d' := _ensure_rounds_exist d row in
  bracket_wf d' ∧ db_next_id d ≤ db_next_id d' ∧ db_matches d ⊆ db_matches d'.
Proof.
  intros Hwf Hk. cbn zeta.
  apply (ensure_rounds_ind (λ d', bracket_wf d' ∧ db_next_id d ≤ db_next_id d' ∧
    db_matches d ⊆ db_matches d')); [|done].
  intros d0 r idx (Hwf0 & Hn & Hsub). split_and!.
  - apply add_match_wf; [done|]. cbn. lia.
  - cbn. lia.
  - cbn. etrans; [exact Hsub|]. apply insert_subseteq.
    destruct (db_matches d0 !! db_next_id d0) eqn:E; [|done].
    apply (proj2 Hwf0) in E. lia.
Qed.

Lemma prepared_keeps d cid ws i m : bracket_wf d → db_matches d !! i = Some m →
  ∃ m', db_matches (prepared_db d cid ws true) !! i = Some m' ∧
    match_sig m' = match_sig m ∧ mt_mat_no m' = mt_mat_no m ∧ mt_is_bye m' = mt_is_bye m.
Proof.
  intros Hwf Hm. unfold prepared_db, prepared.
  set (ks := (all_draws_of d cid ws).*1). set (d1 := clear_numbers ks d).
  assert (Hm1 : ∃ m1, db_matches d1 !! i = Some m1 ∧ match_sig m1 = match_sig m ∧
    mt_mat_no m1 = mt_mat_no m ∧ mt_is_bye m1 = mt_is_bye m).
  { unfold d1, clear_numbers. cbn. rewrite lookup_fmap, Hm. cbn.
    case_bool_decide; eexists; (split; [done|]); by destruct m. }
  assert (Hwf1 : bracket_wf d1).
  { destruct Hwf as [Hd Hms]. split; [exact Hd|]. intros j mj. unfold d1, clear_numbers. cbn.
    rewrite lookup_fmap. destruct (db_matches d !! j) as [m0|] eqn:E; [|done].
    cbn. intros [= <-]. specialize (Hms j m0 E). cbn in *. by case_bool_decide. }
  assert (Hrows : ∀ row, row ∈ all_draws_of d cid ws → row.1 < db_next_id d1).
  { intros [k dr] Hin. apply elem_of_draws_of_weights in Hin as [Hl _]. cbn.
    by apply (proj1 Hwf) in Hl. }
  destruct Hm1 as (m1 & Hm1 & Hs). exists m1. split; [|done].
  clearbody d1. clear ks Hs Hm Hwf. revert d1 Hwf1 Hrows Hm1.
  induction (all_draws_of d cid ws) as [|row l IH]; intros d1 Hwf1 Hrows Hm1; cbn; [done|].
  destruct (ensure_rounds_keeps d1 row Hwf1) as (Hwf' & Hn & Hsub); [apply Hrows; left|].
  apply IH; [done| |by eapply lookup_weaken].
  intros row' Hin. specialize (Hrows row' ltac:(by right)). lia.
Qed.
End mats.

(** Which mat a numbered match carries. A match that already had a mat keeps
    it; only a match without one gets the mat its weight is assigned to, although
    the number always counts on the latter. *)
Theorem numbered_match_keeps_old_mat {P} (d : DB P) cid ws cs d' mat i m m' :
  bracket_wf d → number_matches_for_competition cid ws true d = (Ok cs, d') →
  db_matches d !! i = Some m → fought_on d cid ws mat m →
  db_matches d' !! i = Some m' → mt_match_number m' ≠ None →
  mt_mat_no m' = or_id (mt_mat_no m) (Some mat).
Proof.
  intros Hwf [-> ->]%number_matches_ok Hm Hf Hm' Hn.
  destruct (prepared_keeps d cid ws i m Hwf Hm) as (m2 & Hm2 & Hs & Hmat & _).
  assert (Hf2 : fought_on d cid ws mat m2) by by eapply fought_on_sig.
  destruct (final_row d cid ws true i m2 Hm2) as [(mat' & j & _ & Hf' & _ & _ & Hrow)|[_ Hrow]];
    rewrite Hm' in Hrow; injection Hrow as ->.
  - rewrite (fought_on_mat d cid ws mat mat' m2) by done.
    unfold numbered_row, or_id. cbn. by rewrite Hmat.
  - by rewrite (prepared_number d cid ws mat i m2) in Hn.
Qed.

(** ** An example competition *)

(** Competition 5 with two weights and a draw of four players in each; [mats] says
    which weights each mat lists. *)
Definition sample_pair (k i : Z) : Match :=
  mkMatch k 1 (2 * i) (2 * i + 1) (Some (10 * k + 2 * i)) (Some (10 * k + 2 * i + 1)) false
    None None None None.

Definition sample_draws (mats : list MatAssignment) : DB unit :=
  foldl add_match
    (set_db_mat_assignments mats
      (set_db_draws {[ 1 := mkDraw 5 "male" (Some 1) 1 1 4 1 "" false 0;
                       2 := mkDraw 5 "male" (Some 1) 1 2 4 1 "" false 0 ]}
        (set_db_competitions
          {[ 5 := mkKyorugiCompetition "cup" 1000 (Some 1) "male" None 0 10 11 12 13 2 None "c" ]}
          (empty_db 3))))
    [sample_pair 1 0; sample_pair 1 1; sample_pair 2 0; sample_pair 2 1].

Definition one_mat : list MatAssignment := [mkMatAssignment 5 1 [1; 2]].
Definition two_mats : list MatAssignment := [mkMatAssignment 5 1 [2]; mkMatAssignment 5 2 [1]].

(** Moving a weight to another mat and numbering again gives two matches the
    same mat and the same number: the first run puts both weights on mat 1; after
    weight 1 is moved to mat 2, its matches keep mat 1 but count from 1 on mat 2. *)
Theorem moved_weight_duplicates_numbers :
  let d1 := (number_matches_for_competition 5 [1; 2] true (sample_draws one_mat)).2 in
  let d2 := set_db_mat_assignments two_mats d1 in
  let run := number_matches_for_competition 5 [1; 2] true d2 in
  run.1 = Ok {[ 1 := 3; 2 := 3 ]} ∧
  ∃ i j m m', i ≠ j ∧ db_matches run.2 !! i = Some m ∧ db_matches run.2 !! j = Some m' ∧
    mt_mat_no m = Some 1 ∧ mt_mat_no m' = Some 1 ∧
    mt_match_number m = Some 1 ∧ mt_match_number m' = Some 1.
Proof.
  cbn zeta. split; [vm_compute; reflexivity|].
  exists 3, 5, (mkMatch 1 1 0 1 (Some 10) (Some 11) false None (Some 1) (Some 1) None),
    (mkMatch 2 1 0 1 (Some 20) (Some 21) false None (Some 1) (Some 1) None).
  split; [done|]. vm_compute. repeat split.
Qed.

Definition sample_run : DB unit :=
  (number_matches_for_competition 5 [1; 2] true (sample_draws one_mat)).2.

Lemma sample_run_ok :
  number_matches_for_competition 5 [1; 2] true (sample_draws one_mat) =
  (Ok {[ 1 := 6 ]}, sample_run).
Proof. vm_compute. reflexivity. Qed.

Lemma sample_fought m : mt_draw m = 1 ∨ mt_draw m = 2 →
  fought_on (sample_draws one_mat) 5 [1; 2] 1 m.
Proof.
  intros Hd. unfold fought_on. destruct Hd as [-> | ->];
    eexists; (split; [vm_compute; reflexivity|]); cbn;
    (split; [done|split; [set_solver|vm_compute; reflexivity]]).
Qed.

(** Two mats, each with a weight of its own: both count to 3. *)
Definition two_mats_run : DB unit :=
  (number_matches_for_competition 5 [1; 2] true (sample_draws two_mats)).2.

Lemma two_mats_run_ok :
  number_matches_for_competition 5 [1; 2] true (sample_draws two_mats) =
  (Ok {[ 1 := 3; 2 := 3 ]}, two_mats_run).
Proof. vm_compute. reflexivity. Qed.

Lemma numbers_are_consecutive_per_mat_witness :
  (∃ ids, NoDup ids ∧
    (λ i, db_matches two_mats_run !! i ≫= mt_match_number) <$> ids = Some <$> py_range 1 4 ∧
    ∀ i, i ∈ ids → ∃ m, db_matches two_mats_run !! i = Some m ∧
      fought_on (sample_draws two_mats) 5 [1; 2] 1 m) ∧
  ∃ ids, NoDup ids ∧
    (λ i, db_matches two_mats_run !! i ≫= mt_match_number) <$> ids = Some <$> py_range 1 4 ∧
    ∀ i, i ∈ ids → ∃ m, db_matches two_mats_run !! i = Some m ∧
      fought_on (sample_draws two_mats) 5 [1; 2] 2 m.
Proof.
  destruct (numbers_are_consecutive_per_mat (sample_draws two_mats) 5 [1; 2] _ _ two_mats_run_ok)
    as [_ H].
  assert (H3 : ∀ mat, ({[ 1 := 3; 2 := 3 ]} : gmap Z Z) !! mat = Some 3 → ∃ ids, NoDup ids ∧
    (λ i, db_matches two_mats_run !! i ≫= mt_match_number) <$> ids = Some <$> py_range 1 4 ∧
    ∀ i, i ∈ ids → ∃ m, db_matches two_mats_run !! i = Some m ∧
      fought_on (sample_draws two_mats) 5 [1; 2] mat m).
  { intros mat Hmat. destruct (H mat 3 Hmat) as (ids & Hnd & Hids & Hn). exists ids.
    refine (conj Hnd (conj Hn _)). intros i Hi. apply Hids in Hi as (m & Hm & Hf & _).
    exact (ex_intro _ m (conj Hm Hf)). }
  split; apply H3; reflexivity.
Defined.

Definition sample_semifinal : Match :=
  mkMatch 1 1 0 1 (Some 10) (Some 11) false None (Some 1) (Some 1) None.
Definition sample_final : Match :=
  mkMatch 1 2 0 0 None None false None (Some 1) (Some 5) None.

Lemma numbered_unless_first_round_bye_witness :
  mt_match_number sample_semifinal ≠ None ↔
  _has_real_match sample_run 1 = true ∧ ¬ first_round_bye sample_run sample_semifinal.
Proof.
  assert (Hl : db_matches sample_run !! 3 = Some sample_semifinal) by (vm_compute; reflexivity).
  exact (proj1 (numbered_unless_first_round_bye (sample_draws one_mat) 5 [1; 2] _ _ 1 3
    sample_semifinal sample_run_ok Hl (sample_fought sample_semifinal (or_introl eq_refl)))).
Defined.

Lemma finals_last_rounds_ascending_witness : 1 < 5.
Proof.
  assert (H3 : db_matches sample_run !! 3 = Some sample_semifinal) by (vm_compute; reflexivity).
  assert (H7 : db_matches sample_run !! 7 = Some sample_final) by (vm_compute; reflexivity).
  refine (finals_last_rounds_ascending (sample_draws one_mat) 5 [1; 2] _ _ 1 3 sample_semifinal 1
    7 sample_final 5 sample_run_ok H3 (sample_fought sample_semifinal (or_introl eq_refl)) eq_refl
    H7 (sample_fought sample_final (or_introl eq_refl)) eq_refl _ (or_intror eq_refl)).
  vm_compute. discriminate.
Defined.

Lemma numbering_allows_publishing_witness :
  ∃ comp, db_competitions sample_run !! 5 = Some comp ∧
    numbering_publish_view 5 false 77 sample_run =
    (Ok Published,
     match kc_bracket_published_at comp with
     | Some _ => sample_run
     | None => set_db_competitions
                 (<[5 := set_kc_bracket_published_at (Some 77) comp]> (db_competitions sample_run)) sample_run
     end).
Proof.
  apply (numbering_allows_publishing (sample_draws one_mat) 5 [1; 2] _ _ 77 sample_run_ok).
  - intros k dr Hk _. change (db_draws (sample_draws one_mat)) with
      ({[ 1 := mkDraw 5 "male" (Some 1) 1 1 4 1 "" false 0;
          2 := mkDraw 5 "male" (Some 1) 1 2 4 1 "" false 0 ]} : gmap Z Draw) in Hk.
    apply lookup_insert_Some in Hk as [[_ <-]|[_ Hk]]; [set_solver|].
    apply lookup_singleton_Some in Hk as [_ <-]. set_solver.
  - assert (Hall : map_Forall (λ _ m, match mt_player_a m, mt_player_b m with
      | Some a, Some b => negb (a =? b) && negb (a =? 0) && negb (b =? 0)
      | _, _ => true end = true) (db_matches sample_run)).
    { refine (bool_decide_unpack _ _). vm_compute. exact I. }
    intros i m a b Hm Ha Hb. specialize (Hall i m Hm). cbn in Hall. rewrite Ha, Hb in Hall.
    rewrite !andb_true_iff, !negb_true_iff, !Z.eqb_neq in Hall. tauto.
Defined.

Lemma numbered_match_keeps_old_mat_witness :
  mt_mat_no sample_semifinal = or_id None (Some 1).
Proof.
  assert (H3 : db_matches sample_run !! 3 = Some sample_semifinal) by (vm_compute; reflexivity).
  assert (H0 : db_matches (sample_draws one_mat) !! 3 = Some (sample_pair 1 0))
    by (vm_compute; reflexivity).
  refine (numbered_match_keeps_old_mat (sample_draws one_mat) 5 [1; 2] _ _ 1 3 (sample_pair 1 0)
    sample_semifinal _ sample_run_ok H0 (sample_fought (sample_pair 1 0) (or_introl eq_refl)) H3 _);
    [|discriminate].
  split; refine (bool_decide_unpack _ _); vm_compute; exact I.
Defined.
