(* ===== verification/Points.v ===== *)
(** Ranking points: the arithmetic the code does on its [FloatField] columns, as an
    interface, with an exact instance (hundredths of a point) and the binary64
    instance the program really computes with. *)

From Stdlib Require Import SpecFloat.
From S2P Require Import Prelude.
Local Open Scope Z_scope.

(** What the ranking code uses: literals of at most two decimals, [F(x) + p],
    negation, [round(p * q, 2)] and the truth value of a float. *)
Class PointArith (P : Type) := {
  pt_lit : Z → P;                 (* the literal [n / 100] *)
  pt_add : P → P → P;
  pt_neg : P → P;
  pt_mul_round2 : P → P → P;      (* [round(p * q, 2)] *)
  pt_truthy : P → bool;
}.

Definition pt_zero {P} `{PointArith P} : P := pt_lit 0.
Definition pt_sub {P} `{PointArith P} (x y : P) : P := pt_add x (pt_neg y).
Definition pt_sum {P} `{PointArith P} (l : list P) : P := foldl pt_add pt_zero l.

(** The laws of exact points. *)
Class PointLaws (P : Type) `{PointArith P} := {
  pt_add_assoc :: Assoc (=) (pt_add (P := P));
  pt_add_comm :: Comm (=) (pt_add (P := P));
  pt_add_zero_l :: LeftId (=) pt_zero (pt_add (P := P));
  pt_add_neg_r : ∀ x : P, pt_add x (pt_neg x) = pt_zero;
  pt_not_truthy : ∀ x : P, pt_truthy x = false → x = pt_zero;
}.

(** [round] to the nearest integer of [a / b], ties to even, for [0 < b]. *)
Definition div_half_even (a b : Z) : Z :=
  let q := a / b in let r := a mod b in
  if 2 * r <? b then q
  else if b <? 2 * r then q + 1
  else if Z.even q then q else q + 1.

(** ** Exact points: hundredths *)

#[export] Instance exact_points : PointArith Z := {
  pt_lit n := n;
  pt_add := Z.add;
  pt_neg := Z.opp;
  pt_mul_round2 a b := div_half_even (a * b) 100;
  pt_truthy n := negb (n =? 0);
}.

#[export] Instance exact_laws : PointLaws Z.
Proof.
  split; cbn.
  - intros x y z. lia.
  - intros x y. lia.
  - intros x. unfold pt_zero. cbn. lia.
  - intros x. unfold pt_zero. cbn. lia.
  - intros x Hx. apply negb_false_iff, Z.eqb_eq in Hx. done.
Qed.

(** ** Binary64 *)

Definition b64_of_Z (z : Z) : spec_float :=
  binary_normalize 53 1024 z 0 false.

Definition b64_lit (n : Z) : spec_float := SFdiv 53 1024 (b64_of_Z n) (b64_of_Z 100).

(** [round(x, 2)]: the exact binary value rounded to two decimals, ties to even,
    and the decimal read back as a double. *)
Definition b64_round2 (x : spec_float) : spec_float :=
  match x with
  | S754_finite s m e =>
      let v := if s then Z.neg m else Z.pos m in
      let n := if 0 <=? e then v * 2 ^ e * 100 else div_half_even (v * 100) (2 ^ (- e)) in
      if n =? 0 then S754_zero s else b64_lit n
  | _ => x
  end.

#[export] Instance binary64_points : PointArith spec_float := {
  pt_lit n := b64_lit n;
  pt_add := SFadd 53 1024;
  pt_neg := SFopp;
  pt_mul_round2 a b := b64_round2 (SFmul 53 1024 a b);
  pt_truthy x := negb (SFeqb x (S754_zero false));
}.

(** The shares the code computes, [round(3.0 * 0.30, 2)] and so on, are the doubles
    nearest to their decimal values. *)
Example b64_shares :
  ((λ n, (b64_round2 (SFmul 53 1024 (b64_lit n) (b64_lit 30)),
          b64_round2 (SFmul 53 1024 (b64_lit n) (b64_lit 20)))) <$> [300; 200; 100])
  = [(b64_lit 90, b64_lit 60); (b64_lit 60, b64_lit 40); (b64_lit 30, b64_lit 20)].
Proof. vm_compute. reflexivity. Qed.

(** ** Consequences of the laws *)

Section laws.
Context {P} `{PointLaws P}.
Implicit Types x y z : P.

Lemma pt_add_zero_r x : pt_add x pt_zero = x.
Proof. by rewrite (comm_L pt_add), (left_id_L pt_zero pt_add). Qed.

Lemma pt_add_cancel_l x y z : pt_add x y = pt_add x z → y = z.
Proof.
  intros He. apply (f_equal (pt_add (pt_neg x))) in He. rewrite !(assoc_L pt_add) in He.
  rewrite (comm_L pt_add (pt_neg x) x), pt_add_neg_r in He.
  by rewrite !(left_id_L pt_zero pt_add) in He.
Qed.

Lemma pt_add_cancel_r x y z : pt_add y x = pt_add z x → y = z.
Proof. rewrite !(comm_L pt_add _ x). apply pt_add_cancel_l. Qed.

Lemma pt_sub_add x y : pt_add (pt_sub x y) y = x.
Proof.
  unfold pt_sub. rewrite <- (assoc_L pt_add), (comm_L pt_add (pt_neg y)), pt_add_neg_r.
  apply pt_add_zero_r.
Qed.

Lemma pt_sub_zero x : pt_sub x pt_zero = x.
Proof. apply (pt_add_cancel_r pt_zero). by rewrite pt_sub_add, pt_add_zero_r. Qed.

Lemma pt_neg_zero : pt_neg pt_zero = pt_zero (P := P).
Proof. rewrite <- (pt_add_neg_r pt_zero) at 2. by rewrite (left_id_L pt_zero pt_add). Qed.

Lemma pt_sum_from (l : list P) : ∀ x, foldl pt_add x l = pt_add x (pt_sum l).
Proof.
  unfold pt_sum. induction l as [|y l IH]; intros x; cbn; [by rewrite pt_add_zero_r|].
  rewrite IH, (IH (pt_add pt_zero y)). by rewrite (left_id_L pt_zero pt_add), (assoc_L pt_add).
Qed.

Lemma pt_sum_cons x l : pt_sum (x :: l) = pt_add x (pt_sum l).
Proof. unfold pt_sum at 1. cbn. by rewrite pt_sum_from, (left_id_L pt_zero pt_add). Qed.

Lemma pt_sum_app l1 l2 : pt_sum (l1 ++ l2) = pt_add (pt_sum l1) (pt_sum l2).
Proof. unfold pt_sum at 1. rewrite foldl_app. apply pt_sum_from. Qed.

Lemma pt_sum_perm l1 l2 : l1 ≡ₚ l2 → pt_sum l1 = pt_sum l2.
Proof.
  induction 1 as [|x l1 l2 _ IH|x y l|l1 l2 l3 _ IH1 _ IH2]; [done| | |congruence].
  - by rewrite !pt_sum_cons, IH.
  - rewrite !pt_sum_cons, !(assoc_L pt_add). by rewrite (comm_L pt_add x y).
Qed.
End laws.
