(* ===== verification/Ranking.v ===== *)
(** Ranking points: [_award_points_after_payment], [Enrollment.mark_paid],
    [KyorugiResult] and its ledger in [competitions/models.py], the signal of
    [competitions/signals.py], [competitions/services/results_service.py] and the
    view of [competitions/admin.py] that calls it.

    The totals are columns of the profile, club and board tables; every change to
    them goes through [post], the [QuerySet.update] of the code. *)

From S2P Require Import Prelude Store Points.
Local Open Scope Z_scope.

Section ranking.
Context {P : Type} `{PointArith P}.
Local Abbreviation db := (DB P).

(** ** Updates of the totals *)

Definition add_profile_total (p : P) (u : UserProfile P) : UserProfile P :=
  set_up_ranking_total (pt_add (up_ranking_total u) p) u.
Definition add_profile_competition (p : P) (u : UserProfile P) : UserProfile P :=
  set_up_ranking_competition (pt_add (up_ranking_competition u) p) u.
Definition add_club_total (p : P) (c : TkdClub P) : TkdClub P :=
  set_cl_ranking_total (pt_add (cl_ranking_total c) p) c.
Definition add_board_total (p : P) (b : TkdBoard P) : TkdBoard P :=
  set_bo_ranking_total (pt_add (bo_ranking_total b) p) b.

(** [Model.objects.filter(pk=k).update(..=F(..) + p)] for a subject of each kind;
    a player's points count in both of the profile's columns. *)
Definition post (s : subject) (k : Z) (p : P) (d : db) : db :=
  match s with
  | SUBJECT_PLAYER =>
      set_db_profiles (alter (λ u, add_profile_total p (add_profile_competition p u)) k (db_profiles d)) d
  | SUBJECT_COACH => set_db_profiles (alter (add_profile_total p) k (db_profiles d)) d
  | SUBJECT_CLUB => set_db_clubs (alter (add_club_total p) k (db_clubs d)) d
  | SUBJECT_BOARD => set_db_boards (alter (add_board_total p) k (db_boards d)) d
  end.

(** ** Fetching related rows *)

Definition fetch {A} (table : db → gmap Z A) (k : Z) : M db A :=
  (d <~ get ;; of_option (table d !! k) DoesNotExist)%monad.

(** A nullable foreign key: [None], or the row it points to with its key. *)
Definition fetch_opt {A} (table : db → gmap Z A) (o : option Z) : M db (option (Z * A)) :=
  match o with
  | None => ret None
  | Some k => (x <~ fetch table k ;; ret (Some (k, x)))%monad
  end.

(** [x or (fetch .. if .. else None)] *)
Definition or_fetch {A B} (x : option B) (table : db → gmap Z A) (o : option Z)
    (f : Z * A → B) : M db (option B) :=
  match x with
  | Some _ => ret x
  | None => if truthy_id o then (y <~ fetch_opt table o ;; ret (f <$> y))%monad else ret None
  end.

(** ** Awards for a paid enrollment *)

(** [str.strip] on the ASCII white space. *)
Definition is_space (c : Ascii.ascii) : bool :=
  let n := Ascii.nat_of_ascii c in
  ((9 <=? n) && (n <=? 13) || (28 <=? n) && (n <=? 32))%nat.

Fixpoint lstrip (s : string) : string :=
  match s with
  | String c s' => if is_space c then lstrip s' else s
  | EmptyString => s
  end.

Fixpoint rstrip (s : string) : string :=
  match s with
  | String c s' =>
      let r := rstrip s' in
      if String.eqb r "" && is_space c then EmptyString else String c r
  | EmptyString => s
  end.

Definition strip (s : string) : string := rstrip (lstrip s).

Definition full_name (u : UserProfile P) : string :=
  strip (up_first_name u ++ " " ++ up_last_name u).

Definition award_of (player : Z * UserProfile P) (coach : option (Z * UserProfile P))
    (club : option (Z * TkdClub P)) (board : option (Z * TkdBoard P)) : RankingAward P :=
  mkRankingAward (Some player.1) (fst <$> coach) (fst <$> club) (fst <$> board)
    (full_name player.2) (default "" ((λ c, full_name c.2) <$> coach))
    (default "" ((λ c, cl_club_name c.2) <$> club)) (default "" ((λ b, bo_name b.2) <$> board))
    (pt_lit 100) (if is_none coach then pt_zero else pt_lit 75)
    (if is_none club then pt_zero else pt_lit 50) (if is_none board then pt_zero else pt_lit 50).

Definition post_opt (s : subject) (o : option Z) (p : P) (d : db) : db :=
  match o with Some k => post s k p d | None => d end.

(** The new award row and the updates of the totals that follow its creation. *)
Definition grant (e : Z) (aw : RankingAward P) (d : db) : db :=
  let d := set_db_awards (<[e := aw]> (db_awards d)) d in
  let d := post_opt SUBJECT_PLAYER (aw_player aw) (aw_points_player aw) d in
  let d := post_opt SUBJECT_COACH (aw_coach aw) (aw_points_coach aw) d in
  let d := post_opt SUBJECT_CLUB (aw_club aw) (aw_points_club aw) d in
  post_opt SUBJECT_BOARD (aw_board aw) (aw_points_board aw) d.

(** [e] is the key of the enrollment instance [en]. *)
Definition _award_points_after_payment (e : Z) (en : Enrollment) : M db unit :=
  (player <~ fetch db_profiles (en_player en) ;;
   coach0 <~ fetch_opt db_profiles (en_coach en) ;;
   coach <~ or_fetch coach0 db_profiles (up_coach player) id ;;
   club0 <~ fetch_opt db_clubs (en_club en) ;;
   club <~ or_fetch club0 db_clubs (up_club player) id ;;
   board0 <~ fetch_opt db_boards (en_board en) ;;
   board1 <~ match club with
             | Some c => or_fetch board0 db_boards (cl_tkd_board c.2) id
             | None => ret board0
             end ;;
   board <~ or_fetch board1 db_boards (up_tkd_board player) id ;;
   d <~ get ;;
   match db_awards d !! e with
   | Some _ => ret tt
   | None => modify (grant e (award_of (en_player en, player) coach club board))
   end)%monad.

(** [post_save] of an enrollment: queue the award until the transaction commits. *)
Definition award_on_manual_paid (e : Z) (en : Enrollment) : M db unit := λ d,
  if en_is_paid en && is_none (db_awards d !! e)
  then (Ok tt, set_db_on_commit (db_on_commit d ++ [(e, en)]) d)
  else (Ok tt, d).

(** [enrollment.save()] with its signal. *)
Definition save_enrollment (e : Z) (en : Enrollment) : M db unit :=
  (_ <~ modify (λ d, set_db_enrollments (<[e := en]> (db_enrollments d)) d) ;;
   award_on_manual_paid e en)%monad.

(** The end of the outermost transaction runs the queued callbacks. *)
Definition run_on_commit : M db unit :=
  (d <~ get ;;
   _ <~ put (set_db_on_commit [] d) ;;
   forM (db_on_commit d) (λ q, _award_points_after_payment q.1 q.2))%monad.

(** [Enrollment.mark_paid] at time [now]. *)
Definition mark_paid (e : Z) (amount : Z) (ref_code : string) (now : Z) : M db unit :=
  atomic (
    current <~ fetch db_enrollments e ;;
    if en_is_paid current then ret tt
    else
      let c1 := set_en_paid_amount amount (set_en_is_paid true current) in
      let c2 := if truthy_str ref_code then set_en_bank_ref_code ref_code c1 else c1 in
      let c3 := set_en_paid_at (Some now) c2 in
      let c4 := if bool_decide (en_status c3 ∈ ["pending_payment"; "canceled"; ""])
                then set_en_status "paid" c3 else c3 in
      _ <~ save_enrollment e c4 ;;
      _award_points_after_payment e c4)%monad.

(** ** Results of a weight *)

Definition medal_ids (r : KyorugiResult) : list Z :=
  option_list (re_gold r) ++ option_list (re_silver r)
  ++ option_list (re_bronze1 r) ++ option_list (re_bronze2 r).

(** [KyorugiResult.clean] on the fetched enrollments. *)
Definition clean_ok (r : KyorugiResult) (ens : list (Z * Enrollment)) : bool :=
  bool_decide (NoDup ens.*1)
  && forallb (λ en, (en_competition en.2 =? re_competition r)
                    && bool_decide (en_weight_category en.2 = Some (re_weight_category r))) ens.

(** [validate_unique] for [unique_together = (competition, weight_category)]. *)
Definition unique_ok (pk : option Z) (r : KyorugiResult) (d : db) : bool :=
  negb (existsb (λ kr, negb (bool_decide (Some kr.1 = pk))
                       && (re_competition kr.2 =? re_competition r)
                       && (re_weight_category kr.2 =? re_weight_category r))
          (map_to_list (db_results d))).

(** [full_clean]: the fields, then [clean], then uniqueness. A medal pointing to a
    missing enrollment raises [DoesNotExist] inside [clean]. *)
Definition full_clean (pk : option Z) (r : KyorugiResult) : M db unit :=
  (ens <~ mapM (λ e, en <~ fetch db_enrollments e ;; ret (e, en)) (medal_ids r) ;;
   d <~ get ;;
   if negb (is_none (db_competitions d !! re_competition r))
      && negb (is_none (db_weights d !! re_weight_category r))
      && clean_ok r ens && unique_ok pk r d
   then ret tt else raise ValidationError)%monad.

Definition result_txs (d : db) (result : Z) : list (RankingTransaction P) :=
  List.filter (λ tx, tx_result tx =? result) (db_transactions d).

Definition delete_txs (result : Z) (d : db) : db :=
  set_db_transactions (List.filter (λ tx, negb (tx_result tx =? result)) (db_transactions d)) d.

Definition rollback_tx (tx : RankingTransaction P) : M db unit :=
  if pt_truthy (tx_points tx)
  then modify (post (tx_subject_type tx) (tx_subject_id tx) (pt_neg (tx_points tx)))
  else ret tt.

Definition _rollback_result_points (result : Z) : M db unit :=
  (d <~ get ;;
   let txs := result_txs d result in
   if bool_decide (length txs = 0%nat) then ret tt
   else
     _ <~ forM txs rollback_tx ;;
     modify (delete_txs result))%monad.

Definition medal_map (r : KyorugiResult) : list (string * option Z * P) :=
  [("gold", re_gold r, pt_lit 300); ("silver", re_silver r, pt_lit 200);
   ("bronze", re_bronze1 r, pt_lit 100); ("bronze", re_bronze2 r, pt_lit 100)].

(** The ledger rows of one medal: the player's, and those of the coach, club and
    board that are there and get points. *)
Definition medal_txs (result : Z) (r : KyorugiResult) (medal : string) (p : P)
    (en : Enrollment) : list (RankingTransaction P) :=
  let share s (o : option Z) pct :=
    match o with
    | Some k =>
        let pts := pt_mul_round2 p (pt_lit pct) in
        if pt_truthy pts then [mkRankingTransaction (re_competition r) result s k medal pts] else []
    | None => []
    end in
  mkRankingTransaction (re_competition r) result SUBJECT_PLAYER (en_player en) medal p
  :: share SUBJECT_COACH (en_coach en) 30
  ++ share SUBJECT_CLUB (en_club en) 20
  ++ share SUBJECT_BOARD (en_board en) 20.

Definition post_tx (tx : RankingTransaction P) : M db unit :=
  modify (post (tx_subject_type tx) (tx_subject_id tx) (tx_points tx)).

(** One pass of the loop; the rows it adds to [tx_bulk]. *)
Definition apply_medal (result : Z) (r : KyorugiResult) (row : string * option Z * P)
    : M db (list (RankingTransaction P)) :=
  match row.1.2 with
  | None => ret []
  | Some e =>
      (en <~ fetch db_enrollments e ;;
       _ <~ fetch db_profiles (en_player en) ;;
       _ <~ fetch_opt db_profiles (en_coach en) ;;
       _ <~ fetch_opt db_clubs (en_club en) ;;
       _ <~ fetch_opt db_boards (en_board en) ;;
       let txs := medal_txs result r row.1.1 row.2 en in
       _ <~ forM txs post_tx ;;
       ret txs)%monad
  end.

Definition bulk_create_txs (txs : list (RankingTransaction P)) (d : db) : db :=
  set_db_transactions (db_transactions d ++ txs) d.

Definition _apply_result_points (result : Z) (r : KyorugiResult) : M db unit :=
  (txss <~ mapM (apply_medal result r) (medal_map r) ;;
   modify (bulk_create_txs (mjoin txss)))%monad.

(** [KyorugiResult.save]: [pk] is [None] for a new row. *)
Definition save_result (pk : option Z) (r : KyorugiResult) : M db Z :=
  atomic (
    _ <~ full_clean pk r ;;
    k <~ match pk with Some k => ret k | None => fresh_id end ;;
    _ <~ modify (λ d, set_db_results (<[k := r]> (db_results d)) d) ;;
    _ <~ _rollback_result_points k ;;
    _ <~ _apply_result_points k r ;;
    ret k)%monad.

(** Deleting a result (the model admin): its ledger rows go with it. *)
Definition delete_result (k : Z) (d : db) : db :=
  delete_txs k (set_db_results (delete k (db_results d)) d).

(** ** The results service *)

Definition PLAYER_POINTS (place : Z) : Z :=
  if place =? 1 then 700 else if place =? 2 then 300 else 100.
Definition COACH_POINTS (medal : string) : Z :=
  if String.eqb medal "gold" then 100 else if String.eqb medal "silver" then 75 else 50.
Definition ORG_POINTS (medal : string) : Z :=
  if String.eqb medal "gold" then 75 else if String.eqb medal "silver" then 50 else 25.

Definition _medal_of_place (place : Z) : string :=
  if place =? 1 then "gold" else if place =? 2 then "silver" else "bronze".

(** A player's points count in [ranking_competition] only. *)
Definition _apply_points (s : subject) (k : Z) (delta : P) (d : db) : db :=
  if (k =? 0) || negb (pt_truthy delta) then d
  else
    match s with
    | SUBJECT_PLAYER =>
        set_db_profiles (alter (add_profile_competition delta) k (db_profiles d)) d
    | SUBJECT_COACH => set_db_profiles (alter (add_profile_total delta) k (db_profiles d)) d
    | SUBJECT_CLUB => set_db_clubs (alter (add_club_total delta) k (db_clubs d)) d
    | SUBJECT_BOARD => set_db_boards (alter (add_board_total delta) k (db_boards d)) d
    end.

(** The new counter: a decrement stops at zero. *)
Definition bump (delta n : Z) : Z :=
  if delta <? 0 then (if n <=? Z.abs delta then 0 else n + delta) else n + delta.

Definition is_medal (medal : string) : bool := bool_decide (medal ∈ ["gold"; "silver"; "bronze"]).

Definition bump_profile_medal (medal : string) (delta : Z) (u : UserProfile P) : UserProfile P :=
  if String.eqb medal "gold" then set_up_gold_medals (bump delta (up_gold_medals u)) u
  else if String.eqb medal "silver" then set_up_silver_medals (bump delta (up_silver_medals u)) u
  else set_up_bronze_medals (bump delta (up_bronze_medals u)) u.

Definition bump_club_medal (medal : string) (delta : Z) (c : TkdClub P) : TkdClub P :=
  if String.eqb medal "gold" then set_cl_gold_medals (bump delta (cl_gold_medals c)) c
  else if String.eqb medal "silver" then set_cl_silver_medals (bump delta (cl_silver_medals c)) c
  else set_cl_bronze_medals (bump delta (cl_bronze_medals c)) c.

Definition _medal_counter_update (s : subject) (k : Z) (medal : string) (delta : Z) (d : db) : db :=
  if (k =? 0) || negb (is_medal medal) || (delta =? 0) then d
  else
    match s with
    | SUBJECT_PLAYER => set_db_profiles (alter (bump_profile_medal medal delta) k (db_profiles d)) d
    | SUBJECT_CLUB => set_db_clubs (alter (bump_club_medal medal delta) k (db_clubs d)) d
    | _ => d
    end.

(** [.values("subject_type", "subject_id").annotate(total=Sum("points"))] *)
Definition point_groups (txs : list (RankingTransaction P)) : list (subject * Z * P) :=
  (λ g, (g, pt_sum (tx_points <$>
           List.filter (λ tx, bool_decide ((tx_subject_type tx, tx_subject_id tx) = g)) txs)))
    <$> remove_dups ((λ tx, (tx_subject_type tx, tx_subject_id tx)) <$> txs).

(** [.values("subject_type", "subject_id", "medal").annotate(cnt=Count("id"))] *)
Definition medal_groups (txs : list (RankingTransaction P)) : list (subject * Z * string * Z) :=
  (λ g, (g, zlen (List.filter (λ tx,
           bool_decide ((tx_subject_type tx, tx_subject_id tx, tx_medal tx) = g)) txs)))
    <$> remove_dups ((λ tx, (tx_subject_type tx, tx_subject_id tx, tx_medal tx)) <$> txs).

Definition apply_groups (sign : P → P) (dir : Z) (txs : list (RankingTransaction P)) (d : db) : db :=
  foldl (λ d g, if is_medal g.1.2
                then _medal_counter_update g.1.1.1 g.1.1.2 g.1.2 (dir * g.2) d else d)
    (foldl (λ d g, _apply_points g.1.1 g.1.2 (sign g.2) d) d (point_groups txs))
    (medal_groups txs).

Definition service_txs (result : Z) (r : KyorugiResult) (place : Z) (en : Enrollment)
    : list (RankingTransaction P) :=
  let medal := _medal_of_place place in
  let row s k n := mkRankingTransaction (re_competition r) result s k medal (pt_lit n) in
  let opt s (o : option Z) n :=
    match o with Some k => if k =? 0 then [] else [row s k n] | None => [] end in
  row SUBJECT_PLAYER (en_player en) (PLAYER_POINTS place)
  :: opt SUBJECT_COACH (en_coach en) (COACH_POINTS medal)
  ++ opt SUBJECT_CLUB (en_club en) (ORG_POINTS medal)
  ++ opt SUBJECT_BOARD (en_board en) (ORG_POINTS medal).

Definition _award_transactions_for_enrollment (result : Z) (r : KyorugiResult) (e place : Z)
    : M db unit :=
  (en <~ fetch db_enrollments e ;;
   _ <~ modify (bulk_create_txs (service_txs result r place en)) ;;
   let medal := _medal_of_place place in
   if String.eqb (en_medal en) medal then ret tt
   else save_enrollment e (set_en_medal medal en))%monad.

(** What the caller passes: a result instance, or an integer. *)
Inductive result_arg := ResultObj (k : Z) (r : KyorugiResult) | ResultId (k : Z).

Definition arg_pk (a : result_arg) : Z :=
  match a with ResultObj k _ | ResultId k => k end.

Definition service_mapping (r : KyorugiResult) : list (option Z * Z) :=
  [(re_gold r, 1); (re_silver r, 2); (re_bronze1 r, 3); (re_bronze2 r, 3)].

Definition apply_results_and_points (a : result_arg) : M db unit :=
  atomic (
    d <~ get ;;
    let prev := result_txs d (arg_pk a) in
    _ <~ modify (apply_groups pt_neg (-1) prev) ;;
    _ <~ modify (delete_txs (arg_pk a)) ;;
    match a with
    | ResultId _ => raise AttributeError
    | ResultObj k r =>
        _ <~ forM (service_mapping r) (λ ep,
               match ep.1 with
               | Some e => _award_transactions_for_enrollment k r e ep.2
               | None => ret tt
               end) ;;
        d' <~ get ;;
        modify (apply_groups id 1 (result_txs d' k))
    end)%monad.

(** ** The results page of the admin *)

Record result_form := mkResultForm {
  rf_competition : Z;
  rf_weight_category : Z;
  rf_gold : option Z;
  rf_silver : option Z;
  rf_bronze1 : option Z;
  rf_bronze2 : option Z;
  rf_notes : string;
}.

Definition find_result (d : db) (comp wc : Z) : option (Z * KyorugiResult) :=
  head (List.filter (λ kr, (re_competition kr.2 =? comp) && (re_weight_category kr.2 =? wc))
         (rows_by_id (db_results d))).

(** A POST whose form is valid, by [user]. *)
Definition kyorugi_results_view (f : result_form) (user : Z) : M db unit :=
  atomic (
    d <~ get ;;
    kr <~ match find_result d (rf_competition f) (rf_weight_category f) with
          | Some kr => ret kr
          | None =>
              let r := mkKyorugiResult (rf_competition f) (rf_weight_category f)
                         None None None None "" (Some user) in
              k <~ save_result None r ;; ret (k, r)
          end ;;
    let r := mkKyorugiResult (re_competition kr.2) (re_weight_category kr.2)
               (rf_gold f) (rf_silver f) (rf_bronze1 f) (rf_bronze2 f) (rf_notes f)
               (re_created_by kr.2) in
    k <~ save_result (Some kr.1) r ;;
    apply_results_and_points (ResultId k))%monad.
End ranking.

(** ** Reading *)

Section reading.
Context {P : Type} `{PointArith P}.
Implicit Types d : DB P.

(** A computation that only reads. *)
Definition reads {A} (m : M (DB P) A) : Prop := ∀ d, (m d).2 = d.

Lemma reads_ret {A} (x : A) : reads (ret x).
Proof. done. Qed.

Lemma reads_raise {A} e : reads (raise (A := A) e).
Proof. done. Qed.

Lemma reads_get : reads get.
Proof. done. Qed.

Lemma reads_bind {A B} (m : M (DB P) A) (k : A → M (DB P) B) :
  reads m → (∀ x, reads (k x)) → reads (bind m k).
Proof.
  intros Hm Hk d. unfold bind. pose proof (Hm d) as Hd. destruct (m d) as [[x|e] d1]; cbn in *.
  - by rewrite Hk.
  - done.
Qed.

Lemma reads_fetch {A} (t : DB P → gmap Z A) k : reads (fetch t k).
Proof. intros d. unfold fetch, bind, get. by destruct (t d !! k). Qed.

Lemma reads_fetch_opt {A} (t : DB P → gmap Z A) o : reads (fetch_opt t o).
Proof. destruct o; [apply reads_bind; [apply reads_fetch|done]|apply reads_ret]. Qed.

Lemma reads_or_fetch {A B} (x : option B) (t : DB P → gmap Z A) o f : reads (or_fetch x t o f).
Proof.
  destruct x; [apply reads_ret|]. cbn. destruct (truthy_id o); [|apply reads_ret].
  apply reads_bind; [apply reads_fetch_opt|done].
Qed.

Lemma reads_mapM {A B} (f : A → M (DB P) B) l : (∀ x, reads (f x)) → reads (mapM f l).
Proof.
  intros Hf. induction l as [|x l IH]; [apply reads_ret|].
  apply reads_bind; [done|]. intros y. by apply reads_bind.
Qed.

Lemma reads_full_clean pk r : reads (full_clean (P := P) pk r).
Proof.
  apply reads_bind.
  - apply reads_mapM. intros e. apply reads_bind; [apply reads_fetch|done].
  - intros ens. apply reads_bind; [apply reads_get|]. intros d. by destruct (_ && _).
Qed.

(** A reading step that succeeds leaves the state to the rest; one that fails ends
    the computation in the state it started from. *)
Lemma reads_step {A B} (m : M (DB P) A) (k : A → M (DB P) B) d : reads m →
  (∃ e, m d = (Err e, d) ∧ bind m k d = (Err e, d)) ∨ (∃ x, m d = (Ok x, d) ∧ bind m k d = k x d).
Proof.
  intros Hm. pose proof (Hm d) as Hd. unfold bind. destruct (m d) as [[x|e] d1]; cbn in Hd; subst d1.
  - right. by exists x.
  - left. by exists e.
Qed.
End reading.

#[export] Hint Resolve reads_ret reads_raise reads_get reads_fetch reads_fetch_opt reads_or_fetch
  reads_full_clean : reads.

(** Take one reading step of the computation in the goal. *)
Ltac read_step x Hx :=
  match goal with
  | |- context [bind ?m ?k ?d] =>
      let Hr := fresh in
      assert (Hr : reads m); [auto with reads|
        destruct (reads_step m k d Hr) as [(? & _ & ->)|(x & Hx & ->)]; [by eauto|]; clear Hr]
  end.
