(* ===== verification/Ledger.v ===== *)
(** The books of the ranking: every total is its base plus the points on record in
    the award and transaction tables, and awards, results and their corrections
    keep it so. *)

From Stdlib Require Import SpecFloat.
From S2P Require Import Prelude Store Points Ranking.
Local Open Scope Z_scope.

(** ** Accounts *)

(** The columns that hold points. *)
Inductive account :=
  | AcCompetition (profile : Z)
  | AcProfile (profile : Z)
  | AcClub (club : Z)
  | AcBoard (board : Z).

#[export] Instance account_eq_dec : EqDecision account.
Proof. solve_decision. Defined.

(** The accounts a posting to a subject reaches. *)
Definition reaches (s : subject) (k : Z) (a : account) : bool :=
  match s, a with
  | SUBJECT_PLAYER, (AcCompetition k' | AcProfile k') => k =? k'
  | SUBJECT_COACH, AcProfile k' => k =? k'
  | SUBJECT_CLUB, AcClub k' => k =? k'
  | SUBJECT_BOARD, AcBoard k' => k =? k'
  | _, _ => false
  end.

Section ledger.
Context {P : Type} `{PointArith P}.
Implicit Types (d : DB P) (a : account).

Definition balance d a : option P :=
  match a with
  | AcCompetition k => up_ranking_competition <$> db_profiles d !! k
  | AcProfile k => up_ranking_total <$> db_profiles d !! k
  | AcClub k => cl_ranking_total <$> db_clubs d !! k
  | AcBoard k => bo_ranking_total <$> db_boards d !! k
  end.

(** A posting and what it is worth to an account. *)
Definition posting : Type := subject * Z * P.

Definition worth a (p : posting) : P := if reaches p.1.1 p.1.2 a then p.2 else pt_zero.

Definition total a (ps : list posting) : P := pt_sum (worth a <$> ps).

Definition tx_posting (tx : RankingTransaction P) : posting :=
  (tx_subject_type tx, tx_subject_id tx, tx_points tx).

Definition opt_posting (s : subject) (o : option Z) (p : P) : list posting :=
  match o with Some k => [(s, k, p)] | None => [] end.

Definition award_postings (aw : RankingAward P) : list posting :=
  opt_posting SUBJECT_PLAYER (aw_player aw) (aw_points_player aw)
  ++ opt_posting SUBJECT_COACH (aw_coach aw) (aw_points_coach aw)
  ++ opt_posting SUBJECT_CLUB (aw_club aw) (aw_points_club aw)
  ++ opt_posting SUBJECT_BOARD (aw_board aw) (aw_points_board aw).

(** Everything on record. *)
Definition on_record d : list posting :=
  (tx_posting <$> db_transactions d)
  ++ ((map_to_list (db_awards d)).*2 ≫= award_postings).

(** Every total is its base plus what is on record. *)
Definition books_balance (base : account → P) d : Prop :=
  ∀ a b, balance d a = Some b → b = pt_add (base a) (total a (on_record d)).

Definition run_postings (ps : list posting) d : DB P :=
  foldl (λ d p, post p.1.1 p.1.2 p.2 d) d ps.

(** What postings add to an account, one after the other in the arithmetic of the columns. *)
Definition deltas a (ps : list posting) : list P :=
  omap (λ p, if reaches p.1.1 p.1.2 a then Some p.2 else None) ps.

Definition credited a (ps : list posting) (b : P) : P := foldl pt_add b (deltas a ps).

Definition neg_posting (p : posting) : posting := (p.1, pt_neg p.2).

(** What takes postings back: their negations, but nothing for points of value zero. *)
Definition reversals (ps : list posting) : list posting :=
  neg_posting <$> List.filter (λ p, pt_truthy p.2) ps.

(** From [d] to [d'] every total took the same journal of postings, which accounts for
    the change of the record: what is on record afterwards are the postings of before and
    of the journal, except those struck, and each of these has its reversal in the journal. *)
Definition journalled d d' : Prop := ∃ journal struck,
  on_record d ++ journal ≡ₚ on_record d' ++ struck ++ reversals struck ∧
  ∀ a, balance d' a = credited a journal <$> balance d a.

(** ** Postings *)

Lemma deltas_app a l1 l2 : deltas a (l1 ++ l2) = deltas a l1 ++ deltas a l2.
Proof. apply omap_app. Qed.

Lemma credited_app a l1 l2 b : credited a (l1 ++ l2) b = credited a l2 (credited a l1 b).
Proof. unfold credited. by rewrite deltas_app, foldl_app. Qed.

Lemma credited_post s k p d a : balance (post s k p d) a = credited a [(s, k, p)] <$> balance d a.
Proof.
  unfold credited, deltas. cbn. destruct (reaches s k a) eqn:Er; cbn.
  - destruct s, a; cbn in Er |- *; try done; apply Z.eqb_eq in Er as <-;
      rewrite lookup_alter_eq; by destruct (_ !! k).
  - assert (balance (post s k p d) a = balance d a) as ->; [|by destruct (balance d a)].
    destruct s, a; cbn in Er |- *; try done;
      first [ apply Z.eqb_neq in Er; by rewrite lookup_alter_ne
            | destruct (decide (k = profile)) as [->|Hne];
              [rewrite lookup_alter_eq; by destruct (_ !! profile)|by rewrite lookup_alter_ne] ].
Qed.

Lemma credited_run ps : ∀ d a, balance (run_postings ps d) a = credited a ps <$> balance d a.
Proof.
  unfold run_postings. induction ps as [|[[s k] p] ps IH]; intros d a.
  - cbn [foldl]. by destruct (balance d a).
  - cbn [foldl fst snd]. rewrite IH, credited_post.
    destruct (balance d a) as [b|]; [|done]. unfold fmap, option_fmap, option_map. f_equal. symmetry.
    apply (credited_app a [(s, k, p)] ps b).
Qed.

Lemma reversals_app l1 l2 : reversals (l1 ++ l2) = reversals l1 ++ reversals l2.
Proof. unfold reversals. by rewrite List.filter_app, fmap_app. Qed.

#[export] Instance journalled_preorder : PreOrder journalled.
Proof.
  split.
  - intros d. exists [], []. split; [done|]. intros a. by destruct (balance d a).
  - intros d1 d2 d3 (j1 & s1 & P1 & B1) (j2 & s2 & P2 & B2). exists (j1 ++ j2), (s2 ++ s1). split.
    + rewrite (assoc_L (++)), P1, reversals_app, <- (assoc_L (++)).
      rewrite (Permutation_app_comm (s1 ++ _)), (assoc_L (++)), P2.
      rewrite <- !(assoc_L (++)). do 2 apply Permutation_app_head.
      rewrite !(assoc_L (++)). apply Permutation_app_tail. apply Permutation_app_comm.
    + intros a. rewrite B2, B1. destruct (balance d1 a); cbn; [|done]. by rewrite credited_app.
Qed.

(** Postings leave the record and every other table alone. *)
Definition not_totals d := (db_transactions d, db_awards d, db_enrollments d, db_results d,
  db_competitions d, db_weights d, db_on_commit d, db_next_id d).

Lemma not_totals_post s k p d : not_totals (post s k p d) = not_totals d.
Proof. by destruct s. Qed.

Lemma not_totals_run ps : ∀ d, not_totals (run_postings ps d) = not_totals d.
Proof.
  induction ps as [|p ps IH]; intros d; [done|].
  unfold run_postings in *. cbn [foldl]. by rewrite IH, not_totals_post.
Qed.

Lemma on_record_not_totals d d' : not_totals d = not_totals d' → on_record d = on_record d'.
Proof. intros [= Ht Ha]. unfold on_record. by rewrite Ht, Ha. Qed.

(** Recording exactly what is posted, and striking from the record what is taken back. *)
Lemma journalled_posted ps d d' :
  (∀ a, balance d' a = balance (run_postings ps d) a) →
  on_record d' ≡ₚ on_record d ++ ps → journalled d d'.
Proof.
  intros Hb Hr. exists ps, []. split; [by rewrite Hr, app_nil_r|]. intros a. by rewrite Hb, credited_run.
Qed.

Lemma journalled_struck ps d d' :
  (∀ a, balance d' a = balance (run_postings (reversals ps) d) a) →
  on_record d ≡ₚ on_record d' ++ ps → journalled d d'.
Proof.
  intros Hb Hr. exists (reversals ps), ps. split; [by rewrite Hr, <- (assoc_L (++))|].
  intros a. by rewrite Hb, credited_run.
Qed.

Lemma journalled_same d d' : (∀ a, balance d' a = balance d a) → on_record d' = on_record d →
  journalled d d'.
Proof. intros Hb Hr. apply (journalled_posted []); [done|by rewrite Hr, app_nil_r]. Qed.
End ledger.

(** ** Exact points *)

Section exact.
Context {P : Type} `{PointLaws P}.
Implicit Types (d : DB P) (a : account).

Lemma total_app a l1 l2 : total a (l1 ++ l2) = pt_add (total a l1) (total a l2).
Proof. unfold total. by rewrite fmap_app, pt_sum_app. Qed.

Lemma total_perm a l1 l2 : l1 ≡ₚ l2 → total a l1 = total a l2.
Proof. intros Hp. unfold total. apply pt_sum_perm. by rewrite Hp. Qed.

Lemma total_cons a p l : total a (p :: l) = pt_add (worth a p) (total a l).
Proof. unfold total. by rewrite fmap_cons, pt_sum_cons. Qed.

Lemma credited_total a ps : ∀ b, credited a ps b = pt_add b (total a ps).
Proof.
  unfold credited. induction ps as [|p ps IH]; intros b.
  - change (total a []) with (pt_zero (P := P)). cbn. by rewrite pt_add_zero_r.
  - rewrite total_cons. unfold deltas, worth in *. cbn. destruct (reaches _ _ _); cbn; rewrite IH.
    + by rewrite (assoc_L pt_add).
    + by rewrite (left_id_L pt_zero pt_add).
Qed.

Lemma balance_run ps d a :
  balance (run_postings ps d) a = (λ b, pt_add b (total a ps)) <$> balance d a.
Proof. rewrite credited_run. destruct (balance d a); cbn; [by rewrite credited_total|done]. Qed.

Lemma worth_neg a p : pt_add (worth a p) (worth a (neg_posting p)) = pt_zero.
Proof. unfold worth. cbn. destruct (reaches _ _ a); [apply pt_add_neg_r|apply pt_add_zero_r]. Qed.

Lemma total_neg a (ps : list (posting (P := P))) :
  pt_add (total a ps) (total a (neg_posting <$> ps)) = pt_zero.
Proof.
  induction ps as [|p ps IH].
  { unfold total. cbn. change (pt_sum []) with (pt_zero (P := P)). apply pt_add_zero_r. }
  rewrite fmap_cons, !total_cons.
  rewrite <- (assoc_L pt_add), (assoc_L pt_add (total a ps)), (comm_L pt_add (total a ps)).
  rewrite <- (assoc_L pt_add (worth a (neg_posting _))), IH, pt_add_zero_r. apply worth_neg.
Qed.

Lemma total_reversals a (ps : list (posting (P := P))) :
  total a (reversals ps) = total a (neg_posting <$> ps).
Proof.
  induction ps as [|p ps IH]; [done|]. unfold reversals in *. cbn [List.filter].
  destruct (pt_truthy p.2) eqn:Et; rewrite !fmap_cons, !total_cons; [by rewrite IH|].
  rewrite IH. assert (worth a (neg_posting p) = pt_zero) as ->; [|by rewrite (left_id_L pt_zero pt_add)].
  unfold worth. cbn. apply pt_not_truthy in Et. destruct (reaches _ _ _); [|done].
  rewrite Et. apply pt_neg_zero.
Qed.

(** With exact points a journal keeps every total at its base plus what is on record. *)
Lemma exact_books base d d' : journalled d d' → books_balance base d → books_balance base d'.
Proof.
  intros (journal & struck & Hp & Hj) Hd a b Hbal. rewrite Hj in Hbal.
  destruct (balance d a) as [b0|] eqn:E; [|done]. injection Hbal as <-.
  rewrite credited_total, (Hd a b0 E), <- (assoc_L pt_add), <- total_app.
  rewrite (total_perm a _ _ Hp), !total_app, total_reversals, total_neg. by rewrite pt_add_zero_r.
Qed.
End exact.

(** ** Awards *)

Section awards.
Context {P : Type} `{PointArith P}.
Implicit Types (d : DB P).

Lemma grant_postings e aw d :
  grant e aw d = run_postings (award_postings aw) (set_db_awards (<[e := aw]> (db_awards d)) d).
Proof.
  unfold grant, award_postings, run_postings. rewrite !foldl_app.
  by destruct (aw_player aw), (aw_coach aw), (aw_club aw), (aw_board aw).
Qed.

(** What the award function does: nothing but fail on a dangling key, nothing when
    the enrollment has its award, and otherwise record one award and post it. *)
Lemma award_spec e en d :
  (∃ x, _award_points_after_payment e en d = (Err x, d)) ∨
  (is_Some (db_awards d !! e) ∧ _award_points_after_payment e en d = (Ok tt, d)) ∨
  (db_awards d !! e = None ∧ ∃ aw,
     aw_player aw = Some (en_player en) ∧ aw_points_player aw = pt_lit 100 ∧
     _award_points_after_payment e en d =
       (Ok tt, run_postings (award_postings aw) (set_db_awards (<[e := aw]> (db_awards d)) d))).
Proof.
  unfold _award_points_after_payment.
  read_step player Hp. read_step coach0 Hc0. read_step coach Hc. read_step club0 Hk0.
  read_step club Hk. read_step board0 Hb0.
  read_step board1 Hb1; [by destruct club; auto with reads|].
  read_step board Hb. read_step d0 Hd0. injection Hd0 as <-.
  destruct (db_awards d !! e) as [aw|] eqn:Ha; [by eauto|].
  right. right. split; [done|]. exists (award_of (en_player en, player) coach club board).
  split_and!; [done..|]. by rewrite <- grant_postings.
Qed.

Lemma on_record_award e aw d : db_awards d !! e = None →
  on_record (set_db_awards (<[e := aw]> (db_awards d)) d) ≡ₚ on_record d ++ award_postings aw.
Proof.
  intros He. unfold on_record. cbn. rewrite map_to_list_insert by done. cbn.
  rewrite <- (assoc_L (++)). apply Permutation_app_head. apply Permutation_app_comm.
Qed.

Lemma award_journalled e en d : journalled d (_award_points_after_payment e en d).2.
Proof.
  destruct (award_spec e en d) as [[x ->]|[[_ ->]|(Hn & aw & _ & _ & ->)]]; [done..|].
  cbn. set (d1 := set_db_awards (<[e := aw]> (db_awards d)) d).
  apply (journalled_posted (award_postings aw)).
  - intros a. by rewrite !credited_run.
  - rewrite (on_record_not_totals _ d1) by apply not_totals_run. by apply on_record_award.
Qed.

Lemma save_enrollment_journalled e en d : journalled d (save_enrollment e en d).2.
Proof.
  apply journalled_same; unfold save_enrollment, bind, modify, award_on_manual_paid; cbn;
    by destruct (_ && _).
Qed.

Lemma run_on_commit_journalled d : journalled d (run_on_commit d).2.
Proof.
  unfold run_on_commit, bind, get, put. apply (forM_inv (journalled d)).
  - intros [e en] d1 _ Hd1. etrans; [exact Hd1|]. apply award_journalled.
  - by apply journalled_same.
Qed.

Lemma bind_keeps {A B} (I : DB P → Prop) (m : M (DB P) A) (k : A → M (DB P) B) d :
  I (m d).2 → (∀ x d', m d = (Ok x, d') → I d' → I (k x d').2) → I (bind m k d).2.
Proof.
  unfold bind. destruct (m d) as [[x|e] d1]; cbn; intros Hm Hk; [|done]. by apply Hk.
Qed.

Lemma atomic_keeps {A} (I : DB P → Prop) (m : M (DB P) A) d :
  I d → I (m d).2 → I (atomic m d).2.
Proof. unfold atomic. destruct (m d) as [[x|e] d1]; cbn; auto. Qed.

Lemma reads_keeps {A B} (I : DB P → Prop) (m : M (DB P) A) (k : A → M (DB P) B) d :
  reads m → I d → (∀ x, m d = (Ok x, d) → I (k x d).2) → I (bind m k d).2.
Proof.
  intros Hm Hd Hk. destruct (reads_step m k d Hm) as [(e & _ & ->)|(x & Hx & ->)]; [done|]. by apply Hk.
Qed.

Lemma mark_paid_journalled e amount ref_code now d : journalled d (mark_paid e amount ref_code now d).2.
Proof.
  unfold mark_paid. apply atomic_keeps; [done|]. apply reads_keeps; [auto with reads|done|].
  intros cur _. destruct (en_is_paid cur); [done|]. apply bind_keeps.
  - apply save_enrollment_journalled.
  - intros [] d1 _ Hd1. etrans; [exact Hd1|]. apply award_journalled.
Qed.
End awards.

(** ** Results *)

Section results.
Context {P : Type} `{PointArith P}.
Implicit Types (d : DB P).

Lemma forM_post_txs txs : ∀ d,
  forM txs post_tx d = (Ok tt, run_postings (tx_posting <$> txs) d).
Proof.
  induction txs as [|tx txs IH]; intros d; [done|].
  change (forM (tx :: txs) post_tx d) with
    (forM txs post_tx (post (tx_subject_type tx) (tx_subject_id tx) (tx_points tx) d)).
  by rewrite IH.
Qed.

Lemma apply_medal_ok k r row d txs d' : apply_medal k r row d = (Ok txs, d') →
  d' = run_postings (tx_posting <$> txs) d.
Proof.
  unfold apply_medal. destruct row.1.2 as [e|]; [|by intros [= <- <-]].
  repeat (match goal with |- context [bind ?m ?k d] =>
    destruct (reads_step m k d ltac:(auto with reads)) as [(? & _ & ->)|(? & ? & ->)]; [done|] end).
  unfold bind. rewrite forM_post_txs. by intros [= <- <-].
Qed.

Lemma apply_medals_ok k r rows : ∀ d txss d', mapM (apply_medal k r) rows d = (Ok txss, d') →
  d' = run_postings (tx_posting <$> mjoin txss) d.
Proof.
  induction rows as [|row rows IH]; intros d txss d'; cbn; [by intros [= <- <-]|].
  intros (txs & d1 & H1 & (txss' & d2 & H2 & [= <- <-])%bind_ok)%bind_ok.
  apply apply_medal_ok in H1 as ->. apply IH in H2 as ->.
  cbn. unfold run_postings. by rewrite fmap_app, foldl_app.
Qed.

Lemma filter_negb_none {A} (p : A → bool) l :
  List.filter p l = [] → List.filter (λ x, negb (p x)) l = l.
Proof.
  induction l as [|x l IH]; cbn; [done|]. destruct (p x); cbn; [done|]. intros Hl. by rewrite IH.
Qed.

(** The rollback posts the reversals of the ledger rows of the result and strikes them. *)
Lemma rollback_runs k d : _rollback_result_points k d =
  (Ok tt, delete_txs k (run_postings (reversals (tx_posting <$> result_txs d k)) d)).
Proof.
  assert (Hloop : ∀ txs d, forM txs rollback_tx d =
    (Ok tt, run_postings (reversals (tx_posting <$> txs)) d)).
  { induction txs as [|tx txs IH]; intros d0; [done|].
    cbn [forM]. unfold bind, rollback_tx at 1. unfold reversals. cbn.
    destruct (pt_truthy (tx_points tx)); cbn; by rewrite IH. }
  unfold _rollback_result_points, bind at 1, get. case_bool_decide as Hl.
  - apply length_zero_iff_nil in Hl. rewrite Hl. unfold ret, delete_txs. cbn.
    rewrite (filter_negb_none _ _ Hl). by destruct d.
  - unfold bind. by rewrite Hloop.
Qed.

Lemma on_record_delete k d :
  on_record d ≡ₚ on_record (delete_txs k d) ++ (tx_posting <$> result_txs d k).
Proof.
  unfold on_record, delete_txs, result_txs. cbn.
  assert (Hp : db_transactions d ≡ₚ
    List.filter (λ tx, negb (tx_result tx =? k)) (db_transactions d)
    ++ List.filter (λ tx, tx_result tx =? k) (db_transactions d)).
  { induction (db_transactions d) as [|tx l IH]; [done|]. cbn.
    destruct (tx_result tx =? k); cbn; [by rewrite <- Permutation_middle, <- IH|by rewrite <- IH]. }
  rewrite Hp at 1. rewrite fmap_app, <- !(assoc_L (++)). apply Permutation_app_head.
  apply Permutation_app_comm.
Qed.

Lemma rollback_journalled k d : journalled d (_rollback_result_points k d).2.
Proof.
  rewrite rollback_runs. cbn. set (ps := reversals _).
  pose proof (not_totals_run ps d) as Hn.
  apply (journalled_struck (tx_posting <$> result_txs d k)); [done|].
  rewrite (on_record_delete k d). apply Permutation_app_tail.
  unfold on_record, delete_txs. cbn. by injection Hn as -> ->.
Qed.

Lemma apply_points_journalled k r d d' :
  _apply_result_points k r d = (Ok tt, d') → journalled d d'.
Proof.
  intros (txss & d1 & H1 & [= <-])%bind_ok. apply apply_medals_ok in H1 as ->.
  apply (journalled_posted (tx_posting <$> mjoin txss)); [done|].
  set (d1 := run_postings (tx_posting <$> mjoin txss) d).
  pose proof (not_totals_run (tx_posting <$> mjoin txss) d) as Hn. fold d1 in Hn.
  unfold on_record, bulk_create_txs. cbn. injection Hn as -> -> _.
  rewrite fmap_app, <- !(assoc_L (++)). apply Permutation_app_head. apply Permutation_app_comm.
Qed.

Lemma save_result_ok pk r d k d' : save_result pk r d = (Ok k, d') →
  ∃ d1 d2, full_clean pk r d = (Ok tt, d) ∧
    (pk = Some k ∧ d1 = d ∨ pk = None ∧ k = db_next_id d ∧ d1 = set_db_next_id (k + 1) d) ∧
    _rollback_result_points k (set_db_results (<[k := r]> (db_results d1)) d1) = (Ok tt, d2) ∧
    _apply_result_points k r d2 = (Ok tt, d').
Proof.
  unfold save_result. rewrite atomic_ok. intros H1. apply bind_ok in H1 as ([] & d0 & Hc & H1).
  assert (d0 = d) as ->.
  { pose proof (reads_full_clean pk r d) as Hr. by rewrite Hc in Hr. }
  apply bind_ok in H1 as (k' & d1 & Hk & H1). apply bind_ok in H1 as ([] & d2 & [= <-] & H1).
  apply bind_ok in H1 as ([] & d3 & Hrb & H1). apply bind_ok in H1 as ([] & d4 & Hap & [= -> ->]).
  exists d1, d3. split; [done|]. split; [|done]. destruct pk as [k0|].
  - left. by injection Hk as -> ->.
  - right. by injection Hk as <- <-.
Qed.

Lemma save_result_journalled pk r d : journalled d (save_result pk r d).2.
Proof.
  destruct (save_result pk r d) as [[k|x] d'] eqn:E; cbn.
  - apply save_result_ok in E as (d1 & d2 & _ & Hk & Hrb & Hap).
    etrans; [|by eapply apply_points_journalled].
    pose proof (rollback_journalled k (set_db_results (<[k := r]> (db_results d1)) d1)) as Hb.
    rewrite Hrb in Hb. etrans; [|exact Hb]. destruct Hk as [[_ ->]|(_ & _ & ->)]; by apply journalled_same.
  - apply atomic_err in E. by subst d'.
Qed.
End results.

(** ** What a result is worth *)

(** The ledger rows of a result, from the enrollments of its medals. *)
Definition ledger_of {P} `{PointArith P} (k : Z) (r : KyorugiResult) (d : DB P)
    : list (RankingTransaction P) :=
  row ← medal_map r;
  match row.1.2 ≫= λ e, db_enrollments d !! e with
  | Some en => medal_txs k r row.1.1 row.2 en
  | None => []
  end.

Arguments ledger_of : simpl never.
Arguments total : simpl never.

(** The rows the code follows from an enrollment: what [apply_medal] fetches. *)
Definition resolves {P} (d : DB P) (en : Enrollment) : Prop :=
  is_Some (db_profiles d !! en_player en) ∧
  (∀ c, en_coach en = Some c → is_Some (db_profiles d !! c)) ∧
  (∀ c, en_club en = Some c → is_Some (db_clubs d !! c)) ∧
  (∀ c, en_board en = Some c → is_Some (db_boards d !! c)).

Section worth.
Context {P : Type} `{PointArith P}.
Implicit Types (d : DB P).

(** The tables points are posted to keep their keys. *)
Definition same_keys d d' : Prop :=
  db_enrollments d = db_enrollments d' ∧ dom (db_profiles d) = dom (db_profiles d') ∧
  dom (db_clubs d) = dom (db_clubs d') ∧ dom (db_boards d) = dom (db_boards d').

#[export] Instance same_keys_equiv : Equivalence same_keys.
Proof. unfold same_keys. split; repeat intro; naive_solver congruence. Qed.

Lemma dom_alter_eq {A} (f : A → A) k (t : gmap Z A) : dom (alter f k t) = dom t.
Proof. apply dom_alter_L. Qed.

Lemma same_keys_post s k p d : same_keys (post s k p d) d.
Proof. destruct s; unfold same_keys; cbn; rewrite ?dom_alter_eq; done. Qed.

Lemma same_keys_run ps : ∀ d, same_keys (run_postings ps d) d.
Proof.
  induction ps as [|p ps IH]; intros d; [done|]. unfold run_postings in *. cbn [foldl].
  rewrite IH. apply same_keys_post.
Qed.

Lemma same_keys_is_some {A} (t t' : gmap Z A) k : dom t = dom t' → is_Some (t !! k) → is_Some (t' !! k).
Proof. rewrite <- !elem_of_dom. by intros ->. Qed.

Lemma resolves_same_keys d d' en : same_keys d d' → resolves d en → resolves d' en.
Proof.
  intros (_ & Hp & Hc & Hb) (H1 & H2 & H3 & H4). split_and!; intros; eapply same_keys_is_some; eauto.
Qed.

Lemma fetch_some {A} (t : DB P → gmap Z A) k x d : t d !! k = Some x → fetch t k d = (Ok x, d).
Proof. intros Hk. unfold fetch, bind, get. by rewrite Hk. Qed.

Lemma fetch_ok {A} (t : DB P → gmap Z A) k x d d' : fetch t k d = (Ok x, d') → t d !! k = Some x.
Proof. unfold fetch, bind, get. destruct (t d !! k); [by intros [= ->]|done]. Qed.

Lemma fetch_opt_some {A} (t : DB P → gmap Z A) o d :
  (∀ k, o = Some k → is_Some (t d !! k)) → ∃ x, fetch_opt t o d = (Ok x, d) ∧ fst <$> x = o.
Proof.
  intros Ho. destruct o as [k|]; [|by exists None]. destruct (Ho k eq_refl) as [x Hx].
  exists (Some (k, x)). cbn. unfold bind. by rewrite (fetch_some t k x).
Qed.

Lemma fetch_opt_ok {A} (t : DB P → gmap Z A) o x d d' : fetch_opt t o d = (Ok x, d') →
  ∀ k, o = Some k → is_Some (t d !! k).
Proof.
  intros Hf k ->. cbn in Hf. apply bind_ok in Hf as (y & d1 & Hy & _). apply fetch_ok in Hy. eauto.
Qed.

(** A medal's pass succeeds exactly when its enrollment resolves. *)
Lemma apply_medal_some k r medal e p d en : db_enrollments d !! e = Some en → resolves d en →
  apply_medal k r (medal, Some e, p) d =
    (Ok (medal_txs k r medal p en), run_postings (tx_posting <$> medal_txs k r medal p en) d).
Proof.
  intros He (Hp & Hc & Hk & Hb). destruct Hp as [u Hu]. unfold apply_medal. cbn [fst snd].
  destruct (fetch_opt_some db_profiles (en_coach en) d Hc) as (x1 & H1 & _).
  destruct (fetch_opt_some db_clubs (en_club en) d Hk) as (x2 & H2 & _).
  destruct (fetch_opt_some db_boards (en_board en) d Hb) as (x3 & H3 & _).
  unfold bind. rewrite (fetch_some _ _ _ _ He), (fetch_some _ _ _ _ Hu), H1, H2, H3.
  by rewrite forM_post_txs.
Qed.

Lemma apply_medal_resolves k r medal e p d x d' : apply_medal k r (medal, Some e, p) d = (Ok x, d') →
  ∃ en, db_enrollments d !! e = Some en ∧ resolves d en ∧ x = medal_txs k r medal p en.
Proof.
  unfold apply_medal. cbn [fst snd].
  match goal with |- context [bind ?m ?k d] =>
    destruct (reads_step m k d ltac:(auto with reads)) as [(? & _ & ->)|(en & Hen & ->)]; [done|] end.
  match goal with |- context [bind ?m ?k d] =>
    destruct (reads_step m k d ltac:(auto with reads)) as [(? & _ & ->)|(u & Hu & ->)]; [done|] end.
  match goal with |- context [bind ?m ?k d] =>
    destruct (reads_step m k d ltac:(auto with reads)) as [(? & _ & ->)|(x1 & H1 & ->)]; [done|] end.
  match goal with |- context [bind ?m ?k d] =>
    destruct (reads_step m k d ltac:(auto with reads)) as [(? & _ & ->)|(x2 & H2 & ->)]; [done|] end.
  match goal with |- context [bind ?m ?k d] =>
    destruct (reads_step m k d ltac:(auto with reads)) as [(? & _ & ->)|(x3 & H3 & ->)]; [done|] end.
  unfold bind. rewrite forM_post_txs. intros [= <- _]. exists en.
  split_and!; [by eapply fetch_ok|split_and!|done].
  - eapply fetch_ok in Hu. eauto.
  - by eapply fetch_opt_ok.
  - by eapply fetch_opt_ok.
  - by eapply fetch_opt_ok.
Qed.

(** All medals of a result resolve. *)
Definition medals_resolve (r : KyorugiResult) d : Prop :=
  ∀ e, e ∈ medal_ids r → ∃ en, db_enrollments d !! e = Some en ∧ resolves d en.

Lemma medal_map_ids (r : KyorugiResult) row e :
  row ∈ medal_map (P := P) r → row.1.2 = Some e → e ∈ medal_ids r.
Proof.
  unfold medal_map, medal_ids. rewrite !elem_of_cons.
  intros [->|[->|[->|[->|Hn]]]]; cbn; try (intros ->; set_solver). by apply not_elem_of_nil in Hn.
Qed.

Lemma medal_ids_map (r : KyorugiResult) e :
  e ∈ medal_ids r → ∃ row, row ∈ medal_map (P := P) r ∧ row.1.2 = Some e.
Proof.
  unfold medal_ids. rewrite !elem_of_app.
  assert (Hrow : ∀ o (medal : string) (p : P), e ∈ option_list o →
    (medal, o, p) ∈ medal_map r → ∃ row, row ∈ medal_map (P := P) r ∧ row.1.2 = Some e).
  { intros o medal p He Hin. exists (medal, o, p). split; [done|].
    destruct o; cbn in *; [by apply list_elem_of_singleton in He as ->|set_solver]. }
  unfold medal_map at 1 in Hrow.
  intros [He|[He|[He|He]]]; (eapply Hrow; [exact He|]); rewrite !elem_of_cons; eauto.
Qed.

Lemma medals_loop k r rows : ∀ d,
  (∀ row e, row ∈ rows → row.1.2 = Some e →
     ∃ en, db_enrollments d !! e = Some en ∧ resolves d en) →
  ∃ txss d', mapM (apply_medal k r) rows d = (Ok txss, d') ∧
    mjoin txss = (row ← rows; match row.1.2 ≫= λ e, db_enrollments d !! e with
                  | Some en => medal_txs k r row.1.1 row.2 en | None => [] end).
Proof.
  induction rows as [|[[medal oe] p] rows IH]; intros d Hr; [by exists [], d|].
  cbn [mapM]. set (txs := match oe ≫= λ e, db_enrollments d !! e with
    | Some en => medal_txs k r medal p en | None => [] end).
  assert (H1 : apply_medal k r (medal, oe, p) d = (Ok txs, run_postings (tx_posting <$> txs) d)).
  { unfold txs. destruct oe as [e|]; [|done]. destruct (Hr (medal, Some e, p) e) as (en & He & Hres);
      [left|done|]. cbn. rewrite He. by apply apply_medal_some. }
  pose proof (same_keys_run (tx_posting <$> txs) d) as Hk.
  destruct (IH (run_postings (tx_posting <$> txs) d)) as (txss & d' & Hm & Hj).
  { intros row e Hin He. destruct (Hr row e) as (en & Hen & Hres); [by right|done|].
    exists en. destruct Hk as [Hk1 Hk]. rewrite Hk1. split; [done|].
    apply (resolves_same_keys d); [|done]. symmetry. by split. }
  exists (txs :: txss), d'. unfold bind. rewrite H1, Hm. split; [done|].
  change (mjoin (txs :: txss)) with (txs ++ mjoin txss). rewrite Hj.
  destruct Hk as [Hk1 _]. by rewrite Hk1.
Qed.

Lemma apply_points_ok_resolves k r rows : ∀ d txss d',
  mapM (apply_medal k r) rows d = (Ok txss, d') →
  ∀ row e, row ∈ rows → row.1.2 = Some e → ∃ en, db_enrollments d !! e = Some en ∧ resolves d en.
Proof.
  induction rows as [|[[medal oe] p] rows IH]; intros d txss d'; cbn [mapM].
  { intros _ row e Hin. by apply not_elem_of_nil in Hin. }
  intros (txs & d1 & H1 & (txss' & d2 & H2 & _)%bind_ok)%bind_ok row e Hin He.
  apply elem_of_cons in Hin as [->|Hin].
  - cbn in He. subst oe. apply apply_medal_resolves in H1 as (en & ? & ? & _). eauto.
  - destruct (IH d1 txss' d2 H2 row e Hin He) as (en & Hen & Hres).
    apply apply_medal_ok in H1 as ->. pose proof (same_keys_run (tx_posting <$> txs) d) as Hk.
    exists en. split; [destruct Hk as [<- _]; done|]. by eapply resolves_same_keys.
Qed.
End worth.

(** ** Saving a result *)

(** What [KyorugiResult.clean], the field checks and the unique key ask for. *)
Definition valid_result {P} (pk : option Z) (r : KyorugiResult) (d : DB P) : Prop :=
  is_Some (db_competitions d !! re_competition r) ∧ is_Some (db_weights d !! re_weight_category r) ∧
  NoDup (medal_ids r) ∧
  (∀ e en, e ∈ medal_ids r → db_enrollments d !! e = Some en →
     en_competition en = re_competition r ∧ en_weight_category en = Some (re_weight_category r)) ∧
  (∀ k' r', db_results d !! k' = Some r' → re_competition r' = re_competition r →
     re_weight_category r' = re_weight_category r → pk = Some k').

Section saving.
Context {P : Type} `{PointArith P}.
Implicit Types (d : DB P).

Lemma mapM_fetch {A} (t : DB P → gmap Z A) ks d : (∀ k, k ∈ ks → is_Some (t d !! k)) →
  ∃ xs, mapM (λ k, x <~ fetch t k ;; ret (k, x))%monad ks d = (Ok xs, d) ∧
    xs.*1 = ks ∧ (∀ k x, (k, x) ∈ xs ↔ k ∈ ks ∧ t d !! k = Some x).
Proof.
  induction ks as [|k ks IH]; intros Hks.
  { exists []. split_and!; [done..|]. set_solver. }
  destruct (Hks k ltac:(left)) as [x Hx]. destruct IH as (xs & Hm & Hf & Hin).
  { intros k' Hk'. apply Hks. by right. }
  exists ((k, x) :: xs). split_and!.
  - cbn [mapM]. unfold bind, ret in *. by rewrite (fetch_some t k x d Hx), Hm.
  - cbn. by rewrite Hf.
  - intros k' x'. rewrite !elem_of_cons, Hin. naive_solver congruence.
Qed.

Lemma full_clean_valid pk r d : (∀ e, e ∈ medal_ids r → is_Some (db_enrollments d !! e)) →
  (valid_result pk r d → full_clean pk r d = (Ok tt, d)) ∧
  (¬ valid_result pk r d → full_clean pk r d = (Err ValidationError, d)) ∧
  (full_clean pk r d = (Ok tt, d) → valid_result pk r d).
Proof.
  intros He. destruct (mapM_fetch db_enrollments (medal_ids r) d He) as (ens & Hm & Hf & Hin).
  assert (Heq : full_clean pk r d =
    (if negb (is_none (db_competitions d !! re_competition r))
        && negb (is_none (db_weights d !! re_weight_category r))
        && clean_ok r ens && unique_ok pk r d then Ok tt else Err ValidationError, d)).
  { unfold full_clean, bind at 1. rewrite Hm. unfold bind, get. by destruct (_ && unique_ok pk r d). }
  rewrite Heq. clear Heq Hm.
  assert (Hclean : clean_ok r ens = true ↔ NoDup (medal_ids r) ∧
    (∀ e en, e ∈ medal_ids r → db_enrollments d !! e = Some en →
     en_competition en = re_competition r ∧ en_weight_category en = Some (re_weight_category r))).
  { unfold clean_ok. rewrite andb_true_iff, bool_decide_eq_true, Hf, forallb_forall.
    apply and_iff_compat_l. split.
    - intros Hall e en Hei Hen. specialize (Hall (e, en)).
      rewrite <- list_elem_of_In, Hin in Hall. specialize (Hall (conj Hei Hen)). cbn in Hall.
      by rewrite andb_true_iff, Z.eqb_eq, bool_decide_eq_true in Hall.
    - intros Hall [e en] Hei. rewrite <- list_elem_of_In, Hin in Hei. destruct Hei as [Hei Hen].
      cbn. rewrite andb_true_iff, Z.eqb_eq, bool_decide_eq_true. by apply (Hall e). }
  assert (Huniq : unique_ok pk r d = true ↔
    (∀ k' r', db_results d !! k' = Some r' → re_competition r' = re_competition r →
       re_weight_category r' = re_weight_category r → pk = Some k')).
  { unfold unique_ok. rewrite negb_true_iff, <- not_true_iff_false, existsb_exists. split.
    - intros Hn k' r' Hr Hc Hw. destruct (decide (pk = Some k')) as [|Hne]; [done|]. exfalso.
      apply Hn. exists (k', r'). rewrite <- list_elem_of_In, elem_of_map_to_list. split; [done|].
      cbn. rewrite Hc, Hw, !Z.eqb_refl, bool_decide_eq_false_2 by done. done.
    - intros Hall ([k' r'] & Hr & Hb). rewrite <- list_elem_of_In, elem_of_map_to_list in Hr.
      cbn in Hb. rewrite !andb_true_iff, !Z.eqb_eq, negb_true_iff, bool_decide_eq_false in Hb.
      destruct Hb as [[Hne Hc] Hw]. apply Hne. symmetry. by apply (Hall k' r'). }
  assert (Hex : ∀ {A} (o : option A), negb (is_none o) = true ↔ is_Some o).
  { intros A [x|]; cbn; [by split|]. split; [done|]. by intros [? ?]. }
  assert (Hcond : negb (is_none (db_competitions d !! re_competition r))
      && negb (is_none (db_weights d !! re_weight_category r))
      && clean_ok r ens && unique_ok pk r d = true ↔ valid_result pk r d).
  { rewrite !andb_true_iff, !Hex, Hclean, Huniq. unfold valid_result. tauto. }
  rewrite <- Hcond. destruct (_ && unique_ok pk r d); split_and!;
    intros Hv; try done; by destruct Hv.
Qed.

Lemma ledger_of_result k r d tx : tx ∈ ledger_of k r d → tx_result tx = k.
Proof.
  unfold ledger_of. intros (row & Htx & _)%list_elem_of_bind.
  destruct (row.1.2 ≫= _) as [en|]; [|by apply not_elem_of_nil in Htx]. unfold medal_txs in Htx.
  rewrite elem_of_cons, !elem_of_app in Htx.
  assert (Hs : ∀ s (o : option Z) pct, tx ∈ (match o with
    | Some c => if pt_truthy (pt_mul_round2 row.2 (pt_lit pct))
                then [mkRankingTransaction (re_competition r) k s c row.1.1
                        (pt_mul_round2 row.2 (pt_lit pct))] else []
    | None => [] end) → tx_result tx = k).
  { clear Htx. intros s [c|] pct; [|by intros ?%not_elem_of_nil].
    case_match; [|by intros ?%not_elem_of_nil]. by intros ->%list_elem_of_singleton. }
  destruct Htx as [->|[Htx|[Htx|Htx]]]; [done|by eapply Hs..].
Qed.

Lemma ledger_of_ext k r d d' : db_enrollments d = db_enrollments d' → ledger_of k r d = ledger_of k r d'.
Proof. intros He. unfold ledger_of. by rewrite He. Qed.

Lemma same_keys_not_totals d d' : not_totals d = not_totals d' → db_enrollments d = db_enrollments d'.
Proof. intros Hn. unfold not_totals in Hn. congruence. Qed.

Lemma balance_dom d d' : (∀ a, balance d' a = None ↔ balance d a = None) →
  dom (db_profiles d') = dom (db_profiles d) ∧ dom (db_clubs d') = dom (db_clubs d) ∧
  dom (db_boards d') = dom (db_boards d).
Proof.
  intros Hb. assert (Hd : ∀ {A B} (t : gmap Z A) (t' : gmap Z B),
    (∀ k, t !! k = None ↔ t' !! k = None) → dom t = dom t').
  { intros A B t t' Ht. apply set_eq. intros k. rewrite !elem_of_dom, <- !not_eq_None_Some.
    by rewrite Ht. }
  split_and!; apply Hd; intros k; [specialize (Hb (AcProfile k))|specialize (Hb (AcClub k))|
    specialize (Hb (AcBoard k))]; cbn in Hb; by rewrite !fmap_None in Hb.
Qed.

(** After the rollback the same enrollments resolve. *)
Lemma rollback_same_keys k d d' : _rollback_result_points k d = (Ok tt, d') → same_keys d' d.
Proof.
  rewrite rollback_runs. intros [= <-]. apply same_keys_run.
Qed.

Lemma bulk_create_rows txs d :
  db_transactions (bulk_create_txs txs d) = db_transactions d ++ txs.
Proof. done. Qed.

(** One save: the old ledger of the result is taken back, the new one added. *)
Lemma save_result_spec pk r d k d' : save_result pk r d = (Ok k, d') →
  (∀ a, balance d' a = credited a (reversals (tx_posting <$> result_txs d k)
     ++ (tx_posting <$> ledger_of k r d)) <$> balance d a) ∧
  result_txs d' k = ledger_of k r d ∧ same_keys d' d ∧ medals_resolve r d ∧
  db_results d' = <[k := r]> (db_results d) ∧
  db_competitions d' = db_competitions d ∧ db_weights d' = db_weights d.
Proof.
  intros (d1 & d2 & _ & Hk & Hrb & Hap)%save_result_ok.
  set (d0 := set_db_results (<[k := r]> (db_results d1)) d1) in *.
  assert (Hd0 : (∀ a, balance d0 a = balance d a) ∧ result_txs d0 k = result_txs d k ∧
    same_keys d0 d ∧ db_results d0 = <[k := r]> (db_results d) ∧
    db_competitions d0 = db_competitions d ∧ db_weights d0 = db_weights d).
  { destruct Hk as [[_ ->]|(_ & _ & ->)]; done. }
  clearbody d0. clear Hk d1. destruct Hd0 as (Hb0 & Ht0 & Hk0 & Hr0 & Hc0 & Hw0).
  pose proof (rollback_same_keys k d0 d2 Hrb) as Hk2.
  rewrite rollback_runs in Hrb. injection Hrb as <-. set (d3 := run_postings _ d0) in *.
  assert (Hn3 : not_totals d3 = not_totals d0) by apply not_totals_run.
  assert (Hb3 : ∀ a, balance d3 a =
    balance (run_postings (reversals (tx_posting <$> result_txs d0 k)) d0) a) by done. clearbody d3.
  apply bind_ok in Hap as (txss & d4 & Hm & [= <-]).
  assert (Hres : medals_resolve r d).
  { intros e He. destruct (medal_ids_map (P := P) r e He) as (row & Hrow & Hre).
    destruct (apply_points_ok_resolves k r _ _ _ _ Hm row e Hrow Hre) as (en & Hen & Hr).
    assert (Hk' : same_keys (delete_txs k d3) d) by (etrans; [exact Hk2|exact Hk0]).
    exists en. split; [by rewrite <- (proj1 Hk')|exact (resolves_same_keys _ d en Hk' Hr)]. }
  destruct (medals_loop k r (medal_map r) (delete_txs k d3)) as (txss' & d5 & Hm' & Hj).
  { intros row e Hrow Hre. eapply apply_points_ok_resolves; eauto. }
  rewrite Hm in Hm'. injection Hm' as <- <-. apply apply_medals_ok in Hm as ->.
  fold (ledger_of k r (delete_txs k d3)) in Hj.
  rewrite (ledger_of_ext k r _ d) in Hj by (etrans; [exact (proj1 Hk2)|exact (proj1 Hk0)]).
  rewrite Hj. pose proof (not_totals_run (tx_posting <$> ledger_of k r d) (delete_txs k d3)) as Hn.
  pose proof (same_keys_run (tx_posting <$> ledger_of k r d) (delete_txs k d3)) as Hks.
  pose proof (credited_run (tx_posting <$> ledger_of k r d) (delete_txs k d3)) as Hb6.
  set (d6 := run_postings _ (delete_txs k d3)) in *. clearbody d6.
  assert (Htabs : not_totals d3 = not_totals d0 ∧
    db_transactions d6 = List.filter (λ tx, negb (tx_result tx =? k)) (db_transactions d3) ∧
    db_results d6 = db_results d3 ∧ db_competitions d6 = db_competitions d3 ∧
    db_weights d6 = db_weights d3) by (unfold not_totals in Hn; cbn in Hn; split_and!; [done|congruence..]).
  destruct Htabs as (Hn0 & Ht6 & Hr6 & Hc6 & Hw6). unfold not_totals in Hn0.
  split_and!.
  - intros a. change (balance (bulk_create_txs (ledger_of k r d) d6) a) with (balance d6 a).
    rewrite Hb6. change (balance (delete_txs k d3) a) with (balance d3 a).
    rewrite Hb3, credited_run, Hb0, Ht0. destruct (balance d a) as [b|]; [|done].
    unfold fmap, option_fmap, option_map. f_equal. by rewrite credited_app.
  - unfold result_txs. rewrite bulk_create_rows, List.filter_app, Ht6.
    rewrite filter_filter_negb, filter_all; [done|].
    intros tx Htx. apply Z.eqb_eq. by eapply ledger_of_result.
  - change (same_keys d6 d). rewrite Hks, Hk2. exact Hk0.
  - done.
  - cbn. rewrite Hr6, <- Hr0. congruence.
  - cbn. rewrite Hc6, <- Hc0. congruence.
  - cbn. rewrite Hw6, <- Hw0. congruence.
Qed.
End saving.

(** With exact points a save takes back what the old ledger gave and adds what the new one gives. *)
Lemma save_result_exact {P} `{PointLaws P} pk r (d : DB P) k d' a : save_result pk r d = (Ok k, d') →
  balance d' a = (λ b, pt_add b (pt_add
     (total a (neg_posting <$> (tx_posting <$> result_txs d k)))
     (total a (tx_posting <$> ledger_of k r d)))) <$> balance d a.
Proof.
  intros (Hb & _)%save_result_spec. rewrite Hb. destruct (balance d a) as [b|]; [|done]. cbn.
  by rewrite credited_total, total_app, total_reversals.
Qed.

Section succeeding.
Context {P : Type} `{PointArith P}.
Implicit Types (d : DB P).

Lemma medals_resolve_some r d e : medals_resolve r d → e ∈ medal_ids r → is_Some (db_enrollments d !! e).
Proof. intros Hr He. destruct (Hr e He) as (en & Hen & _). eauto. Qed.

Lemma medals_resolve_same_keys r d d' : same_keys d d' → medals_resolve r d → medals_resolve r d'.
Proof.
  intros Hk Hr e He. destruct (Hr e He) as (en & Hen & Hres). exists en.
  split; [by rewrite <- (proj1 Hk)|by eapply resolves_same_keys].
Qed.

Lemma apply_result_runs k r d : medals_resolve r d → ∃ d', _apply_result_points k r d = (Ok tt, d').
Proof.
  intros Hr. destruct (medals_loop k r (medal_map r) d) as (txss & d1 & Hm & _).
  { intros row e Hrow He. apply Hr. by eapply medal_map_ids. }
  unfold _apply_result_points, bind. rewrite Hm. by eexists.
Qed.

Lemma save_result_runs pk r d : valid_result pk r d → medals_resolve r d →
  ∃ k d', save_result pk r d = (Ok k, d') ∧ ∀ k0, pk = Some k0 → k = k0.
Proof.
  intros Hv Hr. destruct (full_clean_valid pk r d) as [Hc _].
  { intros e. by apply medals_resolve_some. }
  specialize (Hc Hv).
  set (kd := match pk with Some k => (k, d) | None => (db_next_id d, set_db_next_id (db_next_id d + 1) d) end).
  assert (Hkd : match pk with Some k => ret k | None => fresh_id end d = (Ok kd.1, kd.2))
    by by destruct pk.
  set (d1 := set_db_results (<[kd.1 := r]> (db_results kd.2)) kd.2).
  pose proof (rollback_runs kd.1 d1) as Hrb. set (d2 := run_postings _ d1) in Hrb.
  destruct (apply_result_runs kd.1 r (delete_txs kd.1 d2)) as [d3 Hap].
  { apply (medals_resolve_same_keys r d); [|done]. symmetry.
    etrans; [by eapply rollback_same_keys|]. unfold d1, kd. by destruct pk. }
  exists kd.1, d3. split.
  - unfold save_result, atomic, bind at 1. rewrite Hc. unfold bind at 1. rewrite Hkd.
    unfold bind at 1, modify. fold d1. unfold bind. by rewrite Hrb, Hap.
  - intros k0 ->. done.
Qed.
End succeeding.

(** ** Paying *)

(** Everything [_award_points_after_payment] may follow from an enrollment exists. *)
Definition award_resolves {P} (d : DB P) (en : Enrollment) : Prop :=
  resolves d en ∧
  (∀ u c, db_profiles d !! en_player en = Some u → up_coach u = Some c → is_Some (db_profiles d !! c)) ∧
  (∀ u c, db_profiles d !! en_player en = Some u → up_club u = Some c → is_Some (db_clubs d !! c)) ∧
  (∀ u b, db_profiles d !! en_player en = Some u → up_tkd_board u = Some b → is_Some (db_boards d !! b)) ∧
  (∀ k c b, db_clubs d !! k = Some c → cl_tkd_board c = Some b → is_Some (db_boards d !! b)).

Section paying.
Context {P : Type} `{PointArith P}.
Implicit Types (d : DB P).

Lemma fetch_opt_row {A} (t : DB P → gmap Z A) o d : (∀ k, o = Some k → is_Some (t d !! k)) →
  ∃ x, fetch_opt t o d = (Ok x, d) ∧ ∀ k y, x = Some (k, y) → t d !! k = Some y.
Proof.
  intros Ho. destruct o as [k|]; [|by exists None]. destruct (Ho k eq_refl) as [x Hx].
  exists (Some (k, x)). cbn. unfold bind. rewrite (fetch_some t k x) by done. naive_solver.
Qed.

Lemma or_fetch_row {A} (t : DB P → gmap Z A) x o d :
  (∀ k y, x = Some (k, y) → t d !! k = Some y) → (∀ k, o = Some k → is_Some (t d !! k)) →
  ∃ x', or_fetch x t o id d = (Ok x', d) ∧ ∀ k y, x' = Some (k, y) → t d !! k = Some y.
Proof.
  intros Hx Ho. destruct x as [[k y]|]; [by exists (Some (k, y))|]. cbn.
  destruct (truthy_id o); [|by exists None].
  destruct (fetch_opt_row t o d Ho) as (x' & Hf & Hx'). exists x'. unfold bind. rewrite Hf.
  split; [by destruct x'|done].
Qed.

Lemma award_no_error e en d : award_resolves d en → ¬ ∃ x, _award_points_after_payment e en d = (Err x, d).
Proof.
  intros ((Hp & Hc & Hk & Hb) & Uc & Uk & Ub & Kb) [x Hx]. destruct Hp as [u Hu].
  unfold _award_points_after_payment, bind in Hx. rewrite (fetch_some _ _ _ _ Hu) in Hx.
  destruct (fetch_opt_row db_profiles (en_coach en) d Hc) as (c0 & E & Hc0). rewrite E in Hx.
  destruct (or_fetch_row db_profiles c0 (up_coach u) d Hc0) as (c1 & E1 & _); [eauto|].
  rewrite E1 in Hx.
  destruct (fetch_opt_row db_clubs (en_club en) d Hk) as (k0 & E2 & Hk0). rewrite E2 in Hx.
  destruct (or_fetch_row db_clubs k0 (up_club u) d Hk0) as (k1 & E3 & Hk1); [eauto|].
  rewrite E3 in Hx.
  destruct (fetch_opt_row db_boards (en_board en) d Hb) as (b0 & E4 & Hb0). rewrite E4 in Hx.
  assert (Hb1 : ∃ b1, match k1 with
      | Some c => or_fetch b0 db_boards (cl_tkd_board c.2) id | None => ret b0 end d = (Ok b1, d) ∧
      ∀ k y, b1 = Some (k, y) → db_boards d !! k = Some y).
  { destruct k1 as [[k c]|]; [|by exists b0]. apply or_fetch_row; [done|]. intros b Hbb.
    apply (Kb k c b); [by apply Hk1|done]. }
  destruct Hb1 as (b1 & E5 & Hb1). rewrite E5 in Hx.
  destruct (or_fetch_row db_boards b1 (up_tkd_board u) d Hb1) as (b2 & E6 & _); [eauto|].
  rewrite E6 in Hx. cbn in Hx. by destruct (db_awards d !! e).
Qed.

Lemma on_commit_after_award e en d aw : db_awards d !! e = Some aw → db_on_commit d = [(e, en)] →
  (run_on_commit d).2 = set_db_on_commit [] d.
Proof.
  intros Ha Hq. unfold run_on_commit, bind, get, put. rewrite Hq. cbn. unfold bind.
  destruct (award_spec e en (set_db_on_commit [] d)) as [[x ->]|[[_ ->]|(Hn & _)]]; [done..|].
  cbn in Hn. congruence.
Qed.
End paying.

(** ** Theorems *)

(** The steps that move points: payments, enrollment saves, commits, results. *)
Inductive ranking_step {P} `{PointArith P} (d : DB P) : DB P → Prop :=
  | step_mark_paid e amount ref_code now : ranking_step d (mark_paid e amount ref_code now d).2
  | step_save_enrollment e en : ranking_step d (save_enrollment e en d).2
  | step_commit : ranking_step d (run_on_commit d).2
  | step_save_result pk r : ranking_step d (save_result pk r d).2.

Lemma steps_journalled {P} `{PointArith P} (d d' : DB P) : rtc ranking_step d d' → journalled d d'.
Proof.
  intros Hsteps. induction Hsteps as [|d d1 d2 Hs _ IH]; [done|]. etrans; [|exact IH]. destruct Hs.
  - apply mark_paid_journalled.
  - apply save_enrollment_journalled.
  - apply run_on_commit_journalled.
  - apply save_result_journalled.
Qed.

(** C7: the books balance. However payments, enrollment saves, commits and (re)entered
    results follow each other, failing ones included, there is one journal of postings
    for all totals: every ranking total of a player, coach, club or board is its earlier
    value with the points of the journal that reach it added one after the other, in the
    arithmetic of the program. And the journal accounts for the record: the awards and
    transactions on record afterwards are those of before with the journal, except for
    postings that were struck, each of which has its reversal in the journal (none if it
    was worth nothing). So no total takes points that are not on record and nothing on
    record is missing from a total; what binary64 adds is only the rounding of the sums. *)
Theorem books_always_balance {P} `{PointArith P} (d d' : DB P) :
  rtc ranking_step d d' →
  ∃ journal struck,
    on_record d ++ journal ≡ₚ on_record d' ++ struck ++ reversals struck ∧
    ∀ a, balance d' a = credited a journal <$> balance d a.
Proof. intros Hsteps. exact (steps_journalled d d' Hsteps). Qed.

(** With exact points every total stays its base value plus the points that the award
    and the transaction tables record for it. *)
Theorem exact_books_balance {P} `{PointLaws P} (base : account → P) (d d' : DB P) :
  books_balance base d → rtc ranking_step d d' → books_balance base d'.
Proof. intros Hd Hsteps. exact (exact_books base d d' (steps_journalled d d' Hsteps) Hd). Qed.

(** Saving a result is idempotent. Saving the same medals again succeeds and
    leaves every total and the ledger of the result as they are. *)
Theorem save_result_idempotent {P} `{PointLaws P} pk r (d : DB P) k d1 :
  save_result pk r d = (Ok k, d1) →
  ∃ d2, save_result (Some k) r d1 = (Ok k, d2) ∧
    (∀ a, balance d2 a = balance d1 a) ∧ result_txs d2 k = result_txs d1 k.
Proof.
  intros H1. pose proof (save_result_spec pk r d k d1 H1) as (_ & Ht1 & Hk1 & Hres & Hr1 & Hc1 & Hw1).
  assert (Hres1 : medals_resolve r d1) by (apply (medals_resolve_same_keys r d); [by symmetry|done]).
  assert (Hv1 : valid_result (Some k) r d1).
  { destruct (full_clean_valid pk r d) as (_ & _ & Hval); [intros e; by apply medals_resolve_some|].
    pose proof (save_result_ok pk r d k d1 H1) as (? & ? & Hfc & Hpk & _).
    destruct (Hval Hfc) as (V1 & V2 & V3 & V4 & V5). unfold valid_result. rewrite Hc1, Hw1, (proj1 Hk1), Hr1.
    split_and!; [done..|]. intros k' r' [[-> _]|[Hne Hl]]%lookup_insert_Some Hc Hw; [done|].
    specialize (V5 k' r' Hl Hc Hw). destruct Hpk as [[-> _]|(-> & _)]; congruence. }
  destruct (save_result_runs (Some k) r d1 Hv1 Hres1) as (k2 & d2 & H2 & Hk2).
  specialize (Hk2 k eq_refl) as ->. exists d2. split; [done|].
  pose proof (save_result_spec (Some k) r d1 k d2 H2) as (_ & Ht2 & _).
  assert (Hl : ledger_of k r d1 = ledger_of k r d) by (apply ledger_of_ext; exact (proj1 Hk1)).
  split; [|by rewrite Ht2, Ht1].
  intros a. rewrite (save_result_exact (Some k) r d1 k d2 a H2), Ht1, Hl, (comm_L pt_add (total a (neg_posting <$> _))), total_neg.
  destruct (balance d1 a); cbn; [by rewrite pt_add_zero_r|done].
Qed.

(** Correcting a result. When a new result is entered and then saved again with
    other medals, the totals are those of entering only the corrected medals. *)
Theorem corrected_result_counts_once {P} `{PointLaws P} pk r1 r2 (d : DB P) k d1 d2 :
  save_result pk r1 d = (Ok k, d1) → save_result (Some k) r2 d1 = (Ok k, d2) →
  result_txs d k = [] →
  result_txs d2 k = ledger_of k r2 d ∧
  ∀ a, balance d2 a = (λ b, pt_add b (total a (tx_posting <$> ledger_of k r2 d))) <$> balance d a.
Proof.
  intros H1 H2 Hnew.
  pose proof (save_result_spec pk r1 d k d1 H1) as (_ & Ht1 & Hk1 & _).
  pose proof (save_result_spec (Some k) r2 d1 k d2 H2) as (_ & Ht2 & _).
  split; [by rewrite Ht2; apply ledger_of_ext, Hk1|]. intros a.
  rewrite (save_result_exact (Some k) r2 d1 k d2 a H2), (save_result_exact pk r1 d k d1 a H1), Ht1, Hnew.
  rewrite (ledger_of_ext k r2 d1 d) by exact (proj1 Hk1).
  destruct (balance d a) as [b|]; cbn; [|done]. f_equal.
  change (total a []) with (pt_zero (P := P)).
  rewrite (left_id_L pt_zero pt_add), <- !(assoc_L pt_add). f_equal.
  by rewrite (assoc_L pt_add), total_neg, (left_id_L pt_zero pt_add).
Qed.

(** Which results are accepted. When its medals' enrollments exist and resolve,
    saving a result succeeds exactly when competition and weight exist, no
    enrollment has two medals, each medallist entered this competition in this
    weight, and no other result has this competition and weight; otherwise it
    raises [ValidationError] and writes nothing. *)
Theorem save_result_validates {P} `{PointArith P} pk r (d : DB P) :
  medals_resolve r d →
  (valid_result pk r d → ∃ k d', save_result pk r d = (Ok k, d')) ∧
  (¬ valid_result pk r d → save_result pk r d = (Err ValidationError, d)).
Proof.
  intros Hr. split.
  - intros Hv. destruct (save_result_runs pk r d Hv Hr) as (k & d' & Hs & _). eauto.
  - intros Hv. destruct (full_clean_valid pk r d) as (_ & Hbad & _).
    { intros e. by apply medals_resolve_some. }
    unfold save_result, atomic, bind at 1. by rewrite (Hbad Hv).
Qed.

(** The row [Enrollment.mark_paid] stores. *)
Definition paid_row (amount : Z) (ref_code : string) (now : Z) (en : Enrollment) : Enrollment :=
  let c1 := set_en_paid_amount amount (set_en_is_paid true en) in
  let c2 := if truthy_str ref_code then set_en_bank_ref_code ref_code c1 else c1 in
  let c3 := set_en_paid_at (Some now) c2 in
  if bool_decide (en_status c3 ∈ ["pending_payment"; "canceled"; ""]) then set_en_status "paid" c3 else c3.

Lemma paid_row_columns amount ref_code now en : let en' := paid_row amount ref_code now en in
  en_player en' = en_player en ∧ en_competition en' = en_competition en ∧ en_coach en' = en_coach en ∧
  en_club en' = en_club en ∧ en_board en' = en_board en ∧ en_weight_category en' = en_weight_category en ∧
  en_is_paid en' = true ∧ en_paid_amount en' = amount.
Proof.
  cbn zeta. unfold paid_row. case_bool_decide; by destruct (truthy_str ref_code).
Qed.

Lemma paid_row_status amount ref_code now en :
  en_status en = "pending_payment" → en_status (paid_row amount ref_code now en) = "paid".
Proof.
  intros Hs. unfold paid_row. rewrite bool_decide_true; [done|].
  assert (en_status (set_en_paid_at (Some now) (if truthy_str ref_code
    then set_en_bank_ref_code ref_code (set_en_paid_amount amount (set_en_is_paid true en))
    else set_en_paid_amount amount (set_en_is_paid true en))) = "pending_payment") as ->.
  { by destruct (truthy_str ref_code). }
  left.
Qed.

(** Paying an unpaid enrollment that resolves and has no award. *)
Lemma mark_paid_spec {P} `{PointArith P} e en amount ref_code now (d : DB P) :
  db_enrollments d !! e = Some en → en_is_paid en = false → db_awards d !! e = None →
  award_resolves d en →
  let row := paid_row amount ref_code now en in
  ∃ aw, aw_player aw = Some (en_player en) ∧ aw_points_player aw = pt_lit 100 ∧
    mark_paid e amount ref_code now d = (Ok tt, run_postings (award_postings aw)
      (set_db_awards (<[e := aw]> (db_awards d))
        (set_db_on_commit (db_on_commit d ++ [(e, row)])
          (set_db_enrollments (<[e := row]> (db_enrollments d)) d)))).
Proof.
  intros He Hp Ha Hres row.
  destruct (paid_row_columns amount ref_code now en) as (C1 & _ & C2 & C3 & C4 & _ & C5 & _).
  fold row in C1, C2, C3, C4, C5.
  set (d0 := set_db_on_commit (db_on_commit d ++ [(e, row)])
               (set_db_enrollments (<[e := row]> (db_enrollments d)) d)).
  assert (Hsave : save_enrollment e row d = (Ok tt, d0)).
  { unfold save_enrollment, bind, modify, award_on_manual_paid. cbn. by rewrite C5, Ha. }
  assert (Hres0 : award_resolves d0 row).
  { unfold award_resolves, resolves in *. rewrite C1, C2, C3, C4. exact Hres. }
  unfold mark_paid, atomic, bind at 1. rewrite (fetch_some _ _ _ _ He), Hp.
  fold (paid_row amount ref_code now en). fold row.
  unfold bind. rewrite Hsave.
  destruct (award_spec e row d0) as [Hx|[[[x Hx] _]|(_ & aw & Hap & Hapt & ->)]].
  - by apply award_no_error in Hx.
  - cbn in Hx. congruence.
  - exists aw. by rewrite Hap, C1.
Qed.

(** C8: a payment awards once. Marking an unpaid enrollment without an award as paid
    succeeds, stores it as paid, creates its award (one point for the player) and
    adds exactly the award's points to the totals; the callback that runs after the
    commit, and marking it paid again, add nothing. *)
Theorem payment_awards_once {P} `{PointArith P} e en amount ref_code now (d : DB P) :
  db_enrollments d !! e = Some en → en_is_paid en = false → db_awards d !! e = None →
  db_on_commit d = [] → award_resolves d en →
  ∃ d1 aw en', mark_paid e amount ref_code now d = (Ok tt, d1) ∧
    db_enrollments d1 = <[e := en']> (db_enrollments d) ∧
    en_is_paid en' = true ∧ en_paid_amount en' = amount ∧
    db_awards d1 = <[e := aw]> (db_awards d) ∧
    aw_player aw = Some (en_player en) ∧ aw_points_player aw = pt_lit 100 ∧
    (∀ a, balance d1 a = credited a (award_postings aw) <$> balance d a) ∧
    let d2 := (run_on_commit d1).2 in
    (∀ a, balance d2 a = balance d1 a) ∧ db_awards d2 = db_awards d1 ∧
    mark_paid e amount ref_code now d2 = (Ok tt, d2).
Proof.
  intros He Hp Ha Hq Hres.
  destruct (mark_paid_spec e en amount ref_code now d He Hp Ha Hres) as (aw & Hap & Hapt & Hrun).
  destruct (paid_row_columns amount ref_code now en) as (_ & _ & _ & _ & _ & _ & C5 & C6).
  set (row := paid_row amount ref_code now en) in *.
  set (d00 := set_db_awards _ _) in Hrun. set (d1 := run_postings (award_postings aw) d00) in *.
  pose proof (not_totals_run (award_postings aw) d00) as Hn. fold d1 in Hn. unfold not_totals in Hn.
  assert (Hd1 : db_enrollments d1 = <[e := row]> (db_enrollments d) ∧
    db_awards d1 = <[e := aw]> (db_awards d) ∧ db_on_commit d1 = [(e, row)]).
  { split_and!; [by injection Hn..|]. transitivity (db_on_commit d00); [by injection Hn|].
    cbn. by rewrite Hq. }
  destruct Hd1 as (He1 & Ha1 & Hq1).
  assert (Hb1 : ∀ a, balance d1 a = credited a (award_postings aw) <$> balance d a).
  { intros a. unfold d1. by rewrite credited_run. }
  exists d1, aw, row. rewrite Hrun. cbn zeta.
  rewrite (on_commit_after_award e row d1 aw) by (rewrite ?Ha1, ?lookup_insert_eq; done).
  split_and!; try done.
  unfold mark_paid, atomic, bind at 1. rewrite (fetch_some _ _ row); [by rewrite C5|].
  cbn. by rewrite He1, lookup_insert_eq.
Qed.

(** The results page never records anything. Whatever medals are posted, the
    view ends in an exception and the database is as before: it hands the id of the
    result to [apply_results_and_points], which reads attributes of a result. *)
Theorem results_page_records_nothing {P} `{PointArith P} f user (d : DB P) :
  ∃ x, kyorugi_results_view f user d = (Err x, d).
Proof.
  assert (Hbind : ∀ {A B} (m : M (DB P) A) (k : A → M (DB P) B) d,
    (∀ x d, ∃ e d', k x d = (Err e, d')) → ∃ e d', bind m k d = (Err e, d')).
  { intros A B m k d0 Hk. unfold bind. destruct (m d0) as [[x|e] d1]; eauto. }
  assert (Hatomic : ∀ {A} (m : M (DB P) A) d, (∃ e d', m d = (Err e, d')) →
    ∃ e, atomic m d = (Err e, d)).
  { intros A m d0 (e & d' & Hm). unfold atomic. rewrite Hm. eauto. }
  apply Hatomic. do 3 (apply Hbind; intros ? ?).
  unfold apply_results_and_points, atomic, bind, get, modify, raise. eauto.
Qed.

(** ** Examples *)

(** Player 10 of coach 20, club 30 and board 40, entered in weight 1 of
    competition 5 with enrollment 100, not yet paid. *)
Definition ranking_sample (P : Type) `{PointArith P} : DB P :=
  let user first coach := mkUserProfile first "x" false "player" "male" (Some 30) coach (Some 40)
                            pt_zero pt_zero 0 0 0 in
  set_db_profiles {[ 10 := user "p"%string (Some 20); 20 := user "c"%string None ]}
  (set_db_clubs {[ 30 := mkTkdClub "club" (Some 40) pt_zero 0 0 0 ]}
  (set_db_boards {[ 40 := mkTkdBoard "board" pt_zero ]}
  (set_db_weights {[ 1 := mkWeightCategory "w" "male" (b64_of_Z 50) (b64_of_Z 60) (b64_lit 10) ]}
  (set_db_competitions
    {[ 5 := mkKyorugiCompetition "cup" 1000 (Some 1) "male" None 0 10 11 12 13 2 None "c" ]}
  (set_db_enrollments
    {[ 100 := mkEnrollment 5 10 (Some 20) "" "" (Some 30) "" (Some 40) "" None (Some 1)
                (b64_of_Z 55) "" 0 "pending_payment" false 0 "" None "" None 0 0 false false ]}
  (empty_db 200)))))).

Definition gold_result : KyorugiResult := mkKyorugiResult 5 1 (Some 100) None None None "" None.
Definition empty_result : KyorugiResult := mkKyorugiResult 5 1 None None None None "" None.

Definition coach_total {P} (d : DB P) : option P := up_ranking_total <$> db_profiles d !! 20.

(** The doubles of the program drift where exact points do not. After the
    enrollment is paid, entering its gold medal and taking it back leaves the coach
    with 0.7499999999999999 points instead of the 0.75 of the award; with exact
    points it is 0.75 again. *)
Theorem doubles_drift_on_correction :
  let run P (HP : PointArith P) (d : DB P) :=
    let d1 := (mark_paid 100 1000 "r" 7 d).2 in
    let d2 := (save_result None gold_result d1).2 in
    coach_total (save_result (Some 200) empty_result d2).2 in
  run Z exact_points (ranking_sample Z) = Some 75 ∧
  run spec_float binary64_points (ranking_sample spec_float) ≠ Some (b64_lit 75).
Proof. split; [vm_compute; reflexivity|vm_compute; discriminate]. Qed.

(** The service books a player's points in [ranking_competition] only, but saving
    the result takes them back from [ranking_total] too: the player ends with -4
    instead of 3 points. *)
Example service_and_save_disagree :
  let d1 := (save_result None empty_result (ranking_sample Z)).2 in
  let d2 := (apply_results_and_points (ResultObj 200 gold_result) d1).2 in
  let d3 := (save_result (Some 200) gold_result d2).2 in
  (up_ranking_total <$> db_profiles d3 !! 10, up_ranking_competition <$> db_profiles d3 !! 10)
  = (Some (-400), Some 300).
Proof. vm_compute. reflexivity. Qed.

Definition sample_base (a : account) : Z := default 0 (balance (ranking_sample Z) a).

Lemma sample_books : books_balance sample_base (ranking_sample Z).
Proof.
  intros a b Hb. unfold sample_base. rewrite Hb.
  change (total a (on_record (ranking_sample Z))) with (pt_zero (P := Z)).
  by rewrite pt_add_zero_r.
Qed.

Definition sample_paid : DB Z := (mark_paid 100 1000 "r" 7 (ranking_sample Z)).2.
Definition sample_golden : DB Z := (save_result None gold_result sample_paid).2.
Definition sample_cleared : DB Z := (save_result (Some 200) empty_result sample_golden).2.

Lemma sample_ranking_steps {P} `{PointArith P} :
  rtc ranking_step (ranking_sample P)
    (save_result None gold_result (mark_paid 100 1000 "r" 7 (ranking_sample P)).2).2.
Proof.
  exact (rtc_l _ _ _ _ (step_mark_paid _ 100 1000 "r" 7)
    (rtc_once _ _ (step_save_result _ None gold_result))).
Defined.

(** The doubles the program adds: a paid entry and its gold medal. *)
Definition sample_doubles : DB spec_float :=
  (save_result None gold_result (mark_paid 100 1000 "r" 7 (ranking_sample spec_float)).2).2.

Lemma books_always_balance_witness : ∃ journal struck,
  on_record (ranking_sample spec_float) ++ journal ≡ₚ
    on_record sample_doubles ++ struck ++ reversals struck ∧
  balance sample_doubles (AcProfile 20) =
    credited (AcProfile 20) journal <$> balance (ranking_sample spec_float) (AcProfile 20).
Proof.
  destruct (books_always_balance (ranking_sample spec_float) sample_doubles sample_ranking_steps)
    as (journal & struck & Hp & Hb).
  exact (ex_intro _ journal (ex_intro _ struck (conj Hp (Hb (AcProfile 20))))).
Defined.

Lemma exact_books_balance_witness : books_balance sample_base sample_golden.
Proof.
  exact (exact_books_balance sample_base (ranking_sample Z) sample_golden sample_books sample_ranking_steps).
Defined.

Lemma sample_golden_ok : save_result None gold_result sample_paid = (Ok 200, sample_golden).
Proof. vm_compute. reflexivity. Qed.

Lemma save_result_idempotent_witness :
  ∃ d2, save_result (Some 200) gold_result sample_golden = (Ok 200, d2) ∧
    balance d2 (AcProfile 20) = balance sample_golden (AcProfile 20).
Proof.
  destruct (save_result_idempotent None gold_result sample_paid 200 sample_golden sample_golden_ok)
    as (d2 & Hs & Hb & _). exists d2. exact (conj Hs (Hb (AcProfile 20))).
Defined.

Lemma corrected_result_counts_once_witness :
  result_txs sample_cleared 200 = ledger_of 200 empty_result sample_paid.
Proof.
  assert (H2 : save_result (Some 200) empty_result sample_golden = (Ok 200, sample_cleared))
    by (vm_compute; reflexivity).
  assert (H0 : result_txs sample_paid 200 = []) by (vm_compute; reflexivity).
  exact (proj1 (corrected_result_counts_once None gold_result empty_result sample_paid 200
    sample_golden sample_cleared sample_golden_ok H2 H0)).
Defined.

Lemma sample_resolves : resolves (ranking_sample Z)
  (mkEnrollment 5 10 (Some 20) "" "" (Some 30) "" (Some 40) "" None (Some 1)
     (b64_of_Z 55) "" 0 "pending_payment" false 0 "" None "" None 0 0 false false).
Proof.
  split_and!; [by eexists|intros c Hc; injection Hc as <-; by eexists..].
Qed.

Lemma save_result_validates_witness :
  ∃ k d', save_result None gold_result (ranking_sample Z) = (Ok k, d').
Proof.
  apply (save_result_validates None gold_result (ranking_sample Z)).
  - intros e He%list_elem_of_singleton. rewrite He. eexists. split; [reflexivity|apply sample_resolves].
  - split_and!; [by eexists|by eexists|repeat constructor; set_solver| |].
    + intros e en He%list_elem_of_singleton. rewrite He. intros Hen. by injection Hen as <-.
    + intros k' r' Hr.
      change (db_results (ranking_sample Z)) with (∅ : gmap Z KyorugiResult) in Hr.
      by rewrite lookup_empty in Hr.
Defined.

Lemma payment_awards_once_witness :
  ∃ d1 aw, mark_paid 100 1000 "r" 7 (ranking_sample Z) = (Ok tt, d1) ∧
    db_awards d1 !! 100 = Some aw ∧ aw_points_player aw = 100.
Proof.
  destruct (payment_awards_once 100 _ 1000 "r" 7 (ranking_sample Z) eq_refl eq_refl eq_refl eq_refl)
    as (d1 & aw & en' & H1 & _ & _ & _ & H2 & _ & H3 & _).
  - split; [apply sample_resolves|].
    assert (Hu : ∀ u, db_profiles (ranking_sample Z) !! 10 = Some u →
      up_coach u = Some 20 ∧ up_club u = Some 30 ∧ up_tkd_board u = Some 40).
    { intros u Hu. by injection Hu as <-. }
    split_and!.
    + intros u c (-> & _ & _)%Hu [= <-]. by eexists.
    + intros u c (_ & -> & _)%Hu [= <-]. by eexists.
    + intros u c (_ & _ & ->)%Hu [= <-]. by eexists.
    + intros k c b Hc. change (db_clubs (ranking_sample Z)) with
        ({[ 30 := mkTkdClub "club" (Some 40) 0 0 0 0 ]} : gmap Z (TkdClub Z)) in Hc.
      apply lookup_singleton_Some in Hc as [_ <-]. intros [= <-]. by eexists.
  - exists d1, aw. split; [exact H1|]. split; [|exact H3]. by rewrite H2, lookup_insert_eq.
Defined.
