(* ===== verification/Poomsae.v ===== *)
(** Poomsae entries: [PoomsaeEnrollment.clean]/[save] and [PoomsaeTeam] of
    [competitions/models.py]. *)

From S2P Require Import Prelude Store Ranking.
Local Open Scope Z_scope.

(** [len(s) <= n] and not empty. *)
Definition max_length (n : nat) (s : string) : bool := (String.length s <=? n)%nat.
Definition required (n : nat) (s : string) : bool := truthy_str s && max_length n s.

Section poomsae.
Context {P : Type}.
Local Abbreviation db := (DB P).

(** [PoomsaeEnrollment._auto_fill_snapshots] *)
Definition _auto_fill_snapshots (pe : PoomsaeEnrollment) : M db PoomsaeEnrollment :=
  (coach <~ fetch_opt db_profiles (pe_coach pe) ;;
   let pe1 := match coach with
              | Some c => if truthy_str (strip (pe_coach_name pe)) then pe
                          else set_pe_coach_name (full_name c.2) pe
              | None => pe
              end in
   player <~ fetch_opt db_profiles (pe_player pe) ;;
   let pe2 := match pe_club pe1, player with
              | None, Some p => set_pe_club (up_club p.2) pe1
              | _, _ => pe1
              end in
   club <~ fetch_opt db_clubs (pe_club pe2) ;;
   let pe3 := match club with
              | Some c => if truthy_str (strip (pe_club_name pe2)) then pe2
                          else set_pe_club_name (cl_club_name c.2) pe2
              | None => pe2
              end in
   let pe4 := match pe_board pe3, player with
              | None, Some p => set_pe_board (up_tkd_board p.2) pe3
              | _, _ => pe3
              end in
   board <~ fetch_opt db_boards (pe_board pe4) ;;
   ret match board with
       | Some b => if truthy_str (strip (pe_board_name pe4)) then pe4
                   else set_pe_board_name (bo_name b.2) pe4
       | None => pe4
       end)%monad.

(** The day count between 3 and 365 before the competition. *)
Definition insurance_ok (comp_date issue : Z) : bool :=
  let delta := comp_date - issue in negb ((delta <? 3) || (365 <? delta)).

(** Whether [clean] collects no error; [comp] and [team] are the fetched rows. *)
Definition mode_ok (pe : PoomsaeEnrollment) (team : option (Z * PoomsaeTeam)) : bool :=
  if String.eqb (pe_mode pe) "team" then
    negb (is_none (pe_team pe)) && is_none (pe_player pe)
    && match team with
       | Some t => (pt_competition t.2 =? pe_competition pe)
                   && String.eqb (pt_style t.2) (pe_poomsae_type pe)
       | None => true
       end
  else if String.eqb (pe_mode pe) "single" then
    negb (is_none (pe_player pe)) && is_none (pe_team pe)
  else true.

(** The date [clean] compares with: the competition's, else its start. *)
Definition competition_day (comp : PoomsaeCompetition) : Z :=
  default (pc_start_date comp) (pc_competition_date comp).

(** [PoomsaeEnrollment.clean]: whether it raises no error, and the filled row. *)
Definition pe_clean (pe : PoomsaeEnrollment) : M db (bool * PoomsaeEnrollment) :=
  (team <~ (if String.eqb (pe_mode pe) "team" then fetch_opt db_poomsae_teams (pe_team pe)
            else ret None) ;;
   comp <~ fetch db_poomsae_comps (pe_competition pe) ;;
   pe' <~ (if is_none (pe_player pe) then ret pe else _auto_fill_snapshots pe) ;;
   ret (mode_ok pe team && insurance_ok (competition_day comp) (pe_insurance_issue_date pe), pe'))%monad.

(** [clean_fields]: lengths, choices, number ranges and foreign keys. *)
Definition fk_ok {A} (table : gmap Z A) (o : option Z) : bool :=
  match o with Some k => negb (is_none (table !! k)) | None => true end.

Definition coach_ok (d : db) (o : option Z) : bool :=
  match o with
  | Some k => match db_profiles d !! k with Some u => up_is_coach u | None => false end
  | None => true
  end.

Definition fields_ok (pe : PoomsaeEnrollment) (d : db) : bool :=
  negb (is_none (db_poomsae_comps d !! pe_competition pe))
  && fk_ok (db_profiles d) (pe_player pe) && coach_ok d (pe_coach pe)
  && fk_ok (db_clubs d) (pe_club pe) && fk_ok (db_boards d) (pe_board pe)
  && fk_ok (db_poomsae_teams d) (pe_team pe)
  && max_length 150 (pe_coach_name pe) && max_length 8 (pe_coach_approval_code pe)
  && max_length 150 (pe_club_name pe) && max_length 150 (pe_board_name pe)
  && bool_decide (pe_poomsae_type pe ∈ ["standard"; "creative"])
  && bool_decide (pe_mode pe ∈ ["single"; "team"])
  && required 20 (pe_insurance_number pe) && required 20 (pe_status pe)
  && max_length 64 (pe_bank_ref_code pe) && pos_int_ok (pe_paid_amount pe).

(** The check constraint and the two conditional unique constraints. *)
Definition mode_constraint (pe : PoomsaeEnrollment) : bool :=
  (String.eqb (pe_mode pe) "single" && negb (is_none (pe_player pe)) && is_none (pe_team pe))
  || (String.eqb (pe_mode pe) "team" && is_none (pe_player pe) && negb (is_none (pe_team pe))).

Definition same_entry (a b : PoomsaeEnrollment) : bool :=
  String.eqb (pe_mode a) (pe_mode b) && (pe_competition a =? pe_competition b)
  && if String.eqb (pe_mode a) "single"
     then negb (is_none (pe_player a)) && bool_decide (pe_player a = pe_player b)
          && String.eqb (pe_poomsae_type a) (pe_poomsae_type b)
     else String.eqb (pe_mode a) "team"
          && negb (is_none (pe_team a)) && bool_decide (pe_team a = pe_team b).

Definition constraints_ok (pk : option Z) (pe : PoomsaeEnrollment) (d : db) : bool :=
  mode_constraint pe
  && forallb (λ kr, bool_decide (Some kr.1 = pk) || negb (same_entry pe kr.2))
       (map_to_list (db_poomsae_enrollments d)).

(** [PoomsaeEnrollment.save]: [full_clean] (fields, [clean], constraints on the
    filled row), then the row is written. *)
Definition save_poomsae (pk : option Z) (pe : PoomsaeEnrollment) : M db Z :=
  (d <~ get ;;
   r <~ pe_clean pe ;;
   if fields_ok pe d && r.1 && constraints_ok pk r.2 d then
     k <~ match pk with Some k => ret k | None => fresh_id end ;;
     _ <~ modify (λ d, set_db_poomsae_enrollments (<[k := r.2]> (db_poomsae_enrollments d)) d) ;;
     ret k
   else raise ValidationError)%monad.

(** [PoomsaeTeam.validate_members_counts] *)
Definition validate_members_counts (t : PoomsaeTeam) (main_count sub_count : Z) : result unit :=
  if String.eqb (pt_style t) "standard" then
    if negb (main_count =? 3) then Err ValidationError
    else if 2 <? sub_count then Err ValidationError else Ok tt
  else if String.eqb (pt_style t) "creative" then
    if negb (main_count =? 2) then Err ValidationError
    else if 1 <? sub_count then Err ValidationError else Ok tt
  else Ok tt.
End poomsae.

(** ** What saving reads and writes *)

Section saving.
Context {P : Type}.
Implicit Types d : DB P.

(** The same answer from both databases, each left as it is. *)
Definition reads_alike {A} (d d' : DB P) (m : M (DB P) A) : Prop :=
  m d = ((m d).1, d) ∧ m d' = ((m d).1, d').

Lemma alike_ret {A} d d' (x : A) : reads_alike d d' (ret x).
Proof. done. Qed.

Lemma alike_bind {A B} d d' (m : M (DB P) A) (k : A → M (DB P) B) :
  reads_alike d d' m → (∀ x, reads_alike d d' (k x)) → reads_alike d d' (bind m k).
Proof.
  intros [H1 H2] Hk. unfold reads_alike, bind. rewrite H2. destruct (m d) as [[x|e] d1]; cbn in *.
  - injection H1 as ->. apply Hk.
  - by injection H1 as ->.
Qed.

Lemma alike_fetch {A} d d' (t : DB P → gmap Z A) k : t d' = t d → reads_alike d d' (fetch t k).
Proof. intros Ht. unfold reads_alike, fetch, bind, get. rewrite Ht. by destruct (t d !! k). Qed.

Lemma alike_fetch_opt {A} d d' (t : DB P → gmap Z A) o : t d' = t d → reads_alike d d' (fetch_opt t o).
Proof. intros Ht. destruct o; [|apply alike_ret]. apply alike_bind; [by apply alike_fetch|]. intros; apply alike_ret. Qed.

(** The tables that the validation of an entry reads. *)
Definition entry_tables d :=
  (db_profiles d, db_clubs d, db_boards d, db_poomsae_teams d, db_poomsae_comps d, db_poomsae_enrollments d).

Lemma alike_clean d d' pe : entry_tables d' = entry_tables d → reads_alike d d' (pe_clean pe).
Proof.
  intros [= E1 E2 E3 E4 E5 _]. unfold pe_clean. apply alike_bind.
  { destruct (String.eqb _ _); [by apply alike_fetch_opt|apply alike_ret]. }
  intros team. apply alike_bind; [by apply alike_fetch|]. intros comp.
  apply alike_bind; [|intros; apply alike_ret]. destruct (is_none _); [apply alike_ret|].
  unfold _auto_fill_snapshots. repeat (apply alike_bind; [by apply alike_fetch_opt|intros ?]).
  apply alike_ret.
Qed.

(** [b] is [a] up to the copied names and the club and board of the player. *)
Definition same_entrant (a b : PoomsaeEnrollment) : Prop :=
  pe_competition b = pe_competition a ∧ pe_player b = pe_player a ∧ pe_coach b = pe_coach a ∧
  pe_team b = pe_team a ∧ pe_mode b = pe_mode a ∧ pe_poomsae_type b = pe_poomsae_type a ∧
  pe_belt_group b = pe_belt_group a ∧ pe_age_category b = pe_age_category a ∧
  pe_insurance_number b = pe_insurance_number a ∧ pe_insurance_issue_date b = pe_insurance_issue_date a ∧
  pe_coach_approval_code b = pe_coach_approval_code a.

Definition same_payment (a b : PoomsaeEnrollment) : Prop :=
  pe_is_paid b = pe_is_paid a ∧ pe_status b = pe_status a ∧ pe_paid_amount b = pe_paid_amount a ∧
  pe_bank_ref_code b = pe_bank_ref_code a ∧ pe_paid_at b = pe_paid_at a.

Lemma fill_keeps pe d pe' d' : _auto_fill_snapshots pe d = (Ok pe', d') →
  same_entrant pe pe' ∧ same_payment pe pe'.
Proof.
  unfold _auto_fill_snapshots. do 4 (intros (? & ? & _ & H)%bind_ok; revert H).
  intros [= <- _]. unfold same_entrant, same_payment. by repeat case_match.
Qed.

Lemma clean_keeps pe d r d' : pe_clean pe d = (Ok r, d') → same_entrant pe r.2 ∧ same_payment pe r.2.
Proof.
  unfold pe_clean. do 2 (intros (? & ? & _ & H)%bind_ok; revert H).
  intros (pe' & d1 & H & [= <- _])%bind_ok. cbn. destruct (is_none _); [|by eapply fill_keeps].
  by injection H as <- _.
Qed.

(** Saving an existing entry: accepted or refused by what [entry_tables] hold, and
    when accepted one row is written, the entry with its snapshots. *)
Lemma save_poomsae_alike k pe d d' : entry_tables d' = entry_tables d →
  match save_poomsae (Some k) pe d with
  | (Ok _, _) => ∃ pe', same_entrant pe pe' ∧ same_payment pe pe' ∧
      save_poomsae (Some k) pe d' =
        (Ok k, set_db_poomsae_enrollments (<[k := pe']> (db_poomsae_enrollments d')) d')
  | (Err e, _) => save_poomsae (Some k) pe d' = (Err e, d')
  end.
Proof.
  intros Ht. destruct (alike_clean d d' pe Ht) as [H1 H2].
  assert (Hrun : ∀ d0, save_poomsae (Some k) pe d0 = match pe_clean pe d0 with
    | (Ok r, d1) => if fields_ok pe d0 && r.1 && constraints_ok (Some k) r.2 d0
                    then (Ok k, set_db_poomsae_enrollments (<[k := r.2]> (db_poomsae_enrollments d1)) d1)
                    else (Err ValidationError, d1)
    | (Err e, d1) => (Err e, d1) end).
  { intros d0. unfold save_poomsae, bind at 1 2, get. destruct (pe_clean pe d0) as [[r|e] d1]; [|done].
    by destruct (_ && _). }
  rewrite !Hrun, H2. destruct (pe_clean pe d) as [[r|e] d1] eqn:Ec; cbn [fst] in *; [|done].
  injection H1 as ->.
  assert (Hf : fields_ok pe d' = fields_ok pe d).
  { injection Ht as E1 E2 E3 E4 E5 _. unfold fields_ok, coach_ok. by rewrite E1, E2, E3, E4, E5. }
  assert (Hc : constraints_ok (Some k) r.2 d' = constraints_ok (Some k) r.2 d).
  { injection Ht as _ _ _ _ _ E6. unfold constraints_ok. by rewrite E6. }
  rewrite Hf, Hc. destruct (_ && constraints_ok _ _ _); [|done].
  cbn. exists r.2. split_and!; [| |done]; by eapply clean_keeps.
Qed.
End saving.

(** ** Entries stay unique *)

Section unique.
Context {P : Type}.
Implicit Types d : DB P.

(** Every entry has a player or a team according to its mode, no player enters a
    competition twice in one style and no team enters it twice. *)
Definition entries_ok d : Prop :=
  map_Forall (λ _ pe, mode_constraint pe = true) (db_poomsae_enrollments d) ∧
  ∀ k1 k2 a b, db_poomsae_enrollments d !! k1 = Some a → db_poomsae_enrollments d !! k2 = Some b →
    same_entry a b = true → k1 = k2.

Lemma same_entry_sym a b : same_entry a b = true → same_entry b a = true.
Proof.
  unfold same_entry. rewrite !andb_true_iff, !String.eqb_eq, !Z.eqb_eq.
  intros [[Hm Hc] He]. rewrite <- Hm, <- Hc. split; [done|].
  destruct (String.eqb_spec (pe_mode a) "single").
  - rewrite !andb_true_iff, !bool_decide_eq_true, String.eqb_eq in *.
    destruct He as [[Hp He] Ht]. by rewrite <- He, <- Ht.
  - rewrite !andb_true_iff, !bool_decide_eq_true in *. destruct He as [[Hs Hp] He].
    by rewrite <- He.
Qed.

Lemma save_poomsae_ok pk pe d k d' : save_poomsae pk pe d = (Ok k, d') →
  ∃ pe', db_poomsae_enrollments d' = <[k := pe']> (db_poomsae_enrollments d) ∧
    constraints_ok pk pe' d = true ∧ (∀ k0, pk = Some k0 → k0 = k).
Proof.
  unfold save_poomsae. intros (d0 & d1 & Hg & H1)%bind_ok. injection Hg as <- <-.
  apply bind_ok in H1 as (r & d2 & Hr & H1).
  assert (d2 = d) as ->.
  { assert (Hreads : reads (pe_clean (P := P) pe)).
    { unfold pe_clean. apply reads_bind; [destruct (String.eqb _ _); auto with reads|].
      intros team. apply reads_bind; [auto with reads|]. intros comp.
      apply reads_bind; [|intros; apply reads_ret]. destruct (is_none _); [apply reads_ret|].
      unfold _auto_fill_snapshots. repeat (apply reads_bind; [auto with reads|intros ?]).
      apply reads_ret. }
    pose proof (Hreads d) as Hd. by rewrite Hr in Hd. }
  destruct (_ && constraints_ok pk r.2 d) eqn:Ec; [|done].
  apply andb_true_iff in Ec as [_ Ec].
  apply bind_ok in H1 as (k' & d3 & Hk & H1). apply bind_ok in H1 as ([] & d4 & [= <-] & [= -> <-]).
  exists r.2. destruct pk as [k0|]; injection Hk as <- <-; (split_and!; [done..|naive_solver]).
Qed.
End unique.

(** Entries stay unique. Saving a poomsae entry, new or changed, keeps the rules
    of the table: each entry has a player or a team as its mode says, no player is
    in one competition and style twice, and no team in one competition twice. *)
Theorem poomsae_entries_stay_unique {P} pk pe (d : DB P) r d' :
  entries_ok d → save_poomsae pk pe d = (Ok r, d') → entries_ok d'.
Proof.
  intros [Hm Hu] Hs. apply save_poomsae_ok in Hs as (pe' & He & Hc & Hpk).
  apply andb_true_iff in Hc as [Hmode Hall]. rewrite forallb_forall in Hall.
  assert (Hnew : ∀ k b, k ≠ r → db_poomsae_enrollments d !! k = Some b → same_entry pe' b = false).
  { intros k b Hne Hb. specialize (Hall (k, b)). rewrite <- list_elem_of_In, elem_of_map_to_list in Hall.
    specialize (Hall Hb). cbn in Hall. apply orb_true_iff in Hall as [Hk|Hk].
    - apply bool_decide_eq_true in Hk. symmetry in Hk. apply Hpk in Hk. congruence.
    - by apply negb_true_iff in Hk. }
  split; [rewrite He; by apply map_Forall_insert_2|]. rewrite He.
  intros k1 k2 a b [[<- <-]|[Hn1 Ha]]%lookup_insert_Some [[<- <-]|[Hn2 Hb]]%lookup_insert_Some Hs.
  - done.
  - rewrite (Hnew k2 b) in Hs by done. done.
  - apply same_entry_sym in Hs. rewrite (Hnew k1 a) in Hs by done. done.
  - by apply (Hu k1 k2 a b).
Qed.

(** A competition on day 100 and its first entry. *)
Definition poomsae_sample : DB unit :=
  set_db_poomsae_comps
    {[ 7 := mkPoomsaeCompetition "cup" None 100 101 50 90 (Some 100) 1000 2 "p" ]}
    (set_db_profiles {[ 10 := mkUserProfile "p" "q" false "player" "male" None None None tt tt 0 0 0 ]}
      (empty_db 20)).

Definition poomsae_entry : PoomsaeEnrollment :=
  mkPoomsaeEnrollment 7 (Some 10) None "" "" None "" None "" None None "standard" "single" "123" 50
    None "pending_payment" false 0 "" None.

Lemma poomsae_entries_stay_unique_witness :
  entries_ok (save_poomsae None poomsae_entry poomsae_sample).2.
Proof.
  apply (poomsae_entries_stay_unique None poomsae_entry poomsae_sample 20).
  - split; [apply map_Forall_empty|]. intros k1 k2 a b Ha.
    change (db_poomsae_enrollments poomsae_sample) with (∅ : gmap Z PoomsaeEnrollment) in Ha.
    by rewrite lookup_empty in Ha.
  - vm_compute. reflexivity.
Defined.
