(* ===== verification/Discounts.v ===== *)
(** Discount codes: [payments/discounts.py], [competitions.DiscountCode] and the
    separate codes of [apps/discounts] with their two implementations.

    [iexact] is the database's case-insensitive comparison ([code__iexact]). *)

From S2P Require Import Prelude Store Ranking.
Local Open Scope Z_scope.

(** [DiscountCode.remaining_uses] *)
Definition remaining_uses (dc : DiscountCode) : option Z :=
  match dc_max_uses dc with
  | None => None
  | Some m => Some (Z.max (m - dc_used_count dc) 0)
  end.

(** [DiscountCode.clean]: at most one target. *)
Definition discount_clean (dc : DiscountCode) : result unit :=
  let n (o : option Z) := if is_none o then 0 else 1 in
  if 1 <? n (dc_competition dc) + n (dc_poomsae_competition dc) + n (dc_seminar dc)
  then Err ValidationError else Ok tt.

(** [max_uses not in (None, 0) and used_count >= max_uses] *)
Definition exhausted (dc : DiscountCode) (used : Z) : bool :=
  match dc_max_uses dc with
  | Some m => negb (m =? 0) && (m <=? used)
  | None => false
  end.

(** The competition a price is asked for. *)
Inductive comp_ref := Kyorugi (k : Z) | Poomsae (k : Z).

(** [Q(field=v) | Q(field__isnull=True)] *)
Definition is_or_null (o : option Z) (v : Z) : bool :=
  match o with Some x => x =? v | None => true end.

(** The competition filter. [DiscountCode] has no [kyorugi_competition] field, so the
    first branch of the code adds nothing. *)
Definition scope_cond (comp : comp_ref) (dc : DiscountCode) : bool :=
  match comp with
  | Kyorugi k => is_or_null (dc_competition dc) k
  | Poomsae k => is_or_null (dc_poomsae_competition dc) k || is_none (dc_competition dc)
  end.

Section discounts.
Context {P : Type} (iexact : string → string → bool).
Local Abbreviation db := (DB P).

(** The query: code, competition, active, first by primary key. *)
Definition find_code (d : db) (competition : option comp_ref) (code_str : string)
    : option (Z * DiscountCode) :=
  head (List.filter (λ kc, iexact (dc_code kc.2) code_str
                           && match competition with Some c => scope_cond c kc.2 | None => true end
                           && dc_active kc.2)
         (rows_by_id (db_discount_codes d))).

Definition apply_discount_for_competition (competition : option comp_ref) (base_amount : Z)
    (code_str : string) (commit : bool) : M db (Z * option Z * Z) :=
  (let code_str := strip code_str in
   raise_if (base_amount <? 0) ValidationError ;;
   raise_if ((0 <? base_amount) && (base_amount <? 10000)) ValidationError ;;
   if negb (truthy_str code_str) then ret (base_amount, None, 0)
   else
     d <~ get ;;
     match find_code d competition code_str with
     | None => raise ValidationError
     | Some (k, dc) =>
         raise_if (exhausted dc (dc_used_count dc)) ValidationError ;;
         let percent := dc_percent dc in
         raise_if ((percent <? 0) || (100 <? percent)) ValidationError ;;
         if percent <=? 0 then ret (base_amount, Some k, 0)
         else
           let discount_amount := base_amount * percent / 100 in
           let final_amount := Z.max (base_amount - discount_amount) 0 in
           _ <~ (if commit then
                   modify (λ d, set_db_discount_codes
                     (alter (set_dc_used_count (dc_used_count dc + 1)) k (db_discount_codes d)) d)
                 else ret tt) ;;
           raise_if (final_amount <? 0) ValidationError ;;
           raise_if (discount_amount <? 0) ValidationError ;;
           raise_if (base_amount <? discount_amount) ValidationError ;;
           ret (final_amount, Some k, discount_amount)
     end)%monad.
End discounts.

(** ** The codes of [apps/discounts] *)

Record EventCode := mkEventCode {
  ec_code : string;
  ec_amount : Z;
  ec_capacity : Z;
  ec_used_count : Z;
  ec_is_active : bool;
  ec_target_type : option string;
  ec_target_id : option Z;
}.

Definition remaining_capacity (c : EventCode) : Z := Z.max 0 (ec_capacity c - ec_used_count c).

Section event_codes.
Context (iexact : string → string → bool).

(** [DiscountCode.objects.get(code__iexact=code, is_active=True)] *)
Definition get_code (codes : list EventCode) (code : string) : result EventCode :=
  match List.filter (λ c, iexact (ec_code c) code && ec_is_active c) codes with
  | [] => Err DoesNotExist
  | [c] => Ok c
  | _ => Err OtherError
  end.

(** [d.target_type and d.target_id], and whether they are the ones asked for. *)
Definition targeted (c : EventCode) : bool :=
  match ec_target_type c with Some t => truthy_str t | None => false end && truthy_id (ec_target_id c).

Definition target_matches (c : EventCode) (ttype : option string) (tid : option Z) : bool :=
  bool_decide (ttype = ec_target_type c) && bool_decide (tid = ec_target_id c).

(** [compute_payable]: payable, discount, code, message. *)
Definition compute_payable (codes : list EventCode) (base_amount : Z) (code : option string)
    (target_type : option string) (target_id : option Z)
    : result (Z * Z * option string * string) :=
  match code with
  | None => Ok (base_amount, 0, None, "no-code")
  | Some code =>
      if negb (truthy_str code) then Ok (base_amount, 0, None, "no-code")
      else
        match get_code codes code with
        | Err DoesNotExist => Ok (base_amount, 0, None, "not-found")
        | Err e => Err e
        | Ok d =>
            if targeted d && negb (target_matches d target_type target_id)
            then Ok (base_amount, 0, None, "invalid-target")
            else if remaining_capacity d <=? 0 then Ok (base_amount, 0, None, "capacity-exhausted")
            else
              let discount := Z.min base_amount (ec_amount d) in
              Ok (base_amount - discount, discount, Some (ec_code d), "ok")
        end
  end.

(** The response of [ApplyDiscountCodeView]: HTTP status, valid, discount, payable. *)
Record code_response := mkCodeResponse {
  cr_status : Z;
  cr_valid : bool;
  cr_discount_amount : Z;
  cr_payable_amount : Z;
}.

(** [ApplyDiscountCodeView.post] on validated data. *)
Definition apply_code_view (codes : list EventCode) (code : string) (base : Z)
    (ttype : option string) (tid : option Z) : result code_response :=
  match get_code codes code with
  | Err DoesNotExist => Ok (mkCodeResponse 404 false 0 base)
  | Err e => Err e
  | Ok d =>
      if targeted d && negb (target_matches d ttype tid)
      then Ok (mkCodeResponse 400 false 0 base)
      else if remaining_capacity d <=? 0 then Ok (mkCodeResponse 400 false 0 base)
      else
        let discount := Z.min base (ec_amount d) in
        Ok (mkCodeResponse 200 true discount (base - discount))
  end.
End event_codes.

(** ** Correctness *)

Section correctness.
Context {P : Type} (iexact : string → string → bool).
Implicit Types d : DB P.

Lemma find_code_some d comp code k dc : find_code iexact d comp code = Some (k, dc) →
  db_discount_codes d !! k = Some dc ∧ iexact (dc_code dc) code = true ∧ dc_active dc = true ∧
  (∀ c, comp = Some c → scope_cond c dc = true).
Proof.
  unfold find_code. intros Hh.
  assert (Hin : (k, dc) ∈ List.filter (λ kc : Z * DiscountCode, iexact (dc_code kc.2) code
    && match comp with Some c => scope_cond c kc.2 | None => true end && dc_active kc.2)
    (rows_by_id (db_discount_codes d))).
  { destruct (List.filter _ _); [done|]. injection Hh as ->. left. }
  apply elem_of_filter_list in Hin as [Hin Hb]. rewrite elem_of_rows_by_id in Hin. cbn in Hb.
  rewrite !andb_true_iff in Hb. destruct Hb as [[? Hs] ?]. split_and!; try done.
  intros c ->. done.
Qed.

Lemma find_code_none d comp code : find_code iexact d comp code = None →
  ∀ k dc, db_discount_codes d !! k = Some dc → iexact (dc_code dc) code = true →
  dc_active dc = true → ∃ c, comp = Some c ∧ scope_cond c dc = false.
Proof.
  unfold find_code. intros Hh k dc Hk Hi Ha. destruct comp as [c|].
  - exists c. split; [done|]. apply not_true_is_false. intros Hs.
    assert (Hin : (k, dc) ∈ List.filter (λ kc : Z * DiscountCode, iexact (dc_code kc.2) code
      && scope_cond c kc.2 && dc_active kc.2) (rows_by_id (db_discount_codes d))).
    { apply elem_of_filter_list. rewrite elem_of_rows_by_id. cbn. by rewrite Hi, Hs, Ha. }
    destruct (List.filter _ _); [by apply not_elem_of_nil in Hin|done].
  - assert (Hin : (k, dc) ∈ List.filter (λ kc : Z * DiscountCode, iexact (dc_code kc.2) code
      && true && dc_active kc.2) (rows_by_id (db_discount_codes d))).
    { apply elem_of_filter_list. rewrite elem_of_rows_by_id. cbn. by rewrite Hi, Ha. }
    destruct (List.filter _ _); [by apply not_elem_of_nil in Hin|done].
Qed.
End correctness.

(** Price and discount of a successful computation add up to the base. *)
Lemma price_adds_up {P} iexact (d : DB P) comp base code commit final k disc d' :
  apply_discount_for_competition iexact comp base code commit d = (Ok (final, k, disc), d') →
  final + disc = base ∧ 0 ≤ final ∧ 0 ≤ disc ∧ (commit = false → d' = d) ∧
  match k with Some k => is_Some (db_discount_codes d !! k) | None => disc = 0 end.
Proof.
  unfold apply_discount_for_competition.
  destruct (Z.ltb_spec base 0); [done|]. destruct (_ && _); [done|].
  destruct (negb _); [intros [= <- <- <- <-]; by split_and!; try lia|].
  unfold bind at 1, get. destruct (find_code _ _ _ _) as [[k0 dc]|] eqn:Ef; [|done].
  apply find_code_some in Ef as (Hk & _).
  destruct (exhausted _ _); [done|]. destruct (_ || _); [done|].
  destruct (_ <=? 0); [intros [= <- <- <- <-]; by split_and!; try lia|]. unfold bind at 1.
  destruct ((if commit return M (DB P) unit then modify (λ d, set_db_discount_codes
      (alter (set_dc_used_count (dc_used_count dc + 1)) k0 (db_discount_codes d)) d)
      else ret tt) d) as [[[]|e] d1] eqn:Ec; [|done].
  destruct (Z.ltb_spec (Z.max (base - base * dc_percent dc / 100) 0) 0); [done|].
  destruct (Z.ltb_spec (base * dc_percent dc / 100) 0); [done|].
  destruct (Z.ltb_spec base (base * dc_percent dc / 100)); [done|]. intros [= <- <- <- <-].
  split_and!; try done; try lia. intros ->. by injection Ec.
Qed.

(** What a price with a code is. When [apply_discount_for_competition] succeeds,
    the final price and the discount are non-negative and add up to the base; with a
    code, the discount is the code's percentage rounded down, the code is active,
    fits the competition filter and is not used up; without [commit] nothing is
    written. *)
Theorem discounted_price {P} iexact (d : DB P) comp base code commit final k disc d' :
  apply_discount_for_competition iexact comp base code commit d = (Ok (final, k, disc), d') →
  0 ≤ final ∧ 0 ≤ disc ∧ final + disc = base ∧ (base = 0 ∨ 10000 ≤ base) ∧
  (commit = false → d' = d) ∧
  match k with
  | None => disc = 0 ∧ strip code = ""
  | Some k => ∃ dc, db_discount_codes d !! k = Some dc ∧ iexact (dc_code dc) (strip code) = true ∧
      dc_active dc = true ∧ (∀ c, comp = Some c → scope_cond c dc = true) ∧
      0 ≤ dc_percent dc ≤ 100 ∧ disc = base * dc_percent dc / 100 ∧
      (∀ m, dc_max_uses dc = Some m → m ≠ 0 → dc_used_count dc < m)
  end.
Proof.
  unfold apply_discount_for_competition.
  destruct (Z.ltb_spec base 0); [done|].
  destruct ((0 <? base) && (base <? 10000)) eqn:Eb; [done|].
  assert (Hbase : base = 0 ∨ 10000 ≤ base) by bool_lia.
  destruct (truthy_str (strip code)) eqn:Et; cbn [negb].
  2: { intros [= <- <- <- <-]. split_and!; try done; try lia.
       unfold truthy_str in Et. apply negb_false_iff, String.eqb_eq in Et. done. }
  unfold bind at 1, get. destruct (find_code iexact d comp (strip code)) as [[k0 dc]|] eqn:Ef; [|done].
  apply find_code_some in Ef as (Hk & Hi & Ha & Hs).
  destruct (exhausted dc (dc_used_count dc)) eqn:Ex; [done|].
  assert (Huse : ∀ m, dc_max_uses dc = Some m → m ≠ 0 → dc_used_count dc < m).
  { intros m Hm Hm0. unfold exhausted in Ex. rewrite Hm in Ex. bool_lia. }
  destruct ((dc_percent dc <? 0) || (100 <? dc_percent dc)) eqn:Ep; [done|].
  assert (Hper : 0 ≤ dc_percent dc ≤ 100) by bool_lia.
  destruct (Z.leb_spec (dc_percent dc) 0).
  { intros [= <- <- <- <-]. assert (Hz : dc_percent dc = 0) by lia. split_and!; try done; try lia.
    exists dc. rewrite Hz at 3. rewrite Z.mul_0_r. split_and!; try done; lia. }
  assert (Hd : 0 ≤ base * dc_percent dc / 100 ≤ base).
  { split; [apply Z.div_pos; nia|]. apply Z.div_le_upper_bound; nia. }
  unfold bind. assert (Hc : ∃ d1, (if commit then modify (λ d, set_db_discount_codes
      (alter (set_dc_used_count (dc_used_count dc + 1)) k0 (db_discount_codes d)) d)
      else ret tt) d = (Ok tt, d1) ∧ (commit = false → d1 = d)).
  { destruct commit; [by eexists|by exists d]. }
  destruct Hc as (d1 & -> & Hd1).
  repeat (match goal with |- context [if (?a <? ?b) then _ else _] => destruct (Z.ltb_spec a b); [done|] end).
  intros [= <- <- <- <-]. split_and!; try done; try lia. exists dc. done.
Qed.

(** A code restricted to one poomsae competition is not restricted: an active,
    unexhausted code of a valid percentage whose target is poomsae competition [p0]
    (and which names no kyorugi competition) prices every other poomsae competition
    and every kyorugi competition as well. *)
Theorem poomsae_code_applies_everywhere {P} iexact (d : DB P) k dc p0 comp base code :
  db_discount_codes d = {[ k := dc ]} → iexact (dc_code dc) (strip code) = true →
  strip code ≠ "" → dc_active dc = true → dc_competition dc = None →
  dc_poomsae_competition dc = Some p0 → 1 ≤ dc_percent dc ≤ 100 →
  exhausted dc (dc_used_count dc) = false → 10000 ≤ base →
  apply_discount_for_competition iexact (Some comp) base code false d =
    (Ok (base - base * dc_percent dc / 100, Some k, base * dc_percent dc / 100), d).
Proof.
  intros Hd Hi Hne Ha Hc Hp Hper Hex Hb. unfold apply_discount_for_competition.
  destruct (Z.ltb_spec base 0); [lia|]. destruct ((0 <? base) && (base <? 10000)) eqn:Eb; [bool_lia|].
  assert (truthy_str (strip code) = true) as ->.
  { apply negb_true_iff. by apply String.eqb_neq. }
  cbn [negb]. unfold bind at 1, get.
  assert (find_code iexact d (Some comp) (strip code) = Some (k, dc)) as ->.
  { unfold find_code, rows_by_id. rewrite Hd, map_to_list_singleton. cbn.
    rewrite Hi, Ha. unfold scope_cond. destruct comp; rewrite Hc; cbn; by rewrite ?orb_true_r. }
  rewrite Hex. destruct ((dc_percent dc <? 0) || (100 <? dc_percent dc)) eqn:Ep; [bool_lia|].
  destruct (Z.leb_spec (dc_percent dc) 0); [lia|]. unfold bind, ret.
  assert (Hq : 0 ≤ base * dc_percent dc / 100 ≤ base).
  { split; [apply Z.div_pos; nia|]. apply Z.div_le_upper_bound; nia. }
  destruct (Z.ltb_spec (Z.max (base - base * dc_percent dc / 100) 0) 0); [lia|].
  destruct (Z.ltb_spec (base * dc_percent dc / 100) 0); [lia|].
  destruct (Z.ltb_spec base (base * dc_percent dc / 100)); [lia|].
  do 4 f_equal. lia.
Qed.

(** The two implementations for event codes agree. For a non-empty code the view
    and [compute_payable] fail together, and otherwise give the same discount and
    price, which add up to the base; the view answers 200 exactly when
    [compute_payable] answers "ok". *)
Theorem event_code_view_agrees iexact codes code base ttype tid :
  code ≠ "" → 0 ≤ base → Forall (λ c, 0 ≤ ec_amount c) codes →
  match apply_code_view iexact codes code base ttype tid,
        compute_payable iexact codes base (Some code) ttype tid with
  | Ok r, Ok (payable, discount, _, msg) =>
      cr_payable_amount r = payable ∧ cr_discount_amount r = discount ∧
      payable + discount = base ∧ 0 ≤ payable ∧ 0 ≤ discount ∧
      (cr_valid r = true ↔ msg = "ok") ∧ (cr_valid r = true ↔ cr_status r = 200)
  | Err e, Err e' => e = e'
  | _, _ => False
  end.
Proof.
  intros Hne Hb Hall. unfold apply_code_view, compute_payable.
  assert (truthy_str code = true) as -> by by apply negb_true_iff, String.eqb_neq.
  cbn [negb]. destruct (get_code iexact codes code) as [d|e] eqn:Eg.
  - assert (Hd : 0 ≤ ec_amount d).
    { rewrite Forall_forall in Hall. apply Hall. unfold get_code in Eg.
      assert (Hin : d ∈ List.filter (λ c, iexact (ec_code c) code && ec_is_active c) codes).
      { destruct (List.filter _ codes) as [|x [|? ?]]; [done| |done]. injection Eg as ->. left. }
      by apply elem_of_filter_list in Hin as [? _]. }
    destruct (targeted d && negb (target_matches d ttype tid)); [cbn; split_and!; try lia; done|].
    destruct (remaining_capacity d <=? 0); cbn; split_and!; try lia; done.
  - destruct e; try done. cbn. split_and!; try lia; done.
Qed.

(** ** Examples *)

(** A 15 percent code for poomsae competition 3, ten uses. *)
Definition poomsae_code : DiscountCode :=
  mkDiscountCode "CHB" 1 STUDENT 15 None (Some 3) None (Some 10) 4 true.
Definition code_db : DB unit := set_db_discount_codes {[ 1 := poomsae_code ]} (empty_db 2).

Lemma discounted_price_witness : 0 ≤ 84998 ∧ 0 ≤ 14999 ∧ 84998 + 14999 = 99997.
Proof.
  destruct (discounted_price String.eqb code_db (Some (Poomsae 3)) 99997 " CHB " false 84998 (Some 1)
    14999 code_db) as (H1 & H2 & H3 & _); [vm_compute; reflexivity|].
  exact (conj H1 (conj H2 H3)).
Defined.

Lemma poomsae_code_applies_everywhere_witness :
  apply_discount_for_competition String.eqb (Some (Kyorugi 8)) 100000 "CHB" false code_db =
    (Ok (85000, Some 1, 15000), code_db).
Proof.
  apply (poomsae_code_applies_everywhere String.eqb code_db 1 poomsae_code 3 (Kyorugi 8) 100000 "CHB");
    first [reflexivity | discriminate | (cbn; lia) | lia].
Defined.

Lemma event_code_view_agrees_witness :
  let c := mkEventCode "A" 700 3 1 true (Some "seminar"%string) (Some 9) in
  match apply_code_view String.eqb [c] "A" 500 (Some "seminar"%string) (Some 9),
        compute_payable String.eqb [c] 500 (Some "A"%string) (Some "seminar"%string) (Some 9) with
  | Ok r, Ok (payable, discount, _, _) => cr_payable_amount r = payable ∧ cr_discount_amount r = discount
  | _, _ => False
  end.
Proof.
  pose proof (event_code_view_agrees String.eqb
    [mkEventCode "A" 700 3 1 true (Some "seminar"%string) (Some 9)] "A" 500
    (Some "seminar"%string) (Some 9)) as Hag.
  cbn in *. destruct Hag as (H1 & H2 & _); [discriminate|lia|repeat constructor; cbn; lia|].
  exact (conj H1 H2).
Defined.
