(* ===== verification/Payments.v ===== *)
(** Payments: [payments/models.py] and the handlers of [payments/views.py].

    A [PaymentIntent] instance is the row a handler fetched, with its own changes;
    saving writes the named columns back.  Records of the bank gateway package
    ([Bank]) are an argument: a lookup by tracking code. *)

From Stdlib Require Import Ascii.
From stdpp Require Import pretty.
From S2P Require Import Prelude Store Points Ranking Poomsae Discounts.
Local Open Scope Z_scope.

(** ** The payment intent *)

Definition is_paid (i : PaymentIntent) : bool := bool_decide (pi_status i = St_paid).

Definition needs_redirect (i : PaymentIntent) : bool :=
  bool_decide (pi_status i = St_initiated ∨ pi_status i = St_failed)
  && bool_decide (pi_gateway i ∈ ["sadad"; "bmi"; "fake"]).

Definition can_retry (i : PaymentIntent) : bool := bool_decide (pi_status i = St_failed).

Definition amount_toman (i : PaymentIntent) : Z := pi_amount i / 10.

(** The check constraint [payments_at_most_one_target_fk]. *)
Definition at_most_one_target (i : PaymentIntent) : bool :=
  let n (o : option Z) := if is_none o then 0 else 1 in
  n (pi_kyorugi_enrollment i) + n (pi_poomsae_enrollment i) + n (pi_seminar_registration i) <=? 1.

(** [PaymentIntent.clean] of a saved intent. *)
Definition intent_clean (i : PaymentIntent) : result unit :=
  if bool_decide (pi_kyorugi_enrollments i ≠ [])
     && (truthy_id (pi_kyorugi_enrollment i) || truthy_id (pi_poomsae_enrollment i)
         || truthy_id (pi_seminar_registration i))
  then Err ValidationError else Ok tt.

(** Truthiness of a JSON value. *)
Definition json_truthy (j : json) : bool :=
  match j with
  | JNull => false
  | JBool b => b
  | JInt z => negb (z =? 0)
  | JStr s => truthy_str s
  | JList l => negb (bool_decide (length l = 0%nat))
  | JDict l => negb (bool_decide (length l = 0%nat))
  end.

Definition opt_str (o : option string) : string := default "" o.

Section intent.
Context {P : Type} `{PointArith P}.
Local Abbreviation db := (DB P).

(** [self.save(update_fields=[..])]: [upd] copies those columns onto the row. *)
Definition save_intent (k : Z) (upd : PaymentIntent → PaymentIntent) : M db unit :=
  (d <~ get ;;
   match db_intents d !! k with
   | None => raise OtherError
   | Some _ => put (set_db_intents (alter upd k (db_intents d)) d)
   end)%monad.

Definition copy_result (self row : PaymentIntent) : PaymentIntent :=
  set_pi_status (pi_status self) (set_pi_ref_id (pi_ref_id self)
    (set_pi_card_pan (pi_card_pan self) (set_pi_extra (pi_extra self) row))).

(** [_mark_enrollment_paid]: the changed enrollment, and whether it changed. *)
Definition paid_enrollment (self : PaymentIntent) (set_paid_amount : bool) (e : Enrollment)
    : Enrollment * bool :=
  let '(e, c) := if en_is_paid e then (e, false) else (set_en_is_paid true e, true) in
  let '(e, c) := if set_paid_amount && (en_paid_amount e =? 0)
                 then (set_en_paid_amount (pi_amount self) e, true) else (e, c) in
  let '(e, c) := if String.eqb (en_status e) "paid" then (e, c)
                 else (set_en_status "paid" e, true) in
  if truthy_str (en_bank_ref_code e) then (e, c)
  else (set_en_bank_ref_code (pi_ref_id self) e, true).

Definition _mark_enrollment_paid (self : PaymentIntent) (set_paid_amount : bool) (k : Z) : M db unit :=
  (e <~ fetch db_enrollments k ;;
   let r := paid_enrollment self set_paid_amount e in
   if r.2 then save_enrollment k r.1 else ret tt)%monad.

Definition paid_poomsae (self : PaymentIntent) (e : PoomsaeEnrollment) : PoomsaeEnrollment * bool :=
  let '(e, c) := if pe_is_paid e then (e, false) else (set_pe_is_paid true e, true) in
  let '(e, c) := if pe_paid_amount e =? 0
                 then (set_pe_paid_amount (pi_amount self) e, true) else (e, c) in
  let '(e, c) := if String.eqb (pe_status e) "paid" then (e, c)
                 else (set_pe_status "paid" e, true) in
  if truthy_str (pe_bank_ref_code e) then (e, c)
  else (set_pe_bank_ref_code (pi_ref_id self) e, true).

Definition mark_poomsae_paid (self : PaymentIntent) (k : Z) : M db unit :=
  (e <~ fetch db_poomsae_enrollments k ;;
   let r := paid_poomsae self e in
   if r.2 then (_ <~ save_poomsae (Some k) r.1 ;; ret tt) else ret tt)%monad.

(** [SeminarRegistration.mark_paid] *)
Definition seminar_mark_paid (k : Z) (amount : Z) (ref_code : string) (now : Z) : M db unit :=
  (sr <~ fetch db_seminar_regs k ;;
   if sr_is_paid sr then ret tt
   else
     let s1 := set_sr_paid_amount amount (set_sr_is_paid true sr) in
     let s2 := if truthy_str ref_code then set_sr_bank_ref_code ref_code s1 else s1 in
     modify (λ d, set_db_seminar_regs (<[k := set_sr_paid_at (Some now) s2]> (db_seminar_regs d)) d))%monad.

(** The kyorugi enrollments of the many-to-many field that exist. *)
Definition bulk_targets (d : db) (self : PaymentIntent) : list Z :=
  List.filter (λ e, negb (is_none (db_enrollments d !! e))) (pi_kyorugi_enrollments self).

Definition when_some (o : option Z) (f : Z → M db unit) : M db unit :=
  match o with Some k => if k =? 0 then ret tt else f k | None => ret tt end.

Definition _apply_success_to_targets (self : PaymentIntent) (now : Z) : M db unit :=
  (d <~ get ;;
   _ <~ forM (bulk_targets d self) (_mark_enrollment_paid self false) ;;
   _ <~ when_some (pi_kyorugi_enrollment self) (_mark_enrollment_paid self true) ;;
   _ <~ when_some (pi_poomsae_enrollment self) (mark_poomsae_paid self) ;;
   when_some (pi_seminar_registration self) (λ k,
     seminar_mark_paid k (pi_amount self) (pi_ref_id self) now))%monad.

(** Counting the use of the intent's discount code. *)
Definition used_once (dc : DiscountCode) : DiscountCode :=
  let dc' := set_dc_used_count (dc_used_count dc + 1) dc in
  if exhausted dc (dc_used_count dc + 1) then set_dc_active false dc' else dc'.

Definition count_discount (self : PaymentIntent) : M db unit :=
  modify (λ d, match pi_discount_code self with
               | Some k => set_db_discount_codes (alter used_once k (db_discount_codes d)) d
               | None => d
               end).

(** [PaymentIntent.mark_paid] on the instance [self] of row [k]; the instance as it
    is afterwards. *)
Definition intent_mark_paid (k : Z) (self : PaymentIntent) (ref_id card_pan : option string)
    (extra : json) (now : Z) : M db PaymentIntent :=
  atomic (
    if is_paid self then ret self
    else
      let s1 := if truthy_str (opt_str ref_id) then set_pi_ref_id (opt_str ref_id) self else self in
      let s2 := if truthy_str (opt_str card_pan) then set_pi_card_pan (opt_str card_pan) s1 else s1 in
      let s3 := if json_truthy extra
                then set_pi_extra (match extra with JDict _ => extra | _ => JDict [("extra", extra)] end) s2
                else s2 in
      let s4 := set_pi_status St_paid s3 in
      _ <~ save_intent k (copy_result s4) ;;
      _ <~ _apply_success_to_targets s4 now ;;
      _ <~ count_discount s4 ;;
      ret s4)%monad.

(** [PaymentIntent.issue_payment_link]; [lt] is the random token. *)
Definition issue_payment_link (k : Z) (lt : string) (now minutes : Z) : M db string :=
  (_ <~ save_intent k (λ row, set_pi_payment_link_token lt
          (set_pi_payment_link_expires_at (Some (now + 60 * minutes)) row)) ;;
   ret lt)%monad.
End intent.

(** ** Group registrations *)

(** [_split_amounts] *)
Definition _split_amounts (total n : Z) : list Z :=
  if n <=? 0 then []
  else
    let base := total / n in
    let rem := total - base * n in
    (λ i, if i <? rem then base + 1 else base) <$> py_range 0 n.

(** [re.search(r"GP#(\d+)", desc)] and [int] of the group. *)
Definition digit (c : Ascii.ascii) : option Z :=
  let n := Z.of_nat (Ascii.nat_of_ascii c) in
  if (48 <=? n) && (n <=? 57) then Some (n - 48) else None.

Fixpoint digits (acc : option Z) (s : string) : option Z :=
  match s with
  | EmptyString => acc
  | String c s' =>
      match digit c with
      | Some v => digits (Some (10 * default 0 acc + v)) s'
      | None => acc
      end
  end.

Fixpoint find_gp (s : string) : option Z :=
  match s with
  | EmptyString => None
  | String _ s' =>
      match s with
      | String "G"%char (String "P"%char (String "#"%char rest)) =>
          match digits None rest with Some n => Some n | None => find_gp s' end
      | _ => find_gp s'
      end
  end.

Section group.
Context {P : Type} `{PointArith P}.
Local Abbreviation db := (DB P).

Definition or_none (o : option Z) : option Z := if truthy_id o then o else None.

Definition float_zero : SpecFloat.spec_float := SpecFloat.S754_zero false.

(** One item's enrollment, created unpaid and then paid. A missing insurance date
    violates [NOT NULL]. *)
Definition group_enrollment (gp : GroupRegistrationPayment) (coach_name : string) (part : Z)
    (it : GroupItem) (ins_date : Z) : Enrollment :=
  mkEnrollment (gp_competition gp) (gi_player_id it) (Some (gp_coach gp)) coach_name ""
    (or_none (gi_club_id it)) (gi_club_name it) (or_none (gi_board_id it)) (gi_board_name it)
    (or_none (gi_belt_group_id it)) (or_none (gi_weight_category_id it))
    (default float_zero (gi_declared_weight it)) (gi_insurance_number it) ins_date
    "pending_payment" false 0 "" None ""
    (match gp_discount_code gp with Some c => if truthy_str c then Some c else None | None => None end)
    0 part false false.

(** The foreign keys of the new row (the table of belt groups is not modelled). *)
Definition points_to {A} (t : gmap Z A) (o : option Z) : bool :=
  match or_none o with Some k => negb (is_none (t !! k)) | None => true end.

Definition item_keys_ok (d : db) (it : GroupItem) : bool :=
  points_to (db_clubs d) (gi_club_id it) && points_to (db_boards d) (gi_board_id it)
  && points_to (db_weights d) (gi_weight_category_id it).

Definition register_item (gp : GroupRegistrationPayment) (coach_name ref_code : string) (now : Z)
    (itp : GroupItem * Z) : M db Z :=
  let '(it, part) := itp in
  (_ <~ fetch db_profiles (gi_player_id it) ;;
   ins_date <~ of_option (gi_insurance_issue_date it) IntegrityError ;;
   d <~ get ;;
   raise_if (negb (item_keys_ok d it)) IntegrityError ;;
   e <~ fresh_id ;;
   _ <~ save_enrollment e (group_enrollment gp coach_name part it ins_date) ;;
   _ <~ mark_paid e part ref_code now ;;
   ret e)%monad.

Definition gp_done (gp : GroupRegistrationPayment) (ref_code : string) (ids : list Z) (now : Z)
    : GroupRegistrationPayment :=
  mkGroupRegistrationPayment (gp_coach gp) (gp_competition gp) (gp_items gp) (gp_payable_amount gp)
    (gp_discount_code gp) (Some ids) (Some now) (gp_total_amount gp) true (Some ref_code).

Definition _finalize_group_payment_if_needed (intent : PaymentIntent) (ref_code : string) (now : Z)
    : M db (list Z) :=
  atomic (
    match find_gp (pi_description intent) with
    | None => ret []
    | Some gp_id =>
        d <~ get ;;
        match db_group_payments d !! gp_id with
        | None => ret []
        | Some gp =>
            if gp_is_paid gp then ret (default [] (gp_enrollment_ids gp))
            else if bool_decide (length (gp_items gp) = 0%nat) then ret []
            else
              coach <~ fetch db_profiles (gp_coach gp) ;;
              _ <~ fetch db_competitions (gp_competition gp) ;;
              let payable := if truthy_id (gp_payable_amount gp)
                             then default 0 (gp_payable_amount gp) else gp_total_amount gp in
              let parts := _split_amounts payable (zlen (gp_items gp)) in
              ids <~ mapM (register_item gp (full_name coach) ref_code now) (zip (gp_items gp) parts) ;;
              _ <~ modify (λ d, set_db_group_payments
                     (<[gp_id := gp_done gp ref_code ids now]> (db_group_payments d)) d) ;;
              ret ids
        end
    end)%monad.
End group.

(** ** The gateway package's records *)

(** The attributes the views read of a [Bank] record. *)
Record Bank := mkBank {
  bk_id : Z;
  bk_tracking_code : string;
  bk_is_success : bool;
  bk_status : string;
  bk_reference_number : option string;
  bk_bank_track_id : option string;
  bk_extra_information : json;
}.

(** Settings and request data the handlers read. *)
Record settings := mkSettings {
  st_debug : bool;
  st_enabled : bool;
  st_dummy : bool;
  st_return_url : string;
  st_allowed_hosts : list string;
  st_creds_ok : bool;
  st_default_gateway : string;
  st_allowed_gateways : list string;
}.

(** The body of a request for a new intent, its fields already parsed. *)
Record initiate_data := mkInitiate {
  iq_competition_id : option Z;
  iq_competition_public_id : option string;
  iq_discount_code : option string;
  iq_amount : option Z;
  iq_amount_toman : option Z;
  iq_description : string;
  iq_callback_url : option string;
  iq_gateway : option string;
  iq_style : string;
}.

Definition lower_ascii (c : ascii) : ascii :=
  let n := nat_of_ascii c in
  if ((65 <=? n) && (n <=? 90))%nat then ascii_of_nat (n + 32) else c.

Fixpoint lower (s : string) : string :=
  match s with EmptyString => EmptyString | String c s' => String (lower_ascii c) (lower s') end.

(** [_normalize_gateway_name] *)
Definition _normalize_gateway_name (name : option string) : string :=
  let n := lower (strip (opt_str name)) in
  if bool_decide (n ∈ ["dummy"; "test"]) then "dummy"
  else if bool_decide (n ∈ ["sodad"; "saddad"; "sadad"]) then "sadad"
  else if String.eqb n "bmi" then "bmi"
  else if String.eqb n "fake" then "fake"
  else or_str n "sadad".

(** The cleaned code, gateway, style and public id of a request. *)
Definition clean_initiate (q : initiate_data) (gateway : option string) : initiate_data :=
  mkInitiate (iq_competition_id q) (strip <$> iq_competition_public_id q)
    ((λ v, lower (strip v)) <$> iq_discount_code q) (iq_amount q) (iq_amount_toman q)
    (iq_description q) (iq_callback_url q) gateway (or_str (lower (strip (iq_style q))) "kyorugi").

(** [_callback_allowed] *)
Definition default_hosts : list string :=
  ["chbtkd.ir"; "www.chbtkd.ir"; "api.chbtkd.ir"; "localhost"; "127.0.0.1"].

Definition _callback_allowed (cfg : settings) (host : string) : bool :=
  let allowed := if bool_decide (length (st_allowed_hosts cfg) = 0%nat)
                 then default_hosts else st_allowed_hosts cfg in
  bool_decide (lower host ∈ (lower <$> allowed)).

(** [urlparse(u).scheme] and [.netloc], for a URL without control characters. *)
Definition scheme_char (c : ascii) : bool :=
  let n := nat_of_ascii c in
  ((97 <=? n) && (n <=? 122) || (65 <=? n) && (n <=? 90) || (48 <=? n) && (n <=? 57)
   || (n =? 43) || (n =? 45) || (n =? 46))%nat.

Fixpoint split_scheme (acc s : string) : option (string * string) :=
  match s with
  | EmptyString => None
  | String c s' =>
      if (nat_of_ascii c =? 58)%nat then Some (acc, s')
      else if scheme_char c then split_scheme (acc ++ String c "") s' else None
  end.

Fixpoint take_netloc (s : string) : string :=
  match s with
  | EmptyString => EmptyString
  | String c s' =>
      if bool_decide (nat_of_ascii c ∈ [47; 63; 35]%nat) then EmptyString
      else String c (take_netloc s')
  end.

Definition starts_alpha (s : string) : bool :=
  match s with
  | String c _ => let n := nat_of_ascii c in
      ((97 <=? n) && (n <=? 122) || (65 <=? n) && (n <=? 90))%nat
  | EmptyString => false
  end.

Definition url_scheme_netloc (u : string) : string * string :=
  let '(scheme, rest) := match split_scheme "" u with
    | Some (sc, rest) => if starts_alpha sc then (lower sc, rest) else ("", u)
    | None => ("", u)
    end in
  match rest with
  | String "/"%char (String "/"%char r) => (scheme, take_netloc r)
  | _ => (scheme, "")
  end.

(** [str] and [repr] of a JSON value, for text without control characters. *)
Fixpoint escape (quote : ascii) (s : string) : string :=
  match s with
  | EmptyString => EmptyString
  | String c s' =>
      if (nat_of_ascii c =? 92)%nat || Ascii.eqb c quote
      then String (ascii_of_nat 92) (String c (escape quote s')) else String c (escape quote s')
  end.

Fixpoint has_char (q : ascii) (s : string) : bool :=
  match s with EmptyString => false | String c s' => Ascii.eqb c q || has_char q s' end.

Definition repr_str (s : string) : string :=
  let sq := ascii_of_nat 39 in
  let dq := ascii_of_nat 34 in
  let q := if has_char sq s && negb (has_char dq s) then dq else sq in
  String q (escape q s ++ String q "").

Fixpoint repr (j : json) : string :=
  match j with
  | JNull => "None"
  | JBool true => "True"
  | JBool false => "False"
  | JInt z => pretty z
  | JStr s => repr_str s
  | JList l => "[" ++ String.concat ", " (map repr l) ++ "]"
  | JDict l => "{" ++ String.concat ", " (map (λ kv : string * json, String.append (repr_str kv.1) (String.append ": " (repr kv.2))) l) ++ "}"
  end.

Definition json_str (j : json) : string := match j with JStr s => s | _ => repr j end.

(** [_extract_ref_from_extra] *)
Definition dict_get (l : list (string * json)) (key : string) : option json :=
  snd <$> head (List.filter (λ kv, String.eqb kv.1 key) l).

Definition first_truthy (l : list (string * json)) (keys : list string) : option string :=
  head (omap (λ k, match dict_get l k with
                   | Some v => if json_truthy v then Some (strip (json_str v)) else None
                   | None => None
                   end) keys).

Definition ref_keys : list string :=
  ["RetrivalRefNo"; "RetrievalRefNo"; "SystemTraceNo"; "ref"; "RefNo"; "reference_number"].
Definition sub_ref_keys : list string :=
  ["RetrivalRefNo"; "RetrievalRefNo"; "SystemTraceNo"; "ref"; "RefNo"].

(** [re.search(name + r"\s*=\s*(\d+)", s, re.IGNORECASE)]: the group. *)
Fixpoint skip_prefix_ci (p s : string) : option string :=
  match p, s with
  | EmptyString, _ => Some s
  | String a p', String b s' =>
      if String.eqb (lower (String a "")) (lower (String b "")) then skip_prefix_ci p' s' else None
  | String _ _, EmptyString => None
  end.

Fixpoint take_digits (s : string) : string :=
  match s with
  | EmptyString => EmptyString
  | String c s' => match digit c with Some _ => String c (take_digits s') | None => EmptyString end
  end.

Definition match_here (name s : string) : option string :=
  match skip_prefix_ci name s with
  | None => None
  | Some r =>
      match lstrip r with
      | String "="%char r' =>
          let ds := take_digits (lstrip r') in if truthy_str ds then Some ds else None
      | _ => None
      end
  end.

Fixpoint search_ref (name s : string) : option string :=
  match match_here name s with
  | Some ds => Some ds
  | None => match s with EmptyString => None | String _ s' => search_ref name s' end
  end.

Definition _extract_ref_from_extra (extra : json) : string :=
  if negb (json_truthy extra) then ""
  else
    match extra with
    | JDict l =>
        match first_truthy l ref_keys with
        | Some v => v
        | None =>
            default "" (head (omap (λ k, match dict_get l k with
              | Some (JDict sub) => first_truthy sub sub_ref_keys
              | _ => None
              end) ["result"; "data"; "bank"; "extra"]))
        end
    | _ =>
        let s := json_str extra in
        match search_ref "RetrivalRefNo" s with
        | Some v => v
        | None =>
            match search_ref "RetrievalRefNo" s with
            | Some v => v
            | None => default "" (search_ref "SystemTraceNo" s)
            end
        end
    end.

(** ** The handlers *)

(** What a handler answers: the status and the identifiers of a body, and of a redirect
    its [ok], [pid] and [enrollment_ids] parameters. *)
Inductive response :=
  | RespOK                                            (* plain 200 "OK" *)
  | RespDetail (status : Z)                           (* a JSON error body *)
  | RespNotFound
  | RespRedirect (ok : bool) (pid : option string) (ids : list Z)
  | RespAlreadyPaid (pid ref : string)
  | RespAlreadyRedirected (token : string)
  | RespPaid (gateway pid ref : string)
  | RespGateway (token pid : string)
  | RespLink (lt : string)
  | RespEnrollments (ids : list Z)
  | RespCreated (pid : string) (amount original discount : Z).

Section handlers.
Context {P : Type} `{PointArith P} (iexact : string → string → bool)
  (banks : string → option Bank) (cfg : settings).
Local Abbreviation db := (DB P).

(** [PaymentIntent.objects.filter(..).first()]: newest first. *)
Definition find_intent (d : db) (p : PaymentIntent → bool) : option (Z * PaymentIntent) :=
  head (List.filter (λ ki, p ki.2) (reverse (rows_by_id (db_intents d)))).

(** [transaction.atomic()] as the outermost block: then the queued callbacks run. *)
Definition in_transaction {A} (m : M db A) : M db A :=
  (x <~ atomic m ;; _ <~ run_on_commit ;; ret x)%monad.

Definition bank_extra (b : Bank) : json :=
  JDict [("bank_id"%string, JInt (bk_id b)); ("bank_status"%string, JStr (bk_status b));
         ("bank_extra"%string, bk_extra_information b)].

(** The intent of a bank record: by its token, else by its reference. *)
Definition intent_of_bank (d : db) (tc : string) (b : Bank) : option (Z * PaymentIntent) :=
  match find_intent d (λ i, String.eqb (pi_token i) tc) with
  | Some ki => Some ki
  | None => find_intent d (λ i, String.eqb (pi_ref_id i) (pretty (bk_id b)))
  end.

(** [payment_result_redirect] *)
Definition payment_result_redirect (tc : string) (now : Z) : M db response :=
  (let tc := strip tc in
   if negb (truthy_str tc) then ret RespOK
   else
     match banks tc with
     | None => ret RespOK
     | Some b =>
         d <~ get ;;
         match intent_of_bank d tc b with
         | None => ret (RespRedirect (bk_is_success b) None [])
         | Some (k, intent) =>
             let ref := _extract_ref_from_extra (bk_extra_information b) in
             let token := strip (opt_str (bk_reference_number b)) in
             if bk_is_success b then
               intent' <~ (if is_paid intent then ret intent
                 else in_transaction (
                   fresh <~ fetch db_intents k ;;
                   if is_paid fresh then ret fresh
                   else intent_mark_paid k fresh
                          (Some (or_str (or_str (or_str ref token) (pi_ref_id fresh)) tc))
                          (Some (pi_card_pan fresh)) (bank_extra b) now)) ;;
               ids <~ try_catch
                 (in_transaction (_finalize_group_payment_if_needed intent'
                    (or_str (or_str ref token) tc) now))
                 (λ _, ret []) ;;
               ret (RespRedirect true (Some (pi_public_id intent')) ids)
             else
               _ <~ (if is_paid intent then ret tt
                 else save_intent k (λ row, set_pi_status St_failed (set_pi_extra (bank_extra b) row))) ;;
               ret (RespRedirect false (Some (pi_public_id intent)) [])
         end
     end)%monad.

(** [GatewayCallbackView._handle_sadad]: [tracking] and [pid] of the request. *)
Definition masked_pan (info : json) : option string :=
  match info with
  | JDict l => head (omap (λ k, match dict_get l k with
      | Some v => if json_truthy v then Some (json_str v) else None | None => None end)
      ["card_pan"; "maskedPan"; "CardNoMasked"; "CardNumberMasked"; "cardNumberMasked"])
  | _ => None
  end.

Definition ref_from_bank (b : Bank) : string :=
  or_str (or_str (opt_str (bk_reference_number b)) (opt_str (bk_bank_track_id b))) (bk_tracking_code b).

Definition callback_extra (b : Bank) : json :=
  JDict [("bank"%string, JDict [("status"%string, JStr (bk_status b));
    ("ref"%string, JStr (ref_from_bank b)); ("extra_information"%string, bk_extra_information b)])].

Definition callback_intent (d : db) (tracking pid : string) (b : Bank) : option (Z * PaymentIntent) :=
  match (if truthy_str pid then find_intent d (λ i, String.eqb (pi_public_id i) pid) else None) with
  | Some ki => Some ki
  | None => intent_of_bank d tracking b
  end.

Definition _handle_sadad (tracking pid : option string) (now : Z) : M db response :=
  (if negb (truthy_str (opt_str tracking)) then ret (RespDetail 400)
   else
     match banks (opt_str tracking) with
     | None => ret (RespDetail 404)
     | Some b =>
         d <~ get ;;
         match callback_intent d (opt_str tracking) (opt_str pid) b with
         | None => ret (RespDetail 404)
         | Some (k, _) =>
             if bk_is_success b then
               intent <~ in_transaction (
                 fresh <~ fetch db_intents k ;;
                 let s1 := set_pi_ref_id (or_str (ref_from_bank b) (pi_ref_id fresh)) fresh in
                 let s2 := match masked_pan (bk_extra_information b) with
                           | Some pan => set_pi_card_pan pan s1 | None => s1 end in
                 let s3 := set_pi_extra (callback_extra b) s2 in
                 intent_mark_paid k s3 (Some (pi_ref_id s3)) (Some (pi_card_pan s3)) (pi_extra s3) now) ;;
               ret (RespRedirect true (Some (pi_public_id intent)) [])
             else
               fresh <~ in_transaction (
                 fresh <~ fetch db_intents k ;;
                 _ <~ save_intent k (λ row, set_pi_status St_failed
                        (set_pi_extra (callback_extra b) row)) ;;
                 ret fresh) ;;
               ret (RespRedirect false (Some (pi_public_id fresh)) [])
         end
     end)%monad.

(** [create_payment_link] for [user]; [lt] is the fresh random token. *)
Definition create_payment_link (public_id : string) (user : Z) (lt : string) (now : Z) : M db response :=
  (d <~ get ;;
   match find_intent d (λ i, String.eqb (pi_public_id i) public_id
                             && bool_decide (pi_user i = Some user)) with
   | None => raise Http404
   | Some (k, intent) =>
       if is_paid intent then ret (RespAlreadyPaid (pi_public_id intent) (pi_ref_id intent))
       else (lt <~ issue_payment_link k lt now 10 ;; ret (RespLink lt))
   end)%monad.

(** ** Starting a payment *)

Definition _pick_gateway (raw : option string) : string :=
  let gw := _normalize_gateway_name raw in
  if negb (st_debug cfg) && negb (st_dummy cfg) then "sadad" else or_str gw "sadad".

(** The request data [_begin] stores. *)
Record start_request := mkStartRequest {
  sq_user : Z;
  sq_gateway : option string;
  sq_callback_url : string;
  sq_forwarded_for : option string;
  sq_remote_addr : option string;
  sq_user_agent : string;
}.

(** [cb_from_client] and [_client_ip] of the request. *)
Definition cb_from_client (rq : start_request) : string := strip (sq_callback_url rq).

Fixpoint before_comma (s : string) : string :=
  match s with
  | EmptyString => EmptyString
  | String c s' => if (nat_of_ascii c =? 44)%nat then EmptyString else String c (before_comma s')
  end.

Definition _client_ip (rq : start_request) : option string :=
  match sq_forwarded_for rq with
  | Some xff => if truthy_str xff then Some (strip (before_comma xff)) else sq_remote_addr rq
  | None => sq_remote_addr rq
  end.

Definition copy_begin (self row : PaymentIntent) : PaymentIntent :=
  set_pi_callback_url (pi_callback_url self) (set_pi_initiator_ip (pi_initiator_ip self)
    (set_pi_user_agent (pi_user_agent self) (set_pi_gateway (pi_gateway self) row))).

(** The intent to dispatch, or the answer. *)
Definition _begin (public_id : string) (rq : start_request) (gw_final : string)
    : M db (Z * PaymentIntent + response) :=
  (if negb (st_enabled cfg) && negb (String.eqb gw_final "dummy") then ret (inr (RespDetail 403))
   else
     d <~ get ;;
     match find_intent d (λ i, String.eqb (pi_public_id i) public_id
                               && bool_decide (pi_user i = Some (sq_user rq))) with
     | None => raise Http404
     | Some (k, intent) =>
         if is_paid intent then
           ret (inr (RespAlreadyPaid (pi_public_id intent) (pi_ref_id intent)))
         else if bool_decide (pi_status intent = St_redirected) && truthy_str (pi_token intent) then
           ret (inr (RespAlreadyRedirected (pi_token intent)))
         else if negb (bool_decide (pi_status intent ∈ [St_initiated; St_failed; St_redirected])) then
           ret (inr (RespDetail 409))
         else
           let cb := cb_from_client rq in
           let sn := url_scheme_netloc cb in
           if truthy_str cb && (negb (bool_decide (sn.1 ∈ ["http"; "https"])) || negb (truthy_str sn.2))
           then ret (inr (RespDetail 400))
           else if truthy_str cb && negb (_callback_allowed cfg sn.2) then ret (inr (RespDetail 400))
           else
             let s1 := if truthy_str cb then set_pi_callback_url cb intent else intent in
             let s2 := set_pi_gateway gw_final
                         (set_pi_user_agent (String.substring 0 255 (sq_user_agent rq))
                           (set_pi_initiator_ip (_client_ip rq) s1)) in
             _ <~ save_intent k (copy_begin s2) ;;
             ret (inl (k, s2))
     end)%monad.

(** The gateway's reply: tracking code and id of the new record, or its exception. *)
Definition _dispatch_to_gateway (k : Z) (intent : PaymentIntent) (reply : result (string * Z))
    (now : Z) : M db response :=
  (if pi_amount intent <=? 0 then
     intent <~ in_transaction (
       fresh <~ fetch db_intents k ;;
       let s := set_pi_ref_id (or_str (pi_ref_id fresh) "FREE-0-RIAL") fresh in
       intent_mark_paid k s (Some (pi_ref_id s)) (Some ""%string) (JDict [("free"%string, JBool true)]) now) ;;
     ret (RespPaid "free" (pi_public_id intent) (pi_ref_id intent))
   else if String.eqb (pi_gateway intent) "dummy" then
     intent <~ in_transaction (
       fresh <~ fetch db_intents k ;;
       let s1 := set_pi_ref_id (or_str (pi_ref_id fresh) "DUMMY-REF") fresh in
       let s2 := set_pi_card_pan (or_str (pi_card_pan s1) "603799******0000") s1 in
       intent_mark_paid k s2 (Some (pi_ref_id s2)) (Some (pi_card_pan s2))
         (JDict [("gateway"%string, JStr "dummy")]) now) ;;
     ret (RespPaid "dummy" (pi_public_id intent) (pi_ref_id intent))
   else if bool_decide (pi_gateway intent ∈ ["sadad"; "bmi"]) then
     if negb (st_creds_ok cfg) then ret (RespDetail 503)
     else if pi_amount intent <? 10000 then ret (RespDetail 400)
     else
       match reply with
       | Ok (tracking_code, bank_id) =>
           fresh <~ in_transaction (
             fresh <~ fetch db_intents k ;;
             let s := set_pi_status St_redirected
                        (set_pi_ref_id (or_str (pi_ref_id fresh) (pretty bank_id))
                          (set_pi_token tracking_code fresh)) in
             _ <~ save_intent k (λ row, set_pi_token (pi_token s)
                    (set_pi_ref_id (pi_ref_id s) (set_pi_status (pi_status s) row))) ;;
             ret s) ;;
           ret (RespGateway (pi_token fresh) (pi_public_id fresh))
       | Err e =>
           _ <~ in_transaction (
             fresh <~ fetch db_intents k ;;
             save_intent k (set_pi_status St_failed)) ;;
           ret (RespDetail (if bool_decide (e = GatewayError) then 502 else 500))
       end
   else ret (RespDetail 400))%monad.

(** [StartPaymentView.post]/[get] *)
Definition start_payment (public_id : string) (rq : start_request) (reply : result (string * Z))
    (now : Z) : M db response :=
  (let gw_final := _pick_gateway (sq_gateway rq) in
   r <~ in_transaction (_begin public_id rq gw_final) ;;
   match r with
   | inr resp => ret resp
   | inl (k, intent) => _dispatch_to_gateway k intent reply now
   end)%monad.
(** [PaymentIntentEnrollmentsView.get] *)
Definition intent_enrollments (pid : string) (user : Z) (d : db) : response :=
  match find_intent d (λ i, String.eqb (pi_public_id i) pid) with
  | None => RespDetail 404
  | Some (_, i) =>
      if truthy_id (pi_user i) && negb (bool_decide (pi_user i = Some user)) then RespDetail 403
      else
        let ids := bulk_targets d i
                   ++ (if truthy_id (pi_kyorugi_enrollment i)
                       then option_list (pi_kyorugi_enrollment i) else []) in
        RespEnrollments (sort_by Z.leb (remove_dups (List.filter (λ x, negb (x =? 0)) ids)))
  end.

(** ** Creating an intent *)

(** [ser.validated_data] *)
Definition initiate := initiate_data.

(** The field validators and [InitiateSerializer.validate]. *)
Definition validate_initiate (q : initiate) : result (initiate * Z) :=
  let gw := match iq_gateway q with
            | None => Ok None
            | Some v => let name := or_str (lower (strip v)) (st_default_gateway cfg) in
                        if bool_decide (name ∈ st_allowed_gateways cfg) then Ok (Some name)
                        else Err ValidationError
            end in
  match gw with
  | Err e => Err e
  | Ok gw =>
      let below (o : option Z) := match o with Some a => a <? 0 | None => false end in
      if below (iq_amount q) || below (iq_amount_toman q) then Err ValidationError
      else
        match iq_amount q, iq_amount_toman q with
        | None, None => Err ValidationError
        | Some a, _ => Ok (clean_initiate q gw, a)
        | None, Some t => Ok (clean_initiate q gw, t * 10)
        end
  end.

(** The competition of the request, by its [style]. *)
Definition by_public_id {A} (pub : A → string) (t : gmap Z A) (v : string) : option Z :=
  fst <$> head (List.filter (λ ka, String.eqb (pub ka.2) v) (rows_by_id t)).

Definition find_target {A} (q : initiate) (pub : A → string) (t : gmap Z A) (ref : Z → comp_ref)
    : result (option comp_ref) :=
  let pid := opt_str (iq_competition_public_id q) in
  if truthy_id (iq_competition_id q) then
    let k := default 0 (iq_competition_id q) in
    if is_none (t !! k) then Err Http404 else Ok (Some (ref k))
  else if truthy_str pid then
    match by_public_id pub t pid with Some k => Ok (Some (ref k)) | None => Err Http404 end
  else Ok None.

Definition find_competition (d : db) (q : initiate) : result (option comp_ref) :=
  if String.eqb (iq_style q) "kyorugi" then find_target q kc_public_id (db_competitions d) Kyorugi
  else if String.eqb (iq_style q) "poomsae" then find_target q pc_public_id (db_poomsae_comps d) Poomsae
  else Ok None.

(** The price with the request's code; the last test is the guard of the view. *)
Definition discounted (q : initiate) (comp : option comp_ref) (base : Z)
    : M db (Z * option Z * Z) :=
  (if truthy_str (opt_str (iq_discount_code q)) then
     r <~ apply_discount_for_competition iexact comp base (opt_str (iq_discount_code q)) false ;;
     let '(final, _, disc) := r in
     raise_if (final <? 0) ValidationError ;;
     raise_if (disc <? 0) ValidationError ;;
     raise_if (base <? final) ValidationError ;;
     raise_if ((0 <? final) && (final <? 10000)) ValidationError ;;
     ret r
   else ret (base, None, 0))%monad.

(** [PaymentIntent.objects.create]: column bounds and the unique public id. *)
Definition insert_intent (i : PaymentIntent) : M db Z :=
  (raise_if (negb (pos_int_ok (pi_amount i) && pos_int_ok (pi_original_amount i)
                   && pos_int_ok (pi_discount_amount i)
                   && (String.length (pi_description i) <=? 255)%nat
                   && (String.length (pi_callback_url i) <=? 200)%nat
                   && (String.length (pi_gateway i) <=? 20)%nat)) DataError ;;
   d <~ get ;;
   raise_if (negb (is_none (find_intent d (λ j, String.eqb (pi_public_id j) (pi_public_id i))))
             || negb (at_most_one_target i)) IntegrityError ;;
   k <~ fresh_id ;;
   _ <~ modify (λ d, set_db_intents (<[k := i]> (db_intents d)) d) ;;
   ret k)%monad.

Definition new_intent (user : Z) (pid : string) (q : initiate) (comp : option comp_ref)
    (price : Z * option Z * Z) (base : Z) : PaymentIntent :=
  let '(final, dc, disc) := price in
  mkPaymentIntent pid (Some user) (_normalize_gateway_name (iq_gateway q)) St_initiated
    (match comp with Some (Kyorugi k) => Some k | _ => None end)
    final base disc dc (iq_description q)
    (or_str (opt_str (iq_callback_url q)) (st_return_url cfg))
    "" "" "" (JDict []) None "" "" None [] None None None.

(** [create_intent] by [user]; [pid] is the generated public id. *)
Definition create_intent (user : Z) (pid : string) (q : initiate) : M db response :=
  (v <~ lift (validate_initiate q) ;;
   let '(q, base) := v in
   raise_if (base <? 10000) ValidationError ;;
   d <~ get ;;
   comp <~ lift (find_competition d q) ;;
   r <~ try_catch (p <~ discounted q comp base ;; ret (inl p))
          (λ e, ret (inr (RespDetail (if bool_decide (e = ValidationError) then 400 else 500)))) ;;
   match r with
   | inr resp => ret resp
   | inl price =>
       let i := new_intent user pid q comp price base in
       _ <~ insert_intent i ;;
       ret (RespCreated (pi_public_id i) (pi_amount i) (pi_original_amount i) (pi_discount_amount i))
   end)%monad.
End handlers.
