(* ===== verification/PaymentSpec.v ===== *)
(** The contract of payments, apart from their handlers: an intent is opened with a
    discount code, and settled once; settling counts its code.  [Settlement] proves
    that the handlers of [Payments] implement this machine. *)

From S2P Require Import Prelude Store Payments.
Local Open Scope Z_scope.

(** An open intent shows its code; of a settled one the whole row is observable. *)
Inductive account :=
  | Open (code : option Z)
  | Settled (i : PaymentIntent).

(** The intents, and the recorded use of each discount code. *)
Record spec := mkSpec {
  sp_intents : gmap Z account;
  sp_counts : gmap Z Z;
}.

Definition count_use (o : option Z) (t : gmap Z Z) : gmap Z Z :=
  match o with Some c => alter Z.succ c t | None => t end.

Inductive spec_step (s : spec) : spec → Prop :=
  | spec_open k c : sp_intents s !! k = None →
      spec_step s (mkSpec (<[k := Open c]> (sp_intents s)) (sp_counts s))
  | spec_settle k i : sp_intents s !! k = Some (Open (pi_discount_code i)) →
      spec_step s (mkSpec (<[k := Settled i]> (sp_intents s)) (count_use (pi_discount_code i) (sp_counts s))).

(** ** What the machine promises *)

(** The settled intents with a code. *)
Definition used_by (c : Z) (a : account) : bool :=
  match a with Settled i => bool_decide (pi_discount_code i = Some c) | Open _ => false end.
Definition settled_uses (s : spec) (c : Z) : Z := count_rows (used_by c) (sp_intents s).

Lemma spec_step_final s s' k i : spec_step s s' →
  sp_intents s !! k = Some (Settled i) → sp_intents s' !! k = Some (Settled i).
Proof. intros [j c Hj|j x Hj] Hk; cbn; rewrite lookup_insert_ne; congruence. Qed.

Lemma spec_step_counts s s' c : spec_step s s' →
  sp_counts s' !! c = (λ u, u + (settled_uses s' c - settled_uses s c)) <$> sp_counts s !! c.
Proof.
  unfold settled_uses. intros [j o Hj|j x Hj]; cbn [sp_intents sp_counts].
  - rewrite count_rows_new by done. cbn. destruct (sp_counts s !! c); cbn; [f_equal; lia|done].
  - rewrite (count_rows_replace _ _ j _ (Settled x) Hj). cbn [used_by].
    destruct (pi_discount_code x) as [c0|]; cbn [count_use].
    + destruct (decide (c = c0)) as [->|Hne].
      * rewrite lookup_alter_eq, bool_decide_true by done.
        destruct (sp_counts s !! c0); cbn; [f_equal; lia|done].
      * rewrite lookup_alter_ne, bool_decide_false by congruence.
        destruct (sp_counts s !! c); cbn; [f_equal; lia|done].
    + rewrite bool_decide_false by done. destruct (sp_counts s !! c); cbn; [f_equal; lia|done].
Qed.

Lemma spec_final s s' k i : rtc spec_step s s' →
  sp_intents s !! k = Some (Settled i) → sp_intents s' !! k = Some (Settled i).
Proof. induction 1 as [|s s1 s' Hs _ IH]; [done|]. intros Hk. apply IH. by eapply spec_step_final. Qed.

Lemma spec_counts s s' c : rtc spec_step s s' →
  sp_counts s' !! c = (λ u, u + (settled_uses s' c - settled_uses s c)) <$> sp_counts s !! c.
Proof.
  induction 1 as [s|s s1 s' Hs _ IH].
  - destruct (sp_counts s !! c); cbn; [f_equal; lia|done].
  - rewrite IH, (spec_step_counts s s1 c Hs). destruct (sp_counts s !! c); cbn; [f_equal; lia|done].
Qed.
