(* ===== verification/Settlement.v ===== *)
(** Settlement: what the payment handlers of [Payments.v] do to the intents, the
    discount codes and the entries they pay for. *)

From stdpp Require Import pretty.
From S2P Require Import Prelude Store Points Ranking Poomsae Discounts Payments PaymentSpec.
Local Open Scope Z_scope.

(** ** What leaves intents and codes alone *)

Section elsewhere.
Context {P : Type} `{PointArith P}.
Implicit Types d : DB P.

(** A change that touches neither an intent nor a discount code. *)
Definition elsewhere (d d' : DB P) : Prop :=
  db_intents d' = db_intents d ∧ db_discount_codes d' = db_discount_codes d
  ∧ db_next_id d ≤ db_next_id d'.

#[export] Instance elsewhere_preorder : PreOrder elsewhere.
Proof.
  split; [intros d; split_and!; done|]. intros d1 d2 d3 (? & ? & ?) (? & ? & ?).
  split_and!; [congruence..|lia].
Qed.

Local Abbreviation quiet := (guarantees elsewhere).

Lemma quiet_modify f : (∀ d, elsewhere d (f d)) → quiet (modify f).
Proof. apply guarantees_modify. Qed.

Lemma quiet_reads {A} (m : M (DB P) A) : reads m → quiet m.
Proof. apply guarantees_reads, _. Qed.

Lemma quiet_fetch {A} (t : DB P → gmap Z A) k : quiet (fetch t k).
Proof. apply quiet_reads, reads_fetch. Qed.

Lemma quiet_fetch_opt {A} (t : DB P → gmap Z A) o : quiet (fetch_opt t o).
Proof. apply quiet_reads, reads_fetch_opt. Qed.

Lemma quiet_or_fetch {A B} (x : option B) (t : DB P → gmap Z A) o f : quiet (or_fetch x t o f).
Proof. apply quiet_reads, reads_or_fetch. Qed.

Lemma quiet_fresh_id : quiet fresh_id.
Proof. intros d. split_and!; [done..|]. cbn. lia. Qed.

Lemma post_elsewhere s k p d : elsewhere d (post s k p d).
Proof. by destruct s. Qed.

Lemma post_opt_elsewhere s o p d : elsewhere d (post_opt s o p d).
Proof. destruct o; [apply post_elsewhere|done]. Qed.

Lemma grant_elsewhere e aw d : elsewhere d (grant e aw d).
Proof.
  unfold grant. repeat (etrans; [|apply post_opt_elsewhere]). done.
Qed.

Hint Resolve quiet_fetch quiet_fetch_opt quiet_or_fetch quiet_fresh_id : guarantees.

Lemma quiet_award e en : quiet (_award_points_after_payment e en).
Proof.
  unfold _award_points_after_payment. guarantee. apply quiet_modify, grant_elsewhere.
Qed.

Lemma quiet_save_enrollment e en : quiet (save_enrollment e en).
Proof.
  apply guarantees_bind; [apply _|by apply quiet_modify|]. intros [] d.
  unfold award_on_manual_paid. by destruct (_ && _).
Qed.

Hint Resolve quiet_award quiet_save_enrollment : guarantees.

Lemma quiet_run_on_commit : quiet run_on_commit.
Proof.
  intros d. unfold run_on_commit, bind at 1 2, get, put.
  etrans; [|apply (guarantees_forM elsewhere)]; [done|]. intros [e en]. apply quiet_award.
Qed.

Lemma quiet_mark_paid e amount ref_code now : quiet (mark_paid e amount ref_code now).
Proof. unfold mark_paid. guarantee. Qed.

Lemma quiet_pe_clean pe : quiet (pe_clean pe).
Proof. unfold pe_clean. guarantee. Qed.

Hint Resolve quiet_run_on_commit quiet_mark_paid quiet_pe_clean : guarantees.

Lemma quiet_save_poomsae pk pe : quiet (save_poomsae pk pe).
Proof. unfold save_poomsae. guarantee; by apply quiet_modify. Qed.

Hint Resolve quiet_save_poomsae : guarantees.

Lemma quiet_apply_success i now : quiet (_apply_success_to_targets i now).
Proof.
  unfold _apply_success_to_targets, when_some, _mark_enrollment_paid, mark_poomsae_paid,
    seminar_mark_paid. guarantee; by apply quiet_modify.
Qed.

Lemma quiet_register_item gp name ref_code now itp : quiet (register_item gp name ref_code now itp).
Proof. destruct itp. cbn. guarantee. Qed.

Hint Resolve quiet_register_item : guarantees.

Lemma quiet_finalize i ref_code now : quiet (_finalize_group_payment_if_needed i ref_code now).
Proof. unfold _finalize_group_payment_if_needed. guarantee. by apply quiet_modify. Qed.
End elsewhere.

#[export] Hint Resolve quiet_fetch quiet_fresh_id quiet_award quiet_save_enrollment quiet_run_on_commit
  quiet_mark_paid quiet_save_poomsae quiet_apply_success quiet_finalize : guarantees.

(** ** The books of intents and codes *)

Section evolution.
Context {P : Type} `{PointArith P}.
Implicit Types d : DB P.

(** The state of the machine of [PaymentSpec] that a database shows. *)
Definition account_of (i : PaymentIntent) : account :=
  if is_paid i then Settled i else Open (pi_discount_code i).
Lemma account_open i : is_paid i = false → account_of i = Open (pi_discount_code i).
Proof. unfold account_of. by intros ->. Qed.

Lemma account_settled i : is_paid i = true → account_of i = Settled i.
Proof. unfold account_of. by intros ->. Qed.

Definition books d : spec :=
  mkSpec (account_of <$> db_intents d) (dc_used_count <$> db_discount_codes d).

Definition keys_below d : Prop := ∀ k i, db_intents d !! k = Some i → k < db_next_id d.

(** A change of the database that the machine can follow. *)
Definition evolves d d' : Prop :=
  keys_below d → keys_below d' ∧ rtc spec_step (books d) (books d').

#[export] Instance evolves_preorder : PreOrder evolves.
Proof.
  split; [done|]. intros d1 d2 d3 H12 H23 Hk. destruct (H12 Hk) as (Hk2 & Hs2).
  destruct (H23 Hk2) as (Hk3 & Hs3). split; [done|]. by etrans.
Qed.

Lemma evolves_elsewhere d d' : elsewhere d d' → evolves d d'.
Proof.
  intros (Hi & Hc & Hn) Hk. unfold keys_below, books. rewrite Hi, Hc. split; [|done].
  intros k i Hki. specialize (Hk k i Hki). lia.
Qed.

(** An unpaid intent is written, keeping its code, and stays unpaid. *)
Lemma evolves_edit d d' k i i' :
  db_intents d !! k = Some i → is_paid i = false → is_paid i' = false →
  pi_discount_code i' = pi_discount_code i →
  db_intents d' = <[k := i']> (db_intents d) → db_discount_codes d' = db_discount_codes d →
  db_next_id d ≤ db_next_id d' → evolves d d'.
Proof.
  intros Hki Hu Hu' Hdc Hi Hc Hn Hk. unfold keys_below, books. rewrite Hi, Hc. split.
  - intros j x [[-> _]|[_ Hj]]%lookup_insert_Some; [specialize (Hk _ _ Hki)|specialize (Hk _ _ Hj)]; lia.
  - rewrite fmap_insert, insert_id; [done|]. rewrite lookup_fmap, Hki. cbn. unfold account_of.
    by rewrite Hu, Hu', Hdc.
Qed.

(** A new unpaid intent. *)
Lemma evolves_new d d' k i' :
  db_next_id d ≤ k < db_next_id d' → is_paid i' = false →
  db_intents d' = <[k := i']> (db_intents d) → db_discount_codes d' = db_discount_codes d →
  evolves d d'.
Proof.
  intros Hkn Hu' Hi Hc Hk. unfold keys_below, books. rewrite Hi, Hc. split.
  - intros j x [[-> _]|[_ Hj]]%lookup_insert_Some; [lia|]. specialize (Hk _ _ Hj). lia.
  - apply rtc_once. rewrite fmap_insert, (account_open i') by done.
    apply (spec_open (books d)). cbn. rewrite lookup_fmap.
    destruct (db_intents d !! k) eqn:E; [|done]. specialize (Hk _ _ E). lia.
Qed.

Definition count_code (o : option Z) (t : gmap Z DiscountCode) : gmap Z DiscountCode :=
  match o with Some c => alter used_once c t | None => t end.

Lemma used_once_count dc : dc_used_count (used_once dc) = dc_used_count dc + 1.
Proof. unfold used_once. by destruct (exhausted _ _). Qed.

Lemma count_code_counts o t : dc_used_count <$> count_code o t = count_use o (dc_used_count <$> t).
Proof.
  destruct o as [c|]; [|done]. apply map_eq. intros j. cbn. rewrite lookup_fmap.
  destruct (decide (j = c)) as [->|Hne].
  - rewrite !lookup_alter_eq, lookup_fmap. destruct (t !! c); cbn; [by rewrite used_once_count|done].
  - by rewrite !lookup_alter_ne, lookup_fmap.
Qed.

(** An unpaid intent becomes paid and its code is counted. *)
Lemma evolves_pay d d' k i i' :
  db_intents d !! k = Some i → is_paid i = false → is_paid i' = true →
  pi_discount_code i' = pi_discount_code i →
  db_intents d' = <[k := i']> (db_intents d) →
  db_discount_codes d' = count_code (pi_discount_code i) (db_discount_codes d) →
  db_next_id d ≤ db_next_id d' → evolves d d'.
Proof.
  intros Hki Hu Hu' Hdc Hi Hc Hn Hk. unfold keys_below, books. rewrite Hi, Hc. split.
  - intros j x [[-> _]|[_ Hj]]%lookup_insert_Some; [specialize (Hk _ _ Hki)|specialize (Hk _ _ Hj)]; lia.
  - apply rtc_once. rewrite fmap_insert, count_code_counts, <- Hdc, (account_settled i') by done.
    apply (spec_settle (books d)). cbn. rewrite lookup_fmap, Hki. cbn. unfold account_of. by rewrite Hu, Hdc.
Qed.

(** The paid intents of a code, and its recorded use. *)
Definition paid_uses d (c : Z) : Z :=
  count_rows (λ i, is_paid i && bool_decide (pi_discount_code i = Some c)) (db_intents d).
Definition used_at d (c : Z) : option Z := dc_used_count <$> db_discount_codes d !! c.

Lemma paid_uses_books d c : settled_uses (books d) c = paid_uses d c.
Proof.
  unfold settled_uses, paid_uses. cbn. rewrite count_rows_fmap. apply count_rows_ext.
  intros i. unfold account_of. by destruct (is_paid i).
Qed.
End evolution.

(** ** The handlers *)

Section handlers.
Context {P : Type} `{PointArith P}.
Implicit Types d : DB P.

Local Abbreviation evolving := (guarantees evolves).

Lemma evolving_quiet {A} (m : M (DB P) A) : guarantees elsewhere m → evolving m.
Proof. intros Hm d. apply evolves_elsewhere, Hm. Qed.

(** A handler that first reads the state, or a row of it. *)
Lemma evolving_get {A} (f : DB P → M (DB P) A) :
  (∀ d, evolves d (f d d).2) → evolving (bind get f).
Proof. intros Hf d. apply Hf. Qed.

Lemma evolves_fetch {A B} (t : DB P → gmap Z A) k (f : A → M (DB P) B) d :
  (∀ x, t d !! k = Some x → evolves d (f x d).2) → evolves d (bind (fetch t k) f d).2.
Proof.
  intros Hf. unfold fetch, bind, get. destruct (t d !! k) as [x|] eqn:E; cbn; [by apply Hf|done].
Qed.

Lemma evolves_bind {A B} (m : M (DB P) A) (f : A → M (DB P) B) d :
  evolves d (m d).2 → (∀ a d1, m d = (Ok a, d1) → evolves d1 (f a d1).2) → evolves d (bind m f d).2.
Proof.
  unfold bind. intros Hm Hf. destruct (m d) as [[a|e] d1]; [|done]. etrans; [exact Hm|by apply Hf].
Qed.

Lemma evolves_atomic {A} (m : M (DB P) A) d : evolves d (m d).2 → evolves d (atomic m d).2.
Proof. unfold atomic. intros Hm. by destruct (m d) as [[a|e] d1]. Qed.

Lemma evolves_transaction {A} (m : M (DB P) A) d :
  evolves d (m d).2 → evolves d (in_transaction m d).2.
Proof.
  intros Hm. apply evolves_bind; [by apply evolves_atomic|]. intros a d1 _.
  apply evolves_bind; [|done]. apply evolves_elsewhere, quiet_run_on_commit.
Qed.

Lemma find_intent_some d p k i : find_intent d p = Some (k, i) →
  db_intents d !! k = Some i ∧ p i = true.
Proof.
  unfold find_intent. intros Hh.
  assert (Hin : (k, i) ∈ List.filter (λ ki : Z * PaymentIntent, p ki.2)
                           (reverse (rows_by_id (db_intents d)))).
  { destruct (List.filter _ _); [done|]. injection Hh as ->. left. }
  apply elem_of_filter_list in Hin as [Hin Hp]. by rewrite elem_of_reverse, elem_of_rows_by_id in Hin.
Qed.

Lemma intent_of_bank_some d tc b k i :
  intent_of_bank d tc b = Some (k, i) → db_intents d !! k = Some i.
Proof.
  unfold intent_of_bank. destruct (find_intent d _) as [[k1 i1]|] eqn:E.
  - intros [= <- <-]. by apply find_intent_some in E as [? _].
  - intros E2. by apply find_intent_some in E2 as [? _].
Qed.

Lemma evolves_save k upd d i :
  db_intents d !! k = Some i → is_paid i = false → is_paid (upd i) = false →
  pi_discount_code (upd i) = pi_discount_code i → evolves d (save_intent k upd d).2.
Proof.
  intros Hk Hu Hu' Hdc. unfold save_intent, bind, get. rewrite Hk. cbn.
  eapply evolves_edit; [exact Hk|exact Hu|exact Hu'|exact Hdc|by apply alter_some|done|done].
Qed.

(** What [PaymentIntent.mark_paid] writes. *)
Lemma mark_paid_writes k self ref_id card_pan extra now d :
  match intent_mark_paid k self ref_id card_pan extra now d with
  | (Err _, d') => d' = d
  | (Ok self', d') =>
      if is_paid self then self' = self ∧ d' = d
      else ∃ row, db_intents d !! k = Some row ∧ is_paid self' = true ∧
        pi_ref_id self' = or_str (opt_str ref_id) (pi_ref_id self) ∧
        pi_discount_code self' = pi_discount_code self ∧
        db_intents d' = <[k := copy_result self' row]> (db_intents d) ∧
        db_discount_codes d' = count_code (pi_discount_code self) (db_discount_codes d) ∧
        db_next_id d ≤ db_next_id d'
  end.
Proof.
  unfold intent_mark_paid, atomic. destruct (is_paid self) eqn:Ep; [done|].
  remember (set_pi_status St_paid _) as s4 eqn:Es4.
  assert (Hs4 : is_paid s4 = true ∧ pi_discount_code s4 = pi_discount_code self ∧
    pi_ref_id s4 = or_str (opt_str ref_id) (pi_ref_id self)).
  { subst s4. unfold or_str. cbn. by destruct (truthy_str (opt_str card_pan)), (json_truthy extra),
      (truthy_str (opt_str ref_id)). }
  clear Es4. unfold bind at 1, save_intent, bind at 1, get.
  destruct (db_intents d !! k) as [row|] eqn:Hk; [|done]. cbn [put].
  unfold bind at 1.
  match goal with |- context [_apply_success_to_targets s4 now ?x] => set (d1 := x) end.
  pose proof (quiet_apply_success s4 now d1) as (Hi & Hc & Hn).
  destruct (_apply_success_to_targets s4 now d1) as [[[]|e] d2]; [|done].
  cbn in Hi, Hc, Hn. unfold bind, count_discount, modify, ret. exists row.
  destruct Hs4 as (? & Hd & ?). rewrite Hd. split_and!; try done.
  - transitivity (db_intents d2); [by destruct (pi_discount_code self)|].
    rewrite Hi. by apply alter_some.
  - destruct (pi_discount_code self) as [c|]; cbn; by rewrite Hc.
  - transitivity (db_next_id d2); [done|by destruct (pi_discount_code self)].
Qed.

Lemma evolves_mark_paid k self ref_id card_pan extra now d row :
  db_intents d !! k = Some row → is_paid self = is_paid row →
  pi_discount_code self = pi_discount_code row →
  evolves d (intent_mark_paid k self ref_id card_pan extra now d).2.
Proof.
  intros Hk Hp Hdc. pose proof (mark_paid_writes k self ref_id card_pan extra now d) as Hm.
  destruct (intent_mark_paid _ _ _ _ _ _ d) as [[self'|e] d']; cbn; [|by subst].
  destruct (is_paid self) eqn:Ep; [by destruct Hm as [_ ->]|].
  destruct Hm as (row' & Hk' & Hp' & _ & Hd' & Hi & Hc & Hn). rewrite Hk in Hk'.
  injection Hk' as <-. rewrite Hdc in Hc. apply (evolves_pay d d' k row (copy_result self' row)); done.
Qed.

Context (iexact : string → string → bool) (banks : string → option Bank) (cfg : settings).

Lemma evolving_redirect tc now : evolving (payment_result_redirect banks tc now).
Proof.
  unfold payment_result_redirect. destruct (negb _); [by apply guarantees_ret, _|].
  destruct (banks (strip tc)) as [b|]; [|by apply guarantees_ret, _].
  apply evolving_get. intros d.
  destruct (intent_of_bank d (strip tc) b) as [[k i]|] eqn:Hf; [|done].
  apply intent_of_bank_some in Hf.
  destruct (bk_is_success b).
  - apply evolves_bind.
    + destruct (is_paid i); [done|]. apply evolves_transaction, evolves_fetch. intros fresh Hfr.
      destruct (is_paid fresh) eqn:Ep; [done|]. by eapply evolves_mark_paid.
    + intros i' d1 _. apply evolves_bind.
      * apply evolving_quiet. apply guarantees_try; [apply _| |by intros; apply guarantees_ret, _].
        unfold in_transaction. guarantee.
      * done.
  - apply evolves_bind; [|done]. destruct (is_paid i) eqn:Ep; [done|].
    by eapply evolves_save.
Qed.

Lemma evolving_callback tracking pid now :
  (∀ b, banks (opt_str tracking) = Some b → bk_is_success b = true) →
  evolving (_handle_sadad banks tracking pid now).
Proof.
  intros Hs. unfold _handle_sadad. destruct (negb _); [by apply guarantees_ret, _|].
  destruct (banks (opt_str tracking)) as [b|]; [|by apply guarantees_ret, _].
  apply evolving_get. intros d.
  destruct (callback_intent d (opt_str tracking) (opt_str pid) b) as [[k i]|]; [|done].
  rewrite (Hs b eq_refl). apply evolves_bind; [|done].
  apply evolves_transaction, evolves_fetch. intros fresh Hfr. cbn zeta.
  eapply evolves_mark_paid; [exact Hfr|..]; by destruct (masked_pan _).
Qed.

Lemma evolving_link public_id user lt now :
  evolving (create_payment_link (P := P) public_id user lt now).
Proof.
  apply evolving_get. intros d. destruct (find_intent d _) as [[k i]|] eqn:E; [|done].
  apply find_intent_some in E as [Hk _]. destruct (is_paid i) eqn:Ep; [done|].
  apply evolves_bind; [|done]. apply evolves_bind; [|done]. by eapply evolves_save.
Qed.

(** What [_begin] hands to the gateway: an unpaid intent. *)
Lemma begin_unpaid public_id rq gw d k s d' :
  _begin cfg public_id rq gw d = (Ok (inl (k, s)), d') →
  ∃ i, db_intents d' !! k = Some i ∧ is_paid i = false.
Proof.
  unfold _begin. destruct (_ && _); [done|]. unfold bind at 1, get.
  destruct (find_intent d _) as [[k0 i]|] eqn:E; [|done].
  apply find_intent_some in E as [Hk _]. destruct (is_paid i) eqn:Ep; [done|].
  destruct (_ && _); [done|]. destruct (negb _); [done|]. cbn zeta.
  destruct (_ && _); [done|]. destruct (_ && _); [done|].
  unfold bind, save_intent, bind, get. rewrite Hk. cbn. intros [= <- <- <-].
  exists (copy_begin (set_pi_gateway gw (set_pi_user_agent (String.substring 0 255 (sq_user_agent rq))
    (set_pi_initiator_ip (_client_ip rq) (if truthy_str (cb_from_client rq)
       then set_pi_callback_url (cb_from_client rq) i else i)))) i).
  cbn. rewrite (alter_some _ _ _ _ Hk), lookup_insert_eq. split; [done|].
  by destruct (truthy_str (cb_from_client rq)).
Qed.

Lemma evolving_begin public_id rq gw : evolving (_begin (P := P) cfg public_id rq gw).
Proof.
  unfold _begin. destruct (_ && _); [by apply guarantees_ret, _|].
  apply evolving_get. intros d. destruct (find_intent d _) as [[k i]|] eqn:E; [|done].
  apply find_intent_some in E as [Hk _]. destruct (is_paid i) eqn:Ep; [done|].
  destruct (_ && _); [done|]. destruct (negb _); [done|]. cbn zeta.
  destruct (_ && _); [done|]. destruct (_ && _); [done|].
  apply evolves_bind; [|done]. eapply evolves_save; [exact Hk|done|done|done].
Qed.

(** Dispatching right after [_begin], with the intent still unpaid. *)
Lemma evolves_dispatch k s reply now d i :
  db_intents d !! k = Some i → is_paid i = false →
  evolves d (_dispatch_to_gateway cfg k s reply now d).2.
Proof.
  intros Hk Hu. unfold _dispatch_to_gateway.
  destruct (pi_amount s <=? 0).
  { apply evolves_bind; [|done]. apply evolves_transaction, evolves_fetch. intros fresh Hfr. cbn zeta.
    eapply evolves_mark_paid; [exact Hfr|done..]. }
  destruct (String.eqb (pi_gateway s) "dummy").
  { apply evolves_bind; [|done]. apply evolves_transaction, evolves_fetch. intros fresh Hfr. cbn zeta.
    eapply evolves_mark_paid; [exact Hfr|done..]. }
  destruct (bool_decide _); [|done]. destruct (negb _); [done|].
  destruct (pi_amount s <? 10000); [done|].
  destruct reply as [[tc bid]|e]; (apply evolves_bind; [|done]);
    apply evolves_transaction, evolves_fetch; intros fresh Hfr; cbn zeta.
  - rewrite Hk in Hfr. injection Hfr as <-. apply evolves_bind; [|done]. by eapply evolves_save.
  - rewrite Hk in Hfr. injection Hfr as <-. by eapply evolves_save.
Qed.

Lemma evolving_start public_id rq reply now :
  evolving (start_payment (P := P) cfg public_id rq reply now).
Proof.
  intros d. unfold start_payment. apply evolves_bind.
  { apply evolves_transaction, evolving_begin. }
  intros [[k s]|resp] d1 Hb; [|done]. unfold in_transaction in Hb.
  apply bind_ok in Hb as (r & d2 & Hb & Hc). apply bind_ok in Hc as ([] & d3 & Hc & [= -> <-]).
  apply atomic_ok, begin_unpaid in Hb as (i & Hk & Hu). eapply evolves_dispatch; [|exact Hu].
  pose proof (quiet_run_on_commit d2) as (Hi & _). rewrite Hc in Hi. cbn in Hi. by rewrite Hi.
Qed.

(** A new intent is unpaid. *)
Lemma new_intent_unpaid user pid q comp price base :
  is_paid (new_intent cfg user pid q comp price base) = false.
Proof. by destruct price as [[final dc] disc]. Qed.

Lemma evolves_insert i d : is_paid i = false → evolves d (insert_intent i d).2.
Proof.
  intros Hu. unfold insert_intent. destruct (negb _); [done|]. unfold bind at 1, get.
  destruct (negb _ || _); [done|]. unfold bind, fresh_id, modify, ret. cbn.
  eapply (evolves_new d _ (db_next_id d) i); try done. cbn. lia.
Qed.

Lemma reads_discounted q comp base : reads (discounted (P := P) iexact q comp base).
Proof.
  unfold discounted. destruct (truthy_str _); [|done]. apply reads_bind.
  - unfold apply_discount_for_competition. destruct (_ <? _); [done|]. destruct (_ && _); [done|].
    destruct (negb _); [done|]. apply reads_bind; [done|]. intros d.
    destruct (find_code _ _ _ _) as [[k dc]|]; [|done]. destruct (exhausted _ _); [done|].
    destruct (_ || _); [done|]. destruct (_ <=? 0); [done|].
    apply reads_bind; [done|]. intros [] d0. by repeat destruct (_ <? _).
  - intros [[final dc] disc] d. by repeat first [destruct (_ <? _) | destruct (_ && _)].
Qed.

Lemma evolving_create user pid q : evolving (create_intent (P := P) iexact cfg user pid q).
Proof.
  unfold create_intent. apply guarantees_bind; [apply _|by apply guarantees_lift, _|].
  intros [q' base]. destruct (base <? 10000); [by apply guarantees_raise, _|].
  apply evolving_get. intros d. apply evolves_bind; [done|]. intros comp d1 _.
  apply evolves_bind.
  { unfold try_catch, bind, ret. pose proof (reads_discounted q' comp base d1) as Hr.
    destruct (discounted iexact q' comp base d1) as [[x|e] d2]; cbn in *; by subst. }
  intros [price|resp] d2 _; [|done]. apply evolves_bind; [|done].
  apply evolves_insert, new_intent_unpaid.
Qed.
End handlers.

(** ** Sequences of payment steps *)

Section sequences.
Context {P : Type} `{PointArith P} (iexact : string → string → bool).

(** One request, or any change that concerns neither intents nor codes. The settings
    and the gateway's records may differ from step to step; the failing branch of
    the callback is left out (see [failed_callback_demotes]). *)
Inductive payment_step (d : DB P) : DB P → Prop :=
  | step_elsewhere d' : elsewhere d d' → payment_step d d'
  | step_create cfg user pid q : payment_step d (create_intent iexact cfg user pid q d).2
  | step_link public_id user lt now : payment_step d (create_payment_link public_id user lt now d).2
  | step_start cfg public_id rq reply now :
      payment_step d (start_payment cfg public_id rq reply now d).2
  | step_result banks tc now : payment_step d (payment_result_redirect banks tc now d).2
  | step_callback banks tracking pid now :
      (∀ b, banks (opt_str tracking) = Some b → bk_is_success b = true) →
      payment_step d (_handle_sadad banks tracking pid now d).2.

Lemma steps_evolve d d' : rtc payment_step d d' → evolves d d'.
Proof.
  induction 1 as [|d d1 d' Hs _ IH]; [done|]. etrans; [|exact IH]. destruct Hs.
  - by apply evolves_elsewhere.
  - apply evolving_create.
  - apply evolving_link.
  - apply evolving_start.
  - apply evolving_redirect.
  - by apply evolving_callback.
Qed.
End sequences.

(** C13: the handlers implement the contract of payments. Every sequence of requests
    that create, link, start and settle payments (the callback's failing branch
    excepted), interleaved with any other changes, is seen from outside as a sequence of
    steps of the machine that opens intents and settles each once. *)
Theorem payments_refine_spec {P} `{PointArith P} iexact (d d' : DB P) :
  rtc (payment_step iexact) d d' → keys_below d → rtc spec_step (books d) (books d').
Proof. intros Hs Hk. by apply (steps_evolve iexact d d' Hs). Qed.

(** C9: a discount code is counted once per paid intent. Through every sequence of
    requests that create, link, start and settle payments (the callback's failing
    branch excepted), interleaved with any other changes, the recorded use of each
    code grows by exactly the number of its intents that became paid. *)
Theorem code_uses_match_paid_intents {P} `{PointArith P} iexact (d d' : DB P) c :
  rtc (payment_step iexact) d d' → keys_below d →
  used_at d' c = (λ u, u + (paid_uses d' c - paid_uses d c)) <$> used_at d c.
Proof.
  intros Hs Hk. destruct (steps_evolve iexact d d' Hs Hk) as (_ & Hr).
  apply (spec_counts _ _ c) in Hr. rewrite !paid_uses_books in Hr. cbn in Hr. by rewrite !lookup_fmap in Hr.
Qed.

(** C10: a paid intent is final. Through the same sequences no column of a paid
    intent changes: it is neither charged, re-targeted nor made unpaid again. *)
Theorem paid_intents_are_final {P} `{PointArith P} iexact (d d' : DB P) k i :
  rtc (payment_step iexact) d d' → keys_below d →
  db_intents d !! k = Some i → is_paid i = true → db_intents d' !! k = Some i.
Proof.
  intros Hs Hk Hki Hp. destruct (steps_evolve iexact d d' Hs Hk) as (_ & Hr).
  apply (spec_final _ _ k i) in Hr; cbn in *; rewrite lookup_fmap in *.
  - destruct (db_intents d' !! k) as [i'|]; [|done]. cbn in Hr. unfold account_of in Hr.
    destruct (is_paid i'); congruence.
  - rewrite Hki. cbn. unfold account_of. by rewrite Hp.
Qed.

(** The callback for a failed payment makes a paid intent unpaid. It looks at the
    bank's record only; the intent it resolves becomes retryable with its code and
    targets unchanged, and nothing else in the database changes. *)
Theorem failed_callback_demotes {P} `{PointArith P} banks tc pid now (d : DB P) b k i :
  banks tc = Some b → bk_is_success b = false → tc ≠ "" →
  callback_intent d tc pid b = Some (k, i) → db_intents d !! k = Some i →
  is_paid i = true → db_on_commit d = [] →
  ∃ i', _handle_sadad banks (Some tc) (Some pid) now d =
      (Ok (RespRedirect false (Some (pi_public_id i)) []),
       set_db_intents (<[k := i']> (db_intents d)) d) ∧
    is_paid i' = false ∧ can_retry i' = true ∧ pi_discount_code i' = pi_discount_code i ∧
    pi_kyorugi_enrollments i' = pi_kyorugi_enrollments i ∧ pi_amount i' = pi_amount i.
Proof.
  intros Hb Hf Htc Hci Hk Hp Hq. unfold _handle_sadad.
  change (opt_str (Some tc)) with tc. change (opt_str (Some pid)) with pid.
  assert (truthy_str tc = true) as -> by by apply negb_true_iff, String.eqb_neq.
  cbn [negb]. rewrite Hb. unfold bind at 1, get. rewrite Hci, Hf.
  exists (set_pi_status St_failed (set_pi_extra (callback_extra b) i)). split; [|done].
  unfold bind, in_transaction, atomic, bind, fetch, bind, get, save_intent, bind, get.
  rewrite Hk. cbn. rewrite Hk. cbn. rewrite Hq, (alter_some _ _ _ _ Hk). cbn.
  unfold set_db_on_commit, set_db_intents. cbn. by rewrite Hq.
Qed.

(** A payment that settles while the gateway is being asked is lost. When
    [_dispatch_to_gateway] gets the gateway's answer it marks the intent redirected
    whatever happened to it in the meantime, so a paid intent becomes unpaid. *)
Theorem late_dispatch_demotes {P} `{PointArith P} cfg k s tc bank_id now (d : DB P) i :
  db_intents d !! k = Some i → is_paid i = true → db_on_commit d = [] →
  pi_gateway s ∈ ["sadad"; "bmi"] → st_creds_ok cfg = true → 10000 ≤ pi_amount s →
  ∃ i', _dispatch_to_gateway cfg k s (Ok (tc, bank_id)) now d =
      (Ok (RespGateway tc (pi_public_id i)), set_db_intents (<[k := i']> (db_intents d)) d) ∧
    pi_status i' = St_redirected ∧ is_paid i' = false ∧ pi_discount_code i' = pi_discount_code i.
Proof.
  intros Hk Hp Hq Hg Hc Ha. unfold _dispatch_to_gateway.
  destruct (Z.leb_spec (pi_amount s) 0); [lia|].
  destruct (String.eqb_spec (pi_gateway s) "dummy") as [E|_].
  { rewrite E in Hg. by repeat apply elem_of_cons in Hg as [[=]|Hg]; apply not_elem_of_nil in Hg. }
  rewrite (bool_decide_true _ Hg), Hc. cbn [negb]. destruct (Z.ltb_spec (pi_amount s) 10000); [lia|].
  exists (set_pi_token tc (set_pi_ref_id (or_str (pi_ref_id i) (pretty bank_id))
            (set_pi_status St_redirected i))). split; [|done].
  unfold bind, in_transaction, atomic, bind, fetch, bind, get, save_intent, bind, get.
  rewrite Hk. cbn. rewrite Hk. cbn. rewrite Hq, (alter_some _ _ _ _ Hk). cbn.
  unfold set_db_on_commit, set_db_intents. cbn. by rewrite Hq.
Qed.

(** ** Entries settled by a payment *)

(** What a payment with reference [ref] makes of an entry: paid, with status "paid"; a
    missing reference is filled in, and a missing amount only where one is given. *)
Definition paid_entry (ref : string) (fill : option Z) (en : Enrollment) : Enrollment :=
  let amount := match fill with
                | Some a => if en_paid_amount en =? 0 then a else en_paid_amount en
                | None => en_paid_amount en
                end in
  set_en_is_paid true (set_en_status "paid" (set_en_paid_amount amount
    (set_en_bank_ref_code (if truthy_str (en_bank_ref_code en) then en_bank_ref_code en else ref) en))).

(** The entry an intent pays for alone gets its amount; those of a group keep theirs. *)
Definition single_target (i : PaymentIntent) (e : Z) : bool :=
  bool_decide (pi_kyorugi_enrollment i = Some e) && negb (e =? 0).

Definition settled_entry (i : PaymentIntent) (ref : string) (e : Z) (en : Enrollment) : Enrollment :=
  if single_target i e then paid_entry ref (Some (pi_amount i)) en
  else if bool_decide (e ∈ pi_kyorugi_enrollments i) then paid_entry ref None en
  else en.

(** The same for a poomsae entry, which is left alone when nothing is missing. *)
Definition paid_poomsae_entry (ref : string) (amount : Z) (pe : PoomsaeEnrollment) : PoomsaeEnrollment :=
  set_pe_is_paid true (set_pe_status "paid"
    (set_pe_paid_amount (if pe_paid_amount pe =? 0 then amount else pe_paid_amount pe)
      (set_pe_bank_ref_code (if truthy_str (pe_bank_ref_code pe) then pe_bank_ref_code pe else ref) pe))).

Definition poomsae_complete (pe : PoomsaeEnrollment) : bool :=
  pe_is_paid pe && negb (pe_paid_amount pe =? 0) && String.eqb (pe_status pe) "paid"
  && truthy_str (pe_bank_ref_code pe).

(** [PoomsaeEnrollment.save] accepts the row. *)
Definition accepts_poomsae {P} (d : DB P) (k : Z) (pe : PoomsaeEnrollment) : bool :=
  match (save_poomsae (Some k) pe d).1 with Ok _ => true | Err _ => false end.

(** The poomsae entry of an intent, if it has one, needs no change or passes its validation
    once it is marked paid. *)
Definition poomsae_payable {P} (d : DB P) (i : PaymentIntent) (ref : string) : bool :=
  match pi_poomsae_enrollment i with
  | Some k =>
      (k =? 0) ||
      match db_poomsae_enrollments d !! k with
      | Some pe => poomsae_complete pe || accepts_poomsae d k (paid_poomsae_entry ref (pi_amount i) pe)
      | None => false
      end
  | None => true
  end.

Definition paid_registration (ref : string) (amount now : Z) (sr : SeminarRegistration) : SeminarRegistration :=
  if sr_is_paid sr then sr
  else set_sr_paid_at (Some now) (set_sr_bank_ref_code (if truthy_str ref then ref else sr_bank_ref_code sr)
         (set_sr_paid_amount amount (set_sr_is_paid true sr))).

(** The rows an intent names exist. *)
Definition targets_exist {P} (d : DB P) (i : PaymentIntent) : Prop :=
  (∀ e, pi_kyorugi_enrollment i = Some e → e ≠ 0 → is_Some (db_enrollments d !! e)) ∧
  (∀ e, pi_poomsae_enrollment i = Some e → e ≠ 0 → is_Some (db_poomsae_enrollments d !! e)) ∧
  (∀ r, pi_seminar_registration i = Some r → r ≠ 0 → is_Some (db_seminar_regs d !! r)).

(** The tables of the targets after a payment. *)
Record targets_settled {P} (i : PaymentIntent) (ref : string) (now : Z) (d d' : DB P) : Prop := {
  ts_entries : ∀ e, db_enrollments d' !! e = settled_entry i ref e <$> db_enrollments d !! e;
  ts_poomsae : ∀ k, match db_poomsae_enrollments d !! k with
    | Some pe => ∃ pe', db_poomsae_enrollments d' !! k = Some pe' ∧ same_entrant pe pe' ∧
        if bool_decide (pi_poomsae_enrollment i = Some k) && negb (k =? 0)
        then same_payment (paid_poomsae_entry ref (pi_amount i) pe) pe' ∧ (poomsae_complete pe = true → pe' = pe)
        else pe' = pe
    | None => db_poomsae_enrollments d' !! k = None
    end;
  ts_registrations : ∀ r, db_seminar_regs d' !! r =
    (if bool_decide (pi_seminar_registration i = Some r) && negb (r =? 0)
     then paid_registration ref (pi_amount i) now else id) <$> db_seminar_regs d !! r;
}.

Section settling.
Context {P : Type} `{PointArith P}.
Implicit Types d : DB P.

Lemma paid_enrollment_spec i b en :
  (paid_enrollment i b en).1 = paid_entry (pi_ref_id i) (if b then Some (pi_amount i) else None) en ∧
  ((paid_enrollment i b en).2 = false → (paid_enrollment i b en).1 = en).
Proof.
  unfold paid_enrollment, paid_entry. destruct en; cbn.
  repeat (match goal with |- context [if ?c then _ else _] => destruct c eqn:?; cbn in * end);
    rewrite ?andb_true_iff, ?andb_false_iff, ?String.eqb_eq in *; split; naive_solver.
Qed.

Lemma paid_entry_twice ref f en : paid_entry ref f (paid_entry ref None en) = paid_entry ref f en.
Proof.
  unfold paid_entry. destruct en; cbn. destruct (truthy_str en_bank_ref_code) eqn:E; cbn; rewrite ?E; [done|].
  by destruct (truthy_str ref).
Qed.

(** Only entries and the queue of callbacks differ. *)
Definition entries_set d (t : gmap Z Enrollment) (q : list (Z * Enrollment)) : DB P :=
  set_db_on_commit q (set_db_enrollments t d).

(** Marking one existing entry. *)
Lemma mark_entry i b e en d t q : t !! e = Some en → ∃ q',
  _mark_enrollment_paid i b e (entries_set d t q) =
    (Ok tt, entries_set d (<[e := paid_entry (pi_ref_id i) (if b then Some (pi_amount i) else None) en]> t) q').
Proof.
  intros He. unfold _mark_enrollment_paid, fetch, bind, get. cbn. rewrite He. cbn.
  destruct (paid_enrollment_spec i b en) as [<- Hs]. destruct (paid_enrollment i b en) as [en' c]. cbn in *.
  destruct c.
  - unfold save_enrollment, bind, modify, award_on_manual_paid. destruct (_ && _); by eexists.
  - exists q. rewrite Hs by done. by rewrite insert_id.
Qed.

(** Marking a list of existing entries. *)
Lemma mark_entries i l : ∀ d t q, (∀ e, e ∈ l → is_Some (t !! e)) → ∃ t' q',
  forM l (_mark_enrollment_paid i false) (entries_set d t q) = (Ok tt, entries_set d t' q') ∧
  ∀ e, t' !! e = (if bool_decide (e ∈ l) then paid_entry (pi_ref_id i) None else id) <$> t !! e.
Proof.
  induction l as [|x l IH]; intros d t q Hl.
  { exists t, q. split; [done|]. intros e. cbn. by destruct (t !! e). }
  destruct (Hl x) as [en Hx]; [left|]. destruct (mark_entry i false x en d t q Hx) as [q1 Hm].
  cbn [forM]. unfold bind. rewrite Hm.
  destruct (IH d (<[x := paid_entry (pi_ref_id i) None en]> t) q1) as (t' & q' & Hr & Ht').
  { intros e He. destruct (decide (e = x)) as [->|Hne]; [rewrite lookup_insert_eq; by eexists|].
    rewrite lookup_insert_ne by done. apply Hl. by right. }
  exists t', q'. split; [exact Hr|]. intros e. rewrite Ht'. destruct (decide (e = x)) as [->|Hne].
  - rewrite lookup_insert_eq, Hx, (bool_decide_eq_true_2 (x ∈ x :: l)) by left. cbn.
    case_bool_decide; cbn; [|done]. by rewrite paid_entry_twice.
  - rewrite lookup_insert_ne by done. by rewrite (bool_decide_ext (e ∈ x :: l) (e ∈ l)) by set_solver.
Qed.

(** The entries of the group, then the single one. *)
Lemma apply_entries i d : (∀ e, pi_kyorugi_enrollment i = Some e → e ≠ 0 → is_Some (db_enrollments d !! e)) →
  ∃ t q, (_ <~ forM (bulk_targets d i) (_mark_enrollment_paid i false) ;;
          when_some (pi_kyorugi_enrollment i) (_mark_enrollment_paid i true))%monad d = (Ok tt, entries_set d t q) ∧
    ∀ e, t !! e = settled_entry i (pi_ref_id i) e <$> db_enrollments d !! e.
Proof.
  intros Hky. destruct (mark_entries i (bulk_targets d i) d (db_enrollments d) (db_on_commit d))
    as (t1 & q1 & Hr1 & Ht1).
  { intros e He. unfold bulk_targets in He. apply elem_of_filter_list in He as [_ He].
    by destruct (db_enrollments d !! e). }
  assert (entries_set d (db_enrollments d) (db_on_commit d) = d) as E0 by by destruct d.
  rewrite E0 in Hr1. unfold bind. rewrite Hr1.
  assert (Hin : ∀ e en, db_enrollments d !! e = Some en →
    e ∈ bulk_targets d i ↔ e ∈ pi_kyorugi_enrollments i).
  { intros e en He. unfold bulk_targets. rewrite elem_of_filter_list, He. tauto. }
  assert (Hbulk : ∀ e, single_target i e = false →
    t1 !! e = settled_entry i (pi_ref_id i) e <$> db_enrollments d !! e).
  { intros e Hs. rewrite Ht1. unfold settled_entry. rewrite Hs.
    destruct (db_enrollments d !! e) as [en|] eqn:He; [|done]. cbn.
    rewrite (bool_decide_ext _ _ (Hin e en He)). by case_bool_decide. }
  unfold when_some. destruct (pi_kyorugi_enrollment i) as [x|] eqn:Ek.
  2: { exists t1, q1. split; [done|]. intros e. apply Hbulk. unfold single_target. by rewrite Ek. }
  destruct (Z.eqb_spec x 0) as [->|Hne].
  { exists t1, q1. split; [done|]. intros e. apply Hbulk. unfold single_target. rewrite Ek.
    case_bool_decide as E; [|done]. by injection E as <-. }
  destruct (Hky x eq_refl Hne) as [en Hx].
  set (en1 := (if bool_decide (x ∈ bulk_targets d i) then paid_entry (pi_ref_id i) None else id) en).
  assert (Hx1 : t1 !! x = Some en1) by by rewrite Ht1, Hx.
  destruct (mark_entry i true x en1 d t1 q1 Hx1) as [q2 Hm]. rewrite Hm. eexists _, q2. split; [done|].
  intros e. destruct (decide (e = x)) as [->|Hex].
  - rewrite lookup_insert_eq, Hx. cbn. f_equal. unfold settled_entry, single_target.
    rewrite Ek, bool_decide_eq_true_2 by done. rewrite (proj2 (Z.eqb_neq x 0) Hne). cbn.
    unfold en1. case_bool_decide; [apply paid_entry_twice|done].
  - rewrite lookup_insert_ne by done. apply Hbulk. unfold single_target. rewrite Ek.
    by rewrite bool_decide_eq_false_2 by congruence.
Qed.

Lemma paid_poomsae_spec i pe : (paid_poomsae i pe).1 = paid_poomsae_entry (pi_ref_id i) (pi_amount i) pe ∧
  (paid_poomsae i pe).2 = negb (poomsae_complete pe) ∧ (poomsae_complete pe = true → (paid_poomsae i pe).1 = pe).
Proof.
  unfold paid_poomsae, paid_poomsae_entry, poomsae_complete. destruct pe; cbn.
  repeat (match goal with |- context [if ?c then _ else _] => destruct c eqn:?; cbn in * end);
    rewrite ?String.eqb_eq in *; split_and!; naive_solver.
Qed.

Lemma mark_poomsae_outcome i k pe d t q : db_poomsae_enrollments d !! k = Some pe →
  if poomsae_complete pe || accepts_poomsae d k (paid_poomsae_entry (pi_ref_id i) (pi_amount i) pe) then
    ∃ pe', mark_poomsae_paid i k (entries_set d t q) =
        (Ok tt, set_db_poomsae_enrollments (<[k := pe']> (db_poomsae_enrollments d)) (entries_set d t q)) ∧
      same_entrant pe pe' ∧ same_payment (paid_poomsae_entry (pi_ref_id i) (pi_amount i) pe) pe' ∧
      (poomsae_complete pe = true → pe' = pe)
  else ∃ e d', mark_poomsae_paid i k (entries_set d t q) = (Err e, d').
Proof.
  intros Hk. assert (Hf : fetch db_poomsae_enrollments k (entries_set d t q) = (Ok pe, entries_set d t q)).
  { unfold fetch, bind, get. change (db_poomsae_enrollments (entries_set d t q)) with (db_poomsae_enrollments d).
    by rewrite Hk. }
  unfold mark_poomsae_paid. unfold bind at 1 3. rewrite Hf. cbn zeta.
  destruct (paid_poomsae_spec i pe) as (E1 & E2 & E3). rewrite E2, E1.
  destruct (poomsae_complete pe) eqn:Ec; cbn [negb orb].
  - exists pe. split_and!; [|done..|by rewrite <- E1, E3|done].
    rewrite insert_id by done. by destruct d.
  - unfold accepts_poomsae. set (row := paid_poomsae_entry _ _ pe).
    pose proof (save_poomsae_alike k row d (entries_set d t q) eq_refl) as Hs.
    destruct (save_poomsae (Some k) row d) as [[k'|e] d1]; cbn [fst].
    + destruct Hs as (pe' & He & Hp & Hs). exists pe'. unfold bind. rewrite Hs. split_and!; try done.
    + unfold bind. rewrite Hs. by eexists _, _.
Qed.

Lemma seminar_outcome i r sr now d : db_seminar_regs d !! r = Some sr →
  seminar_mark_paid r (pi_amount i) (pi_ref_id i) now d =
    (Ok tt, set_db_seminar_regs (<[r := paid_registration (pi_ref_id i) (pi_amount i) now sr]> (db_seminar_regs d)) d).
Proof.
  intros Hr. unfold seminar_mark_paid, fetch, bind, get, paid_registration. rewrite Hr. cbn.
  destruct (sr_is_paid sr).
  - rewrite insert_id by done. by destruct d.
  - unfold modify. by destruct (truthy_str (pi_ref_id i)), sr.
Qed.

(** What a success does to the targets of its intent, poomsae entries included. *)
Lemma apply_success_outcome i now d : targets_exist d i →
  if poomsae_payable d i (pi_ref_id i) then
    ∃ d', _apply_success_to_targets i now d = (Ok tt, d') ∧ targets_settled i (pi_ref_id i) now d d'
  else ∃ e d', _apply_success_to_targets i now d = (Err e, d').
Proof.
  intros (Hky & Hpo & Hse). destruct (apply_entries i d Hky) as (t & q & Hr & Ht).
  set (rest := (_ <~ when_some (pi_poomsae_enrollment i) (mark_poomsae_paid i) ;;
    when_some (pi_seminar_registration i) (λ k, seminar_mark_paid k (pi_amount i) (pi_ref_id i) now))%monad : M (DB P) unit).
  assert (_apply_success_to_targets i now d = rest (entries_set d t q)) as ->.
  { unfold _apply_success_to_targets, bind at 1, get. unfold bind in Hr. unfold bind at 1 2.
    destruct (forM _ _ d) as [[[]|e] d1]; [|done]. by rewrite Hr. }
  set (p := λ k, bool_decide (pi_poomsae_enrollment i = Some k) && negb (k =? 0)).
  assert (Hseminar : ∀ d1, db_seminar_regs d1 = db_seminar_regs d → ∃ rs,
    when_some (pi_seminar_registration i) (λ k, seminar_mark_paid k (pi_amount i) (pi_ref_id i) now) d1 =
      (Ok tt, set_db_seminar_regs rs d1) ∧
    ∀ r, rs !! r = (if bool_decide (pi_seminar_registration i = Some r) && negb (r =? 0)
      then paid_registration (pi_ref_id i) (pi_amount i) now else id) <$> db_seminar_regs d !! r).
  { intros d1 E1. unfold when_some. destruct (pi_seminar_registration i) as [r|] eqn:Er.
    2: { exists (db_seminar_regs d1). split; [by destruct d1|]. intros r. rewrite E1. by destruct (_ !! r). }
    destruct (Z.eqb_spec r 0) as [->|Hne].
    { exists (db_seminar_regs d1). split; [by destruct d1|]. intros r. rewrite E1.
      case_bool_decide as E; [injection E as <-|]; by destruct (_ !! _). }
    destruct (Hse r eq_refl Hne) as [sr Hsr].
    rewrite (seminar_outcome i r sr now d1) by by rewrite E1. eexists. split; [done|]. intros r'. rewrite E1.
    destruct (decide (r' = r)) as [->|Hr'].
    - rewrite lookup_insert_eq, Hsr, bool_decide_eq_true_2 by done. by rewrite (proj2 (Z.eqb_neq r 0) Hne).
    - rewrite lookup_insert_ne by done. rewrite bool_decide_eq_false_2 by congruence. by destruct (_ !! r'). }
  assert (Hdone : ∀ pes, (∀ k, match db_poomsae_enrollments d !! k with
      | Some pe => ∃ pe', pes !! k = Some pe' ∧ same_entrant pe pe' ∧
          if p k then same_payment (paid_poomsae_entry (pi_ref_id i) (pi_amount i) pe) pe' ∧
                      (poomsae_complete pe = true → pe' = pe) else pe' = pe
      | None => pes !! k = None end) →
    when_some (pi_poomsae_enrollment i) (mark_poomsae_paid i) (entries_set d t q) =
      (Ok tt, set_db_poomsae_enrollments pes (entries_set d t q)) →
    ∃ d', rest (entries_set d t q) = (Ok tt, d') ∧ targets_settled i (pi_ref_id i) now d d').
  { intros pes Hpes Hw. destruct (Hseminar (set_db_poomsae_enrollments pes (entries_set d t q)) eq_refl) as (rs & Hrs & Hlook).
    eexists. split; [unfold rest, bind at 1; rewrite Hw; exact Hrs|]. by constructor. }
  assert (Hsame : ∀ pe : PoomsaeEnrollment, same_entrant pe pe) by done.
  unfold poomsae_payable. destruct (pi_poomsae_enrollment i) as [k|] eqn:Ep.
  - destruct (Z.eqb_spec k 0) as [->|Hne]; cbn [orb].
    { apply (Hdone (db_poomsae_enrollments d)); [|by destruct d].
      intros k. destruct (_ !! k) as [pe|]; [|done]. exists pe. split_and!; [done|done|].
      unfold p. case_bool_decide as E; [injection E as <-|]; done. }
    destruct (Hpo k eq_refl Hne) as [pe Hk]. rewrite Hk.
    pose proof (mark_poomsae_outcome i k pe d t q Hk) as Hm.
    destruct (_ || _).
    + destruct Hm as (pe' & Hm & He & Hp & Hc). apply (Hdone (<[k := pe']> (db_poomsae_enrollments d))).
      2: { cbn. by rewrite (proj2 (Z.eqb_neq k 0) Hne). }
      intros k'. destruct (decide (k' = k)) as [->|Hk'].
      * rewrite Hk, lookup_insert_eq. exists pe'. unfold p. rewrite bool_decide_eq_true_2 by done.
        by rewrite (proj2 (Z.eqb_neq k 0) Hne).
      * rewrite lookup_insert_ne by done. destruct (_ !! k') as [x|]; [|done]. exists x. split_and!; [done|done|].
        unfold p. by rewrite bool_decide_eq_false_2 by congruence.
    + destruct Hm as (e & d' & Hm). exists e, d'. unfold rest, bind at 1. cbn.
      rewrite (proj2 (Z.eqb_neq k 0) Hne). by rewrite Hm.
  - apply (Hdone (db_poomsae_enrollments d)); [|by destruct d].
    intros k. destruct (_ !! k) as [pe|]; [|done]. by exists pe.
Qed.

Lemma accepts_alike d d' k pe : entry_tables d' = entry_tables d →
  accepts_poomsae d' k pe = accepts_poomsae d k pe.
Proof.
  intros Ht. unfold accepts_poomsae. pose proof (save_poomsae_alike k pe d d' Ht) as Hs.
  by destruct (save_poomsae (Some k) pe d) as [[r|e] d1]; [destruct Hs as (? & _ & _ & ->)|rewrite Hs].
Qed.

Lemma payable_alike d d' i ref : entry_tables d' = entry_tables d →
  poomsae_payable d' i ref = poomsae_payable d i ref.
Proof.
  intros Ht. unfold poomsae_payable. pose proof Ht as [= _ _ _ _ _ ->].
  destruct (pi_poomsae_enrollment i) as [k|]; [|done]. f_equal.
  destruct (_ !! k); [|done]. by rewrite (accepts_alike d d').
Qed.

Lemma mark_paid_outcome k i ref_id card_pan extra now d :
  db_intents d !! k = Some i → is_paid i = false → targets_exist d i →
  let ref := or_str (opt_str ref_id) (pi_ref_id i) in
  if poomsae_payable d i ref then
    ∃ i' d', intent_mark_paid k i ref_id card_pan extra now d = (Ok i', d') ∧
      db_intents d' = <[k := i']> (db_intents d) ∧
      is_paid i' = true ∧ pi_amount i' = pi_amount i ∧ pi_ref_id i' = ref ∧
      targets_settled i ref now d d' ∧
      db_discount_codes d' = count_code (pi_discount_code i) (db_discount_codes d)
  else ∃ e, intent_mark_paid k i ref_id card_pan extra now d = (Err e, d).
Proof.
  intros Hk Hp Ht ref.
  assert (Hrun : if poomsae_payable d i ref then
    ∃ i' d', intent_mark_paid k i ref_id card_pan extra now d = (Ok i', d') ∧
      copy_result i' i = i' ∧ targets_settled i ref now d d'
    else ∃ e, intent_mark_paid k i ref_id card_pan extra now d = (Err e, d)).
  { unfold intent_mark_paid. rewrite Hp. remember (set_pi_status St_paid _) as s4 eqn:Es4.
    assert (Hs4 : copy_result s4 i = s4 ∧ pi_ref_id s4 = ref).
    { subst s4. unfold ref, or_str. by destruct (truthy_str (opt_str card_pan)), (json_truthy extra),
        (truthy_str (opt_str ref_id)). }
    clear Es4. destruct Hs4 as (Hc & Hr).
    set (d1 := set_db_intents (<[k := s4]> (db_intents d)) d).
    assert (Hsave : save_intent k (copy_result s4) d = (Ok tt, d1)).
    { unfold save_intent, bind, get. rewrite Hk. cbn [put]. by rewrite (alter_some _ _ _ _ Hk), Hc. }
    pose proof (apply_success_outcome s4 now d1) as Ho. rewrite Hr in Ho.
    assert (poomsae_payable d1 s4 ref = poomsae_payable d i ref) as Hpay.
    { transitivity (poomsae_payable d1 i ref); [by rewrite <- Hc|by apply payable_alike]. }
    rewrite Hpay in Ho. specialize (Ho ltac:(rewrite <- Hc; exact Ht)).
    destruct (poomsae_payable d i ref).
    - destruct Ho as (d2 & Ha & Hset). exists s4, (count_discount s4 d2).2.
      split; [|split; [done|]].
      { unfold atomic, bind. rewrite Hsave, Ha. done. }
      rewrite <- Hc in Hset. destruct Hset as [T1 T2 T3].
      unfold count_discount, modify. by destruct (pi_discount_code s4).
    - destruct Ho as (e & d2 & Ha). exists e. unfold atomic, bind. by rewrite Hsave, Ha. }
  destruct (poomsae_payable d i ref); [|exact Hrun]. destruct Hrun as (i' & d' & Hrun & Hc & Hset).
  pose proof (mark_paid_writes k i ref_id card_pan extra now d) as Hw. rewrite Hrun, Hp in Hw.
  destruct Hw as (row & Hrow & Hpaid & Href & _ & Hi & Hcodes & _). rewrite Hk in Hrow. injection Hrow as <-.
  rewrite Hc in Hi. exists i', d'. split_and!; try done. by rewrite <- Hc.
Qed.
End settling.

(** C11: a payment settles what it is for. Let a stored unpaid intent name rows that
    exist. Unless its poomsae entry refuses, paying succeeds: the intent is stored as
    paid with its reference; every kyorugi entry it names is paid with status "paid",
    the entry it pays for alone gets the amount of the intent if it had none, the entries
    of a group keep their amounts, and all others stay as they are; a poomsae entry is
    paid with the amount of the intent if it had none and keeps its entrant; a seminar
    registration is paid with the amount and the time unless it was paid already; nothing
    else changes in these tables, and the discount code is counted once. A poomsae entry that
    no longer passes its own validation, and is not complete already, refuses: then the call fails
    and nothing at all is written. *)
Theorem payment_settles_entries {P} `{PointArith P} k i ref_id card_pan extra now (d : DB P) :
  db_intents d !! k = Some i → is_paid i = false → targets_exist d i →
  let ref := or_str (opt_str ref_id) (pi_ref_id i) in
  if poomsae_payable d i ref then
    ∃ i' d', intent_mark_paid k i ref_id card_pan extra now d = (Ok i', d') ∧
      db_intents d' = <[k := i']> (db_intents d) ∧
      is_paid i' = true ∧ pi_amount i' = pi_amount i ∧ pi_ref_id i' = ref ∧
      targets_settled i ref now d d' ∧
      db_discount_codes d' = count_code (pi_discount_code i) (db_discount_codes d)
  else ∃ e, intent_mark_paid k i ref_id card_pan extra now d = (Err e, d).
Proof. apply mark_paid_outcome. Qed.

(** ** Terms of an intent *)

Section terms.
Context {P : Type} `{PointArith P} (cfg : settings).
Implicit Types d : DB P.

(** Where the payer is sent back to, who pays and how much. *)
Definition terms (i : PaymentIntent) : string * option Z * Z * option Z :=
  (pi_callback_url i, pi_user i, pi_amount i, pi_discount_code i).

Definition same_terms d d' : Prop := terms <$> db_intents d' = terms <$> db_intents d.

#[export] Instance same_terms_preorder : PreOrder same_terms.
Proof. split; [done|]. intros d1 d2 d3 H12 H23. unfold same_terms in *. congruence. Qed.

Lemma terms_quiet {A} (m : M (DB P) A) : guarantees elsewhere m → guarantees same_terms m.
Proof. intros Hm d. destruct (Hm d) as (Hi & _). unfold same_terms. by rewrite Hi. Qed.

Lemma terms_save k upd : (∀ i, terms (upd i) = terms i) → guarantees same_terms (save_intent (P := P) k upd).
Proof.
  intros Hu d. unfold save_intent, bind, get. destruct (db_intents d !! k); [|done].
  apply fmap_alter_same, Hu.
Qed.

Lemma terms_mark_paid k self ref_id card_pan extra now :
  guarantees same_terms (intent_mark_paid (P := P) k self ref_id card_pan extra now).
Proof.
  intros d. pose proof (mark_paid_writes k self ref_id card_pan extra now d) as Hw.
  destruct (intent_mark_paid _ _ _ _ _ _ d) as [[self'|e] d']; cbn; [|by subst].
  destruct (is_paid self); [by destruct Hw as [_ ->]|].
  destruct Hw as (row & Hk & _ & _ & _ & Hi & _). unfold same_terms. rewrite Hi.
  rewrite <- (alter_some (copy_result self') _ _ _ Hk). by apply fmap_alter_same.
Qed.

Lemma terms_transaction {A} (m : M (DB P) A) :
  guarantees same_terms m → guarantees same_terms (in_transaction m).
Proof.
  intros Hm. unfold in_transaction. refine (guarantees_bind _ _ _ _ _); [by refine (guarantees_atomic _ _ Hm)|].
  intros x. refine (guarantees_bind _ _ _ _ _); [apply terms_quiet, quiet_run_on_commit|].
  intros []. by apply guarantees_ret, _.
Qed.

Lemma terms_fetch {A B} (t : DB P → gmap Z A) k (f : A → M (DB P) B) :
  (∀ x, guarantees same_terms (f x)) → guarantees same_terms (bind (fetch t k) f).
Proof. intros Hf. refine (guarantees_bind _ _ _ _ _); [apply terms_quiet, quiet_fetch|done]. Qed.

Lemma terms_dispatch k s reply now : guarantees same_terms (_dispatch_to_gateway (P := P) cfg k s reply now).
Proof.
  assert (Hthen : ∀ {A} (m : M (DB P) A) (f : A → response), guarantees same_terms m →
    guarantees same_terms (bind m (λ x, ret (f x)))).
  { intros A m f Hm. refine (guarantees_bind _ _ _ _ _); [done|]. intros x. by apply guarantees_ret, _. }
  unfold _dispatch_to_gateway.
  destruct (_ <=? 0); [apply Hthen, terms_transaction, terms_fetch; intros; apply terms_mark_paid|].
  destruct (String.eqb _ _); [apply Hthen, terms_transaction, terms_fetch; intros; apply terms_mark_paid|].
  destruct (bool_decide _); [|by apply guarantees_ret, _].
  destruct (negb _); [by apply guarantees_ret, _|]. destruct (_ <? 10000); [by apply guarantees_ret, _|].
  destruct reply as [[tc bid]|e]; apply Hthen, terms_transaction, terms_fetch; intros x.
  - refine (guarantees_bind _ _ _ _ _); [by apply terms_save|]. intros []. by apply guarantees_ret, _.
  - by apply terms_save.
Qed.
(** The return address [_begin] stores. *)
Lemma begin_callback public_id rq gw d r d' k i :
  _begin cfg public_id rq gw d = (Ok r, d') → db_intents d !! k = Some i →
  ∃ i', db_intents d' !! k = Some i' ∧ pi_user i' = pi_user i ∧ pi_amount i' = pi_amount i ∧
    pi_discount_code i' = pi_discount_code i ∧ (pi_callback_url i' = pi_callback_url i ∨
     pi_callback_url i' = cb_from_client rq ∧ pi_user i = Some (sq_user rq) ∧
     pi_public_id i = public_id ∧ is_paid i = false ∧
     (url_scheme_netloc (cb_from_client rq)).1 ∈ ["http"; "https"] ∧
     _callback_allowed cfg (url_scheme_netloc (cb_from_client rq)).2 = true).
Proof.
  intros Hb Hki. assert (Hself : d' = d → ∃ i', db_intents d' !! k = Some i' ∧ i' = i).
  { intros ->. by exists i. }
  assert (Hd : d' = d ∨ d' ≠ d → True) by done. clear Hd.
  unfold _begin in Hb. destruct (_ && _); [injection Hb as <- <-; by eexists; eauto 7|].
  unfold bind at 1, get in Hb. destruct (find_intent d _) as [[k0 i0]|] eqn:E; [|done].
  apply find_intent_some in E as [Hk0 Hp0]. apply andb_true_iff in Hp0 as [Hpub Hus].
  apply String.eqb_eq in Hpub. apply bool_decide_eq_true in Hus.
  destruct (is_paid i0) eqn:Ep; [injection Hb as <- <-; by eexists; eauto 7|].
  destruct (_ && _); [injection Hb as <- <-; by eexists; eauto 7|].
  destruct (negb (bool_decide _)); [injection Hb as <- <-; by eexists; eauto 7|].
  cbn zeta in Hb. destruct (truthy_str (cb_from_client rq)) eqn:Et; cbn [andb] in Hb.
  - destruct (negb (bool_decide _) || _) eqn:Es; [injection Hb as <- <-; by eexists; eauto 7|].
    destruct (negb (_callback_allowed _ _)) eqn:Ea; [injection Hb as <- <-; by eexists; eauto 7|].
    apply orb_false_iff in Es as [Es _]. apply negb_false_iff, bool_decide_eq_true in Es.
    apply negb_false_iff in Ea. unfold bind, save_intent, bind, get in Hb. rewrite Hk0 in Hb.
    injection Hb as <- <-. cbn. rewrite (alter_some _ _ _ _ Hk0).
    destruct (decide (k = k0)) as [->|Hne].
    + rewrite lookup_insert_eq. rewrite Hk0 in Hki. injection Hki as ->.
      eexists. split; [done|]. cbn. auto 12.
    + rewrite lookup_insert_ne by done. eauto 8.
  - unfold bind, save_intent, bind, get in Hb. rewrite Hk0 in Hb.
    injection Hb as <- <-. cbn. rewrite (alter_some _ _ _ _ Hk0).
    destruct (decide (k = k0)) as [->|Hne].
    + rewrite lookup_insert_eq. rewrite Hk0 in Hki. injection Hki as ->.
      eexists. split; [done|]. cbn. auto 12.
    + rewrite lookup_insert_ne by done. eauto 8.
Qed.
End terms.

(** A payer is only sent back to an allowed place. Starting a payment changes no
    intent's owner, amount or discount code, and an intent's return address only when
    its owner starts it, it is unpaid and the new address is the one requested, an
    http(s) URL whose host is allowed. *)
Theorem callback_stays_allowed {P} `{PointArith P} cfg public_id rq reply now (d : DB P) k i :
  db_intents d !! k = Some i →
  ∃ i', db_intents (start_payment cfg public_id rq reply now d).2 !! k = Some i' ∧
    pi_user i' = pi_user i ∧ pi_amount i' = pi_amount i ∧ pi_discount_code i' = pi_discount_code i ∧
    (pi_callback_url i' = pi_callback_url i ∨
     pi_callback_url i' = cb_from_client rq ∧ pi_user i = Some (sq_user rq) ∧
     pi_public_id i = public_id ∧ is_paid i = false ∧
     (url_scheme_netloc (cb_from_client rq)).1 ∈ ["http"; "https"] ∧
     _callback_allowed cfg (url_scheme_netloc (cb_from_client rq)).2 = true).
Proof.
  intros Hk. set (gw := _pick_gateway cfg (sq_gateway rq)).
  set (good := λ i' : PaymentIntent, pi_user i' = pi_user i ∧ pi_amount i' = pi_amount i ∧
    pi_discount_code i' = pi_discount_code i ∧ (pi_callback_url i' = pi_callback_url i ∨
     pi_callback_url i' = cb_from_client rq ∧ pi_user i = Some (sq_user rq) ∧
     pi_public_id i = public_id ∧ is_paid i = false ∧
     (url_scheme_netloc (cb_from_client rq)).1 ∈ ["http"; "https"] ∧
     _callback_allowed cfg (url_scheme_netloc (cb_from_client rq)).2 = true)).
  assert (Hb : ∃ i', db_intents (in_transaction (_begin cfg public_id rq gw) d).2 !! k = Some i' ∧ good i').
  { assert (Hself : good i) by (unfold good; auto 6).
    unfold in_transaction, bind at 1.
    assert (Hbeg : ∃ i', db_intents (atomic (_begin cfg public_id rq gw) d).2 !! k = Some i' ∧ good i').
    { unfold atomic. destruct (_begin cfg public_id rq gw d) as [[r|e] d1] eqn:Eb; [|by exists i].
      by eapply begin_callback. }
    destruct (atomic (_begin cfg public_id rq gw) d) as [[r|e] d1]; [|done].
    destruct Hbeg as (i' & Hi' & Hg). exists i'. split; [|done]. unfold bind.
    destruct (quiet_run_on_commit d1) as (Hi & _). destruct (run_on_commit d1) as [[[]|e] d2]; cbn in *;
      by rewrite Hi. }
  destruct Hb as (i1 & Hi1 & Hg1). unfold start_payment. fold gw. unfold bind.
  destruct (in_transaction (_begin cfg public_id rq gw) d) as [[[[k1 s]|resp]|e] d1];
    cbn in Hi1; [|by exists i1..].
  assert (Ht : terms <$> db_intents (_dispatch_to_gateway cfg k1 s reply now d1).2 !! k = terms <$> Some i1).
  { rewrite <- Hi1, <- !lookup_fmap. by rewrite (terms_dispatch cfg k1 s reply now d1). }
  destruct (db_intents (_dispatch_to_gateway cfg k1 s reply now d1).2 !! k) as [i'|]; [|done].
  injection Ht as E1 E2 E3 E4. exists i'. unfold good in Hg1. rewrite E1, E2, E3, E4. done.
Qed.

(** ** Creating an intent *)

Section creating.
Context {P : Type} `{PointArith P} (iexact : string → string → bool).
Implicit Types d : DB P.

(** A price the view lets through. *)
Lemma discounted_price_ok q comp base d final dc disc d' :
  discounted iexact q comp base d = (Ok (final, dc, disc), d') → 10000 ≤ base →
  d' = d ∧ 0 ≤ final ∧ 0 ≤ disc ∧ (final = 0 ∨ 10000 ≤ final) ∧ final + disc = base.
Proof.
  intros Hd Hb. pose proof (reads_discounted iexact q comp base d) as Hr. rewrite Hd in Hr. cbn in Hr.
  split; [done|]. revert Hd. unfold discounted. destruct (truthy_str _).
  2: { intros [= <- <- <- _]. lia. }
  unfold bind at 1. destruct (apply_discount_for_competition _ _ _ _ _ d) as [[[[f k] s]|e] d1] eqn:Ea; [|done].
  destruct (Z.ltb_spec f 0); [done|]. destruct (Z.ltb_spec s 0); [done|].
  destruct (Z.ltb_spec base f); [done|]. destruct ((0 <? f) && (f <? 10000)) eqn:Eg; [done|].
  intros [= -> -> -> _]. apply price_adds_up in Ea as (Hsum & _). split_and!; [lia|lia|bool_lia|lia].
Qed.

Lemma insert_intent_ok i d k d' : insert_intent i d = (Ok k, d') →
  k = db_next_id d ∧ d' = set_db_intents (<[k := i]> (db_intents d)) (set_db_next_id (k + 1) d) ∧
  pi_amount i ≤ pos_int_max ∧ (∀ k j, db_intents d !! k = Some j → pi_public_id j ≠ pi_public_id i).
Proof.
  unfold insert_intent. destruct (negb _) eqn:Eb; [done|]. unfold bind at 1, get.
  destruct (find_intent d _) as [[k0 j0]|] eqn:Ef; [done|]. cbn [is_none negb orb].
  destruct (negb (at_most_one_target i)); [done|]. intros [= <- <-]. split_and!; try done.
  - unfold pos_int_ok in Eb. bool_lia.
  - intros k j Hj Heq. unfold find_intent in Ef.
    assert (Hin : (k, j) ∈ List.filter (λ ki : Z * PaymentIntent, String.eqb (pi_public_id ki.2)
        (pi_public_id i)) (reverse (rows_by_id (db_intents d)))).
    { apply elem_of_filter_list. rewrite elem_of_reverse, elem_of_rows_by_id. cbn.
      by rewrite Heq, String.eqb_refl. }
    destruct (List.filter _ _); [by apply not_elem_of_nil in Hin|done].
Qed.

Lemma insert_intent_err i d e d' : insert_intent i d = (Err e, d') → d' = d.
Proof.
  unfold insert_intent. destruct (negb _); [by intros [= _ <-]|]. unfold bind at 1, get.
  destruct (_ || _); [by intros [= _ <-]|]. done.
Qed.
End creating.

(** What a new intent costs. [create_intent] either changes nothing, or stores
    exactly one new intent under a new key: initiated, owned by the requester, with a
    public id no other intent has, and with an amount that is zero or at least 10,000
    rials, fits its column, and with the discount adds up to the original amount. *)
Theorem created_intent_price {P} `{PointArith P} iexact cfg user pid q (d : DB P) :
  match create_intent iexact cfg user pid q d with
  | (Ok (RespCreated p amount original disc), d') => p = pid ∧ ∃ i,
      d' = set_db_intents (<[db_next_id d := i]> (db_intents d)) (set_db_next_id (db_next_id d + 1) d) ∧
      pi_public_id i = pid ∧ pi_user i = Some user ∧ pi_status i = St_initiated ∧
      pi_amount i = amount ∧ pi_original_amount i = original ∧ pi_discount_amount i = disc ∧
      10000 ≤ original ∧ (amount = 0 ∨ 10000 ≤ amount) ∧ amount ≤ pos_int_max ∧
      0 ≤ disc ∧ amount + disc = original ∧
      (∀ k j, db_intents d !! k = Some j → pi_public_id j ≠ pid)
  | (_, d') => d' = d
  end.
Proof.
  unfold create_intent. unfold bind at 1, lift.
  destruct (validate_initiate cfg q) as [[q' base]|e]; [|done].
  destruct (Z.ltb_spec base 10000); [done|]. unfold bind at 1, get. unfold bind at 1, lift.
  destruct (find_competition d q') as [comp|e]; [|done].
  unfold bind at 1, try_catch, bind at 1.
  pose proof (reads_discounted iexact q' comp base d) as Hrd.
  destruct (discounted iexact q' comp base d) as [[[[final dc] disc]|e] d1] eqn:Ed; cbn in Hrd; subst d1;
    [|done].
  cbn [ret]. set (i := new_intent cfg user pid q' comp (final, dc, disc) base). cbn zeta.
  unfold ret at 1. unfold bind at 1. destruct (insert_intent i d) as [[k|e] d2] eqn:Ei.
  - apply insert_intent_ok in Ei as (-> & -> & Hmax & Huniq).
    apply discounted_price_ok in Ed as (_ & ? & ? & ? & ?); [|done]. cbn.
    split; [done|]. exists i. split_and!; try done.
  - cbn. by eapply insert_intent_err.
Qed.

(** ** Examples *)

(** Intent 300 of user 7 with discount code 1 pays for entry 100 and bulk entry 101. *)
Definition sample_intent : PaymentIntent :=
  mkPaymentIntent "p300" (Some 7) "sadad" St_initiated (Some 5) 85000 100000 15000 (Some 1)
    "" "/" "tc1" "" "" (JDict []) None "" "" None [101] (Some 100) None None.

Definition sample_entry (player : Z) : Enrollment :=
  mkEnrollment 5 player None "" "" None "" None "" None (Some 1) float_zero "" 0
    "pending_payment" false 0 "" None "" None 0 0 false false.

Definition pay_db (i : PaymentIntent) : DB Z :=
  set_db_intents {[ 300 := i ]}
  (set_db_enrollments {[ 100 := sample_entry 10; 101 := sample_entry 11 ]}
  (set_db_discount_codes {[ 1 := mkDiscountCode "CHB" 1 STUDENT 15 None None None (Some 10) 4 true ]}
  (empty_db 400))).

Definition bank_says (success : bool) (tc : string) : option Bank :=
  if String.eqb tc "tc1" then Some (mkBank 9 "tc1" success "done" (Some "r1"%string) None (JDict [])) else None.

Definition sample_settings : settings :=
  mkSettings true true true "/" [] true "sadad" ["dummy"; "fake"; "sadad"; "bmi"].

Definition sample_start : start_request :=
  mkStartRequest 7 (Some "sadad"%string) " https://chbtkd.ir/done " None None "ua".

(** Asked for payment, then settled by the result page. *)
Definition started_db : DB Z :=
  (start_payment sample_settings "p300" sample_start (Ok ("tc1"%string, 9)) 50 (pay_db sample_intent)).2.
Definition settled_db : DB Z := (payment_result_redirect (bank_says true) "tc1" 60 started_db).2.

Lemma sample_steps : rtc (payment_step String.eqb) (pay_db sample_intent) settled_db.
Proof.
  eapply rtc_l; [exact (step_start String.eqb _ sample_settings "p300" sample_start (Ok ("tc1"%string, 9)) 50)|].
  eapply rtc_l; [exact (step_result String.eqb _ (bank_says true) "tc1" 60)|].
  apply rtc_refl.
Defined.

Lemma sample_keys_below : keys_below (pay_db sample_intent).
Proof.
  intros k i Hk. change ((({[ 300 := sample_intent ]} : gmap Z PaymentIntent)) !! k = Some i) in Hk.
  apply lookup_singleton_Some in Hk as [<- _]. reflexivity.
Defined.

Lemma payments_refine_spec_witness : rtc spec_step (books (pay_db sample_intent)) (books settled_db).
Proof. exact (payments_refine_spec String.eqb _ _ sample_steps sample_keys_below). Defined.

Lemma code_uses_match_paid_intents_witness :
  used_at settled_db 1 = Some (4 + (paid_uses settled_db 1 - paid_uses (pay_db sample_intent) 1)) ∧
  used_at settled_db 1 = Some 5.
Proof.
  split; [|vm_compute; reflexivity].
  exact (code_uses_match_paid_intents String.eqb (pay_db sample_intent) settled_db 1
    sample_steps sample_keys_below).
Defined.

Definition paid_sample : PaymentIntent := set_pi_status St_paid sample_intent.

Lemma paid_intents_are_final_witness :
  db_intents (create_payment_link "p300" 7 "lt" 0 (pay_db paid_sample)).2 !! 300 = Some paid_sample.
Proof.
  refine (paid_intents_are_final String.eqb (pay_db paid_sample) _ 300 paid_sample
    (rtc_once _ _ (step_link String.eqb _ "p300" 7 "lt" 0)) _ _ _).
  - intros k i Hk. change ((({[ 300 := paid_sample ]} : gmap Z PaymentIntent)) !! k = Some i) in Hk.
    apply lookup_singleton_Some in Hk as [<- _]. reflexivity.
  - vm_compute. reflexivity.
  - reflexivity.
Defined.

Lemma failed_callback_demotes_witness :
  ∃ i', _handle_sadad (bank_says false) (Some "tc1"%string) (Some "p300"%string) 70 (pay_db paid_sample) =
      (Ok (RespRedirect false (Some "p300"%string) []),
       set_db_intents (<[300 := i']> (db_intents (pay_db paid_sample))) (pay_db paid_sample)) ∧
    is_paid i' = false.
Proof.
  destruct (failed_callback_demotes (bank_says false) "tc1" "p300" 70 (pay_db paid_sample)
    (mkBank 9 "tc1" false "done" (Some "r1"%string) None (JDict [])) 300 paid_sample)
    as (i' & Hr & Hp & _); [reflexivity|reflexivity|discriminate|vm_compute; reflexivity
    |vm_compute; reflexivity|reflexivity|reflexivity|].
  exists i'. exact (conj Hr Hp).
Defined.

(** After such a demotion the same intent is paid and its code counted a second time. *)
Definition demoted_db : DB Z :=
  (_handle_sadad (bank_says false) (Some "tc1"%string) (Some "p300"%string) 70 settled_db).2.
Definition recounted_db : DB Z := (payment_result_redirect (bank_says true) "tc1" 80 demoted_db).2.

Example code_counted_twice :
  (used_at (pay_db sample_intent) 1, used_at settled_db 1, used_at recounted_db 1) =
    (Some 4, Some 5, Some 6) ∧
  (is_paid <$> db_intents settled_db !! 300, is_paid <$> db_intents demoted_db !! 300,
   is_paid <$> db_intents recounted_db !! 300) = (Some true, Some false, Some true).
Proof. vm_compute. split; reflexivity. Qed.

Lemma late_dispatch_demotes_witness :
  ∃ i', _dispatch_to_gateway sample_settings 300 sample_intent (Ok ("tc2"%string, 10)) 70 (pay_db paid_sample) =
      (Ok (RespGateway "tc2" "p300"),
       set_db_intents (<[300 := i']> (db_intents (pay_db paid_sample))) (pay_db paid_sample)) ∧
    is_paid i' = false.
Proof.
  destruct (late_dispatch_demotes sample_settings 300 sample_intent "tc2" 10 70 (pay_db paid_sample)
    paid_sample) as (i' & Hr & _ & Hp & _);
    [vm_compute; reflexivity|reflexivity|reflexivity|left|reflexivity|cbn; lia|].
  exists i'. exact (conj Hr Hp).
Defined.

(** Intent 301 pays for poomsae entry 40 of player 10, whose competition is on day 100. *)
Definition poomsae_intent : PaymentIntent :=
  mkPaymentIntent "p301" (Some 7) "sadad" St_redirected None 90000 90000 0 None
    "" "/" "tc3" "" "" (JDict []) None "" "" None [] None (Some 40) None.

Definition poomsae_pay_db (issued : Z) : DB Z :=
  set_db_intents {[ 301 := poomsae_intent ]}
  (set_db_poomsae_comps {[ 7 := mkPoomsaeCompetition "cup" None 100 101 50 90 (Some 100) 1000 2 "p" ]}
  (set_db_profiles {[ 10 := mkUserProfile "p" "q" false "player" "male" None None None 0 0 0 0 0 ]}
  (set_db_poomsae_enrollments {[ 40 := mkPoomsaeEnrollment 7 (Some 10) None "" "" None "" None "" None None
     "standard" "single" "123" issued None "pending_payment" false 0 "" None ]} (empty_db 400)))).

Lemma payment_settles_entries_witness :
  (∃ i' d', intent_mark_paid 300 sample_intent (Some "r"%string) None (JDict []) 60 (pay_db sample_intent) = (Ok i', d') ∧
    db_enrollments d' !! 100 = Some (paid_entry "r" (Some 85000) (sample_entry 10)) ∧
    db_enrollments d' !! 101 = Some (paid_entry "r" None (sample_entry 11))) ∧
  (∃ i' d', intent_mark_paid 301 poomsae_intent (Some "r"%string) None (JDict []) 60 (poomsae_pay_db 50) = (Ok i', d') ∧
    pe_paid_amount <$> db_poomsae_enrollments d' !! 40 = Some 90000) ∧
  ∃ e, intent_mark_paid 301 poomsae_intent (Some "r"%string) None (JDict []) 60 (poomsae_pay_db 99) =
    (Err e, poomsae_pay_db 99).
Proof.
  assert (Htargets : ∀ day, targets_exist (poomsae_pay_db day) poomsae_intent).
  { intros day. split_and!; try discriminate. intros e [= <-] _. eexists. reflexivity. }
  split; [|split].
  - pose proof (payment_settles_entries 300 sample_intent (Some "r"%string) None (JDict []) 60
      (pay_db sample_intent)) as H. cbn zeta in H.
    replace (poomsae_payable _ _ _) with true in H by reflexivity.
    destruct H as (i' & d' & Hr & _ & _ & _ & _ & [He _ _] & _).
    + vm_compute. reflexivity.
    + reflexivity.
    + split_and!; try discriminate. intros e [= <-] _. exists (sample_entry 10). vm_compute. reflexivity.
    + exists i', d'. split; [exact Hr|]. split; rewrite He; vm_compute; reflexivity.
  - pose proof (payment_settles_entries 301 poomsae_intent (Some "r"%string) None (JDict []) 60
      (poomsae_pay_db 50) eq_refl eq_refl (Htargets 50)) as H. cbn zeta in H.
    replace (poomsae_payable _ _ _) with true in H by (vm_compute; reflexivity).
    destruct H as (i' & d' & Hr & _ & _ & _ & _ & [_ Hp _] & _). exists i', d'. split; [exact Hr|].
    specialize (Hp 40). replace (db_poomsae_enrollments (poomsae_pay_db 50) !! 40) with
      (Some (mkPoomsaeEnrollment 7 (Some 10) None "" "" None "" None "" None None
        "standard" "single" "123" 50 None "pending_payment" false 0 "" None)) in Hp by reflexivity.
    destruct Hp as (pe' & Hpe & _ & (_ & _ & Ha & _) & _). rewrite Hpe. exact (f_equal Some Ha).
  - pose proof (payment_settles_entries 301 poomsae_intent (Some "r"%string) None (JDict []) 60
      (poomsae_pay_db 99) eq_refl eq_refl (Htargets 99)) as H. cbn zeta in H.
    replace (poomsae_payable _ _ _) with false in H by (vm_compute; reflexivity). exact H.
Defined.

Lemma callback_stays_allowed_witness :
  ∃ i', db_intents started_db !! 300 = Some i' ∧ pi_amount i' = 85000 ∧
    pi_callback_url i' = "https://chbtkd.ir/done".
Proof.
  destruct (callback_stays_allowed sample_settings "p300" sample_start (Ok ("tc1"%string, 9)) 50
    (pay_db sample_intent) 300 sample_intent) as (i' & Hi & _ & Ha & _); [vm_compute; reflexivity|].
  exists i'. split; [exact Hi|]. split; [exact Ha|].
  assert (Hc : pi_callback_url <$> db_intents started_db !! 300 = Some "https://chbtkd.ir/done"%string)
    by (vm_compute; reflexivity).
  unfold started_db in Hc. rewrite Hi in Hc. injection Hc as Hc. exact Hc.
Defined.

(** A new intent with the code of the sample. *)
Example created_intent :
  (create_intent (λ a b, String.eqb (lower a) (lower b)) sample_settings 8 "p9"
     (mkInitiate None None (Some " CHB "%string) None (Some 10000) "" None None "") (pay_db sample_intent)).1 =
    Ok (RespCreated "p9" 85000 100000 15000).
Proof. vm_compute. reflexivity. Qed.
