(* ===== verification/GroupPayments.v ===== *)
(** Group payments: splitting the amount, finding the group payment of an intent and
    registering its items, as defined in [Payments.v]. *)

From stdpp Require Import pretty.
From S2P Require Import Prelude Store Points Ranking Ledger Payments.
Local Open Scope Z_scope.

(** ** Splitting an amount *)

Lemma fmap_const_range {A} (f : Z → A) (v : A) a b :
  (∀ i, a ≤ i < b → f i = v) → f <$> py_range a b = replicate (Z.to_nat (b - a)) v.
Proof.
  intros Hf. rewrite <- length_py_range, <- (length_fmap f). symmetry. apply replicate_as_elem_of.
  split; [by rewrite length_fmap|]. intros x (i & -> & Hi)%list_elem_of_fmap.
  apply elem_of_py_range in Hi. apply Hf. lia.
Qed.

Lemma split_amounts_shape total n : 0 < n →
  _split_amounts total n =
    replicate (Z.to_nat (total mod n)) (total / n + 1) ++ replicate (Z.to_nat (n - total mod n)) (total / n).
Proof.
  intros Hn. unfold _split_amounts. destruct (Z.leb_spec n 0); [lia|]. cbn zeta.
  replace (total - total / n * n) with (total mod n) by (rewrite Z.mod_eq by lia; lia).
  assert (Hr : 0 ≤ total mod n < n) by (apply Z.mod_pos_bound; lia).
  rewrite (py_range_app 0 (total mod n) n), fmap_app by lia. f_equal.
  - rewrite (fmap_const_range _ (total / n + 1)); [do 2 f_equal; lia|].
    intros i Hi. destruct (Z.ltb_spec i (total mod n)); [done|lia].
  - apply fmap_const_range. intros i Hi. destruct (Z.ltb_spec i (total mod n)); [lia|done].
Qed.

Lemma split_amounts_length total n : 0 < n → length (_split_amounts total n) = Z.to_nat n.
Proof.
  intros Hn. assert (Hr : 0 ≤ total mod n < n) by (apply Z.mod_pos_bound; lia).
  rewrite split_amounts_shape, length_app, !length_replicate by done. lia.
Qed.

Lemma split_amounts_sum total n : 0 < n → sumZ (_split_amounts total n) = total.
Proof.
  intros Hn. assert (Hr : 0 ≤ total mod n < n) by (apply Z.mod_pos_bound; lia).
  rewrite split_amounts_shape, sumZ_app, !sumZ_replicate by done.
  rewrite !Z2Nat.id by lia. pose proof (Z.div_mod total n ltac:(lia)). nia.
Qed.

(** ** The group payment an intent names *)

Lemma digit_pretty n : (n < 10)%N → digit (pretty_N_char n) = Some (Z.of_N n).
Proof.
  intros Hn. assert (Hc : (n = 0 ∨ n = 1 ∨ n = 2 ∨ n = 3 ∨ n = 4 ∨ n = 5 ∨ n = 6 ∨ n = 7 ∨ n = 8 ∨ n = 9)%N)
    by lia.
  by repeat destruct Hc as [->|Hc]; [..|subst n].
Qed.

Lemma digits_pretty_go n : ∀ acc s, (0 < n)%N → default 0 acc = 0 →
  digits acc (pretty_N_go n s) = digits (Some (Z.of_N n)) s.
Proof.
  induction (N.lt_wf_0 n) as [n _ IH]. intros acc s Hn Hacc.
  rewrite pretty_N_go_step by done.
  assert (Hm : (n `mod` 10 < 10)%N) by by apply N.mod_lt.
  pose proof (N.div_mod n 10 ltac:(done)) as Hd.
  destruct (decide (n `div` 10 = 0)%N) as [Hz|Hz].
  - rewrite Hz, pretty_N_go_0. cbn [digits]. rewrite digit_pretty by done. rewrite Hacc. f_equal. f_equal. lia.
  - rewrite IH by (done || lia || (apply N.div_lt; lia)). cbn [digits]. rewrite digit_pretty by done.
    cbn [default]. unfold default, from_option, id. f_equal. f_equal. lia.
Qed.

Lemma digits_pretty n : 0 ≤ n → digits None (pretty n) = Some n.
Proof.
  intros Hn. destruct n as [|p|p]; [done| |lia].
  change (pretty (Z.pos p)) with (pretty (N.pos p)). unfold pretty, pretty_N.
  rewrite decide_False by done. by rewrite digits_pretty_go.
Qed.

Lemma gp_description_found n : 0 ≤ n → find_gp ("Group registration GP#" ++ pretty n) = Some n.
Proof. intros Hn. generalize (digits_pretty n Hn). generalize (pretty n). intros s Hs. unfold String.append. cbn. by rewrite Hs. Qed.

(** ** Registering the items *)

Section registering.
Context {P : Type} `{PointArith P}.
Implicit Types d : DB P.

(** The references between profiles, clubs and boards, and the keys an item uses;
    awarding points changes none of them. *)
Definition references d :=
  ((λ u, (up_coach u, up_club u, up_tkd_board u)) <$> db_profiles d, cl_tkd_board <$> db_clubs d,
   (λ _, tt) <$> db_boards d, (λ _, tt) <$> db_weights d).

Lemma references_post s k p d : references (post s k p d) = references d.
Proof. unfold references. destruct s; cbn; by rewrite fmap_alter_same. Qed.

Lemma references_run ps : ∀ d, references (run_postings ps d) = references d.
Proof.
  induction ps as [|p ps IH]; intros d; [done|]. unfold run_postings in *. cbn [foldl].
  by rewrite IH, references_post.
Qed.

Lemma lookup_fmap_eq {A B} (g : A → B) (t t' : gmap Z A) k x :
  g <$> t = g <$> t' → t !! k = Some x → ∃ x', t' !! k = Some x' ∧ g x' = g x.
Proof.
  intros Ht Hk. assert (Hx : (g <$> t') !! k = Some (g x)) by by rewrite <- Ht, lookup_fmap, Hk.
  rewrite lookup_fmap in Hx. destruct (t' !! k) as [x'|]; [|done]. injection Hx as Hx. eauto.
Qed.

Lemma award_resolves_references d d' en :
  references d = references d' → award_resolves d en → award_resolves d' en.
Proof.
  intros Hr ((Hp & Hc & Hk & Hb) & Uc & Uk & Ub & Kb). unfold references in Hr.
  injection Hr as Ep Ek Eb _.
  assert (Sp : ∀ k, is_Some (db_profiles d !! k) → is_Some (db_profiles d' !! k)).
  { intros k [x Hx]. destruct (lookup_fmap_eq _ _ _ k x Ep Hx) as (? & ? & _). eauto. }
  assert (Sk : ∀ k, is_Some (db_clubs d !! k) → is_Some (db_clubs d' !! k)).
  { intros k [x Hx]. destruct (lookup_fmap_eq _ _ _ k x Ek Hx) as (? & ? & _). eauto. }
  assert (Sb : ∀ k, is_Some (db_boards d !! k) → is_Some (db_boards d' !! k)).
  { intros k [x Hx]. destruct (lookup_fmap_eq _ _ _ k x Eb Hx) as (? & ? & _). eauto. }
  assert (Bp : ∀ k u, db_profiles d' !! k = Some u → ∃ u0, db_profiles d !! k = Some u0 ∧
    up_coach u0 = up_coach u ∧ up_club u0 = up_club u ∧ up_tkd_board u0 = up_tkd_board u).
  { intros k u Hu. destruct (lookup_fmap_eq _ _ _ k u (eq_sym Ep) Hu) as (u0 & ? & [= ? ? ?]). eauto 6. }
  split; [split_and!; auto|]. split_and!.
  - intros u c Hu Hcu. destruct (Bp _ _ Hu) as (u0 & ? & ? & _). apply Sp. apply (Uc u0 c); congruence.
  - intros u c Hu Hcu. destruct (Bp _ _ Hu) as (u0 & ? & _ & ? & _). apply Sk. apply (Uk u0 c); congruence.
  - intros u c Hu Hcu. destruct (Bp _ _ Hu) as (u0 & ? & _ & _ & ?). apply Sb. apply (Ub u0 c); congruence.
  - intros k c b Hkc Hcb. destruct (lookup_fmap_eq _ _ _ k c (eq_sym Ek) Hkc) as (c0 & ? & ?).
    apply Sb. apply (Kb k c0 b); congruence.
Qed.

Lemma points_to_fmap {A B} (g : A → B) (t t' : gmap Z A) o :
  g <$> t = g <$> t' → points_to t o = points_to t' o.
Proof.
  intros Ht. unfold points_to. destruct (or_none o) as [k|]; [|done].
  assert (Hk : g <$> t !! k = g <$> t' !! k) by by rewrite <- !lookup_fmap, Ht.
  by destruct (t !! k), (t' !! k).
Qed.

Lemma item_keys_references d d' it : references d = references d' → item_keys_ok d it = item_keys_ok d' it.
Proof.
  intros [= _ Ek Eb Ew]. unfold item_keys_ok.
  by rewrite (points_to_fmap _ _ _ _ Ek), (points_to_fmap _ _ _ _ Eb), (points_to_fmap _ _ _ _ Ew).
Qed.

(** An item that can be registered: its rows exist and its insurance date is given. *)
Definition registrable (gp : GroupRegistrationPayment) d (it : GroupItem) : Prop :=
  is_Some (gi_insurance_issue_date it) ∧ item_keys_ok d it = true ∧
  award_resolves d (group_enrollment gp "" 0 it 0).

(** The entry made of an item with its share. *)
Definition registered (gp : GroupRegistrationPayment) (itp : GroupItem * Z) (en : Enrollment) : Prop :=
  en_player en = gi_player_id itp.1 ∧ en_competition en = gp_competition gp ∧
  en_coach en = Some (gp_coach gp) ∧ en_weight_category en = or_none (gi_weight_category_id itp.1) ∧
  en_is_paid en = true ∧ en_status en = "paid" ∧ en_paid_amount en = itp.2.

(** New keys are unused. *)
Definition keys_unused d : Prop :=
  ∀ k, db_next_id d ≤ k → db_enrollments d !! k = None ∧ db_awards d !! k = None.

Lemma register_item_runs gp name ref_code now it part d :
  registrable gp d it → keys_unused d →
  ∃ d' en, register_item gp name ref_code now (it, part) d = (Ok (db_next_id d), d') ∧
    registered gp (it, part) en ∧ db_enrollments d' = <[db_next_id d := en]> (db_enrollments d) ∧
    db_next_id d' = db_next_id d + 1 ∧ references d' = references d ∧ keys_unused d'.
Proof.
  intros ([ins Hins] & Hkeys & Hres) Hun. unfold register_item, bind at 1.
  destruct Hres as [[[u Hu] Hl] Hrest]. cbn in Hu. rewrite (fetch_some _ _ _ _ Hu), Hins.
  unfold bind at 1, of_option, ret. unfold bind at 1, get. rewrite Hkeys. cbn [negb].
  unfold bind at 1, fresh_id. set (n := db_next_id d).
  set (en := group_enrollment gp name part it ins).
  set (d1 := set_db_next_id (n + 1) d).
  set (d2 := set_db_enrollments (<[n := en]> (db_enrollments d1)) d1).
  assert (Hsave : save_enrollment n en d1 = (Ok tt, d2)) by done.
  unfold bind at 1. rewrite Hsave.
  destruct (Hun n ltac:(unfold n; lia)) as [_ Han].
  assert (Hres2 : award_resolves d2 en).
  { unfold award_resolves, resolves. cbn. split; [split; [by exists u|exact Hl]|exact Hrest]. }
  destruct (mark_paid_spec n en part ref_code now d2) as (aw & _ & _ & Hrun); try done.
  { cbn. apply lookup_insert_eq. }
  unfold bind. rewrite Hrun. set (row := paid_row part ref_code now en) in *.
  destruct (paid_row_columns part ref_code now en) as (C1 & C2 & C3 & _ & _ & C4 & C5 & C6).
  match goal with |- context [run_postings _ ?x] => set (d3 := x) end.
  pose proof (not_totals_run (award_postings aw) d3) as Hn. unfold not_totals in Hn.
  assert (Hd3 : db_enrollments (run_postings (award_postings aw) d3) = <[n := row]> (db_enrollments d) ∧
    db_awards (run_postings (award_postings aw) d3) = <[n := aw]> (db_awards d) ∧
    db_next_id (run_postings (award_postings aw) d3) = n + 1).
  { split_and!.
    - transitivity (db_enrollments d3); [by injection Hn|]. cbn. by rewrite insert_insert_eq.
    - by injection Hn.
    - by injection Hn. }
  destruct Hd3 as (He3 & Ha3 & Hn3).
  exists (run_postings (award_postings aw) d3), row. split_and!; try done.
  - unfold registered. fold row in C1, C2, C3, C4, C5, C6. rewrite C1, C2, C3, C4, C5, C6.
    split_and!; try done. by apply paid_row_status.
  - by rewrite references_run.
  - intros k Hk. rewrite Hn3 in Hk. rewrite He3, Ha3, !lookup_insert_ne by lia. apply Hun. unfold n in Hk. lia.
Qed.

Lemma registrable_references gp d d' it :
  references d = references d' → registrable gp d it → registrable gp d' it.
Proof.
  intros Hr (? & Hk & Hres). split_and!; [done| |by eapply award_resolves_references].
  by rewrite <- (item_keys_references d).
Qed.

Lemma register_items_run gp name ref_code now l : ∀ d,
  Forall (λ itp, registrable gp d itp.1) l → keys_unused d →
  ∃ d', mapM (register_item gp name ref_code now) l d = (Ok (seqZ (db_next_id d) (zlen l)), d') ∧
    db_next_id d' = db_next_id d + zlen l ∧
    (∀ e, e < db_next_id d → db_enrollments d' !! e = db_enrollments d !! e) ∧
    (∀ j itp, l !! j = Some itp →
       ∃ en, db_enrollments d' !! (db_next_id d + Z.of_nat j) = Some en ∧ registered gp itp en).
Proof.
  induction l as [|[it part] l IH]; intros d Hl Hun.
  { exists d. split_and!; try done. unfold zlen. cbn. lia. }
  apply Forall_cons in Hl as [Hit Hl]. cbn in Hit.
  destruct (register_item_runs gp name ref_code now it part d Hit Hun)
    as (d1 & en & Hr & Hreg & He1 & Hn1 & Href & Hun1).
  destruct (IH d1) as (d' & Hm & Hn' & Hold & Hnew).
  { eapply Forall_impl; [exact Hl|]. intros itp. by apply registrable_references. }
  { done. }
  exists d'. cbn [mapM]. unfold bind at 1. rewrite Hr. unfold bind at 1. rewrite Hm.
  assert (Hz : zlen ((it, part) :: l) = Z.succ (zlen l)) by (unfold zlen; cbn; lia).
  assert (Hz0 : 0 ≤ zlen l) by (unfold zlen; lia).
  split_and!.
  - unfold ret. rewrite Hz, (seqZ_cons (db_next_id d)), Hn1 by lia.
    replace (Z.pred (Z.succ (zlen l))) with (zlen l) by lia. done.
  - rewrite Hn', Hn1, Hz. lia.
  - intros e He. rewrite Hold by lia. rewrite He1, lookup_insert_ne by lia. done.
  - intros [|j] itp Hj; cbn in Hj.
    + injection Hj as <-. exists en. rewrite Hold by lia. rewrite He1.
      replace (db_next_id d + Z.of_nat 0) with (db_next_id d) by lia. by rewrite lookup_insert_eq.
    + destruct (Hnew j itp Hj) as (en' & Hen' & ?). exists en'. split; [|done].
      by replace (db_next_id d + Z.of_nat (S j)) with (db_next_id d1 + Z.of_nat j) by lia.
Qed.
End registering.

(** A group amount is split exactly. Into [n] parts: there are [n] of them, they add
    up to the total, any two differ by at most one unit, and the larger ones come
    first. *)
Theorem split_amounts_exact total n : 0 < n →
  zlen (_split_amounts total n) = n ∧ sumZ (_split_amounts total n) = total ∧
  (∀ x, x ∈ _split_amounts total n → total / n ≤ x ≤ total / n + 1) ∧
  StronglySorted Z.ge (_split_amounts total n).
Proof.
  intros Hn. unfold zlen. rewrite split_amounts_length, split_amounts_sum by done.
  split_and!; [lia|done|..]; rewrite split_amounts_shape by done.
  - intros x [[-> _]%elem_of_replicate|[-> _]%elem_of_replicate]%elem_of_app; lia.
  - assert (Hrep : ∀ k v, StronglySorted Z.ge (replicate k v)).
    { intros k v. induction k as [|k IH]; [constructor|]. cbn. constructor; [done|].
      apply Forall_forall. intros x [-> _]%elem_of_replicate. lia. }
    apply strongly_sorted_app; [apply Hrep..|].
    intros x y [-> _]%elem_of_replicate [-> _]%elem_of_replicate. lia.
Qed.

Lemma sumZ_zip_paid {P} (d : DB P) ids parts : length ids = length parts →
  (∀ j k p, ids !! j = Some k → parts !! j = Some p →
     ∃ en, db_enrollments d !! k = Some en ∧ en_paid_amount en = p) →
  sumZ ((λ k, default 0 (en_paid_amount <$> db_enrollments d !! k)) <$> ids) = sumZ parts.
Proof.
  revert parts. induction ids as [|k ids IH]; intros [|p parts] Hlen Hj; try done.
  rewrite fmap_cons, !sumZ_cons. rewrite (IH parts).
  - destruct (Hj 0%nat k p eq_refl eq_refl) as (en & -> & <-). done.
  - by injection Hlen.
  - intros j k' p' Hk Hp. by apply (Hj (S j)).
Qed.

(** What a group payment asks for. *)
Definition group_payable (gp : GroupRegistrationPayment) : Z :=
  if truthy_id (gp_payable_amount gp) then default 0 (gp_payable_amount gp) else gp_total_amount gp.

(** Finalising once the registration of the items is known to run. *)
Lemma finalize_runs {P} `{PointArith P} intent ref_code now gp_id gp coach comp ids (d d1 : DB P) :
  find_gp (pi_description intent) = Some gp_id → db_group_payments d !! gp_id = Some gp →
  gp_is_paid gp = false → gp_items gp ≠ [] →
  db_profiles d !! gp_coach gp = Some coach → db_competitions d !! gp_competition gp = Some comp →
  mapM (register_item gp (full_name coach) ref_code now)
    (zip (gp_items gp) (_split_amounts (group_payable gp) (zlen (gp_items gp)))) d = (Ok ids, d1) →
  _finalize_group_payment_if_needed intent ref_code now d =
    (Ok ids, set_db_group_payments (<[gp_id := gp_done gp ref_code ids now]> (db_group_payments d1)) d1).
Proof.
  intros Hgp Hrow Hunpaid Hne Hcoach Hcomp Hm.
  unfold _finalize_group_payment_if_needed, atomic. rewrite Hgp. unfold bind at 1, get.
  rewrite Hrow, Hunpaid, bool_decide_false; [|by destruct (gp_items gp)].
  unfold bind at 1. rewrite (fetch_some _ _ _ _ Hcoach).
  unfold bind at 1. rewrite (fetch_some _ _ _ _ Hcomp).
  fold (group_payable gp). cbn zeta. unfold bind at 1. by rewrite Hm.
Qed.

(** A second call only reports the entries. *)
Lemma finalize_again {P} `{PointArith P} intent ref_code now gp_id gp ids (d : DB P) :
  find_gp (pi_description intent) = Some gp_id → db_group_payments d !! gp_id = Some gp →
  gp_is_paid gp = true → gp_enrollment_ids gp = Some ids →
  _finalize_group_payment_if_needed intent ref_code now d = (Ok ids, d).
Proof.
  intros Hgp Hrow Hpaid Hids. unfold _finalize_group_payment_if_needed, atomic, bind, get.
  by rewrite Hgp, Hrow, Hpaid, Hids.
Qed.

(** C12: a settled group payment registers every student once. For an unpaid group
    payment whose items can be registered, finalising succeeds: it creates one new
    entry per item, in order, paid with status "paid" for the item's player; the paid
    amounts add up to what the group had to pay; existing entries stay; and a second
    call returns the same entries and changes nothing. *)
Theorem group_payment_registers_each_item {P} `{PointArith P} intent ref_code now gp_id gp coach comp
    (d : DB P) :
  find_gp (pi_description intent) = Some gp_id → db_group_payments d !! gp_id = Some gp →
  gp_is_paid gp = false → gp_items gp ≠ [] →
  db_profiles d !! gp_coach gp = Some coach → db_competitions d !! gp_competition gp = Some comp →
  Forall (registrable gp d) (gp_items gp) → keys_unused d →
  ∃ ids d', _finalize_group_payment_if_needed intent ref_code now d = (Ok ids, d') ∧
    length ids = length (gp_items gp) ∧ NoDup ids ∧
    (∀ j it, gp_items gp !! j = Some it → ∃ k part en, ids !! j = Some k ∧
       db_enrollments d !! k = None ∧ db_enrollments d' !! k = Some en ∧ registered gp (it, part) en) ∧
    sumZ ((λ k, default 0 (en_paid_amount <$> db_enrollments d' !! k)) <$> ids) = group_payable gp ∧
    (∀ e en, db_enrollments d !! e = Some en → db_enrollments d' !! e = Some en) ∧
    ∀ ref' now', _finalize_group_payment_if_needed intent ref' now' d' = (Ok ids, d').
Proof.
  intros Hgp Hrow Hunpaid Hne Hcoach Hcomp Hitems Hun.
  assert (Hpos : 0 < zlen (gp_items gp)).
  { unfold zlen. destruct (gp_items gp); [done|cbn; lia]. }
  set (parts := _split_amounts (group_payable gp) (zlen (gp_items gp))).
  assert (Hlen : length parts = length (gp_items gp)).
  { unfold parts. rewrite split_amounts_length by done. unfold zlen. lia. }
  set (l := zip (gp_items gp) parts).
  assert (Hll : length l = length (gp_items gp)) by (unfold l; rewrite length_zip_with; lia).
  destruct (register_items_run gp (full_name coach) ref_code now l d) as (d1 & Hm & _ & Hold & Hnew).
  { apply Forall_forall. intros [it part] Hin. apply elem_of_zip_l in Hin.
    rewrite Forall_forall in Hitems. by apply Hitems. }
  { done. }
  set (ids := seqZ (db_next_id d) (zlen l)) in *.
  assert (Hidlen : length ids = length (gp_items gp)).
  { unfold ids. rewrite length_seqZ. unfold zlen. lia. }
  set (d' := set_db_group_payments (<[gp_id := gp_done gp ref_code ids now]> (db_group_payments d1)) d1).
  assert (Hid : ∀ j, (j < length ids)%nat → ids !! j = Some (db_next_id d + Z.of_nat j)).
  { intros j Hj. apply lookup_seqZ. unfold ids in Hj. rewrite length_seqZ in Hj. lia. }
  exists ids, d'. split_and!.
  - by eapply finalize_runs.
  - done.
  - apply NoDup_seqZ.
  - intros j it Hj. assert (Hjl : (j < length (gp_items gp))%nat) by by eapply lookup_lt_Some.
    destruct (parts !! j) as [part|] eqn:Ep; [|apply lookup_ge_None in Ep; lia].
    destruct (Hnew j (it, part)) as (en & Hen & Hreg).
    { unfold l. apply lookup_zip_with_Some. eauto. }
    exists (db_next_id d + Z.of_nat j), part, en. split_and!; try done; [apply Hid; lia|].
    apply Hun. lia.
  - rewrite (sumZ_zip_paid d' ids parts); [by apply split_amounts_sum|lia|].
    intros j k p Hk Hp. rewrite Hid in Hk by by eapply lookup_lt_Some. injection Hk as <-.
    destruct (gp_items gp !! j) as [it|] eqn:Ei.
    2: { apply lookup_ge_None in Ei. apply lookup_lt_Some in Hp. lia. }
    destruct (Hnew j (it, p)) as (en & Hen & Hreg); [apply lookup_zip_with_Some; eauto|].
    exists en. split; [done|]. apply Hreg.
  - intros e en He. change (db_enrollments d1 !! e = Some en). rewrite Hold; [done|].
    destruct (Z.lt_ge_cases e (db_next_id d)) as [?|Hge]; [done|].
    destruct (Hun e Hge) as [Hnone _]. congruence.
  - intros ref' now'. eapply finalize_again; [done|apply lookup_insert_eq|done|done].
Qed.

(** ** Examples *)

Lemma split_amounts_exact_witness : zlen (_split_amounts 100000 3) = 3 ∧ sumZ (_split_amounts 100000 3) = 100000 ∧
  _split_amounts 100000 3 = [33334; 33333; 33333].
Proof.
  destruct (split_amounts_exact 100000 3) as (H1 & H2 & _); [reflexivity|].
  exact (conj H1 (conj H2 eq_refl)).
Defined.

Definition sample_item : GroupItem :=
  mkGroupItem 10 (Some 30) "club" (Some 40) "board" None (Some 1) (Some (b64_of_Z 55)) "ins" (Some 5).
Definition sample_group : GroupRegistrationPayment :=
  mkGroupRegistrationPayment 20 5 [sample_item; sample_item] (Some 100001) None None None 100001 false None.
Definition group_sample : DB Z :=
  set_db_group_payments {[ 60 := sample_group ]} (ranking_sample Z).
Definition group_intent : PaymentIntent :=
  mkPaymentIntent "p" (Some 7) "sadad" St_paid None 100001 100001 0 None "Group registration GP#60"
    "/" "" "" "" (JDict []) None "" "" None [] None None None.

Lemma sample_registrable : registrable sample_group group_sample sample_item.
Proof.
  split; [eexists; reflexivity|]. split; [vm_compute; reflexivity|].
  assert (Hp : db_profiles group_sample = db_profiles (ranking_sample Z)) by reflexivity.
  assert (Hk : db_clubs group_sample = db_clubs (ranking_sample Z)) by reflexivity.
  assert (Hb : db_boards group_sample = db_boards (ranking_sample Z)) by reflexivity.
  split.
  - split; [eexists; vm_compute; reflexivity|].
    split; [intros c [= <-]; eexists; vm_compute; reflexivity|].
    split; intros c [= <-]; eexists; vm_compute; reflexivity.
  - split; [|split; [|split]].
    + intros u c Hu Hc. vm_compute in Hu. injection Hu as <-. injection Hc as <-.
      eexists; vm_compute; reflexivity.
    + intros u c Hu Hc. vm_compute in Hu. injection Hu as <-. injection Hc as <-.
      eexists; vm_compute; reflexivity.
    + intros u b Hu Hc. vm_compute in Hu. injection Hu as <-. injection Hc as <-.
      eexists; vm_compute; reflexivity.
    + intros k c b Hkc Hcb. rewrite Hk in Hkc.
      change (({[ 30 := mkTkdClub "club" (Some 40) 0 0 0 0 ]} : gmap Z (TkdClub Z)) !! k = Some c) in Hkc.
      apply lookup_singleton_Some in Hkc as [_ <-]. injection Hcb as <-. eexists; vm_compute; reflexivity.
Qed.

Lemma sample_keys_unused : keys_unused group_sample.
Proof.
  intros k Hk. change (200 ≤ k) in Hk. split; [|reflexivity].
  match goal with |- ?m !! k = None => change m with (db_enrollments (ranking_sample Z)) end.
  unfold ranking_sample. cbn [db_enrollments set_db_profiles set_db_clubs set_db_boards set_db_weights
    set_db_competitions set_db_enrollments]. apply lookup_singleton_None. lia.
Qed.

Lemma group_payment_registers_each_item_witness : ∃ ids d',
  _finalize_group_payment_if_needed group_intent "ref" 50 group_sample = (Ok ids, d') ∧ length ids = 2%nat ∧
  sumZ ((λ k, default 0 (en_paid_amount <$> db_enrollments d' !! k)) <$> ids) = 100001.
Proof.
  destruct (group_payment_registers_each_item group_intent "ref" 50 60 sample_group
    (mkUserProfile "c" "x" false "player" "male" (Some 30) None (Some 40) 0 0 0 0 0)
    (mkKyorugiCompetition "cup" 1000 (Some 1) "male" None 0 10 11 12 13 2 None "c") group_sample)
    as (ids & d' & Hr & Hl & _ & _ & Hs & _).
  - vm_compute. reflexivity.
  - vm_compute. reflexivity.
  - reflexivity.
  - discriminate.
  - vm_compute. reflexivity.
  - vm_compute. reflexivity.
  - exact (Forall_cons_2 _ _ _ sample_registrable (Forall_cons_2 _ _ _ sample_registrable (Forall_nil_2 _))).
  - exact sample_keys_unused.
  - exists ids, d'. exact (conj Hr (conj Hl Hs)).
Defined.
