(* ===== verification/GroupRegistration.v ===== *)
(** Group registration by a coach: [CoachRegisterStudentsView] of
    [competitions/views.py] with the helpers it calls in [views.py] and
    [competitions/serializers.py].

    Belts are read from tables that are arguments here: the belt grade of a profile
    and the belt groups of a competition. Text is UTF-8; [lower] and [strip] act on
    its ASCII characters. *)

From Stdlib Require Import Ascii SpecFloat.
From stdpp Require Import pretty.
From S2P Require Import Prelude Store Points Ranking Ledger Discounts Payments Settlement GroupPayments.
Local Open Scope Z_scope.

(** ** Text *)

(** [k in t], [t.replace(old, new)] for a non-empty [old], and a lookup in a list of
    pairs. *)
Fixpoint contains (k t : string) : bool :=
  String.prefix k t || match t with EmptyString => false | String _ t' => contains k t' end.

Fixpoint replace_from (old new : string) (skip : nat) (s : string) : string :=
  match s with
  | EmptyString => EmptyString
  | String c s' =>
      match skip with
      | S n => replace_from old new n s'
      | O => if String.prefix old s
             then (new ++ replace_from old new (String.length old - 1) s')%string
             else String c (replace_from old new 0 s')
      end
  end.
Definition replace (old new s : string) : string := replace_from old new 0 s.

Definition assoc (l : list (string * string)) (k : string) : option string :=
  snd <$> head (List.filter (λ kv, String.eqb kv.1 k) l).

(** [_to_en_digits] *)
Definition digit_pairs : list (string * string) :=
  [("۰", "0"); ("۱", "1"); ("۲", "2"); ("۳", "3"); ("۴", "4"); ("۵", "5"); ("۶", "6"); ("۷", "7");
   ("۸", "8"); ("۹", "9"); ("٠", "0"); ("١", "1"); ("٢", "2"); ("٣", "3"); ("٤", "4"); ("٥", "5");
   ("٦", "6"); ("٧", "7"); ("٨", "8"); ("٩", "9")]%string.
Definition _to_en_digits (s : string) : string :=
  foldl (λ t kv, replace kv.1 kv.2 t) s digit_pairs.

(** [BELT_BASE], in its order. *)
Definition BELT_BASE : list (string * string) :=
  [("white", "white"); ("سفید", "white"); ("yellow", "yellow"); ("زرد", "yellow");
   ("green", "green"); ("سبز", "green"); ("blue", "blue"); ("آبی", "blue"); ("ابي", "blue"); ("ابی", "blue");
   ("red", "red"); ("قرمز", "red"); ("black", "black"); ("مشکی", "black"); ("مشكى", "black")]%string.

(** [_DAN_RE]: a black belt with its dan. *)
Definition drop (n : nat) (s : string) : string := String.substring n (String.length s - n) s.

Definition dan_here (name t : string) : option Z :=
  if String.prefix name t then
    let r := lstrip (drop (String.length name) t) in
    if String.prefix "دان" r then
      match lstrip (drop (String.length "دان") r) with
      | String a r' =>
          match digit a with
          | None => None
          | Some x =>
              match r' with
              | String b _ => match digit b with Some y => Some (10 * x + y) | None => Some x end
              | EmptyString => Some x
              end
          end
      | EmptyString => None
      end
    else None
  else None.

Fixpoint find_dan (t : string) : option Z :=
  match dan_here "مشکی" t with
  | Some n => Some n
  | None =>
      match dan_here "مشكى" t with
      | Some n => Some n
      | None => match t with EmptyString => None | String _ t' => find_dan t' end
      end
  end.

(** [_norm_belt] *)
Definition _norm_belt (s : string) : option string :=
  if negb (truthy_str s) then None
  else
    let t := replace "ك" "ک" (replace "ي" "ی" (lower (strip (_to_en_digits s)))) in
    let black := match find_dan t with Some n => (1 <=? n) && (n <=? 10) | None => false end in
    if black then Some "black"%string
    else snd <$> head (List.filter (λ kv, contains kv.1 t) BELT_BASE).

(** [_gender_norm] *)
Definition _gender_norm (val : string) : option string :=
  assoc [("male", "male"); ("m", "male"); ("man", "male"); ("boy", "male"); ("مرد", "male"); ("آقا", "male");
         ("female", "female"); ("f", "female"); ("woman", "female"); ("girl", "female"); ("زن", "female");
         ("خانم", "female"); ("both", "both"); ("mix", "both")]%string (lower (strip val)).

(** [_required_gender_for_comp], by the gender column of a competition of either kind. *)
Definition required_gender (gender : string) : option string :=
  if negb (truthy_str gender) then None
  else
    let zwnj := String (ascii_of_nat 226) (String (ascii_of_nat 128) (String (ascii_of_nat 140) "")) in
    let t := replace "-" "" (replace zwnj "" (lower (strip gender))) in
    Some (default t (assoc
      [("m", "male"); ("male", "male"); ("man", "male"); ("آقا", "male"); ("اقا", "male"); ("مرد", "male");
       ("آقایان", "male"); ("f", "female"); ("female", "female"); ("woman", "female"); ("زن", "female");
       ("خانم", "female"); ("بانوان", "female"); ("both", "both"); ("mixed", "both"); ("مختلط", "both");
       ("هر دو", "both"); ("هردو", "both")]%string t)).

Definition _required_gender_for_comp (comp : KyorugiCompetition) : option string :=
  required_gender (kc_gender comp).

(** [RegistrationManualMixin.registration_open_effective] on day [today]. *)
Definition registration_open_effective (comp : KyorugiCompetition) (today : Z) : bool :=
  match kc_registration_manual comp with
  | Some b => b
  | None => negb (today <? kc_registration_start comp) && negb (kc_registration_end comp <? today)
  end.

(** ** Weights *)

(** [WeightCategory.includes_weight] *)
Definition includes_weight (wc : WeightCategory) (weight : spec_float) : bool :=
  SFleb (wc_min_weight wc) weight
  && SFleb weight (SFadd 53 1024 (wc_max_weight wc) (wc_tolerance wc)).

(** ** The request *)

(** One student of the request: the id, weight and insurance date as parsed, [None]
    where the value is missing or does not parse. *)
Record student := mkStudent {
  su_player_id : option Z;
  su_declared_weight : option spec_float;
  su_insurance_number : string;
  su_insurance_issue_date : option Z;
}.

Record group_request := mkGroupRequest {
  gq_students : list student;
  gq_preview : bool;
  gq_gateway : string;
  gq_discount_code : string;
}.

Inductive student_error :=
  | NoProfile | WrongGender | BadInsuranceDate | LateInsurance | BadWeight | NoBeltGroup | NoWeightCategory.

Inductive group_response :=
  | GrNoCoach
  | GrClosed
  | GrEmpty
  | GrAllEnrolled (skipped : list Z)
  | GrNothing (skipped : list Z) (errors : gmap Z student_error)
  | GrBadFee
  | GrPreview (raw discount payable : Z) (count : Z) (skipped : list Z) (errors : gmap Z student_error)
  | GrRegistered (gp : Z) (payable : Z) (ids : list Z)
  | GrPay (payable : Z) (intent : string) (gp : Z).

Section registration.
Context {P : Type} `{PointArith P} (iexact : string → string → bool)
  (belt_grade : Z → string) (belt_groups : Z → list (Z * list string)).
Local Abbreviation db := (DB P).

(** [_get_comp_by_key] *)
Fixpoint all_digits (s : string) : bool :=
  match s with
  | EmptyString => true
  | String c s' => negb (is_none (digit c)) && all_digits s'
  end.

Definition _get_comp_by_key (d : db) (key : string) : option Z :=
  let s := strip key in
  let by_id := if truthy_str s && all_digits s
               then match digits None s with
                    | Some k => if is_none (db_competitions d !! k) then None else Some k
                    | None => None
                    end
               else None in
  match by_id with
  | Some k => Some k
  | None => fst <$> head (List.filter (λ kc, iexact (kc_public_id kc.2) s) (rows_by_id (db_competitions d)))
  end.

(** [allowed_weight_ids] and [_find_weight_category_for] *)
Definition allowed_weight_ids (d : db) (comp_id : Z) : list Z :=
  List.filter (λ ma, ma_competition ma =? comp_id) (db_mat_assignments d) ≫= ma_weights.

Definition _find_weight_category_for (d : db) (comp_id : Z) (gender : option string)
    (declared_weight : spec_float) : option Z :=
  let ids := allowed_weight_ids d comp_id in
  let qs := sort_by (λ a b, SFleb (wc_min_weight a.2) (wc_min_weight b.2))
    (List.filter (λ kw, bool_decide (kw.1 ∈ ids) && bool_decide (Some (wc_gender kw.2) = gender))
       (rows_by_id (db_weights d))) in
  fst <$> head (List.filter (λ kw, includes_weight kw.2 declared_weight) qs).

(** [_belt_group_for_player_in_comp] *)
Definition _belt_group_for_player_in_comp (player comp_id : Z) : option Z :=
  match _norm_belt (belt_grade player) with
  | None => None
  | Some code =>
      fst <$> head (List.filter (λ g, existsb (λ b, bool_decide (_norm_belt b = Some code)) g.2)
                      (belt_groups comp_id))
  end.

(** The players of the request that already have an entry that is not canceled. *)
Definition already (d : db) (comp_id : Z) (player_ids : list Z) : list Z :=
  omap (λ ke : Z * Enrollment,
    if (en_competition ke.2 =? comp_id) && bool_decide (en_player ke.2 ∈ player_ids)
       && negb (String.eqb (en_status ke.2) "canceled") then Some (en_player ke.2) else None)
    (rows_by_id (db_enrollments d)).

(** The checks of one student, in order, and the item kept for the payment. *)
Definition check_student (d : db) (comp_id : Z) (comp : KyorugiCompetition) (pid : Z) (it : student)
    : student_error + GroupItem :=
  let req_gender := _required_gender_for_comp comp in
  match db_profiles d !! pid with
  | None => inl NoProfile
  | Some player =>
      if negb (bool_decide (up_role player ∈ ["player"; "both"; "coach"])) then inl NoProfile
      else if bool_decide (req_gender ∈ [Some "male"; Some "female"]%string)
              && negb (bool_decide (_gender_norm (up_gender player) = req_gender)) then inl WrongGender
      else
        match su_insurance_issue_date it with
        | None => inl BadInsuranceDate
        | Some ins_date =>
            if kc_competition_date comp - 3 <? ins_date then inl LateInsurance
            else
              let declared_weight := default (S754_zero false) (su_declared_weight it) in
              if SFleb declared_weight (S754_zero false) then inl BadWeight
              else
                let belt_group := _belt_group_for_player_in_comp pid comp_id in
                if negb (bool_decide (length (belt_groups comp_id) = 0%nat)) && is_none belt_group
                then inl NoBeltGroup
                else
                  let gender_for_wc := match req_gender with
                                       | Some g => Some g | None => _gender_norm (up_gender player) end in
                  match _find_weight_category_for d comp_id gender_for_wc declared_weight with
                  | None => inl NoWeightCategory
                  | Some wc =>
                      let club := c ← up_club player; (λ r, (c, r)) <$> db_clubs d !! c in
                      let board := b ← up_tkd_board player; (λ r, (b, r)) <$> db_boards d !! b in
                      inr (mkGroupItem pid (fst <$> club)
                             (default "" ((λ c, cl_club_name c.2) <$> club)) (fst <$> board)
                             (default "" ((λ b, bo_name b.2) <$> board)) belt_group (Some wc)
                             (Some declared_weight) (su_insurance_number it) (Some ins_date))
                  end
        end
  end.

(** The loop over the students: accepted items, those already enrolled, and the
    errors by player. *)
Record screening := mkScreening {
  sc_items : list GroupItem;
  sc_skipped : list Z;
  sc_errors : gmap Z student_error;
}.

Definition screen_student (d : db) (comp_id : Z) (comp : KyorugiCompetition) (enrolled : list Z)
    (acc : screening) (it : student) : screening :=
  match su_player_id it with
  | None => acc
  | Some pid =>
      if bool_decide (pid ∈ enrolled)
      then mkScreening (sc_items acc) (sc_skipped acc ++ [pid]) (sc_errors acc)
      else
        match check_student d comp_id comp pid it with
        | inl e => mkScreening (sc_items acc) (sc_skipped acc) (<[pid := e]> (sc_errors acc))
        | inr item => mkScreening (sc_items acc ++ [item]) (sc_skipped acc) (sc_errors acc)
        end
  end.

Definition screen (d : db) (comp_id : Z) (comp : KyorugiCompetition) (students : list student) : screening :=
  foldl (screen_student d comp_id comp (already d comp_id (omap su_player_id students)))
    (mkScreening [] [] ∅) students.

(** ** The price *)

(** The amounts of a registration in rials: raw, discount, payable and the code. *)
Record group_price := mkGroupPrice {
  pr_raw : Z;
  pr_discount : Z;
  pr_payable : Z;
  pr_code : option (Z * DiscountCode);
}.

Definition group_price_of (comp_id : Z) (comp : KyorugiCompetition) (count : Z) (code : string)
    : M db group_price :=
  (let raw := kc_entry_fee comp * count in
   if truthy_str (strip code) then
     r <~ try_catch (apply_discount_for_competition iexact (Some (Kyorugi comp_id)) raw (strip code) false)
            (λ _, raise ValidationError) ;;
     let '(final, dc, disc) := r in
     d <~ get ;;
     ret (mkGroupPrice raw (Z.max 0 disc) (Z.max 0 final)
            (k ← dc; (λ row, (k, row)) <$> db_discount_codes d !! k))
   else ret (mkGroupPrice raw 0 (Z.max 0 raw) None))%monad.

(** [f"TEST-COACH-GP-{gp.id:06d}"] *)
Definition pad6 (n : Z) : string :=
  let s := pretty n in
  (String.concat "" (replicate (6 - String.length s) "0") ++ s)%string.

(** [GroupRegistrationPayment.objects.create] *)
Definition create_group_payment (coach comp_id : Z) (items : list GroupItem) (pr : group_price) : M db Z :=
  (raise_if (negb (pos_int_ok (pr_payable pr))) DataError ;;
   k <~ fresh_id ;;
   _ <~ modify (λ d, set_db_group_payments
          (<[k := mkGroupRegistrationPayment coach comp_id items (Some (pr_payable pr))
                    ((λ c, dc_code c.2) <$> pr_code pr) None None (pr_payable pr) false None]>
             (db_group_payments d)) d) ;;
   ret k)%monad.

(** [_finalize_free_or_test]: the same registration of the items, without the callback. *)
Definition _finalize_free_or_test (gp : GroupRegistrationPayment) (coach_name ref_code : string) (now : Z)
    : M db (list Z) :=
  atomic (
    if bool_decide (length (gp_items gp) = 0%nat) then ret []
    else
      let parts := _split_amounts (default 0 (gp_payable_amount gp)) (zlen (gp_items gp)) in
      mapM (register_item gp coach_name ref_code now) (zip (gp_items gp) parts))%monad.

Definition gp_settled (gp : GroupRegistrationPayment) (ref_code : string) (ids : list Z)
    : GroupRegistrationPayment :=
  mkGroupRegistrationPayment (gp_coach gp) (gp_competition gp) (gp_items gp) (gp_payable_amount gp)
    (gp_discount_code gp) (Some ids) (gp_paid_at gp) (gp_total_amount gp) true (Some ref_code).

Definition group_description (gp_id : Z) : string := ("Group registration GP#" ++ pretty gp_id)%string.

(** The intent of a group payment, with the code recorded afterwards. *)
Definition group_intent (callback_url : string) (user : Z) (pid gateway : string) (pr : group_price)
    (gp_id : Z) : PaymentIntent :=
  mkPaymentIntent pid (Some user) (lower (strip (or_str gateway "sadad"))) St_initiated None
    (pr_payable pr) (pr_raw pr) 0 None (group_description gp_id) callback_url
    "" "" "" (JDict []) None "" "" None [] None None None.

Definition create_group_intent (callback_url : string) (user : Z) (pid gateway : string) (pr : group_price)
    (gp_id : Z) : M db unit :=
  (k <~ insert_intent (group_intent callback_url user pid gateway pr gp_id) ;;
   match pr_code pr with
   | Some (c, _) =>
       try_catch (save_intent k (λ row, set_pi_discount_code (Some c)
                    (set_pi_discount_amount (pr_discount pr) row))) (λ _, ret tt)
   | None => ret tt
   end)%monad.

(** [CoachRegisterStudentsView.post] by [user], whose coach profile is [coach];
    [pid] is the public id generated for the intent. *)
Definition register_students (payments_enabled : bool) (callback_url : string)
    (user : Z) (coach : option Z) (key : string) (q : group_request) (pid : string) (today now : Z)
    : M db group_response :=
  atomic (
    d <~ get ;;
    comp_id <~ of_option (_get_comp_by_key d key) Http404 ;;
    comp <~ fetch db_competitions comp_id ;;
    match coach with
    | None => ret GrNoCoach
    | Some coach =>
        if negb (registration_open_effective comp today) then ret GrClosed
        else if bool_decide (length (gq_students q) = 0%nat) then ret GrEmpty
        else
          let sc := screen d comp_id comp (gq_students q) in
          if bool_decide (length (sc_items sc) = 0%nat) then
            ret (if bool_decide (sc_errors sc = ∅) && negb (bool_decide (length (sc_skipped sc) = 0%nat))
                 then GrAllEnrolled (sc_skipped sc) else GrNothing (sc_skipped sc) (sc_errors sc))
          else if (0 <? kc_entry_fee comp) && (kc_entry_fee comp <? 10000) then ret GrBadFee
          else
            pr <~ group_price_of comp_id comp (zlen (sc_items sc)) (gq_discount_code q) ;;
            if gq_preview q then
              ret (GrPreview (pr_raw pr) (pr_discount pr) (pr_payable pr) (zlen (sc_items sc))
                     (sc_skipped sc) (sc_errors sc))
            else
              gp_id <~ create_group_payment coach comp_id (sc_items sc) pr ;;
              if negb payments_enabled || (pr_payable pr =? 0) then
                gp <~ fetch db_group_payments gp_id ;;
                coach_row <~ fetch db_profiles coach ;;
                let ref_code := if pr_payable pr =? 0 then "FREE"%string
                                else ("TEST-COACH-GP-" ++ pad6 gp_id)%string in
                ids <~ _finalize_free_or_test gp (full_name coach_row) ref_code now ;;
                _ <~ modify (λ d, set_db_group_payments
                       (<[gp_id := gp_settled gp ref_code ids]> (db_group_payments d)) d) ;;
                ret (GrRegistered gp_id (pr_payable pr) ids)
              else
                _ <~ create_group_intent callback_url user pid (gq_gateway q) pr gp_id ;;
                ret (GrPay (pr_payable pr) pid gp_id)
    end)%monad.
End registration.

(** ** Correctness *)

Section correctness.
Context {P : Type} `{PointArith P} (iexact : string → string → bool)
  (belt_grade : Z → string) (belt_groups : Z → list (Z * list string)).
Implicit Types d : DB P.

(** What the rules of a competition ask of a registered student. *)
Definition follows_rules d (comp_id : Z) (comp : KyorugiCompetition) (item : GroupItem) : Prop :=
  ∃ player ins w wc cat,
    db_profiles d !! gi_player_id item = Some player ∧
    up_role player ∈ ["player"; "both"; "coach"]%string ∧
    (∀ g, _required_gender_for_comp comp = Some g → g = "male" ∨ g = "female" →
       _gender_norm (up_gender player) = Some g)%string ∧
    gi_insurance_issue_date item = Some ins ∧ ins ≤ kc_competition_date comp - 3 ∧
    gi_declared_weight item = Some w ∧ SFleb w (S754_zero false) = false ∧
    gi_weight_category_id item = Some wc ∧ wc ∈ allowed_weight_ids d comp_id ∧
    db_weights d !! wc = Some cat ∧ includes_weight cat w = true ∧
    (belt_groups comp_id ≠ [] → is_Some (gi_belt_group_id item)).

Lemma weight_category_found d comp_id gender w k :
  _find_weight_category_for d comp_id gender w = Some k →
  k ∈ allowed_weight_ids d comp_id ∧
  ∃ cat, db_weights d !! k = Some cat ∧ Some (wc_gender cat) = gender ∧ includes_weight cat w = true.
Proof.
  unfold _find_weight_category_for. cbn zeta. intros Hh.
  destruct (List.filter (λ kw : Z * WeightCategory, includes_weight kw.2 w) _) as [|[k0 cat] l] eqn:Ef; [done|].
  injection Hh as ->.
  assert (Hin : (k, cat) ∈ (k, cat) :: l) by left. rewrite <- Ef in Hin.
  apply elem_of_filter_list in Hin as [Hin Hw]. rewrite sort_by_perm in Hin.
  apply elem_of_filter_list in Hin as [Hin Hb]. rewrite elem_of_rows_by_id in Hin.
  apply andb_true_iff in Hb as [Hi Hg]. apply bool_decide_eq_true in Hi, Hg. eauto 6.
Qed.

Lemma check_student_sound d comp_id comp pid it item :
  check_student belt_grade belt_groups d comp_id comp pid it = inr item →
  gi_player_id item = pid ∧ follows_rules d comp_id comp item.
Proof.
  unfold check_student. cbn zeta.
  destruct (db_profiles d !! pid) as [player|] eqn:Ep; [|done].
  destruct (bool_decide (up_role player ∈ _)) eqn:Er; [|done]. cbn [negb].
  destruct (bool_decide (_required_gender_for_comp comp ∈ _) && _) eqn:Eg; [done|].
  destruct (su_insurance_issue_date it) as [ins|]; [|done].
  destruct (Z.ltb_spec (kc_competition_date comp - 3) ins); [done|].
  destruct (SFleb _ _) eqn:Ew; [done|].
  destruct (negb (bool_decide (length (belt_groups comp_id) = 0%nat)) && _) eqn:Eb; [done|].
  destruct (_find_weight_category_for _ _ _ _) as [wc|] eqn:Ec; [|done].
  intros [= <-]. split; [done|]. apply weight_category_found in Ec as (Hwc & cat & Hcat & _ & Hinc).
  exists player, ins, (default (S754_zero false) (su_declared_weight it)), wc, cat.
  split_and!; try done; try lia.
  - by apply bool_decide_eq_true in Er.
  - intros g Hg Hmf. apply andb_false_iff in Eg as [Eg|Eg].
    + apply bool_decide_eq_false in Eg. exfalso. apply Eg. rewrite Hg. destruct Hmf as [-> | ->].
      * left.
      * right. left.
    + apply negb_false_iff, bool_decide_eq_true in Eg. congruence.
  - cbn. intros Hne. apply andb_false_iff in Eb as [Eb|Eb].
    + apply negb_false_iff, bool_decide_eq_true in Eb. by destruct (belt_groups comp_id).
    + by destruct (_belt_group_for_player_in_comp _ _ _ _).
Qed.

(** The loop keeps every screened item accounted for. *)
Lemma screen_loop d comp_id comp enrolled (Q : GroupItem → Prop) (R : Z → Prop) l : ∀ acc,
  (∀ it pid item, it ∈ l → su_player_id it = Some pid → pid ∉ enrolled →
     check_student belt_grade belt_groups d comp_id comp pid it = inr item → Q item) →
  (∀ it pid, it ∈ l → su_player_id it = Some pid → pid ∈ enrolled → R pid) →
  Forall Q (sc_items acc) → Forall R (sc_skipped acc) →
  let sc := foldl (screen_student belt_grade belt_groups d comp_id comp enrolled) acc l in
  Forall Q (sc_items sc) ∧ Forall R (sc_skipped sc).
Proof.
  induction l as [|it l IH]; intros acc HQ HR Ha Hs; [done|]. cbn [foldl]. apply IH.
  - intros it' pid item Hin. apply HQ. by right.
  - intros it' pid Hin. apply HR. by right.
  - unfold screen_student. destruct (su_player_id it) as [pid|] eqn:Ep; [|done].
    case_bool_decide as He; [done|].
    destruct (check_student _ _ _ _ _ _ _) as [e|item] eqn:Ec; [done|]. cbn.
    apply Forall_app. split; [done|]. apply Forall_singleton. eapply HQ; [left|done..].
  - unfold screen_student. destruct (su_player_id it) as [pid|] eqn:Ep; [|done].
    case_bool_decide as He.
    + cbn. apply Forall_app. split; [done|]. apply Forall_singleton. eapply HR; [left|done..].
    + by destruct (check_student _ _ _ _ _ _ _).
Qed.
End correctness.

(** Only students who meet the rules are registered. Every item the screening keeps
    is for a student of the request without a live entry in the competition, with a
    fitting role and gender, an insurance issued at least three days before the
    competition, a positive weight inside the chosen category, which is one of the
    competition's, and a belt group where the competition has them; every student
    reported as already registered has a live entry. *)
Theorem screened_students_follow_rules {P} `{PointArith P} belt_grade belt_groups (d : DB P) comp_id comp
    students :
  let sc := screen belt_grade belt_groups d comp_id comp students in
  Forall (λ item, follows_rules belt_groups d comp_id comp item ∧
    (∃ it, it ∈ students ∧ su_player_id it = Some (gi_player_id item)) ∧
    (∀ e en, db_enrollments d !! e = Some en → en_competition en = comp_id →
       en_player en = gi_player_id item → en_status en = "canceled")) (sc_items sc) ∧
  Forall (λ pid, ∃ e en, db_enrollments d !! e = Some en ∧ en_competition en = comp_id ∧
    en_player en = pid ∧ en_status en ≠ "canceled") (sc_skipped sc).
Proof.
  cbn zeta. unfold screen. apply screen_loop; [| |constructor..].
  - intros it pid item Hin Hpid Hni Hc. apply check_student_sound in Hc as [<- Hf].
    split_and!; [done|by exists it|]. intros e en He Hcomp Hpl.
    destruct (String.eqb_spec (en_status en) "canceled") as [|Hne]; [done|]. exfalso. apply Hni.
    apply list_elem_of_omap. exists (e, en). split; [by apply elem_of_rows_by_id|]. cbn.
    rewrite Hcomp, Hpl, Z.eqb_refl, bool_decide_true; [by apply String.eqb_neq in Hne as ->|].
    apply list_elem_of_omap. eauto.
  - intros it pid _ _ Hi. unfold already in Hi.
    apply list_elem_of_omap in Hi as ([e en] & Hin & Hm). cbn in Hm. apply elem_of_rows_by_id in Hin.
    destruct (_ && _) eqn:Eb; [|done]. injection Hm as <-.
    apply andb_true_iff in Eb as [Eb Est]. apply andb_true_iff in Eb as [Ec _].
    apply Z.eqb_eq in Ec. apply negb_true_iff, String.eqb_neq in Est.
    by exists e, en.
Qed.

Section charging.
Context {P : Type} `{PointArith P} (iexact : string → string → bool).
Implicit Types d : DB P.

Lemma group_price_ok comp_id comp count code d pr d' :
  group_price_of iexact comp_id comp count code d = (Ok pr, d') → 0 ≤ kc_entry_fee comp * count →
  d' = d ∧ pr_raw pr = kc_entry_fee comp * count ∧ 0 ≤ pr_discount pr ∧ 0 ≤ pr_payable pr ∧
  pr_payable pr + pr_discount pr = pr_raw pr ∧ (pr_code pr = None → pr_discount pr = 0).
Proof.
  unfold group_price_of. intros Hp Hfee. revert Hp. destruct (truthy_str (strip code)).
  2: { intros [= <- <-]. cbn. split_and!; try done; lia. }
  unfold bind at 1, try_catch.
  destruct (apply_discount_for_competition _ _ _ _ _ d) as [[[[final dc] disc]|e] d1] eqn:Ea; [|done].
  apply price_adds_up in Ea as (Hsum & Hf & Hd & Hsame & Hdc). rewrite (Hsame eq_refl) in *.
  unfold bind, get, ret. intros [= <- <-]. cbn. split_and!; try done; try lia.
  intros Hc. destruct dc as [k|]; cbn in Hc; [|lia].
  destruct Hdc as [row Hrow]. by rewrite Hrow in Hc.
Qed.
End charging.

(** The steps behind an answer that asks for payment. *)
Lemma registration_steps {P} `{PointArith P} iexact belt_grade belt_groups
    payments_enabled callback_url user coach key q pid today now (d : DB P) payable p gp_id d' :
  register_students iexact belt_grade belt_groups payments_enabled callback_url user coach key q pid
    today now d = (Ok (GrPay payable p gp_id), d') →
  ∃ comp_id comp coach_id pr d0 d1,
    _get_comp_by_key iexact d key = Some comp_id ∧ db_competitions d !! comp_id = Some comp ∧
    coach = Some coach_id ∧ p = pid ∧ payable = pr_payable pr ∧ pr_payable pr ≠ 0 ∧
    let items := sc_items (screen belt_grade belt_groups d comp_id comp (gq_students q)) in
    group_price_of iexact comp_id comp (zlen items) (gq_discount_code q) d = (Ok pr, d0) ∧
    create_group_payment coach_id comp_id items pr d0 = (Ok gp_id, d1) ∧
    create_group_intent callback_url user pid (gq_gateway q) pr gp_id d1 = (Ok tt, d').
Proof.
  intros Hr. unfold register_students in Hr. apply (proj1 (atomic_ok _ _ _ _)) in Hr.
  apply bind_ok in Hr as (d0 & d1 & [= <- <-] & Hr).
  apply bind_ok in Hr as (comp_id & d1 & Hk & Hr).
  destruct (_get_comp_by_key iexact d key) as [c|] eqn:Ek; [|done]. injection Hk as -> <-.
  apply bind_ok in Hr as (comp & d1 & Hc & Hr). pose proof (reads_fetch db_competitions comp_id d) as Hrd.
  rewrite Hc in Hrd. cbn in Hrd. subst d1. apply fetch_ok in Hc.
  destruct coach as [coach|]; [|done].
  destruct (negb (registration_open_effective comp today)); [done|].
  destruct (bool_decide (length (gq_students q) = 0%nat)); [done|]. cbn zeta in Hr.
  set (sc := screen _ _ d comp_id comp (gq_students q)) in *.
  destruct (bool_decide (length (sc_items sc) = 0%nat)); [by destruct (_ && _)|].
  destruct ((0 <? kc_entry_fee comp) && _); [done|].
  apply bind_ok in Hr as (pr & d0 & Hp & Hr). destruct (gq_preview q); [done|].
  apply bind_ok in Hr as (g & d1 & Hg & Hr).
  destruct (negb payments_enabled || (pr_payable pr =? 0)) eqn:Efree.
  { apply bind_ok in Hr as (? & ? & _ & Hr). apply bind_ok in Hr as (? & ? & _ & Hr).
    apply bind_ok in Hr as (? & ? & _ & Hr). by apply bind_ok in Hr as (? & ? & _ & Hr). }
  apply orb_false_iff in Efree as [_ Hpos]. apply Z.eqb_neq in Hpos.
  apply bind_ok in Hr as ([] & d3 & Hs & [= <- <- <- <-]).
  by exists comp_id, comp, coach, pr, d0, d1.
Qed.

(** What creating the group intent stores. *)
Lemma create_group_intent_ok {P} `{PointArith P} callback_url user pid gateway pr gp_id (d d' : DB P) :
  create_group_intent callback_url user pid gateway pr gp_id d = (Ok tt, d') →
  (pr_code pr = None → pr_discount pr = 0) →
  ∃ i, d' = set_db_intents (<[db_next_id d := i]> (db_intents d)) (set_db_next_id (db_next_id d + 1) d) ∧
    pi_public_id i = pid ∧ pi_user i = Some user ∧ is_paid i = false ∧ pi_amount i = pr_payable pr ∧
    pi_discount_amount i = pr_discount pr ∧ pi_description i = group_description gp_id.
Proof.
  intros Hs Hnone. apply bind_ok in Hs as (k & d2 & Hi & Hs). apply insert_intent_ok in Hi as (-> & -> & _ & _).
  set (i := group_intent _ _ _ _ _ _) in Hs.
  destruct (pr_code pr) as [[c row]|].
  - exists (set_pi_discount_code (Some c) (set_pi_discount_amount (pr_discount pr) i)). split; [|done].
    unfold try_catch, save_intent, bind, get in Hs. cbn in Hs. rewrite lookup_insert_eq in Hs.
    injection Hs as <-. unfold set_db_intents. cbn.
    by rewrite (alter_some _ _ _ i), insert_insert_eq by apply lookup_insert_eq.
  - injection Hs as <-. exists i. rewrite Hnone by done. done.
Qed.

(** What a group registration asks for. When the registration answers with a payment,
    a new unpaid group payment of the coach holds exactly the screened students, and a
    new intent of the requester asks for its amount: fee times students less the
    discount, with the code recorded on the intent but not yet counted. The callback
    finds the group payment from the intent's description. No entry is created yet. *)
Theorem group_registration_links_payment {P} `{PointArith P} iexact belt_grade belt_groups
    payments_enabled callback_url user coach key q pid today now (d : DB P) payable p gp_id d' :
  register_students iexact belt_grade belt_groups payments_enabled callback_url user coach key q pid
    today now d = (Ok (GrPay payable p gp_id), d') →
  0 ≤ db_next_id d → (∀ k comp, db_competitions d !! k = Some comp → 0 ≤ kc_entry_fee comp) →
  p = pid ∧ ∃ comp_id comp gp k i,
    _get_comp_by_key iexact d key = Some comp_id ∧ db_competitions d !! comp_id = Some comp ∧
    db_group_payments d' !! gp_id = Some gp ∧ coach = Some (gp_coach gp) ∧ gp_competition gp = comp_id ∧
    gp_items gp = sc_items (screen belt_grade belt_groups d comp_id comp (gq_students q)) ∧
    gp_is_paid gp = false ∧ gp_payable_amount gp = Some payable ∧ gp_total_amount gp = payable ∧
    db_intents d' = <[k := i]> (db_intents d) ∧ pi_public_id i = pid ∧ pi_user i = Some user ∧
    is_paid i = false ∧ pi_amount i = payable ∧ find_gp (pi_description i) = Some gp_id ∧
    0 < payable ∧ payable + pi_discount_amount i = kc_entry_fee comp * zlen (gp_items gp) ∧
    db_enrollments d' = db_enrollments d ∧ db_discount_codes d' = db_discount_codes d.
Proof.
  intros Hr Hn Hfee. apply registration_steps in Hr as
    (comp_id & comp & coach_id & pr & d0 & d1 & Hk & Hc & -> & -> & -> & Hpos & Hp & Hg & Hs).
  apply group_price_ok in Hp as (-> & Hraw & Hdisc & Hpay & Hsum & Hnone);
    [|specialize (Hfee _ _ Hc); unfold zlen; nia].
  unfold create_group_payment in Hg. destruct (negb (pos_int_ok (pr_payable pr))); [done|].
  injection Hg as <- <-. apply create_group_intent_ok in Hs as (i & -> & E1 & E2 & E3 & E4 & E5 & E6); [|done].
  split; [done|]. eexists comp_id, comp, _, (db_next_id d + 1), i. cbn.
  rewrite lookup_insert_eq, E4, E5, E6. unfold group_description. rewrite gp_description_found by done.
  split_and!; try done; cbn [gp_items]; lia.
Qed.

(** ** Examples *)

Example belts : _norm_belt "مشکی دان ۳" = Some "black"%string ∧ _norm_belt " Red " = Some "red"%string ∧
  _norm_belt "قرمز مشکی دان 2" = Some "black"%string ∧ _norm_belt "?" = None.
Proof. vm_compute. done. Qed.

(** The ranking sample with competition 5 at 100,000 rials, weight 1 on its mat and a
    fifteen percent code. *)
Definition group_db : DB Z :=
  set_db_competitions
    {[ 5 := mkKyorugiCompetition "cup" 100000 (Some 1) "male" None 0 10 11 12 13 2 None "c" ]}
  (set_db_mat_assignments [mkMatAssignment 5 1 [1]]
  (set_db_discount_codes {[ 1 := mkDiscountCode "CHB" 1 STUDENT 15 None None None (Some 10) 4 true ]}
  (set_db_enrollments ∅ (ranking_sample Z)))).

Definition student_10 : student := mkStudent (Some 10) (Some (b64_of_Z 55)) "ins" (Some 5).

Definition register_group (enabled : bool) (students : list student) (code pid : string)
    : M (DB Z) group_response :=
  register_students String.eqb (λ _, "red"%string) (λ _, [(7, ["red"%string])]) enabled "" 7 (Some 20) "5"
    (mkGroupRequest students false "sadad" code) pid 5 50.

Lemma group_registration_links_payment_witness :
  ∃ gp i, db_group_payments (register_group true [student_10] "CHB" "pid" group_db).2 !! 200 = Some gp ∧
    gp_is_paid gp = false ∧ pi_amount i = 85000 ∧ find_gp (pi_description i) = Some 200.
Proof.
  destruct (group_registration_links_payment String.eqb (λ _, "red"%string) (λ _, [(7, ["red"%string])]) true ""
    7 (Some 20) "5" (mkGroupRequest [student_10] false "sadad" "CHB") "pid" 5 50 group_db 85000 "pid" 200
    (register_group true [student_10] "CHB" "pid" group_db).2)
    as (_ & _ & _ & gp & _ & i & _ & _ & Hgp & _ & _ & _ & Hu & _ & _ & _ & _ & _ & _ & Ha & Hf & _).
  - vm_compute. reflexivity.
  - vm_compute. discriminate.
  - intros k comp Hk.
    change ((({[ 5 := mkKyorugiCompetition "cup" 100000 (Some 1) "male" None 0 10 11 12 13 2 None "c" ]}
      : gmap Z KyorugiCompetition)) !! k = Some comp) in Hk.
    apply lookup_singleton_Some in Hk as [_ <-]. discriminate.
  - exists gp, i. exact (conj Hgp (conj Hu (conj Ha Hf))).
Defined.

(** A student listed twice in one request is registered, and charged, twice: existing
    entries are only looked up once, before the loop. *)
Example student_registered_twice :
  match register_group false [student_10; student_10] "" "pid" group_db with
  | (Ok (GrRegistered _ payable ids), d') =>
      payable = 200000 ∧ length ids = 2%nat ∧
      ((λ k, (λ en, (en_player en, en_competition en, en_is_paid en, en_paid_amount en)) <$>
         db_enrollments d' !! k) <$> ids) =
        [Some (10, 5, true, 100000); Some (10, 5, true, 100000)]
  | _ => False
  end.
Proof. vm_compute. split_and!; reflexivity. Qed.

(** Two requests made before either is paid are not noticed either: both settle, and
    the student has two paid entries. *)
Definition two_requests : DB Z :=
  (register_group true [student_10] "" "pid2" (register_group true [student_10] "" "pid1" group_db).2).2.

Definition settle_group (d : DB Z) (pid : string) : DB Z :=
  match find_intent d (λ i, String.eqb (pi_public_id i) pid) with
  | Some (_, i) => (_finalize_group_payment_if_needed i "ref" 60 d).2
  | None => d
  end.

Example overlapping_requests_register_twice :
  ((λ ke : Z * Enrollment, (en_player ke.2, en_competition ke.2, en_is_paid ke.2)) <$>
    rows_by_id (db_enrollments (settle_group (settle_group two_requests "pid1") "pid2"))) =
  [(10, 5, true); (10, 5, true)].
Proof. vm_compute. reflexivity. Qed.
