(* ===== verification/Text.v ===== *)
(** Numbers in text, shared by the components that print and parse codes and dates:
    zero padding, Python's [int], [str.split], and when the text functions of
    [GroupRegistration] leave a text as it is. *)

From Stdlib Require Import Ascii.
From stdpp Require Import pretty.
From S2P Require Import Prelude Ranking Payments GroupPayments GroupRegistration.
Local Open Scope Z_scope.

(** [f"{n:0{length}d}"] of an integer that is not negative. *)
Definition zeros (k : nat) : string := String.concat "" (replicate k "0"%string).

Definition pad (length : nat) (n : Z) : string :=
  let s := pretty n in (zeros (length - String.length s) ++ s)%string.

(** [s.split(sep)] for a one-character separator. *)
Fixpoint split_on (sep : ascii) (s : string) : list string :=
  match s with
  | EmptyString => [EmptyString]
  | String c s' =>
      if Ascii.eqb c sep then EmptyString :: split_on sep s'
      else match split_on sep s' with
           | x :: l => String c x :: l
           | [] => [String c EmptyString]
           end
  end.

(** [int(s)]: surrounding space, a sign, digits with single underscores between. *)
Fixpoint uint (acc : Z) (after_digit : bool) (s : string) : option Z :=
  match s with
  | EmptyString => if after_digit then Some acc else None
  | String c s' =>
      match digit c with
      | Some v => uint (10 * acc + v) true s'
      | None => if Ascii.eqb c "_" && after_digit then uint acc false s' else None
      end
  end.

Definition py_int (s : string) : option Z :=
  match strip s with
  | String "-" r => Z.opp <$> uint 0 false r
  | String "+" r => uint 0 false r
  | t => uint 0 false t
  end.

(** ** Digits *)

Lemma all_digits_app s1 s2 : all_digits (s1 ++ s2) = all_digits s1 && all_digits s2.
Proof.
  induction s1 as [|c s1 IH]; [done|]. unfold String.append. cbn. fold String.append.
  by rewrite IH, andb_assoc.
Qed.

Lemma pretty_go_digits n : ∀ s, (0 < n)%N → all_digits s = true → all_digits (pretty_N_go n s) = true.
Proof.
  induction (N.lt_wf_0 n) as [n _ IH]. intros s Hn Hs. rewrite pretty_N_go_step by done.
  assert (Hs' : all_digits (String (pretty_N_char (n `mod` 10)) s) = true).
  { cbn [all_digits]. rewrite digit_pretty by (by apply N.mod_lt). by rewrite Hs. }
  destruct (decide (n `div` 10 = 0)%N) as [->|Hz]; [by rewrite pretty_N_go_0|].
  apply IH; [apply N.div_lt; lia|by apply N.neq_0_lt_0|done].
Qed.

Lemma pretty_go_length k : ∀ n s, (n < 10 ^ N.of_nat k)%N →
  (String.length (pretty_N_go n s) ≤ k + String.length s)%nat.
Proof.
  induction k as [|k IH]; intros n s Hn.
  - change (10 ^ N.of_nat 0)%N with 1%N in Hn. assert (n = 0)%N as -> by lia. by rewrite pretty_N_go_0.
  - destruct (decide (n = 0)%N) as [->|Hz]; [rewrite pretty_N_go_0; lia|].
    rewrite pretty_N_go_step by lia.
    assert (Hd : (n `div` 10 < 10 ^ N.of_nat k)%N).
    { apply N.Div0.div_lt_upper_bound. rewrite Nnat.Nat2N.inj_succ, N.pow_succ_r' in Hn. lia. }
    specialize (IH _ (String (pretty_N_char (n `mod` 10)) s) Hd). cbn [String.length] in IH. lia.
Qed.

Lemma string_length_app s1 s2 : String.length (s1 ++ s2) = (String.length s1 + String.length s2)%nat.
Proof. induction s1 as [|c s1 IH]; [done|]. unfold String.append. cbn. fold String.append. by rewrite IH. Qed.

Lemma zeros_S k : zeros (S k) = String "0" (zeros k).
Proof. unfold zeros. by destruct k. Qed.

Lemma zeros_spec k s : String.length (zeros k ++ s) = (k + String.length s)%nat ∧
  all_digits (zeros k ++ s) = all_digits s ∧ digits (Some 0) (zeros k ++ s) = digits (Some 0) s.
Proof.
  induction k as [|k (IH1 & IH2 & IH3)]; [done|]. rewrite zeros_S.
  change ((String "0" (zeros k) ++ s)%string) with (String "0" (zeros k ++ s)%string).
  change (digits (Some 0) (String "0" (zeros k ++ s))) with (digits (Some 0) (zeros k ++ s)).
  cbn [String.length all_digits]. by rewrite IH1, IH2, IH3.
Qed.


Lemma pretty_digits k n : 0 ≤ n < 10 ^ Z.of_nat k → (0 < k)%nat →
  all_digits (pretty n) = true ∧ (1 ≤ String.length (pretty n) ≤ k)%nat ∧
  digits (Some 0) (pretty n) = Some n.
Proof.
  intros Hn Hk. destruct n as [|p|p]; [split_and!; done || (cbn; lia)| |lia].
  change (pretty (Z.pos p)) with (pretty (N.pos p)). unfold pretty, pretty_N. rewrite decide_False by done.
  split_and!.
  - by apply pretty_go_digits.
  - destruct (pretty_N_go _ _) eqn:E; [|cbn; lia].
    pose proof (digits_pretty_go (N.pos p) None "" ltac:(done) eq_refl) as Hd. by rewrite E in Hd.
  - pose proof (pretty_go_length k (N.pos p) "") as Hl. cbn [String.length] in Hl.
    rewrite Nat.add_0_r in Hl. apply Hl. apply N2Z.inj_lt. rewrite N2Z.inj_pow. rewrite nat_N_Z. apply Hn.
  - by rewrite digits_pretty_go.
Qed.

Lemma pad_spec k n : 0 ≤ n < 10 ^ Z.of_nat k → (0 < k)%nat →
  all_digits (pad k n) = true ∧ String.length (pad k n) = k ∧ digits (Some 0) (pad k n) = Some n.
Proof.
  intros Hn Hk. destruct (pretty_digits k n Hn Hk) as (Hd & Hl & Hv). unfold pad. cbn zeta.
  destruct (zeros_spec (k - String.length (pretty n)) (pretty n)) as (-> & -> & ->).
  split; [done|]. split; [lia|done].
Qed.

(** ** Characters a text function looks for *)

Fixpoint all_chars (f : ascii → bool) (s : string) : bool :=
  match s with EmptyString => true | String c s' => f c && all_chars f s' end.

Lemma all_chars_app f s1 s2 : all_chars f (s1 ++ s2) = all_chars f s1 && all_chars f s2.
Proof.
  induction s1 as [|c s1 IH]; [done|]. unfold String.append. cbn. fold String.append. by rewrite IH, andb_assoc.
Qed.

Lemma all_chars_impl (f g : ascii → bool) s : (∀ c, f c = true → g c = true) →
  all_chars f s = true → all_chars g s = true.
Proof.
  intros Hfg. induction s as [|c s IH]; [done|]. cbn. intros [Hc Hs]%andb_true_iff. by rewrite Hfg, IH.
Qed.

Definition is_digit (c : ascii) : bool := negb (is_none (digit c)).

Lemma all_digits_chars s : all_digits s = all_chars is_digit s.
Proof. induction s as [|c s IH]; [done|]. cbn. by rewrite IH. Qed.

(** The texts of dates: digits and the separators [-] and [/]. *)
Definition date_char (c : ascii) : bool := is_digit c || Ascii.eqb c "-" || Ascii.eqb c "/".

Lemma digit_date_char c : is_digit c = true → date_char c = true.
Proof. unfold date_char. by intros ->. Qed.

Lemma date_char_cases c : date_char c = true →
  is_space c = false ∧ (nat_of_ascii c < 128)%nat ∧ c ≠ "T"%char ∧ lower_ascii c = c.
Proof. destruct c as [[] [] [] [] [] [] [] []]; intros H; vm_compute in H; try discriminate H; split_and!; try done; apply Nat.ltb_lt; reflexivity. Qed.

Lemma rstrip_id s : all_chars (λ c, negb (is_space c)) s = true → rstrip s = s.
Proof.
  induction s as [|c s IH]; [done|]. cbn. intros [Hc Hs]%andb_true_iff. rewrite IH by done.
  apply negb_true_iff in Hc. by rewrite Hc, andb_false_r.
Qed.

Lemma strip_id s : all_chars (λ c, negb (is_space c)) s = true → strip s = s.
Proof.
  intros Hs. unfold strip. replace (lstrip s) with s; [by apply rstrip_id|].
  destruct s as [|c s]; [done|]. cbn in *. apply andb_true_iff in Hs as [Hc _]. apply negb_true_iff in Hc. by rewrite Hc.
Qed.

Lemma strip_date s : all_chars date_char s = true → strip s = s.
Proof.
  intros Hs. apply strip_id. revert Hs. apply all_chars_impl. intros c (Hc & _)%date_char_cases. by rewrite Hc.
Qed.

(** Replacing a text whose first character does not occur. *)
Lemma replace_absent c old new s : all_chars (λ x, negb (Ascii.eqb x c)) s = true →
  replace (String c old) new s = s.
Proof.
  unfold replace. induction s as [|x s IH]; [done|]. cbn [all_chars replace_from].
  intros [Hx Hs]%andb_true_iff. apply negb_true_iff, Ascii.eqb_neq in Hx.
  destruct (String.prefix (String c old) (String x s)) eqn:E.
  - cbn in E. destruct (Ascii.ascii_dec c x); congruence.
  - by rewrite IH.
Qed.

Lemma replace_non_ascii c old new s : (128 <= nat_of_ascii c)%nat → all_chars date_char s = true →
  replace (String c old) new s = s.
Proof.
  intros Hc Hs. apply replace_absent. revert Hs. apply all_chars_impl. intros x (_ & Hx & _)%date_char_cases.
  apply negb_true_iff, Ascii.eqb_neq. intros ->. lia.
Qed.

(** Replacing one character by another. *)
Fixpoint map_chars (f : ascii → ascii) (s : string) : string :=
  match s with EmptyString => EmptyString | String c s' => String (f c) (map_chars f s') end.

Lemma replace_char c e s :
  replace (String c "") (String e "") s = map_chars (λ x, if Ascii.eqb x c then e else x) s.
Proof.
  unfold replace. induction s as [|x s IH]; [done|]. cbn. destruct (Ascii.ascii_dec c x) as [->|Hne].
  - rewrite Ascii.eqb_refl, IH. by destruct s.
  - apply not_eq_sym, Ascii.eqb_neq in Hne as ->. by rewrite IH.
Qed.

Lemma map_chars_app f s1 s2 : map_chars f (s1 ++ s2) = (map_chars f s1 ++ map_chars f s2)%string.
Proof. induction s1 as [|c s1 IH]; [done|]. unfold String.append. cbn. fold String.append. by rewrite IH. Qed.

Lemma map_chars_id f s : all_chars (λ c, Ascii.eqb (f c) c) s = true → map_chars f s = s.
Proof.
  induction s as [|c s IH]; [done|]. cbn. intros [Hc Hs]%andb_true_iff. apply Ascii.eqb_eq in Hc. by rewrite Hc, IH.
Qed.

Lemma split_on_app sep s1 s2 : all_chars (λ c, negb (Ascii.eqb c sep)) s1 = true →
  split_on sep (s1 ++ String sep s2) = s1 :: split_on sep s2.
Proof.
  induction s1 as [|c s1 IH]; intros Hs.
  - unfold String.append. cbn. by rewrite Ascii.eqb_refl.
  - cbn in Hs. apply andb_true_iff in Hs as [Hc Hs]. apply negb_true_iff in Hc.
    unfold String.append. cbn [split_on]. fold String.append. by rewrite Hc, IH.
Qed.

Lemma split_on_last sep s : all_chars (λ c, negb (Ascii.eqb c sep)) s = true → split_on sep s = [s].
Proof.
  induction s as [|c s IH]; [done|]. cbn. intros [Hc Hs]%andb_true_iff. apply negb_true_iff in Hc.
  by rewrite Hc, IH.
Qed.

(** [int] of a text of digits. *)
Lemma uint_digits s : all_digits s = true → ∀ acc, uint acc true s = digits (Some acc) s.
Proof.
  induction s as [|c s IH]; [done|]. intros Hs acc. cbn in *. apply andb_true_iff in Hs as [Hc Hs].
  destruct (digit c) as [v|]; [|done]. cbn. by apply IH.
Qed.

Lemma py_int_digits s n : all_digits s = true → (0 < String.length s)%nat → digits (Some 0) s = Some n →
  py_int s = Some n.
Proof.
  intros Hs Hl Hn. unfold py_int. rewrite strip_date.
  2: { rewrite all_digits_chars in Hs. revert Hs. apply all_chars_impl, digit_date_char. }
  destruct s as [|c s]; [cbn in Hl; lia|]. assert (Hu : uint 0 false (String c s) = Some n).
  { rewrite <- Hn. cbn in *. apply andb_true_iff in Hs as [Hc Hs]. destruct (digit c); [|done]. by apply uint_digits. }
  cbn in Hs. apply andb_true_iff in Hs as [Hc _].
  destruct c as [[] [] [] [] [] [] [] []]; try discriminate Hc; exact Hu.
Qed.

(** ** Stripped texts *)

Lemma rstrip_idemp s : rstrip (rstrip s) = rstrip s.
Proof.
  induction s as [|c s IH]; [done|]. cbn. destruct (String.eqb (rstrip s) "" && is_space c) eqn:E; [done|].
  cbn. by rewrite IH, E.
Qed.

(** The first character that is no space stays first. *)
Lemma lstrip_rstrip s : lstrip (rstrip (lstrip s)) = rstrip (lstrip s).
Proof.
  induction s as [|c s IH]; [done|]. cbn. destruct (is_space c) eqn:E; [exact IH|].
  cbn. rewrite E, andb_false_r. cbn. by rewrite E.
Qed.

Lemma strip_idemp s : strip (strip s) = strip s.
Proof. unfold strip. by rewrite lstrip_rstrip, rstrip_idemp. Qed.
