(* ===== verification/Dates.v ===== *)
(** Dates: the parsers of [competitions/views.py], [competitions/serializers.py] and
    [common/widgets.py] that read the dates of requests and forms.

    A [date] is Python's [datetime.date]; [toordinal] is its day number, which the
    tables store, and is proved to order dates as Python compares them.  The Jalali
    calendar is that of the package jdatetime: [jalali y m d] stands for
    [jdatetime.date(y, m, d).togregorian()], [None] where it raises. *)

From Stdlib Require Import Ascii.
From stdpp Require Import pretty.
From S2P Require Import Prelude Ranking Payments GroupPayments GroupRegistration Text.
Local Open Scope Z_scope.

(** ** [datetime.date] *)

Record date := mkDate {
  d_year : Z;
  d_month : Z;
  d_day : Z;
}.

#[export] Instance date_eq_dec : EqDecision date.
Proof. solve_decision. Defined.

Definition is_leap (y : Z) : bool :=
  (y `mod` 4 =? 0) && (negb (y `mod` 100 =? 0) || (y `mod` 400 =? 0)).

Definition month_lengths (y : Z) : list Z :=
  [31; if is_leap y then 29 else 28; 31; 30; 31; 30; 31; 31; 30; 31; 30; 31].

Definition days_in_month (y m : Z) : Z := nth (Z.to_nat (m - 1)) (month_lengths y) 0.

(** [date(y, m, d)], [None] where it raises [ValueError]. *)
Definition valid_ymd (y m d : Z) : bool :=
  (1 <=? y) && (y <=? 9999) && (1 <=? m) && (m <=? 12) && (1 <=? d) && (d <=? days_in_month y m).

Definition valid (t : date) : bool := valid_ymd (d_year t) (d_month t) (d_day t).

Definition make_date (y m d : Z) : option date :=
  if valid_ymd y m d then Some (mkDate y m d) else None.

(** [toordinal]: the days from 1 January of the year 1. *)
Definition days_before_year (y : Z) : Z := (y - 1) * 365 + (y - 1) / 4 - (y - 1) / 100 + (y - 1) / 400.
Definition days_before_month (y m : Z) : Z := sumZ (take (Z.to_nat (m - 1)) (month_lengths y)).
Definition toordinal (t : date) : Z :=
  days_before_year (d_year t) + days_before_month (d_year t) (d_month t) + d_day t.

(** [<] on dates: year, month and day in this order. *)
Definition date_ltb (a b : date) : bool :=
  (d_year a <? d_year b) || (d_year a =? d_year b) &&
    ((d_month a <? d_month b) || (d_month a =? d_month b) && (d_day a <? d_day b)).

(** [isoformat] and, for texts of its form, [fromisoformat]. *)
Definition isoformat (t : date) : string :=
  (pad 4 (d_year t) ++ "-" ++ pad 2 (d_month t) ++ "-" ++ pad 2 (d_day t))%string.

(** A part of a date: between [lo] and [hi] digits, and their value. *)
Definition part (lo hi : nat) (s : string) : option Z :=
  if all_digits s && (lo <=? String.length s)%nat && (String.length s <=? hi)%nat
  then digits (Some 0) s else None.

Definition fromisoformat (s : string) : option date :=
  match split_on "-" s with
  | [y; m; d] =>
      y ← part 4 4 y; m ← part 2 2 m; d ← part 2 2 d; make_date y m d
  | _ => None
  end.

(** ** Parsing *)

(** The marks removed by [re.sub]: U+200E, U+200F, U+200C and U+202A to U+202E. *)
Definition mark (lo : nat) : string :=
  String (ascii_of_nat 226) (String (ascii_of_nat 128) (String (ascii_of_nat lo) "")).
Definition marks : list string := mark <$> [142; 143; 140; 170; 171; 172; 173; 174]%nat.
Definition remove_marks (s : string) : string := foldl (λ t k, replace k "" t) s marks.

(** [t.split("T", 1)[0]] *)
Definition before_T (s : string) : string := default s (head (split_on "T" s)).

(** [re.fullmatch(r"(\d{4})/(\d{1,2})/(\d{1,2})", t)] *)
Definition match_ymd (t : string) : option (Z * Z * Z) :=
  match split_on "/" t with
  | [y; m; d] => y ← part 4 4 y; m ← part 1 2 m; d ← part 1 2 d; Some (y, m, d)
  | _ => None
  end.

(** [[int(x) for x in t.split("/")[:3]]] unpacked into three names. *)
Definition ints_ymd (t : string) : option (Z * Z * Z) :=
  match take 3 (split_on "/" t) with
  | [y; m; d] => y ← py_int y; m ← py_int m; d ← py_int d; Some (y, m, d)
  | _ => None
  end.

Definition slashes (s : string) : string := replace "-" "/" s.

Section parsers.
Context (jalali : Z → Z → Z → option date).

(** A Gregorian year starts at 1700. *)
Definition of_ymd (ymd : Z * Z * Z) : option date :=
  let '(y, m, d) := ymd in if y <? 1700 then jalali y m d else make_date y m d.

(** [_parse_insurance_date] of [CoachRegisterStudentsView] *)
Definition _parse_insurance_date (v : option string) : option date :=
  v ← v;
  let t := slashes (_to_en_digits (remove_marks (before_T (strip v)))) in
  match_ymd t ≫= of_ymd.

(** [_to_iso_from_jalali_or_iso] of [PoomsaeRegisterSelfView]; the empty text stands
    for a failure. *)
Definition _to_iso_from_jalali_or_iso (s : string) : string :=
  if negb (truthy_str s) then ""%string
  else
    let t := slashes (_to_en_digits (remove_marks (before_T (strip s)))) in
    match match_ymd t ≫= of_ymd with
    | Some g => isoformat g
    | None => ""%string
    end.

(** [_to_greg_date] of [PoomsaeRegisterSelfView], on text. *)
Definition _to_greg_date (val : string) : option date :=
  if negb (truthy_str val) then None
  else ints_ymd (_to_en_digits (slashes (strip val))) ≫= of_ymd.

(** [_to_greg_from_str_jalali] of the serializers. *)
Definition _to_greg_from_str_jalali (s : string) : option date :=
  if negb (truthy_str s) then None
  else ints_ymd (slashes (strip (_to_en_digits (remove_marks s)))) ≫= of_ymd.

(** [_parse_jalali_ymd] of the views: always Jalali. *)
Definition _parse_jalali_ymd (s : string) : option date :=
  if negb (truthy_str s) then None
  else
    match match_ymd (_to_en_digits (slashes (remove_marks s))) with
    | Some (jy, jm, jd) => jalali jy jm jd
    | None => None
    end.

(** [[int(x) for x in l]] of three texts, in the digits of any of the scripts. *)
Definition ints (y m d : string) : option (Z * Z * Z) :=
  y ← py_int (_to_en_digits y); m ← py_int (_to_en_digits m); d ← py_int (_to_en_digits d); Some (y, m, d).

(** [_to_gregorian_date] of the widgets: exactly three numbers are read as Jalali,
    anything else as an ISO date, after the dashes have become slashes. *)
Definition _to_gregorian_date (value : string) : option date :=
  if negb (truthy_str value) then None
  else
    let v := slashes (strip value) in
    let j := match split_on "/" v with
             | [y; m; d] => ints y m d ≫= λ ymd, let '(y, m, d) := ymd in jalali y m d
             | _ => None
             end in
    match j with Some g => Some g | None => fromisoformat v end.
End parsers.

(** ** Day numbers *)

Definition year_days (y : Z) : Z := if is_leap y then 366 else 365.

Lemma month_cases m : 1 ≤ m ≤ 12 →
  m = 1 ∨ m = 2 ∨ m = 3 ∨ m = 4 ∨ m = 5 ∨ m = 6 ∨ m = 7 ∨ m = 8 ∨ m = 9 ∨ m = 10 ∨ m = 11 ∨ m = 12.
Proof. lia. Qed.

Ltac each_month H := apply month_cases in H; repeat destruct H as [H|H]; subst.

Lemma months_in_year y m : 1 ≤ m ≤ 12 → 0 ≤ days_before_month y m ∧ days_before_month y m + days_in_month y m ≤ year_days y.
Proof.
  intros Hm. unfold days_before_month, days_in_month, month_lengths, year_days.
  destruct (is_leap y); each_month Hm; split; vm_compute; discriminate.
Qed.

Lemma months_ordered y m m' : 1 ≤ m → m < m' → m' ≤ 12 →
  days_before_month y m + days_in_month y m ≤ days_before_month y m'.
Proof.
  intros Hm Hlt Hm'. assert (H : 1 ≤ m ≤ 12) by lia. assert (H' : 1 ≤ m' ≤ 12) by lia.
  unfold days_before_month, days_in_month, month_lengths.
  destruct (is_leap y); each_month H; each_month H'; try lia; vm_compute; discriminate.
Qed.

Lemma year_step y : days_before_year (y + 1) = days_before_year y + year_days y.
Proof.
  unfold days_before_year, year_days, is_leap. replace (y + 1 - 1) with y by lia.
  destruct (y `mod` 4 =? 0) eqn:E4; destruct (y `mod` 100 =? 0) eqn:E100; destruct (y `mod` 400 =? 0) eqn:E400;
    cbn [andb orb negb]; rewrite ?Z.eqb_eq, ?Z.eqb_neq in *; Z.to_euclidean_division_equations; lia.
Qed.

Lemma years_ordered y k : 0 ≤ k → days_before_year y + year_days y ≤ days_before_year (y + 1 + k).
Proof.
  intros Hk. revert k Hk. apply natlike_ind; [rewrite Z.add_0_r, year_step; lia|]. intros k Hk IH.
  replace (y + 1 + Z.succ k) with (y + 1 + k + 1) by lia. rewrite year_step.
  unfold year_days at 2. destruct (is_leap (y + 1 + k)); lia.
Qed.

Lemma valid_bounds t : valid t = true →
  1 ≤ d_year t ≤ 9999 ∧ 1 ≤ d_month t ≤ 12 ∧ 1 ≤ d_day t ≤ days_in_month (d_year t) (d_month t).
Proof. unfold valid, valid_ymd. rewrite !andb_true_iff, !Z.leb_le. tauto. Qed.

Lemma date_ltb_ordinal a b : valid a = true → valid b = true → date_ltb a b = true → toordinal a < toordinal b.
Proof.
  intros (Hy & Hm & Hd)%valid_bounds (Hy' & Hm' & Hd')%valid_bounds Hlt. unfold date_ltb in Hlt.
  rewrite orb_true_iff, andb_true_iff, orb_true_iff, andb_true_iff, !Z.ltb_lt, !Z.eqb_eq in Hlt. unfold toordinal.
  pose proof (months_in_year (d_year a) (d_month a) Hm). pose proof (months_in_year (d_year b) (d_month b) Hm').
  destruct Hlt as [Hlt|[<- [Hlt|[<- Hlt]]]].
  - pose proof (years_ordered (d_year a) (d_year b - d_year a - 1) ltac:(lia)) as H1.
    replace (d_year a + 1 + _) with (d_year b) in H1 by lia. lia.
  - pose proof (months_ordered (d_year a) (d_month a) (d_month b)). lia.
  - lia.
Qed.

Lemma date_trichotomy a b : date_ltb a b = true ∨ a = b ∨ date_ltb b a = true.
Proof.
  destruct a as [y m d], b as [y' m' d']. unfold date_ltb. cbn.
  rewrite !orb_true_iff, !andb_true_iff, !orb_true_iff, !andb_true_iff, !Z.ltb_lt, !Z.eqb_eq.
  destruct (Z.lt_trichotomy y y') as [?|[->|?]]; [tauto| |tauto].
  destruct (Z.lt_trichotomy m m') as [?|[->|?]]; [tauto| |tauto].
  destruct (Z.lt_trichotomy d d') as [?|[->|?]]; tauto.
Qed.

(** The day numbers the tables store order dates exactly as Python compares
    them, and different dates have different numbers. *)
Theorem toordinal_order a b : valid a = true → valid b = true →
  (toordinal a < toordinal b ↔ date_ltb a b = true) ∧ (toordinal a = toordinal b ↔ a = b).
Proof.
  intros Ha Hb. pose proof (date_ltb_ordinal a b Ha Hb). pose proof (date_ltb_ordinal b a Hb Ha).
  destruct (date_trichotomy a b) as [E|[->|E]].
  - split; [intuition lia|]. split; [intuition lia|]. intros ->. intuition lia.
  - split; [|done]. split; [lia|auto].
  - split; [split; [intuition lia|]|split; [intuition lia|intros ->; intuition lia]].
    intros E'. intuition lia.
Qed.

(** ** Round trips *)

(** The text of a date with separator [sep]. *)
Definition ymd_text (sep : ascii) (t : date) : string :=
  (pad 4 (d_year t) ++ String sep (pad 2 (d_month t) ++ String sep (pad 2 (d_day t))))%string.

Lemma days_in_month_le y m : days_in_month y m ≤ 31.
Proof.
  unfold days_in_month. destruct (nth_in_or_default (Z.to_nat (m - 1)) (month_lengths y) 0) as [Hin|E]; [|by rewrite E].
  revert Hin. generalize (nth (Z.to_nat (m - 1)) (month_lengths y) 0). intros x. unfold month_lengths.
  destruct (is_leap y); cbn; lia.
Qed.

(** Numbers that fit the digits of a date, whatever the calendar. *)
Definition fits (t : date) : Prop := 0 ≤ d_year t < 10000 ∧ 0 ≤ d_month t < 100 ∧ 0 ≤ d_day t < 100.

Lemma valid_fits t : valid t = true → fits t.
Proof.
  intros (Hy & Hm & Hd)%valid_bounds. pose proof (days_in_month_le (d_year t) (d_month t)). unfold fits. lia.
Qed.

Lemma parts_spec t : fits t →
  all_digits (pad 4 (d_year t)) = true ∧ String.length (pad 4 (d_year t)) = 4%nat ∧
  digits (Some 0) (pad 4 (d_year t)) = Some (d_year t) ∧
  all_digits (pad 2 (d_month t)) = true ∧ String.length (pad 2 (d_month t)) = 2%nat ∧
  digits (Some 0) (pad 2 (d_month t)) = Some (d_month t) ∧
  all_digits (pad 2 (d_day t)) = true ∧ String.length (pad 2 (d_day t)) = 2%nat ∧
  digits (Some 0) (pad 2 (d_day t)) = Some (d_day t).
Proof.
  intros (Hy & Hm & Hd).
  destruct (pad_spec 4 (d_year t)) as (? & ? & ?); [cbn; lia|lia|].
  destruct (pad_spec 2 (d_month t)) as (? & ? & ?); [cbn; lia|lia|].
  destruct (pad_spec 2 (d_day t)) as (? & ? & ?); [cbn; lia|lia|]. split_and!; done.
Qed.

Lemma digits_free sep s : is_digit sep = false → all_digits s = true →
  all_chars (λ c, negb (Ascii.eqb c sep)) s = true.
Proof.
  intros Hs. rewrite all_digits_chars. apply all_chars_impl. intros c Hc.
  apply negb_true_iff, Ascii.eqb_neq. intros ->. congruence.
Qed.

Lemma ymd_text_split sep t : is_digit sep = false → fits t →
  split_on sep (ymd_text sep t) = [pad 4 (d_year t); pad 2 (d_month t); pad 2 (d_day t)].
Proof.
  intros Hs Ht. destruct (parts_spec t Ht) as (Hy & _ & _ & Hm & _ & _ & Hd & _). unfold ymd_text.
  rewrite split_on_app by (by apply digits_free). rewrite split_on_app by (by apply digits_free).
  by rewrite split_on_last by (by apply digits_free).
Qed.

Lemma ymd_text_chars sep t : date_char sep = true → fits t → all_chars date_char (ymd_text sep t) = true.
Proof.
  intros Hs Ht. destruct (parts_spec t Ht) as (Hy & _ & _ & Hm & _ & _ & Hd & _). unfold ymd_text.
  assert (Hdig : ∀ s, all_digits s = true → all_chars date_char s = true).
  { intros s. rewrite all_digits_chars. apply all_chars_impl, digit_date_char. }
  rewrite all_chars_app, (Hdig _ Hy). cbn [all_chars andb]. rewrite Hs, all_chars_app, (Hdig _ Hm).
  cbn [all_chars andb]. by rewrite Hs, (Hdig _ Hd).
Qed.

Lemma isoformat_text t : isoformat t = ymd_text "-" t.
Proof. done. Qed.

Lemma make_date_valid t : valid t = true → make_date (d_year t) (d_month t) (d_day t) = Some t.
Proof. unfold make_date, valid. intros ->. by destruct t. Qed.

Lemma part_pad lo hi s n : all_digits s = true → (lo ≤ String.length s ≤ hi)%nat →
  digits (Some 0) s = Some n → part lo hi s = Some n.
Proof. intros Hs Hl Hn. unfold part. rewrite Hs. by rewrite !(proj2 (Nat.leb_le _ _)) by lia. Qed.

(** What the cleaning steps do to the text of a date. *)
Lemma foldl_fixed {A B} (f : A → B → A) x l : (∀ y, y ∈ l → f x y = x) → foldl f x l = x.
Proof.
  induction l as [|y l IH]; [done|]. intros Hf. cbn. rewrite Hf by (by left). apply IH. intros z Hz. apply Hf. by right.
Qed.

Lemma remove_marks_id s : all_chars date_char s = true → remove_marks s = s.
Proof.
  intros Hs. apply foldl_fixed. intros k (lo & -> & _)%list_elem_of_fmap.
  apply replace_non_ascii; [|done]. apply Nat.leb_le. reflexivity.
Qed.

Lemma to_en_digits_id s : all_chars date_char s = true → _to_en_digits s = s.
Proof.
  intros Hs. apply foldl_fixed. intros kv Hin. unfold digit_pairs in Hin.
  repeat (apply elem_of_cons in Hin as [->|Hin]; [apply replace_non_ascii; [apply Nat.leb_le; reflexivity|done]|]).
  by apply not_elem_of_nil in Hin.
Qed.

Lemma before_T_id s : all_chars date_char s = true → before_T s = s.
Proof.
  intros Hs. unfold before_T. rewrite split_on_last; [done|]. revert Hs. apply all_chars_impl.
  intros c (_ & _ & Hc & _)%date_char_cases. by apply negb_true_iff, Ascii.eqb_neq.
Qed.

Lemma slashes_text sep t : sep = "-"%char ∨ sep = "/"%char → fits t →
  slashes (ymd_text sep t) = ymd_text "/" t.
Proof.
  intros Hs Ht. destruct (parts_spec t Ht) as (Hy & _ & _ & Hm & _ & _ & Hd & _).
  assert (Hdig : ∀ s, all_digits s = true → map_chars (λ x, if Ascii.eqb x "-" then "/"%char else x) s = s).
  { intros s Hall. apply map_chars_id. rewrite all_digits_chars in Hall. revert Hall. apply all_chars_impl.
    intros c Hc. destruct (Ascii.eqb_spec c "-") as [->|_]; [done|apply Ascii.eqb_refl]. }
  unfold slashes, ymd_text. rewrite replace_char, map_chars_app, (Hdig _ Hy). f_equal. cbn [map_chars].
  rewrite map_chars_app, (Hdig _ Hm). destruct Hs as [->| ->]; cbn; by rewrite (Hdig _ Hd).
Qed.

(** Formatting a date and reading it back gives the date: the insurance dates a
    group payment keeps as text are the ones the coach gave. *)
Theorem iso_roundtrip t : valid t = true → fromisoformat (isoformat t) = Some t.
Proof.
  intros Ht. destruct (parts_spec t (valid_fits t Ht)) as (Hy & Hly & Hny & Hm & Hlm & Hnm & Hd & Hld & Hnd).
  unfold fromisoformat. rewrite isoformat_text, ymd_text_split by (done || by apply valid_fits).
  rewrite (part_pad 4 4 _ _ Hy) by (done || lia). rewrite (part_pad 2 2 _ _ Hm) by (done || lia).
  rewrite (part_pad 2 2 _ _ Hd) by (done || lia). by apply make_date_valid.
Qed.

Lemma match_ymd_text t : fits t → match_ymd (ymd_text "/" t) = Some (d_year t, d_month t, d_day t).
Proof.
  intros Ht. destruct (parts_spec t Ht) as (Hy & Hly & Hny & Hm & Hlm & Hnm & Hd & Hld & Hnd).
  unfold match_ymd. rewrite ymd_text_split by done.
  rewrite (part_pad 4 4 _ _ Hy) by (done || lia). rewrite (part_pad 1 2 _ _ Hm) by (done || lia).
  by rewrite (part_pad 1 2 _ _ Hd) by (done || lia).
Qed.

Lemma ints_ymd_text t : fits t → ints_ymd (ymd_text "/" t) = Some (d_year t, d_month t, d_day t).
Proof.
  intros Ht. destruct (parts_spec t Ht) as (Hy & Hly & Hny & Hm & Hlm & Hnm & Hd & Hld & Hnd).
  unfold ints_ymd. rewrite ymd_text_split by done. cbn [take].
  rewrite (py_int_digits _ _ Hy) by (done || lia). rewrite (py_int_digits _ _ Hm) by (done || lia).
  by rewrite (py_int_digits _ _ Hd) by (done || lia).
Qed.

(** The texts of a request: a date with either separator. *)
Definition sep_ok (sep : ascii) : Prop := sep = "-"%char ∨ sep = "/"%char.

Lemma sep_ok_char sep : sep_ok sep → date_char sep = true.
Proof. by intros [->| ->]. Qed.

Section parser_correctness.
Context (jalali : Z → Z → Z → option date).

Lemma text_truthy sep t : fits t → truthy_str (ymd_text sep t) = true.
Proof.
  intros Ht. destruct (parts_spec t Ht) as (_ & Hl & _). unfold ymd_text.
  by destruct (pad 4 (d_year t)) as [|c x].
Qed.

(** The five parsers of a date read the same text the same way: year, month and
    day with dashes or slashes, Gregorian from 1700 on and Jalali before (always
    Jalali for birth dates), and the form handed to the poomsae entry is the ISO
    text of that date. *)
Theorem parsers_agree sep t : sep_ok sep → fits t →
  let text := ymd_text sep t in
  let d := if d_year t <? 1700 then jalali (d_year t) (d_month t) (d_day t)
           else make_date (d_year t) (d_month t) (d_day t) in
  _parse_insurance_date jalali (Some text) = d ∧ _to_greg_date jalali text = d ∧
  _to_greg_from_str_jalali jalali text = d ∧
  _to_iso_from_jalali_or_iso jalali text = match d with Some g => isoformat g | None => ""%string end ∧
  _parse_jalali_ymd jalali text = jalali (d_year t) (d_month t) (d_day t).
Proof.
  intros Hsep Ht text d. pose proof (ymd_text_chars sep t (sep_ok_char sep Hsep) Ht) as Hc.
  pose proof (ymd_text_chars "/" t eq_refl Ht) as Hc'.
  pose proof (slashes_text sep t Hsep Ht) as Hsl. pose proof (text_truthy sep t Ht) as Htr. subst text.
  unfold _parse_insurance_date, _to_greg_date, _to_greg_from_str_jalali, _to_iso_from_jalali_or_iso, _parse_jalali_ymd.
  rewrite Htr. cbn zeta. cbn [negb mbind option_bind].
  rewrite !(strip_date _ Hc), !(before_T_id _ Hc), !(remove_marks_id _ Hc), !(to_en_digits_id _ Hc), !(strip_date _ Hc),
    !Hsl, !(to_en_digits_id _ Hc'), !match_ymd_text, !ints_ymd_text by done.
  split_and!; done.
Qed.

Lemma ints_text t : fits t →
  ints (pad 4 (d_year t)) (pad 2 (d_month t)) (pad 2 (d_day t)) = Some (d_year t, d_month t, d_day t).
Proof.
  intros Ht. destruct (parts_spec t Ht) as (Hy & Hly & Hny & Hm & Hlm & Hnm & Hd & Hld & Hnd).
  assert (Hen : ∀ s, all_digits s = true → _to_en_digits s = s).
  { intros s Hs. apply to_en_digits_id. rewrite all_digits_chars in Hs. revert Hs. apply all_chars_impl, digit_date_char. }
  unfold ints. rewrite !Hen by done.
  rewrite (py_int_digits _ _ Hy) by (done || lia). cbn [mbind option_bind].
  rewrite (py_int_digits _ _ Hm) by (done || lia). cbn [mbind option_bind].
  by rewrite (py_int_digits _ _ Hd) by (done || lia).
Qed.

(** What the widget's reader makes of three numbers. *)
Lemma widget_reads sep t : sep_ok sep → fits t →
  _to_gregorian_date jalali (ymd_text sep t) = jalali (d_year t) (d_month t) (d_day t).
Proof.
  intros Hsep Ht. pose proof (ymd_text_chars sep t (sep_ok_char sep Hsep) Ht) as Hc. unfold _to_gregorian_date.
  rewrite text_truthy, strip_date, slashes_text by done. cbn zeta. cbn [negb].
  destruct (parts_spec t Ht) as (Hy & _ & _ & Hm & _ & _ & Hd & _ & _).
  rewrite ymd_text_split, ints_text by done. cbn [mbind option_bind].
  destruct (jalali _ _ _); [done|]. unfold fromisoformat. rewrite split_on_last; [done|].
  assert (Hdig : ∀ s, all_digits s = true → all_chars (λ c, negb (Ascii.eqb c "-")) s = true).
  { intros s. by apply digits_free. }
  unfold ymd_text. rewrite all_chars_app, (Hdig _ Hy). cbn [all_chars andb].
  rewrite all_chars_app, (Hdig _ Hm). cbn [all_chars andb]. by rewrite (Hdig _ Hd).
Qed.

(** The widget's reader of form dates takes an ISO date for a Jalali one: the
    Gregorian reading it falls back to is never reached for such a text, because the
    dashes were replaced before. *)
Theorem widget_reads_iso_as_jalali t : fits t →
  _to_gregorian_date jalali (isoformat t) = jalali (d_year t) (d_month t) (d_day t).
Proof. intros Ht. apply (widget_reads "-"); [by left|done]. Qed.
End parser_correctness.

(** ** Witnesses *)

(** A stand-in calendar to evaluate with: it only shifts the year. *)
Definition toy_jalali (y m d : Z) : option date := make_date (y + 621) m d.

Lemma toordinal_order_witness :
  toordinal (mkDate 2024 2 29) < toordinal (mkDate 2024 3 1) ↔ date_ltb (mkDate 2024 2 29) (mkDate 2024 3 1) = true.
Proof. exact (proj1 (toordinal_order (mkDate 2024 2 29) (mkDate 2024 3 1) eq_refl eq_refl)). Defined.

Lemma iso_roundtrip_witness : fromisoformat (isoformat (mkDate 2024 2 29)) = Some (mkDate 2024 2 29).
Proof. exact (iso_roundtrip (mkDate 2024 2 29) eq_refl). Defined.

Lemma parsers_agree_witness :
  _parse_insurance_date toy_jalali (Some "1403-02-05"%string) = Some (mkDate 2024 2 5).
Proof. refine (proj1 (parsers_agree toy_jalali "-" (mkDate 1403 2 5) _ _)); [by left|unfold fits; cbn; lia]. Defined.

Lemma widget_reads_iso_as_jalali_witness :
  _to_gregorian_date toy_jalali "2024-05-01" = Some (mkDate 2645 5 1).
Proof. refine (widget_reads_iso_as_jalali toy_jalali (mkDate 2024 5 1) _). unfold fits. cbn. lia. Defined.

Example ordinal_1970 : toordinal (mkDate 1970 1 1) = 719163.
Proof. reflexivity. Qed.

Example jalali_request : _to_iso_from_jalali_or_iso toy_jalali " ۱۴۰۳/۵/۲۰T10:00 " = "2024-05-20"%string.
Proof. vm_compute. reflexivity. Qed.
