(* ===== verification/Approvals.v ===== *)
(** Coach approvals: [CoachApproval] and [PoomsaeCoachApproval] of
    [competitions/models.py], the approval views of [competitions/views.py] and the
    deletion page of the admin.

    The two models share one text with other names for the acceptance flag; the class
    [ApprovalModel] holds what that text uses and has an instance for each.  A table
    is a state of its own, the competitions are read from the database.  The partial
    constraint on (competition, code) has a condition, which MySQL does not create:
    that codes differ is proved of the handlers.  [random.randint] is a stream of
    draws. *)

From Stdlib Require Import Ascii.
From stdpp Require Import pretty.
From S2P Require Import Prelude Store Points Ranking Payments GroupPayments GroupRegistration Text.
Local Open Scope Z_scope.

(** ** The two models *)

(** [CoachApproval] *)
Record CoachApproval := mkCoachApproval {
  ca_competition : Z;
  ca_coach : Z;
  ca_code : option string;
  ca_terms_accepted : bool;
  ca_is_active : bool;
  ca_approved_at : Z;
}.

(** [PoomsaeCoachApproval] *)
Record PoomsaeCoachApproval := mkPoomsaeCoachApproval {
  pa_competition : Z;
  pa_player : option Z;
  pa_coach : Z;
  pa_code : option string;
  pa_approved : bool;
  pa_is_active : bool;
  pa_created_at : Z;
}.

(** The columns a save can name in [update_fields]. *)
Inductive field := Fcode | Faccepted | Fis_active | Fapproved_at.

#[export] Instance field_eq_dec : EqDecision field.
Proof. solve_decision. Defined.

(** What the shared code uses of an approval: its columns, the row made by
    [get_or_create], and copying one column of an instance into a row. *)
Class ApprovalModel (T : Type) := {
  ap_competition : T → Z;
  ap_coach : T → Z;
  ap_code : T → option string;
  ap_accepted : T → bool;
  ap_is_active : T → bool;
  ap_set_code : option string → T → T;
  ap_set_accepted : bool → T → T;
  ap_set_is_active : bool → T → T;
  ap_new : Z → Z → Z → T;
  ap_copy : field → T → T → T;
}.

#[export] Instance coach_approval_model : ApprovalModel CoachApproval := {|
  ap_competition := ca_competition;
  ap_coach := ca_coach;
  ap_code := ca_code;
  ap_accepted := ca_terms_accepted;
  ap_is_active := ca_is_active;
  ap_set_code := λ v a, mkCoachApproval (ca_competition a) (ca_coach a) v (ca_terms_accepted a)
                          (ca_is_active a) (ca_approved_at a);
  ap_set_accepted := λ v a, mkCoachApproval (ca_competition a) (ca_coach a) (ca_code a) v
                              (ca_is_active a) (ca_approved_at a);
  ap_set_is_active := λ v a, mkCoachApproval (ca_competition a) (ca_coach a) (ca_code a)
                               (ca_terms_accepted a) v (ca_approved_at a);
  ap_new := λ comp coach now, mkCoachApproval comp coach None true true now;
  ap_copy := λ f x r,
    match f with
    | Fcode => mkCoachApproval (ca_competition r) (ca_coach r) (ca_code x) (ca_terms_accepted r)
                 (ca_is_active r) (ca_approved_at r)
    | Faccepted => mkCoachApproval (ca_competition r) (ca_coach r) (ca_code r) (ca_terms_accepted x)
                     (ca_is_active r) (ca_approved_at r)
    | Fis_active => mkCoachApproval (ca_competition r) (ca_coach r) (ca_code r) (ca_terms_accepted r)
                      (ca_is_active x) (ca_approved_at r)
    | Fapproved_at => mkCoachApproval (ca_competition r) (ca_coach r) (ca_code r) (ca_terms_accepted r)
                        (ca_is_active r) (ca_approved_at x)
    end;
|}.

#[export] Instance poomsae_approval_model : ApprovalModel PoomsaeCoachApproval := {|
  ap_competition := pa_competition;
  ap_coach := pa_coach;
  ap_code := pa_code;
  ap_accepted := pa_approved;
  ap_is_active := pa_is_active;
  ap_set_code := λ v a, mkPoomsaeCoachApproval (pa_competition a) (pa_player a) (pa_coach a) v
                          (pa_approved a) (pa_is_active a) (pa_created_at a);
  ap_set_accepted := λ v a, mkPoomsaeCoachApproval (pa_competition a) (pa_player a) (pa_coach a)
                              (pa_code a) v (pa_is_active a) (pa_created_at a);
  ap_set_is_active := λ v a, mkPoomsaeCoachApproval (pa_competition a) (pa_player a) (pa_coach a)
                               (pa_code a) (pa_approved a) v (pa_created_at a);
  ap_new := λ comp coach now, mkPoomsaeCoachApproval comp None coach None true true now;
  ap_copy := λ f x r,
    match f with
    | Fcode => mkPoomsaeCoachApproval (pa_competition r) (pa_player r) (pa_coach r) (pa_code x)
                 (pa_approved r) (pa_is_active r) (pa_created_at r)
    | Faccepted => mkPoomsaeCoachApproval (pa_competition r) (pa_player r) (pa_coach r) (pa_code r)
                     (pa_approved x) (pa_is_active r) (pa_created_at r)
    | Fis_active => mkPoomsaeCoachApproval (pa_competition r) (pa_player r) (pa_coach r) (pa_code r)
                      (pa_approved r) (pa_is_active x) (pa_created_at r)
    | Fapproved_at => r
    end;
|}.

(** What the proofs use of the two models. *)
Class ApprovalLaws (T : Type) `{ApprovalModel T} : Prop := {
  ap_code_set c a : ap_code (ap_set_code c a) = c;
  ap_code_accepted b a : ap_code (ap_set_accepted b a) = ap_code a;
  ap_code_active b a : ap_code (ap_set_is_active b a) = ap_code a;
  ap_accepted_set b a : ap_accepted (ap_set_accepted b a) = b;
  ap_accepted_active b a : ap_accepted (ap_set_is_active b a) = ap_accepted a;
  ap_active_set b a : ap_is_active (ap_set_is_active b a) = b;
  ap_active_accepted b a : ap_is_active (ap_set_accepted b a) = ap_is_active a;
  ap_comp_code c a : ap_competition (ap_set_code c a) = ap_competition a;
  ap_comp_accepted b a : ap_competition (ap_set_accepted b a) = ap_competition a;
  ap_comp_active b a : ap_competition (ap_set_is_active b a) = ap_competition a;
  ap_new_code c k t : ap_code (ap_new c k t) = None;
  ap_new_comp c k t : ap_competition (ap_new c k t) = c;
  ap_new_coach c k t : ap_coach (ap_new c k t) = k;
  ap_new_accepted c k t : ap_accepted (ap_new c k t) = true;
  ap_new_active c k t : ap_is_active (ap_new c k t) = true;
  ap_copy_code f x r : ap_code (ap_copy f x r) = if decide (f = Fcode) then ap_code x else ap_code r;
  ap_copy_comp f x r : ap_competition (ap_copy f x r) = ap_competition r;
  ap_copy_coach f x r : ap_coach (ap_copy f x r) = ap_coach r;
  ap_copy_accepted f x r :
    ap_accepted (ap_copy f x r) = if decide (f = Faccepted) then ap_accepted x else ap_accepted r;
  ap_copy_active f x r :
    ap_is_active (ap_copy f x r) = if decide (f = Fis_active) then ap_is_active x else ap_is_active r;
}.

#[export] Instance coach_approval_laws : ApprovalLaws CoachApproval.
Proof. by split; repeat intros []. Qed.

#[export] Instance poomsae_approval_laws : ApprovalLaws PoomsaeCoachApproval.
Proof. by split; repeat intros []. Qed.

(** ** Codes *)

(** [_rand_code]: [f"{n:0{length}d}"] for the drawn integer [n]. *)
Definition _rand_code (length : nat) (n : Z) : string := pad length n.

(** [re.fullmatch(r"\d{4,8}", code)] on ASCII digits. *)
Definition code_format (code : string) : bool :=
  all_digits code && (4 <=? String.length code)%nat && (String.length code <=? 8)%nat.

(** The truth value of a nullable code. *)
Definition has_code (code : option string) : bool := truthy_str (opt_str code).

Section operations.
Context {T : Type} `{ApprovalModel T}.

(** A table and its next primary key. *)
Record approvals := mkApprovals {
  as_rows : gmap Z T;
  as_next : Z;
}.

Definition set_as_rows (v : gmap Z T) (s : approvals) : approvals := mkApprovals v (as_next s).

(** [objects.get(pk=pk)] *)
Definition get_row (pk : Z) : M approvals T :=
  (s <~ get ;; of_option (as_rows s !! pk) DoesNotExist)%monad.

(** [clean] *)
Definition clean (self : T) : result unit :=
  if has_code (ap_code self) && negb (code_format (opt_str (ap_code self))) then Err ValidationError else Ok tt.

(** The unique constraint on competition and coach. *)
Definition same_coach (a b : T) : bool :=
  (ap_competition a =? ap_competition b) && (ap_coach a =? ap_coach b).

Definition coach_taken (rows : gmap Z T) (pk : Z) (a : T) : bool :=
  existsb (λ kb, negb (kb.1 =? pk) && same_coach a kb.2) (rows_by_id rows).

(** [Model.save]: an update of the named columns, or of the whole row. *)
Definition super_save (pk : Z) (self : T) (update_fields : option (list field)) : M approvals unit :=
  (s <~ get ;;
   match update_fields with
   | Some [] => ret tt
   | Some fs =>
       match as_rows s !! pk with
       | None => raise OtherError
       | Some row => put (set_as_rows (<[pk := foldl (λ r f, ap_copy f self r) row fs]> (as_rows s)) s)
       end
   | None =>
       if coach_taken (as_rows s) pk self then raise IntegrityError
       else put (set_as_rows (<[pk := self]> (as_rows s)) s)
   end)%monad.

(** [save]: a change of the code is refused unless [_allow_code_change] is set. *)
Definition save (allow_code_change : bool) (pk : Z) (self : T) (update_fields : option (list field))
    : M approvals unit :=
  let should_check_code := match update_fields with
                           | None | Some [] => true
                           | Some fs => bool_decide (Fcode ∈ fs) end in
  (if should_check_code && negb allow_code_change then
     orig <~ get_row pk ;;
     if bool_decide (ap_code orig = ap_code self) then super_save pk self update_fields
     else raise ValidationError
   else super_save pk self update_fields)%monad.

(** [objects.filter(competition=competition, code=c).exists()] *)
Definition code_taken (rows : gmap Z T) (competition : Z) (c : string) : bool :=
  existsb (λ kb, (ap_competition kb.2 =? competition) && bool_decide (ap_code kb.2 = Some c)) (rows_by_id rows).

(** The loop of [set_fresh_code] over the draws: the first code not in use. *)
Fixpoint fresh_code (rows : gmap Z T) (competition : Z) (draws : list Z) : option string :=
  match draws with
  | [] => None
  | n :: draws' =>
      let c := _rand_code 6 n in
      if code_taken rows competition c then fresh_code rows competition draws' else Some c
  end.

(** [set_fresh_code] on the instance [self] of row [pk]: the new code is written to
    the row, [self] is not touched.  [rand] gives the results of [random.randint]. *)
Definition set_fresh_code (rand : nat → Z) (pk : Z) (self : T) (save_it force : bool) : M approvals string :=
  atomic (
    if has_code (ap_code self) && negb force then ret (opt_str (ap_code self))
    else
      current <~ get_row pk ;;
      if has_code (ap_code current) && negb force then ret (opt_str (ap_code current))
      else
        s <~ get ;;
        match fresh_code (as_rows s) (ap_competition self) (rand <$> seq 0 25) with
        | None => raise ValueError
        | Some c =>
            _ <~ (if save_it then save true pk (ap_set_code (Some c) current) (Some [Fcode]) else ret tt) ;;
            ret c
        end)%monad.

(** [get_or_create(competition=comp, coach=coach, defaults=...)] *)
Definition get_or_create (comp coach now : Z) : M approvals (Z * T) :=
  (s <~ get ;;
   match head (List.filter (λ ka, (ap_competition ka.2 =? comp) && (ap_coach ka.2 =? coach))
                 (rows_by_id (as_rows s))) with
   | Some ka => ret ka
   | None =>
       let a := ap_new comp coach now in
       _ <~ put (mkApprovals (<[as_next s := a]> (as_rows s)) (as_next s + 1)) ;;
       ret (as_next s, a)
   end)%monad.

(** The body of the two approval views once competition and coach are known: the
    answer is the code of the instance the view holds. *)
Definition approve (rand : nat → Z) (comp coach now : Z) : M approvals (option string) :=
  (r <~ get_or_create comp coach now ;;
   let '(pk, a0) := r in
   let a1 := if ap_accepted a0 then a0 else ap_set_accepted true a0 in
   let a2 := if ap_is_active a1 then a1 else ap_set_is_active true a1 in
   let changed := (if ap_accepted a0 then [] else [Faccepted]) ++ (if ap_is_active a0 then [] else [Fis_active]) in
   _ <~ (if bool_decide (length changed = 0%nat) then ret tt else save false pk a2 (Some changed)) ;;
   _ <~ (if has_code (ap_code a2) then ret ""%string else set_fresh_code rand pk a2 true true) ;;
   ret (ap_code a2))%monad.

(** The inline forms of the admin: the code is read-only, so an edited row keeps
    the stored one, and a new row has none. *)
Definition admin_edit (pk : Z) (edit : T → T) : M approvals unit :=
  (row <~ get_row pk ;;
   let self := ap_set_code (ap_code row) (edit row) in
   _ <~ lift (clean self) ;; save false pk self None)%monad.

Definition admin_add (a : T) : M approvals unit :=
  (s <~ get ;;
   let self := ap_set_code None a in
   if coach_taken (as_rows s) (as_next s) self then raise IntegrityError
   else put (mkApprovals (<[as_next s := self]> (as_rows s)) (as_next s + 1)))%monad.

(** The deletion of [detail_view]: the row named in the form, whatever its competition. *)
Definition delete_row (pk : Z) : M approvals unit :=
  modify (λ s, set_as_rows (delete pk (as_rows s)) s).
End operations.
Arguments approvals T : clear implicits.
Arguments mkApprovals {T}.
Arguments as_rows {T} _.
Arguments as_next {T} _.

(** ** The views *)

(** [approve_terms], of the kyorugi model only: a query update of the row. *)
Definition approve_terms (pk now : Z) : M (approvals CoachApproval) unit :=
  modify (λ s, set_as_rows (alter (λ a, mkCoachApproval (ca_competition a) (ca_coach a) (ca_code a) true true now)
                              pk (as_rows s)) s).

(** The methods of the poomsae model. *)
Definition poomsae_set_fresh_code (rand : nat → Z) (pk : Z) (self : PoomsaeCoachApproval) (save_it force : bool)
    : M (approvals PoomsaeCoachApproval) string :=
  set_fresh_code rand pk self save_it force.
Definition poomsae_clean (self : PoomsaeCoachApproval) : result unit := clean self.
Definition poomsae_save (allow_code_change : bool) (pk : Z) (self : PoomsaeCoachApproval)
    (update_fields : option (list field)) : M (approvals PoomsaeCoachApproval) unit :=
  save allow_code_change pk self update_fields.

(** [_uniq_preserve], on texts that may be missing. *)
Definition _uniq_preserve (seq : list (option string)) : list string :=
  (foldl (λ (acc : list string * list string) x,
     let s := strip (opt_str x) in
     if negb (truthy_str s) || bool_decide (s ∈ acc.1) then acc else (s :: acc.1, acc.2 ++ [s]))
   ([], []) seq).2.

Inductive comp_ref := KyorugiComp (k : Z) | PoomsaeComp (k : Z).

Inductive approve_response :=
  | ArNotForPoomsae
  | ArNoCoach
  | ArClosed
  | ArOk (code : option string).

Record status_response := mkStatus {
  so_approved : bool;
  so_terms_accepted : bool;
  so_is_active : bool;
  so_code : option string;
  so_coach_name : string;
  so_club_names : list string;
}.

Section views.
Context {P : Type} `{PointArith P} (iexact : string → string → bool).
Local Abbreviation db := (DB P).

(** [_get_comp_by_key_any]; its last query names a column [slug] the poomsae model
    does not have, and the error is caught. *)
Definition _get_comp_by_key_any (d : db) (key : string) : option comp_ref :=
  match _get_comp_by_key iexact d key with
  | Some k => Some (KyorugiComp k)
  | None =>
      let s := strip key in
      let by_id := if truthy_str s && all_digits s
                   then match digits None s with
                        | Some k => if is_none (db_poomsae_comps d !! k) then None else Some k
                        | None => None
                        end
                   else None in
      match by_id with
      | Some k => Some (PoomsaeComp k)
      | None => (λ kp, PoomsaeComp kp.1)
                  <$> head (List.filter (λ kp, iexact (pc_public_id kp.2) s) (rows_by_id (db_poomsae_comps d)))
      end
  end.

(** [ApproveCompetitionView.post] by a user whose coach profile is [coach]. *)
Definition approve_competition (d : db) (rand : nat → Z) (coach : option Z) (key : string) (now : Z)
    : M (approvals CoachApproval) approve_response :=
  atomic (
    comp <~ of_option (_get_comp_by_key_any d key) Http404 ;;
    match comp, coach with
    | PoomsaeComp _, _ => ret ArNotForPoomsae
    | KyorugiComp _, None => ret ArNoCoach
    | KyorugiComp comp, Some coach =>
        code <~ approve rand comp coach now ;; ret (ArOk code)
    end)%monad.

(** [registration_open_effective] of a poomsae competition on day [today]. *)
Definition poomsae_registration_open (comp : PoomsaeCompetition) (today : Z) : bool :=
  match pc_registration_manual comp with
  | Some b => b
  | None => negb (today <? pc_registration_start comp) && negb (pc_registration_end comp <? today)
  end.

(** [PoomsaeCoachApprovalApproveView.post] *)
Definition approve_poomsae (d : db) (rand : nat → Z) (coach : option Z) (public_id : string) (today now : Z)
    : M (approvals PoomsaeCoachApproval) approve_response :=
  atomic (
    kp <~ of_option (head (List.filter (λ kp, String.eqb (pc_public_id kp.2) public_id)
                             (rows_by_id (db_poomsae_comps d)))) Http404 ;;
    match coach with
    | None => ret ArNoCoach
    | Some coach =>
        if negb (poomsae_registration_open kp.2 today) then ret ArClosed
        else code <~ approve rand kp.1 coach now ;; ret (ArOk code)
    end)%monad.

(** [CoachApprovalStatusView.get]: what the coach is told of the approval; a poomsae
    competition shows none.  [clubs] are the names of the clubs in the order of the view. *)
Definition approval_status (d : db) (rows : gmap Z CoachApproval) (coach : option Z)
    (clubs : Z → list (option string)) (key : string) : result (option status_response) :=
  match _get_comp_by_key_any d key with
  | None => Err Http404
  | Some comp =>
      match (k ← coach; (λ r, (k, r)) <$> db_profiles d !! k) with
      | None => Ok None
      | Some (k, prof) =>
          let approval := match comp with
            | PoomsaeComp _ => None
            | KyorugiComp c => snd <$> head (List.filter
                (λ ka, (ca_competition ka.2 =? c) && (ca_coach ka.2 =? k)) (rows_by_id rows))
            end in
          let active := match approval with Some a => ca_is_active a | None => false end in
          let terms := match approval with Some a => ca_terms_accepted a | None => false end in
          Ok (Some (mkStatus (active && terms) terms active
                (if active then approval ≫= ca_code else None) (full_name prof) (_uniq_preserve (clubs k))))
      end
  end.
End views.

(** ** Codes are six digits and determine their draw *)

Lemma rand_code_format n : 0 ≤ n < 1000000 → code_format (_rand_code 6 n) = true.
Proof.
  intros Hn. destruct (pad_spec 6 n) as (Hd & Hl & _); [lia|lia|]. unfold code_format, _rand_code. by rewrite Hd, Hl.
Qed.

Lemma rand_code_inj n m : 0 ≤ n < 1000000 → 0 ≤ m < 1000000 →
  _rand_code 6 n = _rand_code 6 m → n = m.
Proof.
  intros Hn Hm E. destruct (pad_spec 6 n) as (_ & _ & Hdn); [lia|lia|].
  destruct (pad_spec 6 m) as (_ & _ & Hdm); [lia|lia|]. unfold _rand_code in E. rewrite E in Hdn. congruence.
Qed.

(** ** Correctness *)

Section correctness.
Context {T : Type} `{ApprovalLaws T}.
Implicit Types (s : approvals T) (a b : T).

(** A table of approvals: keys below the counter, one row per coach and competition,
    well-formed codes, no code twice in a competition. *)
Record wf s : Prop := {
  wf_keys i a : as_rows s !! i = Some a → i < as_next s;
  wf_coaches i j a b : as_rows s !! i = Some a → as_rows s !! j = Some b → same_coach a b = true → i = j;
  wf_codes i j a b c : as_rows s !! i = Some a → as_rows s !! j = Some b →
    ap_competition a = ap_competition b → ap_code a = Some c → ap_code b = Some c → i = j;
  wf_format i a c : as_rows s !! i = Some a → ap_code a = Some c → code_format c = true;
}.

(** How a table may change: a code that is set stays with its row, a deleted key
    stays free. *)
Definition keeps_codes s s' : Prop :=
  as_next s ≤ as_next s' ∧
  (∀ i, i < as_next s → as_rows s !! i = None → as_rows s' !! i = None) ∧
  (∀ i a c b, as_rows s !! i = Some a → ap_code a = Some c → as_rows s' !! i = Some b →
     ap_code b = Some c ∧ ap_competition b = ap_competition a).

Definition evolves s s' : Prop := wf s → wf s' ∧ keeps_codes s s'.

#[local] Instance evolves_preorder : PreOrder evolves.
Proof.
  split.
  - intros s Hw. split; [done|]. split; [lia|]. split; [done|]. intros i a c b Ha Hc Hb. by simplify_eq.
  - intros s1 s2 s3 H12 H23 Hw1. destruct (H12 Hw1) as (Hw2 & Hn & Hf & Hk).
    destruct (H23 Hw2) as (Hw3 & Hn' & Hf' & Hk'). split; [done|]. split; [lia|]. split.
    + intros i Hi Hi1. apply Hf'; [lia|]. by apply Hf.
    + intros i a c b Ha Hc Hb. destruct (as_rows s2 !! i) as [a2|] eqn:E.
      * destruct (Hk _ _ _ _ Ha Hc E) as [Hc2 Hcomp]. destruct (Hk' _ _ _ _ E Hc2 Hb). split; congruence.
      * rewrite Hf' in Hb; [done| |done]. pose proof (wf_keys _ Hw1 _ _ Ha). lia.
Qed.

Lemma code_free rows comp c i a : code_taken rows comp c = false → rows !! i = Some a →
  ap_competition a = comp → ap_code a ≠ Some c.
Proof.
  intros Hf Ha Hc Hcode. revert Hf. apply not_false_iff_true. apply existsb_exists. exists (i, a). split.
  - by apply list_elem_of_In, elem_of_rows_by_id.
  - cbn. by rewrite Hc, Hcode, Z.eqb_refl, bool_decide_eq_true_2.
Qed.

Lemma coach_free rows pk a i b : coach_taken rows pk a = false → rows !! i = Some b →
  same_coach a b = true → i = pk.
Proof.
  intros Hf Hb Hs. destruct (decide (i = pk)) as [|Hne]; [done|]. exfalso. revert Hf.
  apply not_false_iff_true. apply existsb_exists. exists (i, b). split.
  - by apply list_elem_of_In, elem_of_rows_by_id.
  - cbn. rewrite Hs. by apply Z.eqb_neq in Hne as ->.
Qed.

Lemma same_coach_sym a b : same_coach a b = same_coach b a.
Proof. unfold same_coach. by rewrite (Z.eqb_sym (ap_competition a)), (Z.eqb_sym (ap_coach a)). Qed.

Lemma same_coach_refl a : same_coach a a = true.
Proof. unfold same_coach. by rewrite !Z.eqb_refl. Qed.

(** Writing a row: the conditions under which the table stays well formed. *)
Lemma wf_insert s pk b n : wf s → as_next s ≤ n → pk < n →
  coach_taken (as_rows s) pk b = false →
  (∀ c, ap_code b = Some c → code_format c = true ∧
     ∀ j a, as_rows s !! j = Some a → j ≠ pk → ap_competition a = ap_competition b → ap_code a ≠ Some c) →
  wf (mkApprovals (<[pk := b]> (as_rows s)) n).
Proof.
  intros Hw Hn Hpk Hco Hb. split; cbn.
  - intros i a Ha. apply lookup_insert_Some in Ha as [[<- <-]|[_ Ha]]; [done|].
    pose proof (wf_keys _ Hw _ _ Ha). lia.
  - intros i j a a' Ha Ha' Hs.
    apply lookup_insert_Some in Ha as [[<- <-]|[Hi Ha]]; apply lookup_insert_Some in Ha' as [[<- <-]|[Hj Ha']].
    + done.
    + symmetry. by eapply coach_free.
    + rewrite same_coach_sym in Hs. by eapply coach_free.
    + by eapply (wf_coaches _ Hw).
  - intros i j a a' c Ha Ha' He Hc Hc'.
    apply lookup_insert_Some in Ha as [[<- <-]|[Hi Ha]]; apply lookup_insert_Some in Ha' as [[<- <-]|[Hj Ha']].
    + done.
    + by destruct (proj2 (Hb c Hc) j a' Ha').
    + by destruct (proj2 (Hb c Hc') i a Ha).
    + by eapply (wf_codes _ Hw).
  - intros i a c Ha Hc. apply lookup_insert_Some in Ha as [[<- <-]|[_ Ha]]; [by apply Hb|].
    by eapply (wf_format _ Hw).
Qed.

(** A row replaced by one with the same competition and coach, and the same code if
    it has one. *)
Lemma evolves_replace s pk a b : as_rows s !! pk = Some a → same_coach a b = true →
  (ap_code b = ap_code a ∨
   ap_code a = None ∧ ∃ c, ap_code b = Some c ∧ code_format c = true ∧
     code_taken (as_rows s) (ap_competition a) c = false) →
  evolves s (set_as_rows (<[pk := b]> (as_rows s)) s).
Proof.
  intros Ha Hs Hb Hw. assert (Hcomp : ap_competition b = ap_competition a).
  { apply andb_true_iff in Hs as [Hs _]. by apply Z.eqb_eq in Hs. }
  split.
  - apply wf_insert; [done|lia|by eapply wf_keys| |].
    + apply not_true_iff_false. intros Ht. apply existsb_exists in Ht as ([i x] & Hi & Ht).
      apply list_elem_of_In, elem_of_rows_by_id in Hi. apply andb_true_iff in Ht as [Hne Hx]. cbn in Hne, Hx.
      assert (i = pk) as ->; [|by rewrite Z.eqb_refl in Hne]. eapply (wf_coaches _ Hw); [done..|].
      unfold same_coach in *. rewrite !andb_true_iff, !Z.eqb_eq in *. destruct Hx, Hs. split; congruence.
    + intros c Hc. destruct Hb as [Hb|(_ & c' & Hb & Hf & Hfree)].
      * rewrite Hb in Hc. split; [by eapply wf_format|]. intros j x Hx Hj Hcx Hcode. apply Hj.
        eapply (wf_codes _ Hw); [done..| |done|done]. congruence.
      * simplify_eq. split; [done|]. intros j x Hx _ Hcx. eapply code_free; [done..|]. congruence.
  - split; [cbn; lia|]. split; cbn.
    + intros i Hi Hn. rewrite lookup_insert_ne; [done|]. congruence.
    + intros i x c y Hx Hc Hy. apply lookup_insert_Some in Hy as [[<- <-]|[_ Hy]]; [|by simplify_eq].
      simplify_eq. destruct Hb as [->|(Hn & _)]; [done|congruence].
Qed.

Lemma evolves_added s a : ap_code a = None → coach_taken (as_rows s) (as_next s) a = false →
  evolves s (mkApprovals (<[as_next s := a]> (as_rows s)) (as_next s + 1)).
Proof.
  intros Hc Ht Hw. assert (Hfree : as_rows s !! as_next s = None).
  { destruct (as_rows s !! as_next s) eqn:E; [|done]. pose proof (wf_keys _ Hw _ _ E). lia. }
  split.
  - apply wf_insert; [done|lia|lia|done|]. intros c Hc'. congruence.
  - split; [cbn; lia|]. split; cbn.
    + intros i Hi Hn. rewrite lookup_insert_ne; [done|]. lia.
    + intros i x c y Hx Hcx Hy. apply lookup_insert_Some in Hy as [[<- <-]|[_ Hy]]; [congruence|by simplify_eq].
Qed.

Lemma evolves_delete pk s : evolves s (delete_row pk s).2.
Proof.
  intros Hw. cbn. assert (Hd : ∀ i a, delete pk (as_rows s) !! i = Some a → as_rows s !! i = Some a).
  { intros i a. rewrite lookup_delete_Some. tauto. }
  split.
  - split; cbn; intros; [eapply wf_keys|eapply wf_coaches|eapply wf_codes|eapply wf_format]; eauto.
  - split; [cbn; lia|]. split; cbn.
    + intros i Hi Hn. apply lookup_delete_None. tauto.
    + intros i a c b Ha Hc Hb. apply Hd in Hb. by simplify_eq.
Qed.

(** The row of a coach in a competition. *)
Definition own_row (rows : gmap Z T) (comp coach : Z) : option (Z * T) :=
  head (List.filter (λ ka, (ap_competition ka.2 =? comp) && (ap_coach ka.2 =? coach)) (rows_by_id rows)).

Lemma own_row_some rows comp coach pk a : own_row rows comp coach = Some (pk, a) →
  rows !! pk = Some a ∧ ap_competition a = comp ∧ ap_coach a = coach.
Proof.
  intros Hh. assert (Hin : (pk, a) ∈ List.filter (λ ka : Z * T, (ap_competition ka.2 =? comp) && (ap_coach ka.2 =? coach))
                              (rows_by_id rows)).
  { unfold own_row in Hh. destruct (List.filter _ _) as [|x l]; [done|]. injection Hh as ->. by left. }
  apply elem_of_filter_list in Hin as [Hin Hb]. rewrite elem_of_rows_by_id in Hin.
  apply andb_true_iff in Hb as [H1 H2]. cbn in H1, H2. by rewrite Z.eqb_eq in H1, H2.
Qed.

Lemma own_row_none rows comp coach i a : own_row rows comp coach = None → rows !! i = Some a →
  ap_competition a = comp → ap_coach a ≠ coach.
Proof.
  intros Hh Ha Hc Hco. assert (Hin : (i, a) ∈ List.filter (λ ka : Z * T, (ap_competition ka.2 =? comp) && (ap_coach ka.2 =? coach))
                              (rows_by_id rows)).
  { apply elem_of_filter_list. split; [by apply elem_of_rows_by_id|]. cbn. by rewrite Hc, Hco, !Z.eqb_refl. }
  unfold own_row in Hh. destruct (List.filter _ _); [by apply not_elem_of_nil in Hin|done].
Qed.

Lemma own_row_unique s comp coach pk a : wf s → as_rows s !! pk = Some a →
  ap_competition a = comp → ap_coach a = coach → own_row (as_rows s) comp coach = Some (pk, a).
Proof.
  intros Hw Ha Hc Hco. destruct (own_row _ _ _) as [[k b]|] eqn:E.
  - apply own_row_some in E as (Hb & Hcb & Hcob). assert (k = pk) as ->; [|congruence].
    eapply (wf_coaches _ Hw); [done..|]. unfold same_coach. by rewrite Hc, Hco, Hcb, Hcob, !Z.eqb_refl.
  - by destruct (own_row_none _ _ _ _ _ E Ha Hc).
Qed.

Lemma get_or_create_spec s comp coach now : wf s →
  ∃ pk a s1, get_or_create comp coach now s = (Ok (pk, a), s1) ∧ evolves s s1 ∧
    as_rows s1 !! pk = Some a ∧ ap_competition a = comp ∧ ap_coach a = coach ∧
    ap_code a = (own_row (as_rows s) comp coach ≫= λ ka, ap_code ka.2).
Proof.
  intros Hw. unfold get_or_create, bind, get. fold (own_row (as_rows s) comp coach).
  destruct (own_row (as_rows s) comp coach) as [[pk a]|] eqn:E.
  - apply own_row_some in E as E'. exists pk, a, s. split; [done|]. split; [reflexivity|]. naive_solver.
  - exists (as_next s), (ap_new comp coach now). eexists. split; [done|]. split.
    + apply evolves_added; [apply ap_new_code|]. apply not_true_iff_false. intros Ht.
      apply existsb_exists in Ht as ([i x] & Hi & Ht). apply list_elem_of_In, elem_of_rows_by_id in Hi.
      unfold same_coach in Ht. rewrite !andb_true_iff, !Z.eqb_eq, ap_new_comp, ap_new_coach in Ht. cbn in Ht.
      destruct Ht as (_ & Hc & Hco). by destruct (own_row_none _ _ _ _ _ E Hi).
    + cbn. rewrite lookup_insert_eq. split; [done|]. by rewrite ap_new_comp, ap_new_coach, ap_new_code.
Qed.

(** The flags of [approve]: the instance, and the row after saving the changed ones. *)
Definition flagged (a : T) : T :=
  let a1 := if ap_accepted a then a else ap_set_accepted true a in
  if ap_is_active a1 then a1 else ap_set_is_active true a1.

Definition changed_flags (a : T) : list field :=
  (if ap_accepted a then [] else [Faccepted]) ++ (if ap_is_active a then [] else [Fis_active]).

Lemma flags_saved s pk a : as_rows s !! pk = Some a →
  ∃ b s1, (if bool_decide (length (changed_flags a) = 0%nat) then ret tt
           else save false pk (flagged a) (Some (changed_flags a))) s = (Ok tt, s1) ∧
    evolves s s1 ∧ as_rows s1 = <[pk := b]> (as_rows s) ∧ ap_code b = ap_code a ∧
    same_coach a b = true ∧ ap_accepted b = true ∧ ap_is_active b = true.
Proof.
  intros Ha. set (b := foldl (λ r f, ap_copy f (flagged a) r) a (changed_flags a)).
  assert (Hb : ap_code b = ap_code a ∧ same_coach a b = true ∧ ap_accepted b = true ∧ ap_is_active b = true).
  { subst b. unfold changed_flags, flagged, same_coach.
    destruct (ap_accepted a) eqn:E1; destruct (ap_is_active a) eqn:E2; cbn;
      repeat first [rewrite ap_active_accepted|rewrite E1|rewrite E2|rewrite ap_copy_code|rewrite ap_copy_comp
        |rewrite ap_copy_coach|rewrite ap_copy_accepted|rewrite ap_copy_active|rewrite ap_accepted_set
        |rewrite ap_active_set|rewrite ap_accepted_active|rewrite Z.eqb_refl]; done. }
  destruct Hb as (Hc & Hs & Hac & Hact). exists b.
  assert (He : evolves s (set_as_rows (<[pk := b]> (as_rows s)) s)) by (eapply evolves_replace; eauto).
  destruct (changed_flags a) as [|f fs] eqn:Ef.
  - exists s. split; [done|]. split; [reflexivity|]. split; [|done]. cbn in b. subst b. by rewrite insert_id.
  - eexists. split; [|split; [exact He|split; [done|done]]].
    rewrite bool_decide_eq_false_2 by done. unfold save.
    rewrite bool_decide_eq_false_2.
    2: { rewrite <- Ef. unfold changed_flags. destruct (ap_accepted a), (ap_is_active a); set_solver. }
    cbn [andb]. unfold super_save, bind, get, put. by rewrite Ha.
Qed.

(** The search for a code takes the first draw that is free. *)
Lemma fresh_code_first rows comp (rand : nat → Z) m : ∀ n,
  match fresh_code rows comp (rand <$> seq n m) with
  | Some c => ∃ k, (n ≤ k < n + m)%nat ∧ c = _rand_code 6 (rand k) ∧ code_taken rows comp c = false ∧
      ∀ j, (n ≤ j < k)%nat → code_taken rows comp (_rand_code 6 (rand j)) = true
  | None => ∀ k, (n ≤ k < n + m)%nat → code_taken rows comp (_rand_code 6 (rand k)) = true
  end.
Proof.
  induction m as [|m IH]; intros n; [intros k Hk; lia|]. cbn.
  destruct (code_taken rows comp (_rand_code 6 (rand n))) eqn:E.
  - specialize (IH (S n)). destruct (fresh_code _ _ _).
    + destruct IH as (k & Hk & Hc & Hf & Ht). exists k. split; [lia|]. do 2 (split; [done|]).
      intros j Hj. destruct (decide (j = n)) as [->|]; [done|]. apply Ht. lia.
    + intros k Hk. destruct (decide (k = n)) as [->|]; [done|]. apply IH. lia.
  - exists n. split; [lia|]. split; [done|]. split; [done|]. intros j Hj. lia.
Qed.

(** The codes in use in a competition. *)
Definition codes_in (rows : gmap Z T) (comp : Z) : list string :=
  omap (λ kb, if ap_competition kb.2 =? comp then ap_code kb.2 else None) (rows_by_id rows).

Lemma code_taken_in rows comp c : code_taken rows comp c = true → c ∈ codes_in rows comp.
Proof.
  intros Ht. apply existsb_exists in Ht as ([i b] & Hi & Hb). apply list_elem_of_In in Hi.
  apply andb_true_iff in Hb as [Hb Hc]. apply bool_decide_eq_true in Hc.
  apply list_elem_of_omap. exists (i, b). split; [done|]. by rewrite Hb.
Qed.

(** Distinct draws outnumber the codes in use, so one of them is free. *)
Lemma fresh_code_pigeonhole rows comp draws : NoDup draws → Forall (λ n, 0 ≤ n < 1000000) draws →
  (length (codes_in rows comp) < length draws)%nat →
  ¬ (∀ n, n ∈ draws → code_taken rows comp (_rand_code 6 n) = true).
Proof.
  intros Hnd Hr Hl Hall. assert (Hsub : (_rand_code 6 <$> draws) ⊆+ codes_in rows comp).
  { apply NoDup_submseteq.
    - apply (NoDup_fmap_2_strong (_rand_code 6)); [|done]. rewrite Forall_forall in Hr.
      intros x y Hx Hy. by apply rand_code_inj; apply Hr.
    - intros c (n & -> & Hn)%list_elem_of_fmap. by apply code_taken_in, Hall. }
  apply submseteq_length in Hsub. rewrite length_fmap in Hsub. lia.
Qed.

Definition in_range (rand : nat → Z) : Prop := ∀ k, 0 ≤ rand k < 1000000.

Lemma fresh_code_saved (rand : nat → Z) s pk self a : as_rows s !! pk = Some a →
  set_fresh_code rand pk self true true s =
  match fresh_code (as_rows s) (ap_competition self) (rand <$> seq 0 25) with
  | None => (Err ValueError, s)
  | Some c => (Ok c, set_as_rows (<[pk := ap_copy Fcode (ap_set_code (Some c) a) a]> (as_rows s)) s)
  end.
Proof.
  intros Ha. unfold set_fresh_code, atomic. rewrite !andb_false_r.
  unfold get_row, bind, get, of_option. rewrite Ha. unfold ret. rewrite andb_false_r.
  destruct (fresh_code _ _ _); [|done]. unfold save. cbn [negb andb]. rewrite andb_false_r.
  unfold super_save, bind, get, put. by rewrite Ha.
Qed.

Lemma has_code_none s pk a : wf s → as_rows s !! pk = Some a → has_code (ap_code a) = false → ap_code a = None.
Proof.
  intros Hw Ha Hc. destruct (ap_code a) as [c|] eqn:E; [|done]. pose proof (wf_format _ Hw _ _ _ Ha E) as Hf.
  unfold has_code, truthy_str in Hc. cbn in Hc. destruct c; done.
Qed.

Lemma flagged_code a : ap_code (flagged a) = ap_code a.
Proof.
  unfold flagged. cbn zeta. destruct (ap_is_active (if ap_accepted a then a else _)) eqn:E.
  - destruct (ap_accepted a); [done|]. by rewrite ap_code_accepted.
  - rewrite ap_code_active. destruct (ap_accepted a); [done|]. by rewrite ap_code_accepted.
Qed.

Lemma flagged_comp a : ap_competition (flagged a) = ap_competition a.
Proof.
  unfold flagged. cbn zeta. destruct (ap_is_active (if ap_accepted a then a else _)) eqn:E.
  - destruct (ap_accepted a); [done|]. by rewrite ap_comp_accepted.
  - rewrite ap_comp_active. destruct (ap_accepted a); [done|]. by rewrite ap_comp_accepted.
Qed.

(** Writing the found code to its row. *)
Lemma code_written (rand : nat → Z) s pk a c : in_range rand → as_rows s !! pk = Some a → ap_code a = None →
  fresh_code (as_rows s) (ap_competition a) (rand <$> seq 0 25) = Some c →
  let b := ap_copy Fcode (ap_set_code (Some c) a) a in
  evolves s (set_as_rows (<[pk := b]> (as_rows s)) s) ∧ ap_code b = Some c ∧ same_coach a b = true ∧
  ap_accepted b = ap_accepted a ∧ ap_is_active b = ap_is_active a ∧ code_format c = true.
Proof.
  intros Hr Ha Hn Hc b. pose proof (fresh_code_first (as_rows s) (ap_competition a) rand 25 0) as Hf.
  rewrite Hc in Hf. destruct Hf as (k & _ & -> & Hfree & _).
  assert (Hs : same_coach a b = true). { unfold same_coach, b. by rewrite ap_copy_comp, ap_copy_coach, !Z.eqb_refl. }
  assert (Hcode : ap_code b = Some (_rand_code 6 (rand k))). { unfold b. by rewrite ap_copy_code, decide_True, ap_code_set. }
  pose proof (rand_code_format _ (Hr k)) as Hfmt. split_and!; try done.
  - apply (evolves_replace s pk a b); [done..|]. right. split; [done|]. by eexists.
  - unfold b. by rewrite ap_copy_accepted, decide_False.
  - unfold b. by rewrite ap_copy_active, decide_False.
Qed.

(** What the approval of a coach leaves: an accepted, active row with a code; the
    answer is the code the row had before. *)
Lemma approve_spec (rand : nat → Z) comp coach now s : wf s → in_range rand →
  match approve rand comp coach now s with
  | (Err e, _) => e = ValueError
  | (Ok code, s') => evolves s s' ∧
      code = (own_row (as_rows s) comp coach ≫= λ ka, ap_code ka.2) ∧
      ∃ pk b c, as_rows s' !! pk = Some b ∧ ap_competition b = comp ∧ ap_coach b = coach ∧
        ap_accepted b = true ∧ ap_is_active b = true ∧ ap_code b = Some c ∧ code_format c = true ∧
        (∀ old, code = Some old → c = old)
  end.
Proof.
  intros Hw Hr. unfold approve.
  destruct (get_or_create_spec s comp coach now Hw) as (pk & a & s1 & Hg & He1 & Ha & Hc & Hco & Hcode).
  unfold bind at 1. rewrite Hg. cbn zeta.
  fold (flagged a). fold (changed_flags a).
  destruct (flags_saved s1 pk a Ha) as (b & s2 & Hs & He2 & Hrows & Hcb & Hsb & Hacc & Hact).
  unfold bind at 1. rewrite Hs. rewrite flagged_code.
  assert (Hb : as_rows s2 !! pk = Some b) by (rewrite Hrows; apply lookup_insert_eq).
  assert (Hw2 : wf s2) by (apply He2; by apply He1).
  unfold same_coach in Hsb. rewrite andb_true_iff, !Z.eqb_eq in Hsb. destruct Hsb as [Hcomp Hcoach].
  destruct (has_code (ap_code a)) eqn:Ec.
  - destruct (ap_code a) as [c|] eqn:Eca; [|done]. cbn. split; [by etrans|]. split; [done|].
    exists pk, b, c. rewrite <- Hcomp, <- Hcoach. split_and!; try done.
    + by eapply (wf_format _ Hw2).
    + intros old Hold. congruence.
  - assert (Hn : ap_code b = None). { eapply (has_code_none s2 pk); [done..|]. by rewrite Hcb. }
    rewrite Hcb in Hn. unfold bind, ret. rewrite (fresh_code_saved rand s2 pk (flagged a) b Hb), flagged_comp, Hcomp.
    destruct (fresh_code _ _ _) as [c|] eqn:Ef; [|done].
    rewrite <- Hcb in Hn. destruct (code_written rand s2 pk b c Hr Hb Hn Ef) as (He3 & Hcode3 & Hs3 & Ha3 & Hi3 & Hf3).
    unfold same_coach in Hs3. rewrite andb_true_iff, !Z.eqb_eq in Hs3. destruct Hs3 as [Hcomp3 Hcoach3].
    split; [do 2 (etrans; [eassumption|]); done|]. split; [done|].
    eexists pk, _, c. split; [apply lookup_insert_eq|]. split_and!; try done; congruence.
Qed.

(** ** Every sequence of requests *)

Inductive approval_step : approvals T → approvals T → Prop :=
  | step_approve rand comp coach now s : in_range rand →
      approval_step s (atomic (approve rand comp coach now) s).2
  | step_edit pk edit s : (∀ a, ap_competition (edit a) = ap_competition a) →
      approval_step s (admin_edit pk edit s).2
  | step_add a s : approval_step s (admin_add a s).2
  | step_delete pk s : approval_step s (delete_row pk s).2
  | step_flags pk (f : T → T) s : (∀ a, ap_code (f a) = ap_code a ∧ same_coach a (f a) = true) →
      approval_step s (set_as_rows (alter f pk (as_rows s)) s).

Lemma edit_evolves pk edit s : (∀ a, ap_competition (edit a) = ap_competition a) →
  evolves s (admin_edit pk edit s).2.
Proof.
  intros He. unfold admin_edit, get_row, bind at 1, get, bind at 1, of_option.
  destruct (as_rows s !! pk) as [a|] eqn:Ha; [|reflexivity]. unfold ret, lift. cbn zeta. unfold bind at 1.
  destruct (clean (ap_set_code (ap_code a) (edit a))); [|reflexivity].
  unfold save, get_row, bind, get, of_option. cbn [andb negb]. rewrite Ha. unfold ret.
  rewrite ap_code_set, bool_decide_eq_true_2 by done. unfold super_save, bind, get.
  destruct (coach_taken (as_rows s) pk (ap_set_code (ap_code a) (edit a))) eqn:Et; [reflexivity|].
  unfold put. cbn [snd]. intros Hw. split.
  - apply wf_insert; [done|lia|by eapply wf_keys|done|]. rewrite ap_code_set, ap_comp_code, He. intros c Hc.
    split; [by eapply wf_format|]. intros j x Hx Hj Hcx Hcode. apply Hj. by eapply (wf_codes _ Hw).
  - split; [cbn; lia|]. split; cbn.
    + intros i Hi Hn. rewrite lookup_insert_ne; [done|]. congruence.
    + intros i x c y Hx Hc Hy. apply lookup_insert_Some in Hy as [[<- <-]|[_ Hy]]; [|by simplify_eq].
      simplify_eq. rewrite ap_code_set, ap_comp_code, He. done.
Qed.

Lemma step_evolves s s' : approval_step s s' → evolves s s'.
Proof.
  intros [rand comp coach now s0 Hr|pk edit s0 He|a s0|pk s0|pk f s0 Hf].
  - intros Hw. pose proof (approve_spec rand comp coach now s0 Hw Hr) as Ha. unfold atomic.
    destruct (approve _ _ _ _ s0) as [[code|e] s1]; [by apply Ha|by apply (reflexivity (R := evolves))].
  - by apply edit_evolves.
  - unfold admin_add, bind, get. cbn zeta. destruct (coach_taken _ _ _) eqn:E; [reflexivity|].
    apply evolves_added; [apply ap_code_set|done].
  - apply evolves_delete.
  - destruct (as_rows s0 !! pk) as [a|] eqn:Ha.
    + rewrite (alter_some f (as_rows s0) pk a Ha). destruct (Hf a) as [Hc Hs]. eapply evolves_replace; eauto.
    + rewrite alter_id by (intros x Hx; congruence). destruct s0. reflexivity.
Qed.

Lemma approvals_evolve s s' : rtc approval_step s s' → evolves s s'.
Proof.
  induction 1 as [s|s s1 s' Hs _ IH]; [reflexivity|]. etrans; [by apply step_evolves|done].
Qed.

Lemma wf_empty n : wf (mkApprovals ∅ n).
Proof. split; cbn; intros *; rewrite ?lookup_empty; done. Qed.

(** C14: Through every sequence of approvals, edits and deletions starting from an
    empty table, a competition has one row per coach and never the same code twice,
    and every code has four to eight digits. *)
Theorem approvals_stay_distinct n s : rtc approval_step (mkApprovals ∅ n) s →
  ∀ i j a b, as_rows s !! i = Some a → as_rows s !! j = Some b → ap_competition a = ap_competition b →
    (ap_coach a = ap_coach b → i = j) ∧
    (∀ c, ap_code a = Some c → code_format c = true ∧ (ap_code b = Some c → i = j)).
Proof.
  intros Hs i j a b Ha Hb Hc. destruct (approvals_evolve _ _ Hs (wf_empty n)) as [Hw _]. split.
  - intros Hco. apply (wf_coaches _ Hw i j a b Ha Hb). unfold same_coach. by rewrite Hc, Hco, !Z.eqb_refl.
  - intros c Hca. split; [exact (wf_format _ Hw i a c Ha Hca)|]. intros Hcb.
    exact (wf_codes _ Hw i j a b c Ha Hb Hc Hca Hcb).
Qed.

(** A code that an approval has received is never changed: whatever requests
    follow, its row keeps the code and the competition as long as it exists. *)
Theorem approval_code_is_final n s s' i a b c :
  rtc approval_step (mkApprovals ∅ n) s → rtc approval_step s s' →
  as_rows s !! i = Some a → ap_code a = Some c → as_rows s' !! i = Some b →
  ap_code b = Some c ∧ ap_competition b = ap_competition a.
Proof.
  intros Hs Hs' Ha Hc Hb. destruct (approvals_evolve _ _ Hs (wf_empty n)) as [Hw _].
  destruct (approvals_evolve _ _ Hs' Hw) as (_ & _ & _ & Hk). by eapply Hk.
Qed.

(** C15: The search for a code ends within 25 draws: it takes the first draw whose
    code is free in the competition and stores it, or raises [ValueError] when all
    25 are in use, leaving the table as it was; with 25 different draws and fewer
    than 25 codes in use it succeeds. *)
Theorem set_fresh_code_terminates (rand : nat → Z) s pk a : as_rows s !! pk = Some a → in_range rand →
  match set_fresh_code rand pk a true true s with
  | (Ok c, s') => ∃ k b, (k < 25)%nat ∧ c = _rand_code 6 (rand k) ∧ code_format c = true ∧
      code_taken (as_rows s) (ap_competition a) c = false ∧
      (∀ j, (j < k)%nat → code_taken (as_rows s) (ap_competition a) (_rand_code 6 (rand j)) = true) ∧
      as_rows s' = <[pk := b]> (as_rows s) ∧ ap_code b = Some c
  | (Err e, s') => e = ValueError ∧ s' = s ∧
      (∀ k, (k < 25)%nat → code_taken (as_rows s) (ap_competition a) (_rand_code 6 (rand k)) = true) ∧
      ¬ (NoDup (rand <$> seq 0 25) ∧ (length (codes_in (as_rows s) (ap_competition a)) < 25)%nat)
  end.
Proof.
  intros Ha Hr. rewrite (fresh_code_saved rand s pk a a Ha).
  pose proof (fresh_code_first (as_rows s) (ap_competition a) rand 25 0) as Hf.
  destruct (fresh_code _ _ _) as [c|].
  - destruct Hf as (k & Hk & -> & Hfree & Ht). exists k. eexists. split; [lia|]. split; [done|].
    split; [by apply rand_code_format|]. split; [done|]. split; [intros j Hj; apply Ht; lia|].
    split; [done|]. by rewrite ap_copy_code, decide_True, ap_code_set.
  - split; [done|]. split; [done|]. split; [intros k Hk; apply Hf; lia|]. intros [Hnd Hl].
    apply (fresh_code_pigeonhole _ _ _ Hnd) in Hl as Hl'.
    + apply Hl'. intros n (k & -> & Hk)%list_elem_of_fmap. apply elem_of_seq in Hk. apply Hf. lia.
    + apply Forall_forall. intros n (k & -> & _)%list_elem_of_fmap. apply Hr.
Qed.
End correctness.

(** Accepting the terms by a query update is one of the steps. *)
Lemma approve_terms_step pk now s :
  approval_step s (approve_terms pk now s).2.
Proof. apply step_flags. intros []. unfold same_coach. cbn. by rewrite !Z.eqb_refl. Qed.

Section view_correctness.
Context {P : Type} `{PointArith P} (iexact : string → string → bool).

(** The approval view either runs out of codes and changes nothing, or leaves an
    approved row with a well-formed code that the status view shows from then on;
    but its own answer is the code from before the request, so a first approval
    is answered with no code. *)
Theorem approval_is_visible (d : DB P) rand coach prof key comp now clubs s :
  wf s → in_range rand → _get_comp_by_key_any iexact d key = Some (KyorugiComp comp) →
  db_profiles d !! coach = Some prof →
  match approve_competition iexact d rand (Some coach) key now s with
  | (Ok r, s') => ∃ code c,
      r = ArOk code ∧
      code = (own_row (as_rows s) comp coach ≫= λ ka, ca_code ka.2) ∧
      (∀ old, code = Some old → c = old) ∧ code_format c = true ∧
      approval_status iexact d (as_rows s') (Some coach) clubs key =
        Ok (Some (mkStatus true true true (Some c) (full_name prof) (_uniq_preserve (clubs coach))))
  | (Err e, s') => e = ValueError ∧ s' = s
  end.
Proof.
  intros Hw Hr Hk Hp. pose proof (approve_spec rand comp coach now s Hw Hr) as Ha.
  unfold approve_competition, atomic, bind at 1, of_option. rewrite Hk. unfold ret. cbn zeta. unfold bind at 1.
  destruct (approve rand comp coach now s) as [[code|e] s']; [|by subst e].
  destruct Ha as ([Hw' _]%(λ f, f Hw) & Hcode & pk & b & c & Hb & Hc & Hco & Hacc & Hact & Hbc & Hf & Hold).
  exists code, c. split; [done|]. split; [exact Hcode|]. split; [exact Hold|]. split; [done|].
  unfold approval_status. rewrite Hk. cbn. rewrite Hp. cbn.
  pose proof (own_row_unique s' comp coach pk b Hw' Hb Hc Hco) as Ho. unfold own_row in Ho. cbn in Ho.
  rewrite Ho. cbn. cbn in Hact, Hacc, Hbc. by rewrite Hact, Hacc, Hbc.
Qed.
End view_correctness.

(** ** Examples and witnesses *)

Definition counting_draws (k : nat) : Z := Z.of_nat k `mod` 1000000.

Lemma counting_in_range : in_range counting_draws.
Proof. intros k. by apply Z.mod_pos_bound. Qed.

Definition empty_approvals : approvals CoachApproval := mkApprovals ∅ 1.
Definition one_approval : approvals CoachApproval := (atomic (approve counting_draws 5 7 100) empty_approvals).2.
Definition two_approvals : approvals CoachApproval := (atomic (approve counting_draws 5 8 101) one_approval).2.

Example two_codes :
  ((λ ka, ca_code ka.2) <$> rows_by_id (as_rows two_approvals)) = [Some "000000"; Some "000001"]%string.
Proof. vm_compute. reflexivity. Qed.

Lemma one_approval_step : approval_step empty_approvals one_approval.
Proof. apply step_approve, counting_in_range. Qed.

Lemma two_approvals_step : approval_step one_approval two_approvals.
Proof. apply step_approve, counting_in_range. Qed.

Lemma two_approvals_reached : rtc approval_step empty_approvals two_approvals.
Proof. eapply rtc_l; [apply one_approval_step|]. apply rtc_once, two_approvals_step. Qed.

Definition approval_of_7 : CoachApproval := mkCoachApproval 5 7 (Some "000000"%string) true true 100.
Definition approval_of_8 : CoachApproval := mkCoachApproval 5 8 (Some "000001"%string) true true 101.

Lemma approvals_stay_distinct_witness :
  code_format "000000" = true ∧ (ca_code approval_of_8 = Some "000000"%string → 1 = 2).
Proof.
  exact (proj2 (approvals_stay_distinct 1 two_approvals two_approvals_reached 1 2 approval_of_7 approval_of_8
                  ltac:(vm_compute; reflexivity) ltac:(vm_compute; reflexivity) eq_refl) "000000"%string eq_refl).
Defined.

Lemma approval_code_is_final_witness :
  ap_code approval_of_7 = Some "000000"%string ∧ ap_competition approval_of_7 = ap_competition approval_of_7.
Proof.
  exact (approval_code_is_final 1 one_approval two_approvals 1 approval_of_7 approval_of_7 "000000"
           (rtc_once _ _ one_approval_step) (rtc_once _ _ two_approvals_step)
           ltac:(vm_compute; reflexivity) eq_refl ltac:(vm_compute; reflexivity)).
Defined.

Definition full_table : approvals CoachApproval :=
  mkApprovals {[ 1 := mkCoachApproval 5 7 None true true 100; 2 := mkCoachApproval 5 8 (Some "000000"%string) true true 101 ]} 3.

Lemma set_fresh_code_terminates_witness :
  match set_fresh_code counting_draws 1 (mkCoachApproval 5 7 None true true 100) true true full_table with
  | (Ok c, _) => c = "000001"%string
  | (Err _, _) => False
  end.
Proof.
  pose proof (set_fresh_code_terminates counting_draws full_table 1 (mkCoachApproval 5 7 None true true 100)
                ltac:(vm_compute; reflexivity) counting_in_range) as H.
  destruct (set_fresh_code _ _ _ _ _ _) as [[c|e] s'] eqn:E.
  - clear H. vm_compute in E. by injection E as <-.
  - destruct H as (_ & _ & H & _). specialize (H 1%nat ltac:(lia)). by vm_compute in H.
Defined.

Definition approvals_db : DB Z :=
  mkDB {[ 7 := mkUserProfile "Ali" "Ahmadi" true "coach" "male" None None None 0 0 0 0 0 ]} ∅ ∅ ∅
    {[ 5 := mkKyorugiCompetition "cup" 100000 (Some 1) "male" None 0 10 11 12 13 2 None "c" ]}
    [] ∅ ∅ ∅ [] ∅ ∅ [] ∅ ∅ ∅ ∅ ∅ ∅ ∅ ∅ [] 1.

Lemma approval_is_visible_witness :
  approve_competition String.eqb approvals_db counting_draws (Some 7) "c" 100 empty_approvals =
    (Ok (ArOk None), one_approval) ∧
  ∃ c, approval_status String.eqb approvals_db (as_rows one_approval) (Some 7)
         (λ _, [Some "Azadi"; None; Some " Azadi "]%string) "c" =
       Ok (Some (mkStatus true true true (Some c) "Ali Ahmadi" ["Azadi"]))%string.
Proof.
  pose proof (approval_is_visible String.eqb approvals_db counting_draws 7
    (mkUserProfile "Ali" "Ahmadi" true "coach" "male" None None None 0 0 0 0 0) "c" 5 100
    (λ _, [Some "Azadi"; None; Some " Azadi "]%string) empty_approvals (wf_empty 1) counting_in_range
    ltac:(vm_compute; reflexivity) ltac:(vm_compute; reflexivity)) as H.
  assert (E : approve_competition String.eqb approvals_db counting_draws (Some 7) "c" 100 empty_approvals =
    (Ok (ArOk None), one_approval)) by (vm_compute; reflexivity).
  split; [exact E|]. rewrite E in H. destruct H as (code & c & _ & _ & _ & _ & H). exists c. exact H.
Defined.
