(* ===== verification/SelfRegistration.v ===== *)
(** Players registering themselves: [PoomsaeRegisterSelfView] and [RegisterSelfView] of
    [competitions/views.py], the latter with [CompetitionRegistrationSerializer] of
    [competitions/serializers.py].

    The belt and birth date of a profile, the belt groups and age categories are
    arguments, and so are the approvals, which these views only read.  A date in a
    table is the [toordinal] of the date. *)

From Stdlib Require Import Ascii SpecFloat.
From stdpp Require Import pretty.
From S2P Require Import Prelude Store Points Ranking Ledger Poomsae Payments GroupPayments GroupRegistration Text Dates Approvals.
Local Open Scope Z_scope.

(** ** Reading a request *)

(** [_get_first]: the first key present with a value other than [None] and [""]. *)
Fixpoint _get_first (data : list (string * json)) (keys : list string) : string :=
  match keys with
  | [] => ""%string
  | k :: keys' =>
      match dict_get data k with
      | Some JNull | Some (JStr ""%string) | None => _get_first data keys'
      | Some v => strip (json_str v)
      end
  end.

(** [_clean_poomsae_type] *)
Definition _clean_poomsae_type (v : string) : string :=
  let t := replace "ك" "ک" (replace "ي" "ی" (lower (strip v))) in
  default t (assoc [("std", "standard"); ("standard", "standard"); ("استاندارد", "standard");
    ("creative", "creative"); ("cre", "creative"); ("ابداعی", "creative"); ("ابداعي", "creative")]%string t).

Inductive self_response :=
  | SrClosed
  | SrNoPlayer
  | SrErrors (keys : list string)
  | SrDuplicate
  | SrNoBeltGroup
  | SrCreated (k : Z).

Section self_registration.
Context {P : Type} `{PointArith P} (iexact : string → string → bool)
  (jalali : Z → Z → Z → option date) (belt_grade birth_date : Z → string)
  (belt_groups : Z → list (Z * list string)).
Local Abbreviation db := (DB P).

(** ** Poomsae *)

(** [PoomsaeRegisterSelfView._get_comp_by_key]: an unknown key is looked up by a column
    the model does not have, which raises [FieldError]. *)
Definition poomsae_comp_by_key (d : db) (key : string) : result (Z * PoomsaeCompetition) :=
  let s := strip key in
  let by_id := if truthy_str s && all_digits s
               then k ← digits None s; (λ c, (k, c)) <$> db_poomsae_comps d !! k else None in
  match by_id with
  | Some kc => Ok kc
  | None =>
      match head (List.filter (λ kc, iexact (pc_public_id kc.2) s) (rows_by_id (db_poomsae_comps d))) with
      | Some kc => Ok kc
      | None => Err OtherError
      end
  end.

(** The approval a code names: active and approved. *)
Definition approved_by (approvals : gmap Z PoomsaeCoachApproval) (comp : Z) (code : string)
    : option PoomsaeCoachApproval :=
  snd <$> head (List.filter (λ ka, (pa_competition ka.2 =? comp) && bool_decide (pa_code ka.2 = Some code)
                                   && pa_is_active ka.2 && pa_approved ka.2) (rows_by_id approvals)).

(** What the view reads of the request. *)
Record poomsae_form := mkPoomsaeForm {
  pf_coach_code : string;
  pf_poomsae_type : string;
  pf_insurance_number : string;
  pf_insurance_issue_date : string;
}.

Definition read_form (data : list (string * json)) : poomsae_form :=
  mkPoomsaeForm
    (_get_first data ["coach_code"; "code"; "coachApprovalCode"; "coach_approval_code"])
    (_clean_poomsae_type (_get_first data ["poomsae_type"; "type"; "poomsaeType"]))
    (_get_first data ["insurance_number"; "insuranceNumber"])
    (_to_iso_from_jalali_or_iso jalali (_get_first data
       ["insurance_issue_date"; "insurance_issue_date_jalali"; "insuranceIssueDate"; "insuranceIssueDateJalali"])).

(** The keys of the error dictionary, in order. *)
Definition form_errors (comp : PoomsaeCompetition) (f : poomsae_form) (appr : option PoomsaeCoachApproval)
    : list string :=
  (if bool_decide (pf_poomsae_type f ∈ ["standard"; "creative"])%string then [] else ["poomsae_type"]) ++
  (if truthy_str (pf_insurance_number f) then [] else ["insurance_number"]) ++
  (if negb (truthy_str (pf_insurance_issue_date f)) then ["insurance_issue_date"]
   else match fromisoformat (pf_insurance_issue_date f) with
        | Some iid => if insurance_ok (competition_day comp) (toordinal iid) then [] else ["insurance_issue_date"]
        | None => ["insurance_issue_date"]
        end) ++
  (if truthy_str (pf_coach_code f) && negb (is_none appr) then [] else ["coach_code"])%string.

(** The age category by birth date: among those of the competition if it has any,
    then among all. *)
Definition age_category_of (ages : list (Z * (Z * Z))) (comp_ages : list Z) (birth : string) : option Z :=
  match _to_greg_date jalali birth with
  | None => None
  | Some bd =>
      let covers := λ a : Z * (Z * Z), (a.2.1 <=? toordinal bd) && (toordinal bd <=? a.2.2) in
      match fst <$> head (List.filter (λ a, bool_decide (a.1 ∈ comp_ages) && covers a) ages) with
      | Some k => Some k
      | None => fst <$> head (List.filter covers ages)
      end
  end.

(** The entry: club and board of the player, the club's board first. *)
Definition poomsae_entry_of (comp_id player : Z) (prof : UserProfile P) (club : option (Z * TkdClub P))
    (board : option (Z * TkdBoard P)) (coach : Z) (coach_row : UserProfile P) (f : poomsae_form)
    (iid : Z) (age belt : option Z) : PoomsaeEnrollment :=
  mkPoomsaeEnrollment comp_id (Some player) (Some coach) (full_name coach_row) (strip (pf_coach_code f))
    (fst <$> club) (default "" ((λ c, cl_club_name c.2) <$> club))
    (fst <$> board) (default "" ((λ b, bo_name b.2) <$> board))
    belt age (pf_poomsae_type f) "single" (pf_insurance_number f) iid None "pending_payment" false 0 "" None.

(** [PoomsaeRegisterSelfView.post] by the owner of the profile [player].  After a free or
    simulated payment the view calls a method the model does not have. *)
Definition register_poomsae_self (payments_enabled : bool) (approvals : gmap Z PoomsaeCoachApproval)
    (ages : list (Z * (Z * Z))) (comp_ages : Z → list Z)
    (player : option Z) (key : string) (data : list (string * json)) (today : Z) : M db self_response :=
  atomic (
    d <~ get ;;
    kc <~ lift (poomsae_comp_by_key d key) ;;
    let '(comp_id, comp) := kc in
    if negb (poomsae_registration_open comp today) then ret SrClosed
    else
      match (k ← player; (λ r, (k, r)) <$> db_profiles d !! k) with
      | None => ret SrNoPlayer
      | Some (pk, prof) =>
          if negb (bool_decide (up_role prof ∈ ["player"; "both"])%string) then ret SrNoPlayer
          else
            let f := read_form data in
            let appr := approved_by approvals comp_id (strip (pf_coach_code f)) in
            let errors := form_errors comp f appr in
            match errors, appr, fromisoformat (pf_insurance_issue_date f) with
            | [], Some appr, Some iid =>
                if existsb (λ ke, (pe_competition ke.2 =? comp_id) && bool_decide (pe_player ke.2 = Some pk)
                                  && String.eqb (pe_poomsae_type ke.2) (pf_poomsae_type f))
                     (map_to_list (db_poomsae_enrollments d)) then ret SrDuplicate
                else
                  let age := age_category_of ages (comp_ages comp_id) (birth_date pk) in
                  let belt := _belt_group_for_player_in_comp belt_grade belt_groups pk comp_id in
                  if negb (bool_decide (length (belt_groups comp_id) = 0%nat)) && is_none belt
                  then ret SrNoBeltGroup
                  else
                    coach_row <~ fetch db_profiles (pa_coach appr) ;;
                    club <~ fetch_opt db_clubs (up_club prof) ;;
                    board <~ fetch_opt db_boards
                      match club with
                      | Some c => match cl_tkd_board c.2 with Some b => Some b | None => up_tkd_board prof end
                      | None => up_tkd_board prof
                      end ;;
                    k <~ save_poomsae None (poomsae_entry_of comp_id pk prof club board (pa_coach appr) coach_row f
                                              (toordinal iid) age belt) ;;
                    if negb payments_enabled || (pc_entry_fee comp =? 0) then raise AttributeError
                    else ret (SrCreated k)
            | _, _, _ => ret (SrErrors errors)
            end
      end)%monad.

(** ** Kyorugi *)

(** [_GENDER_MAP] and [_norm_gender] *)
Definition _GENDER_MAP : list (string * string) :=
  [("male", "male"); ("m", "male"); ("man", "male"); ("آقا", "male"); ("اقا", "male"); ("مرد", "male");
   ("آقایان", "male"); ("آقايان", "male"); ("اقایان", "male"); ("both", "both"); ("mixed", "both");
   ("مختلط", "both"); ("هردو", "both"); ("هر دو", "both"); ("female", "female"); ("f", "female");
   ("woman", "female"); ("زن", "female"); ("خانم", "female"); ("بانو", "female"); ("بانوان", "female");
   ("خانم‌ها", "female"); ("خانمها", "female")]%string.

Definition _norm_gender (v : string) : string :=
  let t := replace "-" "" (replace (mark 140) "" (replace "ك" "ک" (replace "ي" "ی" (lower (strip v))))) in
  default t (assoc _GENDER_MAP t).

(** [_gender_ok_for_wc] *)
Definition _gender_ok_for_wc (comp : KyorugiCompetition) (wc_gender : string) : bool :=
  let rg := _norm_gender (kc_gender comp) in
  let wg := _norm_gender wc_gender in
  if bool_decide (rg ∈ [""; "both"])%string then true
  else if String.eqb wg "" then true else String.eqb wg rg.

(** [_wc_includes]: here the tolerance extends the category on both sides. *)
Definition _wc_includes (wc : WeightCategory) (val : spec_float) : bool :=
  SFleb (SFsub 53 1024 (wc_min_weight wc) (wc_tolerance wc)) val
  && SFleb val (SFadd 53 1024 (wc_max_weight wc) (wc_tolerance wc)).

(** [_collect_comp_weights], as the keys of the set. *)
Definition _collect_comp_weights (d : db) (comp_id : Z) : list Z := allowed_weight_ids d comp_id.

(** [_find_belt_group_obj] *)
Definition _find_belt_group_obj (comp_id : Z) (player_belt_code : option string) : option Z :=
  match player_belt_code with
  | None => None
  | Some code =>
      fst <$> head (List.filter (λ g, existsb (λ b, bool_decide (_norm_belt b = Some code)) g.2) (belt_groups comp_id))
  end.

(** [_parse_weight_to_float]: separators become dots, other characters are dropped, dots
    after the first too; [float] of what is left, correctly rounded. *)
Definition weight_text (raw : string) : string :=
  let t := foldl (λ t k, replace k "." t) (_to_en_digits raw) ["/"; "٫"; ","; "،"]%string in
  (fix keep (dot : bool) (s : string) : string :=
     match s with
     | EmptyString => EmptyString
     | String c s' =>
         if is_digit c then String c (keep dot s')
         else if Ascii.eqb c "." && negb dot then String c (keep true s') else keep dot s'
     end) false t.

Definition decimal (int frac : string) : option spec_float :=
  match digits None (int ++ frac) with
  | None => None
  | Some m =>
      let k := Z.of_nat (String.length frac) in
      Some (match m, 10 ^ k with
            | Zpos m, Zpos q => SFdiv 53 1024 (S754_finite false m 0) (S754_finite false q 0)
            | _, _ => S754_zero false
            end)
  end.

Definition _parse_weight_to_float (raw : string) : option spec_float :=
  match split_on "." (weight_text raw) with
  | [int] => decimal int ""
  | [int; frac] => decimal int frac
  | _ => None
  end.

(** The fields of a kyorugi request, as text. *)
Record kyorugi_form := mkKyorugiForm {
  kf_coach_code : string;
  kf_declared_weight : string;
  kf_insurance_number : string;
  kf_insurance_issue_date : string;
}.

Definition live_entry (d : db) (comp_id pk : Z) : option Z :=
  fst <$> last (List.filter (λ ke : Z * Enrollment,
    (en_competition ke.2 =? comp_id) && (en_player ke.2 =? pk) && negb (String.eqb (en_status ke.2) "canceled"))
    (rows_by_id (db_enrollments d))).

(** [CompetitionRegistrationSerializer]: its fields, then [validate]. *)
Definition validate_registration (d : db) (approvals : gmap Z CoachApproval) (comp_id : Z)
    (comp : KyorugiCompetition) (pk : Z) (f : kyorugi_form) (today : Z) : result unit :=
  if negb (truthy_str (kf_coach_code f) && truthy_str (kf_declared_weight f)
           && truthy_str (kf_insurance_number f) && truthy_str (kf_insurance_issue_date f)) then Err ValidationError
  else if (today <? kc_registration_start comp) || (kc_registration_end comp <? today) then Err ValidationError
  else if negb (is_none (live_entry d comp_id pk)) then Err ValidationError
  else
    match _to_greg_from_str_jalali jalali (kf_insurance_issue_date f) with
    | None => Err ValidationError
    | Some issue =>
        if kc_competition_date comp - 3 <? toordinal issue then Err ValidationError
        else
          match _parse_weight_to_float (kf_declared_weight f) with
          | None => Err ValidationError
          | Some w =>
              if negb (existsb (λ ka, (ca_competition ka.2 =? comp_id)
                                      && bool_decide (ca_code ka.2 = Some (kf_coach_code f))
                                      && ca_is_active ka.2 && ca_terms_accepted ka.2) (rows_by_id approvals))
              then Err ValidationError
              else if negb (bool_decide (length (belt_groups comp_id) = 0%nat))
                      && is_none (_find_belt_group_obj comp_id (_norm_belt (belt_grade pk))) then Err ValidationError
              else if existsb (λ k, match db_weights d !! k with
                                    | Some wc => _gender_ok_for_wc comp (wc_gender wc) && _wc_includes wc w
                                    | None => false end) (_collect_comp_weights d comp_id)
              then Ok tt else Err ValidationError
          end
    end.

(** [CompetitionRegistrationSerializer.create]: the guard on the fee, then an
    [Enrollment] with the columns [created_by] and [kind], which the model does not
    have: [TypeError]. *)
Definition create_registration (comp : KyorugiCompetition) : M db Z :=
  (raise_if ((0 <? kc_entry_fee comp) && (kc_entry_fee comp <? 10000)) ValidationError ;;
   raise OtherError)%monad.

(** [RegisterSelfView.post] *)
Definition register_self (approvals : gmap Z CoachApproval) (player : option Z) (key : string)
    (f : kyorugi_form) (today : Z) : M db self_response :=
  atomic (
    d <~ get ;;
    comp_id <~ of_option (_get_comp_by_key iexact d key) Http404 ;;
    comp <~ fetch db_competitions comp_id ;;
    if negb (registration_open_effective comp today) then ret SrClosed
    else
      match (k ← player; (λ r, (k, r)) <$> db_profiles d !! k) with
      | None => ret SrNoPlayer
      | Some (pk, prof) =>
          if negb (bool_decide (up_role prof ∈ ["player"; "both"])%string) then ret SrNoPlayer
          else
            match live_entry d comp_id pk with
            | Some _ => ret SrDuplicate
            | None =>
                let f := mkKyorugiForm (strip (kf_coach_code f)) (strip (kf_declared_weight f))
                           (strip (kf_insurance_number f)) (strip (kf_insurance_issue_date f)) in
                _ <~ lift (validate_registration d approvals comp_id comp pk f today) ;;
                k <~ create_registration comp ;;
                ret (SrCreated k)
            end
      end)%monad.
End self_registration.

(** ** Correctness *)

Section correctness.
Context {P : Type} `{PointArith P} (iexact : string → string → bool)
  (jalali : Z → Z → Z → option date) (belt_grade birth_date : Z → string)
  (belt_groups : Z → list (Z * list string)).
Implicit Types d : DB P.

(** What saving an entry leaves as the view set it. *)
Definition entry_core (pe : PoomsaeEnrollment) :=
  (pe_competition pe, pe_player pe, pe_coach pe, pe_coach_approval_code pe, pe_poomsae_type pe, pe_mode pe,
   pe_insurance_number pe, pe_insurance_issue_date pe, pe_status pe, pe_is_paid pe, pe_paid_amount pe,
   pe_belt_group pe, pe_age_category pe).

Lemma auto_fill_core pe d pe' d' : _auto_fill_snapshots pe d = (Ok pe', d') → entry_core pe' = entry_core pe.
Proof.
  unfold _auto_fill_snapshots. intros (coach & d1 & _ & H1)%bind_ok. cbn zeta in H1.
  set (pe1 := match coach with Some _ => _ | None => _ end) in H1.
  assert (E1 : entry_core pe1 = entry_core pe). { subst pe1. destruct coach; [|done]. by destruct (truthy_str _). }
  clearbody pe1.
  apply bind_ok in H1 as (player & d2 & _ & H1).
  set (pe2 := match pe_club pe1 with Some _ => _ | None => _ end) in H1.
  assert (E2 : entry_core pe2 = entry_core pe1). { subst pe2. destruct (pe_club pe1); [done|]. by destruct player. }
  clearbody pe2.
  apply bind_ok in H1 as (club & d3 & _ & H1).
  set (pe3 := match club with Some _ => _ | None => _ end) in H1.
  assert (E3 : entry_core pe3 = entry_core pe2). { subst pe3. destruct club; [|done]. by destruct (truthy_str _). }
  clearbody pe3.
  set (pe4 := match pe_board pe3 with Some _ => _ | None => _ end) in H1.
  assert (E4 : entry_core pe4 = entry_core pe3). { subst pe4. destruct (pe_board pe3); [done|]. by destruct player. }
  clearbody pe4.
  apply bind_ok in H1 as (board & d4 & _ & [= <- _]).
  transitivity (entry_core pe4); [|congruence]. destruct board; [|done]. by destruct (truthy_str _).
Qed.

Lemma clean_core pe d r d' : pe_clean pe d = (Ok r, d') → entry_core r.2 = entry_core pe.
Proof.
  unfold pe_clean. intros (team & d1 & _ & H1)%bind_ok. apply bind_ok in H1 as (comp & d2 & _ & H1).
  apply bind_ok in H1 as (pe' & d3 & Hp & [= <- _]). cbn.
  destruct (is_none (pe_player pe)); [by injection Hp as -> _|]. by eapply auto_fill_core.
Qed.

Lemma save_poomsae_core pk pe d k d' : save_poomsae pk pe d = (Ok k, d') →
  ∃ pe', db_poomsae_enrollments d' = <[k := pe']> (db_poomsae_enrollments d) ∧ entry_core pe' = entry_core pe.
Proof.
  intros Hs. pose proof Hs as Hs'. apply save_poomsae_ok in Hs' as (pe' & He & _).
  exists pe'. split; [done|]. revert Hs. unfold save_poomsae.
  intros (d0 & d1 & [= <- <-] & H1)%bind_ok. apply bind_ok in H1 as (r & d2 & Hr & H1).
  destruct (_ && constraints_ok pk r.2 d); [|done].
  apply bind_ok in H1 as (k' & d3 & Hk & H1). apply bind_ok in H1 as ([] & d4 & [= <-] & [= -> <-]).
  assert (E : db_poomsae_enrollments d3 = db_poomsae_enrollments d2) by (destruct pk; injection Hk as _ <-; done).
  cbn in He. pose proof (f_equal (lookup k) He) as Hl. rewrite !lookup_insert_eq in Hl. injection Hl as <-.
  by eapply clean_core.
Qed.

Lemma reads_ok {A} (m : M (DB P) A) x d d' : reads m → m d = (Ok x, d') → d' = d.
Proof. intros Hr Hm. pose proof (Hr d) as Hd. by rewrite Hm in Hd. Qed.

Lemma poomsae_comp_found d key comp_id comp : poomsae_comp_by_key iexact d key = Ok (comp_id, comp) →
  db_poomsae_comps d !! comp_id = Some comp.
Proof.
  unfold poomsae_comp_by_key. cbn zeta.
  destruct (if truthy_str (strip key) && _ then _ else None) as [kc|] eqn:E.
  - intros [= ->]. destruct (truthy_str (strip key) && _); [|done]. destruct (digits None _) as [n|]; [|done]. cbn in E.
    destruct (db_poomsae_comps d !! n) eqn:En; [|done]. by injection E as <- <-.
  - destruct (List.filter _ _) as [|kc l] eqn:Ef; [done|]. intros [= ->].
    assert (Hin : (comp_id, comp) ∈ (comp_id, comp) :: l) by left. rewrite <- Ef in Hin.
    apply elem_of_filter_list in Hin as [Hin _]. by rewrite elem_of_rows_by_id in Hin.
Qed.

Lemma approved_by_spec approvals comp code appr : approved_by approvals comp code = Some appr →
  ∃ i, approvals !! i = Some appr ∧ pa_competition appr = comp ∧ pa_code appr = Some code ∧
    pa_is_active appr = true ∧ pa_approved appr = true.
Proof.
  unfold approved_by. destruct (List.filter _ _) as [|[i a] l] eqn:Ef; [done|]. intros [= ->].
  assert (Hin : (i, appr) ∈ (i, appr) :: l) by left. rewrite <- Ef in Hin.
  apply elem_of_filter_list in Hin as [Hin Hb]. rewrite elem_of_rows_by_id in Hin. cbn in Hb.
  rewrite !andb_true_iff, Z.eqb_eq, bool_decide_eq_true in Hb. exists i. tauto.
Qed.

(** A form without errors. *)
Lemma form_accepted comp f appr iid : form_errors comp f (Some appr) = [] →
  fromisoformat (pf_insurance_issue_date f) = Some iid →
  pf_poomsae_type f ∈ ["standard"; "creative"]%string ∧ pf_insurance_number f ≠ ""%string ∧
  pf_coach_code f ≠ ""%string ∧ 3 ≤ competition_day comp - toordinal iid ≤ 365.
Proof.
  unfold form_errors. intros He Hi. rewrite Hi in He.
  destruct (bool_decide _) eqn:Et; [|done]. apply bool_decide_eq_true in Et.
  destruct (truthy_str (pf_insurance_number f)) eqn:En; [|done].
  destruct (negb (truthy_str (pf_insurance_issue_date f))); [done|].
  destruct (insurance_ok _ _) eqn:Eo; [|done]. destruct (truthy_str (pf_coach_code f)) eqn:Ec; [|done].
  unfold truthy_str in En, Ec. apply negb_true_iff, String.eqb_neq in En, Ec.
  unfold insurance_ok in Eo. cbn zeta in Eo. rewrite negb_true_iff, orb_false_iff, !Z.ltb_ge in Eo.
  split_and!; done || lia.
Qed.

Lemma poomsae_self_created payments_enabled approvals ages comp_ages player key data today d :
  match register_poomsae_self iexact jalali belt_grade birth_date belt_groups payments_enabled approvals
          ages comp_ages player key data today d with
  | (Ok (SrCreated k), d') => ∃ comp_id comp pk prof i appr pe,
      poomsae_comp_by_key iexact d key = Ok (comp_id, comp) ∧ poomsae_registration_open comp today = true ∧
      player = Some pk ∧ db_profiles d !! pk = Some prof ∧ up_role prof ∈ ["player"; "both"]%string ∧
      approvals !! i = Some appr ∧ pa_competition appr = comp_id ∧ pa_is_active appr = true ∧
      pa_approved appr = true ∧ pa_code appr = Some (pe_coach_approval_code pe) ∧ pe_coach pe = Some (pa_coach appr) ∧
      payments_enabled = true ∧ pc_entry_fee comp ≠ 0 ∧
      db_poomsae_enrollments d' = <[k := pe]> (db_poomsae_enrollments d) ∧
      pe_competition pe = comp_id ∧ pe_player pe = Some pk ∧ pe_status pe = "pending_payment"%string ∧
      pe_is_paid pe = false ∧ pe_poomsae_type pe ∈ ["standard"; "creative"]%string ∧
      3 ≤ competition_day comp - pe_insurance_issue_date pe ≤ 365 ∧
      (∀ j other, db_poomsae_enrollments d !! j = Some other → pe_competition other = comp_id →
         pe_player other = Some pk → pe_poomsae_type other ≠ pe_poomsae_type pe)
  | (_, d') => d' = d
  end.
Proof.
  destruct (register_poomsae_self _ _ _ _ _ _ _ _ _ _ _ _ _ d) as [[r|e] d'] eqn:E.
  2: { by apply atomic_err in E as ->. }
  apply (proj1 (atomic_ok _ _ _ _)) in E.
  apply bind_ok in E as (d0 & d1 & [= <- <-] & E). apply bind_ok in E as ([comp_id comp] & d1 & [= Hc <-] & E).
  destruct (poomsae_registration_open comp today) eqn:Eo; [|by injection E as <- <-]. cbn [negb] in E.
  destruct (k ← player; _) as [[pk prof]|] eqn:Ep; [|by injection E as <- <-].
  destruct (bool_decide (up_role prof ∈ _)) eqn:Er; [|by injection E as <- <-]. cbn [negb] in E. cbn zeta in E.
  set (f := read_form jalali data) in E. clearbody f.
  destruct (approved_by approvals comp_id (strip (pf_coach_code f))) as [appr|] eqn:Ea.
  2: { destruct (form_errors comp f None); by injection E as <- <-. }
  destruct (form_errors comp f (Some appr)) as [|x l] eqn:Ee; [|by injection E as <- <-].
  destruct (fromisoformat (pf_insurance_issue_date f)) as [iid|] eqn:Ei; [|by injection E as <- <-].
  destruct (existsb _ _) eqn:Ex; [by injection E as <- <-|].
  destruct (negb (bool_decide _) && is_none _); [by injection E as <- <-|].
  apply bind_ok in E as (coach_row & d2 & Hd2 & E). apply reads_ok in Hd2 as ->; [|apply reads_fetch].
  apply bind_ok in E as (club & d2 & Hd2 & E). apply reads_ok in Hd2 as ->; [|apply reads_fetch_opt].
  apply bind_ok in E as (board & d2 & Hd2 & E). apply reads_ok in Hd2 as ->; [|apply reads_fetch_opt].
  apply bind_ok in E as (k & d2 & Hs & E).
  destruct (negb payments_enabled || (pc_entry_fee comp =? 0)) eqn:Efee; [done|]. injection E as <- <-.
  apply orb_false_iff in Efee as [Hpay Hfee]. apply negb_false_iff in Hpay. apply Z.eqb_neq in Hfee.
  apply save_poomsae_core in Hs as (pe & He & Hcore).
  injection Hcore as E1 E2 E3 E4 E5 _ _ E8 E9 E10 _ _ _.
  destruct (form_accepted comp f appr iid Ee Ei) as (Htype & _ & _ & Hins).
  destruct (approved_by_spec _ _ _ _ Ea) as (i & Hi & Hcomp & Hcode & Hact & Happ).
  apply bool_decide_eq_true in Er. destruct player as [pk'|]; [|done]. cbn in Ep.
  destruct (db_profiles d !! pk') as [prof'|] eqn:Epr; [|done]. injection Ep as -> ->.
  exists comp_id, comp, pk, prof, i, appr, pe. rewrite E1, E2, E3, E4, E5, E8, E9, E10.
  split_and!; try done; try lia.
  intros j other Hj Hoc Hop Hot. revert Ex. apply not_false_iff_true, existsb_exists.
  exists (j, other). split; [by apply list_elem_of_In, elem_of_map_to_list|]. cbn.
  by rewrite Hoc, Hop, Hot, Z.eqb_refl, String.eqb_refl, bool_decide_eq_true_2.
Qed.
(** A player's poomsae registration that is answered with a new entry added
    exactly that entry: unpaid, in an open and paid competition, for a player not
    yet entered in that style, under a coach whose active approval has the code of
    the form, with an insurance of 3 to 365 days before the competition; any other
    answer leaves the database as it was. *)
Theorem poomsae_self_registration payments_enabled approvals ages comp_ages player key data today d :
  match register_poomsae_self iexact jalali belt_grade birth_date belt_groups payments_enabled approvals
          ages comp_ages player key data today d with
  | (Ok (SrCreated k), d') => ∃ comp_id comp pk prof i appr pe,
      poomsae_comp_by_key iexact d key = Ok (comp_id, comp) ∧ poomsae_registration_open comp today = true ∧
      player = Some pk ∧ db_profiles d !! pk = Some prof ∧ up_role prof ∈ ["player"; "both"]%string ∧
      approvals !! i = Some appr ∧ pa_competition appr = comp_id ∧ pa_is_active appr = true ∧
      pa_approved appr = true ∧ pa_code appr = Some (pe_coach_approval_code pe) ∧ pe_coach pe = Some (pa_coach appr) ∧
      payments_enabled = true ∧ pc_entry_fee comp ≠ 0 ∧
      db_poomsae_enrollments d' = <[k := pe]> (db_poomsae_enrollments d) ∧
      pe_competition pe = comp_id ∧ pe_player pe = Some pk ∧ pe_status pe = "pending_payment"%string ∧
      pe_is_paid pe = false ∧ pe_poomsae_type pe ∈ ["standard"; "creative"]%string ∧
      3 ≤ competition_day comp - pe_insurance_issue_date pe ≤ 365 ∧
      (∀ j other, db_poomsae_enrollments d !! j = Some other → pe_competition other = comp_id →
         pe_player other = Some pk → pe_poomsae_type other ≠ pe_poomsae_type pe)
  | (_, d') => d' = d
  end.
Proof. apply poomsae_self_created. Qed.

(** Where nothing is to be paid, that is in a free competition or with payments
    disabled, no poomsae registration succeeds and nothing is stored. *)
Theorem free_poomsae_registration_fails payments_enabled approvals ages comp_ages player key data today d comp_id comp :
  poomsae_comp_by_key iexact d key = Ok (comp_id, comp) → payments_enabled = false ∨ pc_entry_fee comp = 0 →
  let r := register_poomsae_self iexact jalali belt_grade birth_date belt_groups payments_enabled approvals
             ages comp_ages player key data today d in
  r.2 = d ∧ ∀ k, r.1 ≠ Ok (SrCreated k).
Proof.
  intros Hk Hfree r. pose proof (poomsae_self_created payments_enabled approvals ages comp_ages player key data today d) as Hs.
  subst r. destruct (register_poomsae_self _ _ _ _ _ _ _ _ _ _ _ _ _ d) as [[[| |keys| | |k]|e] d']; try done.
  destruct Hs as (comp_id' & comp' & pk & prof & i & appr & pe & Hk' & _ & _ & _ & _ & _ & _ & _ & _ & _ & _ & Hpay & Hfee & _).
  rewrite Hk in Hk'. injection Hk' as <- <-. destruct Hfree; congruence.
Qed.

(** No kyorugi self-registration ever succeeds: whatever the request and the
    database, the answer is an error or a refusal and nothing is stored. *)
Theorem self_registration_never_succeeds approvals player key f today d :
  let r := register_self iexact jalali belt_grade belt_groups approvals player key f today d in
  r.2 = d ∧ ∀ k, r.1 ≠ Ok (SrCreated k).
Proof.
  cbn zeta. destruct (register_self _ _ _ _ _ _ _ _ _ d) as [[r|e] d'] eqn:E; [|by apply atomic_err in E as ->].
  apply (proj1 (atomic_ok _ _ _ _)) in E.
  apply bind_ok in E as (d0 & d1 & [= <- <-] & E). apply bind_ok in E as (comp_id & d1 & Hc & E).
  apply reads_ok in Hc as ->; [|by intros d0; destruct (_get_comp_by_key _ _ _)].
  apply bind_ok in E as (comp & d1 & Hf & E). apply reads_ok in Hf as ->; [|apply reads_fetch].
  destruct (negb (registration_open_effective comp today)); [by injection E as <- <-|].
  destruct (k ← player; _) as [[pk prof]|]; [|by injection E as <- <-].
  destruct (negb (bool_decide _)); [by injection E as <- <-|].
  destruct (live_entry d comp_id pk); [by injection E as <- <-|].
  apply bind_ok in E as ([] & d1 & _ & E). apply bind_ok in E as (k & d2 & Hk & _).
  unfold create_registration in Hk. by destruct ((0 <? kc_entry_fee comp) && (kc_entry_fee comp <? 10000)).
Qed.
End correctness.

(** ** Examples and witnesses *)

(** A weight in kilograms, and a competition on 20 May 2024, open that month, with entry
    fee [fee]. *)
Definition kilos (n : Z) : spec_float := binary_normalize 53 1024 n 0 false.
Definition self_day : Z := toordinal (mkDate 2024 5 20).
Definition self_db (fee : Z) : DB Z :=
  set_db_poomsae_comps
    {[ 7 := mkPoomsaeCompetition "cup" None self_day self_day (self_day - 20) (self_day - 1) None fee 2 "p" ]}
    (set_db_competitions
       {[ 5 := mkKyorugiCompetition "cup" 500000 (Some 1) "male" None (self_day - 20) (self_day - 1) 0 0 self_day 2 None "c" ]}
       (set_db_mat_assignments [mkMatAssignment 5 1 [3]]
          (set_db_weights {[ 3 := mkWeightCategory "-60" "male" (kilos 50) (kilos 60) (S754_zero false) ]}
             (set_db_profiles
                {[ 10 := mkUserProfile "Sara" "Q" false "player" "male" None None None 0 0 0 0 0;
                   11 := mkUserProfile "Ali" "R" true "coach" "male" None None None 0 0 0 0 0 ]}
                (empty_db 20))))).

Definition self_approvals : gmap Z PoomsaeCoachApproval :=
  {[ 1 := mkPoomsaeCoachApproval 7 None 11 (Some "123456"%string) true true 0 ]}.

Definition self_data : list (string * json) :=
  [("code", JInt 123456); ("type", JStr "std"); ("insuranceNumber", JStr " 77 ");
   ("insurance_issue_date", JStr ""); ("insuranceIssueDate", JStr "1403/5/10")]%string.

(** Jalali 1403/5/10 read with the stand-in calendar is 10 May 2024. *)
Definition self_request (enabled : bool) (fee : Z) :=
  register_poomsae_self String.eqb toy_jalali (λ _, "زرد"%string) (λ _, "1380/01/01"%string)
    (λ _, [(4, ["سبز"; "زرد"]%string)]) enabled self_approvals [(2, (0, self_day))] (λ _, [2])
    (Some 10) "p" self_data (self_day - 5) (self_db fee).

Example poomsae_self_accepted : (self_request true 500000).1 = Ok (SrCreated 20).
Proof. vm_compute. reflexivity. Qed.

Example poomsae_self_free : (self_request true 0).1 = Err AttributeError.
Proof. vm_compute. reflexivity. Qed.

Lemma free_poomsae_registration_fails_witness :
  (self_request true 0).2 = self_db 0 ∧ ∀ k, (self_request true 0).1 ≠ Ok (SrCreated k).
Proof.
  exact (free_poomsae_registration_fails String.eqb toy_jalali (λ _, "زرد"%string) (λ _, "1380/01/01"%string)
    (λ _, [(4, ["سبز"; "زرد"]%string)]) true self_approvals [(2, (0, self_day))] (λ _, [2])
    (Some 10) "p" self_data (self_day - 5) (self_db 0) 7
    (mkPoomsaeCompetition "cup" None self_day self_day (self_day - 20) (self_day - 1) None 0 2 "p")
    ltac:(vm_compute; reflexivity) (or_intror eq_refl)).
Defined.

(** A kyorugi request that passes every check still ends in the error. *)
Example self_kyorugi_valid :
  let f := mkKyorugiForm "123456" "55,5kg" "77" "1403/5/10" in
  let approvals := {[ 1 := mkCoachApproval 5 11 (Some "123456"%string) true true 0 ]} in
  let groups := λ _ : Z, [(4, ["سبز"; "زرد"]%string)] in
  validate_registration toy_jalali (λ _, "زرد"%string) groups (self_db 0) approvals 5
    (mkKyorugiCompetition "cup" 500000 (Some 1) "male" None (self_day - 20) (self_day - 1) 0 0 self_day 2 None "c")
    10 f (self_day - 5) = Ok tt ∧
  (register_self String.eqb toy_jalali (λ _, "زرد"%string) groups approvals (Some 10) "c" f (self_day - 5) (self_db 0)).1
    = Err OtherError.
Proof. split; vm_compute; reflexivity. Qed.
