(* ===== verification/ScheduleService.v ===== *)
(** [competitions/services/schedule_service.py]: the numbers it computes for each mat,
    and the write that cannot succeed because the columns it names are not columns of
    [Match].  The rows built for printing come after that write and are not modelled. *)

From Stdlib Require Import SpecFloat.
From S2P Require Import Prelude Store Ranking.
Local Open Scope Z_scope.

Section schedule.
Context {P : Type}.
Implicit Types d : DB P.

(** A weight belongs to the mat of the last assignment that lists it. *)
Definition weight_to_mat (d : DB P) (competition_id : Z) : gmap Z Z :=
  foldl (λ mapping ma,
    if ma_competition ma =? competition_id
    then foldl (λ m w, <[w := ma_mat_number ma]> m) mapping (ma_weights ma) else mapping)
    ∅ (db_mat_assignments d).

(** The matches that are no byes, by round and slot, with the mat and the weight of
    their draw. *)
Record item := mkItem {
  it_match : Z;
  it_round_no : Z;
  it_slot_a : Z;
  it_min_weight : spec_float;
}.

Definition real_matches (d : DB P) (competition_id : Z) : list (Z * Match) :=
  sort_by (λ a b, lex_leb [mt_round_no a.2; mt_slot_a a.2] [mt_round_no b.2; mt_slot_a b.2])
    (List.filter (λ km, negb (mt_is_bye km.2) &&
        match db_draws d !! mt_draw km.2 with Some dr => dr_competition dr =? competition_id | None => false end)
      (rows_by_id (db_matches d))).

Definition scheduled_items (d : DB P) (competition_id : Z) : list (Z * item) :=
  omap (λ km : Z * Match,
    dr ← db_draws d !! mt_draw km.2;
    mat ← weight_to_mat d competition_id !! dr_weight_category dr;
    wc ← db_weights d !! dr_weight_category dr;
    Some (mat, mkItem km.1 (mt_round_no km.2) (mt_slot_a km.2) (wc_min_weight wc)))
  (real_matches d competition_id).

(** The order within a mat: round, then weight, then slot. *)
Definition item_leb (a b : item) : bool :=
  (it_round_no a <? it_round_no b) || (it_round_no a =? it_round_no b) &&
  (SFltb (it_min_weight a) (it_min_weight b) ||
   SFeqb (it_min_weight a) (it_min_weight b) && (it_slot_a a <=? it_slot_a b)).

(** [per_mat], its keys in order of first use, and the number of each match. *)
Definition per_mat (d : DB P) (competition_id : Z) : list (Z * list item) :=
  let items := scheduled_items d competition_id in
  (λ mat, (mat, sort_by item_leb (snd <$> List.filter (λ mi, mi.1 =? mat) items)))
    <$> reverse (remove_dups (reverse items.*1)).

Definition numbered (items : list item) : list (Z * Z) :=
  zip (it_match <$> items) (py_range 1 (zlen items + 1)).

Definition updated (d : DB P) (competition_id : Z) : list (Z * Z * Z) :=
  per_mat d competition_id ≫= λ mi, (λ ko, (ko.1, mi.1, ko.2)) <$> numbered mi.2.

(** [number_matches_for_competition]: [update(mat_number=.., order_on_mat=..)] and
    [bulk_update] raise on the unknown columns. *)
Definition schedule_competition (competition_id : Z) (reset_old : bool) : M (DB P) (list (Z * Z * Z)) :=
  atomic (
    _ <~ fetch db_competitions competition_id ;;
    d <~ get ;;
    if reset_old then raise OtherError
    else if negb (bool_decide (length (updated d competition_id) = 0%nat)) then raise OtherError
    else ret [])%monad.
End schedule.

(** The matches of one mat are numbered from 1 on without a gap. *)
Lemma numbered_consecutive l : (numbered l).*2 = py_range 1 (zlen l + 1).
Proof.
  unfold numbered. apply snd_zip. rewrite length_fmap, length_py_range. unfold zlen. lia.
Qed.

(** The schedule service never stores a schedule: it fails on every competition
    that has a match to number, and on all of them with the default argument; it
    returns normally, with nothing, only when there is nothing to number. *)
Theorem schedule_never_written {P} (d : DB P) competition_id reset_old :
  let r := schedule_competition competition_id reset_old d in
  r.2 = d ∧
  (r.1 = Ok [] ↔ reset_old = false ∧ is_Some (db_competitions d !! competition_id) ∧ updated d competition_id = []) ∧
  (∀ s, r.1 = Ok s → s = []).
Proof.
  cbn zeta. unfold schedule_competition, atomic, fetch, bind, get.
  destruct (db_competitions d !! competition_id) as [comp|]; cbn.
  2: { split; [done|]. split; [|done]. split; [done|]. intros (_ & [] & _). done. }
  destruct reset_old; [split_and!; [done|split; [done|by intros []]|done]|].
  destruct (updated d competition_id) as [|x l] eqn:E; cbn.
  - split; [done|]. split; [by eauto|]. by intros s [= <-].
  - split; [done|]. split; [split; [done|by intros (_ & _ & ?)]|done].
Qed.
