(* ===== verification/PublicIds.v ===== *)
(** Public identifiers: the retry loops of [KyorugiCompetition.save],
    [PoomsaeCompetition.save] and [Seminar.save] of [competitions/models.py].

    A table is the public id of each row; [secrets.choice] is a stream of generated
    texts.  A save can violate the unique public id, which is retried, or another
    constraint, which is not. *)

From S2P Require Import Prelude.
Local Open Scope Z_scope.

(** [_gen_public_id] and [_gen_seminar_public_id]: one character of the alphabet per
    drawn index. *)
Definition alphabet : string := "abcdefghijklmnopqrstuvwxyz0123456789".
Definition _gen_public_id (choices : list nat) : string :=
  String.concat "" ((λ i, String.substring i 1 alphabet) <$> choices).

Inductive violation := PublicIdTaken | OtherViolation.

Section saving.
Context (gen : nat → string) (pk : Z) (valid : bool).
Implicit Types t : gmap Z string.

(** [filter(public_id=pid).exists()], among the rows other than [pk]. *)
Definition taken t (pid : string) : bool :=
  existsb (λ kp, negb (kp.1 =? pk) && String.eqb kp.2 pid) (map_to_list t).

(** [super().save]; [valid] says whether the other constraints hold. *)
Definition super_save t (pid : string) : violation + gmap Z string :=
  if negb valid then inl OtherViolation
  else if taken t pid then inl PublicIdTaken else inr (<[pk := pid]> t).

(** The loop of the two competition models: [n] ids have been generated so far. *)
Fixpoint save_loop (attempts n : nat) t (pid : string) : result (gmap Z string) :=
  match attempts with
  | O => Err IntegrityError
  | S attempts' =>
      let '(pid, n) := if truthy_str pid then (pid, n) else (gen n, S n) in
      match super_save t pid with
      | inr t' => Ok t'
      | inl PublicIdTaken => save_loop attempts' (S n) t (gen n)
      | inl OtherViolation => Err IntegrityError
      end
  end.

Definition kyorugi_competition_save t (pid : string) : result (gmap Z string) := save_loop 5 0 t pid.
Definition poomsae_competition_save t (pid : string) : result (gmap Z string) := save_loop 4 0 t pid.

(** [_unique_public_id_for_model]: up to [attempts] ids are looked up, then one is
    taken unseen; the count of generated ids is returned too.  Here the query
    includes the row being saved. *)
Definition exists_id t (pid : string) : bool := existsb (λ kp, String.eqb kp.2 pid) (map_to_list t).

Fixpoint _unique_public_id_for_model (attempts n : nat) t : string * nat :=
  match attempts with
  | O => (gen n, S n)
  | S attempts' => if exists_id t (gen n) then _unique_public_id_for_model attempts' (S n) t else (gen n, S n)
  end.

(** [Seminar.save]: three tries, of which the last raises. *)
Fixpoint seminar_loop (tries n : nat) t (pid : string) : result (gmap Z string) :=
  match super_save t pid, tries with
  | inr t', _ => Ok t'
  | inl PublicIdTaken, S tries' =>
      let '(pid', n') := _unique_public_id_for_model 6 n t in seminar_loop tries' n' t pid'
  | inl _, _ => Err IntegrityError
  end.

Definition seminar_save t (pid : string) : result (gmap Z string) :=
  let '(pid, n) := if truthy_str pid then (pid, 0%nat) else _unique_public_id_for_model 6 0 t in
  seminar_loop 2 n t pid.

(** ** Correctness *)

Definition ids_unique t : Prop := ∀ i j s, t !! i = Some s → t !! j = Some s → i = j.

Lemma super_save_ok t pid t' : super_save t pid = inr t' →
  valid = true ∧ taken t pid = false ∧ t' = <[pk := pid]> t.
Proof.
  unfold super_save. destruct valid; [|done]. cbn. destruct (taken t pid); [done|]. by intros [= <-].
Qed.

Lemma super_save_unique t pid t' : ids_unique t → super_save t pid = inr t' → ids_unique t'.
Proof.
  intros Hu (_ & Hf & ->)%super_save_ok i j s.
  assert (Hfree : ∀ k, t !! k = Some pid → k = pk).
  { intros k Hk. destruct (decide (k = pk)) as [|Hne]; [done|]. exfalso. revert Hf. apply not_false_iff_true, existsb_exists.
    exists (k, pid). split; [by apply list_elem_of_In, elem_of_map_to_list|]. cbn.
    apply Z.eqb_neq in Hne as ->. by rewrite String.eqb_refl. }
  intros [[<- <-]|[Hi Hs]]%lookup_insert_Some [[<- E]|[Hj Hs']]%lookup_insert_Some; try done.
  - symmetry. by apply Hfree.
  - subst. by apply Hfree.
  - by apply (Hu i j s).
Qed.

Lemma save_loop_saves attempts : ∀ n t pid t', save_loop attempts n t pid = Ok t' →
  ∃ pid', super_save t pid' = inr t'.
Proof.
  induction attempts as [|a IH]; intros n t pid t'; [done|]. cbn.
  destruct (if truthy_str pid then (pid, n) else (gen n, S n)) as [pid0 n0].
  destruct (super_save t pid0) as [[]|t0] eqn:E; [apply IH|done|]. intros [= <-]. by exists pid0.
Qed.

Lemma seminar_loop_saves tries : ∀ n t pid t', seminar_loop tries n t pid = Ok t' →
  ∃ pid', super_save t pid' = inr t'.
Proof.
  induction tries as [|a IH]; intros n t pid t'; cbn [seminar_loop]; destruct (super_save t pid) as [[]|t0] eqn:E; try done.
  - intros [= <-]. by exists pid.
  - destruct (_unique_public_id_for_model 6 n t). apply IH.
  - intros [= <-]. by exists pid.
Qed.

(** Saving a competition or a seminar never gives two rows one public id. *)
Theorem public_ids_stay_unique t pid t' : ids_unique t →
  kyorugi_competition_save t pid = Ok t' ∨ poomsae_competition_save t pid = Ok t' ∨ seminar_save t pid = Ok t' →
  ids_unique t'.
Proof.
  intros Hu Hs. assert (∃ pid', super_save t pid' = inr t') as (pid' & Hp); [|by eapply super_save_unique].
  destruct Hs as [Hs|[Hs|Hs]]; [by eapply save_loop_saves..|]. unfold seminar_save in Hs.
  destruct (if truthy_str pid then _ else _). by eapply seminar_loop_saves.
Qed.

(** The ids a save of a competition tries, in order. *)
Definition candidates (attempts : nat) (pid : string) : list string :=
  if truthy_str pid then take attempts (pid :: (gen <$> seq 0 (attempts - 1))) else gen <$> seq 0 attempts.

Lemma save_loop_first attempts : ∀ n t pid, valid = true → truthy_str pid = true →
  (∀ k, truthy_str (gen k) = true) →
  save_loop attempts n t pid =
  match List.find (λ p, negb (taken t p)) (take attempts (pid :: (gen <$> seq n (attempts - 1)))) with
  | Some p => Ok (<[pk := p]> t)
  | None => Err IntegrityError
  end.
Proof.
  induction attempts as [|a IH]; intros n t pid Hv Hp Hg; [done|]. cbn [save_loop take List.find].
  rewrite Hp. unfold super_save. rewrite Hv. cbn [negb].
  destruct (taken t pid); cbn [negb]; [|done].
  rewrite IH by done. replace (S a - 1)%nat with a by lia. destruct a as [|a]; [done|].
  by replace (S a - 1)%nat with a by lia.
Qed.

(** The retry loop of the competitions ends: it stores the first of its candidates
    (the id given, then generated ones; five for kyorugi, four for poomsae) that no
    other row has, and raises [IntegrityError] when all are taken. *)
Theorem save_loop_takes_first_free attempts t pid : valid = true → (∀ k, truthy_str (gen k) = true) →
  save_loop attempts 0 t pid =
  match List.find (λ p, negb (taken t p)) (candidates attempts pid) with
  | Some p => Ok (<[pk := p]> t)
  | None => Err IntegrityError
  end.
Proof.
  intros Hv Hg. unfold candidates. destruct (truthy_str pid) eqn:Hp; [by apply save_loop_first|].
  destruct attempts as [|a]; [done|]. transitivity (save_loop (S a) 1 t (gen 0)).
  - cbn [save_loop]. by rewrite Hp, (Hg 0%nat).
  - rewrite save_loop_first by done. replace (S a - 1)%nat with a by lia. cbn [seq fmap list_fmap].
    by rewrite take_ge by (cbn; rewrite length_fmap, length_seq; lia).
Qed.
End saving.

(** ** Witnesses *)

Definition some_ids : gmap Z string := {[ 1 := "aaa"; 2 := "bbb" ]}%string.
Definition some_gen (n : nat) : string := match n with O => "aaa" | 1%nat => "bbb" | _ => "ccc" end%string.

Lemma some_ids_unique : ids_unique some_ids.
Proof.
  intros i j s Hi Hj. unfold some_ids in Hi, Hj.
  apply lookup_insert_Some in Hi as [[<- <-]|[_ Hi]]; apply lookup_insert_Some in Hj as [[<- E]|[_ Hj]]; try done;
    try apply lookup_singleton_Some in Hi as [<- <-]; try apply lookup_singleton_Some in Hj as [<- E]; done.
Qed.

Lemma public_ids_stay_unique_witness : ids_unique (<[3 := "ccc"%string]> some_ids).
Proof.
  apply (public_ids_stay_unique some_gen 3 true some_ids "").
  - exact some_ids_unique.
  - left. vm_compute. reflexivity.
Defined.

Lemma save_loop_takes_first_free_witness :
  kyorugi_competition_save some_gen 3 true some_ids "aaa" = Ok (<[3 := "ccc"%string]> some_ids).
Proof.
  refine (eq_trans (save_loop_takes_first_free some_gen 3 true 5 some_ids "aaa" eq_refl _) _).
  - by intros [|[|k]].
  - vm_compute. reflexivity.
Defined.
