(* ===== verification/Seminars.v ===== *)
(** Seminars: [Seminar] and [SeminarRegistration] of [competitions/models.py], the
    registration view of [competitions/views.py] and [SeminarRegistrationSerializer] of
    [competitions/serializers.py].

    The public ids of the seminars and the phones of the profiles are arguments. *)

From Stdlib Require Import Ascii.
From S2P Require Import Prelude Store Ranking Payments GroupRegistration Text.
Local Open Scope Z_scope.

(** ** The models *)

Definition ROLE_VALUES : list string := ["player"; "coach"; "referee"].

(** [Seminar.clean] *)
Definition seminar_clean (s : Seminar) : result unit :=
  if se_registration_end s <? se_registration_start s then Err ValidationError
  else if se_event_date s <? se_registration_end s then Err ValidationError
  else if negb (forallb (λ r, bool_decide (r ∈ ROLE_VALUES)) (se_allowed_roles s)) then Err ValidationError
  else Ok tt.

(** The check constraints of the table. *)
Definition seminar_constraints (s : Seminar) : bool :=
  (se_registration_start s <=? se_registration_end s) && (se_registration_end s <=? se_event_date s).

Definition can_register_role (s : Seminar) (role : option string) : bool :=
  bool_decide (length (se_allowed_roles s) = 0%nat)
  || truthy_str (opt_str role) && bool_decide (opt_str role ∈ se_allowed_roles s).

Definition registration_open (s : Seminar) (today : Z) : bool :=
  (se_registration_start s <=? today) && (today <=? se_registration_end s).

(** [SeminarRegistration.clean] *)
Definition registration_clean (r : SeminarRegistration) : result unit :=
  if negb (forallb (λ x, bool_decide (x ∈ ROLE_VALUES)) (sr_roles r)) then Err ValidationError
  else if bool_decide (length (sr_roles r) = 0%nat) then Err ValidationError
  else Ok tt.

(** [role_ok] of [sidebar_seminars], and the filter of [SeminarListView]. *)
Definition role_ok (role : string) (s : Seminar) : bool :=
  bool_decide (length (se_allowed_roles s) = 0%nat)
  || if String.eqb role "both"
     then bool_decide ("coach"%string ∈ se_allowed_roles s) || bool_decide ("referee"%string ∈ se_allowed_roles s)
     else bool_decide (role ∈ se_allowed_roles s).

Definition listed_for (role : string) (s : Seminar) : bool :=
  if truthy_str role && negb (bool_decide (role ∈ ["club"; "heyat"])%string) then
    bool_decide (length (se_allowed_roles s) = 0%nat)
    || if String.eqb role "both"
       then existsb (λ r, bool_decide (r ∈ se_allowed_roles s)) ["coach"; "referee"]%string
       else bool_decide (role ∈ se_allowed_roles s)
  else true.

(** [_normalize_iran_mobile] *)
Fixpoint only_digits (s : string) : string :=
  match s with
  | EmptyString => EmptyString
  | String c s' => if is_digit c then String c (only_digits s') else only_digits s'
  end.

Definition local_mobile (digits : string) : string :=
  let d := if String.prefix "0098" digits then drop 4 digits
           else if String.prefix "98" digits then drop 2 digits
           else if String.prefix "+98" digits then drop 3 digits else digits in
  if (String.length d =? 10)%nat && String.prefix "9" d then ("0" ++ d)%string else d.

Definition _normalize_iran_mobile (s : string) : string :=
  if negb (truthy_str s) then s
  else
    local_mobile (only_digits s).

Section registering.
Context {P : Type}.
Local Abbreviation db := (DB P).

(** The registration of [user] for [seminar], and inserting a new one. *)
Definition registration_of (d : db) (seminar user : Z) : option Z :=
  fst <$> head (List.filter (λ kr, (sr_seminar kr.2 =? seminar) && (sr_user kr.2 =? user))
                  (rows_by_id (db_seminar_regs d))).

Definition new_registration (seminar user : Z) (roles : list string) (phone note : string) : SeminarRegistration :=
  mkSeminarRegistration seminar user roles phone note false 0 "" None None 0 0 false.

Definition insert_registration (r : SeminarRegistration) : M db Z :=
  (k <~ fresh_id ;;
   _ <~ modify (λ d, set_db_seminar_regs (<[k := r]> (db_seminar_regs d)) d) ;;
   ret k)%monad.

Inductive seminar_response :=
  | SmRoleRefused
  | SmOk (created : bool) (registration : Z).

(** [SeminarRegisterView.post] *)
Definition register_seminar (public_id : Z → string) (user : Z) (key : string) (roles : list string)
    : M db seminar_response :=
  (d <~ get ;;
   ks <~ of_option (head (List.filter (λ ks, String.eqb (public_id ks.1) key) (rows_by_id (db_seminars d)))) Http404 ;;
   let '(seminar, s) := ks in
   if negb (bool_decide (length (se_allowed_roles s) = 0%nat))
      && negb (existsb (λ r, bool_decide (r ∈ se_allowed_roles s)) roles)
   then ret SmRoleRefused
   else
     match registration_of d seminar user with
     | Some k => ret (SmOk false k)
     | None => k <~ insert_registration (new_registration seminar user roles "" "") ;; ret (SmOk true k)
     end)%monad.

(** [SeminarRegistrationSerializer.validate]; [phone] is the number of the request, else
    that of the profile. *)
Definition validate_seminar (d : db) (seminar user : Z) (roles : list string) (phone : string) (today : Z)
    : result string :=
  match db_seminars d !! seminar with
  | None => Err ValidationError
  | Some s =>
      if negb (registration_open s today) then Err ValidationError
      else if negb (bool_decide (length (se_allowed_roles s) = 0%nat))
              && (bool_decide (length roles = 0%nat)
                  || negb (forallb (λ r, bool_decide (r ∈ se_allowed_roles s)) roles)) then Err ValidationError
      else
        let phone := _normalize_iran_mobile phone in
        if negb (truthy_str phone) then Err ValidationError
        else if negb ((String.length phone =? 11)%nat && String.prefix "09" phone) then Err ValidationError
        else if negb (is_none (registration_of d seminar user)) then Err ValidationError
        else Ok phone
  end.

(** [SeminarRegistrationSerializer.create]: the row is stored before the guard on the
    fee, and paid whatever the fee. *)
Definition create_seminar_registration (seminar user : Z) (roles : list string) (phone note : string)
    (today now : Z) : M db Z :=
  (d <~ get ;;
   phone <~ lift (validate_seminar d seminar user roles phone today) ;;
   s <~ fetch db_seminars seminar ;;
   k <~ insert_registration (new_registration seminar user roles phone note) ;;
   raise_if ((0 <? se_fee s) && (se_fee s <? 10000)) ValidationError ;;
   _ <~ seminar_mark_paid k (se_fee s) "" now ;;
   ret k)%monad.
End registering.

(** ** Correctness *)

Lemma only_digits_id s : all_digits s = true → only_digits s = s.
Proof.
  induction s as [|c s IH]; [done|]. cbn. intros [Hc Hs]%andb_true_iff. unfold is_digit. by rewrite Hc, IH.
Qed.

(** Written as +98, 0098, 98 or 0 followed by the ten digits of a mobile number,
    or as the ten digits alone unless these start with 98, a phone is normalised to
    the same eleven digits, which normalising leaves alone. *)
Theorem mobile_forms_agree tail : all_digits tail = true → String.length tail = 9%nat →
  let ten := String "9" tail in
  let eleven := String "0" ten in
  _normalize_iran_mobile ("+98" ++ ten) = eleven ∧ _normalize_iran_mobile ("0098" ++ ten) = eleven ∧
  _normalize_iran_mobile ("98" ++ ten) = eleven ∧ _normalize_iran_mobile eleven = eleven ∧
  (String.prefix "8" tail = false → _normalize_iran_mobile ten = eleven).
Proof.
  intros Hd Hl. cbn zeta. pose proof (only_digits_id tail Hd) as Ho.
  change (_normalize_iran_mobile ("+98" ++ String "9" tail))
    with (local_mobile (String "9" (String "8" (String "9" (only_digits tail))))).
  change (_normalize_iran_mobile ("0098" ++ String "9" tail))
    with (local_mobile (String "0" (String "0" (String "9" (String "8" (String "9" (only_digits tail))))))).
  change (_normalize_iran_mobile ("98" ++ String "9" tail))
    with (local_mobile (String "9" (String "8" (String "9" (only_digits tail))))).
  change (_normalize_iran_mobile (String "0" (String "9" tail)))
    with (local_mobile (String "0" (String "9" (only_digits tail)))).
  change (_normalize_iran_mobile (String "9" tail)) with (local_mobile (String "9" (only_digits tail))).
  rewrite Ho. clear Ho Hd. do 9 (destruct tail as [|? tail]; [done|]). destruct tail; [|done].
  split_and!; [reflexivity..|]. intros H8. unfold local_mobile. cbn [String.prefix] in *.
  change (Ascii.ascii_dec "9" "9") with (@left ("9"%char = "9"%char) ("9"%char ≠ "9"%char) eq_refl).
  destruct (Ascii.ascii_dec "8" a); [done|]. reflexivity.
Qed.

Section registration_correctness.
Context {P : Type}.
Implicit Types d : DB P.

Definition reg_keys_below d : Prop := ∀ k r, db_seminar_regs d !! k = Some r → k < db_next_id d.

Lemma registration_of_some d seminar user k : registration_of d seminar user = Some k →
  ∃ r, db_seminar_regs d !! k = Some r ∧ sr_seminar r = seminar ∧ sr_user r = user.
Proof.
  unfold registration_of. destruct (List.filter _ _) as [|[k' r] l] eqn:Ef; [done|]. intros [= ->].
  assert (Hin : (k, r) ∈ (k, r) :: l) by left. rewrite <- Ef in Hin.
  apply elem_of_filter_list in Hin as [Hin Hb]. rewrite elem_of_rows_by_id in Hin. cbn in Hb.
  rewrite andb_true_iff, !Z.eqb_eq in Hb. by exists r.
Qed.

Lemma registration_of_none d seminar user k r : registration_of d seminar user = None →
  db_seminar_regs d !! k = Some r → sr_seminar r = seminar → sr_user r ≠ user.
Proof.
  unfold registration_of. intros Hn Hk Hs Hu.
  assert (Hin : (k, r) ∈ List.filter (λ kr : Z * SeminarRegistration, (sr_seminar kr.2 =? seminar) && (sr_user kr.2 =? user))
                  (rows_by_id (db_seminar_regs d))).
  { apply elem_of_filter_list. split; [by apply elem_of_rows_by_id|]. cbn. by rewrite Hs, Hu, !Z.eqb_refl. }
  destruct (List.filter _ _); [by apply not_elem_of_nil in Hin|done].
Qed.

Lemma registration_of_new d seminar user r : registration_of d seminar user = None →
  reg_keys_below d → sr_seminar r = seminar → sr_user r = user →
  registration_of (set_db_seminar_regs (<[db_next_id d := r]> (db_seminar_regs d)) d) seminar user = Some (db_next_id d).
Proof.
  intros Hn Hb Hs Hu. destruct (registration_of (set_db_seminar_regs _ d) seminar user) as [k|] eqn:E.
  - apply registration_of_some in E as (r' & Hk & Hs' & Hu'). cbn in Hk.
    apply lookup_insert_Some in Hk as [[<- _]|[Hne Hk]]; [done|].
    by destruct (registration_of_none d seminar user k r' Hn Hk Hs').
  - exfalso. apply (registration_of_none _ seminar user (db_next_id d) r E); [|done|done].
    apply lookup_insert_eq.
Qed.

(** Registering for a seminar is idempotent: it leaves the database as it was or
    adds one unpaid registration of the user for a seminar that admits one of the
    roles given, and the same request sent again finds that registration and changes
    nothing. *)
Theorem seminar_registration_once public_id user key roles d : reg_keys_below d →
  match register_seminar public_id user key roles d with
  | (Ok (SmOk created k), d') => ∃ seminar s r,
      db_seminars d !! seminar = Some s ∧ public_id seminar = key ∧
      (se_allowed_roles s = [] ∨ ∃ x, x ∈ roles ∧ x ∈ se_allowed_roles s) ∧
      db_seminar_regs d' !! k = Some r ∧ sr_seminar r = seminar ∧ sr_user r = user ∧
      (if created then registration_of d seminar user = None ∧ sr_is_paid r = false ∧
                       db_seminar_regs d' = <[k := r]> (db_seminar_regs d)
       else d' = d) ∧
      register_seminar public_id user key roles d' = (Ok (SmOk false k), d')
  | (_, d') => d' = d
  end.
Proof.
  intros Hkeys. unfold register_seminar, bind at 1, get.
  destruct (head (List.filter _ (rows_by_id (db_seminars d)))) as [[seminar s]|] eqn:Eh; [|done].
  assert (Hs : db_seminars d !! seminar = Some s ∧ public_id seminar = key).
  { destruct (List.filter _ (rows_by_id (db_seminars d))) as [|y l] eqn:Ef; [done|]. injection Eh as ->.
    assert (Hin : (seminar, s) ∈ (seminar, s) :: l) by left. rewrite <- Ef in Hin.
    apply elem_of_filter_list in Hin as [Hin Hb]. rewrite elem_of_rows_by_id in Hin. by apply String.eqb_eq in Hb. }
  cbn [of_option]. unfold bind at 1, ret at 1. cbn beta iota.
  destruct (negb (bool_decide _) && negb (existsb _ roles)) eqn:Er; [done|].
  assert (Hroles : se_allowed_roles s = [] ∨ ∃ x, x ∈ roles ∧ x ∈ se_allowed_roles s).
  { apply andb_false_iff in Er as [Er|Er]; apply negb_false_iff in Er.
    - apply bool_decide_eq_true in Er. left. by destruct (se_allowed_roles s).
    - right. apply existsb_exists in Er as (x & Hx & Hb). apply bool_decide_eq_true in Hb.
      exists x. split; [by apply list_elem_of_In|done]. }
  destruct (registration_of d seminar user) as [k|] eqn:Ereg.
  - apply registration_of_some in Ereg as Hr. destruct Hr as (r & Hk & Hrs & Hru).
    exists seminar, s, r. destruct Hs. split_and!; try done.
    unfold bind at 1, get. rewrite Eh. cbn. by rewrite Er, Ereg.
  - set (r := new_registration seminar user roles "" "").
    pose proof (registration_of_new d seminar user r Ereg Hkeys eq_refl eq_refl) as Hnew.
    exists seminar, s, r. destruct Hs. split_and!; try done; [apply lookup_insert_eq|].
    unfold bind at 1, get. cbn [insert_registration]. cbn. rewrite Eh. cbn. rewrite Er.
    unfold registration_of in Hnew |- *. cbn in Hnew |- *. by rewrite Hnew.
Qed.

(** The registration view looks neither at the registration period nor at the
    fee: after the deadline of a seminar that is not free it still registers a user
    with an admitted role, without payment, where the serializer's rules refuse. *)
Theorem seminar_view_accepts_late public_id user key roles phone today d seminar s :
  head (List.filter (λ ks, String.eqb (public_id ks.1) key) (rows_by_id (db_seminars d))) = Some (seminar, s) →
  db_seminars d !! seminar = Some s → se_registration_end s < today →
  (∃ x, x ∈ roles ∧ x ∈ se_allowed_roles s) → registration_of d seminar user = None →
  validate_seminar d seminar user roles phone today = Err ValidationError ∧
  ∃ d', register_seminar public_id user key roles d = (Ok (SmOk true (db_next_id d)), d') ∧
    db_seminar_regs d' = <[db_next_id d := new_registration seminar user roles "" ""]> (db_seminar_regs d).
Proof.
  intros Hh Hs Hlate (x & Hx & Ha) Hn. split.
  - unfold validate_seminar. rewrite Hs. unfold registration_open.
    apply Z.leb_gt in Hlate. by rewrite Hlate, andb_false_r.
  - unfold register_seminar, bind at 1, get. rewrite Hh. cbn [of_option]. unfold bind at 1, ret at 1. cbn beta iota.
    assert (Hr : existsb (λ r, bool_decide (r ∈ se_allowed_roles s)) roles = true).
    { apply existsb_exists. exists x. split; [by apply list_elem_of_In|by apply bool_decide_eq_true]. }
    rewrite Hr, andb_false_r, Hn. by eexists.
Qed.

(** What the serializer lets through, which no route of the program uses. *)
Lemma serializer_registration seminar user roles phone note today now d k d' :
  create_seminar_registration seminar user roles phone note today now d = (Ok k, d') →
  ∃ s r, db_seminars d !! seminar = Some s ∧ registration_open s today = true ∧
    (se_allowed_roles s = [] ∨ roles ≠ [] ∧ ∀ x, x ∈ roles → x ∈ se_allowed_roles s) ∧
    registration_of d seminar user = None ∧ db_seminar_regs d' !! k = Some r ∧ sr_seminar r = seminar ∧
    sr_user r = user ∧ sr_is_paid r = true ∧ sr_paid_amount r = se_fee s ∧ (se_fee s ≤ 0 ∨ 10000 ≤ se_fee s).
Proof.
  unfold create_seminar_registration. intros (d0 & d1 & [= <- <-] & H1)%bind_ok.
  apply bind_ok in H1 as (ph & d1 & [= Hv <-] & H1). apply bind_ok in H1 as (s & d1 & Hf & H1).
  unfold fetch, bind, get in Hf. destruct (db_seminars d !! seminar) as [s0|] eqn:Es; [|done]. injection Hf as -> <-.
  unfold validate_seminar in Hv. rewrite Es in Hv.
  destruct (registration_open s today) eqn:Eo; [|done]. cbn [negb] in Hv.
  destruct (negb (bool_decide (length (se_allowed_roles s) = 0%nat)) && _) eqn:Er; [done|].
  destruct (negb (truthy_str _)); [done|]. destruct (negb (_ && _)); [done|].
  destruct (registration_of d seminar user) eqn:Ereg; [done|].
  apply bind_ok in H1 as (k1 & d2 & Hi & H1). injection Hi as <- <-.
  destruct ((0 <? se_fee s) && (se_fee s <? 10000)) eqn:Efee; [done|].
  apply bind_ok in H1 as ([] & d3 & Hm & [= <- <-]).
  unfold seminar_mark_paid, fetch, bind, get in Hm. cbn in Hm. rewrite lookup_insert_eq in Hm. cbn in Hm.
  injection Hm as <-. exists s. eexists. split; [done|]. split; [done|]. split.
  - apply andb_false_iff in Er as [Er|Er]; [left|right].
    + apply negb_false_iff, bool_decide_eq_true in Er. by destruct (se_allowed_roles s).
    + apply orb_false_iff in Er as [Er Ef]. apply bool_decide_eq_false in Er. apply negb_false_iff in Ef.
      split; [by intros ->|]. intros x Hx. rewrite forallb_forall in Ef.
      specialize (Ef x (proj1 (list_elem_of_In _ _) Hx)). by apply bool_decide_eq_true in Ef.
  - split; [done|]. split; [cbn; apply lookup_insert_eq|]. cbn. split_and!; try done.
    apply andb_false_iff in Efee as [E|E]; [left|right]; by apply Z.ltb_ge in E.
Qed.
End registration_correctness.

(** ** Witnesses *)

Definition coach_seminar : Seminar := mkSeminar "referees" 10 20 30 500000 ["coach"].
Definition seminar_db : DB Z := set_db_seminars {[ 4 := coach_seminar ]} (empty_db 50).

Lemma seminar_reg_keys : reg_keys_below seminar_db.
Proof. intros k r Hk. change ((∅ : gmap Z SeminarRegistration) !! k = Some r) in Hk. by rewrite lookup_empty in Hk. Qed.

Lemma seminar_registration_once_witness :
  match register_seminar (λ _, "s"%string) 9 "s" ["coach"; "king"]%string seminar_db with
  | (Ok (SmOk created k), d') =>
      register_seminar (λ _, "s"%string) 9 "s" ["coach"; "king"]%string d' = (Ok (SmOk false k), d')
  | _ => False
  end.
Proof.
  pose proof (seminar_registration_once (λ _, "s"%string) 9 "s" ["coach"; "king"]%string seminar_db seminar_reg_keys) as H.
  destruct (register_seminar _ _ _ _ _) as [[[|created k]|e] d'] eqn:E; [vm_compute in E; discriminate E| |vm_compute in E; discriminate E].
  destruct H as (? & ? & ? & _ & _ & _ & _ & _ & _ & _ & H). exact H.
Defined.

Lemma seminar_view_accepts_late_witness : ∃ d',
  register_seminar (λ _, "s"%string) 9 "s" ["coach"]%string seminar_db = (Ok (SmOk true 50), d').
Proof.
  destruct (seminar_view_accepts_late (λ _, "s"%string) 9 "s" ["coach"]%string "" 25 seminar_db 4 coach_seminar)
    as (_ & d' & H & _).
  - vm_compute. reflexivity.
  - reflexivity.
  - reflexivity.
  - exists "coach"%string. split; left.
  - vm_compute. reflexivity.
  - exists d'. exact H.
Defined.

Example mobile_forms : (_normalize_iran_mobile <$> ["+98 912-345-6789"; "00989123456789"; "9123456789"; "09123456789"]%string)
  = replicate 4 "09123456789"%string.
Proof. vm_compute. reflexivity. Qed.
