(* ===== verification/Accounts.v ===== *)
(** User accounts ([src/accounts/models.py]): the tables of logins, profiles, clubs and
    requests, and the text functions of [views.py], [serializers.py], [admin.py] and
    [utils/sms_utils.py] that normalise phone numbers and national codes.

    A text is UTF-8; [str.isdigit], [len] and the class [\d] work on its characters.  The
    equality of the database is that of its collation, an argument of the handlers:
    [collate] maps a text to its sort key. *)

From Stdlib Require Import Ascii.
From S2P Require Import Prelude Store Ranking Payments GroupRegistration Text.
Local Open Scope Z_scope.

(** ** Characters *)

Definition is_continuation (c : ascii) : bool :=
  let n := nat_of_ascii c in ((128 <=? n) && (n <? 192))%nat.

(** The characters of a UTF-8 text, each with its bytes. *)
Fixpoint chars (s : string) : list string :=
  match s with
  | EmptyString => []
  | String c s' =>
      match chars s' with
      | String k x :: l => if is_continuation k then String c (String k x) :: l
                           else String c "" :: String k x :: l
      | l => String c "" :: l
      end
  end.

Definition py_len (s : string) : Z := zlen (chars s).

(** The code point of one character. *)
Fixpoint continuation_bits (acc : Z) (s : string) : Z :=
  match s with
  | EmptyString => acc
  | String c s' => continuation_bits (acc * 64 + Z.of_nat (nat_of_ascii c) mod 64) s'
  end.

Definition code_point (s : string) : Z :=
  match s with
  | EmptyString => 0
  | String c s' =>
      let n := Z.of_nat (nat_of_ascii c) in
      continuation_bits (if n <? 128 then n else if n <? 224 then n mod 32
                         else if n <? 240 then n mod 16 else n mod 8) s'
  end.

(** The code points of the zeros of the decimal digits ([str.isdecimal], Unicode 14),
    and the other characters with [str.isdigit]. *)
Definition decimal_zeros : list Z :=
  [48; 1632; 1776; 1984; 2406; 2534; 2662; 2790; 2918; 3046; 3174; 3302; 3430; 3558; 3664; 3792;
   3872; 4160; 4240; 6112; 6160; 6470; 6608; 6784; 6800; 6992; 7088; 7232; 7248; 42528; 43216;
   43264; 43472; 43504; 43600; 44016; 65296; 66720; 68912; 69734; 69872; 69942; 70096; 70384; 70736;
   70864; 71248; 71360; 71472; 71904; 72016; 72784; 73040; 73120; 92768; 92864; 93008; 120782;
   120792; 120802; 120812; 120822; 123200; 123632; 125264; 130032].

Definition other_digits : list (Z * Z) :=
  [(178, 179); (185, 185); (4969, 4977); (6618, 6618); (8304, 8304); (8308, 8313); (8320, 8329);
   (9312, 9320); (9332, 9340); (9352, 9360); (9450, 9450); (9461, 9469); (9471, 9471);
   (10102, 10110); (10112, 10120); (10122, 10130); (68160, 68163); (69216, 69224); (69714, 69722);
   (127232, 127242)].

Definition is_decimal (c : Z) : bool := existsb (λ z, (z <=? c) && (c <=? z + 9)) decimal_zeros.
Definition is_digit_char (c : Z) : bool :=
  is_decimal c || existsb (λ r, (r.1 <=? c) && (c <=? r.2)) other_digits.

(** [s.isdigit()] *)
Definition isdigit (s : string) : bool :=
  truthy_str s && forallb (λ c, is_digit_char (code_point c)) (chars s).

(** The decimal digits of a text: [re.sub] of the class [\D] by nothing. *)
Definition only_decimals (s : string) : string :=
  String.concat "" (List.filter (λ c, is_decimal (code_point c)) (chars s)).

(** [s[:n]] and [s[-n:]] *)
Definition py_prefix (n : nat) (s : string) : string := String.concat "" (take n (chars s)).
Definition py_suffix (n : nat) (s : string) : string :=
  let l := chars s in String.concat "" (List.skipn (length l - n) l).

(** [_normalize_digits] of [views.py] and [utils/sms_utils.py]. *)
Definition _normalize_digits (s : option string) : string :=
  match s with None => EmptyString | Some s => _to_en_digits (strip s) end.

(** [normalize_digits] of [serializers.py]. *)
Definition normalize_digits (s : string) : string := strip (_to_en_digits s).

(** [_fa2en] of [admin.py]: the Persian digits only. *)
Definition _fa2en (s : string) : string := foldl (λ t kv, replace kv.1 kv.2 t) s (take 10 digit_pairs).

(** [normalize_phone] of [admin.py]. *)
Definition normalize_phone (raw : string) : string :=
  let digits := only_decimals (_to_en_digits raw) in
  if String.prefix "98" digits && (py_len digits =? 12) then ("0" ++ drop 2 digits)%string
  else if (py_len digits =? 10) && String.prefix "9" digits then ("0" ++ digits)%string
  else py_prefix 11 digits.

(** The test of a mobile number, in every serializer and view. *)
Definition valid_phone (phone : string) : bool :=
  isdigit phone && String.prefix "09" phone && (py_len phone =? 11).

(** A plain number of ASCII digits is its own normal form. *)
Lemma chars_ascii s : all_chars (λ c, Nat.ltb (nat_of_ascii c) 128) s = true →
  chars s = (λ c, String c "") <$> String.list_ascii_of_string s.
Proof.
  induction s as [|c s IH]; [done|]. cbn [all_chars]. intros [Hc Hs]%andb_true_iff.
  cbn [chars]. rewrite IH by done. destruct s as [|c' s]; [done|]. cbn.
  cbn in Hs. apply andb_true_iff in Hs as [Hc' _]. apply Nat.leb_le in Hc'.
  assert (is_continuation c' = false) as ->; [|done].
  unfold is_continuation. apply andb_false_iff. left. apply Nat.leb_gt. lia.
Qed.

Lemma all_digits_ascii s : all_digits s = true → all_chars (λ c, Nat.ltb (nat_of_ascii c) 128) s = true.
Proof.
  rewrite all_digits_chars. apply all_chars_impl. intros c (_ & Hc & _)%digit_date_char%date_char_cases.
  by apply Nat.ltb_lt.
Qed.

Lemma concat_singletons l : String.concat "" ((λ c, String c "") <$> l) = String.string_of_list_ascii l.
Proof.
  induction l as [|c l IH]; [done|]. cbn. rewrite <- IH. destruct l; [done|]. by unfold String.append.
Qed.

Lemma length_list_ascii s : length (String.list_ascii_of_string s) = String.length s.
Proof. induction s as [|c s IH]; [done|]. cbn. by rewrite IH. Qed.

Lemma digit_is_decimal c : is_digit c = true → is_decimal (code_point (String c "")) = true.
Proof. destruct c as [[] [] [] [] [] [] [] []]; intros H; vm_compute in H; try discriminate H; by vm_compute. Qed.

Lemma only_decimals_digits s : all_digits s = true → only_decimals s = s.
Proof.
  intros Hs. unfold only_decimals. rewrite chars_ascii by by apply all_digits_ascii.
  rewrite (forallb_filter_id _ ((λ c, String c "") <$> String.list_ascii_of_string s)).
  - by rewrite concat_singletons, String.string_of_list_ascii_of_string.
  - apply forallb_forall. intros x (c & <- & Hc)%in_map_iff. apply digit_is_decimal.
    rewrite all_digits_chars in Hs. revert Hs Hc. induction s as [|c' s IH]; [done|].
    cbn. intros [Hc' Hs]%andb_true_iff [->|Hin]; auto.
Qed.

Lemma translate_absent (l : list (string * string)) s : all_digits s = true →
  forallb (λ kv, match kv.1 with String c _ => Nat.leb 128 (nat_of_ascii c) | _ => false end) l = true →
  foldl (λ t kv, replace kv.1 kv.2 t) s l = s.
Proof.
  rewrite all_digits_chars. intros Hs Hl. induction l as [|[[|c k] v] l IH]; [done|done|].
  cbn in Hl. apply andb_true_iff in Hl as [Hc Hl]. cbn [foldl fst snd].
  rewrite replace_non_ascii; [by apply IH|by apply Nat.leb_le|].
  revert Hs. apply all_chars_impl, digit_date_char.
Qed.

Lemma to_en_digits_digits s : all_digits s = true → _to_en_digits s = s.
Proof. intros Hs. apply translate_absent; [done|by vm_compute]. Qed.

Lemma fa2en_digits s : all_digits s = true → _fa2en s = s.
Proof. intros Hs. apply translate_absent; [done|by vm_compute]. Qed.

Lemma normalize_phone_id s : all_digits s = true → String.length s = 11%nat →
  String.prefix "09" s = true → normalize_phone s = s.
Proof.
  intros Hs Hl H0. unfold normalize_phone. rewrite to_en_digits_digits, only_decimals_digits by done.
  assert (Hc : chars s = (λ c, String c "") <$> String.list_ascii_of_string s).
  { apply chars_ascii, all_digits_ascii, Hs. }
  assert (Hn : length (chars s) = 11%nat).
  { rewrite Hc, length_fmap, length_list_ascii. exact Hl. }
  assert (py_len s =? 12 = false) as ->. { apply Z.eqb_neq. unfold py_len, zlen. lia. }
  assert (py_len s =? 10 = false) as ->. { apply Z.eqb_neq. unfold py_len, zlen. lia. }
  rewrite andb_false_r. cbn. unfold py_prefix. rewrite take_ge by lia.
  by rewrite Hc, concat_singletons, String.string_of_list_ascii_of_string.
Qed.

Example phones : normalize_phone "+98 ۹۱۳-1234567" = "09131234567"%string ∧ isdigit "۰۹۱۳" = true
  ∧ py_len "۰۹۱۳" = 4 ∧ normalize_digits " ۰۹۱۳١٢٣٤٥٦٧ " = "09131234567"%string ∧ valid_phone "09²²²²²²²²²" = true.
Proof. split_and!; by vm_compute. Qed.

(** ** The tables *)

(** [auth.User]: a password is the text it was set from, [None] when it is unusable. *)
Record User := mkUser {
  us_username : string;
  us_password : option string;
}.

(** The columns that [UserProfile], [PendingUserProfile] and [PendingEditProfile] share. *)
Record Person := mkPerson {
  pe_first_name : string;
  pe_last_name : string;
  pe_father_name : string;
  pe_national_code : string;
  pe_birth_date : string;
  pe_gender : string;
  pe_phone : string;
  pe_role : string;
  pe_profile_image : string;
  pe_address : string;
  pe_province : string;
  pe_county : string;
  pe_city : string;
  pe_tkd_board : option Z;
  pe_tkd_board_name : string;
  pe_coach : option Z;
  pe_coach_name : string;
  pe_club : option Z;
  pe_club_names : list string;
  pe_belt_grade : string;
  pe_belt_certificate_number : string;
  pe_belt_certificate_date : string;
  pe_is_coach : bool;
  pe_coach_level : option string;
  pe_coach_level_International : option string;
  pe_is_referee : bool;
  pe_kyorogi : bool;
  pe_kyorogi_level : option string;
  pe_kyorogi_level_International : option string;
  pe_poomseh : bool;
  pe_poomseh_level : option string;
  pe_poomseh_level_International : option string;
  pe_hanmadang : bool;
  pe_hanmadang_level : option string;
  pe_hanmadang_level_International : option string;
  pe_confirm_info : bool;
}.

Definition set_pe_phone (v : string) (r : Person) : Person := mkPerson
  (pe_first_name r) (pe_last_name r) (pe_father_name r) (pe_national_code r) (pe_birth_date r)
  (pe_gender r) v (pe_role r) (pe_profile_image r) (pe_address r) (pe_province r) (pe_county r)
  (pe_city r) (pe_tkd_board r) (pe_tkd_board_name r) (pe_coach r) (pe_coach_name r) (pe_club r)
  (pe_club_names r) (pe_belt_grade r) (pe_belt_certificate_number r) (pe_belt_certificate_date
  r) (pe_is_coach r) (pe_coach_level r) (pe_coach_level_International r) (pe_is_referee r)
  (pe_kyorogi r) (pe_kyorogi_level r) (pe_kyorogi_level_International r) (pe_poomseh r)
  (pe_poomseh_level r) (pe_poomseh_level_International r) (pe_hanmadang r) (pe_hanmadang_level
  r) (pe_hanmadang_level_International r) (pe_confirm_info r).
Definition set_pe_tkd_board_name (v : string) (r : Person) : Person := mkPerson
  (pe_first_name r) (pe_last_name r) (pe_father_name r) (pe_national_code r) (pe_birth_date r)
  (pe_gender r) (pe_phone r) (pe_role r) (pe_profile_image r) (pe_address r) (pe_province r)
  (pe_county r) (pe_city r) (pe_tkd_board r) v (pe_coach r) (pe_coach_name r) (pe_club r)
  (pe_club_names r) (pe_belt_grade r) (pe_belt_certificate_number r) (pe_belt_certificate_date
  r) (pe_is_coach r) (pe_coach_level r) (pe_coach_level_International r) (pe_is_referee r)
  (pe_kyorogi r) (pe_kyorogi_level r) (pe_kyorogi_level_International r) (pe_poomseh r)
  (pe_poomseh_level r) (pe_poomseh_level_International r) (pe_hanmadang r) (pe_hanmadang_level
  r) (pe_hanmadang_level_International r) (pe_confirm_info r).
Definition set_pe_coach (v : option Z) (r : Person) : Person := mkPerson
  (pe_first_name r) (pe_last_name r) (pe_father_name r) (pe_national_code r) (pe_birth_date r)
  (pe_gender r) (pe_phone r) (pe_role r) (pe_profile_image r) (pe_address r) (pe_province r)
  (pe_county r) (pe_city r) (pe_tkd_board r) (pe_tkd_board_name r) v (pe_coach_name r) (pe_club
  r) (pe_club_names r) (pe_belt_grade r) (pe_belt_certificate_number r)
  (pe_belt_certificate_date r) (pe_is_coach r) (pe_coach_level r) (pe_coach_level_International
  r) (pe_is_referee r) (pe_kyorogi r) (pe_kyorogi_level r) (pe_kyorogi_level_International r)
  (pe_poomseh r) (pe_poomseh_level r) (pe_poomseh_level_International r) (pe_hanmadang r)
  (pe_hanmadang_level r) (pe_hanmadang_level_International r) (pe_confirm_info r).
Definition set_pe_is_coach (v : bool) (r : Person) : Person := mkPerson
  (pe_first_name r) (pe_last_name r) (pe_father_name r) (pe_national_code r) (pe_birth_date r)
  (pe_gender r) (pe_phone r) (pe_role r) (pe_profile_image r) (pe_address r) (pe_province r)
  (pe_county r) (pe_city r) (pe_tkd_board r) (pe_tkd_board_name r) (pe_coach r) (pe_coach_name
  r) (pe_club r) (pe_club_names r) (pe_belt_grade r) (pe_belt_certificate_number r)
  (pe_belt_certificate_date r) v (pe_coach_level r) (pe_coach_level_International r)
  (pe_is_referee r) (pe_kyorogi r) (pe_kyorogi_level r) (pe_kyorogi_level_International r)
  (pe_poomseh r) (pe_poomseh_level r) (pe_poomseh_level_International r) (pe_hanmadang r)
  (pe_hanmadang_level r) (pe_hanmadang_level_International r) (pe_confirm_info r).
Definition set_pe_is_referee (v : bool) (r : Person) : Person := mkPerson
  (pe_first_name r) (pe_last_name r) (pe_father_name r) (pe_national_code r) (pe_birth_date r)
  (pe_gender r) (pe_phone r) (pe_role r) (pe_profile_image r) (pe_address r) (pe_province r)
  (pe_county r) (pe_city r) (pe_tkd_board r) (pe_tkd_board_name r) (pe_coach r) (pe_coach_name
  r) (pe_club r) (pe_club_names r) (pe_belt_grade r) (pe_belt_certificate_number r)
  (pe_belt_certificate_date r) (pe_is_coach r) (pe_coach_level r) (pe_coach_level_International
  r) v (pe_kyorogi r) (pe_kyorogi_level r) (pe_kyorogi_level_International r) (pe_poomseh r)
  (pe_poomseh_level r) (pe_poomseh_level_International r) (pe_hanmadang r) (pe_hanmadang_level
  r) (pe_hanmadang_level_International r) (pe_confirm_info r).
Definition set_pe_role (v : string) (r : Person) : Person := mkPerson
  (pe_first_name r) (pe_last_name r) (pe_father_name r) (pe_national_code r) (pe_birth_date r)
  (pe_gender r) (pe_phone r) v (pe_profile_image r) (pe_address r) (pe_province r) (pe_county r)
  (pe_city r) (pe_tkd_board r) (pe_tkd_board_name r) (pe_coach r) (pe_coach_name r) (pe_club r)
  (pe_club_names r) (pe_belt_grade r) (pe_belt_certificate_number r) (pe_belt_certificate_date
  r) (pe_is_coach r) (pe_coach_level r) (pe_coach_level_International r) (pe_is_referee r)
  (pe_kyorogi r) (pe_kyorogi_level r) (pe_kyorogi_level_International r) (pe_poomseh r)
  (pe_poomseh_level r) (pe_poomseh_level_International r) (pe_hanmadang r) (pe_hanmadang_level
  r) (pe_hanmadang_level_International r) (pe_confirm_info r).
Definition set_pe_club (v : option Z) (r : Person) : Person := mkPerson
  (pe_first_name r) (pe_last_name r) (pe_father_name r) (pe_national_code r) (pe_birth_date r)
  (pe_gender r) (pe_phone r) (pe_role r) (pe_profile_image r) (pe_address r) (pe_province r)
  (pe_county r) (pe_city r) (pe_tkd_board r) (pe_tkd_board_name r) (pe_coach r) (pe_coach_name
  r) v (pe_club_names r) (pe_belt_grade r) (pe_belt_certificate_number r)
  (pe_belt_certificate_date r) (pe_is_coach r) (pe_coach_level r) (pe_coach_level_International
  r) (pe_is_referee r) (pe_kyorogi r) (pe_kyorogi_level r) (pe_kyorogi_level_International r)
  (pe_poomseh r) (pe_poomseh_level r) (pe_poomseh_level_International r) (pe_hanmadang r)
  (pe_hanmadang_level r) (pe_hanmadang_level_International r) (pe_confirm_info r).
Definition set_pe_club_names (v : list string) (r : Person) : Person := mkPerson
  (pe_first_name r) (pe_last_name r) (pe_father_name r) (pe_national_code r) (pe_birth_date r)
  (pe_gender r) (pe_phone r) (pe_role r) (pe_profile_image r) (pe_address r) (pe_province r)
  (pe_county r) (pe_city r) (pe_tkd_board r) (pe_tkd_board_name r) (pe_coach r) (pe_coach_name
  r) (pe_club r) v (pe_belt_grade r) (pe_belt_certificate_number r) (pe_belt_certificate_date r)
  (pe_is_coach r) (pe_coach_level r) (pe_coach_level_International r) (pe_is_referee r)
  (pe_kyorogi r) (pe_kyorogi_level r) (pe_kyorogi_level_International r) (pe_poomseh r)
  (pe_poomseh_level r) (pe_poomseh_level_International r) (pe_hanmadang r) (pe_hanmadang_level
  r) (pe_hanmadang_level_International r) (pe_confirm_info r).
Definition set_pe_coach_name (v : string) (r : Person) : Person := mkPerson
  (pe_first_name r) (pe_last_name r) (pe_father_name r) (pe_national_code r) (pe_birth_date r)
  (pe_gender r) (pe_phone r) (pe_role r) (pe_profile_image r) (pe_address r) (pe_province r)
  (pe_county r) (pe_city r) (pe_tkd_board r) (pe_tkd_board_name r) (pe_coach r) v (pe_club r)
  (pe_club_names r) (pe_belt_grade r) (pe_belt_certificate_number r) (pe_belt_certificate_date
  r) (pe_is_coach r) (pe_coach_level r) (pe_coach_level_International r) (pe_is_referee r)
  (pe_kyorogi r) (pe_kyorogi_level r) (pe_kyorogi_level_International r) (pe_poomseh r)
  (pe_poomseh_level r) (pe_poomseh_level_International r) (pe_hanmadang r) (pe_hanmadang_level
  r) (pe_hanmadang_level_International r) (pe_confirm_info r).

(** [UserProfile]; [pf_coaching_clubs] is its many-to-many relation. *)
Record Profile := mkProfile {
  pf_user : option Z;
  pf_person : Person;
  pf_coaching_clubs : gset Z;
}.
Record PendingUserProfile := mkPending {
  pu_person : Person;
  pu_coaching_clubs : gset Z;
}.
Record PendingEditProfile := mkEdit {
  ed_original_user : Z;
  ed_person : Person;
  ed_coaching_clubs : gset Z;
}.

(** The columns that [TkdClub] and [PendingClub] share. *)
Record ClubData := mkClubData {
  cd_club_name : string;
  cd_founder_name : string;
  cd_founder_national_code : string;
  cd_founder_phone : string;
  cd_club_type : string;
  cd_activity_description : option string;
  cd_province : string;
  cd_county : string;
  cd_city : string;
  cd_tkd_board : option Z;
  cd_phone : string;
  cd_address : string;
  cd_license_number : string;
  cd_federation_id : string;
  cd_license_image : string;
  cd_confirm_info : bool;
}.

Definition set_cd_club_name (v : string) (r : ClubData) : ClubData := mkClubData
  v (cd_founder_name r) (cd_founder_national_code r) (cd_founder_phone r) (cd_club_type r)
  (cd_activity_description r) (cd_province r) (cd_county r) (cd_city r) (cd_tkd_board r)
  (cd_phone r) (cd_address r) (cd_license_number r) (cd_federation_id r) (cd_license_image r)
  (cd_confirm_info r).
Definition set_cd_city (v : string) (r : ClubData) : ClubData := mkClubData
  (cd_club_name r) (cd_founder_name r) (cd_founder_national_code r) (cd_founder_phone r)
  (cd_club_type r) (cd_activity_description r) (cd_province r) (cd_county r) v (cd_tkd_board r)
  (cd_phone r) (cd_address r) (cd_license_number r) (cd_federation_id r) (cd_license_image r)
  (cd_confirm_info r).
Definition set_cd_founder_phone (v : string) (r : ClubData) : ClubData := mkClubData
  (cd_club_name r) (cd_founder_name r) (cd_founder_national_code r) v (cd_club_type r)
  (cd_activity_description r) (cd_province r) (cd_county r) (cd_city r) (cd_tkd_board r)
  (cd_phone r) (cd_address r) (cd_license_number r) (cd_federation_id r) (cd_license_image r)
  (cd_confirm_info r).

Record Club := mkClub {
  cb_data : ClubData;
  cb_user : option Z;
}.
Record PendingClub := mkPendingClub {
  pc_data : ClubData;
  pc_tkd_board_name : string;
}.

(** [TkdBoard] *)
Record Board := mkBoard {
  br_name : string;
  br_user : option Z;
}.

(** [created_at] is in microseconds. *)
Record SMSVerification := mkSMS {
  sm_phone : string;
  sm_code : string;
  sm_created_at : Z;
}.

Inductive request_status := Pending | Accepted | Rejected.
Inductive request_type := Add | Remove.
#[export] Instance request_status_dec : EqDecision request_status.
Proof. solve_decision. Defined.
#[export] Instance request_type_dec : EqDecision request_type.
Proof. solve_decision. Defined.

Record CoachClubRequest := mkRequest {
  rq_coach : Z;
  rq_club : Z;
  rq_request_type : request_type;
  rq_status : request_status;
}.

(** The database of this part; one counter gives the keys of all tables. *)
Record accounts := mkAccounts {
  ac_users : gmap Z User;
  ac_profiles : gmap Z Profile;
  ac_clubs : gmap Z Club;
  ac_boards : gmap Z Board;
  ac_pending : gmap Z PendingUserProfile;
  ac_pending_clubs : gmap Z PendingClub;
  ac_edits : gmap Z PendingEditProfile;
  ac_sms : gmap Z SMSVerification;
  ac_requests : gmap Z CoachClubRequest;
  ac_next_id : Z;
}.

Definition set_ac_users (v : gmap Z User) (r : accounts) : accounts := mkAccounts
  v (ac_profiles r) (ac_clubs r) (ac_boards r) (ac_pending r) (ac_pending_clubs r) (ac_edits r)
  (ac_sms r) (ac_requests r) (ac_next_id r).
Definition set_ac_profiles (v : gmap Z Profile) (r : accounts) : accounts := mkAccounts
  (ac_users r) v (ac_clubs r) (ac_boards r) (ac_pending r) (ac_pending_clubs r) (ac_edits r)
  (ac_sms r) (ac_requests r) (ac_next_id r).
Definition set_ac_clubs (v : gmap Z Club) (r : accounts) : accounts := mkAccounts
  (ac_users r) (ac_profiles r) v (ac_boards r) (ac_pending r) (ac_pending_clubs r) (ac_edits r)
  (ac_sms r) (ac_requests r) (ac_next_id r).
Definition set_ac_boards (v : gmap Z Board) (r : accounts) : accounts := mkAccounts
  (ac_users r) (ac_profiles r) (ac_clubs r) v (ac_pending r) (ac_pending_clubs r) (ac_edits r)
  (ac_sms r) (ac_requests r) (ac_next_id r).
Definition set_ac_pending (v : gmap Z PendingUserProfile) (r : accounts) : accounts := mkAccounts
  (ac_users r) (ac_profiles r) (ac_clubs r) (ac_boards r) v (ac_pending_clubs r) (ac_edits r)
  (ac_sms r) (ac_requests r) (ac_next_id r).
Definition set_ac_pending_clubs (v : gmap Z PendingClub) (r : accounts) : accounts := mkAccounts
  (ac_users r) (ac_profiles r) (ac_clubs r) (ac_boards r) (ac_pending r) v (ac_edits r) (ac_sms
  r) (ac_requests r) (ac_next_id r).
Definition set_ac_edits (v : gmap Z PendingEditProfile) (r : accounts) : accounts := mkAccounts
  (ac_users r) (ac_profiles r) (ac_clubs r) (ac_boards r) (ac_pending r) (ac_pending_clubs r) v
  (ac_sms r) (ac_requests r) (ac_next_id r).
Definition set_ac_sms (v : gmap Z SMSVerification) (r : accounts) : accounts := mkAccounts
  (ac_users r) (ac_profiles r) (ac_clubs r) (ac_boards r) (ac_pending r) (ac_pending_clubs r)
  (ac_edits r) v (ac_requests r) (ac_next_id r).
Definition set_ac_requests (v : gmap Z CoachClubRequest) (r : accounts) : accounts := mkAccounts
  (ac_users r) (ac_profiles r) (ac_clubs r) (ac_boards r) (ac_pending r) (ac_pending_clubs r)
  (ac_edits r) (ac_sms r) v (ac_next_id r).
Definition set_ac_next_id (v : Z) (r : accounts) : accounts := mkAccounts
  (ac_users r) (ac_profiles r) (ac_clubs r) (ac_boards r) (ac_pending r) (ac_pending_clubs r)
  (ac_edits r) (ac_sms r) (ac_requests r) v.

Definition fresh : M accounts Z := λ s, (Ok (ac_next_id s), set_ac_next_id (ac_next_id s + 1) s).

Definition empty_accounts : accounts := mkAccounts ∅ ∅ ∅ ∅ ∅ ∅ ∅ ∅ ∅ 1.

(** ** Queries *)

(** [filter(..).first()], in the order of the primary key. *)
Definition first_row {A} (f : A → bool) (t : gmap Z A) : option (Z * A) :=
  head (List.filter (λ kr, f kr.2) (rows_by_id t)).

(** [filter(..).exists()] *)
Definition exists_row {A} (f : A → bool) (t : gmap Z A) : bool := existsb (λ kr, f kr.2) (rows_by_id t).

Lemma first_row_some {A} (f : A → bool) t k r : first_row f t = Some (k, r) → t !! k = Some r ∧ f r = true.
Proof.
  unfold first_row. intros H. assert (Hin : (k, r) ∈ List.filter (λ kr, f kr.2) (rows_by_id t)).
  { destruct (List.filter _ _); [done|]. injection H as ->. by left. }
  by apply elem_of_filter_list in Hin as [Hin%elem_of_rows_by_id Hf].
Qed.

Lemma first_row_none {A} (f : A → bool) t : first_row f t = None ↔ ∀ k r, t !! k = Some r → f r = false.
Proof.
  unfold first_row. split.
  - intros H k r Hk. destruct (f r) eqn:Hf; [exfalso|done].
    assert (Hin : (k, r) ∈ List.filter (λ kr, f kr.2) (rows_by_id t)).
    { apply elem_of_filter_list. split; [by apply elem_of_rows_by_id|done]. }
    destruct (List.filter _ _); [|done]. by apply not_elem_of_nil in Hin.
  - intros H. destruct (List.filter _ _) as [|[k r] l] eqn:E; [done|]. exfalso.
    assert (Hin : (k, r) ∈ List.filter (λ kr, f kr.2) (rows_by_id t)) by (rewrite E; by left).
    apply elem_of_filter_list in Hin as [Hk%elem_of_rows_by_id Hf]. cbn in Hf. by rewrite (H k r Hk) in Hf.
Qed.

Lemma exists_row_true {A} (f : A → bool) t : exists_row f t = true ↔ ∃ k r, t !! k = Some r ∧ f r = true.
Proof.
  unfold exists_row. rewrite existsb_exists. split.
  - intros ([k r] & Hk%list_elem_of_In%elem_of_rows_by_id & Hf). eauto.
  - intros (k & r & Hk & Hf). exists (k, r). split; [|done]. by apply list_elem_of_In, elem_of_rows_by_id.
Qed.

Lemma exists_row_false {A} (f : A → bool) t : exists_row f t = false ↔ ∀ k r, t !! k = Some r → f r = false.
Proof.
  rewrite <- not_true_iff_false, exists_row_true. split.
  - intros H k r Hk. apply not_true_is_false. intros Hf. eauto.
  - intros H (k & r & Hk & Hf). by rewrite (H k r Hk) in Hf.
Qed.

Lemma count_rows_delete {A} (p : A → bool) (t : gmap Z A) k x : t !! k = Some x →
  count_rows p (delete k t) = count_rows p t - Z.b2z (p x).
Proof.
  intros Hk. rewrite <- (insert_delete_id t k x) at 2 by done.
  rewrite count_rows_new by apply lookup_delete_eq. lia.
Qed.

Lemma count_rows_filter {A} (p : A → bool) (t : gmap Z A) (Q : Z * A → Prop) `{∀ x, Decision (Q x)} :
  count_rows p (filter Q t) <= count_rows p t.
Proof.
  induction t as [|k x t Hk IH] using map_ind; [by rewrite map_filter_empty|].
  rewrite map_filter_insert, (count_rows_new p t) by done. destruct (decide (Q (k, x))) as [HQ|HQ].
  - rewrite count_rows_new; [lia|]. apply map_lookup_filter_None. by left.
  - rewrite delete_id by done. destruct (p x); cbn; lia.
Qed.

(** A person without any data, for examples. *)
Definition blank_person : Person :=
  mkPerson "" "" "" "" "" "" "" "" "" "" "" "" "" None "" None "" None [] "" "" "" false None None
    false false None None false None None false None None false.
