(* ===== verification/SmsCodes.v ===== *)
(** Login and the codes sent by SMS ([src/accounts/views.py]): requesting and verifying a
    code, the forgotten password, and the login with its role groups.

    [clk] gives the readings of the clock during one request, in microseconds, and [rand]
    the results of [secrets.randbelow(9000)].  What the SMS gateway answers is ignored by
    the code.  [collate] is the collation of the database, [authenticate] Django's check of
    a name and a password. *)

From Stdlib Require Import Ascii.
From stdpp Require Import pretty.
From S2P Require Import Prelude Store Ranking Payments GroupRegistration Text Accounts.
Local Open Scope Z_scope.

Definition minutes (n : Z) : Z := n * 60000000.

Inductive sms_response :=
  | InvalidData
  | AlreadyRegistered
  | InvalidRole
  | InvalidPhone
  | InvalidCode
  | NoUser
  | RetryAfter (seconds : Z)
  | CodeSent
  | WrongCode
  | CodeExpired
  | CodeAccepted
  | PasswordReset (username password role : string).

#[export] Instance sms_response_dec : EqDecision sms_response.
Proof. solve_decision. Defined.

(** ** The serializers *)

Definition PHONE_ROLES : list string := ["player"; "coach"; "referee"; "both"; "club"].

(** [PhoneSerializer] *)
Definition phone_serializer (phone role : option string) : option string :=
  match phone, role with
  | Some phone, Some role =>
      let value := normalize_digits (strip (normalize_digits phone)) in
      if valid_phone value && bool_decide (role ∈ PHONE_ROLES) then Some value else None
  | _, _ => None
  end.

(** [VerifyCodeSerializer] *)
Definition verify_serializer (phone code : option string) : option (string * string) :=
  match phone, code with
  | Some phone, Some code =>
      let phone := normalize_digits (strip (normalize_digits phone)) in
      let code := normalize_digits (strip (normalize_digits code)) in
      if isdigit phone && (py_len phone =? 11) && (isdigit code && (py_len code =? 4))
      then Some (phone, code) else None
  | _, _ => None
  end.

(** ** Codes *)

(** [str(secrets.randbelow(9000) + 1000)] *)
Definition code_of (n : Z) : string := pretty (n + 1000).

(** [generate_unique_sms_code]: the first of 20 draws that no recent row has, or the
    draw after them. *)
Definition generate_unique_sms_code (now : Z) (rand : nat → Z) (s : accounts) : string :=
  let recent := (λ kr, sm_code kr.2) <$>
                  List.filter (λ kr, now - minutes 3 <=? sm_created_at kr.2) (rows_by_id (ac_sms s)) in
  match head (List.filter (λ c, negb (bool_decide (c ∈ recent))) ((λ i, code_of (rand i)) <$> seq 0 20)) with
  | Some c => c
  | None => code_of (rand 20%nat)
  end.

Definition cleanup_expired_sms (now : Z) : M accounts unit :=
  modify (λ s, set_ac_sms (filter (λ kr, now - minutes 3 ≤ sm_created_at kr.2) (ac_sms s)) s).

Section sms.
Context (collate : string → string).

(** Equality of texts in the database. *)
Definition same (a b : string) : bool := String.eqb (collate a) (collate b).

(** The end of both views that send a code: the rate limit and the new row. *)
Definition send_new_code (clk rand : nat → Z) (phone : string) : M accounts sms_response :=
  (s <~ get ;;
   match first_row (λ r, same (sm_phone r) phone && (clk 1%nat - minutes 3 <=? sm_created_at r)) (ac_sms s) with
   | Some (_, recent) => ret (RetryAfter (180 - Z.quot (clk 2%nat - sm_created_at recent) 1000000))
   | None =>
       let code := generate_unique_sms_code (clk 2%nat) rand s in
       k <~ fresh ;;
       modify (λ s, set_ac_sms (<[k := mkSMS phone code (clk 3%nat)]> (ac_sms s)) s) ;;;
       ret CodeSent
   end)%monad.

(** [SendCodeAPIView.post] *)
Definition send_code (clk rand : nat → Z) (phone role : option string) : M accounts sms_response :=
  (cleanup_expired_sms (clk 0%nat) ;;;
   match phone_serializer phone role with
   | None => ret InvalidData
   | Some phone =>
       s <~ get ;;
       let role := default ""%string role in
       if bool_decide (role ∈ ["player"; "coach"])%string then
         if exists_row (λ p, same (pe_phone (pf_person p)) phone) (ac_profiles s)
            || exists_row (λ p, same (pe_phone (pu_person p)) phone) (ac_pending s)
         then ret AlreadyRegistered
         else send_new_code clk rand phone
       else if String.eqb role "club" then
         if exists_row (λ c, same (cd_founder_phone (cb_data c)) phone) (ac_clubs s)
            || exists_row (λ c, same (cd_founder_phone (pc_data c)) phone) (ac_pending_clubs s)
         then ret AlreadyRegistered
         else send_new_code clk rand phone
       else ret InvalidRole
   end)%monad.

(** The check of a code, in both views that verify one: [None] when it is accepted. *)
Definition consume_code (clk : nat → Z) (phone code : string) : M accounts (option sms_response) :=
  (s <~ get ;;
   match List.filter (λ kr, same (sm_phone kr.2) phone && same (sm_code kr.2) code) (rows_by_id (ac_sms s)) with
   | [] =>
       modify (λ s, set_ac_sms (filter (λ kr, same (sm_phone kr.2) phone = false) (ac_sms s)) s) ;;;
       ret (Some WrongCode)
   | [(k, record)] =>
       modify (λ s, set_ac_sms (delete k (ac_sms s)) s) ;;;
       ret (if sm_created_at record <? clk 1%nat - minutes 3 then Some CodeExpired else None)
   | _ => raise MultipleObjectsReturned
   end)%monad.

(** [VerifyCodeAPIView.post] *)
Definition verify_code (clk : nat → Z) (phone code : option string) : M accounts sms_response :=
  (cleanup_expired_sms (clk 0%nat) ;;;
   match verify_serializer phone code with
   | None => ret InvalidData
   | Some (phone, code) =>
       r <~ consume_code clk phone code ;;
       ret (default CodeAccepted r)
   end)%monad.

(** ** The forgotten password *)

(** [user.profile], and the club and the board of a user. *)
Definition profile_of (s : accounts) (u : Z) : option (Z * Profile) :=
  first_row (λ p, bool_decide (pf_user p = Some u)) (ac_profiles s).
Definition club_of (s : accounts) (u : Z) : option (Z * Club) :=
  first_row (λ c, bool_decide (cb_user c = Some u)) (ac_clubs s).
Definition board_of (s : accounts) (u : Z) : option (Z * Board) :=
  first_row (λ b, bool_decide (br_user b = Some u)) (ac_boards s).

(** The login behind a phone number, with the profile and the club found on the way. *)
Definition account_of (s : accounts) (phone : string) : option Z * option Profile * option Club :=
  match first_row (λ u, same (us_username u) phone) (ac_users s) with
  | Some (k, _) => (Some k, None, None)
  | None =>
      let prof := snd <$> first_row (λ p, same (pe_phone (pf_person p)) phone) (ac_profiles s) in
      let club := snd <$> first_row (λ c, same (cd_founder_phone (cb_data c)) phone) (ac_clubs s) in
      (match prof ≫= pf_user with Some u => Some u | None => club ≫= cb_user end, prof, club)
  end.

Definition _detect_role (s : accounts) (u : Z) : string :=
  match profile_of s u with
  | Some (_, prof) => lower (or_str (pe_role (pf_person prof)) "player")
  | None => if negb (is_none (club_of s u)) then "club"
            else if negb (is_none (board_of s u)) then "heyat" else "player"
  end.

(** The password a reset gives to the login [u] found for [phone]. *)
Definition new_password (s : accounts) (phone : string) (u : Z) (prof : option Profile) (club : option Club)
    : string :=
  let prof := match prof with Some p => Some p | None => snd <$> profile_of s u end in
  let club := match club with Some c => Some c | None => snd <$> club_of s u end in
  or_str (match prof, club with
          | Some p, _ => _normalize_digits (Some (pe_national_code (pf_person p)))
          | None, Some c => _normalize_digits (Some (cd_founder_national_code (cb_data c)))
          | None, None => ""
          end) ("Temp#" ++ py_suffix 4 phone).

Definition set_password (u : Z) (password : string) (s : accounts) : accounts :=
  set_ac_users (alter (λ x, mkUser (us_username x) (Some password)) u (ac_users s)) s.

(** [ForgotPasswordSendCodeAPIView.post] *)
Definition forgot_send (clk rand : nat → Z) (phone : option string) : M accounts sms_response :=
  (cleanup_expired_sms (clk 0%nat) ;;;
   let phone := strip (default ""%string phone) in
   if negb (valid_phone phone) then ret InvalidPhone
   else
     s <~ get ;;
     if is_none (account_of s phone).1.1 then ret NoUser else send_new_code clk rand phone)%monad.

(** [ForgotPasswordVerifyAPIView.post] *)
Definition forgot_verify (clk : nat → Z) (phone code : option string) : M accounts sms_response :=
  (cleanup_expired_sms (clk 0%nat) ;;;
   let phone := strip (default ""%string phone) in
   let code := strip (default ""%string code) in
   if negb (valid_phone phone) then ret InvalidPhone
   else if negb (isdigit code && (py_len code =? 4)) then ret InvalidCode
   else
     r <~ consume_code clk phone code ;;
     match r with
     | Some e => ret e
     | None =>
         s <~ get ;;
         match account_of s phone with
         | (None, _, _) => ret NoUser
         | (Some u, prof, club) =>
             let new_pass := new_password s phone u prof club in
             modify (set_password u new_pass) ;;;
             s <~ get ;;
             ret (PasswordReset (default ""%string (us_username <$> ac_users s !! u)) new_pass (_detect_role s u))
         end
     end)%monad.

(** ** Requests *)

Inductive sms_request :=
  | SendCode (phone role : option string)
  | VerifyCode (phone code : option string)
  | ForgotSend (phone : option string)
  | ForgotVerify (phone code : option string).

Definition serve (clk rand : nat → Z) (q : sms_request) : M accounts sms_response :=
  match q with
  | SendCode phone role => send_code clk rand phone role
  | VerifyCode phone code => verify_code clk phone code
  | ForgotSend phone => forgot_send clk rand phone
  | ForgotVerify phone code => forgot_verify clk phone code
  end.
End sms.

(** ** What a request does to the table of codes *)

Section outcomes.
Context (collate : string → string) (clk rand : nat → Z).
Local Abbreviation same := (same collate).

(** The rows a cleanup leaves. *)
Definition cleaned (s : accounts) : accounts := (cleanup_expired_sms (clk 0%nat) s).2.

Definition recent (phone : string) (r : SMSVerification) : bool :=
  same (sm_phone r) phone && (clk 1%nat - minutes 3 <=? sm_created_at r).

Definition with_code (phone : string) (s : accounts) : accounts :=
  set_ac_sms (<[ac_next_id s := mkSMS phone (generate_unique_sms_code (clk 2%nat) rand s) (clk 3%nat)]> (ac_sms s))
    (set_ac_next_id (ac_next_id s + 1) s).

Definition without_codes (phone : string) (s : accounts) : accounts :=
  set_ac_sms (filter (λ kr, same (sm_phone kr.2) phone = false) (ac_sms s)) s.

Definition without_code (k : Z) (s : accounts) : accounts := set_ac_sms (delete k (ac_sms s)) s.

(** Answers that come without a change of the codes. *)
Definition quiet (r : sms_response) : bool :=
  match r with
  | RetryAfter _ | CodeSent | WrongCode | CodeExpired | CodeAccepted | PasswordReset _ _ _ => false
  | _ => true
  end.

Definition matching (phone code : string) (s : accounts) : list (Z * SMSVerification) :=
  List.filter (λ kr, same (sm_phone kr.2) phone && same (sm_code kr.2) code) (rows_by_id (ac_sms s)).

(** How a request about [phone] and [code] that starts from [s], already cleaned, may end. *)
Inductive outcome (s : accounts) (phone code : string) : result sms_response → accounts → Prop :=
  | Quiet r : quiet r = true → outcome s phone code (Ok r) s
  | Limited k r : first_row (recent phone) (ac_sms s) = Some (k, r) →
      outcome s phone code (Ok (RetryAfter (180 - Z.quot (clk 2%nat - sm_created_at r) 1000000))) s
  | Sent : first_row (recent phone) (ac_sms s) = None → outcome s phone code (Ok CodeSent) (with_code phone s)
  | Wrong : matching phone code s = [] → outcome s phone code (Ok WrongCode) (without_codes phone s)
  | Expired k r : matching phone code s = [(k, r)] → sm_created_at r < clk 1%nat - minutes 3 →
      outcome s phone code (Ok CodeExpired) (without_code k s)
  | Used k r a : matching phone code s = [(k, r)] → clk 1%nat - minutes 3 <= sm_created_at r →
      a = CodeAccepted ∨ a = NoUser → outcome s phone code (Ok a) (without_code k s)
  | Reset k r u prof club name role : matching phone code s = [(k, r)] →
      clk 1%nat - minutes 3 <= sm_created_at r →
      account_of collate (without_code k s) phone = (Some u, prof, club) →
      outcome s phone code
        (Ok (PasswordReset name (new_password (without_code k s) phone u prof club) role))
        (set_password u (new_password (without_code k s) phone u prof club) (without_code k s))
  | Clash x y l : matching phone code s = x :: y :: l →
      outcome s phone code (Err MultipleObjectsReturned) s.

(** The number a request is about, once normalised. *)
Definition phone_of (q : sms_request) : string :=
  match q with
  | SendCode phone _ | VerifyCode phone _ => normalize_digits (strip (normalize_digits (default ""%string phone)))
  | ForgotSend phone | ForgotVerify phone _ => strip (default ""%string phone)
  end.

(** The code a request gives. *)
Definition code_given (q : sms_request) : string :=
  match q with
  | VerifyCode _ code => normalize_digits (strip (normalize_digits (default ""%string code)))
  | ForgotVerify _ code => strip (default ""%string code)
  | SendCode _ _ | ForgotSend _ => ""
  end.

Lemma send_new_code_outcome phone code s r s' :
  send_new_code collate clk rand phone s = (r, s') → outcome s phone code r s'.
Proof.
  unfold send_new_code. unfold bind at 1, get. cbn.
  change (λ r, same (sm_phone r) phone && (clk 1%nat - minutes 3 <=? sm_created_at r)) with (recent phone).
  destruct (first_row (recent phone) (ac_sms s)) as [[k x]|] eqn:E.
  - intros [= <- <-]. by eapply Limited.
  - unfold fresh, bind, modify, ret. cbn. intros [= <- <-]. apply (Sent s phone code E).
Qed.

Lemma consume_code_outcome phone code s r s' :
  consume_code collate clk phone code s = (r, s') →
  match r with
  | Ok (Some a) => outcome s phone code (Ok a) s'
  | Ok None => ∃ k r, matching phone code s = [(k, r)] ∧ clk 1%nat - minutes 3 <= sm_created_at r ∧
                 s' = without_code k s
  | Err e => outcome s phone code (Err e) s'
  end.
Proof.
  unfold consume_code. unfold bind at 1, get. cbn. fold (matching phone code s).
  destruct (matching phone code s) as [|[k x] [|y l]] eqn:E; cbn.
  - intros [= <- <-]. by apply Wrong.
  - destruct (sm_created_at x <? _) eqn:Ht; intros [= <- <-].
    + apply Z.ltb_lt in Ht. by apply Expired with x.
    + apply Z.ltb_ge in Ht. eauto.
  - intros [= <- <-]. by apply Clash with (k, x) y l.
Qed.

Lemma after_cleanup {A} (m : M accounts A) s :
  bind (cleanup_expired_sms (clk 0%nat)) (λ _, m) s = m (cleaned s).
Proof. done. Qed.

Ltac quiet := intros [= <- <-]; by apply Quiet.

Lemma forgot_verify_outcome phone code s r s' : forgot_verify collate clk phone code s = (r, s') →
  outcome (cleaned s) (strip (default ""%string phone)) (strip (default ""%string code)) r s'.
Proof.
  unfold forgot_verify. rewrite after_cleanup. generalize (cleaned s); clear s; intros s. set (ph := strip (default ""%string phone)).
  destruct (valid_phone ph); [|quiet]. destruct (_ && _); [|quiet]. cbn. unfold bind at 1.
  destruct (consume_code _ _ _ _ _) as [o s1] eqn:Hc. apply consume_code_outcome in Hc.
  destruct o as [[a|]|e]; [by intros [= <- <-]| |by intros [= <- <-]].
  destruct Hc as (k & x & Hm & Ht & ->). unfold bind at 1, get.
  destruct (account_of collate (without_code k s) ph) as [[[u|] prof] club] eqn:Ha; unfold bind, modify, get, ret;
    intros [= <- <-]; [by eapply Reset|eapply Used; eauto].
Qed.

Lemma serve_outcome q s r s' : serve collate clk rand q s = (r, s') →
  outcome (cleaned s) (phone_of q) (code_given q) r s'.
Proof.
  destruct q as [phone role|phone code|phone|phone code]; cbn [serve phone_of code_given];
    [unfold send_code|unfold verify_code|unfold forgot_send|by apply forgot_verify_outcome];
    rewrite after_cleanup; generalize (cleaned s); clear s; intros s.
  - destruct phone as [phone|]; [|quiet]. destruct role as [role|]; [|quiet]. unfold phone_serializer.
    cbn [default]. destruct (valid_phone _ && _); [|quiet]. unfold bind at 1, get. cbn.
    destruct (bool_decide _); [|destruct (String.eqb _ _); [|quiet]];
      (destruct (_ || _); [quiet|]); apply send_new_code_outcome.
  - destruct phone as [phone|]; [|quiet]. destruct code as [code|]; [|quiet]. unfold verify_serializer.
    cbn [default]. destruct (_ && _); [|quiet]. unfold bind.
    destruct (consume_code _ _ _ _ _) as [o s1] eqn:Hc. apply consume_code_outcome in Hc.
    destruct o as [[a|]|e]; intros [= <- <-]; [done| |done].
    destruct Hc as (k & x & Hm & Ht & ->). eapply Used; eauto.
  - destruct (valid_phone _); [|quiet]. unfold bind at 1, get. cbn.
    destruct (is_none _); [quiet|]. apply send_new_code_outcome.
Qed.
End outcomes.

(** ** Sequences of requests *)

(** A request with the clock readings and the draws it meets. *)
Record visit := mkVisit { vi_clk : nat → Z; vi_rand : nat → Z; vi_request : sms_request }.

Section sequences.
Context (collate : string → string).
Local Abbreviation same := (same collate).

Fixpoint run (vs : list visit) (s : accounts) : list (string * result sms_response) * accounts :=
  match vs with
  | [] => ([], s)
  | v :: vs =>
      let '(r, s1) := serve collate (vi_clk v) (vi_rand v) (vi_request v) s in
      let '(l, s2) := run vs s1 in ((phone_of (vi_request v), r) :: l, s2)
  end.

(** The clock never goes back: within a request, and from one request to the next. *)
Fixpoint timely (t : Z) (vs : list visit) : Prop :=
  match vs with
  | [] => True
  | v :: vs => t ≤ vi_clk v 0%nat ∧ vi_clk v 0%nat ≤ vi_clk v 1%nat ∧ vi_clk v 1%nat ≤ vi_clk v 2%nat
               ∧ vi_clk v 2%nat ≤ vi_clk v 3%nat ∧ timely (vi_clk v 3%nat) vs
  end.

(** The time at which a sequence ends. *)
Fixpoint finish (t : Z) (vs : list visit) : Z :=
  match vs with [] => t | v :: vs => finish (vi_clk v 3%nat) vs end.

(** The codes of one phone lie more than three minutes apart. *)
Record codes_wf (t : Z) (s : accounts) : Prop := {
  codes_keys : ∀ k r, ac_sms s !! k = Some r → k < ac_next_id s ∧ sm_created_at r ≤ t;
  codes_spaced : ∀ i j a b, ac_sms s !! i = Some a → ac_sms s !! j = Some b → i ≠ j →
    collate (sm_phone a) = collate (sm_phone b) → minutes 3 < Z.abs (sm_created_at a - sm_created_at b);
}.

Lemma same_true a b : same a b = true ↔ collate a = collate b.
Proof. apply String.eqb_eq. Qed.

Lemma codes_wf_subset t t' s s' : codes_wf t s → t ≤ t' → ac_next_id s ≤ ac_next_id s' →
  ac_sms s' ⊆ ac_sms s → codes_wf t' s'.
Proof.
  intros [Hk Hs] Ht Hn Hsub. split.
  - intros k r Hr. apply (lookup_weaken _ _ _ _ Hr), Hk in Hsub. lia.
  - intros i j a b Hi Hj. eapply Hs; by eapply lookup_weaken.
Qed.

Lemma cleaned_sms clk s k r : ac_sms (cleaned clk s) !! k = Some r ↔
  ac_sms s !! k = Some r ∧ clk 0%nat - minutes 3 ≤ sm_created_at r.
Proof. apply map_lookup_filter_Some. Qed.

Lemma cleaned_wf clk t s : codes_wf t s → t ≤ clk 0%nat → codes_wf (clk 0%nat) (cleaned clk s).
Proof.
  intros Hwf Ht. apply (codes_wf_subset t (clk 0%nat) s); [done|done|done|]. apply map_filter_subseteq.
Qed.

Lemma with_code_wf clk rand phone t s : codes_wf t s → t ≤ clk 3%nat → clk 1%nat ≤ clk 3%nat →
  first_row (recent collate clk phone) (ac_sms s) = None → codes_wf (clk 3%nat) (with_code clk rand phone s).
Proof.
  intros [Hk Hs] Ht Hc Hf. rewrite first_row_none in Hf.
  assert (Hold : ∀ k r, ac_sms s !! k = Some r → collate (sm_phone r) = collate phone →
    minutes 3 < clk 3%nat - sm_created_at r).
  { intros k r Hr He. specialize (Hf k r Hr). unfold recent in Hf. apply same_true in He.
    unfold same in *. rewrite He in Hf. cbn in Hf. apply Z.leb_gt in Hf. lia. }
  split; unfold with_code; cbn.
  - intros k r [[<- <-]|[_ Hr%Hk]]%lookup_insert_Some; cbn; lia.
  - intros i j a b [[<- <-]|[_ Hi]]%lookup_insert_Some [[<- <-]|[_ Hj]]%lookup_insert_Some Hne He; cbn in *.
    + done.
    + specialize (Hold j b Hj (eq_sym He)). lia.
    + specialize (Hold i a Hi He). lia.
    + by eapply Hs.
Qed.

Lemma outcome_wf clk rand s phone code r s' : codes_wf (clk 0%nat) s →
  clk 0%nat ≤ clk 1%nat → clk 1%nat ≤ clk 2%nat → clk 2%nat ≤ clk 3%nat →
  outcome collate clk rand s phone code r s' → codes_wf (clk 3%nat) s'.
Proof.
  intros Hwf H1 H2 H3 Ho. assert (clk 0%nat ≤ clk 3%nat) by lia.
  assert (Hdel : ∀ k, codes_wf (clk 3%nat) (without_code k s)).
  { intros k. apply (codes_wf_subset (clk 0%nat) _ s); [done|done|done|]. apply delete_subseteq. }
  destruct Ho; try apply Hdel.
  - by apply (codes_wf_subset (clk 0%nat) _ s).
  - by apply (codes_wf_subset (clk 0%nat) _ s).
  - apply (with_code_wf _ _ _ (clk 0%nat)); [done|lia|lia|done].
  - apply (codes_wf_subset (clk 0%nat) _ s); [done|done|done|]. apply map_filter_subseteq.
  - apply (codes_wf_subset (clk 3%nat) _ (without_code k s)); [apply Hdel|lia|done|done].
  - by apply (codes_wf_subset (clk 0%nat) _ s).
Qed.

(** Two unexpired codes of one phone cannot exist, so a lookup finds at most one. *)
Lemma live_codes_equal t T s i j a b : codes_wf t s → t ≤ T → ac_sms s !! i = Some a → ac_sms s !! j = Some b →
  collate (sm_phone a) = collate (sm_phone b) →
  T - minutes 3 ≤ sm_created_at a → T - minutes 3 ≤ sm_created_at b → i = j.
Proof.
  intros [Hk Hs] HT Hi Hj He Ha Hb. destruct (decide (i = j)) as [|Hne]; [done|].
  pose proof (Hs i j a b Hi Hj Hne He). apply Hk in Hi, Hj. lia.
Qed.

Lemma elem_of_matching phone code s k r : (k, r) ∈ matching collate phone code s ↔
  ac_sms s !! k = Some r ∧ collate (sm_phone r) = collate phone ∧ collate (sm_code r) = collate code.
Proof.
  unfold matching. rewrite elem_of_filter_list, elem_of_rows_by_id. cbn.
  by rewrite andb_true_iff, !same_true.
Qed.

Lemma no_clash clk t s phone code x y l : codes_wf t s → t ≤ clk 0%nat →
  matching collate phone code (cleaned clk s) = x :: y :: l → False.
Proof.
  intros Hwf Ht Hm. destruct x as [i a], y as [j b].
  assert (Hi : (i, a) ∈ matching collate phone code (cleaned clk s)) by (rewrite Hm; by left).
  assert (Hj : (j, b) ∈ matching collate phone code (cleaned clk s)) by (rewrite Hm; by right; left).
  apply elem_of_matching in Hi as ([Hi Ha]%cleaned_sms & Hpa & _).
  apply elem_of_matching in Hj as ([Hj Hb]%cleaned_sms & Hpb & _).
  assert (i = j) as ->. { apply (live_codes_equal t (clk 0%nat) s i j a b); try done. congruence. }
  assert (Hd : NoDup (matching collate phone code (cleaned clk s)).*1).
  { apply NoDup_fst_filter, NoDup_rows_by_id. }
  rewrite Hm in Hd. cbn in Hd. apply NoDup_cons in Hd as [Hd _]. apply Hd. by left.
Qed.

Lemma run_wf vs t s : codes_wf t s → timely t vs →
  codes_wf (finish t vs) (run vs s).2 ∧ ∀ p r, (p, r) ∈ (run vs s).1 → ∃ a, r = Ok a.
Proof.
  revert t s. induction vs as [|v vs IH]; intros t s Hwf Ht; cbn in *.
  { split; [done|]. by intros p r H%not_elem_of_nil. }
  destruct Ht as (H0 & H1 & H2 & H3 & Ht). destruct v as [clk rand q]; cbn in *.
  destruct (serve collate clk rand q s) as [r s1] eqn:Hs. apply serve_outcome in Hs.
  assert (Hr : ∃ a, r = Ok a).
  { inversion Hs; subst; eauto. exfalso. eapply no_clash; eauto. }
  apply outcome_wf in Hs; [|by apply (cleaned_wf clk t)|done|done|done].
  destruct (IH _ s1 Hs Ht) as [Hwf' Hl]. destruct (run vs s1) as [l s2]. cbn in *. split; [done|].
  intros p x [[= -> ->]|Hin]%elem_of_cons; eauto.
Qed.
End sequences.

Section theorems.
Context (collate : string → string).
Local Abbreviation same := (same collate).

(** C16: Starting without codes, whatever requests are served while the clock moves
    forward, every request gets an answer (the lookup of a code never finds two rows),
    and no phone ever has two codes of the last three minutes. *)
Theorem one_live_code_per_phone vs t s : ac_sms s = ∅ → timely t vs →
  (∀ p r, (p, r) ∈ (run collate vs s).1 → ∃ a, r = Ok a) ∧
  ∀ T i j a b, finish t vs ≤ T → ac_sms (run collate vs s).2 !! i = Some a →
    ac_sms (run collate vs s).2 !! j = Some b → collate (sm_phone a) = collate (sm_phone b) →
    T - minutes 3 ≤ sm_created_at a → T - minutes 3 ≤ sm_created_at b → i = j.
Proof.
  intros He Ht. assert (Hwf : codes_wf collate t s).
  { split; intros *; rewrite He, lookup_empty; done. }
  destruct (run_wf collate vs t s Hwf Ht) as [Hwf' Hr]. split; [done|].
  intros T i j a b HT. by apply live_codes_equal with (t := finish t vs).
Qed.

(** The answers that end a verification well, and their number for one phone. *)
Definition accepted (r : result sms_response) : bool :=
  match r with Ok CodeAccepted | Ok (PasswordReset _ _ _) => true | _ => false end.
Definition sent (r : result sms_response) : bool :=
  match r with Ok CodeSent => true | _ => false end.
Definition answers (f : result sms_response → bool) (p : string) (l : list (string * result sms_response)) : Z :=
  zlen (List.filter (λ pr, same pr.1 p && f pr.2) l).

Definition codes_of (p : string) (s : accounts) : Z := count_rows (λ r, same (sm_phone r) p) (ac_sms s).

Lemma answers_cons f p pr l : answers f p (pr :: l) = answers f p l + Z.b2z (same pr.1 p && f pr.2).
Proof. unfold answers, zlen. cbn. destruct (same pr.1 p && f pr.2); cbn; lia. Qed.

Lemma same_congr a b p : collate a = collate b → same a p = same b p.
Proof. unfold SmsCodes.same. by intros ->. Qed.

Lemma without_code_count p phone code k r l s : matching collate phone code s = (k, r) :: l →
  codes_of p (without_code k s) = codes_of p s - Z.b2z (same phone p).
Proof.
  intros Hm. assert (Hin : (k, r) ∈ matching collate phone code s) by (rewrite Hm; by left).
  apply elem_of_matching in Hin as (Hk & Hp & _). unfold codes_of, without_code. cbn.
  rewrite (count_rows_delete _ _ _ _ Hk). by rewrite (same_congr _ _ _ Hp).
Qed.

Lemma outcome_count clk rand t s phone code r s' p : codes_wf collate t s →
  outcome collate clk rand s phone code r s' →
  codes_of p s' + Z.b2z (same phone p && accepted r) ≤ codes_of p s + Z.b2z (same phone p && sent r).
Proof.
  intros [Hk _] Ho. destruct Ho as [a Hq|k x Hf|Hf|Hm|k x Hm _|k x a Hm _ Ha|k x u prof club name role Hm _ _|x y l Hm].
  - by destruct a; cbn in *; rewrite ?andb_false_r.
  - cbn. rewrite !andb_false_r. lia.
  - unfold codes_of, with_code. cbn. rewrite count_rows_new; [cbn [sm_phone accepted sent]; destruct (same phone p); cbn; lia|].
    apply eq_None_not_Some. intros [x Hx%Hk]. lia.
  - cbn. rewrite !andb_false_r. unfold codes_of, without_codes. cbn.
    pose proof (count_rows_filter (λ r, same (sm_phone r) p) (ac_sms s) (λ kr, same (sm_phone kr.2) phone = false)).
    lia.
  - rewrite (without_code_count _ _ _ _ _ _ _ Hm). cbn. rewrite !andb_false_r. destruct (same phone p); cbn; lia.
  - rewrite (without_code_count _ _ _ _ _ _ _ Hm). destruct Ha as [-> | ->], (same phone p); cbn; lia.
  - change (codes_of p (set_password _ _ _)) with (codes_of p (without_code k s)).
    rewrite (without_code_count _ _ _ _ _ _ _ Hm). destruct (same phone p); cbn; lia.
  - cbn. rewrite !andb_false_r. lia.
Qed.

Lemma run_count vs t s p : codes_wf collate t s → timely t vs →
  codes_of p (run collate vs s).2 + answers accepted p (run collate vs s).1
  ≤ codes_of p s + answers sent p (run collate vs s).1.
Proof.
  revert t s. induction vs as [|v vs IH]; intros t s Hwf Ht; [unfold answers; cbn; lia|]. cbn in *.
  destruct Ht as (H0 & H1 & H2 & H3 & Ht). destruct v as [clk rand q]; cbn in *.
  destruct (serve collate clk rand q s) as [r s1] eqn:Hs. apply serve_outcome in Hs.
  assert (Hc : codes_wf collate (clk 0%nat) (cleaned clk s)) by by apply (cleaned_wf collate clk t).
  pose proof (outcome_count _ _ _ _ _ _ _ _ p Hc Hs) as Hle.
  apply outcome_wf in Hs; [|done..]. specialize (IH _ s1 Hs Ht).
  assert (codes_of p (cleaned clk s) ≤ codes_of p s) by apply count_rows_filter.
  destruct (run collate vs s1) as [l s2]. cbn in *. rewrite !answers_cons. cbn. lia.
Qed.

(** C17: Starting without codes, the verifications of a phone that are accepted, password
    resets included, are never more than the codes sent to that phone: every code is used
    once at most. *)
Theorem codes_are_used_once vs t s p : ac_sms s = ∅ → timely t vs →
  answers accepted p (run collate vs s).1 ≤ answers sent p (run collate vs s).1.
Proof.
  intros He Ht. assert (Hwf : codes_wf collate t s).
  { split; intros *; rewrite He, lookup_empty; done. }
  pose proof (run_count vs t s p Hwf Ht) as H. unfold codes_of at 2 in H. rewrite He in H.
  change (count_rows _ ∅) with 0 in H.
  assert (0 ≤ codes_of p (run collate vs s).2) by (unfold codes_of, count_rows, zlen; lia). lia.
Qed.

(** Only a verified reset touches the logins. *)
Definition same_users (s s' : accounts) : Prop := ac_users s' = ac_users s.
#[local] Instance same_users_preorder : PreOrder same_users.
Proof. split; [done|]. unfold same_users. congruence. Qed.

Lemma reset_request clk rand q s :
  ac_users (serve collate clk rand q s).2 = ac_users s ∨ ∃ phone code, q = ForgotVerify phone code.
Proof.
  destruct q as [phone role|phone code|phone|phone code]; [| | |by right; eauto]; left; revert s;
    match goal with |- ∀ s, ac_users (?m s).2 = _ => change (guarantees same_users m) end;
    cbn [serve]; unfold send_code, verify_code, forgot_send, send_new_code, consume_code, cleanup_expired_sms, fresh;
    guarantee; try done.
Qed.

(** C18: A login changes only through a password reset that consumes a code of the last
    three minutes sent to its phone: the row with the phone and the code of the request was
    there and is gone, and the password becomes the one that is answered. *)
Theorem reset_needs_live_code clk rand q s r s' : serve collate clk rand q s = (r, s') →
  ac_users s' ≠ ac_users s →
  ∃ phone code k row u prof club name password role,
    q = ForgotVerify phone code ∧ r = Ok (PasswordReset name password role) ∧
    ac_sms s !! k = Some row ∧ ac_sms s' !! k = None ∧
    collate (sm_phone row) = collate (phone_of q) ∧ collate (sm_code row) = collate (code_given q) ∧
    clk 1%nat - minutes 3 ≤ sm_created_at row ∧
    account_of collate s (phone_of q) = (Some u, prof, club) ∧
    password = new_password s (phone_of q) u prof club ∧
    ac_users s' = alter (λ x, mkUser (us_username x) (Some password)) u (ac_users s).
Proof.
  intros Hs Hu. destruct (reset_request clk rand q s) as [Heq|(phone & code & ->)].
  { by rewrite Hs in Heq. }
  apply serve_outcome in Hs. destruct Hs as [| | | | | |k row u prof club name role Hm Ht Ha|]; try done.
  assert (Hin : (k, row) ∈ matching collate (phone_of (ForgotVerify phone code)) (code_given (ForgotVerify phone code))
                            (cleaned clk s)) by (rewrite Hm; by left).
  apply elem_of_matching in Hin as ([Hk _]%cleaned_sms & Hp & Hc).
  exists phone, code, k, row, u, prof, club, name. eexists _, role. split_and!; try done.
  apply lookup_delete_eq.
Qed.

(** A verification answered with WrongCode leaves no code of the phone at all, so the
    limit of one code in three minutes no longer holds back the next request for a code,
    whoever makes it and however soon. *)
Theorem wrong_code_lifts_limit clk rand q s s' : serve collate clk rand q s = (Ok WrongCode, s') →
  (∀ k row, ac_sms s' !! k = Some row → collate (sm_phone row) ≠ collate (phone_of q)) ∧
  ∀ clk' rand' q' n, collate (phone_of q') = collate (phone_of q) →
    (serve collate clk' rand' q' s').1 ≠ Ok (RetryAfter n).
Proof.
  intros Hs%serve_outcome. assert (Hnone : ∀ k row, ac_sms s' !! k = Some row →
    collate (sm_phone row) ≠ collate (phone_of q)).
  { inversion Hs as [? Hq| | | | |? ? ? ? ? [|]| |]; subst; try discriminate. intros k row.
    unfold without_codes. cbn. intros [_ Hne]%map_lookup_filter_Some He%same_true. cbn in Hne. congruence. }
  split; [done|]. intros clk' rand' q' n Hp Hr.
  destruct (serve collate clk' rand' q' s') as [r s2] eqn:Hs2. cbn in Hr. subst r.
  apply serve_outcome in Hs2. inversion Hs2 as [? Hq|k row Hf| | | |? ? ? ? ? [|]| |]; subst; try discriminate.
  apply first_row_some in Hf as [[Hk _]%cleaned_sms Hrec]. unfold recent in Hrec.
  apply andb_true_iff in Hrec as [He%same_true _]. apply (Hnone k row Hk). congruence.
Qed.

(** A code is in use while a row of the last three minutes has it. *)
Definition in_use (now : Z) (t : gmap Z SMSVerification) (c : string) : Prop :=
  ∃ k r, t !! k = Some r ∧ now - minutes 3 ≤ sm_created_at r ∧ sm_code r = c.

Lemma generated_code now rand s : ∃ i, generate_unique_sms_code now rand s = code_of (rand i) ∧
  (in_use now (ac_sms s) (code_of (rand i)) → ∀ j, (j < 20)%nat → in_use now (ac_sms s) (code_of (rand j))).
Proof.
  set (cs := (λ kr, sm_code kr.2) <$> List.filter (λ kr, now - minutes 3 <=? sm_created_at kr.2) (rows_by_id (ac_sms s))).
  assert (Huse : ∀ c, c ∈ cs ↔ in_use now (ac_sms s) c).
  { intros c. unfold cs. rewrite list_elem_of_fmap. setoid_rewrite elem_of_filter_list. split.
    - intros ([k r] & -> & Hk%elem_of_rows_by_id & Ht%Z.leb_le). exists k, r. done.
    - intros (k & r & Hk & Ht & <-). exists (k, r). split; [done|]. split; [by apply elem_of_rows_by_id|by apply Z.leb_le]. }
  unfold generate_unique_sms_code. fold cs. setoid_rewrite <- Huse.
  destruct (List.filter _ ((λ i, code_of (rand i)) <$> seq 0 20)) as [|c l] eqn:E; cbn [head].
  - exists 20%nat. split; [done|]. intros _ j Hj. destruct (decide (code_of (rand j) ∈ cs)) as [|Hn]; [done|exfalso].
    apply (not_elem_of_nil (code_of (rand j))). rewrite <- E. apply elem_of_filter_list. split.
    + apply list_elem_of_fmap. exists j. split; [done|]. apply elem_of_seq. lia.
    + by rewrite bool_decide_eq_false_2.
  - assert (Hc : c ∈ c :: l) by by left. rewrite <- E in Hc. apply elem_of_filter_list in Hc as [Hc Hn].
    apply list_elem_of_fmap in Hc as (i & -> & _). exists i. split; [done|]. intros Hin.
    by rewrite bool_decide_eq_true_2 in Hn.
Qed.

(** A code that is sent is stored with its phone and the current time, has four digits
    without a leading zero, and differs from every code of the last three minutes of any
    phone unless each of twenty draws hit one of those. *)
Theorem sent_code_is_fresh clk rand q s s' : serve collate clk rand q s = (Ok CodeSent, s') →
  (∀ i, 0 ≤ rand i < 9000) →
  let old := ac_sms (cleaned clk s) in
  ∃ n, 1000 ≤ n ≤ 9999 ∧
    ac_sms s' = <[ac_next_id s := mkSMS (phone_of q) (pretty n) (clk 3%nat)]> old ∧
    (in_use (clk 2%nat) old (pretty n) → ∀ i, (i < 20)%nat → in_use (clk 2%nat) old (code_of (rand i))).
Proof.
  intros Hs%serve_outcome Hrand old. inversion Hs as [? Hq| |Hf| | |? ? ? ? ? [|]| |]; subst; try discriminate.
  destruct (generated_code (clk 2%nat) rand (cleaned clk s)) as (i & Hi & Hall).
  exists (rand i + 1000). specialize (Hrand i). split; [lia|]. split; [|done].
  unfold with_code. rewrite Hi. done.
Qed.
End theorems.

(** ** An example: a forgotten password *)

Definition phone_1 : string := "09131234567".
Definition demo_person : Person :=
  mkPerson "Sara" "Karimi" "" "4610000001" "" "" phone_1 "both" "" "" "" "" "" None "" None "" None [] "" "" ""
    true None None true false None None false None None false None None true.
Definition demo_accounts : accounts :=
  set_ac_users {[1 := mkUser phone_1 (Some "secret"%string)]}
    (set_ac_profiles {[2 := mkProfile (Some 1) demo_person ∅]} (set_ac_next_id 3 empty_accounts)).

(** Readings of the clock after [m] minutes, and draws of [secrets.randbelow]. *)
Definition at_minute (m : Z) (i : nat) : Z := minutes m + Z.of_nat i.
Definition draws (n : Z) (_ : nat) : Z := n.

Definition serve_at (m : Z) (q : sms_request) (s : accounts) : result sms_response * accounts :=
  serve (λ t, t) (at_minute m) (draws 234) q s.

Definition after_send : accounts := (serve_at 10 (ForgotSend (Some phone_1)) demo_accounts).2.
Definition after_wrong : accounts := (serve_at 11 (VerifyCode (Some phone_1) (Some "9999"%string)) after_send).2.
Definition visits : list visit :=
  [mkVisit (at_minute 10) (draws 234) (ForgotSend (Some phone_1));
   mkVisit (at_minute 11) (draws 567) (ForgotSend (Some phone_1));
   mkVisit (at_minute 12) (draws 567) (ForgotVerify (Some phone_1) (Some "1234"%string))].

Example forgotten_password : (run (λ t, t) (take 1 visits) demo_accounts).1 = [(phone_1, Ok CodeSent)]
  ∧ (run (λ t, t) (take 2 visits) demo_accounts).1 = [(phone_1, Ok CodeSent); (phone_1, Ok (RetryAfter 121))]
  ∧ (serve_at 11 (ForgotVerify (Some phone_1) (Some "1234"%string)) after_send).1
    = Ok (PasswordReset phone_1 "4610000001" "both").
Proof. split_and!; by vm_compute. Qed.

Lemma visits_timely : timely 0 visits.
Proof. cbn. unfold at_minute, minutes. split_and!; (done || lia). Qed.

Lemma one_live_code_per_phone_witness :
  (∀ p r, (p, r) ∈ (run (λ t, t) visits demo_accounts).1 → ∃ a, r = Ok a) ∧
  ∀ T i j a b, finish 0 visits ≤ T → ac_sms (run (λ t, t) visits demo_accounts).2 !! i = Some a →
    ac_sms (run (λ t, t) visits demo_accounts).2 !! j = Some b → sm_phone a = sm_phone b →
    T - minutes 3 ≤ sm_created_at a → T - minutes 3 ≤ sm_created_at b → i = j.
Proof. exact (one_live_code_per_phone (λ t, t) visits 0 demo_accounts eq_refl visits_timely). Defined.

Lemma codes_are_used_once_witness :
  answers (λ t, t) accepted phone_1 (run (λ t, t) visits demo_accounts).1 = 1 ∧
  answers (λ t, t) accepted phone_1 (run (λ t, t) visits demo_accounts).1
  ≤ answers (λ t, t) sent phone_1 (run (λ t, t) visits demo_accounts).1.
Proof.
  split; [by vm_compute|].
  exact (codes_are_used_once (λ t, t) visits 0 demo_accounts phone_1 eq_refl visits_timely).
Defined.

Lemma reset_needs_live_code_witness :
  ∃ phone code k row u prof club name password role,
    ForgotVerify (Some phone_1) (Some "1234"%string) = ForgotVerify phone code ∧
    Ok (PasswordReset phone_1 "4610000001" "both") = Ok (PasswordReset name password role) ∧
    ac_sms after_send !! k = Some row ∧
    ac_sms (serve_at 11 (ForgotVerify (Some phone_1) (Some "1234"%string)) after_send).2 !! k = None ∧
    sm_phone row = phone_1 ∧ sm_code row = "1234"%string ∧ at_minute 11 1 - minutes 3 ≤ sm_created_at row ∧
    account_of (λ t, t) after_send phone_1 = (Some u, prof, club) ∧
    password = new_password after_send phone_1 u prof club ∧
    ac_users (serve_at 11 (ForgotVerify (Some phone_1) (Some "1234"%string)) after_send).2
    = alter (λ x, mkUser (us_username x) (Some password)) u (ac_users after_send).
Proof.
  refine (reset_needs_live_code (λ t, t) (at_minute 11) (draws 234) (ForgotVerify (Some phone_1) (Some "1234"%string))
            after_send (Ok (PasswordReset phone_1 "4610000001" "both"))
            (serve_at 11 (ForgotVerify (Some phone_1) (Some "1234"%string)) after_send).2 _ _).
  - vm_compute. reflexivity.
  - intros H. apply (f_equal (λ m : gmap Z User, us_password <$> m !! 1)) in H. vm_compute in H. discriminate H.
Defined.

Lemma wrong_code_lifts_limit_witness :
  ac_sms after_send ≠ ∅ ∧
  (∀ k row, ac_sms after_wrong !! k = Some row → sm_phone row ≠ phone_1) ∧
  ∀ clk' rand' q' n, phone_of q' = phone_1 → (serve (λ t, t) clk' rand' q' after_wrong).1 ≠ Ok (RetryAfter n).
Proof.
  split; [by vm_compute|].
  refine (wrong_code_lifts_limit (λ t, t) (at_minute 11) (draws 234) (VerifyCode (Some phone_1) (Some "9999"%string))
            after_send after_wrong _).
  vm_compute. reflexivity.
Defined.

Lemma sent_code_is_fresh_witness :
  ∃ n, 1000 ≤ n ≤ 9999 ∧
    ac_sms after_send = <[3 := mkSMS phone_1 (pretty n) (at_minute 10 3)]> (ac_sms (cleaned (at_minute 10) demo_accounts)) ∧
    (in_use (at_minute 10 2) (ac_sms (cleaned (at_minute 10) demo_accounts)) (pretty n) →
     ∀ i, (i < 20)%nat → in_use (at_minute 10 2) (ac_sms (cleaned (at_minute 10) demo_accounts)) (code_of (draws 234 i))).
Proof.
  refine (sent_code_is_fresh (λ t, t) (at_minute 10) (draws 234) (ForgotSend (Some phone_1)) demo_accounts after_send _ _).
  - vm_compute. reflexivity.
  - intros i. unfold draws. lia.
Defined.
