(* ===== verification/Login.v ===== *)
(** The logins of [src/accounts/views.py]: [UniversalLoginAPIView] with its role groups and
    [HeyatLoginAPIView].

    [authenticate] is Django's check of a user name and a password.  The access tokens of a
    successful login are not represented: an answer names the user they are for. *)

From S2P Require Import Prelude Store Ranking Payments GroupRegistration Text Accounts SmsCodes.
Local Open Scope Z_scope.

(** ** Roles *)

Definition ROLE_GROUPS (group : string) : option (gset string) :=
  if String.eqb group "player" then Some {["player"]}
  else if String.eqb group "coachref" then Some {["coach"; "referee"; "both"]}
  else if String.eqb group "club" then Some {["club"]}
  else if String.eqb group "heyat" then Some {["heyat"; "board"]}
  else None.

Definition ROLE_PRIORITY : list string := ["club"; "heyat"; "coach"; "referee"; "both"; "player"].

(** [_roles_of] *)
Definition profile_roles (role : string) : gset string :=
  let r := lower (strip role) in
  if String.eqb r "both" then {["coach"; "referee"; "both"]}
  else if bool_decide (r ∈ ["player"; "coach"; "referee"])%string then {[r]} else ∅.

Definition _roles_of (s : accounts) (u : Z) : gset string :=
  let roles := match profile_of s u with
               | Some (_, prof) => profile_roles (pe_role (pf_person prof))
               | None => ∅
               end in
  let roles := if is_none (club_of s u) then roles else {["club"%string]} ∪ roles in
  let roles := if is_none (board_of s u) then roles else {["heyat"%string]} ∪ roles in
  if decide (roles = ∅) then {["player"%string]} else roles.

(** The first role of [ROLE_PRIORITY] in a set. *)
Definition first_role (roles : gset string) : option string :=
  List.find (λ r, bool_decide (r ∈ roles)) ROLE_PRIORITY.

Definition _pick_role_for_response (allowed_hit user_roles : gset string) (req_group : string) : string :=
  let picked :=
    match ROLE_GROUPS req_group with
    | Some group_roles =>
        let inter := if decide (user_roles ∩ group_roles = ∅) then allowed_hit else user_roles ∩ group_roles in
        first_role inter
    | None => None
    end in
  match picked with
  | Some r => r
  | None => default "player"%string (first_role user_roles)
  end.

(** ** The views *)

Inductive login_response :=
  | IdentifierRequired
  | PasswordRequired
  | GroupMissing
  | GroupInvalid
  | BadCredentials
  | RoleDenied (user_roles required_any_of : gset string)
  | LoggedIn (user : Z) (role : string) (roles : gset string).

(** The fields of a request; an absent one is [None]. *)
Record login_request := mkLogin {
  lg_username : option string;
  lg_identifier : option string;
  lg_password : option string;
  lg_otp : option string;
  lg_header_group : option string;
  lg_data_group : option string;
  lg_query_group : option string;
}.

(** [a or b] on fields. *)
Definition or_field (a b : option string) : option string := if truthy_str (opt_str a) then a else b.

Definition login_name (q : login_request) : string :=
  _normalize_digits (Some (opt_str (or_field (lg_username q) (lg_identifier q)))).
Definition login_password (q : login_request) : string := _normalize_digits (Some (opt_str (lg_password q))).
Definition login_group (q : login_request) : string :=
  lower (strip (or_str (or_str (opt_str (lg_header_group q)) (opt_str (lg_data_group q))) (opt_str (lg_query_group q)))).

Section login.
Context (authenticate : string → string → option Z).

(** [UniversalLoginAPIView.post] *)
Definition universal_login (s : accounts) (q : login_request) : login_response :=
  let username := login_name q in
  let password := login_password q in
  let otp := _normalize_digits (Some (opt_str (lg_otp q))) in
  let req_group := login_group q in
  if negb (truthy_str username) && negb (truthy_str otp) then IdentifierRequired
  else if negb (truthy_str password) && negb (truthy_str otp) then PasswordRequired
  else if negb (truthy_str req_group) then GroupMissing
  else match ROLE_GROUPS req_group with
       | None => GroupInvalid
       | Some allowed =>
           match (if truthy_str password then authenticate username password else None) with
           | None => BadCredentials
           | Some user =>
               let user_roles := _roles_of s user in
               let hit := user_roles ∩ allowed in
               if decide (hit = ∅) then RoleDenied user_roles allowed
               else LoggedIn user (_pick_role_for_response hit user_roles req_group) user_roles
           end
       end.

(** [HeyatLoginAPIView.post]: the board of a successful login. *)
Inductive board_response :=
  | CredentialsRequired
  | BoardBadCredentials
  | BoardNotFound
  | BoardLoggedIn (user board : Z).

Definition heyat_login (s : accounts) (username password : option string) : board_response :=
  if negb (truthy_str (opt_str username)) || negb (truthy_str (opt_str password)) then CredentialsRequired
  else match authenticate (opt_str username) (opt_str password) with
       | None => BoardBadCredentials
       | Some user =>
           match board_of s user with
           | None => BoardNotFound
           | Some (b, _) => BoardLoggedIn user b
           end
       end.

(** ** Correctness *)

Lemma first_role_spec roles r : first_role roles = Some r →
  r ∈ roles ∧ ∀ i j r', ROLE_PRIORITY !! i = Some r → ROLE_PRIORITY !! j = Some r' → (j < i)%nat → r' ∉ roles.
Proof.
  unfold first_role. intros H. assert (Hr : r ∈ roles).
  { apply List.find_some in H as [_ H]. by apply bool_decide_eq_true in H. }
  split; [done|]. intros i j r' Hi Hj Hlt Hin.
  assert (Hn : ∀ l, List.find (λ r, bool_decide (r ∈ roles)) l = Some r → NoDup l → l !! i = Some r → l !! j = Some r' → False).
  { clear -Hr Hlt Hin. revert i j Hlt. intros i j Hlt l. revert i j Hlt.
    induction l as [|x l IH]; intros i j Hlt Hf Hd Hi Hj; [done|]. cbn in Hf.
    apply NoDup_cons in Hd as [Hx Hd]. destruct (bool_decide (x ∈ roles)) eqn:Ex.
    - injection Hf as ->. destruct i as [|i]; [lia|]. cbn in Hi. apply Hx. by eapply list_elem_of_lookup_2.
    - destruct j as [|j]; cbn in Hj.
      + injection Hj as ->. by rewrite bool_decide_eq_true_2 in Ex.
      + destruct i as [|i]; [lia|]. cbn in Hi. apply (IH i j); [lia|done..]. }
  apply (Hn _ H); [|done|done]. by apply (bool_decide_unpack _); vm_compute.
Qed.

Lemma first_role_none roles : first_role roles = None → ∀ r, r ∈ ROLE_PRIORITY → r ∉ roles.
Proof.
  intros H r Hr Hin. apply List.find_none with (x := r) in H; [|by apply list_elem_of_In].
  by rewrite bool_decide_eq_true_2 in H.
Qed.

Lemma roles_known s u r : r ∈ _roles_of s u → r ∈ ROLE_PRIORITY.
Proof.
  assert (Hp : ∀ role, r ∈ profile_roles role → r ∈ ROLE_PRIORITY).
  { intros role. unfold profile_roles. destruct (String.eqb _ _); [set_solver|].
    destruct (bool_decide _) eqn:E; [|set_solver]. apply bool_decide_eq_true in E. set_solver. }
  unfold _roles_of. destruct (decide _); [set_solver|]. clear n.
  destruct (is_none (board_of s u)), (is_none (club_of s u)), (profile_of s u) as [[k p]|]; set_solver.
Qed.

Lemma pick_role s u group allowed : ROLE_GROUPS group = Some allowed → _roles_of s u ∩ allowed ≠ ∅ →
  let role := _pick_role_for_response (_roles_of s u ∩ allowed) (_roles_of s u) group in
  first_role (_roles_of s u ∩ allowed) = Some role.
Proof.
  intros Hg Hne role. unfold role, _pick_role_for_response. rewrite Hg, decide_False by done.
  destruct (first_role _) as [r|] eqn:E; [done|]. exfalso.
  apply set_choose_L in Hne as [x Hx]. apply (first_role_none _ E x); [|done].
  apply (roles_known s u). set_solver.
Qed.

Lemma truthy_true s : truthy_str s = true ↔ s ≠ ""%string.
Proof. unfold truthy_str. rewrite negb_true_iff. apply String.eqb_neq. Qed.

Lemma group_named group allowed : ROLE_GROUPS group = Some allowed → truthy_str group = true.
Proof. intros H. apply truthy_true. intros ->. discriminate H. Qed.

(** A login succeeds exactly when the name and the password, digits normalised, are
    those of a user with a role in the requested group (a one-time code, which nothing
    checks, only excuses an empty name); the answer then lists the roles of the user and
    picks the one of the group that comes first in the order of priority. *)
Theorem login_succeeds_iff s q u role roles : universal_login s q = LoggedIn u role roles ↔
  ∃ allowed, ROLE_GROUPS (login_group q) = Some allowed ∧
    (login_name q ≠ ""%string ∨ _normalize_digits (Some (opt_str (lg_otp q))) ≠ ""%string) ∧
    login_password q ≠ ""%string ∧
    authenticate (login_name q) (login_password q) = Some u ∧
    roles = _roles_of s u ∧ first_role (roles ∩ allowed) = Some role.
Proof.
  unfold universal_login. set (otp := _normalize_digits _). setoid_rewrite <- truthy_true. split.
  - intros H. destruct (negb (truthy_str (login_name q)) && negb (truthy_str otp)) eqn:E1; [done|].
    destruct (negb (truthy_str (login_password q)) && negb (truthy_str otp)); [done|].
    destruct (negb (truthy_str (login_group q))); [done|].
    destruct (ROLE_GROUPS (login_group q)) as [allowed|] eqn:Eg; [|done]. exists allowed.
    destruct (truthy_str (login_password q)) eqn:Ep; [|done].
    destruct (authenticate _ _) as [u'|] eqn:Ea; [|done]. destruct (decide _) as [|Hne]; [done|].
    injection H as -> <- <-. split_and!; try done; [|by apply pick_role].
    destruct (truthy_str (login_name q)); [by left|]. destruct (truthy_str otp); [by right|done].
  - intros (allowed & Eg & Hn & Ep & Ea & -> & Hr). rewrite Ep, Eg, Ea, (group_named _ _ Eg).
    assert (negb (truthy_str (login_name q)) && negb (truthy_str otp) = false) as ->.
    { destruct Hn as [-> | ->]; [done|apply andb_false_r]. }
    cbn. destruct (decide _) as [He|Hne].
    + exfalso. apply first_role_spec in Hr as [Hr _]. rewrite He in Hr. set_solver.
    + f_equal. pose proof (pick_role s u (login_group q) allowed Eg Hne) as Hp. cbv zeta in Hp. congruence.
Qed.

(** A user who reaches the board group has a board, and the other way around. *)
Lemma heyat_group s u : _roles_of s u ∩ {["heyat"; "board"]} ≠ ∅ ↔ board_of s u ≠ None.
Proof.
  assert (Hp : ∀ role, profile_roles role ∩ {["heyat"; "board"]} = ∅).
  { intros role. unfold profile_roles. destruct (String.eqb _ _); [by vm_compute|].
    destruct (bool_decide _) eqn:E; [|set_solver]. apply bool_decide_eq_true in E.
    generalize dependent (lower (strip role)). intros r E.
    repeat (apply elem_of_cons in E as [->|E]; [by vm_compute|]). by apply not_elem_of_nil in E. }
  unfold _roles_of. destruct (board_of s u) as [b|]; cbn.
  - split; [done|]. intros _. destruct (decide _) as [He|]; set_solver.
  - split; [|done]. intros Hne _. apply Hne. clear Hne.
    destruct (decide _); [by vm_compute|]. clear n.
    destruct (is_none (club_of s u)), (profile_of s u) as [[k p]|]; rewrite ?intersection_union_r_L, ?Hp; set_solver.
Qed.

(** On a name and a password that are already in normal form, the board's own login and
    the universal login with the group of the boards accept the same users. *)
Theorem board_logins_agree s name password u :
  _normalize_digits (Some name) = name → _normalize_digits (Some password) = password →
  (∃ b, heyat_login s (Some name) (Some password) = BoardLoggedIn u b) ↔
  ∃ role roles, universal_login s (mkLogin (Some name) None (Some password) None (Some "heyat"%string) None None)
                = LoggedIn u role roles.
Proof.
  intros Hn Hw. set (q := mkLogin _ _ _ _ _ _ _).
  assert (Hname : login_name q = name).
  { unfold login_name, or_field. cbn. destruct (truthy_str name) eqn:E; [done|].
    apply negb_false_iff, String.eqb_eq in E. by rewrite E. }
  assert (Hpass : login_password q = password) by done.
  assert (Hgroup : ROLE_GROUPS (login_group q) = Some {["heyat"; "board"]}%string) by by vm_compute.
  unfold heyat_login, universal_login. rewrite Hname, Hpass, Hgroup. cbn.
  destruct (truthy_str name) eqn:En, (truthy_str password) eqn:Ep; cbn;
    try (split; [by intros [??]|by intros (? & ? & ?)]).
  destruct (authenticate name password) as [v|]; [|split; [by intros [??]|by intros (? & ? & ?)]].
  pose proof (heyat_group s v) as Hb. destruct (board_of s v) as [[b x]|]; destruct (decide _) as [He|Hne].
  - exfalso. by apply Hb.
  - split; [intros [? [= -> _]]; eauto|intros (? & ? & [= -> _ _]); eauto].
  - split; [by intros [??]|by intros (? & ? & ?)].
  - exfalso. by apply Hb in Hne.
Qed.
End login.

(** ** Examples *)

Definition demo_auth (name password : string) : option Z :=
  if String.eqb name phone_1 && String.eqb password "secret" then Some 1 else None.

Definition demo_login (group : string) : login_request :=
  mkLogin None (Some "۰۹۱۳۱۲۳۴۵۶۷"%string) (Some "secret"%string) None None (Some group) None.

(** Someone who is coach and referee is answered the role coach. *)
Example logins :
  universal_login demo_auth demo_accounts (demo_login "CoachRef") = LoggedIn 1 "coach" {["coach"; "referee"; "both"]}
  ∧ universal_login demo_auth demo_accounts (demo_login "player") = RoleDenied {["coach"; "referee"; "both"]} {["player"]}
  ∧ universal_login demo_auth demo_accounts (demo_login "board") = GroupInvalid.
Proof. split_and!; by vm_compute. Qed.

Definition board_accounts : accounts :=
  set_ac_boards {[5 := mkBoard "Shahrekord" (Some 1)]} demo_accounts.

Lemma board_logins_agree_witness :
  (∃ b, heyat_login demo_auth board_accounts (Some phone_1) (Some "secret"%string) = BoardLoggedIn 1 b) ↔
  ∃ role roles, universal_login demo_auth board_accounts
                  (mkLogin (Some phone_1) None (Some "secret"%string) None (Some "heyat"%string) None None)
                = LoggedIn 1 role roles.
Proof. apply (board_logins_agree demo_auth board_accounts phone_1 "secret" 1); vm_compute; reflexivity. Defined.
