(* ===== verification/CoachClubs.v ===== *)
(** Coaches and clubs ([src/accounts/views.py]): the clubs a coach names, the requests a club
    sends to coaches, and the answers of the coaches ([CoachClubRequest]).

    [order] is the order in which Python visits a set.  The ids a request names are integers;
    the profile of the user of a request is found by [SmsCodes.profile_of]. *)

From S2P Require Import Prelude Store Ranking Accounts SmsCodes.
Local Open Scope Z_scope.

(** ** The views *)

Inductive club_response :=
  | NotACoach
  | TooManyClubs
  | ClubsUpdated
  | ClubNotFound
  | BadData
  | RequestsStored
  | RequestNotFound
  | RequestAccepted
  | RequestRejected
  | UnknownAction.

#[export] Instance club_response_dec : EqDecision club_response.
Proof. solve_decision. Defined.

(** [request.user.profile], which raises when the user has none. *)
Definition own_profile (user : Z) : M accounts (Z * Profile) :=
  (s <~ get ;; of_option (profile_of s user) DoesNotExist)%monad.

Definition set_clubs (k : Z) (f : gset Z → gset Z) (s : accounts) : accounts :=
  set_ac_profiles (alter (λ p, mkProfile (pf_user p) (pf_person p) (f (pf_coaching_clubs p))) k (ac_profiles s)) s.

(** [UpdateCoachClubsAPIView.patch]; [None] is a value that is not a list, and an absent
    field is the empty list. *)
Definition update_coach_clubs (user : Z) (club_ids : option (list Z)) : M accounts club_response :=
  (coach <~ own_profile user ;;
   if negb (pe_is_coach (pf_person coach.2)) then ret NotACoach
   else match club_ids with
        | None => ret TooManyClubs
        | Some ids =>
            if 3 <? zlen ids then ret TooManyClubs
            else
              s <~ get ;;
              let clubs := filter (λ c, is_Some (ac_clubs s !! c)) (list_to_set ids : gset Z) in
              modify (set_clubs coach.1 (λ _, clubs)) ;;;
              ret ClubsUpdated
        end)%monad.

Definition is_request (coach club : Z) (t : request_type) (r : CoachClubRequest) : bool :=
  (rq_coach r =? coach) && (rq_club r =? club) && bool_decide (rq_request_type r = t).

(** [CoachClubRequest.objects.get_or_create] *)
Definition get_or_create_request (coach club : Z) (t : request_type) : M accounts unit :=
  (s <~ get ;;
   if exists_row (is_request coach club t) (ac_requests s) then ret tt
   else
     k <~ fresh ;;
     modify (λ s, set_ac_requests (<[k := mkRequest coach club t Pending]> (ac_requests s)) s))%monad.

(** The two loops of [UpdateClubCoachesView.post].  An id without a profile gives a row
    without a coach, which the database refuses. *)
Definition request_add (club coach_id : Z) : M accounts unit :=
  (s <~ get ;;
   match ac_profiles s !! coach_id with
   | Some coach =>
       if 3 <=? Z.of_nat (size (pf_coaching_clubs coach)) then ret tt
       else get_or_create_request coach_id club Add
   | None => raise IntegrityError
   end)%monad.

Definition request_remove (club coach_id : Z) : M accounts unit :=
  (s <~ get ;;
   match ac_profiles s !! coach_id with
   | Some _ => get_or_create_request coach_id club Remove
   | None => raise IntegrityError
   end)%monad.

(** [club.coaches]: the profiles that have the club among their clubs. *)
Definition coaches_of (s : accounts) (club : Z) : gset Z :=
  dom (filter (λ kp, club ∈ pf_coaching_clubs kp.2) (ac_profiles s)).

(** [UpdateClubCoachesView.post] *)
Definition update_club_coaches (order : gset Z → list Z) (user : Z) (selected : option (list Z))
    : M accounts club_response :=
  (s <~ get ;;
   match club_of s user with
   | None => ret ClubNotFound
   | Some (club, _) =>
       match selected with
       | None => ret BadData
       | Some ids =>
           let active_ids := coaches_of s club in
           let selected_ids := list_to_set ids : gset Z in
           forM (order (selected_ids ∖ active_ids)) (request_add club) ;;;
           forM (order (active_ids ∖ selected_ids)) (request_remove club) ;;;
           ret RequestsStored
       end
   end)%monad.

Definition set_status (pk : Z) (v : request_status) (s : accounts) : accounts :=
  set_ac_requests (alter (λ r, mkRequest (rq_coach r) (rq_club r) (rq_request_type r) v) pk (ac_requests s)) s.

(** [RespondToCoachRequestView.post] *)
Definition respond (user pk : Z) (action : option string) : M accounts club_response :=
  (coach <~ own_profile user ;;
   s <~ get ;;
   match ac_requests s !! pk with
   | Some req =>
       if (rq_coach req =? coach.1) && bool_decide (rq_status req = Pending) then
         if bool_decide (action = Some "accept"%string) then
           modify (set_clubs coach.1 (λ clubs, match rq_request_type req with
                                               | Add => {[rq_club req]} ∪ clubs
                                               | Remove => clubs ∖ {[rq_club req]}
                                               end)) ;;;
           modify (set_status pk Accepted) ;;;
           ret RequestAccepted
         else if bool_decide (action = Some "reject"%string) then
           modify (set_status pk Rejected) ;;;
           ret RequestRejected
         else ret UnknownAction
       else ret RequestNotFound
   | None => ret RequestNotFound
   end)%monad.

(** [PendingCoachRequestsView.get]: the open requests of a coach. *)
Definition pending_requests (s : accounts) (user : Z) : list (Z * CoachClubRequest) :=
  match profile_of s user with
  | None => []
  | Some (coach, p) =>
      if pe_is_coach (pf_person p) then
        List.filter (λ kr, (rq_coach kr.2 =? coach) && bool_decide (rq_status kr.2 = Pending))
          (rows_by_id (ac_requests s))
      else []
  end.

(** [ClubAllCoachesView.get] with [ClubCoachInfoSerializer]: the coaches of the club first. *)
Record coach_info := mkCoachInfo {
  ci_id : Z;
  ci_full_name : string;
  ci_national_code : string;
  ci_phone : string;
  ci_belt_grade : string;
  ci_club_count : Z;
  ci_is_active : bool;
  ci_pending_status : option request_type;
}.

Definition coach_info_of (s : accounts) (club : Z) (kp : Z * Profile) : coach_info :=
  let pending t := exists_row (λ r, is_request kp.1 club t r && bool_decide (rq_status r = Pending)) (ac_requests s) in
  mkCoachInfo kp.1 (pe_first_name (pf_person kp.2) ++ " " ++ pe_last_name (pf_person kp.2))
    (pe_national_code (pf_person kp.2)) (pe_phone (pf_person kp.2)) (pe_belt_grade (pf_person kp.2))
    (Z.of_nat (size (pf_coaching_clubs kp.2))) (bool_decide (club ∈ pf_coaching_clubs kp.2))
    (if pending Add then Some Add else if pending Remove then Some Remove else None).

Definition club_all_coaches (s : accounts) (user : Z) : option (list coach_info) :=
  match club_of s user with
  | None => None
  | Some (club, _) =>
      Some (sort_by (λ x y, implb (ci_is_active y) (ci_is_active x))
              (coach_info_of s club <$>
                 List.filter (λ kp, pe_is_coach (pf_person kp.2)) (rows_by_id (ac_profiles s))))
  end.

(** ** How the requests evolve *)

Record requests_wf (s : accounts) : Prop := {
  request_keys : ∀ k r, ac_requests s !! k = Some r → k < ac_next_id s;
  request_unique : ∀ i j a b, ac_requests s !! i = Some a → ac_requests s !! j = Some b →
    rq_coach a = rq_coach b → rq_club a = rq_club b → rq_request_type a = rq_request_type b → i = j;
}.

(** A request stays with its coach, club and type, and only leaves the state pending. *)
Definition requests_kept (s s' : accounts) : Prop :=
  ∀ k r, ac_requests s !! k = Some r → ∃ r', ac_requests s' !! k = Some r' ∧
    rq_coach r' = rq_coach r ∧ rq_club r' = rq_club r ∧ rq_request_type r' = rq_request_type r ∧
    (rq_status r' = rq_status r ∨ rq_status r = Pending).

Definition evolves (s s' : accounts) : Prop := requests_wf s → requests_wf s' ∧ requests_kept s s'.

#[export] Instance evolves_preorder : PreOrder evolves.
Proof.
  split.
  - intros s Hs. split; [done|]. intros k r Hr. exists r. split_and!; auto.
  - intros s1 s2 s3 H12 H23 Hs. destruct (H12 Hs) as [Hs2 K12]. destruct (H23 Hs2) as [Hs3 K23].
    split; [done|]. intros k r Hr. destruct (K12 k r Hr) as (r2 & Hr2 & Hc & Hb & Ht & Hst).
    destruct (K23 k r2 Hr2) as (r3 & Hr3 & Hc3 & Hb3 & Ht3 & Hst3). exists r3.
    split_and!; [done|congruence..|]. destruct Hst as [Hst|Hst]; [|by right].
    destruct Hst3 as [Hst3|Hst3]; [left|right]; congruence.
Qed.

Lemma evolves_same s s' : ac_requests s' = ac_requests s → ac_next_id s' = ac_next_id s → evolves s s'.
Proof.
  intros Hr Hn [Hk Hu]. split.
  - split; intros *; rewrite ?Hr, ?Hn; (apply Hk || apply Hu).
  - intros k r H. exists r. rewrite Hr. split_and!; auto.
Qed.

Lemma is_request_true coach club t r : is_request coach club t r = true ↔
  rq_coach r = coach ∧ rq_club r = club ∧ rq_request_type r = t.
Proof. unfold is_request. rewrite !andb_true_iff, !Z.eqb_eq, bool_decide_eq_true. tauto. Qed.

Lemma get_or_create_evolves coach club t : guarantees evolves (get_or_create_request coach club t).
Proof.
  intros s Hwf. unfold get_or_create_request, bind, get, fresh, modify. cbn.
  destruct (exists_row _ _) eqn:E; [by apply evolves_same|]. cbn. rewrite exists_row_false in E.
  pose proof Hwf as [Hk Hu].
  assert (Hnone : ac_requests s !! ac_next_id s = None).
  { apply eq_None_not_Some. intros [r Hr%Hk]. lia. }
  assert (Hnew : ∀ j b, ac_requests s !! j = Some b → coach = rq_coach b → club = rq_club b →
    t = rq_request_type b → False).
  { intros j b Hb Hc Hcl Ht. specialize (E j b Hb). apply not_true_iff_false in E. apply E, is_request_true. auto. }
  split.
  - split; cbn.
    + intros k r [[<- <-]|[_ Hr%Hk]]%lookup_insert_Some; lia.
    + intros i j a b [[<- <-]|[_ Ha]]%lookup_insert_Some [[<- <-]|[_ Hb]]%lookup_insert_Some Hc Hcl Ht; cbn in *.
      * done.
      * exfalso. by eapply Hnew.
      * exfalso. by eapply Hnew.
      * by eapply Hu.
  - intros k r Hr. exists r. cbn. rewrite lookup_insert_ne by (apply not_eq_sym; congruence). split_and!; auto.
Qed.

Lemma set_status_evolves pk v s r : ac_requests s !! pk = Some r → rq_status r = Pending →
  evolves s (set_status pk v s).
Proof.
  intros Hr Hp [Hk Hu]. unfold set_status. split.
  - split; cbn.
    + intros k x [Hx|Hx]%lookup_alter_Some; [destruct Hx as (-> & y & Hy & _)|destruct Hx as [_ Hy]]; by eapply Hk.
    + assert (Hb : ∀ i a, alter (λ r, mkRequest (rq_coach r) (rq_club r) (rq_request_type r) v) pk (ac_requests s) !! i = Some a →
        ∃ a', ac_requests s !! i = Some a' ∧ rq_coach a = rq_coach a' ∧ rq_club a = rq_club a' ∧ rq_request_type a = rq_request_type a').
      { intros i a [(<- & y & Hy & ->)|[_ Hy]]%lookup_alter_Some; eauto. }
      intros i j a b (a' & Ha & ? & ? & ?)%Hb (b' & Hb' & ? & ? & ?)%Hb ? ? ?. eapply Hu; eauto; congruence.
  - intros k x Hx. cbn. destruct (decide (pk = k)) as [->|Hne].
    + rewrite lookup_alter_eq, Hx. eexists. split; [done|]. cbn. split_and!; try done. right. congruence.
    + rewrite lookup_alter_ne by done. exists x. split_and!; auto.
Qed.

(** ** Sequences of requests *)

Inductive club_request :=
  | UpdateClubs (user : Z) (club_ids : option (list Z))
  | UpdateCoaches (user : Z) (selected : option (list Z))
  | Respond (user pk : Z) (action : option string).

Section serving.
Context (order : gset Z → list Z).

Definition serve_club (q : club_request) : M accounts club_response :=
  match q with
  | UpdateClubs user ids => update_coach_clubs user ids
  | UpdateCoaches user selected => update_club_coaches order user selected
  | Respond user pk action => respond user pk action
  end.

Inductive club_step : accounts → accounts → Prop :=
  | serve_step q s : club_step s (serve_club q s).2.

Lemma own_profile_reads user s : (own_profile user s).2 = s.
Proof. unfold own_profile, bind, get. by destruct (profile_of s user). Qed.

Lemma own_profile_evolves user : guarantees evolves (own_profile user).
Proof. apply guarantees_reads, own_profile_reads. apply _. Qed.

#[local] Hint Resolve get_or_create_evolves own_profile_evolves : guarantees.

Lemma request_add_evolves club k : guarantees evolves (request_add club k).
Proof. unfold request_add. guarantee. Qed.

Lemma request_remove_evolves club k : guarantees evolves (request_remove club k).
Proof. unfold request_remove. guarantee. Qed.

#[local] Hint Resolve request_add_evolves request_remove_evolves : guarantees.

Lemma respond_ok user pk action s r s' : respond user pk action s = (r, s') → s' = s ∨
  ∃ coach p req, profile_of s user = Some (coach, p) ∧ ac_requests s !! pk = Some req ∧
    rq_coach req = coach ∧ rq_status req = Pending ∧
    (action = Some "reject"%string ∧ r = Ok RequestRejected ∧ s' = set_status pk Rejected s ∨
     action = Some "accept"%string ∧ r = Ok RequestAccepted ∧
     s' = set_status pk Accepted (set_clubs coach (λ clubs, match rq_request_type req with
                                                       | Add => {[rq_club req]} ∪ clubs
                                                       | Remove => clubs ∖ {[rq_club req]} end) s)).
Proof.
  unfold respond, own_profile, bind, get, modify. destruct (profile_of s user) as [[coach p]|]; cbn.
  2: { intros [= <- <-]. by left. }
  destruct (ac_requests s !! pk) as [req|] eqn:Er; [|intros [= <- <-]; by left].
  destruct (_ && _) eqn:E; [|intros [= <- <-]; by left].
  apply andb_true_iff in E as [Hc%Z.eqb_eq Hp]. apply bool_decide_eq_true in Hp.
  destruct (bool_decide (action = Some "accept"%string)) eqn:Ea.
  { apply bool_decide_eq_true in Ea. intros [= <- <-]. right. exists coach, p, req. split_and!; auto. }
  destruct (bool_decide (action = Some "reject"%string)) eqn:Ej; [|intros [= <- <-]; by left].
  apply bool_decide_eq_true in Ej. intros [= <- <-]. right. exists coach, p, req. split_and!; auto.
Qed.

Lemma serve_club_evolves q : guarantees evolves (serve_club q).
Proof.
  destruct q as [user ids|user selected|user pk action]; cbn.
  - unfold update_coach_clubs. guarantee. apply guarantees_modify. intros ?.
    by apply evolves_same.
  - unfold update_club_coaches. guarantee.
  - intros s. destruct (respond user pk action s) as [r s'] eqn:E. apply respond_ok in E.
    destruct E as [->|(coach & p & req & _ & Hr & _ & Hp & [(_ & _ & ->)|(_ & _ & ->)])]; cbn [snd].
    + reflexivity.
    + by apply set_status_evolves with req.
    + etrans; [|apply (set_status_evolves pk Accepted _ req); done]. by apply evolves_same.
Qed.

(** C19: Through every sequence of these requests a club and a coach have at most one request
    of each type, a request stays with its coach, club and type, and once it is accepted or
    rejected it never changes again: no later request of that type between the two exists. *)
Theorem requests_settle_once s s' : requests_wf s → rtc club_step s s' →
  requests_wf s' ∧ requests_kept s s' ∧
  ∀ k r j r', ac_requests s !! k = Some r → rq_status r ≠ Pending → ac_requests s' !! j = Some r' →
    rq_coach r' = rq_coach r → rq_club r' = rq_club r → rq_request_type r' = rq_request_type r → r' = r.
Proof.
  intros Hwf Hsteps. assert (He : evolves s s').
  { clear Hwf. induction Hsteps as [s|s s1 s2 [q s0] _ IH]; [reflexivity|]. etrans; [apply serve_club_evolves|exact IH]. }
  destruct (He Hwf) as [Hwf' Hk]. split; [done|]. split; [done|].
  intros k r j r' Hr Hs Hr' Hc Hb Ht. destruct (Hk k r Hr) as (x & Hx & Hxc & Hxb & Hxt & [Hxs|]); [|done].
  assert (j = k) as ->. { apply (request_unique s' Hwf' j k r' x); congruence. }
  destruct r, x, r'; cbn in *; congruence.
Qed.

(** The clubs of a profile. *)
Definition clubs_at (s : accounts) (p : Z) : option (gset Z) := pf_coaching_clubs <$> ac_profiles s !! p.

Lemma clubs_at_set k f s p : clubs_at (set_clubs k f s) p = (if decide (p = k) then f <$> clubs_at s p else clubs_at s p).
Proof.
  unfold clubs_at, set_clubs. cbn. destruct (decide (p = k)) as [->|Hne].
  - rewrite lookup_alter_eq. by destruct (ac_profiles s !! k).
  - by rewrite lookup_alter_ne by done.
Qed.

Definition same_profiles (s s' : accounts) : Prop := ac_profiles s' = ac_profiles s.
#[local] Instance same_profiles_preorder : PreOrder same_profiles.
Proof. split; [done|]. unfold same_profiles. congruence. Qed.

Lemma update_club_coaches_profiles user selected : guarantees same_profiles (update_club_coaches order user selected).
Proof.
  unfold update_club_coaches, request_add, request_remove, get_or_create_request, fresh. guarantee; done.
Qed.

(** The clubs of a profile change only by a request of its own user: by naming at most
    three clubs, of which the existing ones are kept, or by accepting a pending request,
    which adds or removes the club of that request and is then accepted. *)
Theorem clubs_change_by_their_coach q s r s' p : serve_club q s = (r, s') → clubs_at s' p ≠ clubs_at s p →
  ∃ user x, profile_of s user = Some (p, x) ∧
    ((∃ ids, q = UpdateClubs user (Some ids) ∧ pe_is_coach (pf_person x) = true ∧ zlen ids ≤ 3 ∧
       clubs_at s' p = Some (filter (λ c, is_Some (ac_clubs s !! c)) (list_to_set ids))) ∨
     (∃ pk req, q = Respond user pk (Some "accept"%string) ∧ r = Ok RequestAccepted ∧
       ac_requests s !! pk = Some req ∧ rq_coach req = p ∧ rq_status req = Pending ∧
       rq_status <$> ac_requests s' !! pk = Some Accepted ∧
       clubs_at s' p = (λ clubs, match rq_request_type req with
                                 | Add => {[rq_club req]} ∪ clubs
                                 | Remove => clubs ∖ {[rq_club req]} end) <$> clubs_at s p)).
Proof.
  destruct q as [user ids|user selected|user pk action]; cbn [serve_club]; intros Hs Hne.
  - revert Hs. unfold update_coach_clubs, own_profile, bind, get, modify.
    destruct (profile_of s user) as [[k x]|] eqn:Hp; [|by intros [= <- <-]]. cbn.
    destruct (pe_is_coach _) eqn:Hc; [|by intros [= <- <-]]. cbn.
    destruct ids as [ids|]; [|by intros [= <- <-]].
    destruct (3 <? zlen ids) eqn:Hl; [by intros [= <- <-]|]. intros [= <- <-].
    rewrite clubs_at_set in Hne. destruct (decide (p = k)) as [->|]; [|done].
    exists user, x. split; [done|]. left. exists ids. apply Z.ltb_ge in Hl. split_and!; try done.
    rewrite clubs_at_set, decide_True by done. apply first_row_some in Hp as [Hk _]. unfold clubs_at. by rewrite Hk.
  - pose proof (update_club_coaches_profiles user selected s) as Hp. rewrite Hs in Hp. unfold clubs_at in Hne.
    cbn in Hp. unfold same_profiles in Hp. by rewrite Hp in Hne.
  - apply respond_ok in Hs as [->|(k & x & req & Hp & Hr & Hc & Hst & [(_ & _ & ->)|(-> & -> & ->)])]; [done|done|].
    change (clubs_at (set_status pk Accepted ?z) p) with (clubs_at z p) in *.
    rewrite clubs_at_set in *. destruct (decide (p = k)) as [->|]; [|done].
    exists user, x. split; [done|]. right. exists pk, req. split_and!; try done.
    unfold set_status. cbn. rewrite lookup_alter_eq, Hr. done.
Qed.
End serving.

(** ** What a club asks for *)

Definition has_request (s : accounts) (coach club : Z) (t : request_type) : Prop :=
  ∃ k r, ac_requests s !! k = Some r ∧ is_request coach club t r = true.

(** [asked Q s s']: the rows of [s] are kept as they are, and the requests that exist
    afterwards are those of before and those of [Q], which are pending when new. *)
Definition asked (Q : Z → Z → request_type → Prop) (s s' : accounts) : Prop :=
  requests_wf s' ∧ ac_profiles s' = ac_profiles s ∧ ac_requests s ⊆ ac_requests s' ∧
  (∀ coach club t, has_request s' coach club t ↔ has_request s coach club t ∨ Q coach club t) ∧
  ∀ k r, ac_requests s !! k = None → ac_requests s' !! k = Some r → rq_status r = Pending.

Lemma asked_nothing Q s : requests_wf s → (∀ a b t, Q a b t → has_request s a b t) → asked Q s s.
Proof.
  intros Hwf HQ. split_and!; [done|done|done| |].
  - intros a b t. split; [by left|]. intros [?|?]; eauto.
  - intros k r Hn Hr. congruence.
Qed.

Lemma asked_trans Q1 Q2 s1 s2 s3 : asked Q1 s1 s2 → asked Q2 s2 s3 → asked (λ a b t, Q1 a b t ∨ Q2 a b t) s1 s3.
Proof.
  intros (_ & Hp1 & Hs1 & Hq1 & Hn1) (Hwf & Hp2 & Hs2 & Hq2 & Hn2). split_and!.
  - done.
  - congruence.
  - by etrans.
  - intros a b t. rewrite Hq2, Hq1. tauto.
  - intros k r Hn Hr. destruct (ac_requests s2 !! k) as [x|] eqn:E; [|by apply (Hn2 k)].
    assert (Hx : ac_requests s3 !! k = Some x) by by eapply lookup_weaken. apply (Hn1 k); [done|congruence].
Qed.

Lemma asked_iff Q1 Q2 s s' : (∀ a b t, Q1 a b t ↔ Q2 a b t) → asked Q1 s s' → asked Q2 s s'.
Proof.
  intros HQ (Hwf & Hp & Hs & Hq & Hn). split_and!; try done. intros a b t. by rewrite Hq, HQ.
Qed.

Lemma get_or_create_asked coach club t s : requests_wf s → ∃ s',
  get_or_create_request coach club t s = (Ok tt, s') ∧ asked (λ a b u, a = coach ∧ b = club ∧ u = t) s s'.
Proof.
  intros Hwf. destruct (get_or_create_evolves coach club t s Hwf) as [Hwf' _]. revert Hwf'.
  unfold get_or_create_request, bind, get, fresh, modify. cbn.
  destruct (exists_row _ _) eqn:E; cbn; intros Hwf'.
  - exists s. split; [done|]. apply asked_nothing; [done|]. intros a b u (-> & -> & ->).
    by apply exists_row_true in E.
  - eexists. split; [done|]. assert (Hnone : ac_requests s !! ac_next_id s = None).
    { apply eq_None_not_Some. intros [r Hr%(request_keys s Hwf)]. lia. }
    split_and!; [done|done|by apply insert_subseteq| |].
    + intros a b u. unfold has_request. cbn. split.
      * intros (k & r & [[<- <-]|[_ Hr]]%lookup_insert_Some & Hq); [right|left; eauto].
        by apply is_request_true in Hq as (<- & <- & <-).
      * intros [(k & r & Hr & Hq)|(-> & -> & ->)].
        -- exists k, r. rewrite lookup_insert_ne by congruence. done.
        -- eexists _, _. rewrite lookup_insert_eq. split; [done|]. by apply is_request_true.
    + intros k r Hn. cbn. intros [[<- <-]|[_ Hr]]%lookup_insert_Some; [done|congruence].
Qed.

(** A loop of such requests, each for one coach, under a condition on the profiles. *)
Lemma loop_asked (f : Z → M accounts unit) (cond : gmap Z Profile → Z → Prop) (club : Z) (t : request_type) profiles l s :
  (∀ x s, x ∈ l → requests_wf s → ac_profiles s = profiles → ∃ s', f x s = (Ok tt, s') ∧
    asked (λ a b u, a = x ∧ b = club ∧ u = t ∧ cond profiles x) s s') →
  requests_wf s → ac_profiles s = profiles → ∃ s', forM l f s = (Ok tt, s') ∧
    asked (λ a b u, a ∈ l ∧ b = club ∧ u = t ∧ cond profiles a) s s'.
Proof.
  revert s. induction l as [|x l IH]; intros s Hf Hwf Hp; cbn.
  - exists s. split; [done|]. apply asked_nothing; [done|]. by intros a b u ([]%not_elem_of_nil & _).
  - destruct (Hf x s ltac:(by left) Hwf Hp) as (s1 & H1 & A1).
    destruct (IH s1) as (s2 & H2 & A2).
    + intros y z Hy. apply Hf. by right.
    + apply A1.
    + rewrite <- Hp. apply A1.
    + exists s2. unfold bind. rewrite H1. split; [done|]. eapply asked_iff; [|by eapply asked_trans].
      intros a b u. cbn. rewrite elem_of_cons. naive_solver.
Qed.

(** The coaches a club asks to join, and to leave. *)
Definition may_join (profiles : gmap Z Profile) (coach : Z) : Prop :=
  ∃ p, profiles !! coach = Some p ∧ (size (pf_coaching_clubs p) < 3)%nat.

Lemma request_add_asked club x s : requests_wf s → is_Some (ac_profiles s !! x) → ∃ s',
  request_add club x s = (Ok tt, s') ∧ asked (λ a b u, a = x ∧ b = club ∧ u = Add ∧ may_join (ac_profiles s) x) s s'.
Proof.
  intros Hwf [p Hp]. unfold request_add, bind, get. rewrite Hp.
  destruct (3 <=? _) eqn:E; [apply Z.leb_le in E|apply Z.leb_gt in E].
  - exists s. split; [done|]. apply asked_nothing; [done|]. intros a b u (_ & _ & _ & y & Hy & Hl).
    assert (y = p) as -> by congruence. lia.
  - destruct (get_or_create_asked x club Add s Hwf) as (s' & Hs & Ha). exists s'. split; [done|].
    eapply asked_iff; [|exact Ha]. intros a b u. assert (Hm : may_join (ac_profiles s) x) by (exists p; split; [done|lia]).
    cbn. naive_solver.
Qed.

Lemma request_remove_asked club x s : requests_wf s → is_Some (ac_profiles s !! x) → ∃ s',
  request_remove club x s = (Ok tt, s') ∧ asked (λ a b u, a = x ∧ b = club ∧ u = Remove ∧ True) s s'.
Proof.
  intros Hwf [p Hp]. unfold request_remove, bind, get. rewrite Hp.
  destruct (get_or_create_asked x club Remove s Hwf) as (s' & Hs & Ha). exists s'. split; [done|].
  eapply asked_iff; [|exact Ha]. naive_solver.
Qed.

Lemma elem_of_coaches s club k : k ∈ coaches_of s club ↔ ∃ p, ac_profiles s !! k = Some p ∧ club ∈ pf_coaching_clubs p.
Proof.
  unfold coaches_of. rewrite elem_of_dom. unfold is_Some. setoid_rewrite map_lookup_filter_Some. done.
Qed.

(** When every selected id is that of a profile, the update of a club's coaches asks each
    selected person who is not with the club and has fewer than three clubs to join, asks
    each of its other coaches to leave, keeps every request there was as it is, and changes
    no profile; the new requests are pending. *)
Theorem club_update_asks order user club x ids s : (∀ X : gset Z, order X ≡ₚ elements X) →
  requests_wf s → club_of s user = Some (club, x) → (∀ i, i ∈ ids → is_Some (ac_profiles s !! i)) →
  ∃ s', update_club_coaches order user (Some ids) s = (Ok RequestsStored, s') ∧
    asked (λ coach c t, c = club ∧
             (t = Add ∧ coach ∈ ids ∧ coach ∉ coaches_of s club ∧ may_join (ac_profiles s) coach ∨
              t = Remove ∧ coach ∉ ids ∧ coach ∈ coaches_of s club)) s s'.
Proof.
  intros Hord Hwf Hc Hids. unfold update_club_coaches. unfold bind at 1, get. rewrite Hc.
  set (to_add := list_to_set ids ∖ coaches_of s club : gset Z).
  set (to_remove := coaches_of s club ∖ list_to_set ids : gset Z).
  destruct (loop_asked (request_add club) may_join club Add (ac_profiles s) (order to_add) s) as (s1 & H1 & A1); [|done|done|].
  { intros y z Hy Hz Hp. rewrite <- Hp. apply request_add_asked; [done|]. rewrite Hp. apply Hids.
    rewrite Hord, elem_of_elements in Hy. set_solver. }
  destruct (loop_asked (request_remove club) (λ _ _, True) club Remove (ac_profiles s) (order to_remove) s1) as (s2 & H2 & A2).
  { intros y z Hy Hz Hp. apply request_remove_asked; [done|]. rewrite Hp.
    rewrite Hord, elem_of_elements in Hy. apply elem_of_difference in Hy as [(p & Hpy & _)%elem_of_coaches _]. by eexists. }
  { apply A1. }
  { apply A1. }
  exists s2. unfold bind. rewrite H1, H2. split; [done|]. eapply asked_iff; [|by eapply asked_trans].
  intros a b t. cbn. rewrite !Hord, !elem_of_elements. unfold to_add, to_remove.
  rewrite !elem_of_difference, !elem_of_list_to_set. naive_solver.
Qed.

(** ** Examples *)

Definition demo_club (user : Z) : Club :=
  mkClub (mkClubData "club" "" "" "" "" None "" "" "" None "" "" "" "" "" true) (Some user).
Definition club_accounts : accounts :=
  set_ac_clubs {[11 := demo_club 21; 12 := demo_club 22; 13 := demo_club 23; 14 := demo_club 24]}
    (set_ac_next_id 30 demo_accounts).

Definition serve_demo (s : accounts) (q : club_request) : accounts := (serve_club elements q s).2.

(** Four clubs ask the same coach, who accepts them all: the limit of three clubs holds
    neither for the requests that are open nor when they are accepted. *)
Definition four_asked : accounts :=
  foldl serve_demo club_accounts ((λ u, UpdateCoaches u (Some [2])) <$> [21; 22; 23; 24]).
Definition four_accepted : accounts :=
  foldl serve_demo four_asked ((λ k, Respond 1 k (Some "accept"%string)) <$> [30; 31; 32; 33]).

Example limit_of_three_clubs : zlen (pending_requests four_asked 1) = 4
  ∧ clubs_at four_accepted 2 = Some {[11; 12; 13; 14]}
  ∧ (update_coach_clubs 1 (Some [11; 12; 13; 14]) club_accounts).1 = Ok TooManyClubs
  ∧ (ci_is_active <$> default [] (club_all_coaches four_accepted 21)) = [true].
Proof. split_and!; by vm_compute. Qed.

(** After the coach has left, the club's next request is lost on the settled one. *)
Definition left_club : accounts :=
  foldl serve_demo four_accepted [UpdateCoaches 21 (Some []); Respond 1 34 (Some "accept"%string); UpdateCoaches 21 (Some [2])].

Example no_second_request : clubs_at left_club 2 = Some {[12; 13; 14]} ∧ pending_requests left_club 1 = [].
Proof. split; by vm_compute. Qed.

Lemma club_accounts_wf : requests_wf club_accounts.
Proof. split; intros *; cbn; rewrite lookup_empty; done. Qed.

Definition rejected_30 : accounts := serve_demo four_asked (Respond 1 30 (Some "reject"%string)).

Lemma serve_demo_wf s q : requests_wf s → requests_wf (serve_demo s q).
Proof. intros Hwf. by apply (serve_club_evolves elements q s Hwf). Qed.

Lemma rejected_wf : requests_wf rejected_30.
Proof. apply serve_demo_wf. cbn. do 4 apply serve_demo_wf. apply club_accounts_wf. Qed.

(** The club asks again after the rejection. *)
Definition asked_again : accounts := serve_demo rejected_30 (UpdateCoaches 21 (Some [2])).

Lemma requests_settle_once_witness :
  rq_status <$> ac_requests rejected_30 !! 30 = Some Rejected ∧
  requests_wf asked_again ∧ requests_kept rejected_30 asked_again ∧
  ∀ k r j r', ac_requests rejected_30 !! k = Some r → rq_status r ≠ Pending → ac_requests asked_again !! j = Some r' →
    rq_coach r' = rq_coach r → rq_club r' = rq_club r → rq_request_type r' = rq_request_type r → r' = r.
Proof.
  split; [by vm_compute|].
  exact (requests_settle_once elements rejected_30 asked_again rejected_wf
           (rtc_once _ _ (serve_step elements (UpdateCoaches 21 (Some [2])) rejected_30))).
Defined.

Lemma clubs_change_by_their_coach_witness :
  ∃ user x, profile_of four_asked user = Some (2, x) ∧
    ((∃ ids, Respond 1 30 (Some "accept"%string) = UpdateClubs user (Some ids) ∧ pe_is_coach (pf_person x) = true ∧
       zlen ids ≤ 3 ∧ clubs_at (serve_demo four_asked (Respond 1 30 (Some "accept"%string))) 2
         = Some (filter (λ c, is_Some (ac_clubs four_asked !! c)) (list_to_set ids))) ∨
     (∃ pk req, Respond 1 30 (Some "accept"%string) = Respond user pk (Some "accept"%string) ∧
       Ok RequestAccepted = Ok RequestAccepted ∧
       ac_requests four_asked !! pk = Some req ∧ rq_coach req = 2 ∧ rq_status req = Pending ∧
       rq_status <$> ac_requests (serve_demo four_asked (Respond 1 30 (Some "accept"%string))) !! pk = Some Accepted ∧
       clubs_at (serve_demo four_asked (Respond 1 30 (Some "accept"%string))) 2
       = (λ clubs, match rq_request_type req with
                   | Add => {[rq_club req]} ∪ clubs
                   | Remove => clubs ∖ {[rq_club req]} end) <$> clubs_at four_asked 2)).
Proof.
  apply (clubs_change_by_their_coach elements (Respond 1 30 (Some "accept"%string)) four_asked (Ok RequestAccepted)
           (serve_demo four_asked (Respond 1 30 (Some "accept"%string))) 2).
  - vm_compute. reflexivity.
  - vm_compute. discriminate.
Defined.

Lemma club_update_asks_witness :
  ∃ s', update_club_coaches elements 21 (Some [2]) club_accounts = (Ok RequestsStored, s') ∧
    asked (λ coach c t, c = 11 ∧
             (t = Add ∧ coach ∈ [2] ∧ coach ∉ coaches_of club_accounts 11 ∧ may_join (ac_profiles club_accounts) coach ∨
              t = Remove ∧ coach ∉ [2] ∧ coach ∈ coaches_of club_accounts 11)) club_accounts s'.
Proof.
  apply (club_update_asks elements 21 11 (demo_club 21) [2] club_accounts).
  - intros X. reflexivity.
  - exact club_accounts_wf.
  - vm_compute. reflexivity.
  - intros i Hi. apply list_elem_of_singleton in Hi as ->. vm_compute. eexists. reflexivity.
Defined.
