(* ===== verification/Membership.v ===== *)
(** Approving applications: new users, clubs and edited profiles, by the views of
    [src/accounts/views.py] and by the actions of [src/accounts/admin.py].

    The admin actions run in one transaction and catch exceptions inside it.  After a write
    that the database refuses, Django answers every further query of the transaction with
    TransactionManagementError and rolls the transaction back at its end, even when the
    exception was caught: [conn] carries that flag.  The messages that leave the program are
    in an outbox, which no rollback empties.  [collate] is the collation of the database,
    [iexact] its case-insensitive comparison, [sms_enabled] says whether the gateway is
    configured; what the gateway answers only changes messages on the screen. *)

From Stdlib Require Import Ascii.
From S2P Require Import Prelude Store Ranking GroupRegistration Text Accounts SmsCodes CoachClubs.
Local Open Scope Z_scope.

(** ** Connections *)

Record world := mkWorld { w_db : accounts; w_outbox : list (string * string) }.
Record conn := mkConn { cn_db : accounts; cn_broken : bool; cn_outbox : list (string * string) }.

(** A query or a write of a transaction; a refused write marks the connection. *)
Definition query {A} (m : M accounts A) : M conn A := λ c,
  if cn_broken c then (Err TransactionManagementError, c)
  else match m (cn_db c) with
       | (Ok a, s) => (Ok a, mkConn s false (cn_outbox c))
       | (Err e, _) => (Err e, mkConn (cn_db c) true (cn_outbox c))
       end.

(** The outermost [with transaction.atomic()]. *)
Definition transaction {A} (m : M conn A) : M world A := λ w,
  match m (mkConn (w_db w) false (w_outbox w)) with
  | (Ok a, c) => (Ok a, mkWorld (if cn_broken c then w_db w else cn_db c) (cn_outbox c))
  | (Err e, c) => (Err e, mkWorld (w_db w) (cn_outbox c))
  end.

Section membership.
Context (collate : string → string) (iexact : string → string → bool) (sms_enabled : bool).
Local Abbreviation same := (same collate).

(** [send_approve_credentials_sms] *)
Definition send_approve_credentials_sms (phone national_code : string) : M conn unit :=
  let phone := _normalize_digits (Some phone) in
  let national_code := _normalize_digits (Some national_code) in
  if valid_phone phone && (isdigit national_code && (py_len national_code =? 10)) && sms_enabled
  then modify (λ c, mkConn (cn_db c) (cn_broken c) (cn_outbox c ++ [(phone, national_code)]))
  else ret tt.

(** ** Logins, profiles and clubs *)

Definition find_user (s : accounts) (username : string) : option Z :=
  fst <$> first_row (λ u, same (us_username u) username) (ac_users s).

Definition insert_user (u : User) : M accounts Z :=
  (k <~ fresh ;; modify (λ s, set_ac_users (<[k := u]> (ac_users s)) s) ;;; ret k)%monad.

(** The unique columns of [UserProfile], and of [TkdClub]. *)
Definition profile_conflict (p x : Profile) : bool :=
  same (pe_national_code (pf_person x)) (pe_national_code (pf_person p))
  || same (pe_phone (pf_person x)) (pe_phone (pf_person p))
  || (negb (is_none (pf_user p)) && bool_decide (pf_user x = pf_user p)).

Definition create_profile (p : Profile) : M accounts Z :=
  (s <~ get ;;
   if exists_row (profile_conflict p) (ac_profiles s) then raise IntegrityError
   else k <~ fresh ;; modify (λ s, set_ac_profiles (<[k := p]> (ac_profiles s)) s) ;;; ret k)%monad.

Definition club_conflict (c x : Club) : bool :=
  same (cd_club_name (cb_data x)) (cd_club_name (cb_data c)) && same (cd_city (cb_data x)) (cd_city (cb_data c))
  || (negb (is_none (cb_user c)) && bool_decide (cb_user x = cb_user c)).

Definition create_club (c : Club) : M accounts Z :=
  (s <~ get ;;
   if exists_row (club_conflict c) (ac_clubs s) then raise IntegrityError
   else k <~ fresh ;; modify (λ s, set_ac_clubs (<[k := c]> (ac_clubs s)) s) ;;; ret k)%monad.

Definition board_name (s : accounts) (board : option Z) : string :=
  match board ≫= λ b, ac_boards s !! b with Some b => br_name b | None => ""%string end.

Definition delete_pending (pk : Z) : M accounts unit := modify (λ s, set_ac_pending (delete pk (ac_pending s)) s).
Definition delete_pending_club (pk : Z) : M accounts unit :=
  modify (λ s, set_ac_pending_clubs (delete pk (ac_pending_clubs s)) s).
Definition delete_edit (pk : Z) : M accounts unit := modify (λ s, set_ac_edits (delete pk (ac_edits s)) s).

(** ** Users: the view *)

Inductive approve_user_response := AlreadyApproved | UserApproved.

Definition COACH_ROLES : list string := ["coach"; "both"].
Definition REFEREE_ROLES : list string := ["referee"; "both"].
Definition password_of (national_code : string) : option string :=
  if truthy_str national_code then Some national_code else None.

(** [approve_pending_user] *)
Definition approve_pending_user (pk : Z) : M accounts approve_user_response :=
  (s <~ get ;;
   pending <~ of_option (ac_pending s !! pk) Http404 ;;
   let p := pu_person pending in
   if truthy_str (pe_national_code p)
      && exists_row (λ x, same (pe_national_code (pf_person x)) (pe_national_code p)) (ac_profiles s)
   then ret AlreadyApproved
   else
     let username := strip (pe_phone p) in
     let raw_pass := _normalize_digits (Some (pe_national_code p)) in
     let found := if truthy_id (pe_coach p) then pe_coach p ≫= λ c, (λ x, (c, x)) <$> ac_profiles s !! c else None in
     let coach := match found with
                  | Some (c, x) =>
                      if String.eqb (_normalize_digits (Some (pe_national_code (pf_person x)))) raw_pass
                      then None else Some c
                  | None => None
                  end in
     atomic (
       user <~ match find_user s username with
               | Some u => modify (λ s, set_ac_users (alter (λ x, mkUser (us_username x) (password_of raw_pass)) u
                                                       (ac_users s)) s) ;;; ret u
               | None => insert_user (mkUser username (password_of raw_pass))
               end ;;
       _ <~ create_profile
              (mkProfile (Some user)
                 (set_pe_tkd_board_name (board_name s (pe_tkd_board p))
                    (set_pe_is_coach (bool_decide (pe_role p ∈ COACH_ROLES))
                       (set_pe_is_referee (bool_decide (pe_role p ∈ REFEREE_ROLES))
                          (set_pe_coach coach p))))
                 (pu_coaching_clubs pending)) ;;
       delete_pending pk) ;;;
     ret UserApproved)%monad.

(** ** Users: the admin actions *)

(** [get_or_create_auth_user_by_phone] *)
Definition get_or_create_auth_user_by_phone (phone national_code : string) : M accounts Z :=
  (s <~ get ;;
   let phone := normalize_phone phone in
   let nc := if truthy_str national_code then strip (_fa2en national_code) else national_code in
   match find_user s phone with
   | None => insert_user (mkUser phone (password_of nc))
   | Some u =>
       (if truthy_str nc && is_none (ac_users s !! u ≫= us_password)
        then modify (set_password u nc) else ret tt) ;;;
       ret u
   end)%monad.

(** [create_profile_from_pending] *)
Definition create_profile_from_pending (pending : PendingUserProfile) (user : Z) (is_coach is_referee : bool)
    : M accounts Z :=
  (s <~ get ;;
   let p := pu_person pending in
   create_profile
     (mkProfile (Some user)
        (set_pe_phone (normalize_phone (pe_phone p))
           (set_pe_tkd_board_name (board_name s (pe_tkd_board p))
              (set_pe_is_coach is_coach (set_pe_is_referee is_referee p))))
        (pu_coaching_clubs pending)))%monad.

(** The three lists of applications and the flags their action gives. *)
Inductive application := PlayerApplication | CoachApplication | RefereeApplication.

Definition listed (a : application) (role : string) : bool :=
  match a with
  | PlayerApplication => String.eqb role "player"
  | CoachApplication => bool_decide (role ∈ COACH_ROLES)
  | RefereeApplication => bool_decide (role ∈ REFEREE_ROLES)
  end.
Definition coach_flag (a : application) (role : string) : bool :=
  match a with
  | PlayerApplication => false
  | CoachApplication => true
  | RefereeApplication => bool_decide (role ∈ COACH_ROLES)
  end.
Definition referee_flag (a : application) (role : string) : bool :=
  match a with
  | PlayerApplication => false
  | CoachApplication => bool_decide (role ∈ REFEREE_ROLES)
  | RefereeApplication => true
  end.

(** One turn of the loop of [PendingPlayerAdmin.approve], [PendingCoachAdmin.approve] and
    [PendingRefereeAdmin.approve]. *)
Definition approve_application (a : application) (row : Z * PendingUserProfile) : M conn unit :=
  (let '(pk, pending) := row in
   let p := pu_person pending in
   user <~ query (get_or_create_auth_user_by_phone (pe_phone p) (pe_national_code p)) ;;
   let phone_clean := normalize_phone (pe_phone p) in
   let national_code_clean := strip (_fa2en (pe_national_code p)) in
   _ <~ query (create_profile_from_pending pending user (coach_flag a (pe_role p)) (referee_flag a (pe_role p))) ;;
   send_approve_credentials_sms phone_clean national_code_clean ;;;
   query (delete_pending pk))%monad.

(** The action on the selected rows of its list, which shows the newest first, and the
    approval of a single row ([approve_single], [response_change]), which does not look at
    the role. *)
Definition approve_applications (a : application) (selected : list Z) : M world unit :=
  transaction
    (c <~ get ;;
     forM (List.filter (λ kr, bool_decide (kr.1 ∈ selected) && listed a (pe_role (pu_person kr.2)))
             (rev (rows_by_id (ac_pending (cn_db c)))))
          (approve_application a))%monad.

Definition approve_single_application (a : application) (pk : Z) : M world unit :=
  transaction
    (c <~ get ;;
     match ac_pending (cn_db c) !! pk with
     | Some pending => approve_application a (pk, pending)
     | None => ret tt
     end)%monad.

(** ** Clubs *)

Inductive approve_club_response := ClubDuplicate | ClubConflict | ClubApproved.

(** [approve_pending_club]; the exception handlers come after the transaction. *)
Definition approve_pending_club (pk : Z) : M accounts approve_club_response :=
  (s <~ get ;;
   pending <~ of_option (ac_pending_clubs s !! pk) Http404 ;;
   let d := pc_data pending in
   let cname := strip (cd_club_name d) in
   let ccity := strip (cd_city d) in
   if truthy_str cname && truthy_str ccity
      && exists_row (λ c, iexact (cd_club_name (cb_data c)) cname && iexact (cd_city (cb_data c)) ccity) (ac_clubs s)
   then ret ClubDuplicate
   else
     try_catch
       (atomic (
          user <~ match find_user s (cd_founder_phone d) with
                  | Some u => ret u
                  | None => insert_user (mkUser (cd_founder_phone d)
                                           (if isdigit (cd_founder_national_code d)
                                            then Some (cd_founder_national_code d) else None))
                  end ;;
          _ <~ create_club (mkClub (set_cd_club_name cname (set_cd_city ccity d)) (Some user)) ;;
          delete_pending_club pk) ;;;
        ret ClubApproved)
       (λ _, ret ClubConflict))%monad.

(** One turn of the loop of [PendingClubAdmin.approve]: whether the club counts as approved. *)
Definition approve_club (row : Z * PendingClub) : M conn bool :=
  (let '(pk, pending) := row in
   let d := pc_data pending in
   let raw_phone := or_str (cd_founder_phone d) (cd_phone d) in
   if negb (truthy_str raw_phone) then ret false
   else
     let phone_clean := normalize_phone raw_phone in
     let national_code_clean := strip (_fa2en (cd_founder_national_code d)) in
     try_catch
       (user <~ query (get_or_create_auth_user_by_phone phone_clean (cd_founder_national_code d)) ;;
        created <~ try_catch (_ <~ query (create_club (mkClub (set_cd_founder_phone phone_clean d) (Some user))) ;; ret true)
                     (λ _, ret false) ;;
        if (created : bool) then
          (if truthy_str national_code_clean then send_approve_credentials_sms phone_clean national_code_clean
           else ret tt) ;;;
          query (delete_pending_club pk) ;;;
          ret true
        else ret false)
       (λ _, ret false))%monad.

(** [PendingClubAdmin.approve]: for each selected club, whether it is counted a success. *)
Definition approve_clubs (selected : list Z) : M world (list bool) :=
  transaction
    (c <~ get ;;
     mapM approve_club (List.filter (λ kr, bool_decide (kr.1 ∈ selected))
                          (rev (rows_by_id (ac_pending_clubs (cn_db c))))))%monad.


(** ** Edited profiles *)

Definition or_else (a b : option Z) : option Z := match a with Some _ => a | None => b end.

(** What [approve_edited_profile] makes of the person [u] with the edit [e]: its simple
    fields, and the relations and the image that the edit names. *)
Definition edited_by_view (e u : Person) : Person :=
  mkPerson
    (pe_first_name e) (pe_last_name e) (pe_father_name e) (pe_national_code u) (pe_birth_date e)
    (pe_gender e) (pe_phone u) (pe_role e) (or_str (pe_profile_image e) (pe_profile_image u))
    (pe_address e) (pe_province e) (pe_county e) (pe_city e) (or_else (pe_tkd_board e)
    (pe_tkd_board u)) (pe_tkd_board_name e) (or_else (pe_coach e) (pe_coach u)) (if is_none
    (pe_coach e) then pe_coach_name u else pe_coach_name e) (or_else (pe_club e) (pe_club u))
    (pe_club_names e) (pe_belt_grade e) (pe_belt_certificate_number e) (pe_belt_certificate_date
    e) (pe_is_coach e) (pe_coach_level e) (pe_coach_level_International e) (pe_is_referee e)
    (pe_kyorogi e) (pe_kyorogi_level e) (pe_kyorogi_level_International e) (pe_poomseh e)
    (pe_poomseh_level e) (pe_poomseh_level_International e) (pe_hanmadang e) (pe_hanmadang_level
    e) (pe_hanmadang_level_International e) (pe_confirm_info e).

(** What [PendingEditsAdmin.approve] makes of it: its [DIFF_FIELDS], relations included. *)
Definition edited_by_admin (e u : Person) : Person :=
  mkPerson
    (pe_first_name e) (pe_last_name e) (pe_father_name e) (pe_national_code u) (pe_birth_date e)
    (pe_gender e) (pe_phone u) (pe_role e) (or_str (pe_profile_image e) (pe_profile_image u))
    (pe_address e) (pe_province e) (pe_county e) (pe_city e) (pe_tkd_board e) (pe_tkd_board_name
    u) (pe_coach e) (pe_coach_name u) (pe_club e) (pe_club_names u) (pe_belt_grade e)
    (pe_belt_certificate_number e) (pe_belt_certificate_date e) (pe_is_coach e) (pe_coach_level
    e) (pe_coach_level_International e) (pe_is_referee e) (pe_kyorogi e) (pe_kyorogi_level e)
    (pe_kyorogi_level_International e) (pe_poomseh e) (pe_poomseh_level e)
    (pe_poomseh_level_International e) (pe_hanmadang e) (pe_hanmadang_level e)
    (pe_hanmadang_level_International e) (pe_confirm_info u).

(** [approve_edited_profile], whose writes are not in one transaction. *)
Definition approve_edited_profile (pk : Z) : M accounts unit :=
  (s <~ get ;;
   pending <~ of_option (ac_edits s !! pk) Http404 ;;
   user <~ of_option (ac_profiles s !! ed_original_user pending) DoesNotExist ;;
   let clubs := if decide (ed_coaching_clubs pending = ∅) then pf_coaching_clubs user else ed_coaching_clubs pending in
   modify (λ s, set_ac_profiles
     (<[ed_original_user pending := mkProfile (pf_user user) (edited_by_view (ed_person pending) (pf_person user)) clubs]>
        (ac_profiles s)) s) ;;;
   delete_edit pk)%monad.

(** One turn of the loop of [PendingEditsAdmin.approve]: no write of it can be refused, since
    the unique columns stay. *)
Definition approve_edit (row : Z * PendingEditProfile) : M conn unit :=
  (let '(pk, pending) := row in
   c <~ get ;;
   match ac_profiles (cn_db c) !! ed_original_user pending with
   | None => ret tt
   | Some user =>
       query (modify (λ s, set_ac_profiles
         (<[ed_original_user pending := mkProfile (pf_user user) (edited_by_admin (ed_person pending) (pf_person user))
                                          (ed_coaching_clubs pending)]> (ac_profiles s)) s)) ;;;
       query (delete_edit pk)
   end)%monad.

Definition approve_edits (selected : list Z) : M world unit :=
  transaction
    (c <~ get ;;
     forM (List.filter (λ kr, bool_decide (kr.1 ∈ selected)) (rev (rows_by_id (ac_edits (cn_db c))))) approve_edit)%monad.

(** ** Unique columns *)

(** Any two rows of a table are related by [R]. *)
Definition pairwise {A} (R : A → A → Prop) (t : gmap Z A) : Prop :=
  ∀ i j a b, t !! i = Some a → t !! j = Some b → i ≠ j → R a b.

Lemma pairwise_insert {A} (R : A → A → Prop) t k x : (∀ a b, R a b → R b a) → pairwise R t →
  (∀ j b, t !! j = Some b → j ≠ k → R b x) → pairwise R (<[k := x]> t).
Proof.
  intros Hsym Ht Hx i j a b [[<- <-]|[_ Ha]]%lookup_insert_Some [[<- <-]|[_ Hb]]%lookup_insert_Some Hne.
  - done.
  - apply Hsym. by apply (Hx j).
  - by apply (Hx i).
  - by apply (Ht i j).
Qed.

Lemma pairwise_update {A} (R : A → A → Prop) t k x y : (∀ a b, R a b → R b a) → pairwise R t →
  t !! k = Some y → (∀ b, R b y → R b x) → pairwise R (<[k := x]> t).
Proof.
  intros Hsym Ht Hy Hxy. apply pairwise_insert; [done|done|]. intros j b Hb Hne. apply Hxy. by apply (Ht j k).
Qed.

Definition other_name (a b : User) : Prop := same (us_username a) (us_username b) = false.
Definition other_profile (a b : Profile) : Prop := profile_conflict a b = false.
Definition other_club (a b : Club) : Prop := club_conflict a b = false.

Lemma same_sym a b : same a b = same b a.
Proof. apply String.eqb_sym. Qed.

Lemma other_name_sym a b : other_name a b → other_name b a.
Proof. unfold other_name. by rewrite same_sym. Qed.

Lemma user_sym (u v : option Z) :
  negb (is_none u) && bool_decide (v = u) = negb (is_none v) && bool_decide (u = v).
Proof. destruct u as [u|], v as [v|]; cbn; try done. apply bool_decide_ext. naive_solver. Qed.

Lemma other_profile_sym a b : other_profile a b → other_profile b a.
Proof.
  unfold other_profile, profile_conflict.
  by rewrite (same_sym (pe_national_code _)), (same_sym (pe_phone _)), user_sym.
Qed.

Lemma other_club_sym a b : other_club a b → other_club b a.
Proof.
  unfold other_club, club_conflict. by rewrite (same_sym (cd_club_name _)), (same_sym (cd_city _)), user_sym.
Qed.

(** Keys are below the counter; logins have distinct names, profiles distinct national
    codes, phones and logins, clubs distinct logins and distinct names within a city. *)
Record accounts_wf (s : accounts) : Prop := {
  wf_user_keys : ∀ k u, ac_users s !! k = Some u → k < ac_next_id s;
  wf_profile_keys : ∀ k p, ac_profiles s !! k = Some p → k < ac_next_id s;
  wf_club_keys : ∀ k c, ac_clubs s !! k = Some c → k < ac_next_id s;
  wf_usernames : pairwise other_name (ac_users s);
  wf_profiles : pairwise other_profile (ac_profiles s);
  wf_clubs : pairwise other_club (ac_clubs s);
}.

Definition keeps_wf (s s' : accounts) : Prop := accounts_wf s → accounts_wf s'.
#[local] Instance keeps_wf_preorder : PreOrder keeps_wf.
Proof. split; unfold keeps_wf; auto. Qed.

Lemma find_user_none s name : find_user s name = None → ∀ k u, ac_users s !! k = Some u → same (us_username u) name = false.
Proof.
  unfold find_user. destruct (first_row _ _) as [[k u]|] eqn:E; [done|]. intros _. by apply first_row_none.
Qed.

Lemma find_user_some s name k : find_user s name = Some k → ∃ u, ac_users s !! k = Some u ∧ same (us_username u) name = true.
Proof.
  unfold find_user. destruct (first_row _ _) as [[j u]|] eqn:E; [|done]. intros [= <-].
  apply first_row_some in E. eauto.
Qed.

Lemma keys_insert {A} (t : gmap Z A) n k x : (∀ i a, t !! i = Some a → i < n) → k < n + 1 →
  ∀ i a, <[k := x]> t !! i = Some a → i < n + 1.
Proof. intros Ht Hk i a [[<- _]|[_ Ha%Ht]]%lookup_insert_Some; lia. Qed.

Lemma keys_later {A} (t : gmap Z A) n : (∀ i a, t !! i = Some a → i < n) → ∀ i a, t !! i = Some a → i < n + 1.
Proof. intros Ht i a Ha%Ht. lia. Qed.

Lemma insert_user_wf s u : accounts_wf s → find_user s (us_username u) = None → accounts_wf (insert_user u s).2.
Proof.
  intros [Hu Hp Hc Hn Hq Hd] Hf. split; cbn; try done; try by apply keys_later.
  - apply keys_insert; [done|lia].
  - apply pairwise_insert; [by apply other_name_sym|done|]. intros j b Hb _. by apply (find_user_none s _ Hf j).
Qed.

Lemma change_password_wf s k f : accounts_wf s →
  accounts_wf (set_ac_users (alter (λ x, mkUser (us_username x) (f x)) k (ac_users s)) s).
Proof.
  intros [Hu Hp Hc Hn Hq Hd]. split; cbn; try done.
  - intros i u [(-> & y & Hy & _)|[_ Hy]]%lookup_alter_Some; by eapply Hu.
  - destruct (ac_users s !! k) as [x|] eqn:Ek.
    + rewrite (alter_some _ _ _ _ Ek). by apply pairwise_update with x; [apply other_name_sym| | |].
    + by rewrite alter_id by congruence.
Qed.

Lemma create_profile_keeps p : guarantees keeps_wf (create_profile p).
Proof.
  intros s Hwf. pose proof Hwf as [Hu Hp Hc Hn Hq Hd]. unfold create_profile, bind, get, modify, fresh, ret. cbn.
  destruct (exists_row _ _) eqn:E; [done|]. cbn. rewrite exists_row_false in E.
  split; cbn; try done; try by apply keys_later.
  - apply keys_insert; [done|lia].
  - apply pairwise_insert; [by apply other_profile_sym|done|]. intros j b Hb _. apply other_profile_sym. by apply (E j).
Qed.

Lemma create_club_keeps c : guarantees keeps_wf (create_club c).
Proof.
  intros s Hwf. pose proof Hwf as [Hu Hp Hc Hn Hq Hd]. unfold create_club, bind, get, modify, fresh, ret. cbn.
  destruct (exists_row _ _) eqn:E; [done|]. cbn. rewrite exists_row_false in E.
  split; cbn; try done; try by apply keys_later.
  - apply keys_insert; [done|lia].
  - apply pairwise_insert; [by apply other_club_sym|done|]. intros j b Hb _. apply other_club_sym. by apply (E j).
Qed.

Lemma get_or_create_user_keeps phone nc : guarantees keeps_wf (get_or_create_auth_user_by_phone phone nc).
Proof.
  intros s Hwf. unfold get_or_create_auth_user_by_phone, bind, get.
  destruct (find_user s (normalize_phone phone)) as [k|] eqn:E.
  - destruct (_ && _); cbn; [|done]. by apply change_password_wf.
  - by apply insert_user_wf.
Qed.

Lemma other_tables_wf s s' : ac_users s' = ac_users s → ac_profiles s' = ac_profiles s → ac_clubs s' = ac_clubs s →
  ac_next_id s' = ac_next_id s → keeps_wf s s'.
Proof. intros Hu Hp Hc Hn [? ? ? ? ? ?]. split; rewrite ?Hu, ?Hp, ?Hc, ?Hn; done. Qed.

(** ** Every request keeps them *)

Definition keeps_conn (c c' : conn) : Prop := keeps_wf (cn_db c) (cn_db c').
Definition keeps_world (w w' : world) : Prop := keeps_wf (w_db w) (w_db w').
#[local] Instance keeps_conn_preorder : PreOrder keeps_conn.
Proof. split; unfold keeps_conn, keeps_wf; auto. Qed.
#[local] Instance keeps_world_preorder : PreOrder keeps_world.
Proof. split; unfold keeps_world, keeps_wf; auto. Qed.

Lemma query_keeps {A} (m : M accounts A) : guarantees keeps_wf m → guarantees keeps_conn (query m).
Proof.
  intros Hm c. unfold query. destruct (cn_broken c); [reflexivity|]. specialize (Hm (cn_db c)).
  destruct (m (cn_db c)) as [[a|e] s']; cbn in *; [exact Hm|]. unfold keeps_conn. reflexivity.
Qed.

Lemma transaction_keeps {A} (m : M conn A) : guarantees keeps_conn m → guarantees keeps_world (transaction m).
Proof.
  intros Hm w. unfold transaction. specialize (Hm (mkConn (w_db w) false (w_outbox w))).
  destruct (m _) as [[a|e] c]; cbn in *; [|unfold keeps_world; reflexivity].
  unfold keeps_world. cbn. destruct (cn_broken c); [reflexivity|exact Hm].
Qed.

Lemma send_sms_keeps phone nc : guarantees keeps_conn (send_approve_credentials_sms phone nc).
Proof. unfold send_approve_credentials_sms. guarantee. apply guarantees_modify. intros c. unfold keeps_conn. reflexivity. Qed.

Lemma delete_pending_keeps pk : guarantees keeps_wf (delete_pending pk).
Proof. apply guarantees_modify. intros s. by apply other_tables_wf. Qed.

Lemma delete_pending_club_keeps pk : guarantees keeps_wf (delete_pending_club pk).
Proof. apply guarantees_modify. intros s. by apply other_tables_wf. Qed.

Lemma create_from_pending_keeps p u b1 b2 : guarantees keeps_wf (create_profile_from_pending p u b1 b2).
Proof. intros s. apply create_profile_keeps. Qed.

#[local] Hint Resolve query_keeps transaction_keeps send_sms_keeps delete_pending_keeps delete_pending_club_keeps
  create_from_pending_keeps create_profile_keeps create_club_keeps get_or_create_user_keeps : guarantees.

Lemma approve_application_keeps a row : guarantees keeps_conn (approve_application a row).
Proof. destruct row as [pk p]. unfold approve_application. guarantee. Qed.

Lemma approve_club_keeps row : guarantees keeps_conn (approve_club row).
Proof. destruct row as [pk p]. unfold approve_club. guarantee. Qed.

#[local] Hint Resolve approve_application_keeps approve_club_keeps : guarantees.

Lemma approve_pending_user_keeps pk : guarantees keeps_wf (approve_pending_user pk).
Proof.
  intros s Hwf. unfold approve_pending_user. unfold bind at 1, get. destruct (ac_pending s !! pk) as [x|]; [|done].
  cbn. destruct (_ && _); [done|]. unfold bind at 1, atomic. set (c := if truthy_id _ then _ else _).
  destruct (find_user s (strip (pe_phone (pu_person x)))) as [k|] eqn:E.
  - unfold bind at 1 2, modify. set (s1 := set_ac_users _ s).
    assert (Hs1 : accounts_wf s1) by by apply change_password_wf.
    unfold ret at 1. unfold bind. set (p := mkProfile _ _ _).
    pose proof (create_profile_keeps p s1 Hs1) as Hc. destruct (create_profile p s1) as [[n|e] s2]; [|done]. cbn in *.
    by apply (delete_pending_keeps pk s2).
  - unfold bind at 1. set (u := mkUser _ _). pose proof (insert_user_wf s u Hwf E) as Hu.
    destruct (insert_user u s) as [[n|e] s1]; [|done]. unfold bind. set (p := mkProfile _ _ _).
    pose proof (create_profile_keeps p s1 Hu) as Hc. destruct (create_profile p s1) as [[j|e] s2]; [|done]. cbn in *.
    by apply (delete_pending_keeps pk s2).
Qed.

Lemma approve_pending_club_keeps pk : guarantees keeps_wf (approve_pending_club pk).
Proof.
  intros s Hwf. unfold approve_pending_club. unfold bind at 1, get. destruct (ac_pending_clubs s !! pk) as [x|]; [|done].
  cbn. destruct (_ && _); [done|]. unfold try_catch. unfold bind at 1, atomic.
  assert (Hlater : ∀ s1 k, accounts_wf s1 → ∀ c, accounts_wf
    (bind (create_club (mkClub c k)) (λ _, delete_pending_club pk) s1).2).
  { intros s1 k Hs1 c. unfold bind. pose proof (create_club_keeps (mkClub c k) s1 Hs1) as Hc.
    destruct (create_club _ s1) as [[j|e] s2]; [|done]. by apply (delete_pending_club_keeps pk s2). }
  destruct (find_user s (cd_founder_phone (pc_data x))) as [k|] eqn:E.
  - unfold bind at 1, ret at 1. specialize (Hlater s (Some k) Hwf (set_cd_club_name (strip (cd_club_name (pc_data x))) (set_cd_city (strip (cd_city (pc_data x))) (pc_data x)))). destruct (bind _ _ s) as [[j|e] s2]; [done|done].
  - unfold bind at 1. set (u := mkUser _ _). pose proof (insert_user_wf s u Hwf E) as Hu.
    destruct (insert_user u s) as [[n|e] s1]; [|done]. specialize (Hlater s1 (Some n) Hu (set_cd_club_name (strip (cd_club_name (pc_data x))) (set_cd_city (strip (cd_city (pc_data x))) (pc_data x)))).
    destruct (bind _ _ s1) as [[j|e] s2]; [done|done].
Qed.

(** A profile may change in every column that is not unique. *)
Lemma edit_profile_wf s k x y : ac_profiles s !! k = Some y → pf_user x = pf_user y →
  pe_national_code (pf_person x) = pe_national_code (pf_person y) → pe_phone (pf_person x) = pe_phone (pf_person y) →
  keeps_wf s (set_ac_profiles (<[k := x]> (ac_profiles s)) s).
Proof.
  intros Hk Hu Hn Hp [Hwu Hwp Hwc Hwn Hwq Hwd]. split; cbn; try done.
  - intros i p [[<- _]|[_ Hi]]%lookup_insert_Some; by eapply Hwp.
  - apply pairwise_update with y; [apply other_profile_sym|done|done|]. intros b. unfold other_profile, profile_conflict.
    by rewrite Hu, Hn, Hp.
Qed.

Lemma delete_edit_wf s t : accounts_wf s → accounts_wf (set_ac_edits t s).
Proof. by apply other_tables_wf. Qed.

Lemma approve_edited_profile_keeps pk : guarantees keeps_wf (approve_edited_profile pk).
Proof.
  intros s. unfold approve_edited_profile, bind, get, of_option, modify.
  destruct (ac_edits s !! pk) as [e|]; [|done]. cbn.
  destruct (ac_profiles s !! ed_original_user e) as [y|] eqn:E; [|done].
  cbn. intros Hwf. apply delete_edit_wf.
  revert Hwf. by apply edit_profile_wf with y.
Qed.

Lemma approve_edit_keeps row : guarantees keeps_conn (approve_edit row).
Proof.
  destruct row as [pk e]. intros c. unfold approve_edit, bind, get.
  destruct (ac_profiles (cn_db c) !! ed_original_user e) as [y|] eqn:E; [|unfold keeps_conn; reflexivity].
  unfold query, modify. destruct (cn_broken c); [unfold keeps_conn; reflexivity|]. cbn.
  unfold keeps_conn. cbn. intros Hwf. apply delete_edit_wf.
  revert Hwf. by apply edit_profile_wf with y.
Qed.

(** Codes by SMS and the clubs of coaches keep them too. *)
Lemma serve_keeps clk rand q : guarantees keeps_wf (serve collate clk rand q).
Proof.
  intros s. destruct (serve collate clk rand q s) as [r s'] eqn:E. apply serve_outcome in E. cbn.
  assert (Hc : keeps_wf s (cleaned clk s)) by by apply other_tables_wf.
  etrans; [exact Hc|]. destruct E; try (by apply other_tables_wf).
  - intros [Hu Hp Hb Hn Hq Hd]. split; cbn; try done; by apply keys_later.
  - intros Hwf. apply change_password_wf. by eapply (other_tables_wf (cleaned clk s)).
Qed.

Lemma set_clubs_keeps k f s : keeps_wf s (set_clubs k f s).
Proof.
  unfold set_clubs. destruct (ac_profiles s !! k) as [y|] eqn:E.
  - rewrite (alter_some _ _ _ _ E). by apply edit_profile_wf with y.
  - rewrite alter_id by congruence. by apply other_tables_wf.
Qed.

Lemma get_or_create_request_keeps coach club t : guarantees keeps_wf (get_or_create_request coach club t).
Proof.
  intros s Hwf. unfold get_or_create_request, bind, get, fresh, modify. cbn. destruct (exists_row _ _); [done|].
  cbn. destruct Hwf as [Hu Hp Hb Hn Hq Hd]. split; cbn; try done; by apply keys_later.
Qed.

Lemma own_profile_keeps user : guarantees keeps_wf (own_profile user).
Proof. intros s. unfold own_profile, bind, get. by destruct (profile_of s user). Qed.

#[local] Hint Resolve get_or_create_request_keeps own_profile_keeps : guarantees.

Lemma request_add_keeps club k : guarantees keeps_wf (request_add club k).
Proof. unfold request_add. guarantee. Qed.

Lemma request_remove_keeps club k : guarantees keeps_wf (request_remove club k).
Proof. unfold request_remove. guarantee. Qed.

#[local] Hint Resolve request_add_keeps request_remove_keeps approve_edit_keeps approve_edited_profile_keeps
  approve_pending_user_keeps approve_pending_club_keeps serve_keeps : guarantees.

Lemma serve_club_keeps order q : guarantees keeps_wf (serve_club order q).
Proof.
  destruct q as [user ids|user selected|user pk action]; cbn [serve_club];
    [unfold update_coach_clubs|unfold update_club_coaches|unfold respond]; guarantee;
    apply guarantees_modify; intros s; (apply set_clubs_keeps || by apply other_tables_wf).
Qed.

#[local] Hint Resolve serve_club_keeps : guarantees.

(** ** Requests *)

Definition on_db {A} (m : M accounts A) : M world A := λ w,
  let '(r, s) := m (w_db w) in (r, mkWorld s (w_outbox w)).

Inductive account_request :=
  | ApproveUser (pk : Z)
  | ApproveApplications (a : application) (selected : list Z)
  | ApproveApplication (a : application) (pk : Z)
  | ApproveClub (pk : Z)
  | ApproveClubs (selected : list Z)
  | ApproveEdit (pk : Z)
  | ApproveEdits (selected : list Z)
  | Sms (clk rand : nat → Z) (q : sms_request)
  | Clubs (order : gset Z → list Z) (q : club_request).

Definition serve_account (q : account_request) (w : world) : world :=
  match q with
  | ApproveUser pk => (on_db (approve_pending_user pk) w).2
  | ApproveApplications a selected => (approve_applications a selected w).2
  | ApproveApplication a pk => (approve_single_application a pk w).2
  | ApproveClub pk => (on_db (approve_pending_club pk) w).2
  | ApproveClubs selected => (approve_clubs selected w).2
  | ApproveEdit pk => (on_db (approve_edited_profile pk) w).2
  | ApproveEdits selected => (approve_edits selected w).2
  | Sms clk rand q => (on_db (serve collate clk rand q) w).2
  | Clubs order q => (on_db (serve_club order q) w).2
  end.

Lemma on_db_keeps {A} (m : M accounts A) : guarantees keeps_wf m → guarantees keeps_world (on_db m).
Proof. intros Hm w. unfold on_db. specialize (Hm (w_db w)). by destruct (m (w_db w)). Qed.

#[local] Hint Resolve on_db_keeps : guarantees.

Lemma approve_edits_keeps selected : guarantees keeps_world (approve_edits selected).
Proof. unfold approve_edits. apply transaction_keeps. guarantee. Qed.

Lemma approve_clubs_keeps selected : guarantees keeps_world (approve_clubs selected).
Proof. unfold approve_clubs. apply transaction_keeps. guarantee. Qed.

Lemma approve_applications_keeps a selected : guarantees keeps_world (approve_applications a selected).
Proof. unfold approve_applications. apply transaction_keeps. guarantee. Qed.

Lemma approve_single_keeps a pk : guarantees keeps_world (approve_single_application a pk).
Proof. unfold approve_single_application. apply transaction_keeps. guarantee. Qed.

Lemma serve_account_keeps q w : keeps_world w (serve_account q w).
Proof.
  destruct q as [pk|a l|a pk|pk|l|pk|l|clk rand q|order q]; cbn [serve_account];
    [apply (on_db_keeps _ (approve_pending_user_keeps pk))|apply approve_applications_keeps|apply approve_single_keeps
    |apply (on_db_keeps _ (approve_pending_club_keeps pk))|apply approve_clubs_keeps
    |apply (on_db_keeps _ (approve_edited_profile_keeps pk))|apply approve_edits_keeps
    |apply (on_db_keeps _ (serve_keeps clk rand q))|apply (on_db_keeps _ (serve_club_keeps order q))].
Qed.

(** C20: Through every sequence of approvals, edits, password resets and requests between
    clubs and coaches, logins keep distinct names, profiles distinct national codes, phones
    and logins, and clubs distinct logins and distinct names within a city, by the order of
    the database's own comparison of texts. *)
Theorem accounts_stay_unique qs w : accounts_wf (w_db w) → accounts_wf (w_db (foldl (λ w q, serve_account q w) w qs)).
Proof.
  revert w. induction qs as [|q qs IH]; intros w Hwf; [done|]. apply IH. by apply serve_account_keeps.
Qed.
End membership.

(** ** Examples *)

Definition applicant (phone : string) : Person :=
  mkPerson "Ali" "Ahmadi" "" "4610000002" "" "" phone "player" "" "" "" "" "" None "" (Some 2) "Sara Karimi" None [] "" "" ""
    false None None false false None None false None None false None None true.
Definition club_application (name phone : string) : PendingClub :=
  mkPendingClub (mkClubData name "" "4610000003" phone "" None "" "" "Shahrekord" None "" "" "" "" "" true) "".
Definition edit_request : PendingEditProfile :=
  mkEdit 2 (mkPerson "Sara" "Karimi" "" "4610000001" "" "" phone_1 "coach" "" "" "" "" "" None "" None "" (Some 11) [] "" "" ""
              true None None false false None None false None None false None None true) ∅.

Definition membership_db : accounts :=
  set_ac_pending {[7 := mkPending (applicant "09130000002") ∅]}
    (set_ac_pending_clubs {[8 := club_application "Aria" "09130000003"; 9 := club_application "Aria" "09130000004"]}
       (set_ac_edits {[10 := edit_request]} (set_ac_next_id 30 demo_accounts))).
Definition start : world := mkWorld membership_db [].

Definition text (t : string) : string := t.

Lemma pairwise_singleton {A} (R : A → A → Prop) k x : pairwise R {[k := x]}.
Proof. intros i j a b [<- _]%lookup_singleton_Some [<- _]%lookup_singleton_Some. done. Qed.

Lemma membership_db_wf : accounts_wf text membership_db.
Proof.
  split; cbn; try apply pairwise_singleton.
  - by intros k u [<- _]%lookup_singleton_Some.
  - by intros k u [<- _]%lookup_singleton_Some.
  - intros k c. by rewrite lookup_empty.
  - intros i j a b. by rewrite lookup_empty.
Qed.

Lemma accounts_stay_unique_witness :
  let qs := [ApproveUser 7; ApproveClubs [8]; ApproveEdit 10; Sms (at_minute 5) (draws 1) (ForgotSend (Some phone_1))] in
  let w := foldl (λ w q, serve_account text String.eqb true q w) start qs in
  size (ac_profiles (w_db w)) = 2%nat ∧ size (ac_clubs (w_db w)) = 1%nat ∧ accounts_wf text (w_db w).
Proof.
  intros qs w. split; [by vm_compute|]. split; [by vm_compute|].
  exact (accounts_stay_unique text String.eqb true qs start membership_db_wf).
Defined.
