(* ===== verification/ApprovalPaths.v ===== *)
(** What an approval of [Membership] does: the selection of clubs approved in one transaction,
    the two ways to approve an edit, and the two ways to approve a user. *)

From S2P Require Import Prelude Store Ranking GroupRegistration Text Accounts SmsCodes Membership.
Local Open Scope Z_scope.

Section approving.
Context (collate : string → string) (sms_enabled : bool).
Local Abbreviation same := (SmsCodes.same collate).
Local Abbreviation approve_club := (approve_club collate sms_enabled).
Local Abbreviation approve_clubs := (approve_clubs collate sms_enabled).
Local Abbreviation approve_pending_user := (approve_pending_user collate).
Local Abbreviation approve_single_application := (approve_single_application collate sms_enabled).
Local Abbreviation create_club := (create_club collate).
Local Abbreviation create_profile := (create_profile collate).
Local Abbreviation create_profile_from_pending := (create_profile_from_pending collate).
Local Abbreviation get_or_create_auth_user_by_phone := (get_or_create_auth_user_by_phone collate).
Local Abbreviation find_user := (find_user collate).
Local Abbreviation accounts_wf := (accounts_wf collate).
Local Abbreviation send_approve_credentials_sms := (send_approve_credentials_sms sms_enabled).

(** ** Approving several clubs at once *)

Definition founder_phone (p : PendingClub) : string := or_str (cd_founder_phone (pc_data p)) (cd_phone (pc_data p)).
Definition has_phone (row : Z * PendingClub) : Prop := founder_phone row.2 ≠ ""%string.

(** The club made of an application. *)
Definition club_of_application (p : PendingClub) (user : Z) : Club :=
  mkClub (set_cd_founder_phone (normalize_phone (founder_phone p)) (pc_data p)) (Some user).

Lemma get_or_create_user_ok phone nc s : ∃ u s', get_or_create_auth_user_by_phone phone nc s = (Ok u, s') ∧
  ac_clubs s' = ac_clubs s ∧ ac_pending_clubs s' = ac_pending_clubs s ∧ ac_pending s' = ac_pending s.
Proof.
  unfold get_or_create_auth_user_by_phone, bind, get. destruct (find_user _ _) as [k|]; [|by eauto 10].
  destruct (_ && _); cbn; eauto 10.
Qed.

Lemma create_club_cases c s : accounts_wf s →
  (∃ e, create_club c s = (Err e, s)) ∨
  ∃ k s', create_club c s = (Ok k, s') ∧ ac_clubs s !! k = None ∧ ac_clubs s' = <[k := c]> (ac_clubs s) ∧
    ac_pending_clubs s' = ac_pending_clubs s.
Proof.
  intros Hwf. unfold create_club, bind, get. destruct (exists_row _ _); [left; by eexists|right].
  cbn. eexists _, _. split; [done|]. split; [|done]. apply eq_None_not_Some. intros [x Hx%(wf_club_keys collate s Hwf)]. lia.
Qed.

(** How one turn of the loop ends: without a phone nothing happens; otherwise the club is
    created and its application deleted, or the connection is broken. *)
Inductive club_turn (row : Z * PendingClub) (c : conn) : bool → conn → Prop :=
  | NoPhone : ¬ has_phone row → club_turn row c false c
  | Refused c' : has_phone row → cn_broken c' = true → club_turn row c false c'
  | Created c' k u : has_phone row → cn_broken c = false → cn_broken c' = false →
      ac_clubs (cn_db c) !! k = None →
      ac_clubs (cn_db c') = <[k := club_of_application row.2 u]> (ac_clubs (cn_db c)) →
      ac_pending_clubs (cn_db c') = delete row.1 (ac_pending_clubs (cn_db c)) → club_turn row c true c'.

Lemma send_sms_db phone nc c : ∃ c', send_approve_credentials_sms phone nc c = (Ok tt, c') ∧
  cn_db c' = cn_db c ∧ cn_broken c' = cn_broken c.
Proof. unfold send_approve_credentials_sms. destruct (_ && _); eexists; split; done. Qed.

Lemma approve_club_turn row c : accounts_wf (cn_db c) → ∃ b c', approve_club row c = (Ok b, c') ∧ club_turn row c b c'.
Proof.
  destruct row as [pk p]. intros Hwf. unfold approve_club. fold (founder_phone p).
  destruct (truthy_str (founder_phone p)) eqn:Ep; cbn [negb].
  2: { exists false, c. split; [done|]. apply NoPhone. apply negb_false_iff, String.eqb_eq in Ep. by intros []. }
  assert (Hp : has_phone (pk, p)). { apply negb_true_iff, String.eqb_neq in Ep. exact Ep. }
  unfold try_catch at 1. unfold bind at 1, query at 1. destruct (cn_broken c) eqn:Eb.
  { exists false, c. split; [done|by apply Refused]. }
  destruct (get_or_create_user_ok (normalize_phone (founder_phone p)) (cd_founder_national_code (pc_data p)) (cn_db c))
    as (u & s1 & E1 & Hc1 & Hp1 & _).
  pose proof (get_or_create_user_keeps collate (normalize_phone (founder_phone p)) (cd_founder_national_code (pc_data p)) (cn_db c) Hwf) as Hwf1.
  rewrite E1 in *. cbn [snd] in Hwf1.
  unfold bind at 1, try_catch. unfold bind at 1, query at 1. cbn [cn_broken cn_db].
  destruct (create_club_cases (mkClub (set_cd_founder_phone (normalize_phone (founder_phone p)) (pc_data p)) (Some u)) s1 Hwf1)
    as [[e E2]|(k & s2 & E2 & Hk & Hc2 & Hp2)]; rewrite E2.
  { eexists false, _. split; [done|by apply Refused]. }
  unfold ret at 1. set (c2 := mkConn s2 false (cn_outbox c)).
  assert (Hsms : ∃ c3, (if truthy_str (strip (_fa2en (cd_founder_national_code (pc_data p))))
                        then send_approve_credentials_sms (normalize_phone (founder_phone p))
                               (strip (_fa2en (cd_founder_national_code (pc_data p)))) else ret tt) c2 = (Ok tt, c3)
                       ∧ cn_db c3 = s2 ∧ cn_broken c3 = false).
  { destruct (truthy_str (strip _)); [apply (send_sms_db _ _ c2)|by exists c2]. }
  destruct Hsms as (c3 & E3 & Hdb & Hbr). cbn [cn_outbox]. fold c2. unfold bind.
  rewrite E3. unfold query. rewrite Hbr, Hdb. cbn.
  eexists true, _. split; [done|]. apply Created with k u; cbn; rewrite ?Hc2, ?Hp2, <- ?Hc1, <- ?Hp1; done.
Qed.

(** The club of an application is there and the application is gone. *)
Definition club_stored (row : Z * PendingClub) (s : accounts) : Prop :=
  (∃ k u, ac_clubs s !! k = Some (club_of_application row.2 u)) ∧ ac_pending_clubs s !! row.1 = None.

(** A selected club that has a phone is not counted as a success. *)
Definition some_refused (rows : list (Z * PendingClub)) (flags : list bool) : Prop :=
  ∃ i row, rows !! i = Some row ∧ has_phone row ∧ flags !! i = Some false.

Lemma club_stored_later row c b c' r : club_turn r c b c' → cn_broken c' = false →
  club_stored row (cn_db c) → club_stored row (cn_db c').
Proof.
  intros Ht Hb [(k & u & Hk) Hd]. destruct Ht as [|c' _ Hb'|c' k' u' _ _ _ Hn Hc Hp]; [by split; eauto|congruence|].
  split.
  - exists k, u. rewrite Hc, lookup_insert_ne by congruence. done.
  - rewrite Hp. apply lookup_delete_None. by right.
Qed.

Lemma some_refused_cons row rows b flags :
  some_refused (row :: rows) (b :: flags) ↔ has_phone row ∧ b = false ∨ some_refused rows flags.
Proof.
  split.
  - intros ([|i] & x & Hx & Hp & Hf); cbn in *; [left|right; by exists i, x]. by simplify_eq.
  - intros [[Hp ->]|(i & x & Hx & Hp & Hf)]; [by exists 0%nat, row|by exists (S i), x].
Qed.

Lemma approve_clubs_loop rows c : accounts_wf (cn_db c) → ∃ flags c', mapM approve_club rows c = (Ok flags, c') ∧
  length flags = length rows ∧ (cn_broken c' = true ↔ cn_broken c = true ∨ some_refused rows flags) ∧
  (cn_broken c' = false → (∀ row, club_stored row (cn_db c) → club_stored row (cn_db c')) ∧
     ∀ row, row ∈ rows → has_phone row → club_stored row (cn_db c')).
Proof.
  revert c. induction rows as [|row rows IH]; intros c Hwf.
  { exists [], c. split_and!; [done|done| |].
    - split; [by left|]. by intros [?|([|i] & x & Hx & _)].
    - intros _. split; [done|]. by intros row ?%not_elem_of_nil. }
  destruct (approve_club_turn row c Hwf) as (b & c1 & E1 & Ht).
  pose proof (approve_club_keeps collate sms_enabled row c Hwf) as Hwf1. rewrite E1 in Hwf1. cbn in Hwf1.
  destruct (IH c1 Hwf1) as (flags & c' & E2 & Hl & Hb & Hs).
  exists (b :: flags), c'. cbn [mapM]. unfold bind. rewrite E1, E2. cbn [length]. split_and!; [done|lia| |].
  - rewrite Hb, some_refused_cons. pose proof (eq_refl false).
    destruct Ht as [Hp|c1 Hp Hb1|c1 k u _ Hb0 Hb1 _ _ _]; [tauto|tauto|].
    rewrite Hb0, Hb1. assert (true = false → False) by done. tauto.
  - intros Hc'. destruct (Hs Hc') as [Hold Hnew]. assert (Hc1 : cn_broken c1 = false).
    { apply not_true_is_false. intros H. rewrite (proj2 Hb) in Hc' by by left. done. }
    split; [intros x Hx; apply Hold; by eapply club_stored_later|].
    intros x [->|Hx]%elem_of_cons Hp; [|by apply Hnew]. apply Hold.
    destruct Ht as [|c1 _ Hb1|c1 k u _ _ _ Hn Hc Hpc]; [done|congruence|]. split.
    + exists k, u. by rewrite Hc, lookup_insert_eq.
    + rewrite Hpc. apply lookup_delete_eq.
Qed.

(** C21: Approving a selection of clubs always answers, and it is all or nothing: when every
    selected club with a phone is counted a success, their clubs are stored and their
    applications gone; when one of them is not, nothing is stored, whatever was counted
    before and although the messages for those clubs have been sent. *)
Theorem club_batch_all_or_nothing selected w : accounts_wf (w_db w) →
  let rows := List.filter (λ kr, bool_decide (kr.1 ∈ selected)) (rev (rows_by_id (ac_pending_clubs (w_db w)))) in
  ∃ flags w', approve_clubs selected w = (Ok flags, w') ∧ length flags = length rows ∧
    (some_refused rows flags → w_db w' = w_db w) ∧
    (¬ some_refused rows flags → ∀ row, row ∈ rows → has_phone row → club_stored row (w_db w')).
Proof.
  intros Hwf rows. unfold approve_clubs, transaction. unfold bind at 1, get. cbn [cn_db]. fold rows.
  destruct (approve_clubs_loop rows (mkConn (w_db w) false (w_outbox w)) Hwf) as (flags & c & E & Hl & Hb & Hs).
  rewrite E. eexists flags, _. split; [done|]. split; [done|]. cbn. split.
  - intros Hr. by rewrite (proj2 Hb) by by right.
  - intros Hr. destruct (cn_broken c) eqn:Hc; [exfalso|by apply Hs]. by destruct (proj1 Hb eq_refl).
Qed.

(** ** The two ways to approve an edit *)

(** What a person is apart from the columns that only one of the two ways copies. *)
Definition without_texts (p : Person) : Person :=
  set_pe_tkd_board_name "" (set_pe_club_names [] (set_pe_coach_name "" 
    (mkPerson (pe_first_name p) (pe_last_name p) (pe_father_name p) (pe_national_code p) (pe_birth_date p)
       (pe_gender p) (pe_phone p) (pe_role p) (pe_profile_image p) (pe_address p) (pe_province p) (pe_county p)
       (pe_city p) (pe_tkd_board p) (pe_tkd_board_name p) (pe_coach p) (pe_coach_name p) (pe_club p)
       (pe_club_names p) (pe_belt_grade p) (pe_belt_certificate_number p) (pe_belt_certificate_date p)
       (pe_is_coach p) (pe_coach_level p) (pe_coach_level_International p) (pe_is_referee p) (pe_kyorogi p)
       (pe_kyorogi_level p) (pe_kyorogi_level_International p) (pe_poomseh p) (pe_poomseh_level p)
       (pe_poomseh_level_International p) (pe_hanmadang p) (pe_hanmadang_level p)
       (pe_hanmadang_level_International p) false))).

(** A relation that the edit names or the person does not have. *)
Definition named {A} (e u : option A) : Prop := e ≠ None ∨ u = None.

Lemma edited_same e u : without_texts (edited_by_view e u) = without_texts (edited_by_admin e u) ↔
  named (pe_tkd_board e) (pe_tkd_board u) ∧ named (pe_coach e) (pe_coach u) ∧ named (pe_club e) (pe_club u).
Proof.
  assert (Hr : ∀ a b : option Z, or_else a b = a ↔ named a b).
  { intros [a|] b; unfold named, or_else; naive_solver. }
  rewrite <- !Hr. unfold without_texts, edited_by_view, edited_by_admin. cbn. split.
  - intros H. injection H. auto.
  - intros (-> & -> & ->). done.
Qed.

(** Selecting one key of a table. *)
Lemma filter_key_none {A} k (l : list (Z * A)) : k ∉ l.*1 →
  List.filter (λ kr, bool_decide (kr.1 ∈ [k])) l = [].
Proof.
  induction l as [|[j y] l IH]; [done|]. cbn. intros [Hne Hl]%not_elem_of_cons.
  rewrite bool_decide_eq_false_2; [by apply IH|]. intros H%list_elem_of_singleton. congruence.
Qed.

Lemma filter_key {A} k x (l : list (Z * A)) : NoDup l.*1 → (k, x) ∈ l →
  List.filter (λ kr, bool_decide (kr.1 ∈ [k])) l = [(k, x)].
Proof.
  induction l as [|[j y] l IH]; [by intros _ ?%not_elem_of_nil|]. cbn. intros [Hj Hd]%NoDup_cons [[= -> ->]|Hin]%elem_of_cons.
  - rewrite bool_decide_eq_true_2 by (by apply list_elem_of_singleton). by rewrite filter_key_none.
  - rewrite bool_decide_eq_false_2; [by apply IH|]. intros ->%list_elem_of_singleton. apply Hj.
    apply list_elem_of_fmap. by exists (k, x).
Qed.

Lemma selected_row {A} k x (t : gmap Z A) : t !! k = Some x →
  List.filter (λ kr, bool_decide (kr.1 ∈ [k])) (rev (rows_by_id t)) = [(k, x)].
Proof.
  intros Hk. apply filter_key.
  - rewrite <- (Permutation_rev (rows_by_id t)). apply NoDup_rows_by_id.
  - apply list_elem_of_In, in_rev. rewrite rev_involutive. by apply list_elem_of_In, elem_of_rows_by_id.
Qed.

(** Approved by the view or by the admin action, an edited profile keeps its login,
    national code and phone and gets the same columns, texts copied from relations apart,
    exactly when the edit names the board, the coach, the club and some coaching club, or
    the profile has none of what is not named: the view keeps what the edit leaves out, the
    action clears it. *)
Theorem edit_approvals_agree pk e user w : ac_edits (w_db w) !! pk = Some e →
  ac_profiles (w_db w) !! ed_original_user e = Some user →
  ∃ p1 p2,
    ac_profiles (approve_edited_profile pk (w_db w)).2 = <[ed_original_user e := p1]> (ac_profiles (w_db w)) ∧
    ac_profiles (w_db (approve_edits [pk] w).2) = <[ed_original_user e := p2]> (ac_profiles (w_db w)) ∧
    (∀ p, p = p1 ∨ p = p2 → pf_user p = pf_user user ∧ pe_phone (pf_person p) = pe_phone (pf_person user) ∧
       pe_national_code (pf_person p) = pe_national_code (pf_person user)) ∧
    (without_texts (pf_person p1) = without_texts (pf_person p2) ∧ pf_coaching_clubs p1 = pf_coaching_clubs p2 ↔
     named (pe_tkd_board (ed_person e)) (pe_tkd_board (pf_person user)) ∧
     named (pe_coach (ed_person e)) (pe_coach (pf_person user)) ∧
     named (pe_club (ed_person e)) (pe_club (pf_person user)) ∧
     (ed_coaching_clubs e ≠ ∅ ∨ pf_coaching_clubs user = ∅)).
Proof.
  intros He Hu. eexists _, _. split.
  { unfold approve_edited_profile, bind, get, of_option. rewrite He. cbn. rewrite Hu. cbn. reflexivity. }
  split.
  { unfold approve_edits, transaction, bind, get. cbn [cn_db]. rewrite (selected_row _ _ _ He). cbn. unfold bind, approve_edit, get.
    cbn. rewrite Hu. cbn. reflexivity. }
  cbn. split; [by intros p [-> | ->]|]. rewrite edited_same.
  destruct (decide (ed_coaching_clubs e = ∅)) as [Hc|Hc]; [rewrite Hc|]; naive_solver.
Qed.

(** ** Approving one user *)

Lemma create_profile_cases p s : accounts_wf s →
  create_profile p s = (Err IntegrityError, s) ∨
  ∃ k, ac_profiles s !! k = None ∧
    create_profile p s = (Ok k, set_ac_profiles (<[k := p]> (ac_profiles s)) (set_ac_next_id (ac_next_id s + 1) s)).
Proof.
  intros Hwf. unfold create_profile, bind, get. destruct (exists_row _ _); [by left|right].
  exists (ac_next_id s). split; [|done]. apply eq_None_not_Some. intros [x Hx%(wf_profile_keys collate s Hwf)]. lia.
Qed.

(** The login step of the view: a login of that name with that password. *)
Definition view_login (username : string) (password : option string) (s : accounts) : M accounts Z :=
  match find_user s username with
  | Some u => bind (modify (λ s, set_ac_users (alter (λ x, mkUser (us_username x) password) u (ac_users s)) s)) (λ _, ret u)
  | None => insert_user (mkUser username password)
  end.

Lemma view_login_ok username password s : accounts_wf s → ∃ u s1 login, view_login username password s s = (Ok u, s1) ∧
  accounts_wf s1 ∧ ac_users s1 !! u = Some login ∧ same (us_username login) username = true ∧ us_password login = password ∧
  ac_profiles s1 = ac_profiles s ∧ ac_pending s1 = ac_pending s.
Proof.
  intros Hwf. unfold view_login. destruct (find_user s username) as [u|] eqn:E.
  - destruct (find_user_some _ _ _ _ E) as (x & Hx & Hn). eexists u, _, (mkUser (us_username x) password).
    split; [done|]. split; [by apply change_password_wf|]. cbn. by rewrite lookup_alter_eq, Hx.
  - eexists _, _, (mkUser username password). split; [done|]. split; [by apply insert_user_wf|].
    cbn. rewrite lookup_insert_eq. split_and!; try done. apply String.eqb_refl.
Qed.

(** The profile made of an application, with the coach the view keeps. *)
Definition approved_profile (s : accounts) (pending : PendingUserProfile) (coach : option Z) (user : Z) : Profile :=
  let p := pu_person pending in
  mkProfile (Some user)
    (set_pe_tkd_board_name (board_name s (pe_tkd_board p))
       (set_pe_is_coach (bool_decide (pe_role p ∈ COACH_ROLES))
          (set_pe_is_referee (bool_decide (pe_role p ∈ REFEREE_ROLES)) (set_pe_coach coach p))))
    (pu_coaching_clubs pending).

Definition own_code (x : Profile) : string := _normalize_digits (Some (pe_national_code (pf_person x))).

(** The coach the view keeps: one that exists and has another national code. *)
Definition kept_coach (s : accounts) (p : Person) : option Z :=
  match (if truthy_id (pe_coach p) then pe_coach p ≫= λ c, (λ x, (c, x)) <$> ac_profiles s !! c else None) with
  | Some (c, x) => if String.eqb (own_code x) (_normalize_digits (Some (pe_national_code p))) then None else Some c
  | None => None
  end.

Lemma approve_pending_user_unfold pk pending s : ac_pending s !! pk = Some pending →
  let p := pu_person pending in
  approve_pending_user pk s =
    if truthy_str (pe_national_code p)
       && exists_row (λ x, same (pe_national_code (pf_person x)) (pe_national_code p)) (ac_profiles s)
    then (Ok AlreadyApproved, s)
    else bind (atomic (bind (view_login (strip (pe_phone p)) (password_of (_normalize_digits (Some (pe_national_code p)))) s)
                 (λ u, bind (create_profile (approved_profile s pending (kept_coach s p) u)) (λ _, delete_pending pk))))
           (λ _, ret UserApproved) s.
Proof. intros Hp p. unfold approve_pending_user. unfold bind at 1, get. rewrite Hp. cbn. by destruct (_ && _). Qed.

(** Approving an application answers that the national code already has a profile, or
    makes a login named by the phone with the normalised national code as its password and
    one new profile with the data of the application, its login and its coaching clubs, and
    deletes the application; otherwise nothing changes: there is no such application, or a
    unique column is taken. A coach is kept when it exists and has another national code. *)
Theorem approval_moves_application pk s r s' : accounts_wf s → approve_pending_user pk s = (r, s') →
  match r with
  | Ok AlreadyApproved => s' = s ∧ ∃ pending k x, ac_pending s !! pk = Some pending ∧ ac_profiles s !! k = Some x ∧
      same (pe_national_code (pf_person x)) (pe_national_code (pu_person pending)) = true
  | Ok UserApproved => ∃ pending u login k, ac_pending s !! pk = Some pending ∧ ac_users s' !! u = Some login ∧
      same (us_username login) (strip (pe_phone (pu_person pending))) = true ∧
      us_password login = password_of (_normalize_digits (Some (pe_national_code (pu_person pending)))) ∧
      ac_profiles s !! k = None ∧
      ac_profiles s' = <[k := approved_profile s pending (kept_coach s (pu_person pending)) u]> (ac_profiles s) ∧
      ac_pending s' = delete pk (ac_pending s)
  | Err e => s' = s ∧ (e = Http404 ∧ ac_pending s !! pk = None ∨ e = IntegrityError)
  end.
Proof.
  intros Hwf H. destruct (ac_pending s !! pk) as [pending|] eqn:Hp.
  2: { unfold approve_pending_user, bind, get, of_option in H. rewrite Hp in H. injection H as <- <-. split; [done|by left]. }
  rewrite (approve_pending_user_unfold pk pending s Hp) in H. cbv zeta in H.
  destruct (_ && _) eqn:E in H.
  { injection H as <- <-. split; [done|]. apply andb_true_iff in E as [_ (k & x & Hk & Hx)%exists_row_true].
    by exists pending, k, x. }
  unfold bind at 1, atomic in H. unfold bind at 1 in H.
  destruct (view_login_ok (strip (pe_phone (pu_person pending)))
              (password_of (_normalize_digits (Some (pe_national_code (pu_person pending))))) s Hwf)
    as (u & s1 & login & E1 & Hwf1 & Hu & Hn & Hw & Hpr & Hpe).
  rewrite E1 in H. unfold bind in H.
  destruct (create_profile_cases (approved_profile s pending (kept_coach s (pu_person pending)) u) s1 Hwf1)
    as [E2|(k & Hk & E2)]; rewrite E2 in H; cbn in H; injection H as <- <-.
  { split; [done|by right]. }
  exists pending, u, login, k. cbn. rewrite Hpr, Hpe in *. done.
Qed.

(** A number of ASCII digits is left alone by every normalisation. *)
Lemma strip_digits s : all_digits s = true → strip s = s.
Proof. rewrite all_digits_chars. intros Hs. apply strip_date. revert Hs. apply all_chars_impl, digit_date_char. Qed.

Lemma normalize_digits_id s : all_digits s = true → _normalize_digits (Some s) = s.
Proof. intros Hs. unfold _normalize_digits. by rewrite strip_digits, to_en_digits_digits. Qed.

Lemma admin_person (p : Person) board : pe_role p = "player"%string →
  normalize_phone (pe_phone p) = pe_phone p →
  set_pe_phone (normalize_phone (pe_phone p)) (set_pe_tkd_board_name board (set_pe_is_coach false (set_pe_is_referee false p)))
  = set_pe_tkd_board_name board (set_pe_is_coach (bool_decide (pe_role p ∈ COACH_ROLES))
      (set_pe_is_referee (bool_decide (pe_role p ∈ REFEREE_ROLES)) (set_pe_coach (pe_coach p) p))).
Proof. intros Hr Hp. rewrite Hp, Hr. destruct p. done. Qed.

Lemma create_profile_db p s : (∃ e, create_profile p s = (Err e, s)) ∨ ∃ k s', create_profile p s = (Ok k, s').
Proof. unfold create_profile, bind, get. destruct (exists_row _ _); [left; by eexists|right; by eexists _, _]. Qed.

(** For a player whose phone and national code are plain digits, with a phone that is
    no login yet, a national code that no profile has and a coach who is someone else, the
    admin action and the approval view leave the same database, also when a unique column
    refuses the profile. *)
Theorem approvals_agree pk pending w : ac_pending (w_db w) !! pk = Some pending →
  let p := pu_person pending in
  pe_role p = "player"%string →
  all_digits (pe_phone p) = true → String.length (pe_phone p) = 11%nat → String.prefix "09" (pe_phone p) = true →
  all_digits (pe_national_code p) = true → pe_national_code p ≠ ""%string →
  find_user (w_db w) (pe_phone p) = None →
  (∀ k x, ac_profiles (w_db w) !! k = Some x → collate (pe_national_code (pf_person x)) ≠ collate (pe_national_code p)) →
  kept_coach (w_db w) p = pe_coach p →
  w_db (approve_single_application PlayerApplication pk w).2 = (approve_pending_user pk (w_db w)).2.
Proof.
  intros Hp p Hrole Hd Hl H9 Hn Hne Hf Hnc Hcoach. destruct w as [s out]. cbn [w_db] in *.
  assert (Hph : normalize_phone (pe_phone p) = pe_phone p) by by apply normalize_phone_id.
  rewrite (approve_pending_user_unfold pk pending s Hp). fold p.
  assert (exists_row (λ x, same (pe_national_code (pf_person x)) (pe_national_code p)) (ac_profiles s) = false) as ->.
  { apply exists_row_false. intros k x Hx. apply String.eqb_neq. by apply (Hnc k). }
  rewrite andb_false_r, (strip_digits _ Hd), (normalize_digits_id _ Hn), Hcoach.
  unfold approve_single_application, transaction, bind at 1, get. cbn [cn_db w_db w_outbox]. rewrite Hp.
  unfold approve_application. fold p. unfold bind at 1, query at 1. cbn [cn_broken cn_db cn_outbox].
  unfold get_or_create_auth_user_by_phone. unfold bind at 1, get. rewrite Hph, Hf.
  assert (truthy_str (pe_national_code p) = true) as -> by by apply negb_true_iff, String.eqb_neq.
  rewrite (fa2en_digits _ Hn), (strip_digits _ Hn).
  unfold bind at 4, atomic. unfold bind at 4. unfold view_login. rewrite Hf.
  set (u := mkUser (pe_phone p) (password_of (pe_national_code p))).
  set (s1 := set_ac_users (<[ac_next_id s := u]> (ac_users s)) (set_ac_next_id (ac_next_id s + 1) s)).
  change (insert_user u s) with (Ok (ac_next_id s), s1). cbv beta iota.
  assert (Hfrom : create_profile_from_pending pending (ac_next_id s) false false s1
                  = create_profile (approved_profile s pending (pe_coach p) (ac_next_id s)) s1).
  { unfold create_profile_from_pending, bind, get, approved_profile. fold p. by rewrite (admin_person p _ Hrole Hph). }
  unfold bind at 1, query at 1. cbn [cn_broken cn_db cn_outbox coach_flag referee_flag]. rewrite Hfrom.
  unfold bind. cbv beta. change (insert_user u s) with (Ok (ac_next_id s), s1). cbv beta iota.
  destruct (create_profile_db (approved_profile s pending (pe_coach p) (ac_next_id s)) s1) as [[e ->]|(k & s2 & ->)];
    [done|].
  destruct (send_sms_db (pe_phone p) (pe_national_code p) (mkConn s2 false out)) as (c & Hc & Hdb & Hbr).
  rewrite Hc. unfold query. by rewrite Hbr, Hdb.
Qed.
End approving.

(** ** Examples *)

(** Two clubs of the same name and city: the first counts as approved and its founder gets
    the message, then everything is rolled back. *)
Example duplicate_club_undoes_batch : (approve_clubs text true [8; 9] start).1 = Ok [true; false]
  ∧ w_db (approve_clubs text true [8; 9] start).2 = membership_db
  ∧ w_outbox (approve_clubs text true [8; 9] start).2 = [("09130000004", "4610000003")]%string.
Proof. split_and!; by vm_compute. Qed.

(** An application with the phone of an existing login: the view replaces the password of
    that login, the admin action leaves it. *)
Definition same_phone : world :=
  mkWorld (set_ac_pending {[7 := mkPending (applicant "09130000005") ∅]}
             (set_ac_users {[3 := mkUser "09130000005" (Some "club-password"%string)]} membership_db)) [].

Example view_replaces_password :
  us_password <$> ac_users (approve_pending_user text 7 (w_db same_phone)).2 !! 3 = Some (Some "4610000002"%string)
  ∧ us_password <$> ac_users (w_db (approve_single_application text true PlayerApplication 7 same_phone).2) !! 3
    = Some (Some "club-password"%string).
Proof. split; by vm_compute. Qed.

Lemma club_batch_all_or_nothing_witness :
  let rows := List.filter (λ kr, bool_decide (kr.1 ∈ [8])) (rev (rows_by_id (ac_pending_clubs membership_db))) in
  ∃ flags w', approve_clubs text true [8] start = (Ok flags, w') ∧ length flags = length rows ∧
    (some_refused rows flags → w_db w' = membership_db) ∧
    (¬ some_refused rows flags → ∀ row, row ∈ rows → has_phone row → club_stored row (w_db w')).
Proof. exact (club_batch_all_or_nothing text true [8] start membership_db_wf). Defined.

Lemma edit_approvals_agree_witness :
  ∃ p1 p2,
    ac_profiles (approve_edited_profile 10 membership_db).2 = <[2 := p1]> (ac_profiles membership_db) ∧
    ac_profiles (w_db (approve_edits [10] start).2) = <[2 := p2]> (ac_profiles membership_db) ∧
    (∀ p, p = p1 ∨ p = p2 → pf_user p = Some 1 ∧ pe_phone (pf_person p) = phone_1 ∧
       pe_national_code (pf_person p) = "4610000001"%string) ∧
    (without_texts (pf_person p1) = without_texts (pf_person p2) ∧ pf_coaching_clubs p1 = pf_coaching_clubs p2 ↔
     named None (pe_tkd_board demo_person) ∧ named None (pe_coach demo_person) ∧
     named (Some 11) (pe_club demo_person) ∧ ((∅ : gset Z) ≠ ∅ ∨ (∅ : gset Z) = ∅)).
Proof.
  exact (edit_approvals_agree 10 edit_request (mkProfile (Some 1) demo_person ∅) start eq_refl eq_refl).
Defined.

Lemma approval_moves_application_witness :
  ∃ pending u login k, ac_pending membership_db !! 7 = Some pending ∧
    ac_users (approve_pending_user text 7 membership_db).2 !! u = Some login ∧
    same text (us_username login) (strip (pe_phone (pu_person pending))) = true ∧
    us_password login = password_of (_normalize_digits (Some (pe_national_code (pu_person pending)))) ∧
    ac_profiles membership_db !! k = None ∧
    ac_profiles (approve_pending_user text 7 membership_db).2
    = <[k := approved_profile membership_db pending (kept_coach membership_db (pu_person pending)) u]> (ac_profiles membership_db) ∧
    ac_pending (approve_pending_user text 7 membership_db).2 = delete 7 (ac_pending membership_db).
Proof.
  refine (approval_moves_application text 7 membership_db (Ok UserApproved) (approve_pending_user text 7 membership_db).2
            membership_db_wf _).
  vm_compute. reflexivity.
Defined.

Lemma approvals_agree_witness :
  kept_coach membership_db (applicant "09130000002") = Some 2 ∧
  w_db (approve_single_application text true PlayerApplication 7 start).2 = (approve_pending_user text 7 membership_db).2.
Proof.
  split; [by vm_compute|].
  apply (approvals_agree text true 7 (mkPending (applicant "09130000002") ∅) start); try reflexivity; try discriminate.
  intros k x Hk. change (({[2 := mkProfile (Some 1) demo_person ∅]} : gmap Z Profile) !! k = Some x) in Hk.
  apply lookup_singleton_Some in Hk as [<- <-]. discriminate.
Defined.
