(* ===== verification/Eligibility.v ===== *)
(** Who may enter a competition: the belts, ages and genders a competition admits, the
    lists of students a coach may register and the flag a player's page shows, from
    [competitions/views.py] and [competitions/serializers.py].

    As in [SelfRegistration], the belt and birth date of a profile and the belt groups
    of a competition are arguments; so are the belt level, the login of a profile and,
    for poomsae, the columns of [poomsae_rules].  [jdate_of] stands for
    [jdatetime.date.fromgregorian] on the day number of a date; it gives year, month
    and day of the Jalali calendar. *)

From Stdlib Require Import Ascii SpecFloat.
From stdpp Require Import pretty.
From S2P Require Import Prelude Store Points Ranking Ledger Payments GroupRegistration Text Dates Approvals SelfRegistration.
Local Open Scope Z_scope.

(** [competitions.AgeCategory]; dates are day numbers. *)
Record AgeCategory := mkAgeCategory {
  ac_name : string;
  ac_from_date : Z;
  ac_to_date : Z;
}.

(** The columns of a poomsae competition that say who may enter: its gender and belt
    level, its belt groups, and the age category and categories it names. *)
Record poomsae_rules := mkPoomsaeRules {
  pr_gender : string;
  pr_belt_level : string;
  pr_belt_groups : list (Z * list string);
  pr_age_category : option Z;
  pr_age_categories : list Z;
}.

(** ** Belts *)

Definition dan_belts : list string := (λ i, ("مشکی دان " ++ pretty i)%string) <$> seqZ 1 10.

(** [_allowed_belt_names_for_comp]: the names that the coach's list of a kyorugi
    competition admits. *)
Definition _allowed_belt_names_for_comp (groups : list (Z * list string)) (belt_level : string) : list string :=
  if negb (bool_decide (length groups = 0%nat)) then groups ≫= snd
  else if String.eqb belt_level "yellow_blue" then ["سفید"; "زرد"; "سبز"; "آبی"]%string
  else if String.eqb belt_level "red_black" then "قرمز"%string :: dan_belts
  else (["سفید"; "زرد"; "سبز"; "آبی"; "قرمز"]%string ++ dan_belts).

(** The set the list compares with: a name that is no belt leaves [None] in it. *)
Definition allowed_codes (groups : list (Z * list string)) (belt_level : string) : list (option string) :=
  _norm_belt <$> List.filter truthy_str (_allowed_belt_names_for_comp groups belt_level).

(** [_allowed_belts] of the serializers: sorted codes, each once. *)
Definition belt_codes (groups : list (Z * list string)) (belt_level : string) : list string :=
  if negb (bool_decide (length groups = 0%nat)) then omap _norm_belt (groups ≫= snd)
  else if String.eqb belt_level "yellow_blue" then ["yellow"; "green"; "blue"]%string
  else if String.eqb belt_level "red_black" then ["red"; "black"]%string
  else ["white"; "yellow"; "green"; "blue"; "red"; "black"]%string.
Definition _allowed_belts (groups : list (Z * list string)) (belt_level : string) : list string :=
  sort_by String.leb (remove_dups (belt_codes groups belt_level)).

(** [True if not allowed else player and player in allowed] *)
Definition belt_ok (allowed : list string) (player : option string) : bool :=
  bool_decide (length allowed = 0%nat) ||
  match player with Some b => bool_decide (b ∈ allowed) | None => false end.

(** ** Genders *)

(** [_gender_db_values_for] *)
Definition _gender_db_values_for (req_gender : string) : list string :=
  if String.eqb req_gender "female" then ["female"; "f"; "F"; "زن"; "خانم"; "بانوان"; "Female"]%string
  else if String.eqb req_gender "male" then ["male"; "m"; "M"; "مرد"; "آقا"; "آقایان"; "Male"]%string
  else [].

(** ** Students of a coach *)

(** One entry of the lists. *)
Record listed_student := mkListedStudent {
  ls_id : Z;
  ls_first_name : string;
  ls_last_name : string;
  ls_birth_date : string;
  ls_belt_grade : string;
  ls_club_name : string;
  ls_board_name : string;
  ls_already_enrolled : bool;
  ls_enrollment_status : option string;
}.

(** The body of the answers: fee in rials and tomans, students and pre-ticked ids. *)
Record student_list := mkStudentList {
  sl_entry_fee : Z;
  sl_entry_fee_toman : Z;
  sl_students : list listed_student;
  sl_prechecked_ids : list Z;
}.

(** [dict] of a list of pairs: the last value of a key, at the place of its first. *)
Definition dict_of (rows : list (Z * string)) (k : Z) : option string :=
  snd <$> last (List.filter (λ r, r.1 =? k) rows).
Definition dict_keys (rows : list (Z * string)) : list Z :=
  foldl (λ acc k, if bool_decide (k ∈ acc) then acc else acc ++ [k]) [] rows.*1.

(** [s.strip(c)] of one character. *)
Fixpoint lstrip_char (c : ascii) (s : string) : string :=
  match s with
  | String x s' => if Ascii.eqb x c then lstrip_char c s' else s
  | EmptyString => s
  end.
Fixpoint rstrip_char (c : ascii) (s : string) : string :=
  match s with
  | String x s' =>
      let r := rstrip_char c s' in
      if String.eqb r "" && Ascii.eqb x c then EmptyString else String x r
  | EmptyString => s
  end.
Definition strip_char (c : ascii) (s : string) : string := rstrip_char c (lstrip_char c s).

Section eligibility.
Context {P : Type} `{PointArith P} (iexact : string → string → bool)
  (jalali : Z → Z → Z → option date) (jdate_of : Z → date)
  (belt_grade birth_date : Z → string) (profile_user : Z → option Z)
  (belt_groups : Z → list (Z * list string)) (belt_level : Z → string)
  (ages : gmap Z AgeCategory) (rules : Z → poomsae_rules).
Local Abbreviation db := (DB P).

(** [_player_belt_code_from_profile]: a profile has no other belt column. *)
Definition _player_belt_code_from_profile (k : Z) : option string := _norm_belt (belt_grade k).

(** [_player_birthdate_to_gregorian], as a day number. *)
Definition _player_birthdate_to_gregorian (k : Z) : option Z :=
  toordinal <$> _parse_jalali_ymd jalali (birth_date k).

Definition in_window (bd : Z) (cat : AgeCategory) : bool :=
  (ac_from_date cat <=? bd) && (bd <=? ac_to_date cat).

(** [_age_ok_for_comp] *)
Definition _age_ok_for_comp (k : Z) (comp : KyorugiCompetition) : bool :=
  match _player_birthdate_to_gregorian k with
  | None => false
  | Some bd => match kc_age_category comp ≫= (ages !!.) with Some cat => in_window bd cat | None => true end
  end.

(** ** Kyorugi: [CoachStudentsEligibleListView] *)

Definition club_name_of (d : db) (row : UserProfile P) : string :=
  default "" (cl_club_name <$> (up_club row ≫= (db_clubs d !!.))).
Definition board_name_of (d : db) (row : UserProfile P) : string :=
  default "" (bo_name <$> (up_tkd_board row ≫= (db_boards d !!.))).

Definition listed (d : db) (existing : list (Z * string)) (kr : Z * UserProfile P) : listed_student :=
  mkListedStudent kr.1 (up_first_name kr.2) (up_last_name kr.2) (birth_date kr.1) (belt_grade kr.1)
    (club_name_of d kr.2) (board_name_of d kr.2)
    (negb (is_none (dict_of existing kr.1))) (dict_of existing kr.1).

(** The students of the coach, by gender where the competition requires one. *)
Definition students_qs (d : db) (comp : KyorugiCompetition) (coach : Z) : list (Z * UserProfile P) :=
  List.filter (λ kr,
    bool_decide (up_coach kr.2 = Some coach)
    && bool_decide (up_role kr.2 ∈ ["player"; "both"; "coach"; "referee"]%string)
    && (negb (bool_decide (_required_gender_for_comp comp ∈ [Some "male"; Some "female"]%string))
        || bool_decide (_required_gender_for_comp comp = Some (up_gender kr.2))))
    (rows_by_id (db_profiles d)).

(** The entries of these students in the competition that are not canceled. *)
Definition existing_map (d : db) (comp_id : Z) (ids : list Z) : list (Z * string) :=
  (λ ke : Z * Enrollment, (en_player ke.2, en_status ke.2)) <$>
    List.filter (λ ke, (en_competition ke.2 =? comp_id) && bool_decide (en_player ke.2 ∈ ids)
                       && negb (String.eqb (en_status ke.2) "canceled")) (rows_by_id (db_enrollments d)).

Definition belt_admitted (comp_id k : Z) : bool :=
  let allowed := allowed_codes (belt_groups comp_id) (belt_level comp_id) in
  bool_decide (length allowed = 0%nat) ||
  match _player_belt_code_from_profile k with
  | Some code => bool_decide (Some code ∈ allowed)
  | None => false
  end.

Definition eligible_students (d : db) (comp_id : Z) (comp : KyorugiCompetition) (coach : Z) : student_list :=
  let students := students_qs d comp coach in
  let existing := existing_map d comp_id students.*1 in
  mkStudentList (kc_entry_fee comp) (kc_entry_fee comp / 10)
    (listed d existing <$>
       List.filter (λ kr, belt_admitted comp_id kr.1 && _age_ok_for_comp kr.1 comp) students)
    (dict_keys existing).

Definition profiles_of (d : db) (user : Z) : list (Z * UserProfile P) :=
  List.filter (λ kr, bool_decide (profile_user kr.1 = Some user)) (rows_by_id (db_profiles d)).

(** [_coach_from_request] *)
Definition _coach_from_request (d : db) (user : Z) : option Z :=
  fst <$> head (List.filter (λ kr, bool_decide (up_role kr.2 ∈ ["coach"; "both"]%string)) (profiles_of d user)).

(** The view: [None] answers that the user has no profile of a coach. *)
Definition coach_students_eligible (d : db) (user : Z) (key : string) : result (option student_list) :=
  match _get_comp_by_key iexact d key ≫= (λ k, (λ c, (k, c)) <$> db_competitions d !! k) with
  | None => Err Http404
  | Some (comp_id, comp) => Ok (eligible_students d comp_id comp <$> _coach_from_request d user)
  end.

(** ** Kyorugi: the player's page *)

(** [_get_profile]: the profile of the user, preferring the role player. *)
Definition _get_profile (d : db) (user : Z) : option (Z * UserProfile P) :=
  match head (List.filter (λ kr, String.eqb (up_role kr.2) "player") (profiles_of d user)) with
  | Some kr => Some kr
  | None => head (profiles_of d user)
  end.

(** [_parse_jalali_str], on text. *)
Definition _parse_jalali_str (s : string) : option date :=
  if negb (truthy_str s) then None
  else
    match ints_ymd (slashes (strip_char "'" (strip_char (ascii_of_nat 34) (strip (_to_en_digits s))))) with
    | Some (y, m, d) =>
        if y <? 1700 then (λ _, mkDate y m d) <$> jalali y m d
        else (λ g, jdate_of (toordinal g)) <$> make_date y m d
    | None => None
    end.

(** The gender test of the serializers: [rg] is required, [pg] the player's. *)
Definition gender_matches (rg pg : string) : bool :=
  bool_decide (rg ∈ [""; "both"]%string) || (truthy_str pg && String.eqb rg pg).

(** [from_j <= dob_j <= to_j] on Jalali dates. *)
Definition jwindow_contains (dob : date) (cat : AgeCategory) : bool :=
  negb (date_ltb dob (jdate_of (ac_from_date cat))) && negb (date_ltb (jdate_of (ac_to_date cat)) dob).

(** [KyorugiCompetitionDetailSerializer.get_user_eligible_self], for a signed-in user. *)
Definition get_user_eligible_self (d : db) (comp_id : Z) (comp : KyorugiCompetition) (user : Z) : bool :=
  match _get_profile d user with
  | None => false
  | Some (k, prof) =>
      gender_matches (_norm_gender (kc_gender comp)) (_norm_gender (up_gender prof))
      && match kc_age_category comp ≫= (ages !!.) with
         | Some cat => match _parse_jalali_str (birth_date k) with
                       | Some dob => jwindow_contains dob cat
                       | None => false
                       end
         | None => true
         end
      && belt_ok (_allowed_belts (belt_groups comp_id) (belt_level comp_id)) (_player_belt_code_from_profile k)
  end.

(** ** Poomsae *)

(** The windows: the categories the competition names, else its one category. *)
Definition age_windows (r : poomsae_rules) : list AgeCategory :=
  match omap (ages !!.) (pr_age_categories r) with
  | [] => option_list (pr_age_category r ≫= (ages !!.))
  | wins => wins
  end.

(** [UserProfile.objects.filter(user=u).first()]: the filter by no user finds the
    profiles without a login. *)
Definition first_profile (d : db) (user : option Z) : option (Z * UserProfile P) :=
  head (List.filter (λ kr, bool_decide (profile_user kr.1 = user)) (rows_by_id (db_profiles d))).

(** [_poomsae_user_eligible] *)
Definition _poomsae_user_eligible (d : db) (comp_id : Z) (user : option Z) : bool :=
  let r := rules comp_id in
  match first_profile d user with
  | None => false
  | Some (k, prof) =>
      let req := required_gender (pr_gender r) in
      let wins := age_windows r in
      (bool_decide (req ∈ [None; Some ""; Some "both"]%string) || bool_decide (_gender_norm (up_gender prof) = req))
      && (bool_decide (length wins = 0%nat) ||
          match _player_birthdate_to_gregorian k with Some bd => existsb (in_window bd) wins | None => false end)
      && belt_ok (_allowed_belts (pr_belt_groups r) (pr_belt_level r)) (_player_belt_code_from_profile k)
  end.

(** The flag [PoomsaeCompetitionDetailSerializer] computes, with its own parsers. *)
Definition poomsae_eligible_self (d : db) (comp_id user : Z) : bool :=
  let r := rules comp_id in
  match _get_profile d user with
  | None => false
  | Some (k, prof) =>
      gender_matches (_norm_gender (pr_gender r)) (_norm_gender (up_gender prof))
      && match age_windows r with
         | [] => true
         | wins => match _parse_jalali_str (birth_date k) with
                   | Some dob => existsb (jwindow_contains dob) wins
                   | None => false
                   end
         end
      && belt_ok (_allowed_belts (pr_belt_groups r) (pr_belt_level r)) (_player_belt_code_from_profile k)
  end.

(** [PoomsaeCoachStudentsEligibleListView] *)
Definition poomsae_students_qs (d : db) (comp_id coach : Z) : list (Z * UserProfile P) :=
  let req := required_gender (pr_gender (rules comp_id)) in
  List.filter (λ kr,
    bool_decide (up_coach kr.2 = Some coach) && negb (kr.1 =? coach)
    && match req with
       | Some g => if bool_decide (g ∈ ["male"; "female"]%string)
                   then bool_decide (up_gender kr.2 ∈ _gender_db_values_for g) else true
       | None => true
       end) (rows_by_id (db_profiles d)).

Definition poomsae_existing_map (d : db) (comp_id : Z) (ids : list Z) : list (Z * string) :=
  omap (λ ke : Z * PoomsaeEnrollment,
    match pe_player ke.2 with
    | Some p => if (pe_competition ke.2 =? comp_id) && bool_decide (p ∈ ids)
                   && negb (String.eqb (pe_status ke.2) "canceled")
                then Some (p, pe_status ke.2) else None
    | None => None
    end) (rows_by_id (db_poomsae_enrollments d)).

Definition poomsae_eligible_students (d : db) (comp_id : Z) (comp : PoomsaeCompetition) (coach : Z) : student_list :=
  let students := poomsae_students_qs d comp_id coach in
  let existing := poomsae_existing_map d comp_id students.*1 in
  let items := listed d existing <$>
    List.filter (λ kr, _poomsae_user_eligible d comp_id (profile_user kr.1)) students in
  mkStudentList (pc_entry_fee comp) (pc_entry_fee comp / 10) items
    (List.filter (λ k, existsb (λ it, ls_id it =? k) items) (dict_keys existing)).

Definition poomsae_coach_students (d : db) (user : Z) (public_id : string) : result (option student_list) :=
  match head (List.filter (λ kc, iexact (pc_public_id kc.2) (strip public_id)) (rows_by_id (db_poomsae_comps d))) with
  | None => Err Http404
  | Some (comp_id, comp) => Ok (poomsae_eligible_students d comp_id comp <$> _coach_from_request d user)
  end.
End eligibility.

Lemma strip_char_absent c s : all_chars (λ x, negb (Ascii.eqb x c)) s = true → strip_char c s = s.
Proof.
  intros Hs. unfold strip_char. replace (lstrip_char c s) with s.
  - induction s as [|x s IH]; [done|]. cbn in *. apply andb_true_iff in Hs as [Hx Hs].
    rewrite IH by done. apply negb_true_iff in Hx. by rewrite Hx, andb_false_r.
  - destruct s as [|x s]; [done|]. cbn in *. apply andb_true_iff in Hs as [Hx _]. apply negb_true_iff in Hx. by rewrite Hx.
Qed.

Lemma strip_char_date c s : date_char c = false → all_chars date_char s = true → strip_char c s = s.
Proof.
  intros Hc Hs. apply strip_char_absent. revert Hs. apply all_chars_impl. intros x Hx.
  apply negb_true_iff, Ascii.eqb_neq. intros ->. congruence.
Qed.

(** ** Belts: the lists and the pages *)

Lemma elem_of_allowed_belts groups level code :
  code ∈ _allowed_belts groups level ↔ code ∈ belt_codes groups level.
Proof. unfold _allowed_belts. by rewrite sort_by_perm, elem_of_remove_dups. Qed.

Lemma named_codes names code :
  Some code ∈ _norm_belt <$> List.filter truthy_str names ↔ code ∈ omap _norm_belt names.
Proof.
  rewrite list_elem_of_fmap, list_elem_of_omap. split.
  - intros (b & E & [Hb _]%elem_of_filter_list). by exists b.
  - intros (b & Hb & E). exists b. split; [done|]. apply elem_of_filter_list. split; [done|].
    destruct (truthy_str b) eqn:Et; [done|]. unfold _norm_belt in E. by rewrite Et in E.
Qed.

Lemma fixed_codes names codes code : omap _norm_belt names = codes →
  Some code ∈ _norm_belt <$> List.filter truthy_str names ↔ code ∈ codes.
Proof. intros <-. apply named_codes. Qed.

(** The codes the coach's list admits and those the player's page admits are the same,
    except that a competition without belt groups for yellow to blue belts admits white
    belts in the list and not on the page. *)
Lemma allowed_belts_agree groups level code :
  Some code ∈ allowed_codes groups level ↔
  code ∈ _allowed_belts groups level ∨ (groups = [] ∧ level = "yellow_blue" ∧ code = "white")%string.
Proof.
  rewrite elem_of_allowed_belts. unfold allowed_codes, _allowed_belt_names_for_comp, belt_codes.
  destruct groups as [|g groups]; cbn [length]; case_bool_decide as Hl; try lia; cbn [negb].
  2: { rewrite named_codes. split; [by left|by intros [?|[? _]]]. }
  destruct (String.eqb_spec level "yellow_blue") as [->|Hy].
  { rewrite (fixed_codes _ ["white"; "yellow"; "green"; "blue"]%string) by reflexivity. set_solver. }
  destruct (String.eqb_spec level "red_black") as [->|Hr].
  { rewrite (fixed_codes _ ("red" :: replicate 10 "black")%string) by (vm_compute; reflexivity). set_solver. }
  rewrite (fixed_codes _ (["white"; "yellow"; "green"; "blue"; "red"]%string ++ replicate 10 "black"%string))
    by (vm_compute; reflexivity). set_solver.
Qed.

(** ** The lists and the registration *)

Lemma dict_of_some rows k : is_Some (dict_of rows k) ↔ k ∈ rows.*1.
Proof.
  unfold dict_of. rewrite fmap_is_Some, list_elem_of_fmap. split.
  - intros [r Hr]. exists r. apply last_Some in Hr as [l Hl].
    assert (Hin : r ∈ List.filter (λ r : Z * string, r.1 =? k) rows) by (rewrite Hl; set_solver).
    apply elem_of_filter_list in Hin as [Hin E]. apply Z.eqb_eq in E. done.
  - intros (r & -> & Hr). apply last_is_Some. intros E.
    assert (Hin : r ∈ List.filter (λ r' : Z * string, r'.1 =? r.1) rows).
    { apply elem_of_filter_list. by rewrite Z.eqb_refl. }
    rewrite E in Hin. set_solver.
Qed.

Lemma elem_of_existing {P} (d : DB P) comp_id ids k : k ∈ (existing_map d comp_id ids).*1 ↔ k ∈ ids ∧ k ∈ already d comp_id [k].
Proof.
  unfold existing_map, already. rewrite <- list_fmap_compose, list_elem_of_fmap. cbn. rewrite list_elem_of_omap. split.
  - intros ([e en] & -> & [Hin Hb]%elem_of_filter_list). cbn in *.
    rewrite !andb_true_iff, bool_decide_eq_true in Hb. destruct Hb as [[Hc Hi] Hs]. split; [done|].
    exists (e, en). split; [done|]. cbn. rewrite Hc, Hs, bool_decide_true by set_solver. done.
  - intros (Hk & [e en] & Hin & Hm). cbn in *. destruct (_ && _) eqn:Eb in Hm; [|done]. injection Hm as <-.
    exists (e, en). split; [done|]. apply elem_of_filter_list. split; [done|]. cbn.
    rewrite !andb_true_iff in Eb. destruct Eb as [[-> _] ->]. by rewrite bool_decide_true.
Qed.

Lemma elem_of_students_qs {P} (d : DB P) comp coach k row : (k, row) ∈ students_qs d comp coach ↔
  db_profiles d !! k = Some row ∧ up_coach row = Some coach ∧
  up_role row ∈ ["player"; "both"; "coach"; "referee"]%string ∧
  (∀ g, _required_gender_for_comp comp = Some g → g = "male" ∨ g = "female" → up_gender row = g)%string.
Proof.
  unfold students_qs. rewrite elem_of_filter_list, elem_of_rows_by_id. cbn [fst snd].
  rewrite !andb_true_iff, !bool_decide_eq_true, orb_true_iff, negb_true_iff, bool_decide_eq_false, bool_decide_eq_true.
  split; intros Hr.
  - destruct Hr as (Hp & (Hc & Hro) & [Hg|Hg]); split_and!; try done; intros g Eg Hmf; [|congruence].
    exfalso. apply Hg. rewrite Eg. destruct Hmf as [-> | ->]; set_solver.
  - destruct Hr as (Hp & Hc & Hro & Hg). split_and!; try done.
    destruct (_required_gender_for_comp comp) as [g|]; [|left; set_solver].
    destruct (decide (g = "male" ∨ g = "female")%string) as [Hmf|Hmf]; [right; f_equal; symmetry; auto|].
    left. rewrite !elem_of_cons. set_solver.
Qed.

(** Some belt group names a belt; the belts of a group may also be texts left empty. *)
Definition belt_named (groups : list (Z * list string)) : bool :=
  existsb (λ g, existsb truthy_str g.2) groups.

Lemma belt_named_spec groups : belt_named groups = true ↔ ∃ g b, g ∈ groups ∧ b ∈ g.2 ∧ b ≠ ""%string.
Proof.
  unfold belt_named. rewrite existsb_exists. split.
  - intros (g & Hg%list_elem_of_In & Hb). apply existsb_exists in Hb as (b & Hb%list_elem_of_In & Ht).
    exists g, b. split_and!; [done..|]. by apply String.eqb_neq, negb_true_iff.
  - intros (g & b & Hg & Hb & Hn). exists g. split; [by apply list_elem_of_In|]. apply existsb_exists.
    exists b. split; [by apply list_elem_of_In|]. by apply negb_true_iff, String.eqb_neq.
Qed.

Section correctness.
Context {P : Type} `{PointArith P} (jalali : Z → Z → Z → option date)
  (belt_grade birth_date : Z → string) (belt_groups : Z → list (Z * list string)) (belt_level : Z → string)
  (ages : gmap Z AgeCategory).
Implicit Types d : DB P.

Lemma elem_of_eligible_students d comp_id comp coach it :
  it ∈ sl_students (eligible_students jalali belt_grade birth_date belt_groups belt_level ages d comp_id comp coach) ↔
  ∃ k row, (k, row) ∈ students_qs d comp coach ∧ belt_admitted belt_grade belt_groups belt_level comp_id k = true ∧
    _age_ok_for_comp jalali birth_date ages k comp = true ∧
    it = listed belt_grade birth_date d (existing_map d comp_id (students_qs d comp coach).*1) (k, row).
Proof.
  unfold eligible_students. cbn zeta. cbn [sl_students]. rewrite list_elem_of_fmap. split.
  - intros ([k row] & -> & [Hin Hb]%elem_of_filter_list). apply andb_true_iff in Hb as [Hb Ha]. by exists k, row.
  - intros (k & row & Hin & Hb & Ha & ->). exists (k, row). split; [done|].
    apply elem_of_filter_list. cbn. by rewrite Hb, Ha.
Qed.

(** A player with an admitted belt has a belt group, if the groups name any belt. *)
Lemma admitted_has_group comp_id k : belt_admitted belt_grade belt_groups belt_level comp_id k = true →
  belt_named (belt_groups comp_id) = true →
  is_Some (_belt_group_for_player_in_comp belt_grade belt_groups k comp_id).
Proof.
  intros Hb (g & b & Hg & Hbg & Hne)%belt_named_spec. unfold belt_admitted in Hb. cbn zeta in Hb.
  unfold _belt_group_for_player_in_comp, _player_belt_code_from_profile in *.
  assert (Hgr : belt_groups comp_id ≠ []) by (intros E; rewrite E in Hg; set_solver).
  unfold allowed_codes, _allowed_belt_names_for_comp in Hb.
  rewrite (bool_decide_eq_false_2 (length (belt_groups comp_id) = 0%nat)) in Hb by by destruct (belt_groups comp_id).
  cbn [negb] in Hb.
  rewrite bool_decide_eq_false_2 in Hb.
  2: { rewrite length_fmap. intros E%nil_length_inv.
       assert (Hin : b ∈ List.filter truthy_str (belt_groups comp_id ≫= snd)).
       { apply elem_of_filter_list. split; [|by apply negb_true_iff, String.eqb_neq].
         apply list_elem_of_bind. by exists g. }
       rewrite E in Hin. set_solver. }
  destruct (_norm_belt (belt_grade k)) as [code|]; [|done]. apply bool_decide_eq_true in Hb.
  apply named_codes, list_elem_of_omap in Hb as (b' & Hb' & E'). apply list_elem_of_bind in Hb' as (g' & Hg' & Hbg').
  destruct (List.filter _ (belt_groups comp_id)) as [|h l] eqn:Ef; [|by eexists].
  assert (Hin : g' ∈ List.filter (λ g, existsb (λ b, bool_decide (_norm_belt b = Some code)) g.2) (belt_groups comp_id)).
  { apply elem_of_filter_list. split; [done|]. apply existsb_exists. exists b'.
    split; [by apply list_elem_of_In|by apply bool_decide_eq_true]. }
  rewrite Ef in Hin. set_solver.
Qed.

(** Groups that name no belt have no group for anybody. *)
Lemma unnamed_no_group comp_id k : belt_named (belt_groups comp_id) = false →
  _belt_group_for_player_in_comp belt_grade belt_groups k comp_id = None.
Proof.
  intros Hn. unfold _belt_group_for_player_in_comp. destruct (_norm_belt (belt_grade k)) as [code|]; [|done].
  destruct (List.filter _ (belt_groups comp_id)) as [|g l] eqn:Ef; [done|]. exfalso.
  assert (Hin : g ∈ List.filter (λ g, existsb (λ b, bool_decide (_norm_belt b = Some code)) g.2) (belt_groups comp_id))
    by (rewrite Ef; left).
  apply elem_of_filter_list in Hin as [Hg Hb]. apply existsb_exists in Hb as (b & Hb & E%bool_decide_eq_true).
  eapply not_true_iff_false; [exact Hn|]. apply belt_named_spec. exists g, b. split_and!; [done|by apply list_elem_of_In|].
  intros ->. vm_compute in E. discriminate E.
Qed.
End correctness.

(** C22: What a coach is shown and what the registration accepts. Every student in the
    coach's list is a student of this coach with an admitted belt and age. If the student
    is only a referee, the registration refuses it always, for want of a profile: the
    list shows it and nobody can register it. Any other student can only be refused for
    what is in the form (a missing or late insurance, a weight that is not positive or
    has no category) or, exactly when the competition has belt groups none of which
    names a belt, for the belt: then nobody can be registered. A student is marked as
    enrolled exactly when the registration would skip it. *)
Theorem listed_students_can_register {P} `{PointArith P} jalali belt_grade birth_date belt_groups belt_level ages
    (d : DB P) comp_id comp coach it row form :
  it ∈ sl_students (eligible_students jalali belt_grade birth_date belt_groups belt_level ages d comp_id comp coach) →
  db_profiles d !! ls_id it = Some row →
  let unnamed := belt_groups comp_id ≠ [] ∧ belt_named (belt_groups comp_id) = false in
  let answer := check_student belt_grade belt_groups d comp_id comp (ls_id it) form in
  up_coach row = Some coach ∧ _age_ok_for_comp jalali birth_date ages (ls_id it) comp = true ∧
  (up_role row = "referee"%string → answer = inl NoProfile) ∧
  (up_role row ≠ "referee"%string → ∀ e, answer = inl e →
     e ∈ [BadInsuranceDate; LateInsurance; BadWeight; NoWeightCategory] ∨ e = NoBeltGroup ∧ unnamed) ∧
  (unnamed → ∃ e, answer = inl e) ∧
  (ls_already_enrolled it = true ↔ ls_id it ∈ already d comp_id [ls_id it]).
Proof.
  intros (k & row' & Hq & Hb & Ha & ->)%elem_of_eligible_students Hrow unnamed answer. cbn [ls_id listed fst] in *.
  pose proof Hq as (Hrow' & Hco & Hro & Hg)%elem_of_students_qs.
  rewrite Hrow in Hrow'. injection Hrow' as <-. unfold answer. split_and!; try done.
  - intros Er. unfold check_student. cbn zeta. rewrite Hrow, Er. reflexivity.
  - intros Hnr. unfold check_student. cbn zeta. rewrite Hrow.
    rewrite bool_decide_true by set_solver. cbn [negb].
    destruct (bool_decide (_required_gender_for_comp comp ∈ _) && _) eqn:Eg.
    { exfalso. apply andb_true_iff in Eg as [Em En]. apply bool_decide_eq_true in Em.
      apply negb_true_iff, bool_decide_eq_false in En. apply En.
      destruct (_required_gender_for_comp comp) as [g|] eqn:E; [|set_solver].
      rewrite (Hg g eq_refl) by set_solver. apply elem_of_cons in Em as [[= ->]|Em]; [reflexivity|].
      apply list_elem_of_singleton in Em as [= ->]. reflexivity. }
    destruct (su_insurance_issue_date form); [|intros e [= <-]; left; set_solver].
    destruct (_ <? _); [intros e [= <-]; left; set_solver|].
    destruct (SFleb _ _); [intros e [= <-]; left; set_solver|].
    destruct (negb _ && _) eqn:Ebg.
    { intros e [= <-]. right. apply andb_true_iff in Ebg as [Hne Hno]. apply negb_true_iff, bool_decide_eq_false in Hne.
      split; [done|]. split; [by intros E; rewrite E in Hne|].
      apply not_true_is_false. intros Hn.
      destruct (admitted_has_group belt_grade belt_groups belt_level comp_id k Hb Hn) as [g Eg'].
      by rewrite Eg' in Hno. }
    destruct (_find_weight_category_for _ _ _ _); [discriminate|intros e [= <-]; left; set_solver].
  - intros [Hne Hn]. unfold check_student. cbn zeta. rewrite Hrow, (unnamed_no_group belt_grade belt_groups comp_id k Hn).
    rewrite (bool_decide_eq_false_2 (length (belt_groups comp_id) = 0%nat)) by by destruct (belt_groups comp_id).
    repeat case_match; eauto; discriminate.
  - cbn [ls_already_enrolled listed fst]. rewrite negb_true_iff.
    assert (Hk : k ∈ (students_qs d comp coach).*1) by (apply list_elem_of_fmap; by exists (k, row)).
    pose proof (dict_of_some (existing_map d comp_id (students_qs d comp coach).*1) k) as Hd.
    rewrite elem_of_existing in Hd. destruct (dict_of _ k) as [st|]; cbn.
    + split; [intros _|done]. exact (proj2 (proj1 Hd (ex_intro _ st eq_refl))).
    + split; [done|]. intros Hal. destruct (proj2 Hd (conj Hk Hal)) as [? [=]].
Qed.

(** ** The page of a player *)

(** What the code relies on of the Jalali calendar of jdatetime: converting a date to
    the Gregorian calendar and back is the identity, and dates are ordered as days. *)
Class JalaliCalendar (jalali : Z → Z → Z → option date) (jdate_of : Z → date) : Prop := {
  jalali_back y m d g : jalali y m d = Some g → jdate_of (toordinal g) = mkDate y m d;
  jdate_order a b : a < b → date_ltb (jdate_of a) (jdate_of b) = true;
}.

Lemma date_ltb_irrefl t : date_ltb t t = false.
Proof. unfold date_ltb. by rewrite !Z.ltb_irrefl, !andb_false_r. Qed.

Lemma date_ltb_asym a b : date_ltb a b = true → date_ltb b a = false.
Proof.
  unfold date_ltb. intros Hab. apply not_true_is_false. intros Hba. revert Hab Hba.
  rewrite !orb_true_iff, !andb_true_iff, !orb_true_iff, !andb_true_iff, !Z.ltb_lt, !Z.eqb_eq. lia.
Qed.

Lemma belt_ok_spec allowed p : belt_ok allowed p = true ↔ allowed = [] ∨ ∃ b, p = Some b ∧ b ∈ allowed.
Proof.
  unfold belt_ok. rewrite orb_true_iff, bool_decide_eq_true. split.
  - intros [Hn|Hp]; [left; by apply nil_length_inv|]. destruct p as [b|]; [|done].
    apply bool_decide_eq_true in Hp. right. by exists b.
  - intros [-> |(b & -> & Hb)]; [by left|]. right. by apply bool_decide_eq_true.
Qed.

Lemma omap_nil_iff {A B} (f : A → option B) l : (∀ x, x ∈ l → is_Some (f x)) → omap f l = [] ↔ l = [].
Proof.
  intros Hf. split; [|by intros ->]. destruct l as [|x l]; [done|]. cbn.
  destruct (Hf x ltac:(set_solver)) as [y ->]. done.
Qed.

Lemma all_norm names b : forallb (λ b, negb (is_none (_norm_belt b))) names = true → b ∈ names → is_Some (_norm_belt b).
Proof.
  rewrite forallb_forall. intros Hall Hin%list_elem_of_In. specialize (Hall b Hin).
  destruct (_norm_belt b); [by eexists|done].
Qed.

Lemma names_norm groups level : (∀ b, b ∈ groups ≫= snd → is_Some (_norm_belt b)) →
  ∀ b, b ∈ _allowed_belt_names_for_comp groups level → is_Some (_norm_belt b).
Proof.
  intros Hg b. unfold _allowed_belt_names_for_comp. destruct (negb _); [apply Hg|].
  destruct (String.eqb _ _); [|destruct (String.eqb _ _)]; apply all_norm; vm_compute; reflexivity.
Qed.

(** The profile of a login, whatever the query. *)
Lemma own_profile_found {P} (profile_user : Z → option Z) (d : DB P) k row user : db_profiles d !! k = Some row → profile_user k = Some user →
  (∀ k', profile_user k' = Some user → k' = k) →
  profiles_of profile_user d user = [(k, row)].
Proof.
  intros Hr Hu Huniq. unfold profiles_of.
  assert (Hel : ∀ kr, kr ∈ List.filter (λ kr : Z * UserProfile P, bool_decide (profile_user kr.1 = Some user))
                        (rows_by_id (db_profiles d)) ↔ kr = (k, row)).
  { intros [k' row']. rewrite elem_of_filter_list, elem_of_rows_by_id, bool_decide_eq_true. cbn. split.
    - intros [Hr' ->%Huniq]. congruence.
    - by intros [= -> ->]. }
  pose proof (NoDup_fmap_1 fst _ (NoDup_rows_by_id (db_profiles d))) as Hnd.
  apply (NoDup_filter_list (λ kr : Z * UserProfile P, bool_decide (profile_user kr.1 = Some user))) in Hnd. revert Hel Hnd.
  generalize (List.filter (λ kr : Z * UserProfile P, bool_decide (profile_user kr.1 = Some user)) (rows_by_id (db_profiles d))).
  intros l Hel Hnd. destruct l as [|x [|y l]].
  - exfalso. apply (not_elem_of_nil (k, row)). by apply Hel.
  - f_equal. by apply Hel, list_elem_of_singleton.
  - exfalso. apply NoDup_cons in Hnd as [Hni _]. apply Hni.
    assert (x = (k, row)) as -> by (apply Hel; set_solver). assert (y = (k, row)) as -> by (apply Hel; set_solver). by left.
Qed.

Lemma player_profile_found {P} (profile_user : Z → option Z) (d : DB P) k row user : db_profiles d !! k = Some row → profile_user k = Some user →
  (∀ k', profile_user k' = Some user → k' = k) → _get_profile profile_user d user = Some (k, row).
Proof.
  intros Hr Hu Huniq. unfold _get_profile. rewrite (own_profile_found profile_user d k row user Hr Hu Huniq). cbn.
  by destruct (String.eqb _ _).
Qed.

Lemma admitted_is_belt_ok belt_grade belt_groups belt_level comp_id k :
  (∀ b, b ∈ belt_groups comp_id ≫= snd → is_Some (_norm_belt b)) →
  belt_admitted belt_grade belt_groups belt_level comp_id k = true ↔
  belt_ok (_allowed_belts (belt_groups comp_id) (belt_level comp_id)) (_player_belt_code_from_profile belt_grade k) = true ∨
  (belt_groups comp_id = [] ∧ belt_level comp_id = "yellow_blue"%string ∧ _norm_belt (belt_grade k) = Some "white"%string).
Proof.
  intros Hb. rewrite belt_ok_spec. unfold belt_admitted, _player_belt_code_from_profile. cbn zeta.
  rewrite orb_true_iff, bool_decide_eq_true.
  assert (Hnil : length (allowed_codes (belt_groups comp_id) (belt_level comp_id)) = 0%nat ↔
                 _allowed_belts (belt_groups comp_id) (belt_level comp_id) = []).
  { assert (Hx : ∀ code, code ∈ _allowed_belts (belt_groups comp_id) (belt_level comp_id) →
                   Some code ∈ allowed_codes (belt_groups comp_id) (belt_level comp_id)).
    { intros code Hc. apply allowed_belts_agree. by left. }
    split.
    - intros E%nil_length_inv. destruct (_allowed_belts _ _) as [|c l]; [done|].
      specialize (Hx c ltac:(set_solver)). rewrite E in Hx. set_solver.
    - intros E. destruct (allowed_codes (belt_groups comp_id) (belt_level comp_id)) as [|o l] eqn:Ea; [done|]. exfalso.
      assert (Ho : o ∈ allowed_codes (belt_groups comp_id) (belt_level comp_id)) by (rewrite Ea; set_solver).
      destruct o as [c|].
      + apply allowed_belts_agree in Ho as [Ho|(Hg & Hl & ->)]; [rewrite E in Ho; set_solver|].
        rewrite Hg, Hl in E. vm_compute in E. done.
      + unfold allowed_codes in Ho. apply list_elem_of_fmap in Ho as (b & Eb & [Hin _]%elem_of_filter_list).
        destruct (names_norm _ _ Hb b Hin) as [? ?]. congruence. }
  rewrite Hnil. destruct (_norm_belt (belt_grade k)) as [code|]; [|naive_solver].
  rewrite bool_decide_eq_true, allowed_belts_agree. naive_solver.
Qed.

Section page.
Context {P : Type} `{PointArith P} (jalali : Z → Z → Z → option date) (jdate_of : Z → date)
  `{!JalaliCalendar jalali jdate_of}
  (belt_grade birth_date : Z → string) (profile_user : Z → option Z)
  (belt_groups : Z → list (Z * list string)) (belt_level : Z → string)
  (ages : gmap Z AgeCategory) (rules : Z → poomsae_rules).
Implicit Types d : DB P.

Lemma jdate_ltb a b : date_ltb (jdate_of a) (jdate_of b) = (a <? b).
Proof.
  destruct (Z.lt_trichotomy a b) as [Hlt|[->|Hgt]].
  - rewrite (jdate_order a b Hlt). symmetry. by apply Z.ltb_lt.
  - by rewrite date_ltb_irrefl, Z.ltb_irrefl.
  - rewrite (date_ltb_asym _ _ (jdate_order b a Hgt)). symmetry. apply Z.ltb_ge. lia.
Qed.

Lemma windows_agree n cat : jwindow_contains jdate_of (jdate_of n) cat = in_window n cat.
Proof. unfold jwindow_contains, in_window. by rewrite !jdate_ltb, !Z.leb_antisym. Qed.

(** The birth date [g] of profile [k], written as a date of the Jalali calendar. *)
Definition born_on (k : Z) (g : date) : Prop :=
  ∃ sep t, sep_ok sep ∧ fits t ∧ d_year t < 1700 ∧ birth_date k = ymd_text sep t ∧
    jalali (d_year t) (d_month t) (d_day t) = Some g.

Lemma born_on_views k g : born_on k g →
  _player_birthdate_to_gregorian jalali birth_date k = Some (toordinal g) ∧
  _parse_jalali_str jalali jdate_of (birth_date k) = Some (jdate_of (toordinal g)).
Proof.
  intros (sep & t & Hsep & Ht & Hy & Hb & Hj).
  pose proof (ymd_text_chars sep t (sep_ok_char sep Hsep) Ht) as Hc.
  pose proof (ymd_text_chars "/" t eq_refl Ht) as Hc'. pose proof (slashes_text sep t Hsep Ht) as Hsl.
  unfold _player_birthdate_to_gregorian, _parse_jalali_ymd, _parse_jalali_str. rewrite Hb, (text_truthy sep t Ht). cbn [negb].
  rewrite (remove_marks_id _ Hc), (to_en_digits_id _ Hc), (strip_date _ Hc), (strip_char_date (ascii_of_nat 34) _ eq_refl Hc),
    (strip_char_date "'" _ eq_refl Hc), Hsl, (to_en_digits_id _ Hc'),
    match_ymd_text, ints_ymd_text by done.
  rewrite (proj2 (Z.ltb_lt _ _) Hy), Hj, (jalali_back _ _ _ _ Hj). done.
Qed.
End page.

Lemma gender_cases g : g ∈ ["male"; "female"]%string → g = "male"%string ∨ g = "female"%string.
Proof. set_solver. Qed.

Lemma genders_agree a b : a ∈ ["male"; "female"]%string → b ∈ ["male"; "female"]%string →
  gender_matches (_norm_gender a) (_norm_gender b) = bool_decide (a = b) ∧ required_gender a = Some a ∧
  _gender_norm b = Some b ∧ b ∈ _gender_db_values_for b.
Proof.
  intros [-> | ->]%gender_cases [-> | ->]%gender_cases; (split_and!; [vm_compute; reflexivity..|]);
    apply (bool_decide_unpack _); vm_compute; exact I.
Qed.

(** C23: The page of a player and the list of the coach agree. For a player with a
    coach, one of the two genders and a birth date written in the Jalali calendar, the
    eligibility the page of a kyorugi competition shows is whether the coach's list
    contains the player, if every belt of the groups is a belt and the calendar keeps
    its laws; except for white belts in a competition for yellow to blue belts without
    groups, whom the list contains and the page refuses. *)
Theorem page_agrees_with_coach_list {P} `{PointArith P} jalali jdate_of `{!JalaliCalendar jalali jdate_of}
    belt_grade birth_date profile_user belt_groups belt_level ages (d : DB P) comp_id comp coach k row user g :
  kc_gender comp ∈ ["male"; "female"]%string →
  (∀ b, b ∈ belt_groups comp_id ≫= snd → is_Some (_norm_belt b)) →
  db_profiles d !! k = Some row → up_role row ∈ ["player"; "both"; "coach"; "referee"]%string →
  up_coach row = Some coach → up_gender row ∈ ["male"; "female"]%string → born_on jalali birth_date k g →
  profile_user k = Some user → (∀ k', profile_user k' = Some user → k' = k) →
  get_user_eligible_self jalali jdate_of belt_grade birth_date profile_user belt_groups belt_level ages
    d comp_id comp user = true ↔
  k ∈ ls_id <$> sl_students (eligible_students jalali belt_grade birth_date belt_groups belt_level ages d comp_id comp coach) ∧
  ¬ (belt_groups comp_id = [] ∧ belt_level comp_id = "yellow_blue"%string ∧ _norm_belt (belt_grade k) = Some "white"%string).
Proof.
  intros Hcg Hbelts Hrow Hrole Hcoach Hpg Hborn Hu Huniq.
  unfold get_user_eligible_self. rewrite (player_profile_found profile_user d k row user) by done.
  apply (born_on_views jalali jdate_of) in Hborn as [Hd1 Hd2]. rewrite Hd2.
  destruct (genders_agree _ _ Hcg Hpg) as (-> & Hrg & _ & _).
  pose proof (admitted_is_belt_ok belt_grade belt_groups belt_level comp_id k Hbelts) as Hb.
  assert (Hage : match kc_age_category comp ≫= (ages !!.) with
                 | Some cat => jwindow_contains jdate_of (jdate_of (toordinal g)) cat | None => true end =
                 _age_ok_for_comp jalali birth_date ages k comp).
  { unfold _age_ok_for_comp. rewrite Hd1. destruct (kc_age_category comp ≫= _); [|done]. apply (windows_agree jalali jdate_of). }
  rewrite Hage, !andb_true_iff, bool_decide_eq_true.
  assert (Hin : k ∈ ls_id <$> sl_students (eligible_students jalali belt_grade birth_date belt_groups belt_level ages d comp_id comp coach) ↔
    kc_gender comp = up_gender row ∧ _age_ok_for_comp jalali birth_date ages k comp = true ∧
    belt_admitted belt_grade belt_groups belt_level comp_id k = true).
  { rewrite list_elem_of_fmap. split.
    - intros (it & -> & (k' & row' & (Hr' & _ & _ & Hg)%elem_of_students_qs & Hba & Ha & ->)%elem_of_eligible_students).
      cbn [ls_id listed fst] in *. rewrite Hrow in Hr'. injection Hr' as <-. split_and!; try done.
      symmetry. apply Hg; [exact Hrg|by apply gender_cases].
    - intros (Hg & Ha & Hba). eexists. split; [|apply elem_of_eligible_students; exists k, row; split_and!; [|done..]]; [done|].
      apply elem_of_students_qs. split_and!; [done..|].
      intros g' Hg' _. unfold _required_gender_for_comp in Hg'. rewrite Hrg in Hg'. congruence. }
  rewrite Hin, Hb. split.
  - intros [[Hg Ha] Hbo]. split; [tauto|]. intros (Eg & El & Ew).
    rewrite Eg, El in Hbo. unfold _player_belt_code_from_profile in Hbo. rewrite Ew in Hbo. vm_compute in Hbo. done.
  - tauto.
Qed.

Lemma first_profile_found {P} profile_user (d : DB P) k row user :
  db_profiles d !! k = Some row → profile_user k = Some user →
  (∀ k', profile_user k' = Some user → k' = k) → first_profile profile_user d (Some user) = Some (k, row).
Proof.
  intros Hr Hu Huniq. pose proof (own_profile_found profile_user d k row user Hr Hu Huniq) as E.
  unfold profiles_of in E. unfold first_profile. by rewrite E.
Qed.

Lemma poomsae_gender_cases g : g ∈ [""; "male"; "female"]%string → g = ""%string ∨ g = "male"%string ∨ g = "female"%string.
Proof. set_solver. Qed.

Lemma poomsae_genders_agree a b : a ∈ [""; "male"; "female"]%string → b ∈ ["male"; "female"]%string →
  bool_decide (required_gender a ∈ [None; Some ""; Some "both"]%string) || bool_decide (_gender_norm b = required_gender a) =
  gender_matches (_norm_gender a) (_norm_gender b).
Proof.
  intros [-> |[-> | ->]]%poomsae_gender_cases [-> | ->]%gender_cases; vm_compute; reflexivity.
Qed.

(** The poomsae pages and the list of the coach agree. For a player with one of the
    two genders and a birth date of the Jalali calendar, the eligibility that the page
    computes and the one that replaces it in the answer are the same, and the coach's
    list contains the player exactly if it holds and the player is a student of the
    coach. *)
Theorem poomsae_views_agree {P} `{PointArith P} jalali jdate_of `{!JalaliCalendar jalali jdate_of}
    belt_grade birth_date profile_user ages rules (d : DB P) comp_id comp coach k row user g :
  pr_gender (rules comp_id) ∈ [""; "male"; "female"]%string →
  db_profiles d !! k = Some row → up_gender row ∈ ["male"; "female"]%string → born_on jalali birth_date k g →
  profile_user k = Some user → (∀ k', profile_user k' = Some user → k' = k) →
  let eligible := poomsae_eligible_self jalali jdate_of belt_grade birth_date profile_user ages rules d comp_id user in
  _poomsae_user_eligible jalali belt_grade birth_date profile_user ages rules d comp_id (Some user) = eligible ∧
  (k ∈ ls_id <$> sl_students (poomsae_eligible_students jalali belt_grade birth_date profile_user ages rules d comp_id comp coach)
   ↔ up_coach row = Some coach ∧ k ≠ coach ∧ eligible = true).
Proof.
  intros Hcg Hrow Hpg Hborn Hu Huniq. cbn zeta.
  assert (Heq : _poomsae_user_eligible jalali belt_grade birth_date profile_user ages rules d comp_id (Some user) =
                poomsae_eligible_self jalali jdate_of belt_grade birth_date profile_user ages rules d comp_id user).
  { unfold _poomsae_user_eligible, poomsae_eligible_self. cbn zeta.
    rewrite (first_profile_found profile_user d k row user), (player_profile_found profile_user d k row user) by done.
    apply (born_on_views jalali jdate_of) in Hborn as [-> ->]. rewrite poomsae_genders_agree by done. f_equal. f_equal.
    destruct (age_windows ages (rules comp_id)) as [|w ws]; [done|]. cbn [length bool_decide]. 
    rewrite bool_decide_false by done. cbn [orb]. induction (w :: ws) as [|x l IH]; [done|]. cbn.
    by rewrite (windows_agree jalali jdate_of), IH. }
  split; [exact Heq|]. rewrite <- Heq. unfold poomsae_eligible_students. cbn zeta. cbn [sl_students].
  rewrite <- list_fmap_compose, list_elem_of_fmap. cbn.
  assert (Hq : ∀ row', (k, row') ∈ poomsae_students_qs rules d comp_id coach →
    row' = row ∧ up_coach row = Some coach ∧ k ≠ coach).
  { intros row' [Hin Hb]%elem_of_filter_list. apply elem_of_rows_by_id in Hin. rewrite Hrow in Hin. injection Hin as <-.
    cbn in Hb. rewrite !andb_true_iff, bool_decide_eq_true, negb_true_iff, Z.eqb_neq in Hb. tauto. }
  split.
  - intros ([k' row'] & Hk & [Hin He]%elem_of_filter_list). cbn in Hk, He. subst k'. rewrite Hu in He.
    destruct (Hq row' Hin) as (_ & ? & ?). done.
  - intros (Hco & Hne & He). exists (k, row). split; [done|]. apply elem_of_filter_list. cbn. rewrite Hu. split; [|done].
    apply elem_of_filter_list. split; [by apply elem_of_rows_by_id|]. cbn.
    rewrite bool_decide_true by done. apply Z.eqb_neq in Hne as ->. cbn [andb negb].
    unfold _poomsae_user_eligible in He. cbn zeta in He.
    rewrite (first_profile_found profile_user d k row user) in He by done.
    apply andb_true_iff in He as [[Hg _]%andb_true_iff _]. revert Hg.
    apply gender_cases in Hpg. apply poomsae_gender_cases in Hcg. clear -Hcg Hpg.
    destruct Hcg as [-> |[-> | ->]], Hpg as [-> | ->]; vm_compute; done.
Qed.

(** ** Witnesses and examples *)

(** A calendar to evaluate with: years of twelve months of 31 days, in which the days of
    January 2010 have a Gregorian date. *)
Definition even_jdate_of (n : Z) : date :=
  let k := n - 230000 in mkDate (k / 372) (k mod 372 / 31 + 1) (k mod 372 mod 31 + 1).
Definition even_jalali (y m d : Z) : option date :=
  let n := y * 372 + (m - 1) * 31 + (d - 1) + 230000 in
  if (1 <=? m) && (m <=? 12) && (1 <=? d) && (d <=? 31) && (733773 <=? n) && (n <=? 733803)
  then Some (mkDate 2010 1 (n - 733772)) else None.

#[export] Instance even_calendar : JalaliCalendar even_jalali even_jdate_of.
Proof.
  split.
  - intros y m d g. unfold even_jalali. cbn zeta. destruct (_ && _) eqn:Eb; [|done]. intros [= <-].
    rewrite !andb_true_iff, !Z.leb_le in Eb. unfold toordinal. cbn [d_year d_month d_day].
    change (days_before_year 2010 + days_before_month 2010 1) with 733772. unfold even_jdate_of. cbn zeta.
    f_equal; Z.to_euclidean_division_equations; lia.
  - intros a b Hab. unfold even_jdate_of, date_ltb. cbn [d_year d_month d_day].
    rewrite !orb_true_iff, !andb_true_iff, !orb_true_iff, !andb_true_iff, !Z.ltb_lt, !Z.eqb_eq.
    Z.to_euclidean_division_equations. lia.
Qed.

(** A coach 20 with two students, of login 7 and of no login, and competitions for men
    born in January 2010. *)
Definition eligibility_db : DB Z :=
  let user first role gender coach := mkUserProfile first "x"%string false role gender (Some 30) coach (Some 40) 0 0 0 0 0 in
  set_db_profiles {[ 10 := user "p" "player" "male" (Some 20); 11 := user "q" "player" "male" (Some 20);
                     20 := user "c" "coach" "male" None ]}%string
  (set_db_poomsae_comps {[ 8 := mkPoomsaeCompetition "p" None 20 21 1 10 None 0 1 "pc" ]}
  (set_db_mat_assignments [mkMatAssignment 5 1 [1]] (ranking_sample Z))).

Definition sample_ages : gmap Z AgeCategory := {[ 1 := mkAgeCategory "u16" 733773 733803 ]}.
Definition sample_birth (k : Z) : string := if k =? 11 then "1300/01/01" else "1354/03/28".
Definition sample_login (k : Z) : option Z := if k =? 10 then Some 7 else if k =? 20 then Some 8 else None.
Definition sample_rules (_ : Z) : poomsae_rules := mkPoomsaeRules "male" "all" [] (Some 1) [].

Definition coach_list (belt : string) (groups : list (Z * list string)) (level : string) : student_list :=
  default (mkStudentList 0 0 [] [])
    ((λ comp, eligible_students even_jalali (λ _, belt) sample_birth (λ _, groups) (λ _, level) sample_ages
        eligibility_db 5 comp 20) <$> db_competitions eligibility_db !! 5).
Definition sample_comp : KyorugiCompetition :=
  mkKyorugiCompetition "cup" 1000 (Some 1) "male" None 0 10 11 12 13 2 None "c".

Definition referee_db : DB Z :=
  set_db_profiles (<[10 := mkUserProfile "p" "x" false "referee" "male" (Some 30) (Some 20) (Some 40) 0 0 0 0 0]>
    (db_profiles eligibility_db)) eligibility_db.

(** A student who plays, a student who is only a referee, and a competition whose only
    belt group names no belt. *)
Lemma listed_students_can_register_witness :
  let form := mkStudent (Some 10) (Some (b64_of_Z 55)) "ins" (Some 5) in
  let it := mkListedStudent 10 "p" "x" "1354/03/28" "red" "club" "board" true (Some "pending_payment"%string) in
  check_student (λ _, "red"%string) (λ _, [(7, ["red"%string])]) eligibility_db 5 sample_comp 10 form ≠ inl NoProfile ∧
  check_student (λ _, "red"%string) (λ _, [(7, ["red"%string])]) referee_db 5 sample_comp 10 form = inl NoProfile ∧
  (∃ e, check_student (λ _, "red"%string) (λ _, [(7, [""%string])]) eligibility_db 5 sample_comp 10 form = inl e) ∧
  (ls_already_enrolled it = true ↔ 10 ∈ already eligibility_db 5 [10]).
Proof.
  intros form it.
  assert (Hin : it ∈ sl_students (coach_list "red" [(7, ["red"%string])] "all")) by (apply list_elem_of_In; vm_compute; by left).
  assert (Hin' : it ∈ sl_students (coach_list "red" [(7, [""%string])] "all")) by (apply list_elem_of_In; vm_compute; by left).
  assert (Hre : it ∈ sl_students (eligible_students even_jalali (λ _, "red"%string) sample_birth
    (λ _, [(7, ["red"%string])]) (λ _, "all"%string) sample_ages referee_db 5 sample_comp 20))
    by (apply list_elem_of_In; vm_compute; by left).
  destruct (listed_students_can_register even_jalali (λ _, "red"%string) sample_birth
    (λ _, [(7, ["red"%string])]) (λ _, "all"%string) sample_ages eligibility_db 5 sample_comp 20 it
    (mkUserProfile "p" "x" false "player" "male" (Some 30) (Some 20) (Some 40) 0 0 0 0 0)
    form Hin eq_refl) as (_ & _ & _ & Hplay & _ & Hen).
  split; [intros E; destruct (Hplay ltac:(discriminate) _ E) as [Hi|[Hi _]]; [set_solver|discriminate Hi]|].
  split; [|split; [|exact Hen]].
  - destruct (listed_students_can_register even_jalali (λ _, "red"%string) sample_birth
      (λ _, [(7, ["red"%string])]) (λ _, "all"%string) sample_ages referee_db 5 sample_comp 20 it
      (mkUserProfile "p" "x" false "referee" "male" (Some 30) (Some 20) (Some 40) 0 0 0 0 0)
      form Hre eq_refl) as (_ & _ & Hr & _). exact (Hr eq_refl).
  - destruct (listed_students_can_register even_jalali (λ _, "red"%string) sample_birth
      (λ _, [(7, [""%string])]) (λ _, "all"%string) sample_ages eligibility_db 5 sample_comp 20 it
      (mkUserProfile "p" "x" false "player" "male" (Some 30) (Some 20) (Some 40) 0 0 0 0 0)
      form Hin' eq_refl) as (_ & _ & _ & _ & Hu & _). apply Hu. split; [discriminate|reflexivity].
Defined.

Lemma sample_born_on : born_on even_jalali sample_birth 10 (mkDate 2010 1 5).
Proof.
  exists "/"%char, (mkDate 1354 3 28). split; [by right|]. split; [unfold fits; cbn; lia|]. split; [cbn; lia|].
  split; reflexivity.
Qed.

Lemma sample_login_unique k : sample_login k = Some 7 → k = 10.
Proof. unfold sample_login. destruct (Z.eqb_spec k 10); [done|]. by destruct (k =? 20). Qed.

Lemma page_agrees_with_coach_list_witness :
  get_user_eligible_self even_jalali even_jdate_of (λ _, "red"%string) sample_birth sample_login
    (λ _, [(7, ["red"%string])]) (λ _, "all"%string) sample_ages eligibility_db 5 sample_comp 7 = true.
Proof.
  apply (page_agrees_with_coach_list even_jalali even_jdate_of (λ _, "red"%string) sample_birth sample_login
    (λ _, [(7, ["red"%string])]) (λ _, "all"%string) sample_ages eligibility_db 5 sample_comp 20 10
    (mkUserProfile "p" "x" false "player" "male" (Some 30) (Some 20) (Some 40) 0 0 0 0 0) 7 (mkDate 2010 1 5)).
  - left.
  - intros b Hb. apply list_elem_of_singleton in Hb as ->. exists "red"%string. reflexivity.
  - reflexivity.
  - left.
  - reflexivity.
  - left.
  - exact sample_born_on.
  - reflexivity.
  - exact sample_login_unique.
  - split; [apply list_elem_of_In; vm_compute; by left|]. intros [E _]. discriminate E.
Defined.

Lemma poomsae_views_agree_witness :
  _poomsae_user_eligible even_jalali (λ _, "red"%string) sample_birth sample_login sample_ages sample_rules
    eligibility_db 8 (Some 7) = true.
Proof.
  assert (Hc : "male"%string ∈ [""; "male"; "female"]%string) by (right; left).
  assert (Hg : "male"%string ∈ ["male"; "female"]%string) by left.
  rewrite (proj1 (poomsae_views_agree even_jalali even_jdate_of (λ _, "red"%string) sample_birth sample_login
    sample_ages sample_rules eligibility_db 8 (mkPoomsaeCompetition "p" None 20 21 1 10 None 0 1 "pc") 20 10
    (mkUserProfile "p" "x" false "player" "male" (Some 30) (Some 20) (Some 40) 0 0 0 0 0) 7 (mkDate 2010 1 5)
    Hc eq_refl Hg sample_born_on eq_refl sample_login_unique)).
  vm_compute. reflexivity.
Defined.

(** A white belt is in the coach's list of a competition for yellow to blue belts, and
    is told not to be eligible on the page. *)
Example white_belts_disagree :
  ls_id <$> sl_students (coach_list "سفید" [] "yellow_blue") = [10] ∧
  get_user_eligible_self even_jalali even_jdate_of (λ _, "سفید"%string) sample_birth sample_login
    (λ _, []) (λ _, "yellow_blue"%string) sample_ages eligibility_db 5 sample_comp 7 = false.
Proof. split; vm_compute; reflexivity. Qed.

(** The group registration does not look at the age: student 11, whose birth date does
    not fit and who is not in the list, is accepted. *)
Example age_is_not_checked :
  existsb (λ it, ls_id it =? 11) (sl_students (coach_list "red" [] "all")) = false ∧
  check_student (λ _, "red"%string) (λ _, []) eligibility_db 5 sample_comp 11
    (mkStudent (Some 11) (Some (b64_of_Z 55)) "ins" (Some 5)) =
    inr (mkGroupItem 11 (Some 30) "club" (Some 40) "board" None (Some 1) (Some (b64_of_Z 55)) "ins" (Some 5)).
Proof. split; vm_compute; reflexivity. Qed.

(** A student without a login is judged by the first profile without a login: with the
    coach's profile 9 in front, whose birth date fits, the poomsae list contains
    student 11, whose birth date does not. *)
Example student_without_login :
  let d := set_db_profiles (<[9 := mkUserProfile "z" "x" false "coach" "male" None None None 0 0 0 0 0]>
             (db_profiles eligibility_db)) eligibility_db in
  ls_id <$> sl_students (poomsae_eligible_students even_jalali (λ _, "red"%string) sample_birth sample_login sample_ages
    sample_rules d 8 (mkPoomsaeCompetition "p" None 20 21 1 10 None 0 1 "pc") 20) = [10; 11].
Proof. vm_compute. reflexivity. Qed.
