(* ===== verification/Cards.v ===== *)
(** Enrollment cards: who may see the card of an entry, when it is ready and what it
    says, from [competitions/views.py] and [competitions/serializers.py].

    The login of a profile, club and board, the birth date and belt grade of a profile,
    the labels of belt groups and the age categories are arguments.  The dates of a
    card are formatted by jdatetime and its photo is a URL; both are left out. *)

From Stdlib Require Import Ascii SpecFloat.
From S2P Require Import Prelude Store Points Ranking Ledger Payments GroupRegistration Text Dates SelfRegistration Eligibility.
Local Open Scope Z_scope.

(** ** Readiness *)

Definition CARD_READY_STATUSES : list string := ["paid"; "confirmed"; "approved"; "accepted"; "completed"]%string.

(** [_can_show_card] *)
Definition _can_show_card (status : string) (is_paid : bool) : bool :=
  is_paid || bool_decide (lower status ∈ CARD_READY_STATUSES).

(** An entry of either kind, and the columns the views read of it. *)
Inductive entry :=
  | KyorugiEntry (e : Enrollment)
  | PoomsaeEntry (e : PoomsaeEnrollment).

Definition e_player (e : entry) : option Z := match e with KyorugiEntry e => Some (en_player e) | PoomsaeEntry e => pe_player e end.
Definition e_coach (e : entry) : option Z := match e with KyorugiEntry e => en_coach e | PoomsaeEntry e => pe_coach e end.
Definition e_club (e : entry) : option Z := match e with KyorugiEntry e => en_club e | PoomsaeEntry e => pe_club e end.
Definition e_board (e : entry) : option Z := match e with KyorugiEntry e => en_board e | PoomsaeEntry e => pe_board e end.
Definition e_status (e : entry) : string := match e with KyorugiEntry e => en_status e | PoomsaeEntry e => pe_status e end.
Definition e_is_paid (e : entry) : bool := match e with KyorugiEntry e => en_is_paid e | PoomsaeEntry e => pe_is_paid e end.

Definition card_ready (e : entry) : bool := _can_show_card (e_status e) (e_is_paid e).

(** ** Access *)

(** What the views look up of the user: its first profile with the role in lower case
    and the coach flag, its first club and its first board. *)
Record requester := mkRequester {
  rq_user : Z;
  rq_profile : option (Z * string * bool);
  rq_club : option Z;
  rq_board : option Z;
}.

Inductive card_answer :=
  | CardMissing
  | CardForbidden
  | CardNotReady
  | CardShown (id : Z) (e : entry).

Section cards.
Context {P : Type} (profile_user club_user board_user : Z → option Z).
Local Abbreviation db := (DB P).

Definition requester_of (d : db) (user : Z) : requester :=
  mkRequester user
    ((λ kr, (kr.1, lower (up_role kr.2), up_is_coach kr.2)) <$> first_profile profile_user d (Some user))
    (head (List.filter (λ k, bool_decide (club_user k = Some user)) (rows_by_id (db_clubs d)).*1))
    (head (List.filter (λ k, bool_decide (board_user k = Some user)) (rows_by_id (db_boards d)).*1)).

Definition same_id (a b : option Z) : bool :=
  match a, b with Some x, Some y => x =? y | _, _ => false end.

(** [_allowed_for_enrollment], and the condition of the bulk view. *)
Definition _allowed_for_enrollment (rq : requester) (e : entry) : bool :=
  bool_decide ((e_player e ≫= profile_user) = Some (rq_user rq))
  || match rq_profile rq with
     | Some (k, role, is_coach) =>
         (bool_decide (role ∈ ["coach"; "both"]%string) || is_coach) && same_id (e_coach e) (Some k)
     | None => false
     end
  || same_id (e_club e) (rq_club rq) || same_id (e_board e) (rq_board rq).

(** [EnrollmentCardView.get]: both tables are tried, kyorugi first. *)
Definition candidates (d : db) (eid : Z) : list entry :=
  option_list (KyorugiEntry <$> db_enrollments d !! eid) ++ option_list (PoomsaeEntry <$> db_poomsae_enrollments d !! eid).

Definition enrollment_card (d : db) (user eid : Z) : card_answer :=
  let cands := candidates d eid in
  if bool_decide (length cands = 0%nat) then CardMissing
  else
    match head (List.filter (_allowed_for_enrollment (requester_of d user)) cands) with
    | None => CardForbidden
    | Some e => if card_ready e then CardShown eid e else CardNotReady
    end.

(** [EnrollmentCardsBulkView.post]: the ids that are numbers; both tables are merged
    into one dictionary, poomsae last. *)
Definition card_id (v : json) : option Z :=
  match v with
  | JInt z => if 0 <=? z then Some z else None
  | JStr s => if truthy_str s && all_digits s then digits None s else None
  | _ => None
  end.

Definition all_map (d : db) (eid : Z) : option entry :=
  match db_poomsae_enrollments d !! eid with
  | Some e => Some (PoomsaeEntry e)
  | None => KyorugiEntry <$> db_enrollments d !! eid
  end.

Definition bulk_answer (d : db) (user eid : Z) : option card_answer :=
  (λ e, if negb (_allowed_for_enrollment (requester_of d user) e) then CardForbidden
        else if card_ready e then CardShown eid e else CardNotReady) <$> all_map d eid.

Definition enrollment_cards_bulk (d : db) (user : Z) (ids : list json) : list card_answer :=
  omap (bulk_answer d user) (omap card_id ids).

(** ** The entries of a player *)

(** The first profile of the user with the role of a player. *)
Definition player_of (d : db) (user : Z) : option Z :=
  fst <$> head (List.filter (λ kr, bool_decide (up_role kr.2 ∈ ["player"; "both"]%string)) (profiles_of profile_user d user)).

Record my_enrollment := mkMyEnrollment {
  me_enrollment_id : Z;
  me_status : string;
  me_can_show_card : bool;
}.

Definition packed (id : Z) (e : entry) : my_enrollment := mkMyEnrollment id (e_status e) (card_ready e).

(** [MyEnrollmentView.get] *)
Definition my_kyorugi_enrollment (d : db) (comp_id user : Z) : option my_enrollment :=
  player ← player_of d user;
  (λ ke, packed ke.1 (KyorugiEntry ke.2)) <$>
    head (List.filter (λ ke, (en_competition ke.2 =? comp_id) && (en_player ke.2 =? player)) (rows_by_id (db_enrollments d))).

(** [MyPoomsaeEnrollmentsView.get]: the standard and the creative entry. *)
Definition my_poomsae_enrollment (d : db) (comp_id user : Z) (type : string) : option my_enrollment :=
  player ← player_of d user;
  (λ ke, packed ke.1 (PoomsaeEntry ke.2)) <$>
    head (List.filter (λ ke, (pe_competition ke.2 =? comp_id) && bool_decide (pe_player ke.2 = Some player)
                             && String.eqb (pe_poomsae_type ke.2) type) (rows_by_id (db_poomsae_enrollments d))).
Definition my_poomsae_enrollments (d : db) (comp_id user : Z) : option my_enrollment * option my_enrollment :=
  (my_poomsae_enrollment d comp_id user "standard", my_poomsae_enrollment d comp_id user "creative").

(** ** What a card says *)

Definition BELT_FA : list (string * string) :=
  [("white", "سفید"); ("yellow", "زرد"); ("green", "سبز"); ("blue", "آبی"); ("red", "قرمز"); ("black", "مشکی")]%string.

Context (jalali : Z → Z → Z → option date) (belt_grade birth_date : Z → string)
  (belt_groups : Z → list (Z * list string)) (group_label : Z → string) (ages : gmap Z AgeCategory)
  (rules : Z → poomsae_rules).

(** [EnrollmentCardSerializer._pick_wc]: the category of the entry, else the first of
    the competition that includes the declared weight. *)
Definition _pick_wc (d : db) (comp : KyorugiCompetition) (e : Enrollment) : option WeightCategory :=
  match en_weight_category e ≫= (db_weights d !!.) with
  | Some wc => Some wc
  | None =>
      if SFeqb (en_declared_weight e) (S754_zero false) then None
      else head (List.filter (λ wc, _gender_ok_for_wc comp (wc_gender wc) && _wc_includes wc (en_declared_weight e))
                   (omap (db_weights d !!.) (_collect_comp_weights d (en_competition e))))
  end.

(** [_find_belt_group_label] *)
Definition _find_belt_group_label (groups : list (Z * list string)) (player_belt_code : option string) : option string :=
  match player_belt_code with
  | None => None
  | Some code =>
      (λ g, group_label g.1) <$> head (List.filter (λ g, bool_decide (code ∈ omap _norm_belt g.2)) groups)
  end.

(** [EnrollmentCardSerializer], fields other than dates and photo. *)
Record kyorugi_card := mkKyorugiCard {
  ky_first_name : string;
  ky_last_name : string;
  ky_weight_name : option string;
  ky_belt : option string;
  ky_belt_group : option string;
  ky_insurance_number : string;
  ky_coach_name : string;
  ky_club_name : string;
}.

Definition get_belt (player : Z) : option string :=
  let raw := belt_grade player in
  match _norm_belt raw ≫= assoc BELT_FA with
  | Some b => Some b
  | None => if truthy_str raw then Some raw else None
  end.

Definition kyorugi_card_of (d : db) (comp : KyorugiCompetition) (player : UserProfile P) (e : Enrollment) : kyorugi_card :=
  mkKyorugiCard (up_first_name player) (up_last_name player) (wc_name <$> _pick_wc d comp e)
    (get_belt (en_player e))
    (match en_belt_group e with
     | Some g => Some (group_label g)
     | None => _find_belt_group_label (belt_groups (en_competition e)) (_norm_belt (belt_grade (en_player e)))
     end)
    (en_insurance_number e) (en_coach_name e) (en_club_name e).

(** [PoomsaeEnrollmentCardSerializer]: the styles the player takes part in, standard
    first, with their labels, the belt of the player and the age category. *)
Definition POOMSAE_TYPE_CHOICES : list (string * string) := [("standard", "استاندارد"); ("creative", "ابداعی")]%string.

Definition get_poomsae_types (d : db) (e : PoomsaeEnrollment) : list string :=
  foldl (λ acc t, if bool_decide (t ∈ acc) then acc else acc ++ [t]) []
    ((λ ke : Z * PoomsaeEnrollment, pe_poomsae_type ke.2) <$>
       List.filter (λ ke, (pe_competition ke.2 =? pe_competition e) && bool_decide (pe_player ke.2 = pe_player e)
                          && negb (String.eqb (pe_status ke.2) "canceled")) (rows_by_id (db_poomsae_enrollments d))).

Definition type_order (t : string) : Z :=
  if String.eqb t "standard" then 0 else if String.eqb t "creative" then 1 else 99.
Definition type_label (t : string) : string := default t (assoc POOMSAE_TYPE_CHOICES t).

Definition get_poomsae_type_display (d : db) (e : PoomsaeEnrollment) : string :=
  match type_label <$> List.filter truthy_str (sort_by (λ a b, type_order a <=? type_order b) (get_poomsae_types d e)) with
  | [] => type_label (pe_poomsae_type e)
  | labels => String.concat "، " labels
  end.

Definition get_age_category_name (e : PoomsaeEnrollment) : option string :=
  let set_on := pe_age_category e ≫= (λ k, ac_name <$> ages !! k) in
  match set_on ≫= (λ name, if truthy_str name then Some name else None) with
  | Some name => Some name
  | None =>
      g ← pe_player e ≫= (λ p, _to_greg_from_str_jalali jalali (birth_date p));
      let covers := λ a : Z * AgeCategory, in_window (toordinal g) a.2 in
      match head (List.filter (λ a, bool_decide (a.1 ∈ pr_age_categories (rules (pe_competition e))) && covers a)
                    (rows_by_id ages)) with
      | Some a => Some (ac_name a.2)
      | None => (λ a, ac_name a.2) <$> head (List.filter covers (rows_by_id ages))
      end
  end.

Record poomsae_card := mkPoomsaeCard {
  po_first_name : option string;
  po_last_name : option string;
  po_poomsae_types : list string;
  po_poomsae_type_display : string;
  po_belt_group : option string;
  po_belt : option string;
  po_age_category_name : option string;
  po_coach_name : string;
  po_club_name : string;
}.

Definition poomsae_card_of (d : db) (e : PoomsaeEnrollment) : poomsae_card :=
  let player := pe_player e ≫= (db_profiles d !!.) in
  mkPoomsaeCard (up_first_name <$> player) (up_last_name <$> player) (get_poomsae_types d e)
    (get_poomsae_type_display d e) (group_label <$> pe_belt_group e)
    (p ← pe_player e; if truthy_str (belt_grade p) then Some (belt_grade p) else None)
    (get_age_category_name e) (pe_coach_name e) (pe_club_name e).
End cards.

(** ** Correctness *)

Section correctness.
Context {P : Type} (profile_user club_user board_user : Z → option Z).
Implicit Types d : DB P.

(** Who may see a card: the player, a coach who made the entry, its club, its board. *)
Definition may_see d (user : Z) (e : entry) : Prop :=
  (∃ p, e_player e = Some p ∧ profile_user p = Some user) ∨
  (∃ k row, e_coach e = Some k ∧ profile_user k = Some user ∧ db_profiles d !! k = Some row ∧
     (lower (up_role row) ∈ ["coach"; "both"]%string ∨ up_is_coach row = true)) ∨
  (∃ c, e_club e = Some c ∧ club_user c = Some user) ∨
  (∃ b, e_board e = Some b ∧ board_user b = Some user).

Lemma first_profile_some d user k row : first_profile profile_user d (Some user) = Some (k, row) →
  profile_user k = Some user ∧ db_profiles d !! k = Some row.
Proof.
  unfold first_profile. intros Hh. apply head_Some_elem_of, elem_of_filter_list in Hh as [Hin Hb].
  apply elem_of_rows_by_id in Hin. by apply bool_decide_eq_true in Hb.
Qed.

Lemma first_owned (owner : Z → option Z) (ids : list Z) user k :
  head (List.filter (λ k, bool_decide (owner k = Some user)) ids) = Some k → owner k = Some user.
Proof. intros Hh. apply head_Some_elem_of, elem_of_filter_list in Hh as [_ Hb]. by apply bool_decide_eq_true in Hb. Qed.

Lemma same_id_true a b : same_id a b = true → ∃ x, a = Some x ∧ b = Some x.
Proof. destruct a as [x|], b as [y|]; cbn; [|done..]. intros ->%Z.eqb_eq. by exists y. Qed.

Lemma allowed_may_see d user e :
  _allowed_for_enrollment profile_user (requester_of profile_user club_user board_user d user) e = true → may_see d user e.
Proof.
  unfold _allowed_for_enrollment, requester_of. cbn [rq_user rq_profile rq_club rq_board].
  rewrite !orb_true_iff, bool_decide_eq_true. intros [[[Hp|Hc]|Hc]|Hb].
  - left. destruct (e_player e) as [p|]; [|done]. by exists p.
  - right; left. destruct (first_profile profile_user d (Some user)) as [[k row]|] eqn:Ef; [|done]. cbn in Hc.
    apply andb_true_iff in Hc as [Hr (x & Ex & [= <-])%same_id_true].
    apply first_profile_some in Ef as [Hu Hrow]. exists k, row. split_and!; try done.
    apply orb_true_iff in Hr as [Hr|Hr]; [left; by apply bool_decide_eq_true in Hr|by right].
  - right; right; left. apply same_id_true in Hc as (c & Ec & Hh). exists c. split; [done|by apply first_owned in Hh].
  - right; right; right. apply same_id_true in Hb as (b & Eb & Hh). exists b. split; [done|by apply first_owned in Hh].
Qed.

Lemma elem_of_candidates d eid e : e ∈ candidates d eid ↔
  (∃ en, e = KyorugiEntry en ∧ db_enrollments d !! eid = Some en) ∨
  (∃ pe, e = PoomsaeEntry pe ∧ db_poomsae_enrollments d !! eid = Some pe).
Proof.
  unfold candidates. rewrite elem_of_app.
  destruct (db_enrollments d !! eid) as [en|], (db_poomsae_enrollments d !! eid) as [pe|]; cbn;
    rewrite ?list_elem_of_singleton; set_solver.
Qed.

Lemma all_map_candidate d eid e : all_map d eid = Some e → e ∈ candidates d eid.
Proof.
  unfold all_map. rewrite elem_of_candidates.
  destruct (db_poomsae_enrollments d !! eid) as [pe|] eqn:Ep; [intros [= <-]; right; by exists pe|].
  destruct (db_enrollments d !! eid) as [en|] eqn:Ee; [|done]. intros [= <-]. left. by exists en.
Qed.

Lemma single_shown d user eid id e : enrollment_card profile_user club_user board_user d user eid = CardShown id e →
  id = eid ∧ e ∈ candidates d eid ∧ may_see d user e ∧ card_ready e = true.
Proof.
  unfold enrollment_card. cbn zeta. case_bool_decide; [done|].
  destruct (head _) as [e'|] eqn:Eh; [|done]. destruct (card_ready e') eqn:Er; [|done]. intros [= <- <-].
  apply head_Some_elem_of, elem_of_filter_list in Eh as [Hin Ha]. split_and!; try done. by apply allowed_may_see.
Qed.

Lemma bulk_shown d user eid id e : bulk_answer profile_user club_user board_user d user eid = Some (CardShown id e) →
  id = eid ∧ e ∈ candidates d eid ∧ may_see d user e ∧ card_ready e = true.
Proof.
  unfold bulk_answer. destruct (all_map d eid) as [e'|] eqn:Em; [|done]. cbn.
  destruct (_allowed_for_enrollment _ _ _) eqn:Ea; [|done]. cbn [negb].
  destruct (card_ready e') eqn:Er; [|done]. intros [= <- <-].
  split_and!; try done; [by apply all_map_candidate|by apply allowed_may_see].
Qed.
End correctness.

(** C24: Cards are private. Whatever either view answers, a card it shows is that of an
    entry with the requested id which is paid or in a final status, to the player, to
    the coach who made the entry, to its club or to its board. *)
Theorem cards_are_private {P} profile_user club_user board_user (d : DB P) user ids id e :
  (∃ eid, enrollment_card profile_user club_user board_user d user eid = CardShown id e) ∨
  CardShown id e ∈ enrollment_cards_bulk profile_user club_user board_user d user ids →
  e ∈ candidates d id ∧ may_see profile_user club_user board_user d user e ∧
  (e_is_paid e = true ∨ lower (e_status e) ∈ CARD_READY_STATUSES).
Proof.
  intros Hs.
  assert (Hx : e ∈ candidates d id ∧ may_see profile_user club_user board_user d user e ∧ card_ready e = true).
  { destruct Hs as [[eid Hs]|Hs].
    - apply single_shown in Hs as (-> & ? & ? & ?). done.
    - apply list_elem_of_omap in Hs as (eid & _ & Hs). apply bulk_shown in Hs as (-> & ? & ? & ?). done. }
  destruct Hx as (Hc & Hm & Hr). split_and!; [done..|].
  unfold card_ready, _can_show_card in Hr. apply orb_true_iff in Hr as [|Hr%bool_decide_eq_true]; auto.
Qed.

(** The two card views agree. If no requested id is the id of entries of both
    kinds, the bulk view gives for each id, in the order of the request, the answer of
    the single view, leaving out ids without an entry. *)
Theorem card_views_agree {P} profile_user club_user board_user (d : DB P) user ids :
  (∀ eid, eid ∈ omap card_id ids → db_enrollments d !! eid = None ∨ db_poomsae_enrollments d !! eid = None) →
  enrollment_cards_bulk profile_user club_user board_user d user ids =
  List.filter (λ a, match a with CardMissing => false | _ => true end)
    (enrollment_card profile_user club_user board_user d user <$> omap card_id ids).
Proof.
  unfold enrollment_cards_bulk. generalize (omap card_id ids). intros l Hl.
  induction l as [|eid l IH]; [done|]. cbn [omap list_omap fmap list_fmap List.filter].
  rewrite IH by (intros; apply Hl; by right). specialize (Hl eid ltac:(left)).
  assert (Hone : match bulk_answer profile_user club_user board_user d user eid with
    | Some a => enrollment_card profile_user club_user board_user d user eid = a ∧ a ≠ CardMissing
    | None => enrollment_card profile_user club_user board_user d user eid = CardMissing end).
  { unfold bulk_answer, enrollment_card, candidates, all_map. cbn zeta.
    destruct (db_enrollments d !! eid) as [en|], (db_poomsae_enrollments d !! eid) as [pe|]; cbn;
      try (by destruct Hl); try done; (rewrite bool_decide_false by done);
      (destruct (_allowed_for_enrollment _ _ _); cbn; [destruct (card_ready _)|]); done. }
  destruct (bulk_answer profile_user club_user board_user d user eid) as [a|].
  - destruct Hone as [-> Hne]. by destruct a.
  - by rewrite Hone.
Qed.

(** ** Witnesses and examples *)

(** Entry 100 of profile 10, registered by coach 20, with the logins 7 and 8. *)
Definition cards_db (paid : bool) : DB Z :=
  set_db_enrollments
    {[ 100 := mkEnrollment 5 10 (Some 20) "" "" (Some 30) "" (Some 40) "" None (Some 1) (b64_of_Z 55) "" 0
                "pending_payment" paid 0 "" None "" None 0 0 false false ]}
    eligibility_db.

Lemma cards_are_private_witness :
  may_see sample_login (λ _, None) (λ _, None) (cards_db true) 7
    (KyorugiEntry (mkEnrollment 5 10 (Some 20) "" "" (Some 30) "" (Some 40) "" None (Some 1) (b64_of_Z 55) "" 0
                "pending_payment" true 0 "" None "" None 0 0 false false)).
Proof.
  refine (proj1 (proj2 (cards_are_private sample_login (λ _, None) (λ _, None) (cards_db true) 7 [] 100 _ _))).
  left. exists 100. vm_compute. reflexivity.
Defined.

Lemma card_views_agree_witness :
  length (enrollment_cards_bulk sample_login (λ _, None) (λ _, None) (cards_db true) 8 [JInt 100; JStr "x"; JInt 3]) = 1%nat.
Proof.
  rewrite (card_views_agree sample_login (λ _, None) (λ _, None) (cards_db true) 8 [JInt 100; JStr "x"; JInt 3]).
  - vm_compute. reflexivity.
  - intros eid _. right. apply lookup_empty.
Defined.

(** Ids are counted per table. When a poomsae entry of someone else has the id of the
    user's kyorugi entry, the single view shows the card and the bulk view, whose
    dictionary holds one entry per id, refuses it. *)
Example same_id_hides_card :
  let d := set_db_poomsae_enrollments
    {[ 100 := mkPoomsaeEnrollment 8 (Some 11) (Some 21) "" "" None "" None "" None None "standard" "single" "" 0 None
                "paid" true 0 "" None ]} (cards_db true) in
  match enrollment_card sample_login (λ _, None) (λ _, None) d 7 100 with CardShown 100 _ => True | _ => False end ∧
  enrollment_cards_bulk sample_login (λ _, None) (λ _, None) d 7 [JInt 100] = [CardForbidden].
Proof. split; vm_compute; [exact I|reflexivity]. Qed.

Example card_of_sample :
  (λ e, kyorugi_card_of (λ _, "red"%string) (λ _, [(7, ["red"%string])]) (λ _, "group"%string) (cards_db true) sample_comp
     (mkUserProfile "p" "x" false "player" "male" (Some 30) (Some 20) (Some 40) 0 0 0 0 0) e)
    <$> db_enrollments (cards_db true) !! 100 =
  Some (mkKyorugiCard "p" "x" (Some "w") (Some "قرمز") (Some "group") "" "" "")%string.
Proof. vm_compute. reflexivity. Qed.
