(* ===== verification/Catalogue.v ===== *)
(** The public and personal listings of [competitions/views.py]: the dashboards, the
    competitions open to players and referees, the published brackets, the results and
    the lists of seminars, with the figures of [competitions/serializers.py].

    The creation times of competitions and seminars, the groups of a user and the
    logins of profiles and clubs are arguments, and so are the approvals, which are only
    read.  Rows without an order of their own come by primary key. *)

From Stdlib Require Import Ascii SpecFloat.
From S2P Require Import Prelude Store Points Ranking Ledger NumberingService NumberingPlan Payments GroupRegistration Text Approvals Seminars Eligibility.
Local Open Scope Z_scope.

(** ** The registration period *)

(** [_opened]: the query that keeps the competitions open on day [today]. *)
Definition open_q (manual : option bool) (start stop today : Z) : bool :=
  bool_decide (manual = Some true) || is_none manual && (start <=? today) && (today <=? stop).

Definition _opened {A} (manual : A → option bool) (start stop : A → Z) (today : Z) (only_open : bool)
    (qs : list (Z * A)) : list (Z * A) :=
  if negb only_open then qs
  else List.filter (λ kc, open_q (manual kc.2) (start kc.2) (stop kc.2) today) qs.

Definition ky_opened (today : Z) : bool → list (Z * KyorugiCompetition) → list (Z * KyorugiCompetition) :=
  _opened kc_registration_manual kc_registration_start kc_registration_end today.
Definition po_opened (today : Z) : bool → list (Z * PoomsaeCompetition) → list (Z * PoomsaeCompetition) :=
  _opened pc_registration_manual pc_registration_start pc_registration_end today.

(** [registration_active] and [not_finished] of [KyorugiCompetitionQuerySet], and
    [active] of [PoomsaeCompetitionQuerySet]. *)
Definition registration_active (today : Z) (qs : list (Z * KyorugiCompetition)) : list (Z * KyorugiCompetition) :=
  List.filter (λ kc, negb (bool_decide (kc_registration_manual kc.2 = Some false))) (ky_opened today true qs).
Definition not_finished (today : Z) (qs : list (Z * KyorugiCompetition)) : list (Z * KyorugiCompetition) :=
  List.filter (λ kc, today <=? kc_competition_date kc.2) qs.
Definition active (today : Z) (qs : list (Z * PoomsaeCompetition)) : list (Z * PoomsaeCompetition) :=
  List.filter (λ kc, negb (bool_decide (pc_registration_manual kc.2 = Some false))) (po_opened today true qs).

(** [get_can_register] of the kyorugi serializers: open, and inside the period. *)
Definition get_can_register (comp : KyorugiCompetition) (today : Z) : bool :=
  registration_open_effective comp today
  && (kc_registration_start comp <=? today) && (today <=? kc_registration_end comp).

(** [DashboardKyorugiCompetitionSerializer.get_status] *)
Definition get_status (comp : KyorugiCompetition) (today : Z) : string :=
  if today <? kc_competition_date comp then "upcoming"
  else if today =? kc_competition_date comp then "today" else "finished".

(** ** Dashboards *)

(** [_order_items]: newest first; items created together keep their order. *)
Definition _order_items {A} (created : A → Z) (items : list A) : list A :=
  sort_by (λ a b, created b <=? created a) items.

Section dashboards.
Context {P : Type} (profile_user club_user : Z → option Z) (in_group : Z → string → bool)
  (created_at : comp_ref → Z).
Local Abbreviation db := (DB P).

(** [_detect_role_and_profile] *)
Definition _detect_role_and_profile (d : db) (user : Z) : string * option (Z * UserProfile P) :=
  let prof := first_profile profile_user d (Some user) in
  let role := match prof with Some kr => up_role kr.2 | None => ""%string end in
  if truthy_str role then (lower role, prof)
  else if existsb (λ k, bool_decide (club_user k = Some user)) (rows_by_id (db_clubs d)).*1 then ("club"%string, None)
  else if in_group user "heyat" then ("heyat"%string, None)
  else if in_group user "board" then ("board"%string, None)
  else (""%string, prof).

(** A competition with an approval of the coach that is active and accepted. *)
Definition approved_comp {T} `{ApprovalModel T} (rows : gmap Z T) (coach comp : Z) : bool :=
  existsb (λ ka, (ap_competition ka.2 =? comp) && (ap_coach ka.2 =? coach) && ap_is_active ka.2 && ap_accepted ka.2)
    (rows_by_id rows).

(** The poomsae competitions in the order of their model: latest start first. *)
Definition poomsae_rows (d : db) : list (Z * PoomsaeCompetition) :=
  sort_by (λ a b, (pc_start_date b.2 <? pc_start_date a.2) ||
                  (pc_start_date a.2 =? pc_start_date b.2) && (created_at (PoomsaeComp b.1) <=? created_at (PoomsaeComp a.1)))
    (rows_by_id (db_poomsae_comps d)).

Context (ky_approvals : gmap Z CoachApproval) (po_approvals : gmap Z PoomsaeCoachApproval).

(** [_dashboard_base_qs] *)
Definition _dashboard_base_qs (d : db) (role : string) (profile : option (Z * UserProfile P)) (only_open : bool) (today : Z)
    : list (Z * KyorugiCompetition) * list (Z * PoomsaeCompetition) :=
  let ky := rows_by_id (db_competitions d) in
  let po := poomsae_rows d in
  if String.eqb role "player" then
    match profile ≫= (λ kr, up_coach kr.2) with
    | None => ([], [])
    | Some coach =>
        (ky_opened today only_open (List.filter (λ kc, approved_comp ky_approvals coach kc.1) ky),
         po_opened today only_open (List.filter (λ kc, approved_comp po_approvals coach kc.1) po))
    end
  else if String.eqb role "referee" then (ky_opened today true ky, po_opened today true po)
  else (ky_opened today only_open ky, po_opened today only_open po).

(** [DashboardAllCompetitionsView] and [DashboardKyorugiListView] *)
Definition dashboard_all (d : db) (user : Z) (only_open : bool) (today : Z) : list comp_ref :=
  let '(role, profile) := _detect_role_and_profile d user in
  let '(ky, po) := _dashboard_base_qs d role profile only_open today in
  _order_items created_at ((KyorugiComp <$> ky.*1) ++ (PoomsaeComp <$> po.*1)).

Definition dashboard_kyorugi (d : db) (user : Z) (only_open : bool) (today : Z) : list comp_ref :=
  let '(role, profile) := _detect_role_and_profile d user in
  let '(ky, _) := _dashboard_base_qs d role profile only_open today in
  _order_items created_at (KyorugiComp <$> ky.*1).

(** [PlayerCompetitionsList] and [RefereeCompetitionsList], as ids. *)
Definition player_competitions (d : db) (user : Z) (today : Z) : list Z :=
  match head (List.filter (λ kr, bool_decide (up_role kr.2 ∈ ["player"; "both"]%string)) (profiles_of profile_user d user))
        ≫= (λ kr, up_coach kr.2) with
  | None => []
  | Some coach =>
      (ky_opened today true
         (List.filter (λ kc, approved_comp ky_approvals coach kc.1) (rows_by_id (db_competitions d)))).*1
  end.

Definition referee_competitions (d : db) (user : Z) (today : Z) : list Z :=
  match head (List.filter (λ kr, String.eqb (up_role kr.2) "referee") (profiles_of profile_user d user)) with
  | None => []
  | Some _ => (ky_opened today true (rows_by_id (db_competitions d))).*1
  end.
End dashboards.

(** ** Published brackets *)

Section brackets.
Context {P : Type}.
Local Abbreviation db := (DB P).

(** A draw is unsafe while a match other than a bye has no number. *)
Definition has_unsafe_match (d : db) (draw : Z) : bool :=
  existsb (λ km, (mt_draw km.2 =? draw) && negb (mt_is_bye km.2) && is_none (mt_match_number km.2))
    (rows_by_id (db_matches d)).

Definition draws_of (d : db) (comp_id : Z) : list (Z * Draw) :=
  List.filter (λ kd, dr_competition kd.2 =? comp_id) (rows_by_id (db_draws d)).

(** The draws that are shown, by the least weight of their category; a draw whose
    category is gone comes first. *)
Definition weight_le (d : db) (a b : Z * Draw) : bool :=
  match db_weights d !! dr_weight_category a.2, db_weights d !! dr_weight_category b.2 with
  | Some x, Some y => SFleb (wc_min_weight x) (wc_min_weight y)
  | None, _ => true
  | Some _, None => false
  end.

Definition public_draws (d : db) (comp_id : Z) : list (Z * Draw) :=
  sort_by (weight_le d) (List.filter (λ kd, negb (has_unsafe_match d kd.1)) (draws_of d comp_id)).

(** The body: each draw with its matches, round by round. *)
Definition with_matches (d : db) (kd : Z * Draw) : Z * list (Z * Match) :=
  (kd.1, List.filter (λ km, mt_draw km.2 =? kd.1) (rows_by_id (db_matches d))).

(** [KyorugiBracketView.get], after the lookup of the competition; [None] answers that
    the bracket is not ready. *)
Definition kyorugi_bracket (d : db) (comp_id : Z) (comp : KyorugiCompetition) : option (list (Z * list (Z * Match))) :=
  if is_none (kc_bracket_published_at comp) then None
  else if bool_decide (length (draws_of d comp_id) = 0%nat) || bool_decide (length (public_draws d comp_id) = 0%nat) then None
  else Some (with_matches d <$> public_draws d comp_id).

(** [public_bracket_view], by the exact public id. *)
Definition public_bracket_view (d : db) (public_id : string) : option (list (Z * list (Z * Match))) :=
  match head (List.filter (λ kc, String.eqb (kc_public_id kc.2) public_id) (rows_by_id (db_competitions d))) with
  | None => None
  | Some (comp_id, comp) =>
      if is_none (kc_bracket_published_at comp) then None
      else Some (with_matches d <$> public_draws d comp_id)
  end.

(** [_bracket_stats_for] with [_eligible_real_matches_qs]: the slots of a match are
    never null. *)
Record bracket_stats := mkBracketStats {
  bs_draws : Z;
  bs_matches_total : Z;
  bs_real_total : Z;
  bs_real_numbered : Z;
}.

Definition matches_of_comp (d : db) (comp_id : Z) : list (Z * Match) :=
  List.filter (λ km, match db_draws d !! mt_draw km.2 with Some dr => dr_competition dr =? comp_id | None => false end)
    (rows_by_id (db_matches d)).
Definition real_matches (d : db) (comp_id : Z) : list (Z * Match) :=
  List.filter (λ km, negb (mt_is_bye km.2)) (matches_of_comp d comp_id).

Definition _bracket_stats_for (d : db) (comp_id : Z) : bracket_stats :=
  mkBracketStats (zlen (draws_of d comp_id)) (zlen (matches_of_comp d comp_id)) (zlen (real_matches d comp_id))
    (zlen (List.filter (λ km, negb (is_none (mt_match_number km.2))) (real_matches d comp_id))).

Definition _bracket_ready_for (d : db) (comp_id : Z) (comp : KyorugiCompetition) : bool :=
  negb (is_none (kc_bracket_published_at comp)) && negb (bool_decide (length (draws_of d comp_id) = 0%nat)).

(** ** Results *)

(** [_enr_label] *)
Record enr_label := mkEnrLabel {
  el_enrollment_id : Z;
  el_player_name : option string;
  el_club_name : option string;
  el_label : string;
}.

Definition some_str (s : string) : option string := if truthy_str s then Some s else None.

Definition _enr_label (d : db) (e : Z) : option enr_label :=
  (λ en, let player := match db_profiles d !! en_player en with
                       | Some p => strip (up_first_name p ++ " " ++ up_last_name p)%string | None => ""%string end in
         let club := default ""%string (cl_club_name <$> (en_club en ≫= (db_clubs d !!.))) in
         mkEnrLabel e (some_str player) (some_str club)
           (if truthy_str player && truthy_str club then (player ++ " — " ++ club)%string
            else or_str (or_str player club) "—"))
    <$> db_enrollments d !! e.

Record result_row := mkResultRow {
  rr_weight : string;
  rr_gold : option enr_label;
  rr_silver : option enr_label;
  rr_bronze1 : option enr_label;
  rr_bronze2 : option enr_label;
}.

(** [KyorugiResultsView.get]: by gender, least weight and name of the category. *)
Definition result_le (d : db) (a b : KyorugiResult) : bool :=
  match db_weights d !! re_weight_category a, db_weights d !! re_weight_category b with
  | Some x, Some y =>
      if negb (String.eqb (wc_gender x) (wc_gender y)) then String.leb (wc_gender x) (wc_gender y)
      else if negb (SFeqb (wc_min_weight x) (wc_min_weight y)) then SFleb (wc_min_weight x) (wc_min_weight y)
      else String.leb (wc_name x) (wc_name y)
  | None, _ => true
  | Some _, None => false
  end.

Definition kyorugi_results (d : db) (comp_id : Z) : list result_row :=
  (λ r, mkResultRow (or_str (default "" (wc_name <$> db_weights d !! re_weight_category r)) "—")
          (re_gold r ≫= _enr_label d) (re_silver r ≫= _enr_label d)
          (re_bronze1 r ≫= _enr_label d) (re_bronze2 r ≫= _enr_label d))
    <$> sort_by (result_le d)
          (List.filter (λ r, re_competition r =? comp_id) (rows_by_id (db_results d)).*2).
End brackets.

(** ** Lists of seminars *)

Section seminars.
Context {P : Type} (created_at : Z → Z) (matches_q : string → Z → bool).
Local Abbreviation db := (DB P).

(** The query parameters of [SeminarListView] after stripping; a flag is set by 1, true
    or True.  [matches_q] is the search in title, description and location. *)
Record seminar_query := mkSeminarQuery {
  sq_q : string;
  sq_role : string;
  sq_date_from : option Z;
  sq_date_to : option Z;
  sq_open : bool;
  sq_upcoming : bool;
  sq_past : bool;
  sq_ordering : string;
}.

Definition kept_if {A} (b : bool) (p : A → bool) (l : list A) : list A := if b then List.filter p l else l.

Definition le_opt (o : option Z) (p : Z → bool) : bool := match o with Some x => p x | None => true end.

(** Whether [order_by(ordering, id)] puts [a] before [b]; unknown orders are by date. *)
Definition ordered (ordering : string) (a b : Z * Seminar) : bool :=
  let key := if bool_decide (ordering ∈ ["created_at"; "-created_at"]%string)
             then (λ s : Z * Seminar, created_at s.1) else (λ s, se_event_date s.2) in
  if bool_decide (ordering ∈ ["title"; "-title"]%string) then
    let le := if String.eqb ordering "title" then String.leb (se_title a.2) (se_title b.2)
              else String.leb (se_title b.2) (se_title a.2) in
    if String.eqb (se_title a.2) (se_title b.2) then a.1 <=? b.1 else le
  else
    if key a =? key b then a.1 <=? b.1
    else if bool_decide (ordering ∈ ["-event_date"; "-created_at"]%string) then key b <? key a else key a <? key b.

(** [SeminarListView.get_queryset] *)
Definition seminar_list (d : db) (q : seminar_query) (today : Z) : list (Z * Seminar) :=
  sort_by (ordered (sq_ordering q))
    (kept_if (sq_past q) (λ s, se_event_date s.2 <? today)
    (kept_if (sq_upcoming q) (λ s, today <=? se_event_date s.2)
    (kept_if (sq_open q) (λ s, registration_open s.2 today)
    (List.filter (λ s, le_opt (sq_date_to q) (λ x, se_event_date s.2 <=? x))
    (List.filter (λ s, le_opt (sq_date_from q) (λ x, x <=? se_event_date s.2))
    (List.filter (λ s, listed_for (sq_role q) s.2)
    (kept_if (truthy_str (sq_q q)) (λ s, matches_q (sq_q q) s.1) (rows_by_id (db_seminars d))))))))).

(** [sidebar_seminars]; a limit that is no number is a [ValueError], and so is a
    negative one on a query. *)
Definition sidebar_order (show : string) (a b : Z * Seminar) : bool :=
  let x := se_event_date a.2 in let y := se_event_date b.2 in
  if x =? y then created_at b.1 <=? created_at a.1
  else if String.eqb show "past" then y <? x else x <? y.

Definition sidebar_rows (d : db) (show : string) (today : Z) : list (Z * Seminar) :=
  sort_by (sidebar_order show)
    (List.filter (λ s, if String.eqb show "open" then registration_open s.2 today
                       else if String.eqb show "upcoming" then today <=? se_event_date s.2
                       else if String.eqb show "past" then se_event_date s.2 <? today else true)
       (rows_by_id (db_seminars d))).

(** [l[:k]] of a list. *)
Definition py_slice {A} (k : Z) (l : list A) : list A := if 0 <=? k then py_take k l else py_take (zlen l + k) l.

Definition sidebar_seminars (d : db) (role limit show : string) (today : Z) : result (list (Z * Seminar)) :=
  let role := or_str (lower role) "player" in
  match py_int (_to_en_digits limit) with
  | None => Err ValueError
  | Some limit =>
      let rows := sidebar_rows d show today in
      if bool_decide (role ∈ ["club"; "heyat"]%string) then
        if limit <? 0 then Err ValueError else Ok (py_take limit rows)
      else Ok (py_slice limit (List.filter (λ s, role_ok role s.2) (py_take 200 rows)))
  end.

(** [MySeminarRegistrationsView]: by the paid flag, newest first; [found] is its search
    in title and location. *)
Definition my_seminar_registrations (d : db) (found : string → Z → bool) (registered_at : Z → Z) (user : Z) (paid : option bool) (q : string)
    : list (Z * SeminarRegistration) :=
  sort_by (λ a b, if registered_at a.1 =? registered_at b.1 then b.1 <=? a.1 else registered_at b.1 <? registered_at a.1)
    (kept_if (truthy_str q) (λ r, found q (sr_seminar r.2))
    (List.filter (λ r, (sr_user r.2 =? user) && match paid with Some b => eqb (sr_is_paid r.2) b | None => true end)
       (rows_by_id (db_seminar_regs d)))).
End seminars.

(** ** Open competitions *)

Lemma open_q_effective comp today :
  open_q (kc_registration_manual comp) (kc_registration_start comp) (kc_registration_end comp) today =
  registration_open_effective comp today.
Proof.
  unfold open_q, registration_open_effective. rewrite !Z.leb_antisym.
  destruct (kc_registration_manual comp) as [[|]|]; reflexivity.
Qed.

Lemma poomsae_open_q comp today :
  open_q (pc_registration_manual comp) (pc_registration_start comp) (pc_registration_end comp) today =
  poomsae_registration_open comp today.
Proof.
  unfold open_q, poomsae_registration_open. rewrite !Z.leb_antisym.
  destruct (pc_registration_manual comp) as [[|]|]; reflexivity.
Qed.

Lemma elem_of_ky_opened today only_open qs k comp : (k, comp) ∈ ky_opened today only_open qs ↔
  (k, comp) ∈ qs ∧ (only_open = true → registration_open_effective comp today = true).
Proof.
  unfold ky_opened, _opened. destruct only_open; cbn [negb]; [|naive_solver].
  rewrite elem_of_filter_list. cbn. rewrite open_q_effective. naive_solver.
Qed.

Lemma elem_of_po_opened today only_open qs k comp : (k, comp) ∈ po_opened today only_open qs ↔
  (k, comp) ∈ qs ∧ (only_open = true → poomsae_registration_open comp today = true).
Proof.
  unfold po_opened, _opened. destruct only_open; cbn [negb]; [|naive_solver].
  rewrite elem_of_filter_list. cbn. rewrite poomsae_open_q. naive_solver.
Qed.

(** The two managers keep exactly the competitions the property calls open. *)
Lemma managers_agree today k comp qs : (k, comp) ∈ registration_active today qs ↔
  (k, comp) ∈ qs ∧ registration_open_effective comp today = true.
Proof.
  unfold registration_active. rewrite elem_of_filter_list, elem_of_ky_opened. cbn.
  rewrite negb_true_iff, bool_decide_eq_false. split; [naive_solver|]. intros [Hin Ho]. split_and!; [done..|].
  intros E. unfold registration_open_effective in Ho. by rewrite E in Ho.
Qed.

Lemma NoDup_opened {A} manual start stop today only_open (qs : list (Z * A)) :
  NoDup qs.*1 → NoDup (_opened manual start stop today only_open qs).*1.
Proof. intros Hn. unfold _opened. destruct (negb only_open); [done|]. by apply NoDup_fst_filter. Qed.

Lemma elem_of_pairs {A} (l : list (Z * A)) k : k ∈ l.*1 ↔ ∃ x, (k, x) ∈ l.
Proof.
  rewrite list_elem_of_fmap. split; [intros ([k' x] & -> & Hin); by exists x|intros [x Hin]; by exists (k, x)].
Qed.

(** The coach has an active and accepted approval for the competition. *)
Definition has_approval {T} `{ApprovalModel T} (rows : gmap Z T) (coach comp : Z) : Prop :=
  ∃ k row, rows !! k = Some row ∧ ap_competition row = comp ∧ ap_coach row = coach ∧
    ap_is_active row = true ∧ ap_accepted row = true.

Lemma approved_comp_iff {T} `{ApprovalModel T} (rows : gmap Z T) coach comp :
  approved_comp rows coach comp = true ↔ has_approval rows coach comp.
Proof.
  unfold approved_comp, has_approval. rewrite existsb_exists. split.
  - intros ([k row] & Hin & Hb). apply list_elem_of_In, elem_of_rows_by_id in Hin. cbn in Hb.
    rewrite !andb_true_iff, !Z.eqb_eq in Hb. exists k, row. tauto.
  - intros (k & row & Hk & <- & <- & Ha & Hc). exists (k, row). split; [by apply list_elem_of_In, elem_of_rows_by_id|].
    cbn. by rewrite !Z.eqb_refl, Ha, Hc.
Qed.

Section dashboard_facts.
Context {P : Type} (created_at : comp_ref → Z).
Implicit Types d : DB P.

Lemma elem_of_poomsae_rows d k comp : (k, comp) ∈ poomsae_rows created_at d ↔ db_poomsae_comps d !! k = Some comp.
Proof. unfold poomsae_rows. by rewrite sort_by_perm, elem_of_rows_by_id. Qed.

Lemma NoDup_poomsae_rows d : NoDup (poomsae_rows created_at d).*1.
Proof. unfold poomsae_rows. rewrite sort_by_perm. apply NoDup_rows_by_id. Qed.

Lemma order_items_sorted {A} (created : A → Z) items :
  StronglySorted (λ a b, created b ≤ created a) (_order_items created items).
Proof.
  eapply StronglySorted_weaken; [|apply sort_by_sorted].
  - intros a b E. cbn in E. lia.
  - intros a b. cbn. rewrite !Z.leb_le. lia.
  - intros a b c. cbn. rewrite !Z.leb_le. lia.
Qed.

Lemma NoDup_items (ky : list (Z * KyorugiCompetition)) (po : list (Z * PoomsaeCompetition)) :
  NoDup ky.*1 → NoDup po.*1 → NoDup ((KyorugiComp <$> ky.*1) ++ (PoomsaeComp <$> po.*1)).
Proof.
  intros Hk Hp. apply NoDup_app. split_and!.
  - apply NoDup_fmap; [by intros ?? [= ->]|done].
  - intros c (k & -> & _)%list_elem_of_fmap (p & [=] & _)%list_elem_of_fmap.
  - apply NoDup_fmap; [by intros ?? [= ->]|done].
Qed.

Lemma elem_of_items ky po c : c ∈ (KyorugiComp <$> ky) ++ (PoomsaeComp <$> po) ↔
  match c with KyorugiComp k => k ∈ ky | PoomsaeComp k => k ∈ po end.
Proof.
  rewrite elem_of_app, !list_elem_of_fmap. destruct c as [k|k]; naive_solver.
Qed.
End dashboard_facts.

(** The dashboard of a player. A player with a coach sees, newest first and each
    once, exactly the competitions with an active approval that the coach has accepted,
    all of them or only those open for registration; the separate list of open kyorugi
    competitions for players has the same ones. *)
Theorem player_dashboard_shows {P} profile_user club_user in_group created_at ky_approvals po_approvals (d : DB P)
    user k prof coach only_open today :
  first_profile profile_user d (Some user) = Some (k, prof) → up_role prof = "player"%string → up_coach prof = Some coach →
  let items := dashboard_all profile_user club_user in_group created_at ky_approvals po_approvals d user only_open today in
  StronglySorted (λ a b, created_at b ≤ created_at a) items ∧ NoDup items ∧
  (∀ c, KyorugiComp c ∈ items ↔ ∃ comp, db_competitions d !! c = Some comp ∧
     has_approval ky_approvals coach c ∧ (only_open = true → registration_open_effective comp today = true)) ∧
  (∀ c, PoomsaeComp c ∈ items ↔ ∃ comp, db_poomsae_comps d !! c = Some comp ∧
     has_approval po_approvals coach c ∧ (only_open = true → poomsae_registration_open comp today = true)) ∧
  (∀ c, c ∈ player_competitions profile_user ky_approvals d user today ↔ ∃ comp, db_competitions d !! c = Some comp ∧
     has_approval ky_approvals coach c ∧ registration_open_effective comp today = true).
Proof.
  intros Hf Hrole Hcoach. cbn zeta. unfold dashboard_all, _detect_role_and_profile. rewrite Hf. cbn [snd]. rewrite Hrole.
  change (truthy_str "player") with true. cbn iota beta zeta. change (lower "player") with "player"%string.
  unfold _dashboard_base_qs. change (String.eqb "player" "player") with true. cbn iota zeta. cbn [mbind option_bind snd].
  rewrite Hcoach.
  setoid_rewrite <- approved_comp_iff.
  split; [apply order_items_sorted|]. unfold _order_items. setoid_rewrite sort_by_perm.
  split; [apply NoDup_items; apply NoDup_opened, NoDup_fst_filter; [apply NoDup_rows_by_id|apply NoDup_poomsae_rows]|].
  split_and!; intros c; [rewrite elem_of_items, elem_of_pairs..|].
  - setoid_rewrite elem_of_ky_opened. setoid_rewrite elem_of_filter_list. setoid_rewrite elem_of_rows_by_id. cbn. naive_solver.
  - setoid_rewrite elem_of_po_opened. setoid_rewrite elem_of_filter_list. setoid_rewrite elem_of_poomsae_rows. cbn. naive_solver.
  - unfold player_competitions, profiles_of. unfold first_profile in Hf.
    destruct (List.filter (λ kr : Z * UserProfile P, bool_decide (profile_user kr.1 = Some user)) _) as [|kr l]; [done|].
    injection Hf as ->. cbn -[ky_opened]. rewrite Hrole, bool_decide_true by left. cbn -[ky_opened]. rewrite Hcoach.
    rewrite elem_of_pairs. setoid_rewrite elem_of_ky_opened. setoid_rewrite elem_of_filter_list.
    setoid_rewrite elem_of_rows_by_id. cbn. naive_solver.
Qed.

(** ** Published brackets *)

Section bracket_facts.
Context {P : Type}.
Implicit Types d : DB P.

Lemma elem_of_draws_of d comp_id k dr : (k, dr) ∈ draws_of d comp_id ↔
  db_draws d !! k = Some dr ∧ dr_competition dr = comp_id.
Proof. unfold draws_of. rewrite elem_of_filter_list, elem_of_rows_by_id. cbn. by rewrite Z.eqb_eq. Qed.

Lemma elem_of_public_draws d comp_id k dr : (k, dr) ∈ public_draws d comp_id ↔
  db_draws d !! k = Some dr ∧ dr_competition dr = comp_id ∧ has_unsafe_match d k = false.
Proof.
  unfold public_draws. rewrite sort_by_perm, elem_of_filter_list, elem_of_draws_of. cbn. rewrite negb_true_iff. tauto.
Qed.

Lemma unsafe_match d k : has_unsafe_match d k = true ↔
  ∃ i m, db_matches d !! i = Some m ∧ mt_draw m = k ∧ mt_is_bye m = false ∧ mt_match_number m = None.
Proof.
  unfold has_unsafe_match. rewrite existsb_exists. split.
  - intros ([i m] & Hin & Hb). apply list_elem_of_In, elem_of_rows_by_id in Hin. cbn in Hb.
    rewrite !andb_true_iff, Z.eqb_eq, negb_true_iff in Hb. destruct Hb as [[Hd Hbye] Hn].
    exists i, m. split_and!; try done. by destruct (mt_match_number m).
  - intros (i & m & Hm & Hd & Hb & Hn). exists (i, m). split; [by apply list_elem_of_In, elem_of_rows_by_id|].
    cbn. by rewrite Hd, Hb, Hn, Z.eqb_refl.
Qed.

Lemma safe_draw d k i m : has_unsafe_match d k = false → db_matches d !! i = Some m → mt_draw m = k →
  mt_is_bye m = false → mt_match_number m ≠ None.
Proof. intros Hs Hm Hd Hb Hn. apply not_true_iff_false in Hs. apply Hs, unsafe_match. by exists i, m. Qed.

Lemma elem_of_with_matches d kd i m : (i, m) ∈ (with_matches d kd).2 ↔ db_matches d !! i = Some m ∧ mt_draw m = kd.1.
Proof. unfold with_matches. cbn. rewrite elem_of_filter_list, elem_of_rows_by_id. cbn. by rewrite Z.eqb_eq. Qed.

Lemma elem_of_real_matches d comp_id i m : (i, m) ∈ real_matches d comp_id ↔
  db_matches d !! i = Some m ∧ mt_is_bye m = false ∧
  ∃ dr, db_draws d !! mt_draw m = Some dr ∧ dr_competition dr = comp_id.
Proof.
  unfold real_matches, matches_of_comp. rewrite !elem_of_filter_list, elem_of_rows_by_id. cbn. rewrite negb_true_iff. split.
  - intros ((Hm & Hd) & Hb). split_and!; [done..|]. destruct (db_draws d !! mt_draw m) as [dr|]; [|done].
    exists dr. by apply Z.eqb_eq in Hd.
  - intros (Hm & Hb & dr & Hd & Hc). by rewrite Hd, Hc, Z.eqb_refl.
Qed.

Lemma filter_length_all {A} (p : A → bool) l : length (List.filter p l) = length l ↔ ∀ x, x ∈ l → p x = true.
Proof.
  induction l as [|x l IH]; cbn; [split; [set_solver|done]|].
  destruct (p x) eqn:E; cbn.
  - rewrite Nat.succ_inj_wd, IH. split; intros Ha y; [intros [-> |?]%elem_of_cons; auto|intros Hy; apply Ha; by right].
  - pose proof (List.filter_length_le p l) as Hl. split; [lia|]. intros Ha. specialize (Ha x ltac:(left)). congruence.
Qed.

Lemma numbers_complete d comp_id :
  bs_real_numbered (_bracket_stats_for d comp_id) = bs_real_total (_bracket_stats_for d comp_id) ↔
  ∀ k dr, (k, dr) ∈ draws_of d comp_id → has_unsafe_match d k = false.
Proof.
  cbn. unfold zlen. rewrite Nat2Z.inj_iff, filter_length_all. split.
  - intros Ha k dr [Hd Hc]%elem_of_draws_of. apply not_true_iff_false. intros (i & m & Hm & <- & Hb & Hn)%unsafe_match.
    specialize (Ha (i, m)). cbn in Ha. rewrite Hn in Ha. discriminate Ha. apply elem_of_real_matches. eauto 6.
  - intros Ha [i m] (Hm & Hb & dr & Hd & Hc)%elem_of_real_matches. cbn.
    pose proof (safe_draw d (mt_draw m) i m) as Hs. rewrite (Ha (mt_draw m) dr) in Hs by by apply elem_of_draws_of.
    specialize (Hs eq_refl Hm eq_refl Hb). by destruct (mt_match_number m).
Qed.
End bracket_facts.

(** What the public sees of a bracket. If the page of a competition shows a
    bracket, it has been published, every draw shown belongs to the competition and comes
    with all its matches, of which every one other than a bye has a number; the page by
    public id shows the same; and all draws are shown exactly when the figures of the
    competition count all real matches as numbered. *)
Theorem shown_brackets_are_numbered {P} (d : DB P) comp_id comp body :
  db_competitions d !! comp_id = Some comp →
  (∀ k c, db_competitions d !! k = Some c → kc_public_id c = kc_public_id comp → k = comp_id) →
  kyorugi_bracket d comp_id comp = Some body →
  kc_bracket_published_at comp ≠ None ∧
  (∀ k ms, (k, ms) ∈ body → (∃ dr, db_draws d !! k = Some dr ∧ dr_competition dr = comp_id) ∧
     (∀ i m, (i, m) ∈ ms ↔ db_matches d !! i = Some m ∧ mt_draw m = k) ∧
     (∀ i m, (i, m) ∈ ms → mt_is_bye m = false → mt_match_number m ≠ None)) ∧
  public_bracket_view d (kc_public_id comp) = Some body ∧
  ((∀ k dr, db_draws d !! k = Some dr → dr_competition dr = comp_id → k ∈ body.*1) ↔
   bs_real_numbered (_bracket_stats_for d comp_id) = bs_real_total (_bracket_stats_for d comp_id)).
Proof.
  intros Hcomp Huniq. unfold kyorugi_bracket.
  destruct (kc_bracket_published_at comp) as [t|] eqn:Et; [|done]. cbn [is_none].
  destruct (_ || _); [done|]. intros [= <-]. split; [done|]. split_and!.
  - intros k ms ([k' dr] & E & Hin)%list_elem_of_fmap. apply elem_of_public_draws in Hin as (Hd & Hc & Hs).
    injection E as -> ->. split; [by exists dr|]. split; [intros i m; apply (elem_of_with_matches d (k', dr))|].
    intros i m Him Hb. apply (elem_of_with_matches d (k', dr)) in Him as [Hm Hk]. by eapply safe_draw.
  - unfold public_bracket_view.
    destruct (head _) as [[c' comp']|] eqn:Eh.
    + apply head_Some_elem_of, elem_of_filter_list in Eh as [Hin Hp]. apply elem_of_rows_by_id in Hin.
      apply String.eqb_eq in Hp. cbn in Hp. pose proof (Huniq c' comp' Hin Hp) as ->. rewrite Hcomp in Hin.
      injection Hin as <-. by rewrite Et.
    + exfalso. destruct (List.filter _ _) as [|x l] eqn:Ef; [|done].
      assert (Hin : (comp_id, comp) ∈ List.filter (λ kc : Z * KyorugiCompetition, String.eqb (kc_public_id kc.2) (kc_public_id comp))
                (rows_by_id (db_competitions d))).
      { apply elem_of_filter_list. split; [by apply elem_of_rows_by_id|apply String.eqb_refl]. }
      rewrite Ef in Hin. set_solver.
  - rewrite numbers_complete, <- list_fmap_compose. split.
    + intros Hall k dr Hin. pose proof Hin as [Hd Hc]%elem_of_draws_of.
      apply Hall in Hd as ([k' dr'] & E & Hp)%list_elem_of_fmap; [|done]. cbn in E. subst k'.
      by apply elem_of_public_draws in Hp as (_ & _ & ?).
    + intros Hall k dr Hd Hc. apply list_elem_of_fmap. exists (k, dr). split; [done|].
      apply elem_of_public_draws. split_and!; [done..|]. apply (Hall k dr). by apply elem_of_draws_of.
Qed.

(** Numbering makes the bracket public. Once all weights of a competition are
    numbered and the bracket is published, the page shows every draw that has a real
    match, with numbers for all its matches other than byes. *)
Theorem numbering_shows_brackets {P} (d : DB P) cid ws cs d' now d'' k dr :
  number_matches_for_competition cid ws true d = (Ok cs, d') →
  (∀ k dr, db_draws d !! k = Some dr → dr_competition dr = cid → dr_weight_category dr ∈ ws) →
  numbering_publish_view cid false now d' = (Ok Published, d'') →
  db_draws d !! k = Some dr → dr_competition dr = cid → _has_real_match d' k = true →
  ∃ comp body, db_competitions d'' !! cid = Some comp ∧ kyorugi_bracket d'' cid comp = Some body ∧ k ∈ body.*1.
Proof.
  intros Hrun Hcover Hpub Hdr Hc Hreal.
  assert (Hacc : ∃ cs d', number_matches_for_competition cid ws true d = (Ok cs, d')) by eauto.
  apply numbering_accepted in Hacc as (_ & _ & Hmats & _).
  assert (Hsame : db_draws d' = db_draws d).
  { pose proof Hrun as [_ ->]%number_matches_ok. pose proof (final_tables d cid ws true) as Ht.
    unfold other_tables in Ht. by injection Ht. }
  assert (Hsafe : has_unsafe_match d' k = false).
  { apply not_true_iff_false. intros (i & m & Hm & Hk & Hb & Hn)%unsafe_match.
    destruct (proj1 (weight_has_mat d cid (dr_weight_category dr))) as [mat Hmat]; [by apply Hmats, (Hcover k)|].
    assert (Hf : fought_on d cid ws mat m) by (exists dr; rewrite Hk; eauto).
    destruct (numbered_iff d cid ws cs d' mat i m Hrun Hm Hf) as [Hiff _].
    apply Hiff; [|done]. rewrite Hk. split; [done|]. intros [_ ?]. congruence. }
  unfold numbering_publish_view in Hpub.
  destruct (db_competitions d' !! cid) as [comp|] eqn:Ecomp; [|done]. destruct (has_unnumbered d' cid); [done|].
  set (comp' := if is_none (kc_bracket_published_at comp) then set_kc_bracket_published_at (Some now) comp else comp).
  assert (Ht : db_competitions d'' !! cid = Some comp' ∧ db_draws d'' = db_draws d' ∧ db_matches d'' = db_matches d' ∧
    kc_bracket_published_at comp' ≠ None).
  { subst comp'. injection Hpub as <-. destruct (kc_bracket_published_at comp) as [t|] eqn:Et; cbn.
    - by rewrite Et.
    - by rewrite lookup_insert_eq. }
  destruct Ht as (Hcomp & Hds & Hms & Hpa).
  assert (Hin : (k, dr) ∈ public_draws d'' cid).
  { apply elem_of_public_draws. rewrite Hds, Hsame. split_and!; [done..|]. unfold has_unsafe_match in *. by rewrite Hms. }
  assert (Hin' : (k, dr) ∈ draws_of d'' cid) by (apply elem_of_draws_of; by rewrite Hds, Hsame).
  exists comp', (with_matches d'' <$> public_draws d'' cid). split; [done|]. unfold kyorugi_bracket.
  destruct (kc_bracket_published_at comp') as [t|]; [|done]. cbn [is_none].
  rewrite (bool_decide_false (length (draws_of d'' cid) = 0%nat)) by (intros E%nil_length_inv; rewrite E in Hin'; set_solver).
  rewrite (bool_decide_false (length (public_draws d'' cid) = 0%nat)) by (intros E%nil_length_inv; rewrite E in Hin; set_solver).
  split; [done|]. rewrite <- list_fmap_compose. apply list_elem_of_fmap. by exists (k, dr).
Qed.

(** ** Seminars *)

(** The list and the sidebar admit a role to the same seminars. *)
Lemma roles_agree role s : truthy_str role = true → role ∉ ["club"; "heyat"]%string → listed_for role s = role_ok role s.
Proof.
  intros Ht Hn. unfold listed_for, role_ok. rewrite Ht, bool_decide_false by done. cbn [andb negb]. f_equal.
  destruct (String.eqb role "both"); [|done]. cbn. by rewrite orb_false_r.
Qed.

(** ** Witnesses and examples *)

Definition sample_approvals : gmap Z CoachApproval := {[ 1 := mkCoachApproval 5 20 (Some "123456"%string) true true 0 ]}.

Lemma player_dashboard_shows_witness :
  KyorugiComp 5 ∈ dashboard_all sample_login (λ _, None) (λ _ _, false) (λ _, 0) sample_approvals ∅ eligibility_db 7 true 5.
Proof.
  destruct (player_dashboard_shows sample_login (λ _, None) (λ _ _, false) (λ _, 0) sample_approvals ∅ eligibility_db 7 10
    (mkUserProfile "p" "x" false "player" "male" (Some 30) (Some 20) (Some 40) 0 0 0 0 0) 20 true 5
    ltac:(vm_compute; reflexivity) eq_refl eq_refl) as (_ & _ & Hk & _).
  apply Hk. exists sample_comp. split; [reflexivity|]. split; [apply approved_comp_iff; vm_compute; reflexivity|]. intros _. vm_compute. reflexivity.
Defined.

Definition published_run : DB unit := (numbering_publish_view 5 false 77 sample_run).2.

Lemma published_sample : numbering_publish_view 5 false 77 sample_run = (Ok Published, published_run).
Proof. vm_compute. reflexivity. Qed.

Lemma sample_covered k dr : db_draws (sample_draws one_mat) !! k = Some dr → dr_competition dr = 5 →
  dr_weight_category dr ∈ [1; 2].
Proof.
  intros Hk _. change (db_draws (sample_draws one_mat)) with
    ({[ 1 := mkDraw 5 "male" (Some 1) 1 1 4 1 "" false 0;
        2 := mkDraw 5 "male" (Some 1) 1 2 4 1 "" false 0 ]} : gmap Z Draw) in Hk.
  apply lookup_insert_Some in Hk as [[_ <-]|[_ Hk]]; [set_solver|].
  apply lookup_singleton_Some in Hk as [_ <-]. set_solver.
Qed.

Lemma numbering_shows_brackets_witness :
  ∃ comp body, db_competitions published_run !! 5 = Some comp ∧ kyorugi_bracket published_run 5 comp = Some body ∧ 1 ∈ body.*1.
Proof.
  refine (numbering_shows_brackets (sample_draws one_mat) 5 [1; 2] _ sample_run 77 published_run 1
    (mkDraw 5 "male" (Some 1) 1 1 4 1 "" false 0) sample_run_ok sample_covered published_sample eq_refl eq_refl _).
  vm_compute. reflexivity.
Defined.

Lemma shown_brackets_are_numbered_witness :
  ∃ comp body, db_competitions published_run !! 5 = Some comp ∧ kyorugi_bracket published_run 5 comp = Some body ∧
    public_bracket_view published_run (kc_public_id comp) = Some body.
Proof.
  assert (Hs : ∃ comp body, db_competitions published_run !! 5 = Some comp ∧ kyorugi_bracket published_run 5 comp = Some body).
  { do 2 eexists. split; vm_compute; reflexivity. }
  destruct Hs as (comp & body & Hc & Hb). exists comp, body. split; [exact Hc|]. split; [exact Hb|].
  refine (proj1 (proj2 (proj2 (shown_brackets_are_numbered published_run 5 comp body Hc _ Hb)))).
  intros k c Hk _.
  assert (Hdom : map_Forall (λ k _, k = 5) (db_competitions published_run)).
  { refine (bool_decide_unpack _ _). vm_compute. exact I. }
  exact (Hdom k c Hk).
Defined.
