(* ===== verification/Reports.v ===== *)
(** The reports of the staff: [reports/services.py], with the dates of its forms in
    [reports/forms.py].

    The services look for columns by name so that they fit several schemas; here each
    search is resolved for the models of this repository.  What exists: role, coach,
    club, national_code, belt_grade, phone, tkd_board, created_at and birth_date of
    [UserProfile], tkd_board and created_at of [TkdClub], player and medal of
    [Enrollment].  No model links a ranking to a player, so the ranking columns are
    computed from medals.  The days on which profiles and clubs were created are
    arguments. *)

From Stdlib Require Import Ascii Btauto.
From stdpp Require Import pretty.
From S2P Require Import Prelude Store Points Ranking Payments GroupRegistration Text Dates Eligibility Accounts.
Local Open Scope Z_scope.

(** ** Dates of the forms *)

(** [_fa_to_en], and [_to_en] of the forms, which knows the Persian digits only. *)
Definition _fa_to_en (s : string) : string := _to_en_digits s.
Definition _to_en (s : string) : string := foldl (λ t kv, replace kv.1 kv.2 t) s (take 10 digit_pairs).

(** [s.zfill(2)] of a text without minus signs. *)
Definition zfill2 (s : string) : string :=
  if 2 <=? py_len s then s else if String.eqb s "+" then "+0" else if truthy_str s then ("0" ++ s)%string else "00".

Definition dashes (s : string) : string := foldl (λ t sep, replace sep "-" t) s ["/"; "."; "–"; "—"; "−"]%string.

Definition padded (s : string) : string :=
  match List.filter truthy_str (split_on "-" s) with
  | [y; m; d] => (y ++ "-" ++ zfill2 m ++ "-" ++ zfill2 d)%string
  | _ => s
  end.

(** [_norm_date_str] and [_norm_date] *)
Definition _norm_date_str (s : string) : string := padded (dashes (strip (_fa_to_en s))).
Definition _norm_date (s : string) : string := padded (dashes (strip (_to_en s))).

Definition three_ints (s : string) : option (Z * Z * Z) :=
  match split_on "-" s with
  | [y; m; d] => y ← py_int y; m ← py_int m; d ← py_int d; Some (y, m, d)
  | _ => None
  end.

(** [_to_gdate_from_any], on text, and [_jstr_to_gdate]. *)
Definition _to_gdate_from_any (jalali : Z → Z → Z → option date) (v : string) : option date :=
  let s := _norm_date_str v in
  if negb (truthy_str s) || negb (contains "-" s) then None
  else
    match three_ints s with
    | Some (y, m, d) => if 1600 <=? y then make_date y m d else jalali y m d
    | None => None
    end.

Definition _jstr_to_gdate (jalali : Z → Z → Z → option date) (s : string) : option date :=
  match three_ints (_norm_date s) with Some (y, m, d) => jalali y m d | None => None end.

(** The end of [DateRangeForm.clean]: without dates the last thirty days, and the two
    dates in their order. *)
Definition clean_range (start stop : option Z) (today : Z) : option Z * option Z :=
  match start, stop with
  | None, None => (Some (today - 30), Some today)
  | Some s, Some e => if e <? s then (Some e, Some s) else (Some s, Some e)
  | _, _ => (start, stop)
  end.

(** [_date_filter_kwargs] on a day. *)
Definition in_range (start stop : option Z) (day : Z) : bool :=
  match start with Some s => s <=? day | None => true end && match stop with Some e => day <=? e | None => true end.

(** ** Roles *)

Definition ROLE_VALUES (bucket : string) : list string :=
  if String.eqb bucket "player" then ["player"; "athlete"; "بازیکن"]%string
  else if String.eqb bucket "coach" then ["coach"; "مربی"; "coach_referee"; "both"]%string
  else if String.eqb bucket "referee" then ["referee"; "داور"; "coach_referee"; "both"]%string
  else if String.eqb bucket "club" then ["club"; "باشگاه"]%string else [].

(** [iexact], for which only ASCII letters have a case here. *)
Definition text_iexact (a b : string) : bool := String.eqb (lower a) (lower b).
Definition has_role (bucket role : string) : bool := existsb (text_iexact role) (ROLE_VALUES bucket).

(** [_role_counts] *)
Record role_counts := mkRoleCounts {
  rc_player : Z;
  rc_coach : Z;
  rc_referee : Z;
  rc_club : Z;
}.

Definition role_of (kr : Z * Profile) : string := pe_role (pf_person kr.2).

Definition _role_counts (qs : list (Z * Profile)) : role_counts :=
  let count := λ bucket, zlen (List.filter (λ kr, has_role bucket (role_of kr)) qs) in
  mkRoleCounts (count "player"%string) (count "coach"%string) (count "referee"%string) (count "club"%string).

(** [values("role").annotate(c=Count("id")).order_by("-c")] *)
Definition by_role (qs : list (Z * Profile)) : list (string * Z) :=
  sort_by (λ a b, b.2 <=? a.2)
    ((λ r, (r, zlen (List.filter (λ kr, String.eqb (role_of kr) r) qs))) <$> remove_dups (role_of <$> qs)).

(** ** The summary of users *)

Record users_figures := mkUsersFigures {
  uf_total : Z;
  uf_by_role : list (string * Z);
  uf_total_all : Z;
  uf_all : role_counts;
  uf_new_last7_total : Z;
  uf_new_last7 : role_counts;
}.

Definition with_clubs (clubs : Z) (c : role_counts) : role_counts :=
  mkRoleCounts (rc_player c) (rc_coach c) (rc_referee c) clubs.

Section reports.
Context (profile_created club_created : Z → Z) (enrollments : gmap Z Enrollment).

Definition users_summary (s : accounts) (start stop : option Z) (today : Z) : users_figures :=
  let all_qs := rows_by_id (ac_profiles s) in
  let range_qs := List.filter (λ kr, in_range start stop (profile_created kr.1)) all_qs in
  let clubs := rows_by_id (ac_clubs s) in
  let last7 := in_range (Some (today - 7)) (Some today) in
  let last7_clubs := zlen (List.filter (λ kc, last7 (club_created kc.1)) clubs) in
  let last7_qs := List.filter (λ kr, last7 (profile_created kr.1)) all_qs in
  let last7_counts := _role_counts last7_qs in
  mkUsersFigures (zlen range_qs) (by_role range_qs) (zlen all_qs) (with_clubs (zlen clubs) (_role_counts all_qs))
    (zlen last7_qs) (if last7_clubs =? 0 then last7_counts else with_clubs last7_clubs last7_counts).

(** ** Belts *)

(** [_norm]: one space between words, without half spaces and madda. *)
Fixpoint spaces (s : string) : string :=
  match s with
  | EmptyString => EmptyString
  | String c s' => String (if is_space c then " "%char else c) (spaces s')
  end.
Definition words (s : string) : string := String.concat " " (List.filter truthy_str (split_on " " (spaces s))).

Definition _norm (s : string) : string :=
  words (replace (mark 140) "" (replace "آ" "ا" (replace "ك" "ک" (replace "ي" "ی" (lower (strip s)))))).

Definition BELT_CHOICES : list string := ["سفید"; "زرد"; "سبز"; "آبی"; "قرمز"]%string ++ dan_belts.

(** [_apply_belt_filter] for the text of a form: without a choice of that name nothing
    is filtered. *)
Definition _apply_belt_filter (belt : string) (players : list (Z * Profile)) : list (Z * Profile) :=
  if negb (truthy_str belt) then players
  else
    let keys := List.filter (λ k, String.eqb (_norm k) (_norm belt)) BELT_CHOICES in
    if bool_decide (length keys = 0%nat) then players
    else List.filter (λ kr, bool_decide (pe_belt_grade (pf_person kr.2) ∈ keys)) players.

(** [_belt_text] *)
Definition _belt_text (p : Profile) : string :=
  let b := pe_belt_grade (pf_person p) in if bool_decide (b ∈ BELT_CHOICES) then b else "".

(** ** Medals and rankings *)

Definition MEDAL_STRINGS (m : string) : list string :=
  if String.eqb m "gold" then ["gold"; "طلایی"; "طلا"; "۱"; "1"]%string
  else if String.eqb m "silver" then ["silver"; "نقره‌ای"; "نقره"; "۲"; "2"]%string
  else if String.eqb m "bronze" then ["bronze"; "برنزی"; "برنز"; "۳"; "3"]%string else [].

Definition entries_of (pid : Z) : list (Z * Enrollment) :=
  List.filter (λ ke, en_player ke.2 =? pid) (rows_by_id enrollments).

(** [_medals_for_player]: among the entries; the result models have no player. *)
Definition medal_count (pid : Z) (m : string) : Z :=
  zlen (List.filter (λ ke, existsb (text_iexact (en_medal ke.2)) (MEDAL_STRINGS m)) (entries_of pid)).
Definition _medals_for_player (pid : Z) : Z * Z * Z :=
  (medal_count pid "gold", medal_count pid "silver", medal_count pid "bronze").

(** [_rankings_for_player]: no ranking model and no ranking column is found, so the last
    resort applies. *)
Definition _rankings_for_player (pid : Z) : Z * Z :=
  let '(g, s, b) := _medals_for_player pid in
  let comp_pts := g * 4 + s * 3 + b * 2 in (comp_pts, comp_pts).

(** ** Lists of students *)

(** [UserProfile.__str__] and [TkdClub.__str__] *)
Definition person_name (p : Person) : string := strip (pe_first_name p ++ " " ++ pe_last_name p)%string.
Definition str_profile (k : Z) (p : Profile) : string :=
  or_str (person_name (pf_person p)) (or_str (pe_phone (pf_person p)) ("کاربر #" ++ pretty k)%string).
Definition str_club (k : Z) (c : Club) : string := or_str (strip (cd_club_name (cb_data c))) ("باشگاه #" ++ pretty k)%string.

Definition row_full_name (k : Z) (p : Profile) : string := or_str (person_name (pf_person p)) (str_profile k p).

Definition row_club_name (s : accounts) (p : Profile) : string :=
  default ""%string (c ← pe_club (pf_person p); str_club c <$> ac_clubs s !! c).
Definition row_coach_name (s : accounts) (p : Profile) : string :=
  default ""%string (c ← pe_coach (pf_person p);
    (λ coach, or_str (person_name (pf_person coach)) (or_str (pe_coach_name (pf_person coach)) (str_profile c coach)))
      <$> ac_profiles s !! c).

(** A row of the three lists: the third name is the club or the coach. *)
Record student_row := mkStudentRow {
  sw_id : Z;
  sw_full_name : string;
  sw_belt : string;
  sw_national_code : string;
  sw_relation : string;
  sw_birth_date : string;
  sw_competitions : Z;
  sw_medals : Z * Z * Z;
  sw_rank : Z * Z;
}.

Definition student_row_of (relation : Profile → string) (kr : Z * Profile) : student_row :=
  mkStudentRow kr.1 (row_full_name kr.1 kr.2) (_belt_text kr.2) (pe_national_code (pf_person kr.2)) (relation kr.2)
    (pe_birth_date (pf_person kr.2)) (zlen (entries_of kr.1)) (_medals_for_player kr.1) (_rankings_for_player kr.1).

Definition by_coach (coach : Z) (kr : Z * Profile) : bool := bool_decide (pe_coach (pf_person kr.2) = Some coach).
Definition in_club (club : Z) (kr : Z * Profile) : bool := bool_decide (pe_club (pf_person kr.2) = Some club).
Definition has_code (code : string) (kr : Z * Profile) : bool := text_iexact (pe_national_code (pf_person kr.2)) code.
Definition players (qs : list (Z * Profile)) : list (Z * Profile) := List.filter (λ kr, has_role "player" (role_of kr)) qs.

(** An id of zero filters as little as none. *)
Definition if_id (o : option Z) (p : Z → Z * Profile → bool) (qs : list (Z * Profile)) : list (Z * Profile) :=
  match o with Some k => if k =? 0 then qs else List.filter (p k) qs | None => qs end.
Definition if_code (code : string) (qs : list (Z * Profile)) : list (Z * Profile) :=
  if truthy_str code then List.filter (has_code code) qs else qs.

(** [_students_qs_by_user_coach] *)
Definition _students_qs_by_user_coach (s : accounts) (coach : Z) : list (Z * Profile) :=
  List.filter (by_coach coach) (rows_by_id (ac_profiles s)).

Definition coach_students_qs (s : accounts) (coach : option Z) (belt : string) (club : option Z) (code : string)
    : list (Z * Profile) :=
  if negb (truthy_id coach) then []
  else if_code code (if_id club in_club (_apply_belt_filter belt
         (players (_students_qs_by_user_coach s (default 0 coach))))).

Definition club_students_qs (s : accounts) (club : option Z) (belt : string) (coach : option Z) (code : string)
    : list (Z * Profile) :=
  if negb (truthy_id club) then []
  else if_code code (if_id coach by_coach (_apply_belt_filter belt
         (players (List.filter (in_club (default 0 club)) (rows_by_id (ac_profiles s)))))).

(** [_clubs_qs_for_board] *)
Definition _clubs_qs_for_board (s : accounts) (board : Z) : list Z :=
  (List.filter (λ kc, bool_decide (cd_tkd_board (cb_data kc.2) = Some board)) (rows_by_id (ac_clubs s))).*1.

Definition board_students_qs (s : accounts) (board : option Z) (belt : string) (coach club : option Z) (code : string)
    : list (Z * Profile) :=
  if negb (truthy_id board) && negb (truthy_id club) then []
  else
    let club_ids := if truthy_id club then [default 0 club] else _clubs_qs_for_board s (default 0 board) in
    if_code code (if_id coach by_coach (_apply_belt_filter belt
      (players (List.filter (λ kr, existsb (λ c, in_club c kr) club_ids) (rows_by_id (ac_profiles s)))))).

(** [coach_students], [club_students] and [board_students] *)
Definition coach_students (s : accounts) coach belt club code : list student_row :=
  student_row_of (row_club_name s) <$> coach_students_qs s coach belt club code.
Definition club_students (s : accounts) club belt coach code : list student_row :=
  student_row_of (row_coach_name s) <$> club_students_qs s club belt coach code.
Definition board_students (s : accounts) board belt coach club code : list student_row :=
  student_row_of (row_coach_name s) <$> board_students_qs s board belt coach club code.

(** ** Coaches and referees of a board *)

(** [_role_combo] *)
Definition _role_combo (role : string) : string :=
  let combined := bool_decide (lower role ∈ ["coach_referee"; "both"; "مربی/داور"; "coach-referee"]%string) in
  let coach := combined || has_role "coach" (strip role) in
  let ref := combined || has_role "referee" (strip role) in
  if coach && ref then "مربی/داور" else if coach then "مربی" else if ref then "داور" else "—".

(** [_clubs_list_for_profile]: a set of names. *)
Definition _clubs_list_for_profile (s : accounts) (p : Profile) : gset string :=
  list_to_set (List.filter truthy_str
    (omap (λ c, str_club c <$> ac_clubs s !! c) (option_list (pe_club (pf_person p)) ++ elements (pf_coaching_clubs p)))).

Definition _players_count_for_person (s : accounts) (k : Z) : Z := zlen (_students_qs_by_user_coach s k).

Record official_row := mkOfficialRow {
  ow_id : Z;
  ow_full_name : string;
  ow_role_label : string;
  ow_national_code : string;
  ow_phone : string;
  ow_club_names : gset string;
  ow_players_count : Z;
  ow_medals : Z * Z * Z;
  ow_rank_total : Z;
}.

(** The roles a report asks for, both when none is named. *)
Definition role_asked (role : option string) (kr : Z * Profile) : bool :=
  match role with
  | Some r => has_role r (role_of kr)
  | None => has_role "coach" (role_of kr) || has_role "referee" (role_of kr)
  end.

Definition name_le (a b : Z * Profile) : bool :=
  let x := pf_person a.2 in let y := pf_person b.2 in
  if negb (String.eqb (pe_last_name x) (pe_last_name y)) then String.leb (pe_last_name x) (pe_last_name y)
  else if negb (String.eqb (pe_first_name x) (pe_first_name y)) then String.leb (pe_first_name x) (pe_first_name y)
  else a.1 <=? b.1.

(** [board_coaches_referees] *)
Definition board_coaches_referees (s : accounts) (board : option Z) (role : option string) (club : option Z) (code : string)
    : list official_row :=
  let base :=
    if truthy_id club then List.filter (in_club (default 0 club)) (rows_by_id (ac_profiles s))
    else if truthy_id board
         then List.filter (λ kr, bool_decide (pe_tkd_board (pf_person kr.2) = board)) (rows_by_id (ac_profiles s))
         else [] in
  (λ kr : Z * Profile,
     mkOfficialRow kr.1 (row_full_name kr.1 kr.2) (_role_combo (role_of kr)) (pe_national_code (pf_person kr.2))
       (pe_phone (pf_person kr.2)) (_clubs_list_for_profile s kr.2) (_players_count_for_person s kr.1)
       (_medals_for_player kr.1) (_rankings_for_player kr.1).2)
    <$> sort_by name_le (if_code code (List.filter (role_asked role) base)).

(** [list_coaches_qs] *)
Definition list_coaches_qs (s : accounts) : list (Z * Profile) :=
  List.filter (λ kr, has_role "coach" (role_of kr)) (rows_by_id (ac_profiles s)).
End reports.

(** ** Correctness *)

Definition ROLE_CHOICES : list string := ["player"; "coach"; "referee"; "both"]%string.

Lemma role_cases r : r ∈ ROLE_CHOICES → r = "player"%string ∨ r = "coach"%string ∨ r = "referee"%string ∨ r = "both"%string.
Proof. unfold ROLE_CHOICES. set_solver. Qed.

Lemma zlen_cons {A} (x : A) l : zlen (x :: l) = 1 + zlen l.
Proof. unfold zlen. cbn [length]. lia. Qed.

Lemma zlen_filter_cons {A} (p : A → bool) x l : zlen (List.filter p (x :: l)) = Z.b2z (p x) + zlen (List.filter p l).
Proof. cbn. destruct (p x); [by rewrite zlen_cons|done]. Qed.

Lemma zlen_filter_le {A} (p : A → bool) l : zlen (List.filter p l) ≤ zlen l.
Proof. unfold zlen. pose proof (List.filter_length_le p l). lia. Qed.

Lemma role_buckets r : r ∈ ROLE_CHOICES →
  Z.b2z (has_role "player" r) + Z.b2z (has_role "coach" r) + Z.b2z (has_role "referee" r) = 1 + Z.b2z (String.eqb r "both").
Proof. intros [-> |[-> |[-> | ->]]]%role_cases; vm_compute; reflexivity. Qed.

Lemma role_counts_add_up l : (∀ kr, kr ∈ l → role_of kr ∈ ROLE_CHOICES) →
  rc_player (_role_counts l) + rc_coach (_role_counts l) + rc_referee (_role_counts l) =
  zlen l + zlen (List.filter (λ kr, String.eqb (role_of kr) "both") l).
Proof.
  unfold _role_counts. cbn [rc_player rc_coach rc_referee]. induction l as [|x l IH]; intros Hl; [done|].
  specialize (IH ltac:(intros; apply Hl; by right)). rewrite !zlen_filter_cons, zlen_cons.
  pose proof (role_buckets (role_of x) (Hl x ltac:(by left))). lia.
Qed.

(** Counting by the values of a key counts everything. *)
Lemma indicator_none (ks : list string) x : x ∉ ks → sumZ ((λ k, Z.b2z (String.eqb x k)) <$> ks) = 0.
Proof.
  induction ks as [|y ks IH]; intros Hx; [done|]. rewrite fmap_cons, sumZ_cons, IH by set_solver.
  destruct (String.eqb_spec x y) as [->|]; [set_solver|done].
Qed.

Lemma indicator_sum (ks : list string) x : NoDup ks → x ∈ ks → sumZ ((λ k, Z.b2z (String.eqb x k)) <$> ks) = 1.
Proof.
  induction 1 as [|k ks Hk Hnd IH]; [set_solver|]. intros Hx. rewrite fmap_cons, sumZ_cons.
  destruct (String.eqb_spec x k) as [->|Hne]; [by rewrite indicator_none|]. rewrite IH by set_solver. done.
Qed.

Lemma counts_sum {A} (f : A → string) (ks : list string) l : NoDup ks → (∀ x, x ∈ l → f x ∈ ks) →
  sumZ ((λ k, zlen (List.filter (λ x, String.eqb (f x) k) l)) <$> ks) = zlen l.
Proof.
  intros Hnd. induction l as [|x l IH]; intros Hl.
  - clear. induction ks as [|k ks IH]; [done|]. rewrite fmap_cons, sumZ_cons, IH. done.
  - rewrite zlen_cons, <- (IH ltac:(intros; apply Hl; by right)), <- (indicator_sum ks (f x) Hnd (Hl x ltac:(by left))).
    clear. induction ks as [|k ks IH]; [done|]. rewrite !fmap_cons, !sumZ_cons, zlen_filter_cons, IH. lia.
Qed.

Lemma by_role_sum qs : sumZ (snd <$> by_role qs) = zlen qs.
Proof.
  unfold by_role. rewrite (sumZ_perm _ _ (fmap_Permutation snd _ _ (sort_by_perm _ _))), <- list_fmap_compose.
  apply (counts_sum role_of); [apply NoDup_remove_dups|]. intros x Hx. apply elem_of_remove_dups, list_elem_of_fmap. by exists x.
Qed.

Lemma elem_of_by_role qs r n : (r, n) ∈ by_role qs ↔
  0 < n ∧ n = zlen (List.filter (λ kr, String.eqb (role_of kr) r) qs).
Proof.
  unfold by_role. rewrite sort_by_perm, list_elem_of_fmap. setoid_rewrite elem_of_remove_dups. split.
  - intros (r' & [= <- ->] & (kr & -> & Hin)%list_elem_of_fmap). split; [|done].
    assert (Hk : kr ∈ List.filter (λ x, String.eqb (role_of x) (role_of kr)) qs).
    { apply elem_of_filter_list. by rewrite String.eqb_refl. }
    destruct (List.filter _ qs); [set_solver|]. unfold zlen. cbn [length]. lia.
  - intros [Hn ->]. exists r. split; [done|].
    destruct (List.filter (λ kr, String.eqb (role_of kr) r) qs) as [|x l] eqn:Ef; [done|].
    assert (Hx : x ∈ List.filter (λ kr, String.eqb (role_of kr) r) qs) by (rewrite Ef; by left).
    apply elem_of_filter_list in Hx as [Hin E%String.eqb_eq]. apply list_elem_of_fmap. by exists x.
Qed.

(** The figures of the users report add up. With the roles of the model, players,
    coaches and referees are all profiles, those who are both counted twice; the counts
    by role are those of the roles that occur among the profiles of the period, largest
    first, and add up to their number; clubs are counted in their own table; and no
    period holds more profiles than there are. *)
Theorem role_figures_add_up profile_created club_created s start stop today :
  (∀ k p, ac_profiles s !! k = Some p → pe_role (pf_person p) ∈ ROLE_CHOICES) →
  let f := users_summary profile_created club_created s start stop today in
  let in_period := List.filter (λ kr : Z * Profile, in_range start stop (profile_created kr.1)) (rows_by_id (ac_profiles s)) in
  rc_player (uf_all f) + rc_coach (uf_all f) + rc_referee (uf_all f) =
    uf_total_all f + zlen (List.filter (λ kr, String.eqb (role_of kr) "both") (rows_by_id (ac_profiles s))) ∧
  rc_club (uf_all f) = Z.of_nat (size (ac_clubs s)) ∧ uf_total_all f = Z.of_nat (size (ac_profiles s)) ∧
  (∀ r n, (r, n) ∈ uf_by_role f ↔ 0 < n ∧ n = zlen (List.filter (λ kr, String.eqb (role_of kr) r) in_period)) ∧
  StronglySorted (λ a b, b.2 ≤ a.2) (uf_by_role f) ∧ sumZ (snd <$> uf_by_role f) = uf_total f ∧
  uf_total f ≤ uf_total_all f ∧ uf_new_last7_total f ≤ uf_total_all f.
Proof.
  intros Hroles. cbn zeta.
  assert (Hl : ∀ kr, kr ∈ rows_by_id (ac_profiles s) → role_of kr ∈ ROLE_CHOICES).
  { intros [k p] Hin%elem_of_rows_by_id. by eapply Hroles. }
  assert (Hsize : ∀ A (t : gmap Z A), zlen (rows_by_id t) = Z.of_nat (size t)).
  { intros A t. unfold zlen. by rewrite (Permutation_length (rows_by_id_perm t)), length_map_to_list. }
  unfold users_summary. cbn [uf_all uf_total_all uf_by_role uf_total uf_new_last7_total with_clubs rc_player rc_coach rc_referee rc_club].
  split_and!.
  - by apply role_counts_add_up.
  - apply Hsize.
  - apply Hsize.
  - intros r n. apply elem_of_by_role.
  - unfold by_role. eapply StronglySorted_weaken; [|apply sort_by_sorted]; cbn; intros *; rewrite ?Z.leb_le; lia.
  - apply by_role_sum.
  - apply zlen_filter_le.
  - apply zlen_filter_le.
Qed.

(** ** The lists of students *)

Lemma elem_of_kept {A} (p : A → bool) (b : bool) l x : x ∈ (if b then List.filter p l else l) ↔ x ∈ l ∧ (b = true → p x = true).
Proof. destruct b; [rewrite elem_of_filter_list|]; naive_solver. Qed.

(** Every filter of the reports is a filter by one predicate. *)
Definition belt_kept (belt : string) (kr : Z * Profile) : bool :=
  negb (truthy_str belt) ||
  (let keys := List.filter (λ k, String.eqb (_norm k) (_norm belt)) BELT_CHOICES in
   bool_decide (length keys = 0%nat) || bool_decide (pe_belt_grade (pf_person kr.2) ∈ keys)).
Definition id_kept (o : option Z) (p : Z → Z * Profile → bool) (kr : Z * Profile) : bool :=
  match o with Some k => (k =? 0) || p k kr | None => true end.
Definition code_kept (code : string) (kr : Z * Profile) : bool := negb (truthy_str code) || has_code code kr.

Lemma filter_true {A} (l : list A) : List.filter (λ _, true) l = l.
Proof. by apply filter_all. Qed.

Lemma belt_filter belt l : _apply_belt_filter belt l = List.filter (belt_kept belt) l.
Proof.
  unfold _apply_belt_filter, belt_kept. destruct (truthy_str belt); cbn [negb orb]; [|by rewrite filter_true].
  cbn zeta. destruct (bool_decide (length _ = 0%nat)); cbn [orb]; [by rewrite filter_true|done].
Qed.

Lemma id_filter o p l : if_id o p l = List.filter (id_kept o p) l.
Proof.
  unfold if_id, id_kept. destruct o as [k|]; [|by rewrite filter_true]. destruct (k =? 0); cbn [orb]; [by rewrite filter_true|done].
Qed.

Lemma code_filter code l : if_code code l = List.filter (code_kept code) l.
Proof. unfold if_code, code_kept. destruct (truthy_str code); cbn [negb orb]; [done|by rewrite filter_true]. Qed.

Lemma filter_twice {A} (p q : A → bool) l : List.filter p (List.filter q l) = List.filter (λ x, q x && p x) l.
Proof.
  induction l as [|x l IH]; [done|]. cbn. destruct (q x); cbn; [destruct (p x)|]; by rewrite IH.
Qed.

Create HintDb report_filters discriminated.
#[local] Hint Rewrite belt_filter id_filter code_filter @filter_twice : report_filters.

Lemma truthy_some o : truthy_id o = true → ∃ k, o = Some k ∧ k ≠ 0.
Proof. destruct o as [k|]; cbn; [|done]. rewrite negb_true_iff, Z.eqb_neq. eauto. Qed.

(** The one condition behind the three lists. *)
Definition student_kept (belt : string) (coach club : option Z) (code : string) (kr : Z * Profile) : bool :=
  has_role "player" (role_of kr) && belt_kept belt kr && id_kept coach by_coach kr && id_kept club in_club kr && code_kept code kr.

Lemma coach_list_filter s coach belt club code : truthy_id coach = true →
  coach_students_qs s coach belt club code = List.filter (student_kept belt coach club code) (rows_by_id (ac_profiles s)).
Proof.
  intros Ht. unfold coach_students_qs. rewrite Ht. cbn [negb]. apply truthy_some in Ht as (c & -> & Hc). change (default 0 (Some c)) with c.
  unfold players, _students_qs_by_user_coach. autorewrite with report_filters. apply List.filter_ext. intros kr.
  unfold student_kept, id_kept. rewrite (proj2 (Z.eqb_neq c 0) Hc). cbn [orb].
  btauto.
Qed.

Lemma club_list_filter s club belt coach code : truthy_id club = true →
  club_students_qs s club belt coach code = List.filter (student_kept belt coach club code) (rows_by_id (ac_profiles s)).
Proof.
  intros Ht. unfold club_students_qs. rewrite Ht. cbn [negb]. apply truthy_some in Ht as (c & -> & Hc). change (default 0 (Some c)) with c.
  unfold players. autorewrite with report_filters. apply List.filter_ext. intros kr.
  unfold student_kept, id_kept. rewrite (proj2 (Z.eqb_neq c 0) Hc). cbn [orb].
  btauto.
Qed.

Lemma board_list_filter s board belt coach club code : truthy_id board = true ∨ truthy_id club = true →
  board_students_qs s board belt coach club code =
  List.filter (λ kr, existsb (λ c, in_club c kr) (if truthy_id club then [default 0 club] else _clubs_qs_for_board s (default 0 board))
                     && student_kept belt coach None code kr) (rows_by_id (ac_profiles s)).
Proof.
  intros Ht. unfold board_students_qs.
  assert (negb (truthy_id board) && negb (truthy_id club) = false) as -> by (destruct Ht as [-> | ->]; by rewrite ?andb_false_r).
  cbn zeta. unfold players. autorewrite with report_filters. apply List.filter_ext. intros kr.
  unfold student_kept, id_kept. btauto.
Qed.

Lemma elem_of_clubs_for_board s b c : c ∈ _clubs_qs_for_board s b ↔
  ∃ row, ac_clubs s !! c = Some row ∧ cd_tkd_board (cb_data row) = Some b.
Proof.
  unfold _clubs_qs_for_board. rewrite list_elem_of_fmap. split.
  - intros ([c' row] & -> & [Hin%elem_of_rows_by_id Hb%bool_decide_eq_true]%elem_of_filter_list). by exists row.
  - intros (row & Hc & Hb). exists (c, row). split; [done|]. apply elem_of_filter_list.
    split; [by apply elem_of_rows_by_id|by apply bool_decide_eq_true].
Qed.

(** The lists of students agree. For a coach and a club, the list of the coach
    restricted to the club, the list of the club restricted to the coach and the list of
    any board for this club and coach hold the same players in the same order; and the
    list of a board without a club holds exactly the players that the lists of its clubs
    hold, if no key is zero. *)
Theorem student_lists_agree s coach club board belt code :
  (∀ k row, ac_clubs s !! k = Some row → k ≠ 0) →
  (truthy_id coach = true → truthy_id club = true →
     coach_students_qs s coach belt club code = club_students_qs s club belt coach code ∧
     board_students_qs s board belt coach club code = club_students_qs s club belt coach code) ∧
  (∀ b kr, b ≠ 0 → kr ∈ board_students_qs s (Some b) belt coach None code ↔
     ∃ c row, ac_clubs s !! c = Some row ∧ cd_tkd_board (cb_data row) = Some b ∧
       kr ∈ club_students_qs s (Some c) belt coach code).
Proof.
  intros Hkeys. split.
  - intros Hco Hcl. rewrite coach_list_filter, club_list_filter, board_list_filter by auto. split; [done|].
    rewrite Hcl. apply truthy_some in Hcl as (c & -> & Hc). change (default 0 (Some c)) with c. apply List.filter_ext. intros kr.
    unfold student_kept, id_kept. rewrite (proj2 (Z.eqb_neq c 0) Hc). cbn [existsb orb]. rewrite orb_false_r.
    btauto.
  - intros b kr Hb. assert (Htb : truthy_id (Some b) = true) by (cbn; by apply negb_true_iff, Z.eqb_neq).
    rewrite board_list_filter by auto. cbn [truthy_id default]. rewrite elem_of_filter_list, andb_true_iff, existsb_exists.
    setoid_rewrite <- list_elem_of_In. setoid_rewrite elem_of_clubs_for_board.
    assert (Hclub : ∀ c row, ac_clubs s !! c = Some row → kr ∈ club_students_qs s (Some c) belt coach code ↔
      kr ∈ rows_by_id (ac_profiles s) ∧ in_club c kr = true ∧ student_kept belt coach None code kr = true).
    { intros c row Hc. apply Hkeys in Hc. rewrite club_list_filter by (cbn; by apply negb_true_iff, Z.eqb_neq).
      rewrite elem_of_filter_list. unfold student_kept, id_kept. rewrite (proj2 (Z.eqb_neq c 0) Hc). cbn [orb].
      rewrite !andb_true_iff. tauto. }
    split.
    + intros (Hin & (c & (row & Hc & Hbd) & Hi) & Hk). exists c, row. split_and!; [done..|]. by apply (Hclub c row Hc).
    + intros (c & row & Hc & Hbd & (Hin & Hi & Hk)%(Hclub c row Hc)). split; [done|]. split; [|done]. exists c. eauto.
Qed.

(** ** Witnesses and examples *)

(** A player in club 11 of board 5 with coach 2, who is also a referee, in club 12. *)
Definition report_person (first role belt : string) (club coach : option Z) : Person :=
  mkPerson first "x" "f" ("00" ++ first) "1380/01/01" "male" ("09" ++ first) role "" "" "" "" "" (Some 5) "" coach "" club []
    belt "" "" false None None false false None None false None None false None None true.

Definition report_accounts : accounts :=
  set_ac_profiles {[ 1 := mkProfile None (report_person "p" "player" "سبز" (Some 11) (Some 2)) ∅;
                     2 := mkProfile None (report_person "c" "both" "قرمز" (Some 12) None) {[ 11 ]} ]}%string
  (set_ac_clubs {[ 11 := mkClub (mkClubData "one" "" "" "" "" None "" "" "" (Some 5) "" "" "" "" "" true) None;
                   12 := mkClub (mkClubData "two" "" "" "" "" None "" "" "" (Some 6) "" "" "" "" "" true) None ]}%string
   empty_accounts).

Lemma role_figures_add_up_witness :
  let f := users_summary (λ _, 3) (λ _, 9) report_accounts (Some 1) (Some 5) 12 in
  rc_player (uf_all f) + rc_coach (uf_all f) + rc_referee (uf_all f) = uf_total_all f + 1 ∧ sumZ (snd <$> uf_by_role f) = uf_total f.
Proof.
  assert (Hr : ∀ k p, ac_profiles report_accounts !! k = Some p → pe_role (pf_person p) ∈ ROLE_CHOICES).
  { assert (Hall : map_Forall (λ _ p, pe_role (pf_person p) ∈ ROLE_CHOICES) (ac_profiles report_accounts)).
    { refine (bool_decide_unpack _ _). vm_compute. exact I. }
    exact Hall. }
  destruct (role_figures_add_up (λ _, 3) (λ _, 9) report_accounts (Some 1) (Some 5) 12 Hr) as (H1 & _ & _ & _ & _ & H2 & _).
  exact (conj H1 H2).
Defined.

Lemma student_lists_agree_witness :
  coach_students_qs report_accounts (Some 2) "" (Some 11) "" = club_students_qs report_accounts (Some 11) "" (Some 2) "".
Proof.
  refine (proj1 (proj1 (student_lists_agree report_accounts (Some 2) (Some 11) None "" "" _) eq_refl eq_refl)).
  assert (Hall : map_Forall (λ k _, k ≠ 0) (ac_clubs report_accounts)).
  { refine (bool_decide_unpack _ _). vm_compute. exact I. }
  exact Hall.
Defined.

(** The list of one coach, and the figures: the person who is both counts as coach and
    as referee. *)
Example report_of_coach :
  (λ r, (sw_full_name r, sw_belt r, sw_relation r, sw_rank r)) <$>
    coach_students {[ 100 := mkEnrollment 5 1 None "" "" None "" None "" None None (b64_of_Z 55) "" 0 "paid" true 0 "" None "gold" None 0 0 false false ]}
      report_accounts (Some 2) "سبز" None "" = [("p x", "سبز", "one", (4, 4))]%string ∧
  uf_all (users_summary (λ _, 3) (λ _, 9) report_accounts None None 12) = mkRoleCounts 1 1 1 2.
Proof. split; vm_compute; reflexivity. Qed.

(** A belt that is no choice does not filter at all. *)
Example unknown_belt_filters_nothing :
  (coach_students_qs report_accounts (Some 2) "بنفش" None "").*1 = [1] ∧
  (coach_students_qs report_accounts (Some 2) "قرمز" None "").*1 = [].
Proof. split; vm_compute; reflexivity. Qed.

Example dates_of_forms :
  _norm_date_str "۱۴۰۲/۴/۵" = "1402-04-05"%string ∧ _norm_date_str "1402.4.5" = "1402-04-05"%string ∧
  _to_gdate_from_any (λ _ _ _, None) "2024/5/1" = Some (mkDate 2024 5 1).
Proof. split_and!; vm_compute; reflexivity. Qed.
