(* ===== verification/Applications.v ===== *)
(** Applications ([src/accounts/views.py] and [serializers.py]): the forms with which
    players, coaches and clubs ask to be registered and members ask for a change of their
    profile.

    A form holds what the REST framework hands over for the plain columns: texts are
    trimmed, flags are read and the checks that follow from one column (presence, length,
    choices) are done.  Keys of related rows are the posted texts.  [refereeTypes] and
    [selectedClubs], which the views take apart themselves, are what [json.loads] makes of
    the posted text, whatever JSON that is; a number that is no integer stands there as its
    truth value, which is all that counts of it.  Of an uploaded file only its size and name
    matter here.  On MySQL [set] of a many-to-many relation leaves out keys without a row. *)

From Stdlib Require Import Ascii.
From S2P Require Import Prelude Store Ranking Payments GroupRegistration Text Accounts SmsCodes Membership.
Local Open Scope Z_scope.

(** ** Forms *)

(** A posted key of a related row: nothing, a text, or the number a view made of it. *)
Inductive related :=
  | NoRow
  | RowText (v : string)
  | RowId (k : Z).

(** The value of a decimal digit of any script, and the text with ASCII digits for them. *)
Definition decimal_value (c : Z) : option Z :=
  (λ z, c - z) <$> head (List.filter (λ z, (z <=? c) && (c <=? z + 9)) decimal_zeros).
Definition ascii_decimal (c : string) : string :=
  match decimal_value (code_point c) with
  | Some v => String (ascii_of_nat (48 + Z.to_nat v)) ""
  | None => c
  end.

(** [int(t)], [None] for its [ValueError], which it also raises above 4300 digits. *)
Definition int_text (t : string) : option Z :=
  if 4300 <? zlen (List.filter (λ c, is_decimal (code_point c)) (chars t)) then None
  else py_int (String.concat "" (ascii_decimal <$> chars t)).

(** What the framework makes of it, where [ok] knows the rows; [None] is an error. *)
Definition related_key (ok : Z → bool) (v : related) : option (option Z) :=
  match v with
  | NoRow => Some None
  | RowText "" => Some None
  | RowText t => match int_text t with
                 | Some k => if ok k then Some (Some k) else None
                 | None => None
                 end
  | RowId k => if ok k then Some (Some k) else None
  end.

(** [int(c)] of the texts with [str(c).isdigit()]; some of these are no number. *)
Definition digit_id (t : string) : result (option Z) :=
  if isdigit t then match int_text t with Some k => Ok (Some k) | None => Err ValueError end else Ok None.

#[export] Instance result_mbind : MBind result := λ A B k r, match r with Ok a => k a | Err e => Err e end.

(** A list comprehension whose elements may raise. *)
Fixpoint collect {A B} (f : A → result B) (l : list A) : result (list B) :=
  match l with
  | [] => Ok []
  | a :: l' =>
      match f a with
      | Err e => Err e
      | Ok b => match collect f l' with Ok bs => Ok (b :: bs) | Err e => Err e end
      end
  end.

Definition club_key (c : json) : result (option Z) :=
  match c with
  | JInt z => Ok (if 0 <=? z then Some z else None)
  | JStr t => digit_id t
  | _ => Ok None
  end.

Definition digit_ids (l : list json) : result (list Z) :=
  match collect club_key l with Ok ks => Ok (omap id ks) | Err e => Err e end.

Definition text_or_id (t : string) : result related :=
  match digit_id t with
  | Ok (Some k) => Ok (RowId k)
  | Ok None => Ok (RowText t)
  | Err e => Err e
  end.

(** A field that should hold JSON: not posted, a text that is no JSON, one that
    [json.loads] gives up on otherwise, or its value. *)
Inductive posted_json :=
  | NotPosted
  | NoJson
  | LoadFails (e : exn)
  | Loaded (v : json).

(** One entry of [refereeTypes]. *)
Record referee_type := mkRefereeType {
  rt_selected : bool;
  rt_gradeNational : json;
  rt_gradeIntl : json;
}.

(** [v.get("selected")] and the grades: of a dict only. *)
Definition named_entry (key : string) (v : json) : result (string * referee_type) :=
  match v with
  | JDict l => Ok (key, mkRefereeType (json_truthy (default JNull (dict_get l "selected")))
                          (default JNull (dict_get l "gradeNational")) (default JNull (dict_get l "gradeIntl")))
  | _ => Err AttributeError
  end.

Definition referee_kinds : list string := ["kyorogi"; "poomseh"; "hanmadang"]%string.

(** [refereeTypes] of the coach form. The form data answer an empty list like a field that
    was not posted. *)
Definition referee_types_of (p : posted_json) : result json :=
  match p with
  | NotPosted | NoJson | Loaded (JList []) => Ok (JDict [])
  | LoadFails e => Err e
  | Loaded v => Ok v
  end.

(** The three entries the coach view looks at. *)
Definition view_types (rt : json) : result (list (string * referee_type)) :=
  match rt with
  | JDict l => collect (λ key, named_entry key (default (JDict []) (dict_get l key))) referee_kinds
  | _ => Err AttributeError
  end.

(** The edit form forgives what is no dict, and entries that are empty. *)
Definition edit_types (p : posted_json) : result (list (string * referee_type)) :=
  let l := match p with Loaded (JDict l) => l | _ => [] end in
  collect (λ key, let v := default JNull (dict_get l key) in named_entry key (if json_truthy v then v else JDict [])) referee_kinds.

(** [selectedClubs[]], or [selectedClubs] as anything that can be iterated. *)
Definition posted_clubs (items : list string) (p : posted_json) : result (list json) :=
  match items, p with
  | _ :: _, _ => Ok (JStr <$> items)
  | [], (NotPosted | NoJson) => Ok []
  | [], LoadFails e => Err e
  | [], Loaded (JList l) => Ok l
  | [], Loaded (JStr t) => Ok (JStr <$> chars t)
  | [], Loaded (JDict l) => Ok (JStr <$> l.*1)
  | [], Loaded _ => Err OtherError
  end.

(** The edit form takes a list only. *)
Definition posted_edit_clubs (items : list string) (p : posted_json) : list json :=
  match items, p with
  | _ :: _, _ => JStr <$> items
  | [], Loaded (JList l) => l
  | [], _ => []
  end.

Record player_form := mkPlayerForm {
  fm_person : Person;
  fm_tkd_board : string;
  fm_club : option string;
  fm_coach : option string;
}.

Record coach_form := mkCoachForm {
  cf_person : Person;
  cf_tkd_board : string;
  cf_coach : option string;
  cf_club_items : list string;
  cf_clubs : posted_json;
  cf_referee_types : posted_json;
  cf_grade_national : string;
  cf_grade_intl : string;
  cf_image_size : Z;
}.

(** The license image: its size and whether it is a JPEG or PNG image. *)
Record club_form := mkClubForm {
  bf_data : ClubData;
  bf_tkd_board : string;
  bf_image_size : Z;
  bf_image_valid : bool;
}.

(** An edit: [ef_store] stores the posted columns in a row, and the other fields are the
    posted values that the serializer and the view look at, [None] when not posted. *)
Record edit_form := mkEditForm {
  ef_store : Person → Person;
  ef_national_code : option string;
  ef_phone : option string;
  ef_address : option string;
  ef_image : option (Z * string);
  ef_is_coach : bool;
  ef_coach_level : option string;
  ef_is_referee : bool;
  ef_tkd_board : option string;
  ef_coach : option string;
  ef_club : option string;
  ef_club_items : list string;
  ef_clubs : posted_json;
  ef_referee_types : posted_json;
  ef_grade_national : string;
  ef_grade_intl : string;
}.

(** The answers: the fields with errors, the two refusals about the coach, a missing
    profile, the error answer of the coach form, or success. *)
Inductive application_response :=
  | Invalid (fields : list string)
  | OwnCoach
  | NoSuchCoach
  | NoOwnProfile
  | Crashed
  | ApplicationStored.

(** ** Checks of single fields *)

Definition failing (checks : list (string * bool)) : list string := (List.filter (λ c, negb c.2) checks).*1.

Definition space_point (n : Z) : bool :=
  (9 <=? n) && (n <=? 13) || (28 <=? n) && (n <=? 32) || (8192 <=? n) && (n <=? 8202)
  || bool_decide (n ∈ [133; 160; 5760; 8232; 8233; 8239; 8287; 12288]).

(** The class of characters of an address: the Arabic block, ASCII digits, space, full
    stop and hyphen. *)
Definition address_point (n : Z) : bool :=
  (1536 <=? n) && (n <=? 1791) || (48 <=? n) && (n <=? 57) || space_point n || (n =? 45) || (n =? 46).

(** [validate_address] of the serializers. *)
Definition address_ok (value : string) : bool :=
  let v := strip value in
  (10 <=? py_len v) && (py_len v <=? 300) && forallb (λ c, address_point (code_point c)) (chars v).

(** [validate_profile_image] *)
Definition image_ok (size : Z) (name : string) : bool :=
  (size <=? 200 * 1024) &&
  (String.eqb (py_suffix 4 (lower name)) ".jpg" || String.eqb (py_suffix 5 (lower name)) ".jpeg").

(** [validate_phone] of a club. *)
Definition club_phone_ok (phone : string) : bool :=
  isdigit phone && (py_len phone =? 11) && (String.prefix "09" phone || String.prefix "038" phone).

(** [_is_junk_str] *)
Definition _is_junk_str (v : string) : bool := bool_decide (lower (strip v) ∈ [""; "null"; "none"; "undefined"]%string).

(** ** Referees *)

Definition rt_get (types : list (string * referee_type)) (key : string) : option referee_type :=
  snd <$> head (List.filter (λ t, String.eqb t.1 key) types).
Definition _sel (types : list (string * referee_type)) (key : string) : bool :=
  match rt_get types key with Some t => rt_selected t | None => false end.

(** [.. or None] of a grade that is a text; no other value is one of the choices. *)
Definition DEGREE_CHOICES : list string := ["درجه یک"; "درجه دو"; "درجه سه"; "ممتاز"]%string.
Definition grade (g : json) : option string :=
  match g with JStr t => if truthy_str t then Some t else None | _ => None end.
Definition degree_ok (g : json) : bool :=
  negb (json_truthy g) || match g with JStr t => bool_decide (t ∈ DEGREE_CHOICES) | _ => false end.

(** The columns of the levels that the views fill in, with the check of their choices. *)
Definition level_checks (national intl : string) (types : list (string * referee_type)) : list (string * bool) :=
  ("coach_level", degree_ok (JStr national)) :: ("coach_level_International", degree_ok (JStr intl))
  :: (types ≫= λ t, [(t.1 ++ "_level", negb (rt_selected t.2) || degree_ok (rt_gradeNational t.2));
                     (t.1 ++ "_level_International", negb (rt_selected t.2) || degree_ok (rt_gradeIntl t.2))])%string.

Definition _lvl (types : list (string * referee_type)) (key : string) : option string :=
  rt_get types key ≫= λ t, grade (rt_gradeNational t).
Definition _intl (types : list (string * referee_type)) (key : string) : option string :=
  rt_get types key ≫= λ t, grade (rt_gradeIntl t).

(** The posted level, or that of the entry when the entry is selected; the edit form
    clears the levels of entries that are not. *)
Definition level (clear selected : bool) (entry posted : option string) : option string :=
  if selected then entry else if clear then None else posted.

(** The levels of a coach and a referee, with the flags taken from [refereeTypes]. *)
Definition with_levels (clear : bool) (national intl : string) (types : list (string * referee_type)) (p : Person) : Person :=
  let lvl := λ key, level clear (_sel types key) (_lvl types key) in
  let int := λ key, level clear (_sel types key) (_intl types key) in
  mkPerson (pe_first_name p) (pe_last_name p) (pe_father_name p) (pe_national_code p) (pe_birth_date p) (pe_gender p)
    (pe_phone p) (pe_role p) (pe_profile_image p) (pe_address p) (pe_province p) (pe_county p) (pe_city p)
    (pe_tkd_board p) (pe_tkd_board_name p) (pe_coach p) (pe_coach_name p) (pe_club p) (pe_club_names p) (pe_belt_grade p)
    (pe_belt_certificate_number p) (pe_belt_certificate_date p) (pe_is_coach p)
    (if truthy_str national then Some national else pe_coach_level p)
    (if truthy_str intl then Some intl else pe_coach_level_International p) (pe_is_referee p)
    (_sel types "kyorogi") (lvl "kyorogi" (pe_kyorogi_level p)) (int "kyorogi" (pe_kyorogi_level_International p))
    (_sel types "poomseh") (lvl "poomseh" (pe_poomseh_level p)) (int "poomseh" (pe_poomseh_level_International p))
    (_sel types "hanmadang") (lvl "hanmadang" (pe_hanmadang_level p)) (int "hanmadang" (pe_hanmadang_level_International p))
    (pe_confirm_info p).

(** The entries that [PendingCoachSerializer.validate] checks, all that were posted; those of
    the columns when none were. *)
Definition checked_types (rt : json) (p : Person) : result (list (string * referee_type)) :=
  match rt with
  | JDict [] =>
      Ok [("kyorogi", mkRefereeType (pe_kyorogi p) (JStr (default "" (pe_kyorogi_level p))) (JStr (default "" (pe_kyorogi_level_International p))));
          ("poomseh", mkRefereeType (pe_poomseh p) (JStr (default "" (pe_poomseh_level p))) (JStr (default "" (pe_poomseh_level_International p))));
          ("hanmadang", mkRefereeType (pe_hanmadang p) (JStr (default "" (pe_hanmadang_level p))) (JStr (default "" (pe_hanmadang_level_International p))))]%string
  | JDict l => collect (λ kv, named_entry kv.1 kv.2) l
  | _ => Err AttributeError
  end.

Definition missing_grades (types : list (string * referee_type)) : list string :=
  match List.filter (λ t, rt_selected t.2) types with
  | [] => ["refereeTypes"%string]
  | selected =>
      match List.filter (λ t, negb (json_truthy (rt_gradeNational t.2))) selected with
      | t :: _ => ["refereeTypes." ++ t.1 ++ ".gradeNational"]%string
      | [] => []
      end
  end.

Definition referee_errors (rt : json) (p : Person) : result (list string) :=
  if negb (pe_is_referee p) then Ok []
  else match checked_types rt p with Ok types => Ok (missing_grades types) | Err e => Err e end.

(** ** Rows *)

(** The columns that the serializers normalise, and the related rows. *)
Definition with_columns (code phone address : string) (board coach club : option Z) (p : Person) : Person :=
  mkPerson (pe_first_name p) (pe_last_name p) (pe_father_name p) code (pe_birth_date p) (pe_gender p) phone (pe_role p)
    (pe_profile_image p) address (pe_province p) (pe_county p) (pe_city p) board (pe_tkd_board_name p) coach
    (pe_coach_name p) club (pe_club_names p) (pe_belt_grade p) (pe_belt_certificate_number p) (pe_belt_certificate_date p)
    (pe_is_coach p) (pe_coach_level p) (pe_coach_level_International p) (pe_is_referee p) (pe_kyorogi p)
    (pe_kyorogi_level p) (pe_kyorogi_level_International p) (pe_poomseh p) (pe_poomseh_level p)
    (pe_poomseh_level_International p) (pe_hanmadang p) (pe_hanmadang_level p) (pe_hanmadang_level_International p)
    (pe_confirm_info p).

Definition full_name (p : Person) : string := (pe_first_name p ++ " " ++ pe_last_name p)%string.

Definition board_ok (s : accounts) (k : Z) : bool := negb (is_none (ac_boards s !! k)).
Definition club_ok (s : accounts) (k : Z) : bool := negb (is_none (ac_clubs s !! k)).
(** The column names coaches only. *)
Definition coach_ok (s : accounts) (k : Z) : bool :=
  match ac_profiles s !! k with Some c => pe_is_coach (pf_person c) | None => false end.

(** The names of the clubs with these keys, in the order of the table. *)
Definition names_of_clubs (s : accounts) (ids : list Z) : list string :=
  (λ kc : Z * Club, cd_club_name (cb_data kc.2)) <$> List.filter (λ kc, bool_decide (kc.1 ∈ ids)) (rows_by_id (ac_clubs s)).

Definition clubs_set (s : accounts) (ids : list Z) : gset Z :=
  filter (λ c, is_Some (ac_clubs s !! c)) (list_to_set ids : gset Z).

Section applications.
Context (collate : string → string) (iexact : string → string → bool).
Local Abbreviation same := (same collate).

(** [validate_national_code] and [validate_phone] on the normalised value. *)
Definition unused (column : Person → string) (s : accounts) (v : string) : bool :=
  negb (exists_row (λ x, same (column (pu_person x)) v) (ac_pending s))
  && negb (exists_row (λ x, same (column (pf_person x)) v) (ac_profiles s)).
Definition code_ok (s : accounts) (code : string) : bool :=
  isdigit code && (py_len code =? 10) && unused pe_national_code s code.
Definition phone_ok (s : accounts) (phone : string) : bool := valid_phone phone && unused pe_phone s phone.

(** [check_national_code] *)
Definition check_national_code (s : accounts) (code : option string) : bool :=
  match code with
  | Some c => truthy_str c && negb (unused pe_national_code s c)
  | None => false
  end.

(** The unique columns of [PendingUserProfile]. *)
Definition pending_conflict (p x : PendingUserProfile) : bool :=
  same (pe_national_code (pu_person x)) (pe_national_code (pu_person p))
  || same (pe_phone (pu_person x)) (pe_phone (pu_person p)).

Definition insert_pending (p : PendingUserProfile) : M accounts Z :=
  (s <~ get ;;
   if exists_row (pending_conflict p) (ac_pending s) then raise IntegrityError
   else k <~ fresh ;; modify (λ s, set_ac_pending (<[k := p]> (ac_pending s)) s) ;;; ret k)%monad.

Definition save_pending (k : Z) (p : PendingUserProfile) : M accounts unit :=
  modify (λ s, set_ac_pending (<[k := p]> (ac_pending s)) s).

(** ** Players *)

(** What the view makes of the posted coach. *)
Definition player_coach (raw : option string) : related :=
  match raw with
  | Some c => if truthy_str c && negb (String.eqb c "other")
              then match int_text c with Some k => RowId k | None => NoRow end
              else RowText c
  | None => NoRow
  end.

Definition player_names (s : accounts) (p : Person) : Person :=
  let p := match pe_tkd_board p ≫= (ac_boards s !!.) with Some b => set_pe_tkd_board_name (br_name b) p | None => p end in
  let p := match pe_club p ≫= (ac_clubs s !!.) with Some c => set_pe_club_names [cd_club_name (cb_data c)] p | None => p end in
  match pe_coach p ≫= (ac_profiles s !!.) with Some c => set_pe_coach_name (full_name (pf_person c)) p | None => p end.

(** [RegisterPlayerAPIView.post] with [PendingPlayerSerializer]. *)
Definition register_player (f : player_form) : M accounts application_response :=
  (s <~ get ;;
   club <~ lift (match fm_club f with Some c => text_or_id c | None => Ok NoRow end) ;;
   let p := fm_person f in
   let code := normalize_digits (pe_national_code p) in
   let phone := normalize_digits (pe_phone p) in
   let board := related_key (board_ok s) (RowText (fm_tkd_board f)) in
   let coach := related_key (coach_ok s) (player_coach (fm_coach f)) in
   let club := related_key (club_ok s) club in
   match failing [("national_code", code_ok s code); ("phone", phone_ok s phone);
                  ("tkd_board", negb (is_none board)); ("coach", negb (is_none coach)); ("club", negb (is_none club))]%string with
   | (_ :: _) as fields => ret (Invalid fields)
   | [] =>
       if negb (pe_confirm_info p) then ret (Invalid ["confirm_info"%string])
       else
         let row := with_columns code phone (pe_address p) (default None board) (default None coach) (default None club) p in
         k <~ insert_pending (mkPending row ∅) ;;
         save_pending k (mkPending (player_names s row) ∅) ;;;
         ret ApplicationStored
   end)%monad.

(** ** Coaches and referees *)

Definition coach_coach (raw : option string) : result related :=
  match raw with
  | Some c => if truthy_str c && negb (String.eqb c "other")
              then match digit_id c with Ok (Some k) => Ok (RowId k) | Ok None => Ok NoRow | Err e => Err e end
              else Ok NoRow
  | None => Ok NoRow
  end.

(** What the view takes out of the form before it hands it on. *)
Record coach_inputs := mkCoachInputs {
  ci_referee_types : json;
  ci_clubs : list Z;
  ci_types : list (string * referee_type);
  ci_board : related;
  ci_coach : related;
}.

Definition read_coach_form (f : coach_form) : result coach_inputs :=
  rt ← referee_types_of (cf_referee_types f);
  clubs ← posted_clubs (cf_club_items f) (cf_clubs f);
  ids ← digit_ids clubs;
  types ← view_types rt;
  board ← text_or_id (cf_tkd_board f);
  coach ← coach_coach (cf_coach f);
  Ok (mkCoachInputs rt ids types board coach).

(** The columns as the view hands them to [PendingCoachSerializer]. *)
Definition coach_person (f : coach_form) (types : list (string * referee_type)) : Person :=
  with_levels false (cf_grade_national f) (cf_grade_intl f) types (cf_person f).

(** The selected clubs of the new row [k]. *)
Definition assign_clubs (s : accounts) (ids : list Z) (row : PendingUserProfile) : PendingUserProfile :=
  match ids with
  | [] => row
  | first :: _ =>
      let p := set_pe_club_names (names_of_clubs s ids) (pu_person row) in
      mkPending (if club_ok s first then set_pe_club (Some first) p else p) (clubs_set s ids)
  end.

(** [RegisterCoachAPIView.post] with [PendingCoachSerializer]; every exception is
    answered as an internal error. *)
Definition register_coach (f : coach_form) : M accounts application_response :=
  try_catch
    (s <~ get ;;
     x <~ lift (read_coach_form f) ;;
     let p := coach_person f (ci_types x) in
     let code := normalize_digits (pe_national_code p) in
     let phone := normalize_digits (pe_phone p) in
     let board := related_key (board_ok s) (ci_board x) in
     let coach := related_key (coach_ok s) (ci_coach x) in
     match failing (("national_code", code_ok s code) :: ("phone", phone_ok s phone) :: ("address", address_ok (pe_address p))
                    :: ("profile_image", image_ok (cf_image_size f) (pe_profile_image p))
                    :: ("tkd_board", negb (is_none board)) :: ("coach", negb (is_none coach))
                    :: level_checks (cf_grade_national f) (cf_grade_intl f) (ci_types x))%string with
     | (_ :: _) as fields => ret (Invalid fields)
     | [] =>
         if negb (pe_confirm_info p) then ret (Invalid ["confirm_info"%string])
         else
           (errors <~ lift (referee_errors (ci_referee_types x) p) ;;
            match errors with
            | (_ :: _) as fields => ret (Invalid fields)
            | [] =>
                let row := mkPending (with_columns code phone (strip (pe_address p)) (default None board) (default None coach) None p) ∅ in
                k <~ insert_pending row ;;
                save_pending k (mkPending (pu_person row) (clubs_set s (ci_clubs x))) ;;;
                let row := assign_clubs s (ci_clubs x) row in
                coach <~ (match ci_coach x with
                          | RowId c => match ac_profiles s !! c with
                                       | None => ret (inl NoSuchCoach)
                                       | Some y => if String.eqb (pe_phone (pf_person y)) phone then ret (inl OwnCoach)
                                                   else ret (inr (Some (c, y)))
                                       end
                          | _ => ret (inr None)
                          end) ;;
                match coach with
                | inl refused => ret refused
                | inr named =>
                    let q := match named with
                             | Some (c, y) => set_pe_coach_name (full_name (pf_person y)) (set_pe_coach (Some c) (pu_person row))
                             | None => pu_person row
                             end in
                    save_pending k (mkPending (set_pe_tkd_board_name (board_name s (pe_tkd_board q)) q) (pu_coaching_clubs row)) ;;;
                    ret ApplicationStored
                end
            end)
     end)%monad
    (λ _, ret Crashed).

(** ** Clubs *)

(** A license or federation number that an approved or a waiting club has. *)
Definition number_used (column : ClubData → string) (s : accounts) (v : string) : bool :=
  exists_row (λ c, iexact (column (cb_data c)) v) (ac_clubs s)
  || exists_row (λ c, iexact (column (pc_data c)) v) (ac_pending_clubs s).

Definition same_place (name city : string) (c : ClubData) : bool := iexact (cd_club_name c) name && iexact (cd_city c) city.

Definition pending_club_conflict (c x : PendingClub) : bool :=
  same (cd_club_name (pc_data x)) (cd_club_name (pc_data c)) && same (cd_city (pc_data x)) (cd_city (pc_data c)).

Definition insert_pending_club (c : PendingClub) : M accounts Z :=
  (s <~ get ;;
   if exists_row (pending_club_conflict c) (ac_pending_clubs s) then raise IntegrityError
   else k <~ fresh ;; modify (λ s, set_ac_pending_clubs (<[k := c]> (ac_pending_clubs s)) s) ;;; ret k)%monad.

(** [PendingClubSerializer.validate] on the normalised columns. *)
Definition club_errors (s : accounts) (name city license federation : string) : list string :=
  if truthy_str name && truthy_str city
     && (exists_row (λ c, same_place name city (cb_data c)) (ac_clubs s)
         || exists_row (λ c, same_place name city (pc_data c)) (ac_pending_clubs s)) then ["club_name"%string]
  else if truthy_str license && number_used cd_license_number s license then ["license_number"%string]
  else if truthy_str federation && number_used cd_federation_id s federation then ["federation_id"%string]
  else [].

Definition club_columns (name phone address license federation : string) (board : option Z) (c : ClubData) : ClubData :=
  mkClubData name (cd_founder_name c) (cd_founder_national_code c) (cd_founder_phone c) (cd_club_type c)
    (cd_activity_description c) (cd_province c) (cd_county c) (cd_city c) board phone address license federation
    (cd_license_image c) (cd_confirm_info c).

(** [RegisterPendingClubAPIView.post] with [PendingClubSerializer]. *)
Definition register_club (f : club_form) : M accounts application_response :=
  (s <~ get ;;
   let c := bf_data f in
   let lic := strip (cd_license_number c) in
   let fid := strip (cd_federation_id c) in
   if truthy_str lic && number_used cd_license_number s lic then ret (Invalid ["license_number"%string])
   else if truthy_str fid && number_used cd_federation_id s fid then ret (Invalid ["federation_id"%string])
   else
     let phone := normalize_digits (cd_phone c) in
     let name := strip (cd_club_name c) in
     let board := related_key (board_ok s) (RowText (bf_tkd_board f)) in
     match failing [("phone", club_phone_ok phone); ("address", address_ok (cd_address c));
                    ("license_image", ((bf_image_size f <=? 200 * 1024) && bf_image_valid f)%Z);
                    ("tkd_board", negb (is_none board))]%string with
     | (_ :: _) as fields => ret (Invalid fields)
     | [] =>
         let license := normalize_digits lic in
         let federation := normalize_digits fid in
         match club_errors s name (strip (cd_city c)) license federation with
         | (_ :: _) as fields => ret (Invalid fields)
         | [] =>
             let row := club_columns name phone (strip (cd_address c)) license federation (default None board) c in
             insert_pending_club (mkPendingClub row (board_name s (cd_tkd_board row))) ;;;
             ret ApplicationStored
         end
     end)%monad.

(** ** Edits *)

(** The empty row that a new edit starts from. *)
Definition new_edit : Person :=
  mkPerson "" "" "" "" "" "" "" "player" "" "" "" "" "" None "" None "" None [] "" "" "" false None None false
    false None None false None None false None None false.

(** The edit of a profile is the one whose [original_user] it is. *)
Definition edit_of (s : accounts) (profile : Z) : option (Z * PendingEditProfile) :=
  first_row (λ e, ed_original_user e =? profile) (ac_edits s).

(** Whether another edit than [k] has this value in a unique column. *)
Definition free_in_edits (column : Person → string) (s : accounts) (k : option Z) (v : string) : bool :=
  negb (existsb (λ ke : Z * PendingEditProfile, negb (bool_decide (Some ke.1 = k)) && same (column (ed_person ke.2)) v)
          (rows_by_id (ac_edits s))).

(** What the view makes of the posted coach; [None] leaves the column alone. *)
Definition edit_coach (raw : option string) : result (option related) :=
  match raw with
  | Some c => if String.eqb c "other" || _is_junk_str c then Ok (Some NoRow)
              else match digit_id c with Ok (Some k) => Ok (Some (RowId k)) | Ok None => Ok None | Err e => Err e end
  | None => Ok None
  end.

(** A posted text that is a number. *)
Definition posted_id (raw : option string) : result (option Z) :=
  match raw with Some c => digit_id c | None => Ok None end.

Definition kept_key (o : option related) (ok : Z → bool) (old : option Z) : option (option Z) :=
  match o with Some v => related_key ok v | None => Some old end.

(** [PendingEditProfileSerializer.validate], where the referee columns come from
    [refereeTypes]. *)
Definition edit_errors (f : edit_form) (types : list (string * referee_type)) : list string :=
  let lacks := λ key, ef_is_referee f && _sel types key && is_none (_lvl types key) in
  let coach_level := if truthy_str (ef_grade_national f) then Some (ef_grade_national f) else ef_coach_level f in
  failing [("coach_level", negb (ef_is_coach f && negb (truthy_str (default ""%string coach_level))));
           ("kyorogi_level", negb (lacks "kyorogi")); ("poomseh_level", negb (lacks "poomseh"));
           ("hanmadang_level", negb (lacks "hanmadang"))]%string.

(** The role of the flags. *)
Definition role_of_flags (p : Person) : string :=
  if pe_is_coach p && pe_is_referee p then "both" else if pe_is_coach p then "coach"
  else if pe_is_referee p then "referee" else "player".

Definition save_edit (k : Z) (e : PendingEditProfile) : M accounts unit :=
  modify (λ s, set_ac_edits (<[k := e]> (ac_edits s)) s).

(** The related columns of the row before the view goes on. *)
Definition related_columns (board coach club : option Z) (p : Person) : Person :=
  with_columns (pe_national_code p) (pe_phone p) (pe_address p) board coach club p.

(** The clubs of an edit: the selected ones, and the posted club or the first selected. *)
Definition edit_clubs (s : accounts) (posted : option Z) (ids : list Z) (p : Person) : Person :=
  let names := if bool_decide (length ids = 0%nat) then [] else names_of_clubs s ids in
  match posted with
  | Some k =>
      match ac_clubs s !! k with
      | Some c => let name := cd_club_name (cb_data c) in
                  set_pe_club_names (if bool_decide (name ∈ names) then names else names ++ [name]) (set_pe_club (Some k) p)
      | None => set_pe_club_names names p
      end
  | None =>
      match ids with
      | first :: _ => set_pe_club_names names (if club_ok s first then set_pe_club (Some first) p else p)
      | [] => set_pe_club_names names p
      end
  end.

(** [UpdateProfilePendingAPIView.post] for a signed-in user. *)
Definition update_profile (user : Z) (f : edit_form) : M accounts application_response :=
  (s <~ get ;;
   match profile_of s user with
   | None => ret NoOwnProfile
   | Some (original, profile) =>
       let existing := edit_of s original in
       let old := match existing with Some ke => ed_person ke.2 | None => new_edit end in
       ids <~ lift (digit_ids (posted_edit_clubs (ef_club_items f) (ef_clubs f))) ;;
       types <~ lift (edit_types (ef_referee_types f)) ;;
       posted_coach <~ lift (edit_coach (ef_coach f)) ;;
       let board := kept_key (RowText <$> ef_tkd_board f) (board_ok s) (pe_tkd_board old) in
       let coach := kept_key posted_coach (coach_ok s) (pe_coach old) in
       let club := kept_key (RowText <$> ef_club f) (club_ok s) (pe_club old) in
       let free := λ column v, match v with Some v => free_in_edits column s (fst <$> existing) v | None => true end in
       match failing (("national_code", free pe_national_code (ef_national_code f)) :: ("phone", free pe_phone (ef_phone f))
                      :: ("address", match ef_address f with Some a => address_ok a | None => true end)
                      :: ("profile_image", match ef_image f with Some i => image_ok i.1 i.2 | None => true end)
                      :: ("tkd_board", negb (is_none board)) :: ("coach", negb (is_none coach)) :: ("club", negb (is_none club))
                      :: level_checks (ef_grade_national f) (ef_grade_intl f) types)%string with
       | (_ :: _) as fields => ret (Invalid fields)
       | [] =>
           match edit_errors f types with
           | (_ :: _) as fields => ret (Invalid fields)
           | [] =>
               let p := related_columns (default None board) (default None coach) (default None club)
                          (with_levels true (ef_grade_national f) (ef_grade_intl f) types (ef_store f old)) in
               k <~ (match existing with Some ke => ret ke.1 | None => fresh end) ;;
               save_edit k (mkEdit original p (match existing with Some ke => ed_coaching_clubs ke.2 | None => ∅ end)) ;;;
               named_coach <~ lift (posted_id (ef_coach f)) ;;
               named <~ (match named_coach with
                         | Some c =>
                             match ac_profiles s !! c with
                             | Some x => if String.eqb (pe_phone (pf_person x)) (pe_phone (pf_person profile)) then ret None
                                         else ret (Some (set_pe_coach_name (strip (full_name (pf_person x))) (set_pe_coach (Some c) p)))
                             | None => ret (Some (set_pe_coach None p))
                             end
                         | None => ret (Some p)
                         end) ;;
               match named with
               | None => ret OwnCoach
               | Some p =>
                   posted_club <~ lift (posted_id (ef_club f)) ;;
                   let p := edit_clubs s posted_club ids p in
                   let p := set_pe_role (role_of_flags p) p in
                   let p := match pe_tkd_board p ≫= (ac_boards s !!.) with Some b => set_pe_tkd_board_name (br_name b) p | None => p end in
                   save_edit k (mkEdit original p (clubs_set s ids)) ;;;
                   ret ApplicationStored
               end
           end
       end
   end)%monad.

(** ** Requests *)

Inductive application_request :=
  | RegisterPlayer (f : player_form)
  | RegisterCoach (f : coach_form)
  | RegisterClub (f : club_form)
  | UpdateProfile (user : Z) (f : edit_form).

Definition serve_application (q : application_request) : M accounts application_response :=
  match q with
  | RegisterPlayer f => register_player f
  | RegisterCoach f => register_coach f
  | RegisterClub f => register_club f
  | UpdateProfile user f => update_profile user f
  end.

(** ** Forms that can be read *)

(** A text that [int] takes if [isdigit] says so. *)
Definition number_text (t : string) : bool := negb (isdigit t) || negb (is_none (int_text t)).

Definition dict_of_dicts (p : posted_json) : bool :=
  match p with
  | NotPosted | NoJson | Loaded (JList []) => true
  | Loaded (JDict l) => forallb (λ kv, match kv.2 with JDict _ => true | _ => false end) l
  | _ => false
  end.

Definition clubs_readable (items : list string) (p : posted_json) : bool :=
  match items, p with
  | _ :: _, _ => forallb number_text items
  | [], (NotPosted | NoJson) => true
  | [], LoadFails _ => false
  | [], Loaded (JList l) => forallb (λ c, match c with JStr t => number_text t | _ => true end) l
  | [], Loaded (JStr t) => forallb number_text (chars t)
  | [], Loaded (JDict l) => forallb number_text l.*1
  | [], Loaded _ => false
  end.

(** What the coach form must be to be looked at: entries of referee types that are dicts,
    clubs that can be iterated, and numbers where all characters are digits. *)
Definition form_readable (f : coach_form) : bool :=
  dict_of_dicts (cf_referee_types f) && clubs_readable (cf_club_items f) (cf_clubs f)
  && number_text (cf_tkd_board f) && number_text (default "" (cf_coach f)).

Lemma digit_id_readable t : number_text t = true → ∃ k, digit_id t = Ok k.
Proof.
  unfold number_text, digit_id. destruct (isdigit t); cbn; [|by eexists]. destruct (int_text t); [by eexists|done].
Qed.

Lemma collect_ok {A B} (f : A → result B) l : (∀ a, a ∈ l → ∃ b, f a = Ok b) → ∃ bs, collect f l = Ok bs.
Proof.
  induction l as [|a l IH]; intros Hf; [by eexists|]. cbn. destruct (Hf a ltac:(by left)) as [b ->].
  destruct IH as [bs ->]; [intros x Hx; apply Hf; by right|by eexists].
Qed.

Lemma digit_ids_ok l : forallb (λ c, match c with JStr t => number_text t | _ => true end) l = true → ∃ ids, digit_ids l = Ok ids.
Proof.
  rewrite forallb_forall. intros Hl. unfold digit_ids. destruct (collect_ok club_key l) as [ks ->]; [|by eexists].
  intros c Hc%list_elem_of_In%Hl. destruct c; cbn; try (by eexists). by apply digit_id_readable.
Qed.

Lemma text_ids_ok items : forallb number_text items = true → ∃ ids, digit_ids (JStr <$> items) = Ok ids.
Proof. intros H. apply digit_ids_ok. induction items as [|t items IH]; [done|]. cbn in *. apply andb_true_iff in H as [-> H]. by apply IH. Qed.

Lemma clubs_readable_ok items p : clubs_readable items p = true → ∃ l ids, posted_clubs items p = Ok l ∧ digit_ids l = Ok ids.
Proof.
  assert (Htexts : ∀ l, forallb number_text l = true → ∃ l' ids, Ok (JStr <$> l) = Ok l' ∧ digit_ids l' = Ok ids).
  { intros l [ids E]%text_ids_ok. by exists (JStr <$> l), ids. }
  destruct items as [|t items]; [|exact (Htexts (t :: items))].
  destruct p as [| |e|[| | |t|l|l]]; cbn; try discriminate; try apply Htexts; try (intros _; by exists [], []).
  intros [ids E]%digit_ids_ok. by exists l, ids.
Qed.

Lemma named_entries_ok l : forallb (λ kv : string * json, match kv.2 with JDict _ => true | _ => false end) l = true →
  (∃ types, collect (λ kv, named_entry kv.1 kv.2) l = Ok types) ∧ ∃ types, view_types (JDict l) = Ok types.
Proof.
  rewrite forallb_forall. intros Hl. split; apply collect_ok.
  - intros [k v] H%list_elem_of_In%Hl. cbn in *. destruct v; try done. by eexists.
  - intros key _. unfold dict_get. destruct (List.filter _ l) as [|[k v] l'] eqn:E; [by eexists|].
    assert (H : In (k, v) l) by (apply (filter_In (λ kv : string * json, String.eqb kv.1 key)); rewrite E; by left).
    apply Hl in H. cbn in *. destruct v; try done. by eexists.
Qed.

Lemma dict_of_dicts_ok p : dict_of_dicts p = true →
  ∃ rt, referee_types_of p = Ok rt ∧ (∃ types, view_types rt = Ok types) ∧ ∀ q, ∃ errors, referee_errors rt q = Ok errors.
Proof.
  assert (Hdict : ∀ l, forallb (λ kv : string * json, match kv.2 with JDict _ => true | _ => false end) l = true →
    (∃ types, view_types (JDict l) = Ok types) ∧ ∀ q, ∃ errors, referee_errors (JDict l) q = Ok errors).
  { intros l [[types E] Hv]%named_entries_ok. split; [exact Hv|]. intros q. unfold referee_errors.
    destruct (negb _); [by eexists|]. unfold checked_types. destruct l; [by eexists|]. rewrite E. by eexists. }
  destruct p as [| |e|[| | |t|[|x l]|l]]; cbn [dict_of_dicts referee_types_of]; try discriminate; intros H;
    (eexists; split; [reflexivity|]); apply Hdict; done || exact H.
Qed.

(** Running a step that may raise. *)
Lemma bind_lift {S A B} (r : result A) (k : A → M S B) s :
  bind (lift r) k s = match r with Ok a => k a s | Err e => (Err e, s) end.
Proof. by destruct r. Qed.

(** ** New rows *)

(** The state with one more application, club or edit. *)
Definition add_pending (s : accounts) (row : PendingUserProfile) : accounts :=
  set_ac_pending (<[ac_next_id s := row]> (ac_pending s)) (set_ac_next_id (ac_next_id s + 1) s).
Definition add_pending_club (s : accounts) (row : PendingClub) : accounts :=
  set_ac_pending_clubs (<[ac_next_id s := row]> (ac_pending_clubs s)) (set_ac_next_id (ac_next_id s + 1) s).

Lemma insert_pending_ok s p : exists_row (pending_conflict p) (ac_pending s) = false →
  insert_pending p s = (Ok (ac_next_id s), add_pending s p).
Proof. intros E. unfold insert_pending, bind, get. by rewrite E. Qed.

Lemma save_added s p q : save_pending (ac_next_id s) q (add_pending s p) = (Ok tt, add_pending s q).
Proof.
  unfold save_pending, modify, add_pending. destruct s as [us ps cs bs pe pc ed sm rq nx]. cbn. by rewrite insert_insert_eq.
Qed.

Lemma insert_club_cases c s :
  (insert_pending_club c s = (Err IntegrityError, s) ∧ exists_row (pending_club_conflict c) (ac_pending_clubs s) = true) ∨
  exists_row (pending_club_conflict c) (ac_pending_clubs s) = false ∧
  insert_pending_club c s = (Ok (ac_next_id s), add_pending_club s c).
Proof. unfold insert_pending_club, bind, get. destruct (exists_row _ _) eqn:E; [left; by split|right; by split]. Qed.

Lemma failing_cons name ok checks : failing ((name, ok) :: checks) = [] ↔ ok = true ∧ failing checks = [].
Proof. unfold failing. cbn. destruct ok; cbn; [tauto|]. split; [done|]. by intros [? _]. Qed.

Lemma unused_no_conflict s code phone p : unused pe_national_code s code = true → unused pe_phone s phone = true →
  pe_national_code (pu_person p) = code → pe_phone (pu_person p) = phone → exists_row (pending_conflict p) (ac_pending s) = false.
Proof.
  unfold unused. rewrite !andb_true_iff, !negb_true_iff, !exists_row_false. intros [Hc _] [Hp _] <- <- k r Hk.
  unfold pending_conflict. by rewrite (Hc k r Hk), (Hp k r Hk).
Qed.

(** The texts of a person change without its columns that must be unique. *)
Lemma player_names_columns s p : let q := player_names s p in
  pe_national_code q = pe_national_code p ∧ pe_phone q = pe_phone p ∧ pe_tkd_board q = pe_tkd_board p ∧
  pe_coach q = pe_coach p ∧ pe_club q = pe_club p.
Proof.
  unfold player_names. destruct (pe_tkd_board p ≫= (ac_boards s !!.)) as [b|]; cbn;
    repeat (match goal with |- context [?o ≫= (?t !!.)] => destruct (o ≫= (t !!.)) as [?|] end; cbn); done.
Qed.

(** The related rows of an application exist, and its coach is one. *)
Definition related_exist (s : accounts) (p : Person) : Prop :=
  (∀ k, pe_tkd_board p = Some k → is_Some (ac_boards s !! k)) ∧
  (∀ k, pe_club p = Some k → is_Some (ac_clubs s !! k)) ∧
  (∀ k, pe_coach p = Some k → ∃ c, ac_profiles s !! k = Some c ∧ pe_is_coach (pf_person c) = true).

Lemma related_key_ok ok v k : related_key ok v = Some (Some k) → ok k = true.
Proof.
  destruct v as [|t|n]; cbn; [done| |].
  - destruct t as [|c t]; [done|]. destruct (int_text (String c t)) as [n|]; [|done]. destruct (ok n) eqn:E; [|done]. by intros [= <-].
  - destruct (ok n) eqn:E; [|done]. by intros [= <-].
Qed.

Lemma board_ok_some s k : board_ok s k = true → is_Some (ac_boards s !! k).
Proof. unfold board_ok. destruct (ac_boards s !! k); [by eexists|done]. Qed.
Lemma club_ok_some s k : club_ok s k = true → is_Some (ac_clubs s !! k).
Proof. unfold club_ok. destruct (ac_clubs s !! k); [by eexists|done]. Qed.
Lemma coach_ok_some s k : coach_ok s k = true → ∃ c, ac_profiles s !! k = Some c ∧ pe_is_coach (pf_person c) = true.
Proof. unfold coach_ok. destruct (ac_profiles s !! k) as [c|]; [by exists c|done]. Qed.

Lemma not_none {A} (o : option A) : negb (is_none o) = true → ∃ a, o = Some a.
Proof. destruct o as [a|]; [by exists a|done]. Qed.

(** A new application: its numbers are in order and in nobody's use, the rows it names
    exist. *)
Record sound_application (s : accounts) (p : Person) : Prop := {
  sa_code : code_ok s (pe_national_code p) = true;
  sa_phone : phone_ok s (pe_phone p) = true;
  sa_related : related_exist s p;
}.

Lemma sound_no_conflict s row p : sound_application s p → pe_national_code (pu_person row) = pe_national_code p →
  pe_phone (pu_person row) = pe_phone p → exists_row (pending_conflict row) (ac_pending s) = false.
Proof.
  intros [Hc Hp _]. unfold code_ok in Hc. unfold phone_ok in Hp. rewrite !andb_true_iff in Hc, Hp.
  apply unused_no_conflict; tauto.
Qed.

(** A form for players is refused, stored whole, or ends in the error of [int]. *)
Lemma register_player_outcome f s r s' : register_player f s = (r, s') →
  (∃ l, r = Ok (Invalid l) ∧ l ≠ [] ∧ s' = s) ∨
  (∃ row, r = Ok ApplicationStored ∧ s' = add_pending s row ∧ sound_application s (pu_person row) ∧
     pe_national_code (pu_person row) = normalize_digits (pe_national_code (fm_person f)) ∧
     pe_phone (pu_person row) = normalize_digits (pe_phone (fm_person f))) ∨
  (r = Err ValueError ∧ s' = s ∧ number_text (default "" (fm_club f)) = false).
Proof.
  unfold register_player. unfold bind at 1, get. rewrite bind_lift.
  destruct (match fm_club f with Some c => text_or_id c | None => Ok NoRow end) as [posted|e] eqn:Eclubtext.
  2: { intros [= <- <-]. right; right. destruct (fm_club f) as [t|]; [|done]. unfold text_or_id, digit_id in Eclubtext.
       unfold number_text. cbn. destruct (isdigit t); [|done]. destruct (int_text t); [done|]. injection Eclubtext as <-. done. }
  cbv zeta.
  set (board := related_key (board_ok s) _). set (coach := related_key (coach_ok s) _). set (club := related_key (club_ok s) _).
  destruct (failing _) as [|n l] eqn:Ef; [|intros [= <- <-]; left; eexists; by split_and!].
  destruct (negb (pe_confirm_info _)); [intros [= <- <-]; left; eexists; by split_and!|].
  rewrite !failing_cons in Ef. destruct Ef as (Ecode & Ephone & Eboard & Ecoach & Eclub & _). set (p := with_columns _ _ _ _ _ _ _).
  destruct (not_none board) as [b Eb]; [done|].
  destruct (not_none coach) as [c Ec]; [done|].
  destruct (not_none club) as [k Ek]; [done|].
  pose proof (player_names_columns s p) as (Hn & Hp & Hb & Hc & Hk).
  assert (Hs : sound_application s (player_names s p)).
  { split.
    - by rewrite Hn.
    - by rewrite Hp.
    - unfold related_exist. rewrite Hb, Hc, Hk. unfold p. cbn [with_columns pe_tkd_board pe_coach pe_club]. rewrite Eb, Ec, Ek. cbn [default from_option id]. split_and!; intros j ->.
      + apply board_ok_some. by apply related_key_ok in Eb.
      + apply club_ok_some. by apply related_key_ok in Ek.
      + apply coach_ok_some. by apply related_key_ok in Ec. }
  unfold bind. rewrite insert_pending_ok by (by apply (sound_no_conflict s _ _ Hs)). rewrite save_added. intros [= <- <-].
  right; left. exists (mkPending (player_names s p) ∅). by split_and!.
Qed.

(** Assigning clubs leaves the numbers, the board and the coach alone. *)
Lemma assign_clubs_columns s ids row : let q := pu_person (assign_clubs s ids row) in let p := pu_person row in
  pe_national_code q = pe_national_code p ∧ pe_phone q = pe_phone p ∧ pe_tkd_board q = pe_tkd_board p ∧ pe_coach q = pe_coach p ∧
  (pe_club q = pe_club p ∨ ∃ k, pe_club q = Some k ∧ is_Some (ac_clubs s !! k)).
Proof.
  unfold assign_clubs. destruct ids as [|k ids]; [by split_and!; auto|]. cbv zeta. cbn [pu_person].
  destruct (club_ok s k) eqn:E; split_and!; try done; [|by left]. right. exists k. split; [done|by apply club_ok_some].
Qed.

Lemma coach_form_numbers f types : pe_national_code (coach_person f types) = pe_national_code (cf_person f) ∧
  pe_phone (coach_person f types) = pe_phone (cf_person f).
Proof. done. Qed.

Lemma coach_coach_cases raw v : coach_coach raw = Ok v → (∃ c, v = RowId c) ∨ v = NoRow.
Proof.
  unfold coach_coach. destruct raw as [c|]; [|intros [= <-]; by right]. destruct (_ && _); [|intros [= <-]; by right].
  destruct (digit_id c) as [[k|]|e]; intros [= <-]; [left; by exists k|by right].
Qed.

Lemma coach_coach_readable raw : number_text (default "" raw) = true → ∃ v, coach_coach raw = Ok v.
Proof.
  unfold coach_coach. destruct raw as [c|]; [|by eexists]. cbn. intros [k E]%digit_id_readable. rewrite E.
  destruct (_ && _); [|by eexists]. by destruct k; eexists.
Qed.

Lemma text_or_id_readable t : number_text t = true → ∃ v, text_or_id t = Ok v.
Proof. intros [k E]%digit_id_readable. unfold text_or_id. rewrite E. by destruct k; eexists. Qed.

(** A form that can be read is read, and its referee types raise nothing later. *)
Lemma readable_form f : form_readable f = true →
  ∃ x, read_coach_form f = Ok x ∧ ∀ q, ∃ errors, referee_errors (ci_referee_types x) q = Ok errors.
Proof.
  unfold form_readable. rewrite !andb_true_iff.
  intros [[[(rt & E1 & (types & E2) & Herr)%dict_of_dicts_ok (clubs & ids & E3 & E4)%clubs_readable_ok]
    (board & E5)%text_or_id_readable] (coach & E6)%coach_coach_readable].
  exists (mkCoachInputs rt ids types board coach). split; [|exact Herr].
  unfold read_coach_form, mbind, result_mbind. by rewrite E1, E3, E4, E2, E5, E6.
Qed.

Lemma read_form_coach f x : read_coach_form f = Ok x → (∃ c, ci_coach x = RowId c) ∨ ci_coach x = NoRow.
Proof.
  unfold read_coach_form, mbind, result_mbind. intros H.
  repeat (match type of H with match ?r with _ => _ end = _ => destruct r eqn:?; [|discriminate H] end).
  injection H as <-. by eapply coach_coach_cases.
Qed.

(** Assigning the clubs keeps an application sound, as does filling in names. *)
Lemma assigned_sound s ids row q : sound_application s (pu_person row) →
  pe_national_code q = pe_national_code (pu_person row) → pe_phone q = pe_phone (pu_person row) →
  pe_tkd_board q = pe_tkd_board (pu_person row) → pe_coach q = pe_coach (pu_person row) →
  pe_club q = pe_club (pu_person (assign_clubs s ids row)) → sound_application s q.
Proof.
  intros [H1 H2 (H3 & H4 & H5)] En Ep Hb Hc Hk. pose proof (assign_clubs_columns s ids row) as (_ & _ & _ & _ & Ak).
  split; [by rewrite En|by rewrite Ep|]. unfold related_exist. rewrite Hb, Hc, Hk. split_and!; [done| |done].
  intros j Hj. destruct Ak as [Ak|(j' & Ak & Hj')]; rewrite Ak in Hj; [by apply H4|]. by injection Hj as <-.
Qed.

(** A coach form that can be read is refused before anything is stored, or stored whole: the
    two refusals that come after the first write do not occur. One that cannot may get the
    error answer, and then nothing is stored. *)
Lemma register_coach_outcome f s r s' : register_coach f s = (r, s') →
  (∃ l, r = Ok (Invalid l) ∧ l ≠ [] ∧ s' = s) ∨
  (∃ row, r = Ok ApplicationStored ∧ s' = add_pending s row ∧ sound_application s (pu_person row) ∧
     pe_national_code (pu_person row) = normalize_digits (pe_national_code (cf_person f)) ∧
     pe_phone (pu_person row) = normalize_digits (pe_phone (cf_person f))) ∨
  (r = Ok Crashed ∧ s' = s ∧ form_readable f = false).
Proof.
  assert (Hread : form_readable f = false ∨
    ∃ x, read_coach_form f = Ok x ∧ ∀ q, ∃ errors, referee_errors (ci_referee_types x) q = Ok errors).
  { destruct (form_readable f) eqn:E; [right; by apply readable_form|by left]. }
  unfold register_coach, try_catch. unfold bind at 1, get. rewrite bind_lift.
  destruct (read_coach_form f) as [x|e] eqn:Ex.
  2: { intros [= <- <-]. right; right. destruct Hread as [?|(x & [=] & _)]. done. }
  pose proof (read_form_coach f x Ex) as Hcoach. cbv zeta. destruct (coach_form_numbers f (ci_types x)) as [-> ->].
  set (board := related_key (board_ok s) _). set (coach := related_key (coach_ok s) _).
  destruct (failing _) as [|n l] eqn:Ef; [|intros [= <- <-]; left; eexists; by split_and!].
  destruct (negb (pe_confirm_info _)); [intros [= <- <-]; left; eexists; by split_and!|].
  rewrite bind_lift. destruct (referee_errors _ _) as [[|n l]|e] eqn:Ere; [|intros [= <- <-]; left; eexists; by split_and!|].
  2: { intros [= <- <-]. right; right. destruct Hread as [?|(y & [= <-] & He)]; [done|].
       destruct (He (coach_person f (ci_types x))) as [? ?]. congruence. }
  rewrite !failing_cons in Ef. destruct Ef as (Ecode & Ephone & _ & _ & Eboard & Ecoach & _).
  set (row := mkPending (with_columns _ _ _ _ _ _ _) ∅).
  destruct (not_none board) as [b Eb]; [done|]. destruct (not_none coach) as [c Ec]; [done|].
  assert (Hs : sound_application s (pu_person row)).
  { split; [done|done|]. unfold related_exist, row. cbn [pu_person with_columns pe_tkd_board pe_coach pe_club].
    rewrite Eb, Ec. cbn [default from_option id]. split_and!; intros j Hj; [|done|]; subst.
    - apply board_ok_some. by apply related_key_ok in Eb.
    - apply coach_ok_some. by apply related_key_ok in Ec. }
  unfold bind at 1. rewrite insert_pending_ok by by apply (sound_no_conflict s _ _ Hs).
  unfold bind at 1. rewrite save_added.
  pose proof (assign_clubs_columns s (ci_clubs x) row) as (An & Ap & Ab & Ac & _).
  pose proof (λ q, assigned_sound s (ci_clubs x) row q Hs) as Hdone. set (row2 := assign_clubs s (ci_clubs x) row) in *.
  unfold coach in Ec. destruct Hcoach as [[c' Ecc]|Ecc]; rewrite Ecc in Ec |- *.
  - cbn in Ec. destruct (coach_ok s c') eqn:Ek; [|done]. injection Ec as <-.
    destruct (coach_ok_some s c' Ek) as (y & Hy & _). rewrite Hy.
    assert (String.eqb (pe_phone (pf_person y)) (normalize_digits (pe_phone (cf_person f))) = false) as ->.
    { apply String.eqb_neq. intros Heq. unfold phone_ok, unused in Ephone. rewrite !andb_true_iff, !negb_true_iff in Ephone.
      destruct Ephone as (_ & _ & Hu). rewrite exists_row_false in Hu. specialize (Hu c' y Hy). unfold SmsCodes.same in Hu.
      by rewrite Heq, String.eqb_refl in Hu. }
    cbn [bind ret]. unfold bind, ret. cbv zeta. rewrite save_added. intros [= <- <-]. right; left. eexists. split_and!; [done..| | | ].
    + apply Hdone; cbn; try done. unfold coach. rewrite Ecc. cbn. by rewrite Ek.
    + cbn. by rewrite An.
    + cbn. by rewrite Ap.
  - unfold bind, ret. cbv zeta. rewrite save_added. intros [= <- <-]. right; left. eexists. split_and!; [done..| | | ].
    + apply Hdone; cbn; done.
    + cbn. by rewrite An.
    + cbn. by rewrite Ap.
Qed.

(** A new club: its numbers and its name are in nobody's use, its phone is in order and
    its board exists. *)
Record sound_club (s : accounts) (c : ClubData) : Prop := {
  sc_phone : club_phone_ok (cd_phone c) = true;
  sc_license : cd_license_number c ≠ ""%string → number_used cd_license_number s (cd_license_number c) = false;
  sc_federation : cd_federation_id c ≠ ""%string → number_used cd_federation_id s (cd_federation_id c) = false;
  sc_place : cd_club_name c ≠ ""%string → strip (cd_city c) ≠ ""%string →
    (∀ k x, ac_clubs s !! k = Some x → same_place (cd_club_name c) (strip (cd_city c)) (cb_data x) = false) ∧
    (∀ k x, ac_pending_clubs s !! k = Some x → same_place (cd_club_name c) (strip (cd_city c)) (pc_data x) = false);
  sc_board : ∀ k, cd_tkd_board c = Some k → is_Some (ac_boards s !! k);
}.

Lemma text_given t : truthy_str t = true ↔ t ≠ ""%string.
Proof. unfold truthy_str. by rewrite negb_true_iff, String.eqb_neq. Qed.

Lemma club_errors_nil s name city license federation : club_errors s name city license federation = [] →
  (name ≠ ""%string → city ≠ ""%string →
    (∀ k x, ac_clubs s !! k = Some x → same_place name city (cb_data x) = false) ∧
    (∀ k x, ac_pending_clubs s !! k = Some x → same_place name city (pc_data x) = false)) ∧
  (license ≠ ""%string → number_used cd_license_number s license = false) ∧
  (federation ≠ ""%string → number_used cd_federation_id s federation = false).
Proof.
  unfold club_errors. destruct (_ && (_ || _)) eqn:Ep; [done|]. destruct (_ && number_used cd_license_number _ _) eqn:El; [done|].
  destruct (_ && number_used cd_federation_id _ _) eqn:Ef; [done|]. intros _.
  split_and!.
  - intros Hn%text_given Hc%text_given. rewrite Hn, Hc in Ep. apply orb_false_iff in Ep. by rewrite !exists_row_false in Ep.
  - intros Hl%text_given. by rewrite Hl in El.
  - intros Hf%text_given. by rewrite Hf in Ef.
Qed.

Lemma register_club_outcome f s r s' : register_club f s = (r, s') →
  (∃ l, r = Ok (Invalid l) ∧ l ≠ [] ∧ s' = s) ∨
  (r = Err IntegrityError ∧ s' = s ∧ ∃ k x, ac_pending_clubs s !! k = Some x ∧
     same (cd_club_name (pc_data x)) (strip (cd_club_name (bf_data f))) = true ∧
     same (cd_city (pc_data x)) (cd_city (bf_data f)) = true) ∨
  (∃ row, r = Ok ApplicationStored ∧ s' = add_pending_club s row ∧ sound_club s (pc_data row) ∧
     exists_row (pending_club_conflict row) (ac_pending_clubs s) = false ∧
     cd_club_name (pc_data row) = strip (cd_club_name (bf_data f)) ∧
     cd_license_number (pc_data row) = normalize_digits (strip (cd_license_number (bf_data f)))).
Proof.
  unfold register_club. unfold bind at 1, get. cbv zeta.
  destruct (truthy_str _ && number_used cd_license_number _ _); [intros [= <- <-]; left; eexists; by split_and!|].
  destruct (truthy_str _ && number_used cd_federation_id _ _); [intros [= <- <-]; left; eexists; by split_and!|].
  set (board := related_key (board_ok s) _).
  destruct (failing _) as [|n l] eqn:Ef; [|intros [= <- <-]; left; eexists; by split_and!].
  destruct (club_errors _ _ _ _ _) as [|n l] eqn:Ec; [|intros [= <- <-]; left; eexists; by split_and!].
  rewrite !failing_cons in Ef. destruct Ef as (Ephone & _ & _ & Eboard & _).
  destruct (not_none board) as [b Eb]; [done|]. apply club_errors_nil in Ec as (Hplace & Hlic & Hfid).
  set (row := mkPendingClub _ _). unfold bind at 1.
  destruct (insert_club_cases row s) as [[-> Hsame]|[Hfree ->]]; intros [= <- <-]; right; [left|right].
  { split_and!; try done. apply exists_row_true in Hsame as (k & x & Hx & [Hn Hc]%andb_true_iff). by exists k, x. }
  exists row. split_and!; try done. split; try done.
  unfold row. cbn [pc_data club_columns cd_tkd_board]. rewrite Eb. cbn. intros k ->. apply board_ok_some.
  by apply related_key_ok in Eb.
Qed.

(** The row that an edit is written to: that of the profile, or a new one. *)
Inductive edit_row (s : accounts) (original : Z) : Z → Z → Prop :=
  | edit_row_old k e : ac_edits s !! k = Some e → ed_original_user e = original → edit_row s original k (ac_next_id s)
  | edit_row_new : (∀ k e, ac_edits s !! k = Some e → ed_original_user e ≠ original) →
      edit_row s original (ac_next_id s) (ac_next_id s + 1).

(** The state with the edit [e] in row [k]. *)
Definition with_edit (s : accounts) (k next : Z) (e : PendingEditProfile) : accounts :=
  set_ac_edits (<[k := e]> (ac_edits s)) (set_ac_next_id next s).

Lemma save_edit_twice s k next e1 e2 : save_edit k e2 (with_edit s k next e1) = (Ok tt, with_edit s k next e2).
Proof.
  unfold save_edit, modify, with_edit. destruct s as [us ps cs bs pe pc ed sm rq nx]. cbn. by rewrite insert_insert_eq.
Qed.

Lemma lower_digits t : all_digits t = true → lower t = t.
Proof.
  rewrite all_digits_chars. induction t as [|c t IH]; [done|]. cbn. intros [Hc Ht]%andb_true_iff.
  rewrite IH by done. by destruct (date_char_cases c (digit_date_char c Hc)) as (_ & _ & _ & ->).
Qed.

Lemma digits_not_junk t : all_digits t = true → truthy_str t = true → String.eqb t "other" || _is_junk_str t = false.
Proof.
  intros Ht Hne. apply orb_false_iff. split.
  - apply String.eqb_neq. by intros ->.
  - unfold _is_junk_str. apply bool_decide_eq_false. rewrite strip_date.
    2: { rewrite all_digits_chars in Ht. revert Ht. apply all_chars_impl, digit_date_char. }
    rewrite lower_digits by done. rewrite !elem_of_cons.
    intros [->|[->|[->|[->|[]%not_elem_of_nil]]]]; vm_compute in Ht, Hne; discriminate.
Qed.

(** The words the view takes for no coach are not made of digits. *)
Lemma space_ascii c : is_space c = true → Nat.ltb (nat_of_ascii c) 128 = true.
Proof.
  unfold is_space. rewrite orb_true_iff, !andb_true_iff, !Nat.leb_le, Nat.ltb_lt. lia.
Qed.

Lemma ascii_lstrip t : all_chars (λ c, Nat.ltb (nat_of_ascii c) 128) (lstrip t) = true → all_chars (λ c, Nat.ltb (nat_of_ascii c) 128) t = true.
Proof. induction t as [|c t IH]; [done|]. cbn [lstrip]. destruct (is_space c) eqn:E; [|done]. intros H. cbn [all_chars]. rewrite (space_ascii c E). by apply IH. Qed.

Lemma ascii_rstrip t : all_chars (λ c, Nat.ltb (nat_of_ascii c) 128) (rstrip t) = true → all_chars (λ c, Nat.ltb (nat_of_ascii c) 128) t = true.
Proof.
  induction t as [|c t IH]; [done|]. cbn [rstrip]. cbv zeta. destruct (String.eqb_spec (rstrip t) "") as [Hr|]; cbn [andb].
  - destruct (is_space c) eqn:E; cbn [all_chars].
    + intros _. rewrite (space_ascii c E). apply IH. by rewrite Hr.
    + intros [-> H]%andb_true_iff. by apply IH.
  - cbn [all_chars]. intros [-> H]%andb_true_iff. by apply IH.
Qed.

Lemma ascii_lower t : all_chars (λ c, Nat.ltb (nat_of_ascii c) 128) (lower t) = true → all_chars (λ c, Nat.ltb (nat_of_ascii c) 128) t = true.
Proof.
  induction t as [|c t IH]; [done|]. cbn [lower all_chars]. intros [Hc Ht]%andb_true_iff. rewrite (IH Ht), andb_true_r.
  unfold lower_ascii in Hc. destruct (_ && _) eqn:E; [|done]. apply andb_true_iff in E as [_ E%Nat.leb_le]. apply Nat.ltb_lt. lia.
Qed.

Lemma ascii_isdigit t : all_chars (λ c, Nat.ltb (nat_of_ascii c) 128) t = true → isdigit t = true → all_digits t = true.
Proof.
  intros Ha. unfold isdigit. intros [_ Hd]%andb_true_iff. rewrite chars_ascii in Hd by done. rewrite all_digits_chars.
  clear Ha. induction t as [|c t IH]; [done|]. cbn in *. apply andb_true_iff in Hd as [Hc Ht]. rewrite (IH Ht), andb_true_r.
  destruct c as [[] [] [] [] [] [] [] []]; first [reflexivity|vm_compute in Hc; discriminate Hc].
Qed.

Lemma isdigit_not_junk t : isdigit t = true → String.eqb t "other" || _is_junk_str t = false.
Proof.
  intros Hd. destruct (String.eqb t "other" || _is_junk_str t) eqn:E; [|done]. rewrite <- E.
  apply digits_not_junk; [|unfold isdigit in Hd; by destruct (truthy_str t)].
  apply ascii_isdigit; [|done]. apply orb_true_iff in E as [->%String.eqb_eq|E]; [reflexivity|].
  apply ascii_lstrip, ascii_rstrip, ascii_lower. unfold _is_junk_str in E. apply bool_decide_eq_true in E. unfold strip in E.
  rewrite !elem_of_cons in E. by destruct E as [->|[->|[->|[->|[]%not_elem_of_nil]]]].
Qed.

(** What the view makes of the posted coach is what it looks up later. *)
Lemma edit_coach_id raw v : edit_coach raw = Ok v →
  ∃ k, posted_id raw = Ok k ∧ ∀ c, k = Some c → v = Some (RowId c).
Proof.
  unfold edit_coach, posted_id. destruct raw as [t|]; [|by exists None].
  destruct (isdigit t) eqn:Ed.
  - rewrite isdigit_not_junk by done. destruct (digit_id t) as [[k|]|e]; intros [= <-]; (eexists; split; [done|]); by intros c [= <-].
  - assert (digit_id t = Ok None) as -> by (unfold digit_id; by rewrite Ed). by exists None.
Qed.

Lemma kept_club_id raw ok old : kept_key (RowText <$> raw) ok old ≠ None → ∃ k, posted_id raw = Ok k.
Proof.
  unfold posted_id. destruct raw as [t|]; [|by eexists]. cbn. unfold digit_id. destruct (isdigit t) eqn:Ed; [|by eexists].
  destruct t as [|c t]; [done|]. destruct (int_text (String c t)); [by eexists|done].
Qed.

Lemma related_key_id ok c k : related_key ok (RowId c) = Some k → k = Some c.
Proof. cbn. destruct (ok c); [by intros [= <-]|done]. Qed.

(** What a request for an edit may do: nothing, or write one row for the profile of the
    user. A refusal because of the coach also leaves a row, and one that names the coach. An
    exception comes before the first write. *)
Lemma update_profile_outcome user f s r s' : update_profile user f s = (r, s') →
  (r = Ok NoOwnProfile ∧ profile_of s user = None ∧ s' = s) ∨ (∃ l, r = Ok (Invalid l) ∧ l ≠ [] ∧ s' = s) ∨
  (∃ original profile k next e, profile_of s user = Some (original, profile) ∧ edit_row s original k next ∧
     s' = with_edit s k next e ∧ ed_original_user e = original ∧
     (r = Ok ApplicationStored ∨
      r = Ok OwnCoach ∧ ∃ t c x, ef_coach f = Some t ∧ digit_id t = Ok (Some c) ∧ ac_profiles s !! c = Some x ∧
        pe_phone (pf_person x) = pe_phone (pf_person profile) ∧ pe_coach (ed_person e) = Some c)) ∨
  (∃ e, r = Err e ∧ s' = s).
Proof.
  unfold update_profile. unfold bind at 1, get. destruct (profile_of s user) as [[original profile]|] eqn:Eo.
  2: { intros [= <- <-]. by left. }
  cbv zeta. set (existing := edit_of s original). set (old := match existing with Some ke => ed_person ke.2 | None => new_edit end).
  rewrite bind_lift. destruct (digit_ids _) as [ids|e]; [|intros [= <- <-]; right; right; right; by exists e].
  rewrite bind_lift. destruct (edit_types _) as [types|e]; [|intros [= <- <-]; right; right; right; by exists e].
  rewrite bind_lift. destruct (edit_coach (ef_coach f)) as [posted|e] eqn:Eco; [|intros [= <- <-]; right; right; right; by exists e].
  cbv zeta.
  set (board := kept_key _ (board_ok s) _). set (coach := kept_key _ (coach_ok s) _). set (club := kept_key _ (club_ok s) _).
  destruct (failing _) as [|n l] eqn:Ef; [|intros [= <- <-]; right; left; eexists; by split_and!].
  destruct (edit_errors f types) as [|n l]; [|intros [= <- <-]; right; left; eexists; by split_and!].
  rewrite !failing_cons in Ef. destruct Ef as (_ & _ & _ & _ & _ & Ecoach & Eclub & _).
  destruct (edit_coach_id _ _ Eco) as (named & Enamed & Hnamed).
  destruct (kept_club_id (ef_club f) (club_ok s) (pe_club old)) as [posted_club Epc].
  { fold club. by destruct club. }
  set (p := related_columns _ _ _ _).
  assert (Hrow : ∃ k next s1, (match existing with Some ke => ret ke.1 | None => fresh end) s = (Ok k, s1) ∧ edit_row s original k next ∧
            ∀ e, save_edit k e s1 = (Ok tt, with_edit s k next e)).
  { unfold existing, edit_of. destruct (first_row _ (ac_edits s)) as [[k e]|] eqn:E.
    - apply first_row_some in E as [Hk He%Z.eqb_eq]. exists k, (ac_next_id s), s. split; [done|]. split; [by eapply edit_row_old|].
      intros e'. unfold save_edit, modify, with_edit. by destruct s.
    - exists (ac_next_id s), (ac_next_id s + 1), (set_ac_next_id (ac_next_id s + 1) s). split; [done|]. split; [|by intros].
      apply edit_row_new. intros k e Hk. rewrite first_row_none in E. by apply Z.eqb_neq, (E k). }
  destruct Hrow as (k & next & s1 & E1 & Hrow & Hsave). unfold bind at 1. rewrite E1. unfold bind at 1. rewrite Hsave.
  rewrite Enamed, bind_lift.
  assert (Hstore : ∀ q e1, (posted_club <~ lift (posted_id (ef_club f)) ;;
      let p := edit_clubs s posted_club ids q in
      let p := set_pe_role (role_of_flags p) p in
      let p := match pe_tkd_board p ≫= (ac_boards s !!.) with Some b => set_pe_tkd_board_name (br_name b) p | None => p end in
      save_edit k (mkEdit original p (clubs_set s ids)) ;;; ret ApplicationStored)%monad (with_edit s k next e1) = (r, s') →
    ∃ e, s' = with_edit s k next e ∧ ed_original_user e = original ∧ r = Ok ApplicationStored).
  { intros q e1. rewrite Epc, bind_lift. cbv zeta. unfold bind, ret. rewrite save_edit_twice. intros [= <- <-]. by eexists. }
  assert (Hend : (∃ e, s' = with_edit s k next e ∧ ed_original_user e = original ∧ r = Ok ApplicationStored) →
    ∃ e, s' = with_edit s k next e ∧ ed_original_user e = original ∧
     (r = Ok ApplicationStored ∨
      r = Ok OwnCoach ∧ ∃ t c x, ef_coach f = Some t ∧ digit_id t = Ok (Some c) ∧ ac_profiles s !! c = Some x ∧
        pe_phone (pf_person x) = pe_phone (pf_person profile) ∧ pe_coach (ed_person e) = Some c)).
  { intros (e & ? & ? & ?). exists e. by split_and!; [..|left]. }
  intros Hrun. right; right; left. exists original, profile, k, next.
  enough (∃ e, s' = with_edit s k next e ∧ ed_original_user e = original ∧
     (r = Ok ApplicationStored ∨
      r = Ok OwnCoach ∧ ∃ t c x, ef_coach f = Some t ∧ digit_id t = Ok (Some c) ∧ ac_profiles s !! c = Some x ∧
        pe_phone (pf_person x) = pe_phone (pf_person profile) ∧ pe_coach (ed_person e) = Some c)) as (e & ? & ? & ?) by (by exists e).
  destruct named as [c|]; [|eapply Hend, Hstore, Hrun].
  destruct (ac_profiles s !! c) as [x|] eqn:Ex; [|eapply Hend, Hstore, Hrun].
  destruct (String.eqb_spec (pe_phone (pf_person x)) (pe_phone (pf_person profile))) as [Heq|Hne]; [|eapply Hend, Hstore, Hrun].
  unfold bind, ret in Hrun. injection Hrun as <- <-. eexists. split_and!; [done..|]. right. split; [done|].
  unfold posted_id in Enamed. destruct (ef_coach f) as [t|]; [|done]. exists t, c, x. split_and!; try done.
  unfold p. cbn [ed_person related_columns with_columns pe_coach]. destruct (not_none coach Ecoach) as [q Eq].
  rewrite Eq. unfold coach in Eq. rewrite (Hnamed c eq_refl) in Eq. cbn [kept_key] in Eq. by rewrite (related_key_id _ _ _ Eq).
Qed.
End applications.
