(* ===== verification/ApplicationPaths.v ===== *)
(** What becomes of the forms of [Applications]: they are refused or stored whole, the
    applications stay distinct through all requests of [Membership], a stored application
    can be approved, and a refused edit is stored nevertheless. *)

From S2P Require Import Prelude Store Ranking Payments GroupRegistration Text Accounts SmsCodes CoachClubs Membership ApprovalPaths Applications.
Local Open Scope Z_scope.

(** ** The other requests only take applications away *)

Definition shrinks (s s' : accounts) : Prop :=
  ac_pending s' ⊆ ac_pending s ∧ ac_pending_clubs s' ⊆ ac_pending_clubs s ∧ ac_edits s' ⊆ ac_edits s ∧
  ac_next_id s <= ac_next_id s'.
Definition shrinks_conn (c c' : conn) : Prop := shrinks (cn_db c) (cn_db c').
Definition shrinks_world (w w' : world) : Prop := shrinks (w_db w) (w_db w').

#[local] Instance shrinks_preorder : PreOrder shrinks.
Proof.
  split; unfold shrinks; [by intros s; split_and!|]. intros a b c (?&?&?&?) (?&?&?&?). split_and!; [by etrans..|lia].
Qed.
#[local] Instance shrinks_conn_preorder : PreOrder shrinks_conn.
Proof. split; unfold shrinks_conn; [by intros c|]. intros a b c ??. by etrans. Qed.
#[local] Instance shrinks_world_preorder : PreOrder shrinks_world.
Proof. split; unfold shrinks_world; [by intros c|]. intros a b c ??. by etrans. Qed.

Lemma shrinks_same s s' : ac_pending s' = ac_pending s → ac_pending_clubs s' = ac_pending_clubs s → ac_edits s' = ac_edits s →
  ac_next_id s <= ac_next_id s' → shrinks s s'.
Proof. unfold shrinks. by intros -> -> ->. Qed.

(** A write of another table, and the deletion of an application. *)
Ltac shrinks_write :=
  apply guarantees_modify; intros s;
  first [ apply shrinks_same; [done..|cbn; lia]
        | unfold shrinks; cbn; split_and!; (apply delete_subseteq || done || lia) ].

Lemma fresh_shrinks : guarantees shrinks fresh.
Proof. intros s. apply shrinks_same; [done..|cbn; lia]. Qed.

#[local] Hint Resolve fresh_shrinks : guarantees.
#[local] Hint Extern 1 (guarantees shrinks (modify _)) => shrinks_write : guarantees.

Section shrinking.
Context (collate : string → string) (iexact : string → string → bool) (sms_enabled : bool).

Lemma insert_user_shrinks u : guarantees shrinks (insert_user u).
Proof. unfold insert_user. guarantee. Qed.
Lemma create_profile_shrinks p : guarantees shrinks (create_profile collate p).
Proof. unfold create_profile. guarantee. Qed.
Lemma create_club_shrinks c : guarantees shrinks (create_club collate c).
Proof. unfold create_club. guarantee. Qed.
Lemma delete_pending_shrinks pk : guarantees shrinks (delete_pending pk).
Proof. unfold delete_pending. guarantee. Qed.
Lemma delete_pending_club_shrinks pk : guarantees shrinks (delete_pending_club pk).
Proof. unfold delete_pending_club. guarantee. Qed.
Lemma delete_edit_shrinks pk : guarantees shrinks (delete_edit pk).
Proof. unfold delete_edit. guarantee. Qed.

#[local] Hint Resolve insert_user_shrinks create_profile_shrinks create_club_shrinks delete_pending_shrinks
  delete_pending_club_shrinks delete_edit_shrinks : guarantees.

Lemma get_or_create_user_shrinks phone nc : guarantees shrinks (get_or_create_auth_user_by_phone collate phone nc).
Proof. unfold get_or_create_auth_user_by_phone, set_password. guarantee. Qed.
Lemma create_from_pending_shrinks p u b1 b2 : guarantees shrinks (create_profile_from_pending collate p u b1 b2).
Proof. unfold create_profile_from_pending. guarantee. Qed.
Lemma approve_pending_user_shrinks pk : guarantees shrinks (approve_pending_user collate pk).
Proof. unfold approve_pending_user. guarantee. Qed.
Lemma approve_pending_club_shrinks pk : guarantees shrinks (approve_pending_club collate iexact pk).
Proof. unfold approve_pending_club. guarantee. Qed.
Lemma approve_edited_shrinks pk : guarantees shrinks (approve_edited_profile pk).
Proof. unfold approve_edited_profile. guarantee. Qed.
Lemma get_or_create_request_shrinks coach club t : guarantees shrinks (get_or_create_request coach club t).
Proof. unfold get_or_create_request. guarantee. Qed.
Lemma own_profile_shrinks user : guarantees shrinks (own_profile user).
Proof. unfold own_profile. guarantee. Qed.

#[local] Hint Resolve get_or_create_user_shrinks create_from_pending_shrinks approve_pending_user_shrinks
  approve_pending_club_shrinks approve_edited_shrinks get_or_create_request_shrinks own_profile_shrinks : guarantees.

Lemma request_add_shrinks club k : guarantees shrinks (request_add club k).
Proof. unfold request_add. guarantee. Qed.
Lemma request_remove_shrinks club k : guarantees shrinks (request_remove club k).
Proof. unfold request_remove. guarantee. Qed.

#[local] Hint Resolve request_add_shrinks request_remove_shrinks : guarantees.

Lemma serve_club_shrinks order q : guarantees shrinks (serve_club order q).
Proof.
  destruct q as [user ids|user selected|user pk action]; cbn [serve_club];
    [unfold update_coach_clubs|unfold update_club_coaches|unfold respond]; guarantee.
Qed.

Lemma serve_shrinks clk rand q : guarantees shrinks (serve collate clk rand q).
Proof.
  intros s. destruct (serve collate clk rand q s) as [r s'] eqn:E. apply serve_outcome in E. cbn.
  destruct E; apply shrinks_same; (done || cbn; lia).
Qed.

#[local] Hint Resolve serve_club_shrinks serve_shrinks : guarantees.

Lemma query_shrinks {A} (m : M accounts A) : guarantees shrinks m → guarantees shrinks_conn (query m).
Proof.
  intros Hm c. unfold query. destruct (cn_broken c); [reflexivity|]. specialize (Hm (cn_db c)).
  destruct (m (cn_db c)) as [[a|e] s']; cbn in *; [exact Hm|]. unfold shrinks_conn. reflexivity.
Qed.

Lemma transaction_shrinks {A} (m : M conn A) : guarantees shrinks_conn m → guarantees shrinks_world (transaction m).
Proof.
  intros Hm w. unfold transaction. specialize (Hm (mkConn (w_db w) false (w_outbox w))).
  destruct (m _) as [[a|e] c]; cbn in *; [|unfold shrinks_world; reflexivity].
  unfold shrinks_world. cbn. destruct (cn_broken c); [reflexivity|exact Hm].
Qed.

Lemma on_db_shrinks {A} (m : M accounts A) : guarantees shrinks m → guarantees shrinks_world (on_db m).
Proof. intros Hm w. unfold on_db. specialize (Hm (w_db w)). by destruct (m (w_db w)). Qed.

Lemma send_sms_shrinks phone nc : guarantees shrinks_conn (send_approve_credentials_sms sms_enabled phone nc).
Proof.
  unfold send_approve_credentials_sms. guarantee. apply guarantees_modify. intros c. unfold shrinks_conn. reflexivity.
Qed.

#[local] Hint Resolve query_shrinks transaction_shrinks on_db_shrinks send_sms_shrinks : guarantees.

Lemma approve_application_shrinks a row : guarantees shrinks_conn (approve_application collate sms_enabled a row).
Proof. destruct row as [pk p]. unfold approve_application. guarantee. Qed.
Lemma approve_club_shrinks row : guarantees shrinks_conn (approve_club collate sms_enabled row).
Proof. destruct row as [pk p]. unfold approve_club. guarantee. Qed.
Lemma approve_edit_shrinks row : guarantees shrinks_conn (approve_edit row).
Proof. destruct row as [pk e]. unfold approve_edit. guarantee. Qed.

#[local] Hint Resolve approve_application_shrinks approve_club_shrinks approve_edit_shrinks : guarantees.

Lemma serve_account_shrinks q w : shrinks_world w (serve_account collate iexact sms_enabled q w).
Proof.
  revert w. destruct q as [pk|a l|a pk|pk|l|pk|l|clk rand q|order q]; cbn [serve_account];
    [apply (on_db_shrinks (approve_pending_user collate pk))|unfold approve_applications|unfold approve_single_application
    |apply (on_db_shrinks (approve_pending_club collate iexact pk))|unfold approve_clubs
    |apply (on_db_shrinks (approve_edited_profile pk))|unfold approve_edits
    |apply (on_db_shrinks (serve collate clk rand q))|apply (on_db_shrinks (serve_club order q))];
    try (match goal with |- ∀ w, shrinks_world w ((transaction ?m) w).2 => apply (transaction_shrinks m) end); guarantee.
Qed.
End shrinking.

(** ** Applications stay distinct *)

Section paths.
Context (collate : string → string) (iexact : string → string → bool) (sms_enabled : bool).
Local Abbreviation accounts_wf := (accounts_wf collate).
Local Abbreviation serve_application := (serve_application collate iexact).
Local Abbreviation serve_account := (serve_account collate iexact sms_enabled).
Local Abbreviation sound_application := (sound_application collate).
Local Abbreviation sound_club := (sound_club iexact).
Local Abbreviation update_profile := (update_profile collate).

Definition other_applicant (a b : PendingUserProfile) : Prop := pending_conflict collate a b = false.
Definition other_pending_club (a b : PendingClub) : Prop := pending_club_conflict collate a b = false.
Definition other_original (a b : PendingEditProfile) : Prop := ed_original_user a ≠ ed_original_user b.

Lemma other_applicant_sym a b : other_applicant a b → other_applicant b a.
Proof.
  unfold other_applicant, pending_conflict.
  by rewrite (same_sym collate (pe_national_code _)), (same_sym collate (pe_phone _)).
Qed.
Lemma other_pending_club_sym a b : other_pending_club a b → other_pending_club b a.
Proof.
  unfold other_pending_club, pending_club_conflict.
  by rewrite (same_sym collate (cd_club_name _)), (same_sym collate (cd_city _)).
Qed.
Lemma other_original_sym a b : other_original a b → other_original b a.
Proof. unfold other_original. congruence. Qed.

(** Keys are below the counter; applications have distinct national codes and phones,
    waiting clubs distinct names within a city, and a profile at most one edit. *)
Record applications_wf (s : accounts) : Prop := {
  aw_pending_keys : ∀ k p, ac_pending s !! k = Some p → k < ac_next_id s;
  aw_club_keys : ∀ k c, ac_pending_clubs s !! k = Some c → k < ac_next_id s;
  aw_edit_keys : ∀ k e, ac_edits s !! k = Some e → k < ac_next_id s;
  aw_pending : pairwise other_applicant (ac_pending s);
  aw_clubs : pairwise other_pending_club (ac_pending_clubs s);
  aw_edits : pairwise other_original (ac_edits s);
}.

Lemma pairwise_subseteq {A} (R : A → A → Prop) (t t' : gmap Z A) : t' ⊆ t → pairwise R t → pairwise R t'.
Proof. intros Hsub Ht i j a b Ha Hb. apply Ht; by eapply lookup_weaken. Qed.

Lemma keys_subseteq {A} (t t' : gmap Z A) n n' : t' ⊆ t → n <= n' → (∀ k a, t !! k = Some a → k < n) →
  ∀ k a, t' !! k = Some a → k < n'.
Proof. intros Hsub Hn Ht k a Ha. eapply lookup_weaken in Ha; [|done]. apply Ht in Ha. lia. Qed.

Lemma shrinks_wf s s' : shrinks s s' → applications_wf s → applications_wf s'.
Proof.
  intros (Hp & Hc & He & Hn) [? ? ? ? ? ?]. split;
    first [by eapply pairwise_subseteq | by eapply keys_subseteq].
Qed.

Lemma add_pending_wf s row : exists_row (pending_conflict collate row) (ac_pending s) = false →
  applications_wf s → applications_wf (add_pending s row).
Proof.
  rewrite exists_row_false. intros Hfree [Kp Kc Ke Wp Wc We]. split; cbn; try done; try by apply keys_later.
  - apply keys_insert; [done|lia].
  - apply pairwise_insert; [apply other_applicant_sym|done|]. intros j b Hb _. apply other_applicant_sym. by apply (Hfree j).
Qed.

Lemma add_pending_club_wf s row : exists_row (pending_club_conflict collate row) (ac_pending_clubs s) = false →
  applications_wf s → applications_wf (add_pending_club s row).
Proof.
  rewrite exists_row_false. intros Hfree [Kp Kc Ke Wp Wc We]. split; cbn; try done; try by apply keys_later.
  - apply keys_insert; [done|lia].
  - apply pairwise_insert; [apply other_pending_club_sym|done|].
    intros j b Hb _. apply other_pending_club_sym. by apply (Hfree j).
Qed.

Lemma with_edit_wf s original k next e : edit_row s original k next → ed_original_user e = original →
  applications_wf s → applications_wf (with_edit s k next e).
Proof.
  intros Hrow He [Kp Kc Ke Wp Wc We]. destruct Hrow as [k e0 Hk H0|Hnone]; split; cbn; try done; try by apply keys_later.
  - intros j x [[<- _]|[_ Hx]]%lookup_insert_Some; by eapply Ke.
  - apply pairwise_update with e0; [apply other_original_sym|done|done|]. unfold other_original. congruence.
  - apply keys_insert; [done|lia].
  - apply pairwise_insert; [apply other_original_sym|done|].
    intros j b Hb _. unfold other_original. rewrite He. by apply (Hnone j).
Qed.

(** The tables a form does not write to. *)
Lemma accounts_wf_later s s' : ac_users s' = ac_users s → ac_profiles s' = ac_profiles s → ac_clubs s' = ac_clubs s →
  ac_next_id s <= ac_next_id s' → accounts_wf s → accounts_wf s'.
Proof.
  intros Hu Hp Hc Hn [Ku Kp Kc Wu Wp Wc]. split; rewrite ?Hu, ?Hp, ?Hc; try done; intros k x Hk.
  - apply Ku in Hk. lia.
  - apply Kp in Hk. lia.
  - apply Kc in Hk. lia.
Qed.

Lemma serve_application_wf q s : accounts_wf s ∧ applications_wf s →
  accounts_wf (serve_application q s).2 ∧ applications_wf (serve_application q s).2.
Proof.
  intros [Ha Hw]. destruct (serve_application q s) as [r s'] eqn:E. cbn.
  assert (Hadd : ∀ row, sound_application s (pu_person row) →
    accounts_wf (add_pending s row) ∧ applications_wf (add_pending s row)).
  { intros row Hs. split; [by apply (accounts_wf_later s); try done; cbn; lia|].
    apply add_pending_wf; [by apply (sound_no_conflict collate s row _ Hs)|done]. }
  destruct q as [f|f|f|user f]; cbn in E.
  - apply (register_player_outcome collate iexact) in E as [(l & _ & _ & ->)|[(row & _ & -> & Hs & _)|(_ & -> & _)]]; [done|by apply Hadd|done].
  - apply (register_coach_outcome collate iexact) in E as [(l & _ & _ & ->)|[(row & _ & -> & Hs & _)|(_ & -> & _)]]; [done|by apply Hadd|done].
  - apply register_club_outcome in E as [(l & _ & _ & ->)|[(_ & -> & _)|(row & _ & -> & _ & Hf & _)]]; [done|done|].
    split; [by apply (accounts_wf_later s); try done; cbn; lia|by apply add_pending_club_wf].
  - apply (update_profile_outcome collate iexact) in E as [(_ & _ & ->)|[(l & _ & _ & ->)|[(o & p & k & n & e & _ & Hrow & -> & He & _)|(e & _ & ->)]]]; [done|done| |done].
    split; [|by eapply with_edit_wf]. apply (accounts_wf_later s); try done. cbn. destruct Hrow; lia.
Qed.

(** All requests about accounts: the forms, and the requests of [Membership]. *)
Inductive any_request :=
  | Apply (q : application_request)
  | Account (q : account_request).

Definition serve_any (q : any_request) (w : world) : world :=
  match q with
  | Apply q => (on_db (serve_application q) w).2
  | Account q => serve_account q w
  end.

(** C25: Through every sequence of registrations, profile edits, approvals, password resets
    and requests between clubs and coaches, waiting applications have distinct national
    codes and distinct phones, waiting clubs distinct names within a city, and every profile
    at most one edit; new keys are always free. *)
Theorem applications_stay_distinct qs w : accounts_wf (w_db w) → applications_wf (w_db w) →
  applications_wf (w_db (foldl (λ w q, serve_any q w) w qs)).
Proof.
  intros Ha Hw. assert (Hboth : accounts_wf (w_db w) ∧ applications_wf (w_db w)) by done. clear Ha Hw.
  enough (∀ qs w, accounts_wf (w_db w) ∧ applications_wf (w_db w) →
    accounts_wf (w_db (foldl (λ w q, serve_any q w) w qs)) ∧ applications_wf (w_db (foldl (λ w q, serve_any q w) w qs))) as Hall.
  { by apply Hall. }
  clear qs w Hboth. induction qs as [|q qs IH]; intros w Hboth; [done|]. apply IH.
  destruct q as [q|q]; cbn [serve_any].
  - unfold on_db. pose proof (serve_application_wf q (w_db w) Hboth). by destruct (serve_application q (w_db w)).
  - destruct Hboth as [Ha Hw]. split; [by apply serve_account_keeps|].
    by apply (shrinks_wf (w_db w)); [apply serve_account_shrinks|].
Qed.


(** The person of a form for players or coaches. *)
Definition applicant_of (q : application_request) : option Person :=
  match q with
  | RegisterPlayer f => Some (fm_person f)
  | RegisterCoach f => Some (cf_person f)
  | _ => None
  end.

(** No profile has a login named so. *)
Definition login_free (s : accounts) (name : string) : Prop :=
  ∀ k x u, ac_profiles s !! k = Some x → pf_user x = Some u →
    ∃ login, ac_users s !! u = Some login ∧ same collate (us_username login) name = false.

(** C27: A stored application of a player or a coach can be approved at once: when no
    profile has a login named by the phone, the approval makes one new profile with the
    numbers of the form, a login whose password is the national code, and takes the
    application away. *)
Theorem stored_application_is_approved q p s s' : applicant_of q = Some p → accounts_wf s → applications_wf s →
  login_free s (strip (normalize_digits (pe_phone p))) → serve_application q s = (Ok ApplicationStored, s') →
  ∃ s'' k x u login, approve_pending_user collate (ac_next_id s) s' = (Ok UserApproved, s'') ∧
    ac_pending s'' = ac_pending s ∧ ac_profiles s !! k = None ∧ ac_profiles s'' = <[k := x]> (ac_profiles s) ∧
    pe_national_code (pf_person x) = normalize_digits (pe_national_code p) ∧
    pe_phone (pf_person x) = normalize_digits (pe_phone p) ∧ pf_user x = Some u ∧ ac_users s'' !! u = Some login ∧
    us_password login = password_of (_normalize_digits (Some (normalize_digits (pe_national_code p)))).
Proof.
  intros Hq Ha Hw Hfree E.
  assert (∃ row, s' = add_pending s row ∧ sound_application s (pu_person row) ∧
    pe_national_code (pu_person row) = normalize_digits (pe_national_code p) ∧
    pe_phone (pu_person row) = normalize_digits (pe_phone p)) as (row & -> & Hs & Hn & Hph).
  { destruct q as [f|f|f|user f]; cbn in E, Hq; try discriminate; injection Hq as <-.
    - apply (register_player_outcome collate iexact) in E as [(l & [=] & _)|[(row & _ & Hrow)|([=] & _)]]; by exists row.
    - apply (register_coach_outcome collate iexact) in E as [(l & [=] & _)|[(row & _ & Hrow)|([=] & _)]]; by exists row. }
  rewrite <- Hn, <- Hph in *. clear Hq Hn Hph p. set (s1 := add_pending s row).
  assert (Hrow : ac_pending s1 !! ac_next_id s = Some row) by (cbn; by rewrite lookup_insert_eq).
  assert (Hwf1 : accounts_wf s1) by (apply (accounts_wf_later s); try done; cbn; lia).
  rewrite (approve_pending_user_unfold collate _ row s1 Hrow). cbv zeta. set (p := pu_person row) in *.
  destruct Hs as [[_ Hcode]%andb_true_iff [_ Hphone]%andb_true_iff _].
  unfold unused in Hcode, Hphone. rewrite !andb_true_iff, !negb_true_iff, !exists_row_false in Hcode, Hphone.
  destruct Hcode as [_ Hcode], Hphone as [_ Hphone].
  assert (exists_row (λ x, same collate (pe_national_code (pf_person x)) (pe_national_code p)) (ac_profiles s1) = false) as ->
    by by apply exists_row_false.
  rewrite andb_false_r. unfold bind at 1, atomic. unfold bind at 1.
  destruct (view_login_ok collate (strip (pe_phone p)) (password_of (_normalize_digits (Some (pe_national_code p)))) s1 Hwf1)
    as (u & s2 & login & E1 & Hwf2 & Hu & _ & Hpw & Hpr & Hpe).
  rewrite E1. unfold bind. set (x := approved_profile s1 row (kept_coach s1 p) u).
  assert (Hnone : exists_row (profile_conflict collate x) (ac_profiles s2) = false).
  { rewrite Hpr. apply exists_row_false. intros k y Hy. unfold profile_conflict.
    change (pe_national_code (pf_person x)) with (pe_national_code p). change (pe_phone (pf_person x)) with (pe_phone p).
    rewrite (Hcode k y Hy), (Hphone k y Hy). cbn. apply bool_decide_eq_false_2. intros Heq.
    destruct (Hfree k y u Hy Heq) as (l0 & Hl0 & Hne). revert E1. unfold view_login.
    destruct (find_user collate s1 (strip (pe_phone p))) as [j|] eqn:Ej.
    - unfold bind, modify, ret. intros [= -> _]. apply find_user_some in Ej as (z & Hz & Hs). cbn in Hz. congruence.
    - unfold insert_user, bind, fresh, modify, ret. intros [= <- _]. apply (wf_user_keys collate s Ha) in Hl0. lia. }
  destruct (create_profile_cases collate x s2 Hwf2) as [E2|(k & Hk & E2)].
  { unfold create_profile, bind, get in E2. by rewrite Hnone in E2. }
  rewrite E2. cbn. eexists _, k, x, u, login. rewrite Hpe. cbn. rewrite Hpr in Hk |- *. split_and!; try done.
  rewrite delete_insert_id; [done|]. apply eq_None_not_Some. intros [y Hy%(aw_pending_keys s Hw)]. lia.
Qed.
(** An edit that names the profile itself as its coach is refused, but only after it
    was stored: the row that names the profile as its own coach stays, and approving it
    makes the profile its own coach. *)
Theorem refused_edit_is_stored user f t s s' : accounts_wf s → ef_coach f = Some t →
  update_profile user f s = (Ok OwnCoach, s') →
  ∃ original profile k e, profile_of s user = Some (original, profile) ∧ ac_profiles s !! original = Some profile ∧
    ac_edits s' !! k = Some e ∧ ed_original_user e = original ∧ pe_coach (ed_person e) = Some original ∧
    ∃ s'' x, approve_edited_profile k s' = (Ok tt, s'') ∧ ac_profiles s'' !! original = Some x ∧
      pe_coach (pf_person x) = Some original.
Proof.
  intros Ha Ht E. apply (update_profile_outcome collate iexact) in E.
  destruct E as [([=] & _)|[(l & [=] & _)|[(o & p & k & n & e & Ho & Hrow & -> & He & [[=]|(_ & t' & c & x & Ht' & _ & Hc & Heq & Hcoach)])|(e & [=] & _)]]].
  assert (Hp : ac_profiles s !! o = Some p).
  { unfold profile_of in Ho. by apply first_row_some in Ho as [Ho _]. }
  assert (c = o) as ->.
  { destruct (decide (c = o)) as [|Hne]; [done|exfalso]. pose proof (wf_profiles collate s Ha c o x p Hc Hp Hne) as Hd'.
    unfold other_profile, profile_conflict in Hd'. rewrite !orb_false_iff in Hd'. destruct Hd' as [[_ Hphone] _].
    unfold same in Hphone. by rewrite Heq, String.eqb_refl in Hphone. }
  exists o, p, k, e. split_and!; try done; [cbn; by rewrite lookup_insert_eq|].
  eexists _, _. split.
  { unfold approve_edited_profile, bind, get, of_option. cbn. rewrite lookup_insert_eq. cbn. rewrite He, Hp. cbn. reflexivity. }
  cbn. rewrite lookup_insert_eq. split; [done|]. cbn. unfold or_else. by rewrite Hcoach.
Qed.
End paths.

(** ** Examples *)

(** A registered coach and a board; a player applies with that coach, and the coach names
    herself as her coach. *)
Definition form_db : accounts := set_ac_boards {[5 := mkBoard "Shahrekord" None]} (set_ac_next_id 30 demo_accounts).
Definition form_start : world := mkWorld form_db [].
Definition player_applies : application_request := RegisterPlayer (mkPlayerForm (applicant "09130000002") "5" None (Some "2"%string)).
Definition own_coach_edit : edit_form :=
  mkEditForm (λ p, p) None None None None true None false None (Some "2"%string) None [] NotPosted NotPosted "درجه یک" "".

Lemma form_db_wf : accounts_wf text form_db ∧ applications_wf text form_db.
Proof.
  split; split; cbn; try apply pairwise_singleton; try (intros *; by rewrite lookup_empty);
    try (intros i j a b; by rewrite lookup_empty).
  - by intros k u [<- _]%lookup_singleton_Some.
  - by intros k u [<- _]%lookup_singleton_Some.
Qed.

(** The form with the coach "other" is refused, unlike the form of a coach. *)
Example other_coach_is_refused :
  (register_player text (mkPlayerForm (applicant "09130000002") "5" None (Some "other"%string)) form_db).1
  = Ok (Invalid ["coach"%string]).
Proof. by vm_compute. Qed.

(** Coach forms that end in the error answer: a club of a digit that is no number, clubs that
    are a number, and referee types that are a list; and one that is fine. *)
Definition coach_applicant : Person :=
  mkPerson "Ali" "Ahmadi" "" "4610000002" "" "" "09130000002" "coach" "a.jpg" "۱۲۳۴۵۶۷۸۹۰" "" "" "" None "" None "" None [] "" "" ""
    true None None false false None None false None None false None None true.
Definition coach_applies (items : list string) (clubs types : posted_json) : application_request :=
  RegisterCoach (mkCoachForm coach_applicant "5" (Some "2"%string) items clubs types "" "" 10).

Example unreadable_forms_crash :
  ((λ q, (serve_application text String.eqb q form_db).1) <$>
     [coach_applies ["²"%string] NotPosted NotPosted; coach_applies [] (Loaded (JInt 5)) NotPosted;
      coach_applies [] NotPosted (Loaded (JList [JInt 1])); coach_applies ["۷"%string] NotPosted (Loaded (JList []))])
  = [Ok Crashed; Ok Crashed; Ok Crashed; Ok ApplicationStored].
Proof. by vm_compute. Qed.

(** The club of a player form raises outside any handler. *)
Example digit_club_crashes :
  serve_application text String.eqb (RegisterPlayer (mkPlayerForm (applicant "09130000002") "5" (Some "²"%string) None)) form_db
  = (Err ValueError, form_db).
Proof. by vm_compute. Qed.

Lemma applications_stay_distinct_witness :
  let qs := [Apply player_applies; Apply player_applies; Apply (UpdateProfile 1 own_coach_edit); Account (ApproveUser 30)] in
  let w := foldl (λ w q, serve_any text String.eqb true q w) form_start qs in
  size (ac_profiles (w_db w)) = 2%nat ∧ size (ac_pending (w_db w)) = 0%nat ∧ size (ac_edits (w_db w)) = 1%nat ∧
  applications_wf text (w_db w).
Proof.
  intros qs w. split; [by vm_compute|]. split; [by vm_compute|]. split; [by vm_compute|].
  exact (applications_stay_distinct text String.eqb true qs form_start (proj1 form_db_wf) (proj2 form_db_wf)).
Defined.

Definition after_form (q : application_request) : accounts := (serve_application text String.eqb q form_db).2.


Lemma form_login_free : login_free text form_db "09130000002".
Proof.
  intros k x u Hk. cbn in Hk. apply lookup_singleton_Some in Hk as [<- <-]. intros [= <-]. by exists (mkUser phone_1 (Some "secret"%string)).
Qed.

Lemma stored_application_is_approved_witness :
  ∃ s'' k x u login, approve_pending_user text 30 (after_form player_applies) = (Ok UserApproved, s'') ∧
    ac_pending s'' = ∅ ∧ ac_profiles form_db !! k = None ∧ ac_profiles s'' = <[k := x]> (ac_profiles form_db) ∧
    pe_national_code (pf_person x) = "4610000002"%string ∧ pe_phone (pf_person x) = "09130000002"%string ∧
    pf_user x = Some u ∧ ac_users s'' !! u = Some login ∧ us_password login = Some "4610000002"%string.
Proof.
  refine (stored_application_is_approved text String.eqb player_applies (applicant "09130000002") form_db
            (after_form player_applies) eq_refl (proj1 form_db_wf) (proj2 form_db_wf) form_login_free _).
  vm_compute. reflexivity.
Defined.

Lemma refused_edit_is_stored_witness :
  ∃ original profile k e, profile_of form_db 1 = Some (original, profile) ∧ ac_profiles form_db !! original = Some profile ∧
    ac_edits (after_form (UpdateProfile 1 own_coach_edit)) !! k = Some e ∧ ed_original_user e = original ∧
    pe_coach (ed_person e) = Some original ∧
    ∃ s'' x, approve_edited_profile k (after_form (UpdateProfile 1 own_coach_edit)) = (Ok tt, s'') ∧
      ac_profiles s'' !! original = Some x ∧ pe_coach (pf_person x) = Some original.
Proof.
  refine (refused_edit_is_stored text String.eqb 1 own_coach_edit "2" form_db (after_form (UpdateProfile 1 own_coach_edit))
            (proj1 form_db_wf) eq_refl _).
  vm_compute. reflexivity.
Defined.
