(* ===== verification/Roles.v ===== *)
(** Roles and their flags: the column [role] of a profile and its flags [is_coach] and [is_referee] are
    written side by side by the approvals of [Membership] and the edits of [Applications]. Some of the code
    asks for the flag ([IsCoach], the lists of coaches), some for the role (the pages of coaches), so this
    file shows which requests keep them together. *)

From S2P Require Import Prelude Store Ranking Payments GroupRegistration Text Accounts SmsCodes CoachClubs Membership ApprovalPaths Applications ApplicationPaths.
Local Open Scope Z_scope.

(** ** What agrees *)

Definition role_agrees (p : Person) : Prop :=
  pe_is_coach p = bool_decide (pe_role p ∈ COACH_ROLES) ∧ pe_is_referee p = bool_decide (pe_role p ∈ REFEREE_ROLES).

#[export] Instance role_agrees_dec p : Decision (role_agrees p).
Proof. unfold role_agrees. apply _. Defined.

(** Profiles, and the edits that wait to be copied to one. *)
Record roles_agree (s : accounts) : Prop := {
  ra_profiles : ∀ k x, ac_profiles s !! k = Some x → role_agrees (pf_person x);
  ra_edits : ∀ k e, ac_edits s !! k = Some e → role_agrees (ed_person e);
}.

(** A person whose role was derived from the flags. *)
Lemma derived_role_agrees p : role_agrees (set_pe_role (role_of_flags p) p).
Proof. unfold role_agrees, role_of_flags. cbn. by destruct (pe_is_coach p), (pe_is_referee p). Qed.

Lemma agrees_columns p q : pe_role p = pe_role q → pe_is_coach p = pe_is_coach q → pe_is_referee p = pe_is_referee q →
  role_agrees p → role_agrees q.
Proof. unfold role_agrees. by intros -> -> ->. Qed.

(** ** What keeps them *)

Definition keeps_roles (s s' : accounts) : Prop := roles_agree s → roles_agree s'.
Definition keeps_roles_conn (c c' : conn) : Prop := keeps_roles (cn_db c) (cn_db c').
Definition keeps_roles_world (w w' : world) : Prop := keeps_roles (w_db w) (w_db w').

#[local] Instance keeps_roles_preorder : PreOrder keeps_roles.
Proof. split; unfold keeps_roles; [by intros s|]. intros a b c Hab Hbc Ha. by apply Hbc, Hab. Qed.
#[local] Instance keeps_roles_conn_preorder : PreOrder keeps_roles_conn.
Proof. split; unfold keeps_roles_conn; [by intros s|]. intros a b c ??. by etrans. Qed.
#[local] Instance keeps_roles_world_preorder : PreOrder keeps_roles_world.
Proof. split; unfold keeps_roles_world; [by intros s|]. intros a b c ??. by etrans. Qed.

Lemma keeps_roles_same s s' : ac_profiles s' = ac_profiles s → ac_edits s' ⊆ ac_edits s → keeps_roles s s'.
Proof. intros Hp He [Rp Re]. split; [by rewrite Hp|]. intros k e Hk. by eapply Re, lookup_weaken. Qed.

(** A write of another table, and the deletion of a row. *)
Ltac roles_write :=
  apply guarantees_modify; intros s; apply keeps_roles_same; cbn; first [done | apply delete_subseteq].

Lemma fresh_roles : guarantees keeps_roles fresh.
Proof. intros s. by apply keeps_roles_same. Qed.

#[local] Hint Resolve fresh_roles : guarantees.
#[local] Hint Extern 1 (guarantees keeps_roles (modify _)) => roles_write : guarantees.

Lemma set_clubs_roles k f : guarantees keeps_roles (modify (set_clubs k f)).
Proof.
  apply guarantees_modify. intros s [Rp Re]. split; [|done]. intros j x Hx. cbn in Hx.
  apply lookup_alter_Some in Hx as [(<- & y & Hy & ->)|[_ Hx]]; cbn; by eapply Rp.
Qed.

#[local] Hint Resolve set_clubs_roles : guarantees.

(** A profile is replaced by one of a person that agrees. *)
Lemma put_profile_roles s k x : role_agrees (pf_person x) → keeps_roles s (set_ac_profiles (<[k := x]> (ac_profiles s)) s).
Proof.
  intros Hx [Rp Re]. split; [|done]. intros j y. cbn. intros [[<- <-]|[_ Hy]]%lookup_insert_Some; [done|by eapply Rp].
Qed.

Lemma put_edit_roles s k next e : role_agrees (ed_person e) → keeps_roles s (with_edit s k next e).
Proof.
  intros He [Rp Re]. split; [done|]. intros j y. cbn. intros [[<- <-]|[_ Hy]]%lookup_insert_Some; [done|by eapply Re].
Qed.

(** A loop over rows that all have a property. *)
Lemma forM_rows {S A} (R : S → S → Prop) `{!PreOrder R} (P : A → Prop) (f : A → M S unit) l :
  (∀ x, P x → guarantees R (f x)) → Forall P l → guarantees R (forM l f).
Proof.
  intros Hf. induction 1 as [|x l Hx Hl IH]; [by apply guarantees_ret|]. cbn. apply guarantees_bind; [apply _|by apply Hf|done].
Qed.

Section keeping.
Context (collate : string → string) (iexact : string → string → bool) (sms_enabled : bool).

Lemma create_profile_roles p : role_agrees (pf_person p) → guarantees keeps_roles (create_profile collate p).
Proof.
  intros Hp. unfold create_profile. guarantee. apply guarantees_modify. intros s. by apply put_profile_roles.
Qed.

#[local] Opaque create_profile.

Lemma insert_user_roles u : guarantees keeps_roles (insert_user u).
Proof. unfold insert_user. guarantee. Qed.
Lemma create_club_roles c : guarantees keeps_roles (create_club collate c).
Proof. unfold create_club. guarantee. Qed.
Lemma delete_pending_roles pk : guarantees keeps_roles (delete_pending pk).
Proof. unfold delete_pending. guarantee. Qed.
Lemma delete_pending_club_roles pk : guarantees keeps_roles (delete_pending_club pk).
Proof. unfold delete_pending_club. guarantee. Qed.
Lemma delete_edit_roles pk : guarantees keeps_roles (delete_edit pk).
Proof. unfold delete_edit. guarantee. Qed.

#[local] Hint Resolve insert_user_roles create_club_roles delete_pending_roles delete_pending_club_roles delete_edit_roles : guarantees.

Lemma get_or_create_user_roles phone nc : guarantees keeps_roles (get_or_create_auth_user_by_phone collate phone nc).
Proof. unfold get_or_create_auth_user_by_phone, set_password. guarantee. Qed.
Lemma approve_pending_club_roles pk : guarantees keeps_roles (approve_pending_club collate iexact pk).
Proof. unfold approve_pending_club. guarantee. Qed.
Lemma get_or_create_request_roles coach club t : guarantees keeps_roles (get_or_create_request coach club t).
Proof. unfold get_or_create_request. guarantee. Qed.
Lemma own_profile_roles user : guarantees keeps_roles (own_profile user).
Proof. unfold own_profile. guarantee. Qed.

#[local] Hint Resolve get_or_create_user_roles approve_pending_club_roles get_or_create_request_roles own_profile_roles : guarantees.

Lemma request_add_roles club k : guarantees keeps_roles (request_add club k).
Proof. unfold request_add. guarantee. Qed.
Lemma request_remove_roles club k : guarantees keeps_roles (request_remove club k).
Proof. unfold request_remove. guarantee. Qed.

#[local] Hint Resolve request_add_roles request_remove_roles : guarantees.

Lemma serve_club_roles order q : guarantees keeps_roles (serve_club order q).
Proof.
  destruct q as [user ids|user selected|user pk action]; cbn [serve_club];
    [unfold update_coach_clubs|unfold update_club_coaches|unfold respond]; guarantee.
Qed.

Lemma serve_sms_roles clk rand q : guarantees keeps_roles (serve collate clk rand q).
Proof.
  intros s. destruct (serve collate clk rand q s) as [r s'] eqn:E. apply serve_outcome in E. cbn.
  destruct E; by apply keeps_roles_same.
Qed.

(** *** Approvals of users *)

(** The view takes both flags from the role. *)
Lemma approve_pending_user_roles pk : guarantees keeps_roles (approve_pending_user collate pk).
Proof.
  unfold approve_pending_user. guarantee. apply create_profile_roles. by unfold role_agrees.
Qed.

(** The flags an action gives agree with the roles its list shows. *)
Lemma listed_flags a role : listed a role = true →
  coach_flag a role = bool_decide (role ∈ COACH_ROLES) ∧ referee_flag a role = bool_decide (role ∈ REFEREE_ROLES).
Proof.
  destruct a; cbn; intros H.
  - apply String.eqb_eq in H as ->. done.
  - by rewrite H.
  - by rewrite H.
Qed.

Lemma create_from_pending_roles a p u : listed a (pe_role (pu_person p)) = true →
  guarantees keeps_roles (create_profile_from_pending collate p u (coach_flag a (pe_role (pu_person p)))
                            (referee_flag a (pe_role (pu_person p)))).
Proof.
  intros Hl. unfold create_profile_from_pending. guarantee. apply create_profile_roles. apply (listed_flags a _ Hl).
Qed.

Lemma query_roles {A} (m : M accounts A) : guarantees keeps_roles m → guarantees keeps_roles_conn (query m).
Proof.
  intros Hm c. unfold query. destruct (cn_broken c); [reflexivity|]. specialize (Hm (cn_db c)).
  destruct (m (cn_db c)) as [[a|e] s']; cbn in *; [exact Hm|]. unfold keeps_roles_conn. reflexivity.
Qed.

Lemma transaction_roles {A} (m : M conn A) w :
  (roles_agree (w_db w) → roles_agree (cn_db (m (mkConn (w_db w) false (w_outbox w))).2)) →
  keeps_roles_world w ((transaction m) w).2.
Proof.
  intros Hm. unfold keeps_roles_world, keeps_roles, transaction.
  destruct (m _) as [[a|e] c]; cbn in *; [|done]. by destruct (cn_broken c).
Qed.

Lemma on_db_roles {A} (m : M accounts A) : guarantees keeps_roles m → guarantees keeps_roles_world (on_db m).
Proof. intros Hm w. unfold on_db. specialize (Hm (w_db w)). by destruct (m (w_db w)). Qed.

Lemma send_sms_roles phone nc : guarantees keeps_roles_conn (send_approve_credentials_sms sms_enabled phone nc).
Proof.
  unfold send_approve_credentials_sms. guarantee. apply guarantees_modify. intros c. unfold keeps_roles_conn. reflexivity.
Qed.

#[local] Hint Resolve query_roles send_sms_roles : guarantees.

#[local] Opaque create_profile_from_pending.

Lemma approve_application_roles a row : listed a (pe_role (pu_person row.2)) = true →
  guarantees keeps_roles_conn (approve_application collate sms_enabled a row).
Proof.
  destruct row as [pk p]. intros Hl. unfold approve_application. guarantee. apply query_roles. by apply create_from_pending_roles.
Qed.

Lemma approve_club_roles row : guarantees keeps_roles_conn (approve_club collate sms_enabled row).
Proof. destruct row as [pk p]. unfold approve_club. guarantee. Qed.

(** *** Approvals of edits *)

Lemma approve_edited_profile_roles pk : guarantees keeps_roles (approve_edited_profile pk).
Proof.
  intros s Hs. unfold approve_edited_profile, bind, get, of_option. destruct (ac_edits s !! pk) as [e|] eqn:He; [|done]. cbn.
  destruct (ac_profiles s !! ed_original_user e) as [x|] eqn:Hx; [|done]. cbn. split; cbn.
  - intros k y [[<- <-]|[_ Hy]]%lookup_insert_Some; [|by eapply Hs]. refine (agrees_columns _ _ _ _ _ (ra_edits s Hs _ _ He)); done.
  - intros k y [_ Hy]%lookup_delete_Some. by eapply Hs.
Qed.

Lemma approve_edit_roles row : role_agrees (ed_person row.2) → guarantees keeps_roles_conn (approve_edit row).
Proof.
  destruct row as [pk e]. intros He. unfold approve_edit. guarantee. apply query_roles, guarantees_modify. intros s.
  apply put_profile_roles. refine (agrees_columns _ _ _ _ _ He); done.
Qed.

(** *** Edits *)

(** A stored edit has the role of its flags. *)
Lemma stored_edit_agrees user f s s' : update_profile collate user f s = (Ok ApplicationStored, s') →
  ∃ k next e, s' = with_edit s k next e ∧ role_agrees (ed_person e).
Proof.
  unfold update_profile. unfold bind at 1, get. destruct (profile_of s user) as [[original profile]|]; [|done].
  cbv zeta. set (existing := edit_of s original). set (old := match existing with Some ke => ed_person ke.2 | None => new_edit end).
  rewrite bind_lift. destruct (digit_ids _) as [ids|e]; [|done].
  rewrite bind_lift. destruct (edit_types _) as [types|e]; [|done].
  rewrite bind_lift. destruct (edit_coach _) as [posted|e]; [|done]. cbv zeta.
  destruct (failing _) as [|n l]; [|done]. destruct (edit_errors f types) as [|n l]; [|done]. set (p := related_columns _ _ _ _).
  assert (Hrow : ∃ k next s1, (match existing with Some ke => ret ke.1 | None => fresh end) s = (Ok k, s1) ∧
            ∀ e, save_edit k e s1 = (Ok tt, with_edit s k next e)).
  { destruct existing as [ke|].
    - exists ke.1, (ac_next_id s), s. split; [done|]. intros e. unfold save_edit, modify, with_edit. by destruct s.
    - by exists (ac_next_id s), (ac_next_id s + 1), (set_ac_next_id (ac_next_id s + 1) s). }
  destruct Hrow as (k & next & s1 & E1 & Hsave). unfold bind at 1. rewrite E1. unfold bind at 1. rewrite Hsave.
  assert (Hlast : ∀ q e0, (posted_club <~ lift (posted_id (ef_club f)) ;;
      let p := edit_clubs s posted_club ids q in
      let p := set_pe_role (role_of_flags p) p in
      let p := match pe_tkd_board p ≫= (ac_boards s !!.) with Some b => set_pe_tkd_board_name (br_name b) p | None => p end in
      save_edit k (mkEdit original p (clubs_set s ids)) ;;; ret ApplicationStored)%monad (with_edit s k next e0) = (Ok ApplicationStored, s') →
    ∃ k next e, s' = with_edit s k next e ∧ role_agrees (ed_person e)).
  { intros q e0. rewrite bind_lift. destruct (posted_id (ef_club f)) as [c|e]; [|done]. cbv zeta. unfold bind, ret.
    rewrite save_edit_twice. intros [= <-]. eexists k, next, _. split; [done|]. cbn [ed_person].
    destruct (_ ≫= _); [|apply derived_role_agrees]. refine (agrees_columns _ _ _ _ _ (derived_role_agrees _)); done. }
  rewrite bind_lift. destruct (posted_id (ef_coach f)) as [[c|]|e]; [|apply Hlast|done].
  destruct (ac_profiles s !! c) as [x|]; [|apply Hlast]. destruct (String.eqb _ _); [done|apply Hlast].
Qed.

(** ** Sequences of requests *)

Lemma selected_agree s (selected : list Z) : roles_agree s →
  Forall (λ row : Z * PendingEditProfile, role_agrees (ed_person row.2))
    (List.filter (λ kr, bool_decide (kr.1 ∈ selected)) (rev (rows_by_id (ac_edits s)))).
Proof.
  intros Hs. apply Forall_forall. intros [k e] [He _]%elem_of_filter_list.
  apply list_elem_of_In, in_rev, list_elem_of_In, elem_of_rows_by_id in He. by apply (ra_edits s Hs k e).
Qed.

Lemma selected_listed a s (selected : list Z) :
  Forall (λ row : Z * PendingUserProfile, listed a (pe_role (pu_person row.2)) = true)
    (List.filter (λ kr, bool_decide (kr.1 ∈ selected) && listed a (pe_role (pu_person kr.2))) (rev (rows_by_id (ac_pending s)))).
Proof. apply Forall_forall. intros [k p] [_ [_ Hl]%andb_true_iff]%elem_of_filter_list. exact Hl. Qed.

(** What a request may not be: the approval of a single application from a list that does not show it, and
    an edit refused because of the coach, which is stored before the role is derived. *)
Definition regular (q : any_request) (w : world) : bool :=
  match q with
  | Account (ApproveApplication a pk) =>
      match ac_pending (w_db w) !! pk with Some p => listed a (pe_role (pu_person p)) | None => true end
  | Apply (UpdateProfile user f) =>
      match (update_profile collate user f (w_db w)).1 with Ok OwnCoach => false | _ => true end
  | _ => true
  end.

Local Abbreviation serve_any := (serve_any collate iexact sms_enabled).

Fixpoint regular_run (qs : list any_request) (w : world) : bool :=
  match qs with
  | [] => true
  | q :: qs => regular q w && regular_run qs (serve_any q w)
  end.

Lemma serve_application_roles q s : regular (Apply q) (mkWorld s []) = true →
  keeps_roles s (serve_application collate iexact q s).2.
Proof.
  intros Hreg. destruct (serve_application collate iexact q s) as [r s'] eqn:E. destruct q as [f|f|f|user f]; cbn in E |- *.
  - apply (register_player_outcome collate iexact) in E as [(l & _ & _ & ->)|[(row & _ & -> & _)|(_ & -> & _)]]; by apply keeps_roles_same.
  - apply (register_coach_outcome collate iexact) in E as [(l & _ & _ & ->)|[(row & _ & -> & _)|(_ & -> & _)]]; by apply keeps_roles_same.
  - apply register_club_outcome in E as [(l & _ & _ & ->)|[(_ & -> & _)|(row & _ & -> & _)]]; by apply keeps_roles_same.
  - cbn in Hreg. pose proof E as E2. rewrite E2 in Hreg. cbn in Hreg.
    apply (update_profile_outcome collate iexact) in E as [(_ & _ & ->)|[(l & _ & _ & ->)|[(o & p & k & n & e & _ & _ & _ & _ & Hr)|(e & _ & ->)]]];
      [by apply keeps_roles_same..| |by apply keeps_roles_same].
    destruct Hr as [->|[-> _]]; [|done]. destruct (stored_edit_agrees _ _ _ _ E2) as (k' & n' & e' & -> & He). by apply put_edit_roles.
Qed.

Lemma serve_account_roles q w : regular (Account q) w = true → keeps_roles_world w (serve_account collate iexact sms_enabled q w).
Proof.
  intros Hreg. destruct q as [pk|a l|a pk|pk|l|pk|l|clk rand q|order q]; cbn [serve_account].
  - apply (on_db_roles _ (approve_pending_user_roles pk)).
  - apply transaction_roles. intros Hs. unfold bind, get. cbn [cn_db].
    revert Hs. exact (forM_rows keeps_roles_conn _ _ _ (approve_application_roles a) (selected_listed a (w_db w) l) (mkConn (w_db w) false (w_outbox w))).
  - apply transaction_roles. intros Hs. unfold bind, get. cbn [cn_db regular] in *.
    destruct (ac_pending (w_db w) !! pk) as [p|]; [|done]. revert Hs. exact (approve_application_roles a (pk, p) Hreg (mkConn (w_db w) false (w_outbox w))).
  - apply (on_db_roles _ (approve_pending_club_roles pk)).
  - apply transaction_roles. intros Hs. unfold bind, get. cbn [cn_db]. revert Hs.
    exact (guarantees_mapM keeps_roles_conn _ _ approve_club_roles (mkConn (w_db w) false (w_outbox w))).
  - apply (on_db_roles _ (approve_edited_profile_roles pk)).
  - apply transaction_roles. intros Hs. unfold bind, get. cbn [cn_db]. pose proof Hs as Hs2. revert Hs2.
    exact (forM_rows keeps_roles_conn _ _ _ approve_edit_roles (selected_agree (w_db w) l Hs) (mkConn (w_db w) false (w_outbox w))).
  - apply (on_db_roles _ (serve_sms_roles clk rand q)).
  - apply (on_db_roles _ (serve_club_roles order q)).
Qed.

Lemma serve_any_roles q w : regular q w = true → keeps_roles_world w (serve_any q w).
Proof.
  destruct q as [q|q]; cbn [serve_any]; intros Hreg; [|by apply serve_account_roles].
  unfold on_db. pose proof (serve_application_roles q (w_db w)) as Hq.
  unfold keeps_roles_world. destruct (serve_application collate iexact q (w_db w)) as [r s']. apply Hq. by destruct q.
Qed.

Lemma regular_run_roles qs w : roles_agree (w_db w) → regular_run qs w = true →
  roles_agree (w_db (foldl (λ w q, serve_any q w) w qs)).
Proof.
  revert w. induction qs as [|q qs IH]; intros w Hw; cbn; [done|]. intros [Hq Hqs]%andb_true_iff. apply IH; [|done]. by apply serve_any_roles.
Qed.

(** C33: Roles and flags stay together. Through every sequence of registrations, profile edits, approvals from
    the lists that show the applicant, password resets and requests between clubs and coaches, as long as no
    edit is refused because a coach named herself, every profile is flagged as a coach exactly when its role is
    a coach's, and as a referee exactly when its role is a referee's; so is every edit that waits. *)
Theorem roles_stay_together qs w : roles_agree (w_db w) → regular_run qs w = true →
  ∀ k x, ac_profiles (w_db (foldl (λ w q, serve_any q w) w qs)) !! k = Some x →
    (pe_is_coach (pf_person x) = true ↔ pe_role (pf_person x) = "coach"%string ∨ pe_role (pf_person x) = "both"%string) ∧
    (pe_is_referee (pf_person x) = true ↔ pe_role (pf_person x) = "referee"%string ∨ pe_role (pf_person x) = "both"%string).
Proof.
  intros Hw Hqs k x Hx. destruct (ra_profiles _ (regular_run_roles qs w Hw Hqs) k x Hx) as [-> ->].
  rewrite !bool_decide_eq_true. unfold COACH_ROLES, REFEREE_ROLES. split; rewrite !elem_of_cons; pose proof (not_elem_of_nil (pe_role (pf_person x))); tauto.
Qed.
End keeping.

(** ** Examples *)

(** A player who becomes a coach by an edit, and is then asked for nothing more. *)
Definition player_1 : Person := set_pe_role "player" (applicant "09130000001").
Definition role_db : accounts :=
  set_ac_profiles {[2 := mkProfile (Some 1) player_1 ∅]} (set_ac_users {[1 := mkUser "09130000001" None]}
    (set_ac_boards {[5 := mkBoard "Shahrekord" None]} (set_ac_next_id 30 empty_accounts))).
Definition role_start : world := mkWorld role_db [].

Definition becomes_coach (coach : option string) : any_request :=
  Apply (UpdateProfile 1 (mkEditForm (λ p, set_pe_is_coach true p) None None None None true (Some "درجه سه"%string) false None coach None [] NotPosted NotPosted "درجه سه" "")).
Definition role_run (qs : list any_request) : accounts :=
  w_db (foldl (λ w q, serve_any text String.eqb true q w) role_start qs).

Definition shown_role (s : accounts) (k : Z) : option (string * bool) :=
  (λ x, (pe_role (pf_person x), pe_is_coach (pf_person x))) <$> ac_profiles s !! k.

Example edit_makes_coach : shown_role (role_run [becomes_coach None; Account (ApproveEdit 30)]) 2 = Some ("coach"%string, true).
Proof. vm_compute. reflexivity. Qed.

(** A coach who names herself: the edit is refused, but it is there to be approved, with the flag it was sent
    with and the role of a new edit. *)
Example refused_edit_parts_them :
  shown_role (role_run [becomes_coach None; Account (ApproveEdit 30); becomes_coach (Some "2"%string); Account (ApproveEdit 31)]) 2
    = Some ("player"%string, true).
Proof. vm_compute. reflexivity. Qed.

(** The approval of one application from another list parts them too. *)
Example single_approval_parts_them :
  let s := set_ac_pending {[7 := mkPending (set_pe_role "coach" (applicant "09130000009")) ∅]} (set_ac_profiles ∅ role_db) in
  shown_role (w_db (serve_any text String.eqb true (Account (ApproveApplication PlayerApplication 7)) (mkWorld s []))) 31 =
    Some ("coach"%string, false).
Proof. vm_compute. reflexivity. Qed.

Lemma role_db_agrees : roles_agree role_db.
Proof. split; cbn; [intros k x [<- <-]%lookup_singleton_Some; done|intros k e; by rewrite lookup_empty]. Qed.

Lemma roles_stay_together_witness :
  let x := mkProfile (Some 1) player_1 ∅ in
  pe_is_coach (pf_person x) = true ↔ pe_role (pf_person x) = "coach"%string ∨ pe_role (pf_person x) = "both"%string.
Proof.
  intros x. refine (proj1 (roles_stay_together text String.eqb true [becomes_coach None] role_start role_db_agrees _ 2 x _)).
  - vm_compute. reflexivity.
  - vm_compute. reflexivity.
Defined.
