(* ===== verification/Dashboards.v ===== *)
(** Lists and dashboards of clubs, boards and coaches ([src/accounts/views.py] and
    [serializers.py]).

    The lists read [Accounts]; the medals and points of a profile, which no handler there
    writes, are an argument ([figures]), like the entries.  [icontains], [text_le] and
    [collate] are the database's comparisons of texts.  The list of competitions reads
    [Store].  Images and Jalali dates are left out. *)

From S2P Require Import Prelude Brackets Store Points Ranking Payments GroupRegistration Text Approvals Eligibility Catalogue Accounts SmsCodes CoachClubs Membership ApprovalPaths Applications.
Local Open Scope Z_scope.

(** ** Columns of figures *)

(** Gold, silver and bronze medals. *)
Record medals := mkMedals { md_gold : Z; md_silver : Z; md_bronze : Z }.

Record figures (P : Type) := mkFigures {
  fg_match_count : Z;
  fg_seminar_count : Z;
  fg_province : medals;
  fg_country : medals;
  fg_int : medals;
  fg_ranking_competition : P;
  fg_ranking_total : P;
}.
Arguments mkFigures {P}.
Arguments fg_match_count {P} _.
Arguments fg_seminar_count {P} _.
Arguments fg_province {P} _.
Arguments fg_country {P} _.
Arguments fg_int {P} _.
Arguments fg_ranking_competition {P} _.
Arguments fg_ranking_total {P} _.

(** ** Requests and answers *)

(** The parameters of the lists, [None] when not given. *)
Record list_query := mkListQuery {
  lq_coach : option string;
  lq_club : option string;
  lq_belt : option string;
  lq_birth_from : option string;
  lq_birth_to : option string;
  lq_search : option string;
  lq_national_level : option string;
  lq_international_level : option string;
  lq_referee_field : option string;
}.

Definition no_query : list_query := mkListQuery None None None None None None None None None.

(** A list, or the refusals: no club, board or profile of the user, or not a coach. *)
Inductive listing (A : Type) := NotFound | Forbidden | Listed (l : list A).
Arguments NotFound {A}.
Arguments Forbidden {A}.
Arguments Listed {A} l.

Definition map_listing {A B} (f : A → B) (a : listing A) : listing B :=
  match a with NotFound => NotFound | Forbidden => Forbidden | Listed l => Listed (f <$> l) end.

(** A parameter that is given and is not the text of the empty choice. *)
Definition asked (placeholder : string) (o : option string) : option string :=
  match o with
  | Some t => if truthy_str t && negb (String.eqb t placeholder) then Some t else None
  | None => None
  end.

Definition narrow {A} (o : option string) (p : string → A → bool) (l : list A) : list A :=
  match o with Some t => List.filter (p t) l | None => l end.

Section dashboards.
Context {P : Type} `{PointArith P} (collate : string → string) (icontains text_le : string → string → bool)
  (figures_of : Z → figures P) (enrollments : gmap Z Enrollment).
Local Abbreviation same := (same collate).
Implicit Types kp : Z * Profile.

Definition profiles_where (s : accounts) (p : Z * Profile → bool) : list (Z * Profile) :=
  List.filter p (rows_by_id (ac_profiles s)).

Definition role_is (role : string) kp : bool := same (pe_role (pf_person kp.2)) role.
Definition of_club (club : Z) kp : bool := bool_decide (pe_club (pf_person kp.2) = Some club).
Definition of_board (board : Z) kp : bool := bool_decide (pe_tkd_board (pf_person kp.2) = Some board).
Definition of_coach (coach : Z) kp : bool := bool_decide (pe_coach (pf_person kp.2) = Some coach).
Definition coaches_at (club : Z) kp : bool := bool_decide (club ∈ pf_coaching_clubs kp.2) && pe_is_coach (pf_person kp.2).

(** ** Filters *)

(** The names of the coach joined by a space, which is all that is left without a coach. *)
Definition coach_full_name (s : accounts) kp : string :=
  match pe_coach (pf_person kp.2) ≫= (ac_profiles s !!.) with Some c => full_name (pf_person c) | None => " " end.

Definition by_coach_name (s : accounts) (t : string) kp : bool := icontains (coach_full_name s kp) t.
Definition by_club_name (s : accounts) (t : string) kp : bool :=
  match pe_club (pf_person kp.2) ≫= (ac_clubs s !!.) with Some c => same (cd_club_name (cb_data c)) t | None => false end.
Definition by_coaching_club (s : accounts) (t : string) kp : bool :=
  existsb (λ kc, bool_decide (kc.1 ∈ pf_coaching_clubs kp.2) && same (cd_club_name (cb_data kc.2)) t) (rows_by_id (ac_clubs s)).
Definition by_belt (t : string) kp : bool := same (pe_belt_grade (pf_person kp.2)) t.
Definition born_from (t : string) kp : bool := text_le t (pe_birth_date (pf_person kp.2)).
Definition born_to (t : string) kp : bool := text_le (pe_birth_date (pf_person kp.2)) t.
Definition by_search (t : string) kp : bool :=
  icontains (pe_first_name (pf_person kp.2)) t || icontains (pe_last_name (pf_person kp.2)) t
  || icontains (pe_national_code (pf_person kp.2)) t.

(** A nullable column with this text. *)
Definition level_is (t : string) (column : option string) : bool :=
  match column with Some v => same v t | None => false end.
Definition by_coach_level (t : string) kp : bool := level_is t (pe_coach_level (pf_person kp.2)).
Definition by_coach_level_int (t : string) kp : bool := level_is t (pe_coach_level_International (pf_person kp.2)).
Definition by_referee_level (t : string) kp : bool :=
  let p := pf_person kp.2 in
  level_is t (pe_kyorogi_level p) || level_is t (pe_poomseh_level p) || level_is t (pe_hanmadang_level p).
Definition by_referee_level_int (t : string) kp : bool :=
  let p := pf_person kp.2 in
  level_is t (pe_kyorogi_level_International p) || level_is t (pe_poomseh_level_International p)
  || level_is t (pe_hanmadang_level_International p).

(** The field of a referee; other texts do not narrow the list. *)
Definition by_referee_field (t : string) kp : bool :=
  let p := pf_person kp.2 in
  if String.eqb t "کیوروگی" then pe_kyorogi p
  else if String.eqb t "پومسه" then pe_poomseh p
  else if String.eqb t "هانمادانگ" then pe_hanmadang p
  else true.

(** The filters that all lists have, with the text of the empty choice of belts. *)
Definition by_person (placeholder : string) (q : list_query) (l : list (Z * Profile)) : list (Z * Profile) :=
  narrow (asked "" (lq_search q)) by_search
    (narrow (asked "" (lq_birth_to q)) born_to
       (narrow (asked "" (lq_birth_from q)) born_from
          (narrow (asked placeholder (lq_belt q)) by_belt l))).

Definition student_filters (s : accounts) (q : list_query) (l : list (Z * Profile)) : list (Z * Profile) :=
  by_person "درجه کمربند" q (narrow (asked "باشگاه" (lq_club q)) (by_club_name s) l).

(** ** Lists of students *)

Definition club_of_user (s : accounts) (user : Z) : option Z := fst <$> club_of s user.
Definition board_of_user (s : accounts) (user : Z) : option Z := fst <$> board_of s user.

(** [ClubStudentsView]; its filter has no club. *)
Definition club_students_list (s : accounts) (user : Z) (q : list_query) : listing (Z * Profile) :=
  match club_of_user s user with
  | None => NotFound
  | Some club =>
      Listed (by_person "درجه کمربند" q
                (narrow (asked "مربی" (lq_coach q)) (by_coach_name s)
                   (profiles_where s (λ kp, of_club club kp && role_is "player" kp))))
  end.

(** [HeyatStudentsAPIView] *)
Definition heyat_students_list (s : accounts) (user : Z) (q : list_query) : listing (Z * Profile) :=
  match board_of_user s user with
  | None => NotFound
  | Some board =>
      Listed (student_filters s q
                (narrow (asked "مربی" (lq_coach q)) (by_coach_name s)
                   (profiles_where s (λ kp, role_is "player" kp && of_board board kp))))
  end.

(** [CoachStudentsAPIView]: students of any role, the coach excluded. *)
Definition coach_students_list (s : accounts) (user : Z) (q : list_query) : listing (Z * Profile) :=
  match profile_of s user with
  | None => NotFound
  | Some (coach, p) =>
      if negb (pe_is_coach (pf_person p)) then Forbidden
      else Listed (student_filters s q (profiles_where s (λ kp, of_coach coach kp && negb (kp.1 =? coach))))
  end.

(** ** Rows of students *)

(** [annotate_student_stats]: the competitions of the eligible entries, each once, and
    the medals of all levels. *)
Definition competitions_count (player : Z) : Z :=
  zlen (remove_dups ((λ ke : Z * Enrollment, en_competition ke.2) <$>
    List.filter (λ ke, (en_player ke.2 =? player) && bool_decide (en_status ke.2 ∈ ELIGIBLE_STATUSES)) (rows_by_id enrollments))).

Definition total (column : medals → Z) (f : figures P) : Z :=
  column (fg_province f) + column (fg_country f) + column (fg_int f).

(** [ClubStudentSerializer]; without a club the field is left out. *)
Record student_card := mkStudentCard {
  sc_full_name : string;
  sc_national_code : string;
  sc_birth_date : string;
  sc_belt_grade : string;
  sc_coach_name : string;
  sc_belt_certificate_date : string;
  sc_club : option string;
  sc_competitions_count : Z;
  sc_gold_total : Z;
  sc_silver_total : Z;
  sc_bronze_total : Z;
  sc_ranking_total : P;
  sc_ranking_competition : P;
}.

Definition student_card_of (s : accounts) kp : student_card :=
  let p := pf_person kp.2 in
  let f := figures_of kp.1 in
  mkStudentCard (full_name p) (pe_national_code p) (pe_birth_date p) (pe_belt_grade p)
    (match pe_coach p ≫= (ac_profiles s !!.) with Some c => full_name (pf_person c) | None => "-"%string end)
    (pe_belt_certificate_date p)
    ((λ c, cd_club_name (cb_data c)) <$> (pe_club p ≫= (ac_clubs s !!.)))
    (competitions_count kp.1) (total md_gold f) (total md_silver f) (total md_bronze f)
    (fg_ranking_total f) (fg_ranking_competition f).

Definition ClubStudentsView (s : accounts) (user : Z) (q : list_query) : listing student_card :=
  map_listing (student_card_of s) (club_students_list s user q).
Definition HeyatStudentsAPIView (s : accounts) (user : Z) (q : list_query) : listing student_card :=
  map_listing (student_card_of s) (heyat_students_list s user q).
Definition CoachStudentsAPIView (s : accounts) (user : Z) (q : list_query) : listing student_card :=
  map_listing (student_card_of s) (coach_students_list s user q).

(** ** Coaches and referees *)

(** A key with a name. *)
Definition named_person kp : Z * string := (kp.1, full_name (pf_person kp.2)).
Definition named_club (kc : Z * Club) : Z * string := (kc.1, cd_club_name (cb_data kc.2)).

(** [ClubCoachesView] *)
Definition club_coaches (s : accounts) (user : Z) : listing (Z * string) :=
  match club_of_user s user with
  | None => NotFound
  | Some club => Listed (named_person <$> profiles_where s (coaches_at club))
  end.

(** The list of [HeyatCoachesAPIView], each coach once. *)
Definition heyat_coaches_list (s : accounts) (user : Z) (q : list_query) : listing (Z * Profile) :=
  match board_of_user s user with
  | None => NotFound
  | Some board =>
      let l := narrow (asked "همه" (lq_club q)) (by_coaching_club s)
                 (profiles_where s (λ kp, of_board board kp && pe_is_coach (pf_person kp.2))) in
      let l := narrow (asked "" (lq_birth_to q)) born_to
                 (narrow (asked "" (lq_birth_from q)) born_from (narrow (asked "همه" (lq_belt q)) by_belt l)) in
      let l := narrow (asked "همه" (lq_international_level q)) by_coach_level_int
                 (narrow (asked "همه" (lq_national_level q)) by_coach_level l) in
      Listed (narrow (asked "" (lq_search q)) by_search l)
  end.

(** The names of the clubs of a coach. *)
Definition club_names_of (s : accounts) (clubs : gset Z) : list string := names_of_clubs s (elements clubs).

Record coach_card := mkCoachCard {
  cc_full_name : string;
  cc_national_code : string;
  cc_birth_date : string;
  cc_belt_grade : string;
  cc_national : string;
  cc_international : string;
  cc_clubs : list string;
}.

(** A nullable text, or what stands for none. *)
Definition text_or (o : option string) (none : string) : string := or_str (default ""%string o) none.

Definition coach_card_of (s : accounts) kp : coach_card :=
  let p := pf_person kp.2 in
  mkCoachCard (full_name p) (pe_national_code p) (pe_birth_date p) (pe_belt_grade p)
    (text_or (pe_coach_level p) "—") (text_or (pe_coach_level_International p) "درجه بین‌الملل ندارد")
    (club_names_of s (pf_coaching_clubs kp.2)).

Definition HeyatCoachesAPIView (s : accounts) (user : Z) (q : list_query) : listing coach_card :=
  map_listing (coach_card_of s) (heyat_coaches_list s user q).

(** The list of [HeyatRefereesAPIView]: its filter for a club reads the belt before it has a
    value, which raises [UnboundLocalError]. *)
Definition heyat_referees_list (s : accounts) (user : Z) (q : list_query) : result (listing (Z * Profile)) :=
  match board_of_user s user with
  | None => Ok NotFound
  | Some board =>
      match asked "همه" (lq_club q) with
      | Some _ => Err OtherError
      | None =>
          let l := by_person "همه" q (profiles_where s (λ kp, of_board board kp && pe_is_referee (pf_person kp.2))) in
          let l := narrow (asked "همه" (lq_referee_field q)) by_referee_field l in
          Ok (Listed (narrow (asked "همه" (lq_international_level q)) by_referee_level_int
                        (narrow (asked "همه" (lq_national_level q)) by_referee_level l)))
      end
  end.

(** A field of a referee: active, national and international level. *)
Definition referee_grade (active : bool) (national international : option string) : bool * string * string :=
  (active, text_or national "درجه ملی ندارد", text_or international "درجه بین‌الملل ندارد").

Record referee_card := mkRefereeCard {
  rf_full_name : string;
  rf_national_code : string;
  rf_birth_date : string;
  rf_belt_grade : string;
  rf_clubs : list string;
  rf_kyorogi : bool * string * string;
  rf_poomseh : bool * string * string;
  rf_hanmadang : bool * string * string;
}.

Definition referee_card_of (s : accounts) kp : referee_card :=
  let p := pf_person kp.2 in
  mkRefereeCard (full_name p) (pe_national_code p) (pe_birth_date p) (pe_belt_grade p)
    (club_names_of s (pf_coaching_clubs kp.2))
    (referee_grade (pe_kyorogi p) (pe_kyorogi_level p) (pe_kyorogi_level_International p))
    (referee_grade (pe_poomseh p) (pe_poomseh_level p) (pe_poomseh_level_International p))
    (referee_grade (pe_hanmadang p) (pe_hanmadang_level p) (pe_hanmadang_level_International p)).

Definition HeyatRefereesAPIView (s : accounts) (user : Z) (q : list_query) : result (listing referee_card) :=
  match heyat_referees_list s user q with
  | Ok l => Ok (map_listing (referee_card_of s) l)
  | Err e => Err e
  end.

(** ** Clubs *)

Definition clubs_where (s : accounts) (p : Z * Club → bool) : list (Z * Club) := List.filter p (rows_by_id (ac_clubs s)).
Definition club_of_board (board : Z) (kc : Z * Club) : bool := bool_decide (cd_tkd_board (cb_data kc.2) = Some board).

Definition student_count (s : accounts) (club : Z) : Z := zlen (profiles_where s (λ kp, of_club club kp && role_is "player" kp)).
Definition coach_count (s : accounts) (club : Z) : Z := zlen (profiles_where s (coaches_at club)).

Record club_card := mkClubCard {
  bc_id : Z;
  bc_club_name : string;
  bc_manager_name : string;
  bc_phone : string;
  bc_manager_phone : string;
  bc_student_count : Z;
  bc_coach_count : Z;
}.

Definition club_card_of (s : accounts) (kc : Z * Club) : club_card :=
  let c := cb_data kc.2 in
  mkClubCard kc.1 (cd_club_name c) (cd_founder_name c) (cd_phone c) (cd_founder_phone c)
    (student_count s kc.1) (coach_count s kc.1).

Definition by_club_search (t : string) (kc : Z * Club) : bool :=
  let c := cb_data kc.2 in
  icontains (cd_club_name c) t || icontains (cd_founder_name c) t || icontains (cd_founder_phone c) t.

(** [heyat_clubs_list], which answers a missing board as forbidden. *)
Definition heyat_clubs_list (s : accounts) (user : Z) (search : option string) : listing club_card :=
  match board_of_user s user with
  | None => Forbidden
  | Some board => Listed (club_card_of s <$> narrow (asked "" search) by_club_search (clubs_where s (club_of_board board)))
  end.

(** [ClubSerializer] *)
Definition club_entry (kc : Z * Club) : Z * string * string := (kc.1, cd_club_name (cb_data kc.2), cd_founder_name (cb_data kc.2)).

(** [CoachClubsAPIView], which answers a missing profile as a bad request. *)
Definition coach_clubs (s : accounts) (user : Z) : listing (Z * string * string) :=
  match profile_of s user with
  | None => NotFound
  | Some (_, p) =>
      if pe_is_coach (pf_person p)
      then Listed (club_entry <$> clubs_where s (λ kc, bool_decide (kc.1 ∈ pf_coaching_clubs p)))
      else Forbidden
  end.

(** [AllClubsAPIView] *)
Definition all_clubs (s : accounts) : list (Z * string * string) := club_entry <$> rows_by_id (ac_clubs s).

(** ** Options of the forms *)

Record form_options := mkFormOptions {
  fo_heyats : list (Z * string);
  fo_clubs : list (Z * string);
  fo_coaches : list (Z * string);
}.

(** The coaches, of one gender when it is given. *)
Definition coaches_of_gender (s : accounts) (gender : option string) : list (Z * string) :=
  named_person <$> narrow (asked "" gender) (λ t kp, same (pe_gender (pf_person kp.2)) t)
    (profiles_where s (λ kp, pe_is_coach (pf_person kp.2))).

(** [form_data_view] and [form_data_player_view], which adds fixed choices. *)
Definition form_data_view (s : accounts) (gender : option string) : form_options :=
  mkFormOptions ((λ kb : Z * Board, (kb.1, br_name kb.2)) <$> rows_by_id (ac_boards s))
    (named_club <$> rows_by_id (ac_clubs s)) (coaches_of_gender s gender).

(** The options of [user_profile_with_form_data_view], by the gender of the profile. *)
Definition profile_form_options (s : accounts) (user : Z) : option form_options :=
  match profile_of s user with
  | None => None
  | Some (_, p) =>
      let o := form_data_view s None in
      let gender := pe_gender (pf_person p) in
      Some (mkFormOptions (fo_heyats o) (fo_clubs o)
              (named_person <$> profiles_where s (λ kp, pe_is_coach (pf_person kp.2) && same (pe_gender (pf_person kp.2)) gender)))
  end.

(** [coaches_by_club_gender]; a club that is no number raises [ValueError]. *)
Definition coaches_by_club_gender (s : accounts) (club gender : option string) : result (list (Z * string)) :=
  let coaches := profiles_where s (λ kp, pe_is_coach (pf_person kp.2)) in
  let by_gender := narrow (asked "" gender) (λ t kp, same (pe_gender (pf_person kp.2)) t) in
  match asked "" club with
  | None => Ok (named_person <$> by_gender coaches)
  | Some t =>
      match py_int (_to_en_digits t) with
      | Some c => Ok (named_person <$> by_gender (List.filter (λ kp, bool_decide (c ∈ pf_coaching_clubs kp.2)) coaches))
      | None => Err ValueError
      end
  end.

(** [heyat_form_data] *)
Definition heyat_form_data (s : accounts) (user : Z) : option (list (Z * string) * list (Z * string)) :=
  match board_of_user s user with
  | None => None
  | Some board =>
      Some (named_person <$> profiles_where s (λ kp, of_board board kp && pe_is_coach (pf_person kp.2)),
            named_club <$> clubs_where s (club_of_board board))
  end.

(** [mini_profile]; [auth_name] gives the names of a login. *)
Record mini_card := mkMiniCard {
  mc_full_name : string;
  mc_first_name : string;
  mc_last_name : string;
  mc_national_code : string;
  mc_belt_grade : string;
  mc_role : string;
}.

Definition mini_profile (auth_name : Z → string * string) (s : accounts) (user : Z) : mini_card :=
  match profile_of s user with
  | Some (_, x) =>
      let p := pf_person x in
      let first := strip (pe_first_name p) in
      let last := strip (pe_last_name p) in
      mkMiniCard (strip (first ++ " " ++ last)) first last (strip (pe_national_code p)) (strip (pe_belt_grade p)) (strip (pe_role p))
  | None =>
      let first := strip (auth_name user).1 in
      let last := strip (auth_name user).2 in
      mkMiniCard (or_str (strip (first ++ " " ++ last)) (default "" (us_username <$> ac_users s !! user))) first last "" "" ""
  end.

(** ** Dashboards *)

(** The sums of the medals of some profiles, by level. *)
Record medal_table := mkMedalTable { mt_province : medals; mt_country : medals; mt_int : medals }.

Definition sum_medals (level : figures P → medals) (l : list (Z * Profile)) : medals :=
  let col c := sumZ ((λ kp : Z * Profile, c (level (figures_of kp.1))) <$> l) in
  mkMedals (col md_gold) (col md_silver) (col md_bronze).

Definition medal_table_of (l : list (Z * Profile)) : medal_table :=
  mkMedalTable (sum_medals fg_province l) (sum_medals fg_country l) (sum_medals fg_int l).

(** [PlayerDashboardSerializer] *)
Record player_card := mkPlayerCard {
  pd_full_name : string;
  pd_role : string;
  pd_figures : figures P;
  pd_belt_grade : string;
  pd_coach_name : string;
}.

Inductive dashboard :=
  | ClubDashboard (club_name founder_name : string) (students coaches matches : Z) (table : medal_table) (competition total : P)
  | BoardDashboard (board_name : string) (students coaches referees clubs : Z) (table : medal_table)
  | ProfileDashboard (card : player_card) (students clubs : Z)
  | NoDashboard.

Definition player_card_of kp : player_card :=
  let p := pf_person kp.2 in
  mkPlayerCard (full_name p) (pe_role p) (figures_of kp.1) (pe_belt_grade p) (pe_coach_name p).

(** [DashboardCombinedView]; [matches_participated] is a column of the clubs. *)
Definition dashboard_combined (matches_participated : Z → Z) (s : accounts) (user : Z) (role : string) : dashboard :=
  if String.eqb role "club" then
    match club_of s user with
    | None => NoDashboard
    | Some (club, c) =>
        let members := profiles_where s (of_club club) in
        let sum column := pt_sum ((λ kp : Z * Profile, column (figures_of kp.1)) <$> members) in
        ClubDashboard (cd_club_name (cb_data c)) (cd_founder_name (cb_data c))
          (zlen (List.filter (role_is "player") members)) (coach_count s club) (matches_participated club)
          (medal_table_of members) (sum fg_ranking_competition) (sum fg_ranking_total)
    end
  else if String.eqb role "heyat" then
    match board_of s user with
    | None => NoDashboard
    | Some (board, b) =>
        let members := profiles_where s (of_board board) in
        BoardDashboard (br_name b) (zlen (List.filter (role_is "player") members))
          (zlen (List.filter (λ kp, pe_is_coach (pf_person kp.2)) members))
          (zlen (List.filter (λ kp, pe_is_referee (pf_person kp.2)) members))
          (zlen (clubs_where s (club_of_board board))) (medal_table_of members)
    end
  else
    match profile_of s user with
    | None => NoDashboard
    | Some (k, x) =>
        let coach := pe_is_coach (pf_person x) in
        ProfileDashboard (player_card_of (k, x)) (if coach then zlen (profiles_where s (of_coach k)) else 0)
          (if coach then Z.of_nat (size (pf_coaching_clubs x)) else 0)
    end.

(** ** Which competitions a user sees *)

(** [urlpatterns] has [dashboard/<role>/] before [dashboard/kyorugi/]: every path of one
    segment goes to the combined dashboard. *)
Inductive dashboard_route := CombinedRoute (role : string) | KyorugiRoute.
Definition dashboard_urls : list (string → option dashboard_route) :=
  [ (λ segment, if truthy_str segment && negb (contains "/" segment) then Some (CombinedRoute segment) else None);
    (λ segment, if String.eqb segment "kyorugi" then Some KyorugiRoute else None) ].
Definition resolve_dashboard (segment : string) : option dashboard_route := head (omap (λ u, u segment) dashboard_urls).
End dashboards.

Section competitions.
Context {P : Type} (profile_user club_user board_user : Z → option Z) (approvals : gmap Z CoachApproval).
Local Abbreviation db := (DB P).

(** [KyorugiCompetitionListView]. No column is named [registration_open], which the
    query for referees raises [FieldError] about. *)
Definition kyorugi_list (d : db) (user : Z) : result (list (Z * KyorugiCompetition)) :=
  let all := rev (rows_by_id (db_competitions d)) in
  match first_profile profile_user d (Some user) with
  | Some (_, p) =>
      if up_is_coach p || bool_decide (up_role p ∈ ["coach"; "both"]%string) then Ok all
      else if String.eqb (up_role p) "player" then
        match up_coach p with
        | Some coach => Ok (List.filter (λ kc, approved_comp approvals coach kc.1) all)
        | None => Ok []
        end
      else if String.eqb (up_role p) "referee" then Err OtherError
      else Ok all
  | None =>
      if existsb (λ k, bool_decide (club_user k = Some user)) (rows_by_id (db_clubs d)).*1 then Ok all
      else if existsb (λ k, bool_decide (board_user k = Some user)) (rows_by_id (db_boards d)).*1 then Ok all
      else Ok []
  end.

(** [DashboardKyorugiCompetitionSerializer] of the accounts: [_is_open] reads an attribute
    that the model does not have, and every exception counts as closed. *)
Definition registration_open_attribute (comp : KyorugiCompetition) : result bool := Err AttributeError.

Definition _is_open (today : Z) (kc : Z * KyorugiCompetition) : bool :=
  match registration_open_attribute kc.2 with
  | Ok open => open && (kc_registration_start kc.2 <=? today) && (today <=? kc_registration_end kc.2)
  | Err _ => false
  end.

Definition dk_get_status (today : Z) (kc : Z * KyorugiCompetition) : string :=
  if _is_open today kc then "open"
  else if today <? kc_registration_start kc.2 then "upcoming" else "past".

Definition get_coach_approved (d : db) (user : Z) (kc : Z * KyorugiCompetition) : option bool :=
  match first_profile profile_user d (Some user) with
  | Some (k, p) => if up_is_coach p then Some (approved_comp approvals k kc.1) else None
  | None => None
  end.

Definition dk_can_register (d : db) (user today : Z) (kc : Z * KyorugiCompetition) : bool :=
  if negb (_is_open today kc) then false
  else
    match first_profile profile_user d (Some user) with
    | None => false
    | Some (_, p) =>
        if up_is_coach p then true
        else match up_coach p with
             | Some coach => String.eqb (up_role p) "player" && approved_comp approvals coach kc.1
             | None => false
             end
    end.
End competitions.

(** ** What filters keep *)

(** The test of a parameter that may be missing. *)
Definition test_opt {A} (o : option string) (p : string → A → bool) (x : A) : bool :=
  match o with Some t => p t x | None => true end.

Lemma filter_and {A} (f g : A → bool) l : List.filter g (List.filter f l) = List.filter (λ x, f x && g x) l.
Proof. induction l as [|x l IH]; [done|]. cbn. destruct (f x); cbn; rewrite IH; [|done]. by destruct (g x). Qed.

Lemma narrow_filter {A} o (p : string → A → bool) f l :
  narrow o p (List.filter f l) = List.filter (λ x, f x && test_opt o p x) l.
Proof.
  unfold narrow, test_opt. destruct o as [t|]; [apply filter_and|]. apply List.filter_ext. intros x. by rewrite andb_true_r.
Qed.

Lemma elem_of_narrow {A} o (p : string → A → bool) l x : x ∈ narrow o p l → x ∈ l.
Proof. unfold narrow. destruct o; [|done]. rewrite elem_of_filter_list. tauto. Qed.

Lemma filter_perm_length {A} (f : A → bool) l1 l2 : l1 ≡ₚ l2 → zlen (List.filter f l1) = zlen (List.filter f l2).
Proof.
  unfold zlen. intros Hp. f_equal. induction Hp as [|x l1 l2 _ IH|x y l|l1 l2 l3 _ IH1 _ IH2]; cbn; [done| | |congruence].
  - destruct (f x); cbn; congruence.
  - by destruct (f x), (f y).
Qed.

Lemma filter_split_length {A} (f g : A → bool) l :
  zlen (List.filter f l) = zlen (List.filter (λ x, f x && negb (g x)) l) + zlen (List.filter (λ x, f x && g x) l).
Proof.
  unfold zlen. induction l as [|x l IH]; [done|]. cbn. destruct (f x), (g x); cbn; lia.
Qed.

(** At most one row has a given key. *)
Lemma one_row_length {A} (f : Z * A → bool) (t : gmap Z A) k x : t !! k = Some x →
  zlen (List.filter (λ kr, f kr && (kr.1 =? k)) (rows_by_id t)) = if f (k, x) then 1 else 0.
Proof.
  intros Hk. rewrite (List.filter_ext _ (λ kr, bool_decide (kr.1 ∈ [k]) && f kr)).
  - rewrite <- (filter_and _ f).
    rewrite (filter_key k x); [|apply NoDup_rows_by_id|by apply elem_of_rows_by_id]. cbn. by destruct (f (k, x)).
  - intros kr. rewrite andb_comm. f_equal. apply eq_true_iff_eq.
    by rewrite Z.eqb_eq, bool_decide_eq_true, list_elem_of_singleton.
Qed.

Lemma filter_where {A} (f g : A → bool) l : (∀ x, x ∈ l → f x = g x) → List.filter f l = List.filter g l.
Proof. intros Hfg. apply List.filter_ext_in. intros x Hx. apply Hfg. by apply list_elem_of_In. Qed.

Section list_facts.
Context (collate : string → string) (icontains text_le : string → string → bool).
Local Abbreviation same := (same collate).
Local Abbreviation club_students_list := (club_students_list collate icontains text_le).
Local Abbreviation heyat_students_list := (heyat_students_list collate icontains text_le).
Local Abbreviation coach_students_list := (coach_students_list collate icontains text_le).
Local Abbreviation heyat_coaches_list := (heyat_coaches_list collate icontains text_le).
Local Abbreviation heyat_referees_list := (heyat_referees_list collate icontains text_le).
Local Abbreviation by_person := (by_person collate icontains text_le).
Local Abbreviation student_filters := (student_filters collate icontains text_le).

Lemma elem_of_where s p kp : kp ∈ profiles_where s p ↔ p kp = true ∧ ac_profiles s !! kp.1 = Some kp.2.
Proof. destruct kp as [k x]. unfold profiles_where. rewrite elem_of_filter_list, elem_of_rows_by_id. cbn. tauto. Qed.

Lemma by_person_kept placeholder q l kp : kp ∈ by_person placeholder q l → kp ∈ l.
Proof. unfold Dashboards.by_person. by intros ?%elem_of_narrow%elem_of_narrow%elem_of_narrow%elem_of_narrow. Qed.

Lemma student_filters_kept s q l kp : kp ∈ student_filters s q l → kp ∈ l.
Proof. unfold Dashboards.student_filters. by intros ?%by_person_kept%elem_of_narrow. Qed.

(** Whatever is asked for, a list holds profiles of the user's own club, board or students
    only, of the kind the list is for. *)
Theorem lists_stay_inside s user q kp :
  (∀ l, club_students_list s user q = Listed l → kp ∈ l →
     ∃ club c, club_of s user = Some (club, c) ∧ ac_profiles s !! kp.1 = Some kp.2 ∧
       pe_club (pf_person kp.2) = Some club ∧ same (pe_role (pf_person kp.2)) "player" = true) ∧
  (∀ l, heyat_students_list s user q = Listed l → kp ∈ l →
     ∃ board b, board_of s user = Some (board, b) ∧ ac_profiles s !! kp.1 = Some kp.2 ∧
       pe_tkd_board (pf_person kp.2) = Some board ∧ same (pe_role (pf_person kp.2)) "player" = true) ∧
  (∀ l, heyat_coaches_list s user q = Listed l → kp ∈ l →
     ∃ board b, board_of s user = Some (board, b) ∧ ac_profiles s !! kp.1 = Some kp.2 ∧
       pe_tkd_board (pf_person kp.2) = Some board ∧ pe_is_coach (pf_person kp.2) = true) ∧
  (∀ l, heyat_referees_list s user q = Ok (Listed l) → kp ∈ l →
     ∃ board b, board_of s user = Some (board, b) ∧ ac_profiles s !! kp.1 = Some kp.2 ∧
       pe_tkd_board (pf_person kp.2) = Some board ∧ pe_is_referee (pf_person kp.2) = true) ∧
  (∀ l, coach_students_list s user q = Listed l → kp ∈ l →
     ∃ coach p, profile_of s user = Some (coach, p) ∧ pe_is_coach (pf_person p) = true ∧
       ac_profiles s !! kp.1 = Some kp.2 ∧ pe_coach (pf_person kp.2) = Some coach ∧ kp.1 ≠ coach).
Proof.
  unfold Dashboards.club_students_list, Dashboards.heyat_students_list, Dashboards.heyat_coaches_list,
    Dashboards.heyat_referees_list, Dashboards.coach_students_list, club_of_user, board_of_user.
  split_and!; intros l.
  - destruct (club_of s user) as [[club c]|]; [|done]. cbn. intros [= <-] Hin. apply by_person_kept, elem_of_narrow, elem_of_where in Hin as [Hp Hk].
    apply andb_true_iff in Hp as [Hc%bool_decide_eq_true Hr]. by exists club, c.
  - destruct (board_of s user) as [[board b]|]; [|done]. cbn. intros [= <-] Hin.
    apply student_filters_kept, elem_of_narrow, elem_of_where in Hin as [Hp Hk].
    apply andb_true_iff in Hp as [Hr Hc%bool_decide_eq_true]. by exists board, b.
  - destruct (board_of s user) as [[board b]|]; [|done]. cbn. intros [= <-] Hin.
    do 7 apply elem_of_narrow in Hin. apply elem_of_where in Hin as [Hp Hk].
    apply andb_true_iff in Hp as [Hc%bool_decide_eq_true Hr]. by exists board, b.
  - destruct (board_of s user) as [[board b]|]; [|done]. cbn. destruct (asked _ (lq_club q)); [done|]. intros [= <-] Hin.
    do 3 apply elem_of_narrow in Hin. apply by_person_kept, elem_of_where in Hin as [Hp Hk].
    apply andb_true_iff in Hp as [Hc%bool_decide_eq_true Hr]. by exists board, b.
  - destruct (profile_of s user) as [[coach p]|]; [|done]. destruct (pe_is_coach (pf_person p)) eqn:Ep; [|done]. cbn. intros [= <-] Hin.
    apply student_filters_kept, elem_of_where in Hin as [Hp Hk]. apply andb_true_iff in Hp as [Hc%bool_decide_eq_true Hne%negb_true_iff%Z.eqb_neq].
    by exists coach, p.
Qed.

(** What a list of students asks of a profile. *)
Lemma by_person_filter placeholder q f l : by_person placeholder q (List.filter f l) =
  List.filter (λ kp, f kp && test_opt (asked placeholder (lq_belt q)) (by_belt collate) kp
    && test_opt (asked "" (lq_birth_from q)) (born_from text_le) kp && test_opt (asked "" (lq_birth_to q)) (born_to text_le) kp
    && test_opt (asked "" (lq_search q)) (by_search icontains) kp) l.
Proof. unfold Dashboards.by_person. by rewrite !narrow_filter. Qed.

(** The same request with the club of this name. *)
Definition for_club (name : string) (q : list_query) : list_query :=
  mkListQuery (lq_coach q) (Some name) (lq_belt q) (lq_birth_from q) (lq_birth_to q) (lq_search q)
    (lq_national_level q) (lq_international_level q) (lq_referee_field q).

Lemma asked_text placeholder t : t ≠ ""%string → t ≠ placeholder → asked placeholder (Some t) = Some t.
Proof.
  intros Ht Hp. unfold asked. assert (truthy_str t = true) as -> by by apply negb_true_iff, String.eqb_neq.
  by apply String.eqb_neq in Hp as ->.
Qed.

(** A board that asks for a club sees what the club itself sees, whatever else both ask
    for, when no other club has the name and the players of the club are registered with
    the board. *)
Theorem board_list_is_club_list s owner official q club c board b : club_of s owner = Some (club, c) →
  board_of s official = Some (board, b) → let name := cd_club_name (cb_data c) in
  name ≠ ""%string → name ≠ "باشگاه"%string →
  (∀ k x, ac_clubs s !! k = Some x → same (cd_club_name (cb_data x)) name = true → k = club) →
  (∀ k x, ac_profiles s !! k = Some x → pe_club (pf_person x) = Some club → pe_tkd_board (pf_person x) = Some board) →
  heyat_students_list s official (for_club name q) = club_students_list s owner q.
Proof.
  intros Hc Hb name Hne Hph Hname Hboard.
  unfold Dashboards.heyat_students_list, Dashboards.club_students_list, club_of_user, board_of_user. rewrite Hc, Hb. cbn.
  f_equal. unfold Dashboards.student_filters, profiles_where. cbn [for_club lq_club lq_coach].
  rewrite (asked_text "باشگاه" name Hne Hph), !narrow_filter, !by_person_filter. apply filter_where.
  intros [k x] Hx%elem_of_rows_by_id. cbn [test_opt]. do 4 f_equal.
  unfold of_board, of_club, by_club_name. cbn [fst snd].
  assert (Hk : ac_clubs s !! club = Some c) by (unfold club_of in Hc; by apply first_row_some in Hc as [Hc _]).
  destruct (decide (pe_club (pf_person x) = Some club)) as [Ec|Ec].
  - rewrite (Hboard k x Hx Ec), Ec. cbn. rewrite Hk, !bool_decide_eq_true_2 by done. cbn.
    assert (same (cd_club_name (cb_data c)) name = true) as -> by apply String.eqb_refl. by rewrite !andb_true_r.
  - rewrite (bool_decide_eq_false_2 (pe_club (pf_person x) = Some club)) by done. cbn.
    destruct (pe_club (pf_person x)) as [j|]; cbn; [|by rewrite andb_false_r].
    destruct (ac_clubs s !! j) as [y|] eqn:Ey; [|by rewrite andb_false_r].
    destruct (same (cd_club_name (cb_data y)) name) eqn:Es; [|by rewrite andb_false_r].
    destruct Ec. f_equal. by apply (Hname j y).
Qed.
End list_facts.

Section dashboard_facts.
Context {P : Type} `{PointArith P} (collate : string → string) (icontains text_le : string → string → bool)
  (figures_of : Z → figures P).
Local Abbreviation club_students_list := (club_students_list collate icontains text_le).
Local Abbreviation heyat_students_list := (heyat_students_list collate icontains text_le).
Local Abbreviation coach_students_list := (coach_students_list collate icontains text_le).
Local Abbreviation heyat_coaches_list := (heyat_coaches_list collate icontains text_le).
Local Abbreviation heyat_referees_list := (heyat_referees_list collate icontains text_le).
Local Abbreviation dashboard_combined := (dashboard_combined collate figures_of).
Local Abbreviation heyat_clubs_list := (heyat_clubs_list collate icontains).

Lemma where_where s f g : List.filter g (profiles_where s f) = profiles_where s (λ kp, f kp && g kp).
Proof. apply filter_and. Qed.

Lemma named_length s p : zlen (named_person <$> profiles_where s p) = zlen (profiles_where s p).
Proof. unfold zlen. by rewrite length_fmap. Qed.

Lemma club_card_counts s user search cards card : heyat_clubs_list s user search = Listed cards → card ∈ cards →
  bc_student_count card = student_count collate s (bc_id card) ∧ bc_coach_count card = coach_count s (bc_id card).
Proof.
  unfold Dashboards.heyat_clubs_list. destruct (board_of_user s user) as [b|]; [|done]. intros [= <-] (kc & -> & _)%list_elem_of_fmap.
  done.
Qed.

Lemma active_length s club : zlen (List.filter ci_is_active (coach_info_of s club <$>
    List.filter (λ kp, pe_is_coach (pf_person kp.2)) (rows_by_id (ac_profiles s)))) = coach_count s club.
Proof.
  unfold coach_count, zlen. f_equal. rewrite filter_fmap_list, length_fmap. unfold profiles_where.
  f_equal. change (λ x, ci_is_active (coach_info_of s club x)) with (λ kp : Z * Profile, bool_decide (club ∈ pf_coaching_clubs kp.2)).
  rewrite filter_and. apply filter_where. intros kp _. unfold coaches_at. cbn. apply andb_comm.
Qed.

(** The figures of a club agree everywhere: its dashboard, its own lists of students and
    coaches, the coaches marked active in the list of all coaches, and the list that the
    board of the club sees. *)
Theorem club_figures_agree matches s user club c : club_of s user = Some (club, c) →
  ∃ students coaches all table a b,
    club_students_list s user no_query = Listed students ∧ club_coaches s user = Listed coaches ∧
    club_all_coaches s user = Some all ∧
    dashboard_combined matches s user "club" = ClubDashboard (cd_club_name (cb_data c)) (cd_founder_name (cb_data c))
      (zlen students) (zlen coaches) (matches club) table a b ∧
    zlen (List.filter ci_is_active all) = zlen coaches ∧
    ∀ other search cards card, heyat_clubs_list s other search = Listed cards → card ∈ cards → bc_id card = club →
      bc_student_count card = zlen students ∧ bc_coach_count card = zlen coaches.
Proof.
  intros Hc. unfold Dashboards.club_students_list, club_coaches, club_all_coaches, Dashboards.dashboard_combined, club_of_user.
  rewrite Hc. cbn. eexists _, _, _, _, _, _. split; [done|]. split; [done|]. split; [done|]. rewrite named_length.
  split; [by rewrite where_where|]. split.
  - etrans; [apply filter_perm_length, sort_by_perm|apply active_length].
  - intros other search cards card Hl Hin <-. by eapply club_card_counts.
Qed.

(** So do the figures of a board. *)
Theorem board_figures_agree matches s user board b : board_of s user = Some (board, b) →
  ∃ students coaches referees clubs options table,
    heyat_students_list s user no_query = Listed students ∧ heyat_coaches_list s user no_query = Listed coaches ∧
    heyat_referees_list s user no_query = Ok (Listed referees) ∧ heyat_clubs_list s user None = Listed clubs ∧
    heyat_form_data s user = Some options ∧ options.1 = named_person <$> coaches ∧
    options.2 = (λ card, (bc_id card, bc_club_name card)) <$> clubs ∧
    dashboard_combined matches s user "heyat" =
      BoardDashboard (br_name b) (zlen students) (zlen coaches) (zlen referees) (zlen clubs) table.
Proof.
  intros Hb. unfold Dashboards.heyat_students_list, Dashboards.heyat_coaches_list, Dashboards.heyat_referees_list,
    Dashboards.heyat_clubs_list, heyat_form_data, Dashboards.dashboard_combined, board_of_user.
  rewrite Hb. cbn. eexists _, _, _, _, _, _. do 5 (split; [done|]). split; [done|]. split.
  - cbn. rewrite <- list_fmap_compose. done.
  - rewrite !where_where. unfold zlen. rewrite length_fmap. f_equal.
    do 2 f_equal. apply filter_where. intros kp _. apply andb_comm.
Qed.

(** The list of a coach leaves the coach out, the dashboard counts everybody: the two differ by
    one exactly for a coach who is their own coach. *)
Theorem coach_dashboard_counts_self matches s user coach p role : profile_of s user = Some (coach, p) →
  pe_is_coach (pf_person p) = true → role ≠ "club"%string → role ≠ "heyat"%string →
  ∃ l card clubs, coach_students_list s user no_query = Listed l ∧
    dashboard_combined matches s user role
    = ProfileDashboard card (zlen l + (if decide (pe_coach (pf_person p) = Some coach) then 1 else 0)) clubs.
Proof.
  intros Hp Hcoach Hclub Hheyat. unfold Dashboards.coach_students_list, Dashboards.dashboard_combined.
  rewrite Hp, Hcoach. cbn. apply String.eqb_neq in Hclub as ->. apply String.eqb_neq in Hheyat as ->.
  eexists _, _, _. split; [done|]. f_equal.
  assert (Hk : ac_profiles s !! coach = Some p) by (unfold profile_of in Hp; by apply first_row_some in Hp as [Hp _]).
  unfold profiles_where. rewrite (filter_split_length (of_coach coach) (λ kp, kp.1 =? coach)). f_equal.
  rewrite (one_row_length _ _ coach p Hk). unfold of_coach. cbn.
  by destruct (decide (pe_coach (pf_person p) = Some coach)) as [E|E]; [rewrite bool_decide_eq_true_2 | rewrite bool_decide_eq_false_2].
Qed.
End dashboard_facts.

Section competition_facts.
Context {P : Type} (profile_user club_user board_user : Z → option Z) (approvals : gmap Z CoachApproval).
Implicit Types d : DB P.

Lemma elem_of_order_items {A} (created : A → Z) items x : x ∈ _order_items created items ↔ x ∈ items.
Proof. unfold _order_items. by rewrite sort_by_perm. Qed.

(** For a player both lists of kyorugi competitions hold the same ones: those with an
    active accepted approval of the coach. Only, nothing in the list of the accounts is ever
    shown as open. *)
Theorem player_lists_agree in_group created_at po_approvals d user k prof coach today :
  first_profile profile_user d (Some user) = Some (k, prof) → up_role prof = "player"%string → up_is_coach prof = false →
  up_coach prof = Some coach →
  ∃ l, kyorugi_list profile_user club_user board_user approvals d user = Ok l ∧
    (∀ c, c ∈ l.*1 ↔ KyorugiComp c ∈ dashboard_kyorugi profile_user club_user in_group created_at approvals po_approvals d user false today) ∧
    (∀ c, c ∈ l.*1 ↔ ∃ comp, db_competitions d !! c = Some comp ∧ has_approval approvals coach c) ∧
    (∀ kc, kc ∈ l → dk_can_register profile_user approvals d user today kc = false ∧ dk_get_status today kc ≠ "open"%string).
Proof.
  intros Hf Hrole Hnot Hcoach. unfold kyorugi_list, dashboard_kyorugi, _detect_role_and_profile. rewrite Hf. cbn [snd].
  rewrite Hrole, Hnot. change (truthy_str "player") with true. change (lower "player") with "player"%string. cbn iota.
  unfold _dashboard_base_qs. change (String.eqb "player" "player") with true. cbn iota zeta. cbn [mbind option_bind snd].
  rewrite bool_decide_eq_false_2 by (intros [[=]|[[=]|[]%not_elem_of_nil]%elem_of_cons]%elem_of_cons). cbn [orb].
  rewrite Hcoach. cbn iota. eexists. split; [done|].
  assert (Hl : ∀ c, c ∈ (List.filter (λ kc, approved_comp approvals coach kc.1) (rev (rows_by_id (db_competitions d)))).*1 ↔
    ∃ comp, db_competitions d !! c = Some comp ∧ has_approval approvals coach c).
  { intros c. rewrite elem_of_pairs. setoid_rewrite elem_of_filter_list. setoid_rewrite approved_comp_iff. cbn.
    setoid_rewrite list_elem_of_In. setoid_rewrite <- in_rev. setoid_rewrite <- list_elem_of_In.
    setoid_rewrite elem_of_rows_by_id. naive_solver. }
  split_and!; [|done|].
  - intros c. rewrite Hl. rewrite elem_of_order_items, list_elem_of_fmap. setoid_rewrite elem_of_pairs.
    unfold ky_opened, _opened. cbn. setoid_rewrite elem_of_filter_list. setoid_rewrite elem_of_rows_by_id.
    setoid_rewrite approved_comp_iff. naive_solver.
  - intros kc _. split; [done|]. unfold dk_get_status. cbn. by destruct (today <? _).
Qed.
End competition_facts.

(** ** Examples *)

Definition list_person (first code phone role belt : string) (coach club : option Z) (is_coach : bool) : Person :=
  mkPerson first "Karimi" "" code "1380/01/01" "male" phone role "" "" "" "" "" (Some 5) "" coach "" club [] belt "" ""
    is_coach None None false false None None false None None false None None true.

Definition aria : Club :=
  mkClub (mkClubData "Aria" "Reza" "" "09130000009" "" None "" "" "" (Some 5) "" "" "" "" "" true) (Some 20).

(** A board, its club, a coach who is a student of herself, and two players. *)
Definition list_accounts : accounts :=
  set_ac_boards {[5 := mkBoard "Shahrekord" (Some 21)]}
    (set_ac_clubs {[10 := aria]}
       (set_ac_profiles {[ 2 := mkProfile (Some 1) (list_person "Sara" "1" "2" "coach" "قرمز" (Some 2) None true) {[10]};
                           3 := mkProfile None (list_person "Ali" "3" "4" "player" "سبز" (Some 2) (Some 10) false) ∅;
                           4 := mkProfile None (list_person "Reza" "5" "6" "player" "زرد" None (Some 10) false) ∅ ]}
          (set_ac_next_id 30 empty_accounts))).

Definition list_icontains (a b : string) : bool := contains (lower b) (lower a).
Definition list_figures (k : Z) : figures Z := mkFigures 1 0 (mkMedals k 0 1) (mkMedals 0 1 0) (mkMedals 0 0 0) 300 450.
Definition green : list_query := mkListQuery None None (Some "سبز"%string) None None (Some "ali"%string) None None None.
Definition of_aria : list_query := mkListQuery None (Some "Aria"%string) None None None None None None None.

Example coach_card_of_a_club : club_coaches list_accounts 20 = Listed [(2, "Sara Karimi"%string)].
Proof. by vm_compute. Qed.

(** The filter of the referees for a club fails. *)
Example referees_of_a_club_fail : heyat_referees_list text list_icontains String.leb list_accounts 21 of_aria = Err OtherError.
Proof. by vm_compute. Qed.

(** The list of competitions of the accounts is behind a path that another view takes. *)
Example kyorugi_path_is_taken : resolve_dashboard "kyorugi" = Some (CombinedRoute "kyorugi").
Proof. by vm_compute. Qed.

Lemma lists_stay_inside_witness :
  heyat_students_list text list_icontains String.leb list_accounts 21 green = Listed [(3, default (mkProfile None new_edit ∅) (ac_profiles list_accounts !! 3))] ∧
  ∃ board b, board_of list_accounts 21 = Some (board, b) ∧ pe_tkd_board (list_person "Ali" "3" "4" "player" "سبز" (Some 2) (Some 10) false) = Some board.
Proof.
  split; [by vm_compute|].
  destruct (lists_stay_inside text list_icontains String.leb list_accounts 21 green
              (3, default (mkProfile None new_edit ∅) (ac_profiles list_accounts !! 3))) as (_ & Hb & _).
  destruct (Hb [(3, default (mkProfile None new_edit ∅) (ac_profiles list_accounts !! 3))]) as (board & b & Hboard & _ & Hin & _).
  - by vm_compute.
  - by left.
  - exists board, b. split; [exact Hboard|]. exact Hin.
Defined.

Lemma club_figures_agree_witness :
  ∃ students coaches all table a b,
    club_students_list text list_icontains String.leb list_accounts 20 no_query = Listed students ∧
    club_coaches list_accounts 20 = Listed coaches ∧ club_all_coaches list_accounts 20 = Some all ∧
    dashboard_combined text list_figures (λ _, 7) list_accounts 20 "club" = ClubDashboard "Aria" "Reza" (zlen students) (zlen coaches) 7 table a b ∧
    zlen (List.filter ci_is_active all) = zlen coaches ∧
    ∀ other search cards card, heyat_clubs_list text list_icontains list_accounts other search = Listed cards → card ∈ cards → bc_id card = 10 →
      bc_student_count card = zlen students ∧ bc_coach_count card = zlen coaches.
Proof.
  refine (club_figures_agree text list_icontains String.leb list_figures (λ _, 7) list_accounts 20 10 aria _).
  vm_compute. reflexivity.
Defined.

Lemma board_list_is_club_list_witness :
  heyat_students_list text list_icontains String.leb list_accounts 21 (for_club "Aria" green)
  = club_students_list text list_icontains String.leb list_accounts 20 green.
Proof.
  refine (board_list_is_club_list text list_icontains String.leb list_accounts 20 21 green 10
            aria 5 (mkBoard "Shahrekord" (Some 21)) _ _ _ _ _ _).
  - vm_compute. reflexivity.
  - vm_compute. reflexivity.
  - discriminate.
  - discriminate.
  - intros k x Hk _. cbn in Hk. by apply lookup_singleton_Some in Hk as [<- _].
  - intros k x Hk _. cbn in Hk.
    apply lookup_insert_Some in Hk as [[_ <-]|[_ Hk]]; [done|].
    apply lookup_insert_Some in Hk as [[_ <-]|[_ Hk]]; [done|].
    by apply lookup_singleton_Some in Hk as [_ <-].
Defined.
