(* ===== verification/AdminPages.v ===== *)
(** Pages of the admin ([src/competitions/admin.py]): the form of results, the numbering
    page, the list of participants with its deletion, the approvals of coaches, and the
    forms of seminars and poomsae competitions.

    The texts a browser posts are arguments; labels of belt groups and the order of names
    in the database ([text_le]) are parameters, and pages show keys instead of rendered
    rows.  Uploaded files and Jalali dates are left out. *)

From stdpp Require Import pretty.
From Stdlib Require Import SpecFloat.
From S2P Require Import Prelude Brackets Store Points Ranking Ledger NumberingService NumberingPlan Payments GroupRegistration Text Approvals Seminars Eligibility Catalogue Reports.
Local Open Scope Z_scope.

(** ** Fields of the forms *)

(** [filter(id=v)] of a posted text: a text that is no number raises [ValueError]. *)
Definition pk_lookup (v : option string) : result (option Z) :=
  match v with
  | None => Ok None
  | Some t => match py_int (_to_en_digits t) with Some k => Ok (Some k) | None => Err ValueError end
  end.

(** A [ModelChoiceField] that is not required: no value, one of the rows, or an error. *)
Definition model_choice {A} (rows : list (Z * A)) (v : option string) : option (option Z) :=
  match v with
  | None => Some None
  | Some "" => Some None
  | Some t =>
      match py_int (_to_en_digits t) with
      | Some k => if bool_decide (k ∈ rows.*1) then Some (Some k) else None
      | None => None
      end
  end.

(** The texts of [KyorugiResultEntryForm]. *)
Record result_post := mkResultPost {
  rp_gender : option string;
  rp_only_upcoming : bool;
  rp_competition : option string;
  rp_weight_category : option string;
  rp_gold : option string;
  rp_silver : option string;
  rp_bronze1 : option string;
  rp_bronze2 : option string;
  rp_notes : string;
}.

(** Its cleaned data. *)
Record result_data := mkResultData {
  rd_competition : option Z;
  rd_weight_category : option Z;
  rd_gold : option Z;
  rd_silver : option Z;
  rd_bronze1 : option Z;
  rd_bronze2 : option Z;
  rd_notes : string;
}.

Definition picks (f : result_data) : list Z := omap id [rd_gold f; rd_silver f; rd_bronze1 f; rd_bronze2 f].

Section pages.
Context {P : Type} `{PointArith P}.
Local Abbreviation db := (DB P).
Implicit Types d : db.

(** ** Choices *)

(** Competitions, the latest first. *)
Definition latest_first (l : list (Z * KyorugiCompetition)) : list (Z * KyorugiCompetition) :=
  sort_by (λ a b, (kc_competition_date b.2 <? kc_competition_date a.2)
                  || (kc_competition_date a.2 =? kc_competition_date b.2) && (b.1 <=? a.1)) l.

(** The weights of the mats of a competition, of its gender. *)
Definition weight_choices d (comp : Z) (c : KyorugiCompetition) : list (Z * WeightCategory) :=
  List.filter (λ kw, bool_decide (kw.1 ∈ (mats_of d comp ≫= ma_weights)) && String.eqb (wc_gender kw.2) (kc_gender c))
    (rows_by_id (db_weights d)).

(** The entries that can get a place. *)
Definition entry_choices d (comp weight : Z) : list (Z * Enrollment) :=
  List.filter (λ ke, (en_competition ke.2 =? comp) && bool_decide (en_weight_category ke.2 = Some weight)
                     && bool_decide (en_status ke.2 ∈ ELIGIBLE_STATUSES))
    (rows_by_id (db_enrollments d)).

Definition result_competitions d (gender : option string) (only_upcoming : bool) (today : Z) : list (Z * KyorugiCompetition) :=
  let qs := latest_first (rows_by_id (db_competitions d)) in
  let qs := match gender with
            | Some g => if truthy_str g then List.filter (λ kc, String.eqb (kc_gender kc.2) g) qs else qs
            | None => qs
            end in
  if only_upcoming then List.filter (λ kc, today <=? kc_competition_date kc.2) qs else qs.

(** The row of a key among some rows. *)
Definition row_of {A} (rows : list (Z * A)) (k : option Z) : option (Z * A) :=
  head (List.filter (λ r, bool_decide (Some r.1 = k)) rows).

(** The choices of [KyorugiResultEntryForm.__init__]. *)
Definition result_choices d (p : result_post) (today : Z)
    : result (list (Z * KyorugiCompetition) * list (Z * WeightCategory) * list (Z * Enrollment)) :=
  let comps := result_competitions d (rp_gender p) (rp_only_upcoming p) today in
  match pk_lookup (rp_competition p), pk_lookup (rp_weight_category p) with
  | Ok ck, Ok wk =>
      match row_of comps ck with
      | None => Ok (comps, [], [])
      | Some (comp, c) =>
          let weights := weight_choices d comp c in
          match row_of weights wk with
          | None => Ok (comps, weights, [])
          | Some (w, _) => Ok (comps, weights, entry_choices d comp w)
          end
      end
  | Err e, _ | _, Err e => Err e
  end.

(** The form of a post: the cleaned data, or [None] when it is not valid; [clean] refuses
    an entry on two places. *)
Definition result_entry_form d (p : result_post) (today : Z) : result (option result_data) :=
  match result_choices d p today with
  | Err e => Err e
  | Ok (comps, weights, entries) =>
      let field v := model_choice entries v in
      Ok (comp ← model_choice comps (rp_competition p);
          weight ← model_choice weights (rp_weight_category p);
          gold ← field (rp_gold p);
          silver ← field (rp_silver p);
          bronze1 ← field (rp_bronze1 p);
          bronze2 ← field (rp_bronze2 p);
          let f := mkResultData comp weight gold silver bronze1 bronze2 (rp_notes p) in
          if bool_decide (NoDup (picks f)) then Some f else None)
  end.

(** [kyorugi_results_view] of a post: without a competition or a weight the new row does
    not validate; an invalid form is shown again. *)
Inductive results_answer := FormShown | ResultSaved.

Definition post_results (p : result_post) (user today : Z) : M db results_answer :=
  (d <~ get ;;
   f <~ lift (result_entry_form d p today) ;;
   match f with
   | None => ret FormShown
   | Some f =>
       match rd_competition f, rd_weight_category f with
       | Some c, Some w =>
           kyorugi_results_view (mkResultForm c w (rd_gold f) (rd_silver f) (rd_bronze1 f) (rd_bronze2 f) (rd_notes f)) user ;;;
           ret ResultSaved
       | _, _ => raise ValidationError
       end
   end)%monad.

(** ** The numbering page *)

Inductive numbering_message := Cleared | NumberingDone | NumberingFailed.

(** The choices of [MatchNumberingForm]: lightest first. *)
Definition numbering_choices d (comp : Z) (c : KyorugiCompetition) : list (Z * WeightCategory) :=
  sort_by (λ a b, SFltb (wc_min_weight a.2) (wc_min_weight b.2)
                  || SFeqb (wc_min_weight a.2) (wc_min_weight b.2) && (a.1 <=? b.1)) (weight_choices d comp c).

(** The form: the competition and the chosen weights, [None] when it is not valid. A
    competition that is no number raises when the choices are looked up. *)
Definition numbering_form d (comp : option string) (weights : list string) : result (option (Z * list Z)) :=
  match comp with
  | None => Ok None
  | Some "" => Ok None
  | Some t =>
      match py_int (_to_en_digits t) with
      | None => Err ValueError
      | Some k =>
          Ok (c ← db_competitions d !! k;
              let choices := numbering_choices d k c in
              if negb (bool_decide (length weights = 0%nat)) && forallb (λ t, bool_decide (t ∈ pretty <$> choices.*1)) weights
              then Some (k, List.filter (λ w, bool_decide (pretty w ∈ weights)) choices.*1) else None)
      end
  end.

(** What [numbering_view] does with a valid form: the messages of the page. *)
Definition numbering_actions (comp : Z) (weights : list Z) (reset_old do_apply : bool) : M db (list numbering_message) :=
  (cleared <~ (if reset_old && negb do_apply
               then clear_match_numbers_for_competition comp weights ;;; ret [Cleared] else ret []) ;;
   applied <~ (if do_apply
               then try_catch (number_matches_for_competition comp weights reset_old ;;; ret [NumberingDone])
                      (λ _, ret [NumberingFailed])
               else ret []) ;;
   ret (cleared ++ applied))%monad.

(** The mat that the page names for a weight: that of the first assignment with it. *)
Definition shown_mat d (comp weight : Z) : option Z :=
  ma_mat_number <$> head (List.filter (λ ma, bool_decide (weight ∈ ma_weights ma)) (mats_of d comp)).

(** The mats with the chosen weights, lightest first. *)
Definition mats_map d (comp : Z) (weights : list Z) : list (Z * list string) :=
  List.filter (λ mw, negb (bool_decide (length mw.2 = 0%nat)))
    ((λ ma, (ma_mat_number ma,
             (λ kw : Z * WeightCategory, wc_name kw.2) <$>
               sort_by (λ a b, SFleb (wc_min_weight a.2) (wc_min_weight b.2))
                 (List.filter (λ kw, bool_decide (kw.1 ∈ ma_weights ma) && bool_decide (kw.1 ∈ weights))
                    (rows_by_id (db_weights d))))) <$> mats_of d comp).

(** The brackets of the page: each draw of the weights with its mat and its matches by
    round and slot. *)
Definition page_brackets d (comp : Z) (weights : list Z) : list (Z * option Z * list (Z * Match)) :=
  (λ kd : Z * Draw, (kd.1, shown_mat d comp (dr_weight_category kd.2),
     sort_by (λ a b, (mt_round_no a.2 <? mt_round_no b.2)
                     || (mt_round_no a.2 =? mt_round_no b.2) && (mt_slot_a a.2 <=? mt_slot_a b.2))
       (List.filter (λ km, mt_draw km.2 =? kd.1) (rows_by_id (db_matches d))))) <$>
    draws_of_weights d comp weights.

(** [numbering_view]: [None] when the form is shown again. *)
Definition numbering_view (comp : option string) (weights : list string) (reset_old do_apply : bool)
    : M db (option (list numbering_message * list (Z * list string) * list (Z * option Z * list (Z * Match)))) :=
  (d <~ get ;;
   f <~ lift (numbering_form d comp weights) ;;
   match f with
   | None => ret None
   | Some (c, ws) =>
       messages <~ numbering_actions c ws reset_old do_apply ;;
       d' <~ get ;;
       ret (Some (messages, mats_map d' c ws, page_brackets d' c ws))
   end)%monad.

(** ** Participants *)

(** What the deletion of entries does to a key that refers to one: [SET_NULL]. *)
Definition cleared_key (ids : list Z) (o : option Z) : option Z :=
  match o with Some k => if bool_decide (k ∈ ids) then None else o | None => None end.

Definition cleared_result (ids : list Z) (r : KyorugiResult) : KyorugiResult :=
  mkKyorugiResult (re_competition r) (re_weight_category r) (cleared_key ids (re_gold r)) (cleared_key ids (re_silver r))
    (cleared_key ids (re_bronze1 r)) (cleared_key ids (re_bronze2 r)) (re_notes r) (re_created_by r).

Definition cleared_intent (ids : list Z) (i : PaymentIntent) : PaymentIntent :=
  mkPaymentIntent (pi_public_id i) (pi_user i) (pi_gateway i) (pi_status i) (pi_competition i) (pi_amount i)
    (pi_original_amount i) (pi_discount_amount i) (pi_discount_code i) (pi_description i) (pi_callback_url i) (pi_token i)
    (pi_ref_id i) (pi_card_pan i) (pi_extra i) (pi_initiator_ip i) (pi_user_agent i) (pi_payment_link_token i)
    (pi_payment_link_expires_at i) (List.filter (λ k, negb (bool_decide (k ∈ ids))) (pi_kyorugi_enrollments i))
    (cleared_key ids (pi_kyorugi_enrollment i)) (pi_poomsae_enrollment i) (pi_seminar_registration i).

Definition without_keys {A} (ids : list Z) (t : gmap Z A) : gmap Z A := filter (λ kx, kx.1 ∉ ids) t.

(** [qs.delete()] of entries: their awards go too ([CASCADE]), results and intents lose
    them. *)
Definition delete_enrollments (ids : list Z) d : db :=
  set_db_enrollments (without_keys ids (db_enrollments d))
    (set_db_awards (without_keys ids (db_awards d))
       (set_db_results (cleared_result ids <$> db_results d)
          (set_db_intents (cleared_intent ids <$> db_intents d) d))).

(** [id__in=ids] of posted texts. *)
Fixpoint posted_ids (l : list string) : option (list Z) :=
  match l with
  | [] => Some []
  | t :: rest => k ← py_int (_to_en_digits t); ks ← posted_ids rest; Some (k :: ks)
  end.

Inductive deletion_answer := NoneSelected | DeletedParticipants (count : Z).

(** The post of [ParticipantsReportAdmin.changelist_view]. *)
Definition delete_participants (selected : list string) : M db deletion_answer :=
  match selected with
  | [] => ret NoneSelected
  | _ =>
      (ids <~ of_option (posted_ids selected) ValueError ;;
       d <~ get ;;
       modify (delete_enrollments ids) ;;;
       ret (DeletedParticipants (zlen (List.filter (λ ke : Z * Enrollment, bool_decide (ke.1 ∈ ids)) (rows_by_id (db_enrollments d))))))%monad
  end.

(** The competitions of the report: those not over. *)
Definition participants_competitions d (today : Z) : list (Z * KyorugiCompetition) :=
  latest_first (List.filter (λ kc, today <=? kc_competition_date kc.2) (rows_by_id (db_competitions d))).

(** [grouped.setdefault(label, ...)] followed by a change of the group. *)
Fixpoint into_group {K A} `{EqDecision K} (label : K) (f : A → A) (new : A) (groups : list (K * A)) : list (K * A) :=
  match groups with
  | [] => [(label, f new)]
  | (l, g) :: rest => if bool_decide (l = label) then (l, f g) :: rest else (l, g) :: into_group label f new rest
  end.

Section report.
Context (text_le : string → string → bool) (belt_label : Z → string).

Definition entry_belt (e : Enrollment) : string :=
  match en_belt_group e with Some b => belt_label b | None => "—"%string end.
Definition entry_weight d (e : Enrollment) : string :=
  match en_weight_category e ≫= (db_weights d !!.) with Some w => wc_name w | None => "—"%string end.

(** One step of an order by several columns: [le] and its opposite decide, or the rest
    does. *)
Definition then_by {A} (le : A → A → bool) (rest : A → A → bool) (a b : A) : bool :=
  if le a b then (if le b a then rest a b else true) else false.

(** Missing values come first. *)
Definition none_first {A B} (column : A → option B) (le : B → B → bool) (a b : A) : bool :=
  match column a, column b with
  | Some x, Some y => le x y
  | None, _ => true
  | Some _, None => false
  end.

Definition player_name d (f : UserProfile P → string) (ke : Z * Enrollment) : option string :=
  f <$> db_profiles d !! en_player ke.2.

(** The order of the report. *)
Definition report_le d : Z * Enrollment → Z * Enrollment → bool :=
  then_by (none_first (λ ke, belt_label <$> en_belt_group ke.2) text_le)
    (then_by (none_first (λ ke, wc_min_weight <$> (en_weight_category ke.2 ≫= (db_weights d !!.))) SFleb)
       (then_by (none_first (player_name d up_last_name) text_le)
          (none_first (player_name d up_first_name) text_le))).

(** The groups of [ParticipantsReportAdmin.changelist_view]: by belt, then by weight. *)
Definition add_participant d (groups : list (string * list (string * list Z))) (ke : Z * Enrollment)
    : list (string * list (string * list Z)) :=
  into_group (entry_belt ke.2) (into_group (entry_weight d ke.2) (λ l, l ++ [ke.1]) []) [] groups.

Definition participants_report d (comp : Z) : list (string * list (string * list Z)) :=
  foldl (add_participant d) []
    (sort_by (report_le d) (List.filter (λ ke, en_competition ke.2 =? comp) (rows_by_id (db_enrollments d)))).
End report.
End pages.

(** ** The numbering page: correctness *)

Section numbering_page.
Context {P : Type}.
Implicit Types d : DB P.

Lemma elem_of_weight_choices d comp c w wc : (w, wc) ∈ weight_choices d comp c →
  db_weights d !! w = Some wc ∧ wc_gender wc = kc_gender c ∧
  ∃ ma, ma ∈ db_mat_assignments d ∧ ma_competition ma = comp ∧ w ∈ ma_weights ma.
Proof.
  unfold weight_choices. rewrite elem_of_filter_list, elem_of_rows_by_id. cbn.
  rewrite andb_true_iff, bool_decide_eq_true, String.eqb_eq, list_elem_of_bind.
  intros (? & (ma & Hw & Hma) & ?). split_and!; [done..|]. unfold mats_of in Hma.
  rewrite elem_of_filter_list, Z.eqb_eq in Hma. destruct Hma. eauto.
Qed.

(** The weights of a valid form: chosen ones, listed by a mat, at least one. *)
Lemma numbering_form_valid d comp ws k chosen : numbering_form d comp ws = Ok (Some (k, chosen)) →
  is_Some (db_competitions d !! k) ∧ chosen ≠ [] ∧ (∀ w, w ∈ chosen → pretty w ∈ ws) ∧
  (∀ w, w ∈ chosen → ∃ ma, ma ∈ db_mat_assignments d ∧ ma_competition ma = k ∧ w ∈ ma_weights ma).
Proof.
  unfold numbering_form. destruct comp as [[|a t]|]; [done| |done].
  destruct (py_int _) as [k'|]; [|done]. destruct (db_competitions d !! k') as [c|] eqn:Hc; [|done]. cbn.
  destruct (negb _ && _) eqn:Hv; [|done]. intros [= <- <-].
  rewrite andb_true_iff, negb_true_iff, bool_decide_eq_false, forallb_forall in Hv. destruct Hv as [Hne Hall].
  setoid_rewrite elem_of_filter_list. setoid_rewrite bool_decide_eq_true. split_and!; [by eexists| | |].
  - destruct ws as [|s ws]; [done|]. specialize (Hall s ltac:(by left)).
    apply bool_decide_eq_true, list_elem_of_fmap in Hall as (w & -> & Hw). intros Hnil.
    assert (Hin : w ∈ List.filter (λ w0, bool_decide (pretty w0 ∈ pretty w :: ws)) (numbering_choices d k' c).*1)
      by (apply elem_of_filter_list; rewrite bool_decide_eq_true; split; [done|by left]).
    rewrite Hnil in Hin. by apply not_elem_of_nil in Hin.
  - by intros w [_ ?].
  - intros w [Hw _]. apply list_elem_of_fmap in Hw as ([w' wc] & -> & Hw). unfold numbering_choices in Hw.
    rewrite sort_by_perm in Hw. by apply elem_of_weight_choices in Hw as (_ & _ & ?).
Qed.

Lemma draws_of_weights_some d comp ws : draws_of_weights d comp ws ≠ [] ↔
  ∃ k dr, db_draws d !! k = Some dr ∧ dr_competition dr = comp ∧ dr_weight_category dr ∈ ws.
Proof.
  split.
  - destruct (draws_of_weights d comp ws) as [|[k dr] l] eqn:E; [done|]. intros _.
    assert (Hin : (k, dr) ∈ draws_of_weights d comp ws) by (rewrite E; left).
    apply elem_of_draws_of_weights in Hin. eauto.
  - intros (k & dr & ? & ? & ?) Hnil.
    assert (Hin : (k, dr) ∈ draws_of_weights d comp ws) by by apply elem_of_draws_of_weights.
    rewrite Hnil in Hin. by apply not_elem_of_nil in Hin.
Qed.

(** With the weights of a valid form only a missing draw stops the numbering. *)
Lemma numbering_of_form d comp ws k chosen cp : numbering_form d comp ws = Ok (Some (k, chosen)) →
  match number_matches_for_competition k chosen cp d with
  | (Ok _, _) => draws_of_weights d k chosen ≠ []
  | (Err _, d') => draws_of_weights d k chosen = [] ∧ d' = d
  end.
Proof.
  intros (Hc & Hne & _ & Hmat)%numbering_form_valid.
  pose proof (numbering_accepted d k chosen cp) as Hacc. rewrite <- draws_of_weights_some in Hacc.
  pose proof (number_matches_eq d k chosen cp) as Heq.
  destruct (number_matches_for_competition k chosen cp d) as [[cs|e] d'].
  - apply Hacc. eauto.
  - assert (Hd : d' = d) by (destruct (numbering_refusal d k chosen); congruence). split; [|done].
    destruct (draws_of_weights d k chosen) eqn:E; [done|]. exfalso.
    destruct Hacc as [_ (cs & d'' & Hx)]; [|congruence]. by split_and!.
Qed.

Lemma clear_of_form d comp ws k chosen : numbering_form d comp ws = Ok (Some (k, chosen)) →
  clear_match_numbers_for_competition k chosen d =
    (Ok tt, clear_numbers (List.filter (λ row, (dr_competition row.2 =? k) && bool_decide (dr_weight_category row.2 ∈ chosen))
                             (rows_by_id (db_draws d))).*1 d).
Proof.
  intros ([c Hc] & Hne & _)%numbering_form_valid. unfold clear_match_numbers_for_competition, atomic, bind, get.
  rewrite Hc. cbn. by rewrite bool_decide_eq_false_2.
Qed.
End numbering_page.

(** The numbering page. A request whose form is not valid, or that fails, changes nothing. A
    valid one numbers the matches when [do_apply] is checked, otherwise clears their numbers when
    [reset_old] is checked, otherwise only shows them; numbering fails exactly when none of the chosen
    weights has a draw, and then nothing has changed; the page shows the brackets of the chosen
    weights as they are afterwards. *)
Theorem numbering_page_effects {P} (d : DB P) comp ws reset_old do_apply :
  let '(r, d') := numbering_view comp ws reset_old do_apply d in
  match r with
  | Ok (Some (messages, mats, brackets)) => ∃ k chosen, numbering_form d comp ws = Ok (Some (k, chosen)) ∧
      mats = mats_map d' k chosen ∧ brackets = page_brackets d' k chosen ∧
      if do_apply then
        d' = (number_matches_for_competition k chosen reset_old d).2 ∧
        (messages = [NumberingDone] ∧ draws_of_weights d k chosen ≠ [] ∨
         messages = [NumberingFailed] ∧ draws_of_weights d k chosen = [] ∧ d' = d)
      else if reset_old then messages = [Cleared] ∧ d' = (clear_match_numbers_for_competition k chosen d).2
      else messages = [] ∧ d' = d
  | _ => d' = d
  end.
Proof.
  destruct (numbering_view comp ws reset_old do_apply d) as [r d'] eqn:E. revert E. unfold numbering_view. cbn. unfold bind at 1, get, lift.
  destruct (numbering_form d comp ws) as [[[k chosen]|]|e] eqn:Hf; cbn; unfold ret; [|intros; by simplify_eq..].
  unfold bind, numbering_actions, try_catch, ret. destruct do_apply; cbn.
  - rewrite andb_false_r. pose proof (numbering_of_form d comp ws k chosen reset_old Hf) as Hn. cbn. unfold bind, ret.
    destruct (number_matches_for_competition k chosen reset_old d) as [[cs|e] d1] eqn:En; cbn; intros; simplify_eq;
      exists k, chosen; rewrite En; (do 4 (split; [done|])).
    + by left.
    + destruct Hn. by right.
  - rewrite andb_true_r. destruct reset_old; cbn.
    + unfold bind. pose proof (clear_of_form d comp ws k chosen Hf) as Hclear. rewrite Hclear.
      cbn. unfold ret. intros; simplify_eq. exists k, chosen. by rewrite Hclear.
    + intros; simplify_eq. by exists k, chosen.
Qed.

(** The mat of the page and the mat of the numbers. *)
Lemma shown_mat_first {P} (d : DB P) comp w n : shown_mat d comp w = Some n → n ∈ mats_listing d comp w.
Proof.
  unfold shown_mat. destruct (List.filter _ _) as [|ma l] eqn:E; cbn; [done|]. intros [= <-].
  assert (Hin : ma ∈ ma :: l) by left. rewrite <- E, elem_of_filter_list, bool_decide_eq_true in Hin.
  destruct Hin as [Hin Hw]. unfold mats_of in Hin. rewrite elem_of_filter_list, Z.eqb_eq in Hin.
  apply elem_of_mats_listing. naive_solver.
Qed.

(** The page names the mat on which the matches are numbered when the assignments of the
    competition are stored in ascending order of their mats. *)
Theorem page_names_numbered_mat {P} (d : DB P) comp w :
  StronglySorted (λ a b, ma_mat_number a ≤ ma_mat_number b) (mats_of d comp) →
  shown_mat d comp w = _weight_to_mat_map d comp !! w.
Proof.
  intros Hs. pose proof (weight_to_mat_least d comp w) as Hl.
  assert (Hmem : ∀ ma, ma ∈ mats_of d comp → w ∈ ma_weights ma → ma_mat_number ma ∈ mats_listing d comp w).
  { intros ma Hma Hw. unfold mats_of in Hma. rewrite elem_of_filter_list, Z.eqb_eq in Hma.
    apply elem_of_mats_listing. naive_solver. }
  apply (strongly_sorted_filter _ (λ ma, bool_decide (w ∈ ma_weights ma))) in Hs.
  assert (Hf : ∀ ma, ma ∈ List.filter (λ ma, bool_decide (w ∈ ma_weights ma)) (mats_of d comp) ↔
    ma ∈ mats_of d comp ∧ w ∈ ma_weights ma).
  { intros ma. by rewrite elem_of_filter_list, bool_decide_eq_true. }
  destruct (_weight_to_mat_map d comp !! w) as [n|] eqn:Hw; cbn in Hl.
  - destruct Hl as [(ma & Hma & Hc & Hwm & <-)%elem_of_mats_listing Hleast].
    assert (Hin : ma ∈ mats_of d comp) by (unfold mats_of; by rewrite elem_of_filter_list, Z.eqb_eq).
    unfold shown_mat. destruct (List.filter _ _) as [|m0 l].
    { exfalso. apply (not_elem_of_nil ma). by apply Hf. }
    cbn. f_equal. apply StronglySorted_inv in Hs as [_ Hs]. rewrite Forall_forall in Hs.
    assert (Hm0 : m0 ∈ mats_of d comp ∧ w ∈ ma_weights m0) by (apply Hf; left).
    assert (ma_mat_number ma ≤ ma_mat_number m0) by (apply Hleast, Hmem; tauto).
    assert (ma_mat_number m0 ≤ ma_mat_number ma); [|lia].
    assert (Hma' : ma ∈ m0 :: l) by by apply Hf.
    apply elem_of_cons in Hma' as [-> | ?]; [lia|]. by apply Hs.
  - destruct (shown_mat d comp w) as [n|] eqn:E; [|done]. apply shown_mat_first in E. rewrite Hl in E.
    by apply not_elem_of_nil in E.
Qed.

Lemma page_names_numbered_mat_witness :
  shown_mat (sample_draws two_mats) 5 1 = Some 2 ∧
  shown_mat (sample_draws two_mats) 5 1 = _weight_to_mat_map (sample_draws two_mats) 5 !! 1.
Proof.
  split; [vm_compute; reflexivity|]. apply (page_names_numbered_mat (sample_draws two_mats) 5 1).
  vm_compute. repeat constructor; discriminate.
Defined.

(** A weight listed by mat 2 and then by mat 1 is numbered on mat 1, while the page says 2. *)
Definition crossed_mats : list MatAssignment := [mkMatAssignment 5 2 [1]; mkMatAssignment 5 1 [1; 2]].

Example page_names_other_mat :
  shown_mat (sample_draws crossed_mats) 5 1 = Some 2 ∧
  _weight_to_mat_map (sample_draws crossed_mats) 5 !! 1 = Some 1 ∧
  mt_mat_no <$> db_matches (number_matches_for_competition 5 [1; 2] true (sample_draws crossed_mats)).2 !! 3 = Some (Some 1).
Proof. vm_compute. repeat split. Qed.

(** ** Participants: correctness *)

Lemma map_to_list_parted {A} (Q : Z * A → Prop) `{!∀ x, Decision (Q x)} (t : gmap Z A) :
  map_to_list t ≡ₚ map_to_list (filter (λ kx, ¬ Q kx) t) ++ map_to_list (filter Q t).
Proof.
  apply NoDup_Permutation; [apply NoDup_map_to_list| |].
  - apply NoDup_app. split_and!; [apply NoDup_map_to_list| |apply NoDup_map_to_list].
    intros [k x]. rewrite !elem_of_map_to_list, !map_lookup_filter_Some. tauto.
  - intros [k x]. rewrite elem_of_app, !elem_of_map_to_list, !map_lookup_filter_Some.
    destruct (decide (Q (k, x))); tauto.
Qed.

(** The awards that go with entries. *)
Definition awards_of_entries {P} (ids : list Z) (d : DB P) : list (posting (P := P)) :=
  (map_to_list (filter (λ kx, kx.1 ∈ ids) (db_awards d))).*2 ≫= award_postings.

Lemma total_deleted {P} `{PointLaws P} (d : DB P) ids a :
  total a (on_record d) =
    pt_add (total a (on_record (delete_enrollments ids d))) (total a (awards_of_entries ids d)).
Proof.
  rewrite <- total_app. apply total_perm. unfold on_record, delete_enrollments, awards_of_entries, without_keys. cbn.
  rewrite <- app_assoc. apply Permutation_app_head. rewrite <- bind_app, <- fmap_app.
  by rewrite <- (map_to_list_parted (λ kx, kx.1 ∈ ids)).
Qed.

(** Deleting participants takes their awards off the books and leaves the totals. After the
    deletion of entries every total of a player, coach, club or board is its base plus what is still
    on record plus the points of the deleted awards, which no row accounts for any more. *)
Theorem deleted_participants_keep_points {P} `{PointLaws P} (base : account → P) (d : DB P) ids :
  books_balance base d →
  let d' := delete_enrollments ids d in
  (∀ a, balance d' a = balance d a) ∧
  ∀ a b, balance d' a = Some b →
    b = pt_add (base a) (pt_add (total a (on_record d')) (total a (awards_of_entries ids d))).
Proof.
  intros Hb d'. assert (Hbal : ∀ a, balance d' a = balance d a) by by intros [].
  split; [done|]. intros a b. rewrite Hbal. unfold d'. rewrite <- total_deleted. apply Hb.
Qed.

Lemma deleted_participants_keep_points_witness :
  books_balance sample_base sample_paid ∧
  balance (delete_enrollments [100] sample_paid) (AcProfile 20) = balance sample_paid (AcProfile 20) ∧
  ¬ books_balance sample_base (delete_enrollments [100] sample_paid).
Proof.
  assert (Hb : books_balance sample_base sample_paid) by (eapply exact_books; [apply mark_paid_journalled|apply sample_books]).
  split_and!; [done|..].
  - apply (deleted_participants_keep_points sample_base sample_paid [100] Hb).
  - intros Hbad. destruct (deleted_participants_keep_points sample_base sample_paid [100] Hb) as [_ Hd].
    specialize (Hd (AcProfile 20) 75). specialize (Hbad (AcProfile 20) 75). vm_compute in Hd, Hbad.
    discriminate (eq_trans (eq_sym (Hd eq_refl)) (Hbad eq_refl)).
Defined.

(** What is left refers to no deleted entry, everything else stays. *)
Definition mentions (ids : list Z) {P} (d : DB P) : Prop :=
  (∃ e, e ∈ ids ∧ is_Some (db_enrollments d !! e)) ∨ (∃ e, e ∈ ids ∧ is_Some (db_awards d !! e)) ∨
  (∃ k r e, e ∈ ids ∧ db_results d !! k = Some r ∧ e ∈ medal_ids r) ∨
  (∃ k i e, e ∈ ids ∧ db_intents d !! k = Some i ∧ (e ∈ pi_kyorugi_enrollments i ∨ pi_kyorugi_enrollment i = Some e)).

Lemma elem_of_cleared_key ids o e : e ∈ option_list (cleared_key ids o) ↔ e ∈ option_list o ∧ e ∉ ids.
Proof.
  destruct o as [k|]; cbn; [|set_solver]. case_bool_decide; cbn; set_solver.
Qed.

Lemma elem_of_cleared_result ids r e : e ∈ medal_ids (cleared_result ids r) ↔ e ∈ medal_ids r ∧ e ∉ ids.
Proof. unfold medal_ids. cbn. rewrite !elem_of_app, !elem_of_cleared_key. tauto. Qed.

(** The deletion of participants. The page answers with the number of entries it found; no row
    refers to a deleted entry afterwards; every other entry and award is as before, a result keeps the
    places of the others, an intent its other entries. *)
Theorem deletion_clears_references {P} (d : DB P) selected count d' :
  delete_participants selected d = (Ok (DeletedParticipants count), d') →
  ∃ ids, posted_ids selected = Some ids ∧ ¬ mentions ids d' ∧
    count = zlen (List.filter (λ ke, bool_decide (ke.1 ∈ ids)) (rows_by_id (db_enrollments d))) ∧
    (∀ e, e ∉ ids → db_enrollments d' !! e = db_enrollments d !! e ∧ db_awards d' !! e = db_awards d !! e) ∧
    (∀ k r', db_results d' !! k = Some r' → ∃ r, db_results d !! k = Some r ∧
       ∀ e, e ∈ medal_ids r' ↔ e ∈ medal_ids r ∧ e ∉ ids) ∧
    (∀ k i', db_intents d' !! k = Some i' → ∃ i, db_intents d !! k = Some i ∧ pi_amount i' = pi_amount i ∧
       ∀ e, e ∈ pi_kyorugi_enrollments i' ↔ e ∈ pi_kyorugi_enrollments i ∧ e ∉ ids).
Proof.
  unfold delete_participants. destruct selected as [|t rest]; [done|]. unfold bind, of_option.
  destruct (posted_ids _) as [ids|]; [|done]. cbn. intros [= <- <-]. exists ids.
  assert (Hr : ∀ k r', db_results (delete_enrollments ids d) !! k = Some r' → ∃ r, db_results d !! k = Some r ∧
    ∀ e, e ∈ medal_ids r' ↔ e ∈ medal_ids r ∧ e ∉ ids).
  { cbn. intros k r'. rewrite lookup_fmap, fmap_Some. intros (r & Hr & ->). exists r. split; [done|].
    apply elem_of_cleared_result. }
  assert (Hi : ∀ k i', db_intents (delete_enrollments ids d) !! k = Some i' → ∃ i, db_intents d !! k = Some i ∧
    i' = cleared_intent ids i).
  { cbn. intros k i'. rewrite lookup_fmap, fmap_Some. intros (i & Hi & ->). by exists i. }
  assert (Hl : ∀ {A} (t : gmap Z A) e, without_keys ids t !! e = if bool_decide (e ∈ ids) then None else t !! e).
  { intros A t0 e. unfold without_keys. rewrite map_lookup_filter. case_bool_decide; destruct (t0 !! e); cbn; try done;
      by case_guard. }
  split_and!; [done| |done| |done|].
  - intros [(e & He & Hx)|[(e & He & Hx)|[(k & r & e & He & Hx & Hm)|(k & i & e & He & Hx & Hm)]]].
    + cbn in Hx. rewrite Hl, bool_decide_eq_true_2 in Hx by done. by apply is_Some_None in Hx.
    + cbn in Hx. rewrite Hl, bool_decide_eq_true_2 in Hx by done. by apply is_Some_None in Hx.
    + apply Hr in Hx as (r0 & _ & Hmed). apply Hmed in Hm. tauto.
    + apply Hi in Hx as (i0 & _ & ->). cbn in Hm. rewrite elem_of_filter_list, negb_true_iff, bool_decide_eq_false in Hm.
      destruct Hm as [[_ ?]|Hm]; [done|]. assert (Hin : e ∈ option_list (cleared_key ids (pi_kyorugi_enrollment i0))).
      { rewrite Hm. cbn. by left. } apply elem_of_cleared_key in Hin. tauto.
  - intros e He. cbn. rewrite !Hl, bool_decide_eq_false_2 by done. done.
  - intros k i' (i & Hik & ->)%Hi. exists i. split_and!; [done..|]. intros e. cbn.
    by rewrite elem_of_filter_list, negb_true_iff, bool_decide_eq_false.
Qed.

Lemma deletion_clears_references_witness :
  db_awards sample_golden !! 100 ≠ None ∧
  ∃ ids, posted_ids ["100"] = Some ids ∧ ¬ mentions ids (delete_participants ["100"] sample_golden).2.
Proof.
  split; [vm_compute; discriminate|].
  destruct (deletion_clears_references sample_golden ["100"] 1 (delete_participants ["100"] sample_golden).2)
    as (ids & Hids & Hm & _).
  - vm_compute. reflexivity.
  - by exists ids.
Defined.

(** ** The list of participants: correctness *)

(** The groups as rows: belt, weight, entry. *)
Definition weight_rows (ws : list (string * list Z)) : list (string * Z) := ws ≫= λ g, pair g.1 <$> g.2.
Definition group_rows (groups : list (string * list (string * list Z))) : list (string * (string * Z)) :=
  groups ≫= λ g, pair g.1 <$> weight_rows g.2.

Lemma into_group_rows {K A B} `{EqDecision K} (rows : A → list B) (f : A → A) new b (label : K) groups :
  (∀ x, rows (f x) ≡ₚ b :: rows x) → rows new = [] →
  (into_group label f new groups ≫= λ g, pair g.1 <$> rows g.2) ≡ₚ
    (label, b) :: (groups ≫= λ g, pair g.1 <$> rows g.2).
Proof.
  intros Hf Hnew. induction groups as [|[l g] groups IH]; cbn.
  - by rewrite app_nil_r, Hf, Hnew.
  - case_bool_decide as Hl; cbn.
    + subst. by rewrite Hf.
    + rewrite IH. cbn. by rewrite Permutation_middle.
Qed.

Lemma into_group_labels {K A} `{EqDecision K} (f : A → A) new (label : K) groups :
  (into_group label f new groups).*1 = if bool_decide (label ∈ groups.*1) then groups.*1 else groups.*1 ++ [label].
Proof.
  induction groups as [|[l g] groups IH]; cbn; [done|].
  destruct (bool_decide_reflect (l = label)) as [Hne|Hne]; cbn.
  - subst. rewrite bool_decide_eq_true_2; [done|by left].
  - rewrite IH. assert (Hiff : label ∈ l :: groups.*1 ↔ label ∈ groups.*1) by (rewrite elem_of_cons; naive_solver).
    rewrite (bool_decide_ext _ _ Hiff). by case_bool_decide.
Qed.

Lemma into_group_nodup {K A} `{EqDecision K} (f : A → A) new (label : K) groups : NoDup groups.*1 → NoDup (into_group label f new groups).*1.
Proof.
  intros Hnd. rewrite into_group_labels. case_bool_decide; [done|]. apply NoDup_app. split_and!; [done| |].
  - intros x Hx ->%list_elem_of_singleton. done.
  - apply NoDup_singleton.
Qed.

Lemma into_group_elem {K A} `{EqDecision K} (Q : A → Prop) (f : A → A) new (label : K) groups :
  (∀ x, Q x → Q (f x)) → Q new → (∀ g, g ∈ groups → Q g.2) → ∀ g, g ∈ into_group label f new groups → Q g.2.
Proof.
  intros Hf Hn. induction groups as [|[l g] groups IH]; cbn; intros Hall x.
  - intros ->%list_elem_of_singleton. by apply Hf.
  - assert (Hg : Q g) by (apply (Hall (l, g)); by left).
    destruct (bool_decide (l = label)); rewrite elem_of_cons; intros [-> | Hx].
    + by apply Hf.
    + apply Hall. by right.
    + done.
    + apply IH; [|done]. intros y Hy. apply Hall. by right.
Qed.

(** What a group holds after one more element. *)
Lemma elem_of_into_group {K A} `{EqDecision K} (f : A → A) new (label : K) groups k x : NoDup groups.*1 →
  (k, x) ∈ into_group label f new groups ↔
    k ≠ label ∧ (k, x) ∈ groups ∨
    k = label ∧ ((∃ y, (label, y) ∈ groups ∧ x = f y) ∨ label ∉ groups.*1 ∧ x = f new).
Proof.
  induction groups as [|[l g] groups IH]; cbn; intros Hnd.
  - rewrite list_elem_of_singleton. split; [intros [= -> ->]|]; [right|]; naive_solver set_solver.
  - apply NoDup_cons in Hnd as [Hl Hnd]. specialize (IH Hnd).
    assert (Hg : ∀ y, (l, y) ∉ groups).
    { intros y Hy. apply Hl. by apply (list_elem_of_fmap_2 fst) in Hy. }
    destruct (bool_decide_reflect (l = label)) as [-> | Hne]; rewrite !elem_of_cons; cbn.
    + setoid_rewrite elem_of_cons. naive_solver.
    + rewrite IH. setoid_rewrite elem_of_cons. naive_solver.
Qed.

(** Grouping a list by a key: each key once, and its group folds the elements with that key. *)
Lemma fold_into_group {K A B} `{EqDecision K} (key : B → K) (f : B → A → A) new l :
  let groups := foldl (λ g b, into_group (key b) (f b) new g) [] l in
  NoDup groups.*1 ∧ ∀ k x, (k, x) ∈ groups ↔
    List.filter (λ b, bool_decide (key b = k)) l ≠ [] ∧
    x = foldl (λ y b, f b y) new (List.filter (λ b, bool_decide (key b = k)) l).
Proof.
  induction l as [|b l IH] using rev_ind; cbn.
  { split; [constructor|]. intros k x. split; [by intros ?%not_elem_of_nil|]. by intros [? _]. }
  cbn zeta in IH. rewrite foldl_app. cbn. destruct IH as [Hnd Hin]. set (groups := foldl _ [] l) in *.
  split; [by apply into_group_nodup|]. intros k x. rewrite elem_of_into_group by done. rewrite List.filter_app. cbn.
  assert (Hno : ∀ k, k ∉ groups.*1 ↔ List.filter (λ b, bool_decide (key b = k)) l = []).
  { intros k'. rewrite list_elem_of_fmap. split.
    - intros Hn. destruct (List.filter _ l) eqn:E; [done|]. exfalso. apply Hn.
      exists (k', foldl (λ y b, f b y) new (List.filter (λ b, bool_decide (key b = k')) l)). split; [done|].
      apply Hin. rewrite E. done.
    - intros E ([k0 y] & -> & Hy). apply Hin in Hy as [Hy _]. done. }
  setoid_rewrite Hno. setoid_rewrite Hin. destruct (bool_decide_reflect (key b = k)) as [<- | Hne].
  - rewrite foldl_app. cbn. destruct (List.filter _ l) eqn:E; cbn; naive_solver.
  - rewrite app_nil_r. naive_solver.
Qed.

Section report_correct.
Context {P : Type} (text_le : string → string → bool) (belt_label : Z → string).
Implicit Types d : DB P.

Definition participant_row d (ke : Z * Enrollment) : string * (string * Z) :=
  (entry_belt belt_label ke.2, (entry_weight d ke.2, ke.1)).

Lemma add_participant_rows d groups ke :
  group_rows (add_participant belt_label d groups ke) ≡ₚ participant_row d ke :: group_rows groups.
Proof.
  apply (into_group_rows weight_rows); [|done]. intros ws.
  apply (into_group_rows (λ l : list Z, l)); [|done]. intros l. by rewrite Permutation_app_comm.
Qed.

Lemma participants_rows d l groups :
  group_rows (foldl (add_participant belt_label d) groups l) ≡ₚ (participant_row d <$> l) ++ group_rows groups.
Proof.
  revert groups. induction l as [|ke l IH]; intros groups; cbn; [done|].
  rewrite IH, add_participant_rows. cbn. by rewrite Permutation_middle.
Qed.

Definition distinct_labels (groups : list (string * list (string * list Z))) : Prop :=
  NoDup groups.*1 ∧ ∀ g, g ∈ groups → NoDup g.2.*1.

Lemma participants_distinct d l groups : distinct_labels groups →
  distinct_labels (foldl (add_participant belt_label d) groups l).
Proof.
  revert groups. induction l as [|ke l IH]; intros groups [Hg Hw]; cbn; [done|]. apply IH. split.
  - by apply into_group_nodup.
  - apply (into_group_elem (λ ws, NoDup ws.*1)); [|constructor|done]. intros ws. apply into_group_nodup.
Qed.
End report_correct.

(** The list of participants. Its groups carry each label once, and inside a belt each weight
    once; together they hold every entry of the competition exactly once, under the label of its belt
    group and the name of its weight. *)
Theorem report_lists_every_entry_once {P} text_le belt_label (d : DB P) comp :
  let groups := participants_report text_le belt_label d comp in
  distinct_labels groups ∧
  group_rows groups ≡ₚ
    participant_row belt_label d <$> List.filter (λ ke, en_competition ke.2 =? comp) (rows_by_id (db_enrollments d)) ∧
  NoDup (snd ∘ snd <$> group_rows groups).
Proof.
  intros groups. assert (Hrows : group_rows groups ≡ₚ participant_row belt_label d <$>
    List.filter (λ ke, en_competition ke.2 =? comp) (rows_by_id (db_enrollments d))).
  { unfold groups, participants_report. rewrite participants_rows, app_nil_r. by rewrite sort_by_perm. }
  split_and!; [|done|].
  - apply participants_distinct. split; [constructor|]. intros g Hg. by apply not_elem_of_nil in Hg.
  - rewrite Hrows, <- list_fmap_compose. cbn.
    change (NoDup (List.filter (λ ke, en_competition ke.2 =? comp) (rows_by_id (db_enrollments d))).*1).
    apply NoDup_fst_filter, NoDup_rows_by_id.
Qed.

(** ** The results form: correctness *)

Section results_page.
Context {P : Type} `{PointArith P}.
Implicit Types d : DB P.

Definition form_result (comp weight : Z) (f : result_data) (user : option Z) : KyorugiResult :=
  mkKyorugiResult comp weight (rd_gold f) (rd_silver f) (rd_bronze1 f) (rd_bronze2 f) (rd_notes f) user.

Lemma form_result_picks comp weight f user : medal_ids (form_result comp weight f user) = picks f.
Proof.
  unfold medal_ids, picks, form_result. cbn. by destruct (rd_gold f), (rd_silver f), (rd_bronze1 f), (rd_bronze2 f).
Qed.

Lemma model_choice_elem {A} (rows : list (Z * A)) v k : model_choice rows v = Some (Some k) →
  k ∈ rows.*1 ∧ ∃ t, v = Some t ∧ py_int (_to_en_digits t) = Some k.
Proof.
  unfold model_choice. destruct v as [[|a t]|]; [done| |done].
  destruct (py_int _) as [n|] eqn:E; [|done]. case_bool_decide; [|done]. intros [= <-]. eauto.
Qed.

Lemma row_of_elem {A} (rows : list (Z * A)) k r : row_of rows (Some k) = Some r → r ∈ rows ∧ r.1 = k.
Proof.
  unfold row_of. intros Hh%head_Some_elem_of. rewrite elem_of_filter_list, bool_decide_eq_true in Hh. naive_solver.
Qed.

Lemma row_of_some {A} (rows : list (Z * A)) k : k ∈ rows.*1 → ∃ r, row_of rows (Some k) = Some r.
Proof.
  intros ([k' x] & Hk & Hx)%list_elem_of_fmap. unfold row_of.
  destruct (List.filter _ rows) as [|r l] eqn:E; [|by exists r]. exfalso.
  assert (Hin : (k', x) ∈ List.filter (λ r, bool_decide (Some r.1 = Some k)) rows)
    by (rewrite elem_of_filter_list, bool_decide_eq_true; cbn in Hk; by subst).
  rewrite E in Hin. by apply not_elem_of_nil in Hin.
Qed.

Lemma elem_of_result_competitions d gender upcoming today k c :
  (k, c) ∈ result_competitions d gender upcoming today → db_competitions d !! k = Some c.
Proof.
  unfold result_competitions, latest_first. intros Hin. apply elem_of_rows_by_id.
  rewrite <- (sort_by_perm (λ a b, (kc_competition_date b.2 <? kc_competition_date a.2)
                  || (kc_competition_date a.2 =? kc_competition_date b.2) && (b.1 <=? a.1)) (rows_by_id _)).
  destruct upcoming, gender as [g|]; try destruct (truthy_str g); rewrite ?elem_of_filter_list in Hin; tauto.
Qed.

(** The cleaned data of a valid form. *)
Lemma result_form_fields d p today f c w : result_entry_form d p today = Ok (Some f) →
  rd_competition f = Some c → rd_weight_category f = Some w →
  is_Some (db_competitions d !! c) ∧ is_Some (db_weights d !! w) ∧ NoDup (picks f) ∧
  ∀ e, e ∈ picks f → ∃ en, db_enrollments d !! e = Some en ∧ en_competition en = c ∧
    en_weight_category en = Some w ∧ en_status en ∈ ELIGIBLE_STATUSES.
Proof.
  unfold result_entry_form. destruct (result_choices d p today) as [[[comps weights] entries]|] eqn:Hch; [|done].
  intros Hf Hc Hw. injection Hf as Hf.
  destruct (model_choice comps _) as [fc|] eqn:E1; [|done]. destruct (model_choice weights _) as [fw|] eqn:E2; [|done].
  destruct (model_choice entries (rp_gold p)) as [g|] eqn:E3; [|done].
  destruct (model_choice entries (rp_silver p)) as [s|] eqn:E4; [|done].
  destruct (model_choice entries (rp_bronze1 p)) as [b1|] eqn:E5; [|done].
  destruct (model_choice entries (rp_bronze2 p)) as [b2|] eqn:E6; [|done]. cbn in Hf.
  case_bool_decide as Hnd; [|done]. injection Hf as <-. cbn in Hc, Hw. subst fc fw.
  apply model_choice_elem in E1 as (Hcin & tc & Htc & Hkc). apply model_choice_elem in E2 as (Hwin & tw & Htw & Hkw).
  unfold result_choices, pk_lookup in Hch. rewrite Htc, Htw, Hkc, Hkw in Hch.
  destruct (row_of (result_competitions _ _ _ _) (Some c)) as [[c' comp]|] eqn:Hrc.
  2: { injection Hch as <- <- <-. cbn in Hwin. by apply not_elem_of_nil in Hwin. }
  apply row_of_elem in Hrc as [Hrc Hck]. cbn in Hck. subst c'. apply elem_of_result_competitions in Hrc.
  destruct (row_of (weight_choices d c comp) (Some w)) as [[w' wc]|] eqn:Hrw; injection Hch as <- <- <-.
  2: { apply row_of_some in Hwin as [r Hr]. congruence. }
  apply row_of_elem in Hrw as [Hrw Hwk]. cbn in Hwk. subst w'. apply elem_of_weight_choices in Hrw as (Hwc & _).
  split_and!; [by eexists|by eexists|done|]. intros e He.
  assert (Hin : e ∈ (entry_choices d c w).*1).
  { unfold picks in He. cbn in He. repeat (first
      [ rewrite elem_of_cons in He; destruct He as [-> | He]; [by eapply model_choice_elem|]
      | apply not_elem_of_nil in He; done
      | match type of He with context [match ?x with _ => _ end] => destruct x end ]). }
  apply list_elem_of_fmap in Hin as ([e' en] & -> & Hin). unfold entry_choices in Hin.
  rewrite elem_of_filter_list, elem_of_rows_by_id, !andb_true_iff, Z.eqb_eq, !bool_decide_eq_true in Hin.
  exists en. cbn in *. tauto.
Qed.
End results_page.

(** The form of results offers only what a result may hold. With a competition and a weight the
    places of a valid form are distinct paid entries of that competition and weight, so the row it makes
    passes [KyorugiResult.full_clean], on the row of that weight or on a new one. *)
Theorem valid_form_gives_valid_result {P} `{PointArith P} p today f c w user (d : DB P) :
  result_entry_form d p today = Ok (Some f) → rd_competition f = Some c → rd_weight_category f = Some w →
  (∀ k k' r r', db_results d !! k = Some r → db_results d !! k' = Some r' → re_competition r = re_competition r' →
     re_weight_category r = re_weight_category r' → k = k') →
  full_clean (fst <$> find_result d c w) (form_result c w f user) d = (Ok tt, d) ∧
  ∀ e, e ∈ medal_ids (form_result c w f user) → ∃ en, db_enrollments d !! e = Some en ∧ en_status en ∈ ELIGIBLE_STATUSES.
Proof.
  intros Hf Hc Hw Huniq. destruct (result_form_fields d p today f c w Hf Hc Hw) as (Hcomp & Hweight & Hnd & Hen).
  rewrite form_result_picks. split; [|naive_solver]. apply full_clean_valid.
  - rewrite form_result_picks. intros e (en & He & _)%Hen. by eexists.
  - split_and!; [done|done|by rewrite form_result_picks| |].
    + rewrite form_result_picks. intros e en (en' & He & ? & ? & _)%Hen Hrow. cbn. naive_solver congruence.
    + cbn. intros k' r' Hr' Hrc Hrw. unfold find_result. destruct (List.filter _ _) as [|[k r] l] eqn:E.
      * exfalso. apply (not_elem_of_nil (k', r')). rewrite <- E, elem_of_filter_list, elem_of_rows_by_id. cbn.
        by rewrite Hrc, Hrw, !Z.eqb_refl.
      * cbn. f_equal. assert (Hin : (k, r) ∈ (k, r) :: l) by left.
        rewrite <- E, elem_of_filter_list, elem_of_rows_by_id, andb_true_iff, !Z.eqb_eq in Hin. cbn in Hin.
        apply (Huniq k k' r r'); naive_solver congruence.
Qed.

(** The page of results. It shows the form again exactly when the form is not valid; every other
    post ends in an exception; nothing is ever stored. *)
Theorem results_page_answers {P} `{PointArith P} p user today (d : DB P) :
  (post_results p user today d).2 = d ∧ (post_results p user today d).1 ≠ Ok ResultSaved ∧
  ((post_results p user today d).1 = Ok FormShown ↔ result_entry_form d p today = Ok None).
Proof.
  destruct (post_results p user today d) as [r d'] eqn:E. revert E. cbn [fst snd].
  unfold post_results. unfold bind at 1, get. unfold bind at 1, lift, raise, ret.
  destruct (result_entry_form d p today) as [[f|]|e]; [|naive_solver..].
  destruct (rd_competition f) as [c|]; [|naive_solver]. destruct (rd_weight_category f) as [w|]; [|naive_solver].
  unfold bind. destruct (results_page_records_nothing
    (mkResultForm c w (rd_gold f) (rd_silver f) (rd_bronze1 f) (rd_bronze2 f) (rd_notes f)) user d) as [x Hx].
  rewrite Hx. naive_solver.
Qed.

(** A post with the empty choice of the competition raises [ValueError] before the form is
    checked, although the field is not required. *)
Theorem empty_choice_fails {P} `{PointArith P} p user today (d : DB P) :
  rp_competition p = Some "" → (post_results p user today d).1 = Err ValueError.
Proof.
  intros Hc. unfold post_results. unfold bind at 1, get. unfold bind at 1, lift.
  unfold result_entry_form, result_choices, pk_lookup. rewrite Hc. change (py_int (_to_en_digits "")) with (@None Z).
  destruct (rp_weight_category p) as [t|]; [|done]. by destruct (py_int (_to_en_digits t)).
Qed.

(** ** Examples *)

Definition posted_gold (e : string) : result_post := mkResultPost None false (Some "5") (Some "1") (Some e) (Some "") None None "".

(** The competition of [ranking_sample] with its weight on a mat and the entry paid. *)
Definition results_sample : DB Z := set_db_mat_assignments [mkMatAssignment 5 1 [1]] sample_paid.

Lemma valid_form_gives_valid_result_witness :
  full_clean (fst <$> find_result results_sample 5 1)
    (form_result 5 1 (mkResultData (Some 5) (Some 1) (Some 100) None None None "") None) results_sample = (Ok tt, results_sample).
Proof.
  apply (valid_form_gives_valid_result (posted_gold "100") 13).
  - vm_compute. reflexivity.
  - reflexivity.
  - reflexivity.
  - intros k k' r r' Hr. assert (He : db_results results_sample = ∅) by (vm_compute; reflexivity).
    rewrite He, lookup_empty in Hr. done.
Defined.

(** An entry of another weight is refused by the form. *)
Example foreign_entry_refused : result_entry_form results_sample (posted_gold "101") 13 = Ok None.
Proof. vm_compute. reflexivity. Qed.
