(* ===== verification/DrawPage.v ===== *)
(** The page that starts draws ([DrawStartForm] and [DrawStartAdmin] of [src/competitions/admin.py]):
    the choices of the form, the automatic size, starting a draw, and the bracket it shows. The
    other fields of the form are taken as their cleaned values; the belt groups of a competition
    are a parameter, since no other table refers to them. *)

From Stdlib Require Import SpecFloat.
From S2P Require Import Prelude Brackets Store DrawService NumberingService Payments GroupRegistration Text AdminPages.
Local Open Scope Z_scope.

(** What a browser posts: the three choices as texts, the rest cleaned. *)
Record draw_post := mkDrawPost {
  dp_competition : option string;
  dp_belt_group : option string;
  dp_weight_category : option string;
  dp_others_valid : bool;
  dp_manual : bool;
  dp_size_override : option Z;
  dp_club_threshold : option Z;
  dp_seed : string;
}.

Inductive draw_message := NeedsPlayer | DrawMade | DrawFailed (e : exn).

Record draw_page := mkDrawPage {
  pg_count : Z;
  pg_size : Z;
  pg_message : option draw_message;
  pg_draw : option (Z * Draw);
  pg_fresh : bool;
  pg_matches : list (Z * Match);
}.

Definition empty_page : draw_page := mkDrawPage 0 1 None None false [].

Section page.
Context {P : Type} (belt_groups : Z → list Z).
Implicit Types d : DB P.

(** A posted choice that is looked up as a number when the form is built. *)
Definition posted_text (o : option string) : option string :=
  match o with Some "" => None | _ => o end.

Definition is_number (t : string) : bool := negb (is_none (py_int (_to_en_digits t))).

(** [auto_count] and [auto_size] of the form. *)
Definition form_auto d (comp bg wc : Z) : Z * Z :=
  let count := zlen (List.filter (λ row, in_group comp bg wc row.2) (rows_by_id (db_enrollments d))) in
  (count, auto_draw_size count).

(** Both lookups of the automatic count raise on texts that are no numbers. *)
Definition auto_lookups (p : draw_post) : bool :=
  match posted_text (dp_belt_group p), posted_text (dp_weight_category p) with
  | Some bg, Some wc => is_number bg && is_number wc
  | _, _ => true
  end.

(** [DrawStartForm]: the competition with its belt group and weight, [None] when the form is
    not valid. *)
Definition draw_form d (p : draw_post) : result (option (Z * KyorugiCompetition * option Z * option Z)) :=
  match posted_text (dp_competition p) with
  | None => Ok None
  | Some t =>
      match py_int (_to_en_digits t) with
      | None => Err ValueError
      | Some k =>
          match db_competitions d !! k with
          | None => Ok None
          | Some c =>
              if negb (auto_lookups p) then Err ValueError
              else
                Ok (bg ← model_choice ((λ b, (b, tt)) <$> belt_groups k) (dp_belt_group p);
                    wc ← model_choice (weight_choices d k c) (dp_weight_category p);
                    if dp_others_valid p then Some (k, c, bg, wc) else None)
          end
      end
  end.

(** The entries a draw of these choices would seat. *)
Definition entry_count d (comp : Z) (bg wc : option Z) : Z :=
  zlen (List.filter (λ ke, (en_competition ke.2 =? comp) && bool_decide (en_belt_group ke.2 = bg)
                           && bool_decide (en_weight_category ke.2 = wc) && bool_decide (en_status ke.2 ∈ ELIGIBLE_STATUSES))
          (rows_by_id (db_enrollments d))).

(** The matches of a draw, [order_by("round_no", "slot_a")]. *)
Definition page_matches d (k : Z) : list (Z * Match) :=
  sort_by (λ a b, (mt_round_no a.2 <? mt_round_no b.2)
                  || (mt_round_no a.2 =? mt_round_no b.2) && (mt_slot_a a.2 <=? mt_slot_a b.2)) (draw_matches d k).

Context (randbelow : option string → nat → Z → Z) (now : Z) (farvardin_first : bool).

(** A request with [start]: the message and the new draw. *)
Definition run_start (p : draw_post) (k : Z) (c : KyorugiCompetition) (bg wc : option Z) (count size : Z)
    : M (DB P) (option draw_message * option Z) :=
  let final_size := if dp_manual p && truthy_id (dp_size_override p) then default 0 (dp_size_override p) else size in
  let final_th := if dp_manual p && truthy_id (dp_club_threshold p) then default 0 (dp_club_threshold p)
                  else if 8 <=? count then 8 else 9999 in
  (if count <? 1 then ret (Some NeedsPlayer, None)
   else
     match bg, wc with
     | Some b, Some w =>
         try_catch
           (id <~ create_draw_for_group randbelow k (kc_age_category c) b w final_th (dp_seed p) 200
                    (Some final_size) now farvardin_first ;;
            ret (Some DrawMade, Some id))
           (λ e, ret (Some (DrawFailed e), None))
     | _, _ => ret (Some (DrawFailed AttributeError), None)
     end)%monad.

(** The draw on the page: the one just made, or the newest of the group. *)
Definition draw_on_page d (made : option Z) (k : Z) (c : KyorugiCompetition) (bg wc : option Z) : option (Z * Draw) :=
  match made with
  | Some id => pair id <$> db_draws d !! id
  | None =>
      match bg, wc with
      | Some b, Some w => prev_draw d (mkScope k (kc_gender c) (kc_age_category c) b w)
      | _, _ => None
      end
  end.

(** [DrawStartAdmin.changelist_view] *)
Definition draw_page_view (p : draw_post) (start : bool) : M (DB P) draw_page :=
  (d <~ get ;;
   f <~ lift (draw_form d p) ;;
   match f with
   | None => ret empty_page
   | Some (k, c, bg, wc) =>
       let count := entry_count d k bg wc in
       let size := auto_draw_size count in
       made <~ (if start then run_start p k c bg wc count size else ret (None, None)) ;;
       d' <~ get ;;
       let shown := draw_on_page d' made.2 k c bg wc in
       ret (mkDrawPage count size made.1 shown (negb (is_none made.2))
              (match shown with Some (id, _) => page_matches d' id | None => [] end))
   end)%monad.
End page.

(** ** Correctness *)

Lemma auto_draw_size_spec n : 1 ≤ n → ∃ k, 0 ≤ k ∧ auto_draw_size n = 2 ^ k ∧ n ≤ 2 ^ k < 2 * n.
Proof.
  intros Hn. unfold auto_draw_size. set (m := Z.max n 1).
  destruct (while_inv (λ s, ∃ k, 0 ≤ k ∧ s = 2 ^ k ∧ s < 2 * m)
    (λ s, Z.max 0 (m - s)) (λ s, s <? m) (λ s, Z.shiftl s 1))
    with (fuel := Z.to_nat m) (s := 1) as (s' & -> & (k & Hk & -> & Hlt) & Hc).
  - intros s (k & Hk & -> & Hlt) Hc. apply Z.ltb_lt in Hc.
    assert (Z.shiftl (2 ^ k) 1 = 2 ^ (k + 1)) as -> by (rewrite Z.shiftl_mul_pow2, Z.pow_add_r by lia; done).
    assert (2 ^ (k + 1) = 2 * 2 ^ k) by (rewrite Z.pow_add_r by lia; lia).
    pose proof (Z.pow_pos_nonneg 2 k). split; [|lia]. exists (k + 1). lia.
  - exists 0. split_and!; [lia|done|lia].
  - lia.
  - cbn. apply Z.ltb_ge in Hc. exists k. split_and!; try done; lia.
Qed.

(** The automatic size is a table that seats the whole group. *)
Lemma auto_size_fits n : 1 ≤ n → ∃ size, table_size n (Some (auto_draw_size n)) = Ok size ∧ n ≤ size.
Proof.
  intros Hn. destruct (auto_draw_size_spec n Hn) as (k & Hk & -> & Hb). unfold table_size.
  assert (_is_pow2 (2 ^ k) = true) as -> by (apply is_pow2_iff; by exists k). cbn. eexists. split; [done|]. lia.
Qed.

Section page_correct.
Context {P : Type} (belt_groups : Z → list Z) (randbelow : option string → nat → Z → Z) (now : Z) (ff : bool).
Implicit Types d : DB P.
Local Abbreviation view := (draw_page_view belt_groups randbelow now ff).

Lemma entry_count_some d k bg wc : entry_count d k (Some bg) (Some wc) = (form_auto d k bg wc).1.
Proof. done. Qed.

(** With a profile for every player the entries are the players of the draw. *)
Lemma entry_count_players d k bg wc : (∀ e en, db_enrollments d !! e = Some en → is_Some (db_profiles d !! en_player en)) →
  entry_count d k (Some bg) (Some wc) = real_count (group_entries d k bg wc).
Proof.
  intros Hp. rewrite entry_count_some. unfold form_auto, real_count, group_entries. cbn.
  rewrite (filter_all is_player).
  - unfold zlen. by rewrite length_fmap.
  - intros e ([k' en] & -> & Hin)%list_elem_of_fmap. rewrite elem_of_filter_list, elem_of_rows_by_id in Hin.
    destruct Hin as [Hin _]. destruct (Hp _ _ Hin) as [q Hq]. unfold is_player, entry_of. cbn. by rewrite Hq.
Qed.

Lemma page_matches_perm d k : page_matches d k ≡ₚ draw_matches d k.
Proof. apply sort_by_perm. Qed.
End page_correct.

(** C28: starting a draw with the automatic settings always works and seats everybody: for a group with
    an eligible player, in a competition with an age category whose draw of the group is not locked, the
    page reports success, the table is the least power of two that holds the group (at least 4), the
    bracket on the page is the new draw of the group, and its players are those of the group, each once. *)
Theorem automatic_draw_seats_group {P} belt_groups randbelow now ff p k c bg wc age (d : DB P) :
  draw_form belt_groups d p = Ok (Some (k, c, Some bg, Some wc)) →
  dp_manual p = false → kc_age_category c = Some age → bracket_wf d → scopes_unique d →
  unlocked_scope d (mkScope k (kc_gender c) (Some age) bg wc) →
  (∀ e en, db_enrollments d !! e = Some en → is_Some (db_profiles d !! en_player en)) →
  1 ≤ entry_count d k (Some bg) (Some wc) →
  ∃ page d' row, draw_page_view belt_groups randbelow now ff p true d = (Ok page, d') ∧
    pg_message page = Some DrawMade ∧ pg_fresh page = true ∧
    (pg_count page, pg_size page) = form_auto d k bg wc ∧
    pg_draw page = Some row ∧ scope_draws d' (mkScope k (kc_gender c) (Some age) bg wc) = [row] ∧
    pg_count page ≤ dr_size row.2 ≤ Z.max 4 (2 * pg_count page) ∧
    mjoin (match_players ∘ snd <$> pg_matches page) ≡ₚ players_of_entries (group_entries d k bg wc).
Proof.
  intros Hf Hm Ha Hwf Hu Hl Hp Hn.
  assert (Hc : db_competitions d !! k = Some c).
  { revert Hf. unfold draw_form. destruct (posted_text _); [|done]. destruct (py_int _) as [k'|]; [|done].
    destruct (db_competitions d !! k') as [c'|] eqn:E; [|done]. destruct (negb _); [done|]. intros Hb. injection Hb as Hb. revert Hb.
    destruct (model_choice _ (dp_belt_group p)) as [b|]; [|done]. cbn.
    destruct (model_choice _ (dp_weight_category p)) as [w|]; [|done]. cbn.
    destruct (dp_others_valid p); [|done]. by intros [= -> ->]. }
  pose proof (entry_count_players d k bg wc Hp) as Hcount.
  destruct (auto_size_fits _ Hn) as (size & Hsize & Hfit).
  set (n := entry_count d k (Some bg) (Some wc)) in *.
  set (th := if 8 <=? n then 8 else 9999).
  destruct (drawn_table randbelow d k age bg wc c (Some (auto_draw_size n)) size th (dp_seed p) 200 now ff)
    as (id & d' & Hrun & Hplayers & _ & _ & Hscope & _ & Hwf').
  { split_and!; try done; by rewrite <- Hcount. }
  { by rewrite <- Hcount. }
  set (row := mkDraw _ _ _ _ _ _ _ _ _ _) in Hscope.
  assert (Hrow : db_draws d' !! id = Some row).
  { assert (Hin : (id, row) ∈ scope_draws d' (mkScope k (kc_gender c) (Some age) bg wc)) by (rewrite Hscope; left).
    by apply elem_of_scope_draws in Hin as [? _]. }
  exists (mkDrawPage n (auto_draw_size n) (Some DrawMade) (Some (id, row)) true (page_matches d' id)), d', (id, row).
  split_and!; try done.
  - unfold draw_page_view. unfold bind at 1, get. unfold bind at 1, lift. rewrite Hf. fold n.
    unfold bind at 1, run_start. rewrite Hm. cbn [andb]. fold th.
    assert ((n <? 1) = false) as -> by (apply Z.ltb_ge; done).
    unfold try_catch, bind at 1. rewrite Ha, Hrun. unfold ret, bind. cbn. by rewrite Hrow.
  - cbn. destruct (auto_draw_size_spec n Hn) as (j & Hj & Hs & Hb). revert Hsize. unfold table_size.
    destruct (negb _); [done|]. rewrite Hs. intros [= <-]. destruct (_ && _); lia.
  - cbn. rewrite page_matches_perm. rewrite list_fmap_compose. exact Hplayers.
Qed.

(** The page of the draws otherwise only reads. Without [start], and after a start that is refused
    or fails, nothing has changed and the page shows the newest draw of the group with its matches. *)
Theorem draw_page_otherwise_reads {P} belt_groups randbelow now ff p start page (d d' : DB P) :
  draw_page_view belt_groups randbelow now ff p start d = (Ok page, d') →
  (pg_message page = Some DrawMade ∧ start = true ∧ pg_fresh page = true) ∨
  d' = d ∧ pg_fresh page = false ∧
  match draw_form belt_groups d p with
  | Ok (Some (k, c, Some bg, Some wc)) =>
      pg_draw page = prev_draw d (mkScope k (kc_gender c) (kc_age_category c) bg wc) ∧
      (∀ id dr, pg_draw page = Some (id, dr) → pg_matches page ≡ₚ draw_matches d id)
  | _ => pg_draw page = None ∧ pg_matches page = []
  end.
Proof.
  unfold draw_page_view. unfold bind at 1, get. unfold bind at 1, lift.
  destruct (draw_form belt_groups d p) as [[[[[k c] bg] wc]|]|e]; [|intros [= <- <-]; by right|done].
  set (n := entry_count d k bg wc). set (size := auto_draw_size n).
  assert (Hread : ∀ msg d1, (ret (mkDrawPage n size msg (draw_on_page d1 None k c bg wc) false
      match draw_on_page d1 None k c bg wc with Some (id, _) => page_matches d1 id | None => [] end) : M (DB P) _) d1
      = (Ok page, d') → d1 = d →
    d' = d ∧ pg_fresh page = false ∧ match bg, wc with
      | Some bg, Some wc => pg_draw page = prev_draw d (mkScope k (kc_gender c) (kc_age_category c) bg wc) ∧
          (∀ id dr, pg_draw page = Some (id, dr) → pg_matches page ≡ₚ draw_matches d id)
      | _, _ => pg_draw page = None ∧ pg_matches page = [] end).
  { intros msg d1 [= <- <-] ->. cbn. destruct bg as [bg|], wc as [wc|]; cbn; try done. split_and!; try done.
    intros id dr ->. apply page_matches_perm. }
  assert (Hgoal : ∀ Q : Prop, (d' = d ∧ pg_fresh page = false ∧ match bg, wc with
      | Some bg, Some wc => pg_draw page = prev_draw d (mkScope k (kc_gender c) (kc_age_category c) bg wc) ∧
          (∀ id dr, pg_draw page = Some (id, dr) → pg_matches page ≡ₚ draw_matches d id)
      | _, _ => pg_draw page = None ∧ pg_matches page = [] end) → Q ∨ d' = d ∧ pg_fresh page = false ∧
    match bg with Some bg => match wc with Some wc =>
      pg_draw page = prev_draw d (mkScope k (kc_gender c) (kc_age_category c) bg wc) ∧
      (∀ id dr, pg_draw page = Some (id, dr) → pg_matches page ≡ₚ draw_matches d id)
      | None => pg_draw page = None ∧ pg_matches page = [] end | None => pg_draw page = None ∧ pg_matches page = [] end).
  { intros Q HQ. by right. }
  destruct start; [|intros Hr; by apply Hgoal, (Hread None d)].
  unfold bind at 1, run_start. destruct (n <? 1); [intros Hr; by apply Hgoal, (Hread (Some NeedsPlayer) d)|].
  destruct bg as [bg|], wc as [wc|]; try (intros Hr; by apply Hgoal, (Hread (Some (DrawFailed AttributeError)) d)).
  unfold try_catch, bind at 1. destruct (create_draw_for_group _ _ _ _ _ _ _ _ _ _ _ d) as [[id|e] d1] eqn:Hrun.
  - intros [= <- <-]. left. done.
  - apply atomic_err in Hrun as ->. intros Hr. by apply Hgoal, (Hread (Some (DrawFailed e)) d).
Qed.

(** ** Examples *)

(** [sample_group] with its weight on a mat. *)
Definition page_sample : DB Z :=
  set_db_weights {[ 5 := mkWeightCategory "-60" "male" (S754_zero false) (S754_zero false) (S754_zero false) ]}
    (set_db_mat_assignments [mkMatAssignment 1 1 [5]] (sample_group 5)).

Definition sample_post : draw_post := mkDrawPost (Some "1") (Some "4") (Some "5") true false None None "s".

Lemma automatic_draw_seats_group_witness :
  ∃ page d', draw_page_view (λ _, [4]) last_below 77 false sample_post true page_sample = (Ok page, d') ∧
    pg_message page = Some DrawMade ∧ (pg_count page, pg_size page) = (5, 8).
Proof.
  destruct (automatic_draw_seats_group (λ _, [4]) last_below 77 false sample_post 1 sample_comp 4 5 3 page_sample)
    as (page & d' & row & H1 & H2 & _ & H4 & _).
  - vm_compute. reflexivity.
  - reflexivity.
  - reflexivity.
  - done.
  - intros sc _. assert (scope_draws page_sample sc = []) as -> by reflexivity. cbn. lia.
  - intros k dr Hin. apply elem_of_scope_draws in Hin as [Hl _]. cbn in Hl. by rewrite lookup_empty in Hl.
  - assert (Hall : map_Forall (λ _ en, is_Some (db_profiles page_sample !! en_player en)) (db_enrollments page_sample)).
    { apply (bool_decide_unpack _). vm_compute. exact I. }
    intros e en Hen. apply (Hall e en Hen).
  - vm_compute. discriminate.
  - exists page, d'. split_and!; [exact H1|exact H2|]. rewrite H4. vm_compute. reflexivity.
Defined.

Lemma draw_page_otherwise_reads_witness :
  let run := draw_page_view (λ _, [4]) last_below 77 false sample_post false page_sample in
  ∃ page, run = (Ok page, page_sample) ∧ pg_draw page = None.
Proof.
  exists (mkDrawPage 5 8 None None false []). split; [vm_compute; reflexivity|].
  destruct (draw_page_otherwise_reads (λ _, [4]) last_below 77 false sample_post false
    (mkDrawPage 5 8 None None false []) page_sample page_sample) as [(_ & Hs & _)|(_ & _ & _)].
  - vm_compute. reflexivity.
  - discriminate.
  - reflexivity.
Defined.
