(* ===== verification/AdminLists.v ===== *)
(** Further pages of the admin ([src/competitions/admin.py]): the approvals of coaches, one list
    for both kinds of competitions with the page of each competition; the form of seminars and the list of
    their participants; the form of poomsae competitions. Titles and Jalali dates are left out; names and
    profiles of users are parameters. *)

From S2P Require Import Prelude Store Ranking Payments GroupRegistration Text Dates Approvals Seminars AdminPages.
Local Open Scope Z_scope.

(** ** Approvals of coaches *)

Inductive approval_kind := Kyorugi | Poomsae.

#[export] Instance approval_kind_eq_dec : EqDecision approval_kind.
Proof. solve_decision. Defined.

(** What the pages use of an approval: its competition, whether it counts, and its time:
    [approved_at], or [updated_at or created_at]. *)
Record shown_approval := mkShownApproval {
  sh_id : Z;
  sh_kind : approval_kind;
  sh_competition : Z;
  sh_coach : Z;
  sh_code : string;
  sh_time : Z;
}.

Section approval_pages.
Context (updated_at : Z → option Z).

(** [a.updated_at or a.created_at] *)
Definition poomsae_time (pk : Z) (a : PoomsaeCoachApproval) : Z := default (pa_created_at a) (updated_at pk).

Definition code_shown (code : option string) : string :=
  if truthy_str (opt_str code) then opt_str code else "—".

Definition ky_shown (ka : Z * CoachApproval) : shown_approval :=
  mkShownApproval ka.1 Kyorugi (ca_competition ka.2) (ca_coach ka.2) (code_shown (ca_code ka.2)) (ca_approved_at ka.2).
Definition pm_shown (ka : Z * PoomsaeCoachApproval) : shown_approval :=
  mkShownApproval ka.1 Poomsae (pa_competition ka.2) (pa_coach ka.2) (code_shown (pa_code ka.2)) (poomsae_time ka.1 ka.2).

(** [order_by("-approved_at", ...)]: the latest first, then by descending key. *)
Definition latest_le (a b : shown_approval) : bool :=
  (sh_time b <? sh_time a) || (sh_time a =? sh_time b) && (sh_id b <=? sh_id a).

(** The accepted and active approvals of both models. *)
Definition ky_rows (ky : gmap Z CoachApproval) : list shown_approval :=
  ky_shown <$> List.filter (λ ka, ca_terms_accepted ka.2 && ca_is_active ka.2) (rows_by_id ky).
Definition pm_rows (pm : gmap Z PoomsaeCoachApproval) : list shown_approval :=
  pm_shown <$> List.filter (λ ka, pa_approved ka.2 && pa_is_active ka.2) (rows_by_id pm).

Definition approval_key (a : shown_approval) : approval_kind * Z := (sh_kind a, sh_competition a).

(** One approval counted for its competition: how many, and the latest time. *)
Definition count_approval (bundle : list (approval_kind * Z * (Z * option Z))) (a : shown_approval)
    : list (approval_kind * Z * (Z * option Z)) :=
  into_group (approval_key a)
    (λ cl : Z * option Z, (cl.1 + 1, Some (Z.max (default (sh_time a) cl.2) (sh_time a)))) (0, None) bundle.

(** [rows.sort(key=last, reverse=True)] *)
Definition last_le (a b : approval_kind * Z * (Z * option Z)) : bool :=
  match a.2.2, b.2.2 with
  | Some x, Some y => y <=? x
  | _, None => true
  | None, Some _ => false
  end.

(** [CoachApprovalsAdmin.changelist_view] *)
Definition approvals_list (ky : gmap Z CoachApproval) (pm : gmap Z PoomsaeCoachApproval)
    : list (approval_kind * Z * (Z * option Z)) :=
  sort_by last_le
    (foldl count_approval [] (sort_by latest_le (ky_rows ky) ++ sort_by latest_le (pm_rows pm))).

(** The rows of [detail_view]: any kind that is not ["ky"] is poomsae. *)
Definition detail_kind (kind : string) : approval_kind := if String.eqb kind "ky" then Kyorugi else Poomsae.

Definition detail_rows (ky : gmap Z CoachApproval) (pm : gmap Z PoomsaeCoachApproval) (kind : approval_kind) (comp : Z)
    : list shown_approval :=
  sort_by latest_le
    (List.filter (λ a, sh_competition a =? comp)
       (match kind with Kyorugi => ky_rows ky | Poomsae => pm_rows pm end)).

Inductive detail_answer := Deleted | Rows (rows : list shown_approval).

(** [CoachApprovalsAdmin.detail_view]: [del_id] of a post, [None] for a page that is read. *)
Definition detail_view (ky : gmap Z CoachApproval) (pm : gmap Z PoomsaeCoachApproval) (kind : string) (comp : Z)
    (del_id : option string) : gmap Z CoachApproval * gmap Z PoomsaeCoachApproval * detail_answer :=
  let shown := (ky, pm, Rows (detail_rows ky pm (detail_kind kind) comp)) in
  match del_id with
  | Some t =>
      match (if truthy_str t && all_digits t then py_int t else None) with
      | Some pk =>
          match detail_kind kind with
          | Kyorugi => (delete pk ky, pm, Deleted)
          | Poomsae => (ky, delete pk pm, Deleted)
          end
      | None => shown
      end
  | None => shown
  end.
End approval_pages.

(** ** Seminars *)

(** [SeminarAdminForm]: days, with the start at midnight and the end in the last second. *)
Record seminar_post := mkSeminarPost {
  sp_title : string;
  sp_registration_start : Z;
  sp_registration_end : Z;
  sp_event_date : Z;
  sp_fee : Z;
  sp_allowed_roles : list string;
}.

Definition midnight (day : Z) : Z * Z := (day, 0).
Definition last_second (day : Z) : Z * Z := (day, 23 * 3600 + 59 * 60 + 59).

(** [clean] of the form: the two errors. *)
Inductive seminar_error := StartAfterEnd | EndAfterEvent.

Definition instant_lt (a b : Z * Z) : bool := (a.1 <? b.1) || (a.1 =? b.1) && (a.2 <? b.2).

Definition seminar_form_errors (p : seminar_post) : list seminar_error :=
  (if instant_lt (last_second (sp_registration_end p)) (midnight (sp_registration_start p)) then [StartAfterEnd] else [])
  ++ (if sp_event_date p <? (last_second (sp_registration_end p)).1 then [EndAfterEvent] else []).

(** [MultipleChoiceField]: each role is one of the choices. *)
Definition roles_valid (p : seminar_post) : bool := forallb (λ r, bool_decide (r ∈ ROLE_VALUES)) (sp_allowed_roles p).

(** The instance of the form; the columns are dates. *)
Definition seminar_of (p : seminar_post) : Seminar :=
  mkSeminar (sp_title p) (midnight (sp_registration_start p)).1 (last_second (sp_registration_end p)).1 (sp_event_date p)
    (sp_fee p) (sp_allowed_roles p).

(** [is_valid] and [save]: the form's checks, then the model's. *)
Definition seminar_form (p : seminar_post) : option Seminar :=
  if bool_decide (length (seminar_form_errors p) = 0%nat) && roles_valid p then
    match seminar_clean (seminar_of p) with Ok _ => Some (seminar_of p) | Err _ => None end
  else None.

Section seminar_page.
Context {P : Type} (first_name last_name national_code belt_grade profile_phone : Z → string) (has_profile : Z → bool)
  (user_name : Z → string) (role_label : string → string).
Implicit Types d : DB P.

Definition or_dash (s : string) : string := if truthy_str s then s else "—".

(** A row of [participants_view]. *)
Record participant := mkParticipant {
  pt_idx : Z;
  pt_full_name : string;
  pt_nid : string;
  pt_belt : string;
  pt_roles : string;
  pt_mobile : string;
  pt_paid : bool;
  pt_amount : Z;
}.

(** A column of the profile, empty without one. *)
Definition of_profile (column : Z → string) (u : Z) : string := if has_profile u then column u else "".

Fixpoint numbered {A B} (f : Z → A → B) (i : Z) (l : list A) : list B :=
  match l with
  | [] => []
  | x :: l' => f i x :: numbered f (i + 1) l'
  end.

Definition participant_of (i : Z) (kr : Z * SeminarRegistration) : participant :=
  let u := sr_user kr.2 in
  let name := strip (of_profile first_name u ++ " " ++ of_profile last_name u) in
  mkParticipant i (or_dash (if truthy_str name then name else user_name u))
    (or_dash (strip (of_profile national_code u))) (or_dash (strip (of_profile belt_grade u)))
    (or_dash (String.concat "، " (role_label <$> sr_roles kr.2)))
    (or_dash (strip (if truthy_str (sr_phone kr.2) then sr_phone kr.2 else of_profile profile_phone u)))
    (sr_is_paid kr.2) (sr_paid_amount kr.2).

Definition registrations_of d (seminar : Z) : list (Z * SeminarRegistration) :=
  List.filter (λ kr, sr_seminar kr.2 =? seminar) (rows_by_id (db_seminar_regs d)).

(** [registrations_count_link] *)
Definition registrations_count d (seminar : Z) : Z := zlen (registrations_of d seminar).

(** [participants_view]: the choice that is no number or no seminar shows nothing. *)
Definition participants_view d (sel : option string) : option Z * list participant :=
  match sel ≫= (λ t, if truthy_str t then py_int (_to_en_digits t) else None) with
  | Some k =>
      match db_seminars d !! k with
      | Some _ => (Some k, numbered participant_of 1 (registrations_of d k))
      | None => (None, [])
      end
  | None => (None, [])
  end.
End seminar_page.

(** ** Poomsae competitions *)

(** The cleaned dates of [PoomsaeCompetitionAdminForm]. *)
Record poomsae_post := mkPoomsaePost {
  pp_name : string;
  pp_registration_manual : option bool;
  pp_registration_start : Z;
  pp_registration_end : Z;
  pp_competition_date : Z;
  pp_entry_fee : Z;
  pp_mat_count : Z;
}.

(** The check constraints of the table. *)
Definition poomsae_constraints (c : PoomsaeCompetition) : bool :=
  (pc_start_date c <=? pc_end_date c) && (pc_registration_start c <=? pc_registration_end c)
  && (pc_registration_end c <=? pc_start_date c).

(** The check of the form: the constraint whose columns are all fields of the form. *)
Definition poomsae_form_valid (p : poomsae_post) : bool := pp_registration_start p <=? pp_registration_end p.

(** [PoomsaeCompetitionAdmin.save_model]: the old dates follow the day of the competition. *)
Definition poomsae_of (public_id : string) (p : poomsae_post) : PoomsaeCompetition :=
  mkPoomsaeCompetition (pp_name p) (pp_registration_manual p) (pp_competition_date p) (pp_competition_date p)
    (pp_registration_start p) (pp_registration_end p) (Some (pp_competition_date p)) (pp_entry_fee p) (pp_mat_count p) public_id.

Definition poomsae_admin_save {P} (public_id : string) (key : option Z) (p : poomsae_post) : M (DB P) bool :=
  (if negb (poomsae_form_valid p) then ret false
   else
     raise_if (negb (poomsae_constraints (poomsae_of public_id p))) IntegrityError ;;
     d <~ get ;;
     let k := default (db_next_id d) key in
     modify (set_db_poomsae_comps (<[k := poomsae_of public_id p]> (db_poomsae_comps d))) ;;;
     match key with
     | Some _ => ret true
     | None => modify (set_db_next_id (k + 1)) ;;; ret true
     end)%monad.

(** ** Approvals: correctness *)

(** The latest time of some rows. *)
Definition is_latest (t : option Z) (rows : list shown_approval) : Prop :=
  ∃ a, a ∈ rows ∧ t = Some (sh_time a) ∧ ∀ b, b ∈ rows → sh_time b ≤ sh_time a.

Definition counted (cl : Z * option Z) (a : shown_approval) : Z * option Z :=
  (cl.1 + 1, Some (Z.max (default (sh_time a) cl.2) (sh_time a))).

Lemma counted_spec rows : rows ≠ [] →
  (foldl counted (0, None) rows).1 = zlen rows ∧ is_latest (foldl counted (0, None) rows).2 rows.
Proof.
  induction rows as [|a rows IH] using rev_ind; [done|]. intros _. rewrite foldl_app. cbn.
  destruct rows as [|b rows]; [split; [done|]; exists a; cbn; split_and!; [by left|f_equal; lia|]|].
  { intros x ->%list_elem_of_singleton. lia. }
  destruct IH as [Hn (m & Hm & Ht & Hmax)]; [done|]. set (rows' := b :: rows) in *. split.
  - rewrite Hn. unfold zlen. rewrite length_app. cbn. lia.
  - rewrite Ht. cbn. destruct (Z.le_ge_cases (sh_time m) (sh_time a)).
    + exists a. split_and!; [set_solver|f_equal; lia|].
      intros x Hx. assert (x ∈ rows' ∨ x = a) as [Hx'| ->] by set_solver; [specialize (Hmax x Hx')|]; lia.
    + exists m. split_and!; [set_solver|f_equal; lia|].
      intros x Hx. assert (x ∈ rows' ∨ x = a) as [Hx'| ->] by set_solver; [by apply Hmax|lia].
Qed.

Lemma is_latest_unique t t' rows : is_latest t rows → is_latest t' rows → t = t'.
Proof.
  intros (a & Ha & -> & Hla) (b & Hb & -> & Hlb). f_equal. specialize (Hla b Hb). specialize (Hlb a Ha). lia.
Qed.

Lemma is_latest_perm t rows rows' : rows ≡ₚ rows' → is_latest t rows → is_latest t rows'.
Proof. intros Hp (a & Ha & -> & Hl). exists a. rewrite <- Hp. split_and!; [done..|]. intros b. rewrite <- Hp. apply Hl. Qed.

Lemma filter_perm_list {A} (p : A → bool) l l' : l ≡ₚ l' → List.filter p l ≡ₚ List.filter p l'.
Proof.
  induction 1 as [|x l l' _ IH|x y l|l1 l2 l3 _ IH1 _ IH2]; cbn.
  - done.
  - destruct (p x); [by constructor|done].
  - destruct (p x), (p y); [by constructor|done..].
  - by transitivity (List.filter p l2).
Qed.

Section approvals_correct.
Context (updated_at : Z → option Z).

(** The approvals of a competition among all rows are those of its page. *)
Lemma rows_of_key ky pm kind comp :
  List.filter (λ a, bool_decide (approval_key a = (kind, comp)))
    (sort_by latest_le (ky_rows ky) ++ sort_by latest_le (pm_rows updated_at pm)) ≡ₚ
  detail_rows updated_at ky pm kind comp.
Proof.
  rewrite (filter_perm_list _ _ (ky_rows ky ++ pm_rows updated_at pm)) by by rewrite !sort_by_perm.
  unfold detail_rows. rewrite sort_by_perm, List.filter_app.
  assert (Hk : ∀ k l, (∀ a, a ∈ l → sh_kind a = k) →
    List.filter (λ a, bool_decide (approval_key a = (kind, comp))) l =
    if bool_decide (k = kind) then List.filter (λ a, sh_competition a =? comp) l else []).
  { intros k l. induction l as [|a l IH]; intros Hl; cbn; [by case_bool_decide|].
    rewrite IH by (intros b Hb; apply Hl; by right). unfold approval_key. rewrite (Hl a) by left.
    destruct (bool_decide_reflect (k = kind)) as [-> | Hne].
    - destruct (Z.eqb_spec (sh_competition a) comp) as [-> | Hc]; [by rewrite bool_decide_eq_true_2|].
      rewrite bool_decide_eq_false_2; [done|congruence].
    - rewrite bool_decide_eq_false_2; [done|congruence]. }
  rewrite (Hk Kyorugi), (Hk Poomsae).
  - destruct kind; cbn; by rewrite ?app_nil_r.
  - by intros a (x & -> & _)%list_elem_of_fmap.
  - by intros a (x & -> & _)%list_elem_of_fmap.
Qed.
End approvals_correct.

Lemma and_iff_compat_under (A B C : Prop) : (A → B ↔ C) → A ∧ B ↔ A ∧ C.
Proof. tauto. Qed.

(** The list of approvals agrees with the page of each competition. A competition is listed once,
    exactly when its page has rows; the number beside it is how many, the time that of the latest, and the
    list starts with the competition approved last. *)
Theorem approval_counts_agree updated_at ky pm :
  let rows := approvals_list updated_at ky pm in
  NoDup rows.*1 ∧ StronglySorted (λ a b, last_le a b = true) rows ∧
  ∀ kind comp n t, (kind, comp, (n, t)) ∈ rows ↔
    let page := detail_rows updated_at ky pm kind comp in page ≠ [] ∧ n = zlen page ∧ is_latest t page.
Proof.
  intros rows. destruct (fold_into_group approval_key (λ a cl, counted cl a) (0, None)
    (sort_by latest_le (ky_rows ky) ++ sort_by latest_le (pm_rows updated_at pm))) as [Hnd Hin].
  unfold rows, approvals_list. split_and!.
  - rewrite (sort_by_perm last_le). exact Hnd.
  - apply sort_by_sorted.
    + intros [k1 [n1 [t1|]]] [k2 [n2 [t2|]]]; cbn; rewrite ?Z.leb_le; try lia; auto.
    + intros [k1 [n1 [t1|]]] [k2 [n2 [t2|]]] [k3 [n3 [t3|]]]; cbn; rewrite ?Z.leb_le; try lia; auto.
  - intros kind comp n t. rewrite (sort_by_perm last_le). cbn zeta.
    pose proof (rows_of_key updated_at ky pm kind comp) as Hp.
    change (foldl count_approval []) with (foldl (λ g b, into_group (approval_key b) (λ cl, counted cl b) (0, None) g) []).
    rewrite (Hin (kind, comp) (n, t)). set (l := List.filter _ _) in *.
    assert (Hnil : l ≠ [] ↔ detail_rows updated_at ky pm kind comp ≠ []).
    { split; intros Hne E; apply Hne; [rewrite E in Hp|rewrite E in Hp; symmetry in Hp]; by apply Permutation_nil_r in Hp. }
    rewrite <- Hnil. apply and_iff_compat_under. intros Hl. destruct (counted_spec l Hl) as [Hn Ht].
    assert (Hlen : zlen (detail_rows updated_at ky pm kind comp) = zlen l) by (unfold zlen; by rewrite Hp).
    rewrite Hlen, <- Hn. change (foldl (λ y b, counted y b) (0, None) l) with (foldl counted (0, None) l). split.
    + intros Heq. rewrite <- Heq in Hn, Ht |- *. cbn. split; [done|]. by eapply is_latest_perm.
    + intros [-> Hlat]. rewrite (surjective_pairing (foldl counted (0, None) l)). cbn. f_equal.
      eapply is_latest_unique; [|exact Ht]. eapply is_latest_perm; [symmetry; exact Hp|done].
Qed.

(** Deleting a row of a page takes it off that page and off the count. *)
Theorem deleted_approval_leaves_page updated_at ky pm kind comp a del :
  a ∈ detail_rows updated_at ky pm (detail_kind kind) comp → all_digits del = true → truthy_str del = true →
  py_int del = Some (sh_id a) →
  ∃ ky' pm', detail_view updated_at ky pm kind comp (Some del) = (ky', pm', Deleted) ∧
    ∀ b, b ∈ detail_rows updated_at ky' pm' (detail_kind kind) comp ↔
      b ∈ detail_rows updated_at ky pm (detail_kind kind) comp ∧ sh_id b ≠ sh_id a.
Proof.
  intros Ha Hd Ht Hi. unfold detail_view. rewrite Hd, Ht, Hi. cbn.
  assert (Hky : ∀ b, b ∈ ky_rows (delete (sh_id a) ky) ↔ b ∈ ky_rows ky ∧ sh_id b ≠ sh_id a).
  { intros b. unfold ky_rows. rewrite !list_elem_of_fmap. setoid_rewrite elem_of_filter_list. split.
    - intros ([k x] & -> & Hx & Hc). rewrite elem_of_rows_by_id, lookup_delete_Some in Hx. cbn. split; [|naive_solver].
      exists (k, x). rewrite elem_of_rows_by_id. naive_solver.
    - intros [([k x] & -> & Hx & Hc) Hne]. rewrite elem_of_rows_by_id in Hx. cbn in Hne. exists (k, x).
      rewrite elem_of_rows_by_id, lookup_delete_Some. naive_solver. }
  assert (Hpm : ∀ b, b ∈ pm_rows updated_at (delete (sh_id a) pm) ↔ b ∈ pm_rows updated_at pm ∧ sh_id b ≠ sh_id a).
  { intros b. unfold pm_rows. rewrite !list_elem_of_fmap. setoid_rewrite elem_of_filter_list. split.
    - intros ([k x] & -> & Hx & Hc). rewrite elem_of_rows_by_id, lookup_delete_Some in Hx. cbn. split; [|naive_solver].
      exists (k, x). rewrite elem_of_rows_by_id. naive_solver.
    - intros [([k x] & -> & Hx & Hc) Hne]. rewrite elem_of_rows_by_id in Hx. cbn in Hne. exists (k, x).
      rewrite elem_of_rows_by_id, lookup_delete_Some. naive_solver. }
  destruct (detail_kind kind); eexists _, _; (split; [done|]); intros b; unfold detail_rows;
    rewrite !(sort_by_perm latest_le), !elem_of_filter_list, ?Hky, ?Hpm; tauto.
Qed.

(** ** Seminars: correctness *)

(** The form of seminars checks the dates as the model does. Its own checks, on the first and last
    instants of the days, refuse exactly what [Seminar.clean] refuses, so a form is valid exactly when its
    seminar is clean, and the row satisfies the constraints of the table. *)
Theorem seminar_form_agrees p :
  (seminar_form p = Some (seminar_of p) ↔ seminar_clean (seminar_of p) = Ok tt) ∧
  (StartAfterEnd ∈ seminar_form_errors p ↔ se_registration_end (seminar_of p) < se_registration_start (seminar_of p)) ∧
  (EndAfterEvent ∈ seminar_form_errors p ↔ se_event_date (seminar_of p) < se_registration_end (seminar_of p)) ∧
  ∀ s, seminar_form p = Some s → s = seminar_of p ∧ seminar_constraints s = true.
Proof.
  assert (Hlt : instant_lt (last_second (sp_registration_end p)) (midnight (sp_registration_start p)) =
    (sp_registration_end p <? sp_registration_start p)).
  { unfold instant_lt, last_second, midnight. cbn. rewrite andb_false_r. by rewrite orb_false_r. }
  unfold seminar_form, seminar_form_errors, roles_valid, seminar_clean, seminar_constraints, seminar_of. rewrite Hlt. cbn.
  destruct (Z.ltb_spec (sp_registration_end p) (sp_registration_start p)),
    (Z.ltb_spec (sp_event_date p) (sp_registration_end p)); cbn;
    destruct (forallb _ (sp_allowed_roles p)); cbn;
    rewrite ?elem_of_cons, ?elem_of_nil; split_and!; try naive_solver lia.
  all: intros s [= <-]; cbn; split; [done|]. all: rewrite andb_true_iff, !Z.leb_le; lia.
Qed.

Lemma numbered_length {A B} (f : Z → A → B) l : ∀ i, length (numbered f i l) = length l.
Proof. induction l as [|x l IH]; intros i; cbn; [done|]. by rewrite IH. Qed.

Lemma numbered_lookup {A B} (f : Z → A → B) l : ∀ i n y, numbered f i l !! n = Some y →
  ∃ x, l !! n = Some x ∧ y = f (i + Z.of_nat n) x.
Proof.
  induction l as [|x l IH]; intros i [|n] y; cbn; [done|done| |].
  - intros [= <-]. exists x. split; [done|]. f_equal. lia.
  - intros (x' & Hx & ->)%IH. exists x'. split; [done|]. f_equal. lia.
Qed.

(** The list of participants has as many rows as the link beside the seminar says, numbered from 1 in the
    order of registration. *)
Theorem participants_as_counted {P} fn ln nc bg ph has un rl (d : DB P) sel k rows :
  participants_view fn ln nc bg ph has un rl d sel = (Some k, rows) →
  zlen rows = registrations_count d k ∧
  ∀ n row, rows !! n = Some row → ∃ kr, registrations_of d k !! n = Some kr ∧ pt_idx row = Z.of_nat n + 1 ∧
    pt_paid row = sr_is_paid kr.2 ∧ pt_amount row = sr_paid_amount kr.2.
Proof.
  unfold participants_view. destruct (sel ≫= _) as [k'|]; [|done]. destruct (db_seminars d !! k'); [|done].
  intros [= <- <-]. split; [unfold zlen, registrations_count; by rewrite numbered_length|].
  intros n row (kr & Hkr & ->)%numbered_lookup. exists kr. split_and!; try done. cbn. lia.
Qed.

(** ** Poomsae competitions: correctness *)

(** What the form of poomsae competitions stores. A competition is stored exactly when registration
    does not end before it starts and not after the day of the competition; its old dates are that day, and
    the row satisfies the constraints. An end of registration after that day passes the form and fails on
    the constraint of the table, an error no handler catches. *)
Theorem poomsae_form_misses_constraint {P} public_id key p (d d' : DB P) r :
  poomsae_admin_save public_id key p d = (r, d') →
  match r with
  | Ok true => pp_registration_start p ≤ pp_registration_end p ≤ pp_competition_date p ∧
      ∃ c, db_poomsae_comps d' !! default (db_next_id d) key = Some c ∧ poomsae_constraints c = true ∧
        pc_start_date c = pp_competition_date p ∧ pc_end_date c = pp_competition_date p ∧
        pc_competition_date c = Some (pp_competition_date p)
  | Ok false => pp_registration_end p < pp_registration_start p ∧ d' = d
  | Err e => e = IntegrityError ∧ pp_registration_start p ≤ pp_registration_end p ∧
      pp_competition_date p < pp_registration_end p ∧ d' = d
  end.
Proof.
  unfold poomsae_admin_save, poomsae_form_valid.
  destruct (Z.leb_spec (pp_registration_start p) (pp_registration_end p)) as [Hle|Hlt]; cbn; [|intros [= <- <-]; done].
  assert (Hc : poomsae_constraints (poomsae_of public_id p) = (pp_registration_end p <=? pp_competition_date p)).
  { unfold poomsae_constraints. cbn. rewrite Z.leb_refl. apply Z.leb_le in Hle. by rewrite Hle. }
  rewrite Hc. destruct (Z.leb_spec (pp_registration_end p) (pp_competition_date p)) as [Hle'|Hlt']; cbn.
  - intros Hr. assert (Hr' : r = Ok true ∧
      db_poomsae_comps d' = <[default (db_next_id d) key := poomsae_of public_id p]> (db_poomsae_comps d))
      by (unfold bind, get, modify, ret in Hr; destruct key; cbn in Hr; by simplify_eq).
    destruct Hr' as [-> Hd]. split; [done|]. exists (poomsae_of public_id p). rewrite Hd, lookup_insert_eq, Hc.
    by split_and!.
  - intros [= <- <-]. done.
Qed.

(** ** Examples *)

Definition sample_ky : gmap Z CoachApproval :=
  {[ 1 := mkCoachApproval 5 7 (Some "000000"%string) true true 100; 2 := mkCoachApproval 5 8 (Some "000001"%string) true true 101;
     3 := mkCoachApproval 6 7 None true false 102 ]}.
Definition sample_pm : gmap Z PoomsaeCoachApproval := {[ 1 := mkPoomsaeCoachApproval 5 None 7 (Some "000002"%string) true true 90 ]}.

Example approvals_list_sample :
  approvals_list (λ _, Some 200) sample_ky sample_pm = [(Poomsae, 5, (1, Some 200)); (Kyorugi, 5, (2, Some 101))].
Proof. vm_compute. reflexivity. Qed.

Lemma deleted_approval_leaves_page_witness :
  ∃ ky' pm', detail_view (λ _, Some 200) sample_ky sample_pm "ky" 5 (Some "2") = (ky', pm', Deleted) ∧
    sh_id <$> detail_rows (λ _, Some 200) ky' pm' Kyorugi 5 = [1].
Proof.
  destruct (deleted_approval_leaves_page (λ _, Some 200) sample_ky sample_pm "ky" 5
    (mkShownApproval 2 Kyorugi 5 8 "000001" 101) "2") as (ky' & pm' & Hrun & _).
  - vm_compute. left.
  - reflexivity.
  - reflexivity.
  - reflexivity.
  - exists ky', pm'. split; [exact Hrun|]. injection Hrun as <- <-. vm_compute. reflexivity.
Defined.

Lemma poomsae_form_misses_constraint_witness :
  let p := mkPoomsaePost "cup" None 10 20 15 1000 2 in
  poomsae_form_valid p = true ∧ (poomsae_admin_save "p" None p (empty_db (P := unit) 1)).1 = Err IntegrityError ∧
  pp_competition_date p < pp_registration_end p.
Proof.
  cbn zeta. split_and!; [vm_compute; reflexivity|vm_compute; reflexivity|].
  apply (poomsae_form_misses_constraint "p" None (mkPoomsaePost "cup" None 10 20 15 1000 2) (empty_db (P := unit) 1)
    (empty_db 1) (Err IntegrityError)). vm_compute. reflexivity.
Defined.
