(* ===== verification/Details.v ===== *)
(** The detail pages of competitions ([KyorugiCompetitionDetailView], [PoomsaeCompetitionDetailView] and
    [CompetitionDetailAnyView] of [competitions/views.py] with their serializers in
    [competitions/serializers.py]), the cards of the dashboards, and what a coach sees of a poomsae
    approval.

    As in [Eligibility], columns no other component reads are arguments: belts, birth dates, national
    codes and club names of profiles, belt groups and levels of competitions. Media and fixed texts are
    left out; a date of the Jalali calendar stands for its text. *)

From Stdlib Require Import Ascii SpecFloat.
From S2P Require Import Prelude Store Points Ranking Ledger NumberingService NumberingPlan Payments GroupRegistration Text Dates Approvals SelfRegistration Seminars Eligibility Cards Catalogue.
Local Open Scope Z_scope.

(** ** Registration states *)

(** [registration_open_effective] of the views, with its own comparisons. *)
Definition view_registration_open (manual : option bool) (start stop today : Z) : bool :=
  match manual with
  | Some b => b
  | None => (start <=? today) && (today <=? stop)
  end.

(** [_compute_effective_open] of the detail serializer. *)
Definition _compute_effective_open (comp : KyorugiCompetition) (today : Z) : bool :=
  match kc_registration_manual comp with
  | Some b => b
  | None => (kc_registration_start comp <=? today) && (today <=? kc_registration_end comp)
  end.

(** [get_registration_open_effective]: the property of the model, which is a boolean. *)
Definition get_registration_open_effective (comp : KyorugiCompetition) (today : Z) : bool :=
  registration_open_effective comp today.
Definition get_registration_open (comp : KyorugiCompetition) (today : Z) : bool :=
  get_registration_open_effective comp today.

(** The poomsae serializer: [can_register] is the state itself. *)
Definition poomsae_can_register (comp : PoomsaeCompetition) (today : Z) : bool := poomsae_registration_open comp today.

(** [DashboardAnyCompetitionSerializer.to_representation]: the columns of a card, by kind. The
    texts of dates are cut after the day; a card carries no state of the registration. *)
Record dashboard_card := mkDashboardCard {
  dc_public_id : string;
  dc_title : string;
  dc_entry_fee : Z;
  dc_registration_start : option Z;
  dc_registration_end : option Z;
  dc_competition_date : option Z;
  dc_weigh_date : option Z;
  dc_weigh_in_date : option Z;
}.

Definition kyorugi_dashboard_card (c : KyorugiCompetition) : dashboard_card :=
  mkDashboardCard (kc_public_id c) (kc_title c) (kc_entry_fee c) (Some (kc_registration_start c))
    (Some (kc_registration_end c)) (Some (kc_competition_date c)) (Some (kc_weigh_date c)) (Some (kc_weigh_date c)).

Definition poomsae_dashboard_card (c : PoomsaeCompetition) : dashboard_card :=
  mkDashboardCard (pc_public_id c) (pc_name c) (pc_entry_fee c) (Some (pc_registration_start c))
    (Some (pc_registration_end c)) (Some (default (pc_start_date c) (pc_competition_date c))) None None.

(** [SeminarCardSerializer.get_visible_for_role] *)
Definition get_visible_for_role (role : string) (s : Seminar) : bool :=
  let role := strip role in
  bool_decide (role ∈ ["club"; "heyat"]%string) || bool_decide (length (se_allowed_roles s) = 0%nat)
  || bool_decide (role ∈ se_allowed_roles s).

Section details.
Context {P : Type} `{PointArith P} (iexact : string → string → bool)
  (jalali : Z → Z → Z → option date) (jdate_of : Z → date)
  (belt_grade birth_date national_code : Z → string) (club_names : Z → list string)
  (user_names : Z → string * string) (profile_user : Z → option Z)
  (belt_groups : Z → list (Z * list string)) (group_label : Z → string) (belt_level : Z → string)
  (ages : gmap Z AgeCategory) (rules : Z → poomsae_rules).
Local Abbreviation db := (DB P).

(** ** Eligibility, explained *)

Record eligibility_debug := mkEligibilityDebug {
  ed_registration_open : bool;
  ed_in_reg_window : bool;
  ed_required_gender : string;
  ed_player_gender : option string;
  ed_gender_ok : option bool;
  ed_age_windows : list (date * date);
  ed_player_dob : option date;
  ed_age_ok : option bool;
  ed_allowed_belts : list string;
  ed_player_belt : option string;
  ed_belt_ok : option bool;
  ed_profile_role : option string;
}.

(** A window in the Jalali calendar. *)
Definition jwindow (cat : AgeCategory) : date * date := (jdate_of (ac_from_date cat), jdate_of (ac_to_date cat)).

Definition in_jwindow (dob : date) (w : date * date) : bool := negb (date_ltb dob w.1) && negb (date_ltb w.2 dob).

(** The flags of a profile: gender, age, belt. *)
Definition with_profile (data : eligibility_debug) (prof : option (Z * UserProfile P)) : eligibility_debug :=
  match prof with
  | None => data
  | Some (k, p) =>
      let pg := _norm_gender (up_gender p) in
      let dob := _parse_jalali_str jalali jdate_of (birth_date k) in
      let belt := _player_belt_code_from_profile belt_grade k in
      mkEligibilityDebug (ed_registration_open data) (ed_in_reg_window data) (ed_required_gender data)
        (Some pg) (Some (gender_matches (ed_required_gender data) pg))
        (ed_age_windows data) dob
        (Some (bool_decide (length (ed_age_windows data) = 0%nat)
               || match dob with Some t => existsb (in_jwindow t) (ed_age_windows data) | None => false end))
        (ed_allowed_belts data) belt (Some (belt_ok (ed_allowed_belts data) belt)) (Some (up_role p))
  end.

(** [KyorugiCompetitionDetailSerializer.get_eligibility_debug] and the poomsae one, for a
    signed-in user or none. *)
Definition get_eligibility_debug (d : db) (comp_id : Z) (comp : KyorugiCompetition) (user : option Z) (today : Z)
    : eligibility_debug :=
  let window := option_list (jwindow <$> (kc_age_category comp ≫= (ages !!.))) in
  with_profile
    (mkEligibilityDebug (get_registration_open_effective comp today)
       ((kc_registration_start comp <=? today) && (today <=? kc_registration_end comp))
       (_norm_gender (kc_gender comp)) None None window None None
       (_allowed_belts (belt_groups comp_id) (belt_level comp_id)) None None None)
    (user ≫= _get_profile profile_user d).

Definition poomsae_eligibility_debug (d : db) (comp_id : Z) (comp : PoomsaeCompetition) (user : option Z) (today : Z)
    : eligibility_debug :=
  let r := rules comp_id in
  with_profile
    (mkEligibilityDebug (poomsae_registration_open comp today)
       ((pc_registration_start comp <=? today) && (today <=? pc_registration_end comp))
       (_norm_gender (pr_gender r)) None None (jwindow <$> age_windows ages r) None None
       (_allowed_belts (pr_belt_groups r) (pr_belt_level r)) None None None)
    (user ≫= _get_profile profile_user d).

(** ** The locked profile *)

Record locked_profile := mkLockedProfile {
  lk_first_name : string;
  lk_last_name : string;
  lk_national_id : string;
  lk_birth_date : option string;
  lk_belt : option string;
  lk_belt_code : option string;
  lk_club : string;
  lk_coach : string;
}.

Definition jalali_text (t : date) : string := ymd_text "/"%char t.

(** [_birth_fa]: the Jalali text of the birth date, or the text as it is stored. *)
Definition _birth_fa (k : Z) : option string :=
  let bd := birth_date k in
  if negb (truthy_str bd) then None
  else
    match _parse_jalali_str jalali jdate_of bd with
    | Some jd => Some (jalali_text jd)
    | None =>
        match _to_greg_from_str_jalali jalali bd with
        | Some g => Some (jalali_text (jdate_of (toordinal g)))
        | None => Some bd
        end
    end.

(** [_current_player_profile]: a profile whose role is exactly player. *)
Definition _current_player_profile (d : db) (user : Z) : option (Z * UserProfile P) :=
  head (List.filter (λ kr, String.eqb (up_role kr.2) "player") (profiles_of profile_user d user)).

Definition locked_club (d : db) (k : Z) (p : UserProfile P) : string :=
  let club := default ""%string (cl_club_name <$> (up_club p ≫= (db_clubs d !!.))) in
  if truthy_str club then club else String.concat "، " (List.filter truthy_str (club_names k)).

Definition locked_coach (d : db) (p : UserProfile P) : string :=
  match up_coach p ≫= (db_profiles d !!.) with
  | Some c => strip (up_first_name c ++ " " ++ up_last_name c)
  | None => ""
  end.

Definition _locked_profile_dict (d : db) (national_id : string) (kp : Z * UserProfile P) : locked_profile :=
  let '(k, p) := kp in
  mkLockedProfile (or_str (up_first_name p) (user_names k).1) (or_str (up_last_name p) (user_names k).2)
    national_id (_birth_fa k) (get_belt belt_grade k) (_norm_belt (belt_grade k)) (locked_club d k p) (locked_coach d p).

(** [get_me_locked]. The kyorugi serializer asks for columns [national_id] and [nationalCode], which no
    profile has; the poomsae one falls back to [national_code]. *)
Definition kyorugi_me_locked (d : db) (user : option Z) : option locked_profile :=
  _locked_profile_dict d "" <$> (user ≫= _current_player_profile d).
Definition poomsae_me_locked (d : db) (user : option Z) : option locked_profile :=
  (λ kp, _locked_profile_dict d (national_code kp.1) kp) <$> (user ≫= _current_player_profile d).

(** ** The serializers *)

Record kyorugi_detail := mkKyorugiDetail {
  kd_registration_open_effective : bool;
  kd_registration_open : bool;
  kd_can_register : bool;
  kd_belt_groups_display : string;
  kd_user_eligible_self : bool;
  kd_allowed_belts : list string;
  kd_age : option (date * date);
  kd_eligibility_debug : eligibility_debug;
  kd_mats : list MatAssignment;
  kd_bracket_ready : bool;
  kd_bracket_stats : bracket_stats;
  kd_me_locked : option locked_profile;
}.

Definition joined_labels (groups : list (Z * list string)) : string :=
  String.concat "، " (List.filter truthy_str ((λ g, group_label g.1) <$> groups)).

Definition kyorugi_detail_of (d : db) (comp_id : Z) (comp : KyorugiCompetition) (user : option Z) (today : Z) : kyorugi_detail :=
  mkKyorugiDetail (get_registration_open_effective comp today) (get_registration_open comp today)
    (get_can_register comp today) (joined_labels (belt_groups comp_id))
    (match user with
     | Some u => get_user_eligible_self jalali jdate_of belt_grade birth_date profile_user belt_groups belt_level ages d comp_id comp u
     | None => false
     end)
    (_allowed_belts (belt_groups comp_id) (belt_level comp_id))
    (jwindow <$> (kc_age_category comp ≫= (ages !!.)))
    (get_eligibility_debug d comp_id comp user today) (mats_of d comp_id)
    (negb (bool_decide (length (draws_of d comp_id) = 0%nat))) (_bracket_stats_for d comp_id) (kyorugi_me_locked d user).

Record poomsae_detail := mkPoomsaeDetail {
  pd_registration_open : bool;
  pd_team_registration_open : bool;
  pd_can_register : bool;
  pd_belt_groups_display : string;
  pd_age_groups_display : string;
  pd_age : option (date * date);
  pd_allowed_belts : list string;
  pd_user_eligible_self : bool;
  pd_eligibility_debug : eligibility_debug;
  pd_me_locked : option locked_profile;
}.

(** [_age_groups_display_for]: the names of the age categories, or of the single category. *)
Definition _age_groups_display_for (r : poomsae_rules) : string :=
  let names := match omap (ages !!.) (pr_age_categories r) with
               | [] => ac_name <$> option_list (pr_age_category r ≫= (ages !!.))
               | cats => ac_name <$> cats
               end in
  String.concat "، " (List.filter truthy_str names).

Definition poomsae_detail_of (d : db) (comp_id : Z) (comp : PoomsaeCompetition) (user : option Z) (today : Z) : poomsae_detail :=
  mkPoomsaeDetail (poomsae_registration_open comp today) false (poomsae_can_register comp today)
    (joined_labels (pr_belt_groups (rules comp_id)))
    (_age_groups_display_for (rules comp_id)) (jwindow <$> (pr_age_category (rules comp_id) ≫= (ages !!.)))
    (_allowed_belts (pr_belt_groups (rules comp_id)) (pr_belt_level (rules comp_id)))
    (match user with
     | Some u => poomsae_eligible_self jalali jdate_of belt_grade birth_date profile_user ages rules d comp_id u
     | None => false
     end)
    (poomsae_eligibility_debug d comp_id comp user today) (poomsae_me_locked d user).

(** ** The views *)

(** What the views add for a user with the profile of a player. *)
Record short_profile := mkShortProfile {
  sp_gender : string;
  sp_belt : string;
  sp_national_code : string;
  sp_birth_text : string;
}.

(** [_birth_jalali_from_profile] *)
Definition _birth_jalali_from_profile (k : Z) : string :=
  match _player_birthdate_to_gregorian jalali birth_date k with
  | Some day => jalali_text (jdate_of day)
  | None => ""
  end.

Definition short_profile_of (d : db) (k : Z) : option short_profile :=
  (λ p, mkShortProfile (up_gender p) (belt_grade k) (national_code k) (_birth_jalali_from_profile k)) <$> db_profiles d !! k.

Record player_part := mkPlayerPart {
  pl_my_enrollment : option (Z * string);
  pl_card_ready : bool;
  pl_my_profile : option short_profile;
}.

(** The latest entry of the player, [order_by("-id").first()]. *)
Definition latest_entry (d : db) (comp_id player : Z) : option (Z * Enrollment) :=
  last (List.filter (λ ke, (en_competition ke.2 =? comp_id) && (en_player ke.2 =? player)) (rows_by_id (db_enrollments d))).

Definition player_part_of (d : db) (comp_id user : Z) : option player_part :=
  (λ player, match latest_entry d comp_id player with
             | Some (k, e) => mkPlayerPart (Some (k, en_status e)) (_can_show_card (en_status e) (en_is_paid e)) (short_profile_of d player)
             | None => mkPlayerPart None false (short_profile_of d player)
             end) <$> player_of profile_user d user.

(** The approval of a coach, as the poomsae pages show it. *)
Record shown_code := mkShownCode { sc_approved : bool; sc_code : option string }.

Definition coach_approval_part (d : db) (approvals : gmap Z PoomsaeCoachApproval) (comp_id user : Z) : option shown_code :=
  (λ coach, match head (List.filter (λ ka, (pa_competition ka.2 =? comp_id) && (pa_coach ka.2 =? coach) && pa_is_active ka.2)
                               (rows_by_id approvals)) with
            | Some (_, a) => mkShownCode (pa_approved a) (pa_code a)
            | None => mkShownCode false None
            end) <$> _coach_from_request profile_user d user.

Inductive detail_answer :=
  | KyorugiPage (detail : kyorugi_detail) (mine : option player_part)
  | PoomsaePage (detail : poomsae_detail) (eligible : option bool) (coach : option shown_code) (mine : option short_profile).

Definition kyorugi_page (d : db) (comp_id : Z) (comp : KyorugiCompetition) (user : option Z) (today : Z) : detail_answer :=
  KyorugiPage (kyorugi_detail_of d comp_id comp user today) (user ≫= player_part_of d comp_id).

Definition poomsae_page (approvals : gmap Z PoomsaeCoachApproval) (d : db) (comp_id : Z) (comp : PoomsaeCompetition)
    (user : option Z) (today : Z) : detail_answer :=
  PoomsaePage (poomsae_detail_of d comp_id comp user today)
    ((λ u, _poomsae_user_eligible jalali belt_grade birth_date profile_user ages rules d comp_id (Some u)) <$> user)
    (user ≫= coach_approval_part d approvals comp_id)
    (user ≫= λ u, player_of profile_user d u ≫= short_profile_of d).

(** [KyorugiCompetitionDetailView.get] *)
Definition kyorugi_detail_view (d : db) (key : string) (user : option Z) (today : Z) : result detail_answer :=
  match _get_comp_by_key iexact d key ≫= (λ k, (λ c, (k, c)) <$> db_competitions d !! k) with
  | None => Err Http404
  | Some (k, c) => Ok (kyorugi_page d k c user today)
  end.

(** [CompetitionDetailAnyView.get] *)
Definition any_detail_view (approvals : gmap Z PoomsaeCoachApproval) (d : db) (key : string) (user : option Z) (today : Z)
    : result detail_answer :=
  match _get_comp_by_key_any iexact d key with
  | None => Err Http404
  | Some (KyorugiComp k) =>
      match db_competitions d !! k with Some c => Ok (kyorugi_page d k c user today) | None => Err Http404 end
  | Some (PoomsaeComp k) =>
      match db_poomsae_comps d !! k with Some c => Ok (poomsae_page approvals d k c user today) | None => Err Http404 end
  end.

(** [PoomsaeCompetitionDetailView.get]: a key that is no number and no public id is looked up by a
    column the model does not have. *)
Definition poomsae_detail_view (approvals : gmap Z PoomsaeCoachApproval) (d : db) (key : string) (user : option Z) (today : Z)
    : result detail_answer :=
  let s := strip key in
  if truthy_str s && all_digits s then
    match digits None s ≫= (λ k, (λ c, (k, c)) <$> db_poomsae_comps d !! k) with
    | Some (k, c) => Ok (poomsae_page approvals d k c user today)
    | None => Err Http404
    end
  else
    match head (List.filter (λ kc, iexact (pc_public_id kc.2) s) (rows_by_id (db_poomsae_comps d))) with
    | Some (k, c) => Ok (poomsae_page approvals d k c user today)
    | None => Err OtherError
    end.

(** [PoomsaeCoachApprovalStatusView.get]; [None] answers that the user is no coach. *)
Record poomsae_status := mkPoomsaeStatus {
  ps_title : string;
  ps_approved : bool;
  ps_is_active : bool;
  ps_code : option string;
  ps_coach_name : string;
  ps_club_names : list string;
}.

Definition poomsae_approval_status (approvals : gmap Z PoomsaeCoachApproval) (clubs : Z → list (option string)) (d : db)
    (user : Z) (public_id : string) : result (option poomsae_status) :=
  match head (List.filter (λ kp, String.eqb (pc_public_id kp.2) public_id) (rows_by_id (db_poomsae_comps d))) with
  | None => Err Http404
  | Some (comp_id, comp) =>
      match (k ← _coach_from_request profile_user d user; (λ p, (k, p)) <$> db_profiles d !! k) with
      | None => Ok None
      | Some (coach, prof) =>
          let appr := snd <$> head (List.filter (λ ka, (pa_competition ka.2 =? comp_id) && (pa_coach ka.2 =? coach)
                                                       && pa_is_active ka.2) (rows_by_id approvals)) in
          Ok (Some (mkPoomsaeStatus (pc_name comp)
                (match appr with Some a => pa_approved a && pa_is_active a | None => false end)
                (match appr with Some a => pa_is_active a | None => false end)
                (match appr with Some a => if pa_is_active a then pa_code a else None | None => None end)
                (full_name prof) (_uniq_preserve (clubs coach))))
      end
  end.
End details.

(** ** Registration states: correctness *)

(** One state of the registration. The property of the model, the helper of the views, the
    computation of the serializer and the filter of the lists agree on whether a competition is open; the
    kyorugi pages let a player register exactly when it is open and the day lies in the period, the
    poomsae pages exactly when it is open. *)
Theorem registration_states_agree today (comp : KyorugiCompetition) (pc : PoomsaeCompetition) k kp qs qp :
  let open := registration_open_effective comp today in
  view_registration_open (kc_registration_manual comp) (kc_registration_start comp) (kc_registration_end comp) today = open ∧
  _compute_effective_open comp today = open ∧
  ((k, comp) ∈ ky_opened today true qs ↔ (k, comp) ∈ qs ∧ open = true) ∧
  (get_can_register comp today = true ↔
     open = true ∧ kc_registration_start comp ≤ today ≤ kc_registration_end comp) ∧
  view_registration_open (pc_registration_manual pc) (pc_registration_start pc) (pc_registration_end pc) today
    = poomsae_can_register pc today ∧
  ((kp, pc) ∈ po_opened today true qp ↔ (kp, pc) ∈ qp ∧ poomsae_can_register pc today = true).
Proof.
  intros open. unfold open, poomsae_can_register. split_and!.
  - unfold view_registration_open, registration_open_effective. destruct (kc_registration_manual comp); [done|].
    by rewrite <- !Z.leb_antisym.
  - unfold _compute_effective_open, registration_open_effective. destruct (kc_registration_manual comp); [done|].
    by rewrite <- !Z.leb_antisym.
  - rewrite elem_of_ky_opened. naive_solver.
  - unfold get_can_register. rewrite !andb_true_iff, !Z.leb_le. lia || tauto.
  - unfold view_registration_open, poomsae_registration_open. destruct (pc_registration_manual pc); [done|].
    by rewrite <- !Z.leb_antisym.
  - rewrite elem_of_po_opened. naive_solver.
Qed.

(** A competition opened by hand outside its period: its page says that registration is open and that
    the player cannot register; the poomsae page of the same dates lets the player register. *)
Theorem opened_by_hand today (comp : KyorugiCompetition) (pc : PoomsaeCompetition) :
  kc_registration_manual comp = Some true → pc_registration_manual pc = Some true →
  ¬ (kc_registration_start comp ≤ today ≤ kc_registration_end comp) →
  get_registration_open comp today = true ∧ get_can_register comp today = false ∧ poomsae_can_register pc today = true.
Proof.
  intros Hk Hp Hout. unfold get_registration_open, get_registration_open_effective, get_can_register,
    registration_open_effective, poomsae_can_register, poomsae_registration_open. rewrite Hk, Hp. split_and!; [done| |done].
  apply not_true_iff_false. rewrite !andb_true_iff, !Z.leb_le. tauto.
Qed.

(** ** Eligibility, explained: correctness *)

Section debug.
Context {P : Type} `{PointArith P} (jalali : Z → Z → Z → option date) (jdate_of : Z → date)
  (belt_grade birth_date : Z → string) (profile_user : Z → option Z)
  (belt_groups : Z → list (Z * list string)) (belt_level : Z → string)
  (ages : gmap Z AgeCategory) (rules : Z → poomsae_rules).
Implicit Types d : DB P.

(** All flags of the explanation are there and hold. *)
Definition debug_passes (data : eligibility_debug) : bool :=
  match ed_gender_ok data, ed_age_ok data, ed_belt_ok data with
  | Some g, Some a, Some b => g && a && b
  | _, _, _ => false
  end.

Lemma in_jwindow_contains dob cat : in_jwindow dob (jwindow jdate_of cat) = jwindow_contains jdate_of dob cat.
Proof. done. Qed.

Lemma existsb_jwindow dob wins : existsb (in_jwindow dob) (jwindow jdate_of <$> wins) = existsb (jwindow_contains jdate_of dob) wins.
Proof. induction wins as [|w wins IH]; cbn; [done|]. by rewrite IH. Qed.
End debug.

(** The explanation of the eligibility explains the answer. For both kinds of competitions the flag
    of the signed-in player is exactly the conjunction of the gender, age and belt flags of the
    explanation, and without a profile both are negative. *)
Theorem debug_explains_eligibility {P} `{PointArith P} jalali jdate_of belt_grade birth_date profile_user belt_groups
    belt_level ages rules (d : DB P) k (comp : KyorugiCompetition) (pc : PoomsaeCompetition) u today :
  get_user_eligible_self jalali jdate_of belt_grade birth_date profile_user belt_groups belt_level ages d k comp u =
    debug_passes (get_eligibility_debug jalali jdate_of belt_grade birth_date profile_user belt_groups belt_level ages d k comp (Some u) today) ∧
  poomsae_eligible_self jalali jdate_of belt_grade birth_date profile_user ages rules d k u =
    debug_passes (poomsae_eligibility_debug jalali jdate_of belt_grade birth_date profile_user ages rules d k pc (Some u) today).
Proof.
  unfold get_user_eligible_self, poomsae_eligible_self, get_eligibility_debug, poomsae_eligibility_debug, debug_passes. cbn.
  destruct (_get_profile profile_user d u) as [[i p]|]; cbn; [|done]. split.
  - destruct (kc_age_category comp ≫= (ages !!.)) as [cat|]; cbn; [|done].
    destruct (_parse_jalali_str jalali jdate_of (birth_date i)) as [dob|]; cbn; [|done]. by rewrite orb_false_r.
  - destruct (age_windows ages (rules k)) as [|w wins] eqn:Ew; cbn; [done|].
    destruct (_parse_jalali_str jalali jdate_of (birth_date i)) as [dob|]; cbn; [|done]. by rewrite existsb_jwindow.
Qed.

(** ** Pages and entries: correctness *)

Section pages_correct.
Context {P : Type} `{PointArith P} (iexact : string → string → bool)
  (jalali : Z → Z → Z → option date) (jdate_of : Z → date)
  (belt_grade birth_date national_code : Z → string) (club_names : Z → list string)
  (user_names : Z → string * string) (profile_user : Z → option Z)
  (belt_groups : Z → list (Z * list string)) (group_label : Z → string) (belt_level : Z → string)
  (ages : gmap Z AgeCategory) (rules : Z → poomsae_rules).
Implicit Types d : DB P.

Local Abbreviation kyorugi_view := (kyorugi_detail_view iexact jalali jdate_of belt_grade birth_date national_code club_names
  user_names profile_user belt_groups group_label belt_level ages).
Local Abbreviation poomsae_view := (poomsae_detail_view iexact jalali jdate_of belt_grade birth_date national_code club_names
  user_names profile_user group_label ages rules).
Local Abbreviation any_view := (any_detail_view iexact jalali jdate_of belt_grade birth_date national_code club_names
  user_names profile_user belt_groups group_label belt_level ages rules).

(** One page per competition. What the pages of the two kinds answer is what the page for any
    competition answers, for poomsae when the key names no kyorugi competition; a key that names no poomsae
    competition is answered with [Http404] when it is a number and raises an error of the query otherwise. *)
Theorem detail_pages_agree approvals d key user today :
  (∀ page, kyorugi_view d key user today = Ok page → any_view approvals d key user today = Ok page) ∧
  (∀ page, _get_comp_by_key iexact d key = None → poomsae_view approvals d key user today = Ok page →
     any_view approvals d key user today = Ok page) ∧
  (∀ e, poomsae_view approvals d key user today = Err e →
     e = if truthy_str (strip key) && all_digits (strip key) then Http404 else OtherError).
Proof.
  unfold kyorugi_detail_view, poomsae_detail_view, any_detail_view, _get_comp_by_key_any. split_and!.
  - intros page. destruct (_get_comp_by_key iexact d key) as [k|]; cbn; [|done].
    by destruct (db_competitions d !! k).
  - intros page ->. destruct (truthy_str (strip key) && all_digits (strip key)).
    + destruct (digits None (strip key)) as [k|]; cbn; [|done].
      destruct (db_poomsae_comps d !! k) as [c|] eqn:E; cbn; [|done]. by rewrite E.
    + destruct (head _) as [[k c]|] eqn:E; cbn; [|done]. apply head_Some_elem_of in E.
      rewrite elem_of_filter_list, elem_of_rows_by_id in E. destruct E as [-> _]. done.
  - intros e. destruct (_ && _).
    + destruct (digits None (strip key) ≫= _) as [[k c]|]; congruence.
    + destruct (head _) as [[k c]|]; congruence.
Qed.
End pages_correct.

(** The entries of a player in a competition, by key. *)
Definition entries_of {P} (d : DB P) (comp_id player : Z) : list (Z * Enrollment) :=
  List.filter (λ ke, (en_competition ke.2 =? comp_id) && (en_player ke.2 =? player)) (rows_by_id (db_enrollments d)).

Definition detail_entry {P} (profile_user : Z → option Z) (d : DB P) (comp_id user : Z) : option my_enrollment :=
  player ← player_of profile_user d user;
  (λ ke, packed ke.1 (KyorugiEntry ke.2)) <$> latest_entry d comp_id player.

(** The detail page shows the latest entry of a player and [MyEnrollmentView] the first: they agree
    while there is at most one. *)
Theorem entry_pages_agree {P} profile_user (d : DB P) comp_id user :
  (∀ player, player_of profile_user d user = Some player → (length (entries_of d comp_id player) ≤ 1)%nat) →
  my_kyorugi_enrollment profile_user d comp_id user = detail_entry profile_user d comp_id user.
Proof.
  unfold my_kyorugi_enrollment, detail_entry, latest_entry, entries_of.
  destruct (player_of profile_user d user) as [player|]; cbn; [|done]. intros Hl. specialize (Hl player eq_refl).
  by destruct (List.filter _ _) as [|x [|y l]]; cbn in *; [done|done|lia].
Qed.

(** The locked profiles of the two kinds differ in the national code only. *)
Theorem locked_profiles_agree {P} jalali jdate_of belt_grade birth_date national_code club_names user_names profile_user
    (d : DB P) user :
  kyorugi_me_locked jalali jdate_of belt_grade birth_date club_names user_names profile_user d user =
  (λ l, mkLockedProfile (lk_first_name l) (lk_last_name l) "" (lk_birth_date l) (lk_belt l) (lk_belt_code l) (lk_club l) (lk_coach l))
    <$> poomsae_me_locked jalali jdate_of belt_grade birth_date national_code club_names user_names profile_user d user.
Proof.
  unfold kyorugi_me_locked, poomsae_me_locked. destruct (user ≫= _current_player_profile profile_user d) as [[k p]|]; done.
Qed.

(** ** What a coach sees of a poomsae approval *)

(** The active approval of a coach, as both pages look it up, is its only row. *)
Lemma active_row_unique (s : approvals PoomsaeCoachApproval) pk b :
  wf s → as_rows s !! pk = Some b → pa_is_active b = true →
  head (List.filter (λ ka : Z * PoomsaeCoachApproval, (pa_competition ka.2 =? pa_competition b) && (pa_coach ka.2 =? pa_coach b)
                       && pa_is_active ka.2) (rows_by_id (as_rows s))) = Some (pk, b).
Proof.
  intros Hw Hb Hact. destruct (head _) as [[i a]|] eqn:E.
  - apply head_Some_elem_of, elem_of_filter_list in E as [Hin Hf]. apply elem_of_rows_by_id in Hin. cbn in Hf.
    rewrite !andb_true_iff, !Z.eqb_eq in Hf. destruct Hf as [[Hc Hco] _].
    pose proof (own_row_unique s _ _ i a Hw Hin Hc Hco) as E1.
    pose proof (own_row_unique s _ _ pk b Hw Hb eq_refl eq_refl) as E2. cbn in E1, E2. congruence.
  - assert (Hin : (pk, b) ∈ List.filter (λ ka : Z * PoomsaeCoachApproval, (pa_competition ka.2 =? pa_competition b)
                     && (pa_coach ka.2 =? pa_coach b) && pa_is_active ka.2) (rows_by_id (as_rows s))).
    { apply elem_of_filter_list. rewrite elem_of_rows_by_id. split; [done|]. cbn. by rewrite !Z.eqb_refl, Hact. }
    destruct (List.filter _ _); [by apply not_elem_of_nil in Hin|done].
Qed.

(** The approval of a poomsae coach is seen where it was given. A request of a coach either finds the
    registration closed, which changes nothing, or runs out of codes, which changes nothing, or leaves an
    approval that the status page and the page of the competition show with the same well-formed code; the
    code of an approval given before stays. *)
Theorem poomsae_approval_visible {P} `{PointArith P} profile_user (d : DB P) rand user coach prof public_id comp_id comp
    today now clubs (s : approvals PoomsaeCoachApproval) :
  wf s → in_range rand → _coach_from_request profile_user d user = Some coach → db_profiles d !! coach = Some prof →
  head (List.filter (λ kp : Z * PoomsaeCompetition, String.eqb (pc_public_id kp.2) public_id) (rows_by_id (db_poomsae_comps d)))
    = Some (comp_id, comp) →
  match approve_poomsae d rand (Some coach) public_id today now s with
  | (Ok r, s') =>
      (r = ArClosed ∧ poomsae_registration_open comp today = false ∧ s' = s) ∨
      (∃ code c, r = ArOk code ∧ code_format c = true ∧ (∀ old, code = Some old → c = old) ∧
        poomsae_approval_status profile_user (as_rows s') clubs d user public_id =
          Ok (Some (mkPoomsaeStatus (pc_name comp) true true (Some c) (full_name prof) (_uniq_preserve (clubs coach)))) ∧
        coach_approval_part profile_user d (as_rows s') comp_id user = Some (mkShownCode true (Some c)))
  | (Err e, s') => e = ValueError ∧ s' = s
  end.
Proof.
  intros Hw Hr Hcoach Hprof Hcomp. pose proof (approve_spec rand comp_id coach now s Hw Hr) as Ha.
  unfold approve_poomsae, atomic, bind at 1, of_option. rewrite Hcomp. unfold ret. cbn [fst snd].
  destruct (poomsae_registration_open comp today) eqn:Ho; cbn [negb]; [|by left]. unfold bind at 1.
  destruct (approve rand comp_id coach now s) as [[code|e] s']; [|by subst e].
  destruct Ha as ([Hw' _]%(λ f, f Hw) & _ & pk & b & c & Hb & Hc & Hco & Hacc & Hact & Hbc & Hf & Hold). cbn in *.
  right. exists code, c. split; [done|]. split; [done|]. split; [exact Hold|].
  pose proof (active_row_unique s' pk b Hw' Hb Hact) as Hu. rewrite Hc, Hco in Hu.
  unfold poomsae_approval_status, coach_approval_part. rewrite Hcomp, Hcoach. cbn. rewrite Hprof. cbn.
  rewrite Hu. cbn. by rewrite Hacc, Hact, Hbc.
Qed.

(** ** Witnesses and examples *)

Lemma opened_by_hand_witness :
  get_can_register (mkKyorugiCompetition "cup" 100000 (Some 1) "male" (Some true) 0 10 11 12 13 2 None "c") 50 = false.
Proof.
  apply (opened_by_hand 50 (mkKyorugiCompetition "cup" 100000 (Some 1) "male" (Some true) 0 10 11 12 13 2 None "c")
           (mkPoomsaeCompetition "cup" (Some true) 0 10 0 10 None 100000 2 "p")); [done..|cbn; lia].
Defined.

Definition poomsae_status_db : DB Z :=
  set_db_poomsae_comps {[ 6 := mkPoomsaeCompetition "cup" None 0 10 0 10 None 100000 2 "p" ]} approvals_db.
Definition no_poomsae_approvals : approvals PoomsaeCoachApproval := mkApprovals ∅ 1.
Definition coach_login (k : Z) : option Z := if k =? 7 then Some 70 else None.

Definition approved_on_day_5 : approvals PoomsaeCoachApproval :=
  (approve_poomsae poomsae_status_db counting_draws (Some 7) "p" 5 5 no_poomsae_approvals).2.

Lemma poomsae_approval_visible_witness :
  coach_approval_part coach_login poomsae_status_db (as_rows approved_on_day_5) 6 70 = Some (mkShownCode true (Some "000000"%string)).
Proof.
  pose proof (poomsae_approval_visible coach_login poomsae_status_db counting_draws 70 7
    (mkUserProfile "Ali" "Ahmadi" true "coach" "male" None None None 0 0 0 0 0) "p" 6
    (mkPoomsaeCompetition "cup" None 0 10 0 10 None 100000 2 "p") 5 5 (λ _, []) no_poomsae_approvals (wf_empty 1) counting_in_range
    ltac:(vm_compute; reflexivity) ltac:(vm_compute; reflexivity) ltac:(vm_compute; reflexivity)) as H.
  destruct (approve_poomsae _ _ _ _ _ _ _) as [[r|e] s'] eqn:E.
  - assert (Es : approved_on_day_5 = s') by (unfold approved_on_day_5; by rewrite E).
    destruct H as [(-> & _)|(code & c & _ & _ & _ & _ & H)]; [by vm_compute in E|].
    rewrite Es, H. f_equal. f_equal. rewrite <- Es in H. vm_compute in H. injection H as <-. reflexivity.
  - by vm_compute in E.
Defined.

(** A withdrawn entry and a later one of the same player: the page of the competition shows the later entry,
    [MyEnrollmentView] the withdrawn one. *)
Definition entry_of_10 (status : string) (paid : bool) : Enrollment :=
  mkEnrollment 5 10 (Some 20) "" "" (Some 30) "" (Some 40) "" None (Some 1) (b64_of_Z 55) "" 0
    status paid 0 "" None "" None 0 0 false false.

Definition entered_twice : DB Z :=
  set_db_enrollments {[ 100 := entry_of_10 "canceled" false; 101 := entry_of_10 "paid" true ]} eligibility_db.

Example entry_views_disagree :
  my_kyorugi_enrollment sample_login entered_twice 5 7 = Some (mkMyEnrollment 100 "canceled" false) ∧
  detail_entry sample_login entered_twice 5 7 = Some (mkMyEnrollment 101 "paid" true).
Proof. split; vm_compute; reflexivity. Qed.

Lemma entry_pages_agree_witness :
  detail_entry sample_login (cards_db true) 5 7 = Some (mkMyEnrollment 100 "pending_payment" true).
Proof.
  rewrite <- (entry_pages_agree sample_login (cards_db true) 5 7).
  - vm_compute. reflexivity.
  - intros player E. vm_compute in E. injection E as <-. vm_compute. lia.
Defined.
