(* ===== verification/Routes.v ===== *)
(** The table of URLs: [tkdjango/urls.py] with the tables it includes ([competitions/urls.py],
    [accounts/urls.py], [payments/urls.py], [reports/urls.py], [main/urls.py] and
    [apps/discounts/api/urls.py]), resolution of a path and the reverse of a name.

    A route is a text as in the source; its segments between slashes are literals or capture a text with a
    converter. The tables of other packages (the admin site, the bank gateways) are a parameter that says
    which paths below their prefix they match. Views are their names. *)

From Stdlib Require Import Ascii.
From stdpp Require Import pretty.
From S2P Require Import Prelude Payments GroupPayments GroupRegistration Text.
Local Open Scope Z_scope.

(** ** Routes *)

(** [CompKeyConverter] and the converters [str] and [int] of the framework. *)
Inductive converter := CKey | Str | IntC.

#[export] Instance converter_eq_dec : EqDecision converter.
Proof. solve_decision. Defined.

Definition ckey_char (c : ascii) : bool :=
  let n := Z.of_nat (nat_of_ascii c) in
  (48 <=? n) && (n <=? 57) || (65 <=? n) && (n <=? 90) || (97 <=? n) && (n <=? 122) || (n =? 95) || (n =? 45).

Definition no_slash (s : string) : bool := all_chars (λ c, negb (Ascii.eqb c "/")) s.

(** The expression of a converter, on a whole segment. *)
Definition accepts (c : converter) (s : string) : bool :=
  truthy_str s &&
  match c with
  | CKey => all_digits s || all_chars ckey_char s && (Z.of_nat (String.length s) <=? 128)
  | Str => no_slash s
  | IntC => all_digits s
  end.

Inductive arg := AText (s : string) | AInt (z : Z).

Definition to_python (c : converter) (s : string) : arg :=
  match c with IntC => AInt (default 0 (digits None s)) | _ => AText s end.
Definition to_url (a : arg) : string := match a with AText s => s | AInt z => pretty z end.

Inductive segment := Lit (s : string) | Cap (c : converter) (name : string).

Definition converter_of (s : string) : option converter :=
  if String.eqb s "ckey" then Some CKey else if String.eqb s "str" then Some Str
  else if String.eqb s "int" then Some IntC else None.

(** [<converter:name>], [<name>], or the text itself. *)
Definition segment_of (s : string) : segment :=
  match s with
  | String "<" r =>
      match split_on ":" (default EmptyString (head (split_on ">" r))) with
      | [name] => Cap Str name
      | [c; name] => match converter_of c with Some c => Cap c name | None => Lit s end
      | _ => Lit s
      end
  | _ => Lit s
  end.

Definition route_of (route : string) : list segment := segment_of <$> split_on "/" route.

(** The prefix of an [include] ends after its slash. *)
Definition prefix_of (prefix : string) : list segment := removelast (route_of prefix).

Fixpoint match_segs (segs : list segment) (path : list string) : option (list (string * arg)) :=
  match segs, path with
  | [], [] => Some []
  | Lit s :: segs, p :: path => if String.eqb s p then match_segs segs path else None
  | Cap c name :: segs, p :: path =>
      if accepts c p then cons (name, to_python c p) <$> match_segs segs path else None
  | _, _ => None
  end.

Fixpoint match_prefix (segs : list segment) (path : list string) : option (list (string * arg) * list string) :=
  match segs, path with
  | [], [] => None
  | [], _ => Some ([], path)
  | Lit s :: segs, p :: path => if String.eqb s p then match_prefix segs path else None
  | Cap c name :: segs, p :: path =>
      if accepts c p then (λ kr, ((name, to_python c p) :: kr.1, kr.2)) <$> match_prefix segs path else None
  | _, _ => None
  end.

(** ** Tables *)

Inductive urlpattern :=
  | Path (route view name : string)
  | Include (prefix namespace : string) (patterns : list urlpattern)
  | App (prefix app : string).

(** What a path resolves to: a view of the project with its arguments, or a path of another package. *)
Inductive resolved :=
  | ToView (view name : string) (kwargs : list (string * arg))
  | ToApp (app : string) (rest : list string).

Definition qualified (namespace name : string) : string :=
  if truthy_str namespace then (namespace ++ ":" ++ name)%string else name.

(** The first pattern that resolves. *)
Definition first_some {A B} (f : A → option B) : list A → option B :=
  fix go l := match l with
              | [] => None
              | x :: l => match f x with Some b => Some b | None => go l end
              end.

Section resolution.
Context (app_matches : string → list string → bool).

Definition to_app (app : string) (rest : list string) : option resolved :=
  if app_matches app rest then Some (ToApp app rest) else None.

Definition below (namespace : string) (kwargs : list (string * arg)) (r : resolved) : resolved :=
  match r with
  | ToView view name kw => ToView view (qualified namespace name) (kwargs ++ kw)
  | ToApp app rest => ToApp app rest
  end.

Fixpoint resolve_pattern (p : urlpattern) (path : list string) : option resolved :=
  match p with
  | Path route view name => ToView view name <$> match_segs (route_of route) path
  | Include prefix namespace patterns =>
      match match_prefix (prefix_of prefix) path with
      | Some (kw, rest) => below namespace kw <$> first_some (λ p, resolve_pattern p rest) patterns
      | None => None
      end
  | App prefix app =>
      match match_prefix (prefix_of prefix) path with
      | Some (_, rest) => to_app app rest
      | None => None
      end
  end.

(** [resolve]: the path without its leading slash. *)
Definition resolve (urlpatterns : list urlpattern) (path : string) : option resolved :=
  first_some (λ p, resolve_pattern p (split_on "/" path)) urlpatterns.
End resolution.

(** The same tables with the included ones put in place. *)
Inductive target := TView (view name : string) | TApp (app : string).
Definition entry : Type := list segment * target.

Definition qualify (namespace : string) (t : target) : target :=
  match t with TView view name => TView view (qualified namespace name) | TApp app => TApp app end.

Fixpoint flatten (p : urlpattern) : list entry :=
  match p with
  | Path route view name => [(route_of route, TView view name)]
  | Include prefix namespace patterns =>
      (λ e, (prefix_of prefix ++ e.1, qualify namespace e.2)) <$> flat_map flatten patterns
  | App prefix app => [(prefix_of prefix, TApp app)]
  end.

Definition table (urlpatterns : list urlpattern) : list entry := flat_map flatten urlpatterns.

(** [reverse]: the segments of a route with the arguments in order. *)
Fixpoint fill (segs : list segment) (args : list arg) : option (list string) :=
  match segs, args with
  | [], [] => Some []
  | Lit s :: segs, _ => cons s <$> fill segs args
  | Cap c _ :: segs, a :: args => if accepts c (to_url a) then cons (to_url a) <$> fill segs args else None
  | _, _ => None
  end.

Definition is_named (name : string) (e : entry) : bool :=
  match e.2 with TView _ n => String.eqb n name | TApp _ => false end.

Definition reverse (urlpatterns : list urlpattern) (name : string) (args : list arg) : option string :=
  e ← head (List.filter (is_named name) (table urlpatterns));
  String.concat "/" <$> fill e.1 args.

(** ** The tables of the project *)

(** [apps/discounts/api/urls.py] *)
Definition discounts_urls : list urlpattern := [Path "apply/" "ApplyDiscountCodeView" "discount-apply"].

(** [reports/urls.py] *)
Definition reports_urls : list urlpattern :=
  [ Path "" "center" "center";
    Path "users/" "users_report" "users";
    Path "competitions/" "competitions_report" "competitions";
    Path "finance/" "finance_report" "finance";
    Path "export/<str:kind>/" "export_csv" "export_csv" ].

(** [payments/urls.py] *)
Definition payments_urls : list urlpattern :=
  [ Path "intent/" "create_intent" "create_intent";
    Path "intent/<str:pid>/enrollments/" "PaymentIntentEnrollmentsView" "intent-enrollments";
    Path "start/<str:public_id>/" "StartPaymentView" "start_payment";
    Path "callback/<str:gateway_name>/" "GatewayCallbackView" "callback";
    Path "link/<str:public_id>/" "create_payment_link" "create-payment-link";
    Path "bank-return/<str:public_id>/" "SadadBankReturnView" "bank_return";
    Path "result/<str:tc>/" "payment_result_redirect" "payment_result_redirect" ].

(** [main/urls.py] *)
Definition main_urls : list urlpattern :=
  [ Path "header-background/" "HeaderBackgroundAPIView" "header-background";
    Path "slider-images/" "SliderImagesAPIView" "slider-images";
    Path "news/slider/" "NewsSliderAPIView" "news-slider";
    Path "news/" "NewsListAPIView" "news-list";
    Path "news/<int:pk>/" "NewsDetailView" "news-detail";
    Path "circulars/slider/" "CircularListAPIView" "circulars-slider";
    Path "circulars/" "CircularsListAPIView" "circulars";
    Path "circulars/<int:pk>/" "CircularDetailAPIView" "circular-detail";
    Path "news/board/submit/" "BoardNewsSubmitAPIView" "board-news-submit";
    Path "news/board/mine/" "BoardMyNewsListAPIView" "board-news-mine" ].

(** [accounts/urls.py] *)
Definition accounts_urls : list urlpattern :=
  [ Path "send-code/" "SendCodeAPIView" "send-code";
    Path "verify-code/" "VerifyCodeAPIView" "verify-code";
    Path "login/" "UniversalLoginAPIView" "universal-login";
    Path "password/forgot/send/" "ForgotPasswordSendCodeAPIView" "password-forgot-send";
    Path "password/forgot/verify/" "ForgotPasswordVerifyAPIView" "password-forgot-verify";
    Path "jwt/create/" "TokenObtainPairView" "token_obtain_pair";
    Path "jwt/refresh/" "TokenRefreshView" "token_refresh";
    Path "jwt/verify/" "TokenVerifyView" "token_verify";
    Path "form-data/" "form_data_view" "form-data";
    Path "form-data-player/" "form_data_player_view" "form-data-player";
    Path "user-profile-with-options/" "user_profile_with_form_data_view" "user-profile-with-options";
    Path "profile/edit/" "UpdateProfilePendingAPIView" "edit_profile";
    Path "dashboard/<role>/" "DashboardCombinedView" "dashboard-combined";
    Path "dashboard/kyorugi/" "KyorugiCompetitionListView" "kyorugi-list";
    Path "coaches/" "coaches_by_club_gender" "coaches-by-club-gender";
    Path "register-coach/" "RegisterCoachAPIView" "register-coach";
    Path "register-player/" "RegisterPlayerAPIView" "register-player";
    Path "check-national-code/" "check_national_code" "check_national_code";
    Path "register-club/" "RegisterPendingClubAPIView" "register-club";
    Path "admin/approve-club/<int:pk>/" "approve_pending_club" "approve_pending_club";
    Path "coach/students/" "CoachStudentsAPIView" "coach-students";
    Path "coach/clubs/" "CoachClubsAPIView" "coach-clubs";
    Path "coach/update-clubs/" "UpdateCoachClubsAPIView" "update-coach-clubs";
    Path "all-clubs/" "AllClubsAPIView" "all-clubs";
    Path "club/students/" "ClubStudentsView" "club-students";
    Path "club/coaches/" "ClubCoachesView" "club-coaches";
    Path "club/all-coaches/" "ClubAllCoachesView" "club-all-coaches";
    Path "club/update-coaches/" "UpdateClubCoachesView" "update-club-coaches";
    Path "coach/requests/" "PendingCoachRequestsView" "coach-requests";
    Path "coach/requests/<int:pk>/respond/" "RespondToCoachRequestView" "respond-coach-request";
    Path "login/board/" "HeyatLoginAPIView" "board-login";
    Path "heyat/students/" "HeyatStudentsAPIView" "heyat-students";
    Path "heyat/form-data/" "heyat_form_data" "heyat-form-data";
    Path "heyat/coaches/" "HeyatCoachesAPIView" "heyat-coaches";
    Path "heyat/referees/" "HeyatRefereesAPIView" "heyat-referees";
    Path "heyat/clubs/" "heyat_clubs_list" "heyat-clubs";
    Path "approve/<int:pk>/" "approve_pending_user" "approve_pending_user";
    Path "admin/approve-edit/<int:pk>/" "approve_edited_profile" "approve_edited_profile" ].

(** [competitions/urls.py] *)
Definition competitions_urls : list urlpattern :=
  [ Path "kyorugi/<ckey:key>/" "KyorugiCompetitionDetailView" "kyorugi-detail";
    Path "kyorugi/<ckey:key>/terms/" "CompetitionTermsView" "kyorugi-terms";
    Path "kyorugi/<ckey:key>/bracket/" "KyorugiBracketView" "kyorugi-bracket";
    Path "kyorugi/<ckey:key>/results/" "KyorugiResultsView" "kyorugi-results";
    Path "competitions/<ckey:key>/results/" "KyorugiResultsView" "kyorugi-results-compat";
    Path "by-public/<ckey:key>/" "CompetitionDetailAnyView" "detail-by-public";
    Path "by-public/<ckey:key>/terms/" "CompetitionTermsView" "terms-by-public";
    Path "by-public/<ckey:key>/bracket/" "KyorugiBracketView" "bracket-by-public";
    Path "by-public/<ckey:key>/results/" "KyorugiResultsView" "results-by-public";
    Path "auth/kyorugi/<ckey:key>/prefill/" "RegisterSelfPrefillView" "prefill";
    Path "auth/kyorugi/<ckey:key>/register/self/" "RegisterSelfView" "register-self";
    Path "auth/kyorugi/<ckey:key>/coach-approval/status/" "CoachApprovalStatusView" "coach-approval-status";
    Path "auth/kyorugi/<ckey:key>/coach-approval/approve/" "ApproveCompetitionView" "coach-approval-approve";
    Path "auth/kyorugi/<ckey:key>/my-enrollment/" "MyEnrollmentView" "my-enrollment";
    Path "auth/enrollments/<int:enrollment_id>/card/" "EnrollmentCardView" "enrollment-card";
    Path "auth/enrollments/cards/bulk/" "EnrollmentCardsBulkView" "enrollment-cards-bulk";
    Path "auth/kyorugi/<ckey:key>/coach/students/eligible/" "CoachStudentsEligibleListView" "coach-eligible-students";
    Path "auth/kyorugi/<ckey:key>/coach/register/students/" "CoachRegisterStudentsView" "coach-register-students";
    Path "auth/kyorugi/<ckey:key>/register/students/" "CoachRegisterStudentsView" "register-students-bulk-alias";
    Path "dashboard/all/" "DashboardAllCompetitionsView" "dashboard-all";
    Path "dashboard/kyorugi/" "DashboardKyorugiListView" "dashboard-kyorugi";
    Path "auth/dashboard/all/" "DashboardAllCompetitionsView" "dashboard-all-auth-alias";
    Path "auth/dashboard/kyorugi/" "DashboardKyorugiListView" "dashboard-kyorugi-auth-alias";
    Path "kyorugi/player/competitions/" "PlayerCompetitionsList" "player-competitions";
    Path "kyorugi/referee/competitions/" "RefereeCompetitionsList" "referee-competitions";
    Path "public/kyorugi/<str:public_id>/bracket/" "public_bracket_view" "public-kyorugi-bracket";
    Path "seminars/" "SeminarListView" "seminar-list";
    Path "seminars/<ckey:key>/" "SeminarDetailView" "seminar-detail";
    Path "auth/seminars/<ckey:key>/register/" "SeminarRegisterView" "seminar-register";
    Path "seminars/sidebar/" "sidebar_seminars" "seminars-sidebar";
    Path "<ckey:key>/terms/" "CompetitionTermsView" "terms-generic";
    Path "competitions/kyorugi/<ckey:key>/terms/" "CompetitionTermsView" "kyorugi-terms-compat";
    Path "poomsae/<ckey:key>/" "PoomsaeCompetitionDetailView" "poomsae-detail";
    Path "competitions/poomsae/<ckey:key>/" "PoomsaeCompetitionDetailView" "poomsae-detail-compat";
    Path "auth/poomsae/<ckey:public_id>/coach-approval/status/" "PoomsaeCoachApprovalStatusView" "poomsae-coach-approval-status";
    Path "auth/poomsae/<ckey:public_id>/coach-approval/approve/" "PoomsaeCoachApprovalApproveView" "poomsae-coach-approval-approve";
    Path "auth/poomsae/<ckey:public_id>/register/self/" "PoomsaeRegisterSelfView" "poomsae-register-self";
    Path "poomsae/<str:key>/my-enrollments/" "MyPoomsaeEnrollmentsView" "poomsae-my-enrollments";
    Path "<ckey:key>/" "CompetitionDetailAnyView" "competition-detail-any";
    Path "competitions/<ckey:key>/" "CompetitionDetailAnyView" "competition-detail-any-compat";
    Path "auth/poomsae/<ckey:key>/coach/students/eligible/" "PoomsaeCoachStudentsEligibleListView" "poomsae-coach-eligible-students";
    Path "auth/poomsae/<ckey:public_id>/coach/students/eligible/" "PoomsaeCoachStudentsEligibleListView" "poomsae-coach-eligible-students-publicid-alias" ].

(** [tkdjango/urls.py]: the admin site and the bank gateways bring their own tables. *)
Definition root_urls : list urlpattern :=
  [ Include "api/discounts/" "" discounts_urls;
    Include "admin/reports/" "reports" reports_urls;
    App "admin/" "admin";
    Path "api/auth/profile/mini/" "mini_profile" "profile-mini";
    Include "api/auth/" "accounts" accounts_urls;
    Include "api/competitions/" "competitions" competitions_urls;
    Include "api/payments/" "payments" payments_urls;
    Include "api/" "main" main_urls;
    Path "bankgateways/callback/" "bankgateways_callback_override" "";
    Path "bankgateways/callback/<str:bank_type>/" "bankgateways_callback_override" "";
    Path "bankgateways/go-to-bank-gateway/" "go_to_bank_gateway_override" "";
    App "bankgateways/" "bankgateways";
    Path "admin/accounts/pendingeditprofile/<int:pk>/approve/" "approve_edited_profile" "accounts_pendingeditprofile_approve" ].

(** ** Nested and flat tables *)

Section urlpattern_ind.
Context (Q : urlpattern → Prop) (QPath : ∀ route view name, Q (Path route view name))
    (QInclude : ∀ prefix ns ps, Forall Q ps → Q (Include prefix ns ps)) (QApp : ∀ prefix app, Q (App prefix app)).

Definition urlpattern_nested_ind : ∀ p, Q p :=
  fix go p := match p with
                | Path r v n => QPath r v n
                | Include pre ns ps => QInclude pre ns ps
                    ((fix all ps : Forall Q ps :=
                        match ps with [] => Forall_nil_2 Q | p :: ps => Forall_cons_2 Q p ps (go p) (all ps) end) ps)
                | App pre app => QApp pre app
                end.
End urlpattern_ind.

Section flat.
Context (app_matches : string → list string → bool).

Definition resolve_entry (path : list string) (e : entry) : option resolved :=
  match e.2 with
  | TView view name => ToView view name <$> match_segs e.1 path
  | TApp app => match match_prefix e.1 path with
                | Some (_, rest) => to_app app_matches app rest
                | None => None
                end
  end.

Lemma first_some_app {A B} (f : A → option B) l1 l2 :
  first_some f (l1 ++ l2) = match first_some f l1 with Some b => Some b | None => first_some f l2 end.
Proof. induction l1 as [|x l1 IH]; [done|]. cbn. by destruct (f x). Qed.

Lemma first_some_flat_map {A B C} (g : A → list B) (f : B → option C) l :
  first_some f (flat_map g l) = first_some (λ x, first_some f (g x)) l.
Proof. induction l as [|x l IH]; [done|]. cbn [flat_map]. rewrite first_some_app, IH. done. Qed.

Lemma first_some_ext {A B} (f g : A → option B) l : Forall (λ x, f x = g x) l → first_some f l = first_some g l.
Proof. induction 1 as [|x l E _ IH]; [done|]. cbn. by rewrite E, IH. Qed.

Lemma first_some_fmap {A B C} (g : A → B) (f : B → option C) l : first_some f (g <$> l) = first_some (λ x, f (g x)) l.
Proof. induction l as [|x l IH]; [done|]. cbn. by destruct (f (g x)). Qed.

Lemma first_some_under {A B C} (f : A → option B) (h : B → C) l : first_some (λ x, h <$> f x) l = h <$> first_some f l.
Proof. induction l as [|x l IH]; [done|]. cbn. by destruct (f x). Qed.

Lemma first_some_never {A B} (f : A → option B) l : (∀ x, x ∈ l → f x = None) → first_some f l = None.
Proof.
  induction l as [|x l IH]; intros Hl; [done|]. cbn. rewrite Hl by left. apply IH. intros y Hy. apply Hl. by right.
Qed.

Lemma split_on_nonempty sep s : split_on sep s ≠ [].
Proof. destruct s as [|c s]; cbn; [done|]. destruct (Ascii.eqb c sep); [done|]. by destruct (split_on sep s). Qed.

Lemma route_nonempty r : route_of r ≠ [].
Proof. unfold route_of. pose proof (split_on_nonempty "/" r). by destruct (split_on "/" r). Qed.

(** A route below a prefix. *)
Lemma match_segs_below pre segs path : segs ≠ [] →
  match_segs (pre ++ segs) path =
    match match_prefix pre path with Some (kw, rest) => app kw <$> match_segs segs rest | None => None end.
Proof.
  intros Hs. revert path. induction pre as [|[s|c name] pre IH]; intros [|p path]; cbn [app match_segs match_prefix].
  - by destruct segs as [|[]].
  - change (app (A := string * arg) []) with (@id (list (string * arg))). by rewrite option_fmap_id.
  - done.
  - by destruct (String.eqb s p).
  - done.
  - destruct (accepts c p); [|done]. rewrite IH. destruct (match_prefix pre path) as [[kw rest]|]; cbn; [|done].
    by destruct (match_segs segs rest).
Qed.

Lemma match_prefix_below pre segs path :
  match_prefix (pre ++ segs) path =
    match match_prefix pre path with Some (kw, rest) => (λ kr, (kw ++ kr.1, kr.2)) <$> match_prefix segs rest | None => None end.
Proof.
  revert path. induction pre as [|[s|c name] pre IH]; intros [|p path]; cbn [app match_prefix].
  - by destruct segs as [|[]].
  - by destruct (match_prefix segs (p :: path)) as [[]|].
  - done.
  - by destruct (String.eqb s p).
  - done.
  - destruct (accepts c p); [|done]. rewrite IH. destruct (match_prefix pre path) as [[kw rest]|]; cbn; [|done].
    by destruct (match_prefix segs rest) as [[]|].
Qed.

Definition proper_entry (e : entry) : Prop := match e.2 with TView _ _ => e.1 ≠ [] | TApp _ => True end.

Lemma flatten_proper p e : e ∈ flatten p → proper_entry e.
Proof.
  revert e. induction p as [r v n|pre ns ps IH|pre app] using urlpattern_nested_ind; intros e; cbn.
  - intros ->%list_elem_of_singleton. apply route_nonempty.
  - intros (e' & -> & He')%list_elem_of_fmap. apply list_elem_of_In, in_flat_map in He' as (p & Hp & He').
    rewrite Forall_forall in IH. specialize (IH p (proj2 (list_elem_of_In _ _) Hp) e' (proj2 (list_elem_of_In _ _) He')).
    destruct e' as [segs [v n|a]]; cbn in *; [|done]. by destruct (prefix_of pre), segs.
  - by intros ->%list_elem_of_singleton.
Qed.

Lemma resolve_entry_below pre ns path e : proper_entry e →
  resolve_entry path (pre ++ e.1, qualify ns e.2) =
    match match_prefix pre path with Some (kw, rest) => below ns kw <$> resolve_entry rest e | None => None end.
Proof.
  destruct e as [segs [v n|a]]; cbn; intros Hp; unfold resolve_entry; cbn.
  - rewrite match_segs_below by done. destruct (match_prefix pre path) as [[kw rest]|]; [|done].
    by destruct (match_segs segs rest).
  - rewrite match_prefix_below. destruct (match_prefix pre path) as [[kw rest]|]; [|done].
    destruct (match_prefix segs rest) as [[kw' rest']|]; cbn; [|done]. unfold to_app. by destruct (app_matches a rest').
Qed.

Lemma resolve_pattern_flat p path : resolve_pattern app_matches p path = first_some (resolve_entry path) (flatten p).
Proof.
  revert path. induction p as [r v n|pre ns ps IH|pre app] using urlpattern_nested_ind; intros path; cbn.
  - unfold resolve_entry. cbn. by destruct (match_segs _ _).
  - rewrite first_some_fmap. rewrite (first_some_ext _ (λ e, match match_prefix (prefix_of pre) path with
      Some (kw, rest) => below ns kw <$> resolve_entry rest e | None => None end)).
    + destruct (match_prefix (prefix_of pre) path) as [[kw rest]|].
      * rewrite first_some_under, first_some_flat_map. f_equal. apply first_some_ext.
        eapply Forall_impl; [exact IH|]. intros p Hp. apply Hp.
      * symmetry. by apply first_some_never.
    + apply Forall_forall. intros e He. apply resolve_entry_below.
      apply list_elem_of_In, in_flat_map in He as (p & _ & He). by apply (flatten_proper p), list_elem_of_In.
  - unfold resolve_entry. cbn. by destruct (match_prefix _ _) as [[? ?]|]; [destruct (to_app _ _ _)|].
Qed.

(** The order of nested tables is the order of the flat one. *)
Lemma resolve_flat urls path : resolve app_matches urls path = first_some (resolve_entry (split_on "/" path)) (table urls).
Proof.
  unfold resolve, table. rewrite first_some_flat_map. apply first_some_ext, Forall_forall. intros p _.
  apply resolve_pattern_flat.
Qed.
End flat.

(** ** Reverse and resolve *)

(** The arguments a route takes: numbers for [int], texts for the other converters. *)
Fixpoint typed_args (segs : list segment) (args : list arg) : Prop :=
  match segs, args with
  | [], [] => True
  | Lit _ :: segs, _ => typed_args segs args
  | Cap IntC _ :: segs, AInt z :: args => 0 ≤ z ∧ typed_args segs args
  | Cap CKey _ :: segs, AText _ :: args | Cap Str _ :: segs, AText _ :: args => typed_args segs args
  | _, _ => False
  end.

(** The arguments by the names of the route. *)
Fixpoint bind_args (segs : list segment) (args : list arg) : list (string * arg) :=
  match segs, args with
  | Cap _ name :: segs, a :: args => (name, a) :: bind_args segs args
  | Lit _ :: segs, _ => bind_args segs args
  | _, _ => []
  end.

Lemma ckey_no_slash c : ckey_char c = true → negb (Ascii.eqb c "/") = true.
Proof. destruct c as [[] [] [] [] [] [] [] []]; vm_compute; congruence. Qed.

Lemma digit_no_slash c : negb (is_none (digit c)) = true → negb (Ascii.eqb c "/") = true.
Proof. destruct c as [[] [] [] [] [] [] [] []]; vm_compute; congruence. Qed.

Lemma accepts_no_slash c s : accepts c s = true → no_slash s = true.
Proof.
  unfold accepts. intros [_ Hs]%andb_true_iff. destruct c; [|done|].
  - apply orb_true_iff in Hs as [Hs|[Hs _]%andb_true_iff].
    + rewrite all_digits_chars in Hs. revert Hs. apply all_chars_impl, digit_no_slash.
    + revert Hs. apply all_chars_impl, ckey_no_slash.
  - rewrite all_digits_chars in Hs. revert Hs. apply all_chars_impl, digit_no_slash.
Qed.

Definition lit_free (seg : segment) : bool := match seg with Lit s => no_slash s | Cap _ _ => true end.

Lemma fill_no_slash segs : forallb lit_free segs = true → ∀ args subs, fill segs args = Some subs →
  Forall (λ s, no_slash s = true) subs.
Proof.
  induction segs as [|[s|c name] segs IH]; cbn; intros Hl args subs Hf.
  - destruct args; [|done]. by injection Hf as <-.
  - apply andb_true_iff in Hl as [Hs Hl]. destruct (fill segs args) eqn:E; [|done]. injection Hf as <-. constructor; [done|]. by eapply IH.
  - destruct args as [|a args]; [done|]. destruct (accepts c (to_url a)) eqn:Ha; [|done].
    destruct (fill segs args) eqn:E; [|done]. injection Hf as <-. constructor; [by eapply accepts_no_slash|]. by eapply IH.
Qed.

Lemma split_concat subs : subs ≠ [] → Forall (λ s, no_slash s = true) subs → split_on "/" (String.concat "/" subs) = subs.
Proof.
  intros Hn. induction 1 as [|s subs Hs Hsubs IH]; [done|]. destruct subs as [|s' subs]; [by apply split_on_last|].
  change (String.concat "/" (s :: s' :: subs)) with (s ++ String "/" (String.concat "/" (s' :: subs)))%string.
  rewrite split_on_app by done. by rewrite IH.
Qed.

Lemma fill_matches segs args subs : typed_args segs args → fill segs args = Some subs →
  match_segs segs subs = Some (bind_args segs args).
Proof.
  revert args subs. induction segs as [|[s|c name] segs IH]; cbn; intros args subs Ht Hf.
  - destruct args; [|done]. by injection Hf as <-.
  - destruct (fill segs args) eqn:E; [|done]. injection Hf as <-. cbn. rewrite String.eqb_refl. by apply IH.
  - destruct args as [|a args]; [by destruct c|]. destruct (accepts c (to_url a)) eqn:Ha; [|done].
    destruct (fill segs args) eqn:E; [|done]. injection Hf as <-. cbn. rewrite Ha.
    assert (Ht' : typed_args segs args ∧ to_python c (to_url a) = a).
    { destruct c, a; cbn in *; try done. destruct Ht as [Hz Ht]. split; [done|]. by rewrite digits_pretty. }
    destruct Ht' as [Ht' ->]. by rewrite (IH args l).
Qed.

(** Whether a segment of a route matches a segment of a path. *)
Definition seg_matches (a : segment) (p : string) : bool :=
  match a with Lit s => String.eqb s p | Cap c _ => accepts c p end.

Lemma match_segs_cons a segs p path : is_Some (match_segs (a :: segs) (p :: path)) ↔
  seg_matches a p = true ∧ is_Some (match_segs segs path).
Proof.
  destruct a as [s|c n]; cbn.
  - destruct (String.eqb s p); [tauto|]. split; [by intros []|naive_solver].
  - destruct (accepts c p); [|split; [by intros []|naive_solver]]. rewrite fmap_is_Some. tauto.
Qed.

Lemma match_prefix_cons a segs p path : is_Some (match_prefix (a :: segs) (p :: path)) ↔
  seg_matches a p = true ∧ is_Some (match_prefix segs path).
Proof.
  destruct a as [s|c n]; cbn.
  - destruct (String.eqb s p); [tauto|]. split; [by intros []|naive_solver].
  - destruct (accepts c p); [|split; [by intros []|naive_solver]]. rewrite fmap_is_Some. tauto.
Qed.

(** *** Routes that take urls of later ones *)

(** What the url of a later route needs to be taken by an earlier one, argument by argument: anything, one
    word, or a text the converter of the earlier route accepts. *)
Inductive wanted := Any | Word (w : string) | Shape (c : converter).

#[export] Instance wanted_eq_dec : EqDecision wanted.
Proof. solve_decision. Defined.

Definition fits_one (w : wanted) (a : arg) : bool :=
  match w with Any => true | Word w => String.eqb w (to_url a) | Shape c => accepts c (to_url a) end.

Fixpoint fits (ws : list wanted) (args : list arg) : bool :=
  match ws, args with
  | [], [] => true
  | w :: ws, a :: args => fits_one w a && fits ws args
  | _, _ => false
  end.

(** The converter [c] accepts all that [c'] makes. *)
Definition subsumes (c c' : converter) : bool := bool_decide (c = c') || bool_decide (c = Str).

(** [None] when the earlier route takes no url of the later one. *)
Fixpoint overlap (earlier later : list segment) : option (list wanted) :=
  match earlier, later with
  | [], [] => Some []
  | Lit a :: earlier, Lit b :: later => if String.eqb a b then overlap earlier later else None
  | Lit a :: earlier, Cap c _ :: later => if accepts c a then cons (Word a) <$> overlap earlier later else None
  | Cap c _ :: earlier, Lit b :: later => if accepts c b then overlap earlier later else None
  | Cap c _ :: earlier, Cap c' _ :: later =>
      cons (if subsumes c c' then Any else Shape c) <$> overlap earlier later
  | _, _ => None
  end.

(** A prefix that may match the url of a later route. *)
Fixpoint overlap_prefix (earlier later : list segment) : bool :=
  match earlier, later with
  | [], _ => true
  | Lit a :: earlier, Lit b :: later => String.eqb a b && overlap_prefix earlier later
  | Lit a :: earlier, Cap c _ :: later => accepts c a && overlap_prefix earlier later
  | Cap c _ :: earlier, Lit b :: later => accepts c b && overlap_prefix earlier later
  | Cap _ _ :: earlier, Cap _ _ :: later => overlap_prefix earlier later
  | _, _ => false
  end.

Lemma subsumes_accepts c c' s : subsumes c c' = true → accepts c' s = true → accepts c s = true.
Proof.
  unfold subsumes. rewrite orb_true_iff, !bool_decide_eq_true. intros [->| ->]; [done|]. intros Ha.
  pose proof (accepts_no_slash _ _ Ha) as Hs. unfold accepts in *. apply andb_true_iff in Ha as [-> _]. done.
Qed.

Lemma typed_tail c name segs a args : typed_args (Cap c name :: segs) (a :: args) → typed_args segs args.
Proof. destruct c, a; cbn; tauto. Qed.

(** One argument: an earlier segment matches it exactly when it is what [overlap] wants. *)
Lemma overlap_one earlier later c name a subs args : accepts c (to_url a) = true →
  (is_Some (match_segs earlier subs) ↔ ∃ ws, overlap earlier later = Some ws ∧ fits ws args = true) →
  ∀ x, is_Some (match_segs (x :: earlier) (to_url a :: subs)) ↔
    ∃ ws, overlap (x :: earlier) (Cap c name :: later) = Some ws ∧ fits ws (a :: args) = true.
Proof.
  intros Ha IH x. rewrite match_segs_cons, IH. destruct x as [w|c' n']; cbn [seg_matches overlap].
  - destruct (accepts c w) eqn:Ew.
    + split; [intros [Hw (ws & -> & Hf)]; exists (Word w :: ws); cbn; by rewrite Hw, Hf|].
      destruct (overlap earlier later) as [ws|]; [|by intros (? & [=] & _)].
      intros (? & [= <-] & Hf). cbn in Hf. apply andb_true_iff in Hf as [Hw Hf]. eauto.
    + split; [|by intros (? & [=] & _)]. intros [->%String.eqb_eq _]. congruence.
  - assert (Hone : fits_one (if subsumes c' c then Any else Shape c') a = accepts c' (to_url a)).
    { destruct (subsumes c' c) eqn:Es; [|done]. cbn. symmetry. by eapply subsumes_accepts. }
    destruct (overlap earlier later) as [ws|].
    + cbn [fmap option_fmap option_map]. split.
      * intros [Hc (ws' & [= <-] & Hf)]. eexists. split; [done|]. cbn [fits]. by rewrite Hone, Hc, Hf.
      * intros (? & [= <-] & Hf). cbn [fits] in Hf. rewrite Hone in Hf. apply andb_true_iff in Hf as [Hc Hf]. eauto.
    + split; [by intros [_ (? & [=] & _)]|by intros (? & [=] & _)].
Qed.

Lemma overlap_spec later : ∀ earlier args subs, typed_args later args → fill later args = Some subs →
  is_Some (match_segs earlier subs) ↔ ∃ ws, overlap earlier later = Some ws ∧ fits ws args = true.
Proof.
  induction later as [|[t|c name] later IH]; cbn [typed_args fill]; intros earlier args subs Ht Hf.
  - destruct args; [|done]. injection Hf as <-. destruct earlier as [|[] earlier]; cbn; [|split; [by intros []|by intros (? & [=] & _)]..].
    split; intros _; [by exists []|by exists []].
  - destruct (fill later args) as [subs'|] eqn:E; [|done]. injection Hf as <-.
    destruct earlier as [|x earlier]; [by split; [intros []|intros (? & [=] & _)]|].
    rewrite match_segs_cons, (IH earlier args subs' Ht E). destruct x as [w|c n]; cbn [seg_matches overlap].
    + destruct (String.eqb w t); [tauto|]. split; [by intros [[=] _]|by intros (? & [=] & _)].
    + destruct (accepts c t); [tauto|]. split; [by intros [[=] _]|by intros (? & [=] & _)].
  - destruct args as [|a args]; [done|]. apply (typed_tail c name) in Ht.
    destruct (accepts c (to_url a)) eqn:Ha; [|done]. destruct (fill later args) as [subs'|] eqn:E; [|done]. injection Hf as <-.
    destruct earlier as [|x earlier]; [by split; [intros []|intros (? & [=] & _)]|].
    apply overlap_one; [done|]. by apply IH.
Qed.

Lemma overlap_prefix_spec later : ∀ earlier args subs, fill later args = Some subs →
  overlap_prefix earlier later = false → match_prefix earlier subs = None.
Proof.
  induction later as [|[t|c name] later IH]; cbn [fill]; intros earlier args subs Hf Hno.
  - destruct args; [|done]. injection Hf as <-. by destruct earlier as [|[] earlier].
  - destruct (fill later args) as [subs'|] eqn:E; [|done]. injection Hf as <-.
    destruct earlier as [|[w|c n] earlier]; cbn in Hno |- *; [done|..]; apply andb_false_iff in Hno as [->|Hno]; try done.
    + destruct (String.eqb w t); [by eapply IH|done].
    + destruct (accepts c t); [|done]. by rewrite (IH earlier args subs' E Hno).
  - destruct args as [|a args]; [done|].
    destruct (accepts c (to_url a)) eqn:Ha; [|done]. destruct (fill later args) as [subs'|] eqn:E; [|done]. injection Hf as <-.
    destruct earlier as [|[w|c' n] earlier]; cbn in Hno |- *; [done|..].
    + destruct (String.eqb_spec w (to_url a)) as [->|]; [|done]. rewrite Ha in Hno. by eapply IH.
    + destruct (accepts c' (to_url a)); [|done]. by rewrite (IH earlier args subs' E Hno).
Qed.

(** ** The tables of the project: correctness *)

Definition literal (seg : segment) : option string := match seg with Lit s => Some s | Cap _ _ => None end.

(** The routes behind an earlier one. *)
Definition unreachable : list string :=
  ["accounts:kyorugi-list"; "competitions:seminars-sidebar"; "competitions:poomsae-coach-eligible-students-publicid-alias";
   "accounts_pendingeditprofile_approve"]%string.

Definition dead (e : entry) : bool :=
  match e.2 with TView _ name => bool_decide (name ∈ unreachable) | TApp _ => true end.

Definition route_named (name : string) : option entry := head (List.filter (is_named name) (table root_urls)).

(** The entries before the one with a name. *)
Fixpoint before_named (name : string) (l : list entry) : list entry :=
  match l with
  | [] => []
  | e :: l => if is_named name e then [] else e :: before_named name l
  end.

(** What the routes before a later one want from its urls; [None] is a table of another package that may
    match some of them. *)
Definition wants (later : list segment) (l : list entry) : option (list (list wanted)) :=
  foldr (λ i acc, match acc, i.2 with
                  | None, _ => None
                  | Some acc, TView _ _ => Some (option_list (overlap i.1 later) ++ acc)
                  | Some acc, TApp _ => if overlap_prefix i.1 later then None else Some acc
                  end) (Some []) l.

(** The urls that earlier routes take: three routes lose all theirs, five lose one or a few words. *)
Definition taken_urls : list (string * list wanted) :=
  [ ("accounts:kyorugi-list", []);
    ("competitions:seminars-sidebar", []);
    ("competitions:terms-generic", [Word "kyorugi"]);
    ("competitions:terms-generic", [Word "by-public"]);
    ("competitions:terms-generic", [Word "seminars"]);
    ("competitions:poomsae-detail", [Word "terms"]);
    ("competitions:poomsae-detail-compat", [Word "results"]);
    ("competitions:competition-detail-any", [Word "seminars"]);
    ("competitions:competition-detail-any-compat", [Word "terms"]);
    ("competitions:poomsae-coach-eligible-students-publicid-alias", [Any]) ]%string.

Definition taken_from (name : string) : list (list wanted) :=
  snd <$> List.filter (λ nw, String.eqb nw.1 name) taken_urls.

(** An earlier route takes the url of these arguments. *)
Definition url_taken (name : string) (args : list arg) : bool := existsb (λ ws, fits ws args) (taken_from name).

(** The one route that stands behind the table of the admin site. *)
Definition behind_admin : string := "accounts_pendingeditprofile_approve".

Definition wants_checked (e : entry) : bool :=
  match e.2 with
  | TView _ name =>
      String.eqb name behind_admin ||
      match route_named name with
      | Some e' => bool_decide (wants e'.1 (before_named name (table root_urls)) = Some (taken_from name))
      | None => false
      end
  | TApp _ => true
  end.

Lemma root_wants : forallb wants_checked (table root_urls) = true.
Proof. vm_compute. reflexivity. Qed.

Lemma root_lit_free : forallb (λ e : entry, forallb lit_free e.1) (table root_urls) = true.
Proof. vm_compute. reflexivity. Qed.

Lemma table_proper urls e : e ∈ table urls → proper_entry e.
Proof. intros He. apply list_elem_of_In, in_flat_map in He as (p & _ & He). by apply (flatten_proper p), list_elem_of_In. Qed.

Lemma fill_nonempty segs args subs : segs ≠ [] → fill segs args = Some subs → subs ≠ [].
Proof.
  destruct segs as [|[s|c n] segs]; cbn; [done| |].
  - intros _. by destruct (fill segs args); intros [= <-].
  - intros _. destruct args as [|a args]; [done|]. destruct (accepts c (to_url a)); [|done].
    by destruct (fill segs args); intros [= <-].
Qed.

Lemma route_named_spec name e : route_named name = Some e → ∃ view, e ∈ table root_urls ∧ e.2 = TView view name.
Proof.
  unfold route_named. intros He%head_Some_elem_of. apply elem_of_filter_list in He as [Hin Hn]. unfold is_named in Hn.
  destruct e.2 as [v n|a] eqn:E2; [|done]. apply String.eqb_eq in Hn as ->. by exists v.
Qed.

Lemma before_named_spec name l e : head (List.filter (is_named name) l) = Some e →
  (∃ post, l = before_named name l ++ e :: post) ∧ ∀ i, i ∈ before_named name l → is_named name i = false.
Proof.
  induction l as [|x l IH]; [done|]. cbn. destruct (is_named name x) eqn:Ex; cbn.
  - intros [= ->]. split; [by exists l|]. by intros i ?%not_elem_of_nil.
  - intros He. destruct (IH He) as [[post Hl] Hi]. split; [exists post; by f_equal|].
    intros i [->|?]%elem_of_cons; [done|by apply Hi].
Qed.

Lemma route_wants name segs view : route_named name = Some (segs, TView view name) → name ≠ behind_admin →
  wants segs (before_named name (table root_urls)) = Some (taken_from name).
Proof.
  intros Hr Hn. pose proof (route_named_spec _ _ Hr) as (v & Hin & _). pose proof root_wants as Hall.
  rewrite forallb_forall in Hall. specialize (Hall _ (proj1 (list_elem_of_In _ _) Hin)). unfold wants_checked in Hall.
  cbn [snd fst] in Hall. rewrite Hr in Hall. apply orb_true_iff in Hall as [Hb%String.eqb_eq|Hb]; [done|].
  by apply bool_decide_eq_true in Hb.
Qed.

(** Which of the earlier entries match the url of a later one. *)
Lemma wants_spec app_matches segs args subs l pats : typed_args segs args → fill segs args = Some subs →
  wants segs l = Some pats →
  (∀ i a, i ∈ l → i.2 = TApp a → resolve_entry app_matches subs i = None) ∧
  ((∃ i, i ∈ l ∧ is_Some (resolve_entry app_matches subs i)) ↔ existsb (λ ws, fits ws args) pats = true).
Proof.
  intros Ht Hf. revert pats. induction l as [|x l IH]; intros pats; cbn [wants foldr].
  { intros [= <-]. split; [by intros i a ?%not_elem_of_nil|]. split; [by intros (i & ?%not_elem_of_nil & _)|done]. }
  fold (wants segs l). destruct (wants segs l) as [acc|]; [|done]. destruct (IH acc eq_refl) as [IH1 IH2].
  destruct x as [xs [v n|a]]; cbn [snd fst].
  - intros [= <-]. split.
    { intros i b [->|Hi]%elem_of_cons; [done|by apply IH1]. }
    rewrite existsb_app, orb_true_iff, <- IH2.
    assert (Hx : is_Some (resolve_entry app_matches subs (xs, TView v n)) ↔
      existsb (λ ws, fits ws args) (option_list (overlap xs segs)) = true).
    { unfold resolve_entry. cbn. rewrite fmap_is_Some, (overlap_spec segs xs args subs Ht Hf).
      destruct (overlap xs segs) as [ws|]; cbn; [|split; [by intros (? & [=] & _)|done]].
      rewrite orb_false_r. naive_solver. }
    rewrite <- Hx. setoid_rewrite elem_of_cons. naive_solver.
  - destruct (overlap_prefix xs segs) eqn:Eo; [done|]. intros [= <-].
    assert (Hx : resolve_entry app_matches subs (xs, TApp a) = None).
    { unfold resolve_entry. cbn. by rewrite (overlap_prefix_spec segs xs args subs Hf Eo). }
    split; [intros i b [->|Hi]%elem_of_cons; [done|by eapply IH1]|].
    rewrite <- IH2. setoid_rewrite elem_of_cons. split; [|naive_solver].
    intros (i & [->|Hi] & Hs); [rewrite Hx in Hs; by destruct Hs|eauto].
Qed.

Lemma first_some_found {A B} (f : A → option B) l : (∃ x, x ∈ l ∧ is_Some (f x)) →
  ∃ x b, x ∈ l ∧ f x = Some b ∧ first_some f l = Some b.
Proof.
  induction l as [|x l IH]; intros (y & Hy & Hs); [by apply not_elem_of_nil in Hy|]. cbn.
  destruct (f x) as [b|] eqn:Ex; [exists x, b; split_and!; [left|done..]|].
  destruct IH as (z & b & Hz & Hb & Hf).
  { exists y. split; [|done]. apply elem_of_cons in Hy as [->|Hy]; [|done]. rewrite Ex in Hs. by destruct Hs. }
  exists z, b. split_and!; [by right|done..].
Qed.

(** The url of a route: taken by an earlier one with another name, or resolved to it. *)
Lemma route_resolves app_matches name args segs view subs :
  route_named name = Some (segs, TView view name) → name ≠ behind_admin → typed_args segs args →
  fill segs args = Some subs →
  if url_taken name args then
    ∃ view' name' kwargs, resolve app_matches root_urls (String.concat "/" subs) = Some (ToView view' name' kwargs) ∧ name' ≠ name
  else resolve app_matches root_urls (String.concat "/" subs) = Some (ToView view name (bind_args segs args)).
Proof.
  intros Hr Hn Ht Hf. pose proof (route_wants name segs view Hr Hn) as Hw.
  pose proof (route_named_spec _ _ Hr) as (v & Hin & Hv). cbn in Hv.
  rewrite resolve_flat.
  assert (Hsubs : subs ≠ []). { eapply fill_nonempty; [|done]. exact (table_proper _ _ Hin). }
  assert (Hns : Forall (λ s, no_slash s = true) subs).
  { eapply fill_no_slash; [|done]. pose proof root_lit_free as Hl. rewrite forallb_forall in Hl.
    exact (Hl (segs, TView view name) (proj1 (list_elem_of_In _ _) Hin)). }
  rewrite split_concat by done.
  destruct (before_named_spec name (table root_urls) (segs, TView view name) Hr) as [[post Hsplit] Hnames].
  destruct (wants_spec app_matches segs args subs _ _ Ht Hf Hw) as [Happ Hiff]. fold (url_taken name args) in Hiff.
  rewrite Hsplit, first_some_app. generalize dependent (before_named name (table root_urls)). intros pre Hw _ Hnames Happ Hiff.
  destruct (url_taken name args).
  - destruct (first_some_found (resolve_entry app_matches subs) pre) as (i & r & Hi & Hres & ->); [by apply Hiff|].
    destruct i as [isegs [v' n'|a]]; [|by rewrite (Happ _ a Hi) in Hres].
    unfold resolve_entry in Hres. cbn in Hres. destruct (match_segs isegs subs) as [kw|]; [|done]. injection Hres as <-.
    exists v', n', kw. split; [done|]. intros ->. specialize (Hnames _ Hi). unfold is_named in Hnames. cbn in Hnames.
    by rewrite String.eqb_refl in Hnames.
  - rewrite (first_some_never _ pre).
    + cbn [first_some]. unfold resolve_entry at 1. cbn [fst snd]. by rewrite (fill_matches segs args subs Ht Hf).
    + intros i Hi. destruct (resolve_entry app_matches subs i) as [r|] eqn:E; [|done].
      assert (false = true) as [=]. apply Hiff. exists i. by rewrite E.
Qed.

(** C29: Reverse and resolve. The url made from the name of a route and arguments of the kinds it takes leads
    back to the view of that route with these arguments, whatever the tables of other packages match, unless
    an earlier route takes it; and [taken_urls] says exactly when that happens. Three routes
    always lose their urls: the list of competitions of the accounts, the sidebar of the seminars and the second name of the poomsae
    students. Five more lose the urls of one word each, or of three: the terms of a competition with the key
    "seminars", for one. All other routes, the dashboards of all roles and the exports of all kinds among them,
    lose none. Only the old approval of edited profiles, behind the table of the admin site, is left out. *)
Theorem reverse_resolves app_matches name args segs view path :
  route_named name = Some (segs, TView view name) → name ≠ behind_admin → typed_args segs args →
  reverse root_urls name args = Some path →
  if url_taken name args then
    ∃ view' name' kwargs, resolve app_matches root_urls path = Some (ToView view' name' kwargs) ∧ name' ≠ name
  else resolve app_matches root_urls path = Some (ToView view name (bind_args segs args)).
Proof.
  intros Hr Hn Ht. unfold reverse. fold (route_named name). rewrite Hr. cbn.
  destruct (fill segs args) as [subs|] eqn:Hf; [|done]. intros [= <-]. by apply route_resolves.
Qed.

(** *** Routes behind others *)

Definition covers_seg (a b : segment) : bool :=
  match a, b with
  | Lit s, Lit t => String.eqb s t
  | Cap c _, Lit t => accepts c t
  | Cap c _, Cap c' _ => subsumes c c'
  | Lit _, Cap _ _ => false
  end.

Fixpoint covers_segs (a b : list segment) : bool :=
  match a, b with
  | [], [] => true
  | x :: a, y :: b => covers_seg x y && covers_segs a b
  | _, _ => false
  end.

Fixpoint covers_prefix (a b : list segment) : bool :=
  match a, b with
  | [], _ :: _ => true
  | x :: a, y :: b => covers_seg x y && covers_prefix a b
  | _, _ => false
  end.

Lemma covers_seg_spec a b p : covers_seg a b = true → seg_matches b p = true → seg_matches a p = true.
Proof.
  destruct a as [s|c n], b as [t|c' n']; cbn; [|done| |].
  - by intros ->%String.eqb_eq.
  - by intros Ha <-%String.eqb_eq.
  - apply subsumes_accepts.
Qed.

Lemma covers_segs_spec a b path : covers_segs a b = true → is_Some (match_segs b path) → is_Some (match_segs a path).
Proof.
  revert b path. induction a as [|x a IH]; intros [|y b] path; cbn [covers_segs]; try done.
  intros [Hx Ha]%andb_true_iff. destruct path as [|p path]; [by destruct y; intros []|].
  rewrite !match_segs_cons. intros [Hy Hb]. split; [by eapply covers_seg_spec|by eapply IH].
Qed.

Lemma covers_prefix_spec a b path : covers_prefix a b = true → is_Some (match_segs b path) → is_Some (match_prefix a path).
Proof.
  revert b path. induction a as [|x a IH]; intros [|y b] path; cbn [covers_prefix]; try done.
  - intros _. destruct path as [|p path]; [by destruct y; intros []|]. intros _. by eexists.
  - intros [Hx Ha]%andb_true_iff. destruct path as [|p path]; [by destruct y; intros []|].
    rewrite match_segs_cons, match_prefix_cons. intros [Hy Hb]. split; [by eapply covers_seg_spec|by eapply IH].
Qed.

Section reachability.
Context (app_matches : string → list string → bool) (admin_catches_all : ∀ rest, app_matches "admin" rest = true).

(** An earlier entry that takes every path of a later one. *)
Definition takes (earlier later : entry) : bool :=
  match earlier.2 with
  | TView _ _ => covers_segs earlier.1 later.1
  | TApp app => String.eqb app "admin" && covers_prefix earlier.1 later.1
  end.

Lemma takes_spec earlier segs view name path : takes earlier (segs, TView view name) = true →
  is_Some (resolve_entry app_matches path (segs, TView view name)) → is_Some (resolve_entry app_matches path earlier).
Proof.
  unfold takes, resolve_entry. cbn. rewrite fmap_is_Some. destruct earlier.2 as [v n|app].
  - rewrite fmap_is_Some. apply covers_segs_spec.
  - intros [->%String.eqb_eq Hc]%andb_true_iff Hs. destruct (covers_prefix_spec _ _ _ Hc Hs) as [[kw rest] ->].
    unfold to_app. rewrite admin_catches_all. by eexists.
Qed.

(** Dead entries stand behind one that takes their paths. *)
Fixpoint taken (before l : list entry) : bool :=
  match l with
  | [] => true
  | e :: l => (match e.2 with TApp _ => true | TView _ _ => negb (dead e) || existsb (λ i, takes i e) before end)
              && taken (e :: before) l
  end.

Lemma root_taken : taken [] (table root_urls) = true.
Proof. vm_compute. reflexivity. Qed.

Lemma first_some_taken path l : ∀ before, taken before l = true →
  (∀ i, i ∈ before → resolve_entry app_matches path i = None) →
  ∀ view name kw, first_some (resolve_entry app_matches path) l = Some (ToView view name kw) → name ∉ unreachable.
Proof.
  induction l as [|e l IH]; intros before; cbn [taken first_some]; [done|].
  intros [He Hl]%andb_true_iff Hbefore view name kw. destruct (resolve_entry app_matches path e) as [r|] eqn:Er.
  - intros [= ->]. destruct e as [segs [v n|app]].
    + assert (n = name) as ->. { unfold resolve_entry in Er. cbn in Er. by destruct (match_segs segs path); simplify_eq/=. }
      apply orb_true_iff in He as [He|He].
      * apply negb_true_iff in He. cbn in He. by apply bool_decide_eq_false in He.
      * apply existsb_exists in He as (i & Hi & Ht). apply list_elem_of_In in Hi.
        destruct (takes_spec i segs v name path Ht (ex_intro _ _ Er)) as [? Hs]. by rewrite Hbefore in Hs.
    + unfold resolve_entry, to_app in Er. cbn in Er. destruct (match_prefix segs path) as [[kw' rest]|]; [|done].
      by destruct (app_matches app rest).
  - apply (IH (e :: before)); [done|]. intros i [->|Hi]%elem_of_cons; [done|]. by apply Hbefore.
Qed.

Lemma resolved_not_unreachable path view name kw :
  resolve app_matches root_urls path = Some (ToView view name kw) → name ∉ unreachable.
Proof.
  rewrite resolve_flat. apply (first_some_taken _ _ []); [exact root_taken|]. intros i Hi. by apply not_elem_of_nil in Hi.
Qed.

(** Arguments for every route. *)
Definition sample_args (segs : list segment) : list arg :=
  omap (λ seg, match seg with Lit _ => None | Cap IntC _ => Some (AInt 1) | Cap _ _ => Some (AText "x1") end) segs.

Lemma samples_typed segs : typed_args segs (sample_args segs).
Proof. induction segs as [|[s|[] n] segs IH]; cbn; done || split; done || lia. Qed.

Definition sampled (e : entry) : bool :=
  match e.2 with
  | TView _ name => negb (is_none (fill e.1 (sample_args e.1))) &&
                    (bool_decide (name ∈ unreachable) || negb (String.eqb name behind_admin) && negb (url_taken name (sample_args e.1)))
  | TApp _ => true
  end.

Lemma samples_fill : forallb sampled (table root_urls) = true.
Proof. vm_compute. reflexivity. Qed.

(** What can be reached. With an admin site that takes every path below its prefix, a named route is what
    some path resolves to exactly when it is none of the four behind an earlier route: the sidebar of the
    seminars, the list of competitions of the accounts, the second name of the poomsae students and the
    old approval of edited profiles. *)
Theorem reachable_routes name : is_Some (route_named name) →
  (∃ path view kwargs, resolve app_matches root_urls path = Some (ToView view name kwargs)) ↔ name ∉ unreachable.
Proof.
  intros [[segs t] Hr]. split.
  - intros (path & view & kw & Hres). by eapply resolved_not_unreachable.
  - intros Hn. destruct (route_named_spec _ _ Hr) as (view & Hin & Ht). cbn in Ht. subst t.
    pose proof samples_fill as Hs. rewrite forallb_forall in Hs. specialize (Hs _ (proj1 (list_elem_of_In _ _) Hin)).
    unfold sampled in Hs. cbn [fst snd] in Hs. destruct (fill segs (sample_args segs)) as [subs|] eqn:Hf; [|done].
    apply andb_true_iff in Hs as [_ [Hs%bool_decide_eq_true|[Hb Hs]%andb_true_iff]%orb_true_iff]; [done|].
    apply negb_true_iff, String.eqb_neq in Hb. apply negb_true_iff in Hs.
    pose proof (route_resolves app_matches name (sample_args segs) segs view subs Hr Hb (samples_typed segs) Hf) as Hres.
    rewrite Hs in Hres. eauto.
Qed.
End reachability.

(** ** Witnesses and examples *)

(** The sidebar the site asks for is the page of a seminar with the key [sidebar]. *)
Example sidebar_is_a_seminar app_matches :
  resolve app_matches root_urls "api/competitions/seminars/sidebar/" =
    Some (ToView "SeminarDetailView" "competitions:seminar-detail" [("key", AText "sidebar")])%string.
Proof. vm_compute. reflexivity. Qed.

(** The list of competitions of the accounts is a dashboard with the role [kyorugi]. *)
Example kyorugi_list_is_a_dashboard app_matches :
  resolve app_matches root_urls "api/auth/dashboard/kyorugi/" =
    Some (ToView "DashboardCombinedView" "accounts:dashboard-combined" [("role", AText "kyorugi")])%string.
Proof. vm_compute. reflexivity. Qed.

(** The name the tests of the payments ask for is no name of the table. *)
Example start_is_no_name args : reverse root_urls "payments:start" args = None.
Proof. vm_compute. reflexivity. Qed.

Lemma reverse_resolves_witness :
  resolve (λ _ _, true) root_urls "admin/reports/export/users/" =
    Some (ToView "export_csv" "reports:export_csv" [("kind", AText "users")])%string ∧
  resolve (λ _ _, true) root_urls "api/auth/dashboard/coach/" =
    Some (ToView "DashboardCombinedView" "accounts:dashboard-combined" [("role", AText "coach")])%string ∧
  ∃ view' name' kwargs, resolve (λ _ _, true) root_urls "api/competitions/seminars/" = Some (ToView view' name' kwargs) ∧
    name' ≠ "competitions:competition-detail-any"%string.
Proof.
  split; [|split].
  - apply (reverse_resolves (λ _ _, true) "reports:export_csv" [AText "users"]
      [Lit "admin"; Lit "reports"; Lit "export"; Cap Str "kind"; Lit ""] "export_csv");
      [vm_compute; reflexivity|discriminate|exact I|vm_compute; reflexivity].
  - apply (reverse_resolves (λ _ _, true) "accounts:dashboard-combined" [AText "coach"]
      [Lit "api"; Lit "auth"; Lit "dashboard"; Cap Str "role"; Lit ""] "DashboardCombinedView");
      [vm_compute; reflexivity|discriminate|exact I|vm_compute; reflexivity].
  - apply (reverse_resolves (λ _ _, true) "competitions:competition-detail-any" [AText "seminars"]
      [Lit "api"; Lit "competitions"; Cap CKey "key"; Lit ""] "CompetitionDetailAnyView");
      [vm_compute; reflexivity|discriminate|exact I|vm_compute; reflexivity].
Defined.

Lemma reachable_routes_witness :
  ¬ ∃ path view kwargs, resolve (λ _ _, true) root_urls path = Some (ToView view "competitions:seminars-sidebar" kwargs).
Proof.
  intros Hex. apply (reachable_routes (λ _ _, true) (λ _, eq_refl) "competitions:seminars-sidebar") in Hex.
  - revert Hex. refine (bool_decide_eq_true_1 _ _). vm_compute. reflexivity.
  - eexists. vm_compute. reflexivity.
Defined.
