(* ===== verification/Query.v ===== *)
(** Query strings: [urllib.parse.urlencode] as the redirects use it, and the query of a request as the
    framework reads it ([QueryDict]: [parse_qsl] with blank values kept, [get] with the last value).

    A text is its bytes in UTF-8. What is left out: the replacement of bytes that are no UTF-8. *)

From Stdlib Require Import Ascii.
From S2P Require Import Prelude Accounts Payments Text.
Local Open Scope Z_scope.

(** ** Quoting *)

Definition code (c : ascii) : Z := Z.of_nat (nat_of_ascii c).
Definition of_code (n : Z) : ascii := ascii_of_nat (Z.to_nat n).
Definition between (lo hi n : Z) : bool := (lo <=? n) && (n <=? hi).

(** The characters [quote] leaves alone: letters, digits and [_.-~]. *)
Definition unreserved_char (c : ascii) : bool :=
  let n := code c in
  between 48 57 n || between 65 90 n || between 97 122 n || bool_decide (n ∈ [95; 46; 45; 126]).

(** Upper-case hexadecimal digits. *)
Definition hex_digit (n : Z) : ascii := of_code (if n <? 10 then 48 + n else 55 + n).

Definition hex_value (c : ascii) : option Z :=
  let n := code c in
  if between 48 57 n then Some (n - 48)
  else if between 65 70 n then Some (n - 55)
  else if between 97 102 n then Some (n - 87)
  else None.

Definition percent (c : ascii) (rest : string) : string :=
  String "%" (String (hex_digit (code c / 16)) (String (hex_digit (code c mod 16)) rest)).

Definition quote_char (c : ascii) (rest : string) : string :=
  if unreserved_char c then String c rest
  else if Ascii.eqb c " " then String "+" rest
  else percent c rest.

Fixpoint quote_plus (s : string) : string :=
  match s with EmptyString => EmptyString | String c s => quote_char c (quote_plus s) end.

(** [urlencode] of a dict of texts, in the order of its keys. *)
Definition encode_pair (kv : string * string) : string := (quote_plus kv.1 ++ String "=" (quote_plus kv.2))%string.
Definition urlencode (params : list (string * string)) : string := String.concat "&" (encode_pair <$> params).

(** ** Reading *)

(** A [%] that no two hexadecimal digits follow stands for itself. *)
Fixpoint unquote (s : string) : string :=
  match s with
  | EmptyString => EmptyString
  | String c s' =>
      let plain := String c (unquote s') in
      if Ascii.eqb c "%" then
        match s' with
        | String a (String b rest) =>
            match hex_value a, hex_value b with
            | Some x, Some y => String (of_code (16 * x + y)) (unquote rest)
            | _, _ => plain
            end
        | _ => plain
        end
      else plain
  end.

Definition unquote_plus (s : string) : string := unquote (map_chars (λ c, if Ascii.eqb c "+" then " "%char else c) s).

(** [s.split("=", 1)] *)
Fixpoint partition (sep : ascii) (s : string) : string * string :=
  match s with
  | EmptyString => (EmptyString, EmptyString)
  | String c s => if Ascii.eqb c sep then (EmptyString, s) else let kv := partition sep s in (String c kv.1, kv.2)
  end.

Definition parse_pair (s : string) : string * string :=
  let kv := partition "=" s in (unquote_plus kv.1, unquote_plus kv.2).

Definition parse_qsl (s : string) : list (string * string) :=
  parse_pair <$> List.filter truthy_str (split_on "&" s).

(** [request.GET.get(key)], [None] as the empty text; [key in request.GET]. *)
Definition qd_get (query : list (string * string)) (key : string) : string :=
  default ""%string (snd <$> last (List.filter (λ kv, String.eqb kv.1 key) query)).
Definition qd_has (query : list (string * string)) (key : string) : bool :=
  existsb (λ kv : string * string, String.eqb kv.1 key) query.

(** A url as the browser asks for it: the path up to the first question mark, and the query. *)
Definition split_url (url : string) : string * string := partition "?" url.

(** ** Round trip *)

(** What [quote_plus] writes. *)
Definition quoted_char (c : ascii) : bool := unreserved_char c || Ascii.eqb c "+" || Ascii.eqb c "%".

Lemma quoted_not_separator c : quoted_char c = true →
  negb (Ascii.eqb c "&") = true ∧ negb (Ascii.eqb c "=") = true ∧ negb (Ascii.eqb c "?") = true.
Proof. destruct c as [[] [] [] [] [] [] [] []]; vm_compute; intuition congruence. Qed.

Lemma quote_char_quoted c rest : all_chars quoted_char (quote_char c rest) = all_chars quoted_char rest.
Proof. destruct c as [[] [] [] [] [] [] [] []]; reflexivity. Qed.

Lemma quote_plus_quoted s : all_chars quoted_char (quote_plus s) = true.
Proof. induction s as [|c s IH]; [done|]. cbn [quote_plus]. by rewrite quote_char_quoted. Qed.

Lemma quote_plus_without sep s : (∀ c, quoted_char c = true → negb (Ascii.eqb c sep) = true) →
  all_chars (λ c, negb (Ascii.eqb c sep)) (quote_plus s) = true.
Proof. intros Hsep. exact (all_chars_impl _ _ _ Hsep (quote_plus_quoted s)). Qed.

Lemma unquote_quote_char c rest : unquote_plus (quote_char c rest) = String c (unquote_plus rest).
Proof. unfold unquote_plus. destruct c as [[] [] [] [] [] [] [] []]; reflexivity. Qed.

Lemma unquote_plus_quote_plus s : unquote_plus (quote_plus s) = s.
Proof. induction s as [|c s IH]; [done|]. cbn [quote_plus]. by rewrite unquote_quote_char, IH. Qed.

Lemma partition_at sep s1 s2 : all_chars (λ c, negb (Ascii.eqb c sep)) s1 = true →
  partition sep (s1 ++ String sep s2) = (s1, s2).
Proof.
  induction s1 as [|c s1 IH]; intros Hs; [|change (String c s1 ++ String sep s2)%string with (String c (s1 ++ String sep s2)); cbn [partition all_chars] in *].
  - change (EmptyString ++ String sep s2)%string with (String sep s2). cbn [partition]. by rewrite Ascii.eqb_refl.
  - apply andb_true_iff in Hs as [Hc%negb_true_iff Hs]. by rewrite Hc, IH.
Qed.

Lemma partition_none sep s : all_chars (λ c, negb (Ascii.eqb c sep)) s = true → partition sep s = (s, EmptyString).
Proof.
  induction s as [|c s IH]; intros Hs; cbn [partition all_chars] in *; [done|].
  apply andb_true_iff in Hs as [Hc%negb_true_iff Hs]. by rewrite Hc, IH.
Qed.

Lemma parse_encode_pair kv : parse_pair (encode_pair kv) = kv.
Proof.
  unfold parse_pair, encode_pair. rewrite partition_at by (apply quote_plus_without; intros c Hc; apply quoted_not_separator, Hc).
  cbn [fst snd]. rewrite !unquote_plus_quote_plus. by destruct kv.
Qed.

Lemma encode_pair_truthy kv : truthy_str (encode_pair kv) = true.
Proof. unfold encode_pair. by destruct (quote_plus kv.1). Qed.

Lemma encode_pair_without_amp kv : all_chars (λ c, negb (Ascii.eqb c "&")) (encode_pair kv) = true.
Proof.
  unfold encode_pair. rewrite all_chars_app. cbn [all_chars].
  rewrite !quote_plus_without; [done|intros c Hc; apply quoted_not_separator, Hc..].
Qed.

Lemma split_amp l : l ≠ [] → Forall (λ s, all_chars (λ c, negb (Ascii.eqb c "&")) s = true) l →
  split_on "&" (String.concat "&" l) = l.
Proof.
  intros Hl. induction 1 as [|s l Hs Hrest IH]; [done|]. destruct l as [|s' l]; [by apply split_on_last|].
  change (String.concat "&" (s :: s' :: l)) with (s ++ String "&" (String.concat "&" (s' :: l)))%string.
  rewrite split_on_app by done. by rewrite IH.
Qed.

Lemma parse_pairs (l : list (string * string)) : parse_pair <$> (encode_pair <$> l) = l.
Proof. induction l as [|x l IH]; [done|]. by rewrite !fmap_cons, parse_encode_pair, IH. Qed.

Lemma pairs_truthy (l : list (string * string)) : List.filter truthy_str (encode_pair <$> l) = encode_pair <$> l.
Proof. induction l as [|x l IH]; [done|]. rewrite fmap_cons. cbn [List.filter]. by rewrite encode_pair_truthy, IH. Qed.

Lemma parse_urlencode params : parse_qsl (urlencode params) = params.
Proof.
  unfold parse_qsl, urlencode. destruct params as [|kv params]; [done|]. rewrite split_amp; [|done|].
  - by rewrite pairs_truthy, parse_pairs.
  - apply Forall_fmap, Forall_true. intros x. apply encode_pair_without_amp.
Qed.

Lemma split_url_urlencode path params : all_chars (λ c, negb (Ascii.eqb c "?")) path = true →
  split_url (path ++ String "?" (urlencode params)) = (path, urlencode params).
Proof. apply partition_at. Qed.
