(* ===== verification/BankReturn.v ===== *)
(** The way back from the bank ([bankgateways_callback_override], [SadadBankReturnView] and
    [go_to_bank_gateway_override] of [payments/views.py]), up to the page that settles the payment.

    The records of the gateway package are a list in its default order; the package itself (its adapter,
    the verification, the page that sends the browser to the bank) is a parameter. Answers name where the
    browser is sent. *)

From Stdlib Require Import Ascii.
From S2P Require Import Prelude Store Points Ranking Payments PaymentSpec Settlement GroupRegistration Text Routes Query.
Local Open Scope Z_scope.

(** ** Records of the package *)

Record bank_row := mkBankRow {
  br_bank : Bank;
  br_bank_type : string;
  br_amount : Z;
  br_callback_url : option string;
  br_created_at : Z;
}.

Definition br_id (b : bank_row) : Z := bk_id (br_bank b).
Definition br_tracking (b : bank_row) : string := bk_tracking_code (br_bank b).

Definition with_callback_url (url : string) (b : bank_row) : bank_row :=
  mkBankRow (br_bank b) (br_bank_type b) (br_amount b) (Some url) (br_created_at b).
Definition with_created_at (now : Z) (b : bank_row) : bank_row :=
  mkBankRow (br_bank b) (br_bank_type b) (br_amount b) (br_callback_url b) now.

(** [b.save(update_fields=...)]: the row with the id of [b]. *)
Definition update_row (id : Z) (f : bank_row → bank_row) (rows : list bank_row) : list bank_row :=
  (λ b, if br_id b =? id then f b else b) <$> rows.

(** [Bank.objects.filter(tracking_code=..).first()], as the page of the result looks it up. *)
Definition banks_of (rows : list bank_row) (tc : string) : option Bank :=
  br_bank <$> head (List.filter (λ b, String.eqb (br_tracking b) tc) rows).

(** ** The callback *)

(** [post.get(key)], the empty text when it is not there. *)
Definition posted (post : list (string * string)) (key : string) : string := qd_get post key.

(** [post.get(k1) or post.get(k2) or ""] *)
Definition first_given (post : list (string * string)) (keys : list string) : string :=
  default ""%string (head (List.filter truthy_str (posted post <$> keys))).

Definition posted_token (post : list (string * string)) : string := strip (first_given post ["token"; "Token"]).
Definition posted_order (post : list (string * string)) : string := strip (first_given post ["OrderId"; "orderId"; "OrderID"]).

Inductive bank_answer :=
  | PlainOk
  | RedirectTo (url : string)
  | ToPackage (query : list (string * string)).

Section callback.
Context (mentions : json → string → bool) (build_absolute_uri : string → option string)
  (verify : string → Z → list (string * string) → Z → M (list bank_row) unit).

(** The record of a callback: by order id, by token, then by either in the stored reply. *)
Definition find_bank (rows : list bank_row) (post : list (string * string)) : option bank_row :=
  let order_id := posted_order post in
  let token := posted_token post in
  let first given p := if truthy_str given then head (List.filter p rows) else None in
  head (omap id
    [ first order_id (λ b, String.eqb (br_tracking b) order_id);
      first token (λ b, bool_decide (bk_reference_number (br_bank b) = Some token));
      first order_id (λ b, mentions (bk_extra_information (br_bank b)) order_id);
      first token (λ b, mentions (bk_extra_information (br_bank b)) token) ]).

(** The page the browser is sent to, whatever the bank says. *)
Definition result_path (b : bank_row) : option string :=
  Routes.reverse root_urls "payments:payment_result_redirect" [AText (strip (br_tracking b))].

Definition result_url (b : bank_row) : string :=
  match result_path b ≫= λ p, build_absolute_uri ("/" ++ p)%string with
  | Some url => url
  | None => "https://api.chbtkd.ir/api/payments/result/" ++ strip (br_tracking b) ++ "/"
  end.

Fixpoint upper (s : string) : string :=
  match s with
  | EmptyString => EmptyString
  | String c s =>
      let n := nat_of_ascii c in
      String (if (97 <=? n)%nat && (n <=? 122)%nat then ascii_of_nat (n - 32) else c) (upper s)
  end.

(** [bankgateways_callback_override]: [bank_type] of the query or the path. Failures of the verification
    are logged; what it has written stays. *)
Definition bankgateways_callback_override (bank_type : string) (post : list (string * string))
    : M (list bank_row) bank_answer :=
  (rows <~ get ;;
   match find_bank rows post with
   | None => ret PlainOk
   | Some b =>
       let final_url := result_url b in
       _ <~ (if bool_decide (br_callback_url b = Some final_url) then ret tt
             else modify (update_row (br_id b) (with_callback_url final_url))) ;;
       let bt := upper (or_str (or_str (br_bank_type b) (strip bank_type)) "BMI") in
       _ <~ try_catch (verify bt (br_amount b) post (br_id b)) (λ _, ret tt) ;;
       ret (RedirectTo final_url)
   end)%monad.

(** [SadadBankReturnView]: the tracking code of the intent, or of the record its reference names. *)
Definition return_code (rows : list bank_row) (i : PaymentIntent) : string :=
  let tc := strip (pi_token i) in
  if truthy_str tc then tc
  else if truthy_str (pi_ref_id i) then
    match py_int (_to_en_digits (pi_ref_id i)) with
    | Some n => strip (default ""%string (br_tracking <$> head (List.filter (λ b, br_id b =? n) rows)))
    | None => ""
    end
  else "".

Definition _forward_to_pkg_callback {P} `{PointArith P} (d : DB P) (rows : list bank_row) (tracking_param public_id : string)
    : result bank_answer :=
  match find_intent d (λ i, String.eqb (pi_public_id i) public_id) with
  | None => Err Http404
  | Some (_, i) =>
      let tc := return_code rows i in
      if truthy_str tc then Ok (ToPackage [(tracking_param, tc)]) else Ok PlainOk
  end.
End callback.

(** ** To the bank *)

(** The adapter of the package, on the record it was given. *)
Record adapter := mkAdapter {
  ad_create : bank_row → string → result unit;               (* [factory.create] *)
  ad_has_token : bank_row → bool;
  ad_ready : Z → M (list bank_row) unit;                      (* [bank.ready()] *)
  ad_redirect : Z → list bank_row → result (option string);   (* [None] is an expired token *)
}.

Section gateway.
Context (ad : adapter) (default_callback : string).

(** The row is dated now and the package asks for a token. *)
Definition regenerate (id now : Z) : M (list bank_row) unit :=
  (_ <~ modify (update_row id (with_created_at now)) ;; ad_ready ad id)%monad.

Definition redirect_gateway (id : Z) : M (list bank_row) (option string) :=
  (rows <~ get ;; lift (ad_redirect ad id rows))%monad.

(** [go_to_bank_gateway_override] *)
Definition go_to_bank_gateway_override (query : list (string * string)) (now : Z) : M (list bank_row) bank_answer :=
  (if truthy_str (first_given query ["Token"; "token"]) && truthy_str (posted query "url") && truthy_str (posted query "method")
   then ret (ToPackage query)
   else
     let tc := first_given query ["tc"; "tracking_code"] in
     if negb (truthy_str tc) then raise Http404
     else
       rows <~ get ;;
       match List.filter (λ b, String.eqb (br_tracking b) tc) rows with
       | [] => raise Http404
       | [b] =>
           _ <~ lift (ad_create ad b (or_str (default ""%string (br_callback_url b)) default_callback)) ;;
           _ <~ (if ad_has_token ad b then ret tt else regenerate (br_id b) now) ;;
           url <~ redirect_gateway (br_id b) ;;
           match url with
           | Some url => ret (RedirectTo url)
           | None =>
               _ <~ regenerate (br_id b) now ;;
               url <~ redirect_gateway (br_id b) ;;
               match url with Some url => ret (RedirectTo url) | None => raise GatewayError end
           end
       | _ => raise MultipleObjectsReturned
       end)%monad.
End gateway.

(** ** The result page pays *)

Section paying.
Context {P : Type} `{PointArith P}.
Implicit Types d : DB P.

Local Abbreviation quiet := (guarantees elsewhere).

Lemma quiet_intents {A} (m : M (DB P) A) d : quiet m → db_intents (m d).2 = db_intents d.
Proof. intros Hq. by destruct (Hq d) as (Hi & _). Qed.

(** The reference the page stores. *)
Definition bank_reference (b : Bank) (tc : string) (i : PaymentIntent) : string :=
  or_str (or_str (or_str (_extract_ref_from_extra (bk_extra_information b)) (strip (opt_str (bk_reference_number b))))
    (pi_ref_id i)) tc.

Lemma or_str_right x tc : truthy_str tc = true → truthy_str (or_str x tc) = true.
Proof. unfold or_str. by destruct (truthy_str x) eqn:E. Qed.

Lemma bank_reference_kept b tc i y : truthy_str tc = true →
  or_str (opt_str (Some (bank_reference b tc i))) y = bank_reference b tc i.
Proof. intros Htc. unfold or_str at 1. cbn. unfold bank_reference. by rewrite or_str_right. Qed.

(** The page of a successful record: its intent ends paid, or was refused by its poomsae entry. *)
Lemma result_page_pays (banks : string → option Bank) tc now d b k i :
  truthy_str (strip tc) = true → banks (strip tc) = Some b → bk_is_success b = true →
  intent_of_bank d (strip tc) b = Some (k, i) → targets_exist d i →
  if is_paid i || poomsae_payable d i (bank_reference b (strip tc) i) then
    ∃ i', db_intents (payment_result_redirect banks tc now d).2 !! k = Some i' ∧ is_paid i' = true ∧
      pi_amount i' = pi_amount i
  else ∃ e, payment_result_redirect banks tc now d = (Err e, d).
Proof.
  intros Htc Hb Hs Hf Ht. pose proof (intent_of_bank_some d (strip tc) b k i Hf) as Hk.
  remember (payment_result_redirect banks tc now d) as page eqn:Epage. revert Epage.
  unfold payment_result_redirect. rewrite Htc. cbn [negb]. rewrite Hb. unfold bind at 1, get. rewrite Hf, Hs. cbn zeta.
  set (finish := λ intent' : PaymentIntent, bind _ _).
  assert (Hq : ∀ j, quiet (finish j)).
  { intros j. unfold finish. apply guarantees_bind; [apply _| |by intros; apply guarantees_ret, _].
    apply guarantees_try; [apply _| |by intros; apply guarantees_ret, _]. unfold in_transaction. guarantee. }
  clearbody finish. destruct (is_paid i) eqn:Ep; cbn [orb].
  { unfold bind, ret. intros ->. exists i. by rewrite quiet_intents. }
  set (pay := in_transaction _).
  assert (Hpay : if poomsae_payable d i (bank_reference b (strip tc) i)
    then ∃ i', db_intents (pay d).2 !! k = Some i' ∧ is_paid i' = true ∧ pi_amount i' = pi_amount i
    else ∃ e, pay d = (Err e, d)).
  { unfold pay. match goal with |- context [in_transaction ?x] => set (m := x) end.
    assert (Hm : m d = intent_mark_paid k i (Some (bank_reference b (strip tc) i)) (Some (pi_card_pan i))
      (bank_extra b) now d).
    { unfold m, bind, fetch, bind, get. rewrite Hk. cbn. by rewrite Ep. }
    clearbody m. unfold in_transaction, bind, atomic. rewrite Hm.
    pose proof (mark_paid_outcome k i (Some (bank_reference b (strip tc) i)) (Some (pi_card_pan i)) (bank_extra b)
      now d Hk Ep Ht) as Ho.
    cbn zeta in Ho. rewrite bank_reference_kept in Ho by done.
    destruct (poomsae_payable d i _).
    - destruct Ho as (i' & d' & Hr & Hi & Hp & Ha & _). rewrite Hr. exists i'.
      destruct (quiet_run_on_commit d') as (Hl & _).
      destruct (run_on_commit d') as [[u|e] d3]; cbn in *; rewrite Hl, Hi, lookup_insert_eq; done.
    - destruct Ho as [e Hr]. rewrite Hr. by exists e. }
  unfold bind. intros ->. destruct (poomsae_payable d i _).
  - destruct Hpay as (i' & Hi' & Hp' & Ha). exists i'. destruct (pay d) as [[j|e] d1]; cbn in *.
    + by rewrite quiet_intents.
    + done.
  - destruct Hpay as [e He]. exists e. by rewrite He.
Qed.
End paying.

(** ** The callback: correctness *)

Section callback_correct.
Context (mentions : json → string → bool) (host : string)
  (verify : string → Z → list (string * string) → Z → M (list bank_row) unit).
Local Abbreviation here := (λ p, Some (host ++ p)%string).
Local Abbreviation callback := (bankgateways_callback_override mentions here verify).

(** A tracking code that can be part of a path. *)
Definition code_in_path (b : bank_row) : Prop := accepts Str (strip (br_tracking b)) = true.

Lemma result_path_resolves app_matches b : code_in_path b →
  ∃ p, result_path b = Some p ∧ result_url here b = (host ++ "/" ++ p)%string ∧
    resolve app_matches root_urls p =
      Some (ToView "payment_result_redirect" "payments:payment_result_redirect" [("tc", AText (strip (br_tracking b)))])%string.
Proof.
  unfold code_in_path. intros Ha. unfold result_url, result_path, Routes.reverse.
  assert (Hn : route_named "payments:payment_result_redirect" =
    Some ([Lit "api"; Lit "payments"; Lit "result"; Cap Str "tc"; Lit ""],
          TView "payment_result_redirect" "payments:payment_result_redirect")%string) by (vm_compute; reflexivity).
  fold (route_named "payments:payment_result_redirect"). rewrite Hn. cbn [mbind option_bind fst].
  set (tc := strip (br_tracking b)) in *.
  assert (Hf : fill [Lit "api"; Lit "payments"; Lit "result"; Cap Str "tc"; Lit ""]%string [AText tc] =
    Some ["api"; "payments"; "result"; tc; ""]%string).
  { cbn [fill to_url]. by rewrite Ha. }
  rewrite Hf. eexists. split; [done|]. split; [done|].
  exact (route_resolves app_matches _ [AText tc] _ _ _ Hn ltac:(discriminate) I Hf).
Qed.

Lemma find_bank_elem rows post b : find_bank mentions rows post = Some b → b ∈ rows.
Proof.
  unfold find_bank. intros Hb%head_Some_elem_of. apply list_elem_of_omap in Hb as ([x|] & Hin & [= ->]).
  assert (Hfirst : ∀ (c : bool) (p : bank_row → bool), Some b = (if c then head (List.filter p rows) else None) → b ∈ rows).
  { intros [] p E; [|done]. symmetry in E. apply head_Some_elem_of in E. by apply elem_of_filter_list in E as [? _]. }
  rewrite !elem_of_cons in Hin. destruct Hin as [E|[E|[E|[E|[]%not_elem_of_nil]]]]; by apply Hfirst in E.
Qed.

(** What the callback answers does not depend on the bank. *)
Lemma callback_answers bank_type post rows : ∃ rows',
  callback bank_type post rows = (Ok match find_bank mentions rows post with
                                     | None => PlainOk
                                     | Some b => RedirectTo (result_url here b)
                                     end, rows') ∧
  (find_bank mentions rows post = None → rows' = rows).
Proof.
  unfold bankgateways_callback_override, bind at 1, get. destruct (find_bank mentions rows post) as [b|]; [|by exists rows].
  assert (Hset : ∃ rows1, (if bool_decide (br_callback_url b = Some (result_url here b)) then ret tt
    else modify (update_row (br_id b) (with_callback_url (result_url here b)))) rows = (Ok tt, rows1)).
  { destruct (bool_decide _); by eexists. }
  destruct Hset as [rows1 Hset]. unfold bind at 1. rewrite Hset. unfold bind, try_catch, ret.
  destruct (verify _ _ _ _ rows1) as [[[]|e] rows2]; by exists rows2.
Qed.
End callback_correct.

(** C30: the way of a payment from the bank to the settled intent. A callback that names no known record is
    answered with a plain OK and changes nothing. Otherwise, whatever the bank says and even when its
    verification fails, the browser is sent to a url that resolves to the page of the result with the tracking
    code of the record. When the verification has left that record successful and the rows its
    intent names exist, the page leaves the intent paid, with its amount, unless the intent
    pays for a poomsae entry that refuses: one that is not complete and no longer passes its validation. Then
    the page ends in that error and the payment the bank has taken changes nothing. *)
Theorem bank_callback_settles {P} `{PointArith P} mentions host verify app_matches bank_type post rows now (d : DB P) :
  (∀ b, b ∈ rows → code_in_path b) →
  let '(answer, rows') := bankgateways_callback_override mentions (λ p, Some (host ++ p)%string) verify bank_type post rows in
  match find_bank mentions rows post with
  | None => answer = Ok PlainOk ∧ rows' = rows
  | Some b =>
      let tc := strip (br_tracking b) in
      ∃ path, answer = Ok (RedirectTo (host ++ "/" ++ path)%string) ∧
        resolve app_matches root_urls path =
          Some (ToView "payment_result_redirect" "payments:payment_result_redirect" [("tc", AText tc)])%string ∧
        ∀ bank k i, banks_of rows' tc = Some bank → bk_is_success bank = true →
          intent_of_bank d tc bank = Some (k, i) → targets_exist d i →
          if is_paid i || poomsae_payable d i (bank_reference bank tc i) then
            ∃ i', db_intents (payment_result_redirect (banks_of rows') tc now d).2 !! k = Some i' ∧ is_paid i' = true ∧
              pi_amount i' = pi_amount i
          else ∃ e, payment_result_redirect (banks_of rows') tc now d = (Err e, d)
  end.
Proof.
  intros Hcodes. destruct (callback_answers mentions host verify bank_type post rows) as (rows' & E & Hnone). rewrite E.
  destruct (find_bank mentions rows post) as [b|] eqn:Hb; [|split; [done|by apply Hnone]].
  apply find_bank_elem, Hcodes in Hb as Hc.
  destruct (result_path_resolves host app_matches b Hc) as (p & _ & -> & Hres). exists p. split; [done|]. split; [exact Hres|].
  intros bank k i Hbank Hs Hi Ht. set (tc := strip (br_tracking b)) in *.
  assert (Htc : truthy_str tc = true). { unfold code_in_path, accepts in Hc. by apply andb_true_iff in Hc as [? _]. }
  assert (Htrim : strip tc = tc) by apply strip_idemp.
  pose proof (result_page_pays (banks_of rows') tc now d bank k i) as Hpage. rewrite Htrim in Hpage. by apply Hpage.
Qed.

(** ** Returning and leaving: correctness *)

Lemma find_intent_unique {P} `{PointArith P} (d : DB P) p k i : db_intents d !! k = Some i → p i = true →
  (∀ j x, db_intents d !! j = Some x → p x = true → j = k) → find_intent d p = Some (k, i).
Proof.
  intros Hk Hp Hu. destruct (find_intent d p) as [[j x]|] eqn:E.
  - apply find_intent_some in E as [Hj Hx]. assert (j = k) as -> by by eapply Hu. congruence.
  - assert (Hin : (k, i) ∈ List.filter (λ ki : Z * PaymentIntent, p ki.2) (list.reverse (rows_by_id (db_intents d)))).
    { apply elem_of_filter_list. split; [|done]. by apply elem_of_reverse, elem_of_rows_by_id. }
    unfold find_intent in E. destruct (List.filter _ _); [by apply not_elem_of_nil in Hin|done].
Qed.

(** The bank's return to an intent with a token goes on to the package with that token. *)
Theorem bank_return_forwards {P} `{PointArith P} (d : DB P) rows param k i :
  db_intents d !! k = Some i → (∀ j x, db_intents d !! j = Some x → pi_public_id x = pi_public_id i → j = k) →
  truthy_str (strip (pi_token i)) = true →
  _forward_to_pkg_callback d rows param (pi_public_id i) = Ok (ToPackage [(param, strip (pi_token i))]).
Proof.
  intros Hk Hu Ht. unfold _forward_to_pkg_callback.
  rewrite (find_intent_unique d _ k i Hk (String.eqb_refl _)) by (intros j x Hj Hx%String.eqb_eq; by eapply Hu).
  unfold return_code. by rewrite !Ht.
Qed.

Lemma update_row_tracking id f rows tc : (∀ b, br_tracking (f b) = br_tracking b) →
  List.filter (λ b, String.eqb (br_tracking b) tc) (update_row id f rows) =
  update_row id f (List.filter (λ b, String.eqb (br_tracking b) tc) rows).
Proof.
  intros Hf. unfold update_row. induction rows as [|b rows IH]; [done|]. cbn.
  assert (Hb : br_tracking (if br_id b =? id then f b else b) = br_tracking b) by (destruct (br_id b =? id); [apply Hf|done]).
  rewrite Hb. destruct (String.eqb (br_tracking b) tc); cbn; by rewrite IH.
Qed.

Section leaving.
Context (ad : adapter) (default_callback : string).

(** What the package promises: making a token works, and with a new one the browser can be sent on. *)
Class FreshTokens : Prop := {
  ready_works id rows : ∃ rows', ad_ready ad id rows = (Ok tt, rows');
  fresh_redirects id rows rows' : ad_ready ad id rows = (Ok tt, rows') → ∃ url, ad_redirect ad id rows' = Ok (Some url);
  no_other_failure id rows : ∃ url, ad_redirect ad id rows = Ok url;
}.

(** A link to the bank keeps working. With a package that keeps its promise, a request with the tracking
    code of exactly one record is sent on to the bank, whether the record has no token or an expired one, and
    a record whose token is accepted is left as it is; a code of no record is answered with [Http404]. *)
Theorem gateway_link_works `{!FreshTokens} query now rows :
  posted query "url" = ""%string →
  let tc := first_given query ["tc"; "tracking_code"]%string in
  match List.filter (λ b, String.eqb (br_tracking b) tc) rows with
  | [] => go_to_bank_gateway_override ad default_callback query now rows = (Err Http404, rows)
  | [b] => ad_create ad b (or_str (default ""%string (br_callback_url b)) default_callback) = Ok tt → truthy_str tc = true →
      ∃ url rows', go_to_bank_gateway_override ad default_callback query now rows = (Ok (RedirectTo url), rows') ∧
        (ad_has_token ad b = true → ad_redirect ad (br_id b) rows = Ok (Some url) → rows' = rows)
  | _ => True
  end.
Proof.
  intros Hurl tc. unfold go_to_bank_gateway_override. rewrite Hurl, andb_false_r. cbn [truthy_str andb]. fold tc.
  destruct (List.filter _ rows) as [|b [|]] eqn:Ef; [|intros Hcreate Htc|done].
  { destruct (truthy_str tc); cbn; [|done]. unfold bind, get. by rewrite Ef. }
  rewrite Htc. cbn [negb]. unfold bind at 1, get. rewrite Ef. unfold bind at 1, lift. rewrite Hcreate.
  assert (Hagain : ∀ rows1, ∃ url rows2,
    (_ <~ regenerate ad (br_id b) now ;; url <~ redirect_gateway ad (br_id b) ;;
     match url with Some url => ret (RedirectTo url) | None => raise GatewayError end)%monad rows1 = (Ok (RedirectTo url), rows2)).
  { intros rows1. unfold regenerate, redirect_gateway, bind, modify, get, lift.
    destruct (ready_works (br_id b) (update_row (br_id b) (with_created_at now) rows1)) as [rows2 Hr]. rewrite Hr.
    destruct (fresh_redirects _ _ _ Hr) as [url Hu]. rewrite Hu. by exists url, rows2. }
  destruct (ad_has_token ad b).
  - unfold bind at 1, ret. unfold redirect_gateway at 1, bind at 1 2, get, lift.
    destruct (no_other_failure (br_id b) rows) as [[url|] Hu]; rewrite Hu.
    + exists url, rows. done.
    + destruct (Hagain rows) as (url & rows2 & Ha). exists url, rows2. split; [exact Ha|]. intros _ [=].
  - unfold regenerate at 1, bind at 1 2, modify.
    destruct (ready_works (br_id b) (update_row (br_id b) (with_created_at now) rows)) as [rows2 Hr]. rewrite Hr.
    destruct (fresh_redirects _ _ _ Hr) as [url Hu]. unfold redirect_gateway at 1, bind at 1 2, get, lift. rewrite Hu.
    by exists url, rows2.
Qed.
End leaving.

(** ** Witnesses *)

Definition returned_bank (ok : bool) : bank_row :=
  mkBankRow (mkBank 9 "tc1" ok "done" (Some "r1"%string) None (JDict [])) "BMI" 85000 None 0.

(** The verification of a bank that reports success. *)
Definition bank_confirms (bt : string) (amount : Z) (post : list (string * string)) (id : Z) : M (list bank_row) unit :=
  modify (update_row id (λ b, mkBankRow (mkBank 9 "tc1" true "done" (Some "r1"%string) None (JDict [])) (br_bank_type b) (br_amount b)
                                (br_callback_url b) (br_created_at b))).

Lemma bank_callback_settles_witness : ∃ rows',
  (bankgateways_callback_override (λ _ _, false) (λ p, Some ("https://x" ++ p)%string) bank_confirms "" [("OrderId", "tc1")]%string
     [returned_bank false]).2 = rows' ∧
  ∃ i', db_intents (payment_result_redirect (banks_of rows') "tc1" 60 started_db).2 !! 300 = Some i' ∧ is_paid i' = true.
Proof.
  pose proof (bank_callback_settles (λ _ _, false) "https://x" bank_confirms (λ _ _, true) "" [("OrderId", "tc1")]%string
    [returned_bank false] 60 started_db) as H.
  assert (Hcodes : ∀ b, b ∈ [returned_bank false] → code_in_path b).
  { intros b ->%list_elem_of_singleton. reflexivity. }
  specialize (H Hcodes).
  destruct (bankgateways_callback_override _ _ _ _ _ _) as [answer rows'] eqn:E. exists rows'. split; [done|].
  assert (Hb : find_bank (λ _ _, false) [returned_bank false] [("OrderId", "tc1")]%string = Some (returned_bank false))
    by (vm_compute; reflexivity).
  rewrite Hb in H. destruct H as (path & _ & _ & H).
  vm_compute in E. injection E as _ <-.
  destruct (db_intents started_db !! 300) as [i|] eqn:Ei; [|by vm_compute in Ei].
  assert (Hp : is_paid i || poomsae_payable started_db i (bank_reference (mkBank 9 "tc1" true "done" (Some "r1"%string) None (JDict []))
    "tc1" i) = true) by (vm_compute in Ei; injection Ei as <-; vm_compute; reflexivity).
  specialize (H (mkBank 9 "tc1" true "done" (Some "r1"%string) None (JDict [])) 300 i).
  change (strip (br_tracking (returned_bank false))) with "tc1"%string in H. rewrite Hp in H.
  destruct H as (i' & Hi' & Hpaid & _).
  - vm_compute. reflexivity.
  - reflexivity.
  - vm_compute in Ei. injection Ei as <-. vm_compute. reflexivity.
  - vm_compute in Ei. injection Ei as <-. split_and!; try by intros.
    intros e [= <-] _. vm_compute. by eexists.
  - exists i'. split; [exact Hi'|exact Hpaid].
Defined.

(** The bank has taken the money for a poomsae entry whose insurance is too young: the page fails, and
    the intent stays unpaid. *)
Example refused_poomsae_payment :
  let d := poomsae_pay_db 99 in
  let page := payment_result_redirect (λ _, Some (mkBank 9 "tc3" true "done" (Some "r1"%string) None (JDict []))) "tc3" 60 d in
  page.1 = Err ValidationError ∧ is_paid <$> db_intents page.2 !! 301 = Some false.
Proof. vm_compute. split; reflexivity. Qed.

Definition forgetful : adapter :=
  mkAdapter (λ _ _, Ok tt) (λ _, false) (λ _, ret tt) (λ _ _, Ok (Some "https://bank"%string)).

#[export] Instance forgetful_fresh : FreshTokens forgetful.
Proof. split; intros; by eexists. Qed.

Lemma gateway_link_works_witness : ∃ url rows',
  go_to_bank_gateway_override forgetful "" [("tc", "tc1")]%string 70 [returned_bank false] = (Ok (RedirectTo url), rows').
Proof.
  destruct (gateway_link_works forgetful "" [("tc", "tc1")]%string 70 [returned_bank false] eq_refl eq_refl eq_refl)
    as (url & rows' & H & _).
  by exists url, rows'.
Defined.
