(* ===== verification/Moderation.v ===== *)
(** Moderation of accounts in the admin ([accounts/admin.py] with [accounts/utils/sms_utils.py]): messages to
    applicants, rejecting applications, the comparison of an edited profile with the original, and the form of
    boards with their logins.

    The gateway of the messages is a parameter: what it answers to a request, [None] when the request fails.
    [display] gives the label of a choice (and the text itself of a column without choices), [shown] the text
    of a related row. *)

From Stdlib Require Import Ascii.
From stdpp Require Import pretty.
From S2P Require Import Prelude Store Ranking GroupPayments GroupRegistration Text Accounts SmsCodes Login CoachClubs Membership Applications ApplicationPaths.
Local Open Scope Z_scope.

(** ** Messages *)

(** [re.findall(r"(-?\d+)", t)] *)
Fixpoint numbers (minus : bool) (current : option string) (s : string) : list string :=
  match s with
  | EmptyString => option_list current
  | String c s' =>
      if is_digit c then
        numbers false (Some (match current with
                             | Some n => (n ++ String c "")%string
                             | None => if minus then String "-" (String c "") else String c ""
                             end)) s'
      else option_list current ++ numbers (Ascii.eqb c "-") None s'
  end.

(** [_is_ok_response]: the last number decides. *)
Definition _is_ok_response (text : string) : bool :=
  match last (numbers false None (strip text)) with
  | None => false
  | Some n => negb (String.prefix "-" n)
  end.

Record sms_settings := mkSmsSettings {
  ss_dry_run : bool;
  ss_username : string;
  ss_password : string;
  ss_body_id : string;
  ss_reject_body_id : string;
  ss_approve_body_id : string;
}.

(** What became of a message: refused before the gateway, only logged, or sent on. *)
Inductive sms_outcome :=
  | NotSent
  | Logged
  | Posted (payload : list (string * string)) (ok : bool).

Definition sms_ok (o : sms_outcome) : bool := match o with NotSent => false | Logged => true | Posted _ ok => ok end.

Section messages.
Context (cfg : sms_settings) (gateway : list (string * string) → option (Z * string)).

(** The end of the three functions: the payload of the texts, the answer of the gateway. *)
Definition post_sms (body_id to : string) (texts : list string) : sms_outcome :=
  if ss_dry_run cfg then Logged
  else if negb (truthy_str (ss_username cfg) && truthy_str (ss_password cfg) && truthy_str body_id) then NotSent
  else
    let payload := [("username", ss_username cfg); ("password", ss_password cfg); ("to", to)]%string
                   ++ ((λ t, ("text"%string, t)) <$> texts) ++ [("bodyId"%string, body_id)] in
    Posted payload (match gateway payload with
                    | Some (status, body) => (status =? 200) && _is_ok_response (strip body)
                    | None => false
                    end).

Definition send_verification_code (phone code : string) : sms_outcome :=
  let phone := _normalize_digits (Some phone) in
  let code := _normalize_digits (Some code) in
  if negb (valid_phone phone) then NotSent
  else if negb (isdigit code && (3 <=? py_len code) && (py_len code <=? 6)) then NotSent
  else post_sms (ss_body_id cfg) phone [code].

Definition send_reject_signup_sms (phone reason : string) : sms_outcome :=
  let phone := _normalize_digits (Some phone) in
  let reason := strip reason in
  if negb (valid_phone phone) then NotSent
  else if negb (truthy_str reason) then NotSent
  else post_sms (ss_reject_body_id cfg) phone [reason].

Definition send_approve_sms (phone national_code : string) : sms_outcome :=
  let phone := _normalize_digits (Some phone) in
  let national_code := _normalize_digits (Some national_code) in
  if negb (valid_phone phone) then NotSent
  else if negb (isdigit national_code && (py_len national_code =? 10)) then NotSent
  else post_sms (ss_approve_body_id cfg) phone [phone; national_code].
End messages.

(** ** Rejecting *)

Inductive reject_message := ReasonMissing | RejectedAndSent (count : Z).
Inductive reject_answer :=
  | ReasonForm (messages : list reject_message)
  | BackToList (messages : list reject_message).

(** Messages that were handed to the gateway or the log, and the tables. *)
Record desk := mkDesk { dk_db : accounts; dk_sms : list (string * string) }.

Section rejecting.
Context (cfg : sms_settings) (gateway : list (string * string) → option (Z * string)).

(** A model of applications: its rows, the phone of a row, the deletion of one. *)
Context {A : Type} (rows_of : accounts → gmap Z A) (phone_of : A → string) (delete_of : Z → accounts → accounts).

(** One rejection: the message, whose outcome nobody looks at, then the deletion. *)
Definition reject_row (reason : string) (row : Z * A) : M desk unit :=
  modify (λ s,
    let phone := phone_of row.2 in
    mkDesk (delete_of row.1 (dk_db s))
      (dk_sms s ++ (if truthy_str phone then
                      match send_reject_signup_sms cfg gateway phone reason with
                      | NotSent => []
                      | _ => [(_normalize_digits (Some phone), reason)]
                      end else []))).

(** [PendingRejectWithSmsMixin.delete_view]; [None] is a request to look at the form. *)
Definition delete_view (pk : Z) (posted : option string) : M desk reject_answer :=
  (s <~ get ;;
   match rows_of (dk_db s) !! pk with
   | None => ret (BackToList [])
   | Some row =>
       match posted with
       | None => ret (ReasonForm [])
       | Some text =>
           let reason := strip text in
           if negb (truthy_str reason) then ret (ReasonForm [ReasonMissing])
           else reject_row reason (pk, row) ;;; ret (BackToList [RejectedAndSent 1])
       end
   end)%monad.

(** [reject_selected_with_sms] on the selected rows. *)
Definition reject_selected (selected : list Z) (posted : option string) : M desk reject_answer :=
  match posted with
  | None => ret (ReasonForm [])
  | Some text =>
      let reason := strip text in
      if negb (truthy_str reason) then ret (ReasonForm [ReasonMissing])
      else
        (s <~ get ;;
         let queryset := List.filter (λ kr, bool_decide (kr.1 ∈ selected)) (rev (rows_by_id (rows_of (dk_db s)))) in
         _ <~ forM queryset (reject_row reason) ;;
         ret (BackToList (if bool_decide (length queryset = 0%nat) then [] else [RejectedAndSent (zlen queryset)])))%monad
  end.
End rejecting.

(** The phone of a waiting club is looked for in [phone] first, that of an applicant is [phone]. *)
Definition applicant_phone (p : PendingUserProfile) : string := pe_phone (pu_person p).
Definition club_phone (c : PendingClub) : string := or_str (cd_phone (pc_data c)) (cd_founder_phone (pc_data c)).

Definition delete_applicant (pk : Z) (s : accounts) : accounts := set_ac_pending (delete pk (ac_pending s)) s.
Definition delete_club_application (pk : Z) (s : accounts) : accounts := set_ac_pending_clubs (delete pk (ac_pending_clubs s)) s.

(** The rows a list of applications shows. *)
Definition listed_rows (a : application) (s : accounts) : gmap Z PendingUserProfile :=
  filter (λ kr, listed a (pe_role (pu_person kr.2)) = true) (ac_pending s).

(** ** Messages: correctness *)

Lemma numbers_skip minus s post : all_chars (λ c, negb (is_digit c)) s = true → numbers minus None (s ++ String ">" post) = numbers false None post.
Proof.
  revert minus. induction s as [|c s IH]; intros minus; unfold String.append; cbn; [done|]. fold String.append.
  intros [Hc Hs]%andb_true_iff. apply negb_true_iff in Hc. rewrite Hc. cbn. by apply IH.
Qed.

Lemma numbers_none minus s : all_chars (λ c, negb (is_digit c)) s = true → numbers minus None s = [].
Proof.
  revert minus. induction s as [|c s IH]; intros minus; cbn; [done|].
  intros [Hc Hs]%andb_true_iff. apply negb_true_iff in Hc. rewrite Hc. cbn. by apply IH.
Qed.

(** Whatever stands before a character that ends numbers leaves only numbers before. *)
Lemma numbers_before s post : ∀ minus current, ∃ l, numbers minus current (s ++ String ">" post) = l ++ numbers false None post.
Proof.
  induction s as [|c s IH]; intros minus current; unfold String.append; cbn; fold String.append.
  - by exists (option_list current).
  - destruct (is_digit c).
    + apply IH.
    + destruct (IH (Ascii.eqb c "-") None) as [l ->]. exists (option_list current ++ l). by rewrite app_assoc.
Qed.

Lemma numbers_digits s post n : all_digits s = true → all_chars (λ c, negb (is_digit c)) post = true →
  numbers false (Some n) (s ++ post) = [(n ++ s)%string].
Proof.
  intros Hs Hp. revert n. induction s as [|c s IH]; intros n.
  - assert (Hn : (n ++ "" = n)%string). { clear. induction n as [|x n IH]; [done|]. unfold String.append. cbn. fold String.append. by rewrite IH. }
    rewrite Hn. change ("" ++ post)%string with post. destruct post as [|c post]; [done|]. cbn in *. apply andb_true_iff in Hp as [Hc Hp]. apply negb_true_iff in Hc. rewrite Hc.
    by rewrite numbers_none.
  - cbn in Hs. apply andb_true_iff in Hs as [Hc Hs]. unfold String.append at 1. cbn [numbers]. fold String.append.
    assert (Hd : is_digit c = true) by exact Hc. rewrite Hd, IH by done. f_equal.
    clear. induction n as [|x n IHn]; [done|]. unfold String.append. cbn. fold String.append. by rewrite IHn.
Qed.

Lemma pretty_digit_text (n : Z) : 0 ≤ n → all_digits (pretty n) = true ∧ pretty n ≠ ""%string.
Proof.
  intros Hn. destruct (pretty_digits (Z.to_nat n + 1) n) as (Hd & Hl & _); [|lia|].
  - split; [done|]. rewrite Nat2Z.inj_add, Z2Nat.id by done. etrans; [apply (Z.pow_gt_lin_r 10 n); lia|].
    apply Z.pow_lt_mono_r; lia.
  - split; [done|]. intros E. rewrite E in Hl. cbn in Hl. lia.
Qed.

Lemma pretty_neg (n : Z) : n < 0 → pretty n = String "-" (pretty (-n)).
Proof. destruct n as [|p|p]; [lia|lia|]. done. Qed.

Lemma numbers_of_text (n : Z) post : all_chars (λ c, negb (is_digit c)) post = true →
  numbers false None (pretty n ++ post) = [pretty n].
Proof.
  intros Hp. assert (Hpos : ∀ m minus, 0 ≤ m → numbers minus None (pretty m ++ post) = [if minus then String "-" (pretty m) else pretty m]).
  { intros m minus Hm. destruct (pretty_digit_text m Hm) as [Hd Hne]. destruct (pretty m) as [|c s] eqn:E; [done|].
    cbn in Hd. apply andb_true_iff in Hd as [Hc Hs]. unfold String.append. cbn [numbers]. fold String.append.
    assert (Hdc : is_digit c = true) by exact Hc. rewrite Hdc. rewrite numbers_digits by done. by destruct minus. }
  destruct (Z.lt_ge_cases n 0) as [Hneg|Hge]; [|by rewrite Hpos].
  rewrite pretty_neg by done. unfold String.append at 1. cbn [numbers]. fold String.append.
  change (is_digit "-") with false. cbn [option_list app Ascii.eqb]. change (Ascii.eqb "-" "-") with true. cbn. by rewrite Hpos by lia.
Qed.

(** The answer of the gateway, a number in an XML element, counts as success exactly when the number is not
    negative, whatever numbers the text has before it. *)
Theorem answer_is_its_number pre (n : Z) post :
  all_chars (λ c, negb (is_digit c)) post = true →
  let body := (pre ++ String ">" (pretty n ++ post))%string in
  strip body = body → _is_ok_response body = (0 <=? n).
Proof.
  intros Hp body Hs. unfold _is_ok_response. rewrite Hs. unfold body.
  destruct (numbers_before pre (pretty n ++ post) false None) as [l ->]. rewrite numbers_of_text by done.
  rewrite last_snoc. destruct (Z.leb_spec 0 n) as [Hn|Hn].
  - destruct (pretty_digit_text n Hn) as [Hd Hne]. destruct (pretty n) as [|c s]; [done|]. cbn in Hd.
    apply andb_true_iff in Hd as [Hc _]. destruct c as [[] [] [] [] [] [] [] []]; try discriminate Hc; reflexivity.
  - rewrite pretty_neg by done. cbn. by destruct (pretty (-n)).
Qed.

(** A message leaves only for a mobile number, and reports success only when the gateway did. *)
Lemma post_sms_ok cfg gateway body_id to texts : ss_dry_run cfg = false →
  sms_ok (post_sms cfg gateway body_id to texts) = true →
  ∃ payload body, post_sms cfg gateway body_id to texts = Posted payload true ∧ gateway payload = Some (200, body) ∧
    _is_ok_response (strip body) = true.
Proof.
  unfold post_sms. intros ->. destruct (negb _); [done|]. cbn.
  destruct (gateway _) as [[status body]|] eqn:E; [|done]. intros [Hst Hb]%andb_true_iff. apply Z.eqb_eq in Hst as ->.
  eexists _, body. split; [|split; [exact E|exact Hb]]. by rewrite Z.eqb_refl, Hb.
Qed.

(** The message with the credentials of an approved applicant, as the approvals send it: to the outbox exactly
    when it is handed to the gateway. *)
Theorem approve_sms_refines cfg gateway phone code c :
  let configured := negb (ss_dry_run cfg) && (truthy_str (ss_username cfg) && truthy_str (ss_password cfg)
                    && truthy_str (ss_approve_body_id cfg)) in
  let sent := match send_approve_sms cfg gateway phone code with Posted _ _ => true | _ => false end in
  send_approve_credentials_sms configured phone code c =
    (Ok tt, if sent then mkConn (cn_db c) (cn_broken c)
                           (cn_outbox c ++ [(_normalize_digits (Some phone), _normalize_digits (Some code))]) else c).
Proof.
  intros configured sent. unfold sent, send_approve_sms, send_approve_credentials_sms, post_sms, configured.
  destruct (valid_phone _); cbn; [|by destruct c].
  destruct (isdigit _ && _); cbn; [|by destruct c].
  destruct (ss_dry_run cfg); cbn; [by destruct c|].
  destruct (truthy_str (ss_username cfg) && _ && _); cbn; by destruct c.
Qed.

(** ** Rejecting: correctness *)

Section rejected.
Context (cfg : sms_settings) (gateway : list (string * string) → option (Z * string)).

Lemma elem_of_rev_iff {A} (x : A) l : x ∈ rev l ↔ x ∈ l.
Proof. by rewrite !list_elem_of_In, <- in_rev. Qed.

(** The rows of a list disappear; what else the tables hold stays. *)
Lemma reject_rows_db {A} (phone_of : A → string) delete_of reason (l : list (Z * A)) : ∀ s,
  ∃ sms, forM l (reject_row cfg gateway phone_of delete_of reason) s =
    (Ok tt, mkDesk (foldl (λ db pk, delete_of pk db) (dk_db s) l.*1) (dk_sms s ++ sms)).
Proof.
  induction l as [|[k r] l IH]; intros s; cbn.
  - exists []. rewrite app_nil_r. by destruct s.
  - match goal with |- context [forM l _ ?x] => destruct (IH x) as [sms Hsms] end.
    rewrite Hsms. cbn. eexists (_ ++ sms). by rewrite app_assoc.
Qed.

Lemma delete_applicants_fold (ks : list Z) : ∀ s,
  foldl (λ db pk, delete_applicant pk db) s ks = set_ac_pending (filter (λ kr, kr.1 ∉ ks) (ac_pending s)) s.
Proof.
  induction ks as [|k ks IH]; intros s; cbn.
  - destruct s; cbn. unfold set_ac_pending. cbn. f_equal. symmetry. apply map_filter_id. intros i x _. apply not_elem_of_nil.
  - rewrite IH. unfold delete_applicant, set_ac_pending. destruct s; cbn. f_equal. apply map_eq. intros i.
    apply option_eq. intros x. rewrite !map_lookup_filter_Some, lookup_delete_Some. cbn. rewrite not_elem_of_cons. naive_solver.
Qed.

Lemma selected_removed a selected text s :
  let '(r, s') := reject_selected cfg gateway (listed_rows a) applicant_phone delete_applicant selected (Some text) s in
  if truthy_str (strip text) then
    dk_db s' = set_ac_pending (filter (λ kr, ¬ (kr.1 ∈ selected ∧ listed a (pe_role (pu_person kr.2)) = true))
                                (ac_pending (dk_db s))) (dk_db s) ∧
    ∃ messages, r = Ok (BackToList messages)
  else r = Ok (ReasonForm [ReasonMissing]) ∧ s' = s.
Proof.
  destruct (reject_selected _ _ _ _ _ _ _ s) as [r s'] eqn:E. revert E. unfold reject_selected.
  destruct (truthy_str (strip text)); cbn [negb]; [|by intros [= <- <-]].
  unfold bind at 1, get. cbn zeta. set (queryset := List.filter _ _).
  destruct (reject_rows_db applicant_phone delete_applicant (strip text) queryset s) as [sms Hsms].
  unfold bind at 1. rewrite Hsms. unfold ret. intros [= <- <-]. cbn. split; [|by eexists].
  rewrite delete_applicants_fold. f_equal. apply map_eq. intros i. apply option_eq. intros x.
  rewrite !map_lookup_filter_Some. cbn. unfold queryset. rewrite list_elem_of_fmap. split; intros [Hx Hn]; (split; [exact Hx|]); revert Hn.
  - intros Hn [Hsel Hl]. apply Hn. exists (i, x). split; [done|]. apply elem_of_filter_list. split; [|by apply bool_decide_eq_true_2].
    apply elem_of_rev_iff, elem_of_rows_by_id. unfold listed_rows. by apply map_lookup_filter_Some.
  - intros Hn ([k y] & -> & Hin). apply elem_of_filter_list in Hin as [Hin Hsel]. apply bool_decide_eq_true in Hsel.
    apply elem_of_rev_iff, elem_of_rows_by_id in Hin. unfold listed_rows in Hin.
    apply map_lookup_filter_Some in Hin as [Hk Hl]. cbn in *. rewrite Hx in Hk. injection Hk as <-. by apply Hn.
Qed.
(** A batch of rejections. With a reason, every selected application of the list is gone, whatever the
    gateway answers, and nothing else of the tables has changed; without a reason nothing changes at all. *)
Theorem rejections_remove_selected a selected posted s :
  let '(r, s') := reject_selected cfg gateway (listed_rows a) applicant_phone delete_applicant selected posted s in
  match posted with
  | Some text =>
      if truthy_str (strip text) then
        dk_db s' = set_ac_pending (filter (λ kr, ¬ (kr.1 ∈ selected ∧ listed a (pe_role (pu_person kr.2)) = true))
                                    (ac_pending (dk_db s))) (dk_db s) ∧
        ∃ messages, r = Ok (BackToList messages)
      else r = Ok (ReasonForm [ReasonMissing]) ∧ s' = s
  | None => r = Ok (ReasonForm []) ∧ s' = s
  end.
Proof. destruct posted as [text|]; [apply selected_removed|done]. Qed.
End rejected.

(** Numbers in order that no profile has. *)
Record free_numbers (collate : string → string) (s : accounts) (p : Person) : Prop := {
  fn_code : isdigit (pe_national_code p) && (py_len (pe_national_code p) =? 10) = true;
  fn_phone : valid_phone (pe_phone p) = true;
  fn_profiles k x : ac_profiles s !! k = Some x →
    same collate (pe_national_code (pf_person x)) (pe_national_code p) = false ∧
    same collate (pe_phone (pf_person x)) (pe_phone p) = false;
}.

(** A rejected applicant may apply again. With the row gone, the serializers of the registration accept the
    numbers of the application once more, unless a profile has taken them. *)
Theorem rejected_may_apply_again collate cfg gateway a selected text s k row :
  pairwise (other_applicant collate) (ac_pending (dk_db s)) → ac_pending (dk_db s) !! k = Some row → k ∈ selected →
  listed a (pe_role (pu_person row)) = true → strip text ≠ ""%string → free_numbers collate (dk_db s) (pu_person row) →
  let s' := (reject_selected cfg gateway (listed_rows a) applicant_phone delete_applicant selected (Some text) s).2 in
  code_ok collate (dk_db s') (pe_national_code (pu_person row)) = true ∧
  phone_ok collate (dk_db s') (pe_phone (pu_person row)) = true.
Proof.
  intros Hd Hk Hsel Hl Ht [Hcode Hphone Hprof] s'.
  pose proof (selected_removed cfg gateway a selected text s) as Hr. unfold s'. clear s'.
  destruct (reject_selected _ _ _ _ _ _ _ s) as [r s']. cbn in *. apply truthy_true in Ht. rewrite Ht in Hr.
  destruct Hr as [Hs' _].
  assert (Hrows : ∀ j x, ac_pending (dk_db s') !! j = Some x →
    same collate (pe_national_code (pu_person x)) (pe_national_code (pu_person row)) = false ∧
    same collate (pe_phone (pu_person x)) (pe_phone (pu_person row)) = false).
  { intros j x Hj. rewrite Hs' in Hj. cbn in Hj. apply map_lookup_filter_Some in Hj as [Hj Hkeep]. cbn in Hkeep.
    assert (Hjk : j ≠ k). { intros ->. apply Hkeep. rewrite Hk in Hj. by injection Hj as <-. }
    specialize (Hd k j row x Hk Hj (not_eq_sym Hjk)). unfold other_applicant, pending_conflict in Hd.
    by apply orb_false_iff in Hd. }
  unfold code_ok, phone_ok, unused. rewrite Hcode, Hphone. cbn.
  rewrite !andb_true_iff, !negb_true_iff, !exists_row_false. rewrite Hs'. cbn. rewrite Hs' in Hrows. cbn in Hrows.
  split_and!; intros j x Hj; first [by apply (Hrows j x Hj) | by apply (Hprof j x Hj)].
Qed.

(** ** Comparing an edit with the original *)

(** The columns the comparison and the approval go through, by what the page shows of them. *)
Inductive column :=
  | TextCol (get : Person → string)
  | OptCol (get : Person → option string)
  | FlagCol (get : Person → bool)
  | RelCol (get : Person → option Z).

(** [DIFF_FIELDS]; the last, [profile_image], is compared on its own. *)
Definition DIFF_FIELDS : list (string * column) :=
  [ ("first_name", TextCol pe_first_name); ("last_name", TextCol pe_last_name); ("father_name", TextCol pe_father_name);
    ("birth_date", TextCol pe_birth_date); ("gender", TextCol pe_gender);
    ("province", TextCol pe_province); ("county", TextCol pe_county); ("city", TextCol pe_city); ("address", TextCol pe_address);
    ("role", TextCol pe_role); ("is_coach", FlagCol pe_is_coach); ("is_referee", FlagCol pe_is_referee);
    ("coach_level", OptCol pe_coach_level); ("coach_level_International", OptCol pe_coach_level_International);
    ("kyorogi", FlagCol pe_kyorogi); ("kyorogi_level", OptCol pe_kyorogi_level);
    ("kyorogi_level_International", OptCol pe_kyorogi_level_International);
    ("poomseh", FlagCol pe_poomseh); ("poomseh_level", OptCol pe_poomseh_level);
    ("poomseh_level_International", OptCol pe_poomseh_level_International);
    ("hanmadang", FlagCol pe_hanmadang); ("hanmadang_level", OptCol pe_hanmadang_level);
    ("hanmadang_level_International", OptCol pe_hanmadang_level_International);
    ("belt_grade", TextCol pe_belt_grade); ("belt_certificate_number", TextCol pe_belt_certificate_number);
    ("belt_certificate_date", TextCol pe_belt_certificate_date);
    ("tkd_board", RelCol pe_tkd_board); ("club", RelCol pe_club); ("coach", RelCol pe_coach) ]%string.

(** What the page says of a value, and of an image. *)
Inductive shown_value :=
  | ShownText (text : string)
  | ShownImage (file : option (string * option Z))
  | ShownClubs (names : string).

Record diff_row := mkDiffRow { df_field : string; df_old : shown_value; df_new : shown_value }.

Section diff.
Context (display : string → string → string) (related : string → Z → string) (club_text : Z → string)
  (file_size : string → option Z).

Definition _fa_bool (v : bool) : string := if v then "بله" else "خیر".

Definition or_missing (t : string) : string := if truthy_str (strip t) then strip t else "ندارد".

(** [_pretty] *)
Definition _pretty (name : string) (c : column) (p : Person) : string :=
  match c with
  | FlagCol get => _fa_bool (get p)
  | TextCol get => or_missing (display name (get p))
  | OptCol get => or_missing (match get p with Some v => display name v | None => "" end)
  | RelCol get => match get p with Some k => or_missing (related name k) | None => "ندارد" end
  end.

(** [_safe_file_info] of the image. *)
Definition _safe_file_info (p : Person) : option (string * option Z) :=
  if truthy_str (pe_profile_image p) then Some (pe_profile_image p, file_size (pe_profile_image p)) else None.

Definition file_sig (f : option (string * option Z)) : string * option Z :=
  match f with Some nf => nf | None => (""%string, None) end.

Definition clubs_shown (ids : gset Z) : string :=
  or_str (String.concat "، " (club_text <$> elements ids)) "ندارد".

(** [_build_diff]: the changed columns in the order of the page, with both texts. *)
Definition _build_diff (original : Profile) (pending : PendingEditProfile) : list diff_row :=
  let old := pf_person original in
  let new := ed_person pending in
  (if bool_decide (pf_coaching_clubs original = ed_coaching_clubs pending) then []
   else [mkDiffRow "coaching_clubs" (ShownClubs (clubs_shown (pf_coaching_clubs original))) (ShownClubs (clubs_shown (ed_coaching_clubs pending)))])
  ++ (if bool_decide (file_sig (_safe_file_info old) = file_sig (_safe_file_info new)) then []
      else [mkDiffRow "profile_image" (ShownImage (_safe_file_info old)) (ShownImage (_safe_file_info new))])
  ++ omap (λ fc, if String.eqb (strip (_pretty fc.1 fc.2 old)) (strip (_pretty fc.1 fc.2 new)) then None
                 else Some (mkDiffRow fc.1 (ShownText (_pretty fc.1 fc.2 old)) (ShownText (_pretty fc.1 fc.2 new))))
          DIFF_FIELDS.

(** [change_view] of an edit. *)
Definition edit_diff (s : accounts) (pk : Z) : list diff_row :=
  match ac_edits s !! pk with
  | None => []
  | Some pending => match ac_profiles s !! ed_original_user pending with
                    | None => []
                    | Some original => _build_diff original pending
                    end
  end.

(** The value of a column as the page would show it on a profile. *)
Definition shown_on (name : string) (x : Profile) : option shown_value :=
  if String.eqb name "coaching_clubs" then Some (ShownClubs (clubs_shown (pf_coaching_clubs x)))
  else if String.eqb name "profile_image" then Some (ShownImage (_safe_file_info (pf_person x)))
  else (λ fc, ShownText (_pretty fc.1 fc.2 (pf_person x))) <$> head (List.filter (λ fc, String.eqb fc.1 name) DIFF_FIELDS).

(** ** The comparison: correctness *)

Lemma pretty_of_edit name c e u : (name, c) ∈ DIFF_FIELDS → _pretty name c (edited_by_admin e u) = _pretty name c e.
Proof.
  intros Hin. unfold DIFF_FIELDS in Hin.
  repeat (apply elem_of_cons in Hin as [Hin|Hin]; [injection Hin as -> ->; reflexivity|]).
  by apply not_elem_of_nil in Hin.
Qed.

Lemma pretty_stripped name c p : strip (_pretty name c p) = _pretty name c p.
Proof.
  assert (Hm : ∀ t, strip (or_missing t) = or_missing t).
  { intros t. unfold or_missing. destruct (truthy_str (strip t)); [apply strip_idemp|reflexivity]. }
  destruct c; cbn; [apply Hm|apply Hm| |].
  - by destruct (get p).
  - destruct (get p); [apply Hm|reflexivity].
Qed.

Lemma diff_fields_distinct : NoDup (fst <$> DIFF_FIELDS).
Proof. refine (bool_decide_eq_true_1 _ _). vm_compute. reflexivity. Qed.

Lemma shown_field name c x : (name, c) ∈ DIFF_FIELDS → shown_on name x = Some (ShownText (_pretty name c (pf_person x))).
Proof.
  intros Hin. unfold DIFF_FIELDS in Hin.
  repeat (apply elem_of_cons in Hin as [Hin|Hin]; [injection Hin as -> ->; reflexivity|]).
  by apply not_elem_of_nil in Hin.
Qed.

Lemma file_sig_inj p q : file_sig (_safe_file_info p) = file_sig (_safe_file_info q) → _safe_file_info p = _safe_file_info q.
Proof.
  unfold _safe_file_info. destruct (truthy_str (pe_profile_image p)) eqn:Ep, (truthy_str (pe_profile_image q)) eqn:Eq; cbn.
  - by intros [= ->].
  - intros [= E _]. by rewrite E in Ep.
  - intros [= E _]. by rewrite <- E in Eq.
  - done.
Qed.

(** The profile an approval in the admin leaves. *)
Definition approved (original : Profile) (pending : PendingEditProfile) : Profile :=
  mkProfile (pf_user original) (edited_by_admin (ed_person pending) (pf_person original)) (ed_coaching_clubs pending).

(** An edit without an image of a profile that has one: the comparison shows the image as removed. *)
Definition drops_image (row : diff_row) : bool :=
  match df_new row with ShownImage None => true | _ => false end.

Definition image_dropped (original : Profile) (pending : PendingEditProfile) : bool :=
  negb (truthy_str (pe_profile_image (ed_person pending))) && truthy_str (pe_profile_image (pf_person original)).

Lemma image_after original pending :
  _safe_file_info (pf_person (approved original pending)) =
    if image_dropped original pending then _safe_file_info (pf_person original) else _safe_file_info (ed_person pending).
Proof.
  unfold image_dropped, _safe_file_info, approved, edited_by_admin. cbn. unfold or_str.
  destruct (truthy_str (pe_profile_image (ed_person pending))) eqn:E; cbn; [by rewrite E|].
  by destruct (truthy_str (pe_profile_image (pf_person original))).
Qed.

Lemma drops_image_listed original pending :
  (∃ row, row ∈ _build_diff original pending ∧ drops_image row = true) ↔ image_dropped original pending = true.
Proof.
  unfold image_dropped. split.
  - intros (row & Hin & Hd). unfold _build_diff in Hin. rewrite !elem_of_app in Hin. destruct Hin as [Hc|[Hi|Hf]].
    + destruct (bool_decide _); [by apply not_elem_of_nil in Hc|]. by apply list_elem_of_singleton in Hc as ->.
    + case_bool_decide as E; [by apply not_elem_of_nil in Hi|]. apply list_elem_of_singleton in Hi as ->.
      unfold drops_image in Hd. cbn in Hd. unfold _safe_file_info in *.
      destruct (truthy_str (pe_profile_image (ed_person pending))); [done|]. cbn.
      by destruct (truthy_str (pe_profile_image (pf_person original))).
    + apply list_elem_of_omap in Hf as ([name c] & _ & Hrow). cbn in Hrow.
      destruct (String.eqb _ _); [done|]. by injection Hrow as <-.
  - rewrite andb_true_iff, negb_true_iff. intros [Hn Ho].
    exists (mkDiffRow "profile_image" (ShownImage (_safe_file_info (pf_person original))) (ShownImage (_safe_file_info (ed_person pending)))).
    split; [|unfold drops_image, _safe_file_info; cbn; by rewrite Hn].
    unfold _build_diff. rewrite !elem_of_app. right. left. rewrite bool_decide_eq_false_2; [by left|].
    unfold _safe_file_info. rewrite Hn, Ho. cbn. intros [= E _]. by rewrite E in Ho.
Qed.

Lemma diff_of_approved original pending :
  let after := approved original pending in
  (∀ row, row ∈ _build_diff original pending →
     shown_on (df_field row) original = Some (df_old row) ∧
     shown_on (df_field row) after = Some (if drops_image row then df_old row else df_new row)) ∧
  (∀ name, name ∉ (df_field <$> _build_diff original pending) → shown_on name after = shown_on name original).
Proof.
  intros after. pose proof (image_after original pending) as Himage. fold after in Himage.
  split.
  - intros row. unfold _build_diff. rewrite !elem_of_app. intros [Hc|[Hi|Hf]].
    + destruct (bool_decide _); [by apply not_elem_of_nil in Hc|]. apply list_elem_of_singleton in Hc as ->. done.
    + destruct (bool_decide _); [by apply not_elem_of_nil in Hi|]. apply list_elem_of_singleton in Hi as ->.
      split; [done|]. unfold drops_image. cbn [df_field df_old df_new].
      change (shown_on "profile_image" after) with (Some (ShownImage (_safe_file_info (pf_person after)))). rewrite Himage.
      unfold image_dropped, _safe_file_info.
      destruct (truthy_str (pe_profile_image (ed_person pending))); [done|].
      by destruct (truthy_str (pe_profile_image (pf_person original))).
    + apply list_elem_of_omap in Hf as ([name c] & Hin & Hrow). cbn in Hrow.
      destruct (String.eqb _ _); [done|]. injection Hrow as <-. unfold drops_image. cbn [df_field df_old df_new].
      rewrite !(shown_field name c) by done. split; [done|]. f_equal. f_equal. by apply pretty_of_edit.
  - intros name. unfold _build_diff. rewrite !fmap_app, !not_elem_of_app. intros (Hc & Hi & Hf).
    unfold shown_on. destruct (String.eqb name "coaching_clubs") eqn:E1.
    { apply String.eqb_eq in E1 as ->. clear Hi Hf. case_bool_decide as E; [|exfalso; apply Hc; by left].
      unfold after, approved. cbn. by rewrite E. }
    destruct (String.eqb name "profile_image") eqn:E2.
    { apply String.eqb_eq in E2 as ->. clear Hc Hf. case_bool_decide as E; [|exfalso; apply Hi; by left].
      change (Some (ShownImage (_safe_file_info (pf_person after))) = Some (ShownImage (_safe_file_info (pf_person original)))).
      rewrite Himage, (file_sig_inj _ _ E). by destruct (image_dropped original pending). }
    destruct (head _) as [[n c]|] eqn:Eh; [|done]. cbn. f_equal. f_equal.
    assert (Hin : (n, c) ∈ DIFF_FIELDS ∧ String.eqb n name = true).
    { destruct (List.filter _ _) as [|y l] eqn:El; [done|]. injection Eh as ->.
      assert (Hy : (n, c) ∈ (n, c) :: l) by left. by rewrite <- El, elem_of_filter_list in Hy. }
    destruct Hin as [Hin ->%String.eqb_eq]. unfold after, approved. cbn [pf_person]. rewrite pretty_of_edit by done.
    destruct (String.eqb_spec (_pretty name c (pf_person original)) (_pretty name c (ed_person pending))) as [->|Hne]; [done|].
    exfalso. apply Hf. apply list_elem_of_fmap.
    exists (mkDiffRow name (ShownText (_pretty name c (pf_person original))) (ShownText (_pretty name c (ed_person pending)))).
    split; [done|]. apply list_elem_of_omap. exists (name, c). split; [done|]. cbn. rewrite !pretty_stripped.
    by apply String.eqb_neq in Hne as ->.
Qed.

(** C31: what you see is what you approve, but for the image. After the approval of the admin every column of the page
    shows exactly what the comparison lists as its new value, and a column it does not list shows what it showed
    before. The one exception is an edit without an image of a profile that has one, which is exactly when the
    comparison lists an image as removed: the profile keeps showing the old image. *)
Theorem diff_shows_approval pk pending original c :
  cn_broken c = false → ac_profiles (cn_db c) !! ed_original_user pending = Some original →
  ∃ after, ac_profiles (cn_db (approve_edit (pk, pending) c).2) !! ed_original_user pending = Some after ∧
    (∀ row, row ∈ _build_diff original pending →
       shown_on (df_field row) original = Some (df_old row) ∧
       shown_on (df_field row) after = Some (if drops_image row then df_old row else df_new row)) ∧
    (∀ name, name ∉ (df_field <$> _build_diff original pending) → shown_on name after = shown_on name original) ∧
    ((∃ row, row ∈ _build_diff original pending ∧ drops_image row = true) ↔
       pe_profile_image (ed_person pending) = ""%string ∧ pe_profile_image (pf_person original) ≠ ""%string).
Proof.
  intros Hb Ho. exists (approved original pending). pose proof (diff_of_approved original pending) as [Hrows Hno].
  split_and!; [|done..|].
  - unfold approve_edit, bind at 1, get. rewrite Ho. unfold query, bind, modify. rewrite Hb. cbn.
    apply lookup_insert_eq.
  - rewrite drops_image_listed. unfold image_dropped, truthy_str.
    by rewrite andb_true_iff, negb_involutive, negb_true_iff, String.eqb_eq, String.eqb_neq.
Qed.
End diff.

(** ** The form of boards *)

Section boards.
Context (collate : string → string).

(** Another board with the same login. *)
Definition board_taken (s : accounts) (pk : Z) (user : option Z) : bool :=
  negb (is_none user) && existsb (λ kb, negb (kb.1 =? pk) && bool_decide (br_user kb.2 = user)) (rows_by_id (ac_boards s)).

Definition name_taken (s : accounts) (pk : Z) (name : string) : bool :=
  existsb (λ ku, negb (ku.1 =? pk) && same collate (us_username ku.2) name) (rows_by_id (ac_users s)).

(** The login of the form: the one of the board with what was typed in, or a new one. *)
Definition form_login (user : option Z) (username password : string) : M accounts (option Z) :=
  match user with
  | Some u =>
      (s <~ get ;;
       row <~ of_option (ac_users s !! u) DoesNotExist ;;
       let row := mkUser (or_str username (us_username row)) (if truthy_str password then Some password else us_password row) in
       if name_taken s u (us_username row) then raise IntegrityError
       else modify (λ s, set_ac_users (<[u := row]> (ac_users s)) s) ;;; ret (Some u))%monad
  | None =>
      if truthy_str username && truthy_str password then
        (s <~ get ;;
         if negb (is_none (find_user collate s username)) then raise IntegrityError
         else k <~ insert_user (mkUser username (Some password)) ;; ret (Some k))%monad
      else ret None
  end.

(** [TkdBoardAdminForm.save] and the row it stores, in one transaction of the admin. *)
Definition save_board (pk : Z) (name : string) (user : option Z) (username password : string) : M accounts unit :=
  atomic (
    user <~ form_login user username password ;;
    s <~ get ;;
    if board_taken s pk user then raise IntegrityError
    else modify (λ s, set_ac_boards (<[pk := mkBoard name user]> (ac_boards s)) s))%monad.

(** What [authenticate] promises: it finds the login with this name and password. *)
Definition authenticates (authenticate : string → string → option Z) (s : accounts) : Prop :=
  ∀ u row password, ac_users s !! u = Some row → us_password row = Some password →
    (∀ v x, ac_users s !! v = Some x → same collate (us_username x) (us_username row) = true → v = u) →
    authenticate (us_username row) password = Some u.

Lemma form_login_spec user username password s u s' :
  username ≠ ""%string → password ≠ ""%string → (∀ k x, ac_users s !! k = Some x → k < ac_next_id s) →
  form_login user username password s = (Ok u, s') →
  ac_boards s' = ac_boards s ∧ ∃ k, u = Some k ∧ ac_users s' !! k = Some (mkUser username (Some password)) ∧
    ∀ v x, ac_users s' !! v = Some x → same collate (us_username x) username = true → v = k.
Proof.
  intros Hn Hp Hkeys. apply truthy_true in Hn, Hp. unfold form_login. destruct user as [k|].
  - unfold bind, get, of_option. destruct (ac_users s !! k) as [row|] eqn:Hk; [|done]. unfold ret. rewrite Hp.
    unfold or_str. rewrite Hn. cbn. destruct (name_taken s k username) eqn:Ht; [done|]. unfold modify. intros [= <- <-].
    split; [done|]. exists k. cbn. rewrite lookup_insert_eq. split_and!; [done|done|].
    intros v x Hv Hs. apply lookup_insert_Some in Hv as [[<- _]|[Hne Hv]]; [done|]. exfalso.
    assert (name_taken s k username = true); [|congruence]. unfold name_taken. apply existsb_exists.
    exists (v, x). split; [by apply list_elem_of_In, elem_of_rows_by_id|]. cbn. rewrite Hs, andb_true_r.
    apply negb_true_iff, Z.eqb_neq. congruence.
  - rewrite Hn, Hp. cbn. unfold bind, get. destruct (find_user collate s username) eqn:Hf; [done|]. cbn.
    unfold insert_user, fresh, bind, modify, ret. cbn. intros [= <- <-]. split; [done|]. eexists. cbn. rewrite lookup_insert_eq.
    split_and!; [done|done|]. intros v x Hv Hs. apply lookup_insert_Some in Hv as [[<- _]|[Hne Hv]]; [done|].
    by rewrite (find_user_none collate s username Hf v x Hv) in Hs.
Qed.

(** A board saved with a username and a password can log in with them, on the page of the boards. *)
Theorem board_form_login pk name user username password s s' authenticate :
  username ≠ ""%string → password ≠ ""%string → (∀ k x, ac_users s !! k = Some x → k < ac_next_id s) →
  save_board pk name user username password s = (Ok tt, s') → authenticates authenticate s' →
  ∃ u, heyat_login authenticate s' (Some username) (Some password) = BoardLoggedIn u pk.
Proof.
  intros Hn Hp Hkeys Hsave Hauth. unfold save_board in Hsave. rewrite atomic_ok in Hsave.
  apply bind_ok in Hsave as (o & s1 & Hl & Hrest). destruct (form_login_spec _ _ _ _ _ _ Hn Hp Hkeys Hl) as (Hb & k & -> & Hk & Hu).
  unfold bind, get in Hrest. destruct (board_taken s1 pk (Some k)) eqn:Ht; [done|]. unfold modify in Hrest. injection Hrest as <-.
  exists k. apply truthy_true in Hn as Hn', Hp as Hp'. unfold heyat_login. cbn.
  rewrite Hn', Hp'. cbn. pose proof (Hauth k _ password Hk eq_refl) as Ha. cbn in Ha. rewrite Ha by exact Hu.
  destruct (board_of _ k) as [[b row]|] eqn:Eb; cbn.
  - apply first_row_some in Eb as [Hrow Hown]. apply bool_decide_eq_true in Hown. cbn in Hrow.
    apply lookup_insert_Some in Hrow as [[<- _]|[Hne Hrow]]; [done|]. exfalso.
    assert (board_taken s1 pk (Some k) = true); [|congruence]. unfold board_taken. cbn. apply existsb_exists.
    exists (b, row). split; [by apply list_elem_of_In, elem_of_rows_by_id|]. cbn.
    rewrite (bool_decide_eq_true_2 (br_user row = Some k)) by done. rewrite andb_true_r. apply negb_true_iff, Z.eqb_neq. congruence.
  - unfold board_of in Eb. rewrite first_row_none in Eb. specialize (Eb pk (mkBoard name (Some k))). cbn in Eb.
    rewrite lookup_insert_eq in Eb. specialize (Eb eq_refl). by rewrite bool_decide_eq_true_2 in Eb.
Qed.
End boards.

(** ** Witnesses and examples *)

Definition sms_live : sms_settings := mkSmsSettings false "u" "p" "1" "395583" "395884".
Definition sms_up (payload : list (string * string)) : option (Z * string) :=
  Some (200, "<?xml version=1.0?><string>123</string>")%string.

(** Zero is counted as success, and so is an answer without a sign in front of its last number. *)
Example zero_counts_as_sent :
  _is_ok_response "<?xml version=1.0?><string>0</string>" = true ∧
  _is_ok_response "<?xml version=1.0?><string>-7</string>" = false ∧ _is_ok_response "" = false.
Proof. by vm_compute. Qed.

Lemma answer_is_its_number_witness : _is_ok_response "<?xml version=1.0?><string>-7</string>" = (0 <=? -7).
Proof. exact (answer_is_its_number "<?xml version=1.0?><string" (-7) "</string>" eq_refl eq_refl). Defined.

Definition reject_desk : desk := mkDesk membership_db [].

Lemma rejected_may_apply_again_witness :
  let s' := (reject_selected sms_live sms_up (listed_rows PlayerApplication) applicant_phone delete_applicant [7] (Some "no photo"%string)
               reject_desk).2 in
  code_ok text (dk_db s') "4610000002" = true ∧ phone_ok text (dk_db s') "09130000002" = true.
Proof.
  refine (rejected_may_apply_again text sms_live sms_up PlayerApplication [7] "no photo" reject_desk 7 (mkPending (applicant "09130000002") ∅) _ _ _ _ _ _).
  - apply pairwise_singleton.
  - reflexivity.
  - by left.
  - reflexivity.
  - by vm_compute.
  - split; [reflexivity|reflexivity|]. intros k x Hx. unfold reject_desk, membership_db, demo_accounts in Hx. cbn in Hx.
    apply lookup_singleton_Some in Hx as [_ <-]. split; reflexivity.
Defined.

(** A waiting club with the number of its office: the answer says that a message was sent, none was, and the
    founder's mobile number was not tried. *)
Definition office_club : PendingClub :=
  mkPendingClub (mkClubData "Aria" "" "4610000003" "09130000003" "" None "" "" "Shahrekord" None "03833330000" "" "" "" "" true) "".

Example rejected_in_silence :
  let s := mkDesk (set_ac_pending_clubs {[8 := office_club]} membership_db) [] in
  let '(r, s') := delete_view sms_live sms_up ac_pending_clubs club_phone delete_club_application 8 (Some "no license"%string) s in
  r = Ok (BackToList [RejectedAndSent 1]) ∧ dk_sms s' = [] ∧ ac_pending_clubs (dk_db s') !! 8 = None ∧
  sms_ok (send_reject_signup_sms sms_live sms_up (cd_founder_phone (pc_data office_club)) "no license") = true.
Proof. by vm_compute. Qed.

(** The comparison shows names: a profile that moves to another club of the same name shows no change, and the
    approval moves it. *)
Definition club_member (club : Z) : Person := set_pe_club (Some club) (applicant "09130000002").

Example same_name_hides_change :
  let original := mkProfile None (club_member 11) ∅ in
  let pending := mkEdit 2 (club_member 12) ∅ in
  _build_diff (λ _ v, v) (λ _ _, "Aria"%string) (λ _, "Aria"%string) (λ _, None) original pending = [] ∧
  pe_club (pf_person (approved original pending)) = Some 12.
Proof. by vm_compute. Qed.

(** An edit without an image is compared as if it removed the image, which the approval keeps. *)
Definition with_image (file : string) : Person :=
  mkPerson "Ali" "Ahmadi" "" "4610000002" "" "" "09130000002" "player" file "" "" "" "" None "" (Some 2) "Sara Karimi" None [] "" "" ""
    false None None false false None None false None None false None None true.

Example kept_image_shown_as_removed :
  let original := mkProfile None (with_image "a.jpg") ∅ in
  let pending := mkEdit 2 (with_image "") ∅ in
  df_new <$> _build_diff (λ _ v, v) (λ _ _, ""%string) (λ _, ""%string) (λ _, None) original pending = [ShownImage None] ∧
  pe_profile_image (pf_person (approved original pending)) = "a.jpg"%string.
Proof. by vm_compute. Qed.

(** The edit of the example, and one without an image of a profile that has one. *)
Definition imaged_db : accounts :=
  set_ac_profiles (<[2 := mkProfile None (with_image "a.jpg") ∅]> (ac_profiles membership_db)) membership_db.

Lemma diff_shows_approval_witness :
  (∃ after, ac_profiles (cn_db (approve_edit (10, edit_request) (mkConn membership_db false [])).2) !! 2 = Some after ∧
    shown_on (λ _ v, v) (λ _ _, "x"%string) (λ _, "x"%string) (λ _, None) "first_name" after = Some (ShownText "Sara")) ∧
  (∃ after, ac_profiles (cn_db (approve_edit (10, mkEdit 2 (with_image "") ∅) (mkConn imaged_db false [])).2) !! 2 = Some after ∧
    ∃ row, row ∈ _build_diff (λ _ v, v) (λ _ _, "x"%string) (λ _, "x"%string) (λ _, None)
             (mkProfile None (with_image "a.jpg") ∅) (mkEdit 2 (with_image "") ∅) ∧
      shown_on (λ _ v, v) (λ _ _, "x"%string) (λ _, "x"%string) (λ _, None) (df_field row) after = Some (df_old row)).
Proof.
  split.
  - destruct (ac_profiles membership_db !! 2) as [original|] eqn:Eo; [|by vm_compute in Eo].
    destruct (diff_shows_approval (λ _ v, v) (λ _ _, "x"%string) (λ _, "x"%string) (λ _, None) 10 edit_request original
      (mkConn membership_db false []) eq_refl Eo) as (after & Ha & _).
    exists after. split; [exact Ha|]. vm_compute in Ha. injection Ha as <-. reflexivity.
  - destruct (diff_shows_approval (λ _ v, v) (λ _ _, "x"%string) (λ _, "x"%string) (λ _, None) 10 (mkEdit 2 (with_image "") ∅)
      (mkProfile None (with_image "a.jpg") ∅) (mkConn imaged_db false []) eq_refl (lookup_insert_eq _ _ _)) as (after & Ha & Hr & _ & Hd).
    exists after. split; [exact Ha|]. destruct (proj2 Hd) as (row & Hin & Hdrop); [by split|].
    exists row. split; [exact Hin|]. rewrite (proj2 (Hr row Hin)), Hdrop. reflexivity.
Defined.

Definition saved_board : accounts := (save_board text 5 "Shahrekord" None "board" "secret" form_db).2.

Definition board_auth (name password : string) : option Z :=
  if String.eqb name "board" && String.eqb password "secret" then Some 30
  else if String.eqb name phone_1 && String.eqb password "secret" then Some 1 else None.

Lemma board_form_login_witness : ∃ u, heyat_login board_auth saved_board (Some "board"%string) (Some "secret"%string) = BoardLoggedIn u 5.
Proof.
  apply (board_form_login text 5 "Shahrekord" None "board" "secret" form_db).
  - done.
  - done.
  - intros k x Hx. apply (wf_user_keys _ _ (proj1 form_db_wf)) in Hx. exact Hx.
  - vm_compute. reflexivity.
  - intros u row password Hu Hp _. vm_compute in Hu. unfold board_auth.
    destruct (decide (u = 30)) as [->|Hne].
    + vm_compute in Hu. injection Hu as <-. injection Hp as <-. reflexivity.
    + assert (Hrow : ac_users form_db !! u = Some row).
      { assert (Hs : ac_users saved_board = <[30 := mkUser "board" (Some "secret"%string)]> (ac_users form_db)) by (vm_compute; reflexivity).
        change (ac_users saved_board !! u = Some row) in Hu. rewrite Hs, lookup_insert_ne in Hu by done. exact Hu. }
      change (({[1 := mkUser phone_1 (Some "secret"%string)]} : gmap Z User) !! u = Some row) in Hrow.
      apply lookup_singleton_Some in Hrow as [<- <-]. cbn in Hp. injection Hp as <-. reflexivity.
Defined.
