(* ===== verification/MainSite.v ===== *)
(** The main site: [main/models.py], [main/serializers.py], [main/views.py] and the
    columns that [main/admin.py] lets the staff edit.

    The pages show news and circulars that are published; a board submits news, which
    stay hidden until the staff publishes them. Files are their names, moments are
    integers, and the user a board belongs to is the account table's. [OtherError] stands
    for the [NameError] of a name that [main/views.py] never imports. *)

From Stdlib Require Import Ascii.
From S2P Require Import Prelude Store Ranking Payments Text Accounts.
Local Open Scope Z_scope.

(** ** Rows *)

Record News := mkNews {
  nw_title : string;
  nw_content : string;
  nw_image : string;
  nw_author : option Z;
  nw_created_at : Z;
  nw_board : option Z;
  nw_published : bool;
}.

Definition set_nw_published (v : bool) (n : News) : News :=
  mkNews (nw_title n) (nw_content n) (nw_image n) (nw_author n) (nw_created_at n) (nw_board n) v.

(** [NewsImage], [CircularImage] and [CircularAttachment]: a file of a parent row. *)
Record Attached := mkAttached {
  at_parent : Z;
  at_file : string;
}.

Record Circular := mkCircular {
  ci_title : string;
  ci_content : string;
  ci_thumbnail : string;
  ci_author : option Z;
  ci_created_at : Z;
  ci_published : bool;
}.

Definition set_ci_published (v : bool) (c : Circular) : Circular :=
  mkCircular (ci_title c) (ci_content c) (ci_thumbnail c) (ci_author c) (ci_created_at c) v.

Record HeaderBackground := mkHeader {
  hb_background_image : string;
  hb_created_at : Z;
}.

Record SliderImage := mkSlider {
  sl_image : string;
  sl_title : option string;
  sl_order : Z;
}.

Record site := mkSite {
  st_news : gmap Z News;
  st_news_images : gmap Z Attached;
  st_circulars : gmap Z Circular;
  st_circular_images : gmap Z Attached;
  st_circular_attachments : gmap Z Attached;
  st_headers : gmap Z HeaderBackground;
  st_sliders : gmap Z SliderImage;
  st_next_id : Z;
}.

Definition set_st_news (v : gmap Z News) (s : site) : site :=
  mkSite v (st_news_images s) (st_circulars s) (st_circular_images s) (st_circular_attachments s)
    (st_headers s) (st_sliders s) (st_next_id s).
Definition set_st_news_images (v : gmap Z Attached) (s : site) : site :=
  mkSite (st_news s) v (st_circulars s) (st_circular_images s) (st_circular_attachments s)
    (st_headers s) (st_sliders s) (st_next_id s).
Definition set_st_circulars (v : gmap Z Circular) (s : site) : site :=
  mkSite (st_news s) (st_news_images s) v (st_circular_images s) (st_circular_attachments s)
    (st_headers s) (st_sliders s) (st_next_id s).
Definition set_st_next_id (v : Z) (s : site) : site :=
  mkSite (st_news s) (st_news_images s) (st_circulars s) (st_circular_images s) (st_circular_attachments s)
    (st_headers s) (st_sliders s) v.

(** The files attached to a row, in the order they were stored. *)
Definition files_of (t : gmap Z Attached) (parent : Z) : list string :=
  (λ ka, at_file ka.2) <$> List.filter (λ ka, at_parent ka.2 =? parent) (rows_by_id t).

(** [order_by('-created_at')] *)
Definition newest_first {A} (created_at : A → Z) (l : list (Z * A)) : list (Z * A) :=
  sort_by (λ a b, created_at b.2 <=? created_at a.2) l.

(** ** The header and the slider *)

(** [HeaderBackgroundAPIView.get]: the image of the latest row, or an empty name. *)
Definition header_background (s : site) : string :=
  match newest_first hb_created_at (rows_by_id (st_headers s)) with
  | [] => ""
  | kh :: _ => hb_background_image kh.2
  end.

(** [SliderImagesAPIView.get], with the ordering of the model. *)
Definition slider_images (s : site) : list (string * option string) :=
  (λ ks, (sl_image ks.2, sl_title ks.2))
    <$> sort_by (λ a b, sl_order a.2 <=? sl_order b.2) (rows_by_id (st_sliders s)).

(** ** News *)

(** [NewsSerializer] *)
Record news_json := mkNewsJson {
  nj_id : Z;
  nj_title : string;
  nj_content : string;
  nj_image : string;
  nj_author : option Z;
  nj_created_at : Z;
  nj_images : list string;
}.

Definition NewsSerializer (s : site) (kn : Z * News) : news_json :=
  mkNewsJson kn.1 (nw_title kn.2) (nw_content kn.2) (nw_image kn.2) (nw_author kn.2) (nw_created_at kn.2)
    (files_of (st_news_images s) kn.1).

Definition published_news (s : site) : list (Z * News) :=
  newest_first nw_created_at (List.filter (λ kn, nw_published kn.2) (rows_by_id (st_news s))).

(** [NewsSliderAPIView.get], [NewsListAPIView.get], [NewsDetailView.get]; [None] answers 404. *)
Definition news_slider (s : site) : list news_json := NewsSerializer s <$> take 4 (published_news s).
Definition news_list (s : site) : list news_json := NewsSerializer s <$> published_news s.
Definition news_detail (s : site) (pk : Z) : option news_json :=
  match st_news s !! pk with
  | Some n => if nw_published n then Some (NewsSerializer s (pk, n)) else None
  | None => None
  end.

(** ** Circulars *)

(** [CircularSerializer]; a user is a username with a full name, and [absolute_uri] is
    [request.build_absolute_uri] of the url of a file. *)
Record circular_json := mkCircularJson {
  cj_id : Z;
  cj_title : string;
  cj_thumbnail : string;
  cj_thumbnail_url : string;
  cj_content : string;
  cj_images : list string;
  cj_attachments : list string;
  cj_author_username : string;
  cj_admin_name : string;
  cj_has_attachments : bool;
  cj_created_at : Z;
  cj_published : bool;
}.

Section circulars.
Context (users : Z → option (string * string)) (absolute_uri : string → string).

Definition CircularSerializer (s : site) (kc : Z * Circular) : circular_json :=
  let c := kc.2 in
  let author := ci_author c ≫= users in
  mkCircularJson kc.1 (ci_title c) (ci_thumbnail c)
    (if truthy_str (ci_thumbnail c) then absolute_uri (ci_thumbnail c) else "")
    (ci_content c) (files_of (st_circular_images s) kc.1) (files_of (st_circular_attachments s) kc.1)
    (match author with Some u => u.1 | None => "ناشناس" end)
    (match author with Some u => u.2 | None => "نامشخص" end)
    (existsb (λ ka, at_parent ka.2 =? kc.1) (rows_by_id (st_circular_attachments s)))
    (ci_created_at c) (ci_published c).

Definition published_circulars (s : site) : list (Z * Circular) :=
  newest_first ci_created_at (List.filter (λ kc, ci_published kc.2) (rows_by_id (st_circulars s))).

(** [CircularListAPIView.get], [CircularsListAPIView.get] and [CircularDetailAPIView.get] *)
Definition circulars_slider (s : site) : list circular_json := CircularSerializer s <$> take 4 (published_circulars s).
Definition circulars_list (s : site) : list circular_json := CircularSerializer s <$> published_circulars s.
Definition circular_detail (s : site) (pk : Z) : option circular_json :=
  match st_circulars s !! pk with
  | Some c => if ci_published c then Some (CircularSerializer s (pk, c)) else None
  | None => None
  end.
End circulars.

(** ** News of a board *)

Record news_form := mkNewsForm {
  nf_title : string;
  nf_content : string;
  nf_image : option string;
  nf_images : list string;
}.

(** [Path(name).suffix[1:].lower()]: nothing when the only dot is the first character. *)
Definition extension (name : string) : string :=
  match list.reverse (split_on "."%char name) with
  | [] | [_] | [_; EmptyString] => ""
  | e :: _ => lower e
  end.
Definition image_extension (name : string) : bool := existsb (String.eqb (extension name)) ["jpg"; "jpeg"; "png"]%string.

(** The fields of [BoardNewsSubmitSerializer], generated from the model: texts are
    stripped and must not be blank. Whether the file is an image at all is not looked into. *)
Definition valid_news (f : news_form) : bool :=
  truthy_str (strip (nf_title f)) && (py_len (strip (nf_title f)) <=? 200) && truthy_str (strip (nf_content f))
  && match nf_image f with Some i => image_extension i | None => false end.

Section submission.
Context (tkdboard : Z → option Z).

Definition add_news (n : News) : M site Z := λ s,
  (Ok (st_next_id s), set_st_news (<[st_next_id s := n]> (st_news s)) (set_st_next_id (st_next_id s + 1) s)).

(** [NewsImage.objects.create(news=news, image=image)] *)
Definition add_news_image (news : Z) (image : string) : M site unit :=
  modify (λ s, set_st_news_images (<[st_next_id s := mkAttached news image]> (st_news_images s))
                 (set_st_next_id (st_next_id s + 1) s)).

Definition add_images (news : Z) (images : list string) : M site unit := forM images (add_news_image news).

(** [BoardNewsSubmitSerializer.create] *)
Definition create_news (user : Z) (now : Z) (f : news_form) : M site Z :=
  (news <~ add_news (mkNews (strip (nf_title f)) (strip (nf_content f)) (default "" (nf_image f)) (Some user) now
                       (tkdboard user) false) ;;
   add_images news (nf_images f) ;;;
   ret news)%monad.

(** [BoardNewsSubmitAPIView.perform_create]: [PermissionDenied] is not imported, so a user
    without a board gets a [NameError]. *)
Definition perform_create (user : Z) (now : Z) (f : news_form) : M site Z :=
  match tkdboard user with
  | None => raise OtherError
  | Some _ => (news <~ create_news user now f ;; add_images news (nf_images f) ;;; ret news)%monad
  end.

(** The whole request. *)
Definition submit_news (user : Z) (now : Z) (f : news_form) : M site Z :=
  if valid_news f then perform_create user now f else raise ValidationError.

(** [BoardMyNewsListAPIView], as id, title, content and image. *)
Definition my_news (s : site) (user : Z) : list (Z * string * string * string) :=
  match tkdboard user with
  | None => []
  | Some b =>
      (λ kn, (kn.1, nw_title kn.2, nw_content kn.2, nw_image kn.2))
        <$> reverse (List.filter (λ kn, bool_decide (nw_board kn.2 = Some b)) (rows_by_id (st_news s)))
  end.
End submission.

(** [SendOTPView.post], which no url leads to: neither [random] nor [MobileOTP] is imported. *)
Definition send_otp (phone : string) : M site bool :=
  if truthy_str phone then raise OtherError else ret false.

(** ** The staff *)

(** [list_editable = ('published',)] of [NewsAdmin] and [CircularAdmin]. *)
Definition publish_news (pk : Z) (v : bool) (s : site) : site := set_st_news (alter (set_nw_published v) pk (st_news s)) s.
Definition publish_circular (pk : Z) (v : bool) (s : site) : site :=
  set_st_circulars (alter (set_ci_published v) pk (st_circulars s)) s.

(** Deleting a news item takes its images along. *)
Definition delete_news (pk : Z) (s : site) : site :=
  set_st_news (delete pk (st_news s))
    (set_st_news_images (filter (λ ka, (at_parent ka.2 =? pk) = false) (st_news_images s)) s).

(** A sequence of forms, each with its sender and moment. *)
Fixpoint submit_all (tkdboard : Z → option Z) (l : list (Z * Z * news_form)) (s : site) : site :=
  match l with
  | [] => s
  | (user, now, f) :: l' => submit_all tkdboard l' (submit_news tkdboard user now f s).2
  end.

Inductive site_step (tkdboard : Z → option Z) (s : site) : site → Prop :=
  | board_submits user now f : site_step tkdboard s (submit_news tkdboard user now f s).2
  | staff_publishes_news pk v : site_step tkdboard s (publish_news pk v s)
  | staff_publishes_circular pk v : site_step tkdboard s (publish_circular pk v s)
  | staff_deletes_news pk : site_step tkdboard s (delete_news pk s).

(** What every site satisfies: keys are used up to the counter and files have their news. *)
Record site_wf (s : site) : Prop := {
  wf_news_keys : ∀ k n, st_news s !! k = Some n → k < st_next_id s;
  wf_image_keys : ∀ k a, st_news_images s !! k = Some a → k < st_next_id s;
  wf_image_news : ∀ k a, st_news_images s !! k = Some a → is_Some (st_news s !! at_parent a);
}.

Lemma site_wf_empty : site_wf (mkSite ∅ ∅ ∅ ∅ ∅ ∅ ∅ 1).
Proof. split; cbn; intros k x H; by rewrite lookup_empty in H. Qed.

(** ** Facts about the pages *)

Section pages.
Implicit Types s : site.

Lemma elem_of_newest_first {A} (c : A → Z) l x : x ∈ newest_first c l ↔ x ∈ l.
Proof. unfold newest_first. by rewrite sort_by_perm. Qed.

Lemma newest_first_sorted {A} (c : A → Z) l : StronglySorted (λ a b, c b.2 ≤ c a.2) (newest_first c l).
Proof.
  unfold newest_first. eapply StronglySorted_weaken; [|apply sort_by_sorted]; cbn; intros *; rewrite ?Z.leb_le; lia.
Qed.

Lemma elem_of_published_news s k n : (k, n) ∈ published_news s ↔ st_news s !! k = Some n ∧ nw_published n = true.
Proof. unfold published_news. by rewrite elem_of_newest_first, elem_of_filter_list, elem_of_rows_by_id. Qed.

Lemma elem_of_published_circulars s k c :
  (k, c) ∈ published_circulars s ↔ st_circulars s !! k = Some c ∧ ci_published c = true.
Proof. unfold published_circulars. by rewrite elem_of_newest_first, elem_of_filter_list, elem_of_rows_by_id. Qed.

Lemma NoDup_published_news s : NoDup (published_news s).*1.
Proof.
  unfold published_news, newest_first. rewrite sort_by_perm. apply NoDup_fst_filter, NoDup_rows_by_id.
Qed.

Lemma files_of_insert (t : gmap Z Attached) k a parent : map_Forall (λ i _, i < k) t →
  files_of (<[k := a]> t) parent = files_of t parent ++ (if at_parent a =? parent then [at_file a] else []).
Proof.
  intros Hk. unfold files_of. rewrite (rows_by_id_insert t k a Hk), List.filter_app, fmap_app. cbn.
  by destruct (at_parent a =? parent).
Qed.

Lemma no_files t parent : (∀ k a, t !! k = Some a → at_parent a ≠ parent) → files_of t parent = [].
Proof.
  intros Ht. unfold files_of. destruct (List.filter _ _) as [|[k a] l] eqn:E; [done|]. exfalso.
  assert (Hin : (k, a) ∈ List.filter (λ ka, at_parent ka.2 =? parent) (rows_by_id t)) by (rewrite E; left).
  apply elem_of_filter_list in Hin as [Hin%elem_of_rows_by_id Hp%Z.eqb_eq]. by apply Ht in Hin.
Qed.
End pages.

Lemma news_detail_listed s pk j : news_detail s pk = Some j ↔ j ∈ news_list s ∧ nj_id j = pk.
Proof.
  unfold news_detail, news_list. rewrite list_elem_of_fmap. split.
  - destruct (st_news s !! pk) as [n|] eqn:E; [|done]. destruct (nw_published n) eqn:Ep; [|done].
    intros [= <-]. split; [|done]. exists (pk, n). by rewrite elem_of_published_news.
  - intros [([k n] & -> & [Hk Hp]%elem_of_published_news) Hid]. cbn in Hid. subst k. by rewrite Hk, Hp.
Qed.

Lemma circular_detail_listed users uri s pk j :
  circular_detail users uri s pk = Some j ↔ j ∈ circulars_list users uri s ∧ cj_id j = pk.
Proof.
  unfold circular_detail, circulars_list. rewrite list_elem_of_fmap. split.
  - destruct (st_circulars s !! pk) as [c|] eqn:E; [|done]. destruct (ci_published c) eqn:Ep; [|done].
    intros [= <-]. split; [|done]. exists (pk, c). by rewrite elem_of_published_circulars.
  - intros [([k c] & -> & [Hk Hp]%elem_of_published_circulars) Hid]. cbn in Hid. subst k. by rewrite Hk, Hp.
Qed.

Lemma same_list_same_detail s s' pk : news_list s' = news_list s → news_detail s' pk = news_detail s pk.
Proof.
  intros Hl. apply option_eq. intros j. by rewrite !news_detail_listed, Hl.
Qed.

(** The pages show what is published. The page of a news item opens exactly when the
    item is on the full list, and shows the same there; the slider of the start page shows the
    first four of the list, which runs from the newest to the oldest. So do the circulars. *)
Theorem public_pages_agree users uri s pk :
  (∀ j, news_detail s pk = Some j ↔ j ∈ news_list s ∧ nj_id j = pk) ∧
  (∀ j, circular_detail users uri s pk = Some j ↔ j ∈ circulars_list users uri s ∧ cj_id j = pk) ∧
  news_slider s = take 4 (news_list s) ∧
  circulars_slider users uri s = take 4 (circulars_list users uri s) ∧
  StronglySorted (λ a b, nj_created_at b ≤ nj_created_at a) (news_list s).
Proof.
  split_and!.
  - intros j. apply news_detail_listed.
  - intros j. apply circular_detail_listed.
  - unfold news_slider, news_list. by rewrite fmap_take.
  - unfold circulars_slider, circulars_list. by rewrite fmap_take.
  - unfold news_list, published_news.
    pose proof (newest_first_sorted nw_created_at (List.filter (λ kn, nw_published kn.2) (rows_by_id (st_news s)))) as Hs.
    revert Hs. generalize (newest_first nw_created_at (List.filter (λ kn, nw_published kn.2) (rows_by_id (st_news s)))).
    intros l Hs. induction Hs as [|[k n] l Hs IH Hall]; cbn; [constructor|]. constructor; [done|].
    apply Forall_fmap. eapply Forall_impl; [exact Hall|done].
Qed.

(** ** Facts about submissions *)

Section submissions.
Context (tkdboard : Z → option Z).
Implicit Types s : site.

Definition news_of_form (user now : Z) (f : news_form) : News :=
  mkNews (strip (nf_title f)) (strip (nf_content f)) (default "" (nf_image f)) (Some user) now (tkdboard user) false.

Lemma add_images_spec k l : ∀ s, site_wf s → is_Some (st_news s !! k) →
  ∃ s', add_images k l s = (Ok tt, s') ∧ site_wf s' ∧ st_news s' = st_news s ∧ st_circulars s' = st_circulars s ∧
    ∀ j, files_of (st_news_images s') j = files_of (st_news_images s) j ++ (if k =? j then l else []).
Proof.
  unfold add_images. induction l as [|x l IH]; intros s Hwf Hk.
  { exists s. cbn. split_and!; try done. intros j. destruct (k =? j); by rewrite app_nil_r. }
  cbn. unfold bind. cbn.
  set (s1 := set_st_news_images _ _).
  assert (Hwf1 : site_wf s1).
  { destruct Hwf as [Hn Hi Hp]. subst s1. split; cbn.
    - intros i n Hi'. apply Hn in Hi'. lia.
    - intros i a. rewrite lookup_insert_Some. intros [[<- <-]|[_ Hi']]; [lia|]. apply Hi in Hi'. lia.
    - intros i a. rewrite lookup_insert_Some. intros [[<- <-]|[_ Hi']]; [done|]. by apply Hp in Hi'. }
  destruct (IH s1 Hwf1 Hk) as (s' & Hrun & Hwf' & Hn & Hc & Hf).
  exists s'. split_and!; try done. intros j. rewrite Hf. subst s1. cbn.
  rewrite files_of_insert by (intros i a Hi; by apply (wf_image_keys _ Hwf) in Hi). cbn.
  destruct (k =? j); by rewrite <- app_assoc.
Qed.

Lemma submit_spec s user now f b : site_wf s → tkdboard user = Some b → valid_news f = true →
  ∃ s', submit_news tkdboard user now f s = (Ok (st_next_id s), s') ∧ site_wf s' ∧
    st_news s' = <[st_next_id s := news_of_form user now f]> (st_news s) ∧ st_circulars s' = st_circulars s ∧
    ∀ j, files_of (st_news_images s') j =
      files_of (st_news_images s) j ++ (if st_next_id s =? j then nf_images f ++ nf_images f else []).
Proof.
  intros Hwf Hb Hv. unfold submit_news, perform_create, create_news. rewrite Hv, Hb. unfold bind at 1 2. cbn [add_news].
  rewrite <- Hb. fold (news_of_form user now f).
  set (s1 := set_st_news _ _).
  assert (Hwf1 : site_wf s1).
  { destruct Hwf as [Hn Hi Hp]. subst s1. split; cbn.
    - intros i n. rewrite lookup_insert_Some. intros [[<- <-]|[_ Hi']]; [lia|]. apply Hn in Hi'. lia.
    - intros i a Hi'. apply Hi in Hi'. lia.
    - intros i a Hi'. destruct (decide (st_next_id s = at_parent a)) as [<-|Hne].
      + rewrite lookup_insert_eq. by eexists.
      + rewrite lookup_insert_ne by done. by apply Hp in Hi'. }
  destruct (add_images_spec (st_next_id s) (nf_images f) s1 Hwf1) as (s2 & Hr2 & Hwf2 & Hn2 & Hc2 & Hf2).
  { subst s1. cbn. rewrite lookup_insert_eq. by eexists. }
  destruct (add_images_spec (st_next_id s) (nf_images f) s2 Hwf2) as (s3 & Hr3 & Hwf3 & Hn3 & Hc3 & Hf3).
  { rewrite Hn2. subst s1. cbn. rewrite lookup_insert_eq. by eexists. }
  exists s3. unfold bind. rewrite Hr2. cbn. rewrite Hr3. cbn. split_and!; try done.
  - by rewrite Hn3, Hn2.
  - by rewrite Hc3, Hc2.
  - intros j. rewrite Hf3, Hf2. subst s1. cbn. destruct (st_next_id s =? j); [by rewrite app_assoc|by rewrite !app_nil_r].
Qed.

Lemma submit_refused s user now f : valid_news f = false ∨ tkdboard user = None →
  (submit_news tkdboard user now f s).2 = s.
Proof.
  unfold submit_news, perform_create. destruct (valid_news f); [|done]. intros [?|Hb]; [done|]. by rewrite Hb.
Qed.

(** What a submission leaves alone. *)
Lemma published_news_insert s s' n : site_wf s → st_news s' = <[st_next_id s := n]> (st_news s) →
  nw_published n = false → published_news s' = published_news s.
Proof.
  intros Hwf Hn Hp. unfold published_news. rewrite Hn.
  rewrite rows_by_id_insert by (intros i m Hi; by apply (wf_news_keys _ Hwf) in Hi).
  rewrite List.filter_app. cbn. by rewrite Hp, app_nil_r.
Qed.

Lemma fresh_news_has_no_files s : site_wf s → files_of (st_news_images s) (st_next_id s) = [].
Proof.
  intros Hwf. apply no_files. intros k a Ha Heq. destruct (wf_image_news _ Hwf k a Ha) as [n Hn].
  rewrite Heq in Hn. apply (wf_news_keys _ Hwf) in Hn. lia.
Qed.

Lemma news_page_submitted s user now f : site_wf s →
  site_wf (submit_news tkdboard user now f s).2 ∧
  news_list (submit_news tkdboard user now f s).2 = news_list s.
Proof.
  intros Hwf. destruct (valid_news f) eqn:Hv, (tkdboard user) as [b|] eqn:Hb.
  2-4: rewrite submit_refused by auto; done.
  destruct (submit_spec s user now f b Hwf Hb Hv) as (s' & Hrun & Hwf' & Hn & Hc & Hf).
  rewrite Hrun. cbn. split; [done|]. unfold news_list.
  rewrite (published_news_insert s s' _ Hwf Hn eq_refl). apply list_fmap_ext. intros i [k n] Hk.
  apply list_elem_of_lookup_2, elem_of_published_news in Hk as [Hk _]. apply (wf_news_keys _ Hwf) in Hk.
  unfold NewsSerializer. cbn. rewrite Hf, (proj2 (Z.eqb_neq _ _)) by lia. by rewrite app_nil_r.
Qed.
End submissions.

(** The site stays in order. Starting from an empty site, through every sequence of
    submissions, publications and deletions, keys stay below the counter that gives new ones
    and every stored image belongs to a news item that exists. *)
Theorem site_stays_wf tkdboard s : rtc (site_step tkdboard) (mkSite ∅ ∅ ∅ ∅ ∅ ∅ ∅ 1) s → site_wf s.
Proof.
  intros Hs. refine (rtc_ind_r site_wf _ site_wf_empty _ s Hs).
  intros s1 s2 _ Hstep [Hn Hi Hp]. destruct Hstep as [user now f|pk v|pk v|pk].
  - by apply news_page_submitted.
  - split; cbn; [|done|].
    + intros k n. rewrite lookup_alter_Some. intros [(<- & m & Hm & ->)|[_ Hm]]; by apply Hn in Hm.
    + intros k a Ha. apply Hp in Ha. by rewrite lookup_alter_is_Some.
  - by split.
  - split; cbn.
    + intros k n. rewrite lookup_delete_Some. intros [_ Hk]. by apply Hn in Hk.
    + intros k a. rewrite map_lookup_filter_Some. intros [Hk _]. by apply Hi in Hk.
    + intros k a. rewrite map_lookup_filter_Some. cbn. rewrite Z.eqb_neq. intros [Hk Hne].
      rewrite lookup_delete_ne by done. by apply Hp in Hk.
Qed.

(** News of a board, from the form to the reader. A board's valid form is stored as one
    news item under a new key, hidden: it heads the board's own list, its page is not
    found, and the public list is the same. Once the staff publishes it, its page and the list
    show it, with every image of the form twice, since the serializer and the view both store
    them. *)
Theorem board_news_reaches_readers tkdboard s user now f b :
  site_wf s → tkdboard user = Some b → valid_news f = true →
  ∃ id s', submit_news tkdboard user now f s = (Ok id, s') ∧ st_news s !! id = None ∧
    news_detail s' id = None ∧ news_list s' = news_list s ∧
    my_news tkdboard s' user = (id, strip (nf_title f), strip (nf_content f), default "" (nf_image f)) :: my_news tkdboard s user ∧
    let shown := mkNewsJson id (strip (nf_title f)) (strip (nf_content f)) (default "" (nf_image f)) (Some user) now
                   (nf_images f ++ nf_images f) in
    news_detail (publish_news id true s') id = Some shown ∧ shown ∈ news_list (publish_news id true s').
Proof.
  intros Hwf Hb Hv. destruct (submit_spec tkdboard s user now f b Hwf Hb Hv) as (s' & Hrun & Hwf' & Hn & Hc & Hf).
  destruct (news_page_submitted tkdboard s user now f Hwf) as [_ Hl]. rewrite Hrun in Hl. cbn in Hl.
  assert (Hfresh : st_news s !! st_next_id s = None).
  { destruct (st_news s !! st_next_id s) as [n|] eqn:E; [|done]. apply (wf_news_keys _ Hwf) in E. lia. }
  exists (st_next_id s), s'. split_and!; [done|done| |done| |].
  - unfold news_detail. by rewrite Hn, lookup_insert_eq.
  - unfold my_news. rewrite Hb, Hn, rows_by_id_insert by (intros i m Hi; by apply (wf_news_keys _ Hwf) in Hi).
    rewrite List.filter_app. cbn. rewrite Hb, bool_decide_eq_true_2 by done. by rewrite reverse_app.
  - set (n' := set_nw_published true (news_of_form tkdboard user now f)).
    assert (Hn' : st_news (publish_news (st_next_id s) true s') !! st_next_id s = Some n').
    { cbn. by rewrite Hn, lookup_alter_eq, lookup_insert_eq. }
    assert (Hj : NewsSerializer (publish_news (st_next_id s) true s') (st_next_id s, n') =
      mkNewsJson (st_next_id s) (strip (nf_title f)) (strip (nf_content f)) (default "" (nf_image f)) (Some user) now
                   (nf_images f ++ nf_images f)).
    { unfold NewsSerializer. cbn. by rewrite Hf, Z.eqb_refl, (fresh_news_has_no_files s Hwf). }
    split.
    + unfold news_detail. rewrite Hn'. cbn [nw_published n' set_nw_published]. by rewrite Hj.
    + rewrite <- Hj. apply list_elem_of_fmap. exists (st_next_id s, n'). by rewrite elem_of_published_news.
Qed.

(** Boards publish nothing. Whatever forms are sent, by whomever, the public list, the
    slider and the pages of the news are the same afterwards. *)
Theorem submissions_stay_hidden tkdboard s l :
  site_wf s →
  news_list (submit_all tkdboard l s) = news_list s ∧ news_slider (submit_all tkdboard l s) = news_slider s ∧
  ∀ pk, news_detail (submit_all tkdboard l s) pk = news_detail s pk.
Proof.
  intros Hwf. assert (Hl : news_list (submit_all tkdboard l s) = news_list s).
  { revert s Hwf. induction l as [|[[user now] f] l IH]; intros s Hwf; [done|]. cbn.
    destruct (news_page_submitted tkdboard s user now f Hwf) as [Hwf' <-]. by apply IH. }
  split_and!; [done| |].
  - unfold news_slider. rewrite !fmap_take. unfold news_list in Hl. by rewrite Hl.
  - intros pk. by apply same_list_same_detail.
Qed.

(** A user without a board is refused, but by the error of a missing name instead of
    the answer 403 that the view means to give; nothing is stored. *)
Theorem no_board_is_an_error tkdboard s user now f :
  tkdboard user = None → valid_news f = true →
  submit_news tkdboard user now f s = (Err OtherError, s).
Proof. intros Hb Hv. unfold submit_news, perform_create. by rewrite Hv, Hb. Qed.

(** ** Witnesses *)

Definition sample_form : news_form := mkNewsForm " Cup " "Results" (Some "cup.JPG") ["a.png"; "b.txt"]%string.
Definition sample_board : Z → option Z := λ u, if u =? 7 then Some 2 else None.
Definition sample_site : site := (submit_news sample_board 7 100 sample_form (mkSite ∅ ∅ ∅ ∅ ∅ ∅ ∅ 1)).2.

Example images_stored_twice : files_of (st_news_images sample_site) 1 = ["a.png"; "b.txt"; "a.png"; "b.txt"]%string.
Proof. vm_compute. reflexivity. Qed.

Lemma site_stays_wf_witness : site_wf sample_site.
Proof. apply (site_stays_wf sample_board). apply rtc_once, board_submits. Defined.

Lemma board_news_reaches_readers_witness :
  ∃ id s', submit_news sample_board 7 100 sample_form (mkSite ∅ ∅ ∅ ∅ ∅ ∅ ∅ 1) = (Ok id, s') ∧ news_detail s' id = None.
Proof.
  destruct (board_news_reaches_readers sample_board _ 7 100 sample_form 2 site_wf_empty eq_refl eq_refl)
    as (id & s' & Hr & _ & Hd & _). by exists id, s'.
Defined.

Lemma submissions_stay_hidden_witness :
  news_list (submit_all sample_board [(7, 100, sample_form); (8, 101, sample_form)] (mkSite ∅ ∅ ∅ ∅ ∅ ∅ ∅ 1)) = [].
Proof.
  exact (proj1 (submissions_stay_hidden sample_board _ [(7, 100, sample_form); (8, 101, sample_form)] site_wf_empty)).
Defined.

Lemma no_board_is_an_error_witness :
  submit_news sample_board 8 100 sample_form sample_site = (Err OtherError, sample_site).
Proof. apply (no_board_is_an_error sample_board); reflexivity. Defined.
