(* ===== verification/AdminForms.v ===== *)
(** Forms of the admin that store rows: results through the model admin, the mats of
    poomsae competitions, names of uploaded files, the coaches a discount code may be for
    ([src/competitions/admin.py] with the [clean] of [PoomsaeMatAssignment] in
    [competitions/models.py]) and the history of edits ([src/accounts/models.py]).

    A form is what the browser posts; Django's formsets are modelled by what they ask of
    the forms: every form that is not marked for deletion is valid, and no two of them
    have the same unique columns. *)

From Stdlib Require Import Ascii SpecFloat.
From S2P Require Import Prelude Brackets Store Points Ranking Ledger NumberingService Payments GroupRegistration Text Accounts AdminPages.
Local Open Scope Z_scope.

(** ** Results through [KyorugiResultAdmin] *)

Section results.
Context {P : Type} `{PointArith P}.
Local Abbreviation db := (DB P).
Implicit Types d : db.

(** The fields of the form; [created_by] is a user that exists. *)
Record result_admin_post := mkResultAdminPost {
  ra_competition : option string;
  ra_weight_category : option string;
  ra_gold : option string;
  ra_silver : option string;
  ra_bronze1 : option string;
  ra_bronze2 : option string;
  ra_notes : string;
  ra_created_by : option Z;
}.

(** [data.get(name) or getattr(self.instance, name, None)], used as a key. *)
Definition posted_or (v : option string) (inst : option Z) : result (option Z) :=
  match v with
  | None | Some EmptyString => Ok inst
  | Some t => pk_lookup (Some t)
  end.

(** The weights on the mats of a competition, whatever their gender. *)
Definition mat_weight_choices d (comp : Z) : list (Z * WeightCategory) :=
  List.filter (λ kw, bool_decide (kw.1 ∈ (mats_of d comp ≫= ma_weights))) (rows_by_id (db_weights d)).

(** The choices [KyorugiResultAdminForm.__init__] leaves for the weight and the places. *)
Definition admin_result_choices d (p : result_admin_post) (inst : option KyorugiResult)
    : result (list (Z * WeightCategory) * list (Z * Enrollment)) :=
  match posted_or (ra_competition p) (re_competition <$> inst) with
  | Err e => Err e
  | Ok None => Ok ([], [])
  | Ok (Some comp) =>
      let weights := if is_none (db_competitions d !! comp) then [] else mat_weight_choices d comp in
      match posted_or (ra_weight_category p) (re_weight_category <$> inst) with
      | Err e => Err e
      | Ok None => Ok (weights, [])
      | Ok (Some w) => Ok (weights, entry_choices d comp w)
      end
  end.

(** The fields: competition and weight are required, places are not. *)
Definition admin_result_form d (p : result_admin_post) (inst : option KyorugiResult) : result (option KyorugiResult) :=
  match admin_result_choices d p inst with
  | Err e => Err e
  | Ok (weights, entries) =>
      let field v := model_choice entries v in
      Ok (comp ← mjoin (model_choice (rows_by_id (db_competitions d)) (ra_competition p));
          weight ← mjoin (model_choice weights (ra_weight_category p));
          gold ← field (ra_gold p);
          silver ← field (ra_silver p);
          bronze1 ← field (ra_bronze1 p);
          bronze2 ← field (ra_bronze2 p);
          Some (mkKyorugiResult comp weight gold silver bronze1 bronze2 (ra_notes p) (ra_created_by p)))
  end.

(** A post to the add page or, with a key, to the change page: [None] shows the form with
    its errors. The row is checked by [full_clean] as a form and saved. *)
Definition kyorugi_result_admin (pk : option Z) (p : result_admin_post) : M db (option Z) :=
  atomic (
    d <~ get ;;
    f <~ lift (admin_result_form d p (pk ≫= (db_results d !!.))) ;;
    match f with
    | None => ret None
    | Some r =>
        valid <~ try_catch (full_clean pk r ;;; ret true)
                   (λ e, if bool_decide (e = ValidationError) then ret false else raise e) ;;
        if valid then k <~ save_result pk r ;; ret (Some k) else ret None
    end)%monad.
End results.

(** ** Mats of a poomsae competition *)

Record PoomsaeMatAssignment := mkPoomsaeMat {
  pm_competition : Z;
  pm_mat_number : Z;
  pm_belt_groups : list Z;
}.

(** The table with the counter that gives keys. *)
Record mat_table := mkMatTable {
  mb_rows : gmap Z PoomsaeMatAssignment;
  mb_next_id : Z;
}.

Definition set_mb_rows (v : gmap Z PoomsaeMatAssignment) (t : mat_table) : mat_table := mkMatTable v (mb_next_id t).

(** A form of the inline: the row it edits, the box to delete it, and its fields. *)
Record mat_form := mkMatForm {
  mf_pk : option Z;
  mf_delete : bool;
  mf_mat_number : option Z;
  mf_belt_groups : list Z;
}.

(** [PoomsaeMatAssignment.clean] on a row of a competition. *)
Definition mat_clean (mat_count mat_number : Z) : bool :=
  if mat_number =? 0 then true
  else negb (negb (mat_count =? 0) && (mat_count <? mat_number)) && negb (mat_number <? 1).

(** The unique pair of competition and number, for a row [pk]. *)
Definition mat_free (t : mat_table) (pk : option Z) (comp mat_number : Z) : bool :=
  forallb (λ kr, bool_decide (Some kr.1 = pk) || negb ((pm_competition kr.2 =? comp) && (pm_mat_number kr.2 =? mat_number)))
    (rows_by_id (mb_rows t)).

(** An extra form left empty; only then may the number be missing. *)
Definition mat_form_empty (f : mat_form) : bool :=
  is_none (mf_pk f) && is_none (mf_mat_number f) && bool_decide (mf_belt_groups f = []).

(** [f.is_valid()]: the number is there and fits its column, [clean] passes and the number is free. *)
Definition mat_form_valid (t : mat_table) (comp mat_count : Z) (f : mat_form) : bool :=
  mat_form_empty f ||
  match mf_mat_number f with
  | None => false
  | Some n => pos_int_ok n && mat_clean mat_count n && mat_free t (mf_pk f) comp n
  end.

(** [formset.is_valid()] *)
Definition mat_formset_valid (t : mat_table) (comp mat_count : Z) (fs : list mat_form) : bool :=
  forallb (λ f, mf_delete f || mat_form_valid t comp mat_count f) fs
  && bool_decide (NoDup (omap mf_mat_number (List.filter (λ f, negb (mf_delete f)) fs))).

(** [obj.save()] with [f.save_m2m()]; the database refuses a number that is taken. *)
Definition save_mat (comp n : Z) (f : mat_form) : M mat_table unit :=
  (t <~ get ;;
   if negb (mat_free t (mf_pk f) comp n) then raise IntegrityError
   else
     let row := mkPoomsaeMat comp n (mf_belt_groups f) in
     match mf_pk f with
     | Some k => put (set_mb_rows (<[k := row]> (mb_rows t)) t)
     | None => put (mkMatTable (<[mb_next_id t := row]> (mb_rows t)) (mb_next_id t + 1))
     end)%monad.

(** One pass of the loop of [PoomsaeCompetitionAdmin.save_formset]; [valid] is what
    [f.is_valid()] found before anything was saved. *)
Definition save_mat_form (comp : Z) (valid : mat_form → bool) (f : mat_form) : M mat_table unit :=
  if negb (valid f) then ret tt
  else if mf_delete f then
    match mf_pk f with
    | Some k => modify (λ t, set_mb_rows (delete k (mb_rows t)) t)
    | None => ret tt
    end
  else
    match mf_mat_number f with
    | None => ret tt
    | Some n => if (n =? 0) && bool_decide (mf_belt_groups f = []) then ret tt else save_mat comp n f
    end.

(** [save_formset]: false when an error was shown instead. *)
Definition save_mat_formset (comp : Z) (valid : mat_form → bool) (fs : list mat_form) : M mat_table bool :=
  try_catch (forM fs (save_mat_form comp valid) ;;; ret true)%monad
    (λ e, if bool_decide (e ∈ [ValidationError; IntegrityError]) then ret false else raise e).

(** The post of the page, as far as its mats go: [None] shows the errors of the forms. The
    page is one transaction; after an error caught inside it the next query fails. *)
Definition mats_page (comp mat_count : Z) (fs : list mat_form) : M mat_table (option unit) :=
  atomic (
    t <~ get ;;
    if negb (mat_formset_valid t comp mat_count fs) then ret None
    else
      ok <~ save_mat_formset comp (mat_form_valid t comp mat_count) fs ;;
      if ok then ret (Some tt) else raise TransactionManagementError)%monad.

(** ** Names of uploaded files *)

(** The text before the last slash with it, and the text behind it. *)
Fixpoint last_slash (s : string) : option (string * string) :=
  match s with
  | EmptyString => None
  | String c s' =>
      match last_slash s' with
      | Some (h, t) => Some (String c h, t)
      | None => if Ascii.eqb c "/" then Some ("/"%string, s') else None
      end
  end.

Fixpoint rstrip_slash (s : string) : string :=
  match s with
  | EmptyString => EmptyString
  | String c s' => let r := rstrip_slash s' in if String.eqb r "" && Ascii.eqb c "/" then EmptyString else String c r
  end.

(** [os.path.split] *)
Definition path_split (p : string) : string * string :=
  match last_slash p with
  | None => (""%string, p)
  | Some (h, t) => ((if truthy_str (rstrip_slash h) then rstrip_slash h else h), t)
  end.

(** [os.path.splitext] of a name without slashes: leading dots do not start an extension. *)
Fixpoint last_dot (s : string) : option (string * string) :=
  match s with
  | EmptyString => None
  | String c s' =>
      match last_dot s' with
      | Some (h, t) => Some (String c h, t)
      | None => if Ascii.eqb c "." then Some (""%string, s) else None
      end
  end.
Fixpoint only_dots (s : string) : bool :=
  match s with EmptyString => true | String c s' => Ascii.eqb c "." && only_dots s' end.
Definition path_splitext (name : string) : string * string :=
  match last_dot name with
  | None => (name, ""%string)
  | Some (base, ext) => if only_dots base then (name, ""%string) else (base, ext)
  end.

(** [os.path.join] of a directory and a name without slashes. *)
Definition path_join (dir name : string) : string :=
  if negb (truthy_str dir) then name
  else match path_split dir with (_, EmptyString) => (dir ++ name)%string | _ => (dir ++ "/" ++ name)%string end.

Definition is_alnum (c : ascii) : bool :=
  let n := nat_of_ascii c in
  ((48 <=? n) && (n <=? 57) || (65 <=? n) && (n <=? 90) || (97 <=? n) && (n <=? 122))%nat.
Definition is_dash (c : ascii) : bool := Ascii.eqb c "-" || Ascii.eqb c "_".

(** [.encode("ascii", "ignore")] keeps the bytes below 128. *)
Fixpoint ascii_only (s : string) : string :=
  match s with
  | EmptyString => EmptyString
  | String c s' => if (nat_of_ascii c <? 128)%nat then String c (ascii_only s') else ascii_only s'
  end.
Fixpoint dashed (s : string) : string :=
  match s with
  | EmptyString => EmptyString
  | String c s' => String (if is_alnum c || is_dash c then c else "-"%char) (dashed s')
  end.

(** [.strip("-_")] *)
Fixpoint lstrip_dashes (s : string) : string :=
  match s with String c s' => if is_dash c then lstrip_dashes s' else s | EmptyString => s end.
Fixpoint rstrip_dashes (s : string) : string :=
  match s with
  | EmptyString => EmptyString
  | String c s' => let r := rstrip_dashes s' in if String.eqb r "" && is_dash c then EmptyString else String c r
  end.

Section filenames.
(** [unicodedata.normalize("NFKD", s)] and [uuid.uuid4().hex] *)
Context (nfkd : string → string) (fresh_hex : string).

Definition safe_base (base : string) : string :=
  let s := rstrip_dashes (lstrip_dashes (dashed (strip (ascii_only (nfkd base))))) in
  let s := or_str s fresh_hex in
  if (120 <? String.length s)%nat then String.substring 0 120 s else s.

Definition _safe_filename (full_name : string) : string :=
  if negb (truthy_str full_name) then full_name
  else
    let '(dir, filename) := path_split full_name in
    let '(base, ext) := path_splitext filename in
    let safe_name := (safe_base base ++ ext)%string in
    if truthy_str dir then path_join dir safe_name else safe_name.
End filenames.

(** ** Coaches of discount codes *)

(** [DiscountCodeAdminForm]: users whose profile is a coach's, with their labels. *)
Definition coach_label (u : User) (p : Profile) : string :=
  or_str (strip (pe_first_name (pf_person p) ++ " " ++ pe_last_name (pf_person p))%string) (strip (us_username u)).

Definition discount_coaches (s : accounts) : list (Z * string) :=
  omap (λ ku, match List.find (λ kp, bool_decide (pf_user kp.2 = Some ku.1)) (rows_by_id (ac_profiles s)) with
              | Some kp => if pe_is_coach (pf_person kp.2) then Some (ku.1, coach_label ku.2 kp.2) else None
              | None => None
              end) (rows_by_id (ac_users s)).

(** ** History of edits *)

(** [ProfileChangeHistory]; [ch_profile] is the profile the edit belongs to. *)
Record change := mkChange {
  ch_profile : Z;
  ch_field_name : string;
  ch_old_value : string;
  ch_new_value : string;
}.

(** The receiver [save_change_history], on the columns of the edit that is saved, each with
    its text or [None]; the instance has no attribute [original_<column>], so the old value it finds is [None]. *)
Definition save_change_history (profile : Z) (columns : list (string * option string)) : list change :=
  omap (λ c, if bool_decide (c.1 ∈ ["original_user"; "id"]%string) then None
             else (λ v, mkChange profile c.1 "ندارد" v) <$> c.2) columns.

(** ** Results: correctness *)

Section result_facts.
Context {P : Type} `{PointLaws P}.
Implicit Types d : DB P.

Lemma model_choice_posted {A} (rows : list (Z * A)) v k inst : model_choice rows v = Some (Some k) →
  k ∈ rows.*1 ∧ posted_or v inst = Ok (Some k).
Proof.
  intros Hm. pose proof Hm as (Hin & t & -> & Ht)%model_choice_elem. split; [done|].
  destruct t as [|c t]; [done|]. unfold posted_or, pk_lookup. by rewrite Ht.
Qed.

Lemma elem_of_rows_keys {A} (t : gmap Z A) k : k ∈ (rows_by_id t).*1 ↔ is_Some (t !! k).
Proof.
  rewrite list_elem_of_fmap. split.
  - intros ([k' x] & -> & Hx%elem_of_rows_by_id). by exists x.
  - intros [x Hx]. exists (k, x). by rewrite elem_of_rows_by_id.
Qed.

Lemma elem_of_entry_choices d comp w e : e ∈ (entry_choices d comp w).*1 ↔
  ∃ en, db_enrollments d !! e = Some en ∧ en_competition en = comp ∧ en_weight_category en = Some w ∧
    en_status en ∈ ELIGIBLE_STATUSES.
Proof.
  rewrite list_elem_of_fmap. unfold entry_choices. setoid_rewrite elem_of_filter_list. split.
  - intros ([e' en] & -> & Hen%elem_of_rows_by_id & Hb). cbn in *.
    rewrite !andb_true_iff, Z.eqb_eq, !bool_decide_eq_true in Hb. exists en. tauto.
  - intros (en & Hen & Hc & Hw & Hs). exists (e, en). rewrite elem_of_rows_by_id. cbn.
    by rewrite !andb_true_iff, Z.eqb_eq, !bool_decide_eq_true.
Qed.

(** What the fields of a valid form are. *)
Lemma admin_form_fields d p inst r : admin_result_form d p inst = Ok (Some r) →
  is_Some (db_competitions d !! re_competition r) ∧ is_Some (db_weights d !! re_weight_category r) ∧
  re_weight_category r ∈ (mats_of d (re_competition r) ≫= ma_weights) ∧
  ∀ e, e ∈ medal_ids r → ∃ en, db_enrollments d !! e = Some en ∧ en_competition en = re_competition r ∧
    en_weight_category en = Some (re_weight_category r) ∧ en_status en ∈ ELIGIBLE_STATUSES.
Proof.
  unfold admin_result_form. destruct (admin_result_choices d p inst) as [[weights entries]|] eqn:Hch; [|done].
  intros [= Hf].
  destruct (model_choice _ (ra_competition p)) as [[c|]|] eqn:Ec; [|done..].
  destruct (model_choice weights _) as [[w|]|] eqn:Ew; [|done..].
  destruct (model_choice entries (ra_gold p)) as [g|] eqn:Eg; [|done].
  destruct (model_choice entries (ra_silver p)) as [s|] eqn:Es; [|done].
  destruct (model_choice entries (ra_bronze1 p)) as [b1|] eqn:Eb1; [|done].
  destruct (model_choice entries (ra_bronze2 p)) as [b2|] eqn:Eb2; [|done].
  injection Hf as <-. cbn [re_competition re_weight_category].
  destruct (model_choice_posted _ _ _ (re_competition <$> inst) Ec) as [[comp Hc]%elem_of_rows_keys Hpc].
  destruct (model_choice_posted _ _ _ (re_weight_category <$> inst) Ew) as [Hw Hpw].
  unfold admin_result_choices in Hch. rewrite Hpc, Hpw, Hc in Hch. cbn [is_none] in Hch.
  injection Hch as <- <-.
  assert (Hwin : is_Some (db_weights d !! w) ∧ w ∈ (mats_of d c ≫= ma_weights)).
  { apply list_elem_of_fmap in Hw as ([w' wc] & -> & Hin). unfold mat_weight_choices in Hin.
    apply elem_of_filter_list in Hin as [Hin%elem_of_rows_by_id Hb%bool_decide_eq_true]. cbn in *. eauto. }
  split_and!; [by eexists|tauto|tauto|].
  intros e He. apply (elem_of_entry_choices d c w e). unfold medal_ids in He. cbn in He.
  rewrite !elem_of_app in He.
  destruct He as [He|[He|[He|He]]];
    [destruct g|destruct s|destruct b1|destruct b2];
    first [by apply not_elem_of_nil in He|apply list_elem_of_singleton in He; subst; by eapply model_choice_elem].
Qed.

(** What is left to check when the fields are valid. *)
Definition result_checks (pk : option Z) (r : KyorugiResult) d : Prop :=
  NoDup (medal_ids r) ∧
  ∀ k' r', db_results d !! k' = Some r' → re_competition r' = re_competition r →
    re_weight_category r' = re_weight_category r → pk = Some k'.

Lemma valid_result_checks d p inst pk r : admin_result_form d p inst = Ok (Some r) →
  valid_result pk r d ↔ result_checks pk r d.
Proof.
  intros (Hc & Hw & _ & He)%admin_form_fields. unfold valid_result, result_checks. split; [tauto|].
  intros [Hnd Hu]. split_and!; try done. intros e en Hin Hen.
  destruct (He e Hin) as (en' & Hen' & ? & ? & _). by simplify_eq.
Qed.
End result_facts.

(** Results entered in the model admin count. When the fields of the form are valid, its
    medallists are paid entries of that competition and weight. If no entry has two medals and no
    other row holds the result of the weight, the result is stored, its ledger is that of its
    medals and every total changes by what the new medals give less what the old ones gave;
    otherwise the form comes back and nothing changes. *)
Theorem result_admin_counts {P} `{PointLaws P} pk p r (d : DB P) :
  admin_result_form d p (pk ≫= (db_results d !!.)) = Ok (Some r) →
  (∀ e en, e ∈ medal_ids r → db_enrollments d !! e = Some en → resolves d en) →
  (∀ e, e ∈ medal_ids r → ∃ en, db_enrollments d !! e = Some en ∧ en_status en ∈ ELIGIBLE_STATUSES) ∧
  (result_checks pk r d → ∃ k d', kyorugi_result_admin pk p d = (Ok (Some k), d') ∧
     db_results d' = <[k := r]> (db_results d) ∧ result_txs d' k = ledger_of k r d ∧
     ∀ a, balance d' a = (λ b, pt_add b (pt_add
       (total a (neg_posting <$> (tx_posting <$> result_txs d k)))
       (total a (tx_posting <$> ledger_of k r d)))) <$> balance d a) ∧
  (¬ result_checks pk r d → kyorugi_result_admin pk p d = (Ok None, d)).
Proof.
  intros Hf Hres. pose proof (admin_form_fields d p _ r Hf) as (_ & _ & _ & He).
  pose proof (valid_result_checks d p _ pk r Hf) as Hv.
  assert (Hm : medals_resolve r d).
  { intros e Hin. destruct (He e Hin) as (en & Hen & _). exists en. eauto. }
  destruct (full_clean_valid pk r d) as (Hgood & Hbad & _).
  { intros e Hin. destruct (He e Hin) as (en & Hen & _). by exists en. }
  split_and!.
  - intros e Hin. destruct (He e Hin) as (en & Hen & _ & _ & Hs). eauto.
  - intros Hck%Hv. destruct (save_result_runs pk r d Hck Hm) as (k & d' & Hsave & _).
    pose proof (λ a, save_result_exact pk r d k d' a Hsave) as Hb.
    pose proof (save_result_spec pk r d k d' Hsave) as (_ & Ht & _ & _ & Hr & _).
    exists k, d'. split; [|done]. unfold kyorugi_result_admin. rewrite atomic_ok.
    unfold bind at 1, get. cbn [fst snd]. unfold bind at 1, lift. rewrite Hf.
    unfold try_catch, bind, ret. by rewrite (Hgood Hck), Hsave.
  - intros Hck. rewrite <- Hv in Hck. unfold kyorugi_result_admin. rewrite atomic_ok.
    unfold bind at 1, get. cbn [fst snd]. unfold bind at 1, lift. rewrite Hf.
    unfold try_catch, bind, ret. by rewrite (Hbad Hck).
Qed.

(** ** Mats: correctness *)

(** Keys are used up to the counter, and a competition has one row per number. *)
Record mats_sound (t : mat_table) : Prop := {
  ms_keys : ∀ k r, mb_rows t !! k = Some r → k < mb_next_id t;
  ms_unique : ∀ k k' r r', mb_rows t !! k = Some r → mb_rows t !! k' = Some r' →
    pm_competition r = pm_competition r' → pm_mat_number r = pm_mat_number r' → k = k';
}.

Lemma mat_free_spec t pk comp n : mat_free t pk comp n = true ↔
  ∀ k r, mb_rows t !! k = Some r → pm_competition r = comp → pm_mat_number r = n → pk = Some k.
Proof.
  unfold mat_free. rewrite forallb_forall. split.
  - intros Hall k r Hk Hc Hn. specialize (Hall (k, r) ltac:(by apply list_elem_of_In, elem_of_rows_by_id)).
    cbn in Hall. rewrite Hc, Hn, !Z.eqb_refl, orb_false_r, bool_decide_eq_true in Hall. done.
  - intros Hall [k r] Hin%list_elem_of_In%elem_of_rows_by_id. cbn.
    destruct (Z.eqb_spec (pm_competition r) comp), (Z.eqb_spec (pm_mat_number r) n); cbn; rewrite ?orb_true_r; try done.
    rewrite orb_false_r, bool_decide_eq_true. symmetry. by eapply Hall.
Qed.

Lemma mats_sound_delete t k : mats_sound t → mats_sound (set_mb_rows (delete k (mb_rows t)) t).
Proof.
  intros [Hk Hu]. split; cbn.
  - intros i r. rewrite lookup_delete_Some. intros [_ Hi]. by eapply Hk.
  - intros i i' r r'. rewrite !lookup_delete_Some. intros [_ Hi] [_ Hi']. by eapply Hu.
Qed.

(** Storing a row whose number is free, under its own key or a new one. *)
Lemma mats_sound_insert t k row m : mats_sound t → k < m → mb_next_id t ≤ m →
  (∀ i r, mb_rows t !! i = Some r → pm_competition r = pm_competition row → pm_mat_number r = pm_mat_number row → i = k) →
  mats_sound (mkMatTable (<[k := row]> (mb_rows t)) m).
Proof.
  intros [Hk Hu] Hlt Hle Hfree. split; cbn.
  - intros i r. rewrite lookup_insert_Some. intros [[<- _]|[_ Hi]]; [done|]. apply Hk in Hi. lia.
  - intros i i' r r'. rewrite !lookup_insert_Some.
    intros [[<- <-]|[Hne Hi]] [[<- <-]|[Hne' Hi']] Hc Hn; [done| |by apply (Hfree i r)|by eapply Hu].
    symmetry. by apply (Hfree i' r').
Qed.

(** A form that is saved, with its number. *)
Definition form_saves (valid : mat_form → bool) (f : mat_form) (n : Z) : Prop :=
  valid f = true ∧ mf_delete f = false ∧ mf_mat_number f = Some n ∧ ¬ (n = 0 ∧ mf_belt_groups f = []).

Section mat_forms.
Context (comp : Z) (valid : mat_form → bool).

Lemma save_mat_form_cases f t :
  (∃ n, form_saves valid f n ∧ save_mat_form comp valid f t = save_mat comp n f t) ∨
  ((∀ n, ¬ form_saves valid f n) ∧
   save_mat_form comp valid f t =
     (Ok tt, match mf_pk f with
             | Some k => if valid f && mf_delete f then set_mb_rows (delete k (mb_rows t)) t else t
             | None => t end)).
Proof.
  unfold save_mat_form, form_saves. destruct (valid f) eqn:Hv; cbn.
  2: { right. split; [naive_solver|]. by destruct (mf_pk f). }
  destruct (mf_delete f) eqn:Hd; cbn.
  { right. split; [naive_solver|]. by destruct (mf_pk f). }
  destruct (mf_mat_number f) as [n|] eqn:Hn.
  2: { right. split; [naive_solver|]. by destruct (mf_pk f). }
  destruct ((n =? 0) && bool_decide (mf_belt_groups f = [])) eqn:Hz.
  - right. rewrite andb_true_iff, Z.eqb_eq, bool_decide_eq_true in Hz. split; [naive_solver|]. by destruct (mf_pk f).
  - left. exists n. split; [|done]. split_and!; try done. intros [-> Hg]. by rewrite Z.eqb_refl, bool_decide_eq_true_2 in Hz.
Qed.

Lemma save_mat_ok t f n : mats_sound t → mat_free t (mf_pk f) comp n = true → (∀ k, mf_pk f = Some k → k < mb_next_id t) →
  ∃ t' k, save_mat comp n f t = (Ok tt, t') ∧ mats_sound t' ∧ mb_next_id t ≤ mb_next_id t' ∧
    mb_rows t' = <[k := mkPoomsaeMat comp n (mf_belt_groups f)]> (mb_rows t) ∧ k < mb_next_id t' ∧
    match mf_pk f with Some k0 => k = k0 | None => k = mb_next_id t end.
Proof.
  intros Hs Hfree Hpk. unfold save_mat, bind, get. rewrite Hfree. cbn [negb].
  pose proof (proj1 (mat_free_spec _ _ _ _) Hfree) as Hf. destruct (mf_pk f) as [k|] eqn:Ek.
  - exists (set_mb_rows (<[k := mkPoomsaeMat comp n (mf_belt_groups f)]> (mb_rows t)) t), k. split_and!; try done.
    + unfold set_mb_rows. apply mats_sound_insert; [done|by apply Hpk|lia|]. cbn. intros i r Hi Hc Hn.
      specialize (Hf i r Hi Hc Hn). congruence.
    + cbn. by apply Hpk.
  - exists (mkMatTable (<[mb_next_id t := mkPoomsaeMat comp n (mf_belt_groups f)]> (mb_rows t)) (mb_next_id t + 1)), (mb_next_id t).
    cbn. split_and!; try done; try lia. apply mats_sound_insert; [done|lia|lia|]. cbn. intros i r Hi Hc Hn.
    by specialize (Hf i r Hi Hc Hn).
Qed.

(** What one form leaves of its row. *)
Definition form_outcome (t t' : mat_table) (f : mat_form) : Prop :=
  (∀ n, form_saves valid f n → ∃ k, mb_rows t' !! k = Some (mkPoomsaeMat comp n (mf_belt_groups f)) ∧
     match mf_pk f with Some k0 => k = k0 | None => mb_next_id t ≤ k end) ∧
  (∀ k, mf_pk f = Some k → (∀ n, ¬ form_saves valid f n) →
     mb_rows t' !! k = if valid f && mf_delete f then None else mb_rows t !! k).

Lemma form_step f t : mats_sound t → (∀ k, mf_pk f = Some k → k < mb_next_id t) →
  (∀ n, form_saves valid f n → mat_free t (mf_pk f) comp n = true) →
  ∃ t1, save_mat_form comp valid f t = (Ok tt, t1) ∧ mats_sound t1 ∧ mb_next_id t ≤ mb_next_id t1 ∧
    (∀ k, k < mb_next_id t → mf_pk f ≠ Some k → mb_rows t1 !! k = mb_rows t !! k) ∧
    (∀ k r, mb_rows t1 !! k = Some r → mb_rows t !! k = Some r ∨
       pm_competition r = comp ∧ form_saves valid f (pm_mat_number r)) ∧
    (∀ n, form_saves valid f n → ∃ k, mb_rows t1 !! k = Some (mkPoomsaeMat comp n (mf_belt_groups f)) ∧
       k < mb_next_id t1 ∧ match mf_pk f with Some k0 => k = k0 | None => k = mb_next_id t end) ∧
    (∀ k, mf_pk f = Some k → (∀ n, ¬ form_saves valid f n) →
       mb_rows t1 !! k = if valid f && mf_delete f then None else mb_rows t !! k).
Proof.
  intros Hs Hpk Hfree. destruct (save_mat_form_cases f t) as [(n & Hn & ->)|[Hno ->]].
  - destruct (save_mat_ok t f n Hs (Hfree n Hn) Hpk) as (t1 & k & Hrun & Hs1 & Hle & Hrows & Hk & Hkey).
    assert (Hsame : ∀ n', form_saves valid f n' → n' = n) by (unfold form_saves in *; naive_solver congruence).
    exists t1. split_and!; try done.
    + intros i Hi Hne. rewrite Hrows. rewrite lookup_insert_ne; [done|]. intros ->.
      destruct (mf_pk f); [congruence|lia].
    + intros i r. rewrite Hrows, lookup_insert_Some. intros [[<- <-]|[_ ?]]; [by right|by left].
    + intros n' ->%Hsame. exists k. by rewrite Hrows, lookup_insert_eq.
    + intros i Hi Hno. by destruct (Hno n).
  - eexists. split; [done|]. destruct (mf_pk f) as [k|] eqn:Ek; [destruct (valid f && mf_delete f)|].
    all: split_and!; try done; try (by intros n Hn; destruct (Hno n)); try (by intros; left); cbn.
    + by apply mats_sound_delete.
    + intros i _ Hne. rewrite lookup_delete_ne; [done|congruence].
    + intros i r. rewrite lookup_delete_Some. tauto.
    + intros i [= <-] _. by rewrite lookup_delete_eq.
Qed.

Lemma save_mat_forms fs : ∀ t, mats_sound t → NoDup (omap mf_pk fs) →
  (∀ f k, f ∈ fs → mf_pk f = Some k → k < mb_next_id t) →
  NoDup (omap mf_mat_number (List.filter (λ f, negb (mf_delete f)) fs)) →
  (∀ f n, f ∈ fs → form_saves valid f n → mat_free t (mf_pk f) comp n = true) →
  ∃ t', forM fs (save_mat_form comp valid) t = (Ok tt, t') ∧ mats_sound t' ∧ mb_next_id t ≤ mb_next_id t' ∧
    (∀ k, k < mb_next_id t → k ∉ omap mf_pk fs → mb_rows t' !! k = mb_rows t !! k) ∧
    ∀ f, f ∈ fs → form_outcome t t' f.
Proof.
  induction fs as [|f fs IH]; intros t Hs Hpks Hlt Hnums Hfree.
  { exists t. split_and!; try done. intros f Hf. by apply not_elem_of_nil in Hf. }
  destruct (form_step f t Hs) as (t1 & Hrun & Hs1 & Hle1 & Hkeep1 & Hnew1 & Hsave1 & Hdel1).
  { intros k. apply Hlt. left. }
  { intros n. apply Hfree. left. }
  assert (Hpk_fs : ∀ k, mf_pk f = Some k → k ∉ omap mf_pk fs).
  { intros k Hk. cbn in Hpks. rewrite Hk in Hpks. by apply NoDup_cons in Hpks as [? _]. }
  assert (Hnum_fs : ∀ f' n, form_saves valid f n → f' ∈ fs → ¬ form_saves valid f' n).
  { intros f' n (_ & Hd & Hn & _) Hin (_ & Hd' & Hn' & _). cbn in Hnums. rewrite Hd in Hnums. cbn in Hnums.
    rewrite Hn in Hnums. apply NoDup_cons in Hnums as [Hni _]. apply Hni, list_elem_of_omap.
    exists f'. rewrite elem_of_filter_list, Hd'. done. }
  destruct (IH t1 Hs1) as (t' & Hrun' & Hs' & Hle' & Hkeep' & Hout').
  - cbn in Hpks. destruct (mf_pk f); [by apply NoDup_cons in Hpks as [_ ?]|done].
  - intros f' k Hin Hk. pose proof (Hlt f' k ltac:(by right) Hk). lia.
  - cbn in Hnums. destruct (negb (mf_delete f)); [|done]. cbn in Hnums.
    destruct (mf_mat_number f); [by apply NoDup_cons in Hnums as [_ ?]|done].
  - intros f' n Hin Hn. pose proof (proj1 (mat_free_spec _ _ _ _) (Hfree f' n ltac:(by right) Hn)) as Hf'.
    apply mat_free_spec. intros k r Hk Hc Hnum. destruct (Hnew1 k r Hk) as [Hold|[_ Hfs]]; [by eapply Hf'|].
    rewrite Hnum in Hfs. by destruct (Hnum_fs f' n Hfs Hin).
  - exists t'. split_and!; [|done|lia| |].
    + cbn. unfold bind. by rewrite Hrun.
    + intros k Hk Hni. assert (mf_pk f ≠ Some k).
      { intros Hf. apply Hni. cbn. rewrite Hf. left. }
      rewrite Hkeep'; [by apply Hkeep1|lia|]. intros Hin. apply Hni. cbn. destruct (mf_pk f); [by right|done].
    + intros f' [->|Hin]%elem_of_cons.
      * split.
        -- intros n Hn. destruct (Hsave1 n Hn) as (k & Hk & Hklt & Hkey). exists k. split.
           ++ rewrite Hkeep'; [done|done|]. destruct (mf_pk f) as [k0|] eqn:E; [subst k; by apply Hpk_fs|].
              intros (f' & Hin & Hf')%list_elem_of_omap. pose proof (Hlt f' k ltac:(by right) Hf'). lia.
           ++ destruct (mf_pk f); [done|lia].
        -- intros k Hk Hno. rewrite Hkeep'; [by apply Hdel1| |by apply Hpk_fs].
           pose proof (Hlt f k ltac:(left) Hk). lia.
      * destruct (Hout' f' Hin) as [Ho1 Ho2]. split.
        -- intros n Hn. destruct (Ho1 n Hn) as (k & Hk & Hkey). exists k. split; [done|]. destruct (mf_pk f'); [done|lia].
        -- intros k Hk Hno. rewrite (Ho2 k Hk Hno). destruct (valid f' && mf_delete f'); [done|].
           apply Hkeep1; [by eapply Hlt; [right|]|]. intros Hf. apply (Hpk_fs k Hf), list_elem_of_omap. eauto.
Qed.
End mat_forms.

(** The post of the mats. Whatever the forms, the page answers. If the formset is valid each form
    that is kept has its row with the number and groups of the form, no number is used twice,
    numbers are zero or between one and the number of mats, rows outside the forms stay, and a
    marked row is gone when its form is valid; a marked row whose form has errors stays.
    Otherwise the errors are shown and nothing changes. *)
Theorem mats_page_stores t comp mat_count fs :
  mats_sound t → NoDup (omap mf_pk fs) → (∀ f k, f ∈ fs → mf_pk f = Some k → k < mb_next_id t) →
  if mat_formset_valid t comp mat_count fs then
    ∃ t', mats_page comp mat_count fs t = (Ok (Some tt), t') ∧ mats_sound t' ∧
      (∀ f n, f ∈ fs → mf_delete f = false → mf_mat_number f = Some n → n ≠ 0 ∨ mf_belt_groups f ≠ [] →
         (n = 0 ∨ 1 ≤ n ∧ (mat_count = 0 ∨ n ≤ mat_count)) ∧
         ∃ k, mb_rows t' !! k = Some (mkPoomsaeMat comp n (mf_belt_groups f)) ∧
           ∀ k0, mf_pk f = Some k0 → k = k0) ∧
      (∀ f k, f ∈ fs → mf_delete f = true → mf_pk f = Some k →
         mb_rows t' !! k = if mat_form_valid t comp mat_count f then None else mb_rows t !! k) ∧
      (∀ k, k < mb_next_id t → k ∉ omap mf_pk fs → mb_rows t' !! k = mb_rows t !! k)
  else mats_page comp mat_count fs t = (Ok None, t).
Proof.
  intros Hs Hpks Hlt. set (valid := mat_form_valid t comp mat_count).
  destruct (mat_formset_valid t comp mat_count fs) eqn:Hv.
  2: { unfold mats_page, atomic, bind, get, ret. by rewrite Hv. }
  assert (Hv' := Hv). unfold mat_formset_valid in Hv'. apply andb_true_iff in Hv' as [Hall Hnums%bool_decide_eq_true].
  rewrite forallb_forall in Hall.
  assert (Hfree : ∀ f n, f ∈ fs → mf_delete f = false → mf_mat_number f = Some n →
    valid f = true ∧ mat_clean mat_count n = true ∧ mat_free t (mf_pk f) comp n = true ∧ 0 ≤ n).
  { intros f n Hin Hd Hn. specialize (Hall f (proj1 (list_elem_of_In _ _) Hin)). rewrite Hd in Hall. cbn in Hall.
    split; [done|]. unfold mat_form_valid, mat_form_empty in Hall. rewrite Hn in Hall. cbn in Hall.
    rewrite andb_false_r in Hall. cbn in Hall. unfold pos_int_ok in Hall.
    rewrite !andb_true_iff, !Z.leb_le in Hall. tauto. }
  destruct (save_mat_forms comp valid fs t Hs Hpks Hlt Hnums) as (t' & Hrun & Hs' & _ & Hkeep & Hout).
  { intros f n Hin (_ & Hd & Hn & _). by eapply Hfree. }
  exists t'. split_and!; [| done| | |done].
  - unfold mats_page. rewrite atomic_ok. unfold bind at 1, get. cbn [fst snd]. rewrite Hv. cbn [negb].
    unfold save_mat_formset, bind, try_catch, ret. fold valid. by rewrite Hrun.
  - intros f n Hin Hd Hn Hne. destruct (Hfree f n Hin Hd Hn) as (Hvf & Hclean & _ & Hpos). split.
    + unfold mat_clean in Hclean. destruct (Z.eqb_spec n 0) as [->|Hn0]; [by left|right].
      rewrite andb_true_iff, !negb_true_iff, andb_false_iff, negb_false_iff, Z.eqb_eq, !Z.ltb_ge in Hclean. lia.
    + destruct (Hout f Hin) as [Hsaved _]. destruct (Hsaved n) as (k & Hk & Hkey); [split_and!; naive_solver|].
      exists k. split; [done|]. intros k0 Hk0. by rewrite Hk0 in Hkey.
  - intros f k Hin Hd Hk. destruct (Hout f Hin) as [_ Hgone].
    rewrite (Hgone k Hk), Hd, andb_true_r; [done|]. intros n (_ & Hd' & _). congruence.
Qed.

(** After the number of mats is lowered, the row of a mat beyond it cannot be deleted: its
    form has an error, which the formset ignores for a marked form and the loop does not. *)
Example marked_row_stays :
  let t := mkMatTable {[ 1 := mkPoomsaeMat 5 1 [2]; 2 := mkPoomsaeMat 5 3 [4] ]} 3 in
  mats_page 5 2 [mkMatForm (Some 1) false (Some 1) [2]; mkMatForm (Some 2) true (Some 3) [4]] t = (Ok (Some tt), t).
Proof. vm_compute. reflexivity. Qed.

(** The test for numbers below one is never reached with zero. *)
Example mat_zero_is_accepted :
  mats_page 5 2 [mkMatForm None false (Some 0) [4]] (mkMatTable ∅ 1) =
    (Ok (Some tt), mkMatTable {[ 1 := mkPoomsaeMat 5 0 [4] ]} 2).
Proof. vm_compute. reflexivity. Qed.

(** ** Names of files: correctness *)

Definition safe_char (c : ascii) : bool := is_alnum c || is_dash c.

Lemma dashed_safe s : all_chars safe_char (dashed s) = true.
Proof.
  induction s as [|c s IH]; cbn; [done|]. rewrite IH, andb_true_r. unfold safe_char.
  by destruct (is_alnum c || is_dash c) eqn:E.
Qed.

Lemma lstrip_dashes_safe p s : all_chars p s = true → all_chars p (lstrip_dashes s) = true.
Proof.
  induction s as [|c s IH]; cbn; [done|]. rewrite andb_true_iff. intros [Hc Hs].
  destruct (is_dash c); [by apply IH|]. cbn. by rewrite Hc, Hs.
Qed.

Lemma rstrip_dashes_safe p s : all_chars p s = true → all_chars p (rstrip_dashes s) = true.
Proof.
  induction s as [|c s IH]; cbn; [done|]. rewrite andb_true_iff. intros [Hc Hs].
  destruct (String.eqb (rstrip_dashes s) "" && is_dash c); [done|]. cbn. by rewrite Hc, IH.
Qed.

Lemma substring_safe p n : ∀ s, all_chars p s = true → all_chars p (String.substring 0 n s) = true.
Proof.
  induction n as [|n IH]; intros [|c s]; cbn; try done. rewrite !andb_true_iff. intros [Hc Hs]. split; [done|by apply IH].
Qed.

Lemma substring_length n : ∀ s, (n ≤ String.length s)%nat → String.length (String.substring 0 n s) = n.
Proof. induction n as [|n IH]; intros [|c s]; cbn; intros; try lia. by rewrite IH by lia. Qed.

Lemma safe_base_length nfkd hex base : hex ≠ ""%string → (1 ≤ String.length (safe_base nfkd hex base) ≤ 120)%nat.
Proof.
  intros Hne. unfold safe_base. set (s := rstrip_dashes _).
  assert (Hs : or_str s hex ≠ ""%string).
  { unfold or_str. destruct (truthy_str s) eqn:Ht; [|done]. unfold truthy_str in Ht.
    by rewrite negb_true_iff, String.eqb_neq in Ht. }
  destruct (Nat.ltb_spec 120 (String.length (or_str s hex))); [rewrite substring_length; lia|].
  split; [|lia]. destruct (or_str s hex); [done|]. cbn. lia.
Qed.

Lemma append_empty (s : string) : (s ++ "")%string = s.
Proof. induction s as [|c s IH]; [done|exact (f_equal (String c) IH)]. Qed.

Lemma last_dot_app s b e : last_dot s = Some (b, e) → s = (b ++ e)%string.
Proof.
  revert b e. induction s as [|c s IH]; intros b e; cbn; [done|].
  destruct (last_dot s) as [[h t]|]; [|destruct (Ascii.eqb c "."); [by intros [= <- <-]|done]].
  intros [= <- <-]. rewrite (IH h t eq_refl). done.
Qed.

(** Uploaded files get safe names. Whatever the name, the part before the extension becomes
    one to 120 letters, digits, dashes and underscores; the directory and the extension
    are kept as they are. *)
Theorem uploaded_names_are_safe nfkd hex name :
  all_chars safe_char hex = true → hex ≠ ""%string → name ≠ ""%string →
  ∃ dir base ext safe, path_split name = (dir, (base ++ ext)%string) ∧
    _safe_filename nfkd hex name = path_join dir (safe ++ ext) ∧
    all_chars safe_char safe = true ∧ (1 ≤ String.length safe ≤ 120)%nat.
Proof.
  intros Hhex Hne Hname. destruct (path_split name) as [dir filename] eqn:Hsplit.
  destruct (path_splitext filename) as [base ext] eqn:Hext.
  exists dir, base, ext, (safe_base nfkd hex base). split_and!.
  - f_equal. unfold path_splitext in Hext.
    destruct (last_dot filename) as [[b e]|] eqn:Hd; [|injection Hext as <- <-; by rewrite append_empty].
    destruct (only_dots b); injection Hext as <- <-; [by rewrite append_empty|]. by apply last_dot_app.
  - unfold _safe_filename. unfold truthy_str at 1. rewrite (proj2 (String.eqb_neq _ _) Hname). cbn [negb].
    rewrite Hsplit, Hext. unfold path_join. by destruct (truthy_str dir).
  - unfold safe_base. set (s := rstrip_dashes _).
    assert (Hs : all_chars safe_char (or_str s hex) = true).
    { unfold or_str. destruct (truthy_str s); [|done]. apply rstrip_dashes_safe, lstrip_dashes_safe, dashed_safe. }
    destruct (120 <? String.length (or_str s hex))%nat; [by apply substring_safe|done].
  - by apply safe_base_length.
  - by apply safe_base_length.
Qed.

(** The extension is not made safe. *)
Example extension_is_kept :
  _safe_filename id "abc" "docs/my file.بيت" = "docs/my-file.بيت"%string.
Proof. vm_compute. reflexivity. Qed.

(** ** Discount codes and the history *)

(** A discount code can only be made for users whose profile is a coach's. *)
Lemma discount_coaches_are_coaches s u label : (u, label) ∈ discount_coaches s →
  ∃ k p, ac_profiles s !! k = Some p ∧ pf_user p = Some u ∧ pe_is_coach (pf_person p) = true.
Proof.
  unfold discount_coaches. rewrite list_elem_of_omap. intros ([u' usr] & _ & Hm). cbn in Hm.
  destruct (List.find _ _) as [[k p]|] eqn:Hf; [|done]. apply find_some in Hf as [Hin Hu].
  apply list_elem_of_In, elem_of_rows_by_id in Hin. cbn in *.
  destruct (pe_is_coach (pf_person p)) eqn:Hc; [|done]. injection Hm as <- <-.
  apply bool_decide_eq_true in Hu. eauto.
Qed.

(** The history records no change. Saving an edit writes one row for every column that has a
    value, however the profile looked before, and every row claims that there was no old value. *)
Theorem history_ignores_old_values profile columns :
  (λ c, (ch_field_name c, ch_new_value c)) <$> save_change_history profile columns =
    omap (λ c, if bool_decide (c.1 ∈ ["original_user"; "id"]%string) then None else (λ v, (c.1, v)) <$> c.2) columns ∧
  ∀ c, c ∈ save_change_history profile columns → ch_profile c = profile ∧ ch_old_value c = "ندارد"%string.
Proof.
  unfold save_change_history. split.
  - induction columns as [|[name v] l IH]; [done|]. cbn. case_bool_decide; cbn; [done|]. destruct v; cbn; [by rewrite IH|done].
  - intros c (x & _ & Hc)%list_elem_of_omap. case_bool_decide; [done|]. by destruct (x.2); [injection Hc as <-|].
Qed.

(** ** Witnesses *)

Definition admin_gold (e : string) : result_admin_post :=
  mkResultAdminPost (Some "5") (Some "1") (Some e) (Some "") None None "" None.

Lemma admin_gold_form : admin_result_form results_sample (admin_gold "100") None = Ok (Some gold_result).
Proof. vm_compute. reflexivity. Qed.

Lemma results_sample_empty : db_results results_sample = ∅.
Proof. vm_compute. reflexivity. Qed.

Definition has_row {A} (t : gmap Z A) (o : option Z) : bool :=
  match o with Some k => negb (is_none (t !! k)) | None => true end.

Lemma has_row_spec {A} (t : gmap Z A) k : has_row t (Some k) = true → is_Some (t !! k).
Proof. unfold has_row. destruct (t !! k); [by eexists|done]. Qed.

Definition row_resolves {P} (d : DB P) (en : Enrollment) : bool :=
  has_row (db_profiles d) (Some (en_player en)) && has_row (db_profiles d) (en_coach en)
  && has_row (db_clubs d) (en_club en) && has_row (db_boards d) (en_board en).

Lemma row_resolves_spec {P} (d : DB P) en : row_resolves d en = true → resolves d en.
Proof.
  unfold row_resolves. rewrite !andb_true_iff. intros [[[Hp Hc] Hk] Hb].
  split_and!; [by apply has_row_spec|intros k Hk'..].
  - rewrite Hk' in Hc. by apply has_row_spec.
  - rewrite Hk' in Hk. by apply has_row_spec.
  - rewrite Hk' in Hb. by apply has_row_spec.
Qed.

Lemma golden_row_resolves : from_option (row_resolves results_sample) false (db_enrollments results_sample !! 100) = true.
Proof. vm_compute. reflexivity. Qed.

Lemma stored_row_resolves {P} (d : DB P) k en : from_option (row_resolves d) false (db_enrollments d !! k) = true →
  db_enrollments d !! k = Some en → resolves d en.
Proof. intros Hr Hen. rewrite Hen in Hr. by apply row_resolves_spec. Qed.

Lemma result_admin_counts_witness :
  ∃ k d', kyorugi_result_admin None (admin_gold "100") results_sample = (Ok (Some k), d') ∧
    result_txs d' k = ledger_of k gold_result results_sample.
Proof.
  destruct (result_admin_counts None (admin_gold "100") gold_result results_sample admin_gold_form) as (_ & Hok & _).
  - intros e en Hin%list_elem_of_singleton. rewrite Hin. exact (stored_row_resolves results_sample 100 en golden_row_resolves).
  - destruct Hok as (k & d' & Hrun & _ & Ht & _).
    + split; [apply NoDup_singleton|]. intros k' r' Hr. by rewrite results_sample_empty, lookup_empty in Hr.
    + by exists k, d'.
Defined.

Definition sample_mats : mat_table := mkMatTable {[ 1 := mkPoomsaeMat 5 1 [2]; 2 := mkPoomsaeMat 5 2 [3] ]} 3.
Definition sample_mat_forms : list mat_form :=
  [mkMatForm (Some 1) false (Some 1) [2; 4]; mkMatForm (Some 2) true (Some 2) [3]; mkMatForm None false (Some 3) [5]].

Lemma sample_mats_sound : mats_sound sample_mats.
Proof.
  assert (Hrows : ∀ k r, mb_rows sample_mats !! k = Some r →
    (k = 1 ∧ r = mkPoomsaeMat 5 1 [2]) ∨ (k = 2 ∧ r = mkPoomsaeMat 5 2 [3])).
  { intros k r. unfold sample_mats. cbn [mb_rows]. rewrite lookup_insert_Some, lookup_singleton_Some. naive_solver. }
  split.
  - intros k r [[-> _]|[-> _]]%Hrows; cbn; lia.
  - intros k k' r r' [[-> ->]|[-> ->]]%Hrows [[-> ->]|[-> ->]]%Hrows; done.
Qed.

Lemma mats_page_stores_witness :
  ∃ t', mats_page 5 3 sample_mat_forms sample_mats = (Ok (Some tt), t') ∧ mats_sound t' ∧ mb_rows t' !! 2 = None.
Proof.
  assert (Hnd : NoDup (omap mf_pk sample_mat_forms)) by (refine (bool_decide_eq_true_1 _ _); vm_compute; reflexivity).
  destruct (mats_page_stores sample_mats 5 3 sample_mat_forms sample_mats_sound Hnd) as (t' & Hrun & Hs & _ & Hdel & _).
  - intros f k Hin Hk. unfold sample_mat_forms in Hin. rewrite !elem_of_cons in Hin.
    destruct Hin as [->|[->|[->|Hin%not_elem_of_nil]]]; [..|done]; cbn in *; simplify_eq; lia.
  - exists t'. split_and!; [done|done|].
    exact (Hdel (mkMatForm (Some 2) true (Some 2) [3]) 2 ltac:(right; left) eq_refl eq_refl).
Defined.

Lemma uploaded_names_are_safe_witness :
  ∃ dir base ext safe, path_split "docs/my file.pdf" = (dir, (base ++ ext)%string) ∧
    _safe_filename id "abc" "docs/my file.pdf" = path_join dir (safe ++ ext) ∧
    all_chars safe_char safe = true ∧ (1 ≤ String.length safe ≤ 120)%nat.
Proof. apply (uploaded_names_are_safe id "abc"); [reflexivity|discriminate|discriminate]. Defined.
