(* ===== verification/ReportPages.v ===== *)
(** The pages of the reports and their CSV files: [reports/views.py], and the CSV action of
    the seminar attendees in [competitions/admin.py].

    [csv.writer] is the default dialect of the standard library: fields are separated by
    commas, lines end in CR LF, and a field is quoted when it must be. The days of the
    period are shown by [day_text]; forms come as their cleaned data. *)

From Stdlib Require Import Ascii.
From stdpp Require Import pretty.
From S2P Require Import Prelude Store Points Ranking Payments GroupRegistration Text Dates Accounts Reports AdminLists.
Local Open Scope Z_scope.

(** ** CSV *)

Definition comma : ascii := ","%char.
Definition quote : ascii := ascii_of_nat 34.
Definition cr : ascii := ascii_of_nat 13.
Definition lf : ascii := ascii_of_nat 10.

Definition text := list ascii.

Definition special (c : ascii) : bool := Ascii.eqb c comma || Ascii.eqb c quote || Ascii.eqb c cr || Ascii.eqb c lf.

Fixpoint doubled (f : text) : text :=
  match f with
  | [] => []
  | c :: f' => if Ascii.eqb c quote then quote :: quote :: doubled f' else c :: doubled f'
  end.

(** A field; the only field of a row is quoted when it is empty. *)
Definition csv_field (only : bool) (f : text) : text :=
  if existsb special f || only && bool_decide (f = []) then quote :: doubled f ++ [quote] else f.

Fixpoint csv_fields (only : bool) (fs : list text) : text :=
  match fs with
  | [] => []
  | [f] => csv_field only f
  | f :: fs' => csv_field false f ++ comma :: csv_fields false fs'
  end.

(** [w.writerow(fs)] and a file of rows. *)
Definition csv_row (fs : list text) : text := csv_fields true fs ++ [cr; lf].
Definition csv_file (rows : list (list text)) : text := mjoin (csv_row <$> rows).

(** The reader of this dialect, as the reference: a machine over the characters. *)
Inductive csv_state := StartRecord | StartField | InField | InQuoted | QuoteInQuoted | AfterCR.

Fixpoint csv_read (st : csv_state) (row : list text) (cur : text) (s : text) : list (list text) :=
  match s with
  | [] => []
  | c :: s' =>
      match st with
      | AfterCR => csv_read StartRecord [] [] s'
      | StartRecord | StartField =>
          if Ascii.eqb c quote then csv_read InQuoted row [] s'
          else if Ascii.eqb c comma then csv_read StartField (row ++ [[]]) [] s'
          else if Ascii.eqb c cr then
            (match st with StartRecord => [] | _ => row ++ [[]] end) :: csv_read AfterCR [] [] s'
          else csv_read InField row [c] s'
      | InField =>
          if Ascii.eqb c comma then csv_read StartField (row ++ [cur]) [] s'
          else if Ascii.eqb c cr then (row ++ [cur]) :: csv_read AfterCR [] [] s'
          else csv_read InField row (cur ++ [c]) s'
      | InQuoted =>
          if Ascii.eqb c quote then csv_read QuoteInQuoted row cur s'
          else csv_read InQuoted row (cur ++ [c]) s'
      | QuoteInQuoted =>
          if Ascii.eqb c quote then csv_read InQuoted row (cur ++ [quote]) s'
          else if Ascii.eqb c comma then csv_read StartField (row ++ [cur]) [] s'
          else if Ascii.eqb c cr then (row ++ [cur]) :: csv_read AfterCR [] [] s'
          else csv_read InField row (cur ++ [c]) s'
      end
  end.
Definition csv_rows (s : text) : list (list text) := csv_read StartRecord [] [] s.

Definition txt (s : string) : text := String.list_ascii_of_string s.

(** ** The period *)

(** [_daterange_from_form]: the cleaned data of [DateRangeForm], [None] for a form without
    data, which is never cleaned. *)
Definition _daterange_from_form (cleaned : option (option Z * option Z)) (today : Z) : option Z * option Z :=
  match default (None, None) ((λ c, clean_range c.1 c.2 today) <$> cleaned) with
  | (None, None) => (Some (today - 30), Some today)
  | p => p
  end.

(** ** The page of the users *)

Record list_form := mkListForm {
  lf_coach : option Z;
  lf_club : option Z;
  lf_board : option Z;
  lf_belt : string;
  lf_role : string;
  lf_code : string;
}.

(** A list of the page: asked for by its parameter, with its form when that is valid. *)
Record list_request := mkListRequest {
  lr_show : bool;
  lr_form : option list_form;
}.

(** What is shown: nothing, or the rows of the service, none for an invalid form. *)
Definition shown_list {A} (q : list_request) (service : list_form → list A) : option (list A) :=
  if lr_show q then Some (match lr_form q with Some f => service f | None => [] end) else None.

Record users_page := mkUsersPage {
  up_data : users_figures;
  up_students : option (list student_row);
  up_club_students : option (list student_row);
  up_board_students : option (list student_row);
  up_officials : option (list official_row);
}.

Section pages.
Context (profile_created club_created : Z → Z) (enrollments : gmap Z Enrollment).

(** [users_report] *)
Definition users_report (s : accounts) (period : option (option Z * option Z)) (students clubs boards officials : list_request)
    (today : Z) : users_page :=
  let '(start, stop) := _daterange_from_form period today in
  mkUsersPage (users_summary profile_created club_created s start stop today)
    (shown_list students (λ f, coach_students enrollments s (lf_coach f) (lf_belt f) (lf_club f) (lf_code f)))
    (shown_list clubs (λ f, club_students enrollments s (lf_club f) (lf_belt f) (lf_coach f) (lf_code f)))
    (shown_list boards (λ f, board_students enrollments s (lf_board f) (lf_belt f) (lf_coach f) (lf_club f) (lf_code f)))
    (shown_list officials (λ f, board_coaches_referees enrollments s (lf_board f)
       (if truthy_str (lf_role f) then Some (lf_role f) else None) (lf_club f) (lf_code f))).

(** ** The CSV files *)

Inductive export_answer :=
  | CsvFile (content : text)
  | RedirectToCenter.

Definition day_cell (day_text : Z → string) (d : option Z) : text := from_option (λ k, txt (day_text k)) [] d.

(** The rows of the users: the counts by role below the total. *)
Definition users_rows (day_text : Z → string) (res : users_figures) (start stop : option Z) : list (list text) :=
  [txt "from"; txt "to"; txt "total"] :: [day_cell day_text start; day_cell day_text stop; txt (pretty (uf_total res))]
  :: [] :: [txt "role"; txt "count"] :: ((λ rc, [txt rc.1; txt (pretty rc.2)]) <$> uf_by_role res).

(** [export_csv]: the services behind the other two kinds do not exist, so asking for them
    raises [AttributeError]. *)
Definition export_csv (day_text : Z → string) (s : accounts) (period : option (option Z * option Z)) (kind : string) (today : Z)
    : result export_answer :=
  let '(start, stop) := _daterange_from_form period today in
  if String.eqb kind "users" then
    Ok (CsvFile (csv_file (users_rows day_text (users_summary profile_created club_created s start stop today) start stop)))
  else if String.eqb kind "competitions" then Err AttributeError
  else if String.eqb kind "finance" then Err AttributeError
  else Ok RedirectToCenter.
End pages.

(** ** Attendees of seminars *)

Section attendees.
Context {P : Type} (first_name last_name national_code belt_grade : Z → string) (has_profile : Z → bool)
  (user_name user_full_name : Z → string) (role_label : string → string) (paid_text created_text : Z → string).
Implicit Types d : DB P.

(** [Seminar.__str__] *)
Definition str_seminar d (k : Z) : string :=
  or_str (default "" (se_title <$> db_seminars d !! k)) ("سمینار #" ++ pretty k)%string.

(** A row of the action [export_csv] of [SeminarAttendeeAdmin]. *)
Definition attendee_row d (kr : Z * SeminarRegistration) : list text :=
  let r := kr.2 in
  let u := sr_user r in
  txt <$> [str_seminar d (sr_seminar r); user_name u;
           if has_profile u then strip (first_name u ++ " " ++ last_name u)%string else user_full_name u;
           of_profile has_profile national_code u; of_profile has_profile belt_grade u; sr_phone r;
           String.concat "، " (role_label <$> sr_roles r); (if sr_is_paid r then "Yes" else "No")%string;
           pretty (sr_paid_amount r); from_option paid_text ""%string (sr_paid_at r); created_text kr.1].

Definition attendee_header : list text :=
  txt <$> ["Seminar"; "User"; "Full name"; "National code"; "Belt"; "Phone"; "Roles"; "Paid"; "Amount"; "Paid At"; "Created At"]%string.

Definition export_attendees d (selected : list (Z * SeminarRegistration)) : text :=
  csv_file (attendee_header :: (attendee_row d <$> selected)).
End attendees.

(** ** Reading a file back *)

Section csv_facts.
Implicit Types (f : text) (row : list text).

Lemma special_false c : special c = false →
  Ascii.eqb c comma = false ∧ Ascii.eqb c quote = false ∧ Ascii.eqb c cr = false.
Proof. unfold special. rewrite !orb_false_iff. tauto. Qed.

Lemma read_plain row f : existsb special f = false → ∀ cur s,
  csv_read InField row cur (f ++ s) = csv_read InField row (cur ++ f) s.
Proof.
  induction f as [|c f IH]; intros Hf cur s; [by rewrite app_nil_r|]. cbn in Hf. apply orb_false_iff in Hf as [Hc Hf].
  apply special_false in Hc as (H1 & H2 & H3). cbn. rewrite H1, H3, IH by done. by rewrite <- app_assoc.
Qed.

Lemma read_doubled row f : ∀ cur s, csv_read InQuoted row cur (doubled f ++ s) = csv_read InQuoted row (cur ++ f) s.
Proof.
  induction f as [|c f IH]; intros cur s; [by rewrite app_nil_r|]. cbn.
  destruct (Ascii.eqb_spec c quote) as [->|Hne].
  - cbn. rewrite IH. by rewrite <- app_assoc.
  - cbn. rewrite (proj2 (Ascii.eqb_neq c quote) Hne), IH. by rewrite <- app_assoc.
Qed.

(** After a field: at a comma the next one starts, at CR the row is done. *)
Lemma read_field st row f only s : st = StartRecord ∨ st = StartField →
  (only = true ∨ st = StartField ∨ f ≠ [] ∨ row = []) →
  csv_read st row [] (csv_field only f ++ comma :: s) = csv_read StartField (row ++ [f]) [] s ∧
  ((only = true ∨ st = StartField) →
   csv_read st row [] (csv_field only f ++ cr :: lf :: s) = (row ++ [f]) :: csv_rows s).
Proof.
  intros Hst _. unfold csv_field. destruct (existsb special f) eqn:Hf; cbn [orb].
  - cbn. destruct Hst as [-> | ->]; rewrite <- !app_assoc, !read_doubled; done.
  - destruct f as [|c f].
    + rewrite bool_decide_eq_true_2, andb_true_r by done.
      destruct only; [by destruct Hst as [-> | ->]|].
      destruct Hst as [-> | ->]; cbn; (split; [done|]); [intros [?|?]; done|done].
    + rewrite bool_decide_eq_false_2, andb_false_r by done. cbn in Hf. apply orb_false_iff in Hf as [Hc Hf].
      apply special_false in Hc as (H1 & H2 & H3).
      destruct Hst as [-> | ->]; cbn; rewrite H1, H2, H3, !read_plain by done; done.
Qed.

Lemma read_fields fs : ∀ row f s,
  csv_read StartField row [] (csv_fields false (f :: fs) ++ cr :: lf :: s) = (row ++ f :: fs) :: csv_rows s.
Proof.
  induction fs as [|f' fs IH]; intros row f s.
  - cbn [csv_fields]. apply read_field; auto.
  - change (csv_fields false (f :: f' :: fs)) with (csv_field false f ++ comma :: csv_fields false (f' :: fs)).
    rewrite <- app_assoc. cbn [app]. rewrite (proj1 (read_field StartField row f false _ ltac:(auto) ltac:(auto))), IH.
    by rewrite <- app_assoc.
Qed.

Lemma read_row fs s : csv_rows (csv_row fs ++ s) = fs :: csv_rows s.
Proof.
  unfold csv_row, csv_rows. rewrite <- app_assoc. destruct fs as [|f [|f' fs]].
  - done.
  - cbn [csv_fields app]. by apply read_field; auto.
  - change (csv_fields true (f :: f' :: fs)) with (csv_field false f ++ comma :: csv_fields false (f' :: fs)).
    rewrite <- app_assoc. cbn [app]. rewrite (proj1 (read_field StartRecord [] f false _ ltac:(auto) ltac:(auto))).
    apply read_fields.
Qed.

Lemma read_file rows : csv_rows (csv_file rows) = rows.
Proof.
  induction rows as [|r rows IH]; [done|]. change (csv_file (r :: rows)) with (csv_row r ++ csv_file rows).
  by rewrite read_row, IH.
Qed.
End csv_facts.

(** ** Correctness *)

Lemma py_int_of_pretty n : 0 ≤ n → py_int (pretty n) = Some n.
Proof.
  intros Hn. destruct (pretty_digits (Z.to_nat n + 1) n) as (Hd & Hl & Hv); [|lia|].
  - split; [done|]. rewrite Nat2Z.inj_add, Z2Nat.id by done.
    etrans; [apply (Z.pow_gt_lin_r 10 n); lia|]. apply Z.pow_lt_mono_r; lia.
  - apply py_int_digits; [done|lia|done].
Qed.

(** The period of every report: at least one end is given, and two ends are in order. *)
Lemma period_in_order cleaned today s e : _daterange_from_form cleaned today = (s, e) →
  (s ≠ None ∨ e ≠ None) ∧ ∀ a b, s = Some a → e = Some b → a ≤ b.
Proof.
  unfold _daterange_from_form. destruct cleaned as [[[a|] [b|]]|]; cbn.
  1: destruct (Z.ltb_spec b a). all: intros [= <- <-]; (split; [auto|intros; simplify_eq; lia]).
Qed.

(** One row for each role. *)
Lemma by_role_nodup qs : NoDup (by_role qs).*1.
Proof.
  unfold by_role. rewrite sort_by_perm, <- list_fmap_compose.
  rewrite (list_fmap_ext _ id (remove_dups (role_of <$> qs))) by done.
  rewrite list_fmap_id. apply NoDup_remove_dups.
Qed.

(** C32: the CSV file of the users reads back. Whatever the roles are called, a reader of CSV finds the
    header, the period with the number of profiles created in it, and below one row for each role
    that a profile of the period has, no role twice, with the number of the profiles of the period
    that have it, in falling order of these numbers; the numbers read as integers, and the
    counts of the roles add up to the total. *)
Theorem users_export_reads_back profile_created club_created day_text s period today :
  let '(start, stop) := _daterange_from_form period today in
  let in_period := List.filter (λ kr : Z * Profile, in_range start stop (profile_created kr.1)) (rows_by_id (ac_profiles s)) in
  ∃ content counts,
    export_csv profile_created club_created day_text s period "users" today = Ok (CsvFile content) ∧
    csv_rows content =
      [txt "from"; txt "to"; txt "total"]
      :: [day_cell day_text start; day_cell day_text stop; txt (pretty (zlen in_period))]
      :: [] :: [txt "role"; txt "count"] :: ((λ rc : string * Z, [txt rc.1; txt (pretty rc.2)]) <$> counts) ∧
    NoDup counts.*1 ∧
    (∀ r n, (r, n) ∈ counts ↔
       r ∈ role_of <$> in_period ∧ n = zlen (List.filter (λ kr, String.eqb (pe_role (pf_person kr.2)) r) in_period)) ∧
    StronglySorted (λ a b, b.2 ≤ a.2) counts ∧
    sumZ counts.*2 = zlen in_period ∧
    py_int (pretty (zlen in_period)) = Some (zlen in_period) ∧
    ∀ r n, (r, n) ∈ counts → 0 < n ∧ py_int (pretty n) = Some n.
Proof.
  destruct (_daterange_from_form period today) as [start stop] eqn:Hp. intros in_period.
  set (f := users_summary profile_created club_created s start stop today).
  exists (csv_file (users_rows day_text f start stop)), (uf_by_role f). split_and!.
  - unfold export_csv. by rewrite Hp.
  - by rewrite read_file.
  - apply by_role_nodup.
  - intros r n. unfold f, users_summary. cbn [uf_by_role]. unfold by_role. rewrite sort_by_perm, list_elem_of_fmap.
    setoid_rewrite elem_of_remove_dups. split; [|intros [Hr ->]; by exists r].
    by intros (r' & [= -> ->] & Hr).
  - unfold f, users_summary, by_role. cbn [uf_by_role].
    eapply StronglySorted_weaken; [|apply sort_by_sorted]; cbn; intros *; rewrite ?Z.leb_le; lia.
  - apply by_role_sum.
  - apply py_int_of_pretty. unfold zlen. lia.
  - intros r n [Hn _]%elem_of_by_role. split; [done|]. apply py_int_of_pretty. lia.
Qed.

(** The file of the attendees has the header and one row per selected registration, in
    their order, whatever the names and notes contain. *)
Lemma attendees_read_back {P} fn ln nc bg has un uf rl pt ct (d : DB P) selected :
  csv_rows (export_attendees fn ln nc bg has un uf rl pt ct d selected) =
    attendee_header :: (attendee_row fn ln nc bg has un uf rl pt ct d <$> selected).
Proof. apply read_file. Qed.

(** The other two files of the reports are never written. *)
Lemma other_exports_fail pc cc day_text s period today kind : kind ∈ ["competitions"; "finance"]%string →
  export_csv pc cc day_text s period kind today = Err AttributeError.
Proof.
  rewrite !elem_of_cons, elem_of_nil. unfold export_csv.
  destruct (_daterange_from_form period today). by intros [->|[->|[]]].
Qed.

(** The lists of the users page. A list appears exactly when it is asked for; a form that is not
    valid empties its list; and with the same coach, club, belt and code the list of the coach
    and the list of the club hold the same students. *)
Theorem page_lists_agree pc cc enrollments s period students clubs boards officials today :
  let page := users_report pc cc enrollments s period students clubs boards officials today in
  (is_Some (up_students page) ↔ lr_show students = true) ∧
  (lr_form students = None → up_students page = None ∨ up_students page = Some []) ∧
  (∀ f rows rows', lr_form students = Some f → lr_form clubs = Some f → truthy_id (lf_coach f) = true → truthy_id (lf_club f) = true →
     up_students page = Some rows → up_club_students page = Some rows' → (sw_id <$> rows) = (sw_id <$> rows')).
Proof.
  cbn zeta. unfold users_report. destruct (_daterange_from_form period today) as [start stop]. cbn. unfold shown_list.
  split_and!.
  - destruct (lr_show students); split; [done|by eexists|by intros [? ?]|done].
  - intros ->. destruct (lr_show students); auto.
  - intros f rows rows' -> -> Hco Hcl. destruct (lr_show students); [|done]. destruct (lr_show clubs); [|done].
    intros [= <-] [= <-]. unfold coach_students, club_students. rewrite <- !list_fmap_compose.
    rewrite (coach_list_filter s _ _ _ _ Hco), (club_list_filter s _ _ _ _ Hcl). done.
Qed.

(** A role that holds a comma and a quote survives. *)
Example awkward_role_survives :
  csv_rows (csv_file [[txt "a,b"; [quote; lf]; []]; [[]]; []]) = [[txt "a,b"; [quote; lf]; []]; [[]]; []].
Proof. vm_compute. reflexivity. Qed.
