(* ===== verification/Prefill.v ===== *)
(** The prefilled form of the kyorugi registration: [RegisterSelfPrefillView] of
    [competitions/views.py], which shows a player the competition and the columns of the profile
    that cannot be changed.

    The calendar, the columns the competition core does not store and the names of logins are
    arguments, as in [Details]. [re.sub] and [re.search] are written out for the two patterns;
    texts are lists of characters there, and only ASCII digits are digits after the translation. *)

From Stdlib Require Import Ascii.
From S2P Require Import Prelude Store Points Ranking Payments GroupPayments GroupRegistration Text Dates Approvals SelfRegistration Accounts Eligibility Cards Catalogue Details.
Local Open Scope Z_scope.

(** ** Names without a phone *)

(** The marks removed first: those of [Dates.marks] and U+2066 to U+2069. *)
Definition prefill_marks : list string :=
  marks ++ ((λ k, String (ascii_of_nat 226) (String (ascii_of_nat 129) (String (ascii_of_nat k) ""))) <$> [166; 167; 168; 169]%nat).
Definition remove_prefill_marks (s : string) : string := foldl (λ t k, replace k "" t) s prefill_marks.

(** The character classes of the pattern: separators, an opening sign, the tail. *)
Definition of_ascii (p : ascii → bool) (c : string) : bool :=
  match c with String a EmptyString => p a | _ => false end.
Definition is_sep (c : string) : bool :=
  of_ascii (λ a, is_space a || Ascii.eqb a "-" || Ascii.eqb a ":" || Ascii.eqb a "|") c
  || bool_decide (c ∈ ["–"; "—"; "،"]%string).
Definition is_opening (c : string) : bool := of_ascii (λ a, Ascii.eqb a "+" || Ascii.eqb a "(" || Ascii.eqb a "[") c.
Definition is_digit1 (c : string) : bool := of_ascii is_digit c.
Definition is_tail (c : string) : bool :=
  of_ascii (λ a, is_digit a || is_space a || Ascii.eqb a "-" || Ascii.eqb a "(" || Ascii.eqb a ")") c.

(** [\d[\d\s\-\(\)]{6,}$], with an opening sign before it, with separators before that. *)
Definition phone_core (l : list string) : bool :=
  match l with c :: l' => is_digit1 c && (6 <=? length l')%nat && forallb is_tail l' | [] => false end.
Definition opened_phone (l : list string) : bool :=
  phone_core l || match l with c :: l' => is_opening c && phone_core l' | [] => false end.
Fixpoint phone_suffix (l : list string) : bool :=
  opened_phone l || match l with c :: l' => is_sep c && phone_suffix l' | [] => false end.

(** [re.sub(pattern, "", t)]: the leftmost match runs to the end of the text. *)
Fixpoint cut_phone (l : list string) : list string :=
  if phone_suffix l then [] else match l with [] => [] | c :: l' => c :: cut_phone l' end.

Definition _strip_phone (s : string) : string :=
  if negb (truthy_str s) then ""
  else
    let t := remove_prefill_marks s in
    let t_norm := strip (String.concat "" (cut_phone (chars (_to_en_digits t)))) in
    if py_len t_norm <? py_len t then t_norm else strip t.

(** ** Birth dates *)

(** One or two digits. *)
Definition short_number (s : string) : option (Z * string) :=
  match s with
  | String x s' =>
      if is_digit x then
        match s' with
        | String y s'' => if is_digit y then (λ n, (n, s'')) <$> digits (Some 0) (String x (String y ""))
                          else (λ n, (n, s')) <$> digits (Some 0) (String x "")
        | EmptyString => (λ n, (n, s')) <$> digits (Some 0) (String x "")
        end
      else None
  | EmptyString => None
  end.

(** [(\d{4})/(\d{1,2})/(\d{1,2})] at the start of a text, and anywhere in it. *)
Definition ymd_at (s : string) : option (Z * Z * Z) :=
  match s with
  | String a (String b (String c (String d (String "/" r)))) =>
      if is_digit a && is_digit b && is_digit c && is_digit d then
        match digits (Some 0) (String a (String b (String c (String d "")))), short_number r with
        | Some y, Some (m, String "/" r') => match short_number r' with Some (dd, _) => Some (y, m, dd) | None => None end
        | _, _ => None
        end
      else None
  | _ => None
  end.
Fixpoint search_ymd (s : string) : option (Z * Z * Z) :=
  match ymd_at s with
  | Some x => Some x
  | None => match s with String _ s' => search_ymd s' | EmptyString => None end
  end.

Section prefill.
Context {P : Type} `{PointArith P} (iexact : string → string → bool)
  (jalali : Z → Z → Z → option date) (jdate_of : Z → date)
  (belt_grade birth_date national_code coach_name : Z → string) (club_names : Z → list string)
  (user_names : Z → string * string) (profile_user : Z → option Z).
Local Abbreviation db := (DB P).

(** [_parse_birthdate_to_date] on text. *)
Definition _parse_birthdate_to_date (val : string) : option date :=
  if negb (truthy_str val) then None
  else
    let t := strip val in
    let t := if contains "T" t then String.concat "" (take 10 (chars t)) else t in
    search_ymd (_to_en_digits (slashes t)) ≫= of_ymd jalali.

(** [_birth_display], [_belt_display] and [_coach_name_only] *)
Definition _birth_display (k : Z) : string :=
  match _parse_birthdate_to_date (birth_date k) with
  | Some g => jalali_text (jdate_of (toordinal g))
  | None => ""
  end.
Definition _belt_display (k : Z) : string := belt_grade k.
Definition _coach_name_only (d : db) (k : Z) (p : UserProfile P) : string :=
  match up_coach p ≫= (db_profiles d !!.) with
  | Some c => strip (up_first_name c ++ " " ++ up_last_name c)%string
  | None => _strip_phone (coach_name k)
  end.

Definition prefill_club (d : db) (k : Z) (p : UserProfile P) : string :=
  match up_club p ≫= (db_clubs d !!.) with
  | Some c => cl_club_name c
  | None => String.concat "، " (List.filter truthy_str (club_names k))
  end.

Record locked_fields := mkLockedFields {
  lf_first_name : string;
  lf_last_name : string;
  lf_national_code : string;
  lf_birth_date : string;
  lf_belt : string;
  lf_club_name : string;
  lf_coach_name : string;
}.

Record prefill_page := mkPrefillPage {
  pf_public_id : string;
  pf_title : string;
  pf_registration_open_effective : bool;
  pf_can_register : bool;
  pf_locked : locked_fields;
  pf_need_coach_code : bool;
}.

Inductive prefill_answer :=
  | PrefillNoProfile
  | Prefilled (page : prefill_page).

(** [RegisterSelfPrefillView.get]: the profile has no weight and no insurance, so nothing is suggested. *)
Definition register_self_prefill (d : db) (key : string) (user : Z) (today : Z) : result prefill_answer :=
  match _get_comp_by_key iexact d key ≫= (db_competitions d !!.) with
  | None => Err Http404
  | Some comp =>
      match head (profiles_of profile_user d user) with
      | None => Ok PrefillNoProfile
      | Some (k, p) =>
          let can_register := registration_open_effective comp today in
          Ok (Prefilled (mkPrefillPage (kc_public_id comp) (kc_title comp) can_register can_register
                (mkLockedFields (or_str (up_first_name p) (user_names k).1) (or_str (up_last_name p) (user_names k).2)
                   (national_code k) (_birth_display k) (_belt_display k) (prefill_club d k p) (_coach_name_only d k p))
                true))
      end
  end.
End prefill.

(** ** The phone behind a name *)

(** A character that no part of the pattern matches, such as a letter. *)
Definition name_char (c : string) : bool := negb (is_sep c || is_opening c || is_digit1 c || is_tail c).

Lemma core_no_name l c : c ∈ l → name_char c = true → phone_core l = false.
Proof.
  unfold name_char. rewrite negb_true_iff, !orb_false_iff. intros Hin [[[Hs Ho] Hd] Ht].
  destruct l as [|x l]; [by apply not_elem_of_nil in Hin|]. cbn. apply elem_of_cons in Hin as [<-|Hin]; [by rewrite Hd|].
  destruct (forallb is_tail l) eqn:Hf; [|by rewrite andb_false_r]. rewrite forallb_forall in Hf.
  apply list_elem_of_In, Hf in Hin. congruence.
Qed.

Lemma suffix_no_name l c : c ∈ l → name_char c = true → phone_suffix l = false.
Proof.
  intros Hin Hc. assert (Hc' := Hc). unfold name_char in Hc'. rewrite negb_true_iff, !orb_false_iff in Hc'.
  destruct Hc' as [[[Hs Ho] Hd] Ht]. induction l as [|x l IH]; [by apply not_elem_of_nil in Hin|].
  cbn [phone_suffix]. unfold opened_phone. rewrite (core_no_name _ c Hin Hc). cbn [orb].
  apply elem_of_cons in Hin as [<-|Hin]; [by rewrite Ho, Hs|].
  by rewrite (core_no_name _ c Hin Hc), (IH Hin), !andb_false_r.
Qed.

(** What is cut from a name that ends in a letter is the phone behind it, whole. *)
Lemma cut_phone_name n c phone : name_char c = true → phone_suffix phone = true →
  cut_phone (n ++ c :: phone) = n ++ [c].
Proof.
  intros Hc Hp. induction n as [|x n IH].
  - cbn [app]. cbn [cut_phone]. rewrite (suffix_no_name (c :: phone) c) by (done || by left). f_equal.
    destruct phone as [|y phone]; [done|]. cbn [cut_phone]. by rewrite Hp.
  - cbn [app]. cbn [cut_phone].
    rewrite (suffix_no_name (x :: n ++ c :: phone) c); [by rewrite IH| |done].
    right. apply elem_of_app. right. left.
Qed.

Example phone_is_cut : _strip_phone "علی رضایی - ۰۹۱۲۳۴۵۶۷۸۹" = "علی رضایی"%string.
Proof. vm_compute. reflexivity. Qed.

Example short_number_stays : _strip_phone "Gym 1234" = "Gym 1234"%string.
Proof. vm_compute. reflexivity. Qed.

(** ** Birth dates *)

Lemma four_digits s : String.length s = 4%nat → ∃ a b c d, s = String a (String b (String c (String d ""))).
Proof. destruct s as [|a [|b [|c [|d [|e s]]]]]; try done. intros _. eauto. Qed.
Lemma two_digits s : String.length s = 2%nat → ∃ a b, s = String a (String b "").
Proof. destruct s as [|a [|b [|c s]]]; try done. intros _. eauto. Qed.

Lemma append_nil_text (s : string) : (s ++ "")%string = s.
Proof. induction s as [|c s IH]; [done|exact (f_equal (String c) IH)]. Qed.

Lemma short_number_two s n rest : all_digits s = true → String.length s = 2%nat → digits (Some 0) s = Some n →
  short_number (s ++ rest) = Some (n, rest).
Proof.
  intros Hd Hl Hn. destruct (two_digits s Hl) as (a & b & ->). cbn in Hd. rewrite !andb_true_iff in Hd.
  destruct Hd as (Ha & Hb & _). change (is_digit a = true) in Ha. change (is_digit b = true) in Hb.
  change (short_number (String a (String b rest)) = Some (n, rest)). cbn [short_number]. by rewrite Ha, Hb, Hn.
Qed.

Lemma search_ymd_text t : fits t → search_ymd (ymd_text "/" t) = Some (d_year t, d_month t, d_day t).
Proof.
  intros Ht. destruct (parts_spec t Ht) as (Hy & Hly & Hny & Hm & Hlm & Hnm & Hd & Hld & Hnd).
  assert (Hat : ymd_at (ymd_text "/" t) = Some (d_year t, d_month t, d_day t)).
  { unfold ymd_text. destruct (four_digits _ Hly) as (a & b & c & d & Hs). rewrite Hs in *.
    pose proof (short_number_two _ _ (String "/" (pad 2 (d_day t))) Hm Hlm Hnm) as H1.
    pose proof (short_number_two _ _ "" Hd Hld Hnd) as H2. rewrite append_nil_text in H2.
    cbn in Hy. rewrite !andb_true_iff in Hy. destruct Hy as (Ha & Hb & Hc & Hd' & _).
    change (is_digit a = true) in Ha. change (is_digit b = true) in Hb.
    change (is_digit c = true) in Hc. change (is_digit d = true) in Hd'.
    change (ymd_at (String a (String b (String c (String d (String "/" (pad 2 (d_month t) ++ String "/" (pad 2 (d_day t))))))))
      = Some (d_year t, d_month t, d_day t)).
    cbn [ymd_at]. by rewrite Ha, Hb, Hc, Hd', Hny, H1, H2. }
  destruct (ymd_text "/" t) as [|x s]; [done|]. cbn [search_ymd]. by rewrite Hat.
Qed.

(** A text of date characters holds no T. *)
Lemma no_T s : all_chars date_char s = true → contains "T" s = false.
Proof.
  induction s as [|c s IH]; [done|]. intros Hcs. cbn in Hcs. rewrite andb_true_iff in Hcs.
  destruct Hcs as [(_ & _ & Hc & _)%date_char_cases Hs].
  change (contains "T" (String c s)) with
    (match ascii_dec "T" c with left _ => String.prefix "" s | right _ => false end || contains "T" s).
  rewrite (IH Hs). destruct (ascii_dec "T" c) as [E|_]; [by destruct Hc|done].
Qed.

(** ** The form and the page *)

Section prefill_facts.
Context {P : Type} `{PointArith P} (jalali : Z → Z → Z → option date) (jdate_of : Z → date)
  `{!JalaliCalendar jalali jdate_of} (birth_date : Z → string).

Lemma birth_texts_agree k g : born_on jalali birth_date k g →
  _birth_display jalali jdate_of birth_date k = jalali_text (jdate_of (toordinal g)) ∧
  _birth_fa jalali jdate_of birth_date k = Some (jalali_text (jdate_of (toordinal g))).
Proof.
  intros Hb. destruct (born_on_views jalali jdate_of birth_date k g Hb) as [_ Hp].
  destruct Hb as (sep & t & Hsep & Ht & Hy & Hb & Hj).
  pose proof (ymd_text_chars sep t (sep_ok_char sep Hsep) Ht) as Hc.
  pose proof (ymd_text_chars "/" t eq_refl Ht) as Hc'. pose proof (text_truthy sep t Ht) as Htr.
  unfold _birth_display, _birth_fa, _parse_birthdate_to_date. rewrite Hp, Hb, Htr. cbn [negb].
  rewrite (strip_date _ Hc), (no_T _ Hc), (slashes_text sep t Hsep Ht), (to_en_digits_id _ Hc'), search_ymd_text by done.
  cbn [mbind option_bind of_ymd]. by rewrite (proj2 (Z.ltb_lt _ _) Hy), Hj.
Qed.
End prefill_facts.

(** The form and the page of a competition show a player the same. For a user whose only profile
    is a player's, with a Jalali birth date, a coach, and a club that has a name or no club at all,
    the form locks the names, the birth date, the club and the coach that the page of the competition shows,
    and says that one can register exactly when the page says that the registration is open; the national
    code is in the form only. *)
Theorem prefill_agrees_with_page {P} `{PointArith P} iexact jalali jdate_of `{!JalaliCalendar jalali jdate_of}
    belt_grade birth_date national_code coach_name club_names user_names profile_user belt_groups group_label belt_level ages
    (d : DB P) key comp_id comp user today k p coach g :
  _get_comp_by_key iexact d key = Some comp_id → db_competitions d !! comp_id = Some comp →
  profiles_of profile_user d user = [(k, p)] → up_role p = "player"%string →
  born_on jalali birth_date k g → up_coach p ≫= (db_profiles d !!.) = Some coach →
  (∀ c, up_club p ≫= (db_clubs d !!.) = Some c → cl_club_name c ≠ ""%string) →
  let detail := kyorugi_detail_of jalali jdate_of belt_grade birth_date club_names user_names profile_user
                  belt_groups group_label belt_level ages d comp_id comp (Some user) today in
  ∃ page l, register_self_prefill iexact jalali jdate_of belt_grade birth_date national_code coach_name club_names
              user_names profile_user d key user today = Ok (Prefilled page) ∧
    kd_me_locked detail = Some l ∧
    pf_can_register page = kd_registration_open_effective detail ∧
    lf_first_name (pf_locked page) = lk_first_name l ∧ lf_last_name (pf_locked page) = lk_last_name l ∧
    Some (lf_birth_date (pf_locked page)) = lk_birth_date l ∧
    lf_club_name (pf_locked page) = lk_club l ∧ lf_coach_name (pf_locked page) = lk_coach l ∧
    lf_national_code (pf_locked page) = national_code k ∧ lk_national_id l = ""%string.
Proof.
  intros Hkey Hcomp Hprof Hrole Hborn Hcoach Hclub. cbn zeta.
  destruct (birth_texts_agree jalali jdate_of birth_date k g Hborn) as [Hbd Hbf].
  assert (Hcur : _current_player_profile profile_user d user = Some (k, p)).
  { unfold _current_player_profile. rewrite Hprof. cbn. by rewrite Hrole. }
  unfold register_self_prefill. rewrite Hkey. cbn [mbind option_bind]. rewrite Hcomp, Hprof. cbn [head].
  eexists _, _. split; [done|].
  unfold kyorugi_detail_of, kyorugi_me_locked. cbn [kd_me_locked mbind option_bind]. rewrite Hcur. split; [done|].
  cbn. split_and!; try done.
  - by rewrite Hbd, Hbf.
  - unfold prefill_club, locked_club. destruct (up_club p ≫= _) as [c|] eqn:E; cbn; [|done].
    unfold truthy_str at 1. by rewrite (proj2 (String.eqb_neq _ _) (Hclub c eq_refl)).
  - unfold _coach_name_only, locked_coach. by rewrite Hcoach.
Qed.

(** ** Witness *)

Definition sample_player : UserProfile Z :=
  mkUserProfile "p" "x" false "player" "male" (Some 30) (Some 20) (Some 40) 0 0 0 0 0.
Definition sample_coach : UserProfile Z := mkUserProfile "c" "x" false "coach" "male" (Some 30) None (Some 40) 0 0 0 0 0.

Lemma sample_prefill_rows :
  _get_comp_by_key String.eqb eligibility_db "c" = Some 5 ∧ db_competitions eligibility_db !! 5 = Some sample_comp ∧
  profiles_of sample_login eligibility_db 7 = [(10, sample_player)] ∧
  up_coach sample_player ≫= (db_profiles eligibility_db !!.) = Some sample_coach ∧
  up_club sample_player ≫= (db_clubs eligibility_db !!.) = Some (mkTkdClub "club" (Some 40) 0 0 0 0).
Proof. vm_compute. done. Qed.

Lemma prefill_agrees_with_page_witness :
  ∃ page, register_self_prefill String.eqb even_jalali even_jdate_of (λ _, "red"%string) sample_birth (λ _, "0012345678"%string)
    (λ _, ""%string) (λ _, []) (λ _, ("", "")%string) sample_login eligibility_db "c" 7 5 = Ok (Prefilled page) ∧
    lf_national_code (pf_locked page) = "0012345678"%string.
Proof.
  destruct sample_prefill_rows as (H1 & H2 & H3 & H4 & H5).
  destruct (prefill_agrees_with_page String.eqb even_jalali even_jdate_of (λ _, "red"%string) sample_birth (λ _, "0012345678"%string)
    (λ _, ""%string) (λ _, []) (λ _, ("", "")%string) sample_login (λ _, []) (λ _, ""%string) (λ _, "all"%string) sample_ages
    eligibility_db "c" 5 sample_comp 7 5 10 sample_player sample_coach (mkDate 2010 1 5) H1 H2 H3 eq_refl sample_born_on H4)
    as (page & l & Hp & _ & _ & _ & _ & _ & _ & _ & Hn & _).
  - intros c Hc. rewrite H5 in Hc. injection Hc as <-. discriminate.
  - exists page. exact (conj Hp Hn).
Defined.
