(* ===== verification/Access.v ===== *)
(** Who may call what: the permission classes of [competitions/permissions.py], the declarations in front of
    the views (their methods, authentication and permissions), the two middlewares of [tkdjango] and the path
    of a request through them and the table of [Routes] to a view.

    What the authentication packages make of a request is a part of it: the user of its token, the user of its
    session, and whether its token against forgery is good. What follows a view's start is in the files of
    the views. *)

From Stdlib Require Import Ascii.
From S2P Require Import Prelude Store Points Ranking Payments Text Accounts Membership ApplicationPaths Roles Eligibility Routes Query BankReturn.
Local Open Scope Z_scope.

(** ** Requests *)

Inductive http_method := GET | HEAD | OPTIONS | POST | PUT | PATCH | DELETE.

#[export] Instance http_method_dec : EqDecision http_method.
Proof. solve_decision. Defined.

(** [JWTAuthentication]: no header, a token it refuses, or the user of the token. *)
Inductive token := NoToken | BadToken | TokenOf (user : Z).
Record session := mkSession { se_user : Z; se_is_active : bool; se_is_staff : bool }.

Record http_request := mkHttpRequest {
  hr_method : http_method;
  hr_path : string;
  hr_query : string;
  hr_token : token;
  hr_session : option session;
  hr_csrf_ok : bool;
}.

Inductive outcome :=
  | NoContent
  | Redirected (url : string)
  | NotFound
  | OtherPackage (app : string) (rest : list string)
  | PackageView (view : string)
  | Unauthorized
  | Forbidden
  | CsrfRefused
  | LoginPage
  | MethodNotAllowed
  | Runs (view : string) (kwargs : list (string * arg)).

(** ** Declarations *)

Inductive permission := AllowAny | IsAuthenticated | IsCoach | IsPlayer | IsCoachOrPlayer.

#[export] Instance permission_dec : EqDecision permission.
Proof. solve_decision. Defined.

(** A view of the API with its handlers, a page for the staff ([require_POST] or not), and a function without
    either (exempt from the check against forgery or not). *)
Inductive view_declaration :=
  | ApiView (authenticates : bool) (permissions : list permission) (methods : list http_method)
  | StaffView (post_only : bool)
  | PlainView (csrf_exempt : bool).

(** The settings declare no permissions of their own, so the framework's stand. *)
Definition DEFAULT_PERMISSION_CLASSES : list permission := [AllowAny].

(** [accounts/views.py] *)
Definition SendCodeAPIView_access := ApiView true [AllowAny] [POST].
Definition VerifyCodeAPIView_access := ApiView true [AllowAny] [POST].
Definition form_data_player_view_access := ApiView true DEFAULT_PERMISSION_CLASSES [GET].
Definition coaches_by_club_gender_access := ApiView true DEFAULT_PERMISSION_CLASSES [GET].
Definition form_data_view_access := ApiView true DEFAULT_PERMISSION_CLASSES [GET].
Definition check_national_code_access := PlainView false.
Definition RegisterCoachAPIView_access := ApiView true [AllowAny] [POST].
Definition approve_pending_user_access := StaffView false.
Definition RegisterPlayerAPIView_access := ApiView true [AllowAny] [POST].
Definition RegisterPendingClubAPIView_access := ApiView true [AllowAny] [POST].
Definition approve_pending_club_access := StaffView true.
Definition ClubStudentsView_access := ApiView true [IsAuthenticated] [GET].
Definition ClubCoachesView_access := ApiView true [IsAuthenticated] [GET].
Definition ClubAllCoachesView_access := ApiView true [IsAuthenticated] [GET].
Definition DashboardCombinedView_access := ApiView true [IsAuthenticated] [GET].
Definition user_profile_with_form_data_view_access := ApiView true [IsAuthenticated] [GET].
Definition UpdateProfilePendingAPIView_access := ApiView true [IsAuthenticated] [POST].
Definition approve_edited_profile_access := StaffView false.
Definition CoachStudentsAPIView_access := ApiView true [IsAuthenticated] [GET].
Definition CoachClubsAPIView_access := ApiView true [IsAuthenticated] [GET].
Definition AllClubsAPIView_access := ApiView true [AllowAny] [GET].
Definition UpdateCoachClubsAPIView_access := ApiView true [IsAuthenticated] [PATCH].
Definition UpdateClubCoachesView_access := ApiView true [IsAuthenticated] [POST].
Definition PendingCoachRequestsView_access := ApiView true [IsAuthenticated] [GET].
Definition RespondToCoachRequestView_access := ApiView true [IsAuthenticated] [POST].
Definition HeyatLoginAPIView_access := ApiView false [AllowAny] [POST].
Definition HeyatStudentsAPIView_access := ApiView true [IsAuthenticated] [GET].
Definition heyat_form_data_access := ApiView true [IsAuthenticated] [GET].
Definition HeyatCoachesAPIView_access := ApiView true [IsAuthenticated] [GET].
Definition HeyatRefereesAPIView_access := ApiView true [IsAuthenticated] [GET].
Definition heyat_clubs_list_access := ApiView true [IsAuthenticated] [GET].
Definition KyorugiCompetitionListView_access := ApiView true [IsAuthenticated] [GET].
Definition mini_profile_access := ApiView true [IsAuthenticated] [GET].
Definition UniversalLoginAPIView_access := ApiView false [AllowAny] [POST].
Definition ForgotPasswordSendCodeAPIView_access := ApiView true [AllowAny] [POST].
Definition ForgotPasswordVerifyAPIView_access := ApiView true [AllowAny] [POST].

(** [competitions/views.py] *)
Definition CompetitionDetailAnyView_access := ApiView true [AllowAny] [GET].
Definition KyorugiCompetitionDetailView_access := ApiView true [AllowAny] [GET].
Definition RegisterSelfView_access := ApiView true [IsAuthenticated; IsPlayer] [POST].
Definition CoachApprovalStatusView_access := ApiView true [IsAuthenticated; IsCoach] [GET].
Definition ApproveCompetitionView_access := ApiView true [IsAuthenticated; IsCoach] [POST].
Definition CompetitionTermsView_access := ApiView true [AllowAny] [GET].
Definition PlayerCompetitionsList_access := ApiView true [IsAuthenticated; IsPlayer] [GET].
Definition RefereeCompetitionsList_access := ApiView true [IsAuthenticated] [GET].
Definition DashboardAllCompetitionsView_access := ApiView true [IsAuthenticated] [GET].
Definition DashboardKyorugiListView_access := ApiView true [IsAuthenticated] [GET].
Definition RegisterSelfPrefillView_access := ApiView true [IsAuthenticated] [GET].
Definition EnrollmentCardView_access := ApiView true [IsAuthenticated] [GET].
Definition MyEnrollmentView_access := ApiView true [IsAuthenticated] [GET].
Definition KyorugiBracketView_access := ApiView true [AllowAny] [GET].
Definition CoachStudentsEligibleListView_access := ApiView true [IsAuthenticated; IsCoach] [GET].
Definition CoachRegisterStudentsView_access := ApiView true [IsAuthenticated; IsCoach] [POST].
Definition EnrollmentCardsBulkView_access := ApiView true [IsAuthenticated] [POST].
Definition KyorugiResultsView_access := ApiView true [AllowAny] [GET].
Definition public_bracket_view_access := PlainView false.
Definition SeminarListView_access := ApiView true [AllowAny] [GET].
Definition SeminarDetailView_access := ApiView true [AllowAny] [GET].
Definition SeminarRegisterView_access := ApiView true [IsAuthenticated] [POST].
Definition sidebar_seminars_access := ApiView true [AllowAny] [GET].
Definition PoomsaeCoachApprovalStatusView_access := ApiView true [IsAuthenticated] [GET].
Definition PoomsaeCoachApprovalApproveView_access := ApiView true [IsAuthenticated; IsCoach] [POST].
Definition PoomsaeCompetitionDetailView_access := ApiView true [AllowAny] [GET].
Definition PoomsaeRegisterSelfView_access := ApiView true [IsAuthenticated] [POST].
Definition MyPoomsaeEnrollmentsView_access := ApiView true [IsAuthenticated] [GET].
Definition PoomsaeCoachStudentsEligibleListView_access := ApiView true [IsAuthenticated; IsCoach] [GET].

(** [main/views.py] *)
Definition HeaderBackgroundAPIView_access := ApiView true DEFAULT_PERMISSION_CLASSES [GET].
Definition SliderImagesAPIView_access := ApiView true DEFAULT_PERMISSION_CLASSES [GET].
Definition NewsSliderAPIView_access := ApiView true DEFAULT_PERMISSION_CLASSES [GET].
Definition NewsListAPIView_access := ApiView true DEFAULT_PERMISSION_CLASSES [GET].
Definition NewsDetailView_access := ApiView true DEFAULT_PERMISSION_CLASSES [GET].
Definition CircularListAPIView_access := ApiView true DEFAULT_PERMISSION_CLASSES [GET].
Definition CircularsListAPIView_access := ApiView true DEFAULT_PERMISSION_CLASSES [GET].
Definition CircularDetailAPIView_access := ApiView true DEFAULT_PERMISSION_CLASSES [GET].
Definition BoardNewsSubmitAPIView_access := ApiView true [IsAuthenticated] [POST].
Definition BoardMyNewsListAPIView_access := ApiView true [IsAuthenticated] [GET].

(** [payments/views.py] *)
Definition PaymentIntentEnrollmentsView_access := ApiView true [IsAuthenticated] [GET].
Definition bankgateways_callback_override_access := PlainView true.
Definition payment_result_redirect_access := PlainView true.
Definition SadadBankReturnView_access := ApiView true [AllowAny] [POST; GET].
Definition go_to_bank_gateway_override_access := PlainView true.
Definition create_intent_access := ApiView true [IsAuthenticated] [POST].
Definition create_payment_link_access := ApiView true [IsAuthenticated] [POST].
Definition StartPaymentView_access := ApiView true [IsAuthenticated] [POST; GET].
Definition GatewayCallbackView_access := ApiView true [AllowAny] [GET; POST].

(** [apps/discounts/api/views.py] *)
Definition ApplyDiscountCodeView_access := ApiView true [AllowAny] [POST].

(** [reports/views.py] *)
Definition center_access := StaffView false.
Definition users_report_access := StaffView false.
Definition competitions_report_access := StaffView false.
Definition finance_report_access := StaffView false.
Definition export_csv_access := StaffView false.

Definition view_declarations : list (string * view_declaration) :=
  [ ("SendCodeAPIView"%string, SendCodeAPIView_access);
    ("VerifyCodeAPIView"%string, VerifyCodeAPIView_access);
    ("form_data_player_view"%string, form_data_player_view_access);
    ("coaches_by_club_gender"%string, coaches_by_club_gender_access);
    ("form_data_view"%string, form_data_view_access);
    ("check_national_code"%string, check_national_code_access);
    ("RegisterCoachAPIView"%string, RegisterCoachAPIView_access);
    ("approve_pending_user"%string, approve_pending_user_access);
    ("RegisterPlayerAPIView"%string, RegisterPlayerAPIView_access);
    ("RegisterPendingClubAPIView"%string, RegisterPendingClubAPIView_access);
    ("approve_pending_club"%string, approve_pending_club_access);
    ("ClubStudentsView"%string, ClubStudentsView_access);
    ("ClubCoachesView"%string, ClubCoachesView_access);
    ("ClubAllCoachesView"%string, ClubAllCoachesView_access);
    ("DashboardCombinedView"%string, DashboardCombinedView_access);
    ("user_profile_with_form_data_view"%string, user_profile_with_form_data_view_access);
    ("UpdateProfilePendingAPIView"%string, UpdateProfilePendingAPIView_access);
    ("approve_edited_profile"%string, approve_edited_profile_access);
    ("CoachStudentsAPIView"%string, CoachStudentsAPIView_access);
    ("CoachClubsAPIView"%string, CoachClubsAPIView_access);
    ("AllClubsAPIView"%string, AllClubsAPIView_access);
    ("UpdateCoachClubsAPIView"%string, UpdateCoachClubsAPIView_access);
    ("UpdateClubCoachesView"%string, UpdateClubCoachesView_access);
    ("PendingCoachRequestsView"%string, PendingCoachRequestsView_access);
    ("RespondToCoachRequestView"%string, RespondToCoachRequestView_access);
    ("HeyatLoginAPIView"%string, HeyatLoginAPIView_access);
    ("HeyatStudentsAPIView"%string, HeyatStudentsAPIView_access);
    ("heyat_form_data"%string, heyat_form_data_access);
    ("HeyatCoachesAPIView"%string, HeyatCoachesAPIView_access);
    ("HeyatRefereesAPIView"%string, HeyatRefereesAPIView_access);
    ("heyat_clubs_list"%string, heyat_clubs_list_access);
    ("KyorugiCompetitionListView"%string, KyorugiCompetitionListView_access);
    ("mini_profile"%string, mini_profile_access);
    ("UniversalLoginAPIView"%string, UniversalLoginAPIView_access);
    ("ForgotPasswordSendCodeAPIView"%string, ForgotPasswordSendCodeAPIView_access);
    ("ForgotPasswordVerifyAPIView"%string, ForgotPasswordVerifyAPIView_access);
    ("CompetitionDetailAnyView"%string, CompetitionDetailAnyView_access);
    ("KyorugiCompetitionDetailView"%string, KyorugiCompetitionDetailView_access);
    ("RegisterSelfView"%string, RegisterSelfView_access);
    ("CoachApprovalStatusView"%string, CoachApprovalStatusView_access);
    ("ApproveCompetitionView"%string, ApproveCompetitionView_access);
    ("CompetitionTermsView"%string, CompetitionTermsView_access);
    ("PlayerCompetitionsList"%string, PlayerCompetitionsList_access);
    ("RefereeCompetitionsList"%string, RefereeCompetitionsList_access);
    ("DashboardAllCompetitionsView"%string, DashboardAllCompetitionsView_access);
    ("DashboardKyorugiListView"%string, DashboardKyorugiListView_access);
    ("RegisterSelfPrefillView"%string, RegisterSelfPrefillView_access);
    ("EnrollmentCardView"%string, EnrollmentCardView_access);
    ("MyEnrollmentView"%string, MyEnrollmentView_access);
    ("KyorugiBracketView"%string, KyorugiBracketView_access);
    ("CoachStudentsEligibleListView"%string, CoachStudentsEligibleListView_access);
    ("CoachRegisterStudentsView"%string, CoachRegisterStudentsView_access);
    ("EnrollmentCardsBulkView"%string, EnrollmentCardsBulkView_access);
    ("KyorugiResultsView"%string, KyorugiResultsView_access);
    ("public_bracket_view"%string, public_bracket_view_access);
    ("SeminarListView"%string, SeminarListView_access);
    ("SeminarDetailView"%string, SeminarDetailView_access);
    ("SeminarRegisterView"%string, SeminarRegisterView_access);
    ("sidebar_seminars"%string, sidebar_seminars_access);
    ("PoomsaeCoachApprovalStatusView"%string, PoomsaeCoachApprovalStatusView_access);
    ("PoomsaeCoachApprovalApproveView"%string, PoomsaeCoachApprovalApproveView_access);
    ("PoomsaeCompetitionDetailView"%string, PoomsaeCompetitionDetailView_access);
    ("PoomsaeRegisterSelfView"%string, PoomsaeRegisterSelfView_access);
    ("MyPoomsaeEnrollmentsView"%string, MyPoomsaeEnrollmentsView_access);
    ("PoomsaeCoachStudentsEligibleListView"%string, PoomsaeCoachStudentsEligibleListView_access);
    ("HeaderBackgroundAPIView"%string, HeaderBackgroundAPIView_access);
    ("SliderImagesAPIView"%string, SliderImagesAPIView_access);
    ("NewsSliderAPIView"%string, NewsSliderAPIView_access);
    ("NewsListAPIView"%string, NewsListAPIView_access);
    ("NewsDetailView"%string, NewsDetailView_access);
    ("CircularListAPIView"%string, CircularListAPIView_access);
    ("CircularsListAPIView"%string, CircularsListAPIView_access);
    ("CircularDetailAPIView"%string, CircularDetailAPIView_access);
    ("BoardNewsSubmitAPIView"%string, BoardNewsSubmitAPIView_access);
    ("BoardMyNewsListAPIView"%string, BoardMyNewsListAPIView_access);
    ("PaymentIntentEnrollmentsView"%string, PaymentIntentEnrollmentsView_access);
    ("bankgateways_callback_override"%string, bankgateways_callback_override_access);
    ("payment_result_redirect"%string, payment_result_redirect_access);
    ("SadadBankReturnView"%string, SadadBankReturnView_access);
    ("go_to_bank_gateway_override"%string, go_to_bank_gateway_override_access);
    ("create_intent"%string, create_intent_access);
    ("create_payment_link"%string, create_payment_link_access);
    ("StartPaymentView"%string, StartPaymentView_access);
    ("GatewayCallbackView"%string, GatewayCallbackView_access);
    ("ApplyDiscountCodeView"%string, ApplyDiscountCodeView_access);
    ("center"%string, center_access);
    ("users_report"%string, users_report_access);
    ("competitions_report"%string, competitions_report_access);
    ("finance_report"%string, finance_report_access);
    ("export_csv"%string, export_csv_access) ].

Definition declaration_of (view : string) : option view_declaration :=
  snd <$> head (List.filter (λ vd, String.eqb vd.1 view) view_declarations).

(** ** From a request to a view *)

Section serving.
Context {P : Type} `{PointArith P} (profile_user : Z → option Z) (app_matches : string → list string → bool).
Implicit Types d : DB P.

(** The three classes; their user is [None] without a token. *)
Definition IsCoach_has_permission d (user : option Z) : bool :=
  match user with None => false | Some u => existsb (λ kr, up_is_coach kr.2) (profiles_of profile_user d u) end.
Definition IsPlayer_has_permission d (user : option Z) : bool :=
  match user with None => false | Some u => existsb (λ kr, String.eqb (up_role kr.2) "player") (profiles_of profile_user d u) end.
Definition IsCoachOrPlayer_has_permission d (user : option Z) : bool :=
  match user with
  | None => false
  | Some u => let qs := profiles_of profile_user d u in
              existsb (λ kr, String.eqb (up_role kr.2) "player") qs || existsb (λ kr, up_is_coach kr.2) qs
  end.

Definition has_permission d (user : option Z) (p : permission) : bool :=
  match p with
  | AllowAny => true
  | IsAuthenticated => negb (is_none user)
  | IsCoach => IsCoach_has_permission d user
  | IsPlayer => IsPlayer_has_permission d user
  | IsCoachOrPlayer => IsCoachOrPlayer_has_permission d user
  end.

(** A class with [get] answers [HEAD] with it, and every class has [options]. *)
Definition handles (methods : list http_method) (m : http_method) : bool :=
  match m with
  | OPTIONS => true
  | HEAD => bool_decide (GET ∈ methods)
  | _ => bool_decide (m ∈ methods)
  end.

Definition token_user (t : token) : option Z := match t with TokenOf u => Some u | _ => None end.

(** [APIView.dispatch]: authentication, permissions, then the handler. *)
Definition api_dispatch d (rq : http_request) (authenticates : bool) (permissions : list permission)
    (methods : list http_method) (run : outcome) : outcome :=
  match (if authenticates then hr_token rq else NoToken) with
  | BadToken => Unauthorized
  | t =>
      if forallb (has_permission d (token_user t)) permissions then
        if handles methods (hr_method rq) then run else MethodNotAllowed
      else if authenticates && is_none (token_user t) then Unauthorized else Forbidden
  end.

(** Methods that are not checked for forgery. *)
Definition safe_method (m : http_method) : bool := bool_decide (m ∈ [GET; HEAD; OPTIONS]).

Definition is_staff_session (o : option session) : bool :=
  match o with Some s => se_is_active s && se_is_staff s | None => false end.

Definition dispatch d (rq : http_request) (decl : view_declaration) (run : outcome) : outcome :=
  match decl with
  | ApiView authenticates permissions methods => api_dispatch d rq authenticates permissions methods run
  | StaffView post_only =>
      if negb (safe_method (hr_method rq)) && negb (hr_csrf_ok rq) then CsrfRefused
      else if negb (is_staff_session (hr_session rq)) then LoginPage
      else if post_only && negb (bool_decide (hr_method rq = POST)) then MethodNotAllowed
      else run
  | PlainView csrf_exempt =>
      if negb csrf_exempt && negb (safe_method (hr_method rq)) && negb (hr_csrf_ok rq) then CsrfRefused else run
  end.

(** The path behind its first slash, as the table is written. *)
Definition path_info (path : string) : option string :=
  match path with String c p => if Ascii.eqb c "/" then Some p else None | EmptyString => None end.

Definition route d (rq : http_request) : outcome :=
  match path_info (hr_path rq) ≫= resolve app_matches root_urls with
  | None => NotFound
  | Some (ToApp app rest) => OtherPackage app rest
  | Some (ToView view _ kwargs) =>
      match declaration_of view with
      | None => PackageView view
      | Some decl => dispatch d rq decl (Runs view kwargs)
      end
  end.

(** *** Middlewares *)

Definition PreflightMiddleware (get_response : http_request → outcome) (rq : http_request) : outcome :=
  if bool_decide (hr_method rq = OPTIONS) && String.prefix "/api/" (hr_path rq) then NoContent else get_response rq.

Definition GATEWAY_PATH : string := "/bankgateways/go-to-bank-gateway/".

(** The tracking code of a query, under either name. *)
Definition tracking_of (query : list (string * string)) : string := or_str (qd_get query "tc") (qd_get query "tracking_code").
Definition kept_params (query : list (string * string)) : list (string * string) :=
  if truthy_str (tracking_of query) then [("tc", tracking_of query)]%string else [].

Definition clean_url (query : list (string * string)) : string :=
  let params := kept_params query in
  let new_qs := match params with [] => ""%string | _ => urlencode params end in
  (GATEWAY_PATH ++ (if truthy_str new_qs then String "?" new_qs else ""))%string.

Definition StripCsrfFromGatewayQueryMiddleware (get_response : http_request → outcome) (rq : http_request) : outcome :=
  if bool_decide (hr_method rq = GET) && String.prefix GATEWAY_PATH (hr_path rq)
     && qd_has (parse_qsl (hr_query rq)) "csrfmiddlewaretoken"
  then Redirected (clean_url (parse_qsl (hr_query rq)))
  else get_response rq.

(** The view of [tkdjango/gateway_override.py], in front of that of the package; no route leads to it. *)
Definition gateway_override (package : http_request → outcome) (rq : http_request) : outcome :=
  let query := parse_qsl (hr_query rq) in
  if bool_decide (hr_method rq = GET) && qd_has query "csrfmiddlewaretoken" then
    let params := kept_params query in
    let qs := match params with [] => ""%string | _ => urlencode params end in
    Redirected (hr_path rq ++ (if truthy_str qs then String "?" qs else ""))%string
  else package rq.

(** [MIDDLEWARE], without those of the packages, then the views. *)
Definition serve d : http_request → outcome := PreflightMiddleware (StripCsrfFromGatewayQueryMiddleware (route d)).

(** A browser that is sent on asks for the new address with the same cookies. *)
Definition follow (rq : http_request) (url : string) : http_request :=
  mkHttpRequest GET (split_url url).1 (split_url url).2 (hr_token rq) (hr_session rq) (hr_csrf_ok rq).

Fixpoint browse (fuel : nat) d (rq : http_request) : option outcome :=
  match serve d rq with
  | Redirected url => match fuel with O => None | S fuel => browse fuel d (follow rq url) end
  | o => Some o
  end.
End serving.

(** ** Who gets through *)

(** The views that change something without asking who sends the request: codes and registrations, logins,
    forgotten passwords, codes of discounts, and the ways back from the bank; the last two only look. *)
Definition public_writers : list string :=
  [ "SendCodeAPIView"; "VerifyCodeAPIView"; "RegisterCoachAPIView"; "RegisterPlayerAPIView"; "RegisterPendingClubAPIView";
    "HeyatLoginAPIView"; "UniversalLoginAPIView"; "ForgotPasswordSendCodeAPIView"; "ForgotPasswordVerifyAPIView";
    "ApplyDiscountCodeView"; "SadadBankReturnView"; "GatewayCallbackView"; "payment_result_redirect";
    "bankgateways_callback_override"; "go_to_bank_gateway_override"; "check_national_code"; "public_bracket_view" ].

Definition staff_pages : list string :=
  [ "approve_pending_user"; "approve_pending_club"; "approve_edited_profile";
    "center"; "users_report"; "competitions_report"; "finance_report"; "export_csv" ].

Definition coach_views : list string :=
  [ "CoachApprovalStatusView"; "ApproveCompetitionView"; "CoachStudentsEligibleListView"; "CoachRegisterStudentsView";
    "PoomsaeCoachApprovalApproveView"; "PoomsaeCoachStudentsEligibleListView" ].
Definition player_views : list string := [ "RegisterSelfView"; "PlayerCompetitionsList" ].

(** Every declaration, by the lists. *)
Definition declared_well (vd : string * view_declaration) : bool :=
  match vd.2 with
  | ApiView authenticates permissions methods =>
      (bool_decide (Forall (λ m, m = GET) methods) || bool_decide (vd.1 ∈ public_writers)
       || authenticates && bool_decide (IsAuthenticated ∈ permissions))
      && implb (bool_decide (vd.1 ∈ coach_views)) (bool_decide (IsCoach ∈ permissions))
      && implb (bool_decide (vd.1 ∈ player_views)) (bool_decide (IsPlayer ∈ permissions))
      && negb (bool_decide (vd.1 ∈ staff_pages))
  | StaffView _ => bool_decide (vd.1 ∈ staff_pages) && negb (bool_decide (vd.1 ∈ coach_views ++ player_views))
  | PlainView _ => bool_decide (vd.1 ∈ public_writers) && negb (bool_decide (vd.1 ∈ staff_pages ++ coach_views ++ player_views))
  end.

Lemma all_declared_well : forallb declared_well view_declarations = true.
Proof. vm_compute. reflexivity. Qed.

Lemma declaration_of_elem view decl : declaration_of view = Some decl → (view, decl) ∈ view_declarations.
Proof.
  unfold declaration_of. destruct (head _) as [[v dc]|] eqn:E; [|done]. intros [= <-]. apply head_Some_elem_of in E.
  apply elem_of_filter_list in E as [Hin Hv%String.eqb_eq]. cbn in Hv. by subst.
Qed.

Lemma declaration_well view decl : declaration_of view = Some decl → declared_well (view, decl) = true.
Proof.
  intros Hd%declaration_of_elem. pose proof all_declared_well as Hall. rewrite forallb_forall in Hall. apply Hall, list_elem_of_In, Hd.
Qed.

Section gates.
Context {P : Type} `{PointArith P} (profile_user : Z → option Z) (app_matches : string → list string → bool).
Implicit Types d : DB P.
Local Abbreviation has_permission := (has_permission profile_user).
Local Abbreviation dispatch := (dispatch profile_user).
Local Abbreviation serve := (serve profile_user app_matches).
Local Abbreviation browse := (browse profile_user app_matches).

Lemma api_dispatch_runs d rq au ps ms view kw : api_dispatch profile_user d rq au ps ms (Runs view kw) = Runs view kw →
  handles ms (hr_method rq) = true ∧ ∃ user, forallb (has_permission d user) ps = true ∧
    (∀ u, user = Some u → au = true ∧ hr_token rq = TokenOf u).
Proof.
  unfold api_dispatch. intros Hr.
  assert (∃ t, (if au then hr_token rq else NoToken) = t ∧ t ≠ BadToken ∧ forallb (has_permission d (token_user t)) ps = true ∧
    handles ms (hr_method rq) = true) as (t & Ht & _ & Hp & Hm).
  { destruct (if au then _ else _) as [| |u]; [|done|].
    - exists NoToken. destruct (forallb _ _); [|by destruct (au && _)]. by destruct (handles _ _).
    - exists (TokenOf u). destruct (forallb _ _); [|by destruct (au && _)]. by destruct (handles _ _). }
  split; [done|]. exists (token_user t). split; [done|]. intros u Hu. destruct t; try done. injection Hu as ->. by destruct au.
Qed.

(** What [serve] runs was found in the table and got through its declaration. *)
Lemma serve_runs d rq view kw : serve d rq = Runs view kw → ∃ decl path name,
  declaration_of view = Some decl ∧ dispatch d rq decl (Runs view kw) = Runs view kw ∧
  path_info (hr_path rq) = Some path ∧ resolve app_matches root_urls path = Some (ToView view name kw).
Proof.
  unfold serve, Access.serve, PreflightMiddleware, StripCsrfFromGatewayQueryMiddleware, route.
  destruct (_ && _); [done|]. destruct (_ && _ && _); [done|].
  destruct (path_info (hr_path rq)) as [path|]; [|done]. cbn [mbind option_bind].
  destruct (resolve app_matches root_urls path) as [[v name kw'|app rest]|] eqn:Er; [|done..].
  destruct (declaration_of v) as [decl|] eqn:Ed; [|done]. intros Hd.
  assert (Runs v kw' = Runs view kw) as [= -> ->].
  { destruct decl as [au ps ms|post|ex]; cbn in Hd.
    - unfold api_dispatch in Hd. destruct (if au then _ else _); [| done |];
        (destruct (forallb _ _); [destruct (handles _ _); done|by destruct (au && _)]).
    - destruct (_ && _) in Hd; [done|]. destruct (negb _) in Hd; [done|]. by destruct (_ && _) in Hd.
    - by destruct (_ && _ && _) in Hd. }
  by exists decl, path, name.
Qed.

Lemma handles_post ms m : handles ms m = true → safe_method m = false → ¬ Forall (λ m, m = GET) ms.
Proof.
  unfold handles. intros Hh Hs Hall. assert (Hin : m ∈ ms) by (destruct m; try done; by apply bool_decide_eq_true in Hh).
  rewrite Forall_forall in Hall. by rewrite (Hall m Hin) in Hs.
Qed.

Lemma elem_has_permission d user ps p : forallb (has_permission d user) ps = true → p ∈ ps → has_permission d user p = true.
Proof. rewrite forallb_forall. intros Hall Hp. by apply Hall, list_elem_of_In. Qed.

(** A profile of the user with the property. *)
Definition some_profile d (u : Z) (f : UserProfile P → bool) : Prop :=
  ∃ k p, (k, p) ∈ profiles_of profile_user d u ∧ f p = true.

Lemma some_profile_exists d u f : some_profile d u f ↔ existsb (λ kr, f kr.2) (profiles_of profile_user d u) = true.
Proof.
  unfold some_profile. rewrite existsb_exists. split.
  - intros (k & p & Hin & Hf). exists (k, p). split; [by apply list_elem_of_In|done].
  - intros ([k p] & Hin%list_elem_of_In & Hf). by exists k, p.
Qed.

Definition staff_session (rq : http_request) : Prop :=
  ∃ s, hr_session rq = Some s ∧ se_is_active s = true ∧ se_is_staff s = true.

(** C34: Changes need a user. A request that runs a view with a method that may change something carries a token
    of a user, or the session of the staff with a good token against forgery, unless the view is one of the
    seventeen public ones. Whatever the method, pages of the staff run only in a session of the staff, and the
    views of coaches and of players only for users with such a profile. *)
Theorem changes_need_a_user d rq view kw : serve d rq = Runs view kw →
  (safe_method (hr_method rq) = false → view ∉ public_writers →
     (∃ u, hr_token rq = TokenOf u) ∨ (staff_session rq ∧ hr_csrf_ok rq = true ∧ view ∈ staff_pages)) ∧
  (view ∈ staff_pages → staff_session rq) ∧
  (view ∈ coach_views → ∃ u, hr_token rq = TokenOf u ∧ some_profile d u up_is_coach) ∧
  (view ∈ player_views → ∃ u, hr_token rq = TokenOf u ∧ some_profile d u (λ p, String.eqb (up_role p) "player")).
Proof.
  intros (decl & path & name & Hd & Hr & _ & _)%serve_runs. pose proof (declaration_well _ _ Hd) as Hw.
  destruct decl as [au ps ms|post|ex]; cbn in Hr; unfold declared_well in Hw; cbn [fst snd] in Hw.
  - rewrite !andb_true_iff, !orb_true_iff, !andb_true_iff, !implb_true_iff, negb_true_iff in Hw.
    rewrite !bool_decide_eq_true, bool_decide_eq_false in Hw. destruct Hw as [[[Hwrite Hcoach] Hplayer] Hstaff].
    apply api_dispatch_runs in Hr as (Hm & user & Hp & Hu).
    split_and!; [intros Hs Hn|done|intros Hv|intros Hv].
    + left. destruct Hwrite as [[Hg|Hg]|[_ Hauth]]; [by destruct (handles_post _ _ Hm Hs)|done|].
      pose proof (elem_has_permission _ _ _ _ Hp Hauth) as Ha. destruct user as [u|]; [|done]. exists u. by apply Hu.
    + pose proof (elem_has_permission _ _ _ _ Hp (Hcoach Hv)) as Ha. destruct user as [u|]; [|done]. exists u.
      split; [by apply Hu|]. by apply some_profile_exists.
    + pose proof (elem_has_permission _ _ _ _ Hp (Hplayer Hv)) as Ha. destruct user as [u|]; [|done]. exists u.
      split; [by apply Hu|]. by apply some_profile_exists.
  - rewrite andb_true_iff, negb_true_iff, bool_decide_eq_true, bool_decide_eq_false, elem_of_app in Hw.
    destruct Hw as [Hin Hnot]. destruct (negb (safe_method _) && _) eqn:Ec in Hr; [done|].
    destruct (is_staff_session _) eqn:Es in Hr; [|done].
    assert (staff_session rq) as Hs.
    { unfold is_staff_session in Es. destruct (hr_session rq) as [s|] eqn:E; [|done]. apply andb_true_iff in Es. by exists s. }
    split_and!; [|done|tauto|tauto]. intros Hsafe _. right. rewrite Hsafe in Ec. split_and!; [done| |done].
    by destruct (hr_csrf_ok rq).
  - rewrite andb_true_iff, negb_true_iff, bool_decide_eq_true, bool_decide_eq_false, !elem_of_app in Hw.
    destruct Hw as [Hin Hnot]. split_and!; tauto.
Qed.

(** ** The gate of coaches and their pages *)

(** The competitions' side reads the same rows of profiles as the accounts' side writes. *)
Definition same_people (s : accounts) d : Prop :=
  ∀ k row, db_profiles d !! k = Some row → ∃ x, ac_profiles s !! k = Some x ∧
    up_role row = pe_role (pf_person x) ∧ up_is_coach row = pe_is_coach (pf_person x).

Lemma elem_of_profiles d u k p : (k, p) ∈ profiles_of profile_user d u → db_profiles d !! k = Some p.
Proof. unfold profiles_of. by intros [Hk%elem_of_rows_by_id _]%elem_of_filter_list. Qed.

Lemma coach_flag_is_role s d k p : roles_agree s → same_people s d → db_profiles d !! k = Some p →
  up_is_coach p = bool_decide (up_role p ∈ ["coach"; "both"]%string).
Proof. intros Hs Hd Hk. destruct (Hd k p Hk) as (x & Hx & -> & ->). apply (ra_profiles s Hs k x Hx). Qed.

Lemma coach_gate s d u : roles_agree s → same_people s d →
  some_profile d u up_is_coach ↔ is_Some (_coach_from_request profile_user d u).
Proof.
  intros Hs Hd. unfold _coach_from_request. rewrite fmap_is_Some. split.
  - intros (k & p & Hin & Hp). destruct (head _) as [kr|] eqn:E; [by eexists|]. exfalso.
    assert (Hf : (k, p) ∈ List.filter (λ kr, bool_decide (up_role kr.2 ∈ ["coach"; "both"]%string)) (profiles_of profile_user d u)).
    { apply elem_of_filter_list. split; [done|]. cbn [snd]. by rewrite <- (coach_flag_is_role s d k p Hs Hd (elem_of_profiles _ _ _ _ Hin)). }
    destruct (List.filter _ _); [by apply not_elem_of_nil in Hf|done].
  - intros [[k p] Hh%head_Some_elem_of]. apply elem_of_filter_list in Hh as [Hin Hr]. exists k, p. split; [done|]. cbn [snd] in Hr.
    by rewrite (coach_flag_is_role s d k p Hs Hd (elem_of_profiles _ _ _ _ Hin)).
Qed.

(** C35: The gate and the page agree. After every sequence of requests about accounts that keeps roles and flags
    together, a request that passes the gate in front of the list of eligible students, which looks at the flag,
    comes from a user whom the page, which looks at the role, knows as a coach: it never answers that the
    profile was not found. *)
Theorem coach_gate_finds_coach collate iexact' sms_enabled qs w d rq key
    iexact jalali belt_grade birth_date belt_groups belt_level ages answer :
  roles_agree (w_db w) → regular_run collate iexact' sms_enabled qs w = true →
  same_people (w_db (foldl (λ w q, serve_any collate iexact' sms_enabled q w) w qs)) d →
  serve d rq = Runs "CoachStudentsEligibleListView" [("key", AText key)]%string →
  ∃ u, hr_token rq = TokenOf u ∧
    (coach_students_eligible iexact jalali belt_grade birth_date profile_user belt_groups belt_level ages d u key = Ok answer →
     is_Some answer).
Proof.
  intros Hw Hq Hd Hr. pose proof (regular_run_roles _ _ _ _ _ Hw Hq) as Hs.
  apply serve_runs in Hr as (decl & path & name & Hdecl & Hr & _ & _). vm_compute in Hdecl. injection Hdecl as <-. cbn [Access.dispatch] in Hr.
  apply api_dispatch_runs in Hr as (_ & user & Hp & Hu).
  pose proof (elem_has_permission _ _ _ IsCoach Hp ltac:(by right; left)) as Hc. destruct user as [u|]; [|done].
  exists u. split; [by apply Hu|]. unfold coach_students_eligible. destruct (_ ≫= _) as [[k c]|]; [|done].
  intros [= <-]. rewrite fmap_is_Some. apply (coach_gate _ d u Hs Hd). by apply some_profile_exists.
Qed.

(** ** The token against forgery in the address of the bank *)

Lemma gateway_path_resolves : resolve app_matches root_urls "bankgateways/go-to-bank-gateway/" =
  Some (ToView "go_to_bank_gateway_override" "" []).
Proof. vm_compute. reflexivity. Qed.

Lemma qd_get_kept query key : qd_get (kept_params query) key = if String.eqb key "tc" then tracking_of query else ""%string.
Proof.
  assert (He : truthy_str (tracking_of query) = false → tracking_of query = ""%string).
  { unfold truthy_str. intros E%negb_false_iff. by apply String.eqb_eq. }
  unfold kept_params, qd_get. destruct (String.eqb_spec key "tc") as [->|Hne]; destruct (truthy_str _); cbn [List.filter fst].
  - done.
  - by rewrite He.
  - by rewrite (proj2 (String.eqb_neq "tc" key)) by congruence.
  - done.
Qed.

Lemma follow_clean rq query : let rq' := follow rq (clean_url query) in
  hr_method rq' = GET ∧ hr_path rq' = GATEWAY_PATH ∧ parse_qsl (hr_query rq') = kept_params query.
Proof.
  cbn. unfold clean_url. split; [done|]. destruct (kept_params query) as [|kv l] eqn:E; [by vm_compute|].
  assert (Ht : truthy_str (urlencode (kv :: l)) = true).
  { unfold kept_params in E. destruct (truthy_str (tracking_of query)); [|done]. injection E as <- <-. reflexivity. }
  rewrite Ht, split_url_urlencode by reflexivity. cbn [fst snd]. split; [done|]. apply parse_urlencode.
Qed.

(** The address of the package with its own parameters. *)
Definition package_link (query : list (string * string)) : bool :=
  truthy_str (first_given query ["Token"; "token"]%string) && truthy_str (posted query "url") && truthy_str (posted query "method").

Lemma first_given_two query k1 k2 : first_given query [k1; k2] = or_str (qd_get query k1) (qd_get query k2).
Proof.
  unfold first_given, posted, or_str. cbn. destruct (truthy_str (qd_get query k1)); [done|].
  destruct (truthy_str (qd_get query k2)) eqn:E; cbn; [done|]. unfold truthy_str in E. by apply negb_false_iff, String.eqb_eq in E as ->.
Qed.

Lemma or_str_empty s : or_str s "" = s.
Proof. by destruct s. Qed.

Lemma gateway_by_code ad default_callback query now : package_link query = false →
  go_to_bank_gateway_override ad default_callback query now =
    go_to_bank_gateway_override ad default_callback [("tc", tracking_of query)]%string now.
Proof.
  unfold package_link. intros Hl. unfold go_to_bank_gateway_override at 1. rewrite Hl, first_given_two. fold (tracking_of query).
  unfold go_to_bank_gateway_override. rewrite !first_given_two. cbn [andb].
  change (or_str (qd_get [("tc", tracking_of query)]%string "tc") (qd_get [("tc", tracking_of query)]%string "tracking_code"))
    with (or_str (tracking_of query) "").
  by rewrite (or_str_empty (tracking_of query)).
Qed.

Lemma kept_is_by_code query : package_link (kept_params query) = false ∧ tracking_of (kept_params query) = tracking_of query.
Proof.
  split.
  - unfold package_link. by rewrite first_given_two, !qd_get_kept.
  - unfold tracking_of at 1. rewrite !qd_get_kept. exact (or_str_empty (tracking_of query)).
Qed.

(** The redirect ends. A request sent on by [StripCsrfFromGatewayQueryMiddleware] reaches the view behind the
    address with the next request, so there is no loop; the view then does what it would have done with the
    query before, except that the address of the package with its own parameters is no longer one: without a
    tracking code it is answered with [Http404]. *)
Theorem csrf_redirect_ends ad default_callback now rows d rq url :
  serve d rq = Redirected url →
  let rq' := follow rq url in
  let before := parse_qsl (hr_query rq) in
  let after := parse_qsl (hr_query rq') in
  browse 1 d rq = Some (Runs "go_to_bank_gateway_override" []) ∧
  go_to_bank_gateway_override ad default_callback after now rows =
    (if package_link before
     then if truthy_str (tracking_of before) then go_to_bank_gateway_override ad default_callback [("tc", tracking_of before)]%string now rows
          else (Err Http404, rows)
     else go_to_bank_gateway_override ad default_callback before now rows).
Proof.
  intros Hr rq' before after.
  assert (Hurl : url = clean_url before).
  { revert Hr. unfold serve, Access.serve, PreflightMiddleware, StripCsrfFromGatewayQueryMiddleware. destruct (_ && _); [done|].
    destruct (_ && _ && _); [by intros [= <-]|]. unfold route. destruct (_ ≫= _) as [[v n kw|app rest]|]; [|done..].
    destruct (declaration_of v) as [decl|]; [|done]. destruct decl as [au ps ms|post|ex]; cbn.
    - unfold api_dispatch. destruct (if au then _ else _); [|done|];
        (destruct (forallb _ _); [by destruct (handles _ _)|by destruct (au && _)]).
    - destruct (_ && _); [done|]. destruct (negb _); [done|]. by destruct (_ && _).
    - by destruct (_ && _ && _). }
  subst url. destruct (follow_clean rq before) as (Hm & Hpath & Hq). fold rq' in Hm, Hpath, Hq. fold after in Hq.
  split.
  - unfold browse, Access.browse. rewrite Hr. fold rq'. cbn [follow].
    assert (Hs : Access.serve profile_user app_matches d rq' = Runs "go_to_bank_gateway_override" []).
    { unfold Access.serve, PreflightMiddleware, StripCsrfFromGatewayQueryMiddleware. rewrite Hm, Hpath. fold after. rewrite Hq.
      assert (qd_has (kept_params before) "csrfmiddlewaretoken" = false) as ->.
      { unfold kept_params. by destruct (truthy_str _). }
      rewrite andb_false_r. cbn. unfold route. rewrite Hpath.
      change (path_info GATEWAY_PATH) with (Some "bankgateways/go-to-bank-gateway/"%string). cbn [mbind option_bind].
      rewrite gateway_path_resolves. by vm_compute. }
    by rewrite Hs.
  - destruct (kept_is_by_code before) as [Hl Ht]. rewrite Hq, (gateway_by_code ad default_callback _ now Hl), Ht.
    destruct (package_link before) eqn:E; [|by rewrite (gateway_by_code ad default_callback before now E)].
    destruct (truthy_str (tracking_of before)) eqn:Et; [done|]. unfold truthy_str in Et. by apply negb_false_iff, String.eqb_eq in Et as ->.
Qed.

(** ** Who is let in *)

(** Open to its users. The url made from the name of a route of the API, unless an earlier route takes it, runs
    its view, with the arguments it was made from, for every user the permissions of the view admit and every method it handles. *)
Theorem open_to_its_users d name segs view args path m user au ps ms :
  route_named name = Some (segs, TView view name) → name ≠ behind_admin → url_taken name args = false →
  typed_args segs args → reverse root_urls name args = Some path →
  declaration_of view = Some (ApiView au ps ms) → handles ms m = true → m ≠ OPTIONS →
  forallb (has_permission d (if au then Some user else None)) ps = true →
  serve d (mkHttpRequest m (String "/" path) "" (TokenOf user) None false) = Runs view (bind_args segs args).
Proof.
  intros Hr Hn Hu Ht Hrev Hd Hm Ho Hp.
  assert (Hres : resolve app_matches root_urls path = Some (ToView view name (bind_args segs args))).
  { revert Hrev. unfold reverse. fold (route_named name). rewrite Hr. cbn.
    destruct (fill segs args) as [subs|] eqn:Hf; [|done]. intros [= <-].
    pose proof (route_resolves app_matches name args segs view subs Hr Hn Ht Hf) as Hres. by rewrite Hu in Hres. }
  unfold serve, Access.serve, PreflightMiddleware, StripCsrfFromGatewayQueryMiddleware. cbn [hr_method hr_path hr_query].
  rewrite (bool_decide_eq_false_2 (m = OPTIONS)) by done. cbn [andb].
  change (qd_has (parse_qsl "") "csrfmiddlewaretoken") with false. rewrite andb_false_r.
  unfold route. cbn [hr_path]. change (path_info (String "/" path)) with (Some path). cbn [mbind option_bind]. rewrite Hres, Hd.
  cbn [Access.dispatch]. unfold api_dispatch. cbn [hr_token hr_method]. destruct au; cbn [token_user]; by rewrite Hp, Hm.
Qed.

(** The two logins. *)
Definition login_views : list (string * string) :=
  [ ("/api/auth/login/", "UniversalLoginAPIView"); ("/api/auth/login/board/", "HeyatLoginAPIView") ]%string.

Lemma only_logins_skip_tokens :
  forallb (λ vd, match vd.2 with ApiView au _ _ => au || bool_decide (vd.1 ∈ login_views.*2) | _ => true end) view_declarations = true.
Proof. vm_compute. reflexivity. Qed.

(** Logins stay open. A login is never refused before its view runs, whatever token, session or query the
    request carries; with a token that is refused, of the views of the API only the two logins run. *)
Theorem logins_stay_open d rq :
  (∀ path view, (path, view) ∈ login_views → hr_method rq = POST → hr_path rq = path → serve d rq = Runs view []) ∧
  (∀ view kw au ps ms, hr_token rq = BadToken → serve d rq = Runs view kw → declaration_of view = Some (ApiView au ps ms) →
     view ∈ login_views.*2).
Proof.
  split.
  - intros path view Hin. destruct rq as [m p q t s c]. cbn [hr_method hr_path]. intros -> ->.
    repeat (apply elem_of_cons in Hin as [[= -> ->]|Hin]); [| |by apply not_elem_of_nil in Hin]; vm_compute; reflexivity.
  - intros view kw au ps ms Ht (decl & path & name & Hd & Hr & _ & _)%serve_runs Hdecl. rewrite Hdecl in Hd. injection Hd as <-.
    cbn in Hr. unfold api_dispatch in Hr. rewrite Ht in Hr. destruct au; [done|].
    pose proof only_logins_skip_tokens as Hall. rewrite forallb_forall in Hall.
    specialize (Hall _ (proj1 (list_elem_of_In _ _) (declaration_of_elem _ _ Hdecl))). cbn [fst snd orb] in Hall.
    by apply bool_decide_eq_true in Hall.
Qed.
End gates.

(** ** Witnesses and examples *)

(** Requests without anything but a token. *)
Definition get_by (t : token) (path : string) : http_request := mkHttpRequest GET path "" t None false.
Definition post_by (t : token) (path : string) : http_request := mkHttpRequest POST path "" t None false.

(** The people of [Roles.role_db] after a player became a coach, as the competitions see them. *)
Definition gate_login (k : Z) : option Z := if k =? 2 then Some 1 else None.
Definition gate_person (is_coach : bool) (role : string) : UserProfile Z :=
  mkUserProfile "Ali" "Ahmadi" is_coach role "male" None None None 0 0 0 0 0.
Definition gate_db (p : UserProfile Z) : DB Z := set_db_profiles {[2 := p]} eligibility_db.
Definition students_path : string := "/api/competitions/auth/kyorugi/c/coach/students/eligible/".
Definition gate_requests : list any_request := [becomes_coach None; Account (ApproveEdit 30)].

Definition gate_answer (p : UserProfile Z) : result (option student_list) :=
  coach_students_eligible String.eqb even_jalali (λ _, "red"%string) sample_birth gate_login (λ _, []) (λ _, "all"%string) sample_ages
    (gate_db p) 1 "c".
Definition gate_serves (p : UserProfile Z) (rq : http_request) : outcome := serve gate_login (λ _ _, true) (gate_db p) rq.

(** A flag without the role passes the gate and is told that there is no profile of a coach. *)
Example flag_without_role :
  gate_serves (gate_person true "player") (get_by (TokenOf 1) students_path)
    = Runs "CoachStudentsEligibleListView" [("key", AText "c")]%string ∧
  gate_answer (gate_person true "player") = Ok None.
Proof. split; vm_compute; reflexivity. Qed.

(** Approvals of users and of edits are sent with a plain [GET]: no token against forgery is asked for. *)
Example approval_by_a_link :
  gate_serves (gate_person true "coach")
    (mkHttpRequest GET "/api/auth/approve/7/" "" NoToken (Some (mkSession 1 true true)) false)
    = Runs "approve_pending_user" [("pk", AInt 7)]%string.
Proof. vm_compute. reflexivity. Qed.

(** The address of the package loses its parameters. *)
Example package_link_is_lost now rows :
  let rq := mkHttpRequest GET GATEWAY_PATH "url=https%3A%2F%2Fbank&method=GET&Token=t1&csrfmiddlewaretoken=x" NoToken None false in
  let rq' := follow rq GATEWAY_PATH in
  gate_serves (gate_person true "coach") rq = Redirected GATEWAY_PATH ∧
  go_to_bank_gateway_override forgetful "" (parse_qsl (hr_query rq)) now rows = (Ok (ToPackage (parse_qsl (hr_query rq))), rows) ∧
  go_to_bank_gateway_override forgetful "" (parse_qsl (hr_query rq')) now rows = (Err Http404, rows).
Proof. cbv zeta. split_and!; vm_compute; reflexivity. Qed.

Lemma changes_need_a_user_witness :
  ∃ u, TokenOf 1 = TokenOf u ∧ some_profile gate_login (gate_db (gate_person true "coach")) u up_is_coach.
Proof.
  refine (proj1 (proj2 (proj2 (changes_need_a_user gate_login (λ _ _, true) (gate_db (gate_person true "coach"))
    (get_by (TokenOf 1) students_path) "CoachStudentsEligibleListView" [("key", AText "c")]%string _))) _).
  - vm_compute. reflexivity.
  - right; right; left.
Defined.

Lemma gate_people : same_people
  (w_db (foldl (λ w q, serve_any text String.eqb true q w) role_start gate_requests)) (gate_db (gate_person true "coach")).
Proof.
  intros k row Hk. cbn in Hk. apply lookup_singleton_Some in Hk as [<- <-].
  eexists. split; [vm_compute; reflexivity|]. split; vm_compute; reflexivity.
Qed.

Lemma gate_regular : regular_run text String.eqb true gate_requests role_start = true.
Proof. vm_compute. reflexivity. Qed.

Lemma gate_runs : gate_serves (gate_person true "coach") (get_by (TokenOf 1) students_path)
  = Runs "CoachStudentsEligibleListView" [("key", AText "c")]%string.
Proof. vm_compute. reflexivity. Qed.

Lemma gate_answers : ∃ a, gate_answer (gate_person true "coach") = Ok a.
Proof. eexists. vm_compute. reflexivity. Qed.

Lemma coach_gate_finds_coach_witness : ∃ l, gate_answer (gate_person true "coach") = Ok (Some l).
Proof.
  destruct gate_answers as [a Ha].
  destruct (coach_gate_finds_coach gate_login (λ _ _, true) text String.eqb true gate_requests role_start
    (gate_db (gate_person true "coach")) (get_by (TokenOf 1) students_path) "c" String.eqb even_jalali (λ _, "red"%string) sample_birth
    (λ _, []) (λ _, "all"%string) sample_ages a role_db_agrees gate_regular gate_people gate_runs) as (u & Hu & Hl).
  injection Hu as <-. destruct (Hl Ha) as [l ->]. by exists l.
Defined.

Lemma csrf_redirect_ends_witness :
  let rq := mkHttpRequest GET GATEWAY_PATH "tc=a%26b&csrfmiddlewaretoken=x" NoToken None false in
  browse gate_login (λ _ _, true) 1 (gate_db (gate_person true "coach")) rq = Some (Runs "go_to_bank_gateway_override" []).
Proof.
  intros rq. refine (proj1 (csrf_redirect_ends gate_login (λ _ _, true) forgetful "" 0 [] (gate_db (gate_person true "coach")) rq
    (GATEWAY_PATH ++ "?tc=a%26b")%string _)). vm_compute. reflexivity.
Defined.

Lemma open_to_its_users_witness :
  gate_serves (gate_person false "player") (post_by (TokenOf 1) "/api/competitions/auth/kyorugi/cup/register/self/")
    = Runs "RegisterSelfView" [("key", AText "cup")]%string.
Proof.
  refine (open_to_its_users gate_login (λ _ _, true) (gate_db (gate_person false "player")) "competitions:register-self" 
    [Lit "api"; Lit "competitions"; Lit "auth"; Lit "kyorugi"; Cap CKey "key"; Lit "register"; Lit "self"; Lit ""]%string
    "RegisterSelfView" [AText "cup"]%string "api/competitions/auth/kyorugi/cup/register/self/" POST 1 true [IsAuthenticated; IsPlayer] [POST]
    _ _ _ _ _ _ _ _ _).
  - vm_compute. reflexivity.
  - discriminate.
  - vm_compute. reflexivity.
  - exact I.
  - vm_compute. reflexivity.
  - vm_compute. reflexivity.
  - reflexivity.
  - discriminate.
  - vm_compute. reflexivity.
Defined.

Lemma logins_stay_open_witness :
  gate_serves (gate_person true "coach") (post_by BadToken "/api/auth/login/") = Runs "UniversalLoginAPIView" [].
Proof.
  refine (proj1 (logins_stay_open gate_login (λ _ _, true) (gate_db (gate_person true "coach")) (post_by BadToken "/api/auth/login/"))
    "/api/auth/login/"%string "UniversalLoginAPIView"%string _ eq_refl eq_refl). left.
Defined.

(** On the address of the gateway the view would do what the middleware does. *)
Lemma gateway_override_agrees package rq : hr_path rq = GATEWAY_PATH →
  gateway_override package rq = StripCsrfFromGatewayQueryMiddleware package rq.
Proof.
  intros Hp. unfold gateway_override, StripCsrfFromGatewayQueryMiddleware. rewrite Hp.
  replace (String.prefix GATEWAY_PATH GATEWAY_PATH) with true by (by vm_compute). by rewrite andb_true_r.
Qed.
