(* ===== verification/Setup.v ===== *)
(** The scripts that set a site up: logins of the counties ([scripts/ensure_county_users.py]), their boards
    ([scripts/create_tkdboards.py] and [create_county_users.py]) and the administrator ([create_superuser.py]).

    A script is a loop over a table of rows; a step says what it reports of its row. The logins here carry the
    columns the scripts write; [accounts_of] is what the views of [Login] see of them. *)

From S2P Require Import Prelude Store Ranking Payments GroupRegistration Text Accounts SmsCodes Login.
Local Open Scope Z_scope.

(** ** The site *)

Record site_user := mkSiteUser {
  su_username : string;
  su_email : string;
  su_password : string;
  su_is_staff : bool;
  su_is_superuser : bool;
  su_groups : gset string;
}.

(** [TkdBoard]; points are of any type, the scripts write zero. *)
Record site_board {P : Type} := mkSiteBoard {
  sb_user : Z;
  sb_name : string;
  sb_province : string;
  sb_city : string;
  sb_ranking_total : P;
}.
Arguments site_board : clear implicits.
Arguments mkSiteBoard {P}.

Record site {P : Type} := mkSite {
  st_users : gmap Z site_user;
  st_boards : gmap Z (site_board P);
  st_next_id : Z;
}.
Arguments site : clear implicits.
Arguments mkSite {P}.

(** What a script prints about a row. *)
Inductive row_report := RowCreated | RowExisted | RowUpdated | MissingUser.

Definition DEFAULT_PASSWORD : string := "Chb@12345".
Definition COUNTY_GROUP : string := "CountyAdmin".
Definition PROVINCE : string := "چهارمحال و بختیاری".

(** The rows of the scripts: the city, the login and the name in its mail address. *)
Definition county_rows : list (string * string * string) :=
  [ ("شهرکرد", "chb_shahrekord", "shahrekord"); ("بروجن", "chb_borujen", "borujen"); ("فارسان", "chb_farsan", "farsan");
    ("لردگان", "chb_lordegan", "lordegan"); ("کوهرنگ", "chb_kohrang", "kohrang"); ("اردل", "chb_ardal", "ardal");
    ("سامان", "chb_saman", "saman"); ("بن", "chb_ben", "ben"); ("کیار", "chb_kiar", "kiar");
    ("فرخشهر", "chb_farrokhshahr", "farrokhshahr") ]%string.

Definition board_rows : list (string * string) :=
  [ ("شهرکرد", "chb_shahrekord"); ("بروجن", "chb_borujen"); ("فارسان", "chb_farsan"); ("لردگان", "chb_lordegan");
    ("کوهرنگ", "chb_kohrang"); ("اردل", "chb_ardal"); ("سامان", "chb_saman"); ("بن", "chb_ben"); ("کیار", "chb_kiar");
    ("فرخشهر", "chb_farrokhshahr") ]%string.

Section scripts.
Context {P : Type} (zero : P) (collate : string → string).
Local Abbreviation site := (site P).
Local Abbreviation same := (SmsCodes.same collate).

Definition with_users (users : gmap Z site_user) (s : site) : site := mkSite users (st_boards s) (st_next_id s).
Definition with_boards (boards : gmap Z (site_board P)) (s : site) : site := mkSite (st_users s) boards (st_next_id s).

(** [User.objects.get(username=..)]; names are unique. *)
Definition find_login (s : site) (username : string) : option (Z * site_user) :=
  first_row (λ u, same (su_username u) username) (st_users s).

Definition insert_login (u : site_user) (s : site) : site :=
  mkSite (<[st_next_id s := u]> (st_users s)) (st_boards s) (st_next_id s + 1).
Definition insert_board (b : site_board P) (s : site) : site :=
  mkSite (st_users s) (<[st_next_id s := b]> (st_boards s)) (st_next_id s + 1).

Definition add_group (g : string) (u : site_user) : site_user :=
  mkSiteUser (su_username u) (su_email u) (su_password u) (su_is_staff u) (su_is_superuser u) ({[g]} ∪ su_groups u).

(** A script: its steps one after the other, with what they report. *)
Fixpoint run_rows {A} (step : A → site → row_report * site) (rows : list A) (s : site) : list row_report * site :=
  match rows with
  | [] => ([], s)
  | row :: rows => let r := step row s in let rest := run_rows step rows r.2 in (r.1 :: rest.1, rest.2)
  end.

(** *** [scripts/ensure_county_users.py] *)

Definition ensure_user (row : string * string * string) (s : site) : row_report * site :=
  let '(_, username, slug) := row in
  match find_login s username with
  | Some (k, _) => (RowExisted, with_users (alter (add_group COUNTY_GROUP) k (st_users s)) s)
  | None =>
      let s1 := insert_login (mkSiteUser username (slug ++ "@chbtkd.ir") DEFAULT_PASSWORD true false ∅) s in
      (RowCreated, with_users (alter (add_group COUNTY_GROUP) (st_next_id s) (st_users s1)) s1)
  end.

Definition ensure_county_users (s : site) : list row_report * site := run_rows ensure_user county_rows s.

(** *** [scripts/create_tkdboards.py], [create_county_users.py] *)

(** The row of a board for the login of a city. The second script gives no name: a new board has the empty
    one, an old one keeps its own. *)
Definition upsert_board (name_of : string → option string) (row : string * string) (s : site) : row_report * site :=
  let '(city, username) := row in
  match find_login s username with
  | None => (MissingUser, s)
  | Some (user, _) =>
      match first_row (λ b, sb_user b =? user) (st_boards s) with
      | None => (RowCreated, insert_board (mkSiteBoard user (default ""%string (name_of city)) PROVINCE city zero) s)
      | Some (k, b) =>
          (RowUpdated, with_boards (<[k := mkSiteBoard (sb_user b) (default (sb_name b) (name_of city)) PROVINCE city
                                              (sb_ranking_total b)]> (st_boards s)) s)
      end
  end.

Definition board_title (city : string) : string := "هیئت " ++ city.

Definition create_tkdboards (s : site) : list row_report * site :=
  run_rows (upsert_board (λ city, Some (board_title city))) board_rows s.
Definition create_county_users (s : site) : list row_report * site := run_rows (upsert_board (λ _, None)) board_rows s.

(** *** [create_superuser.py] *)

Definition FALLBACK_USERNAME : string := "tkdadmin".
Definition FALLBACK_EMAIL : string := "tkdchb9@gmail.com".
Definition FALLBACK_PASSWORD : string := "@Tkdchb1404tkd".

Definition make_superuser (email password : string) (u : site_user) : site_user :=
  mkSiteUser (su_username u) email password true true (su_groups u).

(** With the variables of the environment that are set. *)
Definition create_superuser (environ : string → option string) (s : site) : row_report * site :=
  let u := or_str (opt_str (environ "DJANGO_SUPERUSER_USERNAME")) FALLBACK_USERNAME in
  let e := or_str (opt_str (environ "DJANGO_SUPERUSER_EMAIL")) FALLBACK_EMAIL in
  let p := or_str (opt_str (environ "DJANGO_SUPERUSER_PASSWORD")) FALLBACK_PASSWORD in
  match find_login s u with
  | Some (k, _) => (RowUpdated, with_users (alter (make_superuser e p) k (st_users s)) s)
  | None => (RowCreated, insert_login (mkSiteUser u e p true true ∅) s)
  end.

(** ** Rows of a site *)

(** Names of logins are unique, a login has at most one board, and new keys are free. *)
Record site_wf (s : site) : Prop := {
  sw_user_keys : ∀ k u, st_users s !! k = Some u → k < st_next_id s;
  sw_board_keys : ∀ k b, st_boards s !! k = Some b → k < st_next_id s;
  sw_names : ∀ i j u v, st_users s !! i = Some u → st_users s !! j = Some v → same (su_username u) (su_username v) = true → i = j;
  sw_boards : ∀ i j a b, st_boards s !! i = Some a → st_boards s !! j = Some b → sb_user a = sb_user b → i = j;
}.

(** The first row with a property only one row has. *)
Lemma first_row_unique {A} (f : A → bool) (t : gmap Z A) k x :
  t !! k = Some x → f x = true → (∀ j y, t !! j = Some y → f y = true → j = k) → first_row f t = Some (k, x).
Proof.
  intros Hk Hf Hu. destruct (first_row f t) as [[j y]|] eqn:E.
  - apply first_row_some in E as [Hj Hy]. assert (j = k) as -> by eauto. congruence.
  - rewrite first_row_none in E. by rewrite (E k x Hk) in Hf.
Qed.

Lemma same_trans a b c : same a b = true → same c b = true → same a c = true.
Proof. unfold SmsCodes.same. rewrite !String.eqb_eq. congruence. Qed.
Lemma same_refl a : same a a = true.
Proof. apply String.eqb_refl. Qed.

Lemma find_login_spec s name k u : site_wf s →
  find_login s name = Some (k, u) ↔ st_users s !! k = Some u ∧ same (su_username u) name = true.
Proof.
  intros Hwf. split; [intros Hf; exact (first_row_some _ _ _ _ Hf)|]. intros [Hk Hn]. apply first_row_unique; [done..|].
  intros j v Hj Hv. apply (sw_names s Hwf j k v u Hj Hk). exact (same_trans _ name _ Hv Hn).
Qed.

Lemma find_board_spec s user k b : site_wf s →
  first_row (λ b, sb_user b =? user) (st_boards s) = Some (k, b) ↔ st_boards s !! k = Some b ∧ sb_user b = user.
Proof.
  intros Hwf. split; [by intros [Hk Hu%Z.eqb_eq]%first_row_some|]. intros [Hk Hu]. apply first_row_unique; [done|by apply Z.eqb_eq|].
  intros j v Hj Hv%Z.eqb_eq. apply (sw_boards s Hwf j k v b Hj Hk). congruence.
Qed.

Lemma insert_login_wf u s : site_wf s → find_login s (su_username u) = None → site_wf (insert_login u s).
Proof.
  intros Hwf Hnone. unfold find_login in Hnone. rewrite first_row_none in Hnone. split; cbn.
  - intros k v [[<- _]|[_ Hk]]%lookup_insert_Some; [lia|]. apply (sw_user_keys s Hwf) in Hk. lia.
  - intros k b Hk. apply (sw_board_keys s Hwf) in Hk. lia.
  - intros i j a b [[<- <-]|[Hi Ha]]%lookup_insert_Some [[<- <-]|[Hj Hb]]%lookup_insert_Some Hsame; [done| | |by eapply (sw_names s Hwf)].
    + apply Hnone in Hb. unfold SmsCodes.same in *. by rewrite String.eqb_sym, Hsame in Hb.
    + apply Hnone in Ha. by rewrite Hsame in Ha.
  - intros i j a b. apply (sw_boards s Hwf).
Qed.

Lemma alter_users_wf f k s : (∀ u, su_username (f u) = su_username u) → site_wf s → site_wf (with_users (alter f k (st_users s)) s).
Proof.
  intros Hf Hwf. split; cbn; [|apply Hwf|..].
  - intros j u Hj. apply lookup_alter_Some in Hj as [(<- & v & Hv & _)|[_ Hj]]; by eapply (sw_user_keys s Hwf).
  - assert (Hget : ∀ j u, alter f k (st_users s) !! j = Some u → ∃ v, st_users s !! j = Some v ∧ su_username u = su_username v).
    { intros j u Hj. apply lookup_alter_Some in Hj as [(<- & v & Hv & ->)|[_ Hj]]; [exists v|by exists u]. by rewrite Hf. }
    intros i j u v (u' & Hi & ->)%Hget (v' & Hj & ->)%Hget. by apply (sw_names s Hwf).
  - apply Hwf.
Qed.

Lemma insert_board_wf b s : site_wf s → first_row (λ x, sb_user x =? sb_user b) (st_boards s) = None → site_wf (insert_board b s).
Proof.
  rewrite first_row_none. intros Hwf Hnone. split; cbn.
  - intros k u Hk. apply (sw_user_keys s Hwf) in Hk. lia.
  - intros k x [[<- _]|[_ Hk]]%lookup_insert_Some; [lia|]. apply (sw_board_keys s Hwf) in Hk. lia.
  - apply Hwf.
  - intros i j x y [[<- <-]|[Hi Hx]]%lookup_insert_Some [[<- <-]|[Hj Hy]]%lookup_insert_Some Hu; [done| | |by eapply (sw_boards s Hwf)].
    + apply Hnone in Hy. by rewrite Hu, Z.eqb_refl in Hy.
    + apply Hnone in Hx. by rewrite Hu, Z.eqb_refl in Hx.
Qed.

Lemma put_board_wf k b b' s : site_wf s → st_boards s !! k = Some b → sb_user b' = sb_user b →
  site_wf (with_boards (<[k := b']> (st_boards s)) s).
Proof.
  intros Hwf Hk Hu. split; cbn; [apply Hwf| |apply Hwf|].
  - intros j x [[<- _]|[_ Hj]]%lookup_insert_Some; by eapply (sw_board_keys s Hwf).
  - assert (Hget : ∀ j x, <[k := b']> (st_boards s) !! j = Some x → ∃ y, st_boards s !! j = Some y ∧ sb_user x = sb_user y).
    { intros j x [[<- <-]|[_ Hj]]%lookup_insert_Some; [by exists b|by exists x]. }
    intros i j x y (x' & Hi & ->)%Hget (y' & Hj & ->)%Hget. by apply (sw_boards s Hwf).
Qed.

(** ** Running a script twice *)

(** A step that leaves its row settled, without unsettling the rows it is independent of, and does nothing to a
    settled row: after the script all rows are settled, and a second run changes nothing. *)
Section settling.
Context {A : Type} (step : A → site → row_report * site) (settled : A → site → Prop) (apart : A → A → Prop).
Context (step_wf : ∀ r s, site_wf s → site_wf (step r s).2).
Context (step_settles : ∀ r s, site_wf s → settled r (step r s).2).
Context (step_keeps : ∀ r r' s, site_wf s → r = r' ∨ apart r r' → settled r' s → settled r' (step r s).2).
Context (settled_fixed : ∀ r s, site_wf s → settled r s → (step r s).2 = s).

Lemma run_keeps rows r' s : (∀ r, r ∈ rows → r = r' ∨ apart r r') → site_wf s → settled r' s →
  site_wf (run_rows step rows s).2 ∧ settled r' (run_rows step rows s).2.
Proof.
  revert s. induction rows as [|r rows IH]; intros s Hr Hwf Hs; [done|]. cbn.
  apply IH; [intros x Hx; apply Hr; by right|by apply step_wf|]. apply step_keeps; [done|apply Hr; by left|done].
Qed.

Lemma run_settles rows s : (∀ r r', r ∈ rows → r' ∈ rows → r = r' ∨ apart r r') → site_wf s →
  site_wf (run_rows step rows s).2 ∧ ∀ r, r ∈ rows → settled r (run_rows step rows s).2.
Proof.
  revert s. induction rows as [|x rows IH]; intros s Hr Hwf; [by split; [|intros r ?%not_elem_of_nil]|]. cbn.
  destruct (IH (step x s).2) as [Hwf' Hs]; [intros r r' ??; apply Hr; by right|by apply step_wf|].
  split; [done|]. intros r [->|Hin]%elem_of_cons; [|by apply Hs].
  apply run_keeps; [intros r' Hr'; apply Hr; [by right|by left]|by apply step_wf|by apply step_settles].
Qed.

Lemma run_fixed rows s : site_wf s → (∀ r, r ∈ rows → settled r s) → (run_rows step rows s).2 = s.
Proof.
  intros Hwf. induction rows as [|r rows IH]; intros Hs; [done|]. cbn. rewrite (settled_fixed r s Hwf) by (apply Hs; by left).
  apply IH. intros x Hx. apply Hs. by right.
Qed.

Lemma run_twice rows s : (∀ r r', r ∈ rows → r' ∈ rows → r = r' ∨ apart r r') → site_wf s →
  (run_rows step rows (run_rows step rows s).2).2 = (run_rows step rows s).2.
Proof. intros Hr Hwf. destruct (run_settles rows s Hr Hwf) as [Hwf' Hs]. by apply run_fixed. Qed.
End settling.

(** *** Logins *)

Definition user_settled (row : string * string * string) (s : site) : Prop :=
  ∃ k u, find_login s row.1.2 = Some (k, u) ∧ COUNTY_GROUP ∈ su_groups u.

Lemma ensure_user_wf row s : site_wf s → site_wf (ensure_user row s).2.
Proof.
  destruct row as [[city name] slug]. intros Hwf. cbn. destruct (find_login s name) as [[k u]|] eqn:E; cbn.
  - by apply alter_users_wf.
  - apply (alter_users_wf (add_group COUNTY_GROUP) (st_next_id s) (insert_login _ s)); [done|]. by apply insert_login_wf.
Qed.

(** What the step leaves of the login of another row, and of its own. *)
Lemma ensure_user_at row s : site_wf s → ∃ k u, find_login (ensure_user row s).2 row.1.2 = Some (k, u) ∧ COUNTY_GROUP ∈ su_groups u ∧
  match find_login s row.1.2 with
  | Some (k0, u0) => k = k0 ∧ u = add_group COUNTY_GROUP u0
  | None => su_password u = DEFAULT_PASSWORD ∧ su_is_staff u = true
  end.
Proof.
  intros Hwf. pose proof (ensure_user_wf row s Hwf) as Hwf'. destruct row as [[city name] slug]. cbn in *.
  destruct (find_login s name) as [[k u]|] eqn:E; cbn in *.
  - exists k, (add_group COUNTY_GROUP u). apply (find_login_spec _ _ _ _ Hwf) in E as [Hk Hn].
    rewrite (find_login_spec _ _ _ _ Hwf'). cbn. rewrite lookup_alter_eq, Hk. cbn. split_and!; (done || set_solver).
  - exists (st_next_id s), (add_group COUNTY_GROUP (mkSiteUser name (slug ++ "@chbtkd.ir") DEFAULT_PASSWORD true false ∅)).
    rewrite (find_login_spec _ _ _ _ Hwf'). cbn. rewrite lookup_alter_eq, lookup_insert_eq. split_and!; (done || apply same_refl || set_solver).
Qed.

Lemma ensure_user_other row name k u s : site_wf s → same row.1.2 name = false → find_login s name = Some (k, u) →
  find_login (ensure_user row s).2 name = Some (k, u).
Proof.
  intros Hwf Hne Hf. pose proof (ensure_user_wf row s Hwf) as Hwf'. apply (find_login_spec _ _ _ _ Hwf) in Hf as [Hk Hn].
  apply (find_login_spec _ _ _ _ Hwf'). split; [|done]. destruct row as [[city name'] slug]. cbn in *.
  assert (Hother : ∀ v, su_username v = name' ∨ same (su_username v) name' = true → u ≠ v).
  { intros v [<-|Hv] ->; [congruence|]. assert (Hs : same name' name = true); [|congruence].
    unfold SmsCodes.same in *. rewrite String.eqb_eq in *. congruence. }
  destruct (find_login s name') as [[j v]|] eqn:E; cbn.
  - apply (find_login_spec _ _ _ _ Hwf) in E as [Hj Hv]. rewrite lookup_alter_ne; [done|]. intros ->.
    rewrite Hk in Hj. injection Hj as <-. by destruct (Hother u (or_intror Hv)).
  - assert (k < st_next_id s) by by eapply (sw_user_keys s Hwf). rewrite lookup_alter_ne, lookup_insert_ne by lia. done.
Qed.

Definition apart_users (r r' : string * string * string) : Prop := same r.1.2 r'.1.2 = false.

Lemma ensure_user_keeps r r' s : site_wf s → r = r' ∨ apart_users r r' → user_settled r' s → user_settled r' (ensure_user r s).2.
Proof.
  intros Hwf [->|Ha] (k & u & Hf & Hg).
  - destruct (ensure_user_at r' s Hwf) as (k' & u' & Hf' & Hg' & _). by exists k', u'.
  - exists k, u. split; [by apply ensure_user_other|done].
Qed.

Lemma ensure_user_fixed r s : site_wf s → user_settled r s → (ensure_user r s).2 = s.
Proof.
  destruct r as [[city name] slug]. intros Hwf (k & u & Hf & Hg). cbn in *. rewrite Hf. cbn.
  apply (find_login_spec _ _ _ _ Hwf) in Hf as [Hk _]. unfold with_users. rewrite alter_id; [by destruct s|].
  intros x Hx. rewrite Hk in Hx. injection Hx as <-. destruct u as [n e p st su g]. unfold add_group. cbn in *. f_equal. set_solver.
Qed.

(** *** Boards *)

Section boards.
Context (name_of : string → option string).

Definition board_settled (row : string * string) (s : site) : Prop :=
  match find_login s row.2 with
  | None => True
  | Some (user, _) => ∃ k b, st_boards s !! k = Some b ∧ sb_user b = user ∧ sb_province b = PROVINCE ∧ sb_city b = row.1 ∧
                        match name_of row.1 with Some n => sb_name b = n | None => True end
  end.

Lemma upsert_users row s : st_users (upsert_board name_of row s).2 = st_users s.
Proof.
  destruct row as [city name]. cbn. destruct (find_login s name) as [[user u]|]; [|done]. by destruct (first_row _ _) as [[k b]|].
Qed.

Lemma upsert_board_wf row s : site_wf s → site_wf (upsert_board name_of row s).2.
Proof.
  destruct row as [city name]. intros Hwf. cbn. destruct (find_login s name) as [[user u]|]; [|done].
  destruct (first_row _ _) as [[k b]|] eqn:E; cbn.
  - apply (find_board_spec _ _ _ _ Hwf) in E as [Hk _]. by eapply put_board_wf.
  - by apply insert_board_wf.
Qed.

Lemma upsert_find row name s : find_login (upsert_board name_of row s).2 name = find_login s name.
Proof. unfold find_login. by rewrite upsert_users. Qed.

Lemma upsert_settles row s : site_wf s → board_settled row (upsert_board name_of row s).2.
Proof.
  intros Hwf. unfold board_settled. rewrite upsert_find. destruct row as [city name]. cbn.
  destruct (find_login s name) as [[user u]|]; [|done]. destruct (first_row _ _) as [[k b]|] eqn:E; cbn.
  - apply (find_board_spec _ _ _ _ Hwf) in E as [Hk Hu]. eexists k, _. rewrite lookup_insert_eq. split; [done|]. cbn.
    split_and!; try done. by destruct (name_of city).
  - eexists (st_next_id s), _. rewrite lookup_insert_eq. split; [done|]. cbn. split_and!; try done. by destruct (name_of city).
Qed.

Definition apart_boards (r r' : string * string) : Prop := same r.2 r'.2 = false.

Lemma upsert_keeps r r' s : site_wf s → r = r' ∨ apart_boards r r' → board_settled r' s → board_settled r' (upsert_board name_of r s).2.
Proof.
  intros Hwf [->|Ha] Hs; [by apply upsert_settles|]. unfold board_settled in *. rewrite upsert_find.
  destruct (find_login s r'.2) as [[user' u']|] eqn:Ef'; [|done]. destruct Hs as (k & b & Hk & Hu & Hrest).
  exists k, b. split; [|done]. destruct r as [city name]. cbn in *. destruct (find_login s name) as [[user u]|] eqn:Ef; [|done].
  assert (Hne : user ≠ user').
  { intros ->. apply (find_login_spec _ _ _ _ Hwf) in Ef as [Hj Hn], Ef' as [Hj' Hn']. rewrite Hj in Hj'. injection Hj' as ->.
    unfold apart_boards, SmsCodes.same in *. cbn in *. rewrite String.eqb_eq in *. apply String.eqb_neq in Ha. congruence. }
  destruct (first_row _ _) as [[j x]|] eqn:E; cbn.
  - apply (find_board_spec _ _ _ _ Hwf) in E as [Hj Hx]. rewrite lookup_insert_ne; [done|]. intros ->. congruence.
  - assert (k < st_next_id s) by by eapply (sw_board_keys s Hwf). rewrite lookup_insert_ne by lia. done.
Qed.

Lemma upsert_fixed r s : site_wf s → board_settled r s → (upsert_board name_of r s).2 = s.
Proof.
  destruct r as [city name]. intros Hwf Hs. unfold board_settled in Hs. cbn in *.
  destruct (find_login s name) as [[user u]|]; [|done]. destruct Hs as (k & b & Hk & Hu & Hp & Hc & Hn).
  rewrite (proj2 (find_board_spec s user k b Hwf) (conj Hk Hu)). cbn. unfold with_boards. rewrite insert_id; [by destruct s|].
  rewrite Hk. destruct b as [x n p c t]. cbn in *. subst p c x. by destruct (name_of city) as [n'|]; cbn; subst.
Qed.
End boards.

(** ** The scripts *)

(** The logins of the rows have different names for the database. *)
Definition names_distinct : Prop := NoDup (collate <$> board_rows.*2).

Lemma rows_distinct {A} (f : A → string) (rows : list A) : NoDup (collate <$> (f <$> rows)) →
  ∀ r r', r ∈ rows → r' ∈ rows → r = r' ∨ same (f r) (f r') = false.
Proof.
  intros Hd r r' Hr Hr'. apply list_elem_of_lookup in Hr as [i Hi], Hr' as [j Hj].
  destruct (same (f r) (f r')) eqn:E; [left|by right]. apply String.eqb_eq in E.
  assert (i = j) as ->; [|congruence]. apply (NoDup_lookup _ i j (collate (f r)) Hd); rewrite !list_lookup_fmap, ?Hi, ?Hj; cbn; congruence.
Qed.

Lemma county_rows_apart r r' : names_distinct → r ∈ county_rows → r' ∈ county_rows → r = r' ∨ apart_users r r'.
Proof. intros Hd. exact (rows_distinct (λ r, r.1.2) county_rows Hd r r'). Qed.

Lemma board_rows_apart r r' : names_distinct → r ∈ board_rows → r' ∈ board_rows → r = r' ∨ apart_boards r r'.
Proof. intros Hd. exact (rows_distinct snd board_rows Hd r r'). Qed.

Lemma superuser_twice environ s : site_wf s →
  (create_superuser environ (create_superuser environ s).2).2 = (create_superuser environ s).2.
Proof.
  intros Hwf. unfold create_superuser. cbv zeta. set (name := or_str (opt_str (environ "DJANGO_SUPERUSER_USERNAME")) _).
  set (e := or_str (opt_str (environ "DJANGO_SUPERUSER_EMAIL")) _). set (p := or_str (opt_str (environ "DJANGO_SUPERUSER_PASSWORD")) _).
  assert (Hdone : ∀ s1 k u, site_wf s1 → st_users s1 !! k = Some (make_superuser e p u) → same (su_username u) name = true →
    (match find_login s1 name with
     | Some (k, _) => (RowUpdated, with_users (alter (make_superuser e p) k (st_users s1)) s1)
     | None => (RowCreated, insert_login (mkSiteUser name e p true true ∅) s1)
     end).2 = s1).
  { intros s1 k u Hwf1 Hk Hn. rewrite (proj2 (find_login_spec s1 name k _ Hwf1) (conj Hk Hn)). cbn. unfold with_users.
    rewrite alter_id; [by destruct s1|]. intros x Hx. rewrite Hk in Hx. by injection Hx as <-. }
  destruct (find_login s name) as [[k u]|] eqn:Ef; cbn [snd].
  - apply (find_login_spec _ _ _ _ Hwf) in Ef as [Hk Hn]. apply (Hdone _ k u); [by apply alter_users_wf| |done].
    cbn. by rewrite lookup_alter_eq, Hk.
  - apply (Hdone _ (st_next_id s) (mkSiteUser name e p true true ∅)); [by apply insert_login_wf| |apply same_refl].
    cbn. by rewrite lookup_insert_eq.
Qed.

(** The scripts can be run again. Whatever logins and boards a site has, a second run of a script changes
    nothing that the first has left. *)
Theorem scripts_run_twice environ s : site_wf s → names_distinct →
  (ensure_county_users (ensure_county_users s).2).2 = (ensure_county_users s).2 ∧
  (create_tkdboards (create_tkdboards s).2).2 = (create_tkdboards s).2 ∧
  (create_county_users (create_county_users s).2).2 = (create_county_users s).2 ∧
  (create_superuser environ (create_superuser environ s).2).2 = (create_superuser environ s).2.
Proof.
  intros Hwf Hd. split_and!; [| | |by apply superuser_twice].
  - apply (run_twice _ user_settled apart_users ensure_user_wf) with (3 := ensure_user_fixed);
      [|apply ensure_user_keeps|by intros; apply county_rows_apart|done].
    intros r s1 H1. destruct (ensure_user_at r s1 H1) as (k & u & Hf & Hg & _). by exists k, u.
  - apply (run_twice _ (board_settled _) apart_boards (upsert_board_wf _) (upsert_settles _) (upsert_keeps _) (upsert_fixed _));
      [by intros; apply board_rows_apart|done].
  - apply (run_twice _ (board_settled _) apart_boards (upsert_board_wf _) (upsert_settles _) (upsert_keeps _) (upsert_fixed _));
      [by intros; apply board_rows_apart|done].
Qed.

(** *** Logging in *)

(** What the views of the logins see. *)
Definition accounts_of (s : site) : accounts :=
  set_ac_users ((λ u, mkUser (su_username u) (Some (su_password u))) <$> st_users s)
    (set_ac_boards ((λ b, mkBoard (sb_name b) (Some (sb_user b))) <$> st_boards s) empty_accounts).

(** The login of a row, if there is one, has the password of the script. *)
Definition default_login (row : string * string * string) (s : site) : Prop :=
  ∀ k u, find_login s row.1.2 = Some (k, u) → su_password u = DEFAULT_PASSWORD.

Lemma ensure_user_default r r' s : site_wf s → r = r' ∨ apart_users r r' → default_login r' s → default_login r' (ensure_user r s).2.
Proof.
  intros Hwf Ha Hs k u Hf. pose proof (ensure_user_wf r s Hwf) as Hwf'. destruct Ha as [->|Ha].
  - destruct (ensure_user_at r' s Hwf) as (k' & u' & Hf' & _ & Hu). rewrite Hf in Hf'. injection Hf' as <- <-.
    destruct (find_login s r'.1.2) as [[k0 u0]|] eqn:E; [|by destruct Hu]. destruct Hu as [-> ->]. cbn. by apply (Hs k0).
  - apply (find_login_spec _ _ _ _ Hwf') in Hf as [Hk Hn]. apply (Hs k). apply (find_login_spec _ _ _ _ Hwf). split; [|done].
    destruct r as [[city name] slug]. cbn in Hk.
    assert (Hnot : same (su_username u) name = true → False).
    { intros Hs'. unfold apart_users, SmsCodes.same in *. cbn in *. rewrite String.eqb_eq in *. apply String.eqb_neq in Ha. congruence. }
    destruct (find_login s name) as [[j v]|] eqn:E; cbn in Hk.
    + apply (find_login_spec _ _ _ _ Hwf) in E as [Hj Hv].
      apply lookup_alter_Some in Hk as [(<- & x & Hx & ->)|[_ Hk]]; [|done]. exfalso. apply Hnot. cbn. rewrite Hj in Hx. by injection Hx as <-.
    + apply lookup_alter_Some in Hk as [(<- & x & Hx & ->)|[Hne Hk]].
      * exfalso. apply Hnot. rewrite lookup_insert_eq in Hx. injection Hx as <-. apply same_refl.
      * by rewrite lookup_insert_ne in Hk.
Qed.

Lemma upsert_run_users name_of rows s : st_users (run_rows (upsert_board name_of) rows s).2 = st_users s.
Proof. revert s. induction rows as [|r rows IH]; intros s; [done|]. cbn. by rewrite IH, upsert_users. Qed.

Lemma heyat_login_board authenticate s name k b board : site_wf s → truthy_str name = true →
  authenticate name DEFAULT_PASSWORD = Some k → st_boards s !! b = Some board → sb_user board = k →
  heyat_login authenticate (accounts_of s) (Some name) (Some DEFAULT_PASSWORD) = BoardLoggedIn k b.
Proof.
  intros Hwf Hname Ha Hb Hu. unfold heyat_login. change (opt_str (Some name)) with name. change (opt_str (Some DEFAULT_PASSWORD)) with DEFAULT_PASSWORD.
  rewrite Hname. cbn [negb orb]. change (truthy_str DEFAULT_PASSWORD) with true.
  cbn [negb]. rewrite Ha. unfold board_of.
  rewrite (first_row_unique _ (ac_boards (accounts_of s)) b (mkBoard (sb_name board) (Some (sb_user board)))); [done|..].
  - cbn. by rewrite lookup_fmap, Hb.
  - cbn. apply bool_decide_eq_true. by f_equal.
  - intros j y. cbn. rewrite lookup_fmap. destruct (st_boards s !! j) as [x|] eqn:Ej; [|done]. intros [= <-] Hx%bool_decide_eq_true.
    injection Hx as Hx. apply (sw_boards s Hwf j b x board Ej Hb). congruence.
Qed.

Lemma board_row_login city name : (city, name) ∈ board_rows → ∃ slug, (city, name, slug) ∈ county_rows ∧ truthy_str name = true.
Proof.
  unfold board_rows. intros Hin.
  repeat (apply elem_of_cons in Hin as [[= -> ->]|Hin]; [eexists; split; [apply list_elem_of_In; cbn; tauto|reflexivity]|]).
  by apply not_elem_of_nil in Hin.
Qed.

(** Every county can log in. On a site without logins of the ten names, after the script of the logins and
    the script of the boards, the login of a county with the password of the script is answered with its
    board, which is called after its city. *)
Theorem counties_can_log_in authenticate s s' city name : site_wf s → names_distinct →
  (∀ row, row ∈ county_rows → find_login s row.1.2 = None) →
  (create_tkdboards (ensure_county_users s).2).2 = s' →
  (∀ k u n, st_users s' !! k = Some u → same (su_username u) n = true → authenticate n (su_password u) = Some k) →
  (city, name) ∈ board_rows →
  ∃ k b board, heyat_login authenticate (accounts_of s') (Some name) (Some DEFAULT_PASSWORD) = BoardLoggedIn k b ∧
    st_boards s' !! b = Some board ∧ sb_name board = board_title city ∧ sb_city board = city ∧ sb_province board = PROVINCE.
Proof.
  intros Hwf Hd Hfree Hrun Hauth Hin. destruct (board_row_login city name Hin) as (slug & Hrow & Hname).
  set (s1 := (ensure_county_users s).2).
  assert (Hsettles : ∀ r s0, site_wf s0 → user_settled r (ensure_user r s0).2).
  { intros r s0 H0. destruct (ensure_user_at r s0 H0) as (k & u & Hf & Hg & _). by exists k, u. }
  destruct (run_settles ensure_user user_settled apart_users ensure_user_wf Hsettles ensure_user_keeps county_rows s
    (λ r r' Hr Hr', county_rows_apart r r' Hd Hr Hr') Hwf) as [Hwf1 Hs1]. fold (ensure_county_users s) in Hwf1, Hs1. fold s1 in Hwf1, Hs1.
  destruct (run_keeps ensure_user default_login apart_users ensure_user_wf ensure_user_default county_rows (city, name, slug) s
    (λ r Hr, county_rows_apart r _ Hd Hr Hrow) Hwf) as [_ Hdef]; [intros k u Hf; by rewrite (Hfree _ Hrow) in Hf|].
  fold (ensure_county_users s) in Hdef. fold s1 in Hdef.
  destruct (run_settles (upsert_board (λ city, Some (board_title city))) (board_settled _) apart_boards (upsert_board_wf _)
    (upsert_settles _) (upsert_keeps _) board_rows s1 (λ r r' Hr Hr', board_rows_apart r r' Hd Hr Hr') Hwf1) as [Hwf' Hs'].
  fold (create_tkdboards s1) in Hwf', Hs'. fold s1 in Hrun. rewrite Hrun in Hwf', Hs'.
  assert (Husers : st_users s' = st_users s1) by (rewrite <- Hrun; apply upsert_run_users).
  destruct (Hs1 _ Hrow) as (k & u & Hf & _). pose proof (Hdef k u Hf) as Hp. cbn [fst snd] in Hf.
  specialize (Hs' (city, name) Hin). unfold board_settled in Hs'. unfold find_login in Hs'. rewrite Husers in Hs'.
  cbn [fst snd] in Hs'. fold (find_login s1 name) in Hs'. rewrite Hf in Hs'. destruct Hs' as (b & board & Hb & Hu & Hprov & Hcity & Hbn).
  exists k, b, board. split; [|done]. apply (find_login_spec _ _ _ _ Hwf1) in Hf as [Hk Hn].
  apply (heyat_login_board authenticate s' name k b board); [done|done| |done|done]. rewrite <- Hp. apply Hauth; [by rewrite Husers|done].
Qed.

Lemma run_rows_wf {A} (step : A → site → row_report * site) rows s : (∀ r s, site_wf s → site_wf (step r s).2) → site_wf s →
  site_wf (run_rows step rows s).2.
Proof. intros Hstep. revert s. induction rows as [|r rows IH]; intros s Hwf; [done|]. cbn. by apply IH, Hstep. Qed.

(** The check of the framework on the stored logins. *)
Definition check_login (s : site) (name password : string) : option Z :=
  fst <$> first_row (λ u, same (su_username u) name && String.eqb (su_password u) password) (st_users s).

Lemma check_login_ok s k u n : site_wf s → st_users s !! k = Some u → same (su_username u) n = true →
  check_login s n (su_password u) = Some k.
Proof.
  intros Hwf Hk Hn. unfold check_login. rewrite (first_row_unique _ (st_users s) k u Hk); [done|by rewrite Hn, String.eqb_refl|].
  intros j v Hj [Hv _]%andb_true_iff. apply (sw_names s Hwf j k v u Hj Hk). exact (same_trans _ n _ Hv Hn).
Qed.
End scripts.

(** ** Witnesses and examples *)

Definition empty_site : site Z := mkSite ∅ ∅ 1.
Definition as_is (s : string) : string := s.

Lemma empty_site_wf : site_wf as_is empty_site.
Proof. split; cbn; intros *; by rewrite lookup_empty. Qed.

Lemma as_is_distinct : names_distinct as_is.
Proof. refine (bool_decide_eq_true_1 _ _). vm_compute. reflexivity. Qed.

Lemma scripts_run_twice_witness :
  (create_tkdboards 0 as_is (create_tkdboards 0 as_is empty_site).2).2 = (create_tkdboards 0 as_is empty_site).2.
Proof. exact (proj1 (proj2 (scripts_run_twice 0 as_is (λ _, None) empty_site empty_site_wf as_is_distinct))). Defined.

Definition set_up : site Z := (create_tkdboards 0 as_is (ensure_county_users as_is empty_site).2).2.

Lemma set_up_wf : site_wf as_is set_up.
Proof.
  apply run_rows_wf; [apply upsert_board_wf|]. apply run_rows_wf; [apply ensure_user_wf|exact empty_site_wf].
Qed.

Lemma counties_can_log_in_witness : ∃ k b board,
  heyat_login (check_login as_is set_up) (accounts_of set_up) (Some "chb_borujen"%string) (Some DEFAULT_PASSWORD) = BoardLoggedIn k b ∧
  st_boards set_up !! b = Some board ∧ sb_city board = "بروجن"%string.
Proof.
  destruct (counties_can_log_in 0 as_is (check_login as_is set_up) empty_site set_up "بروجن" "chb_borujen" empty_site_wf as_is_distinct
    (λ row _, eq_refl) eq_refl (λ k u n, check_login_ok as_is set_up k u n set_up_wf) ltac:(right; left))
    as (k & b & board & Hl & Hb & _ & Hc & _).
  exists k, b, board. exact (conj Hl (conj Hb Hc)).
Defined.

(** The boards of [create_county_users.py] have no name, and the logins it needs are not its own. *)
Example boards_without_name :
  (sb_name ∘ snd) <$> rows_by_id (st_boards (create_county_users 0 as_is (ensure_county_users as_is empty_site).2).2)
    = replicate 10 ""%string ∧
  (create_county_users 0 as_is empty_site).1 = replicate 10 MissingUser.
Proof. split; vm_compute; reflexivity. Qed.

(** A login that was there keeps its password. *)
Example old_password_is_kept :
  let s := insert_login (mkSiteUser "chb_ben" "" "secret" false false ∅) empty_site in
  (λ kr, (su_password kr.2, su_is_staff kr.2)) <$> find_login as_is (ensure_county_users as_is s).2 "chb_ben" = Some ("secret"%string, false).
Proof. vm_compute. reflexivity. Qed.
