(* ===== verification/Schema.v ===== *)
(** The schema of the database: what [django.db.migrations] makes of the files under [*/migrations/].

    A schema is a map from models to tables. An operation of a migration changes one table, and fails where the
    framework or the database would: a model or a column that is not there or there twice, an index that is not
    there, a key to a model that does not exist, an index or constraint over a missing column. A migration is
    applied after the migrations it depends on; [migrate] is the state machine of the command, which applies
    them one at a time in any such order. Verbose names, help texts, validators and upload folders are left out. *)

From S2P Require Import Prelude Store Ranking Payments.
Local Open Scope string_scope.

(** ** Columns *)

(** A model: the label of its app and its name in lower case. *)
Abbreviation model_key := (string * string)%type.

Inductive on_delete := CASCADE | PROTECT | SET_NULL.

Inductive field_kind :=
| BigAutoField
| CharField (max_length : Z)
| SlugField (max_length : Z)
| TextField
| URLField
| JSONField
| BooleanField
| IntegerField
| PositiveIntegerField
| PositiveSmallIntegerField
| FloatField
| DateField
| DateTimeField
| GenericIPAddressField
| FileField
| ImageField
| ForeignKey (to : model_key) (on_delete : on_delete)
| OneToOneField (to : model_key) (on_delete : on_delete)
| ManyToManyField (to : model_key).

(** [default=..]: a text, a number, a fraction in tenths, a truth value, [None] or a function that is called. *)
Inductive field_default :=
| DefaultText (s : string) | DefaultNumber (n : Z) | DefaultTenths (n : Z) | DefaultBool (b : bool) | DefaultNone
| DefaultCall (function : string).

(** The keyword arguments of a field. *)
Inductive field_option :=
| primary_key | null | blank | unique | db_index | auto_now | auto_now_add
| default (d : field_default) | choices (values : list string) | related_name (name : string).

#[export] Instance on_delete_eq_dec : EqDecision on_delete.
Proof. solve_decision. Defined.
#[export] Instance field_kind_eq_dec : EqDecision field_kind.
Proof. solve_decision. Defined.
#[export] Instance field_default_eq_dec : EqDecision field_default.
Proof. solve_decision. Defined.

Record column := mkColumn {
  co_kind : field_kind;
  co_primary_key : bool;
  co_null : bool;
  co_blank : bool;
  co_unique : bool;
  co_db_index : bool;
  co_auto_now : bool;
  co_auto_now_add : bool;
  co_default : option field_default;
  co_choices : list string;
  co_related_name : option string;
}.

#[export] Instance column_eq_dec : EqDecision column.
Proof. solve_decision. Defined.

Definition set_field_option (c : column) (o : field_option) : column :=
  let '(mkColumn k pk nu bl un ix an aa d ch rn) := c in
  match o with
  | primary_key => mkColumn k true nu bl un ix an aa d ch rn
  | null => mkColumn k pk true bl un ix an aa d ch rn
  | blank => mkColumn k pk nu true un ix an aa d ch rn
  | unique => mkColumn k pk nu bl true ix an aa d ch rn
  | db_index => mkColumn k pk nu bl un true an aa d ch rn
  | auto_now => mkColumn k pk nu bl un ix true aa d ch rn
  | auto_now_add => mkColumn k pk nu bl un ix an true d ch rn
  | default d => mkColumn k pk nu bl un ix an aa (Some d) ch rn
  | choices ch => mkColumn k pk nu bl un ix an aa d ch rn
  | related_name n => mkColumn k pk nu bl un ix an aa d ch (Some n)
  end.

(** A [SlugField] is indexed unless it says otherwise. *)
Definition field (k : field_kind) (options : list field_option) : column :=
  let indexed := match k with SlugField _ => true | _ => false end in
  foldl set_field_option (mkColumn k false false false false indexed false false None [] None) options.

(** ** Constraints and tables *)

(** [Q] objects: a column that is a value, that is null or not, that is at most another. *)
Inductive condition :=
| Is (f value : string) | IsNull (f : string) (b : bool) | AtMost (f g : string)
| And (l : list condition) | Or (l : list condition).

Inductive constraint :=
| UniqueConstraint (fields : list string) (only : option condition)
| CheckConstraint (check : condition).

Fixpoint condition_eq_dec (a b : condition) : {a = b} + {a <> b}.
Proof. decide equality; first [apply String.string_dec | apply Bool.bool_dec | apply (List.list_eq_dec condition_eq_dec)]. Defined.
#[export] Instance condition_eq_decision : EqDecision condition := condition_eq_dec.
#[export] Instance constraint_eq_dec : EqDecision constraint.
Proof. solve_decision. Defined.

Fixpoint condition_columns (c : condition) : list string :=
  match c with
  | Is f _ => [f]
  | IsNull f _ => [f]
  | AtMost f g => [f; g]
  | And l => concat (map condition_columns l)
  | Or l => concat (map condition_columns l)
  end.

Definition constraint_columns (c : constraint) : list string :=
  match c with
  | UniqueConstraint fs only => fs ++ from_option condition_columns [] only
  | CheckConstraint q => condition_columns q
  end.

Record table := mkTable {
  columns : gmap string column;
  table_ordering : list string;
  table_unique_together : list (list string);
  table_indexes : gmap string (list string);
  table_constraints : gmap string constraint;
  proxy_of : option model_key;
}.

Abbreviation schema := (gmap model_key table).

(** Every column an index, a constraint or a unique set names is there. *)
Definition named_columns (t : table) : list string :=
  concat (table_unique_together t) ++ concat (snd <$> map_to_list (table_indexes t)) ++
  concat (constraint_columns ∘ snd <$> map_to_list (table_constraints t)).

Definition table_ok (t : table) : bool := forallb (λ n, bool_decide (is_Some (columns t !! n))) (named_columns t).

(** ** Operations *)

Inductive model_option :=
| ordering (l : list string) | unique_together (l : list (list string)) | indexes (l : list (string * list string))
| constraints (l : list (string * constraint)).

Inductive operation :=
| CreateModel (name : string) (fields : list (string * column)) (options : list model_option)
| CreateProxy (name : string) (base : model_key)
| AddField (model_name name : string) (field : column)
| AlterField (model_name name : string) (field : column)
| RemoveField (model_name name : string)
| AddIndex (model_name name : string) (fields : list string)
| RemoveIndex (model_name name : string)
| AddConstraint (model_name name : string) (c : constraint)
| RemoveConstraint (model_name name : string)
| AlterUniqueTogether (model_name : string) (sets : list (list string))
| AlterModelOptions (model_name : string) (ordering : list string).

Definition operation_model (app : string) (o : operation) : model_key :=
  (app, match o with
        | CreateModel n _ _ | CreateProxy n _ => lower n
        | AddField n _ _ | AlterField n _ _ | RemoveField n _ | AddIndex n _ _ | RemoveIndex n _ | AddConstraint n _ _
        | RemoveConstraint n _ | AlterUniqueTogether n _ | AlterModelOptions n _ => n
        end).

Definition target (k : field_kind) : list model_key :=
  match k with ForeignKey m _ | OneToOneField m _ | ManyToManyField m => [m] | _ => [] end.

(** The models an operation refers to, and whether it makes one. *)
Definition references (o : operation) : list model_key :=
  match o with
  | CreateModel _ fs _ => concat (target ∘ co_kind ∘ snd <$> fs)
  | CreateProxy _ base => [base]
  | AddField _ _ c | AlterField _ _ c => target (co_kind c)
  | _ => []
  end.
Definition creates (o : operation) : bool := match o with CreateModel _ _ _ | CreateProxy _ _ => true | _ => false end.

Definition set_columns (f : gmap string column → gmap string column) (t : table) : table :=
  mkTable (f (columns t)) (table_ordering t) (table_unique_together t) (table_indexes t) (table_constraints t) (proxy_of t).
Definition set_indexes (f : gmap string (list string) → gmap string (list string)) (t : table) : table :=
  mkTable (columns t) (table_ordering t) (table_unique_together t) (f (table_indexes t)) (table_constraints t) (proxy_of t).
Definition set_constraints (f : gmap string constraint → gmap string constraint) (t : table) : table :=
  mkTable (columns t) (table_ordering t) (table_unique_together t) (table_indexes t) (f (table_constraints t)) (proxy_of t).
Definition set_unique_together (l : list (list string)) (t : table) : table :=
  mkTable (columns t) (table_ordering t) l (table_indexes t) (table_constraints t) (proxy_of t).
Definition set_ordering (l : list string) (t : table) : table :=
  mkTable (columns t) l (table_unique_together t) (table_indexes t) (table_constraints t) (proxy_of t).

Definition set_model_option (t : table) (o : model_option) : table :=
  match o with
  | ordering l => set_ordering l t
  | unique_together l => set_unique_together l t
  | indexes l => set_indexes (λ _, list_to_map l) t
  | constraints l => set_constraints (λ _, list_to_map l) t
  end.

Definition new_table (fs : list (string * column)) (options : list model_option) : table :=
  foldl set_model_option (mkTable (list_to_map fs) [] [] ∅ ∅ None) options.

Definition absent {A} (m : gmap string A) (n : string) : bool := bool_decide (m !! n = None).
Definition present {A} (m : gmap string A) (n : string) : bool := negb (absent m n).
Definition when {A} (b : bool) (x : A) : option A := if b then Some x else None.

(** What an operation makes of the table of its model. *)
Definition change (o : operation) (t : option table) : option table :=
  match o, t with
  | CreateModel _ fs options, None => when (bool_decide (NoDup (fst <$> fs))) (new_table fs options)
  | CreateProxy _ base, None => Some (mkTable ∅ [] [] ∅ ∅ (Some base))
  | AddField _ n c, Some t => when (absent (columns t) n) (set_columns <[n := c]> t)
  | AlterField _ n c, Some t => when (present (columns t) n) (set_columns <[n := c]> t)
  | RemoveField _ n, Some t => when (present (columns t) n) (set_columns (delete n) t)
  | AddIndex _ n fs, Some t => when (absent (table_indexes t) n) (set_indexes <[n := fs]> t)
  | RemoveIndex _ n, Some t => when (present (table_indexes t) n) (set_indexes (delete n) t)
  | AddConstraint _ n c, Some t => when (absent (table_constraints t) n) (set_constraints <[n := c]> t)
  | RemoveConstraint _ n, Some t => when (present (table_constraints t) n) (set_constraints (delete n) t)
  | AlterUniqueTogether _ sets, Some t => Some (set_unique_together sets t)
  | AlterModelOptions _ l, Some t => Some (set_ordering l t)
  | _, _ => None
  end.

(** A key may point at the model itself. *)
Definition known (s : schema) (self r : model_key) : bool := bool_decide (r = self) || bool_decide (is_Some (s !! r)).

Definition apply_operation (app : string) (o : operation) (s : schema) : option schema :=
  let k := operation_model app o in
  if forallb (known s k) (references o) then
    t ← change o (s !! k);
    if table_ok t then Some (<[k := t]> s) else None
  else None.

Fixpoint apply_operations (app : string) (l : list operation) (s : schema) : option schema :=
  match l with
  | [] => Some s
  | o :: l => s ← apply_operation app o s; apply_operations app l s
  end.

(** ** Migrations *)

(** The app and the name of a migration. *)
Abbreviation migration_id := (string * string)%type.

Record migration := mkMigration {
  migration_of : migration_id;
  dependencies : list migration_id;
  operations : list operation;
}.

Definition find_migration (ms : list migration) (i : migration_id) : option migration :=
  List.find (λ m, bool_decide (migration_of m = i)) ms.

Section command.
Context (ms : list migration).

Definition apply_migration (i : migration_id) (s : schema) : option schema :=
  m ← find_migration ms i; apply_operations i.1 (operations m) s.

Definition dependencies_of (i : migration_id) : list migration_id := from_option dependencies [] (find_migration ms i).

(** The command [migrate]: the migrations that are recorded as applied, and the schema. *)
Definition migrated : Type := list migration_id * schema.

Inductive migrate : migrated → migrated → Prop :=
| migrate_next (done : list migration_id) s i s' :
    i ∈ migration_of <$> ms → i ∉ done → (∀ d, d ∈ dependencies_of i → d ∈ done) → apply_migration i s = Some s' →
    migrate (done, s) ((done ++ [i])%list, s').

Definition remaining (done : list migration_id) : list migration_id :=
  List.filter (λ i, bool_decide (i ∉ done)) (migration_of <$> ms).
End command.
