(* ===== verification/MigrationsAccounts.v ===== *)
(** The migrations of [src/accounts/migrations/]. *)

From S2P Require Import Prelude Schema.
Local Open Scope string_scope.

(** ** [accounts/migrations/0001_initial.py] *)

Definition accounts_0001_CreateModel_SMSVerification : list operation := [
  CreateModel "SMSVerification" [
    ("id", field BigAutoField [primary_key]);
    ("phone", field (CharField 11) []);
    ("code", field (CharField 4) []);
    ("created_at", field DateTimeField [auto_now_add])
  ] []
].

Definition accounts_0001_CreateModel_TkdBoard : list operation := [
  CreateModel "TkdBoard" [
    ("id", field BigAutoField [primary_key]);
    ("name", field (CharField 100) []);
    ("province", field (CharField 100) []);
    ("city", field (CharField 100) []);
    ("ranking_total", field FloatField [default (DefaultNumber 0)]);
    ("user", field (OneToOneField ("auth", "user") CASCADE) [null; blank])
  ] []
].

Definition accounts_0001_CreateModel_TkdClub : list operation := [
  CreateModel "TkdClub" [
    ("id", field BigAutoField [primary_key]);
    ("club_name", field (CharField 100) []);
    ("founder_name", field (CharField 100) []);
    ("founder_national_code", field (CharField 10) []);
    ("founder_phone", field (CharField 15) [db_index]);
    ("province", field (CharField 100) []);
    ("county", field (CharField 100) []);
    ("city", field (CharField 100) []);
    ("license_number", field (CharField 100) []);
    ("federation_id", field (CharField 100) []);
    ("club_type", field (CharField 20) [choices ["private"; "governmental"; "other"]]);
    ("phone", field (CharField 15) []);
    ("address", field TextField []);
    ("activity_description", field TextField [null; blank]);
    ("license_image", field ImageField []);
    ("confirm_info", field BooleanField [default (DefaultBool false)]);
    ("coach_count", field PositiveIntegerField [default (DefaultNumber 0)]);
    ("student_count", field PositiveIntegerField [default (DefaultNumber 0)]);
    ("matches_participated", field PositiveIntegerField [default (DefaultNumber 0)]);
    ("gold_medals", field PositiveIntegerField [default (DefaultNumber 0)]);
    ("silver_medals", field PositiveIntegerField [default (DefaultNumber 0)]);
    ("bronze_medals", field PositiveIntegerField [default (DefaultNumber 0)]);
    ("ranking_competition", field FloatField [default (DefaultNumber 0)]);
    ("ranking_total", field FloatField [default (DefaultNumber 0)]);
    ("created_at", field DateTimeField [auto_now_add]);
    ("tkd_board", field (ForeignKey ("accounts", "tkdboard") SET_NULL) [null; related_name "clubs"]);
    ("user", field (OneToOneField ("auth", "user") CASCADE) [null; blank])
  ] []
].

Definition accounts_0001_CreateModel_UserProfile : list operation := [
  CreateModel "UserProfile" [
    ("id", field BigAutoField [primary_key]);
    ("first_name", field (CharField 50) []);
    ("last_name", field (CharField 50) []);
    ("father_name", field (CharField 50) []);
    ("national_code", field (CharField 10) [unique]);
    ("birth_date", field (CharField 10) []);
    ("gender", field (CharField 10) [choices ["male"; "female"]]);
    ("phone", field (CharField 11) [unique; db_index]);
    ("role", field (CharField 10) [default (DefaultText "player"); choices ["player"; "coach"; "referee"; "both"]]);
    ("profile_image", field ImageField []);
    ("address", field TextField []);
    ("province", field (CharField 50) []);
    ("county", field (CharField 50) []);
    ("city", field (CharField 50) []);
    ("tkd_board_name", field (CharField 255) [blank]);
    ("coach_name", field (CharField 255) [blank]);
    ("club_names", field JSONField [blank; default (DefaultCall "list")]);
    ("belt_grade", field (CharField 20)
      [choices
        ["سفید"; "زرد"; "سبز"; "آبی"; "قرمز"; "مشکی دان 1"; "مشکی دان 2"; "مشکی دان 3"; "مشکی دان 4"; "مشکی دان 5";
          "مشکی دان 6"; "مشکی دان 7"; "مشکی دان 8"; "مشکی دان 9"; "مشکی دان 10"]]);
    ("belt_certificate_number", field (CharField 50) []);
    ("belt_certificate_date", field (CharField 10) []);
    ("is_coach", field BooleanField [default (DefaultBool false)]);
    ("coach_level", field (CharField 20) [null; blank; choices ["درجه یک"; "درجه دو"; "درجه سه"; "ممتاز"]]);
    ("coach_level_International", field (CharField 20)
      [null; blank; choices ["درجه یک"; "درجه دو"; "درجه سه"; "ممتاز"]]);
    ("is_referee", field BooleanField [default (DefaultBool false)]);
    ("kyorogi", field BooleanField [default (DefaultBool false)]);
    ("kyorogi_level", field (CharField 20) [null; blank; choices ["درجه یک"; "درجه دو"; "درجه سه"; "ممتاز"]]);
    ("kyorogi_level_International", field (CharField 20)
      [null; blank; choices ["درجه یک"; "درجه دو"; "درجه سه"; "ممتاز"]]);
    ("poomseh", field BooleanField [default (DefaultBool false)]);
    ("poomseh_level", field (CharField 20) [null; blank; choices ["درجه یک"; "درجه دو"; "درجه سه"; "ممتاز"]]);
    ("poomseh_level_International", field (CharField 20)
      [null; blank; choices ["درجه یک"; "درجه دو"; "درجه سه"; "ممتاز"]]);
    ("hanmadang", field BooleanField [default (DefaultBool false)]);
    ("hanmadang_level", field (CharField 20) [null; blank; choices ["درجه یک"; "درجه دو"; "درجه سه"; "ممتاز"]]);
    ("hanmadang_level_International", field (CharField 20)
      [null; blank; choices ["درجه یک"; "درجه دو"; "درجه سه"; "ممتاز"]]);
    ("match_count", field PositiveIntegerField [default (DefaultNumber 0)]);
    ("seminar_count", field PositiveIntegerField [default (DefaultNumber 0)]);
    ("gold_medals", field PositiveIntegerField [default (DefaultNumber 0)]);
    ("silver_medals", field PositiveIntegerField [default (DefaultNumber 0)]);
    ("bronze_medals", field PositiveIntegerField [default (DefaultNumber 0)]);
    ("gold_medals_country", field PositiveIntegerField [default (DefaultNumber 0)]);
    ("silver_medals_country", field PositiveIntegerField [default (DefaultNumber 0)]);
    ("bronze_medals_country", field PositiveIntegerField [default (DefaultNumber 0)]);
    ("gold_medals_int", field PositiveIntegerField [default (DefaultNumber 0)]);
    ("silver_medals_int", field PositiveIntegerField [default (DefaultNumber 0)]);
    ("bronze_medals_int", field PositiveIntegerField [default (DefaultNumber 0)]);
    ("ranking_competition", field FloatField [default (DefaultNumber 0)]);
    ("ranking_total", field FloatField [default (DefaultNumber 0)]);
    ("confirm_info", field BooleanField [default (DefaultBool false)]);
    ("created_at", field DateTimeField [auto_now_add]);
    ("club", field (ForeignKey ("accounts", "tkdclub") SET_NULL) [null; blank; related_name "members"]);
    ("coach", field (ForeignKey ("accounts", "userprofile") SET_NULL) [null; blank; related_name "students"]);
    ("coaching_clubs", field (ManyToManyField ("accounts", "tkdclub")) [blank; related_name "coaches"]);
    ("tkd_board", field (ForeignKey ("accounts", "tkdboard") SET_NULL) [null]);
    ("user", field (OneToOneField ("auth", "user") CASCADE) [null; blank; related_name "profile"])
  ] []
].

Definition accounts_0001_CreateModel_PendingUserProfile : list operation := [
  CreateModel "PendingUserProfile" [
    ("id", field BigAutoField [primary_key]);
    ("first_name", field (CharField 50) []);
    ("last_name", field (CharField 50) []);
    ("father_name", field (CharField 50) []);
    ("national_code", field (CharField 10) [unique]);
    ("birth_date", field (CharField 10) []);
    ("phone", field (CharField 11) [unique]);
    ("role", field (CharField 10) [default (DefaultText "player"); choices ["player"; "coach"; "referee"; "both"]]);
    ("gender", field (CharField 10) [choices ["male"; "female"]]);
    ("address", field TextField []);
    ("province", field (CharField 50) []);
    ("county", field (CharField 50) []);
    ("city", field (CharField 50) []);
    ("tkd_board_name", field (CharField 255) [blank]);
    ("profile_image", field ImageField []);
    ("belt_grade", field (CharField 20)
      [choices
        ["سفید"; "زرد"; "سبز"; "آبی"; "قرمز"; "مشکی دان 1"; "مشکی دان 2"; "مشکی دان 3"; "مشکی دان 4"; "مشکی دان 5";
          "مشکی دان 6"; "مشکی دان 7"; "مشکی دان 8"; "مشکی دان 9"; "مشکی دان 10"]]);
    ("belt_certificate_number", field (CharField 50) []);
    ("belt_certificate_date", field (CharField 10) []);
    ("coach_name", field (CharField 255) [blank]);
    ("club_names", field JSONField [blank; default (DefaultCall "list")]);
    ("is_coach", field BooleanField [default (DefaultBool false)]);
    ("coach_level", field (CharField 20) [null; blank; choices ["درجه یک"; "درجه دو"; "درجه سه"; "ممتاز"]]);
    ("coach_level_International", field (CharField 20)
      [null; blank; choices ["درجه یک"; "درجه دو"; "درجه سه"; "ممتاز"]]);
    ("is_referee", field BooleanField [default (DefaultBool false)]);
    ("kyorogi", field BooleanField [default (DefaultBool false)]);
    ("poomseh", field BooleanField [default (DefaultBool false)]);
    ("hanmadang", field BooleanField [default (DefaultBool false)]);
    ("kyorogi_level", field (CharField 20) [null; blank; choices ["درجه یک"; "درجه دو"; "درجه سه"; "ممتاز"]]);
    ("kyorogi_level_International", field (CharField 20)
      [null; blank; choices ["درجه یک"; "درجه دو"; "درجه سه"; "ممتاز"]]);
    ("poomseh_level", field (CharField 20) [null; blank; choices ["درجه یک"; "درجه دو"; "درجه سه"; "ممتاز"]]);
    ("poomseh_level_International", field (CharField 20)
      [null; blank; choices ["درجه یک"; "درجه دو"; "درجه سه"; "ممتاز"]]);
    ("hanmadang_level", field (CharField 20) [null; blank; choices ["درجه یک"; "درجه دو"; "درجه سه"; "ممتاز"]]);
    ("hanmadang_level_International", field (CharField 20)
      [null; blank; choices ["درجه یک"; "درجه دو"; "درجه سه"; "ممتاز"]]);
    ("confirm_info", field BooleanField [default (DefaultBool false)]);
    ("submitted_at", field DateTimeField [auto_now_add]);
    ("club", field (ForeignKey ("accounts", "tkdclub") SET_NULL) [null; blank; related_name "pending_members"]);
    ("coach", field (ForeignKey ("accounts", "userprofile") SET_NULL) [null; blank; related_name "pending_students"]);
    ("coaching_clubs", field (ManyToManyField ("accounts", "tkdclub")) [blank; related_name "pending_coaches"]);
    ("tkd_board", field (ForeignKey ("accounts", "tkdboard") SET_NULL) [null])
  ] []
].

Definition accounts_0001_CreateModel_PendingEditProfile : list operation := [
  CreateModel "PendingEditProfile" [
    ("id", field BigAutoField [primary_key]);
    ("first_name", field (CharField 50) []);
    ("last_name", field (CharField 50) []);
    ("father_name", field (CharField 50) []);
    ("national_code", field (CharField 10) [unique]);
    ("birth_date", field (CharField 10) []);
    ("phone", field (CharField 11) [unique]);
    ("role", field (CharField 10) [default (DefaultText "player"); choices ["player"; "coach"; "referee"; "both"]]);
    ("gender", field (CharField 10) [choices ["male"; "female"]]);
    ("address", field TextField []);
    ("province", field (CharField 50) []);
    ("county", field (CharField 50) []);
    ("city", field (CharField 50) []);
    ("tkd_board_name", field (CharField 255) [blank]);
    ("profile_image", field ImageField []);
    ("belt_grade", field (CharField 20)
      [choices
        ["سفید"; "زرد"; "سبز"; "آبی"; "قرمز"; "مشکی دان 1"; "مشکی دان 2"; "مشکی دان 3"; "مشکی دان 4"; "مشکی دان 5";
          "مشکی دان 6"; "مشکی دان 7"; "مشکی دان 8"; "مشکی دان 9"; "مشکی دان 10"]]);
    ("belt_certificate_number", field (CharField 50) []);
    ("belt_certificate_date", field (CharField 10) []);
    ("coach_name", field (CharField 255) [blank]);
    ("club_names", field JSONField [blank; default (DefaultCall "list")]);
    ("is_coach", field BooleanField [default (DefaultBool false)]);
    ("coach_level", field (CharField 20) [null; blank; choices ["درجه یک"; "درجه دو"; "درجه سه"; "ممتاز"]]);
    ("coach_level_International", field (CharField 20)
      [null; blank; choices ["درجه یک"; "درجه دو"; "درجه سه"; "ممتاز"]]);
    ("is_referee", field BooleanField [default (DefaultBool false)]);
    ("kyorogi", field BooleanField [default (DefaultBool false)]);
    ("poomseh", field BooleanField [default (DefaultBool false)]);
    ("hanmadang", field BooleanField [default (DefaultBool false)]);
    ("kyorogi_level", field (CharField 20) [null; blank; choices ["درجه یک"; "درجه دو"; "درجه سه"; "ممتاز"]]);
    ("kyorogi_level_International", field (CharField 20)
      [null; blank; choices ["درجه یک"; "درجه دو"; "درجه سه"; "ممتاز"]]);
    ("poomseh_level", field (CharField 20) [null; blank; choices ["درجه یک"; "درجه دو"; "درجه سه"; "ممتاز"]]);
    ("poomseh_level_International", field (CharField 20)
      [null; blank; choices ["درجه یک"; "درجه دو"; "درجه سه"; "ممتاز"]]);
    ("hanmadang_level", field (CharField 20) [null; blank; choices ["درجه یک"; "درجه دو"; "درجه سه"; "ممتاز"]]);
    ("hanmadang_level_International", field (CharField 20)
      [null; blank; choices ["درجه یک"; "درجه دو"; "درجه سه"; "ممتاز"]]);
    ("confirm_info", field BooleanField [default (DefaultBool false)]);
    ("submitted_at", field DateTimeField [auto_now_add]);
    ("club", field (ForeignKey ("accounts", "tkdclub") SET_NULL) [null; blank; related_name "pending_edit_members"]);
    ("coach", field (ForeignKey ("accounts", "userprofile") SET_NULL)
      [null; blank; related_name "pending_edit_students"]);
    ("coaching_clubs", field (ManyToManyField ("accounts", "tkdclub")) [blank; related_name "pending_edit_coaches"]);
    ("original_user", field (OneToOneField ("accounts", "userprofile") CASCADE) [related_name "edit_request"]);
    ("tkd_board", field (ForeignKey ("accounts", "tkdboard") SET_NULL) [null])
  ] []
].

Definition accounts_0001_CreateModel_PendingClub : list operation := [
  CreateModel "PendingClub" [
    ("id", field BigAutoField [primary_key]);
    ("club_name", field (CharField 100) []);
    ("founder_name", field (CharField 100) []);
    ("founder_national_code", field (CharField 10) []);
    ("founder_phone", field (CharField 15) []);
    ("club_type", field (CharField 20) [choices ["private"; "governmental"; "other"]]);
    ("activity_description", field TextField [null; blank]);
    ("province", field (CharField 100) []);
    ("county", field (CharField 100) []);
    ("city", field (CharField 100) []);
    ("tkd_board_name", field (CharField 100) [blank]);
    ("phone", field (CharField 11) []);
    ("address", field TextField []);
    ("license_number", field (CharField 100) []);
    ("federation_id", field (CharField 100) []);
    ("license_image", field ImageField []);
    ("confirm_info", field BooleanField [default (DefaultBool false)]);
    ("submitted_at", field DateTimeField [auto_now_add]);
    ("tkd_board", field (ForeignKey ("accounts", "tkdboard") SET_NULL) [null; related_name "pending_clubs"])
  ] []
].

Definition accounts_0001_CreateModel_CoachClubRequest : list operation := [
  CreateModel "CoachClubRequest" [
    ("id", field BigAutoField [primary_key]);
    ("request_type", field (CharField 10) [choices ["add"; "remove"]]);
    ("status", field (CharField 10) [default (DefaultText "pending"); choices ["pending"; "accepted"; "rejected"]]);
    ("created_at", field DateTimeField [auto_now_add]);
    ("club", field (ForeignKey ("accounts", "tkdclub") CASCADE) []);
    ("coach", field (ForeignKey ("accounts", "userprofile") CASCADE) [related_name "club_requests"])
  ] []
].

Definition accounts_0001_CreateModel_ApprovedCoach : list operation := [
  CreateProxy "ApprovedCoach" ("accounts", "userprofile")
].

Definition accounts_0001_CreateModel_ApprovedPlayer : list operation := [
  CreateProxy "ApprovedPlayer" ("accounts", "userprofile")
].

Definition accounts_0001_CreateModel_ApprovedReferee : list operation := [
  CreateProxy "ApprovedReferee" ("accounts", "userprofile")
].

Definition accounts_0001_CreateModel_PendingCoach : list operation := [
  CreateProxy "PendingCoach" ("accounts", "pendinguserprofile")
].

Definition accounts_0001_CreateModel_PendingPlayer : list operation := [
  CreateProxy "PendingPlayer" ("accounts", "pendinguserprofile")
].

Definition accounts_0001_CreateModel_PendingReferee : list operation := [
  CreateProxy "PendingReferee" ("accounts", "pendinguserprofile")
].

Definition accounts_0001_tkdclub : list operation := [
  AddConstraint "tkdclub" "uniq_club_name_city" (UniqueConstraint ["club_name"; "city"] None)
].

Definition accounts_0001_pendingclub : list operation := [
  AddConstraint "pendingclub" "uniq_pending_club_name_city" (UniqueConstraint ["club_name"; "city"] None)
].

Definition accounts_0001_coachclubrequest : list operation := [
  AlterUniqueTogether "coachclubrequest" [["coach"; "club"; "request_type"]]
].

Definition accounts_0001 : migration := mkMigration ("accounts", "0001_initial")
  []
  (accounts_0001_CreateModel_SMSVerification ++ accounts_0001_CreateModel_TkdBoard ++
   accounts_0001_CreateModel_TkdClub ++ accounts_0001_CreateModel_UserProfile ++
   accounts_0001_CreateModel_PendingUserProfile ++ accounts_0001_CreateModel_PendingEditProfile ++
   accounts_0001_CreateModel_PendingClub ++ accounts_0001_CreateModel_CoachClubRequest ++
   accounts_0001_CreateModel_ApprovedCoach ++ accounts_0001_CreateModel_ApprovedPlayer ++
   accounts_0001_CreateModel_ApprovedReferee ++ accounts_0001_CreateModel_PendingCoach ++
   accounts_0001_CreateModel_PendingPlayer ++ accounts_0001_CreateModel_PendingReferee ++ accounts_0001_tkdclub ++
   accounts_0001_pendingclub ++ accounts_0001_coachclubrequest).

(** ** [accounts/migrations/0002_alter_phone_lengths.py] *)

Definition accounts_0002 : migration := mkMigration ("accounts", "0002_alter_phone_lengths")
  [("accounts", "0001_initial")]
  ([]).

(** ** [accounts/migrations/0003_alter_coachclubrequest_options_and_more.py] *)

Definition accounts_0003_coachclubrequest : list operation := [
  AlterModelOptions "coachclubrequest" []
].

Definition accounts_0003_smsverification : list operation := [
  AlterModelOptions "smsverification" []
].

Definition accounts_0003_coachclubrequest_2 : list operation := [
  AlterField "coachclubrequest" "club" (field (ForeignKey ("accounts", "tkdclub") CASCADE) []);
  AlterField "coachclubrequest" "coach"
    (field (ForeignKey ("accounts", "userprofile") CASCADE) [related_name "club_requests"]);
  AlterField "coachclubrequest" "created_at" (field DateTimeField [auto_now_add]);
  AlterField "coachclubrequest" "request_type" (field (CharField 10) [choices ["add"; "remove"]]);
  AlterField "coachclubrequest" "status"
    (field (CharField 10) [default (DefaultText "pending"); choices ["pending"; "accepted"; "rejected"]])
].

Definition accounts_0003_pendingclub : list operation := [
  AlterField "pendingclub" "activity_description" (field TextField [null; blank]);
  AlterField "pendingclub" "address" (field TextField []);
  AlterField "pendingclub" "city" (field (CharField 100) []);
  AlterField "pendingclub" "club_type" (field (CharField 20) [choices ["private"; "governmental"; "other"]]);
  AlterField "pendingclub" "confirm_info" (field BooleanField [default (DefaultBool false)]);
  AlterField "pendingclub" "county" (field (CharField 100) []);
  AlterField "pendingclub" "federation_id" (field (CharField 100) []);
  AlterField "pendingclub" "founder_name" (field (CharField 100) []);
  AlterField "pendingclub" "founder_national_code" (field (CharField 10) []);
  AlterField "pendingclub" "founder_phone" (field (CharField 11) []);
  AlterField "pendingclub" "license_image" (field ImageField []);
  AlterField "pendingclub" "license_number" (field (CharField 100) []);
  AlterField "pendingclub" "phone" (field (CharField 11) []);
  AlterField "pendingclub" "province" (field (CharField 100) []);
  AlterField "pendingclub" "submitted_at" (field DateTimeField [auto_now_add]);
  AlterField "pendingclub" "tkd_board"
    (field (ForeignKey ("accounts", "tkdboard") SET_NULL) [null; related_name "pending_clubs"]);
  AlterField "pendingclub" "tkd_board_name" (field (CharField 100) [blank])
].

Definition accounts_0003_pendingeditprofile : list operation := [
  AlterField "pendingeditprofile" "address" (field TextField []);
  AlterField "pendingeditprofile" "belt_certificate_date" (field (CharField 10) []);
  AlterField "pendingeditprofile" "belt_certificate_number" (field (CharField 50) []);
  AlterField "pendingeditprofile" "belt_grade"
    (field (CharField 20)
      [choices
        ["سفید"; "زرد"; "سبز"; "آبی"; "قرمز"; "مشکی دان 1"; "مشکی دان 2"; "مشکی دان 3"; "مشکی دان 4"; "مشکی دان 5";
          "مشکی دان 6"; "مشکی دان 7"; "مشکی دان 8"; "مشکی دان 9"; "مشکی دان 10"]]);
  AlterField "pendingeditprofile" "birth_date" (field (CharField 10) []);
  AlterField "pendingeditprofile" "city" (field (CharField 50) []);
  AlterField "pendingeditprofile" "club"
    (field (ForeignKey ("accounts", "tkdclub") SET_NULL) [null; blank; related_name "pending_edit_members"]);
  AlterField "pendingeditprofile" "club_names" (field JSONField [blank; default (DefaultCall "list")]);
  AlterField "pendingeditprofile" "coach"
    (field (ForeignKey ("accounts", "userprofile") SET_NULL) [null; blank; related_name "pending_edit_students"]);
  AlterField "pendingeditprofile" "coach_level"
    (field (CharField 20) [null; blank; choices ["درجه یک"; "درجه دو"; "درجه سه"; "ممتاز"]]);
  AlterField "pendingeditprofile" "coach_level_International"
    (field (CharField 20) [null; blank; choices ["درجه یک"; "درجه دو"; "درجه سه"; "ممتاز"]]);
  AlterField "pendingeditprofile" "coach_name" (field (CharField 255) [blank]);
  AlterField "pendingeditprofile" "coaching_clubs"
    (field (ManyToManyField ("accounts", "tkdclub")) [blank; related_name "pending_edit_coaches"]);
  AlterField "pendingeditprofile" "confirm_info" (field BooleanField [default (DefaultBool false)]);
  AlterField "pendingeditprofile" "county" (field (CharField 50) []);
  AlterField "pendingeditprofile" "father_name" (field (CharField 50) []);
  AlterField "pendingeditprofile" "first_name" (field (CharField 50) []);
  AlterField "pendingeditprofile" "gender" (field (CharField 10) [choices ["male"; "female"]]);
  AlterField "pendingeditprofile" "hanmadang" (field BooleanField [default (DefaultBool false)]);
  AlterField "pendingeditprofile" "hanmadang_level"
    (field (CharField 20) [null; blank; choices ["درجه یک"; "درجه دو"; "درجه سه"; "ممتاز"]]);
  AlterField "pendingeditprofile" "hanmadang_level_International"
    (field (CharField 20) [null; blank; choices ["درجه یک"; "درجه دو"; "درجه سه"; "ممتاز"]]);
  AlterField "pendingeditprofile" "is_coach" (field BooleanField [default (DefaultBool false)]);
  AlterField "pendingeditprofile" "is_referee" (field BooleanField [default (DefaultBool false)]);
  AlterField "pendingeditprofile" "kyorogi" (field BooleanField [default (DefaultBool false)]);
  AlterField "pendingeditprofile" "kyorogi_level"
    (field (CharField 20) [null; blank; choices ["درجه یک"; "درجه دو"; "درجه سه"; "ممتاز"]]);
  AlterField "pendingeditprofile" "kyorogi_level_International"
    (field (CharField 20) [null; blank; choices ["درجه یک"; "درجه دو"; "درجه سه"; "ممتاز"]]);
  AlterField "pendingeditprofile" "last_name" (field (CharField 50) []);
  AlterField "pendingeditprofile" "national_code" (field (CharField 10) [unique]);
  AlterField "pendingeditprofile" "original_user"
    (field (OneToOneField ("accounts", "userprofile") CASCADE) [related_name "edit_request"]);
  AlterField "pendingeditprofile" "phone" (field (CharField 11) [unique])
].

Definition accounts_0003_pendingeditprofile_2 : list operation := [
  AlterField "pendingeditprofile" "poomseh" (field BooleanField [default (DefaultBool false)]);
  AlterField "pendingeditprofile" "poomseh_level"
    (field (CharField 20) [null; blank; choices ["درجه یک"; "درجه دو"; "درجه سه"; "ممتاز"]]);
  AlterField "pendingeditprofile" "poomseh_level_International"
    (field (CharField 20) [null; blank; choices ["درجه یک"; "درجه دو"; "درجه سه"; "ممتاز"]]);
  AlterField "pendingeditprofile" "profile_image" (field ImageField []);
  AlterField "pendingeditprofile" "province" (field (CharField 50) []);
  AlterField "pendingeditprofile" "role"
    (field (CharField 10) [default (DefaultText "player"); choices ["player"; "coach"; "referee"; "both"]]);
  AlterField "pendingeditprofile" "submitted_at" (field DateTimeField [auto_now_add]);
  AlterField "pendingeditprofile" "tkd_board" (field (ForeignKey ("accounts", "tkdboard") SET_NULL) [null]);
  AlterField "pendingeditprofile" "tkd_board_name" (field (CharField 255) [blank])
].

Definition accounts_0003_pendinguserprofile : list operation := [
  AlterField "pendinguserprofile" "address" (field TextField []);
  AlterField "pendinguserprofile" "belt_certificate_date" (field (CharField 10) []);
  AlterField "pendinguserprofile" "belt_certificate_number" (field (CharField 50) []);
  AlterField "pendinguserprofile" "belt_grade"
    (field (CharField 20)
      [choices
        ["سفید"; "زرد"; "سبز"; "آبی"; "قرمز"; "مشکی دان 1"; "مشکی دان 2"; "مشکی دان 3"; "مشکی دان 4"; "مشکی دان 5";
          "مشکی دان 6"; "مشکی دان 7"; "مشکی دان 8"; "مشکی دان 9"; "مشکی دان 10"]]);
  AlterField "pendinguserprofile" "birth_date" (field (CharField 10) []);
  AlterField "pendinguserprofile" "city" (field (CharField 50) []);
  AlterField "pendinguserprofile" "club"
    (field (ForeignKey ("accounts", "tkdclub") SET_NULL) [null; blank; related_name "pending_members"]);
  AlterField "pendinguserprofile" "club_names" (field JSONField [blank; default (DefaultCall "list")]);
  AlterField "pendinguserprofile" "coach"
    (field (ForeignKey ("accounts", "userprofile") SET_NULL) [null; blank; related_name "pending_students"]);
  AlterField "pendinguserprofile" "coach_level"
    (field (CharField 20) [null; blank; choices ["درجه یک"; "درجه دو"; "درجه سه"; "ممتاز"]]);
  AlterField "pendinguserprofile" "coach_level_International"
    (field (CharField 20) [null; blank; choices ["درجه یک"; "درجه دو"; "درجه سه"; "ممتاز"]]);
  AlterField "pendinguserprofile" "coach_name" (field (CharField 255) [blank]);
  AlterField "pendinguserprofile" "coaching_clubs"
    (field (ManyToManyField ("accounts", "tkdclub")) [blank; related_name "pending_coaches"]);
  AlterField "pendinguserprofile" "confirm_info" (field BooleanField [default (DefaultBool false)]);
  AlterField "pendinguserprofile" "county" (field (CharField 50) []);
  AlterField "pendinguserprofile" "father_name" (field (CharField 50) []);
  AlterField "pendinguserprofile" "first_name" (field (CharField 50) []);
  AlterField "pendinguserprofile" "gender" (field (CharField 10) [choices ["male"; "female"]]);
  AlterField "pendinguserprofile" "hanmadang" (field BooleanField [default (DefaultBool false)]);
  AlterField "pendinguserprofile" "hanmadang_level"
    (field (CharField 20) [null; blank; choices ["درجه یک"; "درجه دو"; "درجه سه"; "ممتاز"]]);
  AlterField "pendinguserprofile" "hanmadang_level_International"
    (field (CharField 20) [null; blank; choices ["درجه یک"; "درجه دو"; "درجه سه"; "ممتاز"]]);
  AlterField "pendinguserprofile" "is_coach" (field BooleanField [default (DefaultBool false)]);
  AlterField "pendinguserprofile" "is_referee" (field BooleanField [default (DefaultBool false)]);
  AlterField "pendinguserprofile" "kyorogi" (field BooleanField [default (DefaultBool false)]);
  AlterField "pendinguserprofile" "kyorogi_level"
    (field (CharField 20) [null; blank; choices ["درجه یک"; "درجه دو"; "درجه سه"; "ممتاز"]]);
  AlterField "pendinguserprofile" "kyorogi_level_International"
    (field (CharField 20) [null; blank; choices ["درجه یک"; "درجه دو"; "درجه سه"; "ممتاز"]]);
  AlterField "pendinguserprofile" "last_name" (field (CharField 50) []);
  AlterField "pendinguserprofile" "national_code" (field (CharField 10) [unique]);
  AlterField "pendinguserprofile" "phone" (field (CharField 11) [unique]);
  AlterField "pendinguserprofile" "poomseh" (field BooleanField [default (DefaultBool false)])
].

Definition accounts_0003_pendinguserprofile_2 : list operation := [
  AlterField "pendinguserprofile" "poomseh_level"
    (field (CharField 20) [null; blank; choices ["درجه یک"; "درجه دو"; "درجه سه"; "ممتاز"]]);
  AlterField "pendinguserprofile" "poomseh_level_International"
    (field (CharField 20) [null; blank; choices ["درجه یک"; "درجه دو"; "درجه سه"; "ممتاز"]]);
  AlterField "pendinguserprofile" "profile_image" (field ImageField []);
  AlterField "pendinguserprofile" "province" (field (CharField 50) []);
  AlterField "pendinguserprofile" "role"
    (field (CharField 10) [default (DefaultText "player"); choices ["player"; "coach"; "referee"; "both"]]);
  AlterField "pendinguserprofile" "submitted_at" (field DateTimeField [auto_now_add]);
  AlterField "pendinguserprofile" "tkd_board" (field (ForeignKey ("accounts", "tkdboard") SET_NULL) [null]);
  AlterField "pendinguserprofile" "tkd_board_name" (field (CharField 255) [blank])
].

Definition accounts_0003_smsverification_2 : list operation := [
  AlterField "smsverification" "code" (field (CharField 4) []);
  AlterField "smsverification" "created_at" (field DateTimeField [auto_now_add]);
  AlterField "smsverification" "phone" (field (CharField 11) [])
].

Definition accounts_0003_tkdboard : list operation := [
  AlterField "tkdboard" "city" (field (CharField 100) []);
  AlterField "tkdboard" "name" (field (CharField 100) []);
  AlterField "tkdboard" "province" (field (CharField 100) []);
  AlterField "tkdboard" "ranking_total" (field FloatField [default (DefaultNumber 0)]);
  AlterField "tkdboard" "user" (field (OneToOneField ("auth", "user") CASCADE) [null; blank])
].

Definition accounts_0003_tkdclub : list operation := [
  AlterField "tkdclub" "activity_description" (field TextField [null; blank]);
  AlterField "tkdclub" "address" (field TextField []);
  AlterField "tkdclub" "bronze_medals" (field PositiveIntegerField [default (DefaultNumber 0)]);
  AlterField "tkdclub" "city" (field (CharField 100) []);
  AlterField "tkdclub" "club_type" (field (CharField 20) [choices ["private"; "governmental"; "other"]]);
  AlterField "tkdclub" "coach_count" (field PositiveIntegerField [default (DefaultNumber 0)]);
  AlterField "tkdclub" "confirm_info" (field BooleanField [default (DefaultBool false)]);
  AlterField "tkdclub" "county" (field (CharField 100) []);
  AlterField "tkdclub" "created_at" (field DateTimeField [auto_now_add]);
  AlterField "tkdclub" "federation_id" (field (CharField 100) []);
  AlterField "tkdclub" "founder_name" (field (CharField 100) []);
  AlterField "tkdclub" "founder_national_code" (field (CharField 10) []);
  AlterField "tkdclub" "founder_phone" (field (CharField 11) [db_index]);
  AlterField "tkdclub" "gold_medals" (field PositiveIntegerField [default (DefaultNumber 0)]);
  AlterField "tkdclub" "license_image" (field ImageField []);
  AlterField "tkdclub" "license_number" (field (CharField 100) []);
  AlterField "tkdclub" "matches_participated" (field PositiveIntegerField [default (DefaultNumber 0)]);
  AlterField "tkdclub" "phone" (field (CharField 11) []);
  AlterField "tkdclub" "province" (field (CharField 100) []);
  AlterField "tkdclub" "ranking_competition" (field FloatField [default (DefaultNumber 0)]);
  AlterField "tkdclub" "ranking_total" (field FloatField [default (DefaultNumber 0)]);
  AlterField "tkdclub" "silver_medals" (field PositiveIntegerField [default (DefaultNumber 0)]);
  AlterField "tkdclub" "student_count" (field PositiveIntegerField [default (DefaultNumber 0)]);
  AlterField "tkdclub" "tkd_board" (field (ForeignKey ("accounts", "tkdboard") SET_NULL) [null; related_name "clubs"]);
  AlterField "tkdclub" "user" (field (OneToOneField ("auth", "user") CASCADE) [null; blank])
].

Definition accounts_0003_userprofile : list operation := [
  AlterField "userprofile" "address" (field TextField []);
  AlterField "userprofile" "belt_certificate_date" (field (CharField 10) []);
  AlterField "userprofile" "belt_certificate_number" (field (CharField 50) []);
  AlterField "userprofile" "belt_grade"
    (field (CharField 20)
      [choices
        ["سفید"; "زرد"; "سبز"; "آبی"; "قرمز"; "مشکی دان 1"; "مشکی دان 2"; "مشکی دان 3"; "مشکی دان 4"; "مشکی دان 5";
          "مشکی دان 6"; "مشکی دان 7"; "مشکی دان 8"; "مشکی دان 9"; "مشکی دان 10"]]);
  AlterField "userprofile" "birth_date" (field (CharField 10) []);
  AlterField "userprofile" "bronze_medals" (field PositiveIntegerField [default (DefaultNumber 0)]);
  AlterField "userprofile" "bronze_medals_country" (field PositiveIntegerField [default (DefaultNumber 0)]);
  AlterField "userprofile" "bronze_medals_int" (field PositiveIntegerField [default (DefaultNumber 0)]);
  AlterField "userprofile" "city" (field (CharField 50) []);
  AlterField "userprofile" "club"
    (field (ForeignKey ("accounts", "tkdclub") SET_NULL) [null; blank; related_name "members"]);
  AlterField "userprofile" "club_names" (field JSONField [blank; default (DefaultCall "list")]);
  AlterField "userprofile" "coach"
    (field (ForeignKey ("accounts", "userprofile") SET_NULL) [null; blank; related_name "students"]);
  AlterField "userprofile" "coach_level"
    (field (CharField 20) [null; blank; choices ["درجه یک"; "درجه دو"; "درجه سه"; "ممتاز"]]);
  AlterField "userprofile" "coach_level_International"
    (field (CharField 20) [null; blank; choices ["درجه یک"; "درجه دو"; "درجه سه"; "ممتاز"]]);
  AlterField "userprofile" "coach_name" (field (CharField 255) [blank]);
  AlterField "userprofile" "coaching_clubs"
    (field (ManyToManyField ("accounts", "tkdclub")) [blank; related_name "coaches"]);
  AlterField "userprofile" "confirm_info" (field BooleanField [default (DefaultBool false)]);
  AlterField "userprofile" "county" (field (CharField 50) []);
  AlterField "userprofile" "created_at" (field DateTimeField [auto_now_add]);
  AlterField "userprofile" "father_name" (field (CharField 50) []);
  AlterField "userprofile" "first_name" (field (CharField 50) []);
  AlterField "userprofile" "gender" (field (CharField 10) [choices ["male"; "female"]]);
  AlterField "userprofile" "gold_medals" (field PositiveIntegerField [default (DefaultNumber 0)]);
  AlterField "userprofile" "gold_medals_country" (field PositiveIntegerField [default (DefaultNumber 0)]);
  AlterField "userprofile" "gold_medals_int" (field PositiveIntegerField [default (DefaultNumber 0)]);
  AlterField "userprofile" "hanmadang" (field BooleanField [default (DefaultBool false)]);
  AlterField "userprofile" "hanmadang_level"
    (field (CharField 20) [null; blank; choices ["درجه یک"; "درجه دو"; "درجه سه"; "ممتاز"]]);
  AlterField "userprofile" "hanmadang_level_International"
    (field (CharField 20) [null; blank; choices ["درجه یک"; "درجه دو"; "درجه سه"; "ممتاز"]]);
  AlterField "userprofile" "is_coach" (field BooleanField [default (DefaultBool false)]);
  AlterField "userprofile" "is_referee" (field BooleanField [default (DefaultBool false)])
].

Definition accounts_0003_userprofile_2 : list operation := [
  AlterField "userprofile" "kyorogi" (field BooleanField [default (DefaultBool false)]);
  AlterField "userprofile" "kyorogi_level"
    (field (CharField 20) [null; blank; choices ["درجه یک"; "درجه دو"; "درجه سه"; "ممتاز"]]);
  AlterField "userprofile" "kyorogi_level_International"
    (field (CharField 20) [null; blank; choices ["درجه یک"; "درجه دو"; "درجه سه"; "ممتاز"]]);
  AlterField "userprofile" "last_name" (field (CharField 50) []);
  AlterField "userprofile" "match_count" (field PositiveIntegerField [default (DefaultNumber 0)]);
  AlterField "userprofile" "national_code" (field (CharField 10) [unique]);
  AlterField "userprofile" "phone" (field (CharField 11) [unique; db_index]);
  AlterField "userprofile" "poomseh" (field BooleanField [default (DefaultBool false)]);
  AlterField "userprofile" "poomseh_level"
    (field (CharField 20) [null; blank; choices ["درجه یک"; "درجه دو"; "درجه سه"; "ممتاز"]]);
  AlterField "userprofile" "poomseh_level_International"
    (field (CharField 20) [null; blank; choices ["درجه یک"; "درجه دو"; "درجه سه"; "ممتاز"]]);
  AlterField "userprofile" "profile_image" (field ImageField []);
  AlterField "userprofile" "province" (field (CharField 50) []);
  AlterField "userprofile" "ranking_competition" (field FloatField [default (DefaultNumber 0)]);
  AlterField "userprofile" "ranking_total" (field FloatField [default (DefaultNumber 0)]);
  AlterField "userprofile" "role"
    (field (CharField 10) [default (DefaultText "player"); choices ["player"; "coach"; "referee"; "both"]]);
  AlterField "userprofile" "seminar_count" (field PositiveIntegerField [default (DefaultNumber 0)]);
  AlterField "userprofile" "silver_medals" (field PositiveIntegerField [default (DefaultNumber 0)]);
  AlterField "userprofile" "silver_medals_country" (field PositiveIntegerField [default (DefaultNumber 0)]);
  AlterField "userprofile" "silver_medals_int" (field PositiveIntegerField [default (DefaultNumber 0)]);
  AlterField "userprofile" "tkd_board" (field (ForeignKey ("accounts", "tkdboard") SET_NULL) [null]);
  AlterField "userprofile" "tkd_board_name" (field (CharField 255) [blank]);
  AlterField "userprofile" "user"
    (field (OneToOneField ("auth", "user") CASCADE) [null; blank; related_name "profile"])
].

Definition accounts_0003 : migration := mkMigration ("accounts", "0003_alter_coachclubrequest_options_and_more")
  [("accounts", "0002_alter_phone_lengths")]
  (accounts_0003_coachclubrequest ++ accounts_0003_smsverification ++ accounts_0003_coachclubrequest_2 ++
   accounts_0003_pendingclub ++ accounts_0003_pendingeditprofile ++ accounts_0003_pendingeditprofile_2 ++
   accounts_0003_pendinguserprofile ++ accounts_0003_pendinguserprofile_2 ++ accounts_0003_smsverification_2 ++
   accounts_0003_tkdboard ++ accounts_0003_tkdclub ++ accounts_0003_userprofile ++ accounts_0003_userprofile_2).

(** ** [accounts/migrations/0004_alter_pendingclub_license_image_and_more.py] *)

Definition accounts_0004_pendingclub : list operation := [
  AlterField "pendingclub" "license_image" (field ImageField [])
].

Definition accounts_0004_pendingeditprofile : list operation := [
  AlterField "pendingeditprofile" "profile_image" (field ImageField [null; blank])
].

Definition accounts_0004_pendinguserprofile : list operation := [
  AlterField "pendinguserprofile" "profile_image" (field ImageField [])
].

Definition accounts_0004_tkdclub : list operation := [
  AlterField "tkdclub" "license_image" (field ImageField [])
].

Definition accounts_0004_userprofile : list operation := [
  AlterField "userprofile" "profile_image" (field ImageField [])
].

Definition accounts_0004 : migration := mkMigration ("accounts", "0004_alter_pendingclub_license_image_and_more")
  [("accounts", "0003_alter_coachclubrequest_options_and_more")]
  (accounts_0004_pendingclub ++ accounts_0004_pendingeditprofile ++ accounts_0004_pendinguserprofile ++
   accounts_0004_tkdclub ++ accounts_0004_userprofile).

(** ** [accounts/migrations/0005_alter_pendingeditprofile_profile_image_and_more.py] *)

Definition accounts_0005_pendingeditprofile : list operation := [
  AlterField "pendingeditprofile" "profile_image" (field ImageField [null; blank])
].

Definition accounts_0005_pendinguserprofile : list operation := [
  AlterField "pendinguserprofile" "profile_image" (field ImageField [])
].

Definition accounts_0005_userprofile : list operation := [
  AlterField "userprofile" "profile_image" (field ImageField [])
].

Definition accounts_0005 : migration := mkMigration ("accounts", "0005_alter_pendingeditprofile_profile_image_and_more")
  [("accounts", "0004_alter_pendingclub_license_image_and_more")]
  (accounts_0005_pendingeditprofile ++ accounts_0005_pendinguserprofile ++ accounts_0005_userprofile).

(** ** [accounts/migrations/0006_profilechangehistory.py] *)

Definition accounts_0006_CreateModel_ProfileChangeHistory : list operation := [
  CreateModel "ProfileChangeHistory" [
    ("id", field BigAutoField [primary_key]);
    ("field_name", field (CharField 100) []);
    ("old_value", field TextField []);
    ("new_value", field TextField []);
    ("changed_at", field DateTimeField [auto_now_add]);
    ("user_profile", field (ForeignKey ("accounts", "userprofile") CASCADE) [])
  ] []
].

Definition accounts_0006 : migration := mkMigration ("accounts", "0006_profilechangehistory")
  [("accounts", "0005_alter_pendingeditprofile_profile_image_and_more")]
  (accounts_0006_CreateModel_ProfileChangeHistory).

Definition accounts_migrations : list migration := [
  accounts_0001; accounts_0002; accounts_0003; accounts_0004; accounts_0005; accounts_0006].
