(* ===== verification/MigrationsCompetitions.v ===== *)
(** The migrations of [src/competitions/migrations/]. *)

From S2P Require Import Prelude Schema.
Local Open Scope string_scope.

(** ** [competitions/migrations/0001_initial.py] *)

Definition competitions_0001_CreateModel_AgeCategory : list operation := [
  CreateModel "AgeCategory" [
    ("id", field BigAutoField [primary_key]);
    ("name", field (CharField 100) []);
    ("from_date", field DateField []);
    ("to_date", field DateField [])
  ] []
].

Definition competitions_0001_CreateModel_Belt : list operation := [
  CreateModel "Belt" [
    ("id", field BigAutoField [primary_key]);
    ("name", field (CharField 50) [])
  ] []
].

Definition competitions_0001_CreateModel_BeltGroup : list operation := [
  CreateModel "BeltGroup" [
    ("id", field BigAutoField [primary_key]);
    ("label", field (CharField 100) [])
  ] []
].

Definition competitions_0001_CreateModel_CoachApproval : list operation := [
  CreateModel "CoachApproval" [
    ("id", field BigAutoField [primary_key]);
    ("code", field (CharField 8) [null; blank; db_index]);
    ("terms_accepted", field BooleanField [default (DefaultBool false)]);
    ("is_active", field BooleanField [default (DefaultBool true)]);
    ("approved_at", field DateTimeField [auto_now_add])
  ] []
].

Definition competitions_0001_CreateModel_CompetitionFile : list operation := [
  CreateModel "CompetitionFile" [
    ("id", field BigAutoField [primary_key]);
    ("file", field FileField [])
  ] []
].

Definition competitions_0001_CreateModel_CompetitionImage : list operation := [
  CreateModel "CompetitionImage" [
    ("id", field BigAutoField [primary_key]);
    ("image", field ImageField [])
  ] []
].

Definition competitions_0001_CreateModel_Draw : list operation := [
  CreateModel "Draw" [
    ("id", field BigAutoField [primary_key]);
    ("gender", field (CharField 10) []);
    ("size", field PositiveIntegerField []);
    ("club_threshold", field PositiveIntegerField [default (DefaultNumber 8)]);
    ("rng_seed", field (CharField 32) [blank; default (DefaultText "")]);
    ("is_locked", field BooleanField [default (DefaultBool false)]);
    ("created_at", field DateTimeField [auto_now_add])
  ] []
].

Definition competitions_0001_CreateModel_Enrollment : list operation := [
  CreateModel "Enrollment" [
    ("id", field BigAutoField [primary_key]);
    ("coach_name", field (CharField 150) [blank; default (DefaultText "")]);
    ("coach_approval_code", field (CharField 8) [blank; default (DefaultText "")]);
    ("club_name", field (CharField 150) [blank; default (DefaultText "")]);
    ("board_name", field (CharField 150) [blank; default (DefaultText "")]);
    ("declared_weight", field FloatField []);
    ("insurance_number", field (CharField 20) []);
    ("insurance_issue_date", field DateField []);
    ("status", field (CharField 20)
      [default (DefaultText "pending_payment");
        choices ["pending_payment"; "paid"; "confirmed"; "accepted"; "completed"; "canceled"]]);
    ("is_paid", field BooleanField [default (DefaultBool false)]);
    ("paid_amount", field PositiveIntegerField [default (DefaultNumber 0)]);
    ("bank_ref_code", field (CharField 64) [blank; default (DefaultText "")]);
    ("paid_at", field DateTimeField [null; blank]);
    ("medal", field (CharField 10) [blank; default (DefaultText ""); choices [""; "gold"; "silver"; "bronze"]]);
    ("created_at", field DateTimeField [auto_now_add])
  ] []
].

Definition competitions_0001_CreateModel_FirstRoundPairHistory : list operation := [
  CreateModel "FirstRoundPairHistory" [
    ("id", field BigAutoField [primary_key]);
    ("gender", field (CharField 10) []);
    ("last_met_at", field DateTimeField [auto_now])
  ] []
].

Definition competitions_0001_CreateModel_KyorugiCompetition : list operation := [
  CreateModel "KyorugiCompetition" [
    ("id", field BigAutoField [primary_key]);
    ("registration_manual", field BooleanField [null; blank; default (DefaultNone)]);
    ("title", field (CharField 255) []);
    ("poster", field ImageField [null; blank]);
    ("entry_fee", field PositiveIntegerField [default (DefaultNumber 0)]);
    ("belt_level", field (CharField 20) [choices ["yellow_blue"; "red_black"; "all"]]);
    ("gender", field (CharField 10) [choices ["male"; "female"]]);
    ("city", field (CharField 100) []);
    ("address", field TextField []);
    ("registration_start", field DateField []);
    ("registration_end", field DateField []);
    ("weigh_date", field DateField []);
    ("draw_date", field DateField []);
    ("competition_date", field DateField []);
    ("bracket_published_at", field DateTimeField [null; blank]);
    ("mat_count", field PositiveIntegerField [default (DefaultNumber 1)]);
    ("created_at", field DateTimeField [auto_now_add]);
    ("slug", field (SlugField 128) [null; blank; unique]);
    ("public_id", field (CharField 16) [unique; db_index; default (DefaultCall "_gen_public_id")])
  ] []
].

Definition competitions_0001_CreateModel_KyorugiResult : list operation := [
  CreateModel "KyorugiResult" [
    ("id", field BigAutoField [primary_key]);
    ("notes", field TextField [blank; default (DefaultText "")]);
    ("created_at", field DateTimeField [auto_now_add]);
    ("updated_at", field DateTimeField [auto_now])
  ] []
].

Definition competitions_0001_CreateModel_MatAssignment : list operation := [
  CreateModel "MatAssignment" [
    ("id", field BigAutoField [primary_key]);
    ("mat_number", field PositiveIntegerField [])
  ] []
].

Definition competitions_0001_CreateModel_Match : list operation := [
  CreateModel "Match" [
    ("id", field BigAutoField [primary_key]);
    ("round_no", field PositiveIntegerField []);
    ("slot_a", field PositiveIntegerField []);
    ("slot_b", field PositiveIntegerField []);
    ("is_bye", field BooleanField [default (DefaultBool false)]);
    ("mat_no", field PositiveIntegerField [null; blank]);
    ("match_number", field PositiveIntegerField [null; blank; db_index]);
    ("scheduled_at", field DateTimeField [null; blank]);
    ("created_at", field DateTimeField [auto_now_add])
  ] []
].

Definition competitions_0001_CreateModel_PoomsaeCoachApproval : list operation := [
  CreateModel "PoomsaeCoachApproval" [
    ("id", field BigAutoField [primary_key]);
    ("code", field (CharField 8) [null; blank; db_index]);
    ("approved", field BooleanField [default (DefaultBool false)]);
    ("is_active", field BooleanField [default (DefaultBool true)]);
    ("created_at", field DateTimeField [auto_now_add]);
    ("updated_at", field DateTimeField [auto_now])
  ] []
].

Definition competitions_0001_CreateModel_PoomsaeCompetition : list operation := [
  CreateModel "PoomsaeCompetition" [
    ("id", field BigAutoField [primary_key]);
    ("registration_manual", field BooleanField [null; blank; default (DefaultNone)]);
    ("public_id", field (SlugField 16) [unique; default (DefaultCall "_gen_public_id")]);
    ("name", field (CharField 255) []);
    ("description", field TextField [blank]);
    ("poster", field ImageField [null; blank]);
    ("belt_level", field (CharField 20)
      [blank; default (DefaultText "all"); choices ["yellow_blue"; "red_black"; "all"]]);
    ("gender", field (CharField 10) [blank; default (DefaultText ""); choices ["male"; "female"]]);
    ("city", field (CharField 100) [blank; default (DefaultText "")]);
    ("address", field TextField [blank; default (DefaultText "")]);
    ("start_date", field DateField []);
    ("end_date", field DateField []);
    ("registration_start", field DateTimeField []);
    ("registration_end", field DateTimeField []);
    ("draw_date", field DateField [null; blank]);
    ("competition_date", field DateField [null; blank]);
    ("entry_fee", field PositiveIntegerField [default (DefaultNumber 0)]);
    ("terms_text", field TextField [blank]);
    ("created_at", field DateTimeField [auto_now_add]);
    ("updated_at", field DateTimeField [auto_now])
  ] [ordering ["-start_date"; "-created_at"]]
].

Definition competitions_0001_CreateModel_PoomsaeDivision : list operation := [
  CreateModel "PoomsaeDivision" [
    ("id", field BigAutoField [primary_key]);
    ("style", field (CharField 20) [choices ["standard"; "creative"]])
  ] []
].

Definition competitions_0001_CreateModel_PoomsaeEnrollment : list operation := [
  CreateModel "PoomsaeEnrollment" [
    ("id", field BigAutoField [primary_key]);
    ("coach_name", field (CharField 150) [blank; default (DefaultText "")]);
    ("coach_approval_code", field (CharField 8) [blank; default (DefaultText "")]);
    ("club_name", field (CharField 150) [blank; default (DefaultText "")]);
    ("board_name", field (CharField 150) [blank; default (DefaultText "")]);
    ("poomsae_type", field (CharField 16) [choices ["standard"; "creative"]]);
    ("insurance_number", field (CharField 20) []);
    ("insurance_issue_date", field DateField []);
    ("status", field (CharField 20)
      [default (DefaultText "pending_payment");
        choices ["pending_payment"; "paid"; "confirmed"; "accepted"; "completed"; "canceled"]]);
    ("is_paid", field BooleanField [default (DefaultBool false)]);
    ("paid_amount", field PositiveIntegerField [default (DefaultNumber 0)]);
    ("bank_ref_code", field (CharField 64) [blank; default (DefaultText "")]);
    ("paid_at", field DateTimeField [null; blank]);
    ("medal", field (CharField 10) [blank; default (DefaultText ""); choices [""; "gold"; "silver"; "bronze"]]);
    ("created_at", field DateTimeField [auto_now_add])
  ] []
].

Definition competitions_0001_CreateModel_PoomsaeFile : list operation := [
  CreateModel "PoomsaeFile" [
    ("id", field BigAutoField [primary_key]);
    ("file", field FileField [])
  ] []
].

Definition competitions_0001_CreateModel_PoomsaeImage : list operation := [
  CreateModel "PoomsaeImage" [
    ("id", field BigAutoField [primary_key]);
    ("image", field ImageField [])
  ] []
].

Definition competitions_0001_CreateModel_RankingAward : list operation := [
  CreateModel "RankingAward" [
    ("id", field BigAutoField [primary_key]);
    ("player_name", field (CharField 255) [blank]);
    ("coach_name", field (CharField 255) [blank]);
    ("club_name", field (CharField 255) [blank]);
    ("board_name", field (CharField 255) [blank]);
    ("points_player", field FloatField [default (DefaultNumber 0)]);
    ("points_coach", field FloatField [default (DefaultNumber 0)]);
    ("points_club", field FloatField [default (DefaultNumber 0)]);
    ("points_board", field FloatField [default (DefaultNumber 0)]);
    ("created_at", field DateTimeField [auto_now_add])
  ] []
].

Definition competitions_0001_CreateModel_RankingTransaction : list operation := [
  CreateModel "RankingTransaction" [
    ("id", field BigAutoField [primary_key]);
    ("subject_type", field (CharField 16) [choices ["player"; "coach"; "club"; "board"]]);
    ("subject_id", field IntegerField []);
    ("medal", field (CharField 10) [blank; default (DefaultText "")]);
    ("points", field FloatField [default (DefaultNumber 0)]);
    ("created_at", field DateTimeField [auto_now_add])
  ] []
].

Definition competitions_0001_CreateModel_Seminar : list operation := [
  CreateModel "Seminar" [
    ("id", field BigAutoField [primary_key]);
    ("title", field (CharField 255) []);
    ("poster", field ImageField [null; blank]);
    ("description", field TextField [blank]);
    ("registration_start", field DateField []);
    ("registration_end", field DateField []);
    ("event_date", field DateField []);
    ("fee", field PositiveIntegerField [default (DefaultNumber 0)]);
    ("location", field (CharField 255) [blank]);
    ("allowed_roles", field JSONField [blank; default (DefaultCall "list")]);
    ("created_at", field DateTimeField [auto_now_add]);
    ("public_id", field (CharField 16) [unique; db_index; default (DefaultCall "_seminar_default_public_id")])
  ] [ordering ["-event_date"; "-created_at"]]
].

Definition competitions_0001_CreateModel_TermsTemplate : list operation := [
  CreateModel "TermsTemplate" [
    ("id", field BigAutoField [primary_key]);
    ("title", field (CharField 200) []);
    ("content", field TextField [])
  ] []
].

Definition competitions_0001_CreateModel_WeightCategory : list operation := [
  CreateModel "WeightCategory" [
    ("id", field BigAutoField [primary_key]);
    ("name", field (CharField 50) []);
    ("gender", field (CharField 6) [choices ["male"; "female"]]);
    ("min_weight", field FloatField []);
    ("max_weight", field FloatField []);
    ("tolerance", field FloatField [default (DefaultTenths 2)])
  ] []
].

Definition competitions_0001_CreateModel_SeminarRegistration : list operation := [
  CreateModel "SeminarRegistration" [
    ("id", field BigAutoField [primary_key]);
    ("roles", field JSONField [blank; default (DefaultCall "list")]);
    ("phone", field (CharField 40) [blank]);
    ("note", field TextField [blank]);
    ("is_paid", field BooleanField [default (DefaultBool false)]);
    ("paid_amount", field PositiveIntegerField [default (DefaultNumber 0)]);
    ("paid_at", field DateTimeField [null; blank]);
    ("created_at", field DateTimeField [auto_now_add]);
    ("seminar", field (ForeignKey ("competitions", "seminar") CASCADE) [related_name "registrations"]);
    ("user", field (ForeignKey ("auth", "user") CASCADE) [related_name "seminar_registrations"])
  ] []
].

Definition competitions_0001_seminar : list operation := [
  AddIndex "seminar" "competition_public__3683fa_idx" ["public_id"];
  AddIndex "seminar" "competition_event_d_ff54ff_idx" ["event_date"];
  AddConstraint "seminar" "seminar_reg_start_lte_reg_end"
    (CheckConstraint (AtMost "registration_start" "registration_end"));
  AddConstraint "seminar" "seminar_reg_end_lte_event_date" (CheckConstraint (AtMost "registration_end" "event_date"))
].

Definition competitions_0001_rankingtransaction : list operation := [
  AddField "rankingtransaction" "competition"
    (field (ForeignKey ("competitions", "kyorugicompetition") CASCADE) [related_name "ranking_transactions"]);
  AddField "rankingtransaction" "result"
    (field (ForeignKey ("competitions", "kyorugiresult") CASCADE) [related_name "transactions"])
].

Definition competitions_0001_rankingaward : list operation := [
  AddField "rankingaward" "board"
    (field (ForeignKey ("accounts", "tkdboard") SET_NULL) [null; blank; related_name "awards_as_board"]);
  AddField "rankingaward" "club"
    (field (ForeignKey ("accounts", "tkdclub") SET_NULL) [null; blank; related_name "awards_as_club"]);
  AddField "rankingaward" "coach"
    (field (ForeignKey ("accounts", "userprofile") SET_NULL) [null; blank; related_name "awards_as_coach"]);
  AddField "rankingaward" "enrollment"
    (field (OneToOneField ("competitions", "enrollment") CASCADE) [related_name "ranking_award"]);
  AddField "rankingaward" "player"
    (field (ForeignKey ("accounts", "userprofile") SET_NULL) [null; blank; related_name "awards_as_player"])
].

Definition competitions_0001_poomsaeimage : list operation := [
  AddField "poomsaeimage" "competition"
    (field (ForeignKey ("competitions", "poomsaecompetition") CASCADE) [related_name "images"])
].

Definition competitions_0001_poomsaefile : list operation := [
  AddField "poomsaefile" "competition"
    (field (ForeignKey ("competitions", "poomsaecompetition") CASCADE) [related_name "files"])
].

Definition competitions_0001_poomsaeenrollment : list operation := [
  AddField "poomsaeenrollment" "age_category"
    (field (ForeignKey ("competitions", "agecategory") PROTECT) [null; blank; related_name "poomsae_enrollments"]);
  AddField "poomsaeenrollment" "belt_group"
    (field (ForeignKey ("competitions", "beltgroup") SET_NULL) [null; blank; related_name "poomsae_enrollments"]);
  AddField "poomsaeenrollment" "board"
    (field (ForeignKey ("accounts", "tkdboard") SET_NULL) [null; blank; related_name "poomsae_board_enrollments"]);
  AddField "poomsaeenrollment" "club"
    (field (ForeignKey ("accounts", "tkdclub") SET_NULL) [null; blank; related_name "poomsae_club_enrollments"]);
  AddField "poomsaeenrollment" "coach"
    (field (ForeignKey ("accounts", "userprofile") SET_NULL) [null; blank; related_name "poomsae_coach_enrollments"]);
  AddField "poomsaeenrollment" "competition"
    (field (ForeignKey ("competitions", "poomsaecompetition") CASCADE) [related_name "enrollments"]);
  AddField "poomsaeenrollment" "player"
    (field (ForeignKey ("accounts", "userprofile") PROTECT) [related_name "poomsae_enrollments"])
].

Definition competitions_0001_poomsaedivision : list operation := [
  AddField "poomsaedivision" "age_category" (field (ForeignKey ("competitions", "agecategory") CASCADE) []);
  AddField "poomsaedivision" "belt_group" (field (ForeignKey ("competitions", "beltgroup") CASCADE) []);
  AddField "poomsaedivision" "competition"
    (field (ForeignKey ("competitions", "poomsaecompetition") CASCADE) [related_name "divisions"])
].

Definition competitions_0001_poomsaecompetition : list operation := [
  AddField "poomsaecompetition" "age_categories"
    (field (ManyToManyField ("competitions", "agecategory")) [blank; related_name "poom_competitions"]);
  AddField "poomsaecompetition" "age_category"
    (field (ForeignKey ("competitions", "agecategory") SET_NULL) [null; blank]);
  AddField "poomsaecompetition" "belt_groups" (field (ManyToManyField ("competitions", "beltgroup")) [blank]);
  AddField "poomsaecompetition" "terms_template"
    (field (ForeignKey ("competitions", "termstemplate") SET_NULL) [null; blank; related_name "poomsae_competitions"])
].

Definition competitions_0001_poomsaecoachapproval : list operation := [
  AddField "poomsaecoachapproval" "coach"
    (field (ForeignKey ("accounts", "userprofile") CASCADE) [related_name "poomsae_coach_approvals"]);
  AddField "poomsaecoachapproval" "competition"
    (field (ForeignKey ("competitions", "poomsaecompetition") CASCADE) [related_name "coach_approvals"]);
  AddField "poomsaecoachapproval" "player"
    (field (ForeignKey ("accounts", "userprofile") CASCADE) [null; blank; related_name "poomsae_approvals"])
].

Definition competitions_0001_match : list operation := [
  AddField "match" "draw" (field (ForeignKey ("competitions", "draw") CASCADE) [related_name "matches"]);
  AddField "match" "player_a"
    (field (ForeignKey ("accounts", "userprofile") SET_NULL) [null; blank; related_name "as_player_a"]);
  AddField "match" "player_b"
    (field (ForeignKey ("accounts", "userprofile") SET_NULL) [null; blank; related_name "as_player_b"]);
  AddField "match" "winner"
    (field (ForeignKey ("accounts", "userprofile") SET_NULL) [null; blank; related_name "as_winner"])
].

Definition competitions_0001_matassignment : list operation := [
  AddField "matassignment" "competition"
    (field (ForeignKey ("competitions", "kyorugicompetition") CASCADE) [related_name "mat_assignments"]);
  AddField "matassignment" "weights" (field (ManyToManyField ("competitions", "weightcategory")) [])
].

Definition competitions_0001_kyorugiresult : list operation := [
  AddField "kyorugiresult" "bronze1_enrollment"
    (field (ForeignKey ("competitions", "enrollment") SET_NULL) [null; blank; related_name "+"]);
  AddField "kyorugiresult" "bronze2_enrollment"
    (field (ForeignKey ("competitions", "enrollment") SET_NULL) [null; blank; related_name "+"]);
  AddField "kyorugiresult" "competition"
    (field (ForeignKey ("competitions", "kyorugicompetition") CASCADE) [related_name "results"]);
  AddField "kyorugiresult" "created_by" (field (ForeignKey ("auth", "user") SET_NULL) [null; blank; related_name "+"]);
  AddField "kyorugiresult" "gold_enrollment"
    (field (ForeignKey ("competitions", "enrollment") SET_NULL) [null; blank; related_name "+"]);
  AddField "kyorugiresult" "silver_enrollment"
    (field (ForeignKey ("competitions", "enrollment") SET_NULL) [null; blank; related_name "+"]);
  AddField "kyorugiresult" "weight_category"
    (field (ForeignKey ("competitions", "weightcategory") CASCADE) [related_name "results"])
].

Definition competitions_0001_kyorugicompetition : list operation := [
  AddField "kyorugicompetition" "age_category" (field (ForeignKey ("competitions", "agecategory") SET_NULL) [null]);
  AddField "kyorugicompetition" "belt_groups" (field (ManyToManyField ("competitions", "beltgroup")) [blank]);
  AddField "kyorugicompetition" "bracket_published_by"
    (field (ForeignKey ("auth", "user") SET_NULL) [null; blank; related_name "published_kyorugi_brackets"]);
  AddField "kyorugicompetition" "terms_template"
    (field (ForeignKey ("competitions", "termstemplate") SET_NULL) [null; blank; related_name "competitions"])
].

Definition competitions_0001_firstroundpairhistory : list operation := [
  AddField "firstroundpairhistory" "age_category" (field (ForeignKey ("competitions", "agecategory") PROTECT) []);
  AddField "firstroundpairhistory" "belt_group" (field (ForeignKey ("competitions", "beltgroup") PROTECT) []);
  AddField "firstroundpairhistory" "last_competition"
    (field (ForeignKey ("competitions", "kyorugicompetition") SET_NULL) [null; blank]);
  AddField "firstroundpairhistory" "player_a"
    (field (ForeignKey ("accounts", "userprofile") CASCADE) [related_name "+"]);
  AddField "firstroundpairhistory" "player_b"
    (field (ForeignKey ("accounts", "userprofile") CASCADE) [related_name "+"]);
  AddField "firstroundpairhistory" "weight_category"
    (field (ForeignKey ("competitions", "weightcategory") PROTECT) [])
].

Definition competitions_0001_enrollment : list operation := [
  AddField "enrollment" "belt_group"
    (field (ForeignKey ("competitions", "beltgroup") SET_NULL) [null; blank; related_name "enrollments"]);
  AddField "enrollment" "board"
    (field (ForeignKey ("accounts", "tkdboard") SET_NULL) [null; blank; related_name "board_enrollments"]);
  AddField "enrollment" "club"
    (field (ForeignKey ("accounts", "tkdclub") SET_NULL) [null; blank; related_name "club_enrollments"]);
  AddField "enrollment" "coach"
    (field (ForeignKey ("accounts", "userprofile") SET_NULL) [null; blank; related_name "coach_enrollments"]);
  AddField "enrollment" "competition"
    (field (ForeignKey ("competitions", "kyorugicompetition") CASCADE) [related_name "enrollments"]);
  AddField "enrollment" "player" (field (ForeignKey ("accounts", "userprofile") PROTECT) [related_name "enrollments"]);
  AddField "enrollment" "weight_category"
    (field (ForeignKey ("competitions", "weightcategory") PROTECT) [null; blank; related_name "enrollments"])
].

Definition competitions_0001_draw : list operation := [
  AddField "draw" "age_category"
    (field (ForeignKey ("competitions", "agecategory") PROTECT) [null; blank; related_name "draws"]);
  AddField "draw" "belt_group" (field (ForeignKey ("competitions", "beltgroup") PROTECT) []);
  AddField "draw" "competition"
    (field (ForeignKey ("competitions", "kyorugicompetition") CASCADE) [related_name "draws"]);
  AddField "draw" "weight_category" (field (ForeignKey ("competitions", "weightcategory") PROTECT) [])
].

Definition competitions_0001_competitionimage : list operation := [
  AddField "competitionimage" "competition"
    (field (ForeignKey ("competitions", "kyorugicompetition") CASCADE) [related_name "images"])
].

Definition competitions_0001_competitionfile : list operation := [
  AddField "competitionfile" "competition"
    (field (ForeignKey ("competitions", "kyorugicompetition") CASCADE) [related_name "files"])
].

Definition competitions_0001_coachapproval : list operation := [
  AddField "coachapproval" "coach"
    (field (ForeignKey ("accounts", "userprofile") CASCADE) [related_name "competition_approvals"]);
  AddField "coachapproval" "competition"
    (field (ForeignKey ("competitions", "kyorugicompetition") CASCADE) [related_name "coach_approvals"])
].

Definition competitions_0001_beltgroup : list operation := [
  AddField "beltgroup" "belts" (field (ManyToManyField ("competitions", "belt")) [])
].

Definition competitions_0001_CreateModel_CoachApprovalsEntry : list operation := [
  CreateProxy "CoachApprovalsEntry" ("competitions", "kyorugicompetition")
].

Definition competitions_0001_CreateModel_DrawStart : list operation := [
  CreateProxy "DrawStart" ("competitions", "draw")
].

Definition competitions_0001_CreateModel_KyorugiCompetitionParticipantsReport : list operation := [
  CreateProxy "KyorugiCompetitionParticipantsReport" ("competitions", "kyorugicompetition")
].

Definition competitions_0001_CreateModel_NumberingEntry : list operation := [
  CreateProxy "NumberingEntry" ("competitions", "kyorugicompetition")
].

Definition competitions_0001_CreateModel_SeminarAttendee : list operation := [
  CreateProxy "SeminarAttendee" ("competitions", "seminarregistration")
].

Definition competitions_0001_CreateModel_SeminarParticipants : list operation := [
  CreateProxy "SeminarParticipants" ("competitions", "seminarregistration")
].

Definition competitions_0001_seminarregistration : list operation := [
  AlterUniqueTogether "seminarregistration" [["seminar"; "user"]]
].

Definition competitions_0001_rankingtransaction_2 : list operation := [
  AddIndex "rankingtransaction" "competition_competi_a5485b_idx" ["competition"; "subject_type"; "subject_id"];
  AddIndex "rankingtransaction" "competition_result__adf0f9_idx" ["result"]
].

Definition competitions_0001_poomsaeenrollment_2 : list operation := [
  AddIndex "poomsaeenrollment" "competition_competi_9529e9_idx" ["competition"; "status"];
  AddIndex "poomsaeenrollment" "competition_coach_i_57664e_idx" ["coach"];
  AddIndex "poomsaeenrollment" "competition_club_id_cbd6c0_idx" ["club"];
  AddIndex "poomsaeenrollment" "competition_board_i_552d0d_idx" ["board"];
  AddIndex "poomsaeenrollment" "competition_competi_87726b_idx" ["competition"; "player"];
  AlterUniqueTogether "poomsaeenrollment" [["competition"; "player"; "poomsae_type"]]
].

Definition competitions_0001_poomsaedivision_2 : list operation := [
  AddIndex "poomsaedivision" "competition_competi_d067e5_idx" ["competition"; "age_category"; "belt_group"; "style"];
  AlterUniqueTogether "poomsaedivision" [["competition"; "age_category"; "belt_group"; "style"]]
].

Definition competitions_0001_poomsaecompetition_2 : list operation := [
  AddIndex "poomsaecompetition" "competition_public__3b1384_idx" ["public_id"];
  AddIndex "poomsaecompetition" "competition_start_d_b4b3a4_idx" ["start_date"];
  AddIndex "poomsaecompetition" "competition_registr_1718e5_idx" ["registration_start"; "registration_end"];
  AddConstraint "poomsaecompetition" "poomsae_start_lte_end" (CheckConstraint (AtMost "start_date" "end_date"));
  AddConstraint "poomsaecompetition" "poomsae_reg_start_lte_end"
    (CheckConstraint (AtMost "registration_start" "registration_end"));
  AddConstraint "poomsaecompetition" "poomsae_reg_end_lte_start_date"
    (CheckConstraint (AtMost "registration_end" "start_date"))
].

Definition competitions_0001_poomsaecoachapproval_2 : list operation := [
  AddIndex "poomsaecoachapproval" "competition_competi_772bb2_idx" ["competition"; "is_active"; "approved"];
  AddConstraint "poomsaecoachapproval" "uniq_poomsae_competition_coach"
    (UniqueConstraint ["competition"; "coach"] None);
  AddConstraint "poomsaecoachapproval" "uniq_poomsae_competition_code"
    (UniqueConstraint ["competition"; "code"] (Some (IsNull "code" false)))
].

Definition competitions_0001_match_2 : list operation := [
  AddIndex "match" "competition_draw_id_bc410e_idx" ["draw"; "round_no"];
  AddIndex "match" "competition_mat_no_fb64cc_idx" ["mat_no"; "match_number"]
].

Definition competitions_0001_kyorugiresult_2 : list operation := [
  AlterUniqueTogether "kyorugiresult" [["competition"; "weight_category"]]
].

Definition competitions_0001_kyorugicompetition_2 : list operation := [
  AddIndex "kyorugicompetition" "competition_public__f756e4_idx" ["public_id"];
  AddIndex "kyorugicompetition" "competition_competi_cafbd9_idx" ["competition_date"];
  AddConstraint "kyorugicompetition" "reg_start_lte_reg_end"
    (CheckConstraint (AtMost "registration_start" "registration_end"));
  AddConstraint "kyorugicompetition" "weigh_lte_draw" (CheckConstraint (AtMost "weigh_date" "draw_date"));
  AddConstraint "kyorugicompetition" "draw_lte_comp" (CheckConstraint (AtMost "draw_date" "competition_date"))
].

Definition competitions_0001_firstroundpairhistory_2 : list operation := [
  AlterUniqueTogether "firstroundpairhistory"
    [["player_a"; "player_b"; "gender"; "age_category"; "belt_group"; "weight_category"]]
].

Definition competitions_0001_enrollment_2 : list operation := [
  AddIndex "enrollment" "competition_competi_e9adb2_idx" ["competition"; "status"];
  AddIndex "enrollment" "competition_coach_i_e3c33b_idx" ["coach"];
  AddIndex "enrollment" "competition_club_id_a81a7c_idx" ["club"];
  AddIndex "enrollment" "competition_board_i_f2dec0_idx" ["board"]
].

Definition competitions_0001_draw_2 : list operation := [
  AddIndex "draw" "competition_competi_9305f8_idx"
    ["competition"; "gender"; "age_category"; "belt_group"; "weight_category"];
  AddIndex "draw" "competition_competi_21ffac_idx" ["competition"; "weight_category"];
  AlterUniqueTogether "draw" [["competition"; "gender"; "age_category"; "belt_group"; "weight_category"]]
].

Definition competitions_0001_coachapproval_2 : list operation := [
  AddIndex "coachapproval" "competition_competi_30ddd5_idx" ["competition"; "is_active"; "terms_accepted"];
  AddConstraint "coachapproval" "uniq_competition_coach" (UniqueConstraint ["competition"; "coach"] None);
  AddConstraint "coachapproval" "uniq_competition_code"
    (UniqueConstraint ["competition"; "code"] (Some (IsNull "code" false)))
].

Definition competitions_0001 : migration := mkMigration ("competitions", "0001_initial")
  [("accounts", "0001_initial")]
  (competitions_0001_CreateModel_AgeCategory ++ competitions_0001_CreateModel_Belt ++
   competitions_0001_CreateModel_BeltGroup ++ competitions_0001_CreateModel_CoachApproval ++
   competitions_0001_CreateModel_CompetitionFile ++ competitions_0001_CreateModel_CompetitionImage ++
   competitions_0001_CreateModel_Draw ++ competitions_0001_CreateModel_Enrollment ++
   competitions_0001_CreateModel_FirstRoundPairHistory ++ competitions_0001_CreateModel_KyorugiCompetition ++
   competitions_0001_CreateModel_KyorugiResult ++ competitions_0001_CreateModel_MatAssignment ++
   competitions_0001_CreateModel_Match ++ competitions_0001_CreateModel_PoomsaeCoachApproval ++
   competitions_0001_CreateModel_PoomsaeCompetition ++ competitions_0001_CreateModel_PoomsaeDivision ++
   competitions_0001_CreateModel_PoomsaeEnrollment ++ competitions_0001_CreateModel_PoomsaeFile ++
   competitions_0001_CreateModel_PoomsaeImage ++ competitions_0001_CreateModel_RankingAward ++
   competitions_0001_CreateModel_RankingTransaction ++ competitions_0001_CreateModel_Seminar ++
   competitions_0001_CreateModel_TermsTemplate ++ competitions_0001_CreateModel_WeightCategory ++
   competitions_0001_CreateModel_SeminarRegistration ++ competitions_0001_seminar ++
   competitions_0001_rankingtransaction ++ competitions_0001_rankingaward ++ competitions_0001_poomsaeimage ++
   competitions_0001_poomsaefile ++ competitions_0001_poomsaeenrollment ++ competitions_0001_poomsaedivision ++
   competitions_0001_poomsaecompetition ++ competitions_0001_poomsaecoachapproval ++ competitions_0001_match ++
   competitions_0001_matassignment ++ competitions_0001_kyorugiresult ++ competitions_0001_kyorugicompetition ++
   competitions_0001_firstroundpairhistory ++ competitions_0001_enrollment ++ competitions_0001_draw ++
   competitions_0001_competitionimage ++ competitions_0001_competitionfile ++ competitions_0001_coachapproval ++
   competitions_0001_beltgroup ++ competitions_0001_CreateModel_CoachApprovalsEntry ++
   competitions_0001_CreateModel_DrawStart ++ competitions_0001_CreateModel_KyorugiCompetitionParticipantsReport ++
   competitions_0001_CreateModel_NumberingEntry ++ competitions_0001_CreateModel_SeminarAttendee ++
   competitions_0001_CreateModel_SeminarParticipants ++ competitions_0001_seminarregistration ++
   competitions_0001_rankingtransaction_2 ++ competitions_0001_poomsaeenrollment_2 ++
   competitions_0001_poomsaedivision_2 ++ competitions_0001_poomsaecompetition_2 ++
   competitions_0001_poomsaecoachapproval_2 ++ competitions_0001_match_2 ++ competitions_0001_kyorugiresult_2 ++
   competitions_0001_kyorugicompetition_2 ++ competitions_0001_firstroundpairhistory_2 ++
   competitions_0001_enrollment_2 ++ competitions_0001_draw_2 ++ competitions_0001_coachapproval_2).

(** ** [competitions/migrations/0002_enrollment_discount_amount_enrollment_discount_code_and_more.py] *)

Definition competitions_0002_enrollment : list operation := [
  AddField "enrollment" "discount_amount" (field PositiveIntegerField [default (DefaultNumber 0)]);
  AddField "enrollment" "discount_code" (field (CharField 50) [null; blank; db_index]);
  AddField "enrollment" "discount_redeemed" (field BooleanField [default (DefaultBool false)]);
  AddField "enrollment" "payable_amount" (field PositiveIntegerField [default (DefaultNumber 0)])
].

Definition competitions_0002_poomsaeenrollment : list operation := [
  AddField "poomsaeenrollment" "discount_amount" (field PositiveIntegerField [default (DefaultNumber 0)]);
  AddField "poomsaeenrollment" "discount_code" (field (CharField 50) [null; blank; db_index]);
  AddField "poomsaeenrollment" "discount_redeemed" (field BooleanField [default (DefaultBool false)]);
  AddField "poomsaeenrollment" "payable_amount" (field PositiveIntegerField [default (DefaultNumber 0)])
].

Definition competitions_0002_seminarregistration : list operation := [
  AddField "seminarregistration" "discount_amount" (field PositiveIntegerField [default (DefaultNumber 0)]);
  AddField "seminarregistration" "discount_code" (field (CharField 50) [null; blank; db_index]);
  AddField "seminarregistration" "discount_redeemed" (field BooleanField [default (DefaultBool false)]);
  AddField "seminarregistration" "payable_amount" (field PositiveIntegerField [default (DefaultNumber 0)])
].

Definition competitions_0002_enrollment_2 : list operation := [
  AddIndex "enrollment" "competition_discoun_74bb7f_idx" ["discount_code"]
].

Definition competitions_0002_poomsaeenrollment_2 : list operation := [
  AddIndex "poomsaeenrollment" "competition_discoun_97adcd_idx" ["discount_code"]
].

Definition competitions_0002 : migration := mkMigration ("competitions", "0002_enrollment_discount_amount_enrollment_discount_code_and_more")
  [("competitions", "0001_initial")]
  (competitions_0002_enrollment ++ competitions_0002_poomsaeenrollment ++ competitions_0002_seminarregistration ++
   competitions_0002_enrollment_2 ++ competitions_0002_poomsaeenrollment_2).

(** ** [competitions/migrations/0003_alter_poomsaecompetition_registration_end_and_more.py] *)

Definition competitions_0003_poomsaecompetition : list operation := [
  AlterField "poomsaecompetition" "registration_end" (field DateField []);
  AlterField "poomsaecompetition" "registration_start" (field DateField [])
].

Definition competitions_0003 : migration := mkMigration ("competitions", "0003_alter_poomsaecompetition_registration_end_and_more")
  [("competitions", "0002_enrollment_discount_amount_enrollment_discount_code_and_more")]
  (competitions_0003_poomsaecompetition).

(** ** [competitions/migrations/0004_discountcode.py] *)

Definition competitions_0004_CreateModel_DiscountCode : list operation := [
  CreateModel "DiscountCode" [
    ("id", field BigAutoField [primary_key]);
    ("code", field (CharField 50) [unique]);
    ("type", field (CharField 20) [choices ["COACH_GROUP"; "STUDENT"]]);
    ("percent", field PositiveSmallIntegerField []);
    ("max_uses", field PositiveIntegerField [null; blank]);
    ("used_count", field PositiveIntegerField [default (DefaultNumber 0)]);
    ("active", field BooleanField [default (DefaultBool true)]);
    ("created_at", field DateTimeField [auto_now_add]);
    ("updated_at", field DateTimeField [auto_now]);
    ("coach", field (ForeignKey ("auth", "user") CASCADE) [related_name "discount_codes"]);
    ("competition", field (ForeignKey ("competitions", "kyorugicompetition") CASCADE)
      [null; blank; related_name "discount_codes"]);
    ("seminar", field (ForeignKey ("competitions", "seminar") CASCADE) [null; blank; related_name "discount_codes"])
  ] []
].

Definition competitions_0004 : migration := mkMigration ("competitions", "0004_discountcode")
  [("competitions", "0003_alter_poomsaecompetition_registration_end_and_more")]
  (competitions_0004_CreateModel_DiscountCode).

(** ** [competitions/migrations/0005_discountcode_poomsae_competition_and_more.py] *)

Definition competitions_0005_discountcode : list operation := [
  AddField "discountcode" "poomsae_competition"
    (field (ForeignKey ("competitions", "poomsaecompetition") CASCADE)
      [null; blank; related_name "discount_codes_poomsae"]);
  AlterField "discountcode" "competition"
    (field (ForeignKey ("competitions", "kyorugicompetition") CASCADE) [null; blank; related_name "discount_codes"])
].

Definition competitions_0005 : migration := mkMigration ("competitions", "0005_discountcode_poomsae_competition_and_more")
  [("competitions", "0004_discountcode")]
  (competitions_0005_discountcode).

(** ** [competitions/migrations/0006_poomsaeteam_alter_poomsaeenrollment_unique_together_and_more.py] *)

Definition competitions_0006_CreateModel_PoomsaeTeam : list operation := [
  CreateModel "PoomsaeTeam" [
    ("id", field BigAutoField [primary_key]);
    ("name", field (CharField 100) []);
    ("style", field (CharField 16) [choices ["standard"; "creative"]]);
    ("created_at", field DateTimeField [auto_now_add]);
    ("coach", field (ForeignKey ("accounts", "userprofile") CASCADE) [related_name "poomsae_teams"]);
    ("competition", field (ForeignKey ("competitions", "poomsaecompetition") CASCADE) [related_name "teams"])
  ] []
].

Definition competitions_0006_poomsaeenrollment : list operation := [
  AlterUniqueTogether "poomsaeenrollment" [];
  AddField "poomsaeenrollment" "mode"
    (field (CharField 8) [default (DefaultText "single"); choices ["single"; "team"]]);
  AlterUniqueTogether "poomsaeenrollment" [["competition"; "player"; "poomsae_type"; "mode"]]
].

Definition competitions_0006_CreateModel_PoomsaeTeamMember : list operation := [
  CreateModel "PoomsaeTeamMember" [
    ("id", field BigAutoField [primary_key]);
    ("role", field (CharField 8) [default (DefaultText "main"); choices ["main"; "sub"]]);
    ("order", field PositiveSmallIntegerField [default (DefaultNumber 1)]);
    ("player", field (ForeignKey ("accounts", "userprofile") CASCADE) [related_name "poomsae_team_memberships"]);
    ("team", field (ForeignKey ("competitions", "poomsaeteam") CASCADE) [related_name "members"])
  ] [indexes [("competition_team_id_e1a22e_idx", ["team"]); ("competition_player__0e271a_idx", ["player"])]; unique_together [["team"; "player"]]]
].

Definition competitions_0006_poomsaeteam : list operation := [
  AddIndex "poomsaeteam" "competition_competi_9d6569_idx" ["competition"; "coach"]
].

Definition competitions_0006 : migration := mkMigration ("competitions", "0006_poomsaeteam_alter_poomsaeenrollment_unique_together_and_more")
  [("accounts", "0004_alter_pendingclub_license_image_and_more");
    ("competitions", "0005_discountcode_poomsae_competition_and_more")]
  (competitions_0006_CreateModel_PoomsaeTeam ++ competitions_0006_poomsaeenrollment ++
   competitions_0006_CreateModel_PoomsaeTeamMember ++ competitions_0006_poomsaeteam).

(** ** [competitions/migrations/0007_poomsaeenrollment_team.py] *)

Definition competitions_0007_poomsaeenrollment : list operation := [
  AddField "poomsaeenrollment" "team"
    (field (ForeignKey ("competitions", "poomsaeteam") SET_NULL) [null; blank; related_name "enrollments"])
].

Definition competitions_0007 : migration := mkMigration ("competitions", "0007_poomsaeenrollment_team")
  [("competitions", "0006_poomsaeteam_alter_poomsaeenrollment_unique_together_and_more")]
  (competitions_0007_poomsaeenrollment).

(** ** [competitions/migrations/0008_alter_poomsaeenrollment_options_and_more.py] *)

Definition competitions_0008_poomsaeenrollment : list operation := [
  AlterModelOptions "poomsaeenrollment" [];
  RemoveIndex "poomsaeenrollment" "competition_competi_9529e9_idx";
  RemoveIndex "poomsaeenrollment" "competition_coach_i_57664e_idx";
  RemoveIndex "poomsaeenrollment" "competition_club_id_cbd6c0_idx";
  RemoveIndex "poomsaeenrollment" "competition_board_i_552d0d_idx";
  RemoveIndex "poomsaeenrollment" "competition_competi_87726b_idx";
  RemoveIndex "poomsaeenrollment" "competition_discoun_97adcd_idx";
  RemoveField "poomsaeenrollment" "discount_amount";
  RemoveField "poomsaeenrollment" "discount_code";
  RemoveField "poomsaeenrollment" "discount_redeemed";
  RemoveField "poomsaeenrollment" "medal";
  RemoveField "poomsaeenrollment" "payable_amount";
  AlterField "poomsaeenrollment" "age_category"
    (field (ForeignKey ("competitions", "agecategory") PROTECT) [null; blank]);
  AlterField "poomsaeenrollment" "bank_ref_code" (field (CharField 64) [blank; default (DefaultText "")]);
  AlterField "poomsaeenrollment" "belt_group"
    (field (ForeignKey ("competitions", "beltgroup") SET_NULL) [null; blank]);
  AlterField "poomsaeenrollment" "board" (field (ForeignKey ("accounts", "tkdboard") SET_NULL) [null; blank]);
  AlterField "poomsaeenrollment" "board_name" (field (CharField 150) [blank; default (DefaultText "")]);
  AlterField "poomsaeenrollment" "club" (field (ForeignKey ("accounts", "tkdclub") SET_NULL) [null; blank]);
  AlterField "poomsaeenrollment" "club_name" (field (CharField 150) [blank; default (DefaultText "")]);
  AlterField "poomsaeenrollment" "coach"
    (field (ForeignKey ("accounts", "userprofile") SET_NULL) [null; blank; related_name "poomsae_coach_enrollments"]);
  AlterField "poomsaeenrollment" "coach_approval_code" (field (CharField 8) [blank; default (DefaultText "")]);
  AlterField "poomsaeenrollment" "coach_name" (field (CharField 150) [blank; default (DefaultText "")]);
  AlterField "poomsaeenrollment" "competition"
    (field (ForeignKey ("competitions", "poomsaecompetition") CASCADE) [related_name "enrollments"]);
  AlterField "poomsaeenrollment" "created_at" (field DateTimeField [auto_now_add]);
  AlterField "poomsaeenrollment" "insurance_issue_date" (field DateField []);
  AlterField "poomsaeenrollment" "insurance_number" (field (CharField 20) []);
  AlterField "poomsaeenrollment" "is_paid" (field BooleanField [default (DefaultBool false)]);
  AlterField "poomsaeenrollment" "mode"
    (field (CharField 8) [default (DefaultText "single"); choices ["single"; "team"]]);
  AlterField "poomsaeenrollment" "paid_amount" (field PositiveIntegerField [default (DefaultNumber 0)]);
  AlterField "poomsaeenrollment" "paid_at" (field DateTimeField [null; blank]);
  AlterField "poomsaeenrollment" "player"
    (field (ForeignKey ("accounts", "userprofile") PROTECT) [related_name "poomsae_enrollments"]);
  AlterField "poomsaeenrollment" "poomsae_type" (field (CharField 16) [choices ["standard"; "creative"]])
].

Definition competitions_0008_poomsaeenrollment_2 : list operation := [
  AlterField "poomsaeenrollment" "status" (field (CharField 20) [default (DefaultText "pending_payment")]);
  AlterField "poomsaeenrollment" "team"
    (field (ForeignKey ("competitions", "poomsaeteam") SET_NULL) [null; blank; related_name "enrollments"])
].

Definition competitions_0008 : migration := mkMigration ("competitions", "0008_alter_poomsaeenrollment_options_and_more")
  [("accounts", "0005_alter_pendingeditprofile_profile_image_and_more");
    ("competitions", "0007_poomsaeenrollment_team")]
  (competitions_0008_poomsaeenrollment ++ competitions_0008_poomsaeenrollment_2).

(** ** [competitions/migrations/0009_alter_poomsaeenrollment_unique_together_and_more.py] *)

Definition competitions_0009_poomsaeenrollment : list operation := [
  AlterUniqueTogether "poomsaeenrollment" [];
  AlterField "poomsaeenrollment" "player"
    (field (ForeignKey ("accounts", "userprofile") PROTECT) [null; blank; related_name "poomsae_enrollments"]);
  AddIndex "poomsaeenrollment" "competition_competi_3355ce_idx" ["competition"; "mode"; "poomsae_type"];
  AddIndex "poomsaeenrollment" "competition_competi_87726b_idx" ["competition"; "player"];
  AddIndex "poomsaeenrollment" "competition_competi_a8abbc_idx" ["competition"; "team"];
  AddConstraint "poomsaeenrollment" "poomsae_enrollment_mode_requires_player_or_team"
    (CheckConstraint
      (Or
        [(And [(Is "mode" "single"); (IsNull "player" false); (IsNull "team" true)]);
          (And [(Is "mode" "team"); (IsNull "player" true); (IsNull "team" false)])]));
  AddConstraint "poomsaeenrollment" "uniq_poomsae_single_per_style"
    (UniqueConstraint ["competition"; "player"; "poomsae_type"] (Some (Is "mode" "single")));
  AddConstraint "poomsaeenrollment" "uniq_poomsae_team_once"
    (UniqueConstraint ["competition"; "team"] (Some (Is "mode" "team")))
].

Definition competitions_0009 : migration := mkMigration ("competitions", "0009_alter_poomsaeenrollment_unique_together_and_more")
  [("accounts", "0005_alter_pendingeditprofile_profile_image_and_more");
    ("competitions", "0008_alter_poomsaeenrollment_options_and_more")]
  (competitions_0009_poomsaeenrollment).

(** ** [competitions/migrations/0010_poomsaecompetition_mat_count_poomsaematassignment_and_more.py] *)

Definition competitions_0010_poomsaecompetition : list operation := [
  AddField "poomsaecompetition" "mat_count" (field PositiveIntegerField [default (DefaultNumber 1)])
].

Definition competitions_0010_CreateModel_PoomsaeMatAssignment : list operation := [
  CreateModel "PoomsaeMatAssignment" [
    ("id", field BigAutoField [primary_key]);
    ("mat_number", field PositiveIntegerField []);
    ("belt_groups", field (ManyToManyField ("competitions", "beltgroup"))
      [blank; related_name "poomsae_mat_assignments"]);
    ("competition", field (ForeignKey ("competitions", "poomsaecompetition") CASCADE)
      [related_name "mat_assignments"])
  ] [indexes [("competition_competi_c2e903_idx", ["competition"; "mat_number"])]]
].

Definition competitions_0010_poomsaematassignment : list operation := [
  AddConstraint "poomsaematassignment" "uniq_poomsae_mat_per_competition"
    (UniqueConstraint ["competition"; "mat_number"] None)
].

Definition competitions_0010 : migration := mkMigration ("competitions", "0010_poomsaecompetition_mat_count_poomsaematassignment_and_more")
  [("competitions", "0009_alter_poomsaeenrollment_unique_together_and_more")]
  (competitions_0010_poomsaecompetition ++ competitions_0010_CreateModel_PoomsaeMatAssignment ++
   competitions_0010_poomsaematassignment).

(** ** [competitions/migrations/0011_groupregistrationpayment.py] *)

Definition competitions_0011_CreateModel_GroupRegistrationPayment : list operation := [
  CreateModel "GroupRegistrationPayment" [
    ("id", field BigAutoField [primary_key]);
    ("payload", field JSONField []);
    ("total_amount", field PositiveIntegerField []);
    ("is_paid", field BooleanField [default (DefaultBool false)]);
    ("bank_ref_code", field (CharField 64) [null; blank]);
    ("created_at", field DateTimeField [auto_now_add]);
    ("coach", field (ForeignKey ("accounts", "userprofile") CASCADE) [related_name "group_payments"]);
    ("competition", field (ForeignKey ("competitions", "kyorugicompetition") CASCADE) [related_name "group_payments"])
  ] []
].

Definition competitions_0011 : migration := mkMigration ("competitions", "0011_groupregistrationpayment")
  [("accounts", "0005_alter_pendingeditprofile_profile_image_and_more");
    ("competitions", "0010_poomsaecompetition_mat_count_poomsaematassignment_and_more")]
  (competitions_0011_CreateModel_GroupRegistrationPayment).

(** ** [competitions/migrations/0012_enrollment_enrollments_created.py] *)

Definition competitions_0012_enrollment : list operation := [
  AddField "enrollment" "enrollments_created" (field BooleanField [default (DefaultBool false)])
].

Definition competitions_0012 : migration := mkMigration ("competitions", "0012_enrollment_enrollments_created")
  [("competitions", "0011_groupregistrationpayment")]
  (competitions_0012_enrollment).

(** ** [competitions/migrations/0013_seminarregistration_bank_ref_code_and_more.py] *)

Definition competitions_0013_seminarregistration : list operation := [
  AddField "seminarregistration" "bank_ref_code" (field (CharField 64) [blank; default (DefaultText "")])
].

Definition competitions_0013_kyorugicompetition : list operation := [
  AlterField "kyorugicompetition" "entry_fee" (field PositiveIntegerField [default (DefaultNumber 0)])
].

Definition competitions_0013_poomsaecompetition : list operation := [
  AlterField "poomsaecompetition" "entry_fee" (field PositiveIntegerField [default (DefaultNumber 0)])
].

Definition competitions_0013_seminar : list operation := [
  AlterField "seminar" "fee" (field PositiveIntegerField [default (DefaultNumber 0)])
].

Definition competitions_0013_seminarregistration_2 : list operation := [
  AlterField "seminarregistration" "discount_amount" (field PositiveIntegerField [default (DefaultNumber 0)]);
  AlterField "seminarregistration" "paid_amount" (field PositiveIntegerField [default (DefaultNumber 0)]);
  AlterField "seminarregistration" "payable_amount" (field PositiveIntegerField [default (DefaultNumber 0)])
].

Definition competitions_0013 : migration := mkMigration ("competitions", "0013_seminarregistration_bank_ref_code_and_more")
  [("competitions", "0012_enrollment_enrollments_created")]
  (competitions_0013_seminarregistration ++ competitions_0013_kyorugicompetition ++
   competitions_0013_poomsaecompetition ++ competitions_0013_seminar ++ competitions_0013_seminarregistration_2).

Definition competitions_migrations : list migration := [
  competitions_0001; competitions_0002; competitions_0003; competitions_0004; competitions_0005; competitions_0006;
  competitions_0007; competitions_0008; competitions_0009; competitions_0010; competitions_0011; competitions_0012;
  competitions_0013].
