(* ===== verification/MigrationsRest.v ===== *)
(** The migrations of [src/main/migrations/], [src/payments/migrations/], [src/apps/discounts/migrations/] and
    [src/reports/migrations/]. *)

From S2P Require Import Prelude Schema.
Local Open Scope string_scope.

(** ** [main/migrations/0001_initial.py] *)

Definition main_0001_CreateModel_Circular : list operation := [
  CreateModel "Circular" [
    ("id", field BigAutoField [primary_key]);
    ("title", field (CharField 200) []);
    ("content", field TextField []);
    ("thumbnail", field ImageField []);
    ("created_at", field DateTimeField [auto_now_add]);
    ("published", field BooleanField [default (DefaultBool false)]);
    ("author", field (ForeignKey ("auth", "user") SET_NULL) [null])
  ] [ordering ["-created_at"]]
].

Definition main_0001_CreateModel_HeaderBackground : list operation := [
  CreateModel "HeaderBackground" [
    ("id", field BigAutoField [primary_key]);
    ("background_image", field ImageField []);
    ("created_at", field DateTimeField [auto_now_add])
  ] []
].

Definition main_0001_CreateModel_News : list operation := [
  CreateModel "News" [
    ("id", field BigAutoField [primary_key]);
    ("title", field (CharField 200) []);
    ("content", field TextField []);
    ("image", field ImageField []);
    ("created_at", field DateTimeField [auto_now_add]);
    ("published", field BooleanField [default (DefaultBool false)]);
    ("author", field (ForeignKey ("auth", "user") SET_NULL) [null]);
    ("board", field (ForeignKey ("accounts", "tkdboard") SET_NULL) [null; blank; related_name "news"])
  ] [ordering ["-created_at"]]
].

Definition main_0001_CreateModel_SliderImage : list operation := [
  CreateModel "SliderImage" [
    ("id", field BigAutoField [primary_key]);
    ("image", field ImageField []);
    ("title", field (CharField 100) [null; blank]);
    ("order", field PositiveIntegerField [default (DefaultNumber 0)]);
    ("created_at", field DateTimeField [auto_now_add])
  ] [ordering ["order"]]
].

Definition main_0001_CreateModel_NewsImage : list operation := [
  CreateModel "NewsImage" [
    ("id", field BigAutoField [primary_key]);
    ("image", field ImageField []);
    ("news", field (ForeignKey ("main", "news") CASCADE) [related_name "images"])
  ] []
].

Definition main_0001_CreateModel_CircularImage : list operation := [
  CreateModel "CircularImage" [
    ("id", field BigAutoField [primary_key]);
    ("image", field ImageField []);
    ("circular", field (ForeignKey ("main", "circular") CASCADE) [related_name "images"])
  ] []
].

Definition main_0001_CreateModel_CircularAttachment : list operation := [
  CreateModel "CircularAttachment" [
    ("id", field BigAutoField [primary_key]);
    ("file", field FileField []);
    ("circular", field (ForeignKey ("main", "circular") CASCADE) [related_name "attachments"])
  ] []
].

Definition main_0001 : migration := mkMigration ("main", "0001_initial")
  [("accounts", "0001_initial")]
  (main_0001_CreateModel_Circular ++ main_0001_CreateModel_HeaderBackground ++ main_0001_CreateModel_News ++
   main_0001_CreateModel_SliderImage ++ main_0001_CreateModel_NewsImage ++ main_0001_CreateModel_CircularImage ++
   main_0001_CreateModel_CircularAttachment).

Definition main_migrations : list migration := [
  main_0001].

(** ** [payments/migrations/0001_initial.py] *)

Definition payments_0001_CreateModel_PaymentIntent : list operation := [
  CreateModel "PaymentIntent" [
    ("id", field BigAutoField [primary_key]);
    ("public_id", field (CharField 16) [unique; db_index; default (DefaultCall "_gen_public_id")]);
    ("gateway", field (CharField 20) [default (DefaultText "fake"); choices ["sadad"; "fake"]]);
    ("status", field (CharField 20)
      [default (DefaultText "initiated"); choices ["initiated"; "redirected"; "paid"; "failed"]]);
    ("amount", field PositiveIntegerField [default (DefaultNumber 0)]);
    ("description", field (CharField 255) [blank; default (DefaultText "")]);
    ("callback_url", field URLField [blank; default (DefaultText "")]);
    ("token", field (CharField 128) [blank; default (DefaultText "")]);
    ("ref_id", field (CharField 64) [blank; default (DefaultText "")]);
    ("card_pan", field (CharField 64) [blank; default (DefaultText "")]);
    ("extra", field JSONField [blank; default (DefaultCall "dict")]);
    ("initiator_ip", field GenericIPAddressField [null; blank]);
    ("user_agent", field (CharField 255) [blank; default (DefaultText "")]);
    ("created_at", field DateTimeField [auto_now_add]);
    ("updated_at", field DateTimeField [auto_now]);
    ("competition", field (ForeignKey ("competitions", "kyorugicompetition") SET_NULL)
      [null; blank; related_name "payment_intents"]);
    ("user", field (ForeignKey ("auth", "user") SET_NULL) [null; blank; related_name "payment_intents"])
  ] [ordering ["-created_at"]; indexes [("payments_pa_status_f8bf5e_idx", ["status"]); ("payments_pa_token_8c4599_idx", ["token"]); ("payments_pa_created_8a067b_idx", ["created_at"])]]
].

Definition payments_0001 : migration := mkMigration ("payments", "0001_initial")
  [("competitions", "0001_initial")]
  (payments_0001_CreateModel_PaymentIntent).

(** ** [payments/migrations/0002_auto_20251101_1539.py] *)

Definition payments_0002_paymentintent : list operation := [
  AddField "paymentintent" "kyorugi_enrollment"
    (field (ForeignKey ("competitions", "enrollment") SET_NULL) [null; blank; related_name "payment_intents"]);
  AddField "paymentintent" "poomsae_enrollment"
    (field (ForeignKey ("competitions", "poomsaeenrollment") SET_NULL) [null; blank; related_name "payment_intents"]);
  AddField "paymentintent" "seminar_registration"
    (field (ForeignKey ("competitions", "seminarregistration") SET_NULL)
      [null; blank; related_name "payment_intents"]);
  AlterField "paymentintent" "amount" (field PositiveIntegerField [default (DefaultNumber 0)]);
  AlterField "paymentintent" "gateway"
    (field (CharField 20) [default (DefaultText "sadad"); choices ["sadad"; "fake"]])
].

Definition payments_0002 : migration := mkMigration ("payments", "0002_auto_20251101_1539")
  [("competitions", "0001_initial"); ("payments", "0001_initial")]
  (payments_0002_paymentintent).

(** ** [payments/migrations/0003_paymentintent_payments_at_most_one_target_fk.py] *)

Definition payments_0003_paymentintent : list operation := [
  AddConstraint "paymentintent" "payments_at_most_one_target_fk"
    (CheckConstraint
      (Or
        [(And [(IsNull "kyorugi_enrollment" true); (IsNull "poomsae_enrollment" true)]);
          (And [(IsNull "kyorugi_enrollment" true); (IsNull "seminar_registration" true)]);
          (And [(IsNull "poomsae_enrollment" true); (IsNull "seminar_registration" true)])]))
].

Definition payments_0003 : migration := mkMigration ("payments", "0003_paymentintent_payments_at_most_one_target_fk")
  [("payments", "0002_auto_20251101_1539")]
  (payments_0003_paymentintent).

(** ** [payments/migrations/0004_alter_paymentintent_gateway.py] *)

Definition payments_0004_paymentintent : list operation := [
  AlterField "paymentintent" "gateway"
    (field (CharField 20) [default (DefaultText "sadad"); choices ["sadad"; "fake"; "dummy"]])
].

Definition payments_0004 : migration := mkMigration ("payments", "0004_alter_paymentintent_gateway")
  [("payments", "0003_paymentintent_payments_at_most_one_target_fk")]
  (payments_0004_paymentintent).

(** ** [payments/migrations/0005_paymentintent_discount_amount_and_more.py] *)

Definition payments_0005_paymentintent : list operation := [
  AddField "paymentintent" "discount_amount" (field PositiveIntegerField [default (DefaultNumber 0)]);
  AddField "paymentintent" "discount_code"
    (field (ForeignKey ("competitions", "discountcode") SET_NULL) [null; blank; related_name "payment_intents"]);
  AddField "paymentintent" "original_amount" (field PositiveIntegerField [default (DefaultNumber 0)])
].

Definition payments_0005 : migration := mkMigration ("payments", "0005_paymentintent_discount_amount_and_more")
  [("competitions", "0004_discountcode"); ("payments", "0004_alter_paymentintent_gateway")]
  (payments_0005_paymentintent).

(** ** [payments/migrations/0006_paymentintent_payment_link_expires_at_and_more.py] *)

Definition payments_0006_paymentintent : list operation := [
  AddField "paymentintent" "payment_link_expires_at" (field DateTimeField [null; blank]);
  AddField "paymentintent" "payment_link_token" (field (CharField 128) [blank; db_index; default (DefaultText "")])
].

Definition payments_0006 : migration := mkMigration ("payments", "0006_paymentintent_payment_link_expires_at_and_more")
  [("payments", "0005_paymentintent_discount_amount_and_more")]
  (payments_0006_paymentintent).

(** ** [payments/migrations/0007_paymentintent_kyorugi_enrollments.py] *)

Definition payments_0007_paymentintent : list operation := [
  AddField "paymentintent" "kyorugi_enrollments"
    (field (ManyToManyField ("competitions", "enrollment")) [blank; related_name "bulk_payment_intents"])
].

Definition payments_0007 : migration := mkMigration ("payments", "0007_paymentintent_kyorugi_enrollments")
  [("competitions", "0012_enrollment_enrollments_created");
    ("payments", "0006_paymentintent_payment_link_expires_at_and_more")]
  (payments_0007_paymentintent).

(** ** [payments/migrations/0008_remove_paymentintent_payments_at_most_one_target_fk_and_more.py] *)

Definition payments_0008_paymentintent : list operation := [
  RemoveConstraint "paymentintent" "payments_at_most_one_target_fk";
  AlterField "paymentintent" "gateway"
    (field (CharField 20) [default (DefaultText "sadad"); choices ["sadad"; "bmi"; "fake"; "dummy"]]);
  AddConstraint "paymentintent" "payments_at_most_one_target_fk"
    (CheckConstraint
      (Or
        [(And
          [(IsNull "kyorugi_enrollment" true); (IsNull "poomsae_enrollment" true);
            (IsNull "seminar_registration" true)]);
          (And
            [(IsNull "kyorugi_enrollment" false); (IsNull "poomsae_enrollment" true);
              (IsNull "seminar_registration" true)]);
          (And
            [(IsNull "kyorugi_enrollment" true); (IsNull "poomsae_enrollment" false);
              (IsNull "seminar_registration" true)]);
          (And
            [(IsNull "kyorugi_enrollment" true); (IsNull "poomsae_enrollment" true);
              (IsNull "seminar_registration" false)])]))
].

Definition payments_0008 : migration := mkMigration ("payments", "0008_remove_paymentintent_payments_at_most_one_target_fk_and_more")
  [("payments", "0007_paymentintent_kyorugi_enrollments")]
  (payments_0008_paymentintent).

Definition payments_migrations : list migration := [
  payments_0001; payments_0002; payments_0003; payments_0004; payments_0005; payments_0006; payments_0007;
  payments_0008].

(** ** [apps/discounts/migrations/0001_initial.py] *)

Definition discounts_0001_CreateModel_DiscountCode : list operation := [
  CreateModel "DiscountCode" [
    ("id", field BigAutoField [primary_key]);
    ("code", field (CharField 50) [unique]);
    ("amount", field PositiveIntegerField []);
    ("capacity", field PositiveIntegerField [default (DefaultNumber 1)]);
    ("used_count", field PositiveIntegerField [default (DefaultNumber 0)]);
    ("is_active", field BooleanField [default (DefaultBool true)]);
    ("created_at", field DateTimeField [auto_now_add])
  ] []
].

Definition discounts_0001 : migration := mkMigration ("discounts", "0001_initial")
  []
  (discounts_0001_CreateModel_DiscountCode).

(** ** [apps/discounts/migrations/0002_discountcode_target_id_discountcode_target_type.py] *)

Definition discounts_0002_discountcode : list operation := [
  AddField "discountcode" "target_id" (field PositiveIntegerField [null; blank; db_index]);
  AddField "discountcode" "target_type"
    (field (CharField 20) [null; blank; db_index; choices ["competition"; "seminar"]])
].

Definition discounts_0002 : migration := mkMigration ("discounts", "0002_discountcode_target_id_discountcode_target_type")
  [("discounts", "0001_initial")]
  (discounts_0002_discountcode).

Definition discounts_migrations : list migration := [
  discounts_0001; discounts_0002].

(** ** [reports/migrations/0001_initial.py] *)

Definition reports_0001_CreateModel_ReportCenter : list operation := [
  CreateProxy "ReportCenter" ("accounts", "userprofile")
].

Definition reports_0001 : migration := mkMigration ("reports", "0001_initial")
  [("accounts", "0001_initial")]
  (reports_0001_CreateModel_ReportCenter).

Definition reports_migrations : list migration := [
  reports_0001].
