(* ===== verification/Models.v ===== *)
(** What the classes of [*/models.py] declare. A class lists its fields and the options of its [Meta]; the key
    [id] and the names of its indexes are made by the framework, so indexes are compared by their columns.
    Fields that several classes inherit from an abstract one stand in that one. *)

From stdpp Require Import pretty.
From S2P Require Import Prelude Schema.
Local Open Scope string_scope.

(** ** Classes and their shape *)

Inductive meta_option :=
| meta_ordering (l : list string) | meta_unique_together (l : list (list string)) | meta_indexes (l : list (list string))
| meta_constraints (l : list (string * constraint)).

Inductive model :=
| Model (key : model_key) (fields : list (string * column)) (Meta : list meta_option)
| Proxy (key base : model_key).

Definition model_name (m : model) : model_key := match m with Model k _ _ | Proxy k _ => k end.

(** A table without the names of its indexes. *)
Record shape := mkShape {
  sh_columns : gmap string column;
  sh_ordering : list string;
  sh_unique_together : gset (list string);
  sh_indexes : gset (list string);
  sh_constraints : gmap string constraint;
  sh_proxy_of : option model_key;
}.

#[export] Instance shape_eq_dec : EqDecision shape.
Proof. solve_decision. Defined.

Definition shape_of (t : table) : shape :=
  mkShape (columns t) (table_ordering t) (list_to_set (table_unique_together t))
    (list_to_set (snd <$> map_to_list (table_indexes t))) (table_constraints t) (proxy_of t).

Definition set_meta (s : shape) (o : meta_option) : shape :=
  let '(mkShape c ord u i k p) := s in
  match o with
  | meta_ordering l => mkShape c l u i k p
  | meta_unique_together l => mkShape c ord (list_to_set l) i k p
  | meta_indexes l => mkShape c ord u (list_to_set l) k p
  | meta_constraints l => mkShape c ord u i (list_to_map l) p
  end.

(** [DEFAULT_AUTO_FIELD]: the key of a class that names none. *)
Definition with_id (fs : list (string * column)) : list (string * column) :=
  if existsb (λ nc, co_primary_key nc.2) fs then fs else ("id", field BigAutoField [primary_key]) :: fs.

Definition model_shape (m : model) : shape :=
  match m with
  | Model _ fs options => foldl set_meta (mkShape (list_to_map (with_id fs)) [] ∅ ∅ ∅ None) options
  | Proxy _ base => mkShape ∅ [] ∅ ∅ ∅ (Some base)
  end.

(** ** [src/accounts/models.py] *)

Definition accounts_TkdBoard : model := Model ("accounts", "tkdboard") [
    ("name", field (CharField 100) []);
    ("province", field (CharField 100) []);
    ("city", field (CharField 100) []);
    ("user", field (OneToOneField ("auth", "user") CASCADE) [null; blank]);
    ("ranking_total", field FloatField [default (DefaultNumber 0)])
  ]
  [].

Definition accounts_TkdClub_CLUB_TYPE_CHOICES : list string := ["private"; "governmental"; "other"].

Definition accounts_TkdClub : model := Model ("accounts", "tkdclub") [
    ("club_name", field (CharField 100) []);
    ("founder_name", field (CharField 100) []);
    ("founder_national_code", field (CharField 10) []);
    ("founder_phone", field (CharField 11) [db_index]);
    ("province", field (CharField 100) []);
    ("county", field (CharField 100) []);
    ("city", field (CharField 100) []);
    ("tkd_board", field (ForeignKey ("accounts", "tkdboard") SET_NULL) [null; related_name "clubs"]);
    ("license_number", field (CharField 100) []);
    ("federation_id", field (CharField 100) []);
    ("club_type", field (CharField 20) [choices accounts_TkdClub_CLUB_TYPE_CHOICES]);
    ("phone", field (CharField 11) []);
    ("address", field TextField []);
    ("activity_description", field TextField [null; blank]);
    ("license_image", field ImageField []);
    ("confirm_info", field BooleanField [default (DefaultBool false)]);
    ("coach_count", field PositiveIntegerField [default (DefaultNumber 0)]);
    ("student_count", field PositiveIntegerField [default (DefaultNumber 0)]);
    ("matches_participated", field PositiveIntegerField [default (DefaultNumber 0)]);
    ("gold_medals", field PositiveIntegerField [default (DefaultNumber 0)]);
    ("silver_medals", field PositiveIntegerField [default (DefaultNumber 0)]);
    ("bronze_medals", field PositiveIntegerField [default (DefaultNumber 0)]);
    ("ranking_competition", field FloatField [default (DefaultNumber 0)]);
    ("ranking_total", field FloatField [default (DefaultNumber 0)]);
    ("created_at", field DateTimeField [auto_now_add]);
    ("user", field (OneToOneField ("auth", "user") CASCADE) [null; blank])
  ]
  [meta_constraints [("uniq_club_name_city", UniqueConstraint ["club_name"; "city"] None)]].

Definition accounts_PendingClub : model := Model ("accounts", "pendingclub") [
    ("club_name", field (CharField 100) []);
    ("founder_name", field (CharField 100) []);
    ("founder_national_code", field (CharField 10) []);
    ("founder_phone", field (CharField 11) []);
    ("club_type", field (CharField 20) [choices ["private"; "governmental"; "other"]]);
    ("activity_description", field TextField [null; blank]);
    ("province", field (CharField 100) []);
    ("county", field (CharField 100) []);
    ("city", field (CharField 100) []);
    ("tkd_board", field (ForeignKey ("accounts", "tkdboard") SET_NULL) [null; related_name "pending_clubs"]);
    ("tkd_board_name", field (CharField 100) [blank]);
    ("phone", field (CharField 11) []);
    ("address", field TextField []);
    ("license_number", field (CharField 100) []);
    ("federation_id", field (CharField 100) []);
    ("license_image", field ImageField []);
    ("confirm_info", field BooleanField [default (DefaultBool false)]);
    ("submitted_at", field DateTimeField [auto_now_add])
  ]
  [meta_constraints [("uniq_pending_club_name_city", UniqueConstraint ["club_name"; "city"] None)]].

Definition accounts_UserProfile_ROLE_CHOICES : list string := ["player"; "coach"; "referee"; "both"].

Definition accounts_UserProfile_GENDER_CHOICES : list string := ["male"; "female"].

Definition accounts_UserProfile_BELT_CHOICES : list string := (["سفید"; "زرد"; "سبز"; "آبی"; "قرمز"] ++
  ((λ i, "مشکی دان " ++ pretty i)%string <$> seqZ 1 10))%list.

Definition accounts_UserProfile_DEGREE_CHOICES : list string := ["درجه یک"; "درجه دو"; "درجه سه"; "ممتاز"].

Definition accounts_UserProfile : model := Model ("accounts", "userprofile") [
    ("user", field (OneToOneField ("auth", "user") CASCADE) [null; blank; related_name "profile"]);
    ("first_name", field (CharField 50) []);
    ("last_name", field (CharField 50) []);
    ("father_name", field (CharField 50) []);
    ("national_code", field (CharField 10) [unique]);
    ("birth_date", field (CharField 10) []);
    ("gender", field (CharField 10) [choices accounts_UserProfile_GENDER_CHOICES]);
    ("phone", field (CharField 11) [unique; db_index]);
    ("role", field (CharField 10) [default (DefaultText "player"); choices accounts_UserProfile_ROLE_CHOICES]);
    ("profile_image", field ImageField []);
    ("address", field TextField []);
    ("province", field (CharField 50) []);
    ("county", field (CharField 50) []);
    ("city", field (CharField 50) []);
    ("tkd_board", field (ForeignKey ("accounts", "tkdboard") SET_NULL) [null]);
    ("tkd_board_name", field (CharField 255) [blank]);
    ("coach", field (ForeignKey ("accounts", "userprofile") SET_NULL) [null; blank; related_name "students"]);
    ("coach_name", field (CharField 255) [blank]);
    ("club", field (ForeignKey ("accounts", "tkdclub") SET_NULL) [null; blank; related_name "members"]);
    ("club_names", field JSONField [blank; default (DefaultCall "list")]);
    ("coaching_clubs", field (ManyToManyField ("accounts", "tkdclub")) [blank; related_name "coaches"]);
    ("belt_grade", field (CharField 20) [choices accounts_UserProfile_BELT_CHOICES]);
    ("belt_certificate_number", field (CharField 50) []);
    ("belt_certificate_date", field (CharField 10) []);
    ("is_coach", field BooleanField [default (DefaultBool false)]);
    ("coach_level", field (CharField 20) [null; blank; choices accounts_UserProfile_DEGREE_CHOICES]);
    ("coach_level_International", field (CharField 20) [null; blank; choices accounts_UserProfile_DEGREE_CHOICES]);
    ("is_referee", field BooleanField [default (DefaultBool false)]);
    ("kyorogi", field BooleanField [default (DefaultBool false)]);
    ("kyorogi_level", field (CharField 20) [null; blank; choices accounts_UserProfile_DEGREE_CHOICES]);
    ("kyorogi_level_International", field (CharField 20) [null; blank; choices accounts_UserProfile_DEGREE_CHOICES]);
    ("poomseh", field BooleanField [default (DefaultBool false)]);
    ("poomseh_level", field (CharField 20) [null; blank; choices accounts_UserProfile_DEGREE_CHOICES]);
    ("poomseh_level_International", field (CharField 20) [null; blank; choices accounts_UserProfile_DEGREE_CHOICES]);
    ("hanmadang", field BooleanField [default (DefaultBool false)]);
    ("hanmadang_level", field (CharField 20) [null; blank; choices accounts_UserProfile_DEGREE_CHOICES]);
    ("hanmadang_level_International", field (CharField 20) [null; blank; choices accounts_UserProfile_DEGREE_CHOICES]);
    ("match_count", field PositiveIntegerField [default (DefaultNumber 0)]);
    ("seminar_count", field PositiveIntegerField [default (DefaultNumber 0)]);
    ("gold_medals", field PositiveIntegerField [default (DefaultNumber 0)]);
    ("silver_medals", field PositiveIntegerField [default (DefaultNumber 0)]);
    ("bronze_medals", field PositiveIntegerField [default (DefaultNumber 0)]);
    ("gold_medals_country", field PositiveIntegerField [default (DefaultNumber 0)]);
    ("silver_medals_country", field PositiveIntegerField [default (DefaultNumber 0)]);
    ("bronze_medals_country", field PositiveIntegerField [default (DefaultNumber 0)]);
    ("gold_medals_int", field PositiveIntegerField [default (DefaultNumber 0)]);
    ("silver_medals_int", field PositiveIntegerField [default (DefaultNumber 0)]);
    ("bronze_medals_int", field PositiveIntegerField [default (DefaultNumber 0)]);
    ("ranking_competition", field FloatField [default (DefaultNumber 0)]);
    ("ranking_total", field FloatField [default (DefaultNumber 0)]);
    ("confirm_info", field BooleanField [default (DefaultBool false)]);
    ("created_at", field DateTimeField [auto_now_add])
  ]
  [].

Definition accounts_PendingUserProfile : model := Model ("accounts", "pendinguserprofile") [
    ("first_name", field (CharField 50) []);
    ("last_name", field (CharField 50) []);
    ("father_name", field (CharField 50) []);
    ("national_code", field (CharField 10) [unique]);
    ("birth_date", field (CharField 10) []);
    ("phone", field (CharField 11) [unique]);
    ("role", field (CharField 10) [default (DefaultText "player"); choices accounts_UserProfile_ROLE_CHOICES]);
    ("gender", field (CharField 10) [choices accounts_UserProfile_GENDER_CHOICES]);
    ("address", field TextField []);
    ("province", field (CharField 50) []);
    ("county", field (CharField 50) []);
    ("city", field (CharField 50) []);
    ("tkd_board", field (ForeignKey ("accounts", "tkdboard") SET_NULL) [null]);
    ("tkd_board_name", field (CharField 255) [blank]);
    ("profile_image", field ImageField []);
    ("belt_grade", field (CharField 20) [choices accounts_UserProfile_BELT_CHOICES]);
    ("belt_certificate_number", field (CharField 50) []);
    ("belt_certificate_date", field (CharField 10) []);
    ("coach_name", field (CharField 255) [blank]);
    ("club_names", field JSONField [blank; default (DefaultCall "list")]);
    ("is_coach", field BooleanField [default (DefaultBool false)]);
    ("coach_level", field (CharField 20) [null; blank; choices accounts_UserProfile_DEGREE_CHOICES]);
    ("coach_level_International", field (CharField 20) [null; blank; choices accounts_UserProfile_DEGREE_CHOICES]);
    ("is_referee", field BooleanField [default (DefaultBool false)]);
    ("kyorogi", field BooleanField [default (DefaultBool false)]);
    ("poomseh", field BooleanField [default (DefaultBool false)]);
    ("hanmadang", field BooleanField [default (DefaultBool false)]);
    ("kyorogi_level", field (CharField 20) [null; blank; choices accounts_UserProfile_DEGREE_CHOICES]);
    ("kyorogi_level_International", field (CharField 20) [null; blank; choices accounts_UserProfile_DEGREE_CHOICES]);
    ("poomseh_level", field (CharField 20) [null; blank; choices accounts_UserProfile_DEGREE_CHOICES]);
    ("poomseh_level_International", field (CharField 20) [null; blank; choices accounts_UserProfile_DEGREE_CHOICES]);
    ("hanmadang_level", field (CharField 20) [null; blank; choices accounts_UserProfile_DEGREE_CHOICES]);
    ("hanmadang_level_International", field (CharField 20) [null; blank; choices accounts_UserProfile_DEGREE_CHOICES]);
    ("coaching_clubs", field (ManyToManyField ("accounts", "tkdclub")) [blank; related_name "pending_coaches"]);
    ("confirm_info", field BooleanField [default (DefaultBool false)]);
    ("coach", field (ForeignKey ("accounts", "userprofile") SET_NULL) [null; blank; related_name "pending_students"]);
    ("club", field (ForeignKey ("accounts", "tkdclub") SET_NULL) [null; blank; related_name "pending_members"]);
    ("submitted_at", field DateTimeField [auto_now_add])
  ]
  [].

Definition accounts_PendingEditProfile : model := Model ("accounts", "pendingeditprofile") [
    ("original_user", field (OneToOneField ("accounts", "userprofile") CASCADE) [related_name "edit_request"]);
    ("first_name", field (CharField 50) []);
    ("last_name", field (CharField 50) []);
    ("father_name", field (CharField 50) []);
    ("national_code", field (CharField 10) [unique]);
    ("birth_date", field (CharField 10) []);
    ("phone", field (CharField 11) [unique]);
    ("role", field (CharField 10) [default (DefaultText "player"); choices accounts_UserProfile_ROLE_CHOICES]);
    ("gender", field (CharField 10) [choices accounts_UserProfile_GENDER_CHOICES]);
    ("address", field TextField []);
    ("province", field (CharField 50) []);
    ("county", field (CharField 50) []);
    ("city", field (CharField 50) []);
    ("tkd_board", field (ForeignKey ("accounts", "tkdboard") SET_NULL) [null]);
    ("tkd_board_name", field (CharField 255) [blank]);
    ("profile_image", field ImageField [null; blank]);
    ("belt_grade", field (CharField 20) [choices accounts_UserProfile_BELT_CHOICES]);
    ("belt_certificate_number", field (CharField 50) []);
    ("belt_certificate_date", field (CharField 10) []);
    ("coach_name", field (CharField 255) [blank]);
    ("club_names", field JSONField [blank; default (DefaultCall "list")]);
    ("is_coach", field BooleanField [default (DefaultBool false)]);
    ("coach_level", field (CharField 20) [null; blank; choices accounts_UserProfile_DEGREE_CHOICES]);
    ("coach_level_International", field (CharField 20) [null; blank; choices accounts_UserProfile_DEGREE_CHOICES]);
    ("is_referee", field BooleanField [default (DefaultBool false)]);
    ("kyorogi", field BooleanField [default (DefaultBool false)]);
    ("poomseh", field BooleanField [default (DefaultBool false)]);
    ("hanmadang", field BooleanField [default (DefaultBool false)]);
    ("kyorogi_level", field (CharField 20) [null; blank; choices accounts_UserProfile_DEGREE_CHOICES]);
    ("kyorogi_level_International", field (CharField 20) [null; blank; choices accounts_UserProfile_DEGREE_CHOICES]);
    ("poomseh_level", field (CharField 20) [null; blank; choices accounts_UserProfile_DEGREE_CHOICES]);
    ("poomseh_level_International", field (CharField 20) [null; blank; choices accounts_UserProfile_DEGREE_CHOICES]);
    ("hanmadang_level", field (CharField 20) [null; blank; choices accounts_UserProfile_DEGREE_CHOICES]);
    ("hanmadang_level_International", field (CharField 20) [null; blank; choices accounts_UserProfile_DEGREE_CHOICES]);
    ("confirm_info", field BooleanField [default (DefaultBool false)]);
    ("coach", field (ForeignKey ("accounts", "userprofile") SET_NULL)
      [null; blank; related_name "pending_edit_students"]);
    ("club", field (ForeignKey ("accounts", "tkdclub") SET_NULL) [null; blank; related_name "pending_edit_members"]);
    ("coaching_clubs", field (ManyToManyField ("accounts", "tkdclub")) [blank; related_name "pending_edit_coaches"]);
    ("submitted_at", field DateTimeField [auto_now_add])
  ]
  [].

Definition accounts_ProfileChangeHistory : model := Model ("accounts", "profilechangehistory") [
    ("user_profile", field (ForeignKey ("accounts", "userprofile") CASCADE) []);
    ("field_name", field (CharField 100) []);
    ("old_value", field TextField []);
    ("new_value", field TextField []);
    ("changed_at", field DateTimeField [auto_now_add])
  ]
  [].

Definition accounts_ApprovedPlayer : model := Proxy ("accounts", "approvedplayer") ("accounts", "userprofile").

Definition accounts_ApprovedCoach : model := Proxy ("accounts", "approvedcoach") ("accounts", "userprofile").

Definition accounts_ApprovedReferee : model := Proxy ("accounts", "approvedreferee") ("accounts", "userprofile").

Definition accounts_PendingPlayer : model := Proxy ("accounts", "pendingplayer") ("accounts", "pendinguserprofile").

Definition accounts_PendingCoach : model := Proxy ("accounts", "pendingcoach") ("accounts", "pendinguserprofile").

Definition accounts_PendingReferee : model := Proxy ("accounts", "pendingreferee") ("accounts", "pendinguserprofile").

Definition accounts_SMSVerification : model := Model ("accounts", "smsverification") [
    ("phone", field (CharField 11) []);
    ("code", field (CharField 4) []);
    ("created_at", field DateTimeField [auto_now_add])
  ]
  [].

Definition accounts_CoachClubRequest_STATUS_CHOICES : list string := ["pending"; "accepted"; "rejected"].

Definition accounts_CoachClubRequest_REQUEST_TYPE_CHOICES : list string := ["add"; "remove"].

Definition accounts_CoachClubRequest : model := Model ("accounts", "coachclubrequest") [
    ("coach", field (ForeignKey ("accounts", "userprofile") CASCADE) [related_name "club_requests"]);
    ("club", field (ForeignKey ("accounts", "tkdclub") CASCADE) []);
    ("request_type", field (CharField 10) [choices accounts_CoachClubRequest_REQUEST_TYPE_CHOICES]);
    ("status", field (CharField 10) [default (DefaultText "pending"); choices accounts_CoachClubRequest_STATUS_CHOICES]);
    ("created_at", field DateTimeField [auto_now_add])
  ]
  [meta_unique_together [["coach"; "club"; "request_type"]]].

Definition accounts_models : list model := [
  accounts_TkdBoard; accounts_TkdClub; accounts_PendingClub; accounts_UserProfile; accounts_PendingUserProfile;
    accounts_PendingEditProfile; accounts_ProfileChangeHistory; accounts_ApprovedPlayer; accounts_ApprovedCoach;
    accounts_ApprovedReferee; accounts_PendingPlayer; accounts_PendingCoach; accounts_PendingReferee;
    accounts_SMSVerification; accounts_CoachClubRequest].

(** ** [src/competitions/models.py], [src/competitions/admin.py] *)

Definition competitions_RegistrationManualMixin_fields : list (string * column) := [
  ("registration_manual", field BooleanField [null; blank; default (DefaultNone)])
].

Definition competitions_AgeCategory : model := Model ("competitions", "agecategory") [
    ("name", field (CharField 100) []);
    ("from_date", field DateField []);
    ("to_date", field DateField [])
  ]
  [].

Definition competitions_Belt : model := Model ("competitions", "belt") [
    ("name", field (CharField 50) [])
  ]
  [].

Definition competitions_BeltGroup : model := Model ("competitions", "beltgroup") [
    ("label", field (CharField 100) []);
    ("belts", field (ManyToManyField ("competitions", "belt")) [])
  ]
  [].

Definition competitions_TermsTemplate : model := Model ("competitions", "termstemplate") [
    ("title", field (CharField 200) []);
    ("content", field TextField [])
  ]
  [].

Definition competitions_WeightCategory_GENDER_CHOICES : list string := ["male"; "female"].

Definition competitions_WeightCategory : model := Model ("competitions", "weightcategory") [
    ("name", field (CharField 50) []);
    ("gender", field (CharField 6) [choices competitions_WeightCategory_GENDER_CHOICES]);
    ("min_weight", field FloatField []);
    ("max_weight", field FloatField []);
    ("tolerance", field FloatField [default (DefaultTenths 2)])
  ]
  [].

Definition competitions_KyorugiCompetition_GENDER_CHOICES : list string := ["male"; "female"].

Definition competitions_KyorugiCompetition_BELT_LEVEL_CHOICES : list string := ["yellow_blue"; "red_black"; "all"].

Definition competitions_KyorugiCompetition : model := Model ("competitions", "kyorugicompetition") (competitions_RegistrationManualMixin_fields ++ [
    ("title", field (CharField 255) []);
    ("poster", field ImageField [null; blank]);
    ("entry_fee", field PositiveIntegerField [default (DefaultNumber 0)]);
    ("age_category", field (ForeignKey ("competitions", "agecategory") SET_NULL) [null]);
    ("belt_level", field (CharField 20) [choices competitions_KyorugiCompetition_BELT_LEVEL_CHOICES]);
    ("belt_groups", field (ManyToManyField ("competitions", "beltgroup")) [blank]);
    ("gender", field (CharField 10) [choices competitions_KyorugiCompetition_GENDER_CHOICES]);
    ("city", field (CharField 100) []);
    ("address", field TextField []);
    ("registration_start", field DateField []);
    ("registration_end", field DateField []);
    ("weigh_date", field DateField []);
    ("draw_date", field DateField []);
    ("competition_date", field DateField []);
    ("bracket_published_at", field DateTimeField [null; blank]);
    ("bracket_published_by", field (ForeignKey ("auth", "user") SET_NULL)
      [null; blank; related_name "published_kyorugi_brackets"]);
    ("mat_count", field PositiveIntegerField [default (DefaultNumber 1)]);
    ("terms_template", field (ForeignKey ("competitions", "termstemplate") SET_NULL)
      [null; blank; related_name "competitions"]);
    ("created_at", field DateTimeField [auto_now_add]);
    ("slug", field (SlugField 128) [null; blank; unique]);
    ("public_id", field (CharField 16) [unique; db_index; default (DefaultCall "_gen_public_id")])
  ])
  [meta_constraints
    [("reg_start_lte_reg_end", CheckConstraint (AtMost "registration_start" "registration_end"));
      ("weigh_lte_draw", CheckConstraint (AtMost "weigh_date" "draw_date"));
      ("draw_lte_comp", CheckConstraint (AtMost "draw_date" "competition_date"))];
    meta_indexes [["public_id"]; ["competition_date"]]].

Definition competitions_MatAssignment : model := Model ("competitions", "matassignment") [
    ("competition", field (ForeignKey ("competitions", "kyorugicompetition") CASCADE)
      [related_name "mat_assignments"]);
    ("mat_number", field PositiveIntegerField []);
    ("weights", field (ManyToManyField ("competitions", "weightcategory")) [])
  ]
  [].

Definition competitions_CompetitionImage : model := Model ("competitions", "competitionimage") [
    ("competition", field (ForeignKey ("competitions", "kyorugicompetition") CASCADE) [related_name "images"]);
    ("image", field ImageField [])
  ]
  [].

Definition competitions_CompetitionFile : model := Model ("competitions", "competitionfile") [
    ("competition", field (ForeignKey ("competitions", "kyorugicompetition") CASCADE) [related_name "files"]);
    ("file", field FileField [])
  ]
  [].

Definition competitions_CoachApproval : model := Model ("competitions", "coachapproval") [
    ("competition", field (ForeignKey ("competitions", "kyorugicompetition") CASCADE)
      [related_name "coach_approvals"]);
    ("coach", field (ForeignKey ("accounts", "userprofile") CASCADE) [related_name "competition_approvals"]);
    ("code", field (CharField 8) [null; blank; db_index]);
    ("terms_accepted", field BooleanField [default (DefaultBool false)]);
    ("is_active", field BooleanField [default (DefaultBool true)]);
    ("approved_at", field DateTimeField [auto_now_add])
  ]
  [meta_constraints
    [("uniq_competition_coach", UniqueConstraint ["competition"; "coach"] None);
      ("uniq_competition_code", UniqueConstraint ["competition"; "code"] (Some (IsNull "code" false)))];
    meta_indexes [["competition"; "is_active"; "terms_accepted"]]].

Definition competitions_Enrollment_MEDAL_CHOICES : list string := [""; "gold"; "silver"; "bronze"].

Definition competitions_Enrollment_STATUS_CHOICES : list string := ["pending_payment"; "paid"; "confirmed"; "accepted"; "completed"; "canceled"].

Definition competitions_Enrollment : model := Model ("competitions", "enrollment") [
    ("competition", field (ForeignKey ("competitions", "kyorugicompetition") CASCADE) [related_name "enrollments"]);
    ("player", field (ForeignKey ("accounts", "userprofile") PROTECT) [related_name "enrollments"]);
    ("coach", field (ForeignKey ("accounts", "userprofile") SET_NULL) [null; blank; related_name "coach_enrollments"]);
    ("coach_name", field (CharField 150) [blank; default (DefaultText "")]);
    ("coach_approval_code", field (CharField 8) [blank; default (DefaultText "")]);
    ("club", field (ForeignKey ("accounts", "tkdclub") SET_NULL) [null; blank; related_name "club_enrollments"]);
    ("club_name", field (CharField 150) [blank; default (DefaultText "")]);
    ("board", field (ForeignKey ("accounts", "tkdboard") SET_NULL) [null; blank; related_name "board_enrollments"]);
    ("board_name", field (CharField 150) [blank; default (DefaultText "")]);
    ("belt_group", field (ForeignKey ("competitions", "beltgroup") SET_NULL)
      [null; blank; related_name "enrollments"]);
    ("weight_category", field (ForeignKey ("competitions", "weightcategory") PROTECT)
      [null; blank; related_name "enrollments"]);
    ("declared_weight", field FloatField []);
    ("insurance_number", field (CharField 20) []);
    ("insurance_issue_date", field DateField []);
    ("status", field (CharField 20) [default (DefaultText "pending_payment"); choices competitions_Enrollment_STATUS_CHOICES]);
    ("is_paid", field BooleanField [default (DefaultBool false)]);
    ("paid_amount", field PositiveIntegerField [default (DefaultNumber 0)]);
    ("bank_ref_code", field (CharField 64) [blank; default (DefaultText "")]);
    ("paid_at", field DateTimeField [null; blank]);
    ("medal", field (CharField 10) [blank; default (DefaultText ""); choices competitions_Enrollment_MEDAL_CHOICES]);
    ("discount_code", field (CharField 50) [null; blank; db_index]);
    ("discount_amount", field PositiveIntegerField [default (DefaultNumber 0)]);
    ("payable_amount", field PositiveIntegerField [default (DefaultNumber 0)]);
    ("discount_redeemed", field BooleanField [default (DefaultBool false)]);
    ("enrollments_created", field BooleanField [default (DefaultBool false)]);
    ("created_at", field DateTimeField [auto_now_add])
  ]
  [meta_indexes [["competition"; "status"]; ["coach"]; ["club"]; ["board"]; ["discount_code"]]].

Definition competitions_Draw : model := Model ("competitions", "draw") [
    ("competition", field (ForeignKey ("competitions", "kyorugicompetition") CASCADE) [related_name "draws"]);
    ("gender", field (CharField 10) []);
    ("age_category", field (ForeignKey ("competitions", "agecategory") PROTECT) [null; blank; related_name "draws"]);
    ("belt_group", field (ForeignKey ("competitions", "beltgroup") PROTECT) []);
    ("weight_category", field (ForeignKey ("competitions", "weightcategory") PROTECT) []);
    ("size", field PositiveIntegerField []);
    ("club_threshold", field PositiveIntegerField [default (DefaultNumber 8)]);
    ("rng_seed", field (CharField 32) [blank; default (DefaultText "")]);
    ("is_locked", field BooleanField [default (DefaultBool false)]);
    ("created_at", field DateTimeField [auto_now_add])
  ]
  [meta_indexes
    [["competition"; "gender"; "age_category"; "belt_group"; "weight_category"]; ["competition"; "weight_category"]];
    meta_unique_together [["competition"; "gender"; "age_category"; "belt_group"; "weight_category"]]].

Definition competitions_Match : model := Model ("competitions", "match") [
    ("draw", field (ForeignKey ("competitions", "draw") CASCADE) [related_name "matches"]);
    ("round_no", field PositiveIntegerField []);
    ("slot_a", field PositiveIntegerField []);
    ("slot_b", field PositiveIntegerField []);
    ("player_a", field (ForeignKey ("accounts", "userprofile") SET_NULL) [null; blank; related_name "as_player_a"]);
    ("player_b", field (ForeignKey ("accounts", "userprofile") SET_NULL) [null; blank; related_name "as_player_b"]);
    ("is_bye", field BooleanField [default (DefaultBool false)]);
    ("winner", field (ForeignKey ("accounts", "userprofile") SET_NULL) [null; blank; related_name "as_winner"]);
    ("mat_no", field PositiveIntegerField [null; blank]);
    ("match_number", field PositiveIntegerField [null; blank; db_index]);
    ("scheduled_at", field DateTimeField [null; blank]);
    ("created_at", field DateTimeField [auto_now_add])
  ]
  [meta_indexes [["draw"; "round_no"]; ["mat_no"; "match_number"]]].

Definition competitions_DrawStart : model := Proxy ("competitions", "drawstart") ("competitions", "draw").

Definition competitions_FirstRoundPairHistory : model := Model ("competitions", "firstroundpairhistory") [
    ("player_a", field (ForeignKey ("accounts", "userprofile") CASCADE) [related_name "+"]);
    ("player_b", field (ForeignKey ("accounts", "userprofile") CASCADE) [related_name "+"]);
    ("gender", field (CharField 10) []);
    ("age_category", field (ForeignKey ("competitions", "agecategory") PROTECT) []);
    ("belt_group", field (ForeignKey ("competitions", "beltgroup") PROTECT) []);
    ("weight_category", field (ForeignKey ("competitions", "weightcategory") PROTECT) []);
    ("last_competition", field (ForeignKey ("competitions", "kyorugicompetition") SET_NULL) [null; blank]);
    ("last_met_at", field DateTimeField [auto_now])
  ]
  [meta_unique_together [["player_a"; "player_b"; "gender"; "age_category"; "belt_group"; "weight_category"]]].

Definition competitions_RankingAward : model := Model ("competitions", "rankingaward") [
    ("enrollment", field (OneToOneField ("competitions", "enrollment") CASCADE) [related_name "ranking_award"]);
    ("player", field (ForeignKey ("accounts", "userprofile") SET_NULL) [null; blank; related_name "awards_as_player"]);
    ("coach", field (ForeignKey ("accounts", "userprofile") SET_NULL) [null; blank; related_name "awards_as_coach"]);
    ("club", field (ForeignKey ("accounts", "tkdclub") SET_NULL) [null; blank; related_name "awards_as_club"]);
    ("board", field (ForeignKey ("accounts", "tkdboard") SET_NULL) [null; blank; related_name "awards_as_board"]);
    ("player_name", field (CharField 255) [blank]);
    ("coach_name", field (CharField 255) [blank]);
    ("club_name", field (CharField 255) [blank]);
    ("board_name", field (CharField 255) [blank]);
    ("points_player", field FloatField [default (DefaultNumber 0)]);
    ("points_coach", field FloatField [default (DefaultNumber 0)]);
    ("points_club", field FloatField [default (DefaultNumber 0)]);
    ("points_board", field FloatField [default (DefaultNumber 0)]);
    ("created_at", field DateTimeField [auto_now_add])
  ]
  [].

Definition competitions_KyorugiResult : model := Model ("competitions", "kyorugiresult") [
    ("competition", field (ForeignKey ("competitions", "kyorugicompetition") CASCADE) [related_name "results"]);
    ("weight_category", field (ForeignKey ("competitions", "weightcategory") CASCADE) [related_name "results"]);
    ("gold_enrollment", field (ForeignKey ("competitions", "enrollment") SET_NULL) [null; blank; related_name "+"]);
    ("silver_enrollment", field (ForeignKey ("competitions", "enrollment") SET_NULL) [null; blank; related_name "+"]);
    ("bronze1_enrollment", field (ForeignKey ("competitions", "enrollment") SET_NULL) [null; blank; related_name "+"]);
    ("bronze2_enrollment", field (ForeignKey ("competitions", "enrollment") SET_NULL) [null; blank; related_name "+"]);
    ("notes", field TextField [blank; default (DefaultText "")]);
    ("created_by", field (ForeignKey ("auth", "user") SET_NULL) [null; blank; related_name "+"]);
    ("created_at", field DateTimeField [auto_now_add]);
    ("updated_at", field DateTimeField [auto_now])
  ]
  [meta_unique_together [["competition"; "weight_category"]]; meta_indexes [["competition"; "weight_category"]]].

Definition competitions_RankingTransaction_SUBJECT_CHOICES : list string := ["player"; "coach"; "club"; "board"].

Definition competitions_RankingTransaction : model := Model ("competitions", "rankingtransaction") [
    ("competition", field (ForeignKey ("competitions", "kyorugicompetition") CASCADE)
      [related_name "ranking_transactions"]);
    ("result", field (ForeignKey ("competitions", "kyorugiresult") CASCADE) [related_name "transactions"]);
    ("subject_type", field (CharField 16) [choices competitions_RankingTransaction_SUBJECT_CHOICES]);
    ("subject_id", field IntegerField []);
    ("medal", field (CharField 10) [blank; default (DefaultText "")]);
    ("points", field FloatField [default (DefaultNumber 0)]);
    ("created_at", field DateTimeField [auto_now_add])
  ]
  [meta_indexes [["competition"; "subject_type"; "subject_id"]; ["result"]]].

Definition competitions_Seminar_ROLE_CHOICES : list string := ["player"; "coach"; "referee"].

Definition competitions_Seminar : model := Model ("competitions", "seminar") [
    ("title", field (CharField 255) []);
    ("poster", field ImageField [null; blank]);
    ("description", field TextField [blank]);
    ("registration_start", field DateField []);
    ("registration_end", field DateField []);
    ("event_date", field DateField []);
    ("fee", field PositiveIntegerField [default (DefaultNumber 0)]);
    ("location", field (CharField 255) [blank]);
    ("allowed_roles", field JSONField [blank; default (DefaultCall "list")]);
    ("created_at", field DateTimeField [auto_now_add]);
    ("public_id", field (CharField 16) [unique; db_index; default (DefaultCall "_seminar_default_public_id")])
  ]
  [meta_indexes [["public_id"]; ["event_date"]]; meta_ordering ["-event_date"; "-created_at"];
    meta_constraints
      [("seminar_reg_start_lte_reg_end", CheckConstraint (AtMost "registration_start" "registration_end"));
        ("seminar_reg_end_lte_event_date", CheckConstraint (AtMost "registration_end" "event_date"))]].

Definition competitions_SeminarRegistration : model := Model ("competitions", "seminarregistration") [
    ("seminar", field (ForeignKey ("competitions", "seminar") CASCADE) [related_name "registrations"]);
    ("user", field (ForeignKey ("auth", "user") CASCADE) [related_name "seminar_registrations"]);
    ("roles", field JSONField [blank; default (DefaultCall "list")]);
    ("phone", field (CharField 40) [blank]);
    ("note", field TextField [blank]);
    ("is_paid", field BooleanField [default (DefaultBool false)]);
    ("paid_amount", field PositiveIntegerField [default (DefaultNumber 0)]);
    ("bank_ref_code", field (CharField 64) [blank; default (DefaultText "")]);
    ("paid_at", field DateTimeField [null; blank]);
    ("discount_code", field (CharField 50) [null; blank; db_index]);
    ("discount_amount", field PositiveIntegerField [default (DefaultNumber 0)]);
    ("payable_amount", field PositiveIntegerField [default (DefaultNumber 0)]);
    ("discount_redeemed", field BooleanField [default (DefaultBool false)]);
    ("created_at", field DateTimeField [auto_now_add])
  ]
  [meta_unique_together [["seminar"; "user"]]].

Definition competitions_SeminarParticipants : model := Proxy ("competitions", "seminarparticipants") ("competitions", "seminarregistration").

Definition competitions_PoomsaeCompetition_GENDER_CHOICES : list string := ["male"; "female"].

Definition competitions_PoomsaeCompetition_BELT_LEVEL_CHOICES : list string := ["yellow_blue"; "red_black"; "all"].

Definition competitions_PoomsaeCompetition : model := Model ("competitions", "poomsaecompetition") (competitions_RegistrationManualMixin_fields ++ [
    ("public_id", field (SlugField 16) [unique; db_index; default (DefaultCall "_gen_public_id")]);
    ("name", field (CharField 255) []);
    ("description", field TextField [blank]);
    ("poster", field ImageField [null; blank]);
    ("age_category", field (ForeignKey ("competitions", "agecategory") SET_NULL) [null; blank]);
    ("age_categories", field (ManyToManyField ("competitions", "agecategory"))
      [blank; related_name "poom_competitions"]);
    ("belt_level", field (CharField 20)
      [blank; default (DefaultText "all"); choices competitions_PoomsaeCompetition_BELT_LEVEL_CHOICES]);
    ("belt_groups", field (ManyToManyField ("competitions", "beltgroup")) [blank]);
    ("gender", field (CharField 10) [blank; default (DefaultText ""); choices competitions_PoomsaeCompetition_GENDER_CHOICES]);
    ("city", field (CharField 100) [blank; default (DefaultText "")]);
    ("address", field TextField [blank; default (DefaultText "")]);
    ("terms_template", field (ForeignKey ("competitions", "termstemplate") SET_NULL)
      [null; blank; related_name "poomsae_competitions"]);
    ("start_date", field DateField []);
    ("end_date", field DateField []);
    ("registration_start", field DateField []);
    ("registration_end", field DateField []);
    ("draw_date", field DateField [null; blank]);
    ("competition_date", field DateField [null; blank]);
    ("entry_fee", field PositiveIntegerField [default (DefaultNumber 0)]);
    ("terms_text", field TextField [blank]);
    ("mat_count", field PositiveIntegerField [default (DefaultNumber 1)]);
    ("created_at", field DateTimeField [auto_now_add]);
    ("updated_at", field DateTimeField [auto_now])
  ])
  [meta_constraints
    [("poomsae_start_lte_end", CheckConstraint (AtMost "start_date" "end_date"));
      ("poomsae_reg_start_lte_end", CheckConstraint (AtMost "registration_start" "registration_end"));
      ("poomsae_reg_end_lte_start_date", CheckConstraint (AtMost "registration_end" "start_date"))];
    meta_indexes [["public_id"]; ["start_date"]; ["registration_start"; "registration_end"]];
    meta_ordering ["-start_date"; "-created_at"]].

Definition competitions_PoomsaeMatAssignment : model := Model ("competitions", "poomsaematassignment") [
    ("competition", field (ForeignKey ("competitions", "poomsaecompetition") CASCADE)
      [related_name "mat_assignments"]);
    ("mat_number", field PositiveIntegerField []);
    ("belt_groups", field (ManyToManyField ("competitions", "beltgroup"))
      [blank; related_name "poomsae_mat_assignments"])
  ]
  [meta_constraints [("uniq_poomsae_mat_per_competition", UniqueConstraint ["competition"; "mat_number"] None)];
    meta_indexes [["competition"; "mat_number"]]].

Definition competitions_PoomsaeDivision : model := Model ("competitions", "poomsaedivision") [
    ("competition", field (ForeignKey ("competitions", "poomsaecompetition") CASCADE) [related_name "divisions"]);
    ("age_category", field (ForeignKey ("competitions", "agecategory") CASCADE) []);
    ("belt_group", field (ForeignKey ("competitions", "beltgroup") CASCADE) []);
    ("style", field (CharField 20) [choices ["standard"; "creative"]])
  ]
  [meta_unique_together [["competition"; "age_category"; "belt_group"; "style"]];
    meta_indexes [["competition"; "age_category"; "belt_group"; "style"]]].

Definition competitions_PoomsaeCoachApproval : model := Model ("competitions", "poomsaecoachapproval") [
    ("competition", field (ForeignKey ("competitions", "poomsaecompetition") CASCADE)
      [related_name "coach_approvals"]);
    ("player", field (ForeignKey ("accounts", "userprofile") CASCADE) [null; blank; related_name "poomsae_approvals"]);
    ("coach", field (ForeignKey ("accounts", "userprofile") CASCADE) [related_name "poomsae_coach_approvals"]);
    ("code", field (CharField 8) [null; blank; db_index]);
    ("approved", field BooleanField [default (DefaultBool false)]);
    ("is_active", field BooleanField [default (DefaultBool true)]);
    ("created_at", field DateTimeField [auto_now_add]);
    ("updated_at", field DateTimeField [auto_now])
  ]
  [meta_constraints
    [("uniq_poomsae_competition_coach", UniqueConstraint ["competition"; "coach"] None);
      ("uniq_poomsae_competition_code", UniqueConstraint ["competition"; "code"] (Some (IsNull "code" false)))];
    meta_indexes [["competition"; "is_active"; "approved"]]].

Definition competitions_PoomsaeEnrollment_POOMSAE_TYPE_CHOICES : list string := ["standard"; "creative"].

Definition competitions_PoomsaeEnrollment_MODE_CHOICES : list string := ["single"; "team"].

Definition competitions_PoomsaeEnrollment : model := Model ("competitions", "poomsaeenrollment") [
    ("competition", field (ForeignKey ("competitions", "poomsaecompetition") CASCADE) [related_name "enrollments"]);
    ("player", field (ForeignKey ("accounts", "userprofile") PROTECT)
      [null; blank; related_name "poomsae_enrollments"]);
    ("coach", field (ForeignKey ("accounts", "userprofile") SET_NULL)
      [null; blank; related_name "poomsae_coach_enrollments"]);
    ("coach_name", field (CharField 150) [blank; default (DefaultText "")]);
    ("coach_approval_code", field (CharField 8) [blank; default (DefaultText "")]);
    ("club", field (ForeignKey ("accounts", "tkdclub") SET_NULL) [null; blank]);
    ("club_name", field (CharField 150) [blank; default (DefaultText "")]);
    ("board", field (ForeignKey ("accounts", "tkdboard") SET_NULL) [null; blank]);
    ("board_name", field (CharField 150) [blank; default (DefaultText "")]);
    ("belt_group", field (ForeignKey ("competitions", "beltgroup") SET_NULL) [null; blank]);
    ("age_category", field (ForeignKey ("competitions", "agecategory") PROTECT) [null; blank]);
    ("poomsae_type", field (CharField 16) [choices competitions_PoomsaeEnrollment_POOMSAE_TYPE_CHOICES]);
    ("mode", field (CharField 8) [default (DefaultText "single"); choices competitions_PoomsaeEnrollment_MODE_CHOICES]);
    ("insurance_number", field (CharField 20) []);
    ("insurance_issue_date", field DateField []);
    ("team", field (ForeignKey ("competitions", "poomsaeteam") SET_NULL) [null; blank; related_name "enrollments"]);
    ("status", field (CharField 20) [default (DefaultText "pending_payment")]);
    ("is_paid", field BooleanField [default (DefaultBool false)]);
    ("paid_amount", field PositiveIntegerField [default (DefaultNumber 0)]);
    ("bank_ref_code", field (CharField 64) [blank; default (DefaultText "")]);
    ("paid_at", field DateTimeField [null; blank]);
    ("created_at", field DateTimeField [auto_now_add])
  ]
  [meta_constraints
    [("poomsae_enrollment_mode_requires_player_or_team", CheckConstraint
      (Or
        [(And [(Is "mode" "single"); (IsNull "player" false); (IsNull "team" true)]);
          (And [(Is "mode" "team"); (IsNull "player" true); (IsNull "team" false)])]));
      ("uniq_poomsae_single_per_style", UniqueConstraint
        ["competition"; "player"; "poomsae_type"] (Some (Is "mode" "single")));
      ("uniq_poomsae_team_once", UniqueConstraint ["competition"; "team"] (Some (Is "mode" "team")))];
    meta_indexes [["competition"; "mode"; "poomsae_type"]; ["competition"; "player"]; ["competition"; "team"]]].

Definition competitions_PoomsaeImage : model := Model ("competitions", "poomsaeimage") [
    ("competition", field (ForeignKey ("competitions", "poomsaecompetition") CASCADE) [related_name "images"]);
    ("image", field ImageField [])
  ]
  [].

Definition competitions_PoomsaeFile : model := Model ("competitions", "poomsaefile") [
    ("competition", field (ForeignKey ("competitions", "poomsaecompetition") CASCADE) [related_name "files"]);
    ("file", field FileField [])
  ]
  [].

Definition competitions_PoomsaeTeam_STYLE_CHOICES : list string := ["standard"; "creative"].

Definition competitions_PoomsaeTeam : model := Model ("competitions", "poomsaeteam") [
    ("competition", field (ForeignKey ("competitions", "poomsaecompetition") CASCADE) [related_name "teams"]);
    ("coach", field (ForeignKey ("accounts", "userprofile") CASCADE) [related_name "poomsae_teams"]);
    ("name", field (CharField 100) []);
    ("style", field (CharField 16) [choices competitions_PoomsaeTeam_STYLE_CHOICES]);
    ("created_at", field DateTimeField [auto_now_add])
  ]
  [meta_indexes [["competition"; "coach"]]].

Definition competitions_PoomsaeTeamMember_ROLE_CHOICES : list string := ["main"; "sub"].

Definition competitions_PoomsaeTeamMember : model := Model ("competitions", "poomsaeteammember") [
    ("team", field (ForeignKey ("competitions", "poomsaeteam") CASCADE) [related_name "members"]);
    ("player", field (ForeignKey ("accounts", "userprofile") CASCADE) [related_name "poomsae_team_memberships"]);
    ("role", field (CharField 8) [default (DefaultText "main"); choices competitions_PoomsaeTeamMember_ROLE_CHOICES]);
    ("order", field PositiveSmallIntegerField [default (DefaultNumber 1)])
  ]
  [meta_unique_together [["team"; "player"]]; meta_indexes [["team"]; ["player"]]].

Definition competitions_GroupRegistrationPayment : model := Model ("competitions", "groupregistrationpayment") [
    ("coach", field (ForeignKey ("accounts", "userprofile") CASCADE) [related_name "group_payments"]);
    ("competition", field (ForeignKey ("competitions", "kyorugicompetition") CASCADE) [related_name "group_payments"]);
    ("payload", field JSONField []);
    ("total_amount", field PositiveIntegerField []);
    ("is_paid", field BooleanField [default (DefaultBool false)]);
    ("bank_ref_code", field (CharField 64) [null; blank]);
    ("created_at", field DateTimeField [auto_now_add])
  ]
  [].

Definition competitions_DiscountCode : model := Model ("competitions", "discountcode") [
    ("code", field (CharField 50) [unique]);
    ("coach", field (ForeignKey ("auth", "user") CASCADE) [related_name "discount_codes"]);
    ("type", field (CharField 20) [choices ["COACH_GROUP"; "STUDENT"]]);
    ("percent", field PositiveSmallIntegerField []);
    ("competition", field (ForeignKey ("competitions", "kyorugicompetition") CASCADE)
      [null; blank; related_name "discount_codes"]);
    ("poomsae_competition", field (ForeignKey ("competitions", "poomsaecompetition") CASCADE)
      [null; blank; related_name "discount_codes_poomsae"]);
    ("seminar", field (ForeignKey ("competitions", "seminar") CASCADE) [null; blank; related_name "discount_codes"]);
    ("max_uses", field PositiveIntegerField [null; blank]);
    ("used_count", field PositiveIntegerField [default (DefaultNumber 0)]);
    ("active", field BooleanField [default (DefaultBool true)]);
    ("created_at", field DateTimeField [auto_now_add]);
    ("updated_at", field DateTimeField [auto_now])
  ]
  [].

Definition competitions_KyorugiCompetitionParticipantsReport : model := Proxy ("competitions", "kyorugicompetitionparticipantsreport") ("competitions", "kyorugicompetition").

Definition competitions_NumberingEntry : model := Proxy ("competitions", "numberingentry") ("competitions", "kyorugicompetition").

Definition competitions_SeminarAttendee : model := Proxy ("competitions", "seminarattendee") ("competitions", "seminarregistration").

Definition competitions_CoachApprovalsEntry : model := Proxy ("competitions", "coachapprovalsentry") ("competitions", "kyorugicompetition").

Definition competitions_models : list model := [
  competitions_AgeCategory; competitions_Belt; competitions_BeltGroup; competitions_TermsTemplate;
    competitions_WeightCategory; competitions_KyorugiCompetition; competitions_MatAssignment;
    competitions_CompetitionImage; competitions_CompetitionFile; competitions_CoachApproval; competitions_Enrollment;
    competitions_Draw; competitions_Match; competitions_DrawStart; competitions_FirstRoundPairHistory;
    competitions_RankingAward; competitions_KyorugiResult; competitions_RankingTransaction; competitions_Seminar;
    competitions_SeminarRegistration; competitions_SeminarParticipants; competitions_PoomsaeCompetition;
    competitions_PoomsaeMatAssignment; competitions_PoomsaeDivision; competitions_PoomsaeCoachApproval;
    competitions_PoomsaeEnrollment; competitions_PoomsaeImage; competitions_PoomsaeFile; competitions_PoomsaeTeam;
    competitions_PoomsaeTeamMember; competitions_GroupRegistrationPayment; competitions_DiscountCode;
    competitions_KyorugiCompetitionParticipantsReport; competitions_NumberingEntry; competitions_SeminarAttendee;
    competitions_CoachApprovalsEntry].

(** ** [src/main/models.py] *)

Definition main_HeaderBackground : model := Model ("main", "headerbackground") [
    ("background_image", field ImageField []);
    ("created_at", field DateTimeField [auto_now_add])
  ]
  [].

Definition main_SliderImage : model := Model ("main", "sliderimage") [
    ("image", field ImageField []);
    ("title", field (CharField 100) [null; blank]);
    ("order", field PositiveIntegerField [default (DefaultNumber 0)]);
    ("created_at", field DateTimeField [auto_now_add])
  ]
  [meta_ordering ["order"]].

Definition main_News : model := Model ("main", "news") [
    ("title", field (CharField 200) []);
    ("content", field TextField []);
    ("image", field ImageField []);
    ("author", field (ForeignKey ("auth", "user") SET_NULL) [null]);
    ("created_at", field DateTimeField [auto_now_add]);
    ("board", field (ForeignKey ("accounts", "tkdboard") SET_NULL) [null; blank; related_name "news"]);
    ("published", field BooleanField [default (DefaultBool false)])
  ]
  [meta_ordering ["-created_at"]].

Definition main_Circular : model := Model ("main", "circular") [
    ("title", field (CharField 200) []);
    ("content", field TextField []);
    ("thumbnail", field ImageField []);
    ("author", field (ForeignKey ("auth", "user") SET_NULL) [null]);
    ("created_at", field DateTimeField [auto_now_add]);
    ("published", field BooleanField [default (DefaultBool false)])
  ]
  [meta_ordering ["-created_at"]].

Definition main_CircularImage : model := Model ("main", "circularimage") [
    ("circular", field (ForeignKey ("main", "circular") CASCADE) [related_name "images"]);
    ("image", field ImageField [])
  ]
  [].

Definition main_CircularAttachment : model := Model ("main", "circularattachment") [
    ("circular", field (ForeignKey ("main", "circular") CASCADE) [related_name "attachments"]);
    ("file", field FileField [])
  ]
  [].

Definition main_NewsImage : model := Model ("main", "newsimage") [
    ("news", field (ForeignKey ("main", "news") CASCADE) [related_name "images"]);
    ("image", field ImageField [])
  ]
  [].

Definition main_models : list model := [
  main_HeaderBackground; main_SliderImage; main_News; main_Circular; main_CircularImage; main_CircularAttachment;
    main_NewsImage].

(** ** [src/payments/models.py] *)

Definition payments_PaymentIntent_GATEWAY_CHOICES : list string := ["sadad"; "bmi"; "fake"; "dummy"].

Definition payments_PaymentIntent_STATUS_CHOICES : list string := ["initiated"; "redirected"; "paid"; "failed"].

Definition payments_PaymentIntent : model := Model ("payments", "paymentintent") [
    ("public_id", field (CharField 16) [unique; db_index; default (DefaultCall "_gen_public_id")]);
    ("user", field (ForeignKey ("auth", "user") SET_NULL) [null; blank; related_name "payment_intents"]);
    ("gateway", field (CharField 20) [default (DefaultText "sadad"); choices payments_PaymentIntent_GATEWAY_CHOICES]);
    ("status", field (CharField 20) [default (DefaultText "initiated"); choices payments_PaymentIntent_STATUS_CHOICES]);
    ("competition", field (ForeignKey ("competitions", "kyorugicompetition") SET_NULL)
      [null; blank; related_name "payment_intents"]);
    ("amount", field PositiveIntegerField [default (DefaultNumber 0)]);
    ("original_amount", field PositiveIntegerField [default (DefaultNumber 0)]);
    ("discount_amount", field PositiveIntegerField [default (DefaultNumber 0)]);
    ("discount_code", field (ForeignKey ("competitions", "discountcode") SET_NULL)
      [null; blank; related_name "payment_intents"]);
    ("description", field (CharField 255) [blank; default (DefaultText "")]);
    ("callback_url", field URLField [blank; default (DefaultText "")]);
    ("token", field (CharField 128) [blank; default (DefaultText "")]);
    ("ref_id", field (CharField 64) [blank; default (DefaultText "")]);
    ("card_pan", field (CharField 64) [blank; default (DefaultText "")]);
    ("extra", field JSONField [blank; default (DefaultCall "dict")]);
    ("initiator_ip", field GenericIPAddressField [null; blank]);
    ("user_agent", field (CharField 255) [blank; default (DefaultText "")]);
    ("payment_link_token", field (CharField 128) [blank; db_index; default (DefaultText "")]);
    ("payment_link_expires_at", field DateTimeField [null; blank]);
    ("created_at", field DateTimeField [auto_now_add]);
    ("updated_at", field DateTimeField [auto_now]);
    ("kyorugi_enrollments", field (ManyToManyField ("competitions", "enrollment"))
      [blank; related_name "bulk_payment_intents"]);
    ("kyorugi_enrollment", field (ForeignKey ("competitions", "enrollment") SET_NULL)
      [null; blank; related_name "payment_intents"]);
    ("poomsae_enrollment", field (ForeignKey ("competitions", "poomsaeenrollment") SET_NULL)
      [null; blank; related_name "payment_intents"]);
    ("seminar_registration", field (ForeignKey ("competitions", "seminarregistration") SET_NULL)
      [null; blank; related_name "payment_intents"])
  ]
  [meta_ordering ["-created_at"]; meta_indexes [["status"]; ["token"]; ["created_at"]];
    meta_constraints
      [("payments_at_most_one_target_fk", CheckConstraint
        (Or
          [(And
            [(IsNull "kyorugi_enrollment" true); (IsNull "poomsae_enrollment" true);
              (IsNull "seminar_registration" true)]);
            (And
              [(IsNull "kyorugi_enrollment" false); (IsNull "poomsae_enrollment" true);
                (IsNull "seminar_registration" true)]);
            (And
              [(IsNull "kyorugi_enrollment" true); (IsNull "poomsae_enrollment" false);
                (IsNull "seminar_registration" true)]);
            (And
              [(IsNull "kyorugi_enrollment" true); (IsNull "poomsae_enrollment" true);
                (IsNull "seminar_registration" false)])]))]].

Definition payments_models : list model := [
  payments_PaymentIntent].

(** ** [src/apps/discounts/models.py] *)

Definition discounts_DiscountCode : model := Model ("discounts", "discountcode") [
    ("code", field (CharField 50) [unique]);
    ("amount", field PositiveIntegerField []);
    ("capacity", field PositiveIntegerField [default (DefaultNumber 1)]);
    ("used_count", field PositiveIntegerField [default (DefaultNumber 0)]);
    ("is_active", field BooleanField [default (DefaultBool true)]);
    ("target_type", field (CharField 20) [null; blank; db_index; choices ["competition"; "seminar"]]);
    ("target_id", field PositiveIntegerField [null; blank; db_index]);
    ("created_at", field DateTimeField [auto_now_add])
  ]
  [].

Definition discounts_models : list model := [
  discounts_DiscountCode].

(** ** [src/reports/models.py] *)

Definition reports_ReportCenter : model := Proxy ("reports", "reportcenter") ("accounts", "userprofile").

Definition reports_models : list model := [
  reports_ReportCenter].

(** ** All of them *)

Definition models : list model :=
  (accounts_models ++ competitions_models ++ main_models ++ payments_models ++ discounts_models ++ reports_models)%list.

Definition declared : gmap model_key shape := list_to_map ((λ m, (model_name m, model_shape m)) <$> models).
