(* ===== verification/SchemaPaths.v ===== *)
(** Theorems about the schema: the command [migrate] ends, from wherever it stands, in the schema the models
    declare; which rows a deletion can reach; and which checks survive the keys a deletion empties. *)

From S2P Require Import Prelude Schema MigrationsAccounts MigrationsCompetitions MigrationsRest Models.

(** ** Plans: orders that respect dependencies *)

Section orders.
Context {A : Type} (deps : A → list A).

(** [l] may be run when the elements of [D] are done. *)
Fixpoint ordered (D l : list A) : Prop :=
  match l with [] => True | a :: l => (∀ d, d ∈ deps a → d ∈ D) ∧ ordered (a :: D) l end.

(** [x] comes before [y] in every order. *)
Definition before : relation A := tc (λ x y, x ∈ deps y).

Definition closed (D : list A) : Prop := ∀ a d, a ∈ D → d ∈ deps a → d ∈ D.

Lemma ordered_mono D E l : (∀ a, a ∈ D → a ∈ E) → ordered D l → ordered E l.
Proof.
  revert D E. induction l as [|a l IH]; intros D E Hsub; [done|]. intros [Ha Hl]. split; [auto|].
  eapply IH; [|exact Hl]. intros x [->|Hx]%elem_of_cons; set_solver.
Qed.

Lemma ordered_app D l m : ordered D (l ++ m) ↔ ordered D l ∧ ordered (rev l ++ D) m.
Proof.
  revert D. induction l as [|a l IH]; intros D; cbn; [tauto|]. rewrite IH, <- app_assoc. cbn. tauto.
Qed.

Lemma closed_cons D a : closed D → (∀ d, d ∈ deps a → d ∈ D) → closed (a :: D).
Proof. intros HD Ha x d [->|Hx]%elem_of_cons Hd; right; [auto|by eapply HD]. Qed.

Lemma ordered_closed D l : closed D → ordered D l → closed (rev l ++ D).
Proof.
  revert D. induction l as [|a l IH]; intros D HD; [done|]. intros [Ha Hl]. cbn. rewrite <- app_assoc. cbn.
  apply IH; [by apply closed_cons|done].
Qed.

(** What comes before an element whose dependencies are done is done. *)
Lemma before_done D x m : closed D → (∀ d, d ∈ deps m → d ∈ D) → before x m → x ∈ D.
Proof.
  intros HD Hm Hx. unfold before in Hx. induction Hx as [x m Hx|x y m Hxy _ IH]; [by apply Hm|]. by eapply HD; [apply IH|].
Qed.

End orders.

Section plans.
Context {A S : Type} (step : A → S → option S) (deps : A → list A).
Local Abbreviation ordered := (ordered deps).
Local Abbreviation before := (before deps).
Local Abbreviation closed := (closed deps).

Fixpoint run (l : list A) (s : S) : option S :=
  match l with [] => Some s | a :: l => s ← step a s; run l s end.

Lemma run_app l m s : run (l ++ m) s = (s ← run l s; run m s).
Proof. revert s. induction l as [|a l IH]; intros s; [done|]. cbn. destruct (step a s); [apply IH|done]. Qed.

Context (commute : ∀ x m s s', x ≠ m → ¬ before x m → ¬ before m x → run [x; m] s = Some s' → run [m; x] s = Some s').

(** An element nothing on the way depends on may be done first. *)
Lemma run_first p m s s' : (∀ x, x ∈ p → x ≠ m ∧ ¬ before x m ∧ ¬ before m x) → run (p ++ [m]) s = Some s' → run (m :: p) s = Some s'.
Proof.
  revert s. induction p as [|x p IH]; intros s Hp; [done|]. cbn [app run].
  destruct (step x s) as [s1|] eqn:Ex; [|done]. cbn. intros Hr.
  apply IH in Hr; [|intros y Hy; apply Hp; by right]. cbn in Hr. destruct (step m s1) as [s2|] eqn:Em; [|done]. cbn in Hr.
  destruct (Hp x ltac:(by left)) as (Hne & H1 & H2).
  assert (Hc : run [m; x] s = Some s2) by (apply commute; [done..|]; cbn; rewrite Ex; cbn; by rewrite Em).
  cbn in Hc. destruct (step m s) as [s3|] eqn:Em3; [|done]. cbn in Hc |- *. destruct (step x s3) as [s4|]; [|done]. by injection Hc as ->.
Qed.

(** Two orders of the same elements have the same result. *)
Lemma orders_agree D l l' s s' : closed D → NoDup (D ++ l) → ordered D l → ordered D l' → l ≡ₚ l' → run l s = Some s' → run l' s = Some s'.
Proof.
  revert D l s. induction l' as [|m l' IH]; intros D l s HD Hnd Hl Hl' Hp Hr.
  { apply Permutation_nil_r in Hp as ->. done. }
  destruct Hl' as [Hm Hl'].
  assert (Hin : m ∈ l) by (rewrite Hp; by left). apply list_elem_of_split in Hin as (p & q & ->).
  assert (HmD : m ∉ D) by (intros HmD; apply NoDup_app in Hnd as (_ & Hd & _); apply (Hd m HmD); set_solver).
  apply ordered_app in Hl as [Hpo [Hmo Hqo]].
  assert (Hfirst : ∀ x, x ∈ p → x ≠ m ∧ ¬ before x m ∧ ¬ before m x).
  { intros x Hx. assert (HxD : x ∉ D) by (intros HxD; apply NoDup_app in Hnd as (_ & Hd & _); apply (Hd x HxD); set_solver).
    assert (Hxm : x ≠ m).
    { intros ->. apply NoDup_app in Hnd as (_ & _ & Hnd). apply NoDup_app in Hnd as (_ & Hd & _). apply (Hd m Hx). by left. }
    split; [done|]. split; [intros Hb; apply HxD; by apply (before_done deps D x m)|].
    intros Hb. apply list_elem_of_split in Hx as (p1 & p2 & ->). apply ordered_app in Hpo as [Hp1 [Hx' _]].
    apply (before_done deps (rev p1 ++ D)) in Hb; [|by apply ordered_closed|done].
    apply elem_of_app in Hb as [Hb|Hb]; [|done]. rewrite list_elem_of_In, <- in_rev, <- list_elem_of_In in Hb.
    apply NoDup_app in Hnd as (_ & _ & Hnd). rewrite <- app_assoc in Hnd. apply NoDup_app in Hnd as (_ & Hd & _). apply (Hd m Hb). set_solver. }
  assert (Hrm : run (m :: p ++ q) s = Some s').
  { change (m :: p ++ q) with ((m :: p) ++ q). rewrite run_app.
    change (p ++ m :: q) with (p ++ [m] ++ q) in Hr. rewrite app_assoc, run_app in Hr. destruct (run (p ++ [m]) s) as [s1|] eqn:E; [|done].
    by rewrite (run_first p m s s1). }
  cbn in Hrm |- *. destruct (step m s) as [s1|]; [|done]. cbn in Hrm |- *.
  apply (IH (m :: D) (p ++ q)); [by apply closed_cons| | |done| |done].
  - revert Hnd. rewrite <- (Permutation_middle p q m). by rewrite <- (Permutation_middle D (p ++ q) m).
  - apply ordered_app. split; [by eapply ordered_mono; [|exact Hpo]; set_solver|].
    eapply ordered_mono; [|exact Hqo]. intros a. rewrite elem_of_cons, !elem_of_app, elem_of_cons. tauto.
  - apply (Permutation_cons_inv (a := m)). by rewrite <- Hp, Permutation_middle.
Qed.
End plans.

(** ** Operations on different models *)

Lemma apply_operation_spec app o s s' : apply_operation app o s = Some s' ↔
  forallb (known s (operation_model app o)) (references o) = true ∧
  ∃ t, change o (s !! operation_model app o) = Some t ∧ table_ok t = true ∧ s' = <[operation_model app o := t]> s.
Proof.
  unfold apply_operation. destruct (forallb _ _); [|by split; [|intros [? _]]].
  destruct (change o _) as [t|]; cbn; [|by split; [|intros (_ & t & ? & _)]]. destruct (table_ok t) eqn:E.
  - split; [intros [= <-]; eauto|]. intros (_ & t' & [= ->] & _ & ->). done.
  - split; [done|]. intros (_ & t' & [= ->] & ? & _). congruence.
Qed.

(** Whether [p] may move in front of [o]. *)
Definition independent_operations (a : string) (o : operation) (b : string) (p : operation) : bool :=
  negb (if String.eqb a b then String.eqb (operation_model a o).2 (operation_model b p).2 else false) &&
  (if creates o then bool_decide (operation_model a o ∉ references p) else true).

Lemma independent_operations_spec a o b p : independent_operations a o b p = true →
  operation_model a o ≠ operation_model b p ∧ (creates o = false ∨ operation_model a o ∉ references p).
Proof.
  unfold independent_operations. rewrite andb_true_iff, negb_true_iff. intros [Hne Hnew]. split.
  - intros Heq. rewrite Heq, String.eqb_refl in Hne. unfold operation_model in Heq. injection Heq as <- _.
    by rewrite String.eqb_refl in Hne.
  - destruct (creates o); [right|by left]. by apply bool_decide_eq_true in Hnew.
Qed.

Lemma change_creates o t : change o None = Some t → creates o = true.
Proof. by destruct o. Qed.

Lemma known_insert s k t self r : known s self r = true → known (<[k := t]> s) self r = true.
Proof.
  unfold known. rewrite !orb_true_iff, !bool_decide_eq_true. intros [->|[u Hr]]; [by left|right].
  destruct (decide (k = r)) as [->|Hne]; [by rewrite lookup_insert_eq|]. rewrite lookup_insert_ne by done. by exists u.
Qed.

Lemma known_insert_inv s k t self r : is_Some (s !! k) ∨ k ≠ r → known (<[k := t]> s) self r = true → known s self r = true.
Proof.
  unfold known. rewrite !orb_true_iff, !bool_decide_eq_true. intros Hk [->|Hr]; [by left|right].
  destruct (decide (k = r)) as [->|Hne]; [by destruct Hk|]. by rewrite lookup_insert_ne in Hr.
Qed.

Lemma swap_operations a o b p s s1 s2 : independent_operations a o b p = true →
  apply_operation a o s = Some s1 → apply_operation b p s1 = Some s2 →
  ∃ s3, apply_operation b p s = Some s3 ∧ apply_operation a o s3 = Some s2.
Proof.
  intros [Hne Hnew]%independent_operations_spec.
  rewrite !apply_operation_spec. intros (Ho & t & Ht & Hokt & ->) (Hp & u & Hu & Hoku & ->).
  rewrite lookup_insert_ne in Hu by done.
  assert (Hold : creates o = false → is_Some (s !! operation_model a o)).
  { intros Hc. destruct (s !! operation_model a o) as [t0|]; [by exists t0|]. apply change_creates in Ht. congruence. }
  exists (<[operation_model b p := u]> s). split.
  - apply apply_operation_spec. split; [|eauto]. rewrite forallb_forall in Hp |- *. intros r Hr. specialize (Hp r Hr).
    eapply known_insert_inv; [|exact Hp]. destruct Hnew as [Hc|Hn]; [by left; apply Hold|right].
    intros Heq. apply Hn. rewrite Heq. by apply list_elem_of_In.
  - apply apply_operation_spec. split.
    + rewrite forallb_forall in Ho |- *. intros r Hr. by apply known_insert, Ho.
    + exists t. rewrite lookup_insert_ne by done. split; [done|]. split; [done|]. by rewrite insert_insert_ne.
Qed.

Lemma swap_operation_first a o b ps s s1 s2 : forallb (independent_operations a o b) ps = true →
  apply_operation a o s = Some s1 → apply_operations b ps s1 = Some s2 →
  ∃ s3, apply_operations b ps s = Some s3 ∧ apply_operation a o s3 = Some s2.
Proof.
  revert s s1. induction ps as [|p ps IH]; intros s s1; cbn; [intros _ Ho [= <-]; by exists s|].
  intros [Hp Hps]%andb_true_iff Ho. destruct (apply_operation b p s1) as [s4|] eqn:E; [|done]. cbn. intros Hr.
  destruct (swap_operations a o b p s s1 s4) as (s5 & H5 & H5'); [done..|].
  destruct (IH s5 s4 Hps H5' Hr) as (s6 & H6 & H6'). exists s6. rewrite H5. done.
Qed.

Lemma swap_operation_lists a os b ps s s1 s2 : forallb (λ o, forallb (independent_operations a o b) ps) os = true →
  apply_operations a os s = Some s1 → apply_operations b ps s1 = Some s2 →
  ∃ s3, apply_operations b ps s = Some s3 ∧ apply_operations a os s3 = Some s2.
Proof.
  revert s s1 s2. induction os as [|o os IH]; intros s s1 s2; cbn; [intros _ [= <-]; eauto|].
  intros [Ho Hos]%andb_true_iff. destruct (apply_operation a o s) as [s4|] eqn:E; [|done]. cbn. intros Ha Hb.
  destruct (IH s4 s1 s2 Hos Ha Hb) as (s5 & H5 & H5').
  destruct (swap_operation_first a o b ps s s4 s5 Ho E H5) as (s6 & H6 & H6'). exists s6. by rewrite H6'.
Qed.

(** ** The command [migrate] *)

Section commands.
Context (ms : list migration).
Local Abbreviation ids := (migration_of <$> ms).
Local Abbreviation deps := (dependencies_of ms).
Local Abbreviation step := (apply_migration ms).

(** Some of the migrations that come before one. *)
Fixpoint ancestors (fuel : nat) (i : migration_id) : list migration_id :=
  match fuel with 0%nat => [] | S fuel => deps i ++ concat (ancestors fuel <$> deps i) end.

Lemma ancestors_before fuel i x : x ∈ ancestors fuel i → before deps x i.
Proof.
  revert i. induction fuel as [|fuel IH]; intros i; cbn; [by intros ?%not_elem_of_nil|].
  intros [Hx|Hx]%elem_of_app; [by apply tc_once|].
  apply list_elem_of_In, in_concat in Hx as (l & Hl & Hx). apply list_elem_of_In, list_elem_of_fmap in Hl as (d & -> & Hd).
  eapply tc_r; [apply IH; by apply list_elem_of_In|done].
Qed.

Definition independent (x m : migration) : bool :=
  forallb (λ o, forallb (independent_operations (migration_of x).1 o (migration_of m).1) (operations m)) (operations x).

(** Migrations none of which comes before the other work on different models. *)
Definition with_ancestors : list (migration * list migration_id) :=
  (λ m, (m, ancestors (length ms) (migration_of m))) <$> ms.

Definition apart_unless_ordered : bool :=
  let l := with_ancestors in
  forallb (λ x, forallb (λ m,
    if bool_decide (migration_of x.1 = migration_of m.1) then true
    else if bool_decide (migration_of x.1 ∈ m.2) then true
    else if bool_decide (migration_of m.1 ∈ x.2) then true
    else independent x.1 m.1) l) l.

Lemma apart_spec x m : apart_unless_ordered = true → x ∈ ms → m ∈ ms → migration_of x ≠ migration_of m →
  ¬ before deps (migration_of x) (migration_of m) → ¬ before deps (migration_of m) (migration_of x) → independent x m = true.
Proof.
  intros Ha Hx Hm Hne H1 H2. unfold apart_unless_ordered in Ha. rewrite forallb_forall in Ha.
  assert (Hin : ∀ y, y ∈ ms → In (y, ancestors (length ms) (migration_of y)) with_ancestors).
  { intros y Hy. apply list_elem_of_In, list_elem_of_fmap. by exists y. }
  specialize (Ha _ (Hin x Hx)). rewrite forallb_forall in Ha. specialize (Ha _ (Hin m Hm)). cbn [fst snd] in Ha.
  rewrite (bool_decide_false _ Hne), !bool_decide_false in Ha; [done|by intros ?%ancestors_before..].
Qed.

Lemma find_migration_some i m : find_migration ms i = Some m → m ∈ ms ∧ migration_of m = i.
Proof. intros [Hin Hi]%find_some. split; [by apply list_elem_of_In|by apply bool_decide_eq_true in Hi]. Qed.

Lemma migrations_commute x m s s' : apart_unless_ordered = true → x ≠ m → ¬ before deps x m → ¬ before deps m x →
  run step [x; m] s = Some s' → run step [m; x] s = Some s'.
Proof.
  intros Ha Hne Hxm Hmx. unfold run, apply_migration.
  destruct (find_migration ms x) as [mx|] eqn:Ex; [|done]. apply find_migration_some in Ex as [Hx <-].
  destruct (find_migration ms m) as [mm|] eqn:Em; [|cbn; by destruct (apply_operations (migration_of mx).1 (operations mx) s)]. apply find_migration_some in Em as [Hm <-]. cbn.
  destruct (apply_operations _ (operations mx) s) as [s1|] eqn:E1; [|done]. cbn.
  destruct (apply_operations _ (operations mm) s1) as [s2|] eqn:E2; [|done]. cbn. intros [= <-].
  pose proof (apart_spec mx mm Ha Hx Hm Hne Hxm Hmx) as Hi.
  destruct (swap_operation_lists _ _ _ _ _ _ _ Hi E1 E2) as (s3 & Hs3 & Hs3'). by rewrite Hs3; cbn; rewrite Hs3'.
Qed.

(** What the command has applied is an order of migrations. *)
Lemma migrate_runs s0 st : rtc (migrate ms) ([], s0) st →
  run step st.1 s0 = Some st.2 ∧ ordered deps [] st.1 ∧ NoDup st.1 ∧ ∀ i, i ∈ st.1 → i ∈ ids.
Proof.
  intros Hr. refine (rtc_ind_r (λ st, run step st.1 s0 = Some st.2 ∧ ordered deps [] st.1 ∧ NoDup st.1 ∧ ∀ i, i ∈ st.1 → i ∈ ids) _ _ _ st Hr).
  - cbn. split_and!; [done..|constructor|by intros i ?%not_elem_of_nil].
  - intros st1 st2 _ Hs (Hrun & Ho & Hnd & Hin). destruct Hs as [done s i s' Hi Hnew Hd Happ]. cbn [fst snd] in *. split_and!.
    + rewrite run_app, Hrun. cbn. by rewrite Happ.
    + apply ordered_app. split; [done|]. split; [|done]. intros d Hdd. rewrite app_nil_r. apply list_elem_of_In, in_rev, list_elem_of_In.
      rewrite rev_involutive. by apply Hd.
    + apply NoDup_app. split_and!; [done| |apply NoDup_singleton]. intros x Hx ->%list_elem_of_singleton. done.
    + intros x [Hx| ->%list_elem_of_singleton]%elem_of_app; auto.
Qed.

(** What remains may be applied. *)
Lemma ordered_remaining (D E F l : list migration_id) : ordered deps D l → (∀ a, a ∈ D → a ∈ E) → (∀ a, a ∈ F → a ∈ E) →
  ordered deps E (List.filter (λ i, bool_decide (i ∉ F)) l).
Proof.
  revert D E. induction l as [|a l IH]; intros D E; [done|]. intros [Ha Hl] HD HF. cbn. destruct (decide (a ∈ F)) as [Hin|Hin].
  - rewrite bool_decide_false by tauto. apply (IH (a :: D)); [done| |done]. intros x [->|Hx]%elem_of_cons; auto.
  - rewrite bool_decide_true by done. split; [by intros d Hd; apply HD, Ha|].
    apply (IH (a :: D)); [done|..]; intros x; rewrite ?elem_of_cons; naive_solver.
Qed.

Lemma split_done (done l : list migration_id) : NoDup done → NoDup l → (∀ i, i ∈ done → i ∈ l) →
  l ≡ₚ done ++ List.filter (λ i, bool_decide (i ∉ done)) l.
Proof.
  intros Hd Hl Hsub. apply NoDup_Permutation; [done| |].
  - apply NoDup_app. split_and!; [done| |by apply NoDup_ListNoDup, List.NoDup_filter, NoDup_ListNoDup].
    intros x Hx Hf. apply elem_of_filter_list in Hf as [_ Hf]. by apply bool_decide_eq_true in Hf.
  - intros x. rewrite elem_of_app, elem_of_filter_list, bool_decide_eq_true. destruct (decide (x ∈ done)); naive_solver.
Qed.

(** From wherever the command stands, what remains leads to the same schema. *)
Lemma migrate_completes s0 s1 st : apart_unless_ordered = true → NoDup ids → ordered deps [] ids → run step ids s0 = Some s1 →
  rtc (migrate ms) ([], s0) st → run step (remaining ms st.1) st.2 = Some s1.
Proof.
  intros Ha Hnd Ho Hrun Hst. apply migrate_runs in Hst as (Hr & Hos & Hnds & Hin).
  assert (Hall : run step (st.1 ++ remaining ms st.1) s0 = Some s1).
  { refine (orders_agree step deps (λ x m s s', migrations_commute x m s s' Ha) [] ids _ s0 s1 _ Hnd Ho _ _ Hrun).
    - by intros a d ?%not_elem_of_nil.
    - apply ordered_app. split; [done|]. rewrite app_nil_r. apply (ordered_remaining []); [done|by intros a ?%not_elem_of_nil|].
      intros a Ha'. by apply list_elem_of_In, in_rev; rewrite rev_involutive; apply list_elem_of_In.
    - by apply split_done. }
  rewrite run_app, Hr in Hall. done.
Qed.
End commands.

(** ** The migrations of the project *)

Local Open Scope string_scope.

Definition migrations : list migration :=
  (accounts_migrations ++ competitions_migrations ++ main_migrations ++ payments_migrations ++ discounts_migrations ++
   reports_migrations)%list.

(** Before them, the framework has made the table of users. *)
Definition AUTH_USER : model_key := ("auth", "user").
Definition framework (user : table) : schema := {[ AUTH_USER := user ]}.

(** The declared shapes but for an index. *)
Definition without_index (k : model_key) (columns : list string) (d : gmap model_key shape) : gmap model_key shape :=
  alter (λ s, mkShape (sh_columns s) (sh_ordering s) (sh_unique_together s) (sh_indexes s ∖ {[columns]}) (sh_constraints s) (sh_proxy_of s)) k d.

(** [KyorugiResult] asks for an index no migration makes. *)
Definition migrated_shapes : gmap model_key shape :=
  without_index ("competitions", "kyorugiresult") ["competition"; "weight_category"] declared.

Local Abbreviation ids := (migration_of <$> migrations).

Lemma migrations_apart : apart_unless_ordered migrations = true.
Proof. vm_compute. reflexivity. Qed.

Fixpoint ordered_in (D l : list migration_id) : bool :=
  match l with [] => true | i :: l => forallb (λ d, bool_decide (d ∈ D)) (dependencies_of migrations i) && ordered_in (i :: D) l end.

Lemma ordered_in_ordered D l : ordered_in D l = true → ordered (dependencies_of migrations) D l.
Proof.
  revert D. induction l as [|i l IH]; intros D; [done|]. cbn. rewrite andb_true_iff, forallb_forall. intros [Hd Hl]. split; [|by apply IH].
  intros d Hin%list_elem_of_In. by apply Hd, bool_decide_eq_true in Hin.
Qed.

Lemma migrations_ordered : ordered (dependencies_of migrations) [] ids.
Proof. apply ordered_in_ordered. vm_compute. reflexivity. Qed.
Lemma migrations_distinct : NoDup ids.
Proof. apply (bool_decide_eq_true_1 (NoDup ids)). vm_compute. reflexivity. Qed.

Lemma migrations_result user :
  match run (apply_migration migrations) ids (framework user) with
  | Some s => bool_decide (shape_of <$> delete AUTH_USER s = migrated_shapes)
  | None => false
  end = true.
Proof. vm_compute. reflexivity. Qed.

Lemma migrations_keep_user user :
  match run (apply_migration migrations) ids (framework user) with Some s => s !! AUTH_USER | None => None end = Some user.
Proof. vm_compute. reflexivity. Qed.

Lemma migrations_run user : ∃ s, run (apply_migration migrations) ids (framework user) = Some s ∧
  s !! AUTH_USER = Some user ∧ shape_of <$> delete AUTH_USER s = migrated_shapes.
Proof.
  pose proof (migrations_result user) as H. pose proof (migrations_keep_user user) as H'.
  destruct (run (apply_migration migrations) ids (framework user)) as [s|]; [|done]. exists s. exact (conj eq_refl (conj H' (bool_decide_eq_true_1 _ H))).
Qed.

Lemma migrate_state user st : rtc (migrate migrations) ([], framework user) st → ∃ s,
  run (apply_migration migrations) (remaining migrations st.1) st.2 = Some s ∧
  s !! AUTH_USER = Some user ∧ shape_of <$> delete AUTH_USER s = migrated_shapes.
Proof.
  intros Hst. destruct (migrations_run user) as (s & Hs & Hu & Hd). exists s. refine (conj _ (conj Hu Hd)).
  exact (migrate_completes migrations _ s st migrations_apart migrations_distinct migrations_ordered Hs Hst).
Qed.

(** What remains starts with a migration that may be applied. *)
Lemma migrate_goes_on user st i rest : rtc (migrate migrations) ([], framework user) st → remaining migrations st.1 = i :: rest →
  ∃ s', migrate migrations st ((st.1 ++ [i])%list, s').
Proof.
  intros Hst Hi. destruct (migrate_state user st Hst) as (s & Hrun & _). apply migrate_runs in Hst as (_ & Ho & _ & _).
  assert (Hrest : ordered (dependencies_of migrations) st.1 (remaining migrations st.1)).
  { refine (ordered_remaining migrations [] st.1 st.1 ids migrations_ordered _ (λ a H, H)). by intros a ?%not_elem_of_nil. }
  assert (Hin : i ∈ remaining migrations st.1) by (rewrite Hi; by left).
  apply elem_of_filter_list in Hin as [Hin Hnew]. apply bool_decide_eq_true in Hnew.
  rewrite Hi in Hrun, Hrest. destruct Hrest as [Hd _]. cbn [run] in Hrun.
  destruct (apply_migration migrations i st.2) as [s'|] eqn:E; [|done]. exists s'. destruct st as [d0 s0]. by constructor.
Qed.

(** C36: Migrations end in the models. However far and in whatever order the command has come, it is not stuck,
    and what remains leads to the shape the models declare, apart from one index. *)
Theorem migrations_reach_models user st : rtc (migrate migrations) ([], framework user) st →
  (remaining migrations st.1 = [] ∨ ∃ st', migrate migrations st st') ∧
  ∃ s, run (apply_migration migrations) (remaining migrations st.1) st.2 = Some s ∧
    s !! AUTH_USER = Some user ∧ shape_of <$> delete AUTH_USER s = migrated_shapes.
Proof.
  intros Hst. split; [|exact (migrate_state user st Hst)]. destruct (remaining migrations st.1) as [|i rest] eqn:E; [by left|right].
  destruct (migrate_goes_on user st i rest Hst E) as [s' Hs']. by eexists.
Qed.

(** The discounts may come first. *)
Definition EMPTY_TABLE : table := mkTable ∅ [] [] ∅ ∅ None.
Definition DISCOUNTS_FIRST : migration_id := ("discounts", "0001_initial").
Definition after_discounts : schema := from_option id ∅ (apply_migration migrations DISCOUNTS_FIRST (framework EMPTY_TABLE)).

Lemma discounts_apply : match apply_migration migrations DISCOUNTS_FIRST (framework EMPTY_TABLE) with Some _ => true | None => false end = true.
Proof. vm_compute. reflexivity. Qed.

Lemma after_discounts_eq : apply_migration migrations DISCOUNTS_FIRST (framework EMPTY_TABLE) = Some after_discounts.
Proof. pose proof discounts_apply as H. unfold after_discounts. by destruct (apply_migration _ _ _). Qed.

Lemma discounts_first : migrate migrations ([], framework EMPTY_TABLE) ([DISCOUNTS_FIRST], after_discounts).
Proof.
  apply (migrate_next migrations [] _ DISCOUNTS_FIRST); [|by apply not_elem_of_nil| |exact after_discounts_eq].
  - apply (bool_decide_eq_true_1 (DISCOUNTS_FIRST ∈ ids)). vm_compute. reflexivity.
  - intros d Hd. assert (Hnil : dependencies_of migrations DISCOUNTS_FIRST = []) by (vm_compute; reflexivity). by rewrite Hnil in Hd.
Qed.

Lemma migrations_reach_models_witness : ∃ s,
  run (apply_migration migrations) (remaining migrations [DISCOUNTS_FIRST]) after_discounts = Some s ∧
  s !! AUTH_USER = Some EMPTY_TABLE ∧ shape_of <$> delete AUTH_USER s = migrated_shapes.
Proof. exact (proj2 (migrations_reach_models EMPTY_TABLE ([DISCOUNTS_FIRST], after_discounts) (rtc_once _ _ discounts_first))). Defined.

(** The index the class asks for and no migration makes. *)
Example result_index_missing : bool_decide (declared = migrated_shapes) = false ∧
  (sh_indexes <$> declared !! ("competitions", "kyorugiresult")) = Some {[["competition"; "weight_category"]]} ∧
  (sh_indexes <$> migrated_shapes !! ("competitions", "kyorugiresult")) = Some ∅.
Proof. split_and!; vm_compute; reflexivity. Qed.

(** ** What a deletion reaches *)

(** Deleting a row of [b] deletes the rows of [a] that point at it. *)
Definition cascades (k : field_kind) (b : model_key) : bool :=
  match k with ForeignKey to CASCADE | OneToOneField to CASCADE => bool_decide (to = b) | _ => false end.

Definition carries (d : gmap model_key shape) (b a : model_key) : Prop :=
  ∃ sh n c, d !! a = Some sh ∧ sh_columns sh !! n = Some c ∧ cascades (co_kind c) b = true.

(** The models whose rows go with a row of [b], directly. *)
Definition carried_by (d : gmap model_key shape) (b : model_key) : list model_key :=
  fst <$> List.filter (λ ks : model_key * shape, existsb (λ nc, cascades (co_kind nc.2) b) (map_to_list (sh_columns ks.2))) (map_to_list d).

Lemma carries_spec d b a : carries d b a ↔ a ∈ carried_by d b.
Proof.
  unfold carries, carried_by. rewrite list_elem_of_fmap. split.
  - intros (sh & n & c & Ha & Hn & Hc). exists (a, sh). split; [done|]. apply elem_of_filter_list. split; [by apply elem_of_map_to_list|].
    apply existsb_exists. exists (n, c). split; [by apply list_elem_of_In, elem_of_map_to_list|done].
  - intros ([a' sh] & -> & [Ha Hex]%elem_of_filter_list). apply elem_of_map_to_list in Ha. apply existsb_exists in Hex as ([n c] & Hn & Hc).
    exists sh, n, c. split; [done|]. split; [by apply elem_of_map_to_list, list_elem_of_In|done].
Qed.

(** A list that is closed under what goes along bounds what a deletion reaches. *)
Lemma deletion_bound d b l a : b ∈ l → forallb (λ x, forallb (λ y, bool_decide (y ∈ l)) (carried_by d x)) l = true →
  rtc (carries d) b a → a ∈ l.
Proof.
  rewrite forallb_forall. intros Hb Hl Hr. refine (rtc_ind_r (λ a, a ∈ l) b Hb _ a Hr).
  intros x y _ Hxy Hx. apply carries_spec in Hxy. specialize (Hl x (proj1 (list_elem_of_In _ _) Hx)). rewrite forallb_forall in Hl.
  specialize (Hl y (proj1 (list_elem_of_In _ _) Hxy)). by apply bool_decide_eq_true in Hl.
Qed.

(** What is reached in so many rounds. *)
Fixpoint reached (fuel : nat) (d : gmap model_key shape) (l : list model_key) : list model_key :=
  match fuel with 0%nat => l | S fuel => reached fuel d (remove_dups (l ++ concat (carried_by d <$> l))) end.

Lemma reached_sound fuel d l a : a ∈ reached fuel d l → ∃ b, b ∈ l ∧ rtc (carries d) b a.
Proof.
  revert l. induction fuel as [|fuel IH]; intros l; cbn; [eauto using rtc_refl|]. intros (b & Hb & Hr)%IH.
  apply elem_of_remove_dups, elem_of_app in Hb as [Hb|Hb]; [by eauto|].
  apply list_elem_of_In, in_concat in Hb as (m & Hm & Hb). apply list_elem_of_In, list_elem_of_fmap in Hm as (x & -> & Hx).
  exists x. split; [done|]. eapply rtc_l; [|exact Hr]. apply carries_spec. by apply list_elem_of_In.
Qed.

(** A computed closure is exactly what a deletion reaches. *)
Lemma reached_exactly fuel d b l : reached fuel d [b] = l → bool_decide (b ∈ l) = true →
  forallb (λ x, forallb (λ y, bool_decide (y ∈ l)) (carried_by d x)) l = true → ∀ a, rtc (carries d) b a ↔ a ∈ l.
Proof.
  intros <- Hb Hl a. split; [by apply deletion_bound; [apply bool_decide_eq_true in Hb|]|].
  intros (x & ->%list_elem_of_singleton & Hr)%reached_sound. done.
Qed.

Definition PAYMENT_INTENT : model_key := ("payments", "paymentintent").
Definition USER_PROFILE : model_key := ("accounts", "userprofile").

(** The models outside the framework are those of the final shapes. *)
Lemma final_table_shape user st k : rtc (migrate migrations) ([], framework user) st → remaining migrations st.1 = [] → k ≠ AUTH_USER →
  (shape_of <$> st.2) !! k = migrated_shapes !! k.
Proof.
  intros Hst Hdone Hk. destruct (migrate_state user st Hst) as (s & Hrun & _ & Hd). rewrite Hdone in Hrun. injection Hrun as <-.
  rewrite <- Hd, !lookup_fmap. by rewrite lookup_delete_ne by done.
Qed.

(** A key that a deletion empties, and can be empty. *)
Definition emptied (c : column) : bool :=
  match co_kind c with
  | ForeignKey _ SET_NULL | OneToOneField _ SET_NULL => co_null c
  | ForeignKey _ _ | OneToOneField _ _ => false
  | _ => true
  end.

Definition intent_columns : list (string * column) := from_option (map_to_list ∘ sh_columns) [] (migrated_shapes !! PAYMENT_INTENT).

Lemma intent_keys_emptied : forallb (λ nc, emptied nc.2) intent_columns = true.
Proof. vm_compute. reflexivity. Qed.

Lemma emptied_not_carried c b : emptied c = true → cascades (co_kind c) b = false.
Proof. unfold emptied, cascades. by destruct (co_kind c) as [| | | | | | | | | | | | | | | |? []|? []|]. Qed.

(** C37: Payments survive deletions. Once the migrations are applied, no deletion of a row of another model
    reaches a payment intent, however many rows go with it: every key of an intent is emptied, and may be empty. *)
Theorem payments_survive_deletions user st b : rtc (migrate migrations) ([], framework user) st → remaining migrations st.1 = [] →
  (rtc (carries (shape_of <$> st.2)) b PAYMENT_INTENT → b = PAYMENT_INTENT) ∧
  ∀ sh n c, (shape_of <$> st.2) !! PAYMENT_INTENT = Some sh → sh_columns sh !! n = Some c → emptied c = true.
Proof.
  intros Hst Hdone. assert (Hkeys : ∀ sh n c, (shape_of <$> st.2) !! PAYMENT_INTENT = Some sh → sh_columns sh !! n = Some c → emptied c = true).
  { intros sh n c Hsh Hn. rewrite (final_table_shape user st PAYMENT_INTENT Hst Hdone) in Hsh by (intros Heq; discriminate Heq).
    pose proof intent_keys_emptied as H. rewrite forallb_forall in H. apply (H (n, c)). unfold intent_columns. rewrite Hsh.
    by apply list_elem_of_In, elem_of_map_to_list. }
  split; [|exact Hkeys]. intros [->|(m & _ & sh & n & c & Hsh & Hn & Hc)]%rtc_inv_r; [reflexivity|].
  rewrite (emptied_not_carried c m (Hkeys sh n c Hsh Hn)) in Hc. discriminate Hc.
Qed.

(** What goes with a profile: among it what coaches paid for their groups; and what goes with a competition:
    among it its points, which the totals of the players keep. *)
Example profile_takes_group_payments : ∀ a, rtc (carries migrated_shapes) USER_PROFILE a ↔
  a ∈ reached 3 migrated_shapes [USER_PROFILE].
Proof. refine (reached_exactly 3 _ _ _ eq_refl _ _); vm_compute; reflexivity. Qed.

Example profile_takes_these :
  list_to_set (C := gset string) (snd <$> reached 3 migrated_shapes [USER_PROFILE]) =
  {["userprofile"; "pendingeditprofile"; "profilechangehistory"; "coachclubrequest"; "coachapproval"; "firstroundpairhistory";
    "poomsaecoachapproval"; "poomsaeteam"; "poomsaeteammember"; "groupregistrationpayment"]}.
Proof. vm_compute. reflexivity. Qed.

Example competition_takes_points :
  let l := reached 3 migrated_shapes [("competitions", "kyorugicompetition")] in
  forallb (λ a, bool_decide (a ∈ l)) [("competitions", "rankingtransaction"); ("competitions", "rankingaward");
    ("competitions", "groupregistrationpayment"); ("competitions", "discountcode")] = true.
Proof. vm_compute. reflexivity. Qed.

(** Every order of migrations can be walked. *)
Lemma run_walks (done l : list migration_id) s s' : ordered (dependencies_of migrations) done l → NoDup (done ++ l) →
  (∀ i, i ∈ l → i ∈ ids) → run (apply_migration migrations) l s = Some s' →
  rtc (migrate migrations) (done, s) ((done ++ l)%list, s').
Proof.
  revert done s. induction l as [|i l IH]; intros done s Ho Hnd Hin Hr.
  - rewrite app_nil_r. injection Hr as ->. apply rtc_refl.
  - destruct Ho as [Hd Ho]. cbn [run] in Hr. destruct (apply_migration migrations i s) as [s1|] eqn:E; [|discriminate Hr].
    apply (rtc_l _ _ ((done ++ [i])%list, s1)).
    + constructor; [apply Hin; by left| |exact Hd|exact E]. apply NoDup_app in Hnd as (_ & Hdis & _). intros Hi. apply (Hdis i Hi). by left.
    + change (done ++ i :: l)%list with (done ++ [i] ++ l)%list in *. rewrite app_assoc in *. apply IH; [|exact Hnd| |exact Hr].
      * eapply ordered_mono; [|exact Ho]. intros a [->|Ha]%elem_of_cons; apply elem_of_app; [right; by left|by left].
      * intros j Hj. apply Hin. by right.
Qed.

Lemma all_remaining_none : remaining migrations ids = [].
Proof. vm_compute. reflexivity. Qed.

Lemma migrate_can_finish user : ∃ st, rtc (migrate migrations) ([], framework user) st ∧ remaining migrations st.1 = [].
Proof.
  destruct (migrations_run user) as (s & Hs & _). exists (ids, s). refine (conj _ all_remaining_none).
  exact (run_walks [] ids _ s migrations_ordered migrations_distinct (λ i H, H) Hs).
Qed.

Lemma payments_survive_deletions_witness : ∃ st, remaining migrations st.1 = [] ∧
  ¬ rtc (carries (shape_of <$> st.2)) USER_PROFILE PAYMENT_INTENT.
Proof.
  destruct (migrate_can_finish EMPTY_TABLE) as (st & Hst & Hdone). exists st. refine (conj Hdone _). intros Hr.
  pose proof (proj1 (payments_survive_deletions EMPTY_TABLE st USER_PROFILE Hst Hdone) Hr) as H. discriminate H.
Defined.

(** ** Checks and emptied keys *)

(** The value of a condition on a row: unknown where a column is null. *)
Section checks.
Context (at_most : string → string → bool).

Definition both (a b : option bool) : option bool :=
  match a, b with Some false, _ | _, Some false => Some false | Some true, Some true => Some true | _, _ => None end.
Definition either (a b : option bool) : option bool :=
  match a, b with Some true, _ | _, Some true => Some true | Some false, Some false => Some false | _, _ => None end.

Fixpoint holds (r : string → option string) (c : condition) : option bool :=
  match c with
  | Is f v => x ← r f; Some (String.eqb x v)
  | IsNull f b => Some (Bool.eqb (bool_decide (r f = None)) b)
  | AtMost f g => x ← r f; y ← r g; Some (at_most x y)
  | And l => foldr both (Some true) (map (holds r) l)
  | Or l => foldr either (Some false) (map (holds r) l)
  end.

(** The database refuses a row whose check is false. *)
Definition passes (r : string → option string) (c : condition) : Prop := holds r c ≠ Some false.

Definition empty_column (f : string) (r : string → option string) : string → option string :=
  λ g, if String.eqb g f then None else r g.

Fixpoint holds_same (r r' : string → option string) (c : condition) {struct c} :
  (∀ f, f ∈ condition_columns c → r f = r' f) → holds r c = holds r' c.
Proof.
  assert (Hall : ∀ l, (∀ f, f ∈ concat (map condition_columns l) → r f = r' f) → map (holds r) l = map (holds r') l).
  { induction l as [|x l IH]; [reflexivity|]. cbn. intros Hl. f_equal.
    - apply holds_same. intros f Hf. apply Hl, elem_of_app. by left.
    - apply IH. intros f Hf. apply Hl, elem_of_app. by right. }
  destruct c as [f v|f b|f g|l|l]; cbn; intros Hr.
  - by rewrite (Hr f) by by left.
  - by rewrite (Hr f) by by left.
  - rewrite (Hr f), (Hr g); [done|right; by left|by left].
  - by rewrite Hall.
  - by rewrite Hall.
Qed.

Lemma empty_other f r c : f ∉ condition_columns c → holds (empty_column f r) c = holds r c.
Proof.
  intros Hf. apply holds_same. intros g Hg. unfold empty_column. destruct (String.eqb_spec g f) as [->|Hne]; [done|reflexivity].
Qed.

(** The keys a deletion empties and the checks that read them. *)
Definition read_by_check (t : shape) : list (string * condition) :=
  concat ((λ nc : string * column, if emptied nc.2 && negb (bool_decide (target (co_kind nc.2) = [])) then
    concat ((λ c : string * constraint, match c.2 with
      | CheckConstraint q => if bool_decide (nc.1 ∈ condition_columns q) then [(nc.1, q)] else []
      | UniqueConstraint _ _ => [] end) <$> map_to_list (sh_constraints t)) else []) <$> map_to_list (sh_columns t)).

Lemma read_by_check_spec t n c k q : sh_columns t !! n = Some c → emptied c = true → target (co_kind c) ≠ [] →
  sh_constraints t !! k = Some (CheckConstraint q) → n ∈ condition_columns q → (n, q) ∈ read_by_check t.
Proof.
  intros Hn Hc Ht Hk Hq. unfold read_by_check. apply list_elem_of_In, in_concat. eexists. split.
  - apply in_map_iff. exists (n, c). split; [reflexivity|]. by apply list_elem_of_In, elem_of_map_to_list.
  - cbn [fst snd]. rewrite Hc, (bool_decide_false _ Ht). cbn. apply in_concat. eexists. split.
    + apply in_map_iff. exists (k, CheckConstraint q). split; [reflexivity|]. by apply list_elem_of_In, elem_of_map_to_list.
    + cbn [snd]. rewrite (bool_decide_true _ Hq). by left.
Qed.

Definition POOMSAE_ENTRY : model_key := ("competitions", "poomsaeenrollment").

(** The two checks over keys: one entry at most per payment, a player or a team per poomsae entry. *)
Definition one_target : condition :=
  Or [And [IsNull "kyorugi_enrollment" true; IsNull "poomsae_enrollment" true; IsNull "seminar_registration" true];
      And [IsNull "kyorugi_enrollment" false; IsNull "poomsae_enrollment" true; IsNull "seminar_registration" true];
      And [IsNull "kyorugi_enrollment" true; IsNull "poomsae_enrollment" false; IsNull "seminar_registration" true];
      And [IsNull "kyorugi_enrollment" true; IsNull "poomsae_enrollment" true; IsNull "seminar_registration" false]].
Definition player_or_team : condition :=
  Or [And [Is "mode" "single"; IsNull "player" false; IsNull "team" true];
      And [Is "mode" "team"; IsNull "player" true; IsNull "team" false]].

Definition checks_read_in (d : gmap model_key shape) : list (model_key * (string * condition)) :=
  concat ((λ ks : model_key * shape, pair ks.1 <$> read_by_check ks.2) <$> map_to_list d).

Lemma checks_read_in_spec d k t n q : d !! k = Some t → (n, q) ∈ read_by_check t → (k, (n, q)) ∈ checks_read_in d.
Proof.
  intros Hk Hq. apply list_elem_of_In, in_concat. eexists. split.
  - apply in_map_iff. exists (k, t). split; [reflexivity|]. by apply list_elem_of_In, elem_of_map_to_list.
  - apply in_map_iff. exists (n, q). split; [reflexivity|]. by apply list_elem_of_In.
Qed.

Definition checks_read : list (model_key * (string * condition)) := checks_read_in migrated_shapes.

Lemma checks_read_are : forallb (λ x, bool_decide (x ∈ [(PAYMENT_INTENT, ("kyorugi_enrollment", one_target));
  (PAYMENT_INTENT, ("poomsae_enrollment", one_target)); (PAYMENT_INTENT, ("seminar_registration", one_target));
  (POOMSAE_ENTRY, ("team", player_or_team))])) checks_read = true.
Proof. vm_compute. reflexivity. Qed.

Lemma checks_read_cases k n q : (k, (n, q)) ∈ checks_read →
  (q = one_target ∧ n ∈ ["kyorugi_enrollment"; "poomsae_enrollment"; "seminar_registration"]) ∨
  (k = POOMSAE_ENTRY ∧ n = "team" ∧ q = player_or_team).
Proof.
  intros Hin. pose proof checks_read_are as H. rewrite forallb_forall in H. apply list_elem_of_In, H in Hin.
  apply bool_decide_eq_true in Hin.
  apply elem_of_cons in Hin as [Heq|Hin]; [injection Heq as -> -> ->; left; refine (conj eq_refl _); by left|].
  apply elem_of_cons in Hin as [Heq|Hin]; [injection Heq as -> -> ->; left; refine (conj eq_refl _); right; by left|].
  apply elem_of_cons in Hin as [Heq|Hin]; [injection Heq as -> -> ->; left; refine (conj eq_refl _); do 2 right; by left|].
  apply list_elem_of_singleton in Hin. injection Hin as -> -> ->. right. exact (conj eq_refl (conj eq_refl eq_refl)).
Qed.

Lemma one_target_kept f r : f ∈ ["kyorugi_enrollment"; "poomsae_enrollment"; "seminar_registration"] →
  passes r one_target → passes (empty_column f r) one_target.
Proof.
  intros Hf. unfold passes, one_target. cbn [map holds foldr].
  assert (He : ∀ g, bool_decide (empty_column f r g = None) = if String.eqb g f then true else bool_decide (r g = None)).
  { intros g. unfold empty_column. by destruct (String.eqb g f). }
  rewrite !He. clear He. repeat (apply elem_of_cons in Hf as [->|Hf]); [..|by apply not_elem_of_nil in Hf]; cbn;
  destruct (bool_decide (r "kyorugi_enrollment" = None)), (bool_decide (r "poomsae_enrollment" = None)),
    (bool_decide (r "seminar_registration" = None)); cbn; congruence.
Qed.

Lemma single_entry_kept r : r "mode" = Some "single" → passes r player_or_team → passes (empty_column "team" r) player_or_team.
Proof.
  unfold passes, player_or_team, empty_column. cbn. intros ->. cbn.
  destruct (bool_decide (r "player" = None)), (bool_decide (r "team" = None)); cbn; congruence.
Qed.

Lemma team_entry_refused r : r "mode" = Some "team" → ¬ passes (empty_column "team" r) player_or_team.
Proof.
  unfold passes, player_or_team, empty_column. cbn. intros -> H. apply H. cbn. by destruct (bool_decide (r "player" = None)).
Qed.

(** C38: Emptied keys keep the checks. When a deletion empties a key of a row, the row still passes every check
    of its table, unless the key is the team of a poomsae entry that is not a single one; the entry of a team
    never passes, so a team with an entry cannot be deleted, nor can its coach. *)
Theorem emptied_keys_keep_checks user st k t n c q kq r :
  rtc (migrate migrations) ([], framework user) st → remaining migrations st.1 = [] → k ≠ AUTH_USER →
  (shape_of <$> st.2) !! k = Some t → sh_columns t !! n = Some c → emptied c = true → target (co_kind c) ≠ [] →
  sh_constraints t !! kq = Some (CheckConstraint q) → passes r q →
  passes (empty_column n r) q ∨
  (k = POOMSAE_ENTRY ∧ n = "team" ∧ q = player_or_team ∧ r "mode" ≠ Some "single" ∧
   (r "mode" = Some "team" → ¬ passes (empty_column n r) q)).
Proof.
  intros Hst Hdone Hk Ht Hn Hc Hkey Hkq Hp. destruct (decide (n ∈ condition_columns q)) as [Hin|Hout].
  2: { left. unfold passes. by rewrite empty_other. }
  rewrite (final_table_shape user st k Hst Hdone Hk) in Ht. pose proof (read_by_check_spec t n c kq q Hn Hc Hkey Hkq Hin) as Hread.
  pose proof (checks_read_in_spec migrated_shapes k t n q Ht Hread) as Hall.
  apply checks_read_cases in Hall as [[-> Hf]|(-> & -> & ->)]; [left; by apply one_target_kept|].
  destruct (decide (r "mode" = Some "single")) as [Hm|Hm]; [left; by apply single_entry_kept|right].
  exact (conj eq_refl (conj eq_refl (conj eq_refl (conj Hm (team_entry_refused r))))).
Qed.
End checks.

(** An intent for an entry, whose entry is deleted. *)
Definition intent_row : string → option string := λ f, if String.eqb f "kyorugi_enrollment" then Some "7" else None.

Definition kyorugi_key : column := field (ForeignKey ("competitions", "enrollment") SET_NULL) [null; blank; related_name "payment_intents"].

Lemma intent_shape : match migrated_shapes !! PAYMENT_INTENT with
  | Some t => bool_decide (sh_columns t !! "kyorugi_enrollment" = Some kyorugi_key) &&
              bool_decide (sh_constraints t !! "payments_at_most_one_target_fk" = Some (CheckConstraint one_target))
  | None => false end = true.
Proof. vm_compute. reflexivity. Qed.

Lemma emptied_keys_keep_checks_witness : passes (λ _ _, true) (empty_column "kyorugi_enrollment" intent_row) one_target.
Proof.
  destruct (migrate_can_finish EMPTY_TABLE) as (st & Hst & Hdone).
  assert (Hne : PAYMENT_INTENT ≠ AUTH_USER) by (intros H; discriminate H).
  pose proof (final_table_shape EMPTY_TABLE st PAYMENT_INTENT Hst Hdone Hne) as Hf. pose proof intent_shape as Hs.
  destruct (migrated_shapes !! PAYMENT_INTENT) as [t|] eqn:Et; [|discriminate Hs].
  apply andb_true_iff in Hs as [H1%bool_decide_eq_true H2%bool_decide_eq_true].
  assert (Hp : passes (λ _ _, true) intent_row one_target) by (intros H; vm_compute in H; discriminate H).
  destruct (emptied_keys_keep_checks (λ _ _, true) EMPTY_TABLE st PAYMENT_INTENT t "kyorugi_enrollment" kyorugi_key one_target
    "payments_at_most_one_target_fk" intent_row Hst Hdone Hne Hf H1 eq_refl ltac:(intros H; discriminate H) H2 Hp) as [H|(H & _)];
    [exact H|discriminate H].
Defined.
