(* ===== verification/BankAdapters.v ===== *)
(** What stands between the payments and the banks: the signed requests to Sadad ([payments/sadad_service.py]),
    the keys of the settings of the gateways ([payments/bridge.py] and [payments/views.py]), and the gateways the
    project brings along ([payments/gateways/]).

    Bytes are characters of [string]. The cipher of [Crypto] and the replies of the bank are parameters. *)

From Stdlib Require Import Ascii.
From stdpp Require Import pretty.
From S2P Require Import Prelude Ranking Payments GroupRegistration BankReturn Text Query Accounts.
Local Open Scope Z_scope.

(** ** Base64 ([base64] of the standard library) *)

Definition b64_digit (n : Z) : ascii :=
  of_code (if n <? 26 then 65 + n else if n <? 52 then 71 + n else if n <? 62 then n - 4 else if n =? 62 then 43 else 47).

Definition b64_value (c : ascii) : option Z :=
  let n := code c in
  if between 65 90 n then Some (n - 65)
  else if between 97 122 n then Some (n - 71)
  else if between 48 57 n then Some (n + 4)
  else if n =? 43 then Some 62
  else if n =? 47 then Some 63
  else None.

Fixpoint b64encode (s : string) : string :=
  match s with
  | EmptyString => EmptyString
  | String a EmptyString =>
      String (b64_digit (code a / 4)) (String (b64_digit (code a mod 4 * 16)) "==")
  | String a (String b EmptyString) =>
      String (b64_digit (code a / 4)) (String (b64_digit (code a mod 4 * 16 + code b / 16))
        (String (b64_digit (code b mod 16 * 4)) "="))
  | String a (String b (String c s)) =>
      String (b64_digit (code a / 4)) (String (b64_digit (code a mod 4 * 16 + code b / 16))
        (String (b64_digit (code b mod 16 * 4 + code c / 64)) (String (b64_digit (code c mod 64)) (b64encode s))))
  end.

(** [b64decode(.., validate=True)]: nothing but digits in fours, the last four filled up with [=]; the bits
    left over are dropped. *)
Fixpoint b64decode (s : string) : option string :=
  match s with
  | EmptyString => Some EmptyString
  | String p (String q (String r (String t s'))) =>
      x ← b64_value p;
      y ← b64_value q;
      let a := of_code (x * 4 + y / 16) in
      if Ascii.eqb r "=" then
        if Ascii.eqb t "=" && String.eqb s' "" then Some (String a "") else None
      else
        z ← b64_value r;
        let b := of_code (y mod 16 * 16 + z / 4) in
        if Ascii.eqb t "=" then if String.eqb s' "" then Some (String a (String b "")) else None
        else
          w ← b64_value t;
          rest ← b64decode s';
          Some (String a (String b (String (of_code (z mod 4 * 64 + w)) rest)))
  | _ => None
  end.

(** ** [payments/sadad_service.py] *)

Definition PAYMENT_REQUEST_URL : string := "https://sadad.shaparak.ir/VPG/api/v0/Request/PaymentRequest".
Definition PURCHASE_URL : string := "https://sadad.shaparak.ir/VPG/Purchase".
Definition VERIFY_URL : string := "https://sadad.shaparak.ir/VPG/api/v0/Advice/Verify".

(** [bytes([n]) * k]. *)
Fixpoint repeated (k : nat) (c : ascii) : string := match k with O => EmptyString | S k => String c (repeated k c) end.

(** The padding to whole blocks; at least one byte. *)
Definition _pkcs7_pad (b : string) (block : Z) : string :=
  let pad := block - Z.of_nat (String.length b) mod block in
  (b ++ repeated (Z.to_nat pad) (of_code pad))%string.

(** [AZ_IRANIAN_BANK_GATEWAYS["GATEWAYS"]["SADAD"]] and the addresses of the settings. *)
Record sadad_settings := mkSadadSettings {
  sd_gateways : gmap string (gmap string string);
  sd_callback_base : string;
  sd_return_url : string;
}.

Record SadadConfig := mkSadadConfig {
  sc_merchant_id : string;
  sc_terminal_id : string;
  sc_callback_url : string;
  sc_return_url : string;
}.

Record payment_request := mkPaymentRequest {
  MerchantId : string;
  TerminalId : string;
  Amount : Z;
  OrderId : Z;
  LocalDateTime : string;
  ReturnUrl : string;
  SignData : string;
  AdditionalData : string;
}.

(** [rstrip("/")]. *)
Fixpoint rstrip_slash (s : string) : string :=
  match s with
  | EmptyString => EmptyString
  | String c s' => let t := rstrip_slash s' in if String.eqb t "" && Ascii.eqb c "/" then EmptyString else String c t
  end.

Section sadad.
(** [DES3.new(key, MODE_ECB).encrypt(..)]; it refuses some keys and anything but whole blocks. *)
Context (des3 : string → string → option string) (cfg : sadad_settings).

Definition sadad_key (name : string) : option string := sd_gateways cfg !! "SADAD"%string ≫= λ g, g !! name.

(** The key as it is, if it is not base64. *)
Definition _key_bytes : option string :=
  key_raw ← sadad_key "TERMINAL_KEY";
  match b64decode key_raw with Some k => Some k | None => b64decode (b64encode key_raw) end.

Definition _encrypt_3des_b64 (plaintext : string) : option string :=
  key ← _key_bytes;
  enc ← des3 key (_pkcs7_pad plaintext 8);
  Some (b64encode enc).

Definition sign_text (terminal_id : string) (order_id amount_rial : Z) : string :=
  (terminal_id ++ String ";" (pretty order_id ++ String ";" (pretty amount_rial)))%string.

Definition _sign_for_request (order_id amount_rial : Z) : option string :=
  terminal_id ← sadad_key "TERMINAL_ID";
  _encrypt_3des_b64 (sign_text terminal_id order_id amount_rial).

Definition _sign_for_verify (token : string) : option string := _encrypt_3des_b64 token.

Definition get_cfg : option SadadConfig :=
  m ← sadad_key "MERCHANT_ID";
  t ← sadad_key "TERMINAL_ID";
  Some (mkSadadConfig m t (rstrip_slash (sd_callback_base cfg) ++ "/sadad/") (sd_return_url cfg)).

(** What [request_token] and [verify_token] send; [local_time] is the text of the clock. *)
Definition request_token (order_id amount_toman : Z) (public_id local_time : string) : option (string * payment_request) :=
  c ← get_cfg;
  let amount_rial := amount_toman * 10 in
  sign ← _sign_for_request order_id amount_rial;
  Some (PAYMENT_REQUEST_URL,
        mkPaymentRequest (sc_merchant_id c) (sc_terminal_id c) amount_rial order_id local_time (sc_callback_url c) sign public_id).

Definition verify_token (token : string) : option (string * (string * string)) :=
  sign ← _sign_for_verify token;
  Some (VERIFY_URL, (token, sign)).

Definition purchase_url (token : string) : string := PURCHASE_URL ++ "?Token=" ++ token.
End sadad.

(** ** The keys of the gateways ([payments/bridge.py], [_bridge_bank_gateways_to_enum]) *)

(** A value of [BANK_GATEWAYS]: the configuration of a bank, a bank, or anything else. *)
Inductive gateway_value (K : Type) :=
  | Conf (c : gmap string string)
  | Bank (k : K)
  | Other (s : string).
Arguments Conf {K}. Arguments Bank {K}. Arguments Other {K}.

(** [{"MERCHANT_ID", "TERMINAL_ID", "TERMINAL_KEY"} <= v.keys()]. *)
Definition complete (c : gmap string string) : bool :=
  forallb (λ n, bool_decide (is_Some (c !! n))) ["MERCHANT_ID"; "TERMINAL_ID"; "TERMINAL_KEY"]%string.

(** Keys of the dictionary: texts, and the banks of the package, whose enums may or may not equal a text. The
    package may lack either enum. *)
Section keys.
Context {K : Type} `{Countable K} (str_key : string → K) (model_bmi enum_bmi : option K) (enum_text : string).
Local Abbreviation gateways := (gmap K (gateway_value K)).

Definition setdefault (k : K) (v : gateway_value K) (d : gateways) : gateways :=
  match d !! k with Some _ => d | None => <[k := v]> d end.

Definition conf_at (d : gateways) (name : string) : option (gmap string string) :=
  match d !! str_key name with Some (Conf c) => if complete c then Some c else None | _ => None end.

Fixpoint first_some {A B} (f : A → option B) (l : list A) : option B :=
  match l with [] => None | x :: l => match f x with Some y => Some y | None => first_some f l end end.

(** The configuration: under one of the names, or the three values of [SADAD]. *)
Definition gateway_source (d : gateways) (az : gmap string (gmap string string)) : option (gmap string string) :=
  match first_some (conf_at d) ["BMI"; "bmi"; "SADAD"; "Sadad"; "sadad"]%string with
  | Some c => Some c
  | None =>
      s ← az !! "SADAD"%string;
      m ← s !! "MERCHANT_ID"%string;
      t ← s !! "TERMINAL_ID"%string;
      k ← s !! "TERMINAL_KEY"%string;
      Some (list_to_map [("MERCHANT_ID", m); ("TERMINAL_ID", t); ("TERMINAL_KEY", k)]%string)
  end.

Definition force_bridge_all_banktype_keys (d : gateways) (az : gmap string (gmap string string)) : gateways :=
  match gateway_source d az with
  | None => d
  | Some val =>
      let d := match model_bmi with
               | Some b => <[str_key "DEFAULT" := Bank b]> (setdefault b (Conf val) d)
               | None => d end in
      let d := match enum_bmi with
               | Some b => setdefault (str_key enum_text) (Conf val) (setdefault b (Conf val) d)
               | None => d end in
      setdefault (str_key "BMI") (Conf val) d
  end.

(** [SmartDict]: a key is looked up as it is, by its name, its value, its text, and as BMI. *)
Record smart_key := mkSmartKey { sk_key : K; sk_name : option K; sk_value : option K; sk_text : string }.

Definition smart_get (d : gateways) (k : smart_key) : option (gateway_value K) :=
  first_some (λ o : option K, o ≫= λ x, d !! x)
    [Some (sk_key k); sk_name k; sk_value k; Some (str_key (sk_text k)); Some (str_key "BMI")].

Definition _bridge_bank_gateways_to_enum (bmi : K) (d : gateways) : gateways :=
  match d !! bmi with
  | Some _ => d
  | None => <[bmi := default (Conf ∅) (d !! str_key "BMI")]> d
  end.
End keys.

(** ** The gateways of the project ([payments/gateways/]) *)

Record gateway_settings := mkGatewaySettings {
  gs_default : option string;
  gs_options : gmap string (gmap string string);
  gs_return_url : option string;
}.

(** The only gateway there is, with its options. *)
Inductive gateway := FakeGateway (config : gmap string string).

Definition get_gateway (cfg : gateway_settings) (name : option string) : gateway :=
  let n := or_str (opt_str name) (default "fake" (gs_default cfg)) in
  FakeGateway (default ∅ (gs_options cfg !! n)).

(** Its two operations: the address and the token of a payment, and what it says of the way back. *)
Definition initiate (cfg : gateway_settings) (callback_url public_id : string) : string * string :=
  let return_url := or_str callback_url (default "http://localhost:3000/payment/result" (gs_return_url cfg)) in
  ((return_url ++ "?pid=" ++ public_id ++ "&status=OK&ref=TEST-" ++ upper (py_prefix 8 public_id))%string,
   ("FAKE-" ++ public_id)%string).

Definition verify (query : list (string * string)) : bool * string * string :=
  (true, or_str (qd_get query "ref") ("FAKE-" ++ upper (py_prefix 8 (qd_get query "pid"))), "****-****-****-0000"%string).

(** [payments/gateways.py], which the package of the same name hides. *)
Module hidden.
Definition start (public_id : string) : string * string := (("FAKE-" ++ upper public_id)%string, "603799******0000"%string).

Definition verify (query : list (string * string)) : bool * string * string :=
  (String.eqb (if qd_has query "ok" then qd_get query "ok" else "1") "1", ("FAKE-VERIFY-" ++ qd_get query "pid")%string,
   "603799******0000"%string).

Definition get_gateway (name : option string) : result unit :=
  if String.eqb (lower (opt_str name)) "fake" then Ok tt else Err ValueError.
End hidden.

(** ** Codes of characters *)

Lemma code_range c : 0 ≤ code c < 256.
Proof. unfold code. pose proof (nat_ascii_bounded c). lia. Qed.
Lemma of_code_code c : of_code (code c) = c.
Proof. unfold of_code, code. rewrite Nat2Z.id. apply ascii_nat_embedding. Qed.
Lemma code_of_code n : 0 ≤ n < 256 → code (of_code n) = n.
Proof. intros Hn. unfold of_code, code. rewrite nat_ascii_embedding by lia. lia. Qed.

Lemma of_code_eq n c : n = code c → of_code n = c.
Proof. intros ->. apply of_code_code. Qed.

Definition digit_ok (n : Z) : bool := bool_decide (b64_value (b64_digit n) = Some n) && negb (Ascii.eqb (b64_digit n) "=").

Lemma digits_ok n : 0 ≤ n < 64 → b64_value (b64_digit n) = Some n ∧ Ascii.eqb (b64_digit n) "=" = false.
Proof.
  intros Hn. assert (Hall : forallb digit_ok (seqZ 0 64) = true) by (vm_compute; reflexivity).
  rewrite forallb_forall in Hall. specialize (Hall n (proj1 (list_elem_of_In _ _) (proj2 (elem_of_seqZ 0 64 n) Hn))).
  unfold digit_ok in Hall. rewrite andb_true_iff, negb_true_iff in Hall. destruct Hall as [H1%bool_decide_eq_true H2]. done.
Qed.

(** The four digits of three bytes. *)
Lemma split_bytes a b c : 0 ≤ a < 256 → 0 ≤ b < 256 → 0 ≤ c < 256 →
  let x := a / 4 in let y := a mod 4 * 16 + b / 16 in let z := b mod 16 * 4 + c / 64 in let w := c mod 64 in
  (0 ≤ x < 64 ∧ 0 ≤ y < 64 ∧ 0 ≤ z < 64 ∧ 0 ≤ w < 64) ∧
  x * 4 + y / 16 = a ∧ y mod 16 * 16 + z / 4 = b ∧ z mod 4 * 64 + w = c.
Proof. intros Ha Hb Hc. cbv zeta. split; [|split_and!]; Z.to_euclidean_division_equations; lia. Qed.

Lemma digit_value n : 0 ≤ n < 64 → b64_value (b64_digit n) = Some n.
Proof. intros Hn. by apply digits_ok. Qed.
Lemma digit_not_pad n : 0 ≤ n < 64 → Ascii.eqb (b64_digit n) "=" = false.
Proof. intros Hn. by apply digits_ok. Qed.

Lemma b64decode_b64encode s : b64decode (b64encode s) = Some s.
Proof.
  assert (Hall : ∀ n t, (String.length t <= n)%nat → b64decode (b64encode t) = Some t); [|by apply (Hall (String.length s))].
  induction n as [|n IH]; intros t Hn; [by destruct t; [|cbn in Hn; lia]|].
  destruct t as [|a [|b [|c t]]]; [done|..]; pose proof (code_range a) as Ha; cbn [b64encode].
  - destruct (split_bytes (code a) 0 0 Ha ltac:(lia) ltac:(lia)) as [(Hx & Hy & _) (Ea & _)].
    change (0 / 16) with 0 in *. rewrite Z.add_0_r in *. cbn [b64decode].
    rewrite (digit_value _ Hx), (digit_value _ Hy). cbn. by rewrite Ea, of_code_code.
  - pose proof (code_range b) as Hb. destruct (split_bytes (code a) (code b) 0 Ha Hb ltac:(lia)) as [(Hx & Hy & Hz & _) (Ea & Eb & _)].
    change (0 / 64) with 0 in *. rewrite Z.add_0_r in Hz, Eb. cbn [b64decode].
    rewrite (digit_value _ Hx), (digit_value _ Hy), (digit_value _ Hz), (digit_not_pad _ Hz). cbn.
    by rewrite Ea, Eb, !of_code_code.
  - pose proof (code_range b) as Hb. pose proof (code_range c) as Hc.
    destruct (split_bytes (code a) (code b) (code c) Ha Hb Hc) as [(Hx & Hy & Hz & Hw) (Ea & Eb & Ec)]. cbn [b64decode].
    rewrite (digit_value _ Hx), (digit_value _ Hy), (digit_value _ Hz), (digit_value _ Hw), (digit_not_pad _ Hz), (digit_not_pad _ Hw).
    cbn [mbind option_bind]. rewrite IH by (cbn in Hn; lia). cbn. by rewrite Ea, Eb, Ec, !of_code_code.
Qed.

Lemma b64encode_inj s t : b64encode s = b64encode t → s = t.
Proof. intros Heq. assert (H : Some s = Some t) by by rewrite <- !b64decode_b64encode, Heq. by injection H. Qed.

(** ** Padding *)

Lemma repeat_length k c : String.length (repeated k c) = k.
Proof. induction k as [|k IH]; [done|]. cbn. by rewrite IH. Qed.

Lemma pad_range n block : 0 < block → 1 ≤ block - n mod block ≤ block.
Proof. intros Hb. pose proof (Z.mod_pos_bound n block Hb). lia. Qed.

Lemma pkcs7_length b block : 0 < block →
  Z.of_nat (String.length (_pkcs7_pad b block)) = Z.of_nat (String.length b) + (block - Z.of_nat (String.length b) mod block).
Proof.
  intros Hb. unfold _pkcs7_pad. rewrite string_length_app, repeat_length.
  pose proof (pad_range (Z.of_nat (String.length b)) block Hb). lia.
Qed.

(** Whole blocks, and at least one byte more. *)
Lemma pkcs7_blocks b block : 0 < block →
  Z.of_nat (String.length (_pkcs7_pad b block)) mod block = 0 ∧ (String.length b < String.length (_pkcs7_pad b block))%nat.
Proof.
  intros Hb. pose proof (pkcs7_length b block Hb) as Hl. pose proof (pad_range (Z.of_nat (String.length b)) block Hb). split; [|lia].
  rewrite Hl. set (n := Z.of_nat (String.length b)). replace (n + (block - n mod block)) with (block * (n / block + 1)) by (pose proof (Z.div_mod n block); lia).
  rewrite Z.mul_comm. apply Z.mod_mul. lia.
Qed.

Fixpoint last_char (c : ascii) (s : string) : ascii := match s with EmptyString => c | String d s => last_char d s end.

Lemma last_char_app c s d t : last_char c (s ++ String d t) = last_char d t.
Proof. revert c. induction s as [|e s IH]; intros c; [done|]. cbn. apply IH. Qed.

Lemma last_repeat c k : last_char c (repeated k c) = c.
Proof. induction k as [|k IH]; [done|exact IH]. Qed.

(** The last byte is the length of the padding. *)
Lemma pkcs7_last b c : last_char c (_pkcs7_pad b 8) = of_code (8 - Z.of_nat (String.length b) mod 8).
Proof.
  unfold _pkcs7_pad. pose proof (pad_range (Z.of_nat (String.length b)) 8 ltac:(lia)) as Hr.
  destruct (Z.to_nat (8 - Z.of_nat (String.length b) mod 8)) as [|k] eqn:E; [lia|].
  cbn [repeated]. rewrite last_char_app. apply last_repeat.
Qed.

Lemma app_inv_length (a b c d : string) : String.length a = String.length b → (a ++ c)%string = (b ++ d)%string → a = b.
Proof.
  revert b. induction a as [|x a IH]; intros [|y b]; cbn; [done|done|done|]. intros [= Hl] [= -> Heq]. by rewrite (IH b Hl Heq).
Qed.

Lemma pkcs7_inj a b : _pkcs7_pad a 8 = _pkcs7_pad b 8 → a = b.
Proof.
  intros Heq. pose proof (pkcs7_last a "x") as Ha. rewrite Heq, pkcs7_last in Ha.
  pose proof (pad_range (Z.of_nat (String.length a)) 8 ltac:(lia)) as Ra. pose proof (pad_range (Z.of_nat (String.length b)) 8 ltac:(lia)) as Rb.
  apply (f_equal code) in Ha. rewrite !code_of_code in Ha by lia.
  pose proof (f_equal (Z.of_nat ∘ String.length) Heq) as Hl. cbn in Hl. rewrite !pkcs7_length in Hl by lia.
  unfold _pkcs7_pad in Heq. eapply app_inv_length; [|exact Heq]. lia.
Qed.

(** ** What is signed *)

Lemma pretty_N_digits (n : N) : all_digits (pretty n) = true.
Proof.
  unfold pretty, pretty_N. destruct (decide (n = 0%N)) as [->|Hn]; [done|]. apply pretty_go_digits; [lia|done].
Qed.

Definition no_semicolon (c : ascii) : bool := negb (Ascii.eqb c ";").

Lemma pretty_no_semicolon (z : Z) : all_chars no_semicolon (pretty z) = true.
Proof.
  assert (Hd : ∀ s, all_digits s = true → all_chars no_semicolon s = true).
  { intros s Hs. rewrite all_digits_chars in Hs. eapply all_chars_impl; [|exact Hs]. intros c Hc. unfold no_semicolon.
    destruct (Ascii.eqb_spec c ";") as [->|]; done. }
  destruct z as [|p|p]; [done|..].
  - change (pretty (Z.pos p)) with (pretty (N.pos p)). apply Hd, pretty_N_digits.
  - change (pretty (Z.neg p)) with (String "-" (pretty (N.pos p))). cbn [all_chars]. rewrite (Hd _ (pretty_N_digits _)). done.
Qed.

(** The text says which order and which amount. *)
Lemma sign_text_inj t o a o' a' : sign_text t o a = sign_text t o' a' → o = o' ∧ a = a'.
Proof.
  intros Heq. assert (Hrest : (pretty o ++ String ";" (pretty a))%string = (pretty o' ++ String ";" (pretty a'))%string).
  { unfold sign_text in Heq. revert Heq. clear. induction t as [|c t IH]; cbn; intros [= Heq]; auto. }
  assert (Hp : partition ";" (pretty o ++ String ";" (pretty a)) = partition ";" (pretty o' ++ String ";" (pretty a'))) by by rewrite Hrest.
  rewrite !partition_at in Hp by apply pretty_no_semicolon. injection Hp as Ho Ha. split; by apply (inj pretty).
Qed.

(** ** Signatures *)

Section signatures.
Context (des3 : string → string → option string) (cfg : sadad_settings).

(** A cipher can be undone. *)
Context (des3_inj : ∀ key x y e, des3 key x = Some e → des3 key y = Some e → x = y).

Lemma encrypt_inj x y e : _encrypt_3des_b64 des3 cfg x = Some e → _encrypt_3des_b64 des3 cfg y = Some e → x = y.
Proof.
  unfold _encrypt_3des_b64. destruct (_key_bytes cfg) as [key|]; [|done]. cbn.
  destruct (des3 key (_pkcs7_pad x 8)) as [a|] eqn:Ea; [|done]. destruct (des3 key (_pkcs7_pad y 8)) as [b|] eqn:Eb; [|done]. cbn.
  intros [= <-] [= Heq%b64encode_inj]. subst b. apply pkcs7_inj. by eapply des3_inj.
Qed.

Lemma sign_request_inj o a o' a' e : _sign_for_request des3 cfg o a = Some e → _sign_for_request des3 cfg o' a' = Some e → o = o' ∧ a = a'.
Proof.
  unfold _sign_for_request. destruct (sadad_key cfg "TERMINAL_ID") as [t|]; [|done]. cbn. intros H1 H2.
  apply (sign_text_inj t). by eapply encrypt_inj.
Qed.

Lemma request_token_spec o t p time u r : request_token des3 cfg o t p time = Some (u, r) →
  u = PAYMENT_REQUEST_URL ∧ OrderId r = o ∧ Amount r = t * 10 ∧ AdditionalData r = p ∧
  _sign_for_request des3 cfg (OrderId r) (Amount r) = Some (SignData r).
Proof.
  unfold request_token. destruct (get_cfg cfg) as [c|]; [|done]. cbn [mbind option_bind].
  destruct (_sign_for_request des3 cfg o (t * 10)) as [s|] eqn:E; [|done]. cbn. by intros [= <- <-].
Qed.

(** A signature fits one payment. The request that asks the bank for a token names the amount in rials that
    was signed, and two requests with the same signature are for the same order and the same amount. *)
Theorem signature_fits_one_payment o t p time u r o' t' p' time' u' r' :
  request_token des3 cfg o t p time = Some (u, r) → request_token des3 cfg o' t' p' time' = Some (u', r') →
  OrderId r = o ∧ Amount r = 10 * t ∧ (SignData r = SignData r' → o = o' ∧ t = t').
Proof.
  intros (_ & Ho & Ha & _ & Hs)%request_token_spec (_ & Ho' & Ha' & _ & Hs')%request_token_spec.
  split; [done|]. split; [lia|]. intros Heq. rewrite Heq in Hs. destruct (sign_request_inj _ _ _ _ _ Hs Hs') as [H1 H2]. lia.
Qed.
End signatures.

(** A cipher that leaves the bytes alone, for the witness. *)
Definition plain_cipher (key bytes : string) : option string := Some bytes.

Lemma plain_cipher_inj key x y e : plain_cipher key x = Some e → plain_cipher key y = Some e → x = y.
Proof. unfold plain_cipher. congruence. Qed.

Definition sample_sadad : sadad_settings :=
  mkSadadSettings {[ "SADAD"%string := list_to_map [("MERCHANT_ID", "1"); ("TERMINAL_ID", "24"); ("TERMINAL_KEY", "a2V5")]%string ]}
    "https://api.chbtkd.ir/" "https://chbtkd.ir".

Lemma signature_fits_one_payment_witness : ∃ u r,
  request_token plain_cipher sample_sadad 7 1500 "pid" "2026/01/01 10:00:00" = Some (u, r) ∧ OrderId r = 7 ∧ Amount r = 15000.
Proof.
  destruct (request_token plain_cipher sample_sadad 7 1500 "pid" "2026/01/01 10:00:00") as [[u r]|] eqn:E; [|discriminate E].
  exists u, r. destruct (signature_fits_one_payment plain_cipher sample_sadad (λ key x y e H1 H2, eq_ind _ (λ z, x = z) (eq_sym (f_equal (default "")
    (eq_trans H2 (eq_sym H1)))) _ eq_refl) 7 1500 "pid" "2026/01/01 10:00:00" u r 7 1500 "pid" "2026/01/01 10:00:00" u r E E) as (H1 & H2 & _).
  exact (conj eq_refl (conj H1 H2)).
Defined.

(** A key that is not base64 is taken as it is; the settings of the project name their gateway [BMI], so the
    service finds no key at all. *)
Lemma plain_key cfg key : sadad_key cfg "TERMINAL_KEY" = Some key → b64decode key = None → _key_bytes cfg = Some key.
Proof. intros Hk Hd. unfold _key_bytes. rewrite Hk. cbn. by rewrite Hd, b64decode_b64encode. Qed.

Example sadad_key_missing : ∀ des3 c order amount,
  _sign_for_request des3 (mkSadadSettings {[ "BMI"%string := c ]} "" "") order amount = None.
Proof. intros. reflexivity. Qed.

(** ** Keys of the gateways *)

Section key_lemmas.
Context {K : Type} `{Countable K} (str_key : string → K) (model_bmi enum_bmi : option K) (enum_text : string).
Context `{!Inj (=) (=) str_key}.
Local Abbreviation gateways := (gmap K (gateway_value K)).
Local Abbreviation force := (force_bridge_all_banktype_keys str_key model_bmi enum_bmi enum_text).

Lemma setdefault_has k v (d : gateways) : is_Some (setdefault k v d !! k).
Proof. unfold setdefault. destruct (d !! k) eqn:E; [by rewrite E|]. rewrite lookup_insert_eq. by eexists. Qed.

Lemma setdefault_keeps k v (d : gateways) j x : d !! j = Some x → setdefault k v d !! j = Some x.
Proof.
  intros Hj. unfold setdefault. destruct (d !! k) eqn:E; [done|]. rewrite lookup_insert_ne; [done|]. intros ->. congruence.
Qed.

Lemma setdefault_id k v (d : gateways) : is_Some (d !! k) → setdefault k v d = d.
Proof. intros [x Hx]. unfold setdefault. by rewrite Hx. Qed.

Lemma setdefault_keeps_some k v (d : gateways) j : is_Some (d !! j) → is_Some (setdefault k v d !! j).
Proof. intros [x Hx]. exists x. by apply setdefault_keeps. Qed.

Lemma force_keeps d az k v : d !! k = Some v → k ≠ str_key "DEFAULT" → force d az !! k = Some v.
Proof.
  intros Hk Hne. unfold force_bridge_all_banktype_keys. destruct (gateway_source str_key d az) as [val|]; [|done].
  apply setdefault_keeps. destruct model_bmi as [m|]; destruct enum_bmi as [e|]; repeat apply setdefault_keeps; try done;
    rewrite lookup_insert_ne by done; by apply setdefault_keeps.
Qed.

(** The names a configuration may stand under are none of the bridge's own making. *)
Lemma source_kept d az val : gateway_source str_key d az = Some val → is_Some (gateway_source str_key (force d az) az).
Proof.
  unfold gateway_source. set (names := ["BMI"; "bmi"; "SADAD"; "Sadad"; "sadad"]%string).
  assert (Hin : ∀ n, n ∈ names → n ≠ "DEFAULT"%string).
  { intros n Hn ->. by apply (bool_decide_eq_true_2 ("DEFAULT"%string ∈ names)) in Hn. }
  destruct (first_some (conf_at str_key d) names) as [c|] eqn:E.
  - intros _. assert (Hex : ∃ n c', n ∈ names ∧ conf_at str_key d n = Some c').
    { clearbody names. induction names as [|n l IH]; [done|]. cbn in E. destruct (conf_at str_key d n) eqn:En; [exists n; eexists; split; [by left|done]|].
      destruct (IH (λ m Hm, Hin m (proj2 (elem_of_cons _ _ _) (or_intror Hm))) E) as (m & c' & Hm & Hc). exists m, c'. split; [by right|done]. }
    destruct Hex as (n & c' & Hn & Hc). assert (Hf : is_Some (first_some (conf_at str_key (force d az)) names)).
    { assert (Hcf : is_Some (conf_at str_key (force d az) n)).
      { unfold conf_at in *. destruct (d !! str_key n) as [v|] eqn:Ev; [|done].
        rewrite (force_keeps d az _ v Ev) by (intros ?%(inj str_key); by apply (Hin n)). destruct v; [|done..]. destruct (complete c0); [by eexists|done]. }
      clear -Hn Hcf. induction Hn as [l|x y l Hn IH]; cbn; [by destruct Hcf as [? ->]; eexists|].
      destruct (conf_at str_key (force d az) y); [by eexists|by apply IH]. }
    destruct Hf as [x ->]. by eexists.
  - intros Ha. destruct (first_some (conf_at str_key (force d az)) names); [by eexists|]. by eexists.
Qed.

(** What stands after the bridge. *)
Lemma force_result d az val : gateway_source str_key d az = Some val →
  is_Some (force d az !! str_key "BMI") ∧
  (∀ b, model_bmi = Some b → is_Some (force d az !! b) ∧ force d az !! str_key "DEFAULT" = Some (Bank b)) ∧
  (∀ e, enum_bmi = Some e → is_Some (force d az !! e) ∧ is_Some (force d az !! str_key enum_text)).
Proof.
  intros Hv. unfold force_bridge_all_banktype_keys. rewrite Hv. split; [apply setdefault_has|]. split.
  - intros b ->. assert (Hb : is_Some (<[str_key "DEFAULT" := Bank b]> (setdefault b (Conf val) d) !! b)).
    { destruct (decide (str_key "DEFAULT" = b)) as [<-|Hne]; [rewrite lookup_insert_eq; by eexists|]. rewrite lookup_insert_ne by done. apply setdefault_has. }
    split; [|apply setdefault_keeps; destruct enum_bmi; repeat apply setdefault_keeps; apply lookup_insert_eq].
    apply setdefault_keeps_some. destruct enum_bmi; [by repeat apply setdefault_keeps_some|done].
  - intros e ->. split; apply setdefault_keeps_some; [apply setdefault_keeps_some|]; apply setdefault_has.
Qed.

(** The bridge settles the keys. From any source it gives every key of the bank a configuration and changes
    none that was there but the default; running it again changes nothing. *)
Theorem bridge_settles d az val : gateway_source str_key d az = Some val →
  is_Some (force d az !! str_key "BMI") ∧
  (∀ b, model_bmi = Some b → is_Some (force d az !! b) ∧ force d az !! str_key "DEFAULT" = Some (Bank b)) ∧
  (∀ e, enum_bmi = Some e → is_Some (force d az !! e) ∧ is_Some (force d az !! str_key enum_text)) ∧
  (∀ k v, d !! k = Some v → k ≠ str_key "DEFAULT" → force d az !! k = Some v) ∧
  force (force d az) az = force d az.
Proof.
  intros Hv. destruct (force_result d az val Hv) as (H1 & H2 & H3). split; [done|]. split; [done|]. split; [done|].
  split; [intros k v; apply force_keeps|]. destruct (source_kept d az val Hv) as [val' Hv'].
  unfold force_bridge_all_banktype_keys at 1. rewrite Hv'. set (d' := force d az) in *.
  assert (Hm : match model_bmi with Some b => <[str_key "DEFAULT" := Bank b]> (setdefault b (Conf val') d') | None => d' end = d').
  { destruct model_bmi as [b|]; [|done]. destruct (H2 b eq_refl) as [Hb Hd]. rewrite setdefault_id by done. by apply insert_id. }
  rewrite Hm. assert (He : match enum_bmi with Some b => setdefault (str_key enum_text) (Conf val') (setdefault b (Conf val') d') | None => d' end = d').
  { destruct enum_bmi as [e|]; [|done]. destruct (H3 e eq_refl) as [Hb Hd]. by rewrite !setdefault_id by (done || by rewrite setdefault_id). }
  rewrite He. by apply setdefault_id.
Qed.

(** With a configuration under [BMI], no key is ever missing. *)
Lemma smart_get_total d k : is_Some (d !! str_key "BMI") → is_Some (smart_get str_key d k).
Proof.
  intros Hb. unfold smart_get.
  change [Some (sk_key k); sk_name k; sk_value k; Some (str_key (sk_text k)); Some (str_key "BMI")] with
    ([Some (sk_key k); sk_name k; sk_value k; Some (str_key (sk_text k))] ++ [Some (str_key "BMI")]).
  generalize [Some (sk_key k); sk_name k; sk_value k; Some (str_key (sk_text k))]. intros l.
  induction l as [|o l IH]; cbn; [destruct Hb as [x ->]; by eexists|]. destruct (o ≫= _); [by eexists|done].
Qed.
End key_lemmas.

(** Keys as the package has them: its models know the bank by a text, its enums apart from every text. *)
Definition sample_config : gmap string string := list_to_map [("MERCHANT_ID", "1"); ("TERMINAL_ID", "24"); ("TERMINAL_KEY", "a2V5")]%string.

Lemma sample_source : gateway_source (K := string + unit) inl {[ inl "sadad"%string := Conf sample_config ]} ∅ = Some sample_config.
Proof. vm_compute. reflexivity. Qed.

Lemma bridge_settles_witness :
  let d : gmap (string + unit) (gateway_value (string + unit)) := {[ inl "sadad"%string := Conf sample_config ]} in
  let force := force_bridge_all_banktype_keys inl (Some (inl "BMI"%string)) (Some (inr tt)) "BankType.BMI" in
  is_Some (force d ∅ !! inr tt) ∧ force (force d ∅) ∅ = force d ∅.
Proof.
  destruct (bridge_settles (K := string + unit) inl (Some (inl "BMI"%string)) (Some (inr tt)) "BankType.BMI"
    {[ inl "sadad"%string := Conf sample_config ]} ∅ sample_config sample_source) as (_ & _ & H3 & _ & H5).
  exact (conj (proj1 (H3 (inr tt) eq_refl)) H5).
Defined.

(** A bank nobody knows gets the configuration of BMI. *)
Example unknown_bank_gets_bmi :
  let d : gmap string (gateway_value string) := {[ "BMI"%string := Conf sample_config ]} in
  smart_get (λ s, s) (_bridge_bank_gateways_to_enum (λ s, s) "BMI" d) (mkSmartKey "ZARINPAL" None None "BankType.ZARINPAL")%string
    = Some (Conf sample_config).
Proof. vm_compute. reflexivity. Qed.

(** ** The gateway of the project *)

(** Whatever gateway is asked for, it is the one that confirms every payment. *)
Lemma every_gateway_is_fake cfg name : ∃ config, get_gateway cfg name = FakeGateway config.
Proof. by eexists. Qed.

Example fake_confirms_anything : verify [] = (true, "FAKE-", "****-****-****-0000")%string.
Proof. reflexivity. Qed.

(** The module the package hides knew that other gateways do not exist. *)
Example hidden_refuses_sadad : hidden.get_gateway (Some "sadad"%string) = Err ValueError ∧ hidden.get_gateway (Some "FAKE"%string) = Ok tt.
Proof. split; vm_compute; reflexivity. Qed.
