(* ===== verification/SmsTransport.v ===== *)
(** The helper of [main/sms.py]: a verification code sent over one of two services of an SMS provider. No module of
    the project calls it; the accounts send theirs as [Moderation] says. *)

From S2P Require Import Prelude Ranking Payments.
Local Open Scope Z_scope.

(** The settings it reads; [MELIPAYAMAK_BODY_ID] has no default. *)
Record sms_transport := mkSmsTransport {
  tr_dry_run : bool;
  tr_api_key : option string;
  tr_body_id : option string;
  tr_sender : string;
  tr_username : string;
  tr_password : string;
}.

(** The answer, with the provider that gave it. *)
Inductive sms_sent :=
  | DryRun
  | ByConsole (status : Z) (body : string)
  | ByRest (status : Z) (body : string).

Definition CONSOLE_URL : string := "https://console.melipayamak.com/api/verify/".
Definition REST_URL : string := "https://rest.melipayamak.com/api/VerificationCode/Send".

Section transport.
(** The reply of a service to headers and a form: its status and its text, or an exception. *)
Context (cfg : sms_transport) (post : string → list (string * string) → list (string * string) → option (Z * string)).

Definition console_payload (body_id phone code : string) : list (string * string) :=
  [("to", phone); ("bodyId", body_id); ("args", code)]%string ++
  (if truthy_str (tr_sender cfg) then [("from", tr_sender cfg)]%string else []).

Definition console_headers : list (string * string) := [("x-api-key", opt_str (tr_api_key cfg))]%string.

Definition rest_payload (body_id phone code : string) : list (string * string) :=
  [("username", tr_username cfg); ("password", tr_password cfg); ("to", phone); ("text", code); ("bodyId", body_id)]%string.

(** The older service, or [SmsError]. *)
Definition send_by_rest (phone code : string) : result sms_sent :=
  if truthy_str (tr_username cfg) && truthy_str (tr_password cfg) then
    match tr_body_id cfg with
    | None => Err AttributeError
    | Some body_id =>
        match post REST_URL [] (rest_payload body_id phone code) with
        | Some (status, body) => if status =? 200 then Ok (ByRest status body) else Err OtherError
        | None => Err OtherError
        end
    end
  else Err OtherError.

Definition send_verification_code (phone code : string) : result sms_sent :=
  if tr_dry_run cfg then Ok DryRun
  else if truthy_str (opt_str (tr_api_key cfg)) then
    match tr_body_id cfg with
    | None => Err AttributeError
    | Some body_id =>
        match post CONSOLE_URL console_headers (console_payload body_id phone code) with
        | Some (status, body) =>
            if (status =? 200) && truthy_str (strip body) then Ok (ByConsole status body) else send_by_rest phone code
        | None => send_by_rest phone code
        end
    end
  else send_by_rest phone code.

(** A code is reported as sent only by a service that accepted it, or on a dry run. *)
Lemma sent_was_accepted phone code r : send_verification_code phone code = Ok r →
  match r with
  | DryRun => tr_dry_run cfg = true
  | ByConsole status body => status = 200 ∧ truthy_str (strip body) = true ∧
      ∃ id, tr_body_id cfg = Some id ∧ post CONSOLE_URL console_headers (console_payload id phone code) = Some (status, body)
  | ByRest status body => status = 200 ∧
      ∃ id, tr_body_id cfg = Some id ∧ post REST_URL [] (rest_payload id phone code) = Some (status, body)
  end.
Proof.
  assert (Hrest : send_by_rest phone code = Ok r → match r with ByRest status body => status = 200 ∧
      ∃ id, tr_body_id cfg = Some id ∧ post REST_URL [] (rest_payload id phone code) = Some (status, body) | _ => False end).
  { unfold send_by_rest. destruct (_ && _); [|done]. destruct (tr_body_id cfg) as [id|]; [|done].
    destruct (post REST_URL _ _) as [[st b]|] eqn:E; [|done]. destruct (Z.eqb_spec st 200) as [->|]; [|done]. intros [= <-]. eauto. }
  unfold send_verification_code. destruct (tr_dry_run cfg); [by intros [= <-]|].
  destruct (truthy_str (opt_str (tr_api_key cfg))); [|by intros Hr%Hrest; destruct r].
  destruct (tr_body_id cfg) as [id|] eqn:Eid; [|done].
  destruct (post CONSOLE_URL _ _) as [[st b]|] eqn:E; [|by intros Hr%Hrest; destruct r].
  destruct (Z.eqb_spec st 200) as [->|]; [|by intros Hr%Hrest; destruct r]. cbn [andb].
  destruct (truthy_str (strip b)) eqn:Et; [|by intros Hr%Hrest; destruct r]. intros [= <-]. eauto.
Qed.

(** Without the older service, the failure of the console is the failure of the whole. *)
Lemma console_alone phone code id : tr_dry_run cfg = false → truthy_str (opt_str (tr_api_key cfg)) = true → tr_body_id cfg = Some id →
  truthy_str (tr_username cfg) = false → post CONSOLE_URL console_headers (console_payload id phone code) = None →
  send_verification_code phone code = Err OtherError.
Proof.
  intros Hd Ha Hid Hu Hp. unfold send_verification_code, send_by_rest. by rewrite Hd, Ha, Hid, Hp, Hu.
Qed.
End transport.
