(* ===== verification/ReportColumns.v ===== *)
(** The columns the reports look for. [reports/services.py] asks the models for columns by name, so that it fits
    several schemas; [Reports] is written for the columns it finds here. This file runs the searches on the
    declared models and shows that they find those, and that no schema the migrations lead to says otherwise. *)

From S2P Require Import Prelude Schema Models SchemaPaths Accounts Eligibility Reports.
Local Open Scope string_scope.

(** ** [_meta.get_field] *)

Definition find_model (k : model_key) : option model := List.find (λ m, bool_decide (model_name m = k)) models.

(** The columns a class or the base of a proxy declares. *)
Definition own_fields (k : model_key) : list (string * column) :=
  match find_model k with
  | Some (Model _ fs _) => with_id fs
  | Some (Proxy _ base) => match find_model base with Some (Model _ fs _) => with_id fs | _ => [] end
  | None => []
  end.

(** A key is also known by the name of its column. *)
Definition own_names (nc : string * column) : list string :=
  match co_kind nc.2 with ForeignKey _ _ | OneToOneField _ _ => [nc.1; nc.1 ++ "_id"] | _ => [nc.1] end.

(** The names under which other models are reached: the related name, else the name of the class; [+] hides it. *)
Definition reverse_names (k : model_key) : list string :=
  concat ((λ m, match m with
    | Model (app, name) fs _ => concat ((λ nc : string * column,
        if bool_decide (k ∈ target (co_kind nc.2)) then
          match co_related_name nc.2 with Some r => if String.eqb r "+" then [] else [r] | None => [name] end
        else []) <$> fs)
    | Proxy _ _ => [] end) <$> models)%list.

Definition _field_exists (k : model_key) (name : string) : bool :=
  existsb (String.eqb name) (concat (own_names <$> own_fields k) ++ reverse_names k)%list.

(** The first candidate the model has. *)
Definition first_field (k : model_key) (candidates : list string) : option string :=
  List.find (_field_exists k) candidates.

Definition _created_field (k : model_key) : option string :=
  first_field k ["created_at"; "date_joined"; "created"; "created_on"; "joined_at"].

Definition _created_or_approved_field (k : model_key) : option string :=
  first_field k ["approved_at"; "created_at"; "date_joined"; "created"; "joined_at"].

Definition many_to_many (k : model_key) (name : string) : bool :=
  existsb (λ nc, String.eqb nc.1 name && match co_kind nc.2 with ManyToManyField _ => true | _ => false end) (own_fields k).

(** Keys to a board, else many boards. *)
Definition _board_field_name (k : model_key) : option string :=
  match first_field k ["board"; "tkd_board"; "federation_board"; "province_board"; "hyat"; "heyat"] with
  | Some n => Some n
  | None => List.find (many_to_many k) ["boards"; "tkd_boards"; "related_boards"]
  end.

(** ** The searches of the services *)

Definition ROLE_FIELD_NAME : string := "role".

Definition code_field (k : model_key) : option string := first_field k ["national_code"; "nid"; "national_id"].
Definition player_field (k : model_key) : option string := first_field k ["player"; "athlete"; "user"; "profile"].
Definition coach_fields (k : model_key) : list string :=
  List.filter (_field_exists k) ["coach"; "coach_user"; "teacher"; "mentor"; "master"; "main_coach"; "head_coach"].

(** The belt of a profile: a key, columns of text, columns with choices. *)
Definition belt_text_fields (k : model_key) : list string :=
  List.filter (_field_exists k) ["belt_name"; "belt_title"; "belt"; "grade"; "level"; "dan"; "gup"; "kup"; "belt_color"; "color_belt"].
Definition belt_choice_fields (k : model_key) : list (string * list string) :=
  concat ((λ f, if _field_exists k f then
      (λ nc : string * column, (f, co_choices nc.2)) <$> List.filter (λ nc, String.eqb nc.1 f) (own_fields k) else [])
    <$> ["level"; "grade"; "belt_level"; "belt_grade"; "dan"; "kup"; "gup"; "belt"; "belt_color"])%list.

(** Models with results, and how they are linked to a player. *)
Definition existing_models (names : list string) : list model_key :=
  List.filter (λ k, negb (is_none (find_model k))) ((λ n, ("competitions", n)) <$> names).

Definition result_link (k : model_key) : option string :=
  match player_field k with
  | Some n => Some n
  | None => if _field_exists k "enrollment" then Some "enrollment__player" else None
  end.

Definition MEDAL_FIELDS : list string := ["medal"; "medal_type"; "medal_color"; "place"; "rank"; "position"; "standing"; "result"].

(** Models with points, and their link to a profile. *)
Definition ranking_links : list string :=
  omap (λ k, first_field k ["user"; "player"; "athlete"; "profile"]) (existing_models ["rankingtransaction"; "ranking"]).

(** ** The choices of the forms *)

(** The first class of these that can be imported. *)
Definition first_class (candidates : list model_key) : option model_key :=
  List.find (λ k, negb (is_none (find_model k))) candidates.

(** All belts, else no user; all clubs; all boards. *)
Definition get_belt_qs : model_key + unit :=
  match first_class [("accounts", "belt"); ("competitions", "belt")] with Some k => inl k | None => inr tt end.
Definition get_club_qs : option model_key := first_class [("accounts", "tkdclub")].
Definition get_board_qs : option model_key := first_class [("accounts", "tkdboard"); ("accounts", "board")].

(** The values [UserProfile] offers as belts, if the class has any. *)
Definition get_belt_choices : list string :=
  match List.find (λ nc, String.eqb nc.1 "belt_grade") (own_fields ("accounts", "userprofile")) with
  | Some nc => co_choices nc.2
  | None => []
  end.

(** ** What they find *)

Definition PROFILE : model_key := ("accounts", "userprofile").
Definition CLUB : model_key := ("accounts", "tkdclub").
Definition ENTRY : model_key := ("competitions", "enrollment").

(** The reports read the right columns. The searches of the services find the columns [Reports] is written
    for: role, club, national code, coach and board of a profile, its belt among the choices of the model, the days
    profiles and clubs were created, the player and the medal of an entry; the forms offer the belts, clubs and
    boards of this project; and no other model links results or
    points to a player. *)
Theorem reports_read_these_columns :
  (_field_exists PROFILE ROLE_FIELD_NAME ∧ _field_exists PROFILE "club") ∧
  code_field PROFILE = Some "national_code" ∧ coach_fields PROFILE = ["coach"] ∧ _board_field_name PROFILE = Some "tkd_board" ∧
  _board_field_name CLUB = Some "tkd_board" ∧ _created_field PROFILE = Some "created_at" ∧ _created_field CLUB = Some "created_at" ∧
  _created_or_approved_field PROFILE = Some "created_at" ∧
  _field_exists PROFILE "belt" = false ∧ belt_text_fields PROFILE = [] ∧ belt_choice_fields PROFILE = [("belt_grade", Reports.BELT_CHOICES)] ∧
  get_belt_qs = inl ("competitions", "belt") ∧ get_club_qs = Some CLUB ∧ get_board_qs = Some ("accounts", "tkdboard") ∧
  get_belt_choices = Reports.BELT_CHOICES ∧
  player_field ENTRY = Some "player" ∧ first_field ENTRY MEDAL_FIELDS = Some "medal" ∧
  omap result_link (existing_models ["kyorugiresult"; "competitionresult"; "result"]) = [] ∧ ranking_links = [].
Proof. split_and!; vm_compute; reflexivity. Qed.

(** The same columns are in the table of the profiles, whatever order the migrations took. *)
Lemma migrated_profile_columns user st n : rtc (migrate migrations) ([], framework user) st → remaining migrations st.1 = [] →
  n ∈ ["role"; "club"; "national_code"; "coach"; "tkd_board"; "belt_grade"; "created_at"] →
  ∃ sh, (shape_of <$> st.2) !! PROFILE = Some sh ∧ is_Some (sh_columns sh !! n).
Proof.
  intros Hst Hdone Hn. rewrite (final_table_shape user st PROFILE Hst Hdone) by (intros H; discriminate H).
  assert (Hall : match migrated_shapes !! PROFILE with
    | Some sh => forallb (λ n, bool_decide (is_Some (sh_columns sh !! n))) ["role"; "club"; "national_code"; "coach"; "tkd_board"; "belt_grade"; "created_at"]
    | None => false end = true) by (vm_compute; reflexivity).
  destruct (migrated_shapes !! PROFILE) as [sh|]; [|discriminate Hall]. exists sh. split; [reflexivity|].
  rewrite forallb_forall in Hall. specialize (Hall n (proj1 (list_elem_of_In _ _) Hn)). by apply bool_decide_eq_true in Hall.
Qed.
