(* ===== verification/JalaliForms.v ===== *)
(** Jalali dates on pages and in forms: the texts the pages show for stored dates, the widget of the forms of the
    admin ([common/widgets.py]), the birth dates profiles keep as text ([accounts/admin.py]), and the conversion of
    competitions whose dates were stored as Jalali numbers ([KyorugiCompetition.clean], [PoomsaeCompetition.clean],
    the command [fix_jalali_dates]).

    The calendar is that of jdatetime: [jalali y m d] is [jdatetime.date(y, m, d).togregorian()] and
    [fromgregorian g] is [jdatetime.date.fromgregorian(date=g)], [None] where they raise. Years have four digits,
    so that [strftime("%Y")] and [:04d] write the same text. *)

From Stdlib Require Import Ascii.
From stdpp Require Import pretty.
From S2P Require Import Prelude Store Ranking Payments GroupPayments GroupRegistration Text Dates Accounts.
Local Open Scope Z_scope.

(** What the code relies on of jdatetime. *)
Class Jdatetime (jalali : Z → Z → Z → option date) (fromgregorian : date → option date) : Prop := {
  jalali_shown y m d g : jalali y m d = Some g → fromgregorian g = Some (mkDate y m d);
  shown_jalali g j : fromgregorian g = Some j → jalali (d_year j) (d_month j) (d_day j) = Some g;
  shown_fits g j : fromgregorian g = Some j → fits j;
  shown_valid g j : fromgregorian g = Some j → valid g = true;
}.

(** A value of a template, a form or a column. [Moment] is a time without a time zone, [Aware] one with UTC, as the
    database gives it. *)
Inductive value :=
  | Nothing
  | Text (s : string)
  | Day (t : date)
  | Moment (t : date) (h m : Z)
  | Aware (instant : Z).

Definition truthy_value (v : value) : bool :=
  match v with Nothing => false | Text s => truthy_str s | _ => true end.

Section texts.
Context (jalali : Z → Z → Z → option date) (fromgregorian : date → option date).

(** The clock of an instant in UTC and in the time zone of the settings; texts of dates as Django reads them. *)
Context (utc local : Z → date * Z * Z) (parse_datetime : string → option value) (parse_date : string → option date).

(** [jdatetime.date.fromgregorian(date=g).strftime("%Y/%m/%d")], or another text if it raises. *)
Definition shown (other : string) (g : date) : string :=
  match fromgregorian g with Some j => ymd_text "/" j | None => other end.

(** [v.date()] of a time. *)
Definition date_of (v : value) : option date :=
  match v with Day t | Moment t _ _ => Some t | Aware n => Some (utc n).1.1 | _ => None end.
(** The same in the time zone of the settings. *)
Definition local_date (v : value) : option date :=
  match v with Aware n => Some (local n).1.1 | v => date_of v end.

(** ** [common/widgets.py] *)

Definition widget_to_jalali_str (v : value) : string :=
  if negb (truthy_value v) then ""%string
  else match v with
       | Text s =>
           let s := strip s in
           if contains "/" s && negb (contains "-" s) then s
           else match fromisoformat s with Some g => shown "" g | None => s end
       | v => match date_of v with Some g => shown "" g | None => ""%string end
       end.

(** [PersianDateWidget.value_from_datadict]. *)
Definition date_from_datadict (data : option string) : option date := _to_gregorian_date jalali (default ""%string data).

(** [s.split()]. *)
Definition split_space (s : string) : list string :=
  List.filter truthy_str (split_on " " (map_chars (λ c, if is_space c then " "%char else c) s)).

(** [PersianDateTimeWidget.value_from_datadict]; [fromisoformat] reads what is not Jalali. *)
Definition datetime_from_datadict (iso_datetime : string → option value) (data : option string) : option value :=
  let raw := slashes (strip (default ""%string data)) in
  if negb (truthy_str raw) then None
  else
    let j := match split_space raw with
      | [date_part; time_part] =>
          ymd ← match split_on "/" date_part with [y; m; d] => ints y m d | _ => None end;
          hm ← match take 2 (split_on ":" time_part) with
               | [hh; mm] => h ← py_int (_to_en_digits hh); m ← py_int (_to_en_digits mm); Some (h, m)
               | _ => None end;
          let '(y, m, d) := ymd in
          if (0 <=? hm.1) && (hm.1 <? 24) && (0 <=? hm.2) && (hm.2 <? 60)
          then g ← jalali y m d; Some (Moment g hm.1 hm.2) else None
      | _ => None
      end in
    match j with Some v => Some v | None => iso_datetime raw end.

(** ** The texts of the pages *)

(** [competitions/admin.py]. *)
Definition _localdate (v : value) : option date := if truthy_value v then local_date v else None.

Definition admin_to_jalali_str (v : value) : string :=
  if negb (truthy_value v) then "-"%string
  else
    let dt := match v with
              | Text s => match parse_datetime s with Some t => t | None => match parse_date s with Some g => Day g | None => Nothing end end
              | v => v end in
    match _localdate dt with Some g => shown "-" g | None => "-"%string end.

(** Date and minute; a day without a time is midnight. *)
Definition clock_of (v : value) : option (date * Z * Z) :=
  match v with Day g => Some (g, 0, 0) | Moment g h m => Some (g, h, m) | Aware n => Some (local n) | _ => None end.

Definition _to_jalali_dt_str (v : value) : string :=
  if negb (truthy_value v) then "—"%string
  else
    let base := match v with
      | Text s => match parse_datetime s with Some t => t | None => match parse_date s with Some g => Day g | None => Nothing end end
      | v => v end in
    match clock_of base with
    | Some (g, h, m) =>
        match fromgregorian g with
        | Some j => (ymd_text "/" j ++ " " ++ pad 2 h ++ ":" ++ pad 2 m)%string
        | None => "—"%string
        end
    | None => "—"%string
    end.

(** [competitions/serializers.py]; [_to_jalali_str] and [_g2j] take the date of a time as it is stored. *)
Definition _as_local_date (v : value) : option date := if truthy_value v then local_date v else None.
Definition _g2j (v : value) : result (option date) :=
  if negb (truthy_value v) then Ok None
  else match date_of v ≫= fromgregorian with Some j => Ok (Some j) | None => Err ValueError end.
Definition _j2str (jd : option date) : option string := ymd_text "/" <$> jd.
Definition _to_jalali_date_str (v : value) : option string :=
  if truthy_value v then _j2str (local_date v ≫= fromgregorian) else None.
Definition serializer_to_jalali_str (v : value) : option string :=
  if truthy_value v then _j2str (date_of v ≫= fromgregorian) else None.

(** [competitions/views.py]: a time without a zone is one of the time zone of the settings. *)
Definition view_to_jalali_str (v : value) : string :=
  if negb (truthy_value v) then ""%string
  else match local_date v with Some g => shown "" g | None => ""%string end.

(** [Seminar._date_to_jalali_str], of a column of dates. *)
Definition seminar_date_to_jalali_str (v : option date) : string :=
  match v with Some g => shown "" g | None => ""%string end.

(** [accounts/serializers.py]: small years are Jalali already. *)
Definition _to_jalali (v : option date) : option string :=
  (λ g, if d_year g <? 1700 then ymd_text "/" g else shown (slashes (isoformat g)) g) <$> v.

(** The filters [to_jalali] and [to_fa] of the templates. *)
Definition filter_to_jalali (v : value) : value :=
  if negb (truthy_value v) then Text ""
  else match v with
       | Text s =>
           let t := slashes (strip s) in
           match match_ymd (_to_en_digits t) with
           | Some (y, m, d) =>
               Text (if y <? 1700 then ymd_text "/" (mkDate y m d)
                     else match make_date y m d with Some g => shown t g | None => t end)
           | None => v
           end
       | v => match date_of v with
              | Some g => match fromgregorian g with Some j => Text (ymd_text "/" j) | None => Day g end
              | None => v end
       end.

Definition _EN_TO_FA : list (ascii * string) :=
  [("0"%char, "۰"); ("1"%char, "۱"); ("2"%char, "۲"); ("3"%char, "۳"); ("4"%char, "۴"); ("5"%char, "۵");
   ("6"%char, "۶"); ("7"%char, "۷"); ("8"%char, "۸"); ("9"%char, "۹")]%string.

Fixpoint to_fa (s : string) : string :=
  match s with
  | EmptyString => EmptyString
  | String c s =>
      ((match List.find (λ kv, Ascii.eqb kv.1 c) _EN_TO_FA with Some kv => kv.2 | None => String c "" end) ++ to_fa s)%string
  end.

(** ** [competitions/forms.py] *)

(** [_to_gregorian]: Jalali dates of the form fields, dates with Jalali numbers, texts; times stay as they are. *)
Definition _to_gregorian (v : date + value) : result value :=
  let of_numbers y m d := match jalali y m d with Some g => Ok (Day g) | None => Err ValueError end in
  match v with
  | inl j => of_numbers (d_year j) (d_month j) (d_day j)
  | inr Nothing => Ok Nothing
  | inr (Text s) =>
      if negb (truthy_str s) then Ok Nothing
      else match take 3 (split_on "/" (slashes (_fa2en (strip s)))) with
           | [y; m; d] => match ints y m d ≫= (λ ymd, let '(y, m, d) := ymd in jalali y m d) with
                          | Some g => Ok (Day g) | None => Err ValidationError end
           | _ => Err ValidationError
           end
  | inr v => match date_of v with
             | Some g => if d_year g <? 1700 then of_numbers (d_year g) (d_month g) (d_day g) else Ok v
             | None => Err ValidationError
             end
  end.

(** The text a field starts with; a day the calendar does not have raises. *)
Definition _set_initial_jalali (instance_date : option date) : result (option string) :=
  match instance_date with
  | Some g => match fromgregorian g with Some j => Ok (Some (ymd_text "/" j)) | None => Err ValueError end
  | None => Ok None
  end.

(** ** Birth dates as text ([accounts/admin.py]) *)

(** [re.fullmatch(r"\d{4}-\d{2}-\d{2}", ..)]. *)
Definition _looks_greg (s : string) : bool :=
  match split_on "-" (_to_en_digits (_fa2en s)) with
  | [y; m; d] => negb (is_none (part 4 4 y)) && negb (is_none (part 2 2 m)) && negb (is_none (part 2 2 d))
  | _ => false
  end.

Definition _greg_to_jalali_str (greg : string) : string :=
  let j := match split_on "-" (_fa2en greg) with
    | [y; m; d] => ints y m d ≫= λ ymd, let '(y, m, d) := ymd in make_date y m d ≫= fromgregorian
    | _ => None
    end in
  match j with Some j => ymd_text "/" j | None => greg end.

Definition _normalize_birth_input (s : string) : string :=
  let v := strip (_fa2en s) in if _looks_greg v then _greg_to_jalali_str v else slashes v.

Definition _date_to_jalali_str (v : value) : string :=
  match v with
  | Text s => _normalize_birth_input s
  | Nothing => _normalize_birth_input ""
  | v => match date_of v with Some g => shown "" g | None => ""%string end
  end.

(** The form of a profile or of an application: what it starts from, what the widget shows, what comes back through
    [CharField], which writes a date as a text, and what [clean_birth_date] makes of it.
    [clean_belt_certificate_date] does the same. *)
Definition form_initial (bd : string) : string := if _looks_greg bd then _greg_to_jalali_str bd else bd.
Definition form_shows (bd : string) : string := widget_to_jalali_str (Text (form_initial bd)).
Definition char_field (v : option date) : string := match v with Some g => strip (isoformat g) | None => ""%string end.
Definition clean_birth_date (v : value) : string :=
  match v with
  | Day _ | Moment _ _ _ | Aware _ => _date_to_jalali_str v
  | Text s => _normalize_birth_input s
  | Nothing => _normalize_birth_input ""
  end.
Definition form_saves (posted : string) : string := clean_birth_date (Text (char_field (date_from_datadict (Some posted)))).

(** The text after the form was opened and saved as it was. *)
Definition saved_again (bd : string) : string := form_saves (form_shows bd).

(** ** Jalali numbers in the columns *)

(** [_to_greg_if_jalali] of poomsae competitions, which keeps what it cannot convert. *)
Definition _to_greg_if_jalali (d : option date) : option date :=
  (λ g, if d_year g <? 1700 then default g (jalali (d_year g) (d_month g) (d_day g)) else g) <$> d.

(** The loop of [KyorugiCompetition.clean] and of the command, which raises. *)
Definition to_greg_or_raise (d : option date) : result (option date) :=
  match d with
  | Some g =>
      if d_year g <? 1700 then
        match jalali (d_year g) (d_month g) (d_day g) with Some t => Ok (Some t) | None => Err ValueError end
      else Ok d
  | None => Ok None
  end.

Fixpoint convert_all (ds : list (option date)) : result (list (option date)) :=
  match ds with
  | [] => Ok []
  | d :: ds =>
      match to_greg_or_raise d with
      | Err e => Err e
      | Ok d => match convert_all ds with Err e => Err e | Ok ds => Ok (d :: ds) end
      end
  end.

(** The dates of a kyorugi competition, in the order of [FIELDS]: registration from and to, weighing, draw and
    competition. *)
Definition FIELDS : list string := ["registration_start"; "registration_end"; "weigh_date"; "draw_date"; "competition_date"]%string.
Definition kyorugi_clean (ds : list (option date)) : result (list (option date)) := convert_all ds.
(** The six of a poomsae competition. *)
Definition poomsae_clean (ds : list (option date)) : list (option date) := _to_greg_if_jalali <$> ds.

(** The checks of the table: registration ends after it starts, weighing, draw and competition in this order. *)
Definition date_le (a b : option date) : bool :=
  match a, b with Some a, Some b => negb (date_ltb b a) | _, _ => true end.
Definition dates_ok (ds : list (option date)) : bool :=
  match ds with
  | [rs; re; w; dr; c] => date_le rs re && date_le w dr && date_le dr c
  | _ => true
  end.

Definition small_year (d : option date) : bool := match d with Some g => d_year g <? 1700 | None => false end.

(** The command [fix_jalali_dates]: competition by competition, each saved on its own; the first that fails ends it. *)
Definition fix_object (k : Z) : M (gmap Z (list (option date))) Z :=
  (t <~ get ;;
   match t !! k with
   | None => ret 0
   | Some ds =>
       match convert_all ds with
       | Err e => raise e
       | Ok ds' =>
           if existsb small_year ds then
             if dates_ok ds' then modify (insert k ds') ;;; ret 1 else raise IntegrityError
           else ret 0
       end
   end)%monad.

Fixpoint fix_all (ks : list Z) : M (gmap Z (list (option date))) Z :=
  match ks with
  | [] => ret 0
  | k :: ks => (n <~ fix_object k ;; rest <~ fix_all ks ;; ret (n + rest))%monad
  end.

Definition fix_jalali_dates : M (gmap Z (list (option date))) Z :=
  (t <~ get ;; fix_all (rows_by_id t).*1)%monad.
End texts.

(** ** Laws of the texts *)

Section laws.
Context (jalali : Z → Z → Z → option date) (fromgregorian : date → option date) `{!Jdatetime jalali fromgregorian}.
Context (utc local : Z → date * Z * Z).

Lemma all_chars_digits f s : (∀ c, is_digit c = true → f c = true) → all_digits s = true → all_chars f s = true.
Proof. intros Hf. rewrite all_digits_chars. by apply all_chars_impl. Qed.

Lemma ymd_text_all f sep t : fits t → (∀ c, is_digit c = true → f c = true) → f sep = true → all_chars f (ymd_text sep t) = true.
Proof.
  intros Ht Hf Hs. destruct (parts_spec t Ht) as (Hy & _ & _ & Hm & _ & _ & Hd & _). unfold ymd_text.
  rewrite all_chars_app, (all_chars_digits f _ Hf Hy). cbn [all_chars andb]. rewrite Hs, all_chars_app, (all_chars_digits f _ Hf Hm).
  cbn [all_chars andb]. by rewrite Hs, (all_chars_digits f _ Hf Hd).
Qed.

Lemma not_char_digit x c : is_digit x = false → is_digit c = true → negb (Ascii.eqb c x) = true.
Proof. intros Hx Hc. apply negb_true_iff, Ascii.eqb_neq. intros ->. congruence. Qed.

Lemma prefix_char c s : String.prefix (String c "") s = match s with String x _ => Ascii.eqb x c | EmptyString => false end.
Proof.
  destruct s as [|x s]; [done|]. cbn. destruct (ascii_dec c x) as [->|Hne]; [by rewrite Ascii.eqb_refl; destruct s|].
  symmetry. by apply Ascii.eqb_neq.
Qed.

Lemma contains_char c s : contains (String c "") s = negb (all_chars (λ x, negb (Ascii.eqb x c)) s).
Proof.
  induction s as [|x s IH]; [done|]. cbn [contains all_chars]. rewrite IH, prefix_char, negb_andb. by destruct (Ascii.eqb x c).
Qed.

Lemma contains_sep sep t : contains (String sep "") (ymd_text sep t) = true.
Proof.
  rewrite contains_char. unfold ymd_text. rewrite all_chars_app. cbn [all_chars]. by rewrite Ascii.eqb_refl, andb_false_r.
Qed.

Lemma contains_other x sep t : fits t → is_digit x = false → Ascii.eqb sep x = false → contains (String x "") (ymd_text sep t) = false.
Proof.
  intros Ht Hx Hs. rewrite contains_char, ymd_text_all; [done|done|intros c; by apply not_char_digit|by rewrite Hs].
Qed.

Lemma fa2en_id s : all_chars date_char s = true → _fa2en s = s.
Proof.
  intros Hs. apply foldl_fixed. intros kv Hin. assert (Hd : kv ∈ digit_pairs).
  { rewrite <- (take_drop 10 digit_pairs). apply elem_of_app. by left. }
  clear Hin. unfold digit_pairs in Hd.
  repeat (apply elem_of_cons in Hd as [->|Hd]; [apply replace_non_ascii; [apply Nat.leb_le; reflexivity|done]|]).
  by apply not_elem_of_nil in Hd.
Qed.

Lemma slashes_no_dash s : all_chars (λ c, negb (Ascii.eqb c "-")) (slashes s) = true.
Proof.
  unfold slashes. rewrite replace_char. induction s as [|c s IH]; [done|]. cbn [map_chars all_chars]. rewrite IH.
  rewrite andb_true_r. destruct (Ascii.eqb c "-") eqn:E; [done|]. by rewrite E.
Qed.

(** What the widget reads is a day of the Jalali calendar. *)
Lemma widget_reads_jalali s g : _to_gregorian_date jalali s = Some g → ∃ j, fromgregorian g = Some j.
Proof.
  unfold _to_gregorian_date. destruct (negb _); [done|]. cbv zeta.
  assert (Hiso : fromisoformat (slashes (strip s)) = None).
  { unfold fromisoformat. by rewrite split_on_last by apply slashes_no_dash. }
  destruct (split_on "/" (slashes (strip s))) as [|y [|m [|d [|]]]]; rewrite ?Hiso; try done.
  destruct (ints y m d) as [[[y' m'] d']|]; cbn; rewrite ?Hiso; [|done].
  destruct (jalali y' m' d') as [g'|] eqn:E; [|done]. intros [= <-]. eexists. by apply jalali_shown.
Qed.

Lemma looks_like sep g : sep_ok sep → fits g → _looks_greg (ymd_text sep g) = Ascii.eqb sep "-".
Proof.
  intros Hsep Hg. pose proof (ymd_text_chars sep g (sep_ok_char sep Hsep) Hg) as Hc. unfold _looks_greg.
  rewrite fa2en_id, to_en_digits_id by done. destruct Hsep as [->| ->].
  - rewrite ymd_text_split by done. destruct (parts_spec g Hg) as (Hy & Hly & Hny & Hm & Hlm & Hnm & Hd & Hld & Hnd).
    rewrite (part_pad 4 4 _ _ Hy), (part_pad 2 2 _ _ Hm), (part_pad 2 2 _ _ Hd) by (done || lia). done.
  - rewrite split_on_last; [done|]. apply ymd_text_all; [done|intros c; by apply not_char_digit|done].
Qed.

Lemma iso_to_jalali g j : fromgregorian g = Some j → _greg_to_jalali_str fromgregorian (isoformat g) = ymd_text "/" j.
Proof.
  intros Hj. pose proof (shown_valid g j Hj) as Hv. pose proof (valid_fits g Hv) as Hg. unfold _greg_to_jalali_str. rewrite isoformat_text.
  pose proof (ymd_text_chars "-" g eq_refl Hg) as Hc. rewrite fa2en_id by done. rewrite ymd_text_split by done.
  rewrite ints_text by done. cbn [mbind option_bind].
  rewrite make_date_valid by done. cbn. by rewrite Hj.
Qed.

Lemma normalize_iso g j : fromgregorian g = Some j → _normalize_birth_input fromgregorian (isoformat g) = ymd_text "/" j.
Proof.
  intros Hj. pose proof (valid_fits g (shown_valid g j Hj)) as Hg. unfold _normalize_birth_input.
  pose proof (ymd_text_chars "-" g eq_refl Hg) as Hc. rewrite isoformat_text, fa2en_id, strip_date by done.
  rewrite looks_like by (done || by left). by apply iso_to_jalali.
Qed.

Lemma normalize_empty : _normalize_birth_input fromgregorian "" = ""%string.
Proof.
  unfold _normalize_birth_input. replace (strip (_fa2en "")) with ""%string by (vm_compute; reflexivity).
  by replace (_looks_greg "") with false by (vm_compute; reflexivity).
Qed.

(** What is stored for a text that was posted: the day it names, or nothing. *)
Lemma form_saves_spec posted :
  form_saves jalali fromgregorian utc posted =
  match _to_gregorian_date jalali posted with Some g => shown fromgregorian "" g | None => ""%string end.
Proof.
  unfold form_saves, date_from_datadict. cbn [default id]. change (id posted) with posted. destruct (_to_gregorian_date jalali posted) as [g|] eqn:E; [|cbn [char_field clean_birth_date]; exact normalize_empty].
  destruct (widget_reads_jalali _ _ E) as [j Hj]. pose proof (valid_fits g (shown_valid g j Hj)) as Hg. cbn [char_field clean_birth_date].
  rewrite strip_date by (by apply (ymd_text_chars "-")). rewrite (normalize_iso g j Hj). unfold shown. by rewrite Hj.
Qed.

(** The widget shows a Jalali text as it is. *)
Lemma widget_shows_jalali j : fits j → widget_to_jalali_str fromgregorian utc (Text (ymd_text "/" j)) = ymd_text "/" j.
Proof.
  intros Hj. unfold widget_to_jalali_str. cbn [truthy_value]. rewrite text_truthy by done. cbn [negb].
  rewrite strip_date by (by apply (ymd_text_chars "/")). rewrite contains_sep, (contains_other "-" "/") by done. done.
Qed.

Lemma form_shows_jalali j : fits j → form_shows fromgregorian utc (ymd_text "/" j) = ymd_text "/" j.
Proof.
  intros Hj. unfold form_shows, form_initial. rewrite looks_like by (done || by right). by apply widget_shows_jalali.
Qed.

Lemma form_shows_iso g j : fromgregorian g = Some j → form_shows fromgregorian utc (isoformat g) = ymd_text "/" j.
Proof.
  intros Hj. unfold form_shows, form_initial. rewrite isoformat_text, looks_like by ((by left) || by apply valid_fits, (shown_valid g j)).
  rewrite <- isoformat_text. cbn [Ascii.eqb]. rewrite (iso_to_jalali g j Hj). apply widget_shows_jalali. by apply (shown_fits g).
Qed.

Lemma widget_returns j g : jalali (d_year j) (d_month j) (d_day j) = Some g → fits j →
  _to_gregorian_date jalali (ymd_text "/" j) = Some g.
Proof. intros Hj Hf. rewrite widget_reads; [done|by right|done]. Qed.

Lemma saves_jalali j g : fromgregorian g = Some j → form_saves jalali fromgregorian utc (ymd_text "/" j) = ymd_text "/" j.
Proof.
  intros Hj. rewrite form_saves_spec, (widget_returns j g) by (by apply shown_jalali || by apply (shown_fits g)). unfold shown. by rewrite Hj.
Qed.

Lemma saved_empty : saved_again jalali fromgregorian utc "" = ""%string.
Proof.
  unfold saved_again, form_shows, form_initial. replace (_looks_greg "") with false by (vm_compute; reflexivity).
  change (widget_to_jalali_str fromgregorian utc (Text "")) with ""%string. by rewrite form_saves_spec.
Qed.

(** C39: Saving a form keeps its dates. A date a form of the admin shows comes back as the same day. The form of a
    profile, which keeps the date as a text, leaves a Jalali text as it is and turns a Gregorian one into the same
    day in the Jalali calendar; any other text becomes the day the widget reads from it, or is lost if it reads
    none. Saving it a second time changes nothing. *)
Theorem forms_keep_dates :
  (∀ g j, fromgregorian g = Some j → date_from_datadict jalali (Some (widget_to_jalali_str fromgregorian utc (Day g))) = Some g) ∧
  (∀ g j, fromgregorian g = Some j →
     saved_again jalali fromgregorian utc (ymd_text "/" j) = ymd_text "/" j ∧
     saved_again jalali fromgregorian utc (isoformat g) = ymd_text "/" j) ∧
  (∀ bd, saved_again jalali fromgregorian utc bd =
     match _to_gregorian_date jalali (form_shows fromgregorian utc bd) with Some g => shown fromgregorian "" g | None => ""%string end) ∧
  (∀ bd, saved_again jalali fromgregorian utc (saved_again jalali fromgregorian utc bd) = saved_again jalali fromgregorian utc bd).
Proof.
  assert (Hshow : ∀ g j, fromgregorian g = Some j → fits j) by (intros g j; apply shown_fits).
  split; [|split; [|split]].
  - intros g j Hj. unfold date_from_datadict, widget_to_jalali_str, shown. cbn. rewrite Hj.
    apply widget_returns; [by apply shown_jalali|by eapply Hshow].
  - intros g j Hj. unfold saved_again. rewrite (form_shows_jalali j (Hshow g j Hj)), (form_shows_iso g j Hj).
    by rewrite (saves_jalali j g Hj).
  - intros bd. unfold saved_again. apply form_saves_spec.
  - intros bd. unfold saved_again at 2 3. rewrite form_saves_spec.
    destruct (_to_gregorian_date jalali (form_shows fromgregorian utc bd)) as [g|] eqn:E; [|exact saved_empty].
    destruct (widget_reads_jalali _ _ E) as [j Hj]. unfold shown. rewrite Hj. unfold saved_again.
    by rewrite (form_shows_jalali j (Hshow g j Hj)), (saves_jalali j g Hj).
Qed.
End laws.

(** On a day of the calendar every page writes the same text. *)
Section pages.
Context (jalali : Z → Z → Z → option date) (fromgregorian : date → option date) (utc local : Z → date * Z * Z).
Context (parse_datetime : string → option value) (parse_date : string → option date).

Lemma pages_agree_on_days g j : fromgregorian g = Some j →
  let text := ymd_text "/" j in
  admin_to_jalali_str fromgregorian utc local parse_datetime parse_date (Day g) = text ∧
  _to_jalali_date_str fromgregorian utc local (Day g) = Some text ∧ serializer_to_jalali_str fromgregorian utc (Day g) = Some text ∧
  view_to_jalali_str fromgregorian utc local (Day g) = text ∧ seminar_date_to_jalali_str fromgregorian (Some g) = text ∧
  filter_to_jalali fromgregorian utc (Day g) = Text text ∧ (1700 ≤ d_year g → _to_jalali fromgregorian (Some g) = Some text) ∧
  _date_to_jalali_str fromgregorian utc (Day g) = text.
Proof.
  intros Hj text. unfold admin_to_jalali_str, _to_jalali_date_str, serializer_to_jalali_str, view_to_jalali_str, seminar_date_to_jalali_str,
    filter_to_jalali, _to_jalali, _date_to_jalali_str, shown. cbn. rewrite Hj. subst text. split_and!; try done.
  intros Hy. by rewrite (proj2 (Z.ltb_ge _ _) Hy).
Qed.

(** Of a time they write the day it has in the settings' time zone, or the day it has in UTC. *)
Lemma pages_differ_on_times n j j' : fromgregorian (utc n).1.1 = Some j → fromgregorian (local n).1.1 = Some j' →
  serializer_to_jalali_str fromgregorian utc (Aware n) = Some (ymd_text "/" j) ∧
  _to_jalali_date_str fromgregorian utc local (Aware n) = Some (ymd_text "/" j').
Proof. intros H1 H2. unfold serializer_to_jalali_str, _to_jalali_date_str. cbn. by rewrite H1, H2. Qed.
End pages.

(** ** The command *)

Lemma small_false d : small_year d = false → ∀ jalali, to_greg_or_raise jalali d = Ok d.
Proof. destruct d as [g|]; [|done]. cbn. intros Hs jalali. by rewrite Hs. Qed.

Section fixing.
Context (jalali : Z → Z → Z → option date).

Lemma convert_large ds : existsb small_year ds = false → convert_all jalali ds = Ok ds.
Proof.
  induction ds as [|d ds IH]; [done|]. cbn. intros [Hd Hds]%orb_false_iff. by rewrite small_false, IH.
Qed.

(** Jalali years from 1079 on are Gregorian years from 1700 on. *)
Context (late : ∀ y m d g, jalali y m d = Some g → 1079 ≤ y → 1700 ≤ d_year g).

Definition plausible (ds : list (option date)) : Prop := ∀ g, Some g ∈ ds → 1079 ≤ d_year g.

Lemma convert_late ds ds' : plausible ds → convert_all jalali ds = Ok ds' → existsb small_year ds' = false.
Proof.
  revert ds'. induction ds as [|d ds IH]; intros ds' Hp; cbn; [by intros [= <-]|].
  destruct (to_greg_or_raise jalali d) as [d'|] eqn:Ed; [|done]. destruct (convert_all jalali ds) as [l|] eqn:El; [|done].
  intros [= <-]. cbn. rewrite (IH l); [|intros g Hg; apply Hp; by right|done]. rewrite orb_false_r.
  destruct d as [g|]; cbn in Ed; [|by injection Ed as <-].
  destruct (Z.ltb_spec (d_year g) 1700); [|injection Ed as <-; cbn; by apply Z.ltb_ge].
  destruct (jalali _ _ _) as [t|] eqn:Ej; [|done]. injection Ed as <-. cbn. apply Z.ltb_ge.
  eapply late; [exact Ej|]. apply Hp. by left.
Qed.

Definition to_fix (t : gmap Z (list (option date))) (k : Z) : bool :=
  match t !! k with Some ds => existsb small_year ds | None => false end.

Lemma fix_object_spec k t ds : t !! k = Some ds →
  match fix_object jalali k t with
  | (Ok n, t') => ∃ ds', convert_all jalali ds = Ok ds' ∧ t' = <[k := ds']> t ∧ n = Z.b2z (to_fix t k)
  | (Err e, t') => t' = t
  end.
Proof.
  intros Hk. unfold fix_object, to_fix, bind, get, ret, modify, raise. rewrite Hk.
  destruct (convert_all jalali ds) as [ds'|] eqn:Ec; [|done]. destruct (existsb small_year ds) eqn:Es.
  - destruct (dates_ok ds'); [|done]. by exists ds'.
  - rewrite convert_large in Ec by done. injection Ec as <-. exists ds. split; [done|]. by rewrite insert_id.
Qed.

(** Row by row: converted if the loop came to it. *)
Definition fixed_row (t t' : gmap Z (list (option date))) (k : Z) : Prop :=
  ∀ ds, t !! k = Some ds → ∃ ds', convert_all jalali ds = Ok ds' ∧ t' !! k = Some ds'.

Lemma fix_all_spec ks t : NoDup ks → (∀ k, k ∈ ks → is_Some (t !! k)) →
  match fix_all jalali ks t with
  | (Ok n, t') => (∀ k, k ∈ ks → fixed_row t t' k) ∧ (∀ k, k ∉ ks → t' !! k = t !! k) ∧
      n = zlen (List.filter (to_fix t) ks)
  | (Err e, t') => ∀ k, t' !! k = t !! k ∨ k ∈ ks ∧ fixed_row t t' k
  end.
Proof.
  revert t. induction ks as [|k ks IH]; intros t Hnd Hin; [cbn; split_and!; [by intros k ?%not_elem_of_nil|done|done]|].
  apply NoDup_cons in Hnd as [Hk Hnd]. destruct (Hin k ltac:(by left)) as [ds Hds]. cbn [fix_all]. unfold bind at 1.
  pose proof (fix_object_spec k t ds Hds) as Ho. destruct (fix_object jalali k t) as [[n|e] t1]; [|subst; by left].
  destruct Ho as (ds' & Hc & -> & ->). unfold bind, ret.
  assert (Hin1 : ∀ i, i ∈ ks → is_Some (<[k := ds']> t !! i)).
  { intros i Hi. rewrite lookup_insert_ne by (by intros ->). apply Hin. by right. }
  assert (Hsame : ∀ t' i, i ∈ ks → fixed_row (<[k := ds']> t) t' i → fixed_row t t' i).
  { intros t' i Hi Hf d Hd. apply Hf. by rewrite lookup_insert_ne by (by intros ->). }
  specialize (IH _ Hnd Hin1). destruct (fix_all jalali ks (<[k := ds']> t)) as [[m|e] t'].
  - destruct IH as (H1 & H2 & ->). split; [|split].
    + intros i [->|Hi]%elem_of_cons; [|by apply Hsame, H1]. intros d Hd. exists ds'. rewrite Hds in Hd. injection Hd as <-.
      split; [done|]. rewrite H2 by done. apply lookup_insert_eq.
    + intros i [Hne Hi]%not_elem_of_cons. rewrite H2 by done. by apply lookup_insert_ne.
    + assert (Hf : List.filter (to_fix (<[k := ds']> t)) ks = List.filter (to_fix t) ks).
      { apply List.filter_ext_in. intros i Hi%list_elem_of_In. unfold to_fix. by rewrite lookup_insert_ne by (by intros ->). }
      rewrite Hf. cbn [List.filter]. destruct (to_fix t k); unfold zlen; cbn [length Z.b2z]; lia.
  - intros i. destruct (IH i) as [Hi|[Hi Hf]]; [|right; split; [by right|by apply Hsame]].
    destruct (decide (i = k)) as [->|Hne]; [|left; rewrite Hi; by apply lookup_insert_ne].
    right. split; [by left|]. intros d Hd. rewrite Hds in Hd. injection Hd as <-. exists ds'. rewrite Hi. by rewrite lookup_insert_eq.
Qed.

(** The command repairs every date or names a row that cannot be. It leaves no date with a Jalali year, counts
    the competitions it changed and finds nothing on a second run; when it stops at a competition that cannot be
    converted, each row is either as before or converted. *)
Theorem fixing_ends t : (∀ k ds, t !! k = Some ds → plausible ds) →
  match fix_jalali_dates jalali t with
  | (Ok n, t') => n = zlen (List.filter (to_fix t) (rows_by_id t).*1) ∧ (∀ k, to_fix t' k = false) ∧
      fix_jalali_dates jalali t' = (Ok 0, t')
  | (Err e, t') => ∀ k, t' !! k = t !! k ∨ fixed_row t t' k
  end.
Proof.
  intros Hp. assert (Hrows : ∀ u : gmap Z (list (option date)), NoDup (rows_by_id u).*1 ∧ ∀ k, k ∈ (rows_by_id u).*1 ↔ is_Some (u !! k)).
  { intros u. split; [rewrite rows_by_id_perm; apply NoDup_fst_map_to_list|]. intros k. split.
    - intros ([i x] & -> & Hx)%list_elem_of_fmap. exists x. by apply elem_of_rows_by_id.
    - intros [x Hx]. apply list_elem_of_fmap. exists (k, x). split; [done|]. by apply elem_of_rows_by_id. }
  destruct (Hrows t) as [Hnd Hin]. unfold fix_jalali_dates at 1. unfold bind, get.
  pose proof (fix_all_spec _ t Hnd (λ k, proj1 (Hin k))) as Hs.
  destruct (fix_all jalali (rows_by_id t).*1 t) as [[n|e] t']; [|intros k; destruct (Hs k) as [?|[_ ?]]; auto].
  destruct Hs as (H1 & H2 & ->). split; [done|]. assert (Hlate : ∀ k, to_fix t' k = false).
  { intros k. unfold to_fix. destruct (t !! k) as [ds|] eqn:E.
    - destruct (H1 k (proj2 (Hin k) (ex_intro _ ds E)) ds E) as (ds' & Hc & ->). eapply convert_late; [|exact Hc]. by eapply Hp.
    - rewrite H2, E; [done|]. rewrite Hin, E. by intros [? ?]. }
  split; [done|]. unfold fix_jalali_dates, bind, get. destruct (Hrows t') as [_ Hin'].
  assert (Hnone : ∀ ks, (∀ k, k ∈ ks → is_Some (t' !! k)) → fix_all jalali ks t' = (Ok 0, t')).
  { induction ks as [|k ks IH]; intros Hks; [done|]. destruct (Hks k ltac:(by left)) as [ds Hds].
    pose proof (Hlate k) as Hk. unfold to_fix in Hk. rewrite Hds in Hk. cbn [fix_all]. unfold bind.
    assert (Ho : fix_object jalali k t' = (Ok 0, t')).
    { unfold fix_object, bind, get. by rewrite Hds, convert_large, Hk. }
    rewrite Ho, IH; [done|]. intros i Hi. apply Hks. by right. }
  apply Hnone. intros k. apply Hin'.
Qed.
End fixing.

(** ** Witnesses *)

(** A stand-in calendar, 621 years behind. *)
Definition behind (y m d : Z) : option date := if 1 <=? y then make_date (y + 621) m d else None.
Definition behind_of (g : date) : option date :=
  if valid g && (622 <=? d_year g) then Some (mkDate (d_year g - 621) (d_month g) (d_day g)) else None.

#[export] Instance behind_calendar : Jdatetime behind behind_of.
Proof.
  split.
  - intros y m d g. unfold behind, make_date, behind_of. destruct (Z.leb_spec 1 y); [|done].
    destruct (valid_ymd (y + 621) m d) eqn:E; [|done]. intros [= <-]. unfold valid. cbn [d_year d_month d_day]. rewrite E.
    rewrite (proj2 (Z.leb_le _ _)) by lia. cbn [andb]. f_equal. f_equal. lia.
  - intros g j. unfold behind_of. destruct (valid g) eqn:Ev; [|done]. destruct (Z.leb_spec 622 (d_year g)); [|done]. cbn. intros [= <-].
    unfold behind. cbn [d_year d_month d_day]. rewrite (proj2 (Z.leb_le _ _)) by lia.
    replace (d_year g - 621 + 621) with (d_year g) by lia. by apply make_date_valid.
  - intros g j. unfold behind_of. destruct (valid g) eqn:Ev; [|done]. destruct (Z.leb_spec 622 (d_year g)); [|done]. cbn. intros [= <-].
    pose proof (valid_fits g Ev) as (H1 & H2 & H3). unfold fits. cbn [d_year d_month d_day]. lia.
  - intros g j. unfold behind_of. by destruct (valid g).
Qed.

Lemma behind_late y m d g : behind y m d = Some g → 1079 ≤ y → 1700 ≤ d_year g.
Proof.
  unfold behind, make_date. destruct (1 <=? y); [|done]. destruct (valid_ymd _ _ _); [|done]. intros [= <-]. cbn. lia.
Qed.

Lemma forms_keep_dates_witness :
  saved_again behind behind_of (λ _, (mkDate 2024 5 1, 0, 0)) "1993-01-30" = "1372/01/30"%string.
Proof.
  destruct (forms_keep_dates behind behind_of (λ _, (mkDate 2024 5 1, 0, 0))) as (_ & H & _).
  exact (proj2 (H (mkDate 1993 1 30) (mkDate 1372 1 30) eq_refl)).
Defined.

(** A birth date that is no date of the calendar is lost when its profile is saved. *)
Example unreadable_birth_date_lost : saved_again behind behind_of (λ _, (mkDate 2024 5 1, 0, 0)) "1371/13/45" = ""%string.
Proof. vm_compute. reflexivity. Qed.

(** Two competitions, one with a Jalali number. *)
Definition sample_dates : gmap Z (list (option date)) :=
  {[ 1 := [Some (mkDate 1403 2 5); Some (mkDate 2024 3 1); None; None; Some (mkDate 2024 4 1)];
     2 := [Some (mkDate 2024 2 5); Some (mkDate 2024 3 1); None; None; Some (mkDate 2024 4 1)] ]}.

Lemma sample_plausible k ds : sample_dates !! k = Some ds → plausible ds.
Proof.
  assert (Hall : map_Forall (λ _ ds, forallb (λ d, match d with Some g => 1079 <=? d_year g | None => true end) ds = true) sample_dates).
  { refine (bool_decide_eq_true_1 _ _). vm_compute. reflexivity. }
  intros Hk g Hg. specialize (Hall k ds Hk). cbn beta in Hall. rewrite forallb_forall in Hall.
  specialize (Hall (Some g) (proj1 (list_elem_of_In _ _) Hg)). by apply Z.leb_le in Hall.
Qed.

Lemma fixing_ends_witness :
  match fix_jalali_dates behind sample_dates with
  | (Ok n, t') => n = 1 ∧ fix_jalali_dates behind t' = (Ok 0, t')
  | (Err e, _) => False
  end.
Proof.
  pose proof (fixing_ends behind behind_late sample_dates sample_plausible) as H.
  destruct (fix_jalali_dates behind sample_dates) as [[n|e] t'] eqn:E.
  - destruct H as (H1 & _ & H3). split; [rewrite H1; vm_compute; reflexivity|exact H3].
  - assert (E' : (match (fix_jalali_dates behind sample_dates).1 with Ok _ => true | Err _ => false end) = true) by (vm_compute; reflexivity).
    rewrite E in E'. discriminate E'.
Defined.
