(* ===== verification/CompetitionForms.v ===== *)
(** The forms of competitions and seminars in the admin, beyond their dates ([competitions/admin.py]): the choice of
    three for the registration, the inlines of a kyorugi competition with [save_formset], the texts and groups of
    fields of the lists, and the page of the attendees of seminars.

    An inline is a list of forms over the rows of one table. [save_formset] does not ask the formset to save but
    walks over its forms; what it does is the same for mats, images and files, except for when it skips a form and
    that it changes the names of files. *)

From Stdlib Require Import Ascii.
From stdpp Require Import pretty.
From S2P Require Import Prelude Store Ranking Payments NumberingService GroupPayments GroupRegistration Text AdminForms AdminLists.
Local Open Scope Z_scope.

(** ** Registration by hand or by dates *)

(** [TriStateChoiceField]: the values of the choices, and what a posted one stores. The framework keeps the empty
    choice as an empty text, which the column stores as null. *)
Definition tri_choices : list string := [""; "1"; "0"]%string.
Definition tri_clean (posted : string) : option (option bool) :=
  if bool_decide (posted ∈ tri_choices) then
    Some (if String.eqb posted "1" then Some true else if String.eqb posted "0" then Some false else None)
  else None.
(** What the form shows of a competition. *)
Definition tri_initial (current : option bool) : string :=
  match current with None => ""%string | Some true => "1"%string | Some false => "0"%string end.

(** ** Inlines *)

Section inlines.
Context {F : Type}.

(** A form of an inline: the row it edits, the box to delete it, [f.is_valid()] and its cleaned fields. *)
Record inline_form := mkInlineForm {
  if_pk : option Z;
  if_delete : bool;
  if_valid : bool;
  if_data : F;
}.

(** The rows of the table with their competition, and the counter that gives keys. *)
Record inline_table := mkInlineTable {
  il_rows : gmap Z (Z * F);
  il_next : Z;
}.

(** A form that is passed over, and what is changed before the row is saved. *)
Context (blank : F → bool) (tidy : F → F).

Definition save_row (comp : Z) (f : inline_form) (t : inline_table) : inline_table :=
  match if_pk f with
  | Some k => mkInlineTable (<[k := (comp, tidy (if_data f))]> (il_rows t)) (il_next t)
  | None => mkInlineTable (<[il_next t := (comp, tidy (if_data f))]> (il_rows t)) (il_next t + 1)
  end.

Definition save_inline_form (comp : Z) (t : inline_table) (f : inline_form) : inline_table :=
  if negb (if_valid f) then t
  else if if_delete f then
    match if_pk f with Some k => mkInlineTable (delete k (il_rows t)) (il_next t) | None => t end
  else if blank (if_data f) then t
  else save_row comp f t.

(** [KyorugiCompetitionAdmin.save_formset]. *)
Definition save_formset (comp : Z) (fs : list inline_form) (t : inline_table) : inline_table :=
  foldl (save_inline_form comp) t fs.

(** [formset.is_valid()]: forms marked for deletion are not asked. *)
Definition formset_valid (fs : list inline_form) : bool := forallb (λ f, if_delete f || if_valid f) fs.

Definition inline_page (comp : Z) (fs : list inline_form) (t : inline_table) : option inline_table :=
  if formset_valid fs then Some (save_formset comp fs t) else None.
End inlines.
Arguments inline_form : clear implicits.
Arguments inline_table : clear implicits.

(** *** Mats *)

(** A number, and weights; an extra form left empty has neither. *)
Definition mat_data : Type := option Z * list Z.

Definition kyorugi_mat_valid (extra : bool) (d : mat_data) : bool :=
  extra && is_none d.1 && bool_decide (d.2 = []) ||
  match d.1 with Some n => pos_int_ok n && negb (bool_decide (d.2 = [])) | None => false end.

Definition blank_mat (d : mat_data) : bool :=
  match d.1 with Some n => n =? 0 | None => true end && bool_decide (d.2 = []).

(** The rows of the draws and the numbering. *)
Definition mat_of_row (row : Z * mat_data) : MatAssignment := mkMatAssignment row.1 (default 0 row.2.1) row.2.2.
Definition mat_assignments (t : inline_table mat_data) : list MatAssignment := (λ kr, mat_of_row kr.2) <$> rows_by_id (il_rows t).

Definition save_mats : Z → list (inline_form mat_data) → inline_table mat_data → inline_table mat_data := save_formset blank_mat id.

(** *** Images and files *)

Section uploads.
Context (nfkd : string → string) (fresh_hex : string).

(** [_sanitize_upload_field]. *)
Definition _sanitize_upload_field (name : string) : string := if truthy_str name then _safe_filename nfkd fresh_hex name else name.

Definition save_uploads : Z → list (inline_form string) → inline_table string → inline_table string :=
  save_formset (λ name, negb (truthy_str name)) _sanitize_upload_field.

(** [save_model]: the poster only when it was changed. *)
Definition save_poster (changed_data : list string) (poster : string) : string :=
  if bool_decide ("poster"%string ∈ changed_data) then _sanitize_upload_field poster else poster.
End uploads.

(** ** Lists *)

(** [belt_groups_col]: three labels and how many more. *)
Definition belt_groups_col (labels : list string) : string :=
  match labels with
  | [] => "—"%string
  | _ =>
      let shown := String.concat "، " (take 3 labels) in
      let extra := zlen labels - 3 in
      if 0 <? extra then (shown ++ " …(+" ++ pretty extra ++ ")")%string else shown
  end.

(** [get_fieldsets] of poomsae competitions: groups of fields, each keeping the fields that are there. *)
Section fieldsets.
Context (POOM_FIELDS : list string).

Definition readonly_fields : list string := List.filter (λ f, bool_decide (f ∈ POOM_FIELDS)) ["public_id"; "created_at"; "updated_at"]%string.
Definition keep (names : list (option string)) : list string :=
  List.filter (λ n, bool_decide (n ∈ POOM_FIELDS ++ readonly_fields)) (omap id names).

Definition age_field : option string :=
  if bool_decide ("age_categories"%string ∈ POOM_FIELDS) then Some "age_categories"%string
  else if bool_decide ("age_category"%string ∈ POOM_FIELDS) then Some "age_category"%string else None.

Definition info_names : list (option string) :=
  [Some "name"; Some "poster"; Some "description"; Some "entry_fee"; age_field; Some "belt_level"; Some "belt_groups"; Some "gender"]%string.
Definition date_names : list (option string) :=
  [Some "mat_count"; Some "registration_manual"; Some "registration_start"; Some "registration_end"; Some "draw_date"; Some "competition_date"]%string.

Definition get_fieldsets : list (string * list string) :=
  let place := keep [Some "city"; Some "address"]%string in
  let dates := keep date_names in
  let terms := keep [Some "terms_template"]%string in
  let system := keep [Some "public_id"; Some "created_at"; Some "updated_at"]%string in
  ([("اطلاعات کلی"%string, keep info_names)] ++
   (match place with [] => [] | l => [("محل برگزاری"%string, l)] end) ++
   (match dates with [] => [] | l => [("ثبت‌نام و تاریخ‌ها (شمسی)"%string, l)] end) ++
   (match terms with [] => [] | l => [("تعهدنامه مربی"%string, l)] end) ++
   (match system with [] => [] | l => [("سیستمی"%string, l)] end))%list.
End fieldsets.

(** ** Attendees of seminars *)

(** [SeminarAttendeeAdmin.changelist_view]: the seminar that is asked for, its key on the page, and its
    registrations, newest first. A text that is no number is a [ValueError] of the filter. *)
Section attendees.
Context {P : Type} (reg_created_at : Z → Z).

Definition reg_newest (a b : Z * SeminarRegistration) : bool := reg_created_at b.1 <=? reg_created_at a.1.

Definition attendees_view (d : DB P) (selected : option string)
  : result (option (Z * Seminar) * option Z * list (Z * SeminarRegistration)) :=
  let sel := default ""%string selected in
  if negb (truthy_str sel) then Ok (None, None, [])
  else
    match py_int (_to_en_digits sel) with
    | None => Err ValueError
    | Some k =>
        Ok ((λ s, (k, s)) <$> db_seminars d !! k,
            (if all_digits (_to_en_digits sel) then Some k else None),
            sort_by reg_newest (List.filter (λ kr, sr_seminar kr.2 =? k) (rows_by_id (db_seminar_regs d))))
    end.
End attendees.

(** ** What the inlines leave *)

Section inline_lemmas.
Context {F : Type} (blank : F → bool) (tidy : F → F) (comp : Z).
Local Abbreviation saves := (save_formset blank tidy comp).
Local Abbreviation form := (inline_form F).
Local Abbreviation table := (inline_table F).

(** The row a form stands for, before and after. *)
Definition form_row (t : table) (f : form) : option (Z * F) := if_pk f ≫= λ k, il_rows t !! k.
Definition outcome (f : form) (old : option (Z * F)) : option (Z * F) :=
  if negb (if_valid f) then old
  else if if_delete f then None
  else if blank (if_data f) then old
  else Some (comp, tidy (if_data f)).

(** The rows new forms make, in order. *)
Definition new_row (f : form) : option (Z * F) := match if_pk f with Some _ => None | None => outcome f None end.

Record keys_below (t : table) (fs : list form) : Prop := {
  kb_rows k row : il_rows t !! k = Some row → k < il_next t;
  kb_forms f k : f ∈ fs → if_pk f = Some k → k < il_next t;
}.

Lemma save_form_next f t : il_next t ≤ il_next (save_inline_form blank tidy comp t f) ∧
  il_next (save_inline_form blank tidy comp t f) = il_next t + Z.b2z (negb (is_none (new_row f))).
Proof.
  unfold save_inline_form, save_row, new_row, outcome. destruct (if_valid f), (if_delete f), (blank (if_data f)), (if_pk f); cbn; lia.
Qed.

Lemma save_form_old f t k : k < il_next t →
  il_rows (save_inline_form blank tidy comp t f) !! k =
  if decide (if_pk f = Some k) then outcome f (il_rows t !! k) else il_rows t !! k.
Proof.
  intros Hk. unfold save_inline_form, save_row, outcome.
  destruct (if_valid f), (if_delete f), (blank (if_data f)), (if_pk f) as [i|]; cbn [negb]; case_decide as Hd; try done;
    try (injection Hd as ->); cbn [il_rows]; rewrite ?lookup_delete_eq, ?lookup_insert_eq; try done;
    try (rewrite lookup_delete_ne; [done|congruence]); try (rewrite lookup_insert_ne; [done|]; (congruence || lia)).
Qed.

Lemma save_form_new f t k : keys_below t [f] → il_next t ≤ k →
  il_rows (save_inline_form blank tidy comp t f) !! k = if k =? il_next t then new_row f else None.
Proof.
  intros [Hr Hf] Hk. assert (Hnone : il_rows t !! k = None).
  { destruct (il_rows t !! k) eqn:E; [|done]. apply Hr in E. lia. }
  assert (Hpk : ∀ i, if_pk f = Some i → i ≠ k) by (intros i Hi ->; pose proof (Hf f k ltac:(by left) Hi); lia).
  unfold save_inline_form, save_row, new_row, outcome.
  destruct (if_pk f) as [i|]; [specialize (Hpk i eq_refl)|];
    destruct (if_valid f), (if_delete f), (blank (if_data f)); cbn [negb il_rows];
    rewrite ?lookup_delete_ne, ?(lookup_insert_ne _ i) by done; rewrite ?Hnone; try (by destruct (k =? il_next t)).
  destruct (Z.eqb_spec k (il_next t)) as [->|Hne]; [by rewrite lookup_insert_eq|]. by rewrite lookup_insert_ne by lia.
Qed.

Lemma keys_below_head f fs t : keys_below t (f :: fs) → keys_below t [f].
Proof. intros [Hr Hf]. split; [done|]. intros f' i ->%list_elem_of_singleton. apply Hf. by left. Qed.

Lemma keys_below_step f fs t : keys_below t (f :: fs) → keys_below (save_inline_form blank tidy comp t f) fs.
Proof.
  intros Hk. pose proof (save_form_next f t) as [Hle Hnext]. split.
  - intros k row Hrow. destruct (Z.lt_ge_cases k (il_next t)) as [Hlt|Hge]; [lia|].
    rewrite save_form_new in Hrow by (by try eapply keys_below_head).
    destruct (Z.eqb_spec k (il_next t)) as [->|]; [|done]. rewrite Hrow in Hnext. cbn in Hnext. lia.
  - intros f' k Hin Hpk. pose proof (kb_forms _ _ Hk f' k ltac:(by right) Hpk). lia.
Qed.

Lemma saves_cons f fs t : saves (f :: fs) t = saves fs (save_inline_form blank tidy comp t f).
Proof. done. Qed.

(** A row no form stands for stays. *)
Lemma saved_untouched fs : ∀ t k, k < il_next t → (∀ f, f ∈ fs → if_pk f ≠ Some k) → il_rows (saves fs t) !! k = il_rows t !! k.
Proof.
  induction fs as [|f fs IH]; intros t k Hk Hno; [done|]. pose proof (save_form_next f t) as [Hle _].
  rewrite saves_cons, IH, save_form_old by (lia || intros f' Hin; apply Hno; by right).
  rewrite decide_False; [done|]. apply Hno. by left.
Qed.

(** Old keys: what the one form of the row says. *)
Lemma saved_old fs : ∀ t k f, NoDup (omap if_pk fs) → k < il_next t → f ∈ fs → if_pk f = Some k →
  il_rows (saves fs t) !! k = outcome f (il_rows t !! k).
Proof.
  induction fs as [|f0 fs IH]; intros t k f Hnd Hk Hin Hpk; [by apply not_elem_of_nil in Hin|].
  pose proof (save_form_next f0 t) as [Hle _]. rewrite saves_cons. cbn in Hnd. apply elem_of_cons in Hin as [->|Hin].
  - rewrite Hpk in Hnd. apply NoDup_cons in Hnd as [Hnd _].
    rewrite saved_untouched, save_form_old, decide_True; try done; [lia|]. intros f' Hf' Hpk'. apply Hnd, list_elem_of_omap. by exists f'.
  - assert (Hin' : k ∈ omap if_pk fs) by (apply list_elem_of_omap; by exists f).
    assert (Hne : if_pk f0 ≠ Some k) by (intros Heq; rewrite Heq in Hnd; by apply NoDup_cons in Hnd as [? _]).
    rewrite (IH _ k f), save_form_old, decide_False; try done; try lia. by destruct (if_pk f0); [apply NoDup_cons in Hnd as [_ ?]|].
Qed.

(** New keys: the new forms in their order. *)
Lemma saved_new fs : ∀ t k, keys_below t fs → il_next t ≤ k →
  il_rows (saves fs t) !! k = omap new_row fs !! Z.to_nat (k - il_next t).
Proof.
  induction fs as [|f fs IH]; intros t k Hkb Hk.
  - cbn. destruct (il_rows t !! k) eqn:E; [|done]. apply (kb_rows _ _ Hkb) in E. lia.
  - pose proof (keys_below_step _ _ _ Hkb) as Hkb'. pose proof (save_form_next f t) as [_ Hnext]. rewrite saves_cons.
    cbn [omap list_omap]. destruct (new_row f) as [row|] eqn:En; cbn [is_none negb Z.b2z] in Hnext.
    + destruct (Z.eqb_spec k (il_next t)) as [->|Hne].
      * rewrite Z.sub_diag. cbn. rewrite saved_untouched; [|lia|].
        -- rewrite save_form_new by (by try eapply keys_below_head). by rewrite Z.eqb_refl.
        -- intros f' Hin Hpk. pose proof (kb_forms _ _ Hkb f' _ ltac:(by right) Hpk). lia.
      * rewrite IH by (done || lia). replace (Z.to_nat (k - il_next t)) with (S (Z.to_nat (k - (il_next t + 1)))) by lia. by rewrite Hnext.
    + rewrite IH by (done || lia). by rewrite Hnext, Z.add_0_r.
Qed.

(** The rows of the competition after the page are what its forms say. *)
Lemma saved_rows fs t row : keys_below t fs → NoDup (omap if_pk fs) →
  (∀ f k, f ∈ fs → if_pk f = Some k → ∃ x, il_rows t !! k = Some (comp, x)) →
  (∀ k x, il_rows t !! k = Some (comp, x) → ∃ f, f ∈ fs ∧ if_pk f = Some k) →
  ((∃ k, il_rows (saves fs t) !! k = Some (comp, row)) ↔ ∃ f, f ∈ fs ∧ outcome f (form_row t f) = Some (comp, row)) ∧
  ∀ k c x, c ≠ comp → il_rows (saves fs t) !! k = Some (c, x) ↔ il_rows t !! k = Some (c, x).
Proof.
  intros Hkb Hnd Hforms Hall. assert (Hnew : ∀ k r, il_next t ≤ k → il_rows (saves fs t) !! k = Some r → ∃ f, f ∈ fs ∧ new_row f = Some r).
  { intros k r Hk. rewrite saved_new by done. intros (f & Hin & Hf)%list_elem_of_lookup_2%list_elem_of_omap. eauto. }
  assert (Hcomp : ∀ f old r, outcome f old = Some r → old = Some r ∨ r.1 = comp).
  { intros f old r. unfold outcome. destruct (if_valid f); [|auto]. destruct (if_delete f); [done|]. destruct (blank _); [auto|].
    intros [= <-]. by right. }
  split; [split|].
  - intros [k Hk]. destruct (Z.lt_ge_cases k (il_next t)) as [Hlt|Hge].
    + destruct (decide (k ∈ omap if_pk fs)) as [(f & Hin & Hpk)%list_elem_of_omap|Hno].
      * exists f. split; [done|]. unfold form_row. rewrite Hpk. cbn. by rewrite <- (saved_old fs t k f).
      * rewrite saved_untouched in Hk by (done || intros f Hin Hpk; apply Hno, list_elem_of_omap; by exists f).
        destruct (Hall k row Hk) as (f & Hin & Hpk). exfalso. apply Hno, list_elem_of_omap. by exists f.
    + destruct (Hnew k _ Hge Hk) as (f & Hin & Hf). exists f. split; [done|]. unfold new_row in Hf. unfold form_row. by destruct (if_pk f).
  - intros (f & Hin & Hf). destruct (if_pk f) as [k|] eqn:Hpk; unfold form_row in Hf; rewrite Hpk in Hf; cbn in Hf.
    + exists k. rewrite (saved_old fs t k f); try done. by eapply kb_forms.
    + assert (Hn : Some (comp, row) ∈ [new_row f]) by (unfold new_row; rewrite Hpk, Hf; by left).
      apply list_elem_of_singleton in Hn. assert (Hr : (comp, row) ∈ omap new_row fs) by (apply list_elem_of_omap; by exists f).
      apply list_elem_of_lookup_1 in Hr as [i Hi]. exists (il_next t + Z.of_nat i). rewrite saved_new by (done || lia).
      by replace (Z.to_nat (il_next t + Z.of_nat i - il_next t)) with i by lia.
  - intros k c x Hc. destruct (Z.lt_ge_cases k (il_next t)) as [Hlt|Hge].
    + destruct (decide (k ∈ omap if_pk fs)) as [(f & Hin & Hpk)%list_elem_of_omap|Hno].
      * destruct (Hforms f k Hin Hpk) as [y Hy]. rewrite (saved_old fs t k f), Hy by done. split; [|congruence].
        intros [?|?]%Hcomp; cbn in *; congruence.
      * by rewrite saved_untouched by (done || intros f Hin Hpk; apply Hno, list_elem_of_omap; by exists f).
    + split; [|intros Hk; apply (kb_rows _ _ Hkb) in Hk; lia]. intros Hk. destruct (Hnew k _ Hge Hk) as (f & _ & Hf).
      unfold new_row in Hf. destruct (if_pk f); [done|]. apply Hcomp in Hf as [|Hf]; [done|]. by cbn in Hf.
Qed.
End inline_lemmas.

(** *** The mats of a kyorugi competition *)

(** The page as it was shown: its forms hold the rows of the competition, each once. What was posted in a form, the box
    to delete it included, is free. *)
Record mats_shown (t : inline_table mat_data) (comp : Z) (fs : list (inline_form mat_data)) : Prop := {
  ms_keys : keys_below t fs;
  ms_once : NoDup (omap if_pk fs);
  ms_rows f k : f ∈ fs → if_pk f = Some k → ∃ x, il_rows t !! k = Some (comp, x);
  ms_all k x : il_rows t !! k = Some (comp, x) → ∃ f, f ∈ fs ∧ if_pk f = Some k;
  ms_valid f : f ∈ fs → if_valid f = kyorugi_mat_valid (is_none (if_pk f)) (if_data f);
}.

(** The mat a form leaves: its own data; if it is marked for deletion nothing, or, when it also has errors, the mat
    it was opened with, since a form with errors is passed over before its box is looked at. *)
Definition leaves (t : inline_table mat_data) (comp : Z) (f : inline_form mat_data) (x : mat_data) : Prop :=
  if if_delete f then if_valid f = false ∧ form_row t f = Some (comp, x)
  else if_data f = x ∧ is_Some x.1.

Lemma mat_outcome t comp fs f : mats_shown t comp fs → formset_valid fs = true → f ∈ fs →
  (∀ x, outcome blank_mat id comp f (form_row t f) = Some (comp, x) ↔ leaves t comp f x) ∧
  (if_delete f = false → if_pk f ≠ None → ∀ old, outcome blank_mat id comp f old = Some (comp, if_data f)).
Proof.
  intros Hs Hv Hin. unfold formset_valid in Hv. rewrite forallb_forall in Hv. specialize (Hv f (proj1 (list_elem_of_In _ _) Hin)).
  pose proof (ms_valid _ _ _ Hs f Hin) as Hval. unfold outcome, leaves.
  destruct (if_delete f); [destruct (if_valid f); cbn; (split; [intros x; split; [try done|try (by intros [? ?])]; auto|done])|].
  cbn in Hv. rewrite Hv in *. cbn [negb]. destruct (if_data f) as [num ws]. unfold kyorugi_mat_valid, blank_mat in *. cbn [fst snd] in *.
  destruct num as [n|].
  - rewrite andb_false_r in Hval. cbn in Hval. symmetry in Hval. apply andb_true_iff in Hval as [_ Hws]. apply negb_true_iff in Hws.
    rewrite Hws, andb_false_r. split; [|done]. intros x.
    split; [intros [= <-]; split; [done|by eexists]|by intros [<- _]].
  - cbn in Hval. rewrite orb_false_r, andb_true_r in Hval. symmetry in Hval. apply andb_true_iff in Hval as [Hpk Hws]. rewrite Hws.
    unfold form_row. destruct (if_pk f); [done|]. split; [|done]. intros x. cbn. split; [done|]. intros [<- [? ?]]. done.
Qed.

(** C40: The mats of a kyorugi competition after its page is saved. If the formset is valid, which does not ask
    the forms marked for deletion, every form over a mat settles that mat: it gets the data of a form that is not
    marked, is deleted by a marked form without errors, and stays as it was if the marked form has errors. The mats of
    the competition are then those of the forms that are not marked, whatever their numbers, and the mats kept by marked
    forms with errors, and no other; the weights that can be entered are those of these mats, and other competitions
    keep theirs. *)
Theorem kyorugi_mats_page {P} t comp fs : mats_shown t comp fs → formset_valid fs = true →
  ∃ t', inline_page blank_mat id comp fs t = Some t' ∧
    (∀ f k, f ∈ fs → if_pk f = Some k → il_rows t' !! k =
       if if_delete f then if if_valid f then None else il_rows t !! k else Some (comp, if_data f)) ∧
    (∀ x, (∃ k, il_rows t' !! k = Some (comp, x)) ↔ ∃ f, f ∈ fs ∧ leaves t comp f x) ∧
    (∀ (d : DB P) w, db_mat_assignments d = mat_assignments t' →
       w ∈ allowed_weight_ids d comp ↔ ∃ f x, f ∈ fs ∧ leaves t comp f x ∧ w ∈ x.2) ∧
    (∀ k c x, c ≠ comp → il_rows t' !! k = Some (c, x) ↔ il_rows t !! k = Some (c, x)).
Proof.
  intros Hs Hv. unfold inline_page. rewrite Hv. eexists. split; [reflexivity|].
  pose proof (λ row, saved_rows blank_mat id comp fs t row (ms_keys _ _ _ Hs) (ms_once _ _ _ Hs) (ms_rows _ _ _ Hs) (ms_all _ _ _ Hs)) as Hsaved.
  assert (Hrows : ∀ x, (∃ k, il_rows (save_formset blank_mat id comp fs t) !! k = Some (comp, x)) ↔ ∃ f, f ∈ fs ∧ leaves t comp f x).
  { intros x. rewrite (proj1 (Hsaved x)).
    split; intros (f & Hin & Hf); exists f; (split; [done|]); by apply (proj1 (mat_outcome t comp fs f Hs Hv Hin)). }
  split; [|split; [exact Hrows|split]].
  - intros f k Hin Hpk.
    rewrite (saved_old blank_mat id comp fs t k f (ms_once _ _ _ Hs) (kb_forms _ _ (ms_keys _ _ _ Hs) f k Hin Hpk) Hin Hpk).
    destruct (if_delete f) eqn:Ed.
    + unfold outcome. rewrite Ed. by destruct (if_valid f).
    + apply (proj2 (mat_outcome t comp fs f Hs Hv Hin)); congruence.
  - intros d w Hd. unfold allowed_weight_ids. rewrite Hd, list_elem_of_bind. split.
    + intros (ma & Hw & Hma). apply elem_of_filter_list in Hma as [Hma Hc%Z.eqb_eq]. unfold mat_assignments in Hma.
      apply list_elem_of_fmap in Hma as ([k [c x]] & -> & Hk%elem_of_rows_by_id). cbn in Hw, Hc. subst c.
      destruct (proj1 (Hrows x) (ex_intro _ k Hk)) as (f & Hin & Hf). eauto.
    + intros (f & x & Hin & Hf & Hw). destruct (proj2 (Hrows x) ltac:(eauto)) as [k Hk].
      exists (mat_of_row (comp, x)). split; [done|]. apply elem_of_filter_list. split; [|cbn; apply Z.eqb_refl].
      apply list_elem_of_fmap. exists (k, (comp, x)). split; [done|]. by apply elem_of_rows_by_id.
  - intros k c x Hc. exact (proj2 (Hsaved x) k c x Hc).
Qed.

(** Two forms with the same number and a common weight; one row goes, and one stays because its weights were
    emptied before it was marked. *)
Definition sample_inline : inline_table mat_data :=
  mkInlineTable {[ 3 := (5, (Some 1, [1; 2])); 4 := (5, (Some 2, [7])); 5 := (5, (Some 3, [4])); 8 := (6, (Some 1, [9])) ]} 9.
Definition sample_forms : list (inline_form mat_data) :=
  [mkInlineForm (Some 3) false true (Some 1, [1; 2]); mkInlineForm (Some 4) true true (Some 2, [7]);
   mkInlineForm (Some 5) true false (Some 3, []); mkInlineForm None false true (Some 1, [2]); mkInlineForm None false true (None, [])].

Ltac each_form Hf := unfold sample_forms in Hf; rewrite !elem_of_cons in Hf;
  destruct Hf as [->|[->|[->|[->|[->|Hf]]]]]; [..|by apply not_elem_of_nil in Hf].

Lemma sample_mats_shown : mats_shown sample_inline 5 sample_forms.
Proof.
  assert (Hrows : ∀ k row, il_rows sample_inline !! k = Some row →
    (k, row) ∈ [(3, (5, (Some 1, [1; 2]))); (4, (5, (Some 2, [7]))); (5, (5, (Some 3, [4]))); (8, (6, (Some 1, [9])))]).
  { intros k row. unfold sample_inline. cbn [il_rows]. rewrite !lookup_insert_Some, lookup_singleton_Some, !elem_of_cons.
    intros H. repeat (destruct H as [[<- <-]|[_ H]]; [tauto|]). destruct H as [<- <-]. tauto. }
  split.
  - split; [intros k row Hk%Hrows; rewrite !elem_of_cons, elem_of_nil in Hk; cbn; intuition (simplify_eq; lia)|].
    intros f k Hf Hk. cbn. each_form Hf; cbn in Hk; simplify_eq; lia.
  - refine (bool_decide_eq_true_1 _ _). vm_compute. reflexivity.
  - intros f k Hf Hk. each_form Hf; cbn in Hk; simplify_eq; eexists; reflexivity.
  - intros k x Hk%Hrows. rewrite !elem_of_cons, elem_of_nil in Hk.
    destruct Hk as [[= -> ->]|[[= -> ->]|[[= -> ->]|[[= _ [=]]|[]]]]]; eexists; (split; [unfold sample_forms; rewrite !elem_of_cons|]);
      [left; reflexivity|reflexivity|right; left; reflexivity|reflexivity|right; right; left; reflexivity|reflexivity].
  - intros f Hf. each_form Hf; reflexivity.
Qed.

Lemma kyorugi_mats_page_witness : ∃ t', inline_page blank_mat id 5 sample_forms sample_inline = Some t' ∧
  (∃ k, il_rows t' !! k = Some (5, (Some 1, [2]))) ∧ (∃ k, il_rows t' !! k = Some (5, (Some 1, [1; 2]))) ∧
  il_rows t' !! 4 = None ∧ il_rows t' !! 5 = Some (5, (Some 3, [4])).
Proof.
  destruct (kyorugi_mats_page (P := unit) sample_inline 5 sample_forms sample_mats_shown eq_refl) as (t' & H1 & H2 & H3 & _).
  exists t'. split; [exact H1|]. split; [apply H3|split; [apply H3|split]].
  - exists (mkInlineForm None false true (Some 1, [2])). split; [unfold sample_forms; rewrite !elem_of_cons; auto|].
    split; [reflexivity|eexists; reflexivity].
  - exists (mkInlineForm (Some 3) false true (Some 1, [1; 2])). split; [unfold sample_forms; rewrite !elem_of_cons; auto|].
    split; [reflexivity|eexists; reflexivity].
  - apply (H2 (mkInlineForm (Some 4) true true (Some 2, [7]))); [unfold sample_forms; rewrite !elem_of_cons; auto|reflexivity].
  - apply (H2 (mkInlineForm (Some 5) true false (Some 3, []))); [unfold sample_forms; rewrite !elem_of_cons; auto|reflexivity].
Defined.

(** *** Names of files that stay where they are *)

(** Saving an inline again can rename a file of the table that is not renamed on the disk: a name cut at 120
    characters may end in a dash, which the second save strips. *)
Definition long_name : string := ("kyorugi_images/" ++ String.concat "" (replicate 119 "a") ++ "-b.png")%string.

Example resaving_renames :
  let once := _sanitize_upload_field id "abc" long_name in
  once ≠ long_name ∧ _sanitize_upload_field id "abc" once ≠ once.
Proof. split; vm_compute; intros H; discriminate H. Qed.

(** *** Registration by hand *)

Lemma tri_state_keeps v : tri_clean (tri_initial v) = Some v.
Proof. by destruct v as [[]|]. Qed.

(** *** Fields of the form of a poomsae competition *)

#[local] Arguments keep : simpl never.
Lemma fieldsets_present fields f : f ∈ (get_fieldsets fields ≫= snd) → f ∈ fields.
Proof.
  intros Hf. assert (Hkeep : ∀ l, f ∈ keep fields l → f ∈ fields).
  { intros l [_ Hl%bool_decide_eq_true]%elem_of_filter_list. apply elem_of_app in Hl as [?|[_ Hr%bool_decide_eq_true]%elem_of_filter_list]; done. }
  unfold get_fieldsets in Hf. rewrite !bind_app, !elem_of_app in Hf. cbn in Hf. rewrite app_nil_r in Hf.
  destruct Hf as [Hf|[Hf|[Hf|[Hf|Hf]]]]; [by eapply Hkeep|..].
  all: match type of Hf with context [match ?l with _ => _ end] => destruct l as [|x xs] eqn:E end; cbn in Hf; [by apply not_elem_of_nil in Hf|];
    rewrite app_nil_r in Hf; rewrite <- E in Hf; by eapply Hkeep.
Qed.
