(* ===== verification/PoomsaeSerializer.v ===== *)
(** The poomsae registration that is written but not used: [PoomsaeRegistrationSerializer] of
    [competitions/serializers.py], which the views import and never call, and the belt groups of
    [PoomsaeCompetition] in [competitions/models.py]. The registration that is used is
    [SelfRegistration.register_poomsae_self].

    Approvals, divisions, age categories and the rules of a competition are arguments, as in [SelfRegistration] and
    [Eligibility]. *)

From Stdlib Require Import Ascii SpecFloat.
From S2P Require Import Prelude Store Points Ranking Ledger Poomsae Payments GroupPayments GroupRegistration Text Dates Approvals SelfRegistration Accounts Eligibility Reports.
Local Open Scope Z_scope.

(** ** Belt groups of a competition *)

(** [allowed_belt_group_ids]: the groups on the mats; no group means no limit. *)
Definition allowed_belt_group_ids (mats : list (Z * list Z)) (comp_id : Z) : list Z :=
  List.filter (λ m, m.1 =? comp_id) mats ≫= snd.

(** The colours looked for, in order; the letters of Arabic keyboards are replaced before. *)
Definition BELT_WORDS : list (list string * string) :=
  [(["سفید"; "white"], "white"); (["زرد"; "yellow"], "yellow"); (["سبز"; "green"], "green");
   (["آبی"; "ابي"; "blue"], "blue"); (["قرمز"; "red"], "red"); (["مشکی"; "مشكى"; "black"], "black")]%string.

Definition group_norm (v : string) : option string :=
  if negb (truthy_str v) then None
  else
    let s := replace "ك" "ک" (replace "ي" "ی" (lower (strip v))) in
    snd <$> head (List.filter (λ wc, existsb (λ w, contains w s) wc.1) BELT_WORDS).

(** [resolve_belt_group_for]: the first group with a belt of the colour of the player's. *)
Definition resolve_belt_group_for (groups : list (Z * list string)) (belt_grade : string) : option Z :=
  if negb (truthy_str belt_grade) then None
  else
    match group_norm (replace "ك" "ک" (replace "ي" "ی" (lower (strip belt_grade)))) with
    | None => None
    | Some code => fst <$> head (List.filter (λ g, existsb (λ b, bool_decide (group_norm b = Some code)) g.2) groups)
    end.

(** ** [PoomsaeRegistrationSerializer] *)

Record PoomsaeDivision := mkPoomsaeDivision {
  pd_competition : Z;
  pd_age_category : Z;
  pd_belt_group : Z;
  pd_style : string;
}.

(** What [validate] ends in: an error under a key, another exception, or what it keeps for [create]. *)
Inductive checked (A : Type) :=
  | Refused (key : string)
  | Raised (e : exn)
  | Passed (a : A).
Arguments Refused {A}. Arguments Raised {A}. Arguments Passed {A}.

Definition check {A} (ok : bool) (key : string) (rest : checked A) : checked A := if ok then rest else Refused key.

(** The player, the approval, the belt group, the age category and the day of the insurance. *)
Record accepted_entry := mkAcceptedEntry {
  ae_player : Z;
  ae_approval : PoomsaeCoachApproval;
  ae_belt_group : option Z;
  ae_age_category : Z;
  ae_issue_date : Z;
}.

Section serializer.
Context {P : Type} `{PointArith P} (jalali : Z → Z → Z → option date) (jdate_of : Z → date)
  (belt_grade birth_date : Z → string) (club_names : Z → list string) (belt_groups : Z → list (Z * list string))
  (ages : gmap Z AgeCategory) (rules : Z → poomsae_rules) (profile_user : Z → option Z)
  (approvals : gmap Z PoomsaeCoachApproval) (divisions : list PoomsaeDivision).
Local Abbreviation db := (DB P).

(** [_get_player_like_profile]: the profile of the login if it is a player's or a coach's, else one of its profiles,
    players first. *)
Definition _get_player_like_profile (d : db) (profile : option Z) (user : Z) : option Z :=
  match (k ← profile; r ← db_profiles d !! k; if bool_decide (up_role r ∈ ["player"; "coach"])%string then Some k else None) with
  | Some k => Some k
  | None =>
      let own := List.filter (λ kr, bool_decide (profile_user kr.1 = Some user)) (rows_by_id (db_profiles d)) in
      match head (List.filter (λ kr, String.eqb (up_role kr.2) "player") own) with
      | Some kr => Some kr.1
      | None => match head (List.filter (λ kr, String.eqb (up_role kr.2) "coach") own) with
                | Some kr => Some kr.1
                | None => fst <$> head own
                end
      end
  end.

(** [_resolve_age_category_for_player]: the first category of the competition, or its only one, with the birth date. *)
Definition _resolve_age_category_for_player (comp_id player : Z) : option Z :=
  match _parse_jalali_str jalali jdate_of (birth_date player) with
  | None => None
  | Some dob =>
      let r := rules comp_id in
      let ags := match pr_age_categories r with [] => option_list (pr_age_category r) | l => l end in
      head (List.filter (λ k, match ages !! k with Some cat => jwindow_contains jdate_of dob cat | None => false end) ags)
  end.

(** A division for the age, belt and style; a missing belt group is in none. *)
Definition division_exists (comp_id age : Z) (belt : option Z) (style : string) : bool :=
  existsb (λ v, (pd_competition v =? comp_id) && (pd_age_category v =? age) && bool_decide (Some (pd_belt_group v) = belt)
                && String.eqb (pd_style v) style) divisions.

Definition already_entered (d : db) (comp_id player : Z) (style : string) : bool :=
  existsb (λ ke, (pe_competition ke.2 =? comp_id) && bool_decide (pe_player ke.2 = Some player)
                 && String.eqb (pe_poomsae_type ke.2) style && negb (String.eqb (pe_status ke.2) "canceled"))
    (rows_by_id (db_poomsae_enrollments d)).

(** [validate], after the fields have been read. The start of the registration is a date and is compared with the
    time of the clock, a [TypeError] unless [force_open]. *)
Definition validate (force_open signed_in : bool) (d : db) (comp : option (Z * PoomsaeCompetition)) (profile : option Z) (user : Z)
    (f : poomsae_form) : checked accepted_entry :=
  match comp with
  | None => Refused "__all__"
  | Some (comp_id, comp) =>
      if negb force_open then Raised OtherError
      else
        check signed_in "__all__"
        match _get_player_like_profile d profile user with
        | None => Refused "__all__"
        | Some player =>
            match _to_greg_from_str_jalali jalali (pf_insurance_issue_date f) with
            | None => Refused "insurance_issue_date"
            | Some issue =>
                check (toordinal issue <=? competition_day comp - 3) "insurance_issue_date"
                (let coach_code := strip (pf_coach_code f) in
                 check (truthy_str coach_code) "coach_code"
                 match approved_by approvals comp_id coach_code with
                 | None => Refused "coach_code"
                 | Some appr =>
                     let belt := _find_belt_group_obj belt_groups comp_id (_player_belt_code_from_profile belt_grade player) in
                     check (bool_decide (length (belt_groups comp_id) = 0%nat) || negb (is_none belt)) "belt_group"
                     (check (truthy_str (strip (pf_insurance_number f))) "insurance_number"
                      match _resolve_age_category_for_player comp_id player with
                      | None => Refused "__all__"
                      | Some age =>
                          check (truthy_str (pf_poomsae_type f)) "poomsae_type"
                          (check (division_exists comp_id age belt (pf_poomsae_type f)) "__all__"
                           (check (negb (already_entered d comp_id player (pf_poomsae_type f))) "__all__"
                              (Passed (mkAcceptedEntry player appr belt age (toordinal issue)))))
                      end)
                 end)
            end
        end
  end.

(** [_extract_club_profile_and_name]: the name of the club, else the names the profile lists. *)
Definition _extract_club_profile_and_name (player : Z) (club : option (Z * TkdClub P)) : option Z * string :=
  let club_name := default ""%string ((λ c, cl_club_name c.2) <$> club) in
  (fst <$> club, if truthy_str club_name then club_name else String.concat "، " (List.filter truthy_str (club_names player))).

(** [create]: the entry has no reference of the bank, which its column does not take. The checks of the model let an
    empty value pass, then the row is refused. *)
Definition create (comp_id : Z) (comp : PoomsaeCompetition) (f : poomsae_form) (a : accepted_entry) : M db Z :=
  atomic (
    prof <~ fetch db_profiles (ae_player a) ;;
    coach <~ fetch db_profiles (pa_coach (ae_approval a)) ;;
    club <~ fetch_opt db_clubs (up_club prof) ;;
    board <~ fetch_opt db_boards (up_tkd_board prof) ;;
    if (0 <? pc_entry_fee comp) && (pc_entry_fee comp <? 10000) then raise ValidationError
    else
      let club_row := _extract_club_profile_and_name (ae_player a) club in
      _ <~ save_poomsae None (mkPoomsaeEnrollment comp_id (Some (ae_player a)) (Some (pa_coach (ae_approval a))) (full_name coach)
             (default "" (pa_code (ae_approval a))) club_row.1 club_row.2
             (fst <$> board) (default "" ((λ b, bo_name b.2) <$> board)) (ae_belt_group a) (Some (ae_age_category a))
             (pf_poomsae_type f) "single" (pf_insurance_number f) (ae_issue_date a) None "pending" false 0 "" None) ;;
      raise IntegrityError)%monad.

(** [is_valid] and [save]. *)
Definition register (force_open signed_in : bool) (comp : option (Z * PoomsaeCompetition)) (profile : option Z) (user : Z)
    (f : poomsae_form) : M db Z :=
  (d <~ get ;;
   match validate force_open signed_in d comp profile user f, comp with
   | Passed a, Some (comp_id, comp) => create comp_id comp f a
   | Raised e, _ => raise e
   | _, _ => raise ValidationError
   end)%monad.

(** ** Nothing is ever registered *)

Lemma create_fails comp_id comp f a (d : db) : ∃ e, create comp_id comp f a d = (Err e, d).
Proof.
  unfold create, atomic. match goal with |- context [match ?m d with _ => _ end] => destruct (m d) as [[k|e] d'] eqn:E end; [|by eexists].
  exfalso. apply bind_ok in E as (prof & d1 & _ & E). apply bind_ok in E as (coach & d2 & _ & E). apply bind_ok in E as (club & d3 & _ & E).
  apply bind_ok in E as (board & d4 & _ & E). destruct (_ && _); [done|]. by apply bind_ok in E as (k' & d5 & _ & E).
Qed.

(** The unused serializer registers nobody. Whatever the request, it ends in an error and leaves the tables as
    they are; a request that is not forced open always ends in the [TypeError] of a date compared with a time. *)
Theorem serializer_registers_nobody force_open signed_in comp profile user f (d : db) :
  ∃ e, register force_open signed_in comp profile user f d = (Err e, d) ∧
    (force_open = false → e = match comp with Some _ => OtherError | None => ValidationError end).
Proof.
  unfold register, bind, get. destruct (validate force_open signed_in d comp profile user f) as [key|e|a] eqn:Ev.
  - exists ValidationError. split; [by destruct comp|]. intros ->. destruct comp as [[]|]; [done|done].
  - exists e. split; [by destruct comp as [[]|]|]. intros ->. destruct comp as [[]|]; [by injection Ev|done].
  - destruct comp as [[comp_id comp]|]; [|done]. destruct (create_fails comp_id comp f a d) as [e He]. exists e.
    split; [done|]. intros ->. discriminate Ev.
Qed.

(** What passes [validate] is what the view that is used asks for, and a division besides. *)
Lemma validate_passed d comp_id comp profile user f a : validate true true d (Some (comp_id, comp)) profile user f = Passed a →
  _get_player_like_profile d profile user = Some (ae_player a) ∧
  approved_by approvals comp_id (strip (pf_coach_code f)) = Some (ae_approval a) ∧
  ae_issue_date a ≤ competition_day comp - 3 ∧
  division_exists comp_id (ae_age_category a) (ae_belt_group a) (pf_poomsae_type f) = true ∧
  is_Some (ae_belt_group a) ∧ already_entered d comp_id (ae_player a) (pf_poomsae_type f) = false.
Proof.
  unfold validate, check. cbn [negb]. destruct (_get_player_like_profile d profile user) as [pl|]; [|done].
  destruct (_to_greg_from_str_jalali _ _) as [issue|]; [|done]. destruct (Z.leb_spec (toordinal issue) (competition_day comp - 3)); [|done].
  cbv zeta. destruct (truthy_str (strip (pf_coach_code f))); [|done]. destruct (approved_by _ _ _) as [appr|] eqn:Ea; [|done].
  destruct (_ || _); [|done]. destruct (truthy_str _); [|done]. destruct (_resolve_age_category_for_player _ _) as [age|]; [|done].
  destruct (truthy_str _); [|done]. destruct (division_exists _ _ _ _) eqn:Ed; [|done]. destruct (already_entered _ _ _ _) eqn:Ee; [done|].
  intros [= <-]. cbn. split_and!; try done. unfold division_exists in Ed. apply existsb_exists in Ed as (v & _ & Hv).
  rewrite !andb_true_iff, bool_decide_eq_true in Hv. destruct Hv as [[_ <-] _]. by eexists.
Qed.
End serializer.

(** On the belts a profile can have, the model and the serializers see the same colours, so they find the same group. *)
Lemma belt_colours_agree b : b ∈ Reports.BELT_CHOICES → group_norm (replace "ك" "ک" (replace "ي" "ی" (lower (strip b)))) = _norm_belt b ∧ group_norm b = _norm_belt b.
Proof.
  assert (Hall : forallb (λ b, bool_decide (group_norm (replace "ك" "ک" (replace "ي" "ی" (lower (strip b)))) = _norm_belt b) &&
    bool_decide (group_norm b = _norm_belt b)) Reports.BELT_CHOICES = true) by (vm_compute; reflexivity).
  intros Hb. rewrite forallb_forall in Hall. specialize (Hall b (proj1 (list_elem_of_In _ _) Hb)).
  by rewrite andb_true_iff, !bool_decide_eq_true in Hall.
Qed.

Lemma belt_groups_agree (belt_groups : Z → list (Z * list string)) comp_id b : b ∈ Reports.BELT_CHOICES →
  (∀ g n, g ∈ belt_groups comp_id → n ∈ g.2 → n ∈ Reports.BELT_CHOICES) →
  resolve_belt_group_for (belt_groups comp_id) b = _find_belt_group_obj belt_groups comp_id (_norm_belt b).
Proof.
  intros Hb Hg. assert (Ht : truthy_str b = true).
  { assert (Hall : forallb truthy_str Reports.BELT_CHOICES = true) by (vm_compute; reflexivity).
    rewrite forallb_forall in Hall. by apply Hall, list_elem_of_In. }
  unfold resolve_belt_group_for, _find_belt_group_obj. rewrite Ht, (proj1 (belt_colours_agree b Hb)). cbn [negb].
  destruct (_norm_belt b) as [code|]; [|done]. f_equal. f_equal. revert Hg. induction (belt_groups comp_id) as [|g l IH]; intros Hg; [done|].
  cbn [List.filter]. rewrite IH by (intros g' n Hin; apply Hg; by right). assert (He : existsb (λ b0, bool_decide (group_norm b0 = Some code)) g.2 = existsb (λ b0, bool_decide (_norm_belt b0 = Some code)) g.2).
  { specialize (Hg g). induction (g.2) as [|n ns IHn]; [done|]. cbn. rewrite IHn by (intros m Hm Hin; apply Hg; [done|by right]).
    by rewrite (proj2 (belt_colours_agree n (Hg n ltac:(by left) ltac:(by left)))). }
  by rewrite He.
Qed.
