(* ===== verification/AccountForms.v ===== *)
(** What surrounds the forms of the accounts: the names of uploaded files ([accounts/utils/file_utils.py],
    [accounts/models.py]), the digits and odd values of requests ([accounts/serializers.py]), and the lists of the
    admin with their way of deleting rows ([accounts/admin.py]).

    The deletion of a row by the database is an argument: it ends well, is refused because other rows are protected,
    or fails, and leaves the tables as they were unless it ends well. *)

From Stdlib Require Import Ascii.
From stdpp Require Import pretty.
From S2P Require Import Prelude Store Ranking Payments GroupRegistration Text Accounts SmsCodes AdminForms.
Local Open Scope Z_scope.

(** ** Names of uploaded files *)

Definition name_char (c : ascii) : bool := is_alnum c || is_dash c || Ascii.eqb c ".".

(** [re.sub(r"[^A-Za-z0-9_.-]+", "_", s)]: a run of other characters becomes one underscore. *)
Fixpoint underscored (inside : bool) (s : string) : string :=
  match s with
  | EmptyString => EmptyString
  | String c s => if name_char c then String c (underscored false s) else if inside then underscored true s else String "_" (underscored true s)
  end.

(** [s.strip("._")] *)
Definition edge_char (c : ascii) : bool := Ascii.eqb c "." || Ascii.eqb c "_".
Fixpoint lstrip_edges (s : string) : string :=
  match s with String c s' => if edge_char c then lstrip_edges s' else s | EmptyString => s end.
Fixpoint rstrip_edges (s : string) : string :=
  match s with
  | EmptyString => EmptyString
  | String c s => let r := rstrip_edges s in if String.eqb r "" && edge_char c then EmptyString else String c r
  end.

Section filenames.
(** [unicodedata.normalize("NFKD", s)] and [uuid.uuid4().hex] *)
Context (nfkd : string → string) (fresh_hex : string).

Definition clean_base (base : string) : string :=
  or_str (rstrip_edges (lstrip_edges (underscored false (ascii_only (nfkd base))))) fresh_hex.

Definition clean_filename (filename : string) : string :=
  let '(base, ext) := path_splitext filename in (clean_base base ++ ext)%string.

Definition club_license_upload (filename : string) : string := ("club_licenses/" ++ clean_filename filename)%string.
Definition pending_photo_upload (filename : string) : string := ("pending_photos/" ++ clean_filename filename)%string.
Definition player_photo_upload (filename : string) : string := ("player_photos/" ++ clean_filename filename)%string.

(** [_clean_files]: the files of some fields. *)
Definition _clean_files (FILE_FIELDS : list string) (files : list (string * string)) : list (string * string) :=
  (λ nf, if bool_decide (nf.1 ∈ FILE_FIELDS) && truthy_str nf.2 then (nf.1, clean_filename nf.2) else nf) <$> files.
End filenames.

(** ** What a request says *)

(** [NormalizeDigitsMixin.to_internal_value]. *)
Definition digits_to_internal (DIGIT_FIELDS : list string) (data : list (string * json)) : list (string * json) :=
  (λ kv, match kv.2 with JStr s => if bool_decide (kv.1 ∈ DIGIT_FIELDS) then (kv.1, JStr (normalize_digits s)) else kv | _ => kv end) <$> data.

(** [data[key] = v], in the place of the key if it is there. *)
Definition with_value (data : list (string * json)) (key : string) (v : json) : list (string * json) :=
  if is_none (dict_get data key) then (data ++ [(key, v)])%list
  else (λ kv, if String.eqb kv.1 key then (key, v) else kv) <$> data.

(** [PendingEditProfileSerializer]: a photo that is only a word for nothing is left out, and a list of clubs may be
    sent as JSON. *)
Definition _is_junk_str (v : string) : bool := bool_decide (lower (strip v) ∈ [""; "null"; "none"; "undefined"])%string.

Definition edit_to_internal (loads : string → option json) (data : list (string * json)) : list (string * json) :=
  let data := match dict_get data "profile_image" with
              | Some (JStr v) => if _is_junk_str v then List.filter (λ kv, negb (String.eqb kv.1 "profile_image")) data else data
              | _ => data end in
  match dict_get data "club_names" with
  | Some (JStr cn) => match loads cn with Some (JList l) => with_value data "club_names" (JList l) | _ => data end
  | _ => data
  end.

(** [update]: no photo keeps the old one. *)
Definition edit_update (validated : list (string * json)) : list (string * json) :=
  match dict_get validated "profile_image" with
  | Some JNull => List.filter (λ kv, negb (String.eqb kv.1 "profile_image")) validated
  | _ => validated
  end.

(** [VerifyLoginCodeSerializer]. *)
Definition verify_login_serializer (phone code role : option string) : option (string * string * string) :=
  match phone, code, role with
  | Some phone, Some code, Some role =>
      let phone := normalize_digits (strip (normalize_digits phone)) in
      let code := normalize_digits (strip (normalize_digits code)) in
      if valid_phone phone && (py_len code =? 4) && isdigit code && bool_decide (role ∈ PHONE_ROLES)
      then Some (phone, code, role) else None
  | _, _, _ => None
  end.

(** ** Deletion in the admin *)

(** [SafeDeleteAdminMixin.get_actions]. *)
Definition safe_actions (actions : list string) : list string := List.filter (λ k, negb (contains "delete" (lower k))) actions.

Definition _changelist_url (app_label model_name : string) : string := ("/admin/" ++ app_label ++ "/" ++ model_name ++ "/")%string.

Inductive deletion := Deleted | ProtectedRow | FailedDeletion.
Inductive delete_answer := BackToList (said : option deletion) | ConfirmPage | NotAllowed.

Section deletion.
Context {S : Type} (obj_delete : Z → S → deletion * S) (in_list : S → Z → bool).
Context (obj_delete_fails : ∀ k s, (obj_delete k s).1 ≠ Deleted → (obj_delete k s).2 = s).

(** [SafeDeleteAdminMixin.delete_view], for a member of the staff: the post deletes the row of the list; the rest is the
    framework's, which asks whether the user may delete. *)
Definition safe_delete_view (post : bool) (may_delete : bool) (object_id : option Z) (s : S) : delete_answer * S :=
  if post then
    match object_id with
    | Some k => if in_list s k then let '(r, s') := obj_delete k s in (BackToList (Some r), s') else (BackToList None, s)
    | None => (BackToList None, s)
    end
  else if may_delete then (ConfirmPage, s) else (NotAllowed, s).

(** [safe_delete_selected]: all or none, one transaction. *)
Fixpoint delete_each (ks : list Z) (s : S) : bool * S :=
  match ks with
  | [] => (true, s)
  | k :: ks => match obj_delete k s with (Deleted, s) => delete_each ks s | (_, s) => (false, s) end
  end.
Definition safe_delete_selected (ks : list Z) (s : S) : bool * S :=
  let '(ok, s') := delete_each ks s in if ok then (true, s') else (false, s).

(** Deleting in the lists is safe but not guarded. Nothing changes unless the page says that the row is deleted;
    the selection goes as a whole or not at all; but the post of the page does not look whether the user may delete. *)
Theorem safe_deletion post may_delete may_delete' object_id ks s :
  ((safe_delete_view post may_delete object_id s).1 ≠ BackToList (Some Deleted) → (safe_delete_view post may_delete object_id s).2 = s) ∧
  ((safe_delete_selected ks s).1 = false → (safe_delete_selected ks s).2 = s) ∧
  (post = true → safe_delete_view post may_delete object_id s = safe_delete_view post may_delete' object_id s).
Proof.
  unfold safe_delete_view, safe_delete_selected. split; [|split].
  - destruct post; [|by destruct may_delete]. destruct object_id as [k|]; [|done]. destruct (in_list s k); [|done].
    pose proof (obj_delete_fails k s) as Hf. destruct (obj_delete k s) as [r s']. cbn in *. intros Hr. apply Hf. intros ->. by apply Hr.
  - destruct (delete_each ks s) as [[] s']; [done|done].
  - by intros ->.
Qed.
End deletion.

(** ** The lists of approved users *)

Inductive approved_kind := ApprovedCoach | ApprovedReferee | ApprovedPlayer.

Definition approved_rows (kind : approved_kind) (s : accounts) : list (Z * Profile) :=
  List.filter (λ kp, let p := pf_person kp.2 in
    match kind with ApprovedCoach => pe_is_coach p | ApprovedReferee => pe_is_referee p | ApprovedPlayer => String.eqb (pe_role p) "player" end)
    (rows_by_id (ac_profiles s)).

(** [coach_display]: the name of the coach, the name that was written, or a dash. *)
Definition coach_display (s : accounts) (p : Person) : string :=
  match pe_coach p ≫= (ac_profiles s !!.) with
  | Some c => or_str (or_str (strip (pe_first_name (pf_person c) ++ " " ++ pe_last_name (pf_person c))%string) (pe_coach_name p)) "-"
  | None => or_str (pe_coach_name p) "-"
  end.

(** The columns of the applications of clubs. *)
Definition or_hyphen (s : string) : string := or_str s "-".
Definition display_club_name (c : ClubData) : string := or_hyphen (cd_club_name c).
Definition display_founder_name (c : ClubData) : string := or_hyphen (cd_founder_name c).
Definition display_founder_phone (phone : string) (c : ClubData) : string := or_hyphen (or_str (cd_founder_phone c) phone).

(** [_resolve_original_profile]: the profile of an edit. Its column points at profiles, so the other cases are for
    another schema. *)
Definition _resolve_original_profile (s : accounts) (e : PendingEditProfile) : option (Z * Profile) :=
  (λ p, (ed_original_user e, p)) <$> ac_profiles s !! ed_original_user e.

(** ** Lemmas *)

Definition clean_char (c : ascii) : bool := name_char c.

Lemma underscored_chars b s : all_chars clean_char (underscored b s) = true.
Proof.
  revert b. induction s as [|c s IH]; intros b; [done|]. cbn. destruct (name_char c) eqn:E; [cbn; unfold clean_char at 1; by rewrite E, IH|].
  destruct b; [apply IH|]. cbn. by rewrite IH.
Qed.
Lemma lstrip_edges_chars p s : all_chars p s = true → all_chars p (lstrip_edges s) = true.
Proof. induction s as [|c s IH]; cbn; [done|]. rewrite andb_true_iff. intros [Hc Hs]. destruct (edge_char c); [by apply IH|]. cbn. by rewrite Hc, Hs. Qed.
Lemma rstrip_edges_chars p s : all_chars p s = true → all_chars p (rstrip_edges s) = true.
Proof.
  induction s as [|c s IH]; cbn; [done|]. rewrite andb_true_iff. intros [Hc Hs].
  destruct (String.eqb (rstrip_edges s) "" && edge_char c); [done|]. cbn. by rewrite Hc, IH.
Qed.

(** Whatever is uploaded, the part of the name before the extension is not empty and of plain characters; the folder
    is the column's. *)
Lemma cleaned_names nfkd hex filename : all_chars clean_char hex = true → hex ≠ ""%string →
  let '(base, ext) := path_splitext filename in
  ∃ safe, clean_filename nfkd hex filename = (safe ++ ext)%string ∧ all_chars clean_char safe = true ∧ safe ≠ ""%string.
Proof.
  intros Hhex Hne. destruct (path_splitext filename) as [base ext] eqn:E. exists (clean_base nfkd hex base). unfold clean_filename. rewrite E.
  split; [done|]. unfold clean_base, or_str. destruct (truthy_str _) eqn:Et; [|done].
  split; [apply rstrip_edges_chars, lstrip_edges_chars, underscored_chars|]. intros Heq. by rewrite Heq in Et.
Qed.

(** The actions that remain delete nothing by their name. *)
Lemma safe_actions_spec actions k : k ∈ safe_actions actions → k ∈ actions ∧ contains "delete" (lower k) = false.
Proof. unfold safe_actions. intros [Hk Hd]%elem_of_filter_list. by apply negb_true_iff in Hd. Qed.

(** Codes that log in are those of the page of codes, with a role. *)
Lemma verify_login_is_verify phone code role t : verify_login_serializer phone code role = Some t →
  verify_serializer phone code = Some (t.1.1, t.1.2) ∧ t.2 ∈ PHONE_ROLES.
Proof.
  unfold verify_login_serializer, verify_serializer. destruct phone as [p|], code as [c|], role as [r|]; try discriminate. cbv zeta.
  generalize (normalize_digits (strip (normalize_digits p))) (normalize_digits (strip (normalize_digits c))). intros ph co. unfold valid_phone.
  destruct (isdigit ph); [|discriminate]. destruct (String.prefix "09" ph); [|discriminate]. destruct (py_len ph =? 11); [|discriminate].
  cbn [andb]. destruct (py_len co =? 4); [|discriminate]. destruct (isdigit co); [|discriminate]. cbn [andb].
  case_bool_decide as Hr; [|discriminate]. intros [= <-]. split; [reflexivity|exact Hr].
Qed.

(** A table of keys where one row is protected, for the witness. *)
Definition sample_delete (k : Z) (s : list Z) : deletion * list Z :=
  if k =? 7 then (ProtectedRow, s) else if bool_decide (k ∈ s) then (Deleted, List.filter (λ i, negb (i =? k)) s) else (FailedDeletion, s).

Lemma sample_delete_fails k s : (sample_delete k s).1 ≠ Deleted → (sample_delete k s).2 = s.
Proof. unfold sample_delete. destruct (k =? 7); [done|]. by case_bool_decide. Qed.

Lemma safe_deletion_witness : safe_delete_selected sample_delete [3; 7] [3; 5; 7] = (false, [3; 5; 7]).
Proof.
  pose proof (safe_deletion sample_delete (λ s k, bool_decide (k ∈ s)) sample_delete_fails true false true (Some 3) [3; 7] [3; 5; 7]) as (_ & H & _).
  destruct (safe_delete_selected sample_delete [3; 7] [3; 5; 7]) as [b s'] eqn:E.
  assert (Hb : b = false) by (injection E as <- _; reflexivity). cbn in H. rewrite (H Hb), Hb. reflexivity.
Defined.
